(* ===== verification/_CoqProject ===== *)
-Q . S2P
Prelude.v
GoStd.v
Strings.v
GoFlag.v
Url.v
Json.v
Utf8.v
Protocol.v
Gorm.v
Models.v
Workers.v
Queue.v
BackendUrl.v
Roles.v
Gateway.v
Latency.v
Durations.v
Http.v
WorkerApi.v
Units.v
Completions.v
Batches.v
GpuMonitor.v
Probers.v
Backend.v
ClientState.v
Worker.v
Connection.v
AdminAuth.v
Cache.v
Cluster.v
Patch.v
Files.v
ModelFiles.v
S3Store.v
Downloads.v
Disk.v
Autostart.v
Identity.v
ClientConfig.v
Updater.v
WorkerLoop.v
ClientMain.v
ManagerConfig.v
Routes.v
AdminApi.v
AdminServer.v
Startup.v
ClientServer.v
ErrorReports.v
DashboardServer.v
Tray.v
