(* ===== verification/Prelude.v ===== *)
(** * Synergia: a verification library of the distributed inference cluster

    ** The program

    Synergia is a cluster that runs language models on volunteered machines.
    The manager (src/cmd/synergia-manager, src/internal/manager) accepts
    OpenAI-style completions, keeps the workers in a database and talks to each
    connected worker over a WebSocket. The client (src/cmd/synergia-client,
    src/internal/client) runs a llama-server, watches the graphics card so as
    to stay out of its owner's way, and processes work units. Both sides share
    the messages of src/internal/protocol.

    The parts meet as follows. An HTTP handler creates a pending unit in the
    dispatch queue and asks the gateway for a worker; the gateway writes the
    unit on the connection of a synced, available worker that has given its
    consent; the client's read loop hands it to the worker, which asks the
    llama-server and sends the result back; the gateway's read loop resolves
    the pending unit, and the handler that waits for it answers. The admin API
    changes target versions and role models, and announces them to the
    connected workers; these download, verify and restart, and report what
    they run.

    ** How the code is represented

    Code that changes state is a computation in [GoM S], a function from a
    state [S] to a new state and an outcome: a return value, a panic, or
    [Blocked], a goroutine parked for ever on a channel. Handlers are
    translated statement by statement, early returns included. Integers are
    [Z]; arithmetic that can wrap is written with its wrap-around. Strings are
    byte strings. Instants and durations are integers in nanoseconds.

    What runs at the same time is cut where the program gives up control: a
    handler that waits on a channel is two computations, one up to the
    [select] and one for each branch taken, between which any other operation
    may run. What the program does not decide is an argument: the clock,
    random tokens, the order in which Go visits a map ([map_order]), the answers of the
    network, of the llama-server and of the probes.

    Code outside the repository is a class, with its documented behaviour as a
    second class of laws where the program relies on it, and an instance that
    satisfies the laws for the witnesses:
    - [Gorm], [GormLaws]: the SQL statements of the database layer, each of
      which may fail; [GormUp]: no statement fails. Instance: [MemGorm];
    - [Crypto], [CryptoLaws]: SHA-256, Ed25519. Instance: [ToyCrypto];
    - [WebSocket], [ClientSocket]: whether a write succeeds;
    - [Os]: network, archives and processes of the client's backend manager;
    - [FileOs]: whether a file operation succeeds;
    - [JsonText], [TimeText]: the text grammar of JSON and of RFC 3339 times;
    - [OidcProvider]: the OAuth2 client and the ID-token verifier;
    - [Keystore], [KeystoreLaws]: Argon2id, AES-GCM and PEM;
    - [Yaml], [YamlLaws]: the text of the client's state file;
    - [DiskOs], [MkdirOs], [RemoveOs], [UpdaterOs]: which steps of the file
      system succeed, and what the platform answers the updater;
    - [Tools], [FloatText]: the commands the probers run, and the text of
      floating-point numbers;
    - [S3], [S3Up]: the client library of the object store; it is up;
    - [Session]: the commands that register the client with a session;
    - [Zerolog]: which names are log levels; [Platform]: the file system and the
      session of the client's dashboard.
    [ModelStore] with [ModelStoreLaws] is an interface of the program itself
    (the Go interface models.Store): the downloads are proved against it, and
    both [FilesystemStore] and [S3Store] implement it.

    ** The files, in dependency order

    Foundations
    - Prelude: outcomes, the monad, [keeps] (every run relates the states it
      starts and ends in), [wp], [returns], and their tactics and hint databases.
    - GoStd, Strings: strings, hexadecimal, base64, decimal numbers, integer
      division; splitting and trimming.
    - GoFlag, Url, Durations: flag.Parse, url.Parse and time.ParseDuration, as
      far as the program's configuration reaches into them.
    - Json: encoding/json on parsed documents, struct decoding; Utf8: what it
      makes of a string that is not Unicode.
    - Http: requests, responses, authentication by key.
    - Files: path/filepath, and a file system of regular files.
    - Disk: the same with steps that fail, and a record of the states another
      process, or one that starts after this one is killed, can find: a write is
      taken in any number of pieces, a rename is one step only where the platform
      makes it one ([atomic_rename]).

    The protocol and the store
    - Protocol (internal/protocol): all messages; [messages_round_trip].
    - Gorm, Models (store/models.go): tables, lenses, statements.
    - Workers, Roles, Units, Latency, Batches (store/store.go, oidc.go,
      settings.go, workers_config.go): the operations of the store by table.
      [sync_status_spec] refines the status reported to a worker to the
      comparison with its role's model; [fingerprints_stay_unique] and
      [single_rows] are invariants of all operations.
    - Latency also holds internal/manager/latency: the percentiles are
      quantiles, each sample is counted once in the matrix.

    The manager
    - Queue (manager/queue): pending units as heap cells with buffered channels.
    - BackendUrl (manager/backend): the placeholders of download URLs.
    - Gateway (manager/gateway): the handshake, the registry of connections,
      the read loop, [Dispatch] and the pushes. Its theorems: no work without
      consent, keys are challenged, the registry agrees with the open
      connections, withdrawal is respected by every message.
    - WorkerApi (manager/api/consent.go, goodbye.go, errors.go).
    - Completions (manager/api/completions.go): admission, the wait, the
      answer; an accepted request is answered exactly once.
    - Batches (manager/api/batch.go): the batch queue and its processor.
    - Cluster (manager/api/roles.go, synergia.go, community.go): the views of
      the cluster for workers, services and the public.
    - AdminAuth (manager/admin/auth): logins and sessions.
    - Cache (manager/cache): release tags and dashboard statistics.
    - ModelFiles (manager/models, manager/api/models_download.go): the model
      store, the downloads started at most once per file if role files have
      plain names, the start-up pass.
    - S3Store (manager/models): the same interface over a bucket.
    - Patch, Downloads (manager/api/download.go, version.go, backend.go): the
      patched client binaries with their code signature, the release proxy, the
      cache of llama-server archives.
    - ManagerConfig (manager/config): every check and default of a start.
    - Routes (manager/acme, the routing of net/http): which handler a path
      reaches, with the ACME passthrough.
    - AdminApi (manager/admin/api): all admin handlers on one world; what they
      store stays well formed, and a restart reads what the live server runs.
    - AdminServer (manager/admin/server): routes, guards, pages, dashboard data
      and log streams; visitors without a session reach the login only.
    - Startup (cmd/synergia-manager): cache purge, seeding of roles, the keys
      each service gets, the routes of the two public listeners.

    The client
    - GpuMonitor (client/gpu): the contention state machine.
    - Probers (client/gpu/linux, windows, darwin, client/hwinfo): reading the
      output of the platform's tools.
    - Backend (client/backend): updating and running the llama-server on a
      file system with symbolic links; updates are confined to the directory.
    - ClientState (client/state, client/status, internal/logbuffer,
      client/errorreporter): snapshot, status, log ring, error dedup.
    - Worker (client/worker, client/llm): processing a unit, retries, and the
      application of model and backend updates.
    - Connection (client/connection): the client's half of the handshake, its
      read loop, and the two programs together.
    - Identity (client/identity): the sealed key pair and its files.
    - ClientConfig (client/config, client/workerstate): flags, environment,
      setup file and saved state, in their order of precedence.
    - Updater (client/updater, cmd/synergia-updater): download, verification and
      replacement of the running program, step by step on a disk; if renames are
      atomic and the process is killed at any step, a complete copy of the
      program is there.
    - WorkerLoop (client/worker, Run): the select loop interleaved with the
      goroutines of model downloads and their cancellation; a unit taken
      from the channel is answered at most once, and once if nothing fails.
    - ClientMain (cmd/synergia-client, client/probe): what a start restores and
      decides, its callbacks and probes; a restarted worker is let in, unless a
      first message gets ahead of its answer to the challenge, and is still
      synced.
    - Autostart (client/autostart): the registration with the session of each
      platform.
    - ClientServer (client/consent, client/workerconfig, client/server): the
      dashboard on the worker's machine, its settings on their way to the
      manager, and the uninstallation with its registration.
    - DashboardServer (client/server, Run): the routes of the dashboard and
      what its streams deliver.
    - ErrorReports (client/errorreporter, manager/api/errors.go): reports in
      flight between the client and the manager, sent in any order over a
      network that may lose them.
    - Tray (client/tray, client/browser, main.go): the icon, and the menu whose
      clicks travel to the process.

    ** Bounds and fuel

    - [ExpandURL] replaces placeholders until none is left and loops for ever
      on a replacement that contains its own placeholder, so it takes fuel.
      [ExpandURL_fills] shows that fuel of the template's length is enough
      for every value that has no opening brace; the admin API takes the fuel
      as the argument [url_fuel].
    - Following symbolic links stops after [max_links] = 40 steps, the bound
      of the operating system, with an error.
    - [Blocked] is only reached by sends on full channels and by branches of a
      [select] that are not ready; [returns] lemmas and the theorems about whole
      handlers show where it is not reached.
    - Loops over lists are structural; the retry loops of the client are bounded
      by the program itself.

    ** Not modelled

    - Logger set-up and the contents of log lines and log files; the database
      file and the migration of its schema: done by libraries.
    - Power cuts: no file is synced before it is renamed, so after one a renamed
      file may be empty; the theorems about interrupted writes are about a process
      that is killed while the system goes on.
    - The partial content of a model file while the client downloads it: an
      attempt is one step, and only what it leaves behind is on the disk.
    - TLS, certificates and listeners: calls to net/http and autocert. The
      routes of each listener are modelled.
    - The HTML of the pages and the format of zip archives.
    - The systray library, the icons and the process flag that hides a window.
    - The end-to-end test harness (src/test).
    - The goroutines that tick: they are the sequences of operations the
      theorems quantify over. *)

From stdpp Require Export base tactics list strings gmap pretty sorting numbers.
From Stdlib Require Export ZArith Lia ZifyNat.
From Stdlib Require Ascii String.
Export (notations) Stdlib.Strings.Ascii.

#[export] Set Default Goal Selector "!".

(** ** Notations that read like the Go conditions *)

Declare Scope go_scope.
Delimit Scope go_scope with go.
Notation "a == b" := (bool_decide (a = b)) (at level 70, no associativity) : go_scope.
Notation "a != b" := (negb (bool_decide (a = b))) (at level 70, no associativity) : go_scope.
Open Scope go_scope.
Open Scope string_scope.
Open Scope list_scope.

(** ** Outcomes of Go code and the state monad the handlers are written in

    [Ret] is a normal return, [Panic] a run-time panic (an out-of-range slice
    expression for instance) and [Blocked] a goroutine parked for ever on a
    channel operation. Effects made before a panic are kept, so the state is
    returned next to the outcome. *)

Inductive res (A : Type) : Type :=
  | Ret (a : A)
  | Panic (msg : string)
  | Blocked.
Arguments Ret {A} _.
Arguments Panic {A} _.
Arguments Blocked {A}.

Definition GoM (S A : Type) : Type := S -> S * res A.

#[export] Instance GoM_ret S : MRet (GoM S) := fun A a s => (s, Ret a).
#[export] Instance GoM_bind S : MBind (GoM S) := fun A B k m s =>
  match m s with
  | (s', Ret a) => k a s'
  | (s', Panic e) => (s', Panic e)
  | (s', Blocked) => (s', Blocked)
  end.
#[export] Instance GoM_fmap S : FMap (GoM S) := fun A B f m => m ≫= (fun a => mret (f a)).

Section GoM.
Context {S : Type}.

Definition gets {A} (f : S -> A) : GoM S A := fun s => (s, Ret (f s)).
Definition modify (f : S -> S) : GoM S unit := fun s => (f s, Ret tt).
Definition panic {A} (msg : string) : GoM S A := fun s => (s, Panic msg).
Definition block {A} : GoM S A := fun s => (s, Blocked).
Definition skip : GoM S unit := mret tt.
Definition when (b : bool) (m : GoM S unit) : GoM S unit := if b then m else skip.

(** [for _, x := range l { body(x) }] *)
Fixpoint foreach {A} (l : list A) (body : A -> GoM S unit) : GoM S unit :=
  match l with
  | [] => skip
  | x :: l' => body x ;; foreach l' body
  end.

Definition run {A} (m : GoM S A) (s : S) : S := fst (m s).
Definition result {A} (m : GoM S A) (s : S) : res A := snd (m s).
End GoM.

(** A computation on a component of a larger state. *)
Definition zoom {S T A} (get : S -> T) (set : T -> S -> S) (m : GoM T A) : GoM S A :=
  fun s => let '(t, r) := m (get s) in (set t s, r).

(** ** Relational reasoning

    [keeps R m]: every run of [m], whatever its outcome, relates the initial
    to the final state by [R]. With [R] a preorder the property composes, so
    the proof of an invariant or a frame condition follows the code. *)

Section keeps.
Context {S : Type} (R : S -> S -> Prop) `{!PreOrder R}.

Definition keeps {A} (m : GoM S A) : Prop := forall s, R s (run m s).

Lemma keeps_ret {A} (a : A) : keeps (mret a).
Proof. intros s. reflexivity. Qed.

Lemma keeps_gets {A} (f : S -> A) : keeps (gets f).
Proof. intros s. reflexivity. Qed.

Lemma keeps_panic {A} msg : keeps (panic (A := A) msg).
Proof. intros s. reflexivity. Qed.

Lemma keeps_block {A} : keeps (block (A := A)).
Proof. intros s. reflexivity. Qed.

Lemma keeps_modify f : (forall s, R s (f s)) -> keeps (modify f).
Proof. intros H s. apply H. Qed.

Lemma keeps_bind {A B} (m : GoM S A) (k : A -> GoM S B) :
  keeps m -> (forall a, keeps (k a)) -> keeps (m ≫= k).
Proof.
  intros Hm Hk s. specialize (Hm s). unfold run, mbind, GoM_bind in *.
  destruct (m s) as [s' [a|e|]]; simpl in *; try done.
  etrans; [done|apply Hk].
Qed.

Lemma keeps_when b m : keeps m -> keeps (when b m).
Proof. intros H s. destruct b; [apply H|reflexivity]. Qed.

Lemma keeps_if {A} (b : bool) (m1 m2 : GoM S A) :
  keeps m1 -> keeps m2 -> keeps (if b then m1 else m2).
Proof. by destruct b. Qed.

Lemma keeps_foreach {A} (l : list A) body :
  (forall x, keeps (body x)) -> keeps (foreach l body).
Proof.
  intros H. induction l as [|x l IH]; simpl; [apply keeps_ret|].
  apply keeps_bind; auto.
Qed.
End keeps.

Lemma keeps_zoom {S T A} (R : S -> S -> Prop) (Q : T -> T -> Prop) get set (m : GoM T A) :
  (forall s t, Q (get s) t -> R s (set t s)) ->
  keeps Q m -> keeps R (zoom get set m).
Proof.
  intros Hset Hm s. unfold run, zoom. specialize (Hm (get s)). unfold run in Hm.
  destruct (m (get s)). by apply Hset.
Qed.

Create HintDb keeps.
#[export] Hint Resolve keeps_ret keeps_gets keeps_panic keeps_block keeps_bind keeps_when
  keeps_if keeps_foreach keeps_zoom : keeps.

(** Follows the code of a computation, splitting its binds and branches; the
    leaves are the statements the [keeps] database knows. *)
Ltac keeps_step :=
  match goal with
  | |- keeps _ (mbind _ _) => apply keeps_bind; [apply _| |intros ?]
  | |- keeps _ (mret _) => apply keeps_ret, _
  | |- keeps _ (skip) => apply keeps_ret, _
  | |- keeps _ (gets _) => apply keeps_gets, _
  | |- keeps _ (panic _) => apply keeps_panic, _
  | |- keeps _ block => apply keeps_block, _
  | |- keeps _ (when _ _) => apply keeps_when; [apply _|]
  | |- keeps _ (foreach _ _) => apply keeps_foreach; [apply _|intros ?]
  | |- keeps _ (let _ := _ in _) => cbv zeta
  | |- keeps _ (if ?b then _ else _) => destruct b
  | |- keeps _ (match ?x with _ => _ end) => destruct x
  | |- keeps _ _ => solve [eauto with keeps]
  end.
Ltac keeps_tac := repeat keeps_step.

(** [bind_ret]: unfold a bind whose first computation is known. *)
Lemma bind_Ret {S A B} (m : GoM S A) (k : A -> GoM S B) s s' a :
  m s = (s', Ret a) -> (m ≫= k) s = k a s'.
Proof. intros H. unfold mbind, GoM_bind. by rewrite H. Qed.

Lemma foreach_app_Ret {S A} (l l' : list A) (body : A -> GoM S unit) s : forall s',
  foreach l body s = (s', Ret tt) -> foreach (l ++ l') body s = foreach l' body s'.
Proof.
  revert s. induction l as [|x l IH]; intros s s'; [by intros [= ->]|].
  cbn [foreach app]. unfold mbind, GoM_bind. destruct (body x s) as [s1 [[]|e|]]; [apply IH|done..].
Qed.

Lemma bind_Panic {S A B} (m : GoM S A) (k : A -> GoM S B) s s' e :
  m s = (s', Panic e) -> (m ≫= k) s = (s', Panic e).
Proof. intros H. unfold mbind, GoM_bind. by rewrite H. Qed.

Lemma bind_inv {S A B} (m : GoM S A) (k : A -> GoM S B) s s'' b :
  (m ≫= k) s = (s'', Ret b) -> exists s' a, m s = (s', Ret a) /\ k a s' = (s'', Ret b).
Proof.
  unfold mbind, GoM_bind. destruct (m s) as [s' [a|e|]]; intros H; try done. by exists s', a.
Qed.

(** Dropping the result keeps the effects. *)
Lemma run_skip {S A} (m : GoM S A) s : run (m ;; skip) s = run m s.
Proof. unfold run, mbind, GoM_bind. by destruct (m s) as [s' []]. Qed.

(** ** Weakest preconditions

    [wp m Q s]: the run of [m] from [s] ends in a state and an outcome that
    satisfy [Q]. *)
Definition wp {S A} (m : GoM S A) (Q : S -> res A -> Prop) (s : S) : Prop := Q (run m s) (result m s).

Lemma wp_bind {S A B} (m : GoM S A) (k : A -> GoM S B) Q s :
  wp m (fun s' r => match r with
                    | Ret a => wp (k a) Q s'
                    | Panic e => Q s' (Panic e)
                    | Blocked => Q s' Blocked
                    end) s ->
  wp (m ≫= k) Q s.
Proof. unfold wp, run, result, mbind, GoM_bind. by destruct (m s) as [s' [a|e|]]. Qed.

Lemma wp_ret {S A} (a : A) (Q : S -> res A -> Prop) s : Q s (Ret a) -> wp (mret a) Q s.
Proof. done. Qed.
Lemma wp_gets {S A} (f : S -> A) (Q : S -> res A -> Prop) s : Q s (Ret (f s)) -> wp (gets f) Q s.
Proof. done. Qed.
Lemma wp_modify {S} (f : S -> S) (Q : S -> res unit -> Prop) s : Q (f s) (Ret tt) -> wp (modify f) Q s.
Proof. done. Qed.
Lemma wp_mono {S A} (m : GoM S A) (P Q : S -> res A -> Prop) s :
  wp m P s -> (forall s' r, P s' r -> Q s' r) -> wp m Q s.
Proof. unfold wp. eauto. Qed.

Lemma wp_eq {S A} (m : GoM S A) (Q : S -> res A -> Prop) s s' r : m s = (s', r) -> Q s' r -> wp m Q s.
Proof. unfold wp, run, result. by intros ->. Qed.

(** A computation known only by what it keeps. *)
Lemma wp_keeps {S A} (R : S -> S -> Prop) (m : GoM S A) (Q : S -> res A -> Prop) s :
  keeps R m -> (forall s' r, R s s' -> Q s' r) -> wp m Q s.
Proof. intros Hm HQ. apply HQ, Hm. Qed.

(** ** Computations that always return

    [returns m]: from every state [m] ends in a normal return; it neither
    panics nor hangs. *)
Definition returns {S A} (m : GoM S A) : Prop := forall s, exists a, result m s = Ret a.

Lemma returns_ret {S A} (a : A) : returns (S := S) (mret a).
Proof. by exists a. Qed.
Lemma returns_gets {S A} (f : S -> A) : returns (gets f).
Proof. intros s. by exists (f s). Qed.
Lemma returns_modify {S} (f : S -> S) : returns (modify f).
Proof. by exists tt. Qed.
Lemma returns_bind {S A B} (m : GoM S A) (k : A -> GoM S B) :
  returns m -> (forall a, returns (k a)) -> returns (m ≫= k).
Proof.
  intros Hm Hk s. destruct (Hm s) as [a Ha]. unfold result, mbind, GoM_bind in *.
  destruct (m s) as [s' r]. cbn in Ha. subst r. apply Hk.
Qed.
Lemma returns_when {S} b (m : GoM S unit) : returns m -> returns (when b m).
Proof. destruct b; [done|]. intros _. apply returns_ret. Qed.
Lemma returns_foreach {S A} (l : list A) (body : A -> GoM S unit) :
  (forall x, returns (body x)) -> returns (foreach l body).
Proof.
  intros H. induction l as [|x l IH]; cbn [foreach]; [apply returns_ret|].
  apply returns_bind; auto.
Qed.

Create HintDb returns.
#[export] Hint Resolve returns_ret returns_gets returns_modify : returns.
Ltac returns_step :=
  match goal with
  | |- returns (mbind _ _) => apply returns_bind; [|intros ?]
  | |- returns (mret _) => apply returns_ret
  | |- returns (skip) => apply returns_ret
  | |- returns (when _ _) => apply returns_when
  | |- returns (foreach _ _) => apply returns_foreach; intros ?
  | |- returns (let _ := _ in _) => cbv zeta
  | |- returns (if ?b then _ else _) => destruct b
  | |- returns (match ?x with _ => _ end) => destruct x
  | |- returns _ => solve [eauto with returns]
  end.
Ltac returns_tac := repeat returns_step.

(** What is known of a computation that returns and keeps a relation. *)
Lemma wp_returns {S A} (R : S -> S -> Prop) (m : GoM S A) (Q : S -> res A -> Prop) s :
  returns m -> keeps R m -> (forall s' a, R s s' -> Q s' (Ret a)) -> wp m Q s.
Proof.
  intros Hr Hm HQ. unfold wp. destruct (Hr s) as [a ->]. apply HQ, Hm.
Qed.

(** Linear arithmetic with [/] and [mod] by literals. *)
Ltac dlia := zify; try Z.to_euclidean_division_equations; lia.
