(* ===== verification/GoStd.v ===== *)
(** * The parts of Go's standard library the program uses

    Strings are byte strings ([string] is a list of 8-bit characters, as a Go
    string is a sequence of bytes), durations and instants are integers in
    nanoseconds, [int]/[int64] are [Z] with their wrap-around written out. *)

From S2P Require Import Prelude.

(** ** Machine integers *)

Definition wrap64 (z : Z) : Z := (z + 2^63) mod 2^64 - 2^63.
Definition wrapu64 (z : Z) : Z := z mod 2^64.
Definition in_int64 (z : Z) : bool := bool_decide (-2^63 <= z < 2^63)%Z.

(** ** Time *)

Definition Nanosecond : Z := 1.
Definition Millisecond : Z := 1000000.
Definition Second : Z := 1000 * Millisecond.
Definition Minute : Z := 60 * Second.
Definition Hour : Z := 60 * Minute.

(** [t.Truncate(d)]; Go truncates relative to the zero time, which lies a
    whole number of days before the epoch used here. *)
Definition Truncate (d t : Z) : Z := t - t mod d.
Definition UnixMilli (t : Z) : Z := t / Millisecond.
Definition Unix (t : Z) : Z := t / Second.

(** ** Package strings *)

Fixpoint HasPrefix (s p : string) : bool :=
  match p, s with
  | "", _ => true
  | String a p', String b s' => bool_decide (a = b) && HasPrefix s' p'
  | _, "" => false
  end.

Fixpoint drop_str (n : nat) (s : string) : string :=
  match n, s with
  | O, _ => s
  | S n', String _ s' => drop_str n' s'
  | _, "" => ""
  end.

Fixpoint take_str (n : nat) (s : string) : string :=
  match n, s with
  | O, _ => ""
  | S n', String c s' => String c (take_str n' s')
  | _, "" => ""
  end.

(** [s[:n]]: a slice bound beyond the length is a run-time panic. *)
Definition slice_to (s : string) (n : nat) : option string :=
  if bool_decide (n <= String.length s)%nat then Some (take_str n s) else None.

Definition HasSuffix (s p : string) : bool :=
  bool_decide (String.length p <= String.length s)%nat &&
  (drop_str (String.length s - String.length p) s == p).

Definition TrimPrefix (s p : string) : string :=
  if HasPrefix s p then drop_str (String.length p) s else s.

Definition TrimSuffix (s p : string) : string :=
  if HasSuffix s p then take_str (String.length s - String.length p) s else s.

Fixpoint Contains (s sub : string) : bool :=
  HasPrefix s sub ||
  match s with
  | "" => false
  | String _ s' => Contains s' sub
  end.

(** [strings.Cut]-like step: the text before and after the first [sep]. *)
Fixpoint cut (sep : Ascii.ascii) (s : string) : option (string * string) :=
  match s with
  | "" => None
  | String c s' =>
      if bool_decide (c = sep) then Some ("", s')
      else match cut sep s' with
           | Some (a, b) => Some (String c a, b)
           | None => None
           end
  end.

(** [strings.SplitN(s, sep, n)] for a one-byte separator and [n > 0]. *)
Fixpoint SplitN (s : string) (sep : Ascii.ascii) (n : nat) : list string :=
  match n with
  | O => []
  | 1 => [s]
  | S n' => match cut sep s with
            | Some (a, b) => a :: SplitN b sep n'
            | None => [s]
            end
  end.

Definition to_lower_ascii (c : Ascii.ascii) : Ascii.ascii :=
  let n := Ascii.nat_of_ascii c in
  if bool_decide (65 <= n <= 90)%nat then Ascii.ascii_of_nat (n + 32) else c.

Fixpoint ToLower (s : string) : string :=
  match s with
  | "" => ""
  | String c s' => String (to_lower_ascii c) (ToLower s')
  end.

(** [strings.TrimSpace]: the white space of Unicode in its UTF-8 encoding *)
Definition bytes_of (l : list nat) : list Ascii.ascii := List.map Ascii.ascii_of_nat l.
Definition space_encodings : list (list Ascii.ascii) := List.map bytes_of
  ([[9]; [10]; [11]; [12]; [13]; [32]; [0xc2; 0x85]; [0xc2; 0xa0]; [0xe1; 0x9a; 0x80]] ++
   List.map (fun k => [0xe2; 0x80; k]) ([0xa8; 0xa9; 0xaf] ++ seq 0x80 11) ++
   [[0xe2; 0x81; 0x9f]; [0xe3; 0x80; 0x80]])%nat.

Fixpoint strip_prefix (p l : list Ascii.ascii) : option (list Ascii.ascii) :=
  match p, l with
  | [], _ => Some l
  | a :: p', b :: l' => if bool_decide (a = b) then strip_prefix p' l' else None
  | _, [] => None
  end.
Fixpoint strip_any (ps : list (list Ascii.ascii)) (l : list Ascii.ascii) : option (list Ascii.ascii) :=
  match ps with
  | [] => None
  | p :: ps => match strip_prefix p l with Some l' => Some l' | None => strip_any ps l end
  end.
(** every encoding takes at least a byte, so the length bounds the rounds *)
Fixpoint strip_all (fuel : nat) (ps : list (list Ascii.ascii)) (l : list Ascii.ascii) : list Ascii.ascii :=
  match fuel with
  | O => l
  | S fuel => match strip_any ps l with Some l' => strip_all fuel ps l' | None => l end
  end.
Definition TrimSpace (s : string) : string :=
  let l := String.list_ascii_of_string s in
  let l := strip_all (length l) space_encodings l in
  let r := strip_all (length l) (List.map (@rev _) space_encodings) (rev l) in
  String.string_of_list_ascii (rev r).

(** ** Package encoding/hex *)

Definition hex_digit (n : nat) : Ascii.ascii :=
  if bool_decide (n < 10)%nat then Ascii.ascii_of_nat (48 + n) else Ascii.ascii_of_nat (87 + n).

Definition hex_val (c : Ascii.ascii) : option nat :=
  let n := Ascii.nat_of_ascii c in
  if bool_decide (48 <= n <= 57)%nat then Some (n - 48)%nat
  else if bool_decide (97 <= n <= 102)%nat then Some (n - 87)%nat
  else if bool_decide (65 <= n <= 70)%nat then Some (n - 55)%nat
  else None.

Fixpoint hex_EncodeToString (s : string) : string :=
  match s with
  | "" => ""
  | String c s' =>
      let n := Ascii.nat_of_ascii c in
      String (hex_digit (n / 16)) (String (hex_digit (n mod 16)) (hex_EncodeToString s'))
  end.

Fixpoint hex_DecodeString (s : string) : option string :=
  match s with
  | "" => Some ""
  | String a (String b s') =>
      va ← hex_val a; vb ← hex_val b; r ← hex_DecodeString s';
      Some (String (Ascii.ascii_of_nat (va * 16 + vb)) r)
  | String _ "" => None
  end.

(** ** Package encoding/base64, [StdEncoding] *)

Definition b64_char (n : nat) : Ascii.ascii :=
  if bool_decide (n < 26)%nat then Ascii.ascii_of_nat (65 + n)
  else if bool_decide (n < 52)%nat then Ascii.ascii_of_nat (71 + n)
  else if bool_decide (n < 62)%nat then Ascii.ascii_of_nat (n - 4)
  else if bool_decide (n = 62)%nat then "+"%char else "/"%char.

Definition b64_val (c : Ascii.ascii) : option nat :=
  let n := Ascii.nat_of_ascii c in
  if bool_decide (65 <= n <= 90)%nat then Some (n - 65)%nat
  else if bool_decide (97 <= n <= 122)%nat then Some (n - 71)%nat
  else if bool_decide (48 <= n <= 57)%nat then Some (n + 4)%nat
  else if bool_decide (c = "+"%char) then Some 62%nat
  else if bool_decide (c = "/"%char) then Some 63%nat
  else None.

Fixpoint base64_EncodeToString (s : string) : string :=
  match s with
  | "" => ""
  | String a "" =>
      let a := Ascii.nat_of_ascii a in
      String (b64_char (a / 4)) (String (b64_char (a mod 4 * 16)) "==")
  | String a (String b "") =>
      let a := Ascii.nat_of_ascii a in
      let b := Ascii.nat_of_ascii b in
      String (b64_char (a / 4)) (String (b64_char (a mod 4 * 16 + b / 16))
        (String (b64_char (b mod 16 * 4)) "="))
  | String a (String b (String c s')) =>
      let a := Ascii.nat_of_ascii a in
      let b := Ascii.nat_of_ascii b in
      let c := Ascii.nat_of_ascii c in
      String (b64_char (a / 4)) (String (b64_char (a mod 4 * 16 + b / 16))
        (String (b64_char (b mod 16 * 4 + c / 64)) (String (b64_char (c mod 64))
           (base64_EncodeToString s'))))
  end.

(** Go's decoder skips line feeds and carriage returns. *)
Fixpoint b64_skip_newlines (s : string) : string :=
  match s with
  | "" => ""
  | String c s' =>
      if bool_decide (Ascii.nat_of_ascii c = 10)%nat || bool_decide (Ascii.nat_of_ascii c = 13)%nat
      then b64_skip_newlines s' else String c (b64_skip_newlines s')
  end.

Fixpoint b64_quads (s : string) : option string :=
  match s with
  | "" => Some ""
  | String a (String b (String c (String d s'))) =>
      va ← b64_val a; vb ← b64_val b;
      let x := Ascii.ascii_of_nat (va * 4 + vb / 16) in
      if bool_decide (c = "="%char) then
        if bool_decide (d = "="%char) && (s' == "") then Some (String x "") else None
      else
        vc ← b64_val c;
        let y := Ascii.ascii_of_nat (vb mod 16 * 16 + vc / 4) in
        if bool_decide (d = "="%char) then
          if s' == "" then Some (String x (String y "")) else None
        else
          vd ← b64_val d; r ← b64_quads s';
          Some (String x (String y (String (Ascii.ascii_of_nat (vc mod 4 * 64 + vd)) r)))
  | _ => None
  end.

Definition base64_DecodeString (s : string) : option string := b64_quads (b64_skip_newlines s).

(** ** Lemmas *)

Lemma append_assoc_str (a b c : string) : (a +:+ b) +:+ c = a +:+ (b +:+ c).
Proof. induction a as [|x a IH]; [done|exact (f_equal (String.String x) IH)]. Qed.
Lemma append_nil_r_str (a : string) : a +:+ "" = a.
Proof. induction a as [|x a IH]; [done|exact (f_equal (String.String x) IH)]. Qed.

Lemma length_take_str n s : String.length (take_str n s) = (n `min` String.length s)%nat.
Proof. revert s. induction n as [|n IH]; intros [|c s]; try done. exact (f_equal S (IH s)). Qed.

Lemma drop_take_str n s : take_str n s +:+ drop_str n s = s.
Proof. revert s. induction n as [|n IH]; intros [|c s]; try done. exact (f_equal (String c) (IH s)). Qed.

Lemma HasPrefix_spec s p : HasPrefix s p = true <-> exists t, s = p +:+ t.
Proof.
  revert s. induction p as [|a p IH]; intros s; cbn [HasPrefix]; [split; [by exists s|by destruct s]|].
  destruct s as [|b s]; cbn [HasPrefix].
  - split; [done|]. by intros [t [=]].
  - rewrite andb_true_iff, bool_decide_eq_true, IH. split.
    + intros [-> [t ->]]. by exists t.
    + intros [t [= -> ->]]. eauto.
Qed.

Lemma drop_str_app p t : drop_str (String.length p) (p +:+ t) = t.
Proof. by induction p. Qed.

Lemma TrimPrefix_app p t : TrimPrefix (p +:+ t) p = t.
Proof.
  unfold TrimPrefix. rewrite (proj2 (HasPrefix_spec _ _)) by eauto. apply drop_str_app.
Qed.

Lemma take_str_short (s : string) n : (String.length s <= n)%nat -> take_str n s = s.
Proof. revert n. induction s as [|c s IH]; intros [|n] Hn; cbn in *; [done..|lia|]. f_equal. apply IH. lia. Qed.

Lemma Contains_spec s sub : Contains s sub = true <-> exists a b, s = a +:+ sub +:+ b.
Proof.
  induction s as [|c s IH]; cbn [Contains].
  - rewrite orb_false_r, HasPrefix_spec. split.
    + intros [t Ht]. by exists "", t.
    + intros (a & b & Hab). destruct a; [|done]. by exists b.
  - rewrite orb_true_iff, HasPrefix_spec, IH. split.
    + intros [[t ->]|(a & b & ->)]; [by exists "", t|by exists (String c a), b].
    + intros ([|c' a] & b & Hab); [left; by exists b|].
      injection Hab as -> ->. right. eauto.
Qed.

Lemma length_app_str (s t : string) : String.length (s +:+ t) = (String.length s + String.length t)%nat.
Proof. induction s as [|c s IH]; [done|]. exact (f_equal S IH). Qed.

Lemma length_hex s : String.length (hex_EncodeToString s) = (2 * String.length s)%nat.
Proof. induction s as [|c s IH]; simpl; [done|]. rewrite IH. lia. Qed.

Lemma slice_to_ok s n : (n <= String.length s)%nat -> slice_to s n = Some (take_str n s).
Proof. intros. unfold slice_to. by rewrite bool_decide_true. Qed.

Lemma slice_to_panics s n : (String.length s < n)%nat -> slice_to s n = None.
Proof. intros. unfold slice_to. rewrite bool_decide_false; [done|lia]. Qed.

Lemma nat_of_ascii_lt c : (Ascii.nat_of_ascii c < 256)%nat.
Proof. apply Ascii.nat_ascii_bounded. Qed.

(** Facts about all values below a concrete bound, by evaluation. *)
Lemma all_below (P : nat -> Prop) `{!forall k, Decision (P k)} n :
  forallb (fun k => bool_decide (P k)) (seq 0 n) = true -> forall k, (k < n)%nat -> P k.
Proof.
  intros Hall k Hk. rewrite forallb_forall in Hall.
  apply (bool_decide_eq_true_1 (P k)), Hall, in_seq. lia.
Qed.

Lemma hex_val_digit n : (n < 16)%nat -> hex_val (hex_digit n) = Some n.
Proof.
  revert n. by apply (all_below (fun k => hex_val (hex_digit k) = Some k)); vm_compute.
Qed.

Lemma hex_roundtrip s : hex_DecodeString (hex_EncodeToString s) = Some s.
Proof.
  induction s as [|c s IH]; [done|]. cbn [hex_EncodeToString hex_DecodeString].
  pose proof (nat_of_ascii_lt c) as Hc.
  rewrite !hex_val_digit by (try apply Nat.mod_upper_bound; try apply Nat.Div0.div_lt_upper_bound; lia).
  rewrite IH. cbn [mbind option_bind]. do 2 f_equal.
  rewrite <- (Ascii.ascii_nat_embedding c). f_equal. rewrite Ascii.ascii_nat_embedding. dlia.
Qed.

Lemma b64_char_facts n : (n < 64)%nat ->
  b64_val (b64_char n) = Some n /\ b64_char n <> "="%char /\
  Ascii.nat_of_ascii (b64_char n) <> 10%nat /\ Ascii.nat_of_ascii (b64_char n) <> 13%nat.
Proof.
  revert n. by apply (all_below (fun k => b64_val (b64_char k) = Some k /\ b64_char k <> "="%char /\
      Ascii.nat_of_ascii (b64_char k) <> 10%nat /\ Ascii.nat_of_ascii (b64_char k) <> 13%nat)); vm_compute.
Qed.

Lemma ascii_of_nat_of c n : n = Ascii.nat_of_ascii c -> Ascii.ascii_of_nat n = c.
Proof. intros ->. apply Ascii.ascii_nat_embedding. Qed.

(** The six-bit groups of three bytes, and the bytes back from them. *)
Lemma b64_group_bounds a b c :
  (a < 256)%nat -> (b < 256)%nat -> (c < 256)%nat ->
  (a / 4 < 64 /\ a mod 4 * 16 + b / 16 < 64 /\ b mod 16 * 4 + c / 64 < 64 /\ c mod 64 < 64)%nat.
Proof. intros. dlia. Qed.

Lemma b64_group_bytes a b c :
  (a < 256)%nat -> (b < 256)%nat -> (c < 256)%nat ->
  (a / 4 * 4 + (a mod 4 * 16 + b / 16) / 16 = a /\
   (a mod 4 * 16 + b / 16) mod 16 * 16 + (b mod 16 * 4 + c / 64) / 4 = b /\
   (b mod 16 * 4 + c / 64) mod 4 * 64 + c mod 64 = c)%nat.
Proof. intros. dlia. Qed.

Lemma b64_skip_cons n s : (n < 64)%nat ->
  b64_skip_newlines (String (b64_char n) s) = String (b64_char n) (b64_skip_newlines s).
Proof.
  intros Hn. destruct (b64_char_facts n Hn) as (_ & _ & H1 & H2). cbn [b64_skip_newlines].
  by rewrite !bool_decide_false.
Qed.

Lemma b64_val_char n : (n < 64)%nat -> b64_val (b64_char n) = Some n.
Proof. intros. by apply b64_char_facts. Qed.

Lemma b64_char_pad n : (n < 64)%nat -> b64_char n <> "="%char.
Proof. intros. by apply b64_char_facts. Qed.

(** Decoding the characters of an encoding gives the bytes back: the induction
    takes three bytes at a time. *)
Lemma base64_roundtrip s : base64_DecodeString (base64_EncodeToString s) = Some s.
Proof.
  unfold base64_DecodeString.
  cut (forall n s, String.length s <= n ->
    b64_quads (b64_skip_newlines (base64_EncodeToString s)) = Some s)%nat; [eauto|].
  clear s. induction n as [|n IH]; intros [|a [|b [|c s]]] Hlen; cbn [String.length] in Hlen;
    try done; try lia; cbn [base64_EncodeToString];
    pose proof (nat_of_ascii_lt a) as Ha;
    try pose proof (nat_of_ascii_lt b) as Hb; try pose proof (nat_of_ascii_lt c) as Hc.
  - pose proof (b64_group_bounds _ 0 0 Ha ltac:(lia) ltac:(lia)) as (B1 & B2 & _).
    pose proof (b64_group_bytes _ 0 0 Ha ltac:(lia) ltac:(lia)) as (E1 & _).
    change (0 / 16)%nat with 0%nat in *. rewrite Nat.add_0_r in *.
    rewrite !b64_skip_cons by done. change (b64_skip_newlines "==") with "==".
    cbn [b64_quads]. rewrite !b64_val_char by done. cbn [mbind option_bind].
    rewrite E1. cbn. by rewrite Ascii.ascii_nat_embedding.
  - pose proof (b64_group_bounds _ _ 0 Ha Hb ltac:(lia)) as (B1 & B2 & B3 & _).
    pose proof (b64_group_bytes _ _ 0 Ha Hb ltac:(lia)) as (E1 & E2 & _).
    change (0 / 64)%nat with 0%nat in *. rewrite Nat.add_0_r in *.
    rewrite !b64_skip_cons by done. change (b64_skip_newlines "=") with "=".
    cbn [b64_quads]. rewrite !b64_val_char by done. cbn [mbind option_bind].
    rewrite bool_decide_false by (by apply b64_char_pad).
    rewrite E1, E2. cbn. by rewrite !Ascii.ascii_nat_embedding.
  - pose proof (b64_group_bounds _ _ _ Ha Hb Hc) as (B1 & B2 & B3 & B4).
    pose proof (b64_group_bytes _ _ _ Ha Hb Hc) as (E1 & E2 & E3).
    rewrite !b64_skip_cons by done. cbn [b64_quads].
    rewrite !b64_val_char by done. cbn [mbind option_bind].
    rewrite !bool_decide_false by (by apply b64_char_pad).
    rewrite IH by lia. cbn [mbind option_bind].
    by rewrite E1, E2, E3, !Ascii.ascii_nat_embedding.
Qed.

(** ** Texts split at a separator, and decimal numerals *)

Lemma list_ascii_of_app s1 s2 : String.list_ascii_of_string (s1 +:+ s2) =
  String.list_ascii_of_string s1 ++ String.list_ascii_of_string s2.
Proof. induction s1 as [|a s1 IH]; [done|exact (f_equal (cons a) IH)]. Qed.

Lemma list_ascii_inj s1 s2 : String.list_ascii_of_string s1 = String.list_ascii_of_string s2 -> s1 = s2.
Proof.
  intros E. by rewrite <- (String.string_of_list_ascii_of_string s1), E, String.string_of_list_ascii_of_string.
Qed.

(** What precedes and follows the last, or the first, separator. *)
Lemma split_last {A} (c : A) (l1 l2 p1 p2 : list A) : c ∉ p1 -> c ∉ p2 ->
  l1 ++ c :: p1 = l2 ++ c :: p2 -> l1 = l2 /\ p1 = p2.
Proof.
  intros H1 H2. revert l2. induction l1 as [|a l1 IH]; intros [|b l2] [=]; subst; try done.
  - exfalso. apply H1, elem_of_app. right. left.
  - exfalso. apply H2, elem_of_app. right. left.
  - edestruct IH; [eassumption|]. by subst.
Qed.
Lemma split_first {A} (c : A) (l1 l2 p1 p2 : list A) : c ∉ l1 -> c ∉ l2 ->
  l1 ++ c :: p1 = l2 ++ c :: p2 -> l1 = l2 /\ p1 = p2.
Proof.
  revert l2. induction l1 as [|a l1 IH]; intros [|b l2] H1 H2 [=]; subst; try done.
  - exfalso. apply H2. left.
  - exfalso. apply H1. left.
  - rewrite not_elem_of_cons in H1, H2. destruct (IH l2) as [-> ->]; naive_solver.
Qed.

(** A numeral is digits, and a minus sign for a negative number. *)
Lemma pretty_N_go_digits c x s : (forall n, pretty_N_char n <> c) ->
  c ∉ String.list_ascii_of_string s -> c ∉ String.list_ascii_of_string (pretty_N_go x s).
Proof.
  intros Hc. revert s. induction (N.lt_wf_0 x) as [x _ IH]. intros s Hs.
  destruct (decide (0 < x)%N) as [Hx|Hx].
  - rewrite pretty_N_go_step by done. apply IH; [apply N.div_lt; lia|]. cbn.
    apply not_elem_of_cons. split; [|done]. intros E. by destruct (Hc (x `mod` 10)%N).
  - replace x with 0%N by lia. by rewrite pretty_N_go_0.
Qed.
Definition is_digit (c : Ascii.ascii) : bool := bool_decide (48 <= Ascii.nat_of_ascii c <= 57)%nat.
Lemma pretty_N_digits c (x : N) : is_digit c = false -> c ∉ String.list_ascii_of_string (pretty x).
Proof.
  intros Hc. assert (Hd : forall n, pretty_N_char n <> c).
  { intros n E. subst c. unfold pretty_N_char in Hc. repeat case_match; discriminate. }
  unfold pretty, pretty_N. case_decide; [|apply pretty_N_go_digits; [done|cbn; set_solver]].
  cbn. intros [E|[]%elem_of_nil]%elem_of_cons. by apply (Hd 0%N).
Qed.
Lemma pretty_Z_digits c (x : Z) : is_digit c = false -> c <> "-"%char -> c ∉ String.list_ascii_of_string (pretty x).
Proof.
  intros Hc Hm. unfold pretty, pretty_Z. destruct x as [|p|p].
  - by apply (pretty_N_digits c 0).
  - by apply (pretty_N_digits c (N.pos p)).
  - change (c ∉ "-"%char :: String.list_ascii_of_string (pretty (N.pos p))).
    apply not_elem_of_cons. split; [done|]. by apply pretty_N_digits.
Qed.
