(* ===== verification/Strings.v ===== *)
(** * Texts as the parsers of tool output and configuration read them

    The functions of Go's packages strings and strconv beyond those of GoStd:
    splitting, trimming by a set of bytes, and decimal integers. *)

From S2P Require Import Prelude GoStd.

Abbreviation chars := String.list_ascii_of_string.
Definition newline : Ascii.ascii := Ascii.ascii_of_nat 10.
Definition quote : Ascii.ascii := Ascii.ascii_of_nat 34.
Definition str1 (c : Ascii.ascii) : string := String.String c "".
(** a text between double quotes *)
Definition quoted (s : string) : string := String.String quote (s +:+ str1 quote).

(** ** Package strings *)

(** [strings.Split(s, sep)] for a one-byte separator *)
Fixpoint Split (s : string) (sep : Ascii.ascii) : list string :=
  match s with
  | String.EmptyString => [""]
  | String.String c s' =>
      if bool_decide (c = sep) then "" :: Split s' sep
      else match Split s' sep with
           | x :: l => String.String c x :: l
           | [] => [str1 c]
           end
  end.

(** [strings.ReplaceAll(s, old, new)] for an [old] that is not empty; the bytes
    of a match are skipped. *)
Fixpoint replace_from (skip : nat) (s old new : string) : string :=
  match s, skip with
  | String.EmptyString, _ => ""
  | String.String _ s', S skip => replace_from skip s' old new
  | String.String c s', O =>
      if HasPrefix s old then new +:+ replace_from (String.length old - 1) s' old new
      else String.String c (replace_from 0 s' old new)
  end.
Definition ReplaceAll (s old new : string) : string := replace_from 0 s old new.

(** [strings.Fields]: the maximal pieces without white space; every round takes
    at least a byte *)
Fixpoint fields_go (fuel : nat) (l cur : list Ascii.ascii) : list (list Ascii.ascii) :=
  let flush := match cur with [] => [] | _ => [rev cur] end in
  match fuel with
  | O => flush
  | S fuel =>
      match strip_any space_encodings l, l with
      | Some l', _ => flush ++ fields_go fuel l' []
      | None, c :: l' => fields_go fuel l' (c :: cur)
      | None, [] => flush
      end
  end.
Definition Fields (s : string) : list string :=
  String.string_of_list_ascii <$> fields_go (S (String.length s)) (chars s) [].

(** [strings.Trim(s, cutset)] for a set of ASCII characters *)
Fixpoint trim_left (p : Ascii.ascii -> bool) (l : list Ascii.ascii) : list Ascii.ascii :=
  match l with
  | c :: l' => if p c then trim_left p l' else l
  | [] => []
  end.
Definition Trim (s : string) (cutset : list Ascii.ascii) : string :=
  let p c := existsb (fun x => x == c) cutset in
  String.string_of_list_ascii (rev (trim_left p (rev (trim_left p (chars s))))).

(** [strings.Index] and [strings.LastIndex]; [None] is the -1 of Go *)
Fixpoint strings_Index (s sub : string) : option nat :=
  if HasPrefix s sub then Some O
  else match s with
       | String.EmptyString => None
       | String.String _ s' => S <$> strings_Index s' sub
       end.
Fixpoint LastIndex (s : string) (c : Ascii.ascii) : option nat :=
  match s with
  | String.EmptyString => None
  | String.String x s' =>
      match LastIndex s' c with
      | Some i => Some (S i)
      | None => if bool_decide (x = c) then Some O else None
      end
  end.

(** [strings.Replace(s, old, new, 1)] *)
Definition Replace1 (s old new : string) : string :=
  match strings_Index s old with
  | Some i => take_str i s +:+ new +:+ drop_str (i + String.length old) s
  | None => s
  end.

(** ** Package strconv *)

Definition digit_val (c : Ascii.ascii) : option Z :=
  if is_digit c then Some (Z.of_nat (Ascii.nat_of_ascii c) - 48)%Z else None.
Fixpoint digits_val (acc : Z) (s : string) : option Z :=
  match s with
  | String.EmptyString => Some acc
  | String.String c s' => d ← digit_val c; digits_val (acc * 10 + d) s'
  end.
Definition parse_digits (s : string) : option Z := if s == "" then None else digits_val 0 s.

(** [strconv.Atoi] and [strconv.ParseInt(s, 10, 64)]; [None] is an error, of
    syntax or of range *)
Definition Atoi (s : string) : option Z :=
  z ← match s with
      | String.String c s' =>
          if bool_decide (c = "-"%char) then Z.opp <$> parse_digits s'
          else if bool_decide (c = "+"%char) then parse_digits s'
          else parse_digits s
      | String.EmptyString => None
      end;
  if in_int64 z then Some z else None.

(** ** Lemmas *)

Lemma digit_val_pretty n : (n < 10)%N -> digit_val (pretty_N_char n) = Some (Z.of_N n).
Proof.
  intros Hn. replace n with (N.of_nat (N.to_nat n)) by lia. generalize (N.to_nat n) as k, (ltac:(lia) : (N.to_nat n < 10)%nat).
  apply (all_below (fun k => digit_val (pretty_N_char (N.of_nat k)) = Some (Z.of_N (N.of_nat k)))). by vm_compute.
Qed.

Lemma digits_val_cons acc c s : digits_val acc (String.String c s) = d ← digit_val c; digits_val (acc * 10 + d) s.
Proof. done. Qed.

(** Reading the digits of a number in front of a text. *)
Lemma digits_val_go (x : N) acc s : exists k : Z, digits_val acc (pretty_N_go x s) = digits_val (acc * 10 ^ k + Z.of_N x) s /\ (0 <= k)%Z.
Proof.
  revert acc s. induction (N.lt_wf_0 x) as [x _ IH]. intros acc s. destruct (decide (0 < x)%N) as [Hx|Hx].
  - rewrite pretty_N_go_step by done.
    destruct (IH (x `div` 10)%N ltac:(apply N.div_lt; lia) acc (String.String (pretty_N_char (x `mod` 10)) s)) as (k & -> & Hk).
    exists (k + 1)%Z. split; [|lia]. rewrite digits_val_cons, digit_val_pretty by (apply N.mod_lt; lia). cbn [mbind option_bind].
    f_equal. rewrite Z.pow_add_r by lia. rewrite N2Z.inj_div, N2Z.inj_mod.
    pose proof (Z.div_mod (Z.of_N x) 10 ltac:(lia)). change (Z.of_N 10) with 10%Z. nia.
  - replace x with 0%N by lia. rewrite pretty_N_go_0. exists 0%Z. split; [f_equal; lia|lia].
Qed.

Lemma pretty_N_go_ne (x : N) s : s <> "" -> pretty_N_go x s <> "".
Proof.
  revert s. induction (N.lt_wf_0 x) as [x _ IH]. intros s Hs. destruct (decide (0 < x)%N) as [Hx|Hx].
  - rewrite pretty_N_go_step by done. apply IH; [apply N.div_lt; lia|done].
  - replace x with 0%N by lia. by rewrite pretty_N_go_0.
Qed.

Lemma parse_digits_pretty (n : N) : parse_digits (pretty n) = Some (Z.of_N n).
Proof.
  unfold parse_digits. destruct (decide (n = 0)%N) as [->|Hn]; [done|].
  assert (E : pretty n = pretty_N_go n "") by (unfold pretty, pretty_N; by rewrite decide_False).
  assert (Hne : pretty n <> "").
  { rewrite E, pretty_N_go_step by lia. by apply pretty_N_go_ne. }
  rewrite bool_decide_false by done. rewrite E. destruct (digits_val_go n 0 "") as (k & -> & _). done.
Qed.

(** The first character of a numeral is a digit. *)
Lemma pretty_N_head (n : N) : exists c s, pretty n = String.String c s /\ is_digit c = true.
Proof.
  pose proof (parse_digits_pretty n) as H. unfold parse_digits in H. case_bool_decide as E; [done|].
  destruct (pretty n) as [|c s]; [done|]. exists c, s. split; [done|]. rewrite digits_val_cons in H.
  unfold digit_val in H. by destruct (is_digit c).
Qed.

(** Parsing what printing wrote. *)
Lemma Atoi_pretty (z : Z) : in_int64 z = true -> Atoi (pretty z) = Some z.
Proof.
  intros Hz. destruct z as [|p|p]; [done| |].
  - change (pretty (Z.pos p)) with (pretty (N.pos p)). pose proof (parse_digits_pretty (N.pos p)) as Hd.
    destruct (pretty_N_head (N.pos p)) as (c & s & E & Hc). unfold Atoi. rewrite E in *.
    rewrite !bool_decide_false by (intros ->; done). rewrite Hd. cbn [mbind option_bind Z.of_N]. by rewrite Hz.
  - change (pretty (Z.neg p)) with (String.String "-"%char (pretty (N.pos p))). unfold Atoi.
    rewrite bool_decide_true by done. rewrite parse_digits_pretty.
    cbn [fmap option_fmap option_map mbind option_bind Z.of_N Z.opp].
    change (- Z.pos p)%Z with (Z.neg p). by rewrite Hz.
Qed.

Lemma Split_app_sep a b sep : sep ∉ chars a -> Split (a +:+ String.String sep b) sep = a :: Split b sep.
Proof.
  induction a as [|c a IH]; intros Ha.
  - change (Split (String.String sep b) sep = "" :: Split b sep). cbn [Split]. by rewrite bool_decide_true.
  - change (Split (String.String c (a +:+ String.String sep b)) sep = String.String c a :: Split b sep).
    cbn [chars] in Ha. apply not_elem_of_cons in Ha as [Hc Ha]. cbn [Split].
    rewrite bool_decide_false by congruence. by rewrite IH.
Qed.
Lemma Split_plain a sep : sep ∉ chars a -> Split a sep = [a].
Proof.
  induction a as [|c a IH]; [done|]. cbn [chars Split]. intros [Hc Ha]%not_elem_of_cons.
  rewrite bool_decide_false by congruence. by rewrite IH.
Qed.

Lemma Split_concat (l : list string) sep : l <> [] -> Forall (fun a => sep ∉ chars a) l ->
  Split (String.concat (str1 sep) l) sep = l.
Proof.
  induction l as [|a [|b l] IH]; [done| |]; intros _ Hl; apply list.Forall_cons in Hl as [Ha Hl].
  - by apply Split_plain.
  - change (Split (a +:+ String.String sep (String.concat (str1 sep) (b :: l))) sep = a :: b :: l).
    rewrite Split_app_sep by done. by rewrite IH.
Qed.

Lemma replace_skip a b old new : replace_from (String.length a) (a +:+ b) old new = replace_from 0 b old new.
Proof. induction a as [|c a IH]; [by destruct b|exact IH]. Qed.

(** What precedes the first byte of [old] is kept, [old] is replaced, and the
    rest is treated alike. *)
Lemma ReplaceAll_step c old a b new : c ∉ chars a ->
  ReplaceAll (a +:+ String.String c old +:+ b) (String.String c old) new =
    a +:+ new +:+ ReplaceAll b (String.String c old) new.
Proof.
  unfold ReplaceAll. induction a as [|x a IH]; intros Ha.
  - change ("" +:+ String.String c old +:+ b) with (String.String c (old +:+ b)). cbn [replace_from].
    assert (E : HasPrefix (String.String c (old +:+ b)) (String.String c old) = true) by (apply HasPrefix_spec; by exists b).
    rewrite E. cbn [String.length]. rewrite Nat.sub_succ, Nat.sub_0_r, replace_skip. done.
  - cbn [chars] in Ha. apply not_elem_of_cons in Ha as [Hc Ha].
    change (String.String x a +:+ String.String c old +:+ b) with (String.String x (a +:+ String.String c old +:+ b)).
    cbn [replace_from HasPrefix]. rewrite bool_decide_eq_false_2 by done. cbn [andb]. rewrite IH by done. done.
Qed.
Lemma ReplaceAll_none s old new : Contains s old = false -> ReplaceAll s old new = s.
Proof.
  unfold ReplaceAll. induction s as [|c s IH]; [done|]. cbn [Contains replace_from]. intros [-> Hs]%orb_false_iff. by rewrite IH.
Qed.

(** ** Trimming: texts that begin and end with visible ASCII characters *)

Definition visible (c : Ascii.ascii) : bool := bool_decide (33 <= Ascii.nat_of_ascii c <= 126)%nat.
Definition solid (s : string) : Prop :=
  exists c l, chars s = c :: l /\ visible c = true /\ exists d l', chars s = l' ++ [d] /\ visible d = true.

Definition starts_invisible (p : list Ascii.ascii) : bool :=
  match p with a :: _ => negb (visible a) | [] => false end.
Lemma strip_any_visible ps c l : forallb starts_invisible ps = true -> visible c = true -> strip_any ps (c :: l) = None.
Proof.
  intros Hps Hc. induction ps as [|p ps IH]; [done|]. cbn [forallb] in Hps. apply andb_prop in Hps as [Hp Hps].
  destruct p as [|a p]; [done|]. cbn [strip_any strip_prefix]. rewrite bool_decide_false; [by apply IH|].
  intros ->. cbn in Hp. by rewrite Hc in Hp.
Qed.
Lemma strip_all_visible fuel ps c l : forallb starts_invisible ps = true -> visible c = true ->
  strip_all fuel ps (c :: l) = c :: l.
Proof. intros. destruct fuel; [done|]. cbn [strip_all]. by rewrite strip_any_visible. Qed.

Lemma TrimSpace_solid s : solid s -> TrimSpace s = s.
Proof.
  intros (c & l & E & Hc & d & l' & E' & Hd). unfold TrimSpace. cbv zeta. rewrite E.
  rewrite strip_all_visible by (done || by vm_compute). rewrite <- E, E', rev_app_distr. cbn [rev app].
  rewrite strip_all_visible by (done || by vm_compute). cbn [rev]. rewrite rev_involutive, <- E'.
  apply String.string_of_list_ascii_of_string.
Qed.

(** The line end a tool prints goes away. *)
Lemma TrimSpace_newline s : solid s -> TrimSpace (s +:+ str1 newline) = s.
Proof.
  intros (c & l & E & Hc & d & l' & E' & Hd). unfold TrimSpace. cbv zeta. rewrite list_ascii_of_app, E. cbn [app].
  rewrite strip_all_visible by (done || by vm_compute).
  change (c :: l ++ chars (str1 newline)) with ((c :: l) ++ [newline]). rewrite <- E.
  replace (length (chars s ++ [newline])) with (S (length (chars s))) by (rewrite length_app; cbn; lia).
  rewrite rev_app_distr. change (rev [newline] ++ rev (chars s)) with (newline :: rev (chars s)). cbn [strip_all].
  change (strip_any (List.map (@rev _) space_encodings) (newline :: rev (chars s))) with (Some (rev (chars s))). cbv match.
  rewrite E', rev_app_distr. cbn [rev app]. rewrite strip_all_visible by (done || by vm_compute).
  cbn [rev]. rewrite rev_involutive, <- E'. apply String.string_of_list_ascii_of_string.
Qed.

Lemma digit_visible c : is_digit c = true -> visible c = true.
Proof. unfold is_digit, visible. rewrite !bool_decide_eq_true. lia. Qed.

Lemma numeral_digits (n : N) c : c ∈ chars (pretty n) -> is_digit c = true.
Proof. intros Hin. destruct (is_digit c) eqn:E; [done|]. exfalso. by apply (pretty_N_digits c n). Qed.
Lemma numeral_solid (n : N) : solid (pretty n).
Proof.
  destruct (pretty_N_head n) as (c & s & E & Hc). exists c, (chars s). rewrite E. split; [done|].
  split; [by apply digit_visible|]. change (chars (String.String c s)) with (c :: chars s).
  destruct (exists_last (l := c :: chars s)) as (l' & d & E'); [done|]. exists d, l'. split; [done|].
  apply digit_visible, (numeral_digits n). rewrite E. change (chars (String.String c s)) with (c :: chars s).
  rewrite E'. apply elem_of_app. right. by apply list_elem_of_singleton.
Qed.
