(* ===== verification/GoFlag.v ===== *)
(** * Command-line flags (Go's packages flag, strconv and fmt as the client reads them)

    Integer literals with base prefixes and underscores, booleans, the scan of a
    decimal number, and [flag.Parse] for a set of flags whose values are stored by
    a function of the program. *)

From S2P Require Import Prelude GoStd Strings.

(** ** Numbers and booleans *)

(** a digit of [strconv.ParseUint], up to base 36 *)
Definition digit_of (c : Ascii.ascii) : option Z :=
  if is_digit c then digit_val c
  else
    let n := Z.of_nat (Ascii.nat_of_ascii (to_lower_ascii c)) in
    if bool_decide (97 <= n <= 122)%Z then Some (n - 87)%Z else None.
Definition underscore : Ascii.ascii := "_"%char.

(** the digits of a literal; an underscore between digits is skipped, and
    checked by [underscoreOK] *)
Fixpoint literal_digits (base acc : Z) (s : string) : option Z :=
  match s with
  | String.EmptyString => Some acc
  | String.String c s' =>
      if c == underscore then literal_digits base acc s'
      else d ← digit_of c; if bool_decide (base <= d)%Z then None else literal_digits base (acc * base + d) s'
  end.

(** what the previous character of a literal was *)
Inductive previous := AtStart | Digit | Underscore | Other.
Fixpoint underscores_ok (hex : bool) (i : previous) (s : string) : bool :=
  match s with
  | String.EmptyString => match i with Underscore => false | _ => true end
  | String.String c s' =>
      let n := Z.of_nat (Ascii.nat_of_ascii (to_lower_ascii c)) in
      if is_digit c || (hex && bool_decide (97 <= n <= 102)%Z) then underscores_ok hex Digit s'
      else if c == underscore then match i with Digit => underscores_ok hex Underscore s' | _ => false end
      else match i with Underscore => false | _ => underscores_ok hex Other s' end
  end.

(** [strconv.ParseUint(s, 0, 64)] without the check of the range; the second
    component tells whether the literal is hexadecimal *)
Definition base_prefix (s : string) : option (Z * bool * string) :=
  match s with
  | String.String z (String.String b (String.String c s')) =>
      if z == "0"%char then
        let b := to_lower_ascii b in
        if b == "b"%char then Some (2%Z, false, String.String c s')
        else if b == "o"%char then Some (8%Z, false, String.String c s')
        else if b == "x"%char then Some (16%Z, true, String.String c s')
        else None
      else None
  | _ => None
  end.
Definition literal_uint (s : string) : option Z :=
  match s with
  | String.EmptyString => None
  | String.String c s' =>
      let '(base, hex, i, digits) :=
        match base_prefix s with
        | Some (base, hex, rest) => (base, hex, Digit, rest)
        | None => if c == "0"%char then (8%Z, false, AtStart, s') else (10%Z, false, AtStart, s)
        end in
      n ← literal_digits base 0 digits;
      if underscores_ok hex i (if i is Digit then digits else s) then Some n else None
  end.
(** [strconv.ParseInt(s, 0, 64)] *)
Definition literal_int (s : string) : option Z :=
  z ← match s with
      | String.String c s' =>
          if c == "-"%char then Z.opp <$> literal_uint s'
          else if c == "+"%char then literal_uint s'
          else literal_uint s
      | String.EmptyString => None
      end;
  if in_int64 z then Some z else None.

(** [flag.Int]: a plain decimal is read as [Atoi] reads it. *)
Definition plain_decimal (s : string) : bool :=
  match s with
  | String.String c s' => negb (bool_decide (c = "0"%char)) || (s' == "")
  | String.EmptyString => false
  end.
Definition flag_Int (s : string) : option Z :=
  match (if plain_decimal s then Atoi s else None) with
  | Some z => Some z
  | None => literal_int s
  end.
(** [strconv.ParseBool] *)
Definition ParseBool (s : string) : option bool :=
  if existsb (fun x => x == s) ["1"; "t"; "T"; "TRUE"; "true"; "True"] then Some true
  else if existsb (fun x => x == s) ["0"; "f"; "F"; "FALSE"; "false"; "False"] then Some false
  else None.

(** [fmt.Sscanf(s, "%d", &n)]: spaces, a sign, digits; what follows them is
    ignored, and a line break in front is an error *)
Fixpoint scan_space (s : string) : option string :=
  match s with
  | String.EmptyString => Some ""
  | String.String c s' =>
      if c == newline then None
      else if existsb (fun n => bool_decide (Ascii.nat_of_ascii c = n)) [9; 11; 12; 13; 32]%nat then scan_space s'
      else Some s
  end.
Fixpoint leading_digits (s : string) : string :=
  match s with
  | String.String c s' => if is_digit c then String.String c (leading_digits s') else ""
  | String.EmptyString => ""
  end.
Definition Sscanf_d (s : string) : option Z :=
  s ← scan_space s;
  let '(sign, s) := match s with
                    | String.String c s' => if (c == "+"%char) || (c == "-"%char) then (String.String c "", s') else ("", s)
                    | String.EmptyString => ("", "")
                    end in
  Atoi (sign +:+ leading_digits s).

(** ** Flags *)

(** The name of a flag argument: one or two dashes in front, not an empty name,
    and not one that begins with a dash or an equals sign. *)
Definition flag_name (arg : string) : option string :=
  match arg with
  | String.String c s =>
      if bool_decide (c = "-"%char) then
        match s with
        | String.String d s' => Some (if bool_decide (d = "-"%char) then s' else s)
        | String.EmptyString => None
        end
      else None
  | String.EmptyString => None
  end.

(** [flag.Parse] for flags with their names and whether they are boolean: the
    values, or the status the process exits with, 2 after a usage error and 0
    after a request for help. The arguments after the first one that is no flag,
    or after a double dash, are left alone. *)
Section parse.
Context {A : Type} (flags : list (string * bool)) (set_flag : string -> string -> A -> option A).

Fixpoint parse_flags (args : list string) (f : A) : A + Z :=
  match args with
  | [] => inl f
  | arg :: args =>
      match flag_name arg with
      | None => inl f
      | Some name =>
          if (name == "") && (arg == "--") then inl f
          else if (name == "") || HasPrefix name "-" || HasPrefix name "=" then inr 2%Z
          else
            let '(n, value) := match cut "="%char name with Some (n, v) => (n, Some v) | None => (name, None) end in
            match List.find (fun x => x.1 == n) flags with
            | Some (_, boolean) =>
                match value with
                | Some v => match set_flag n v f with Some f' => parse_flags args f' | None => inr 2%Z end
                | None =>
                    if boolean : bool then
                      match set_flag n "true" f with Some f' => parse_flags args f' | None => inr 2%Z end
                    else
                      match args with
                      | v :: args => match set_flag n v f with Some f' => parse_flags args f' | None => inr 2%Z end
                      | [] => inr 2%Z
                      end
                end
            | None => if (n == "help") || (n == "h") then inr 0%Z else inr 2%Z
            end
      end
  end.
End parse.

Example literals : literal_int <$> ["0x1F"; "-0b101"; "0o17"; "017"; "1_000"; "_1"; "0x_f"; "08"; "0"; "0x"; "1__0"] =
  [Some 31; Some (-5); Some 15; Some 15; Some 1000; None; Some 15; None; Some 0; None; None]%Z.
Proof. vm_compute. reflexivity. Qed.
Example scans : Sscanf_d <$> ["15"; " +7%"; "x"; "-"; ""; "3 4"] = [Some 15; Some 7; None; None; None; Some 3]%Z.
Proof. vm_compute. reflexivity. Qed.
