(* ===== verification/Url.v ===== *)
(** * URLs (Go's package net/url)

    [url.PathUnescape], and as much of [url.Parse] as decides the scheme and the
    host of a URL: the other parts are checked for the errors they can give. *)

From S2P Require Import Prelude GoStd Strings.

Definition hex_val (c : Ascii.ascii) : option nat :=
  let n := Ascii.nat_of_ascii c in
  if bool_decide (48 <= n <= 57)%nat then Some (n - 48)%nat
  else if bool_decide (97 <= n <= 102)%nat then Some (n - 87)%nat
  else if bool_decide (65 <= n <= 70)%nat then Some (n - 55)%nat
  else None.

(** [url.PathUnescape]; [None] is an error *)
Fixpoint PathUnescape (s : string) : option string :=
  match s with
  | String.EmptyString => Some ""
  | String.String "%"%char s' =>
      match s' with
      | String.String a (String.String b s'') =>
          x ← hex_val a; y ← hex_val b; t ← PathUnescape s'';
          Some (String.String (Ascii.ascii_of_nat (16 * x + y)) t)
      | _ => None
      end
  | String.String c s' => String.String c <$> PathUnescape s'
  end.

(** ** Hosts *)

Definition letter (c : Ascii.ascii) : bool :=
  let n := Ascii.nat_of_ascii c in bool_decide (65 <= n <= 90 \/ 97 <= n <= 122)%nat.
Definition one_of (l : string) (c : Ascii.ascii) : bool := existsb (fun d => d == c) (chars l).
(** the characters a host may have without an escape, [\034] is the double quote *)
Definition host_char (c : Ascii.ascii) : bool :=
  letter c || is_digit c || one_of "-_.~!$&'()*+,;=:[]<>" c || bool_decide (Ascii.nat_of_ascii c = 34)%nat.

(** [unescape] of a host, or of the zone of an IPv6 address *)
Fixpoint unescape_host (zone : bool) (s : string) : option string :=
  match s with
  | String.EmptyString => Some ""
  | String.String c s' =>
      if c == "%"%char then
        match s' with
        | String.String a (String.String b s'') =>
            x ← hex_val a; y ← hex_val b;
            let v := Ascii.ascii_of_nat (16 * x + y) in
            let percent := (a == "2"%char) && (b == "5"%char) in
            let ok := if zone then percent || (v == " "%char) || host_char v || bool_decide (128 <= 16 * x + y)%nat
                      else bool_decide (8 <= x)%nat || percent in
            if ok then String.String v <$> unescape_host zone s'' else None
        | _ => None
        end
      else if bool_decide (128 <= Ascii.nat_of_ascii c)%nat || host_char c then String.String c <$> unescape_host zone s'
      else None
  end.

Definition validOptionalPort (port : string) : bool :=
  match port with
  | String.EmptyString => true
  | String.String c digits => (c == ":"%char) && forallb is_digit (chars digits)
  end.

Definition parseHost (host : string) : option string :=
  if HasPrefix host "[" then
    i ← LastIndex host "]"%char;
    if negb (validOptionalPort (drop_str (S i) host)) then None
    else
      match strings_Index (take_str i host) "%25" with
      | Some z =>
          host1 ← unescape_host false (take_str z host);
          host2 ← unescape_host true (drop_str z (take_str i host));
          host3 ← unescape_host false (drop_str i host);
          Some (host1 +:+ host2 +:+ host3)
      | None => unescape_host false host
      end
  else
    match LastIndex host ":"%char with
    | Some i => if validOptionalPort (drop_str i host) then unescape_host false host else None
    | None => unescape_host false host
    end.

(** the characters of user information *)
Definition user_char (c : Ascii.ascii) : bool := letter c || is_digit c || one_of "-._:~!$&'()*+,;=%@" c.
Definition parseAuthority (authority : string) : option string :=
  match LastIndex authority "@"%char with
  | None => parseHost authority
  | Some i =>
      host ← parseHost (drop_str (S i) authority);
      let userinfo := take_str i authority in
      if negb (forallb user_char (chars userinfo)) then None
      else
        let '(name, password) := match cut ":"%char userinfo with Some p => p | None => (userinfo, "") end in
        PathUnescape name ;; PathUnescape password ;; Some host
  end.

(** ** url.Parse *)

(** [getScheme]: the scheme and the rest; [None]: a colon in front *)
Fixpoint scheme_from (start : bool) (acc s : string) : option (option (string * string)) :=
  match s with
  | String.EmptyString => Some None
  | String.String c s' =>
      if letter c then scheme_from false (acc +:+ str1 c) s'
      else if is_digit c || one_of "+-." c then if start then Some None else scheme_from false (acc +:+ str1 c) s'
      else if c == ":"%char then if start then None else Some (Some (acc, s'))
      else Some None
  end.

Record Url := { u_Scheme : string; u_Host : string }.

Definition control_char (c : Ascii.ascii) : bool :=
  let n := Ascii.nat_of_ascii c in bool_decide (n < 32 \/ n = 127)%nat.
Definition before (sep : Ascii.ascii) (s : string) : string := match cut sep s with Some (a, _) => a | None => s end.

Definition url_Parse (raw : string) : option Url :=
  let '(u, fragment) := match cut "#"%char raw with Some p => p | None => (raw, "") end in
  if existsb control_char (chars u) then None
  else if u == "*" then PathUnescape fragment ;; Some {| u_Scheme := ""; u_Host := "" |}
  else
    sch ← scheme_from true "" u;
    let '(scheme, rest) := match sch with Some (s, rest) => (ToLower s, rest) | None => ("", u) end in
    let rest := before "?"%char rest in
    if negb (HasPrefix rest "/") && (scheme != "") then PathUnescape fragment ;; Some {| u_Scheme := scheme; u_Host := "" |}
    else if negb (HasPrefix rest "/") && Contains (before "/"%char rest) ":" then None
    else
      let has_host := ((scheme != "") || negb (HasPrefix rest "///")) && HasPrefix rest "//" in
      let authority := if has_host then before "/"%char (drop_str 2 rest) else "" in
      let path := if has_host then drop_str (2 + String.length authority) rest else rest in
      host ← (if has_host then parseAuthority authority else Some "");
      PathUnescape path ;; PathUnescape fragment ;;
      Some {| u_Scheme := scheme; u_Host := host |}.

Definition splitHostPort (hostPort : string) : string * string :=
  let '(host, port) :=
    match LastIndex hostPort ":"%char with
    | Some i => if validOptionalPort (drop_str i hostPort) then (take_str i hostPort, drop_str (S i) hostPort) else (hostPort, "")
    | None => (hostPort, "")
    end in
  (if HasPrefix host "[" && HasSuffix host "]" then take_str (String.length host - 2) (drop_str 1 host) else host, port).
Definition Hostname (u : Url) : string := (splitHostPort u.(u_Host)).1.
Definition Port (u : Url) : string := (splitHostPort u.(u_Host)).2.

Example hosts : (fun s => (fun u => (u.(u_Scheme), Hostname u, Port u)) <$> url_Parse s) <$>
  ["http://localhost:9877"; "HTTPS://[::1]:7500/ws/worker?x#y"; "http://u:p@127.0.0.1/"; "localhost:9877"; "127.0.0.1:9877";
   "http://a b/"; "http://h:port/"; "//host/p"; "http://h%41/"; ""] =
  [Some ("http", "localhost", "9877"); Some ("https", "::1", "7500"); Some ("http", "127.0.0.1", ""); Some ("localhost", "", "");
   None; None; None; Some ("", "host", ""); None; Some ("", "", "")].
Proof. vm_compute. reflexivity. Qed.
