(* ===== verification/Json.v ===== *)
(** * encoding/json on parsed documents

    The text grammar of JSON is the standard library's; the model starts from
    the parsed document. A message on the wire is a [frame]: [None] is a byte
    sequence that is no JSON text. Decoding into a struct follows
    [json.Unmarshal]: keys match field names up to ASCII case, unknown keys
    are skipped, [null] leaves a field as it is, later duplicates win, and a
    value of the wrong kind is an error (which all callers treat alike, so
    the decoded prefix is not kept). *)

From S2P Require Import Prelude GoStd.
#[local] Set Warnings "-register-all".

(** A number is an integer literal, or any other literal kept as its text. *)
Inductive num := NInt (z : Z) | NLit (lexeme : string).

Inductive json :=
  | JNull
  | JBool (b : bool)
  | JNum (n : num)
  | JStr (s : string)
  | JArr (l : list json)
  | JObj (kvs : list (string * json)).

Definition frame := option json.

#[export] Instance num_eq_dec : EqDecision num.
Proof. solve_decision. Defined.

Definition fold_eq (a b : string) : bool := ToLower a == ToLower b.

(** A struct field: its JSON name and what decoding a value into it does. *)
Definition field (A : Type) : Type := string * (json -> A -> option A).

Definition decode_key {A} (fields : list (field A)) (acc : option A) (kv : string * json) : option A :=
  a ← acc;
  match List.find (fun f => fold_eq kv.1 f.1) fields with
  | Some f => f.2 kv.2 a
  | None => Some a
  end.

Definition decode_struct {A} (zero : A) (fields : list (field A)) (j : json) : option A :=
  match j with
  | JNull => Some zero
  | JObj kvs => foldl (decode_key fields) (Some zero) kvs
  | _ => None
  end.

(** Field decoders of the Go types the messages use. *)
Definition str_field {A} (name : string) (set : string -> A -> A) : field A :=
  (name, fun j a => match j with JNull => Some a | JStr s => Some (set s a) | _ => None end).
Definition bool_field {A} (name : string) (set : bool -> A -> A) : field A :=
  (name, fun j a => match j with JNull => Some a | JBool b => Some (set b a) | _ => None end).
(** [int] and [int64]: a literal with a fraction or out of range is an error. *)
Definition int_field {A} (name : string) (set : Z -> A -> A) : field A :=
  (name, fun j a => match j with
                    | JNull => Some a
                    | JNum (NInt z) => if in_int64 z then Some (set z a) else None
                    | _ => None end).
(** [float64], kept as the literal *)
Definition float_field {A} (name : string) (set : num -> A -> A) : field A :=
  (name, fun j a => match j with JNull => Some a | JNum n => Some (set n a) | _ => None end).
(** [json.RawMessage] takes any value, [null] included; [None] is its nil. *)
Definition raw_field {A} (name : string) (set : option json -> A -> A) : field A :=
  (name, fun j a => Some (set (Some j) a)).
(** A nested struct is decoded into its current value. *)
Definition struct_field {A B} (name : string) (get : A -> B) (set : B -> A -> A)
    (fields : list (field B)) : field A :=
  (name, fun j a => b ← decode_struct (get a) fields j; Some (set b a)).
(** A pointer to a struct: [null] makes it nil, an object allocates it. *)
Definition ptr_field {A B} (name : string) (get : A -> option B) (set : option B -> A -> A)
    (zero : B) (fields : list (field B)) : field A :=
  (name, fun j a => match j with
                    | JNull => Some (set None a)
                    | _ => b ← decode_struct (default zero (get a)) fields j; Some (set (Some b) a)
                    end).
Definition decode_slice {B} (dec : json -> option B) (l : list json) : option (list B) := mapM dec l.
Definition slice_field {A B} (name : string) (dec : json -> option B) (set : list B -> A -> A) : field A :=
  (name, fun j a => match j with
                    | JNull => Some a
                    | JArr l => bs ← decode_slice dec l; Some (set bs a)
                    | _ => None end).

(** [json.Unmarshal(data, &v)]; [None] is a non-nil error. *)
Definition Unmarshal {A} (dec : json -> option A) (m : frame) : option A := m ≫= dec.

(** Encoders: [omitempty] drops a field whose value is the zero of its type. *)
Definition omitempty (empty : bool) (k : string) (j : json) : list (string * json) :=
  if empty then [] else [(k, j)].

Definition raw_json (r : option json) : json := default JNull r.

(** Decoding the encoding of a slice element by element. *)
Lemma decode_slice_roundtrip {A} (enc : A -> json) (dec : json -> option A) (l : list A) :
  (forall a, a ∈ l -> dec (enc a) = Some a) -> decode_slice dec (enc <$> l) = Some l.
Proof.
  unfold decode_slice. intros H. induction l as [|a l IH]; [done|]. cbn.
  rewrite H by set_solver. cbn. rewrite IH by set_solver. done.
Qed.

(** Decoding an encoder's field list, one field at a time. *)
Section decode.
Context {A : Type} (fs : list (field A)).

Lemma decode_app l1 l2 a a' r :
  foldl (decode_key fs) (Some a) l1 = Some a' ->
  foldl (decode_key fs) (Some a') l2 = r ->
  foldl (decode_key fs) (Some a) (l1 ++ l2) = r.
Proof. intros H1 H2. by rewrite foldl_app, H1. Qed.

Lemma decode_one k j a a' :
  decode_key fs (Some a) (k, j) = Some a' ->
  foldl (decode_key fs) (Some a) [(k, j)] = Some a'.
Proof. done. Qed.

(** An omitted field decodes to the value it was omitted for. *)
Lemma decode_omitempty e k j a a' :
  decode_key fs (Some a) (k, j) = Some a' -> (e = true -> a' = a) ->
  foldl (decode_key fs) (Some a) (omitempty e k j) = Some a'.
Proof. intros H He. destruct e; [by rewrite He|done]. Qed.

Lemma decode_omitted k j a : foldl (decode_key fs) (Some a) (omitempty true k j) = Some a.
Proof. done. Qed.
End decode.
