(* ===== verification/Utf8.v ===== *)
(** * Strings on the wire (unicode/utf8, and what encoding/json makes of a string)

    A Go string is any sequence of bytes, a JSON text is Unicode: json.Marshal
    writes the replacement character for every byte that does not belong to a
    rune of UTF-8, and so changes such a string. [on_wire] is the document that
    results. *)

From S2P Require Import Prelude GoStd Json.
#[local] Set Warnings "-register-all".

Definition bytes_str (l : list nat) : string := String.string_of_list_ascii (Ascii.ascii_of_nat <$> l).

(** ** Runes (utf8.DecodeRuneInString) *)

Definition byte_in (lo hi : nat) (c : Ascii.ascii) : bool :=
  (lo <=? Ascii.nat_of_ascii c)%nat && (Ascii.nat_of_ascii c <=? hi)%nat.

(** The ranges of the bytes that may follow a first byte: no overlong form, no
    surrogate, nothing above U+10FFFF. *)
Definition continuation (c : Ascii.ascii) : option (list (nat * nat)) :=
  let cont := (128, 191)%nat in
  if byte_in 0 127 c then Some []
  else if byte_in 194 223 c then Some [cont]
  else if byte_in 224 224 c then Some [(160, 191)%nat; cont]
  else if byte_in 237 237 c then Some [(128, 159)%nat; cont]
  else if byte_in 225 239 c then Some [cont; cont]
  else if byte_in 240 240 c then Some [(144, 191)%nat; cont; cont]
  else if byte_in 241 243 c then Some [cont; cont; cont]
  else if byte_in 244 244 c then Some [(128, 143)%nat; cont; cont]
  else None.
Fixpoint follows (l : list (nat * nat)) (s : string) : bool :=
  match l, s with
  | [], _ => true
  | (lo, hi) :: l, String.String c s => byte_in lo hi c && follows l s
  | _ :: _, String.EmptyString => false
  end.
(** How many bytes follow the first one in the rune [c] begins, if it begins one *)
Definition rune_tail (c : Ascii.ascii) (s : string) : option nat :=
  l ← continuation c; if follows l s then Some (length l) else None.

(** [utf8.ValidString], with the bytes of the current rune still to come *)
Fixpoint valid_from (rest : nat) (s : string) : bool :=
  match s with
  | String.EmptyString => true
  | String.String c s' =>
      match rest with
      | S rest => valid_from rest s'
      | O => match rune_tail c s' with Some n => valid_from n s' | None => false end
      end
  end.
Definition ValidString (s : string) : bool := valid_from 0 s.

(** U+FFFD *)
Definition replacement_rune : string := bytes_str [239; 191; 189].

(** The contents of the JSON string written for [s] *)
Fixpoint coerce_from (rest : nat) (s : string) : string :=
  match s with
  | String.EmptyString => ""
  | String.String c s' =>
      match rest with
      | S rest => String.String c (coerce_from rest s')
      | O => match rune_tail c s' with
             | Some n => String.String c (coerce_from n s')
             | None => replacement_rune +:+ coerce_from 0 s'
             end
      end
  end.
Definition coerce_utf8 (s : string) : string := coerce_from 0 s.

(** ** Documents *)

Fixpoint valid_json (j : json) : bool :=
  match j with
  | JStr s => ValidString s
  | JArr l => forallb valid_json l
  | JObj kvs => forallb (fun '(k, v) => ValidString k && valid_json v) kvs
  | _ => true
  end.
Fixpoint on_wire (j : json) : json :=
  match j with
  | JStr s => JStr (coerce_utf8 s)
  | JArr l => JArr (List.map on_wire l)
  | JObj kvs => JObj (List.map (fun '(k, v) => (coerce_utf8 k, on_wire v)) kvs)
  | _ => j
  end.

Lemma coerce_valid_from rest s : valid_from rest s = true -> coerce_from rest s = s.
Proof.
  revert rest. induction s as [|c s IH]; [done|]. intros [|rest]; cbn.
  - destruct (rune_tail c s); [|done]. intros Hv. by rewrite IH.
  - intros Hv. by rewrite IH.
Qed.
Lemma coerce_valid s : ValidString s = true -> coerce_utf8 s = s.
Proof. apply coerce_valid_from. Qed.

(** A document of valid strings is written as it is. *)
Fixpoint on_wire_valid (j : json) : valid_json j = true -> on_wire j = j.
Proof.
  destruct j as [|b|n|s|l|kvs]; cbn [valid_json on_wire]; intros Hv; try done.
  - by rewrite coerce_valid.
  - f_equal. induction l as [|j l IH]; [done|]. cbn in *. apply andb_true_iff in Hv as [Hj Hl].
    by rewrite on_wire_valid, IH.
  - f_equal. induction kvs as [|[k j] l IH]; [done|]. cbn in *. apply andb_true_iff in Hv as [Hj Hl].
    apply andb_true_iff in Hj as [Hk Hj]. by rewrite coerce_valid, on_wire_valid, IH.
Qed.

(** Text of ASCII is valid. *)
Lemma valid_ascii s : forallb (fun c => byte_in 0 127 c) (String.list_ascii_of_string s) = true -> ValidString s = true.
Proof.
  unfold ValidString. induction s as [|c s IH]; [done|]. cbn [String.list_ascii_of_string forallb valid_from].
  intros [Hc Hs]%andb_true_iff. unfold rune_tail, continuation. rewrite Hc. cbn. auto.
Qed.

Example accents_are_valid : ValidString (bytes_str [99; 195; 169]) = true.
Proof. reflexivity. Qed.
Example lone_bytes_are_replaced : coerce_utf8 (bytes_str [97; 255; 98; 195]) = "a" +:+ replacement_rune +:+ "b" +:+ replacement_rune.
Proof. reflexivity. Qed.
