(* ===== verification/Protocol.v ===== *)
(** * The manager-worker protocol (internal/protocol)

    Messages, their JSON form both ways, and the model integrity hash. *)

From S2P Require Import Prelude GoStd Json Utf8.

(** ** Cryptographic primitives

    SHA-256 and Ed25519 are parameters; the laws are the ones the code relies
    on: digests are 32 bytes long, and a signature made with a private key
    verifies under its public key. *)
Class Crypto := {
  sha256 : string -> string;
  ed25519_sign : string -> string -> string;            (* private key, message *)
  ed25519_verify : string -> string -> string -> bool;  (* public key, message, signature *)
  ed25519_public : string -> string;                    (* public half of a private key *)
}.

Class CryptoLaws `{Crypto} := {
  sha256_length m : String.length (sha256 m) = 32%nat;
  ed25519_correct k m : ed25519_verify (ed25519_public k) m (ed25519_sign k m) = true;
}.

(** ** Message type tags *)

Definition TypeWorkUnit := "work_unit".
Definition TypeResult := "result".
Definition TypeError := "error".
Definition TypeHeartbeat := "heartbeat".
Definition TypeStatus := "status".
Definition TypeModelUpdate := "model_update".
Definition TypeLLMHashReport := "llm_hash_report".
Definition TypeBinaryUpdate := "binary_update".
Definition TypeBackendUpdate := "backend_update".
Definition TypeInitialSync := "initial_sync".
Definition TypeChallenge := "challenge".
Definition TypeSignedResponse := "signed_response".

(** ** Messages *)

Record ChatMessage := { cm_Role : string; cm_Content : string }.

Record WorkUnitParams := {
  wp_Temperature : num;
  wp_MaxTokens : Z;
  wp_ResponseFormat : option json;
}.

Record WorkUnit := {
  wu_Type : string;
  wu_ID : string;
  wu_Model : string;
  wu_Params : WorkUnitParams;
  wu_Messages : list ChatMessage;
}.

Record Result := {
  rs_Type : string;
  rs_ID : string;
  rs_Fingerprint : string;
  rs_Output : option json;
  rs_ProcessingTimeMs : Z;
  rs_Signature : string;
}.

Record Error := { er_Type : string; er_ID : string; er_Error : string }.

Record Heartbeat := { hb_Type : string }.

Record Status := {
  st_Type : string;
  st_State : string;
  st_LLMHash : string;
  st_BackendHash : string;
  st_BackendVersion : string;
  st_GPUAvg : Z;
}.

Record ModelUpdate := {
  mu_Type : string;
  mu_Role : string;
  mu_Model : string;
  mu_Quantisation : string;
  mu_Filename : string;
  mu_ModelFileHash : string;
  mu_LLMHash : string;
  mu_ContextSize : Z;
  mu_EndpointType : string;
  mu_ParallelSlots : Z;
  mu_GPULayers : Z;
  mu_FlashAttention : bool;
}.

Record LLMHashReport := { hr_Type : string; hr_LLMHash : string }.

Record BinaryUpdate := {
  bu_Type : string;
  bu_Version : string;
  bu_DownloadURL : string;
  bu_FallbackURL : string;
  bu_SHA256 : string;
}.

Record BackendUpdate := {
  bk_Type : string;
  bk_Version : string;
  bk_DownloadURL : string;
  bk_FallbackURL : string;
  bk_SHA256 : string;
}.

Record ChatCompletionRequest := {
  cr_Model : string;
  cr_Messages : list ChatMessage;
  cr_Temperature : num;
  cr_MaxTokens : Z;
  cr_ResponseFormat : option json;
}.

Record ChatCompletionChoice := {
  ch_Index : Z;
  ch_Message : ChatMessage;
  ch_FinishReason : string;
}.

Record ChatCompletionUsage := {
  us_PromptTokens : Z;
  us_CompletionTokens : Z;
  us_TotalTokens : Z;
}.

Record ChatCompletionResponse := {
  cc_ID : string;
  cc_Object : string;
  cc_Created : Z;
  cc_Model : string;
  cc_Choices : list ChatCompletionChoice;
  cc_Usage : option ChatCompletionUsage;
}.

Record InitialSync := {
  is_Type : string;
  is_HasBinary : bool;
  is_HasModel : bool;
  is_Role : string;
}.

Record Challenge := { cl_Type : string; cl_Nonce : string }.

Record SignedResponse := { sr_Type : string; sr_Nonce : string; sr_Signature : string }.

(** ** JSON form

    One zero value, one list of field decoders and one encoder per struct,
    written from its tags. *)

(** [Envelope] reads the type tag of any message. *)
Definition decode_Envelope : json -> option string :=
  decode_struct "" [str_field "type" (fun v _ => v)].

Definition zero_ChatMessage : ChatMessage := Build_ChatMessage "" "".
Definition fields_ChatMessage : list (field ChatMessage) :=
  [ str_field "role" (fun v '(Build_ChatMessage _ x1) => Build_ChatMessage v x1);
    str_field "content" (fun v '(Build_ChatMessage x0 _) => Build_ChatMessage x0 v) ].
Definition decode_ChatMessage : json -> option ChatMessage := decode_struct zero_ChatMessage fields_ChatMessage.
Definition Marshal_ChatMessage (m : ChatMessage) : json :=
  JObj ([("role", JStr m.(cm_Role))] ++
    [("content", JStr m.(cm_Content))]).

Definition zero_WorkUnitParams : WorkUnitParams := Build_WorkUnitParams (NInt 0) 0 None.
Definition fields_WorkUnitParams : list (field WorkUnitParams) :=
  [ float_field "temperature" (fun v '(Build_WorkUnitParams _ x1 x2) => Build_WorkUnitParams v x1 x2);
    int_field "max_tokens" (fun v '(Build_WorkUnitParams x0 _ x2) => Build_WorkUnitParams x0 v x2);
    raw_field "response_format" (fun v '(Build_WorkUnitParams x0 x1 _) => Build_WorkUnitParams x0 x1 v) ].
Definition decode_WorkUnitParams : json -> option WorkUnitParams := decode_struct zero_WorkUnitParams fields_WorkUnitParams.
Definition Marshal_WorkUnitParams (m : WorkUnitParams) : json :=
  JObj ([("temperature", JNum m.(wp_Temperature))] ++
    omitempty (m.(wp_MaxTokens) == 0%Z) "max_tokens" (JNum (NInt m.(wp_MaxTokens))) ++
    omitempty (match m.(wp_ResponseFormat) with None => true | Some _ => false end) "response_format" (raw_json m.(wp_ResponseFormat))).

Definition zero_WorkUnit : WorkUnit := Build_WorkUnit "" "" "" zero_WorkUnitParams [].
Definition fields_WorkUnit : list (field WorkUnit) :=
  [ str_field "type" (fun v '(Build_WorkUnit _ x1 x2 x3 x4) => Build_WorkUnit v x1 x2 x3 x4);
    str_field "id" (fun v '(Build_WorkUnit x0 _ x2 x3 x4) => Build_WorkUnit x0 v x2 x3 x4);
    str_field "model" (fun v '(Build_WorkUnit x0 x1 _ x3 x4) => Build_WorkUnit x0 x1 v x3 x4);
    struct_field "params" wu_Params (fun v '(Build_WorkUnit x0 x1 x2 _ x4) => Build_WorkUnit x0 x1 x2 v x4) fields_WorkUnitParams;
    slice_field "messages" decode_ChatMessage (fun v '(Build_WorkUnit x0 x1 x2 x3 _) => Build_WorkUnit x0 x1 x2 x3 v) ].
Definition decode_WorkUnit : json -> option WorkUnit := decode_struct zero_WorkUnit fields_WorkUnit.
Definition Marshal_WorkUnit (m : WorkUnit) : json :=
  JObj ([("type", JStr m.(wu_Type))] ++
    [("id", JStr m.(wu_ID))] ++
    [("model", JStr m.(wu_Model))] ++
    [("params", Marshal_WorkUnitParams m.(wu_Params))] ++
    [("messages", JArr (Marshal_ChatMessage <$> m.(wu_Messages)))]).

Definition zero_Result : Result := Build_Result "" "" "" None 0 "".
Definition fields_Result : list (field Result) :=
  [ str_field "type" (fun v '(Build_Result _ x1 x2 x3 x4 x5) => Build_Result v x1 x2 x3 x4 x5);
    str_field "id" (fun v '(Build_Result x0 _ x2 x3 x4 x5) => Build_Result x0 v x2 x3 x4 x5);
    str_field "fingerprint" (fun v '(Build_Result x0 x1 _ x3 x4 x5) => Build_Result x0 x1 v x3 x4 x5);
    raw_field "output" (fun v '(Build_Result x0 x1 x2 _ x4 x5) => Build_Result x0 x1 x2 v x4 x5);
    int_field "processing_time_ms" (fun v '(Build_Result x0 x1 x2 x3 _ x5) => Build_Result x0 x1 x2 x3 v x5);
    str_field "signature" (fun v '(Build_Result x0 x1 x2 x3 x4 _) => Build_Result x0 x1 x2 x3 x4 v) ].
Definition decode_Result : json -> option Result := decode_struct zero_Result fields_Result.
Definition Marshal_Result (m : Result) : json :=
  JObj ([("type", JStr m.(rs_Type))] ++
    [("id", JStr m.(rs_ID))] ++
    [("fingerprint", JStr m.(rs_Fingerprint))] ++
    [("output", raw_json m.(rs_Output))] ++
    [("processing_time_ms", JNum (NInt m.(rs_ProcessingTimeMs)))] ++
    [("signature", JStr m.(rs_Signature))]).

Definition zero_Error : Error := Build_Error "" "" "".
Definition fields_Error : list (field Error) :=
  [ str_field "type" (fun v '(Build_Error _ x1 x2) => Build_Error v x1 x2);
    str_field "id" (fun v '(Build_Error x0 _ x2) => Build_Error x0 v x2);
    str_field "error" (fun v '(Build_Error x0 x1 _) => Build_Error x0 x1 v) ].
Definition decode_Error : json -> option Error := decode_struct zero_Error fields_Error.
Definition Marshal_Error (m : Error) : json :=
  JObj ([("type", JStr m.(er_Type))] ++
    [("id", JStr m.(er_ID))] ++
    [("error", JStr m.(er_Error))]).

Definition zero_Heartbeat : Heartbeat := Build_Heartbeat "".
Definition fields_Heartbeat : list (field Heartbeat) :=
  [ str_field "type" (fun v '(Build_Heartbeat _) => Build_Heartbeat v) ].
Definition decode_Heartbeat : json -> option Heartbeat := decode_struct zero_Heartbeat fields_Heartbeat.
Definition Marshal_Heartbeat (m : Heartbeat) : json :=
  JObj ([("type", JStr m.(hb_Type))]).

Definition zero_Status : Status := Build_Status "" "" "" "" "" 0.
Definition fields_Status : list (field Status) :=
  [ str_field "type" (fun v '(Build_Status _ x1 x2 x3 x4 x5) => Build_Status v x1 x2 x3 x4 x5);
    str_field "state" (fun v '(Build_Status x0 _ x2 x3 x4 x5) => Build_Status x0 v x2 x3 x4 x5);
    str_field "llm_hash" (fun v '(Build_Status x0 x1 _ x3 x4 x5) => Build_Status x0 x1 v x3 x4 x5);
    str_field "backend_hash" (fun v '(Build_Status x0 x1 x2 _ x4 x5) => Build_Status x0 x1 x2 v x4 x5);
    str_field "backend_version" (fun v '(Build_Status x0 x1 x2 x3 _ x5) => Build_Status x0 x1 x2 x3 v x5);
    int_field "gpu_avg" (fun v '(Build_Status x0 x1 x2 x3 x4 _) => Build_Status x0 x1 x2 x3 x4 v) ].
Definition decode_Status : json -> option Status := decode_struct zero_Status fields_Status.
Definition Marshal_Status (m : Status) : json :=
  JObj ([("type", JStr m.(st_Type))] ++
    [("state", JStr m.(st_State))] ++
    omitempty (m.(st_LLMHash) == "") "llm_hash" (JStr m.(st_LLMHash)) ++
    omitempty (m.(st_BackendHash) == "") "backend_hash" (JStr m.(st_BackendHash)) ++
    omitempty (m.(st_BackendVersion) == "") "backend_version" (JStr m.(st_BackendVersion)) ++
    omitempty (m.(st_GPUAvg) == 0%Z) "gpu_avg" (JNum (NInt m.(st_GPUAvg)))).

Definition zero_ModelUpdate : ModelUpdate := Build_ModelUpdate "" "" "" "" "" "" "" 0 "" 0 0 false.
Definition fields_ModelUpdate : list (field ModelUpdate) :=
  [ str_field "type" (fun v '(Build_ModelUpdate _ x1 x2 x3 x4 x5 x6 x7 x8 x9 x10 x11) => Build_ModelUpdate v x1 x2 x3 x4 x5 x6 x7 x8 x9 x10 x11);
    str_field "role" (fun v '(Build_ModelUpdate x0 _ x2 x3 x4 x5 x6 x7 x8 x9 x10 x11) => Build_ModelUpdate x0 v x2 x3 x4 x5 x6 x7 x8 x9 x10 x11);
    str_field "model" (fun v '(Build_ModelUpdate x0 x1 _ x3 x4 x5 x6 x7 x8 x9 x10 x11) => Build_ModelUpdate x0 x1 v x3 x4 x5 x6 x7 x8 x9 x10 x11);
    str_field "quantisation" (fun v '(Build_ModelUpdate x0 x1 x2 _ x4 x5 x6 x7 x8 x9 x10 x11) => Build_ModelUpdate x0 x1 x2 v x4 x5 x6 x7 x8 x9 x10 x11);
    str_field "filename" (fun v '(Build_ModelUpdate x0 x1 x2 x3 _ x5 x6 x7 x8 x9 x10 x11) => Build_ModelUpdate x0 x1 x2 x3 v x5 x6 x7 x8 x9 x10 x11);
    str_field "model_file_hash" (fun v '(Build_ModelUpdate x0 x1 x2 x3 x4 _ x6 x7 x8 x9 x10 x11) => Build_ModelUpdate x0 x1 x2 x3 x4 v x6 x7 x8 x9 x10 x11);
    str_field "llm_hash" (fun v '(Build_ModelUpdate x0 x1 x2 x3 x4 x5 _ x7 x8 x9 x10 x11) => Build_ModelUpdate x0 x1 x2 x3 x4 x5 v x7 x8 x9 x10 x11);
    int_field "context_size" (fun v '(Build_ModelUpdate x0 x1 x2 x3 x4 x5 x6 _ x8 x9 x10 x11) => Build_ModelUpdate x0 x1 x2 x3 x4 x5 x6 v x8 x9 x10 x11);
    str_field "endpoint_type" (fun v '(Build_ModelUpdate x0 x1 x2 x3 x4 x5 x6 x7 _ x9 x10 x11) => Build_ModelUpdate x0 x1 x2 x3 x4 x5 x6 x7 v x9 x10 x11);
    int_field "parallel_slots" (fun v '(Build_ModelUpdate x0 x1 x2 x3 x4 x5 x6 x7 x8 _ x10 x11) => Build_ModelUpdate x0 x1 x2 x3 x4 x5 x6 x7 x8 v x10 x11);
    int_field "gpu_layers" (fun v '(Build_ModelUpdate x0 x1 x2 x3 x4 x5 x6 x7 x8 x9 _ x11) => Build_ModelUpdate x0 x1 x2 x3 x4 x5 x6 x7 x8 x9 v x11);
    bool_field "flash_attention" (fun v '(Build_ModelUpdate x0 x1 x2 x3 x4 x5 x6 x7 x8 x9 x10 _) => Build_ModelUpdate x0 x1 x2 x3 x4 x5 x6 x7 x8 x9 x10 v) ].
Definition decode_ModelUpdate : json -> option ModelUpdate := decode_struct zero_ModelUpdate fields_ModelUpdate.
Definition Marshal_ModelUpdate (m : ModelUpdate) : json :=
  JObj ([("type", JStr m.(mu_Type))] ++
    [("role", JStr m.(mu_Role))] ++
    [("model", JStr m.(mu_Model))] ++
    [("quantisation", JStr m.(mu_Quantisation))] ++
    [("filename", JStr m.(mu_Filename))] ++
    [("model_file_hash", JStr m.(mu_ModelFileHash))] ++
    [("llm_hash", JStr m.(mu_LLMHash))] ++
    omitempty (m.(mu_ContextSize) == 0%Z) "context_size" (JNum (NInt m.(mu_ContextSize))) ++
    omitempty (m.(mu_EndpointType) == "") "endpoint_type" (JStr m.(mu_EndpointType)) ++
    omitempty (m.(mu_ParallelSlots) == 0%Z) "parallel_slots" (JNum (NInt m.(mu_ParallelSlots))) ++
    omitempty (m.(mu_GPULayers) == 0%Z) "gpu_layers" (JNum (NInt m.(mu_GPULayers))) ++
    omitempty (negb m.(mu_FlashAttention)) "flash_attention" (JBool m.(mu_FlashAttention))).

Definition zero_LLMHashReport : LLMHashReport := Build_LLMHashReport "" "".
Definition fields_LLMHashReport : list (field LLMHashReport) :=
  [ str_field "type" (fun v '(Build_LLMHashReport _ x1) => Build_LLMHashReport v x1);
    str_field "llm_hash" (fun v '(Build_LLMHashReport x0 _) => Build_LLMHashReport x0 v) ].
Definition decode_LLMHashReport : json -> option LLMHashReport := decode_struct zero_LLMHashReport fields_LLMHashReport.
Definition Marshal_LLMHashReport (m : LLMHashReport) : json :=
  JObj ([("type", JStr m.(hr_Type))] ++
    [("llm_hash", JStr m.(hr_LLMHash))]).

Definition zero_BinaryUpdate : BinaryUpdate := Build_BinaryUpdate "" "" "" "" "".
Definition fields_BinaryUpdate : list (field BinaryUpdate) :=
  [ str_field "type" (fun v '(Build_BinaryUpdate _ x1 x2 x3 x4) => Build_BinaryUpdate v x1 x2 x3 x4);
    str_field "version" (fun v '(Build_BinaryUpdate x0 _ x2 x3 x4) => Build_BinaryUpdate x0 v x2 x3 x4);
    str_field "download_url" (fun v '(Build_BinaryUpdate x0 x1 _ x3 x4) => Build_BinaryUpdate x0 x1 v x3 x4);
    str_field "fallback_url" (fun v '(Build_BinaryUpdate x0 x1 x2 _ x4) => Build_BinaryUpdate x0 x1 x2 v x4);
    str_field "sha256" (fun v '(Build_BinaryUpdate x0 x1 x2 x3 _) => Build_BinaryUpdate x0 x1 x2 x3 v) ].
Definition decode_BinaryUpdate : json -> option BinaryUpdate := decode_struct zero_BinaryUpdate fields_BinaryUpdate.
Definition Marshal_BinaryUpdate (m : BinaryUpdate) : json :=
  JObj ([("type", JStr m.(bu_Type))] ++
    [("version", JStr m.(bu_Version))] ++
    [("download_url", JStr m.(bu_DownloadURL))] ++
    [("fallback_url", JStr m.(bu_FallbackURL))] ++
    [("sha256", JStr m.(bu_SHA256))]).

Definition zero_BackendUpdate : BackendUpdate := Build_BackendUpdate "" "" "" "" "".
Definition fields_BackendUpdate : list (field BackendUpdate) :=
  [ str_field "type" (fun v '(Build_BackendUpdate _ x1 x2 x3 x4) => Build_BackendUpdate v x1 x2 x3 x4);
    str_field "version" (fun v '(Build_BackendUpdate x0 _ x2 x3 x4) => Build_BackendUpdate x0 v x2 x3 x4);
    str_field "download_url" (fun v '(Build_BackendUpdate x0 x1 _ x3 x4) => Build_BackendUpdate x0 x1 v x3 x4);
    str_field "fallback_url" (fun v '(Build_BackendUpdate x0 x1 x2 _ x4) => Build_BackendUpdate x0 x1 x2 v x4);
    str_field "sha256" (fun v '(Build_BackendUpdate x0 x1 x2 x3 _) => Build_BackendUpdate x0 x1 x2 x3 v) ].
Definition decode_BackendUpdate : json -> option BackendUpdate := decode_struct zero_BackendUpdate fields_BackendUpdate.
Definition Marshal_BackendUpdate (m : BackendUpdate) : json :=
  JObj ([("type", JStr m.(bk_Type))] ++
    [("version", JStr m.(bk_Version))] ++
    [("download_url", JStr m.(bk_DownloadURL))] ++
    [("fallback_url", JStr m.(bk_FallbackURL))] ++
    [("sha256", JStr m.(bk_SHA256))]).

Definition zero_ChatCompletionRequest : ChatCompletionRequest := Build_ChatCompletionRequest "" [] (NInt 0) 0 None.
Definition fields_ChatCompletionRequest : list (field ChatCompletionRequest) :=
  [ str_field "model" (fun v '(Build_ChatCompletionRequest _ x1 x2 x3 x4) => Build_ChatCompletionRequest v x1 x2 x3 x4);
    slice_field "messages" decode_ChatMessage (fun v '(Build_ChatCompletionRequest x0 _ x2 x3 x4) => Build_ChatCompletionRequest x0 v x2 x3 x4);
    float_field "temperature" (fun v '(Build_ChatCompletionRequest x0 x1 _ x3 x4) => Build_ChatCompletionRequest x0 x1 v x3 x4);
    int_field "max_tokens" (fun v '(Build_ChatCompletionRequest x0 x1 x2 _ x4) => Build_ChatCompletionRequest x0 x1 x2 v x4);
    raw_field "response_format" (fun v '(Build_ChatCompletionRequest x0 x1 x2 x3 _) => Build_ChatCompletionRequest x0 x1 x2 x3 v) ].
Definition decode_ChatCompletionRequest : json -> option ChatCompletionRequest := decode_struct zero_ChatCompletionRequest fields_ChatCompletionRequest.
Definition Marshal_ChatCompletionRequest (m : ChatCompletionRequest) : json :=
  JObj ([("model", JStr m.(cr_Model))] ++
    [("messages", JArr (Marshal_ChatMessage <$> m.(cr_Messages)))] ++
    [("temperature", JNum m.(cr_Temperature))] ++
    omitempty (m.(cr_MaxTokens) == 0%Z) "max_tokens" (JNum (NInt m.(cr_MaxTokens))) ++
    omitempty (match m.(cr_ResponseFormat) with None => true | Some _ => false end) "response_format" (raw_json m.(cr_ResponseFormat))).

Definition zero_ChatCompletionChoice : ChatCompletionChoice := Build_ChatCompletionChoice 0 zero_ChatMessage "".
Definition fields_ChatCompletionChoice : list (field ChatCompletionChoice) :=
  [ int_field "index" (fun v '(Build_ChatCompletionChoice _ x1 x2) => Build_ChatCompletionChoice v x1 x2);
    struct_field "message" ch_Message (fun v '(Build_ChatCompletionChoice x0 _ x2) => Build_ChatCompletionChoice x0 v x2) fields_ChatMessage;
    str_field "finish_reason" (fun v '(Build_ChatCompletionChoice x0 x1 _) => Build_ChatCompletionChoice x0 x1 v) ].
Definition decode_ChatCompletionChoice : json -> option ChatCompletionChoice := decode_struct zero_ChatCompletionChoice fields_ChatCompletionChoice.
Definition Marshal_ChatCompletionChoice (m : ChatCompletionChoice) : json :=
  JObj ([("index", JNum (NInt m.(ch_Index)))] ++
    [("message", Marshal_ChatMessage m.(ch_Message))] ++
    [("finish_reason", JStr m.(ch_FinishReason))]).

Definition zero_ChatCompletionUsage : ChatCompletionUsage := Build_ChatCompletionUsage 0 0 0.
Definition fields_ChatCompletionUsage : list (field ChatCompletionUsage) :=
  [ int_field "prompt_tokens" (fun v '(Build_ChatCompletionUsage _ x1 x2) => Build_ChatCompletionUsage v x1 x2);
    int_field "completion_tokens" (fun v '(Build_ChatCompletionUsage x0 _ x2) => Build_ChatCompletionUsage x0 v x2);
    int_field "total_tokens" (fun v '(Build_ChatCompletionUsage x0 x1 _) => Build_ChatCompletionUsage x0 x1 v) ].
Definition decode_ChatCompletionUsage : json -> option ChatCompletionUsage := decode_struct zero_ChatCompletionUsage fields_ChatCompletionUsage.
Definition Marshal_ChatCompletionUsage (m : ChatCompletionUsage) : json :=
  JObj ([("prompt_tokens", JNum (NInt m.(us_PromptTokens)))] ++
    [("completion_tokens", JNum (NInt m.(us_CompletionTokens)))] ++
    [("total_tokens", JNum (NInt m.(us_TotalTokens)))]).

Definition zero_ChatCompletionResponse : ChatCompletionResponse := Build_ChatCompletionResponse "" "" 0 "" [] None.
Definition fields_ChatCompletionResponse : list (field ChatCompletionResponse) :=
  [ str_field "id" (fun v '(Build_ChatCompletionResponse _ x1 x2 x3 x4 x5) => Build_ChatCompletionResponse v x1 x2 x3 x4 x5);
    str_field "object" (fun v '(Build_ChatCompletionResponse x0 _ x2 x3 x4 x5) => Build_ChatCompletionResponse x0 v x2 x3 x4 x5);
    int_field "created" (fun v '(Build_ChatCompletionResponse x0 x1 _ x3 x4 x5) => Build_ChatCompletionResponse x0 x1 v x3 x4 x5);
    str_field "model" (fun v '(Build_ChatCompletionResponse x0 x1 x2 _ x4 x5) => Build_ChatCompletionResponse x0 x1 x2 v x4 x5);
    slice_field "choices" decode_ChatCompletionChoice (fun v '(Build_ChatCompletionResponse x0 x1 x2 x3 _ x5) => Build_ChatCompletionResponse x0 x1 x2 x3 v x5);
    ptr_field "usage" cc_Usage (fun v '(Build_ChatCompletionResponse x0 x1 x2 x3 x4 _) => Build_ChatCompletionResponse x0 x1 x2 x3 x4 v) zero_ChatCompletionUsage fields_ChatCompletionUsage ].
Definition decode_ChatCompletionResponse : json -> option ChatCompletionResponse := decode_struct zero_ChatCompletionResponse fields_ChatCompletionResponse.
Definition Marshal_ChatCompletionResponse (m : ChatCompletionResponse) : json :=
  JObj ([("id", JStr m.(cc_ID))] ++
    [("object", JStr m.(cc_Object))] ++
    [("created", JNum (NInt m.(cc_Created)))] ++
    [("model", JStr m.(cc_Model))] ++
    [("choices", JArr (Marshal_ChatCompletionChoice <$> m.(cc_Choices)))] ++
    omitempty (match m.(cc_Usage) with None => true | Some _ => false end) "usage" (default JNull (Marshal_ChatCompletionUsage <$> m.(cc_Usage)))).

Definition zero_InitialSync : InitialSync := Build_InitialSync "" false false "".
Definition fields_InitialSync : list (field InitialSync) :=
  [ str_field "type" (fun v '(Build_InitialSync _ x1 x2 x3) => Build_InitialSync v x1 x2 x3);
    bool_field "has_binary" (fun v '(Build_InitialSync x0 _ x2 x3) => Build_InitialSync x0 v x2 x3);
    bool_field "has_model" (fun v '(Build_InitialSync x0 x1 _ x3) => Build_InitialSync x0 x1 v x3);
    str_field "role" (fun v '(Build_InitialSync x0 x1 x2 _) => Build_InitialSync x0 x1 x2 v) ].
Definition decode_InitialSync : json -> option InitialSync := decode_struct zero_InitialSync fields_InitialSync.
Definition Marshal_InitialSync (m : InitialSync) : json :=
  JObj ([("type", JStr m.(is_Type))] ++
    [("has_binary", JBool m.(is_HasBinary))] ++
    [("has_model", JBool m.(is_HasModel))] ++
    [("role", JStr m.(is_Role))]).

Definition zero_Challenge : Challenge := Build_Challenge "" "".
Definition fields_Challenge : list (field Challenge) :=
  [ str_field "type" (fun v '(Build_Challenge _ x1) => Build_Challenge v x1);
    str_field "nonce" (fun v '(Build_Challenge x0 _) => Build_Challenge x0 v) ].
Definition decode_Challenge : json -> option Challenge := decode_struct zero_Challenge fields_Challenge.
Definition Marshal_Challenge (m : Challenge) : json :=
  JObj ([("type", JStr m.(cl_Type))] ++
    [("nonce", JStr m.(cl_Nonce))]).

Definition zero_SignedResponse : SignedResponse := Build_SignedResponse "" "" "".
Definition fields_SignedResponse : list (field SignedResponse) :=
  [ str_field "type" (fun v '(Build_SignedResponse _ x1 x2) => Build_SignedResponse v x1 x2);
    str_field "nonce" (fun v '(Build_SignedResponse x0 _ x2) => Build_SignedResponse x0 v x2);
    str_field "signature" (fun v '(Build_SignedResponse x0 x1 _) => Build_SignedResponse x0 x1 v) ].
Definition decode_SignedResponse : json -> option SignedResponse := decode_struct zero_SignedResponse fields_SignedResponse.
Definition Marshal_SignedResponse (m : SignedResponse) : json :=
  JObj ([("type", JStr m.(sr_Type))] ++
    [("nonce", JStr m.(sr_Nonce))] ++
    [("signature", JStr m.(sr_Signature))]).

(** ** Messages by type tag

    What the read loops of both ends dispatch on. *)

Inductive ManagerMessage :=
  | MWorkUnit (m : WorkUnit)
  | MModelUpdate (m : ModelUpdate)
  | MBinaryUpdate (m : BinaryUpdate)
  | MBackendUpdate (m : BackendUpdate)
  | MHeartbeat (m : Heartbeat)
  | MChallenge (m : Challenge).

Inductive WorkerMessage :=
  | WResult (m : Result)
  | WError (m : Error)
  | WHeartbeat (m : Heartbeat)
  | WStatus (m : Status)
  | WLLMHashReport (m : LLMHashReport)
  | WInitialSync (m : InitialSync)
  | WSignedResponse (m : SignedResponse).

(** [conn.WriteJSON(msg)] *)
Definition encode_ManagerMessage (m : ManagerMessage) : json :=
  match m with
  | MWorkUnit m => Marshal_WorkUnit m
  | MModelUpdate m => Marshal_ModelUpdate m
  | MBinaryUpdate m => Marshal_BinaryUpdate m
  | MBackendUpdate m => Marshal_BackendUpdate m
  | MHeartbeat m => Marshal_Heartbeat m
  | MChallenge m => Marshal_Challenge m
  end.

Definition encode_WorkerMessage (m : WorkerMessage) : json :=
  match m with
  | WResult m => Marshal_Result m
  | WError m => Marshal_Error m
  | WHeartbeat m => Marshal_Heartbeat m
  | WStatus m => Marshal_Status m
  | WLLMHashReport m => Marshal_LLMHashReport m
  | WInitialSync m => Marshal_InitialSync m
  | WSignedResponse m => Marshal_SignedResponse m
  end.

(** The [switch envelope.Type] of a read loop: an undecodable or unknown
    message is logged and skipped ([None]). *)
Definition decode_ManagerMessage (m : frame) : option ManagerMessage :=
  ty ← Unmarshal decode_Envelope m;
  if ty == TypeWorkUnit then MWorkUnit <$> Unmarshal decode_WorkUnit m
  else if ty == TypeModelUpdate then MModelUpdate <$> Unmarshal decode_ModelUpdate m
  else if ty == TypeBinaryUpdate then MBinaryUpdate <$> Unmarshal decode_BinaryUpdate m
  else if ty == TypeBackendUpdate then MBackendUpdate <$> Unmarshal decode_BackendUpdate m
  else if ty == TypeChallenge then MChallenge <$> Unmarshal decode_Challenge m
  else if ty == TypeHeartbeat then Some (MHeartbeat {| hb_Type := ty |})
  else None.

Definition decode_WorkerMessage (m : frame) : option WorkerMessage :=
  ty ← Unmarshal decode_Envelope m;
  if ty == TypeResult then WResult <$> Unmarshal decode_Result m
  else if ty == TypeError then WError <$> Unmarshal decode_Error m
  else if ty == TypeHeartbeat then Some (WHeartbeat {| hb_Type := ty |})
  else if ty == TypeStatus then WStatus <$> Unmarshal decode_Status m
  else if ty == TypeLLMHashReport then WLLMHashReport <$> Unmarshal decode_LLMHashReport m
  else if ty == TypeInitialSync then WInitialSync <$> Unmarshal decode_InitialSync m
  else None.

(** ** Model integrity hash (hash.go) *)

Definition ComputeLLMHash `{Crypto} (role modelFileHash : string) : string :=
  hex_EncodeToString (sha256 (role +:+ ":" +:+ modelFileHash)).

(** [HashFile] of a file whose content could be read; [None] is the error of
    opening or reading it. *)
Definition HashFile `{Crypto} (content : option string) : option string :=
  c ← content; Some (hex_EncodeToString (sha256 c)).

Lemma length_ComputeLLMHash `{CryptoLaws} role h : String.length (ComputeLLMHash role h) = 64%nat.
Proof. unfold ComputeLLMHash. by rewrite length_hex, sha256_length. Qed.

(** ** Decoding what was encoded *)

Ltac decode_key_tac :=
  cbv -[in_int64 decode_slice fmap list_fmap decode_struct
        zero_WorkUnitParams fields_WorkUnitParams Marshal_WorkUnitParams
        zero_ChatMessage fields_ChatMessage Marshal_ChatMessage decode_ChatMessage
        zero_ChatCompletionUsage fields_ChatCompletionUsage Marshal_ChatCompletionUsage
        Marshal_ChatCompletionChoice decode_ChatCompletionChoice];
  repeat match goal with
         | H : in_int64 ?z = true |- context [in_int64 ?z] => rewrite H
         | H : _ = Some _ |- _ => rewrite H; cbv beta iota
         end;
  reflexivity.

Ltac omitted_tac :=
  let H := fresh in intros H;
  first [apply bool_decide_eq_true_1 in H | apply negb_true_iff in H | idtac];
  cbn in H; first [discriminate | by subst].

Ltac decode_field :=
  first [apply decode_omitted
        | apply decode_one; decode_key_tac
        | eapply decode_omitempty; [decode_key_tac|omitted_tac]].
Ltac decode_fields :=
  cbn [rs_ProcessingTimeMs st_GPUAvg mu_ContextSize mu_ParallelSlots mu_GPULayers ch_Index
       wu_Params] in *;
  repeat first [eapply decode_app; [decode_field|] | decode_field].

(** The machine-integer fields of a message fit, and raw fields are present. *)
Definition wf_params (p : WorkUnitParams) : Prop := in_int64 p.(wp_MaxTokens) = true.
Definition wf_manager_message (m : ManagerMessage) : Prop :=
  match m with
  | MWorkUnit m => wf_params m.(wu_Params) /\ m.(wu_Type) = TypeWorkUnit
  | MModelUpdate m =>
      in_int64 m.(mu_ContextSize) = true /\ in_int64 m.(mu_ParallelSlots) = true /\
      in_int64 m.(mu_GPULayers) = true /\ m.(mu_Type) = TypeModelUpdate
  | MBinaryUpdate m => m.(bu_Type) = TypeBinaryUpdate
  | MBackendUpdate m => m.(bk_Type) = TypeBackendUpdate
  | MHeartbeat m => m.(hb_Type) = TypeHeartbeat
  | MChallenge m => m.(cl_Type) = TypeChallenge
  end.
Definition wf_worker_message (m : WorkerMessage) : Prop :=
  match m with
  | WResult m => in_int64 m.(rs_ProcessingTimeMs) = true /\ is_Some m.(rs_Output) /\
                 m.(rs_Type) = TypeResult
  | WError m => m.(er_Type) = TypeError
  | WHeartbeat m => m.(hb_Type) = TypeHeartbeat
  | WStatus m => in_int64 m.(st_GPUAvg) = true /\ m.(st_Type) = TypeStatus
  | WLLMHashReport m => m.(hr_Type) = TypeLLMHashReport
  | WInitialSync m => m.(is_Type) = TypeInitialSync
  | WSignedResponse m => m.(sr_Type) = TypeSignedResponse
  end.

Lemma decode_ChatMessage_Marshal m : decode_ChatMessage (Marshal_ChatMessage m) = Some m.
Proof. destruct m. unfold decode_ChatMessage, Marshal_ChatMessage, zero_ChatMessage, fields_ChatMessage; cbn [decode_struct]. decode_fields. Qed.

Lemma decode_Params_Marshal p : wf_params p ->
  decode_struct zero_WorkUnitParams fields_WorkUnitParams (Marshal_WorkUnitParams p) = Some p.
Proof.
  destruct p as [t k r]. unfold wf_params. cbn [wp_MaxTokens]. intros H.
  unfold Marshal_WorkUnitParams, zero_WorkUnitParams, fields_WorkUnitParams; cbn [decode_struct].
  destruct r as [j|]. { decode_fields. } decode_fields.
Qed.
Lemma decode_messages_Marshal l : decode_slice decode_ChatMessage (Marshal_ChatMessage <$> l) = Some l.
Proof. apply decode_slice_roundtrip. auto using decode_ChatMessage_Marshal. Qed.

Lemma decode_WorkUnit_Marshal m : wf_params m.(wu_Params) ->
  decode_WorkUnit (Marshal_WorkUnit m) = Some m.
Proof.
  destruct m as [ty i mo p ms]. intros Hp%decode_Params_Marshal.
  pose proof (decode_messages_Marshal ms) as Hms. unfold decode_WorkUnit, Marshal_WorkUnit; cbn [decode_struct].
  decode_fields.
Qed.
Lemma decode_Result_Marshal m : in_int64 m.(rs_ProcessingTimeMs) = true -> is_Some m.(rs_Output) ->
  decode_Result (Marshal_Result m) = Some m.
Proof.
  destruct m as [ty i f o t s]. intros H [j Hj]. cbn in Hj. subst o. unfold decode_Result, Marshal_Result; cbn [decode_struct].
  decode_fields.
Qed.
Lemma decode_Status_Marshal m : in_int64 m.(st_GPUAvg) = true -> decode_Status (Marshal_Status m) = Some m.
Proof.
  destruct m as [ty s h bh bv g]. intros H. unfold decode_Status, Marshal_Status; cbn [decode_struct].
  decode_fields.
Qed.
Lemma decode_ModelUpdate_Marshal m :
  in_int64 m.(mu_ContextSize) = true -> in_int64 m.(mu_ParallelSlots) = true ->
  in_int64 m.(mu_GPULayers) = true -> decode_ModelUpdate (Marshal_ModelUpdate m) = Some m.
Proof.
  destruct m. intros H1 H2 H3. unfold decode_ModelUpdate, Marshal_ModelUpdate; cbn [decode_struct].
  decode_fields.
Qed.

Lemma decode_InitialSync_Marshal m : decode_InitialSync (Marshal_InitialSync m) = Some m.
Proof. destruct m. unfold decode_InitialSync, Marshal_InitialSync; cbn [decode_struct]. decode_fields. Qed.

Lemma decode_Choice_Marshal c : in_int64 c.(ch_Index) = true ->
  decode_ChatCompletionChoice (Marshal_ChatCompletionChoice c) = Some c.
Proof.
  destruct c as [i m r]. intros H. pose proof (decode_ChatMessage_Marshal m : decode_struct zero_ChatMessage fields_ChatMessage _ = _) as Hm.
  unfold decode_ChatCompletionChoice, Marshal_ChatCompletionChoice; cbn [decode_struct]. decode_fields.
Qed.

Lemma decode_choices_Marshal l : Forall (fun c => in_int64 c.(ch_Index) = true) l ->
  decode_slice decode_ChatCompletionChoice (Marshal_ChatCompletionChoice <$> l) = Some l.
Proof.
  unfold decode_slice. induction 1 as [|c l Hc _ IH]; [done|].
  cbn [fmap list_fmap mapM]. change (list_fmap _ _ Marshal_ChatCompletionChoice l) with (Marshal_ChatCompletionChoice <$> l).
  by rewrite decode_Choice_Marshal, IH.
Qed.

Definition wf_usage (u : ChatCompletionUsage) : Prop :=
  in_int64 u.(us_PromptTokens) = true /\ in_int64 u.(us_CompletionTokens) = true /\
  in_int64 u.(us_TotalTokens) = true.
Definition wf_response (c : ChatCompletionResponse) : Prop :=
  in_int64 c.(cc_Created) = true /\ Forall (fun x => in_int64 x.(ch_Index) = true) c.(cc_Choices) /\
  forall u, c.(cc_Usage) = Some u -> wf_usage u.

Lemma decode_Usage_Marshal u : wf_usage u ->
  decode_struct zero_ChatCompletionUsage fields_ChatCompletionUsage (Marshal_ChatCompletionUsage u) = Some u.
Proof.
  destruct u as [a b c]. intros (H1 & H2 & H3). cbn [us_PromptTokens us_CompletionTokens us_TotalTokens] in *.
  unfold Marshal_ChatCompletionUsage, zero_ChatCompletionUsage, fields_ChatCompletionUsage; cbn [decode_struct].
  decode_fields.
Qed.

(** A completion response survives its encoding. *)
Lemma decode_Response_Marshal c : wf_response c ->
  decode_ChatCompletionResponse (Marshal_ChatCompletionResponse c) = Some c.
Proof.
  destruct c as [i o cr mo ch us]. intros (H1 & H2%decode_choices_Marshal & H3).
  cbn [cc_Created cc_Choices cc_Usage] in *.
  unfold decode_ChatCompletionResponse, Marshal_ChatCompletionResponse; cbn [decode_struct].
  destruct us as [u|].
  - specialize (H3 u eq_refl). apply decode_Usage_Marshal in H3.
    assert (Hu : exists kvs, Marshal_ChatCompletionUsage u = JObj kvs) by (by eexists).
    destruct Hu as [kvs Hu]. rewrite Hu in H3. decode_fields. cbn [omitempty fmap option_fmap option_map default].
    unfold omitempty. cbn. rewrite Hu. clear Hu.
    decode_key_tac.
  - decode_fields.
Qed.

Lemma decode_Envelope_skip t rest :
  Forall (fun kv : string * json => fold_eq kv.1 "type" = false) rest ->
  decode_Envelope (JObj (("type", JStr t) :: rest)) = Some t.
Proof.
  intros Hrest. unfold decode_Envelope, decode_struct. cbn [foldl].
  replace (decode_key _ (Some "") ("type", JStr t)) with (Some t) by reflexivity.
  induction Hrest as [|kv rest Hkv _ IH]; [done|]. cbn [foldl].
  replace (decode_key _ (Some t) kv) with (Some t); [done|].
  unfold decode_key. cbn. by rewrite Hkv.
Qed.

Lemma fold_eq_omitempty e k j :
  fold_eq k "type" = false ->
  Forall (fun kv : string * json => fold_eq kv.1 "type" = false) (omitempty e k j).
Proof. intros. destruct e; repeat constructor; done. Qed.

Ltac envelope_tac :=
  apply decode_Envelope_skip; cbn [app];
  repeat first [ apply Forall_nil_2
               | apply Forall_app_2
               | apply fold_eq_omitempty; reflexivity
               | apply Forall_cons_2; [reflexivity|] ].

Lemma decode_Envelope_manager m : wf_manager_message m ->
  decode_Envelope (encode_ManagerMessage m) =
    Some (match m with
          | MWorkUnit _ => TypeWorkUnit | MModelUpdate _ => TypeModelUpdate
          | MBinaryUpdate _ => TypeBinaryUpdate | MBackendUpdate _ => TypeBackendUpdate
          | MHeartbeat _ => TypeHeartbeat | MChallenge _ => TypeChallenge
          end).
Proof.
  destruct m as [m|m|m|m|m|m]; destruct m; intros H; cbn in H;
    destruct_and?; subst; envelope_tac.
Qed.

Lemma decode_Envelope_worker m : wf_worker_message m ->
  decode_Envelope (encode_WorkerMessage m) =
    Some (match m with
          | WResult _ => TypeResult | WError _ => TypeError | WHeartbeat _ => TypeHeartbeat
          | WStatus _ => TypeStatus | WLLMHashReport _ => TypeLLMHashReport
          | WInitialSync _ => TypeInitialSync | WSignedResponse _ => TypeSignedResponse
          end).
Proof.
  destruct m as [m|m|m|m|m|m|m]; destruct m; intros H; cbn in H;
    destruct_and?; subst; first [done | envelope_tac].
Qed.

(** Every message the manager writes is received as it was sent. *)
Lemma manager_message_received m : wf_manager_message m ->
  decode_ManagerMessage (Some (encode_ManagerMessage m)) = Some m.
Proof.
  intros H. unfold decode_ManagerMessage, Unmarshal. cbn [mbind option_bind].
  rewrite decode_Envelope_manager by done. cbn [mbind option_bind].
  destruct m as [m|m|m|m|m|m]; cbn [encode_ManagerMessage]; cbn in H; destruct_and?.
  - by rewrite decode_WorkUnit_Marshal.
  - by rewrite decode_ModelUpdate_Marshal.
  - by destruct m.
  - by destruct m.
  - destruct m. cbn in *. by subst.
  - by destruct m.
Qed.

Lemma worker_message_received m : wf_worker_message m -> (forall r, m <> WSignedResponse r) ->
  decode_WorkerMessage (Some (encode_WorkerMessage m)) = Some m.
Proof.
  intros H Hns. unfold decode_WorkerMessage, Unmarshal. cbn [mbind option_bind].
  rewrite decode_Envelope_worker by done. cbn [mbind option_bind].
  destruct m as [m|m|m|m|m|m|m]; cbn [encode_WorkerMessage]; cbn in H; destruct_and?; try done.
  7: by destruct (Hns m).
  - by rewrite decode_Result_Marshal.
  - by destruct m.
  - destruct m. cbn in *. by subst.
  - by rewrite decode_Status_Marshal.
  - by destruct m.
  - by rewrite decode_InitialSync_Marshal.
Qed.

(** Where the manager reads a message of the worker: the answer to a challenge
    in the handshake, any other in the read loop. *)
Definition read_WorkerMessage (m : WorkerMessage) (f : frame) : option WorkerMessage :=
  match m with
  | WSignedResponse _ => WSignedResponse <$> Unmarshal decode_SignedResponse f
  | _ => decode_WorkerMessage f
  end.

(** C33. Every message either end writes is received by the other end as it was
    sent, all fields included, if its integers fit 64 bits and its strings are
    UTF-8: by the read loop, or by the handshake in the case of the answer to a
    challenge. The report of an error, whose text may hold any bytes, is received
    with each stray byte of its strings replaced by U+FFFD. *)
Theorem messages_round_trip :
  (forall m, wf_manager_message m -> valid_json (encode_ManagerMessage m) = true ->
     decode_ManagerMessage (Some (on_wire (encode_ManagerMessage m))) = Some m) /\
  (forall m, wf_worker_message m -> valid_json (encode_WorkerMessage m) = true ->
     read_WorkerMessage m (Some (on_wire (encode_WorkerMessage m))) = Some m) /\
  (forall id text, decode_WorkerMessage (Some (on_wire (encode_WorkerMessage (WError (Build_Error TypeError id text))))) =
     Some (WError (Build_Error TypeError (coerce_utf8 id) (coerce_utf8 text)))).
Proof.
  split_and!.
  - intros m Hm Hv. rewrite on_wire_valid by done. by apply manager_message_received.
  - intros m Hm Hv. rewrite on_wire_valid by done. destruct m; try by apply worker_message_received. by destruct m.
  - intros id text. exact (worker_message_received (WError (Build_Error TypeError (coerce_utf8 id) (coerce_utf8 text))) eq_refl
      ltac:(intros r; discriminate)).
Qed.

(** ** A concrete instance of the primitives

    Not secure, but lawful: digests are the message cut or padded to 32 bytes,
    the signature of a message is the key followed by the message. *)
Fixpoint pad32 (n : nat) (m : string) : string :=
  match n with
  | O => ""
  | S n' => match m with
            | String.EmptyString => String.String "0" (pad32 n' "")
            | String.String c m' => String.String c (pad32 n' m')
            end
  end.

Definition ToyCrypto : Crypto := {|
  sha256 m := pad32 32 m;
  ed25519_sign k m := k +:+ m;
  ed25519_verify pk m s := s == (pk +:+ m);
  ed25519_public k := k;
|}.

Lemma ToyCryptoLaws : @CryptoLaws ToyCrypto.
Proof.
  split; [|intros; by apply bool_decide_eq_true].
  intros m. unfold sha256, ToyCrypto. generalize 32%nat as n. intros n. revert m.
  induction n as [|n IH]; intros [|c m]; cbn; auto.
Qed.

Lemma messages_round_trip_witness :
  let status := WStatus {| st_Type := TypeStatus; st_State := "available"; st_LLMHash := ""; st_BackendHash := "b";
                           st_BackendVersion := ""; st_GPUAvg := 3 |} in
  let answer := WSignedResponse {| sr_Type := TypeSignedResponse; sr_Nonce := "bg=="; sr_Signature := "cw==" |} in
  read_WorkerMessage status (Some (on_wire (encode_WorkerMessage status))) = Some status /\
  read_WorkerMessage answer (Some (on_wire (encode_WorkerMessage answer))) = Some answer /\
  decode_ManagerMessage (Some (on_wire (encode_ManagerMessage (MHeartbeat (Build_Heartbeat TypeHeartbeat))))) =
    Some (MHeartbeat (Build_Heartbeat TypeHeartbeat)).
Proof.
  cbv zeta. split_and!.
  - refine (proj1 (proj2 messages_round_trip) (WStatus _) _ _); [split; reflexivity|reflexivity].
  - refine (proj1 (proj2 messages_round_trip) (WSignedResponse _) _ _); reflexivity.
  - refine (proj1 messages_round_trip (MHeartbeat _) _ _); reflexivity.
Defined.
