(* ===== verification/Gorm.v ===== *)
(** * The database layer, as the store uses it

    The ORM and the SQL engine behind it are not part of the repository: they
    are a parameter, the class [Gorm] of the statements the store issues, with
    the documented behaviour the code relies on as the laws [GormLaws]. Every
    statement may fail; a failed statement changes nothing. [MemGorm] at the
    end is a concrete instance on lists, which shows the laws can hold and
    evaluates the witnesses. *)

From S2P Require Import Prelude.

(** [gorm.ErrRecordNotFound], or any other error of the driver. *)
Inductive db_err := ErrRecordNotFound | ErrDB (msg : string).

#[export] Instance db_err_eq_dec : EqDecision db_err.
Proof. solve_decision. Defined.

Class Gorm := {
  Tbl : Type -> Type;
  (** what a table holds: the rows a query sees, in primary-key order, and the
      soft-deleted rows, which still occupy the unique indexes *)
  live : forall {R}, Tbl R -> list R;
  trash : forall {R}, Tbl R -> list R;
  (** [Where(p).First(&r)] *)
  db_first : forall {R}, (R -> bool) -> Tbl R -> R + db_err;
  (** [Where(p).Order(key).Limit(n).Find(&rs)]; the orders used are by an integer *)
  db_find : forall {R}, (R -> bool) -> option (R -> Z) -> option nat -> Tbl R -> list R + db_err;
  (** [Model(..).Where(p).Updates(f)]: the rows affected or an error *)
  db_updates : forall {R}, (R -> bool) -> (R -> R) -> Tbl R -> Tbl R * (nat + db_err);
  (** [Create(&r)] in a table whose unique indexes forbid [clash] *)
  db_create : forall {R}, (R -> R -> bool) -> R -> Tbl R -> Tbl R * option db_err;
  (** [Where(p).Delete(..)]: with [soft] for models that carry a DeletedAt *)
  db_delete : forall {R}, bool -> (R -> bool) -> Tbl R -> Tbl R * option db_err;
}.

(** The update statement on the rows. *)
Definition update_rows {R} (p : R -> bool) (f : R -> R) (l : list R) : list R :=
  (fun r => if p r then f r else r) <$> l.

Definition ordered {R} (key : option (R -> Z)) (l : list R) : Prop :=
  match key with
  | Some k => Sorted (fun a b => (k a <= k b)%Z) l
  | None => True
  end.

Definition limited {R} (n : option nat) (l : list R) : list R :=
  match n with Some n => take n l | None => l end.

Class GormLaws `{Gorm} := {
  first_found {R} (p : R -> bool) t r :
    db_first p t = inl r -> List.find p (live t) = Some r;
  first_missing {R} (p : R -> bool) t :
    db_first p t = inr ErrRecordNotFound -> List.find p (live t) = None;
  find_ok {R} (p : R -> bool) key n t l :
    db_find p key n t = inl l ->
    exists l', l' ≡ₚ List.filter p (live t) /\ ordered key l' /\ l = limited n l';
  updates_ok {R} (p : R -> bool) f t t' n :
    db_updates p f t = (t', inl n) ->
    live t' = update_rows p f (live t) /\ trash t' = trash t /\
    n = length (List.filter p (live t));
  updates_err {R} (p : R -> bool) f t t' e :
    db_updates p f t = (t', inr e) -> live t' = live t /\ trash t' = trash t;
  create_ok {R} clash (r : R) t t' :
    db_create clash r t = (t', None) ->
    live t' = live t ++ [r] /\ trash t' = trash t /\
    forallb (fun x => negb (clash x r)) (live t ++ trash t) = true;
  create_err {R} clash (r : R) t t' e :
    db_create clash r t = (t', Some e) -> live t' = live t /\ trash t' = trash t;
  delete_ok {R} soft (p : R -> bool) t t' :
    db_delete soft p t = (t', None) ->
    live t' = List.filter (fun r => negb (p r)) (live t) /\
    (soft = true -> trash t' = trash t ++ List.filter p (live t)) /\
    (soft = false -> trash t' = trash t);
  delete_err {R} soft (p : R -> bool) t t' e :
    db_delete soft p t = (t', Some e) -> live t' = live t /\ trash t' = trash t;
}.

(** ** Statements on one table of a larger store *)

Record lens (S T : Type) := Lens { lget : S -> T; lset : T -> S -> S }.
Arguments Lens {S T} _ _.
Arguments lget {S T} _ _.
Arguments lset {S T} _ _ _.

Section statements.
Context `{Gorm} {S R : Type} (tbl : lens S (Tbl R)).

Definition First (p : R -> bool) : GoM S (R + db_err) :=
  gets (fun s => db_first p (lget tbl s)).
Definition Find (p : R -> bool) (key : option (R -> Z)) (n : option nat) : GoM S (list R + db_err) :=
  gets (fun s => db_find p key n (lget tbl s)).
(** [Count(&n)]: on an error the variable keeps its zero *)
Definition Count (p : R -> bool) : GoM S Z :=
  gets (fun s => match db_find p None None (lget tbl s) with
                 | inl l => Z.of_nat (length l)
                 | inr _ => 0%Z
                 end).
Definition UpdatesN (p : R -> bool) (f : R -> R) : GoM S (nat + db_err) := fun s =>
  let '(t, r) := db_updates p f (lget tbl s) in (lset tbl t s, Ret r).
Definition Updates (p : R -> bool) (f : R -> R) : GoM S (option db_err) :=
  r ← UpdatesN p f; mret (match r with inl _ => None | inr e => Some e end).
(** a statement whose error the code ignores *)
Definition Updates_ (p : R -> bool) (f : R -> R) : GoM S unit :=
  Updates p f ;; skip.
Definition Create (clash : R -> R -> bool) (r : R) : GoM S (option db_err) := fun s =>
  let '(t, e) := db_create clash r (lget tbl s) in (lset tbl t s, Ret e).
Definition Delete (soft : bool) (p : R -> bool) : GoM S (option db_err) := fun s =>
  let '(t, e) := db_delete soft p (lget tbl s) in (lset tbl t s, Ret e).
End statements.

(** Statements return, with or without an error value. *)
Section statements_return.
Context `{Gorm} {S R : Type} (tbl : lens S (Tbl R)).

Lemma returns_UpdatesN p f : returns (UpdatesN tbl p f).
Proof. intros s. unfold result, UpdatesN. destruct (db_updates _ _ _). by eexists. Qed.
Lemma returns_Updates p f : returns (Updates tbl p f).
Proof. apply returns_bind; [apply returns_UpdatesN|intros; apply returns_ret]. Qed.
Lemma returns_Updates_ p f : returns (Updates_ tbl p f).
Proof. apply returns_bind; [apply returns_Updates|intros; apply returns_ret]. Qed.
Lemma returns_Create clash r : returns (Create tbl clash r).
Proof. intros s. unfold result, Create. destruct (db_create _ _ _). by eexists. Qed.
Lemma returns_Delete soft p : returns (Delete tbl soft p).
Proof. intros s. unfold result, Delete. destruct (db_delete _ _ _). by eexists. Qed.
Lemma returns_First p : returns (First tbl p).
Proof. apply returns_gets. Qed.
Lemma returns_Find p k n : returns (Find tbl p k n).
Proof. apply returns_gets. Qed.
Lemma returns_Count p : returns (Count tbl p).
Proof. apply returns_gets. Qed.
End statements_return.
#[export] Hint Resolve returns_UpdatesN returns_Updates returns_Updates_ returns_Create returns_Delete
  returns_First returns_Find returns_Count : returns.

Class LensLaws {S T} (l : lens S T) : Prop := {
  lget_lset : forall t s, lget l (lset l t s) = t;
  lset_lget : forall s, lset l (lget l s) s = s;
  lset_lset : forall t t' s, lset l t (lset l t' s) = lset l t s;
}.

(** No two rows of a table, deleted ones included, clash. *)
Definition unique_index {R} `{Gorm} {K} (key : R -> K) (t : Tbl R) : Prop :=
  NoDup (key <$> (live t ++ trash t)).

Section rows.
Context {R : Type}.
Implicit Types (p : R -> bool) (f : R -> R) (l : list R).

Lemma find_update_same p f l r :
  (forall x, p x = true -> p (f x) = true) ->
  List.find p l = Some r -> List.find p (update_rows p f l) = Some (f r).
Proof.
  intros Hf. unfold update_rows. induction l as [|x l IH]; [done|]. cbn.
  destruct (p x) eqn:Hx; [intros [= ->]; by rewrite Hf|]. rewrite Hx. auto.
Qed.

(** An update of rows selected by [p] does not change what a query [q] that
    ignores the changed columns finds, up to the update. *)
Lemma find_update_other p q f l :
  (forall x, q (f x) = q x) ->
  List.find q (update_rows p f l) = (fun x => if p x then f x else x) <$> List.find q l.
Proof.
  intros Hq. unfold update_rows. induction l as [|x l IH]; [done|]. cbn.
  destruct (p x) eqn:Hx; [rewrite Hq|]; by destruct (q x); cbn; rewrite ?Hx.
Qed.

Lemma find_none_update p f l :
  List.find p l = None -> update_rows p f l = l.
Proof.
  unfold update_rows. induction l as [|x l IH]; [done|]. cbn.
  destruct (p x); [done|]. intros. f_equal; auto.
Qed.

Lemma fmap_update {K} (key : R -> K) p f l :
  (forall x, key (f x) = key x) -> key <$> update_rows p f l = key <$> l.
Proof.
  intros Hk. unfold update_rows. induction l as [|x l IH]; [done|]. cbn.
  f_equal; [by destruct (p x)|done].
Qed.

Lemma find_app p l1 l2 :
  List.find p (l1 ++ l2) = match List.find p l1 with Some r => Some r | None => List.find p l2 end.
Proof. induction l1 as [|x l1 IH]; [done|]. cbn. by destruct (p x). Qed.

Lemma find_ext p q l : (forall x, p x = q x) -> List.find p l = List.find q l.
Proof. intros Hpq. induction l as [|x l IH]; [done|]. cbn. by rewrite Hpq, IH. Qed.
End rows.

Lemma existsb_perm {R} (p : R -> bool) (l l' : list R) : l ≡ₚ l' -> existsb p l = existsb p l'.
Proof.
  induction 1; cbn; [done|congruence| |congruence].
  by destruct (p x), (p y).
Qed.

Lemma find_in {R} (p : R -> bool) (l : list R) r : List.find p l = Some r -> r ∈ l /\ p r = true.
Proof. intros E%find_some. by rewrite list_elem_of_In. Qed.

(** ** An in-memory instance *)

Record MemTbl (R : Type) := { mem_live : list R; mem_trash : list R }.
Arguments mem_live {R} _.
Arguments mem_trash {R} _.
Arguments Build_MemTbl {R} _ _.

Fixpoint insert_by {R} (k : R -> Z) (x : R) (l : list R) : list R :=
  match l with
  | [] => [x]
  | y :: l' => if bool_decide (k x <= k y)%Z then x :: l else y :: insert_by k x l'
  end.
Definition sort_by {R} (key : option (R -> Z)) (l : list R) : list R :=
  match key with Some k => foldr (insert_by k) [] l | None => l end.

Lemma insert_by_perm {R} (k : R -> Z) x l : insert_by k x l ≡ₚ x :: l.
Proof.
  induction l as [|y l IH]; [done|]. cbn. case_bool_decide; [done|].
  rewrite IH. by apply Permutation_swap.
Qed.

Lemma sort_by_perm {R} key (l : list R) : sort_by key l ≡ₚ l.
Proof.
  destruct key as [k|]; [|done]. induction l as [|x l IH]; [done|].
  cbn. rewrite insert_by_perm. by constructor.
Qed.

Lemma insert_by_sorted {R} (k : R -> Z) x l :
  Sorted (fun a b => (k a <= k b)%Z) l -> Sorted (fun a b => (k a <= k b)%Z) (insert_by k x l).
Proof.
  induction 1 as [|y l Hs IH Hhd]; cbn; [by repeat constructor|].
  case_bool_decide; [by repeat constructor|].
  constructor; [done|]. destruct l as [|z l]; cbn in *; [repeat constructor; lia|].
  case_bool_decide; constructor; [lia|]. by inversion Hhd.
Qed.

Lemma sort_by_sorted {R} key (l : list R) : ordered key (sort_by key l).
Proof.
  destruct key as [k|]; [|done]. induction l as [|x l IH]; cbn; [constructor|].
  by apply insert_by_sorted.
Qed.

Definition mem_create {R} (clash : R -> R -> bool) (r : R) (t : MemTbl R) : MemTbl R * option db_err :=
  if forallb (fun x => negb (clash x r)) (mem_live t ++ mem_trash t)
  then (Build_MemTbl (mem_live t ++ [r]) (mem_trash t), None)
  else (t, Some (ErrDB "UNIQUE constraint failed")).

Definition MemGorm : Gorm := {|
  Tbl := MemTbl;
  live := @mem_live;
  trash := @mem_trash;
  db_first R p t := match List.find p (mem_live t) with
                    | Some r => inl r
                    | None => inr ErrRecordNotFound
                    end;
  db_find R p key n t := inl (limited n (sort_by key (List.filter p (mem_live t))));
  db_updates R p f t :=
    (Build_MemTbl (update_rows p f (mem_live t)) (mem_trash t),
     inl (length (List.filter p (mem_live t))));
  db_create := @mem_create;
  db_delete R soft p t :=
    (Build_MemTbl (List.filter (fun r => negb (p r)) (mem_live t))
       (if soft then mem_trash t ++ List.filter p (mem_live t) else mem_trash t), None);
|}.

Lemma MemGormLaws : @GormLaws MemGorm.
Proof.
  split; cbn; intros.
  - case_match; naive_solver.
  - case_match; naive_solver.
  - simplify_eq. eexists. split_and!; [apply sort_by_perm|apply sort_by_sorted|done].
  - naive_solver.
  - naive_solver.
  - unfold mem_create in *. case_match; naive_solver.
  - unfold mem_create in *. case_match; naive_solver.
  - simplify_eq. cbn. split_and!; intros; by subst.
  - naive_solver.
Qed.

(** ** A database that is up: reads and updates never fail *)

Class GormUp `{Gorm} := {
  up_first {R} (p : R -> bool) t e : db_first p t = inr e -> e = ErrRecordNotFound;
  up_find {R} (p : R -> bool) key n t : exists l, db_find p key n t = inl l;
  up_updates {R} (p : R -> bool) (f : R -> R) t : exists t' n, db_updates p f t = (t', inl n);
  up_create {R} clash (r : R) t t' e :
    db_create clash r t = (t', Some e) ->
    forallb (fun x => negb (clash x r)) (live t ++ trash t) = false;
  up_delete {R} soft (p : R -> bool) t : exists t', db_delete soft p t = (t', None);
}.

Lemma MemGormUp : @GormUp MemGorm.
Proof.
  split; cbn; intros; eauto.
  - case_match; naive_solver.
  - unfold mem_create in *. case_match; naive_solver.
Qed.

Lemma first_up `{GormLaws, !GormUp} {R} (p : R -> bool) t :
  db_first p t = match List.find p (live t) with Some r => inl r | None => inr ErrRecordNotFound end.
Proof.
  destruct (db_first p t) as [r|e] eqn:E.
  - by rewrite (first_found _ _ _ E).
  - pose proof (up_first _ _ _ E) as ->. by rewrite (first_missing _ _ E).
Qed.

(** What each write does to the rows, whether or not it succeeds. *)
Section effects.
Context `{GormLaws} {R : Type}.
Implicit Types t : Tbl R.

Lemma updates_rows (p : R -> bool) f t :
  let t' := fst (db_updates p f t) in
  trash t' = trash t /\ (live t' = live t \/ live t' = update_rows p f (live t)).
Proof.
  cbn. destruct (db_updates p f t) as [t' [n|e]] eqn:E; cbn.
  - pose proof (updates_ok _ _ _ _ _ E). naive_solver.
  - pose proof (updates_err _ _ _ _ _ E). naive_solver.
Qed.

Lemma create_rows clash (r : R) t :
  let t' := fst (db_create clash r t) in
  trash t' = trash t /\
  (live t' = live t \/
   live t' = live t ++ [r] /\ forallb (fun x => negb (clash x r)) (live t ++ trash t) = true).
Proof.
  cbn. destruct (db_create clash r t) as [t' [e|]] eqn:E; cbn.
  - pose proof (create_err _ _ _ _ _ E). naive_solver.
  - pose proof (create_ok _ _ _ _ E). naive_solver.
Qed.

Lemma unique_updates {K} (key : R -> K) (p : R -> bool) f t :
  (forall r, key (f r) = key r) ->
  unique_index key t -> unique_index key (fst (db_updates p f t)).
Proof.
  intros Hf Hu. unfold unique_index in *.
  destruct (updates_rows p f t) as [Ht [Hl|Hl]]; cbn in *; rewrite Ht, Hl; [done|].
  by rewrite fmap_app, fmap_update, <- fmap_app.
Qed.

Lemma unique_create {K} `{EqDecision K} (key : R -> K) clash (r : R) t :
  (forall x, clash x r = bool_decide (key x = key r)) ->
  unique_index key t -> unique_index key (fst (db_create clash r t)).
Proof.
  intros Hc Hu. unfold unique_index in *.
  destruct (create_rows clash r t) as [Ht [Hl|[Hl Hfresh]]]; cbn in *; rewrite Ht, Hl; [done|].
  assert (Hnew : key r ∉ key <$> (live t ++ trash t)).
  { intros (x & Hx & Hin)%list_elem_of_fmap. rewrite forallb_forall in Hfresh.
    apply list_elem_of_In, Hfresh in Hin. rewrite Hc, bool_decide_true in Hin; done. }
  rewrite !fmap_app in *. cbn. rewrite <- app_assoc. cbn.
  rewrite <- Permutation_middle. by constructor.
Qed.
End effects.

(** Statements of a database that is up, as equations and row effects. *)
Section up.
Context `{GormLaws, !GormUp} {S R : Type} (tbl : lens S (Tbl R)).

Lemma First_up p s :
  First tbl p s = (s, Ret match List.find p (live (lget tbl s)) with
                          | Some r => inl r
                          | None => inr ErrRecordNotFound
                          end).
Proof. unfold First, gets. by rewrite first_up. Qed.

(** An unordered query returns the selected rows in some order. *)
Lemma Find_up p s : exists l,
  Find tbl p None None s = (s, Ret (inl l)) /\ l ≡ₚ List.filter p (live (lget tbl s)).
Proof.
  unfold Find, gets. destruct (up_find p None None (lget tbl s)) as [l E].
  exists l. rewrite E. split; [done|]. by destruct (find_ok _ _ _ _ _ E) as (l' & ? & _ & ->).
Qed.

Lemma UpdatesN_up p f s : exists t',
  UpdatesN tbl p f s = (lset tbl t' s, Ret (inl (length (List.filter p (live (lget tbl s)))))) /\
  live t' = update_rows p f (live (lget tbl s)) /\ trash t' = trash (lget tbl s).
Proof.
  unfold UpdatesN. destruct (up_updates p f (lget tbl s)) as (t' & n & E). rewrite E.
  destruct (updates_ok _ _ _ _ _ E) as (? & ? & ->). by exists t'.
Qed.

Lemma Updates_up p f s : exists t',
  Updates tbl p f s = (lset tbl t' s, Ret None) /\
  live t' = update_rows p f (live (lget tbl s)) /\ trash t' = trash (lget tbl s).
Proof.
  destruct (UpdatesN_up p f s) as (t' & E & ?). exists t'. unfold Updates.
  by rewrite (bind_Ret _ _ _ _ _ E).
Qed.

Lemma Updates__up p f s : exists t',
  Updates_ tbl p f s = (lset tbl t' s, Ret tt) /\
  live t' = update_rows p f (live (lget tbl s)) /\ trash t' = trash (lget tbl s).
Proof.
  destruct (Updates_up p f s) as (t' & E & ?). exists t'. unfold Updates_.
  by rewrite (bind_Ret _ _ _ _ _ E).
Qed.
End up.

(** ** Updates that relate each row to its old value

    [table_rel tbl Q s s']: the store changed at most in the table [tbl],
    where every row is [Q]-related to its old value and none came or went. *)

Section table_rel.
Context `{GormLaws} {S R : Type} (tbl : lens S (Tbl R)) (Q : R -> R -> Prop).

Definition table_rel (s s' : S) : Prop :=
  lset tbl (lget tbl s') s = s' /\
  trash (lget tbl s') = trash (lget tbl s) /\
  Forall2 Q (live (lget tbl s)) (live (lget tbl s')).

Context `{!LensLaws tbl, !PreOrder Q}.

#[export] Instance table_rel_preorder : PreOrder table_rel.
Proof.
  split.
  - intros s. split_and!; [apply lset_lget|done|reflexivity].
  - intros s1 s2 s3 (E1 & T1 & F1) (E2 & T2 & F2). split_and!.
    + rewrite <- E2, <- E1. by rewrite lset_lset, lget_lset.
    + congruence.
    + by etrans.
Qed.

Lemma keeps_UpdatesN p f :
  (forall r, p r = true -> Q r (f r)) -> keeps table_rel (UpdatesN tbl p f).
Proof.
  intros Hf s. unfold run, UpdatesN.
  pose proof (updates_rows p f (lget tbl s)) as Hr. cbn in Hr.
  destruct (db_updates p f (lget tbl s)) as [t' r]. cbn in *.
  split_and!; rewrite ?lget_lset; [by rewrite ?lset_lset|naive_solver|].
  destruct Hr as [_ [-> | ->]]; [reflexivity|].
  unfold update_rows. induction (live (lget tbl s)) as [|x l IH]; cbn; constructor; [|done].
  destruct (p x) eqn:E; [by apply Hf|done].
Qed.
Lemma keeps_Updates p f :
  (forall r, p r = true -> Q r (f r)) -> keeps table_rel (Updates tbl p f).
Proof. intros. apply keeps_bind; [apply _|by apply keeps_UpdatesN|intros; apply keeps_ret, _]. Qed.

Lemma keeps_Updates_ p f :
  (forall r, p r = true -> Q r (f r)) -> keeps table_rel (Updates_ tbl p f).
Proof. intros. apply keeps_bind; [apply _|by apply keeps_Updates|intros; apply keeps_ret, _]. Qed.

(** A query by columns that [Q] keeps finds the related row. *)
Lemma table_rel_find q s s' :
  (forall r r', Q r r' -> q r' = q r) -> table_rel s s' ->
  option_Forall2 Q (List.find q (live (lget tbl s))) (List.find q (live (lget tbl s'))).
Proof.
  intros Hq (_ & _ & HF). induction HF as [|x y l l' Hxy _ IH]; cbn; [constructor|].
  rewrite (Hq _ _ Hxy). destruct (q x); [by constructor|done].
Qed.

Lemma table_rel_unique {K} (key : R -> K) s s' :
  (forall r r', Q r r' -> key r' = key r) -> table_rel s s' ->
  unique_index key (lget tbl s) -> unique_index key (lget tbl s').
Proof.
  intros Hk (_ & Ht & HF). unfold unique_index. rewrite !fmap_app, Ht.
  replace (key <$> live (lget tbl s')) with (key <$> live (lget tbl s)); [done|].
  induction HF as [|x y l l' Hxy _ IH]; cbn; [done|]. by rewrite (Hk _ _ Hxy), IH.
Qed.
End table_rel.

Lemma keeps_First `{Gorm} {S R} (tbl : lens S (Tbl R)) (P : S -> S -> Prop) `{!PreOrder P} p :
  keeps P (First tbl p).
Proof. apply keeps_gets, _. Qed.
Lemma keeps_Find `{Gorm} {S R} (tbl : lens S (Tbl R)) (P : S -> S -> Prop) `{!PreOrder P} p k n :
  keeps P (Find tbl p k n).
Proof. apply keeps_gets, _. Qed.
Lemma keeps_Count `{Gorm} {S R} (tbl : lens S (Tbl R)) (P : S -> S -> Prop) `{!PreOrder P} p :
  keeps P (Count tbl p).
Proof. apply keeps_gets, _. Qed.
#[export] Hint Resolve keeps_First keeps_Find keeps_Count keeps_UpdatesN keeps_Updates
  keeps_Updates_ : keeps.
#[export] Hint Extern 2 (PreOrder _) => apply _ : keeps.

(** ** What a statement leaves alone

    [unchanged f]: the part [f] of the store is the same afterwards, as it is
    for any statement on another table. *)
Definition unchanged {S X} (f : S -> X) (s s' : S) : Prop := f s' = f s.

#[export] Instance unchanged_preorder {S X} (f : S -> X) : PreOrder (unchanged f).
Proof. split; [done|]. unfold unchanged. intros x y z. congruence. Qed.

Section unchanged.
Context `{Gorm} {S R X : Type} (tbl : lens S (Tbl R)) (f : S -> X).
Context (Hf : forall t s, f (lset tbl t s) = f s).

Lemma unchanged_UpdatesN p g : keeps (unchanged f) (UpdatesN tbl p g).
Proof. intros s. unfold run, UpdatesN. destruct (db_updates _ _ _). apply Hf. Qed.
Lemma unchanged_Updates p g : keeps (unchanged f) (Updates tbl p g).
Proof. unfold Updates. keeps_tac. apply unchanged_UpdatesN. Qed.
Lemma unchanged_Updates_ p g : keeps (unchanged f) (Updates_ tbl p g).
Proof. unfold Updates_. keeps_tac. apply unchanged_Updates. Qed.
Lemma unchanged_Create clash r : keeps (unchanged f) (Create tbl clash r).
Proof. intros s. unfold run, Create. destruct (db_create _ _ _). apply Hf. Qed.
Lemma unchanged_Delete soft p : keeps (unchanged f) (Delete tbl soft p).
Proof. intros s. unfold run, Delete. destruct (db_delete _ _ _). apply Hf. Qed.
End unchanged.
#[export] Hint Extern 1 (keeps (unchanged _) (UpdatesN _ _ _)) => apply unchanged_UpdatesN; reflexivity : keeps.
#[export] Hint Extern 1 (keeps (unchanged _) (Updates _ _ _)) => apply unchanged_Updates; reflexivity : keeps.
#[export] Hint Extern 1 (keeps (unchanged _) (Updates_ _ _ _)) => apply unchanged_Updates_; reflexivity : keeps.
#[export] Hint Extern 1 (keeps (unchanged _) (Create _ _ _)) => apply unchanged_Create; reflexivity : keeps.
#[export] Hint Extern 1 (keeps (unchanged _) (Delete _ _ _)) => apply unchanged_Delete; reflexivity : keeps.

(** ** A property of every row of a table *)

Definition rows_ok `{Gorm} {S R} (P : R -> Prop) (tbl : lens S (Tbl R)) (s : S) : Prop := Forall P (live (lget tbl s)).
Definition rows_rel `{Gorm} {S R} (P : R -> Prop) (tbl : lens S (Tbl R)) (s s' : S) : Prop :=
  rows_ok P tbl s -> rows_ok P tbl s'.
#[export] Instance rows_rel_preorder `{Gorm} {S R} (P : R -> Prop) (tbl : lens S (Tbl R)) : PreOrder (rows_rel P tbl).
Proof. split; [intros s Hs; exact Hs|intros x y z; unfold rows_rel; auto]. Qed.

Section rows_ok.
Context `{GormLaws} {S R : Type} (P : R -> Prop) (tbl : lens S (Tbl R)) `{!LensLaws tbl}.

Lemma rows_unchanged {A} (m : GoM S A) : keeps (unchanged (lget tbl)) m -> keeps (rows_rel P tbl) m.
Proof. intros Hm s Hs. unfold rows_ok. by rewrite (Hm s). Qed.

Lemma rows_UpdatesN p f : (forall r, P r -> P (f r)) -> keeps (rows_rel P tbl) (UpdatesN tbl p f).
Proof.
  intros Hf s Hs. unfold rows_ok, run, UpdatesN in *.
  pose proof (updates_rows p f (lget tbl s)) as [_ Hr]. cbn in Hr.
  destruct (db_updates p f (lget tbl s)) as [t' r]. cbn in *. rewrite lget_lset.
  destruct Hr as [-> | ->]; [done|]. unfold update_rows. apply Forall_fmap.
  eapply Forall_impl; [|exact Hs]. intros x Hx. cbn. destruct (p x); auto.
Qed.
Lemma rows_Updates p f : (forall r, P r -> P (f r)) -> keeps (rows_rel P tbl) (Updates tbl p f).
Proof. intros Hf. unfold Updates. keeps_tac. by apply rows_UpdatesN. Qed.
Lemma rows_Create clash r : P r -> keeps (rows_rel P tbl) (Create tbl clash r).
Proof.
  intros Hp s Hs. unfold rows_ok, run, Create in *. pose proof (create_rows clash r (lget tbl s)) as [_ Hr]. cbn in Hr.
  destruct (db_create clash r (lget tbl s)) as [t' e]. cbn in *. rewrite lget_lset.
  destruct Hr as [-> |[-> _]]; [done|]. apply Forall_app. split; [done|by repeat constructor].
Qed.
Lemma rows_Delete soft p : keeps (rows_rel P tbl) (Delete tbl soft p).
Proof.
  intros s Hs. unfold rows_ok, run, Delete in *. destruct (db_delete soft p (lget tbl s)) as [t' [e|]] eqn:E; cbn; rewrite lget_lset.
  - by destruct (delete_err _ _ _ _ _ E) as [-> _].
  - destruct (delete_ok _ _ _ _ E) as [-> _]. apply Stdlib.Lists.List.Forall_forall. intros x Hx.
    apply List.filter_In in Hx as [Hx _]. by apply (proj1 (Stdlib.Lists.List.Forall_forall _ _) Hs).
Qed.
End rows_ok.
