(* ===== verification/Models.v ===== *)
(** * The database models (internal/manager/store/models.go and neighbours)

    One record per table. The bookkeeping columns of [gorm.Model] are kept
    where the program reads them: [CreatedAt] and [UpdatedAt] of the queued
    requests. Instants are integers in nanoseconds, a nullable instant an
    option. Then the store, a record of tables, and one lens per table. *)

From S2P Require Import Prelude Gorm.

Record Worker := {
  w_Fingerprint : string;
  w_PublicKey : string;
  w_LLMModel : string;
  w_Quantisation : string;
  w_ClientVersion : string;
  w_OS : string;
  w_Arch : string;
  w_LLMHash : string;
  w_SyncStatus : string;
  w_BackendHash : string;
  w_BackendVersion : string;
  w_BinarySyncStatus : string;
  w_BackendSyncStatus : string;
  w_TrustScore : Z;
  w_TotalRequests : Z;
  w_TotalLatencyMs : Z;
  w_GPUAvg : Z;
  w_LastSeenAt : Z;
  w_Status : string;
}.

Record WorkUnitRow := {
  u_UnitID : string;
  u_WorkerFingerprint : string;
  u_LLMModel : string;
  u_Status : string;
  u_ProcessingTimeMs : Z;
  u_ErrorMessage : string;
  u_CreatedAt : Z;
  u_CompletedAt : option Z;
}.

Record WorkerConsent := {
  c_Fingerprint : string;
  c_Accepted : bool;
  c_AcceptedAt : option Z;
  c_HardwareStats : bool;
  c_ConfigPreferences : bool;
  c_HwOS : string;
  c_HwOSVer : string;
  c_HwGPU : string;
  c_HwGPUDriver : string;
  c_HwGPUDriverVer : string;
  c_HwVRAMMB : Z;
  c_HwCPU : string;
  c_HwCPUCores : Z;
  c_HwRAMMB : Z;
}.

Record WorkerConfig := {
  wc_Fingerprint : string;
  wc_PreferredRole : string;
  wc_Nickname : string;
}.

Record HardwareInfo := {
  hw_OS : string;
  hw_OSVer : string;
  hw_GPU : string;
  hw_GPUDriver : string;
  hw_GPUDriverVersion : string;
  hw_VRAMMB : Z;
  hw_CPU : string;
  hw_CPUCores : Z;
  hw_RAMMB : Z;
}.

Record BrandingConfig := {
  br_CSS : string;
  br_UpdatedAt : Z;
}.

Record RoleModel := {
  rm_Role : string;
  rm_LLMModel : string;
  rm_Quantisation : string;
  rm_ModelFilename : string;
  rm_ModelFileHash : string;
  rm_DownloadURL : string;
  rm_MinVRAMMB : Z;
  rm_Description : string;
  rm_ContextSize : Z;
  rm_EndpointType : string;
  rm_ParallelSlots : Z;
  rm_GPULayers : Z;
  rm_FlashAttention : bool;
}.

Record ClientError := {
  ce_Fingerprint : string;
  ce_Version : string;
  ce_ErrorMessage : string;
  ce_Stack : string;
  ce_ReportedAt : Z;
}.

Record BatchRequest := {
  b_RequestID : string;
  b_LLMModel : string;
  b_Payload : string;
  b_Status : string;
  b_Result : string;
  b_ErrMessage : string;
  b_CreatedAt : Z;
  b_UpdatedAt : Z;
}.

Record LatencySample := {
  ls_Fingerprint : string;
  ls_Role : string;
  ls_PayloadBytes : Z;
  ls_LatencyMs : Z;
  ls_CreatedAt : Z;
}.

Record LatencyHourlyStat := {
  lh_Role : string;
  lh_Hour : Z;
  lh_Count : Z;
  lh_MinPayloadBytes : Z;
  lh_MaxPayloadBytes : Z;
  lh_MeanPayloadBytes : Z;
}.

Record ClientVersionConfig := {
  cv_TargetVersion : string;
  cv_RolloutMode : string;
  cv_RolloutPercentage : Z;
  cv_UpdatedAt : Z;
}.

Record BackendVersionConfig := {
  bv_Name : string;
  bv_Version : string;
  bv_DownloadURL : string;
  bv_SHA256 : string;
  bv_UpdatedAt : Z;
}.

Record OidcConfig := {
  oc_Enabled : bool;
  oc_ClientID : string;
  oc_ClientSecret : string;
  oc_ProviderURL : string;
  oc_RedirectURL : string;
  oc_UpdatedAt : Z;
}.

Record WorkerAuthConfig := {
  wa_TOFUEnabled : bool;
  wa_WorkerKey : string;
  wa_UpdatedAt : Z;
}.

Record SystemSetting := {
  ss_Key : string;
  ss_Value : string;
}.

#[export] Instance RoleModel_eq_dec : EqDecision RoleModel.
Proof. solve_decision. Defined.

(** ** Column updates *)

Definition set_w_LLMModel (v : string) (r : Worker) : Worker :=
  Build_Worker r.(w_Fingerprint) r.(w_PublicKey) v r.(w_Quantisation) r.(w_ClientVersion)
    r.(w_OS) r.(w_Arch) r.(w_LLMHash) r.(w_SyncStatus) r.(w_BackendHash) r.(w_BackendVersion)
    r.(w_BinarySyncStatus) r.(w_BackendSyncStatus) r.(w_TrustScore) r.(w_TotalRequests)
    r.(w_TotalLatencyMs) r.(w_GPUAvg) r.(w_LastSeenAt) r.(w_Status).
Definition set_w_Quantisation (v : string) (r : Worker) : Worker :=
  Build_Worker r.(w_Fingerprint) r.(w_PublicKey) r.(w_LLMModel) v r.(w_ClientVersion) r.(w_OS)
    r.(w_Arch) r.(w_LLMHash) r.(w_SyncStatus) r.(w_BackendHash) r.(w_BackendVersion)
    r.(w_BinarySyncStatus) r.(w_BackendSyncStatus) r.(w_TrustScore) r.(w_TotalRequests)
    r.(w_TotalLatencyMs) r.(w_GPUAvg) r.(w_LastSeenAt) r.(w_Status).
Definition set_w_ClientVersion (v : string) (r : Worker) : Worker :=
  Build_Worker r.(w_Fingerprint) r.(w_PublicKey) r.(w_LLMModel) r.(w_Quantisation) v r.(w_OS)
    r.(w_Arch) r.(w_LLMHash) r.(w_SyncStatus) r.(w_BackendHash) r.(w_BackendVersion)
    r.(w_BinarySyncStatus) r.(w_BackendSyncStatus) r.(w_TrustScore) r.(w_TotalRequests)
    r.(w_TotalLatencyMs) r.(w_GPUAvg) r.(w_LastSeenAt) r.(w_Status).
Definition set_w_OS (v : string) (r : Worker) : Worker :=
  Build_Worker r.(w_Fingerprint) r.(w_PublicKey) r.(w_LLMModel) r.(w_Quantisation)
    r.(w_ClientVersion) v r.(w_Arch) r.(w_LLMHash) r.(w_SyncStatus) r.(w_BackendHash)
    r.(w_BackendVersion) r.(w_BinarySyncStatus) r.(w_BackendSyncStatus) r.(w_TrustScore)
    r.(w_TotalRequests) r.(w_TotalLatencyMs) r.(w_GPUAvg) r.(w_LastSeenAt) r.(w_Status).
Definition set_w_Arch (v : string) (r : Worker) : Worker :=
  Build_Worker r.(w_Fingerprint) r.(w_PublicKey) r.(w_LLMModel) r.(w_Quantisation)
    r.(w_ClientVersion) r.(w_OS) v r.(w_LLMHash) r.(w_SyncStatus) r.(w_BackendHash)
    r.(w_BackendVersion) r.(w_BinarySyncStatus) r.(w_BackendSyncStatus) r.(w_TrustScore)
    r.(w_TotalRequests) r.(w_TotalLatencyMs) r.(w_GPUAvg) r.(w_LastSeenAt) r.(w_Status).
Definition set_w_LLMHash (v : string) (r : Worker) : Worker :=
  Build_Worker r.(w_Fingerprint) r.(w_PublicKey) r.(w_LLMModel) r.(w_Quantisation)
    r.(w_ClientVersion) r.(w_OS) r.(w_Arch) v r.(w_SyncStatus) r.(w_BackendHash)
    r.(w_BackendVersion) r.(w_BinarySyncStatus) r.(w_BackendSyncStatus) r.(w_TrustScore)
    r.(w_TotalRequests) r.(w_TotalLatencyMs) r.(w_GPUAvg) r.(w_LastSeenAt) r.(w_Status).
Definition set_w_SyncStatus (v : string) (r : Worker) : Worker :=
  Build_Worker r.(w_Fingerprint) r.(w_PublicKey) r.(w_LLMModel) r.(w_Quantisation)
    r.(w_ClientVersion) r.(w_OS) r.(w_Arch) r.(w_LLMHash) v r.(w_BackendHash)
    r.(w_BackendVersion) r.(w_BinarySyncStatus) r.(w_BackendSyncStatus) r.(w_TrustScore)
    r.(w_TotalRequests) r.(w_TotalLatencyMs) r.(w_GPUAvg) r.(w_LastSeenAt) r.(w_Status).
Definition set_w_BackendHash (v : string) (r : Worker) : Worker :=
  Build_Worker r.(w_Fingerprint) r.(w_PublicKey) r.(w_LLMModel) r.(w_Quantisation)
    r.(w_ClientVersion) r.(w_OS) r.(w_Arch) r.(w_LLMHash) r.(w_SyncStatus) v
    r.(w_BackendVersion) r.(w_BinarySyncStatus) r.(w_BackendSyncStatus) r.(w_TrustScore)
    r.(w_TotalRequests) r.(w_TotalLatencyMs) r.(w_GPUAvg) r.(w_LastSeenAt) r.(w_Status).
Definition set_w_BackendVersion (v : string) (r : Worker) : Worker :=
  Build_Worker r.(w_Fingerprint) r.(w_PublicKey) r.(w_LLMModel) r.(w_Quantisation)
    r.(w_ClientVersion) r.(w_OS) r.(w_Arch) r.(w_LLMHash) r.(w_SyncStatus) r.(w_BackendHash) v
    r.(w_BinarySyncStatus) r.(w_BackendSyncStatus) r.(w_TrustScore) r.(w_TotalRequests)
    r.(w_TotalLatencyMs) r.(w_GPUAvg) r.(w_LastSeenAt) r.(w_Status).
Definition set_w_BinarySyncStatus (v : string) (r : Worker) : Worker :=
  Build_Worker r.(w_Fingerprint) r.(w_PublicKey) r.(w_LLMModel) r.(w_Quantisation)
    r.(w_ClientVersion) r.(w_OS) r.(w_Arch) r.(w_LLMHash) r.(w_SyncStatus) r.(w_BackendHash)
    r.(w_BackendVersion) v r.(w_BackendSyncStatus) r.(w_TrustScore) r.(w_TotalRequests)
    r.(w_TotalLatencyMs) r.(w_GPUAvg) r.(w_LastSeenAt) r.(w_Status).
Definition set_w_BackendSyncStatus (v : string) (r : Worker) : Worker :=
  Build_Worker r.(w_Fingerprint) r.(w_PublicKey) r.(w_LLMModel) r.(w_Quantisation)
    r.(w_ClientVersion) r.(w_OS) r.(w_Arch) r.(w_LLMHash) r.(w_SyncStatus) r.(w_BackendHash)
    r.(w_BackendVersion) r.(w_BinarySyncStatus) v r.(w_TrustScore) r.(w_TotalRequests)
    r.(w_TotalLatencyMs) r.(w_GPUAvg) r.(w_LastSeenAt) r.(w_Status).
Definition set_w_TotalRequests (v : Z) (r : Worker) : Worker :=
  Build_Worker r.(w_Fingerprint) r.(w_PublicKey) r.(w_LLMModel) r.(w_Quantisation)
    r.(w_ClientVersion) r.(w_OS) r.(w_Arch) r.(w_LLMHash) r.(w_SyncStatus) r.(w_BackendHash)
    r.(w_BackendVersion) r.(w_BinarySyncStatus) r.(w_BackendSyncStatus) r.(w_TrustScore) v
    r.(w_TotalLatencyMs) r.(w_GPUAvg) r.(w_LastSeenAt) r.(w_Status).
Definition set_w_TotalLatencyMs (v : Z) (r : Worker) : Worker :=
  Build_Worker r.(w_Fingerprint) r.(w_PublicKey) r.(w_LLMModel) r.(w_Quantisation)
    r.(w_ClientVersion) r.(w_OS) r.(w_Arch) r.(w_LLMHash) r.(w_SyncStatus) r.(w_BackendHash)
    r.(w_BackendVersion) r.(w_BinarySyncStatus) r.(w_BackendSyncStatus) r.(w_TrustScore)
    r.(w_TotalRequests) v r.(w_GPUAvg) r.(w_LastSeenAt) r.(w_Status).
Definition set_w_GPUAvg (v : Z) (r : Worker) : Worker :=
  Build_Worker r.(w_Fingerprint) r.(w_PublicKey) r.(w_LLMModel) r.(w_Quantisation)
    r.(w_ClientVersion) r.(w_OS) r.(w_Arch) r.(w_LLMHash) r.(w_SyncStatus) r.(w_BackendHash)
    r.(w_BackendVersion) r.(w_BinarySyncStatus) r.(w_BackendSyncStatus) r.(w_TrustScore)
    r.(w_TotalRequests) r.(w_TotalLatencyMs) v r.(w_LastSeenAt) r.(w_Status).
Definition set_w_LastSeenAt (v : Z) (r : Worker) : Worker :=
  Build_Worker r.(w_Fingerprint) r.(w_PublicKey) r.(w_LLMModel) r.(w_Quantisation)
    r.(w_ClientVersion) r.(w_OS) r.(w_Arch) r.(w_LLMHash) r.(w_SyncStatus) r.(w_BackendHash)
    r.(w_BackendVersion) r.(w_BinarySyncStatus) r.(w_BackendSyncStatus) r.(w_TrustScore)
    r.(w_TotalRequests) r.(w_TotalLatencyMs) r.(w_GPUAvg) v r.(w_Status).
Definition set_w_Status (v : string) (r : Worker) : Worker :=
  Build_Worker r.(w_Fingerprint) r.(w_PublicKey) r.(w_LLMModel) r.(w_Quantisation)
    r.(w_ClientVersion) r.(w_OS) r.(w_Arch) r.(w_LLMHash) r.(w_SyncStatus) r.(w_BackendHash)
    r.(w_BackendVersion) r.(w_BinarySyncStatus) r.(w_BackendSyncStatus) r.(w_TrustScore)
    r.(w_TotalRequests) r.(w_TotalLatencyMs) r.(w_GPUAvg) r.(w_LastSeenAt) v.

Definition set_u_Status (v : string) (r : WorkUnitRow) : WorkUnitRow :=
  Build_WorkUnitRow r.(u_UnitID) r.(u_WorkerFingerprint) r.(u_LLMModel) v r.(u_ProcessingTimeMs)
    r.(u_ErrorMessage) r.(u_CreatedAt) r.(u_CompletedAt).
Definition set_u_ProcessingTimeMs (v : Z) (r : WorkUnitRow) : WorkUnitRow :=
  Build_WorkUnitRow r.(u_UnitID) r.(u_WorkerFingerprint) r.(u_LLMModel) r.(u_Status) v
    r.(u_ErrorMessage) r.(u_CreatedAt) r.(u_CompletedAt).
Definition set_u_ErrorMessage (v : string) (r : WorkUnitRow) : WorkUnitRow :=
  Build_WorkUnitRow r.(u_UnitID) r.(u_WorkerFingerprint) r.(u_LLMModel) r.(u_Status)
    r.(u_ProcessingTimeMs) v r.(u_CreatedAt) r.(u_CompletedAt).
Definition set_u_CompletedAt (v : option Z) (r : WorkUnitRow) : WorkUnitRow :=
  Build_WorkUnitRow r.(u_UnitID) r.(u_WorkerFingerprint) r.(u_LLMModel) r.(u_Status)
    r.(u_ProcessingTimeMs) r.(u_ErrorMessage) r.(u_CreatedAt) v.

Definition set_b_Status (v : string) (r : BatchRequest) : BatchRequest :=
  Build_BatchRequest r.(b_RequestID) r.(b_LLMModel) r.(b_Payload) v r.(b_Result)
    r.(b_ErrMessage) r.(b_CreatedAt) r.(b_UpdatedAt).
Definition set_b_Result (v : string) (r : BatchRequest) : BatchRequest :=
  Build_BatchRequest r.(b_RequestID) r.(b_LLMModel) r.(b_Payload) r.(b_Status) v
    r.(b_ErrMessage) r.(b_CreatedAt) r.(b_UpdatedAt).
Definition set_b_ErrMessage (v : string) (r : BatchRequest) : BatchRequest :=
  Build_BatchRequest r.(b_RequestID) r.(b_LLMModel) r.(b_Payload) r.(b_Status) r.(b_Result) v
    r.(b_CreatedAt) r.(b_UpdatedAt).
Definition set_b_UpdatedAt (v : Z) (r : BatchRequest) : BatchRequest :=
  Build_BatchRequest r.(b_RequestID) r.(b_LLMModel) r.(b_Payload) r.(b_Status) r.(b_Result)
    r.(b_ErrMessage) r.(b_CreatedAt) v.

Definition set_rm_LLMModel (v : string) (r : RoleModel) : RoleModel :=
  Build_RoleModel r.(rm_Role) v r.(rm_Quantisation) r.(rm_ModelFilename) r.(rm_ModelFileHash)
    r.(rm_DownloadURL) r.(rm_MinVRAMMB) r.(rm_Description) r.(rm_ContextSize)
    r.(rm_EndpointType) r.(rm_ParallelSlots) r.(rm_GPULayers) r.(rm_FlashAttention).
Definition set_rm_Quantisation (v : string) (r : RoleModel) : RoleModel :=
  Build_RoleModel r.(rm_Role) r.(rm_LLMModel) v r.(rm_ModelFilename) r.(rm_ModelFileHash)
    r.(rm_DownloadURL) r.(rm_MinVRAMMB) r.(rm_Description) r.(rm_ContextSize)
    r.(rm_EndpointType) r.(rm_ParallelSlots) r.(rm_GPULayers) r.(rm_FlashAttention).
Definition set_rm_ModelFilename (v : string) (r : RoleModel) : RoleModel :=
  Build_RoleModel r.(rm_Role) r.(rm_LLMModel) r.(rm_Quantisation) v r.(rm_ModelFileHash)
    r.(rm_DownloadURL) r.(rm_MinVRAMMB) r.(rm_Description) r.(rm_ContextSize)
    r.(rm_EndpointType) r.(rm_ParallelSlots) r.(rm_GPULayers) r.(rm_FlashAttention).
Definition set_rm_ModelFileHash (v : string) (r : RoleModel) : RoleModel :=
  Build_RoleModel r.(rm_Role) r.(rm_LLMModel) r.(rm_Quantisation) r.(rm_ModelFilename) v
    r.(rm_DownloadURL) r.(rm_MinVRAMMB) r.(rm_Description) r.(rm_ContextSize)
    r.(rm_EndpointType) r.(rm_ParallelSlots) r.(rm_GPULayers) r.(rm_FlashAttention).
Definition set_rm_DownloadURL (v : string) (r : RoleModel) : RoleModel :=
  Build_RoleModel r.(rm_Role) r.(rm_LLMModel) r.(rm_Quantisation) r.(rm_ModelFilename)
    r.(rm_ModelFileHash) v r.(rm_MinVRAMMB) r.(rm_Description) r.(rm_ContextSize)
    r.(rm_EndpointType) r.(rm_ParallelSlots) r.(rm_GPULayers) r.(rm_FlashAttention).
Definition set_rm_MinVRAMMB (v : Z) (r : RoleModel) : RoleModel :=
  Build_RoleModel r.(rm_Role) r.(rm_LLMModel) r.(rm_Quantisation) r.(rm_ModelFilename)
    r.(rm_ModelFileHash) r.(rm_DownloadURL) v r.(rm_Description) r.(rm_ContextSize)
    r.(rm_EndpointType) r.(rm_ParallelSlots) r.(rm_GPULayers) r.(rm_FlashAttention).
Definition set_rm_Description (v : string) (r : RoleModel) : RoleModel :=
  Build_RoleModel r.(rm_Role) r.(rm_LLMModel) r.(rm_Quantisation) r.(rm_ModelFilename)
    r.(rm_ModelFileHash) r.(rm_DownloadURL) r.(rm_MinVRAMMB) v r.(rm_ContextSize)
    r.(rm_EndpointType) r.(rm_ParallelSlots) r.(rm_GPULayers) r.(rm_FlashAttention).
Definition set_rm_ContextSize (v : Z) (r : RoleModel) : RoleModel :=
  Build_RoleModel r.(rm_Role) r.(rm_LLMModel) r.(rm_Quantisation) r.(rm_ModelFilename)
    r.(rm_ModelFileHash) r.(rm_DownloadURL) r.(rm_MinVRAMMB) r.(rm_Description) v
    r.(rm_EndpointType) r.(rm_ParallelSlots) r.(rm_GPULayers) r.(rm_FlashAttention).
Definition set_rm_EndpointType (v : string) (r : RoleModel) : RoleModel :=
  Build_RoleModel r.(rm_Role) r.(rm_LLMModel) r.(rm_Quantisation) r.(rm_ModelFilename)
    r.(rm_ModelFileHash) r.(rm_DownloadURL) r.(rm_MinVRAMMB) r.(rm_Description)
    r.(rm_ContextSize) v r.(rm_ParallelSlots) r.(rm_GPULayers) r.(rm_FlashAttention).
Definition set_rm_ParallelSlots (v : Z) (r : RoleModel) : RoleModel :=
  Build_RoleModel r.(rm_Role) r.(rm_LLMModel) r.(rm_Quantisation) r.(rm_ModelFilename)
    r.(rm_ModelFileHash) r.(rm_DownloadURL) r.(rm_MinVRAMMB) r.(rm_Description)
    r.(rm_ContextSize) r.(rm_EndpointType) v r.(rm_GPULayers) r.(rm_FlashAttention).
Definition set_rm_GPULayers (v : Z) (r : RoleModel) : RoleModel :=
  Build_RoleModel r.(rm_Role) r.(rm_LLMModel) r.(rm_Quantisation) r.(rm_ModelFilename)
    r.(rm_ModelFileHash) r.(rm_DownloadURL) r.(rm_MinVRAMMB) r.(rm_Description)
    r.(rm_ContextSize) r.(rm_EndpointType) r.(rm_ParallelSlots) v r.(rm_FlashAttention).
Definition set_rm_FlashAttention (v : bool) (r : RoleModel) : RoleModel :=
  Build_RoleModel r.(rm_Role) r.(rm_LLMModel) r.(rm_Quantisation) r.(rm_ModelFilename)
    r.(rm_ModelFileHash) r.(rm_DownloadURL) r.(rm_MinVRAMMB) r.(rm_Description)
    r.(rm_ContextSize) r.(rm_EndpointType) r.(rm_ParallelSlots) r.(rm_GPULayers) v.

(** ** Values the column defaults of the struct tags give on creation *)

Definition default_str (d v : string) : string := if v == "" then d else v.
Definition default_int (d v : Z) : Z := if v == 0%Z then d else v.

Definition worker_defaults (w : Worker) : Worker :=
  set_w_SyncStatus (default_str "out-of-sync" w.(w_SyncStatus))
  (set_w_BinarySyncStatus (default_str "out-of-sync" w.(w_BinarySyncStatus))
  (set_w_BackendSyncStatus (default_str "out-of-sync" w.(w_BackendSyncStatus))
  (set_w_Status (default_str "offline" w.(w_Status)) w))).

Definition role_defaults (r : RoleModel) : RoleModel :=
  set_rm_ContextSize (default_int 4096 r.(rm_ContextSize))
  (set_rm_EndpointType (default_str "chat" r.(rm_EndpointType))
  (set_rm_ParallelSlots (default_int 1 r.(rm_ParallelSlots))
  (set_rm_GPULayers (default_int (-1) r.(rm_GPULayers)) r))).

(** ** The store *)

Record Store `{Gorm} := {
  db_Workers : Tbl Worker;
  db_WorkUnits : Tbl WorkUnitRow;
  db_Consents : Tbl WorkerConsent;
  db_Configs : Tbl WorkerConfig;
  db_Brandings : Tbl BrandingConfig;
  db_Roles : Tbl RoleModel;
  db_ClientErrors : Tbl ClientError;
  db_Batches : Tbl BatchRequest;
  db_Samples : Tbl LatencySample;
  db_Hourly : Tbl LatencyHourlyStat;
  db_ClientVersions : Tbl ClientVersionConfig;
  db_BackendVersions : Tbl BackendVersionConfig;
  db_Oidc : Tbl OidcConfig;
  db_WorkerAuth : Tbl WorkerAuthConfig;
  db_Settings : Tbl SystemSetting;
}.

Section lenses.
Context `{Gorm}.

Definition Workers : lens Store (Tbl Worker) := Lens db_Workers
  (fun t s => Build_Store _ t s.(db_WorkUnits) s.(db_Consents) s.(db_Configs) s.(db_Brandings)
  s.(db_Roles) s.(db_ClientErrors) s.(db_Batches) s.(db_Samples) s.(db_Hourly)
  s.(db_ClientVersions) s.(db_BackendVersions) s.(db_Oidc) s.(db_WorkerAuth) s.(db_Settings)).
Definition WorkUnits : lens Store (Tbl WorkUnitRow) := Lens db_WorkUnits
  (fun t s => Build_Store _ s.(db_Workers) t s.(db_Consents) s.(db_Configs) s.(db_Brandings)
  s.(db_Roles) s.(db_ClientErrors) s.(db_Batches) s.(db_Samples) s.(db_Hourly)
  s.(db_ClientVersions) s.(db_BackendVersions) s.(db_Oidc) s.(db_WorkerAuth) s.(db_Settings)).
Definition Consents : lens Store (Tbl WorkerConsent) := Lens db_Consents
  (fun t s => Build_Store _ s.(db_Workers) s.(db_WorkUnits) t s.(db_Configs) s.(db_Brandings)
  s.(db_Roles) s.(db_ClientErrors) s.(db_Batches) s.(db_Samples) s.(db_Hourly)
  s.(db_ClientVersions) s.(db_BackendVersions) s.(db_Oidc) s.(db_WorkerAuth) s.(db_Settings)).
Definition Configs : lens Store (Tbl WorkerConfig) := Lens db_Configs
  (fun t s => Build_Store _ s.(db_Workers) s.(db_WorkUnits) s.(db_Consents) t s.(db_Brandings)
  s.(db_Roles) s.(db_ClientErrors) s.(db_Batches) s.(db_Samples) s.(db_Hourly)
  s.(db_ClientVersions) s.(db_BackendVersions) s.(db_Oidc) s.(db_WorkerAuth) s.(db_Settings)).
Definition Brandings : lens Store (Tbl BrandingConfig) := Lens db_Brandings
  (fun t s => Build_Store _ s.(db_Workers) s.(db_WorkUnits) s.(db_Consents) s.(db_Configs) t
  s.(db_Roles) s.(db_ClientErrors) s.(db_Batches) s.(db_Samples) s.(db_Hourly)
  s.(db_ClientVersions) s.(db_BackendVersions) s.(db_Oidc) s.(db_WorkerAuth) s.(db_Settings)).
Definition Roles : lens Store (Tbl RoleModel) := Lens db_Roles
  (fun t s => Build_Store _ s.(db_Workers) s.(db_WorkUnits) s.(db_Consents) s.(db_Configs)
  s.(db_Brandings) t s.(db_ClientErrors) s.(db_Batches) s.(db_Samples) s.(db_Hourly)
  s.(db_ClientVersions) s.(db_BackendVersions) s.(db_Oidc) s.(db_WorkerAuth) s.(db_Settings)).
Definition ClientErrors : lens Store (Tbl ClientError) := Lens db_ClientErrors
  (fun t s => Build_Store _ s.(db_Workers) s.(db_WorkUnits) s.(db_Consents) s.(db_Configs)
  s.(db_Brandings) s.(db_Roles) t s.(db_Batches) s.(db_Samples) s.(db_Hourly)
  s.(db_ClientVersions) s.(db_BackendVersions) s.(db_Oidc) s.(db_WorkerAuth) s.(db_Settings)).
Definition Batches : lens Store (Tbl BatchRequest) := Lens db_Batches
  (fun t s => Build_Store _ s.(db_Workers) s.(db_WorkUnits) s.(db_Consents) s.(db_Configs)
  s.(db_Brandings) s.(db_Roles) s.(db_ClientErrors) t s.(db_Samples) s.(db_Hourly)
  s.(db_ClientVersions) s.(db_BackendVersions) s.(db_Oidc) s.(db_WorkerAuth) s.(db_Settings)).
Definition Samples : lens Store (Tbl LatencySample) := Lens db_Samples
  (fun t s => Build_Store _ s.(db_Workers) s.(db_WorkUnits) s.(db_Consents) s.(db_Configs)
  s.(db_Brandings) s.(db_Roles) s.(db_ClientErrors) s.(db_Batches) t s.(db_Hourly)
  s.(db_ClientVersions) s.(db_BackendVersions) s.(db_Oidc) s.(db_WorkerAuth) s.(db_Settings)).
Definition Hourly : lens Store (Tbl LatencyHourlyStat) := Lens db_Hourly
  (fun t s => Build_Store _ s.(db_Workers) s.(db_WorkUnits) s.(db_Consents) s.(db_Configs)
  s.(db_Brandings) s.(db_Roles) s.(db_ClientErrors) s.(db_Batches) s.(db_Samples) t
  s.(db_ClientVersions) s.(db_BackendVersions) s.(db_Oidc) s.(db_WorkerAuth) s.(db_Settings)).
Definition ClientVersions : lens Store (Tbl ClientVersionConfig) := Lens db_ClientVersions
  (fun t s => Build_Store _ s.(db_Workers) s.(db_WorkUnits) s.(db_Consents) s.(db_Configs)
  s.(db_Brandings) s.(db_Roles) s.(db_ClientErrors) s.(db_Batches) s.(db_Samples)
  s.(db_Hourly) t s.(db_BackendVersions) s.(db_Oidc) s.(db_WorkerAuth) s.(db_Settings)).
Definition BackendVersions : lens Store (Tbl BackendVersionConfig) := Lens db_BackendVersions
  (fun t s => Build_Store _ s.(db_Workers) s.(db_WorkUnits) s.(db_Consents) s.(db_Configs)
  s.(db_Brandings) s.(db_Roles) s.(db_ClientErrors) s.(db_Batches) s.(db_Samples)
  s.(db_Hourly) s.(db_ClientVersions) t s.(db_Oidc) s.(db_WorkerAuth) s.(db_Settings)).
Definition Oidc : lens Store (Tbl OidcConfig) := Lens db_Oidc
  (fun t s => Build_Store _ s.(db_Workers) s.(db_WorkUnits) s.(db_Consents) s.(db_Configs)
  s.(db_Brandings) s.(db_Roles) s.(db_ClientErrors) s.(db_Batches) s.(db_Samples)
  s.(db_Hourly) s.(db_ClientVersions) s.(db_BackendVersions) t s.(db_WorkerAuth)
  s.(db_Settings)).
Definition WorkerAuth : lens Store (Tbl WorkerAuthConfig) := Lens db_WorkerAuth
  (fun t s => Build_Store _ s.(db_Workers) s.(db_WorkUnits) s.(db_Consents) s.(db_Configs)
  s.(db_Brandings) s.(db_Roles) s.(db_ClientErrors) s.(db_Batches) s.(db_Samples)
  s.(db_Hourly) s.(db_ClientVersions) s.(db_BackendVersions) s.(db_Oidc) t s.(db_Settings)).
Definition Settings : lens Store (Tbl SystemSetting) := Lens db_Settings
  (fun t s => Build_Store _ s.(db_Workers) s.(db_WorkUnits) s.(db_Consents) s.(db_Configs)
  s.(db_Brandings) s.(db_Roles) s.(db_ClientErrors) s.(db_Batches) s.(db_Samples)
  s.(db_Hourly) s.(db_ClientVersions) s.(db_BackendVersions) s.(db_Oidc) s.(db_WorkerAuth) t).
#[export] Instance Workers_laws : LensLaws Workers.
Proof. split; [done|by intros []|done]. Qed.
#[export] Instance WorkUnits_laws : LensLaws WorkUnits.
Proof. split; [done|by intros []|done]. Qed.
#[export] Instance Consents_laws : LensLaws Consents.
Proof. split; [done|by intros []|done]. Qed.
#[export] Instance Configs_laws : LensLaws Configs.
Proof. split; [done|by intros []|done]. Qed.
#[export] Instance Brandings_laws : LensLaws Brandings.
Proof. split; [done|by intros []|done]. Qed.
#[export] Instance Roles_laws : LensLaws Roles.
Proof. split; [done|by intros []|done]. Qed.
#[export] Instance ClientErrors_laws : LensLaws ClientErrors.
Proof. split; [done|by intros []|done]. Qed.
#[export] Instance Batches_laws : LensLaws Batches.
Proof. split; [done|by intros []|done]. Qed.
#[export] Instance Samples_laws : LensLaws Samples.
Proof. split; [done|by intros []|done]. Qed.
#[export] Instance Hourly_laws : LensLaws Hourly.
Proof. split; [done|by intros []|done]. Qed.
#[export] Instance ClientVersions_laws : LensLaws ClientVersions.
Proof. split; [done|by intros []|done]. Qed.
#[export] Instance BackendVersions_laws : LensLaws BackendVersions.
Proof. split; [done|by intros []|done]. Qed.
#[export] Instance Oidc_laws : LensLaws Oidc.
Proof. split; [done|by intros []|done]. Qed.
#[export] Instance WorkerAuth_laws : LensLaws WorkerAuth.
Proof. split; [done|by intros []|done]. Qed.
#[export] Instance Settings_laws : LensLaws Settings.
Proof. split; [done|by intros []|done]. Qed.
End lenses.

(** An empty in-memory store, and example rows, to evaluate the operations on. *)
Definition mem_rows {R} (l : list R) : @Tbl MemGorm R := Build_MemTbl l [].
Definition empty_store : @Store MemGorm :=
  @Build_Store MemGorm (mem_rows []) (mem_rows []) (mem_rows []) (mem_rows []) (mem_rows [])
    (mem_rows []) (mem_rows []) (mem_rows []) (mem_rows []) (mem_rows []) (mem_rows [])
    (mem_rows []) (mem_rows []) (mem_rows []) (mem_rows []).

Definition sample_worker (fp llmHash sync status : string) : Worker :=
  {| w_Fingerprint := fp; w_PublicKey := ""; w_LLMModel := ""; w_Quantisation := "";
     w_ClientVersion := ""; w_OS := "linux"; w_Arch := "amd64"; w_LLMHash := llmHash;
     w_SyncStatus := sync; w_BackendHash := ""; w_BackendVersion := "";
     w_BinarySyncStatus := "synced"; w_BackendSyncStatus := "synced"; w_TrustScore := 0;
     w_TotalRequests := 0; w_TotalLatencyMs := 0; w_GPUAvg := 0; w_LastSeenAt := 0;
     w_Status := status |}.
Definition sample_consent (fp : string) : WorkerConsent :=
  {| c_Fingerprint := fp; c_Accepted := true; c_AcceptedAt := Some 0%Z; c_HardwareStats := false;
     c_ConfigPreferences := false; c_HwOS := ""; c_HwOSVer := ""; c_HwGPU := "";
     c_HwGPUDriver := ""; c_HwGPUDriverVer := ""; c_HwVRAMMB := 0; c_HwCPU := "";
     c_HwCPUCores := 0; c_HwRAMMB := 0 |}.
