(* ===== verification/Workers.v ===== *)
(** * Workers in the store (store.go): registration, status, consent, sync

    Every operation is a computation in [GoM Store]; the current instant is an
    argument where the code calls [time.Now()]. A row read with [First] and
    then updated through [Model(&row)] is addressed by its unique key. *)

From S2P Require Import Prelude GoStd Protocol Gorm Models.

Section workers.
Context `{Gorm}.

Definition by_fp (fp : string) (w : Worker) : bool := w.(w_Fingerprint) == fp.
Definition same_worker (w1 w2 : Worker) : bool := w1.(w_Fingerprint) == w2.(w_Fingerprint).
Definition by_consent_fp (fp : string) (c : WorkerConsent) : bool := c.(c_Fingerprint) == fp.
Definition by_config_fp (fp : string) (c : WorkerConfig) : bool := c.(wc_Fingerprint) == fp.
Definition by_role (role : string) (r : RoleModel) : bool := r.(rm_Role) == role.

(** ** Registration *)

Definition UpsertWorker (now : Z) (fingerprint publicKey model quantisation clientVersion os arch : string)
    : GoM Store (option db_err) :=
  result ← First Workers (by_fp fingerprint);
  match result with
  | inr ErrRecordNotFound =>
      Create Workers same_worker (worker_defaults
        {| w_Fingerprint := fingerprint; w_PublicKey := publicKey; w_LLMModel := model;
           w_Quantisation := quantisation; w_ClientVersion := clientVersion; w_OS := os;
           w_Arch := arch; w_LLMHash := ""; w_SyncStatus := ""; w_BackendHash := "";
           w_BackendVersion := ""; w_BinarySyncStatus := ""; w_BackendSyncStatus := "";
           w_TrustScore := 0; w_TotalRequests := 0; w_TotalLatencyMs := 0; w_GPUAvg := 0;
           w_LastSeenAt := now; w_Status := "online" |})
  | inr e => mret (Some e)
  | inl worker =>
      Updates Workers (by_fp worker.(w_Fingerprint)) (fun w =>
        set_w_LLMModel model (set_w_Quantisation quantisation (set_w_ClientVersion clientVersion
          (set_w_OS os (set_w_Arch arch (set_w_LastSeenAt now w))))))
  end.

(** ** Status *)

Definition SetWorkerOnlineIfAllowed (fingerprint : string) : GoM Store unit :=
  Updates_ Workers (fun w => by_fp fingerprint w && (w.(w_Status) != "withdrawn"))
    (set_w_Status "online").

Definition SetWorkerOffline (fingerprint : string) : GoM Store (option db_err) :=
  Updates Workers (fun w => by_fp fingerprint w && (w.(w_Status) != "deleted"))
    (set_w_Status "offline").

Definition SetWorkerDeleted (fingerprint : string) : GoM Store (option db_err) :=
  Updates Workers (by_fp fingerprint) (set_w_Status "deleted").

Definition SetWorkerStatus (fingerprint status : string) : GoM Store (option db_err) :=
  Updates Workers (by_fp fingerprint) (set_w_Status status).

Definition SetWorkerAvailableIfProcessing (fingerprint : string) : GoM Store unit :=
  Updates_ Workers (fun w => by_fp fingerprint w && (w.(w_Status) == "processing"))
    (set_w_Status "available").

Definition SetWorkerAvailableIfWithdrawn (fingerprint : string) : GoM Store unit :=
  Updates_ Workers (fun w => by_fp fingerprint w && (w.(w_Status) == "withdrawn"))
    (set_w_Status "available").

Definition SetWorkerStatusIfNotWithdrawn (fingerprint status : string) : GoM Store unit :=
  Updates_ Workers (fun w => by_fp fingerprint w && (w.(w_Status) != "withdrawn"))
    (set_w_Status status).

Definition GetWorker (fingerprint : string) : GoM Store (Worker + db_err) :=
  First Workers (by_fp fingerprint).

(** ** Consent and configuration *)

Definition GetConsent (fingerprint : string) : GoM Store (option WorkerConsent + db_err) :=
  result ← First Consents (by_consent_fp fingerprint);
  mret (match result with
        | inl c => inl (Some c)
        | inr ErrRecordNotFound => inl None
        | inr e => inr e
        end).

Definition with_hardware (hw : option HardwareInfo) (c : WorkerConsent) : WorkerConsent :=
  match hw with
  | None => c
  | Some h =>
      {| c_Fingerprint := c.(c_Fingerprint); c_Accepted := c.(c_Accepted);
         c_AcceptedAt := c.(c_AcceptedAt); c_HardwareStats := c.(c_HardwareStats);
         c_ConfigPreferences := c.(c_ConfigPreferences); c_HwOS := h.(hw_OS);
         c_HwOSVer := h.(hw_OSVer); c_HwGPU := h.(hw_GPU); c_HwGPUDriver := h.(hw_GPUDriver);
         c_HwGPUDriverVer := h.(hw_GPUDriverVersion); c_HwVRAMMB := h.(hw_VRAMMB);
         c_HwCPU := h.(hw_CPU); c_HwCPUCores := h.(hw_CPUCores); c_HwRAMMB := h.(hw_RAMMB) |}
  end.

Definition set_consent_flags (accepted hardwareStats configPreferences : bool)
    (acceptedAt : option Z) (c : WorkerConsent) : WorkerConsent :=
  {| c_Fingerprint := c.(c_Fingerprint); c_Accepted := accepted; c_AcceptedAt := acceptedAt;
     c_HardwareStats := hardwareStats; c_ConfigPreferences := configPreferences;
     c_HwOS := c.(c_HwOS); c_HwOSVer := c.(c_HwOSVer); c_HwGPU := c.(c_HwGPU);
     c_HwGPUDriver := c.(c_HwGPUDriver); c_HwGPUDriverVer := c.(c_HwGPUDriverVer);
     c_HwVRAMMB := c.(c_HwVRAMMB); c_HwCPU := c.(c_HwCPU); c_HwCPUCores := c.(c_HwCPUCores);
     c_HwRAMMB := c.(c_HwRAMMB) |}.

Definition new_consent (fingerprint : string) : WorkerConsent :=
  {| c_Fingerprint := fingerprint; c_Accepted := false; c_AcceptedAt := None;
     c_HardwareStats := false; c_ConfigPreferences := false; c_HwOS := ""; c_HwOSVer := "";
     c_HwGPU := ""; c_HwGPUDriver := ""; c_HwGPUDriverVer := ""; c_HwVRAMMB := 0;
     c_HwCPU := ""; c_HwCPUCores := 0; c_HwRAMMB := 0 |}.

Definition same_consent (c1 c2 : WorkerConsent) : bool := c1.(c_Fingerprint) == c2.(c_Fingerprint).

Definition SetConsent (now : Z) (fingerprint : string)
    (accepted hardwareStats configPreferences : bool) (hw : option HardwareInfo)
    : GoM Store (option db_err) :=
  result ← First Consents (by_consent_fp fingerprint);
  match result with
  | inr ErrRecordNotFound =>
      Create Consents same_consent (with_hardware hw
        (set_consent_flags accepted hardwareStats configPreferences
           (if accepted then Some now else None) (new_consent fingerprint)))
  | inr e => mret (Some e)
  | inl consent =>
      Updates Consents (by_consent_fp consent.(c_Fingerprint)) (fun c =>
        with_hardware hw (set_consent_flags accepted hardwareStats configPreferences
          (if accepted && bool_decide (consent.(c_AcceptedAt) = None)
           then Some now else c.(c_AcceptedAt)) c))
  end.

Definition HasConsent (fingerprint : string) : GoM Store bool :=
  result ← First Consents (fun c => by_consent_fp fingerprint c && c.(c_Accepted));
  mret (match result with inl _ => true | inr _ => false end).

Definition GetWorkerConfig (fingerprint : string) : GoM Store (option WorkerConfig + db_err) :=
  result ← First Configs (by_config_fp fingerprint);
  mret (match result with
        | inl c => inl (Some c)
        | inr ErrRecordNotFound => inl None
        | inr e => inr e
        end).

Definition same_config (c1 c2 : WorkerConfig) : bool := c1.(wc_Fingerprint) == c2.(wc_Fingerprint).

Definition SetWorkerConfig (fingerprint preferredRole nickname : string) : GoM Store (option db_err) :=
  result ← First Configs (by_config_fp fingerprint);
  match result with
  | inr ErrRecordNotFound =>
      Create Configs same_config
        {| wc_Fingerprint := fingerprint; wc_PreferredRole := preferredRole; wc_Nickname := nickname |}
  | inr e => mret (Some e)
  | inl config =>
      Updates Configs (by_config_fp config.(wc_Fingerprint)) (fun c =>
        {| wc_Fingerprint := c.(wc_Fingerprint); wc_PreferredRole := preferredRole;
           wc_Nickname := nickname |})
  end.

(** ** Availability and reported hashes *)

Definition available_row (w : Worker) : bool :=
  ((w.(w_Status) == "available") || (w.(w_Status) == "online")) && (w.(w_SyncStatus) == "synced").

Definition IsWorkerAvailable (fingerprint : string) : GoM Store bool :=
  result ← First Workers (fun w => by_fp fingerprint w && available_row w);
  mret (match result with inl _ => true | inr _ => false end).

Definition HasAnyAvailableWorker : GoM Store bool :=
  count ← Count Workers available_row;
  mret (bool_decide (0 < count)%Z).

Definition SetWorkerLLMHash (fingerprint llmHash : string) : GoM Store (option db_err) :=
  Updates Workers (by_fp fingerprint) (set_w_LLMHash llmHash).

Definition SetWorkerGPUAvg (fingerprint : string) (avg : Z) : GoM Store (option db_err) :=
  Updates Workers (by_fp fingerprint) (set_w_GPUAvg avg).

Definition SetWorkerBackendHash (fingerprint hash : string) : GoM Store (option db_err) :=
  Updates Workers (by_fp fingerprint) (set_w_BackendHash hash).

Definition SetWorkerBackendVersion (fingerprint version : string) : GoM Store (option db_err) :=
  Updates Workers (by_fp fingerprint) (set_w_BackendVersion version).

Definition WorkerLLMHashMatches (fingerprint expectedHash : string) : GoM Store bool :=
  result ← First Workers (fun w => by_fp fingerprint w && (w.(w_LLMHash) == expectedHash));
  mret (match result with inl _ => true | inr _ => false end).

(** ** Model sync *)

(** [s[:n]], which panics when the string is shorter *)
Definition slice {S} (s : string) (n : nat) : GoM S string :=
  match slice_to s n with
  | Some t => mret t
  | None => panic "slice bounds out of range"
  end.

Definition set_sync (fingerprint status : string) : GoM Store string :=
  Updates_ Workers (by_fp fingerprint) (set_w_SyncStatus status) ;;
  mret status.

(** A role whose file hash is known and whose integrity hash is [llmHash]. *)
Definition role_matches `{Crypto} (llmHash : string) (r : RoleModel) : bool :=
  (r.(rm_ModelFileHash) != "") && (llmHash == ComputeLLMHash r.(rm_Role) r.(rm_ModelFileHash)).

Definition worker_role (wc : WorkerConfig + db_err) : string :=
  match wc with
  | inl wc => if wc.(wc_PreferredRole) != "" then wc.(wc_PreferredRole) else "inference"
  | inr _ => "inference"
  end.

(** The part after the early return for a role without a file hash; [rmHash]
    is the hash of the worker's role, empty when the role was not found. *)
Definition match_roles `{Crypto} (fingerprint role rmHash : string) (worker : Worker) : GoM Store string :=
  if worker.(w_LLMHash) == "" then set_sync fingerprint "out-of-sync"
  else if (rmHash != "") && (worker.(w_LLMHash) == ComputeLLMHash role rmHash)
  then set_sync fingerprint "synced"
  else
    found ← Find Roles (fun _ => true) None None;
    let allRoles := match found with inl l => l | inr _ => [] end in
    if existsb (role_matches worker.(w_LLMHash)) allRoles then set_sync fingerprint "synced"
    else
      (* the arguments of the debug line are evaluated whatever the level *)
      slice fingerprint 8 ;;
      slice worker.(w_LLMHash) 16 ;;
      set_sync fingerprint "out-of-sync".

Definition UpdateWorkerSyncStatus `{Crypto} (fingerprint : string) : GoM Store string :=
  result ← First Workers (by_fp fingerprint);
  match result with
  | inr _ => mret "out-of-sync"
  | inl worker =>
      wc ← First Configs (by_config_fp fingerprint);
      let role := worker_role wc in
      rm ← First Roles (by_role role);
      match rm with
      | inl rm => if rm.(rm_ModelFileHash) == "" then set_sync fingerprint "synced"
                  else match_roles fingerprint role rm.(rm_ModelFileHash) worker
      | inr _ => match_roles fingerprint role "" worker
      end
  end.

(** ** Aggregated status *)

Definition AggregatedStatus (clientStatus syncStatus : string) : string :=
  if clientStatus == "updating" then "updating"
  else if clientStatus == "offline" then "offline"
  else if (clientStatus == "available") && (syncStatus == "synced") then "available"
  else if (clientStatus == "processing") && (syncStatus == "synced") then "processing"
  else "unavailable".

Definition ComputeOverallSyncStatus (modelSync binarySync backendSync : string) : string :=
  if (modelSync == "synced") && (binarySync == "synced") && (backendSync == "synced")
  then "synced" else "out-of-sync".

Definition GetClientVersionConfig : GoM Store (ClientVersionConfig + db_err) :=
  First ClientVersions (fun _ => true).
Definition GetRoleModel (role : string) : GoM Store (RoleModel + db_err) := First Roles (by_role role).
Definition GetBackendVersionConfig : GoM Store (BackendVersionConfig + db_err) :=
  First BackendVersions (fun _ => true).

Definition GetWorkerOverallSyncStatus (fingerprint : string) : GoM Store string :=
  result ← First Workers (by_fp fingerprint);
  match result with
  | inr _ => mret "out-of-sync"
  | inl worker =>
      let modelSync := default_str "out-of-sync" worker.(w_SyncStatus) in
      cv ← GetClientVersionConfig;
      let binarySync := match cv with
                        | inr _ => "synced"
                        | inl _ => default_str "out-of-sync" worker.(w_BinarySyncStatus)
                        end in
      bv ← GetBackendVersionConfig;
      let backendSync := match bv with
                         | inr _ => "synced"
                         | inl _ => default_str "synced" worker.(w_BackendSyncStatus)
                         end in
      mret (ComputeOverallSyncStatus modelSync binarySync backendSync)
  end.

Definition GetWorkerSyncStatus (fingerprint : string) : GoM Store string :=
  GetWorkerOverallSyncStatus fingerprint.

(** ** Binary and backend sync *)

Definition UpdateWorkerBinarySyncStatus (fingerprint targetVersion : string) : GoM Store string :=
  result ← First Workers (by_fp fingerprint);
  match result with
  | inr _ => mret "out-of-sync"
  | inl worker =>
      let status := if worker.(w_ClientVersion) == targetVersion then "synced" else "out-of-sync" in
      Updates_ Workers (by_fp worker.(w_Fingerprint)) (set_w_BinarySyncStatus status) ;;
      mret status
  end.

Definition GetOutdatedWorkers (targetVersion : string) : GoM Store (list Worker + db_err) :=
  Find Workers (fun w => (w.(w_Status) != "offline") && (w.(w_ClientVersion) != targetVersion)) None None.

Definition MarkAllWorkersBackendOutOfSync : GoM Store unit :=
  Updates_ Workers (fun w => w.(w_Status) != "offline") (set_w_BackendSyncStatus "out-of-sync").

(** What the target demands of a worker. *)
Definition backend_target_met (cfg : BackendVersionConfig) (w : Worker) : bool :=
  if cfg.(bv_SHA256) != "" then w.(w_BackendHash) == cfg.(bv_SHA256)
  else (w.(w_BackendVersion) != "") && (w.(w_BackendVersion) == cfg.(bv_Version)).

Definition UpdateWorkerBackendSyncStatus (fingerprint : string) : GoM Store string :=
  result ← First Workers (by_fp fingerprint);
  match result with
  | inr _ => mret "out-of-sync"
  | inl worker =>
      cfg ← GetBackendVersionConfig;
      let status := match cfg with
                    | inr _ => "synced"
                    | inl cfg => if backend_target_met cfg worker then "synced" else "out-of-sync"
                    end in
      Updates_ Workers (by_fp worker.(w_Fingerprint)) (set_w_BackendSyncStatus status) ;;
      mret status
  end.
End workers.

(** ** What the operations keep *)

Section frames.
Context `{GormLaws, Crypto}.

Definition worker_row (fp : string) (s : Store) : option Worker :=
  List.find (by_fp fp) (live (db_Workers s)).

(** The relation every operation but registration lives in: only worker rows
    change, no row comes or goes, and neither the identity of a row nor a
    withdrawn status is touched. *)
Definition keeps_withdrawn (w w' : Worker) : Prop :=
  w'.(w_Fingerprint) = w.(w_Fingerprint) /\ w'.(w_PublicKey) = w.(w_PublicKey) /\
  (w.(w_Status) = "withdrawn" -> w'.(w_Status) = "withdrawn").

#[export] Instance keeps_withdrawn_preorder : PreOrder keeps_withdrawn.
Proof. split; [done|]. intros x y z (? & ? & ?) (? & ? & ?). split_and!; auto; congruence. Qed.

Definition workers_rel : Store -> Store -> Prop := table_rel Workers keeps_withdrawn.
#[export] Instance workers_rel_preorder : PreOrder workers_rel.
Proof. apply _. Qed.

Ltac column := intros; split_and!; try done; cbn in *;
  repeat match goal with H : _ && _ = true |- _ => apply andb_true_iff in H as [? ?] end;
  intros Hst; rewrite ?Hst in *; cbn in *; naive_solver.

Lemma keeps_slice (P : Store -> Store -> Prop) `{!PreOrder P} s n : keeps P (slice s n).
Proof. unfold slice. keeps_tac. Qed.

Lemma set_sync_rel fp st : keeps workers_rel (set_sync fp st).
Proof. unfold set_sync. keeps_tac. apply keeps_Updates_; [apply _..|]. column. Qed.
Hint Resolve set_sync_rel keeps_slice : keeps.

Lemma UpdateWorkerSyncStatus_rel fp : keeps workers_rel (UpdateWorkerSyncStatus fp).
Proof. unfold UpdateWorkerSyncStatus, match_roles. keeps_tac. Qed.

Lemma SetWorkerLLMHash_rel fp h : keeps workers_rel (SetWorkerLLMHash fp h).
Proof. apply keeps_Updates; [apply _..|]. column. Qed.
Lemma SetWorkerBackendHash_rel fp h : keeps workers_rel (SetWorkerBackendHash fp h).
Proof. apply keeps_Updates; [apply _..|]. column. Qed.
Lemma SetWorkerBackendVersion_rel fp h : keeps workers_rel (SetWorkerBackendVersion fp h).
Proof. apply keeps_Updates; [apply _..|]. column. Qed.
Lemma SetWorkerGPUAvg_rel fp h : keeps workers_rel (SetWorkerGPUAvg fp h).
Proof. apply keeps_Updates; [apply _..|]. column. Qed.
Lemma UpdateWorkerBackendSyncStatus_rel fp : keeps workers_rel (UpdateWorkerBackendSyncStatus fp).
Proof.
  unfold UpdateWorkerBackendSyncStatus, GetBackendVersionConfig. keeps_tac;
    apply keeps_Updates_; try apply _; column.
Qed.
Lemma UpdateWorkerBinarySyncStatus_rel fp v : keeps workers_rel (UpdateWorkerBinarySyncStatus fp v).
Proof.
  unfold UpdateWorkerBinarySyncStatus. keeps_tac; apply keeps_Updates_; try apply _; column.
Qed.
Lemma SetWorkerAvailableIfProcessing_rel fp : keeps workers_rel (SetWorkerAvailableIfProcessing fp).
Proof. apply keeps_Updates_; [apply _..|]. column. Qed.
Lemma SetWorkerStatusIfNotWithdrawn_rel fp st : keeps workers_rel (SetWorkerStatusIfNotWithdrawn fp st).
Proof. apply keeps_Updates_; [apply _..|]. column. Qed.
Lemma SetWorkerOnlineIfAllowed_rel fp : keeps workers_rel (SetWorkerOnlineIfAllowed fp).
Proof. apply keeps_Updates_; [apply _..|]. column. Qed.
Lemma GetWorkerSyncStatus_rel fp : keeps workers_rel (GetWorkerSyncStatus fp).
Proof.
  unfold GetWorkerSyncStatus, GetWorkerOverallSyncStatus, GetClientVersionConfig,
    GetBackendVersionConfig. keeps_tac.
Qed.
Lemma HasConsent_rel fp : keeps workers_rel (HasConsent fp).
Proof. unfold HasConsent. keeps_tac. Qed.
End frames.

#[export] Hint Resolve UpdateWorkerSyncStatus_rel SetWorkerLLMHash_rel SetWorkerBackendHash_rel
  SetWorkerBackendVersion_rel SetWorkerGPUAvg_rel UpdateWorkerBackendSyncStatus_rel
  UpdateWorkerBinarySyncStatus_rel SetWorkerAvailableIfProcessing_rel
  SetWorkerStatusIfNotWithdrawn_rel SetWorkerOnlineIfAllowed_rel GetWorkerSyncStatus_rel
  HasConsent_rel : keeps.

(** ** Model sync against its specification *)

Section sync.
Context `{GormLaws, !GormUp, CryptoLaws}.

Definition config_role (s : Store) (fp : string) : string :=
  worker_role (match List.find (by_config_fp fp) (live (db_Configs s)) with
               | Some c => inl c
               | None => inr ErrRecordNotFound
               end).

(** A worker is in sync when its role demands no particular file, or when
    its hash is the integrity hash of some configured role. *)
Definition model_in_sync (s : Store) (w : Worker) : bool :=
  match List.find (by_role (config_role s w.(w_Fingerprint))) (live (db_Roles s)) with
  | Some rm => rm.(rm_ModelFileHash) == ""
  | None => false
  end ||
  ((w.(w_LLMHash) != "") && existsb (role_matches w.(w_LLMHash)) (live (db_Roles s))).

Lemma set_sync_up fp st s : exists s',
  set_sync fp st s = (s', Ret st) /\
  worker_row fp s' = set_w_SyncStatus st <$> worker_row fp s.
Proof.
  destruct (Updates__up Workers (by_fp fp) (set_w_SyncStatus st) s) as (t & E & Hl & _).
  exists (lset Workers t s). unfold set_sync. rewrite (bind_Ret _ _ _ _ _ E). split; [done|].
  unfold worker_row. cbn. rewrite Hl. cbn. rewrite find_update_other by done.
  destruct (List.find _ _) as [w|] eqn:Hw; [|done]. apply find_in in Hw as [_ Hw]. cbn. by rewrite Hw.
Qed.

Lemma worker_row_fp fp s w : worker_row fp s = Some w -> w.(w_Fingerprint) = fp.
Proof. intros [_ Hw]%find_in. by apply bool_decide_eq_true_1 in Hw. Qed.

(** Which of the outcomes of [match_roles] applies. *)
Lemma match_roles_up fp role rmHash w s :
  (rmHash <> "" -> exists rm, rm ∈ live (db_Roles s) /\ rm.(rm_Role) = role /\ rm.(rm_ModelFileHash) = rmHash) ->
  match_roles fp role rmHash w s =
    (if w.(w_LLMHash) == "" then set_sync fp "out-of-sync"
     else if existsb (role_matches w.(w_LLMHash)) (live (db_Roles s)) then set_sync fp "synced"
     else slice fp 8 ;; slice w.(w_LLMHash) 16 ;; set_sync fp "out-of-sync") s.
Proof.
  intros Hrm. unfold match_roles. destruct (w_LLMHash w == ""); [done|].
  destruct ((rmHash != "") && _) eqn:Hpref.
  - apply andb_true_iff in Hpref as [Hne Heq].
    replace (existsb _ _) with true; [done|]. symmetry. apply existsb_exists.
    destruct Hrm as (rm & Hin & Hrole & Hhash); [by apply negb_true_iff, bool_decide_eq_false in Hne|].
    exists rm. split; [by apply list_elem_of_In|]. unfold role_matches. subst. by rewrite Hne, Heq.
  - destruct (Find_up Roles (fun _ => true) s) as (l & E & Hperm).
    rewrite (bind_Ret _ _ _ _ _ E). cbv zeta. 
    by rewrite (existsb_perm _ _ _ Hperm), List.forallb_filter_id by (by apply forallb_forall).
Qed.

Lemma sync_status_cases fp s w : worker_row fp s = Some w ->
  UpdateWorkerSyncStatus fp s =
    (if model_in_sync s w then set_sync fp "synced"
     else if w.(w_LLMHash) == "" then set_sync fp "out-of-sync"
     else slice fp 8 ;; slice w.(w_LLMHash) 16 ;; set_sync fp "out-of-sync") s.
Proof.
  intros Hw. pose proof (worker_row_fp _ _ _ Hw) as Hfp.
  unfold UpdateWorkerSyncStatus. rewrite (bind_Ret _ _ _ _ _ (First_up _ _ _)). cbn [lget Workers].
  unfold worker_row in Hw. rewrite Hw.
  rewrite (bind_Ret _ _ _ _ _ (First_up _ _ _)). cbn [lget Configs].
  change (worker_role _) with (config_role s fp).
  rewrite (bind_Ret _ _ _ _ _ (First_up _ _ _)). cbn [lget Roles].
  unfold model_in_sync. rewrite Hfp.
  destruct (List.find _ (live (db_Roles s))) as [rm|] eqn:Hrm; cbn [orb].
  - destruct (rm_ModelFileHash rm == "") eqn:Hh; [done|]. cbn [orb].
    apply find_in in Hrm as [Hin Hr%bool_decide_eq_true_1].
    rewrite match_roles_up by eauto. by destruct (w_LLMHash w == ""), (existsb _ _).
  - rewrite match_roles_up by done. by destruct (w_LLMHash w == ""), (existsb _ _).
Qed.
End sync.

(** ** One row per fingerprint *)

Section unique.
Context `{GormLaws, Crypto}.

Definition unique_fingerprints (s : Store) : Prop :=
  unique_index w_Fingerprint (db_Workers s) /\
  unique_index c_Fingerprint (db_Consents s) /\
  unique_index wc_Fingerprint (db_Configs s).

Definition unique_rel (s s' : Store) : Prop := unique_fingerprints s -> unique_fingerprints s'.
#[export] Instance unique_rel_preorder : PreOrder unique_rel.
Proof. split; [by intros s Hs|]. unfold unique_rel. intros x y z. auto. Qed.

(** The statements the operations are made of. *)
Lemma unique_Workers_updates p f :
  (forall r, w_Fingerprint (f r) = w_Fingerprint r) -> keeps unique_rel (Updates Workers p f).
Proof.
  intros Hf s (HW & HC & HG). pose proof (unique_updates w_Fingerprint p f (db_Workers s) Hf HW) as Hu.
  unfold run, Updates, UpdatesN, mbind, GoM_bind. cbn. by destruct (db_updates _ _ _) as [t [n|e]].
Qed.
Lemma unique_Workers_updates_ p f :
  (forall r, w_Fingerprint (f r) = w_Fingerprint r) -> keeps unique_rel (Updates_ Workers p f).
Proof. intros. unfold Updates_. keeps_tac. by apply unique_Workers_updates. Qed.
Lemma unique_Workers_create w : keeps unique_rel (Create Workers same_worker w).
Proof.
  intros s (HW & HC & HG).
  pose proof (unique_create w_Fingerprint same_worker w (db_Workers s) (fun _ => eq_refl) HW) as Hu.
  unfold run, Create. cbn. by destruct (db_create _ _ _) as [t e].
Qed.
Lemma unique_Consents_updates p f :
  (forall r, c_Fingerprint (f r) = c_Fingerprint r) -> keeps unique_rel (Updates Consents p f).
Proof.
  intros Hf s (HW & HC & HG). pose proof (unique_updates c_Fingerprint p f (db_Consents s) Hf HC) as Hu.
  unfold run, Updates, UpdatesN, mbind, GoM_bind. cbn. by destruct (db_updates _ _ _) as [t [n|e]].
Qed.
Lemma unique_Consents_create c : keeps unique_rel (Create Consents same_consent c).
Proof.
  intros s (HW & HC & HG).
  pose proof (unique_create c_Fingerprint same_consent c (db_Consents s) (fun _ => eq_refl) HC) as Hu.
  unfold run, Create. cbn. by destruct (db_create _ _ _) as [t e].
Qed.
Lemma unique_Configs_updates p f :
  (forall r, wc_Fingerprint (f r) = wc_Fingerprint r) -> keeps unique_rel (Updates Configs p f).
Proof.
  intros Hf s (HW & HC & HG). pose proof (unique_updates wc_Fingerprint p f (db_Configs s) Hf HG) as Hu.
  unfold run, Updates, UpdatesN, mbind, GoM_bind. cbn. by destruct (db_updates _ _ _) as [t [n|e]].
Qed.
Lemma unique_Configs_create c : keeps unique_rel (Create Configs same_config c).
Proof.
  intros s (HW & HC & HG).
  pose proof (unique_create wc_Fingerprint same_config c (db_Configs s) (fun _ => eq_refl) HG) as Hu.
  unfold run, Create. cbn. by destruct (db_create _ _ _) as [t e].
Qed.

(** The writes of this file, as a language of operations. *)
Inductive worker_op :=
  | OpUpsert (now : Z) (fp pk model quant ver os arch : string)
  | OpOnlineIfAllowed (fp : string)
  | OpOffline (fp : string)
  | OpDeleted (fp : string)
  | OpStatus (fp st : string)
  | OpAvailableIfProcessing (fp : string)
  | OpAvailableIfWithdrawn (fp : string)
  | OpStatusIfNotWithdrawn (fp st : string)
  | OpConsent (now : Z) (fp : string) (acc hs cp : bool) (hw : option HardwareInfo)
  | OpConfig (fp role nick : string)
  | OpLLMHash (fp h : string)
  | OpGPUAvg (fp : string) (avg : Z)
  | OpBackendHash (fp h : string)
  | OpBackendVersion (fp v : string)
  | OpSync (fp : string)
  | OpBinarySync (fp v : string)
  | OpBackendSync (fp : string)
  | OpAllBackendOutOfSync.

Definition exec_op (op : worker_op) : GoM Store unit :=
  match op with
  | OpUpsert now fp pk model quant ver os arch => UpsertWorker now fp pk model quant ver os arch ;; skip
  | OpOnlineIfAllowed fp => SetWorkerOnlineIfAllowed fp
  | OpOffline fp => SetWorkerOffline fp ;; skip
  | OpDeleted fp => SetWorkerDeleted fp ;; skip
  | OpStatus fp st => SetWorkerStatus fp st ;; skip
  | OpAvailableIfProcessing fp => SetWorkerAvailableIfProcessing fp
  | OpAvailableIfWithdrawn fp => SetWorkerAvailableIfWithdrawn fp
  | OpStatusIfNotWithdrawn fp st => SetWorkerStatusIfNotWithdrawn fp st
  | OpConsent now fp acc hs cp hw => SetConsent now fp acc hs cp hw ;; skip
  | OpConfig fp role nick => SetWorkerConfig fp role nick ;; skip
  | OpLLMHash fp h => SetWorkerLLMHash fp h ;; skip
  | OpGPUAvg fp avg => SetWorkerGPUAvg fp avg ;; skip
  | OpBackendHash fp h => SetWorkerBackendHash fp h ;; skip
  | OpBackendVersion fp v => SetWorkerBackendVersion fp v ;; skip
  | OpSync fp => UpdateWorkerSyncStatus fp ;; skip
  | OpBinarySync fp v => UpdateWorkerBinarySyncStatus fp v ;; skip
  | OpBackendSync fp => UpdateWorkerBackendSyncStatus fp ;; skip
  | OpAllBackendOutOfSync => MarkAllWorkersBackendOutOfSync
  end.

Lemma set_sync_unique fp st : keeps unique_rel (set_sync fp st).
Proof. unfold set_sync. keeps_tac. by apply unique_Workers_updates_. Qed.

Lemma exec_op_unique op : keeps unique_rel (exec_op op).
Proof.
  destruct op; cbn [exec_op];
    unfold UpsertWorker, SetConsent, SetWorkerConfig, UpdateWorkerSyncStatus, match_roles,
      UpdateWorkerBinarySyncStatus, UpdateWorkerBackendSyncStatus, GetBackendVersionConfig;
    keeps_tac; try apply set_sync_unique; try (apply keeps_slice, _);
    try apply unique_Workers_create; try apply unique_Consents_create;
    try apply unique_Configs_create;
    try (apply unique_Workers_updates; done); try (apply unique_Workers_updates_; done);
    try (apply unique_Configs_updates; done);
    apply unique_Consents_updates; by destruct hw.
Qed.
End unique.

(** The computed status of a registered worker is written to its row. *)
Lemma sync_status_row `{GormLaws, !GormUp, CryptoLaws} fp s w :
  worker_row fp s = Some w ->
  (8 <= String.length fp)%nat ->
  (model_in_sync s w = true \/ w.(w_LLMHash) = "" \/ 16 <= String.length w.(w_LLMHash))%nat ->
  let status := if model_in_sync s w then "synced" else "out-of-sync" in
  exists s', UpdateWorkerSyncStatus fp s = (s', Ret status) /\
             worker_row fp s' = Some (set_w_SyncStatus status w).
Proof.
  intros Hw Hfp Hlen. cbv zeta. rewrite (sync_status_cases _ _ _ Hw).
  set (st := if model_in_sync s w then "synced" else "out-of-sync").
  destruct (set_sync_up fp st s) as (s' & E & Hrow). exists s'. rewrite Hw in Hrow.
  split; [|done]. rewrite <- E. subst st. destruct (model_in_sync s w); [done|].
  case_bool_decide as Hh; [done|]. destruct Hlen as [?|[?|Hlen]]; [done..|].
  unfold slice. by rewrite !slice_to_ok.
Qed.

(** ** Properties *)

(** [UpdateWorkerSyncStatus] decides and stores exactly what being in sync
    means: a worker is "synced" iff its role enforces no file hash or its
    reported hash is the integrity hash of a configured role, whichever of the
    code's checks finds it; the column of the worker's row ends as returned. *)
Theorem sync_status_spec `{GormLaws, !GormUp, CryptoLaws} fp s w :
  worker_row fp s = Some w ->
  (8 <= String.length fp)%nat ->
  (model_in_sync s w = true \/ w.(w_LLMHash) = "" \/ 16 <= String.length w.(w_LLMHash))%nat ->
  let status := if model_in_sync s w then "synced" else "out-of-sync" in
  exists s', UpdateWorkerSyncStatus fp s = (s', Ret status) /\
             worker_row fp s' = Some (set_w_SyncStatus status w).
Proof. by apply sync_status_row. Qed.

(** A worker that reports a non-empty hash shorter than 16 bytes, matching
    no role, makes [UpdateWorkerSyncStatus] panic in its debug line (after the
    hash was stored, before the status is). *)
Theorem short_llm_hash_panics `{GormLaws, !GormUp, CryptoLaws} fp s w :
  worker_row fp s = Some w ->
  (8 <= String.length fp)%nat ->
  model_in_sync s w = false ->
  (0 < String.length w.(w_LLMHash) < 16)%nat ->
  UpdateWorkerSyncStatus fp s = (s, Panic "slice bounds out of range").
Proof.
  intros Hw Hfp Hsync Hlen. rewrite (sync_status_cases _ _ _ Hw), Hsync.
  rewrite bool_decide_false by (intros E; rewrite E in Hlen; cbn in Hlen; lia).
  unfold slice. rewrite (slice_to_ok fp) by done. by rewrite (slice_to_panics (w_LLMHash w)) by lia.
Qed.

(** Whatever sequence of registrations, status changes, consent and
    configuration writes runs, and whichever statements fail, there is at most
    one worker, one consent and one configuration row per fingerprint. *)
Theorem fingerprints_stay_unique `{GormLaws, Crypto} (ops : list worker_op) s :
  unique_fingerprints s -> unique_fingerprints (run (foreach ops exec_op) s).
Proof. apply (keeps_foreach unique_rel), exec_op_unique. Qed.

Section witnesses.
#[local] Existing Instances MemGorm MemGormLaws MemGormUp ToyCrypto ToyCryptoLaws.

Definition fp_ex : string := "00112233445566778899aabbccddeeff".
Definition store_ex (h : string) : Store :=
  lset Workers (mem_rows [sample_worker fp_ex h "synced" "available"]) empty_store.

Lemma sync_status_spec_witness :
  model_in_sync (store_ex "0123456789abcdef") (sample_worker fp_ex "0123456789abcdef" "synced" "available") = false /\
  exists s', UpdateWorkerSyncStatus fp_ex (store_ex "0123456789abcdef") = (s', Ret "out-of-sync") /\
    worker_row fp_ex s' = Some (sample_worker fp_ex "0123456789abcdef" "out-of-sync" "available").
Proof.
  split; [reflexivity|].
  apply (sync_status_spec fp_ex (store_ex "0123456789abcdef") (sample_worker fp_ex "0123456789abcdef" "synced" "available"));
    [reflexivity|cbn; lia|right; right; cbn; lia].
Defined.

Lemma short_llm_hash_panics_witness :
  UpdateWorkerSyncStatus fp_ex (store_ex "abc") = (store_ex "abc", Panic "slice bounds out of range").
Proof.
  apply (short_llm_hash_panics fp_ex (store_ex "abc") (sample_worker fp_ex "abc" "synced" "available"));
    [reflexivity|cbn; lia|reflexivity|cbn; lia].
Defined.

Lemma fingerprints_stay_unique_witness :
  unique_fingerprints (run (foreach
    [OpUpsert 1 fp_ex "" "" "" "" "" ""; OpConsent 2 fp_ex true false false None; OpOffline fp_ex]
    exec_op) empty_store).
Proof.
  apply fingerprints_stay_unique. split_and!; constructor.
Defined.
End witnesses.
