(* ===== verification/Queue.v ===== *)
(** * The in-memory dispatch queue (internal/manager/queue)

    A pending unit is a heap cell holding the contents of its two buffered
    channels (capacity 1); the map from work-unit IDs and the HTTP handler that
    waits both hold its address, as they hold the pointer in the program. A
    send on a full channel parks the sender: [Blocked]. *)

From S2P Require Import Prelude GoStd Json Protocol.

Record PendingUnit := { pu_ResultCh : list Result; pu_ErrorCh : list Error }.

Record Queue := {
  q_pending : gmap string nat;
  q_heap : list PendingUnit;
  q_counter : N;
}.

Definition chan_capacity : nat := 1.

Definition New : Queue := {| q_pending := ∅; q_heap := []; q_counter := 0 |}.

Definition set_pending (m : gmap string nat) (q : Queue) : Queue :=
  {| q_pending := m; q_heap := q.(q_heap); q_counter := q.(q_counter) |}.
Definition set_heap (h : list PendingUnit) (q : Queue) : Queue :=
  {| q_pending := q.(q_pending); q_heap := h; q_counter := q.(q_counter) |}.

(** [fmt.Sprintf("wu-%d-%d", time.Now().UnixMilli(), q.counter)] *)
Definition unit_id (now : Z) (counter : N) : string :=
  "wu-" +:+ pretty (UnixMilli now) +:+ "-" +:+ pretty counter.

Definition NextID (now : Z) : GoM Queue string := fun q =>
  let c := ((q.(q_counter) + 1) mod 2^64)%N in
  ({| q_pending := q.(q_pending); q_heap := q.(q_heap); q_counter := c |}, Ret (unit_id now c)).

Definition Register (id : string) : GoM Queue nat := fun q =>
  let p := length q.(q_heap) in
  ({| q_pending := <[id := p]> q.(q_pending);
      q_heap := q.(q_heap) ++ [{| pu_ResultCh := []; pu_ErrorCh := [] |}];
      q_counter := q.(q_counter) |}, Ret p).

(** Removal under the lock: the unit's address, if the ID was pending. *)
Definition take_pending (id : string) : GoM Queue (option nat) := fun q =>
  (set_pending (delete id q.(q_pending)) q, Ret (q.(q_pending) !! id)).

(** [pu.ResultCh <- result] and [pu.ErrorCh <- err] *)
Definition send_result (p : nat) (r : Result) : GoM Queue unit :=
  pu ← gets (fun q => q.(q_heap) !! p);
  match pu with
  | None => panic "nil pointer dereference"
  | Some pu =>
      if bool_decide (length pu.(pu_ResultCh) < chan_capacity)%nat then
        modify (fun q => set_heap (<[p := {| pu_ResultCh := pu.(pu_ResultCh) ++ [r];
                                           pu_ErrorCh := pu.(pu_ErrorCh) |}]> q.(q_heap)) q)
      else block
  end.
Definition send_error (p : nat) (e : Error) : GoM Queue unit :=
  pu ← gets (fun q => q.(q_heap) !! p);
  match pu with
  | None => panic "nil pointer dereference"
  | Some pu =>
      if bool_decide (length pu.(pu_ErrorCh) < chan_capacity)%nat then
        modify (fun q => set_heap (<[p := {| pu_ResultCh := pu.(pu_ResultCh);
                                           pu_ErrorCh := pu.(pu_ErrorCh) ++ [e] |}]> q.(q_heap)) q)
      else block
  end.

Definition Resolve (id : string) (result : Result) : GoM Queue bool :=
  pu ← take_pending id;
  match pu with
  | None => mret false
  | Some p => send_result p result ;; mret true
  end.

Definition Reject (id : string) (err : Error) : GoM Queue bool :=
  pu ← take_pending id;
  match pu with
  | None => mret false
  | Some p => send_error p err ;; mret true
  end.

Definition Cancel (id : string) : GoM Queue unit :=
  modify (fun q => set_pending (delete id q.(q_pending)) q).

(** The waiting handler's receives: the first element, if any. *)
Definition recv_result (p : nat) : GoM Queue (option Result) := fun q =>
  match q.(q_heap) !! p with
  | Some {| pu_ResultCh := r :: rs; pu_ErrorCh := es |} =>
      (set_heap (<[p := {| pu_ResultCh := rs; pu_ErrorCh := es |}]> q.(q_heap)) q, Ret (Some r))
  | _ => (q, Ret None)
  end.
Definition recv_error (p : nat) : GoM Queue (option Error) := fun q =>
  match q.(q_heap) !! p with
  | Some {| pu_ResultCh := rs; pu_ErrorCh := e :: es |} =>
      (set_heap (<[p := {| pu_ResultCh := rs; pu_ErrorCh := es |}]> q.(q_heap)) q, Ret (Some e))
  | _ => (q, Ret None)
  end.

(** ** The queue's operations as a transition system *)

Inductive queue_op :=
  | QNextID (now : Z)
  | QRegister (id : string)
  | QResolve (id : string) (r : Result)
  | QReject (id : string) (e : Error)
  | QCancel (id : string)
  | QRecvResult (p : nat)
  | QRecvError (p : nat).

Definition exec_queue_op (op : queue_op) : GoM Queue unit :=
  match op with
  | QNextID now => NextID now ;; skip
  | QRegister id => Register id ;; skip
  | QResolve id r => Resolve id r ;; skip
  | QReject id e => Reject id e ;; skip
  | QCancel id => Cancel id
  | QRecvResult p => recv_result p ;; skip
  | QRecvError p => recv_error p ;; skip
  end.

(** A pending unit is a live cell with both channels empty, and no two IDs
    share a cell. *)
Record queue_ok (q : Queue) : Prop := {
  pending_empty : forall id p, q.(q_pending) !! id = Some p ->
    q.(q_heap) !! p = Some {| pu_ResultCh := []; pu_ErrorCh := [] |};
  pending_inj : forall id1 id2 p, q.(q_pending) !! id1 = Some p ->
    q.(q_pending) !! id2 = Some p -> id1 = id2;
  chans_bounded : forall p pu, q.(q_heap) !! p = Some pu ->
    (length pu.(pu_ResultCh) + length pu.(pu_ErrorCh) <= 1)%nat;
}.

Lemma queue_ok_New : queue_ok New.
Proof. split; cbn; intros; simplify_map_eq. Qed.

Lemma queue_ok_pending q m :
  m ⊆ q.(q_pending) -> queue_ok q -> queue_ok (set_pending m q).
Proof.
  intros Hm [H1 H2 H3]. split; cbn; [| |done]; intros;
    repeat match goal with H : m !! _ = Some _ |- _ => apply (lookup_weaken _ _ _ _ H) in Hm as ?; clear H end; eauto.
Qed.

Lemma queue_ok_Register id q : queue_ok q -> queue_ok (run (Register id) q).
Proof.
  intros [H1 H2 H3]. unfold run, Register; cbn. split; cbn.
  - intros id' p. rewrite lookup_insert. case_decide.
    + intros [= <-]. by rewrite list_lookup_middle.
    + intros Hp%H1. by apply lookup_app_l_Some.
  - assert (Hlt : forall id' p, q_pending q !! id' = Some p -> (p < length (q_heap q))%nat)
      by (intros id' p Hp%H1; by apply lookup_lt_Some in Hp).
    intros id1 id2 p. rewrite !lookup_insert. repeat case_decide; subst; intros A B; simplify_eq; try done.
    + apply Hlt in B. lia.
    + apply Hlt in A. lia.
    + eauto.
  - intros p pu [Hp|[_ Hp]]%lookup_app_Some; [eauto|].
    apply list_lookup_singleton_Some in Hp as [_ <-]. cbn. lia.
Qed.

(** Filling or draining a cell no ID points to. *)
Lemma queue_ok_heap p pu q :
  (forall id, q.(q_pending) !! id <> Some p) ->
  (length pu.(pu_ResultCh) + length pu.(pu_ErrorCh) <= 1)%nat ->
  queue_ok q -> queue_ok (set_heap (<[p := pu]> q.(q_heap)) q).
Proof.
  intros Hp Hpu [H1 H2 H3]. split; cbn; [|done|].
  - intros id p' Hid. rewrite list_lookup_insert_ne by (intros ->; by eapply Hp). eauto.
  - intros p' pu'. rewrite list_lookup_insert. case_decide; naive_solver.
Qed.

(** An ID taken out leaves its cell to the taker alone. *)
Lemma taken_cell id p q : queue_ok q -> q.(q_pending) !! id = Some p ->
  forall id', delete id q.(q_pending) !! id' <> Some p.
Proof.
  intros [_ Hinj _] Hp id' [Hne Hid']%lookup_delete_Some. by apply Hne, (Hinj _ _ p).
Qed.

(** Delivery to a pending ID, in one equation. *)
Lemma Resolve_pending id p r q : queue_ok q -> q.(q_pending) !! id = Some p ->
  Resolve id r q =
    (set_heap (<[p := {| pu_ResultCh := [r]; pu_ErrorCh := [] |}]> q.(q_heap))
       (set_pending (delete id q.(q_pending)) q), Ret true).
Proof.
  intros Hok Hp. unfold Resolve, take_pending, send_result, mbind, GoM_bind, gets. rewrite Hp. cbn.
  by rewrite (pending_empty _ Hok _ _ Hp).
Qed.

Lemma Reject_pending id p e q : queue_ok q -> q.(q_pending) !! id = Some p ->
  Reject id e q =
    (set_heap (<[p := {| pu_ResultCh := []; pu_ErrorCh := [e] |}]> q.(q_heap))
       (set_pending (delete id q.(q_pending)) q), Ret true).
Proof.
  intros Hok Hp. unfold Reject, take_pending, send_error, mbind, GoM_bind, gets. rewrite Hp. cbn.
  by rewrite (pending_empty _ Hok _ _ Hp).
Qed.

Lemma not_pending id q : q.(q_pending) !! id = None ->
  (forall r, Resolve id r q = (q, Ret false)) /\ (forall e, Reject id e q = (q, Ret false)).
Proof.
  intros Hid. unfold Resolve, Reject, take_pending, mbind, GoM_bind. cbn. rewrite Hid.
  rewrite delete_id by done. by destruct q.
Qed.

Lemma queue_ok_delete id q : queue_ok q -> queue_ok (set_pending (delete id q.(q_pending)) q).
Proof. apply queue_ok_pending, delete_subseteq. Qed.

(** Every operation terminates normally and keeps the invariant. *)
Lemma exec_queue_op_ok op q : queue_ok q ->
  result (exec_queue_op op) q = Ret tt /\ queue_ok (run (exec_queue_op op) q).
Proof.
  intros Hok. destruct op as [now|id|id r|id e|id|p|p]; cbn [exec_queue_op].
  - split; [done|]. by destruct Hok; split.
  - split; [done|]. by apply queue_ok_Register.
  - destruct (q_pending q !! id) as [p|] eqn:Hp.
    + unfold result, run, mbind, GoM_bind. rewrite (Resolve_pending _ _ _ _ Hok Hp). split; [done|].
      refine (queue_ok_heap p _ (set_pending _ q) _ _ _); [by apply taken_cell|cbn; lia|by apply queue_ok_delete].
    + unfold result, run, mbind, GoM_bind. by rewrite (proj1 (not_pending _ _ Hp)).
  - destruct (q_pending q !! id) as [p|] eqn:Hp.
    + unfold result, run, mbind, GoM_bind. rewrite (Reject_pending _ _ _ _ Hok Hp). split; [done|].
      refine (queue_ok_heap p _ (set_pending _ q) _ _ _); [by apply taken_cell|cbn; lia|by apply queue_ok_delete].
    + unfold result, run, mbind, GoM_bind. by rewrite (proj2 (not_pending _ _ Hp)).
  - split; [done|]. by apply queue_ok_delete.
  - unfold result, run, mbind, GoM_bind, recv_result.
    destruct (q_heap q !! p) as [[[|r rs] es]|] eqn:Hp; try done. split; [done|].
    apply queue_ok_heap; [|by apply (chans_bounded _ Hok) in Hp; cbn in *; lia|done].
    intros id Hid%(pending_empty _ Hok). congruence.
  - unfold result, run, mbind, GoM_bind, recv_error.
    destruct (q_heap q !! p) as [[rs [|e es]]|] eqn:Hp; try done. split; [done|].
    apply queue_ok_heap; [|by apply (chans_bounded _ Hok) in Hp; cbn in *; lia|done].
    intros id Hid%(pending_empty _ Hok). congruence.
Qed.

Lemma exec_queue_ops_ok ops q : queue_ok q ->
  result (foreach ops exec_queue_op) q = Ret tt /\ queue_ok (run (foreach ops exec_queue_op) q).
Proof.
  revert q. induction ops as [|op ops IH]; intros q Hok; [done|]. cbn [foreach].
  destruct (exec_queue_op_ok op q Hok) as [Hr Hq]. unfold result, run in *.
  destruct (exec_queue_op op q) as [q' r] eqn:E; cbn in Hr, Hq; subst r.
  rewrite (bind_Ret _ _ _ _ _ E). by apply IH.
Qed.

(** An ID that is not pending becomes pending through [Register] only. *)
Lemma exec_queue_op_not_pending id op q : queue_ok q -> op <> QRegister id ->
  q.(q_pending) !! id = None -> (run (exec_queue_op op) q).(q_pending) !! id = None.
Proof.
  intros Hok Hop Hid.
  assert (Hdel : forall id', delete id' q.(q_pending) !! id = None)
    by (intros; by apply lookup_delete_None; right).
  destruct op as [now|id'|id' r|id' e|id'|p|p]; cbn [exec_queue_op]; unfold run, mbind, GoM_bind.
  - done.
  - cbn. rewrite lookup_insert_ne by congruence. done.
  - destruct (q_pending q !! id') eqn:Hp;
      [rewrite (Resolve_pending _ _ _ _ Hok Hp)|rewrite (proj1 (not_pending _ _ Hp))]; cbn; auto.
  - destruct (q_pending q !! id') eqn:Hp;
      [rewrite (Reject_pending _ _ _ _ Hok Hp)|rewrite (proj2 (not_pending _ _ Hp))]; cbn; auto.
  - cbn. auto.
  - unfold recv_result. by destruct (q_heap q !! p) as [[[|r rs] es]|].
  - unfold recv_error. by destruct (q_heap q !! p) as [[rs [|e es]]|].
Qed.

Lemma exec_queue_ops_not_pending id ops q : queue_ok q -> QRegister id ∉ ops ->
  q.(q_pending) !! id = None -> (run (foreach ops exec_queue_op) q).(q_pending) !! id = None.
Proof.
  revert q. induction ops as [|op ops IH]; intros q Hok Hops Hid; [done|].
  apply not_elem_of_cons in Hops as [Hop Hops]. cbn [foreach].
  destruct (exec_queue_op_ok op q Hok) as [Hr Hq].
  apply (exec_queue_op_not_pending id op) in Hid; [|done..]. unfold result, run in *.
  destruct (exec_queue_op op q) as [q' r] eqn:E; cbn in Hr, Hq, Hid; subst r.
  rewrite (bind_Ret _ _ _ _ _ E). by apply IH.
Qed.

(** ** The decimal IDs *)

Lemma unit_id_inj t1 t2 c1 c2 : unit_id t1 c1 = unit_id t2 c2 -> c1 = c2.
Proof.
  intros E%(f_equal String.list_ascii_of_string). unfold unit_id in E.
  rewrite !list_ascii_of_app in E. cbn [String.list_ascii_of_string app] in E. simplify_eq.
  apply split_last in E as [_ E]; [|by apply pretty_N_digits..].
  by apply (inj pretty), list_ascii_inj.
Qed.

(** The counter values [n] successive calls of [NextID] use. *)
Fixpoint counters (c : N) (n : nat) : list N :=
  match n with
  | O => []
  | S n' => let c' := ((c + 1) mod 2^64)%N in c' :: counters c' n'
  end.

Lemma elem_of_counters c n x : x ∈ counters c n ->
  exists i, (i < N.of_nat n)%N /\ x = ((c + 1 + i) mod 2^64)%N.
Proof.
  revert c. induction n as [|n IH]; intros c; cbn [counters]; [by intros ?%elem_of_nil|].
  intros [->|(i & Hi & ->)%IH]%elem_of_cons.
  - exists 0%N. split; [lia|]. f_equal. lia.
  - exists (i + 1)%N. split; [lia|].
    rewrite <- (N.add_assoc _ 1 i), N.Div0.add_mod_idemp_l.
    f_equal. lia.
Qed.

Lemma NoDup_counters c n : (N.of_nat n <= 2^64)%N -> NoDup (counters c n).
Proof.
  revert c. induction n as [|n IH]; intros c Hn; cbn [counters]; [constructor|].
  constructor; [|apply IH; lia]. intros (i & Hi & E)%elem_of_counters.
  assert (Hc : ((c + 1) mod 2^64 < 2^64)%N) by (apply N.mod_lt; lia).
  revert E Hc. generalize ((c + 1) mod 2^64)%N. intros d E Hd. change (2^64)%N with 18446744073709551616%N in *.
  dlia.
Qed.

Lemma mapM_NextID ts q : exists q' ids, mapM NextID ts q = (q', Ret ids) /\
  Forall2 (fun id c => exists t, id = unit_id t c) ids (counters q.(q_counter) (length ts)).
Proof.
  revert q. induction ts as [|t ts IH]; intros q; [by exists q, []|].
  destruct (NextID t q) as [q1 r] eqn:E. unfold NextID in E. simplify_eq.
  destruct (IH {| q_pending := q_pending q; q_heap := q_heap q; q_counter := ((q_counter q + 1) mod 2^64)%N |})
    as (q' & ids & E & HF).
  eexists q', (_ :: ids). split.
  - unfold mapM; fold (mapM (M := GoM Queue) NextID). erewrite bind_Ret by done.
    erewrite bind_Ret by exact E. done.
  - cbn [length counters]. constructor; [by eexists|exact HF].
Qed.

Lemma NoDup_unit_ids ids cs : Forall2 (fun id c => exists t, id = unit_id t c) ids cs ->
  NoDup cs -> NoDup ids.
Proof.
  induction 1 as [|id c ids cs [t ->] HF IH]; intros Hcs; [constructor|].
  inversion Hcs as [|? ? Hc Hcs']; subst. constructor; [|auto]. intros Hin. apply Hc.
  apply list_elem_of_lookup in Hin as [i Hi].
  destruct (Forall2_lookup_l _ _ _ _ _ HF Hi) as (c' & Hc' & t' & ->%unit_id_inj).
  by eapply list_elem_of_lookup_2.
Qed.

(** * Properties *)

(** Whatever calls the gateway, the handlers and the batch processor make
    on the queue, in any order, the next call neither panics nor waits while it
    holds the lock or sends: each capacity-1 channel gets at most one message,
    and the units still pending have both channels empty. *)
Theorem queue_never_blocks ops op :
  let q := run (foreach ops exec_queue_op) New in
  result (exec_queue_op op) q = Ret tt /\
  (forall id p, q.(q_pending) !! id = Some p ->
     q.(q_heap) !! p = Some {| pu_ResultCh := []; pu_ErrorCh := [] |}) /\
  (forall id1 id2 p, q.(q_pending) !! id1 = Some p -> q.(q_pending) !! id2 = Some p -> id1 = id2).
Proof.
  intros q. destruct (exec_queue_ops_ok ops New queue_ok_New) as [_ Hok].
  split; [by apply exec_queue_op_ok|]. by destruct Hok.
Qed.

(** A work unit is answered at most once: the first [Resolve] of a pending
    ID reports true and leaves exactly its result in the channel the handler
    waits on; whatever happens next, unless the ID is registered again, every
    further [Resolve] or [Reject] of it reports false. *)
Theorem delivered_at_most_once before id r later :
  let q := run (foreach before exec_queue_op) New in
  let q' := run (Resolve id r) q in
  let q'' := run (foreach later exec_queue_op) q' in
  QRegister id ∉ later ->
  result (Resolve id r) q = Ret (bool_decide (is_Some (q.(q_pending) !! id))) /\
  (forall p, q.(q_pending) !! id = Some p ->
     q'.(q_heap) !! p = Some {| pu_ResultCh := [r]; pu_ErrorCh := [] |} /\
     forall p', p' <> p -> q'.(q_heap) !! p' = q.(q_heap) !! p') /\
  (forall r', Resolve id r' q'' = (q'', Ret false)) /\
  (forall e', Reject id e' q'' = (q'', Ret false)).
Proof.
  intros q q' q'' Hlater.
  destruct (exec_queue_ops_ok before New queue_ok_New) as [_ Hok]. fold q in Hok.
  assert (queue_ok q' /\ q'.(q_pending) !! id = None) as [Hok' Hid'].
  { destruct (exec_queue_op_ok (QResolve id r) q Hok) as [_ Hq']. cbn [exec_queue_op] in Hq'.
    rewrite run_skip in Hq'. split; [exact Hq'|]. unfold q', run. destruct (q_pending q !! id) eqn:Hp;
      [rewrite (Resolve_pending _ _ _ _ Hok Hp)|by rewrite (proj1 (not_pending _ _ Hp))].
    cbn. apply lookup_delete_eq. }
  split_and!; [..|apply not_pending, exec_queue_ops_not_pending; done|
    apply not_pending, exec_queue_ops_not_pending; done].
  - unfold result. destruct (q_pending q !! id) eqn:Hp;
      [rewrite (Resolve_pending _ _ _ _ Hok Hp)|rewrite (proj1 (not_pending _ _ Hp))]; done.
  - intros p Hp. unfold q', run. rewrite (Resolve_pending _ _ _ _ Hok Hp). cbn. split.
    + apply list_lookup_insert_eq. apply (pending_empty _ Hok) in Hp. by apply lookup_lt_Some in Hp.
    + intros p' Hne. by apply list_lookup_insert_ne.
Qed.

Lemma delivered_at_most_once_witness :
  let r := Build_Result TypeResult "wu-1-1" "9f" (Some (JObj [])) 7 "c2ln" in
  QRegister "wu-1-1" ∉ [QResolve "wu-1-1" r; QCancel "wu-1-1"] /\
  result (Resolve "wu-1-1" r) (run (foreach [QRegister "wu-1-1"] exec_queue_op) New) = Ret true.
Proof.
  intros r.
  assert (Hl : QRegister "wu-1-1" ∉ [QResolve "wu-1-1" r; QCancel "wu-1-1"])
    by (rewrite !elem_of_cons, elem_of_nil; naive_solver).
  split; [exact Hl|].
  exact (proj1 (delivered_at_most_once [QRegister "wu-1-1"] "wu-1-1" r _ Hl)).
Defined.

(** The IDs handed out by up to 2^64 calls of [NextID] are pairwise
    different, whatever the clock does between the calls. *)
Theorem unit_ids_distinct ts :
  (N.of_nat (length ts) <= 2^64)%N ->
  exists q' ids, mapM NextID ts New = (q', Ret ids) /\ length ids = length ts /\ NoDup ids.
Proof.
  intros Hts. destruct (mapM_NextID ts New) as (q' & ids & E & HF). exists q', ids.
  split_and!; [done| |by eapply NoDup_unit_ids, NoDup_counters].
  apply Forall2_length in HF. rewrite HF. clear. generalize (q_counter New).
  induction (length ts); intros c; cbn [counters length]; auto.
Qed.

Lemma unit_ids_distinct_witness :
  (N.of_nat (length [1700000000000000000; 1700000000000000000]%Z) <= 2^64)%N /\
  exists q' ids, mapM NextID [1700000000000000000; 1700000000000000000]%Z New = (q', Ret ids) /\
    length ids = 2 /\ NoDup ids.
Proof. split; [by vm_compute|]. apply unit_ids_distinct. by vm_compute. Defined.
