(* ===== verification/BackendUrl.v ===== *)
(** * Download URL templates (internal/manager/backend/backend.go)

    The placeholder expansion of the llama-server download URLs. [replaceAll]
    loops until the placeholder is gone, so it takes fuel: [None] says that
    it has not returned within the fuel. *)

From S2P Require Import Prelude GoStd.

Definition LlamaCpp : string := "llama.cpp".
Definition Names : list string := [LlamaCpp].
Definition IsValid (name : string) : bool := existsb (fun n => n == name) Names.

Definition DownloadURLTemplates (name : string) : option string :=
  if name == LlamaCpp then
    Some "https://github.com/ggml-org/llama.cpp/releases/download/{version}/llama-{version}-bin-{platform}-{arch}.{ext}"
  else None.

Definition mapPlatform (goos : string) : string :=
  if goos == "darwin" then "macos"
  else if goos == "linux" then "ubuntu"
  else if goos == "windows" then "win-cpu"
  else goos.

Definition mapArch (goarch : string) : string :=
  if goarch == "amd64" then "x64" else goarch.

Definition mapExt (goos : string) : string :=
  if goos == "windows" then "zip" else "tar.gz".

(** [None] is the -1 of the code. *)
Fixpoint indexOf (s substr : string) : option nat :=
  if HasPrefix s substr then Some O
  else match s with
       | String.EmptyString => None
       | String.String _ s' => S <$> indexOf s' substr
       end.

Fixpoint replaceAll (fuel : nat) (s old new : string) : option string :=
  match fuel with
  | O => None
  | S fuel =>
      match indexOf s old with
      | None => Some s
      | Some i => replaceAll fuel
          (take_str i s +:+ new +:+ drop_str (i + String.length old) s) old new
      end
  end.

Definition ExpandURL (fuel : nat) (tpl version goos goarch : string) : option string :=
  let platform := mapPlatform goos in
  let arch := mapArch goarch in
  let ext := mapExt goos in
  url ← replaceAll fuel tpl "{version}" version;
  url ← replaceAll fuel url "{os}" goos;
  url ← replaceAll fuel url "{platform}" platform;
  url ← replaceAll fuel url "{arch}" arch;
  replaceAll fuel url "{ext}" ext.

(** ** The specification: templates as pieces *)

Inductive placeholder := PVersion | POs | PPlatform | PArch | PExt.
#[export] Instance placeholder_eq_dec : EqDecision placeholder.
Proof. solve_decision. Defined.

Definition name_of (p : placeholder) : string :=
  match p with
  | PVersion => "version" | POs => "os" | PPlatform => "platform" | PArch => "arch" | PExt => "ext"
  end.
Definition text_of (p : placeholder) : string := "{" +:+ name_of p +:+ "}".

Inductive piece := Lit (s : string) | Ph (p : placeholder).

Definition piece_text (x : piece) : string :=
  match x with Lit s => s | Ph p => text_of p end.
Definition render (ps : list piece) : string := foldr (fun x s => piece_text x +:+ s) "" ps.

Definition subst_piece (p : placeholder) (v : string) (x : piece) : piece :=
  match x with Ph q => if decide (q = p) then Lit v else x | _ => x end.

Definition value_of (version goos goarch : string) (p : placeholder) : string :=
  match p with
  | PVersion => version | POs => goos | PPlatform => mapPlatform goos
  | PArch => mapArch goarch | PExt => mapExt goos
  end.
Definition fill (val : placeholder -> string) (x : piece) : piece :=
  match x with Ph p => Lit (val p) | _ => x end.

Definition brace : Ascii.ascii := "{"%char.
Fixpoint no_brace (s : string) : bool :=
  match s with
  | String.EmptyString => true
  | String.String c s' => (c != brace) && no_brace s'
  end.
Definition wf_piece (x : piece) : bool :=
  match x with Lit s => no_brace s | Ph _ => true end.

Fixpoint uses (p : placeholder) (ps : list piece) : nat :=
  match ps with
  | [] => 0
  | Ph q :: ps => (if decide (q = p) then 1 else 0) + uses p ps
  | Lit _ :: ps => uses p ps
  end.

(** ** Where the code finds a placeholder *)


Lemma indexOf_literal p (l s : string) : no_brace l = true ->
  indexOf (l +:+ s) (text_of p) = (fun i => String.length l + i)%nat <$> indexOf s (text_of p).
Proof.
  induction l as [|c l IH]; intros Hl.
  - change ("" +:+ s) with s. by destruct (indexOf s _).
  - apply andb_true_iff in Hl as [Hc%negb_true_iff%bool_decide_eq_false Hl].
    change (String.String c l +:+ s) with (String.String c (l +:+ s)). cbn [indexOf].
    replace (HasPrefix (String.String c (l +:+ s)) (text_of p)) with false.
    + rewrite IH by done. by destruct (indexOf s _).
    + change (text_of p) with (String.String brace (name_of p +:+ "}")). cbn [HasPrefix].
      by rewrite bool_decide_false.
Qed.

Lemma indexOf_other p q s : q <> p ->
  indexOf (text_of q +:+ s) (text_of p) =
    (fun i => String.length (text_of q) + i)%nat <$> indexOf s (text_of p).
Proof.
  intros Hqp.
  assert (H : indexOf (text_of q +:+ s) (text_of p) = S <$> indexOf (name_of q +:+ "}" +:+ s) (text_of p)).
  { destruct q, p; try done; reflexivity. }
  rewrite H, <- append_assoc_str, indexOf_literal by (by destruct q).
  by destruct (indexOf s _), q.
Qed.

Lemma indexOf_here p s : indexOf (text_of p +:+ s) (text_of p) = Some 0%nat.
Proof. by destruct p, s. Qed.

(** One iteration of the loop substitutes the first occurrence. *)
Lemma indexOf_render p ps : forallb wf_piece ps = true ->
  match indexOf (render ps) (text_of p) with
  | None => uses p ps = 0
  | Some i => exists ps1 ps2, ps = ps1 ++ Ph p :: ps2 /\ i = String.length (render ps1)
  end.
Proof.
  induction ps as [|x ps IH]; intros Hwf; [by destruct p|].
  apply andb_true_iff in Hwf as [Hx Hwf]. specialize (IH Hwf). cbn [render foldr].
  fold (render ps). destruct x as [l|q]; cbn [piece_text uses].
  - rewrite indexOf_literal by done. destruct (indexOf (render ps) _) as [i|]; [|done].
    destruct IH as (ps1 & ps2 & -> & ->). exists (Lit l :: ps1), ps2. split; [done|].
    cbn [render foldr piece_text]. by rewrite length_app_str.
  - destruct (decide (q = p)) as [->|Hqp]; [rewrite indexOf_here; by exists [], ps|].
    rewrite indexOf_other by done. destruct (indexOf (render ps) _) as [i|]; [|done].
    destruct IH as (ps1 & ps2 & -> & ->). exists (Ph q :: ps1), ps2. split; [done|].
    cbn [render foldr piece_text]. by rewrite length_app_str.
Qed.

Lemma render_app ps1 ps2 : render (ps1 ++ ps2) = render ps1 +:+ render ps2.
Proof.
  induction ps1 as [|x ps1 IH]; [done|]. cbn [app render foldr]. fold (render (ps1 ++ ps2)).
  by rewrite IH, append_assoc_str.
Qed.

Lemma take_app_str (a b : string) : take_str (String.length a) (a +:+ b) = a.
Proof. induction a as [|c a IH]; [by destruct b|exact (f_equal (String.String c) IH)]. Qed.

Lemma drop_app_str n (a b : string) : drop_str (String.length a + n) (a +:+ b) = drop_str n b.
Proof. by induction a as [|c a IH]. Qed.

Lemma uses_app p ps1 ps2 : uses p (ps1 ++ ps2) = uses p ps1 + uses p ps2.
Proof. induction ps1 as [|[l|q] ps1 IH]; cbn [app uses]; rewrite ?IH; lia. Qed.

Lemma subst_unused p v ps : uses p ps = 0 -> subst_piece p v <$> ps = ps.
Proof.
  induction ps as [|[l|q] ps IH]; cbn [uses]; intros Hu; [done|..];
    rewrite fmap_cons; cbn [subst_piece].
  - by rewrite IH.
  - case_decide; [lia|]. by rewrite IH.
Qed.

Lemma replaceAll_render fuel p v ps :
  no_brace v = true -> forallb wf_piece ps = true -> uses p ps < fuel ->
  replaceAll fuel (render ps) (text_of p) v = Some (render (subst_piece p v <$> ps)).
Proof.
  intros Hv. revert ps. induction fuel as [|fuel IH]; intros ps Hwf Hfuel; [lia|].
  cbn [replaceAll]. pose proof (indexOf_render p ps Hwf) as Hi.
  destruct (indexOf (render ps) (text_of p)) as [i|].
  - destruct Hi as (ps1 & ps2 & -> & ->). rewrite render_app. cbn [render foldr piece_text].
    fold (render ps2). rewrite take_app_str, drop_app_str.
    rewrite <- (Nat.add_0_r (String.length (text_of p))), drop_app_str. cbn [drop_str].
    replace (render ps1 +:+ v +:+ render ps2) with (render (ps1 ++ Lit v :: ps2)).
    + rewrite forallb_app in Hwf. apply andb_true_iff in Hwf as [H1 H2].
      rewrite uses_app in Hfuel. cbn [uses] in Hfuel. rewrite decide_True in Hfuel by done.
      rewrite IH; [|by rewrite forallb_app; cbn in *; rewrite H1, Hv|rewrite uses_app; cbn [uses]; lia].
      do 2 f_equal. rewrite !fmap_app, !fmap_cons. cbn [subst_piece]. by rewrite decide_True.
    + by rewrite render_app.
  - by rewrite subst_unused.
Qed.

Lemma wf_subst p v ps : no_brace v = true ->
  forallb wf_piece ps = true -> forallb wf_piece (subst_piece p v <$> ps) = true.
Proof.
  intros Hv. induction ps as [|x ps IH]; [done|]. cbn. intros [Hx Hps]%andb_true_iff.
  rewrite IH by done. destruct x; cbn in *; [by rewrite Hx|]. by case_decide; cbn; rewrite ?Hv.
Qed.

Lemma uses_subst p q v ps : uses p (subst_piece q v <$> ps) <= uses p ps.
Proof.
  induction ps as [|[l|r] ps IH]; [done|..]; rewrite fmap_cons; cbn [subst_piece uses]; [done|].
  destruct (decide (r = q)); cbn [uses]; case_decide; lia.
Qed.

Lemma no_brace_values version goos goarch p :
  no_brace version = true -> no_brace goos = true -> no_brace goarch = true ->
  no_brace (value_of version goos goarch p) = true.
Proof.
  intros. destruct p; cbn; unfold mapPlatform, mapArch, mapExt; by repeat case_bool_decide.
Qed.

Lemma subst_all val (ps : list piece) :
  subst_piece PExt (val PExt) <$> (subst_piece PArch (val PArch) <$>
    (subst_piece PPlatform (val PPlatform) <$> (subst_piece POs (val POs) <$>
      (subst_piece PVersion (val PVersion) <$> ps)))) = fill val <$> ps.
Proof.
  rewrite <- !list_fmap_compose. apply list_fmap_ext. intros _ [l|[]] _; reflexivity.
Qed.

(** ** Properties *)

(** C32. For a template made of literal text and placeholders, and values
    without an opening brace, [ExpandURL] returns (the loops stop once there
    are more iterations than placeholders) the text in which every placeholder
    is replaced by its value, operating system and architecture mapped to the
    release's platform names, and nothing else is changed. *)
Theorem ExpandURL_fills fuel ps version goos goarch :
  forallb wf_piece ps = true ->
  no_brace version = true -> no_brace goos = true -> no_brace goarch = true ->
  length ps < fuel ->
  ExpandURL fuel (render ps) version goos goarch =
    Some (render (fill (value_of version goos goarch) <$> ps)).
Proof.
  intros Hwf Hv Ho Ha Hfuel.
  assert (Hlen : forall p, uses p ps < fuel).
  { intros p. enough (uses p ps <= length ps) by lia. clear.
    induction ps as [|[l|q] ps IH]; cbn; [done|lia|case_decide; lia]. }
  pose proof (fun p => no_brace_values version goos goarch p Hv Ho Ha) as Hval.
  rewrite <- subst_all. unfold ExpandURL.
  assert (Hstep : forall p v ps', no_brace v = true -> forallb wf_piece ps' = true ->
    (forall q, uses q ps' < fuel) ->
    replaceAll fuel (render ps') (text_of p) v = Some (render (subst_piece p v <$> ps')) /\
    forallb wf_piece (subst_piece p v <$> ps') = true /\
    (forall q, uses q (subst_piece p v <$> ps') < fuel)).
  { intros p v ps' Hv' Hwf' Hu. split_and!; [by apply replaceAll_render|by apply wf_subst|].
    intros q. pose proof (uses_subst q p v ps'). specialize (Hu q). lia. }
  destruct (Hstep PVersion _ _ (Hval PVersion) Hwf Hlen) as (E1 & W1 & U1).
  destruct (Hstep POs _ _ (Hval POs) W1 U1) as (E2 & W2 & U2).
  destruct (Hstep PPlatform _ _ (Hval PPlatform) W2 U2) as (E3 & W3 & U3).
  destruct (Hstep PArch _ _ (Hval PArch) W3 U3) as (E4 & W4 & U4).
  destruct (Hstep PExt _ _ (Hval PExt) W4 U4) as (E5 & _ & _).
  change "{version}" with (text_of PVersion). change "{os}" with (text_of POs).
  change "{platform}" with (text_of PPlatform). change "{arch}" with (text_of PArch).
  change "{ext}" with (text_of PExt).
  cbn [value_of] in *. rewrite E1. cbn [mbind option_bind]. rewrite E2. cbn [mbind option_bind].
  rewrite E3. cbn [mbind option_bind]. rewrite E4. cbn [mbind option_bind]. exact E5.
Qed.

Definition llama_template : list piece :=
  [Lit "https://github.com/ggml-org/llama.cpp/releases/download/"; Ph PVersion; Lit "/llama-";
   Ph PVersion; Lit "-bin-"; Ph PPlatform; Lit "-"; Ph PArch; Lit "."; Ph PExt].

Lemma ExpandURL_fills_witness :
  DownloadURLTemplates LlamaCpp = Some (render llama_template) /\
  ExpandURL 11 (render llama_template) "b9114" "windows" "amd64" =
    Some "https://github.com/ggml-org/llama.cpp/releases/download/b9114/llama-b9114-bin-win-cpu-x64.zip".
Proof.
  split; [reflexivity|].
  rewrite (ExpandURL_fills 11 llama_template "b9114" "windows" "amd64");
    [reflexivity|vm_compute; reflexivity..|cbn; lia].
Defined.

Lemma indexOf_Contains s sub : is_Some (indexOf s sub) <-> Contains s sub = true.
Proof.
  induction s as [|c s IH]; cbn [indexOf Contains].
  - destruct (HasPrefix "" sub); cbn; rewrite is_Some_alt; done.
  - destruct (HasPrefix _ sub); cbn; [by rewrite is_Some_alt|].
    rewrite fmap_is_Some. done.
Qed.

(** When the replacement itself contains the placeholder (a version tag
    "{version}" typed by an administrator, an operating system "{os}" sent in
    a worker's header), the loop never ends: no amount of fuel returns. *)
Theorem replaceAll_diverges fuel s old new :
  Contains s old = true -> Contains new old = true -> replaceAll fuel s old new = None.
Proof.
  intros Hs Hn. revert s Hs. induction fuel as [|fuel IH]; intros s Hs; [done|].
  cbn [replaceAll]. apply indexOf_Contains in Hs as [i ->]. apply IH.
  apply Contains_spec in Hn as (a & b & ->). apply Contains_spec.
  exists (take_str i s +:+ a), (b +:+ drop_str (i + String.length old) s).
  by rewrite !append_assoc_str.
Qed.

Lemma replaceAll_diverges_witness :
  Contains "https://dl/{os}/x" "{os}" = true /\ replaceAll 1000 "https://dl/{os}/x" "{os}" "a{os}" = None.
Proof. split; [reflexivity|]. by apply replaceAll_diverges. Defined.
