(* ===== verification/Roles.v ===== *)
(** * Roles and configuration rows (store.go, settings.go, oidc.go, workers_config.go)

    The role models with their soft deletes, the configuration tables that
    hold at most one row, the key-value settings and the reported errors. A
    configuration row is addressed by being the only one of its table, which
    [single_rows] shows it is. *)

From S2P Require Import Prelude GoStd Protocol Gorm Models Workers.

(** ** Role models *)

Section roles.
Context `{Gorm}.

Definition same_role (r1 r2 : RoleModel) : bool := r1.(rm_Role) == r2.(rm_Role).

Definition GetRoleModels : GoM Store (list RoleModel + db_err) :=
  Find Roles (fun _ => true) (Some rm_MinVRAMMB) None.

Definition new_role (role model quantisation modelFilename modelFileHash : string) (minVRAMMB : Z)
    (description : string) : RoleModel :=
  {| rm_Role := role; rm_LLMModel := model; rm_Quantisation := quantisation;
     rm_ModelFilename := modelFilename; rm_ModelFileHash := modelFileHash; rm_DownloadURL := "";
     rm_MinVRAMMB := minVRAMMB; rm_Description := description; rm_ContextSize := 0;
     rm_EndpointType := ""; rm_ParallelSlots := 0; rm_GPULayers := 0; rm_FlashAttention := false |}.

Definition update_role (model quantisation modelFilename modelFileHash : string) (minVRAMMB : Z)
    (description : string) (r : RoleModel) : RoleModel :=
  set_rm_LLMModel model (set_rm_Quantisation quantisation (set_rm_ModelFilename modelFilename
    (set_rm_ModelFileHash modelFileHash (set_rm_MinVRAMMB minVRAMMB (set_rm_Description description r))))).

Definition UpsertRoleModel (role model quantisation modelFilename modelFileHash : string)
    (minVRAMMB : Z) (description : string) : GoM Store (option db_err) :=
  result ← First Roles (by_role role);
  match result with
  | inr ErrRecordNotFound =>
      Create Roles same_role (role_defaults
        (new_role role model quantisation modelFilename modelFileHash minVRAMMB description))
  | inr e => mret (Some e)
  | inl rm =>
      Updates Roles (by_role rm.(rm_Role))
        (update_role model quantisation modelFilename modelFileHash minVRAMMB description)
  end.

Definition SetRoleDownloadURL (role downloadURL : string) : GoM Store (option db_err) :=
  Updates Roles (by_role role) (set_rm_DownloadURL downloadURL).

Definition knownModelURLs (filename : string) : option string :=
  if filename == "SmolLM2-135M-Instruct-Q4_K_M.gguf" then
    Some "https://huggingface.co/bartowski/SmolLM2-135M-Instruct-GGUF/resolve/main/SmolLM2-135M-Instruct-Q4_K_M.gguf"
  else if filename == "bge-m3-Q4_K_M.gguf" then
    Some "https://huggingface.co/gpustack/bge-m3-GGUF/resolve/main/bge-m3-Q4_K_M.gguf"
  else if filename == "mistral-nemo-12b-instruct-Q4_K_M.gguf" then
    Some "https://huggingface.co/bartowski/Mistral-Nemo-Instruct-2407-GGUF/resolve/main/Mistral-Nemo-Instruct-2407-Q4_K_M.gguf"
  else if filename == "mistral-small-3.1-24b-instruct-Q4_K_M.gguf" then
    Some "https://huggingface.co/bartowski/Mistral-Small-3.1-24B-Instruct-2503-GGUF/resolve/main/Mistral-Small-3.1-24B-Instruct-2503-Q4_K_M.gguf"
  else None.

Definition fill_role (rm : RoleModel) : GoM Store unit :=
  if (rm.(rm_DownloadURL) != "") || (rm.(rm_ModelFilename) == "") then skip
  else match knownModelURLs rm.(rm_ModelFilename) with
       | Some url => SetRoleDownloadURL rm.(rm_Role) url ;; skip
       | None => skip
       end.

Definition FillMissingDownloadURLs : GoM Store unit :=
  roles ← GetRoleModels;
  match roles with
  | inr _ => skip
  | inl roles => foreach roles fill_role
  end.

Definition SetRoleModelFileHash (role hash : string) : GoM Store (option db_err) :=
  Updates Roles (by_role role) (set_rm_ModelFileHash hash).

Definition SetRoleLlamaConfig (role : string) (contextSize parallelSlots gpuLayers : Z)
    (endpointType : string) (flashAttention : bool) : GoM Store (option db_err) :=
  Updates Roles (by_role role) (fun r =>
    set_rm_ContextSize contextSize (set_rm_ParallelSlots parallelSlots (set_rm_GPULayers gpuLayers
      (set_rm_EndpointType endpointType (set_rm_FlashAttention flashAttention r))))).

Definition DeleteRoleModel (role : string) : GoM Store (option db_err) :=
  Delete Roles true (by_role role).

(** The seed loops stop at the first error. *)
Fixpoint seed (l : list RoleModel) : GoM Store (option db_err) :=
  match l with
  | [] => mret None
  | r :: l' =>
      err ← UpsertRoleModel r.(rm_Role) r.(rm_LLMModel) r.(rm_Quantisation) r.(rm_ModelFilename)
              r.(rm_ModelFileHash) r.(rm_MinVRAMMB) r.(rm_Description);
      match err with
      | Some e => mret (Some e)
      | None => seed l'
      end
  end.

Definition smol : string := "SmolLM2-135M-Instruct".
Definition smol_file : string := "SmolLM2-135M-Instruct-Q4_K_M.gguf".

Definition testRoles : list RoleModel :=
  [ new_role "embedding" smol "Q4_K_M" smol_file "" 512 "Vector embeddings (test mode — minimal model)";
    new_role "inference" smol "Q4_K_M" smol_file "" 512 "Query inference (test mode — minimal model)";
    new_role "ingestion" smol "Q4_K_M" smol_file "" 512 "Document ingestion (test mode — minimal model)";
    new_role "tester" smol "Q4_K_M" smol_file "" 512 "Connectivity testing — minimal model for any hardware" ].
Definition prodRoles : list RoleModel :=
  [ new_role "embedding" "bge-m3" "Q4_K_M" "bge-m3-Q4_K_M.gguf" "" 4096
      "Vector embeddings (bge-m3, ~2 GB model + KV cache)";
    new_role "inference" "mistral-nemo-12b-instruct" "Q4_K_M" "mistral-nemo-12b-instruct-Q4_K_M.gguf" ""
      10240 "Query inference (Mistral Nemo 12B, ~7 GB model + KV cache)";
    new_role "ingestion" "mistral-small-3.1-24b-instruct" "Q4_K_M"
      "mistral-small-3.1-24b-instruct-Q4_K_M.gguf" "" 20480
      "Document ingestion (Mistral Small 3.1 24B, ~14 GB model + KV cache)";
    new_role "tester" smol "Q4_K_M" smol_file "" 512 "Connectivity testing — minimal model for any hardware" ].
Definition SeedTestRoles : GoM Store (option db_err) := seed testRoles.
Definition SeedProductionRoles : GoM Store (option db_err) := seed prodRoles.

Definition SeedTesterRole : GoM Store (option db_err) :=
  UpsertRoleModel "tester" smol "Q4_K_M" smol_file "" 512 "Connectivity testing — minimal model for any hardware".

(** ** Tables of one row *)

Definition first_row {R} (tbl : lens Store (Tbl R)) : GoM Store (R + db_err) := First tbl (fun _ => true).

Definition upsert_single {R} (tbl : lens Store (Tbl R)) (new : R) (upd : R -> R)
    : GoM Store (option db_err) :=
  result ← first_row tbl;
  match result with
  | inr ErrRecordNotFound => Create tbl (fun _ _ => false) new
  | inr e => mret (Some e)
  | inl _ => Updates tbl (fun _ => true) upd
  end.

(** a getter where a missing row is [nil, nil] *)
Definition get_single {R} (tbl : lens Store (Tbl R)) : GoM Store (option R + db_err) :=
  result ← first_row tbl;
  mret (match result with
        | inl r => inl (Some r)
        | inr ErrRecordNotFound => inl None
        | inr e => inr e
        end).

Definition GetBrandingCSS : GoM Store (string + db_err) :=
  result ← first_row Brandings;
  mret (match result with
        | inl b => inl b.(br_CSS)
        | inr ErrRecordNotFound => inl ""
        | inr e => inr e
        end).

Definition SetBrandingCSS (now : Z) (css : string) : GoM Store (option db_err) :=
  upsert_single Brandings {| br_CSS := css; br_UpdatedAt := now |}
    (fun _ => {| br_CSS := css; br_UpdatedAt := now |}).

Definition client_version_defaults (c : ClientVersionConfig) : ClientVersionConfig :=
  {| cv_TargetVersion := c.(cv_TargetVersion); cv_RolloutMode := default_str "all" c.(cv_RolloutMode);
     cv_RolloutPercentage := default_int 100 c.(cv_RolloutPercentage); cv_UpdatedAt := c.(cv_UpdatedAt) |}.

Definition SetClientVersionConfig (now : Z) (version rolloutMode : string) (rolloutPercentage : Z)
    : GoM Store (option db_err) :=
  let c := {| cv_TargetVersion := version; cv_RolloutMode := rolloutMode;
              cv_RolloutPercentage := rolloutPercentage; cv_UpdatedAt := now |} in
  upsert_single ClientVersions (client_version_defaults c) (fun _ => c).

Definition SetBackendVersionConfig (now : Z) (name version downloadURL sha : string)
    : GoM Store (option db_err) :=
  let c := {| bv_Name := name; bv_Version := version; bv_DownloadURL := downloadURL;
              bv_SHA256 := sha; bv_UpdatedAt := now |} in
  upsert_single BackendVersions c (fun _ => c).

Definition GetOIDCConfig : GoM Store (option OidcConfig + db_err) := get_single Oidc.

Definition SetOIDCConfig (now : Z) (enabled : bool) (clientID clientSecret providerURL redirectURL : string)
    : GoM Store (option db_err) :=
  let c secret := {| oc_Enabled := enabled; oc_ClientID := clientID; oc_ClientSecret := secret;
                     oc_ProviderURL := providerURL; oc_RedirectURL := redirectURL;
                     oc_UpdatedAt := now |} in
  upsert_single Oidc (c clientSecret)
    (fun old => c (if clientSecret != "" then clientSecret else old.(oc_ClientSecret))).

Definition GetWorkerAuthConfig : GoM Store (option WorkerAuthConfig + db_err) := get_single WorkerAuth.

Definition SetWorkerAuthConfig (now : Z) (tofuEnabled : bool) (workerKey : string)
    : GoM Store (option db_err) :=
  let c key := {| wa_TOFUEnabled := tofuEnabled; wa_WorkerKey := key; wa_UpdatedAt := now |} in
  upsert_single WorkerAuth (c workerKey)
    (fun old => c (if workerKey != "" then workerKey else old.(wa_WorkerKey))).

(** ** Key-value settings and client errors *)

Definition by_key (key : string) (x : SystemSetting) : bool := x.(ss_Key) == key.
Definition same_key (x y : SystemSetting) : bool := x.(ss_Key) == y.(ss_Key).

Definition GetSetting (key : string) : GoM Store (string + db_err) :=
  result ← First Settings (by_key key);
  mret (match result with inl x => inl x.(ss_Value) | inr e => inr e end).

(** [Save]: update by primary key, insert when no row was there *)
Definition SetSetting (key value : string) : GoM Store (option db_err) :=
  let row := {| ss_Key := key; ss_Value := value |} in
  r ← UpdatesN Settings (by_key key) (fun _ => row);
  match r with
  | inr e => mret (Some e)
  | inl O => Create Settings same_key row
  | inl _ => mret None
  end.

Definition CreateClientError (fingerprint version errMsg stack : string) (reportedAt : Z)
    : GoM Store (option db_err) :=
  Create ClientErrors (fun _ _ => false)
    {| ce_Fingerprint := fingerprint; ce_Version := version; ce_ErrorMessage := errMsg;
       ce_Stack := stack; ce_ReportedAt := reportedAt |}.

Definition GetClientErrors : GoM Store (list ClientError + db_err) :=
  Find ClientErrors (fun _ => true) (Some (fun e => - e.(ce_ReportedAt))%Z) (Some 100%nat).
End roles.

(** ** Frames: one row per role, one row per configuration table *)

Section role_frames.
Context `{GormLaws}.

Definition unique_roles (s : Store) : Prop := unique_index rm_Role (db_Roles s).

Lemma live_NoDup {R K} (key : R -> K) (t : Tbl R) : unique_index key t -> NoDup (key <$> live t).
Proof. unfold unique_index. rewrite fmap_app. intros Hu%list.NoDup_app. apply Hu. Qed.

(** With unique keys, the row found under a key is any row with that key. *)
Lemma find_unique {R K} `{EqDecision K} (key : R -> K) (l : list R) r :
  NoDup (key <$> l) -> r ∈ l -> List.find (fun x => key x == key r) l = Some r.
Proof.
  induction l as [|x l IH]; intros Hnd Hin; [by apply elem_of_nil in Hin|].
  cbn in *. inversion Hnd as [|? ? Hx Hl]; subst.
  destruct (decide (key x = key r)) as [E|Hne].
  - rewrite bool_decide_true by done. apply elem_of_cons in Hin as [->|Hin]; [done|].
    exfalso. apply Hx. rewrite E. by apply list_elem_of_fmap_2.
  - rewrite bool_decide_false by done. apply IH; [done|].
    apply elem_of_cons in Hin as [->|Hin]; done.
Qed.

Definition at_most_one {R} (tbl : lens Store (Tbl R)) (s : Store) : Prop :=
  length (live (lget tbl s)) <= 1.

(** The upsert pattern keeps a table at one row. *)
Lemma upsert_single_one {R} (tbl : lens Store (Tbl R)) `{!LensLaws tbl} new upd s :
  at_most_one tbl s -> at_most_one tbl (run (upsert_single tbl new upd) s).
Proof.
  intros Hs. unfold upsert_single, first_row, First, run, mbind, GoM_bind, gets. cbn.
  destruct (db_first _ (lget tbl s)) as [r|[|msg]] eqn:Hf; cbn.
  - unfold Updates, UpdatesN, mbind, GoM_bind.
    pose proof (updates_rows (fun _ => true) upd (lget tbl s)) as [_ Hr]. cbn in Hr.
    destruct (db_updates _ _ _) as [t' [n|e]]; cbn in *; unfold at_most_one in *;
      rewrite lget_lset; destruct Hr as [-> | ->]; unfold update_rows; rewrite ?length_fmap; done.
  - apply first_missing in Hf. unfold Create.
    pose proof (create_rows (fun _ _ => false) new (lget tbl s)) as [_ Hr]. cbn in Hr.
    destruct (db_create _ _ _) as [t' e]; cbn in *. unfold at_most_one. rewrite lget_lset.
    destruct (live (lget tbl s)) as [|x l]; [|discriminate Hf].
    destruct Hr as [-> |[-> _]]; cbn; lia.
  - done.
Qed.

(** What is read back after a successful upsert. *)
Lemma upsert_single_first {R} (tbl : lens Store (Tbl R)) `{!LensLaws tbl, !GormUp} new upd s s' :
  upsert_single tbl new upd s = (s', Ret None) ->
  List.find (fun _ => true) (live (lget tbl s')) =
    Some (match List.find (fun _ => true) (live (lget tbl s)) with Some r => upd r | None => new end).
Proof.
  unfold upsert_single, first_row. rewrite (bind_Ret _ _ _ _ _ (First_up tbl _ s)).
  destruct (live (lget tbl s)) as [|r l] eqn:Hl; cbn [List.find].
  - unfold Create. destruct (db_create _ _ _) as [t' e] eqn:E. intros [= <- ->].
    destruct (create_ok _ _ _ _ E) as (Hl' & _ & _). by rewrite lget_lset, Hl', Hl.
  - destruct (Updates_up tbl (fun _ => true) upd s) as (t' & E & Hl' & _). rewrite E.
    intros [= <-]. by rewrite lget_lset, Hl', Hl.
Qed.

Lemma get_single_first {R} (tbl : lens Store (Tbl R)) `{!GormUp} s :
  get_single tbl s = (s, Ret (inl (List.find (fun _ => true) (live (lget tbl s))))).
Proof.
  unfold get_single, first_row. rewrite (bind_Ret _ _ _ _ _ (First_up tbl _ s)).
  by destruct (List.find _ _).
Qed.

(** A table that is changed by statements through its own lens only. *)
Lemma other_table {R R'} (tbl : lens Store (Tbl R)) (tbl' : lens Store (Tbl R')) new upd s :
  (forall t s, lget tbl' (lset tbl t s) = lget tbl' s) ->
  lget tbl' (run (upsert_single tbl new upd) s) = lget tbl' s.
Proof.
  intros Hf.
  assert (Hk : keeps (unchanged (lget tbl')) (upsert_single tbl new upd)).
  { unfold upsert_single, first_row. keeps_tac.
    - by apply unchanged_Updates.
    - by apply unchanged_Create. }
  apply Hk.
Qed.

Lemma other_table_eq {R R'} (tbl : lens Store (Tbl R)) (tbl' : lens Store (Tbl R')) new upd s s' r :
  (forall t s, lget tbl' (lset tbl t s) = lget tbl' s) ->
  upsert_single tbl new upd s = (s', r) -> lget tbl' s' = lget tbl' s.
Proof. intros Hf E. rewrite <- (other_table tbl tbl' new upd s Hf). unfold run. by rewrite E. Qed.

Inductive config_op :=
  | OpBrandingCSS (now : Z) (css : string)
  | OpClientVersion (now : Z) (version mode : string) (pct : Z)
  | OpBackendVersion (now : Z) (name version url sha : string)
  | OpOIDC (now : Z) (enabled : bool) (id secret provider redirect : string)
  | OpWorkerAuth (now : Z) (tofu : bool) (key : string).

Definition exec_config_op (op : config_op) : GoM Store unit :=
  match op with
  | OpBrandingCSS now css => SetBrandingCSS now css ;; skip
  | OpClientVersion now v m p => SetClientVersionConfig now v m p ;; skip
  | OpBackendVersion now n v u h => SetBackendVersionConfig now n v u h ;; skip
  | OpOIDC now e i s p r => SetOIDCConfig now e i s p r ;; skip
  | OpWorkerAuth now t k => SetWorkerAuthConfig now t k ;; skip
  end.

Definition single_config (s : Store) : Prop :=
  at_most_one Brandings s /\ at_most_one ClientVersions s /\ at_most_one BackendVersions s /\
  at_most_one Oidc s /\ at_most_one WorkerAuth s.

Lemma exec_config_op_single op s : single_config s -> single_config (run (exec_config_op op) s).
Proof.
  intros (A & B & C & D & E). destruct op; cbn [exec_config_op]; rewrite run_skip;
    unfold single_config, SetBrandingCSS, SetClientVersionConfig, SetBackendVersionConfig,
      SetOIDCConfig, SetWorkerAuthConfig, at_most_one in *;
    cbv zeta; split_and!;
    first [ by (rewrite other_table; [|reflexivity]) | apply upsert_single_one; [apply _|done] ].
Qed.

(** The row [FillMissingDownloadURLs] makes of a role. *)
Definition filled (r : RoleModel) : RoleModel :=
  if (r.(rm_DownloadURL) != "") || (r.(rm_ModelFilename) == "") then r
  else match knownModelURLs r.(rm_ModelFilename) with
       | Some url => set_rm_DownloadURL url r
       | None => r
       end.

Lemma filled_role r : rm_Role (filled r) = rm_Role r.
Proof. unfold filled. by repeat case_match. Qed.

Lemma row_of_role l x r : NoDup (rm_Role <$> l) -> r ∈ l -> x ∈ l -> rm_Role x = rm_Role r -> x = r.
Proof.
  intros Hnd Hin Hx E. pose proof (find_unique rm_Role l x Hnd Hx) as F1.
  pose proof (find_unique rm_Role l r Hnd Hin) as F2. rewrite E in F1. congruence.
Qed.

(** One iteration of the fill loop on the rows. *)
Lemma fill_role_rows `{!GormUp} r s : exists s',
  fill_role r s = (s', Ret tt) /\
  live (db_Roles s') =
    (if bool_decide (filled r = r) then live (db_Roles s)
     else update_rows (by_role r.(rm_Role)) (set_rm_DownloadURL (rm_DownloadURL (filled r)))
            (live (db_Roles s))).
Proof.
  unfold fill_role, filled. destruct (_ || _) eqn:Hcond; [exists s; by rewrite bool_decide_true|].
  destruct (knownModelURLs (rm_ModelFilename r)) as [url|] eqn:Hu; [|exists s; by rewrite bool_decide_true].
  destruct (Updates_up Roles (by_role (rm_Role r)) (set_rm_DownloadURL url) s) as (t & E & Hl & _).
  exists (lset Roles t s). unfold SetRoleDownloadURL. rewrite (bind_Ret _ _ _ _ _ E). split; [done|].
  rewrite bool_decide_false; [done|]. intros Er.
  apply orb_false_iff in Hcond as [Hurl%negb_false_iff%bool_decide_eq_true_1 _].
  apply (f_equal rm_DownloadURL) in Er. cbn in Er. rewrite Hurl in Er. subst url.
  unfold knownModelURLs in Hu. by repeat case_bool_decide.
Qed.

Lemma filled_url r x : x = r \/ x = filled r -> filled r <> r ->
  set_rm_DownloadURL (rm_DownloadURL (filled r)) x = filled r.
Proof.
  unfold filled. destruct (_ || _); [done|]. destruct (knownModelURLs _); [|done].
  by intros [-> | ->].
Qed.

Lemma fill_loop `{!GormUp} rows l done s :
  NoDup (rm_Role <$> rows) -> (forall r, r ∈ l -> r ∈ rows) ->
  live (db_Roles s) = (fun x => if decide (rm_Role x ∈ done) then filled x else x) <$> rows ->
  exists s', foreach l fill_role s = (s', Ret tt) /\
    live (db_Roles s') =
      (fun x => if decide (rm_Role x ∈ done ++ (rm_Role <$> l)) then filled x else x) <$> rows.
Proof.
  intros Hnd. revert done s. induction l as [|r l IH]; intros done s Hl Hs.
  { exists s. split; [done|]. by rewrite app_nil_r. }
  cbn [foreach]. destruct (fill_role_rows r s) as (s1 & E & Hs1).
  rewrite (bind_Ret _ _ _ _ _ E).
  destruct (IH (done ++ [rm_Role r]) s1) as (s' & E' & Hs').
  - intros r' Hr'. apply Hl. by right.
  - rewrite Hs1, Hs. assert (Hr : r ∈ rows) by (apply Hl; left).
    assert (Hin : forall x, rm_Role x ∈ done ++ [rm_Role r] <-> rm_Role x ∈ done \/ rm_Role x = rm_Role r)
      by (intros x; rewrite elem_of_app, list_elem_of_singleton; tauto).
    case_bool_decide as Hf.
    + apply list_fmap_ext. intros i x Hx%list_elem_of_lookup_2.
      destruct (decide (rm_Role x = rm_Role r)) as [E1|E1].
      * rewrite (row_of_role rows x r) by done. rewrite !Hf. by repeat case_decide.
      * destruct (decide (rm_Role x ∈ done)); case_decide as D; rewrite Hin in D; tauto.
    + unfold update_rows. rewrite <- list_fmap_compose. apply list_fmap_ext.
      intros i x Hx%list_elem_of_lookup_2. cbn. unfold by_role.
      destruct (decide (rm_Role x = rm_Role r)) as [E1|E1].
      * rewrite (row_of_role rows x r) by done. rewrite (decide_True (P := _ ∈ _ ++ _)) by set_solver.
        rewrite bool_decide_true by (case_decide; rewrite ?filled_role; done).
        apply filled_url; [case_decide; auto|done].
      * rewrite bool_decide_false by (case_decide; rewrite ?filled_role; done).
        destruct (decide (rm_Role x ∈ done)); case_decide as D; rewrite Hin in D; tauto.
  - exists s'. split; [done|]. rewrite Hs'. by rewrite <- app_assoc.
Qed.
End role_frames.

(** ** Properties *)

Section properties.
Context `{GormLaws}.

(** [FillMissingDownloadURLs] gives every role that has a known model file
    and no download URL that file's URL, in one pass, and touches no other
    row or column. *)
Theorem FillMissingDownloadURLs_fills `{!GormUp} s :
  unique_roles s ->
  exists s', FillMissingDownloadURLs s = (s', Ret tt) /\
    live (db_Roles s') = filled <$> live (db_Roles s).
Proof.
  intros Hu%live_NoDup. unfold FillMissingDownloadURLs, GetRoleModels.
  destruct (up_find (fun _ => true) (Some rm_MinVRAMMB) None (db_Roles s)) as [l Hl].
  rewrite (bind_Ret _ _ s s (inl l)) by (unfold Find, gets; cbn; by rewrite Hl).
  destruct (find_ok _ _ _ _ _ Hl) as (l' & Hperm & _ & ->). cbn [limited].
  rewrite List.forallb_filter_id in Hperm by (by apply forallb_forall).
  destruct (fill_loop (live (db_Roles s)) l' [] s) as (s' & E & Hs'); [done| | |].
  - intros r. by rewrite Hperm.
  - rewrite <- (list_fmap_id (live (db_Roles s))) at 1. apply list_fmap_ext. intros i x _.
    by rewrite decide_False by apply not_elem_of_nil.
  - exists s'. split; [done|]. rewrite Hs'. apply list_fmap_ext.
    intros i x Hx%list_elem_of_lookup_2. rewrite decide_True; [done|].
    cbn. apply list_elem_of_fmap_2. by rewrite Hperm.
Qed.

(** A deleted role cannot be configured again: deletion is soft and the
    unique index still holds the name, so that every later [UpsertRoleModel] of
    the role fails and leaves the rows as they are. *)
Theorem deleted_role_stays_taken `{!GormUp} s role model quant file hash vram descr :
  unique_roles s -> existsb (by_role role) (live (db_Roles s)) = true ->
  let s1 := run (DeleteRoleModel role) s in
  exists e s2, UpsertRoleModel role model quant file hash vram descr s1 = (s2, Ret (Some e)) /\
    live (db_Roles s2) = live (db_Roles s1) /\
    List.find (by_role role) (live (db_Roles s2)) = None.
Proof.
  intros Hu Hex s1. unfold s1, run, DeleteRoleModel, Delete.
  destruct (up_delete true (by_role role) (db_Roles s)) as [t E]. cbn. rewrite E. cbn.
  destruct (delete_ok _ _ _ _ E) as (Hl & Ht & _). specialize (Ht eq_refl).
  assert (Hnone : List.find (by_role role) (live t) = None).
  { rewrite Hl. destruct (List.find _ _) as [r|] eqn:Hf; [|done].
    apply find_in in Hf as [Hin Hr]. apply list_elem_of_In, filter_In in Hin as [_ Hn].
    rewrite Hr in Hn. done. }
  unfold UpsertRoleModel. rewrite (bind_Ret _ _ _ _ _ (First_up Roles _ _)). cbn. rewrite Hnone.
  unfold Create. cbn. destruct (db_create same_role _ t) as [t' [e|]] eqn:Hc.
  - destruct (create_err _ _ _ _ _ Hc) as [Hl' _]. exists e, (lset Roles t' (lset Roles t s)).
    split; [done|]. cbn. by rewrite Hl'.
  - exfalso. destruct (create_ok _ _ _ _ Hc) as (_ & _ & Hall).
    apply existsb_exists in Hex as (r & Hin & Hr). rewrite forallb_forall in Hall.
    specialize (Hall r). rewrite Ht in Hall. unfold same_role, by_role in *.
    apply bool_decide_eq_true_1 in Hr. cbn in Hall. rewrite bool_decide_true in Hall by done.
    assert (Hf : negb true = true); [|done]. apply Hall. apply in_or_app. right. apply in_or_app. right.
    apply filter_In. split; [done|]. by apply bool_decide_eq_true.
Qed.

(** The configuration tables never hold more than one row, whatever is
    written and whichever statements fail, so that reading the first row reads
    the configuration. *)
Theorem single_rows ops s :
  single_config s -> single_config (run (foreach ops exec_config_op) s).
Proof.
  revert s. induction ops as [|op ops IH]; intros s Hs; [done|]. cbn [foreach].
  pose proof (exec_config_op_single op s Hs) as Hop. unfold run, mbind, GoM_bind in *.
  destruct (exec_config_op op s) as [s1 [[]| |]]; cbn in *; auto.
Qed.

(** Configuration is read back as written, and an empty secret in an update
    leaves the stored secret as it was: for the OIDC client secret and the
    shared worker key. *)
Theorem secrets_survive_updates `{!GormUp} now enabled id secret provider redirect tofu key s s1 s2 :
  SetOIDCConfig now enabled id secret provider redirect s = (s1, Ret None) ->
  SetWorkerAuthConfig now tofu key s1 = (s2, Ret None) ->
  exists oc wa, GetOIDCConfig s2 = (s2, Ret (inl (Some oc))) /\
    GetWorkerAuthConfig s2 = (s2, Ret (inl (Some wa))) /\
    oc.(oc_Enabled) = enabled /\ oc.(oc_ClientID) = id /\ oc.(oc_ProviderURL) = provider /\
    oc.(oc_RedirectURL) = redirect /\ wa.(wa_TOFUEnabled) = tofu /\
    oc.(oc_ClientSecret) =
      (if secret != "" then secret
       else from_option oc_ClientSecret "" (List.find (fun _ => true) (live (db_Oidc s)))) /\
    wa.(wa_WorkerKey) =
      (if key != "" then key
       else from_option wa_WorkerKey "" (List.find (fun _ => true) (live (db_WorkerAuth s)))).
Proof.
  intros E1 E2.
  pose proof (other_table_eq WorkerAuth Oidc _ _ _ _ _ (fun _ _ => eq_refl) E2) as HO.
  pose proof (other_table_eq Oidc WorkerAuth _ _ _ _ _ (fun _ _ => eq_refl) E1) as HW.
  pose proof (upsert_single_first Oidc _ _ _ _ E1) as F1.
  pose proof (upsert_single_first WorkerAuth _ _ _ _ E2) as F2.
  unfold GetOIDCConfig, GetWorkerAuthConfig. rewrite (get_single_first Oidc), (get_single_first WorkerAuth), HO, F1, F2, HW. cbn [lget Oidc WorkerAuth].
  clear. eexists _, _. split_and!; [reflexivity|reflexivity|..];
    destruct (List.find (fun _ => true) (live (db_Oidc s))),
      (List.find (fun _ => true) (live (db_WorkerAuth s)));
    cbn; try done; case_bool_decide; cbn; congruence.
Qed.
End properties.

Section witnesses.
#[local] Existing Instances MemGorm MemGormLaws MemGormUp.

Definition roles_ex : Store :=
  lset Roles (mem_rows [role_defaults (new_role "tester" smol "Q4_K_M" smol_file "" 512 "");
                        role_defaults (new_role "embedding" "bge-m3" "Q4_K_M" "bge-m3-Q4_K_M.gguf" "" 4096 "")])
    empty_store.

Lemma roles_ex_unique : unique_roles roles_ex.
Proof. unfold unique_roles, unique_index. apply (bool_decide_unpack _). vm_compute. done. Qed.

Lemma FillMissingDownloadURLs_fills_witness :
  exists s', FillMissingDownloadURLs roles_ex = (s', Ret tt) /\
    (rm_DownloadURL <$> live (db_Roles s')) =
      [ "https://huggingface.co/bartowski/SmolLM2-135M-Instruct-GGUF/resolve/main/SmolLM2-135M-Instruct-Q4_K_M.gguf";
        "https://huggingface.co/gpustack/bge-m3-GGUF/resolve/main/bge-m3-Q4_K_M.gguf" ].
Proof.
  destruct (FillMissingDownloadURLs_fills roles_ex roles_ex_unique) as (s' & E & Hl).
  exists s'. split; [exact E|]. rewrite Hl. vm_compute. reflexivity.
Defined.

Lemma deleted_role_stays_taken_witness :
  exists e s2, UpsertRoleModel "tester" "m" "q" "f" "" 1 "" (run (DeleteRoleModel "tester") roles_ex) =
    (s2, Ret (Some e)).
Proof.
  destruct (deleted_role_stays_taken roles_ex "tester" "m" "q" "f" "" 1 "" roles_ex_unique eq_refl)
    as (e & s2 & E & _).
  exists e, s2. exact E.
Defined.

Lemma single_rows_witness :
  single_config (run (foreach [OpBrandingCSS 1 "a{}"; OpBrandingCSS 2 "b{}"; OpOIDC 3 true "i" "s" "p" "r"]
    exec_config_op) empty_store).
Proof. apply single_rows. unfold single_config, at_most_one. cbn. lia. Defined.

Lemma secrets_survive_updates_witness :
  let s1 := run (SetOIDCConfig 1 true "id" "secret" "p" "r") empty_store in
  let s2 := run (SetWorkerAuthConfig 1 false "key") s1 in
  let s3 := run (SetOIDCConfig 2 false "id2" "" "p" "r") s2 in
  let s4 := run (SetWorkerAuthConfig 2 true "") s3 in
  exists oc wa, GetOIDCConfig s4 = (s4, Ret (inl (Some oc))) /\
    GetWorkerAuthConfig s4 = (s4, Ret (inl (Some wa))) /\
    oc.(oc_ClientSecret) = "secret" /\ wa.(wa_WorkerKey) = "key".
Proof.
  intros s1 s2 s3 s4.
  destruct (secrets_survive_updates 2 false "id2" "" "p" "r" true "" s2 s3 s4) as
    (oc & wa & E1 & E2 & _ & _ & _ & _ & _ & Hs & Hk); [reflexivity|reflexivity|].
  exists oc, wa. split; [exact E1|]. split; [exact E2|]. split; [exact Hs|exact Hk].
Defined.
End witnesses.
