(* ===== verification/Gateway.v ===== *)
(** * The worker gateway (internal/manager/gateway)

    The world a gateway call acts on: the connected workers by fingerprint,
    the known keys, the dispatch queue, the optional store, and the network as
    the log of frames written and the set of connections closed on this side.

    Ranging over a Go map visits its entries in some order: the operations that
    do so take it as an argument, a [map_order]. Whether a write on an open
    connection succeeds is up to the WebSocket library: the class [WebSocket]. *)

From S2P Require Import Prelude GoStd Json Protocol Gorm Models Workers Queue BackendUrl.

Record WorkerInfo := {
  wi_Fingerprint : string;
  wi_PublicKey : string;
  wi_Model : string;
  wi_Quantisation : string;
  wi_Version : string;
  wi_OS : string;
  wi_Arch : string;
  wi_LLMHash : string;
  wi_ConnectedAt : Z;
}.

(** A connection is known by its number. *)
Record workerConn := { cn_conn : nat; cn_info : WorkerInfo }.

Definition cn_fp (wc : workerConn) : string := wc.(cn_info).(wi_Fingerprint).

Record Gateway `{Gorm} := {
  g_workerKey : string;
  g_queue : Queue;
  g_store : option Store;
  g_workers : gmap string workerConn;
  g_knownKeys : gmap string string;
  (** the network *)
  g_wire : list (nat * ManagerMessage);
  g_closed : gset nat;
  g_conns : nat;
}.

Record map_order := {
  mo_list :> gmap string workerConn -> list (string * workerConn);
  mo_perm : forall m, mo_list m ≡ₚ map_to_list m;
}.

Class WebSocket := {
  (** does this write succeed, given all that was written before *)
  write_ok : list (nat * ManagerMessage) -> nat -> ManagerMessage -> bool;
}.

Section gateway.
Context `{Gorm}.

Definition NewGateway (workerKey : string) (q : Queue) (s : option Store) : Gateway :=
  {| g_workerKey := workerKey; g_queue := q; g_store := s; g_workers := ∅; g_knownKeys := ∅;
     g_wire := []; g_closed := ∅; g_conns := 0 |}.

Definition set_workerKey (k : string) (g : Gateway) : Gateway :=
  Build_Gateway _ k g.(g_queue) g.(g_store) g.(g_workers) g.(g_knownKeys) g.(g_wire) g.(g_closed) g.(g_conns).
Definition set_queue (q : Queue) (g : Gateway) : Gateway :=
  Build_Gateway _ g.(g_workerKey) q g.(g_store) g.(g_workers) g.(g_knownKeys) g.(g_wire) g.(g_closed) g.(g_conns).
Definition set_store (s : option Store) (g : Gateway) : Gateway :=
  Build_Gateway _ g.(g_workerKey) g.(g_queue) s g.(g_workers) g.(g_knownKeys) g.(g_wire) g.(g_closed) g.(g_conns).
Definition set_workers (m : gmap string workerConn) (g : Gateway) : Gateway :=
  Build_Gateway _ g.(g_workerKey) g.(g_queue) g.(g_store) m g.(g_knownKeys) g.(g_wire) g.(g_closed) g.(g_conns).
Definition set_knownKeys (m : gmap string string) (g : Gateway) : Gateway :=
  Build_Gateway _ g.(g_workerKey) g.(g_queue) g.(g_store) g.(g_workers) m g.(g_wire) g.(g_closed) g.(g_conns).
Definition set_wire (l : list (nat * ManagerMessage)) (g : Gateway) : Gateway :=
  Build_Gateway _ g.(g_workerKey) g.(g_queue) g.(g_store) g.(g_workers) g.(g_knownKeys) l g.(g_closed) g.(g_conns).
Definition set_closed (c : gset nat) (g : Gateway) : Gateway :=
  Build_Gateway _ g.(g_workerKey) g.(g_queue) g.(g_store) g.(g_workers) g.(g_knownKeys) g.(g_wire) c g.(g_conns).

Definition has_store (g : Gateway) : bool :=
  match g.(g_store) with Some _ => true | None => false end.
(** a call on [g.store], guarded by [g.store != nil] in the code *)
Definition on_store {A} (m : GoM Store A) : GoM Gateway A := fun g =>
  match g.(g_store) with
  | None => (g, Panic "nil pointer dereference")
  | Some s => let '(s', r) := m s in (set_store (Some s') g, r)
  end.
Definition on_queue {A} (m : GoM Queue A) : GoM Gateway A := zoom g_queue set_queue m.

Definition SetWorkerKey (key : string) : GoM Gateway unit := modify (set_workerKey key).
Definition WorkerKey : GoM Gateway string := gets g_workerKey.

(** ** Connections *)

Context `{WebSocket}.

(** true on success *)
Definition WriteJSON (conn : nat) (m : ManagerMessage) : GoM Gateway bool := fun g =>
  if bool_decide (conn ∉ g.(g_closed)) && write_ok g.(g_wire) conn m
  then (set_wire (g.(g_wire) ++ [(conn, m)]) g, Ret true)
  else (g, Ret false).
Definition Close (conn : nat) : GoM Gateway unit :=
  modify (fun g => set_closed ({[conn]} ∪ g.(g_closed)) g).
Definition Upgrade : GoM Gateway nat := fun g =>
  (Build_Gateway _ g.(g_workerKey) g.(g_queue) g.(g_store) g.(g_workers) g.(g_knownKeys)
     g.(g_wire) g.(g_closed) (S g.(g_conns)), Ret g.(g_conns)).

(** ** Handshake (handshake.go)

    [nonce] is what the random source gives, [None] its error; [peer] is the
    other end's first frame after a challenge, [None] a read error or the
    read deadline. *)

Context `{Crypto}.

Definition doChallenge (conn : nat) (pubKey : string) (nonce : option string)
    (peer : Challenge -> option frame) : GoM Gateway bool :=
  match nonce with
  | None => mret false
  | Some nonce =>
      let nonceB64 := base64_EncodeToString nonce in
      let challenge := {| cl_Type := TypeChallenge; cl_Nonce := nonceB64 |} in
      sent ← WriteJSON conn (MChallenge challenge);
      if negb sent then mret false
      else match peer challenge with
      | None => mret false
      | Some message =>
          match Unmarshal decode_SignedResponse message with
          | None => mret false
          | Some resp =>
              if resp.(sr_Type) != TypeSignedResponse then mret false
              else if resp.(sr_Nonce) != nonceB64 then mret false
              else match base64_DecodeString resp.(sr_Signature) with
                   | None => mret false
                   | Some sigBytes => mret (ed25519_verify pubKey nonce sigBytes)
                   end
          end
      end
  end.

Definition verifyOrRegisterKey (fingerprint pubKey : string) : GoM Gateway bool :=
  keys ← gets g_knownKeys;
  match keys !! fingerprint with
  | None => modify (set_knownKeys (<[fingerprint := pubKey]> keys)) ;; mret true
  | Some existing => mret (existing == pubKey)
  end.

(** ** Connecting *)

Inductive serve_result :=
  | HttpError (code : Z) (msg : string)
  | UpgradeFailed
  | ChallengeFailed
  | Connected (wc : workerConn).

Definition ed25519_PublicKeySize : nat := 32.

(** Writes the registration of a connected worker to the database. *)
Definition persist_connect (now : Z) (fingerprint pubKeyB64 model quantisation clientVersion
    workerOS workerArch llmHash backendHash : string) : GoM Store unit :=
  UpsertWorker now fingerprint pubKeyB64 model quantisation clientVersion workerOS workerArch ;;
  when (llmHash != "")
    (SetWorkerLLMHash fingerprint llmHash ;; UpdateWorkerSyncStatus fingerprint ;; skip) ;;
  when (backendHash != "") (SetWorkerBackendHash fingerprint backendHash ;; skip) ;;
  UpdateWorkerBackendSyncStatus fingerprint ;;
  cfg ← GetClientVersionConfig;
  match cfg with
  | inl cfg => UpdateWorkerBinarySyncStatus fingerprint cfg.(cv_TargetVersion) ;; skip
  | inr _ => skip
  end ;;
  SetWorkerOnlineIfAllowed fingerprint.

Definition ServeHTTP (now : Z) (Header : string -> string) (upgrade_ok : bool)
    (nonce : option string) (peer : Challenge -> option frame) : GoM Gateway serve_result :=
  let authHeader := Header "Authorization" in
  workerKey ← gets g_workerKey;
  if (workerKey != "") && (authHeader != ("Bearer " +:+ workerKey))
  then mret (HttpError 401 "unauthorized")
  else
  let fingerprint := Header "X-Worker-Fingerprint" in
  let pubKeyB64 := Header "X-Worker-Public-Key" in
  let model := Header "X-Worker-Model" in
  let quantisation := Header "X-Worker-Quantisation" in
  let clientVersion := Header "X-Worker-Version" in
  let llmHash := Header "X-Worker-LLM-Hash" in
  let backendHash := Header "X-Worker-Backend-Hash" in
  let workerOS := Header "X-Worker-OS" in
  let workerArch := Header "X-Worker-Arch" in
  if (fingerprint == "") || (pubKeyB64 == "")
  then mret (HttpError 400 "X-Worker-Fingerprint and X-Worker-Public-Key headers required")
  else match base64_DecodeString pubKeyB64 with
  | None => mret (HttpError 400 "invalid X-Worker-Public-Key encoding")
  | Some pubKey =>
    if String.length pubKey != ed25519_PublicKeySize
    then mret (HttpError 400 "invalid public key size")
    else
    let expectedFingerprint := hex_EncodeToString (sha256 pubKey) in
    if fingerprint != expectedFingerprint
    then mret (HttpError 400 "fingerprint does not match public key")
    else
    known ← verifyOrRegisterKey fingerprint pubKey;
    if negb known
    then mret (HttpError 403 "fingerprint registered with different public key")
    else if negb upgrade_ok then mret UpgradeFailed
    else
    conn ← Upgrade;
    passed ← (if workerKey == "" then doChallenge conn pubKey nonce peer else mret true);
    if negb passed then Close conn ;; mret ChallengeFailed
    else
    let wc := {| cn_conn := conn;
                 cn_info := {| wi_Fingerprint := fingerprint; wi_PublicKey := pubKey;
                               wi_Model := model; wi_Quantisation := quantisation;
                               wi_Version := clientVersion; wi_OS := workerOS;
                               wi_Arch := workerArch; wi_LLMHash := llmHash;
                               wi_ConnectedAt := now |} |} in
    workers ← gets g_workers;
    match workers !! fingerprint with
    | Some old => Close old.(cn_conn)
    | None => skip
    end ;;
    modify (set_workers (<[fingerprint := wc]> workers)) ;;
    stored ← gets has_store;
    when stored (on_store (persist_connect now fingerprint pubKeyB64 model quantisation
      clientVersion workerOS workerArch llmHash backendHash)) ;;
    mret (Connected wc)
  end.

(** ** Dispatch *)

Definition if_store (m : GoM Store bool) : GoM Gateway bool :=
  stored ← gets has_store;
  if stored : bool then on_store m else mret true.

(** The loop of the three dispatchers: the first connected worker, in map
    order, that is [suitable] and takes the write. *)
Fixpoint dispatch_loop (suitable : string -> GoM Gateway bool) (unit : WorkUnit)
    (l : list (string * workerConn)) : GoM Gateway (option WorkerInfo) :=
  match l with
  | [] => mret None
  | (_, wc) :: l' =>
      ok ← suitable (cn_fp wc);
      if negb ok then dispatch_loop suitable unit l'
      else sent ← WriteJSON wc.(cn_conn) (MWorkUnit unit);
           if negb sent then dispatch_loop suitable unit l'
           else mret (Some wc.(cn_info))
  end.

(** [g.store != nil && !g.store.HasConsent(..)], and so on, negated. *)
Definition consenting_available (fp : string) : GoM Gateway bool :=
  consent ← if_store (HasConsent fp);
  if negb consent then mret false else if_store (IsWorkerAvailable fp).
Definition consenting (fp : string) : GoM Gateway bool := if_store (HasConsent fp).
Definition consenting_hash (expectedHash fp : string) : GoM Gateway bool :=
  consent ← if_store (HasConsent fp);
  if negb consent then mret false
  else if expectedHash != "" then if_store (WorkerLLMHashMatches fp expectedHash) else mret true.

Definition Dispatch (ord : map_order) (unit : WorkUnit) : GoM Gateway (option WorkerInfo) :=
  workers ← gets g_workers; dispatch_loop consenting_available unit (ord workers).
Definition DispatchForced (ord : map_order) (unit : WorkUnit) : GoM Gateway (option WorkerInfo) :=
  workers ← gets g_workers; dispatch_loop consenting unit (ord workers).
Definition DispatchWithHashCheck (ord : map_order) (unit : WorkUnit) (expectedHash : string)
    : GoM Gateway (option WorkerInfo) :=
  workers ← gets g_workers; dispatch_loop (consenting_hash expectedHash) unit (ord workers).

Definition HasWorker : GoM Gateway bool :=
  gets (fun g => bool_decide (0 < size g.(g_workers))%nat).
Definition WorkerCount : GoM Gateway nat := gets (fun g => size g.(g_workers)).
Definition WorkerStatus (ord : map_order) : GoM Gateway (option WorkerInfo) :=
  gets (fun g => match ord g.(g_workers) with
                 | [] => None
                 | (_, wc) :: _ => Some wc.(cn_info)
                 end).

Fixpoint any_available (l : list (string * workerConn)) : GoM Gateway bool :=
  match l with
  | [] => mret false
  | (_, wc) :: l' =>
      av ← on_store (IsWorkerAvailable (cn_fp wc));
      if av : bool then mret true else any_available l'
  end.
Definition HasAvailableWorker (ord : map_order) : GoM Gateway bool :=
  stored ← gets has_store;
  workers ← gets g_workers;
  if negb stored then mret (bool_decide (0 < size workers)%nat)
  else any_available (ord workers).

(** ** Pushes *)

Definition pushBackendUpdateTo (wc : workerConn) (version downloadURL fallbackURL sha : string)
    : GoM Gateway bool :=
  WriteJSON wc.(cn_conn) (MBackendUpdate
    {| bk_Type := TypeBackendUpdate; bk_Version := version; bk_DownloadURL := downloadURL;
       bk_FallbackURL := fallbackURL; bk_SHA256 := sha |}).

Definition model_update (role model quantisation filename modelFileHash llmHash : string)
    (contextSize parallelSlots gpuLayers : Z) (endpointType : string) (flashAttention : bool)
    : ModelUpdate :=
  {| mu_Type := TypeModelUpdate; mu_Role := role; mu_Model := model; mu_Quantisation := quantisation;
     mu_Filename := filename; mu_ModelFileHash := modelFileHash; mu_LLMHash := llmHash;
     mu_ContextSize := contextSize; mu_EndpointType := endpointType;
     mu_ParallelSlots := parallelSlots; mu_GPULayers := gpuLayers;
     mu_FlashAttention := flashAttention |}.

Definition pushModelUpdateTo (wc : workerConn)
    (role model quantisation filename modelFileHash llmHash : string)
    (contextSize parallelSlots gpuLayers : Z) (endpointType : string) (flashAttention : bool)
    : GoM Gateway bool :=
  WriteJSON wc.(cn_conn) (MModelUpdate (model_update role model quantisation filename
    modelFileHash llmHash contextSize parallelSlots gpuLayers endpointType flashAttention)).

Inductive push_error := NoWorkerConnected | WriteFailed.

(** Writes to every connection; the last write error, if any. *)
Fixpoint push_loop (update : ManagerMessage) (l : list (string * workerConn))
    (lastErr : option push_error) : GoM Gateway (option push_error) :=
  match l with
  | [] => mret lastErr
  | (_, wc) :: l' =>
      sent ← WriteJSON wc.(cn_conn) update;
      push_loop update l' (if sent : bool then lastErr else Some WriteFailed)
  end.
Definition broadcast (ord : map_order) (update : ManagerMessage) : GoM Gateway (option push_error) :=
  workers ← gets g_workers;
  if size workers == 0%nat then mret (Some NoWorkerConnected)
  else push_loop update (ord workers) None.

Definition PushModelUpdate (ord : map_order)
    (role model quantisation filename modelFileHash llmHash : string)
    (contextSize parallelSlots gpuLayers : Z) (endpointType : string) (flashAttention : bool)
    : GoM Gateway (option push_error) :=
  broadcast ord (MModelUpdate (model_update role model quantisation filename
    modelFileHash llmHash contextSize parallelSlots gpuLayers endpointType flashAttention)).
Definition PushBinaryUpdate (ord : map_order) (version downloadURL fallbackURL sha : string)
    : GoM Gateway (option push_error) :=
  broadcast ord (MBinaryUpdate
    {| bu_Type := TypeBinaryUpdate; bu_Version := version; bu_DownloadURL := downloadURL;
       bu_FallbackURL := fallbackURL; bu_SHA256 := sha |}).
Definition PushBackendUpdate (ord : map_order) (version downloadURL fallbackURL sha : string)
    : GoM Gateway (option push_error) :=
  broadcast ord (MBackendUpdate
    {| bk_Type := TypeBackendUpdate; bk_Version := version; bk_DownloadURL := downloadURL;
       bk_FallbackURL := fallbackURL; bk_SHA256 := sha |}).

(** ** The read loop: one iteration per message

    [url_fuel] bounds the iterations of [ExpandURL]; a worker whose loop
    does not end within it is [Blocked]. *)

Context (url_fuel : nat).

Definition handle_result (wc : workerConn) (result : Result) : GoM Gateway unit :=
  stored ← gets has_store;
  when stored (on_store (SetWorkerAvailableIfProcessing (cn_fp wc))) ;;
  on_queue (Resolve result.(rs_ID) result) ;; skip.

Definition handle_error (wc : workerConn) (errMsg : Error) : GoM Gateway unit :=
  on_queue (Reject errMsg.(er_ID) errMsg) ;;
  stored ← gets has_store;
  when stored (on_store (SetWorkerAvailableIfProcessing (cn_fp wc))).

Definition handle_heartbeat (wc : workerConn) : GoM Gateway unit :=
  WriteJSON wc.(cn_conn) (MHeartbeat {| hb_Type := TypeHeartbeat |}) ;; skip.

Definition store_status (fp : string) (statusMsg : Status) : GoM Store unit :=
  when (statusMsg.(st_LLMHash) != "")
    (SetWorkerLLMHash fp statusMsg.(st_LLMHash) ;; UpdateWorkerSyncStatus fp ;; slice fp 8 ;; skip) ;;
  when ((statusMsg.(st_BackendHash) != "") || (statusMsg.(st_BackendVersion) != ""))
    (when (statusMsg.(st_BackendHash) != "")
       (SetWorkerBackendHash fp statusMsg.(st_BackendHash) ;; skip) ;;
     when (statusMsg.(st_BackendVersion) != "")
       (SetWorkerBackendVersion fp statusMsg.(st_BackendVersion) ;; skip) ;;
     UpdateWorkerBackendSyncStatus fp ;; slice fp 8 ;; skip) ;;
  consent ← (if bool_decide (0 < statusMsg.(st_GPUAvg))%Z then HasConsent fp else mret false);
  when consent (SetWorkerGPUAvg fp statusMsg.(st_GPUAvg) ;; skip) ;;
  consent ← (if (statusMsg.(st_State) == "available") || (statusMsg.(st_State) == "online")
             then HasConsent fp else mret true);
  if negb consent then skip
  else SetWorkerStatusIfNotWithdrawn fp statusMsg.(st_State) ;; GetWorkerSyncStatus fp ;; skip.

Definition handle_status (wc : workerConn) (statusMsg : Status) : GoM Gateway unit :=
  stored ← gets has_store;
  when stored (on_store (store_status (cn_fp wc) statusMsg)).

Definition store_hash_report (fp : string) (hashReport : LLMHashReport) : GoM Store unit :=
  SetWorkerLLMHash fp hashReport.(hr_LLMHash) ;;
  UpdateWorkerSyncStatus fp ;;
  slice hashReport.(hr_LLMHash) 16 ;;
  slice fp 8 ;;
  First Workers (by_fp fp) ;; skip.

Definition handle_hash_report (wc : workerConn) (hashReport : LLMHashReport) : GoM Gateway unit :=
  stored ← gets has_store;
  when stored (on_store (store_hash_report (cn_fp wc) hashReport)).

Definition sync_backend (wc : workerConn) : GoM Gateway unit :=
  cfg ← on_store GetBackendVersionConfig;
  match cfg with
  | inl cfg =>
      if cfg.(bv_DownloadURL) != "" then
        match ExpandURL url_fuel cfg.(bv_DownloadURL) cfg.(bv_Version) wc.(cn_info).(wi_OS)
                wc.(cn_info).(wi_Arch) with
        | None => block
        | Some downloadURL =>
            let fallbackURL := "/v1/backend/download?version=" +:+ cfg.(bv_Version) +:+ "&os=" +:+
              wc.(cn_info).(wi_OS) +:+ "&arch=" +:+ wc.(cn_info).(wi_Arch) in
            slice (cn_fp wc) 8 ;;
            pushBackendUpdateTo wc cfg.(bv_Version) downloadURL fallbackURL cfg.(bv_SHA256) ;; skip
        end
      else slice (cn_fp wc) 8 ;; skip
  | inr _ => slice (cn_fp wc) 8 ;; skip
  end.

Definition sync_model (wc : workerConn) (syncReq : InitialSync) : GoM Gateway unit :=
  rm ← on_store (GetRoleModel syncReq.(is_Role));
  match rm with
  | inr _ => slice (cn_fp wc) 8 ;; skip
  | inl rm =>
      let llmHash := if rm.(rm_ModelFileHash) != ""
                     then ComputeLLMHash syncReq.(is_Role) rm.(rm_ModelFileHash) else "" in
      workerHash ← (if rm.(rm_ModelFileHash) != "" then
                      w ← on_store (First Workers (by_fp (cn_fp wc)));
                      mret (match w with inl w => w.(w_LLMHash) | inr _ => "" end)
                    else mret "");
      let needsModel := negb syncReq.(is_HasBinary) || negb syncReq.(is_HasModel) ||
                        ((llmHash != "") && (workerHash != llmHash)) in
      slice (cn_fp wc) 8 ;;
      when needsModel
        (pushModelUpdateTo wc syncReq.(is_Role) rm.(rm_LLMModel) rm.(rm_Quantisation)
           rm.(rm_ModelFilename) rm.(rm_ModelFileHash) llmHash rm.(rm_ContextSize)
           rm.(rm_ParallelSlots) rm.(rm_GPULayers) rm.(rm_EndpointType) rm.(rm_FlashAttention) ;; skip)
  end.

Definition handle_initial_sync (wc : workerConn) (syncReq : InitialSync) : GoM Gateway unit :=
  stored ← gets has_store;
  if negb stored then skip
  else
    when (negb syncReq.(is_HasBinary)) (sync_backend wc) ;;
    when (syncReq.(is_Role) != "") (sync_model wc syncReq).

(** One iteration of the loop on a received frame. *)
Definition handle_message (wc : workerConn) (message : frame) : GoM Gateway unit :=
  match decode_WorkerMessage message with
  | None => skip
  | Some (WResult result) => handle_result wc result
  | Some (WError errMsg) => handle_error wc errMsg
  | Some (WHeartbeat _) => handle_heartbeat wc
  | Some (WStatus statusMsg) => handle_status wc statusMsg
  | Some (WLLMHashReport hashReport) => handle_hash_report wc hashReport
  | Some (WInitialSync syncReq) => handle_initial_sync wc syncReq
  | Some (WSignedResponse _) => skip
  end.

(** The deferred function: runs when the loop ends, by a read error or a panic. *)
Definition on_disconnect (wc : workerConn) : GoM Gateway unit :=
  workers ← gets g_workers;
  when (bool_decide (cn_conn <$> workers !! cn_fp wc = Some wc.(cn_conn)))
    (modify (set_workers (delete (cn_fp wc) workers))) ;;
  Close wc.(cn_conn) ;;
  stored ← gets has_store;
  when stored (on_store (SetWorkerOffline (cn_fp wc)) ;; skip).

(** [defer f(); body]: [f] runs whatever [body] does, short of hanging. *)
Definition deferred {A} (f : GoM Gateway unit) (body : GoM Gateway A) : GoM Gateway A := fun g =>
  match body g with
  | (g', Blocked) => (g', Blocked)
  | (g', r) => let '(g'', _) := f g' in (g'', r)
  end.

Definition readLoop (wc : workerConn) (messages : list frame) : GoM Gateway unit :=
  deferred (on_disconnect wc) (foreach messages (handle_message wc)).
End gateway.

(** ** What the store operations leave alone *)

Section store_frames.
Context `{Gorm, Crypto}.

Ltac tables := keeps_tac; try (apply keeps_slice, _).

Lemma persist_connect_consents now fp pk m q v os arch h bh :
  keeps (unchanged db_Consents) (persist_connect now fp pk m q v os arch h bh).
Proof.
  unfold persist_connect, UpsertWorker, SetWorkerLLMHash, UpdateWorkerSyncStatus, match_roles,
    set_sync, SetWorkerBackendHash, UpdateWorkerBackendSyncStatus, GetClientVersionConfig,
    GetBackendVersionConfig, UpdateWorkerBinarySyncStatus, SetWorkerOnlineIfAllowed. tables.
Qed.
Lemma store_status_consents fp st : keeps (unchanged db_Consents) (store_status fp st).
Proof.
  unfold store_status, SetWorkerLLMHash, UpdateWorkerSyncStatus, match_roles, set_sync,
    SetWorkerBackendHash, SetWorkerBackendVersion, UpdateWorkerBackendSyncStatus, HasConsent,
    SetWorkerGPUAvg, GetBackendVersionConfig, SetWorkerStatusIfNotWithdrawn, GetWorkerSyncStatus,
    GetWorkerOverallSyncStatus, GetClientVersionConfig, GetBackendVersionConfig. tables.
Qed.
Lemma store_hash_report_consents fp r : keeps (unchanged db_Consents) (store_hash_report fp r).
Proof.
  unfold store_hash_report, SetWorkerLLMHash, UpdateWorkerSyncStatus, match_roles, set_sync. tables.
Qed.
End store_frames.

Section store_frames_rel.
Context `{GormLaws, Crypto}.

Lemma store_status_rel fp st : keeps workers_rel (store_status fp st).
Proof. unfold store_status. keeps_tac; apply keeps_slice, _. Qed.
Lemma store_hash_report_rel fp r : keeps workers_rel (store_hash_report fp r).
Proof. unfold store_hash_report. keeps_tac; apply keeps_slice, _. Qed.
End store_frames_rel.

(** ** Relations between gateway states *)

Section gateway_frames.
Context `{Gorm, WebSocket, Crypto}.

(** The stores of two states are related by [R]. *)
Definition store_rel (R : Store -> Store -> Prop) (g g' : Gateway) : Prop :=
  option_Forall2 R g.(g_store) g'.(g_store).

#[export] Instance store_rel_preorder R `{!PreOrder R} : PreOrder (store_rel R).
Proof.
  split.
  - intros g. unfold store_rel. destruct (g_store g); constructor. reflexivity.
  - intros g1 g2 g3. unfold store_rel. inversion 1; inversion 1; constructor; simplify_eq.
    by etrans.
Qed.

Lemma store_rel_same (R : Store -> Store -> Prop) `{!Reflexive R} g g' :
  g_store g' = g_store g -> store_rel R g g'.
Proof. unfold store_rel. intros ->. destruct (g_store g); constructor. reflexivity. Qed.

Lemma store_rel_Some (R : Store -> Store -> Prop) g g' s :
  store_rel R g g' -> g_store g = Some s -> exists s', g_store g' = Some s' /\ R s s'.
Proof. unfold store_rel. intros Hr E. rewrite E in Hr. inversion Hr; eauto. Qed.

Lemma keeps_on_store {A} (R : Store -> Store -> Prop) `{!PreOrder R} (m : GoM Store A) :
  keeps R m -> keeps (store_rel R) (on_store m).
Proof.
  intros Hm g. unfold run, on_store, store_rel. destruct (g_store g) as [s|] eqn:E; cbn.
  - specialize (Hm s). unfold run in Hm. destruct (m s) as [s' r]. cbn. by constructor.
  - rewrite E. constructor.
Qed.
Lemma keeps_on_queue_store {A} (R : Store -> Store -> Prop) `{!PreOrder R} (m : GoM Queue A) :
  keeps (store_rel R) (on_queue m).
Proof. intros g. unfold run, on_queue, zoom. destruct (m (g_queue g)). by apply store_rel_same; [apply _|]. Qed.
Lemma keeps_WriteJSON_store (R : Store -> Store -> Prop) `{!PreOrder R} c m :
  keeps (store_rel R) (WriteJSON c m).
Proof. intros g. unfold run, WriteJSON. by case_match; apply store_rel_same; try apply _. Qed.
Lemma keeps_modify_store (R : Store -> Store -> Prop) `{!PreOrder R} f :
  (forall g, g_store (f g) = g_store g) -> keeps (store_rel R) (modify f).
Proof. intros Hf g. apply store_rel_same; [apply _|apply Hf]. Qed.
Lemma keeps_Upgrade_store (R : Store -> Store -> Prop) `{!PreOrder R} : keeps (store_rel R) Upgrade.
Proof. intros g. by apply store_rel_same; [apply _|]. Qed.

Definition consented (fp : string) (s : Store) : Prop :=
  exists c, c ∈ live (db_Consents s) /\ c.(c_Fingerprint) = fp /\ c.(c_Accepted) = true.

(** No work unit was written and the consent table is what it was. *)
Definition no_units (g g' : Gateway) : Prop :=
  store_rel (unchanged db_Consents) g g' /\
  exists sent, g'.(g_wire) = g.(g_wire) ++ sent /\ forall c u, (c, MWorkUnit u) ∉ sent.

#[export] Instance no_units_preorder : PreOrder no_units.
Proof.
  split.
  - intros g. split; [reflexivity|]. exists []. rewrite app_nil_r. split; [done|].
    by intros c u ?%elem_of_nil.
  - intros g1 g2 g3 (S1 & l1 & W1 & U1) (S2 & l2 & W2 & U2). split; [by etrans|].
    exists (l1 ++ l2). split; [by rewrite W2, W1, app_assoc|].
    intros c u [Hu|Hu]%elem_of_app; [by eapply U1|by eapply U2].
Qed.

Lemma units_silent {A} (m : GoM Gateway A) :
  keeps (store_rel (unchanged db_Consents)) m ->
  (forall g, (run m g).(g_wire) = g.(g_wire)) -> keeps no_units m.
Proof.
  intros Hs Hw g. split; [apply Hs|]. exists []. rewrite app_nil_r.
  split; [apply Hw|]. by intros c u ?%elem_of_nil.
Qed.

Lemma units_on_store {A} (m : GoM Store A) :
  keeps (unchanged db_Consents) m -> keeps no_units (on_store m).
Proof.
  intros Hm. apply units_silent; [apply keeps_on_store; [apply _|done]|].
  intros g. unfold run, on_store. destruct (g_store g); [|done]. by destruct (m s).
Qed.
Lemma units_on_queue {A} (m : GoM Queue A) : keeps no_units (on_queue m).
Proof.
  apply units_silent; [apply keeps_on_queue_store, _|].
  intros g. unfold run, on_queue, zoom. by destruct (m (g_queue g)).
Qed.
Lemma units_WriteJSON c m : (forall u, m <> MWorkUnit u) -> keeps no_units (WriteJSON c m).
Proof.
  intros Hm. intros g. split; [apply keeps_WriteJSON_store, _|].
  unfold run, WriteJSON. case_match; [exists [(c, m)]|exists []; rewrite app_nil_r]; (split; [done|]).
  - intros c' u [= -> E]%list_elem_of_singleton. by apply (Hm u).
  - by intros ? ? ?%elem_of_nil.
Qed.
Lemma units_modify f :
  (forall g, g_store (f g) = g_store g) -> (forall g, g_wire (f g) = g_wire g) ->
  keeps no_units (modify f).
Proof. intros Hs Hw. apply units_silent; [|exact Hw]. apply keeps_modify_store; [apply _|done]. Qed.
Lemma units_Upgrade : keeps no_units Upgrade.
Proof. apply units_silent; [apply keeps_Upgrade_store, _|done]. Qed.
Lemma units_deferred {A} (f : GoM Gateway unit) (m : GoM Gateway A) :
  keeps no_units f -> keeps no_units m -> keeps no_units (deferred f m).
Proof.
  intros Hf Hm g. specialize (Hm g). unfold run, deferred in *.
  destruct (m g) as [g1 r]. cbn in Hm. specialize (Hf g1). unfold run in Hf.
  destruct r; cbn; try done; destruct (f g1); cbn in *; by etrans.
Qed.
End gateway_frames.
#[export] Hint Resolve units_on_queue units_Upgrade : keeps.
#[export] Hint Extern 1 (keeps no_units (WriteJSON _ _)) => apply units_WriteJSON; discriminate : keeps.
#[export] Hint Extern 1 (keeps no_units (modify _)) => apply units_modify; reflexivity : keeps.

(** ** Gateway events, in any interleaving

    The HTTP handler of a connection, an iteration of a read loop, the end of
    a read loop and the calls of the API handlers, each one a step. *)

Section events.
Context `{GormLaws, WebSocket, Crypto} (url_fuel : nat).

Inductive gateway_event :=
  | EConnect (now : Z) (Header : string -> string) (upgrade_ok : bool) (nonce : option string)
      (peer : Challenge -> option frame)
  | EMessage (wc : workerConn) (message : frame)
  | EDisconnect (wc : workerConn)
  | EDispatch (ord : map_order) (unit : WorkUnit)
  | EDispatchForced (ord : map_order) (unit : WorkUnit)
  | EDispatchWithHashCheck (ord : map_order) (unit : WorkUnit) (expectedHash : string)
  | EPushModel (ord : map_order) (role model quant file fileHash llmHash : string)
      (contextSize parallelSlots gpuLayers : Z) (endpointType : string) (flashAttention : bool)
  | EPushBinary (ord : map_order) (version url fallback sha : string)
  | EPushBackend (ord : map_order) (version url fallback sha : string)
  | ESetWorkerKey (key : string).

Definition exec_event (e : gateway_event) : GoM Gateway unit :=
  match e with
  | EConnect now Header up nonce peer => ServeHTTP now Header up nonce peer ;; skip
  | EMessage wc message => handle_message url_fuel wc message
  | EDisconnect wc => on_disconnect wc
  | EDispatch ord u => Dispatch ord u ;; skip
  | EDispatchForced ord u => DispatchForced ord u ;; skip
  | EDispatchWithHashCheck ord u h => DispatchWithHashCheck ord u h ;; skip
  | EPushModel ord r m q f fh lh cs ps gl et fa =>
      PushModelUpdate ord r m q f fh lh cs ps gl et fa ;; skip
  | EPushBinary ord v u f s => PushBinaryUpdate ord v u f s ;; skip
  | EPushBackend ord v u f s => PushBackendUpdate ord v u f s ;; skip
  | ESetWorkerKey k => SetWorkerKey k
  end.

(** *** Dispatch, as a choice among the connected workers *)

(** The answers of the store queries the dispatchers make. *)
Definition consent_row (fp : string) (c : WorkerConsent) : bool := by_consent_fp fp c && c.(c_Accepted).
Definition is_inl {A B} (x : A + B) : bool := match x with inl _ => true | inr _ => false end.
Definition q_consent (g : Gateway) (fp : string) : bool :=
  match g.(g_store) with
  | Some s => is_inl (db_first (consent_row fp) (db_Consents s))
  | None => true
  end.
Definition q_available (g : Gateway) (fp : string) : bool :=
  match g.(g_store) with
  | Some s => is_inl (db_first (fun w => by_fp fp w && available_row w) (db_Workers s))
  | None => true
  end.
Definition q_hash (g : Gateway) (h fp : string) : bool :=
  match g.(g_store) with
  | Some s => is_inl (db_first (fun w => by_fp fp w && (w.(w_LLMHash) == h)) (db_Workers s))
  | None => true
  end.
Definition takes (g : Gateway) (u : WorkUnit) (wc : workerConn) : bool :=
  bool_decide (wc.(cn_conn) ∉ g.(g_closed)) && write_ok g.(g_wire) wc.(cn_conn) (MWorkUnit u).

Lemma set_store_same g s : g.(g_store) = Some s -> set_store (Some s) g = g.
Proof. destruct g; cbn. by intros ->. Qed.

Lemma consenting_eq g fp : consenting fp g = (g, Ret (q_consent g fp)).
Proof.
  unfold consenting, if_store, on_store, has_store, HasConsent, q_consent, mbind, GoM_bind, gets. cbn.
  destruct (g_store g) as [s|] eqn:E; [|done]. rewrite E. cbn. rewrite (set_store_same _ _ E).
  by destruct (db_first _ _).
Qed.
Lemma consenting_available_eq g fp :
  consenting_available fp g = (g, Ret (q_consent g fp && q_available g fp)).
Proof.
  unfold consenting_available. rewrite (bind_Ret _ _ _ _ _ (consenting_eq g fp)).
  destruct (q_consent g fp); [|done]. cbn [negb andb].
  unfold if_store, on_store, has_store, IsWorkerAvailable, q_available, mbind, GoM_bind, gets. cbn.
  destruct (g_store g) as [s|] eqn:E; [|done]. rewrite E. cbn. rewrite (set_store_same _ _ E).
  by destruct (db_first _ _).
Qed.
Lemma consenting_hash_eq g h fp :
  consenting_hash h fp g = (g, Ret (q_consent g fp && ((h == "") || q_hash g h fp))).
Proof.
  unfold consenting_hash. rewrite (bind_Ret _ _ _ _ _ (consenting_eq g fp)).
  destruct (q_consent g fp); [|done]. cbn [negb andb]. case_bool_decide; [done|]. cbn [negb orb].
  unfold if_store, on_store, has_store, WorkerLLMHashMatches, q_hash, mbind, GoM_bind, gets. cbn.
  destruct (g_store g) as [s|] eqn:E; [|done]. rewrite E. cbn. rewrite (set_store_same _ _ E).
  by destruct (db_first _ _).
Qed.

(** A dispatcher's outcome, given the suitability test [ok] of its loop. *)
Definition dispatched (ok : string -> bool) (u : WorkUnit) (g : Gateway)
    (l : list (string * workerConn)) (out : Gateway * res (option WorkerInfo)) : Prop :=
  (exists fp wc, (fp, wc) ∈ l /\ ok (cn_fp wc) = true /\ takes g u wc = true /\
     out = (set_wire (g.(g_wire) ++ [(wc.(cn_conn), MWorkUnit u)]) g, Ret (Some wc.(cn_info)))) \/
  ((forall fp wc, (fp, wc) ∈ l -> ok (cn_fp wc) && takes g u wc = false) /\ out = (g, Ret None)).

Lemma dispatch_loop_spec suitable ok u g l :
  (forall fp, suitable fp g = (g, Ret (ok fp))) ->
  dispatched ok u g l (dispatch_loop suitable u l g).
Proof.
  intros Hs. induction l as [|[fp wc] l IH]; cbn [dispatch_loop].
  { right. split; [by intros ? ? ?%elem_of_nil|done]. }
  rewrite (bind_Ret _ _ _ _ _ (Hs (cn_fp wc))).
  assert (Hskip : ok (cn_fp wc) && takes g u wc = false -> dispatched ok u g l (dispatch_loop suitable u l g) ->
    dispatched ok u g ((fp, wc) :: l) (dispatch_loop suitable u l g)).
  { intros Hno [(fp' & wc' & Hin & Hrest)|[Hnone E]].
    - left. exists fp', wc'. split; [by right|done].
    - right. split; [|done]. intros fp' wc' [[= -> ->]|Hin]%elem_of_cons; [done|by eapply Hnone]. }
  destruct (ok (cn_fp wc)) eqn:Hok; cbn [negb]; [|by apply Hskip].
  destruct (takes g u wc) eqn:Ht.
  - left. exists fp, wc. split_and!; [by left|done..|].
    unfold mbind, GoM_bind, WriteJSON. unfold takes in Ht. by rewrite Ht.
  - rewrite (bind_Ret _ _ g g false); [by apply Hskip|]. unfold WriteJSON. unfold takes in Ht.
    by rewrite Ht.
Qed.

(** The same over the map: no order of iteration changes who may be chosen
    or whether somebody is. *)
Definition dispatches (ok : string -> bool) (u : WorkUnit) (g : Gateway)
    (out : Gateway * res (option WorkerInfo)) : Prop :=
  (exists fp wc, g.(g_workers) !! fp = Some wc /\ ok (cn_fp wc) = true /\ takes g u wc = true /\
     out = (set_wire (g.(g_wire) ++ [(wc.(cn_conn), MWorkUnit u)]) g, Ret (Some wc.(cn_info)))) \/
  ((forall fp wc, g.(g_workers) !! fp = Some wc -> ok (cn_fp wc) && takes g u wc = false) /\
   out = (g, Ret None)).

Lemma dispatched_map ok u g (ord : map_order) out :
  dispatched ok u g (ord g.(g_workers)) out -> dispatches ok u g out.
Proof.
  assert (Hin : forall fp wc, (fp, wc) ∈ ord g.(g_workers) <-> g.(g_workers) !! fp = Some wc).
  { intros fp wc. by rewrite mo_perm, elem_of_map_to_list. }
  intros [(fp & wc & Hl & Hrest)|[Hnone E]]; [left|right].
  - exists fp, wc. by rewrite <- Hin.
  - split; [|done]. intros fp wc Hw%Hin. by eapply Hnone.
Qed.

Lemma Dispatch_dispatches ord u g :
  dispatches (fun fp => q_consent g fp && q_available g fp) u g (Dispatch ord u g).
Proof. eapply dispatched_map, dispatch_loop_spec, consenting_available_eq. Qed.
Lemma DispatchForced_dispatches ord u g :
  dispatches (q_consent g) u g (DispatchForced ord u g).
Proof. eapply dispatched_map, dispatch_loop_spec, consenting_eq. Qed.
Lemma DispatchWithHashCheck_dispatches ord u h g :
  dispatches (fun fp => q_consent g fp && ((h == "") || q_hash g h fp)) u g
    (DispatchWithHashCheck ord u h g).
Proof. eapply dispatched_map, dispatch_loop_spec. intros. apply consenting_hash_eq. Qed.

Lemma q_consent_consented g fp s : q_consent g fp = true -> g.(g_store) = Some s -> consented fp s.
Proof.
  unfold q_consent. intros Hq E. rewrite E in Hq. destruct (db_first _ _) as [c|] eqn:Hc; [|done].
  apply first_found, find_in in Hc as [Hin [Hfp Hacc]%andb_true_iff].
  exists c. by apply bool_decide_eq_true_1 in Hfp.
Qed.

(** *** Every event keeps the relation *)

Lemma units_push_loop m l e : (forall u, m <> MWorkUnit u) ->
  keeps no_units (push_loop m l e).
Proof.
  intros Hm. revert e. induction l as [|[fp wc] l IH]; intros e; cbn [push_loop]; keeps_tac;
    by apply units_WriteJSON.
Qed.
Lemma units_broadcast ord m : (forall u, m <> MWorkUnit u) -> keeps no_units (broadcast ord m).
Proof. intros Hm. unfold broadcast. keeps_tac. by apply units_push_loop. Qed.

Lemma units_SetWorkerKey k : keeps no_units (SetWorkerKey k).
Proof. unfold SetWorkerKey. keeps_tac. Qed.

Lemma units_ServeHTTP now hdr up nonce peer : keeps no_units (ServeHTTP now hdr up nonce peer).
Proof.
  unfold ServeHTTP, verifyOrRegisterKey, doChallenge, Close. keeps_tac.
  apply units_on_store, persist_connect_consents.
Qed.

Lemma units_handle_message wc f : keeps no_units (handle_message url_fuel wc f).
Proof.
  unfold handle_message, handle_result, handle_error, handle_heartbeat, handle_status,
    handle_hash_report, handle_initial_sync, sync_backend, sync_model, pushBackendUpdateTo,
    pushModelUpdateTo, slice.
  keeps_tac; try apply units_on_store;
    try apply store_status_consents; try apply store_hash_report_consents;
    unfold SetWorkerAvailableIfProcessing, GetBackendVersionConfig, GetRoleModel; keeps_tac.
Qed.

Lemma units_on_disconnect wc : keeps no_units (on_disconnect wc).
Proof.
  unfold on_disconnect, Close. keeps_tac. apply units_on_store. unfold SetWorkerOffline. keeps_tac.
Qed.

(** What one event may do: write no work unit, or write exactly one, to a
    connected worker with consent. *)
Definition units_consented (g g' : Gateway) : Prop :=
  store_rel (unchanged db_Consents) g g' /\
  exists sent, g'.(g_wire) = g.(g_wire) ++ sent /\
    forall c u, (c, MWorkUnit u) ∈ sent -> exists fp wc,
      g.(g_workers) !! fp = Some wc /\ wc.(cn_conn) = c /\
      forall s, g.(g_store) = Some s -> consented (cn_fp wc) s.

Lemma units_quiet {A} (m : GoM Gateway A) : keeps no_units m -> keeps units_consented m.
Proof.
  intros Hm g. destruct (Hm g) as (S1 & l & W & U). split; [done|]. exists l. split; [done|].
  intros c u Hu. by apply U in Hu.
Qed.

Lemma units_dispatches {A} ok u (m : GoM Gateway (option WorkerInfo)) (k : option WorkerInfo -> A) :
  (forall g fp, ok g fp = true -> q_consent g fp = true) ->
  (forall g, dispatches (ok g) u g (m g)) ->
  keeps units_consented (m ≫= (fun r => mret (k r))).
Proof.
  intros Hok Hm g. unfold run, mbind, GoM_bind.
  destruct (Hm g) as [(fp & wc & Hw & Hc & Ht & E)|[_ E]]; rewrite E; cbn.
  - split; [by apply store_rel_same; [apply _|]|].
    eexists. split; [done|]. intros c u' [= -> ->]%list_elem_of_singleton.
    exists fp, wc. split_and!; [done..|]. intros s Hs. apply (q_consent_consented g); eauto.
  - split; [reflexivity|]. exists []. rewrite app_nil_r. split; [done|]. by intros ? ? ?%elem_of_nil.
Qed.

Lemma units_exec_event e : keeps units_consented (exec_event e).
Proof.
  destruct e; cbn [exec_event].
  4: { eapply (units_dispatches _ _ _ (fun _ => tt)); [|intros; apply Dispatch_dispatches].
       by intros g fp [? _]%andb_true_iff. }
  4: { by eapply (units_dispatches _ _ _ (fun _ => tt)); [|intros; apply DispatchForced_dispatches]. }
  4: { eapply (units_dispatches _ _ _ (fun _ => tt)); [|intros; apply DispatchWithHashCheck_dispatches].
       by intros g fp [? _]%andb_true_iff. }
  all: apply units_quiet.
  all: first [ apply units_handle_message | apply units_on_disconnect | apply units_SetWorkerKey
             | apply keeps_bind; [apply _| |intros; apply keeps_ret, _] ].
  all: first [ apply units_ServeHTTP | by apply units_broadcast ].
Qed.

Lemma consents_exec_event e : keeps (store_rel (unchanged db_Consents)) (exec_event e).
Proof. intros g. apply units_exec_event. Qed.
End events.

(** ** A withdrawn status and the connected workers, over the events *)

Section sessions.
Context `{GormLaws, WebSocket, Crypto} (url_fuel : nat).

Lemma handle_message_rel wc f : keeps (store_rel workers_rel) (handle_message url_fuel wc f).
Proof.
  unfold handle_message, handle_result, handle_error, handle_heartbeat, handle_status,
    handle_hash_report, handle_initial_sync, sync_backend, sync_model, pushBackendUpdateTo,
    pushModelUpdateTo, slice.
  keeps_tac; try (apply keeps_on_store; [apply _|]); try (apply keeps_on_queue_store, _);
    try (apply keeps_WriteJSON_store, _);
    try apply store_status_rel; try apply store_hash_report_rel;
    unfold GetBackendVersionConfig, GetRoleModel; keeps_tac.
Qed.

Lemma workers_rel_row fp s s' w : workers_rel s s' -> worker_row fp s = Some w ->
  exists w', worker_row fp s' = Some w' /\ keeps_withdrawn w w'.
Proof.
  intros Hrel Hw. pose proof (table_rel_find Workers keeps_withdrawn (by_fp fp) s s') as Hf.
  unfold worker_row in *. cbn [lget Workers] in Hf. rewrite Hw in Hf.
  assert (HF : option_Forall2 keeps_withdrawn (Some w) (List.find (by_fp fp) (live (db_Workers s')))).
  { apply Hf; [|done]. intros r r' (E & _). unfold by_fp. by rewrite E. }
  inversion HF; subst. eauto.
Qed.

(** The registry: every entry sits under its own fingerprint, which is the
    digest of its key, and no connection serves two entries. *)
Record registry_ok (g : Gateway) : Prop := {
  entry_key : forall fp wc, g.(g_workers) !! fp = Some wc ->
    cn_fp wc = fp /\ fp = hex_EncodeToString (sha256 wc.(cn_info).(wi_PublicKey)) /\
    String.length wc.(cn_info).(wi_PublicKey) = ed25519_PublicKeySize /\
    g.(g_knownKeys) !! fp = Some wc.(cn_info).(wi_PublicKey);
  entry_conn : forall fp wc, g.(g_workers) !! fp = Some wc -> wc.(cn_conn) < g.(g_conns);
  conn_inj : forall fp1 fp2 wc1 wc2, g.(g_workers) !! fp1 = Some wc1 ->
    g.(g_workers) !! fp2 = Some wc2 -> wc1.(cn_conn) = wc2.(cn_conn) -> fp1 = fp2;
}.

Definition registry_rel (g g' : Gateway) : Prop := registry_ok g -> registry_ok g'.
#[export] Instance registry_rel_preorder : PreOrder registry_rel.
Proof. split; [by intros g Hg|]. unfold registry_rel. intros x y z. auto. Qed.

(** The registry part of two states is the same. *)
Definition same_registry (g g' : Gateway) : Prop :=
  g'.(g_workers) = g.(g_workers) /\ g'.(g_knownKeys) = g.(g_knownKeys) /\ g'.(g_conns) = g.(g_conns).
#[export] Instance same_registry_preorder : PreOrder same_registry.
Proof. split; [done|]. intros x y z (? & ? & ?) (? & ? & ?). split_and!; congruence. Qed.

Lemma same_registry_ok g g' : same_registry g g' -> registry_ok g -> registry_ok g'.
Proof. intros (E1 & E2 & E3) [H1' H2' H3']. split; rewrite ?E1, ?E2, ?E3; eauto. Qed.

Lemma same_on_store {A} (m : GoM Store A) : keeps same_registry (on_store m).
Proof. intros g. unfold run, on_store. destruct (g_store g); [destruct (m s)|]; done. Qed.
Lemma same_on_queue {A} (m : GoM Queue A) : keeps same_registry (on_queue m).
Proof. intros g. unfold run, on_queue, zoom. by destruct (m _). Qed.
Lemma same_WriteJSON c m : keeps same_registry (WriteJSON c m).
Proof. intros g. unfold run, WriteJSON. by case_match. Qed.
Lemma same_Close c : keeps same_registry (Close c).
Proof. by intros g. Qed.
Hint Resolve same_on_store same_on_queue same_WriteJSON same_Close : keeps.

Lemma same_handle_message wc f : keeps same_registry (handle_message url_fuel wc f).
Proof.
  unfold handle_message, handle_result, handle_error, handle_heartbeat, handle_status,
    handle_hash_report, handle_initial_sync, sync_backend, sync_model, pushBackendUpdateTo,
    pushModelUpdateTo, slice. keeps_tac.
Qed.
Lemma same_doChallenge c k n p : keeps same_registry (doChallenge c k n p).
Proof. unfold doChallenge. keeps_tac. Qed.
Lemma same_broadcast ord m : keeps same_registry (broadcast ord m).
Proof.
  unfold broadcast. keeps_tac. generalize (@None push_error) as e.
  induction (mo_list ord a) as [|[fp wc] l IH]; intros e; cbn [push_loop]; keeps_tac.
Qed.
Lemma same_dispatches ok u (m : GoM Gateway (option WorkerInfo)) :
  (forall g, dispatches (ok g) u g (m g)) -> keeps same_registry m.
Proof.
  intros Hm g. unfold run. by destruct (Hm g) as [(fp & wc & Hw & Hc & Ht & ->)|[_ ->]].
Qed.

Lemma registry_same {A} (m : GoM Gateway A) : keeps same_registry m -> keeps registry_rel m.
Proof. intros Hm g Hok. eapply same_registry_ok; [apply Hm|done]. Qed.

Lemma registry_on_disconnect wc : keeps registry_rel (on_disconnect wc).
Proof.
  intros g Hok. unfold on_disconnect. unfold run, mbind at 1, GoM_bind, gets. cbn.
  set (m := when _ _). assert (Hm : registry_ok (m g).1 /\ (m g).2 = Ret tt).
  { unfold m, when. case_bool_decide; [|done]. cbn. split; [|done]. destruct Hok as [H1' H2' H3'].
    split; cbn; intros *; rewrite ?lookup_delete_Some; naive_solver. }
  destruct Hm as [Hm Hr]. unfold mbind, GoM_bind.
  destruct (m g) as [g1 r]. cbn in Hm, Hr. subst r. revert Hm. apply same_registry_ok.
  change (same_registry g1 (run (Close (cn_conn wc) ;; stored ← gets has_store;
    when stored (on_store (SetWorkerOffline (cn_fp wc)) ;; skip)) g1)).
  assert (Hk : keeps same_registry (Close (cn_conn wc) ;; stored ← gets has_store;
    when stored (on_store (SetWorkerOffline (cn_fp wc)) ;; skip))) by keeps_tac.
  apply Hk.
Qed.

Lemma registry_insert g wc :
  registry_ok g -> cn_fp wc = hex_EncodeToString (sha256 wc.(cn_info).(wi_PublicKey)) ->
  String.length wc.(cn_info).(wi_PublicKey) = ed25519_PublicKeySize ->
  g.(g_knownKeys) !! cn_fp wc = Some wc.(cn_info).(wi_PublicKey) ->
  wc.(cn_conn) < g.(g_conns) ->
  (forall fp wc', g.(g_workers) !! fp = Some wc' -> wc'.(cn_conn) < wc.(cn_conn)) ->
  registry_ok (set_workers (<[cn_fp wc := wc]> g.(g_workers)) g).
Proof.
  intros [H1' H2' H3'] Hfp Hlen Hkey Hlt Hnew. split; cbn.
  - intros fp wc'. rewrite lookup_insert_Some. intros [[<- <-]|[_ Hw]]; eauto.
  - intros fp wc'. rewrite lookup_insert_Some. intros [[<- <-]|[_ Hw]]; eauto.
  - intros fp1 fp2 wc1 wc2. rewrite !lookup_insert_Some.
    intros [[<- <-]|[_ Hw1]] [[<- <-]|[_ Hw2]] E; try done.
    + apply Hnew in Hw2. lia.
    + apply Hnew in Hw1. lia.
    + eauto.
Qed.

(** The key check leaves the key on file when it succeeds. *)
Lemma wp_verifyOrRegisterKey fp key g (Q : Gateway -> res bool -> Prop) :
  registry_ok g ->
  (forall g' b, registry_ok g' -> g_workers g' = g_workers g -> g_workerKey g' = g_workerKey g ->
     g_store g' = g_store g -> g_conns g' = g_conns g ->
     (b = true -> g'.(g_knownKeys) !! fp = Some key) -> Q g' (Ret b)) ->
  wp (verifyOrRegisterKey fp key) Q g.
Proof.
  intros Hok HQ. unfold verifyOrRegisterKey. apply wp_bind, wp_gets.
  destruct (g_knownKeys g !! fp) as [k|] eqn:Hk.
  - apply wp_ret, HQ; try done. by intros ->%bool_decide_eq_true_1.
  - apply wp_bind, wp_modify, wp_ret, HQ; try done; [|intros _; apply lookup_insert_eq].
    destruct Hok as [H1' H2' H3']. split; cbn; try done. intros fp' wc Hw.
    destruct (H1' _ _ Hw) as (? & ? & ? & Hk'). split_and!; try done.
    rewrite lookup_insert_ne by congruence. done.
Qed.

(** The peer answered the challenge with a signature of its nonce. *)
Definition challenge_passed (pubKey : string) (nonce : option string)
    (peer : Challenge -> option frame) : Prop :=
  exists n message resp sig,
    nonce = Some n /\
    peer {| cl_Type := TypeChallenge; cl_Nonce := base64_EncodeToString n |} = Some message /\
    Unmarshal decode_SignedResponse message = Some resp /\
    resp.(sr_Type) = TypeSignedResponse /\ resp.(sr_Nonce) = base64_EncodeToString n /\
    base64_DecodeString resp.(sr_Signature) = Some sig /\
    ed25519_verify pubKey n sig = true.

Lemma doChallenge_true c key nonce peer g :
  result (doChallenge c key nonce peer) g = Ret true -> challenge_passed key nonce peer.
Proof.
  unfold doChallenge. destruct nonce as [n|]; [|done]. unfold result, mbind, GoM_bind, WriteJSON.
  destruct (bool_decide _ && _); cbn [negb]; [|done].
  destruct (peer _) as [message|] eqn:Hp; [|done].
  destruct (Unmarshal _ message) as [resp|] eqn:Hr; [|done].
  case_bool_decide as Hty; [|done]. case_bool_decide as Hn; [|done]. cbn [negb].
  destruct (base64_DecodeString (sr_Signature resp)) as [sig|] eqn:Hs; [|done].
  intros [= Hv]. by exists n, message, resp, sig.
Qed.

(** The authentication a connection went through, by the mode [key]. *)
Definition authenticated (key : string) (Header : string -> string) (nonce : option string)
    (peer : Challenge -> option frame) (wc : workerConn) : Prop :=
  base64_DecodeString (Header "X-Worker-Public-Key") = Some wc.(cn_info).(wi_PublicKey) /\
  cn_fp wc = Header "X-Worker-Fingerprint" /\
  (key <> "" -> Header "Authorization" = "Bearer " +:+ key) /\
  (key = "" -> challenge_passed wc.(cn_info).(wi_PublicKey) nonce peer).

(** The registry of [g'] is that of [g] with the authenticated connection [wc]. *)
Definition registered key Header nonce peer (g g' : Gateway) (wc : workerConn) : Prop :=
  authenticated key Header nonce peer wc /\ g'.(g_workers) = <[cn_fp wc := wc]> g.(g_workers).

(** A handler that does not return got past the registration: what can panic is
    the writing of the database row that follows it. *)
Definition serve_post key Header nonce peer (g : Gateway) (g' : Gateway) (r : res serve_result) : Prop :=
  registry_ok g' /\
  match r with
  | Ret (Connected wc) => registered key Header nonce peer g g' wc
  | Ret _ => g'.(g_workers) = g.(g_workers)
  | Panic _ | Blocked => exists wc, registered key Header nonce peer g g' wc
  end.

Lemma same_registry_workers g g' : same_registry g g' -> g_workers g' = g_workers g.
Proof. by intros []. Qed.

(** The last part of the handler, once the connection is accepted. *)
Lemma wp_register now Header nonce peer key fp k v os arch m q h bh g0 g wc :
  registry_ok g -> g_workers g = g_workers g0 ->
  authenticated key Header nonce peer wc ->
  cn_fp wc = hex_EncodeToString (sha256 wc.(cn_info).(wi_PublicKey)) ->
  String.length wc.(cn_info).(wi_PublicKey) = ed25519_PublicKeySize ->
  g.(g_knownKeys) !! cn_fp wc = Some wc.(cn_info).(wi_PublicKey) ->
  wc.(cn_conn) < g.(g_conns) ->
  (forall fp wc', g.(g_workers) !! fp = Some wc' -> wc'.(cn_conn) < wc.(cn_conn)) ->
  cn_fp wc = fp ->
  wp (workers ← gets g_workers;
      match workers !! fp with
      | Some old => Close old.(cn_conn)
      | None => skip
      end ;;
      modify (set_workers (<[fp := wc]> workers)) ;;
      stored ← gets has_store;
      when stored (on_store (persist_connect now fp k m q v os arch h bh)) ;;
      mret (Connected wc)) (serve_post key Header nonce peer g0) g.
Proof.
  intros Hok Hw Hauth Hfp Hlen Hk Hc Hnew <-. apply wp_bind, wp_gets, wp_bind.
  assert (Hclose : forall (old : option workerConn), exists g1,
    (match old with Some old => Close old.(cn_conn) | None => skip end) g = (g1, Ret tt) /\ same_registry g g1).
  { intros [old|]; eexists; (split; [reflexivity|done]). }
  destruct (Hclose (g_workers g !! cn_fp wc)) as (g1 & E & Hsame). apply (wp_eq _ _ _ _ _ E).
  apply wp_bind, wp_modify, wp_bind, wp_gets, wp_bind.
  apply (wp_keeps same_registry); [unfold when; case_match; eauto with keeps|].
  intros g2 r Hsame2.
  assert (Hok2 : registry_ok g2).
  { eapply same_registry_ok; [exact Hsame2|].
    destruct Hsame as (W & K & C). rewrite <- W. apply registry_insert; try done.
    - by apply (same_registry_ok g g1).
    - by rewrite K.
    - by rewrite C.
    - rewrite W. eauto. }
  assert (Hreg : registered key Header nonce peer g0 g2 wc).
  { split; [done|]. destruct Hsame2 as (W & _). rewrite W. cbn. by rewrite Hw. }
  destruct r as [[]| |]; (split; [exact Hok2|]); [exact Hreg|by exists wc..].
Qed.
Lemma returns_doChallenge c k n p : returns (doChallenge c k n p).
Proof.
  assert (Hw : forall m, returns (WriteJSON c m)) by (intros m g; unfold result, WriteJSON; case_match; by eexists).
  unfold doChallenge. destruct n as [n|]; [|apply returns_ret]. cbv zeta. apply returns_bind; [apply Hw|intros sent].
  repeat case_match; apply returns_ret.
Qed.

Lemma wp_ServeHTTP now Header up nonce peer g : registry_ok g ->
  wp (ServeHTTP now Header up nonce peer) (serve_post g.(g_workerKey) Header nonce peer g) g.
Proof.
  intros Hok. unfold ServeHTTP. apply wp_bind, wp_gets.
  destruct (_ && _) eqn:Hbearer; [by apply wp_ret|].
  assert (Hauth : g_workerKey g <> "" -> Header "Authorization" = "Bearer " +:+ g_workerKey g).
  { intros Hne. apply andb_false_iff in Hbearer as [Hb%negb_false_iff%bool_decide_eq_true_1|
      Hb%negb_false_iff%bool_decide_eq_true_1]; done. }
  destruct (_ || _); [by apply wp_ret|].
  destruct (base64_DecodeString _) as [pubKey|] eqn:Hdec; [|by apply wp_ret].
  destruct (bool_decide_reflect (String.length pubKey = ed25519_PublicKeySize)) as [Hlen|_];
    cbn [negb]; [|by apply wp_ret].
  destruct (bool_decide_reflect (Header "X-Worker-Fingerprint" = hex_EncodeToString (sha256 pubKey)))
    as [Hfp|_]; cbn [negb]; [|by apply wp_ret].
  apply wp_bind, wp_verifyOrRegisterKey; [done|]. intros g1 known Hok1 Hw1 _ _ Hc1 Hknown.
  destruct known; cbn [negb]; [|by apply wp_ret]. specialize (Hknown eq_refl).
  destruct up; cbn [negb]; [|by apply wp_ret].
  apply wp_bind. unfold wp at 1, Upgrade, run, result. cbn [fst snd].
  set (g2 := Build_Gateway _ _ _ _ _ _ _ _ _).
  assert (Hok2 : registry_ok g2).
  { destruct Hok1 as [A B C]. split; cbn; [done| |done]. intros fp wc Hw. apply B in Hw. lia. }
  apply wp_bind.
  match goal with |- wp ?m _ _ => set (m0 := m) end.
  assert (Hsame : keeps same_registry m0).
  { unfold m0. case_match; [apply same_doChallenge|apply keeps_ret, _]. }
  assert (Hret : returns m0) by (unfold m0; case_match; [apply returns_doChallenge|apply returns_ret]).
  assert (Hpass : result m0 g2 = Ret true -> g_workerKey g = "" -> challenge_passed pubKey nonce peer).
  { unfold m0. intros Ht E. rewrite bool_decide_true in Ht by done. by eapply doChallenge_true. }
  clearbody m0. unfold wp at 1. specialize (Hsame g2). destruct (Hret g2) as [passed Hr]. rewrite Hr.
  assert (Hok3 : registry_ok (run m0 g2)) by (by eapply same_registry_ok).
  destruct Hsame as (W3 & K3 & C3).
  destruct passed; cbn [negb].
  - apply wp_register; try done.
    + by rewrite W3.
    + split_and!; cbn; auto.
    + by rewrite K3.
    + rewrite C3. cbn. lia.
    + intros fp wc' Hw. rewrite W3 in Hw. exact (entry_conn _ Hok1 _ _ Hw).
  - apply wp_bind, wp_modify, wp_ret. split; [|cbn; by rewrite W3].
    by apply (same_registry_ok (run m0 g2)).
Qed.

Lemma registry_exec_event e : keeps registry_rel (exec_event url_fuel e).
Proof.
  destruct e; cbn [exec_event].
  1: { intros g Hok. rewrite run_skip. apply (wp_ServeHTTP now Header upgrade_ok nonce peer g Hok). }
  2: apply registry_on_disconnect.
  all: try (intros g; rewrite run_skip; revert g).
  all: apply registry_same.
  all: first [ apply same_handle_message | apply same_broadcast
             | by intros g
             | eapply same_dispatches; intros; apply Dispatch_dispatches
             | eapply same_dispatches; intros; apply DispatchForced_dispatches
             | eapply same_dispatches; intros; apply DispatchWithHashCheck_dispatches ].
Qed.

Lemma registry_events events g : registry_ok g ->
  registry_ok (run (foreach events (exec_event url_fuel)) g).
Proof. apply (keeps_foreach registry_rel), registry_exec_event. Qed.

Lemma registry_NewGateway key q s : registry_ok (NewGateway key q s).
Proof. split; cbn; intros *; by rewrite lookup_empty. Qed.
End sessions.
#[export] Hint Resolve same_on_store same_on_queue same_WriteJSON same_Close : keeps.

(** ** Properties *)

Section properties.
Context `{GormLaws, WebSocket, Crypto}.

(** C1. No work without consent. Whatever connections, messages, disconnects
    and dispatches came before, in any interleaving, and whichever database
    statements failed, the next event of the gateway leaves the consent table
    alone, and every work unit it writes goes to a connection registered at
    that moment for a worker whose consent row is accepted. *)
Theorem no_work_without_consent url_fuel before e g0 s0 :
  g0.(g_store) = Some s0 ->
  let g := run (foreach before (exec_event url_fuel)) g0 in
  let g' := run (exec_event url_fuel e) g in
  exists s' sent,
    g'.(g_store) = Some s' /\ db_Consents s' = db_Consents s0 /\
    g'.(g_wire) = g.(g_wire) ++ sent /\
    forall c u, (c, MWorkUnit u) ∈ sent -> exists fp wc,
      g.(g_workers) !! fp = Some wc /\ wc.(cn_conn) = c /\ consented (cn_fp wc) s0.
Proof.
  intros E0 g g'.
  assert (Hb : store_rel (unchanged db_Consents) g0 g).
  { refine (keeps_foreach _ before _ _ g0). intros e'. apply consents_exec_event. }
  destruct (units_exec_event url_fuel e g) as (Hs & sent & Hw & Hu).
  destruct (store_rel_Some _ _ _ _ Hb E0) as (s & Hg & Es).
  destruct (store_rel_Some _ _ _ _ Hs Hg) as (s' & Hg' & Es'). unfold unchanged in *.
  exists s', sent. split_and!; [done|congruence|done|]. intros c u Hin.
  destruct (Hu c u Hin) as (fp & wc & ? & ? & Hc). exists fp, wc. split_and!; [done..|].
  destruct (Hc s) as (r & ? & ?); [done|]. exists r. by rewrite <- Es.
Qed.

(** C9. [Dispatch] finds a worker exactly when there is one. With the
    database up it never panics or hangs; it hands the unit to a connected
    worker that has consented, is "available" or "online" and in sync, and
    whose connection takes the write, or reports that there is none, in which
    case nothing changed. The iteration order of the map decides only who. *)
Theorem Dispatch_complete `{!GormUp} ord u g s :
  g.(g_store) = Some s ->
  let eligible wc := consented (cn_fp wc) s /\
    (exists w, w ∈ live (db_Workers s) /\ w.(w_Fingerprint) = cn_fp wc /\ available_row w = true) /\
    takes g u wc = true in
  (exists fp wc, g.(g_workers) !! fp = Some wc /\ eligible wc /\
     Dispatch ord u g =
       (set_wire (g.(g_wire) ++ [(wc.(cn_conn), MWorkUnit u)]) g, Ret (Some wc.(cn_info)))) \/
  ((forall fp wc, g.(g_workers) !! fp = Some wc -> ~ eligible wc) /\ Dispatch ord u g = (g, Ret None)).
Proof.
  intros Es eligible.
  assert (Hel : forall wc, eligible wc <->
    (q_consent g (cn_fp wc) && q_available g (cn_fp wc)) && takes g u wc = true).
  { intros wc. unfold eligible, consented, q_consent, q_available. rewrite Es, !first_up, !andb_true_iff.
    assert (Hrow : forall {R} (p : R -> bool) l,
      is_inl (match List.find p l with Some r => inl r | None => inr ErrRecordNotFound end) = true <->
      exists r, r ∈ l /\ p r = true).
    { intros R p l. destruct (List.find p l) as [r|] eqn:Hf; cbn; split; try done.
      - intros _. exists r. by apply find_in.
      - intros (r & Hin & Hp). apply list_elem_of_In, (find_none _ _ Hf) in Hin. congruence. }
    rewrite !Hrow. generalize available_row, (takes g u wc). intros av tk. unfold consent_row, by_consent_fp, by_fp.
    setoid_rewrite andb_true_iff. setoid_rewrite bool_decide_eq_true. naive_solver. }
  destruct (Dispatch_dispatches ord u g) as [(fp & wc & Hw & Hok & Ht & E)|[Hnone E]]; [left|right].
  - exists fp, wc. split_and!; [done| |done]. apply Hel. by rewrite Hok, Ht.
  - split; [|done]. intros fp wc Hw Hc%Hel. specialize (Hnone _ _ Hw). congruence.
Qed.

(** C17. Messages cannot undo a withdrawal. While a worker is "withdrawn", no
    sequence of messages, from it or from others, changes that status; nor does
    it change the identity of any worker or any row of the consent table,
    whatever the messages claim. *)
Theorem messages_respect_withdrawal url_fuel (messages : list (workerConn * frame)) g s fp w :
  g.(g_store) = Some s -> worker_row fp s = Some w ->
  let g' := run (foreach messages (fun '(wc, m) => handle_message url_fuel wc m)) g in
  exists s' w', g'.(g_store) = Some s' /\ db_Consents s' = db_Consents s /\ worker_row fp s' = Some w' /\
    w'.(w_Fingerprint) = w.(w_Fingerprint) /\ w'.(w_PublicKey) = w.(w_PublicKey) /\
    (w.(w_Status) = "withdrawn" -> w'.(w_Status) = "withdrawn").
Proof.
  intros Es Hw g'.
  assert (Hrel : store_rel workers_rel g g').
  { refine (keeps_foreach _ messages _ _ g). intros [wc m]. apply handle_message_rel. }
  assert (Hcons : store_rel (unchanged db_Consents) g g').
  { refine (keeps_foreach _ messages _ _ g). intros [wc m]. exact (consents_exec_event url_fuel (EMessage wc m)). }
  destruct (store_rel_Some _ _ _ _ Hrel Es) as (s' & Hg' & Hss).
  destruct (store_rel_Some _ _ _ _ Hcons Es) as (s'' & Hg'' & Ec). rewrite Hg' in Hg''. injection Hg'' as <-.
  destruct (workers_rel_row _ _ _ _ Hss Hw) as (w' & Hw' & ? & ? & ?). by exists s', w'.
Qed.

(** C12. Nobody is connected under somebody else's name. After any events, in
    any interleaving, every registry entry sits under its own fingerprint,
    the fingerprint is the SHA-256 of the 32-byte public key the worker
    presented and is on file, and no connection serves two entries. *)
Theorem registry_invariant url_fuel events key q st :
  let g := run (foreach events (exec_event url_fuel)) (NewGateway key q st) in
  (forall fp wc, g.(g_workers) !! fp = Some wc ->
     cn_fp wc = fp /\ fp = hex_EncodeToString (sha256 wc.(cn_info).(wi_PublicKey)) /\
     String.length wc.(cn_info).(wi_PublicKey) = 32 /\
     g.(g_knownKeys) !! fp = Some wc.(cn_info).(wi_PublicKey)) /\
  (forall fp1 fp2 wc1 wc2, g.(g_workers) !! fp1 = Some wc1 -> g.(g_workers) !! fp2 = Some wc2 ->
     wc1.(cn_conn) = wc2.(cn_conn) -> fp1 = fp2 /\ wc1 = wc2).
Proof.
  intros g. destruct (registry_events url_fuel events _ (registry_NewGateway key q st)) as [Hk _ Hinj].
  fold g in Hk, Hinj. split; [exact Hk|]. intros fp1 fp2 wc1 wc2 A1 A2 Hc.
  assert (fp1 = fp2) as -> by eauto. split; [done|]. congruence.
Qed.

(** C3. A connection is registered only after authentication: in key mode the
    bearer token is the worker key; in TOFU mode the peer signed this
    connection's nonce with the private half of the presented key. The entry
    replaces any earlier one of the fingerprint. A request that is refused or
    fails leaves the registry as it was; a handler that panics (writing the row
    of a worker whose reported hash is too short) has registered the connection,
    and only after the same authentication. *)
Theorem connect_authenticates url_fuel before key q st now Header up nonce peer :
  let g := run (foreach before (exec_event url_fuel)) (NewGateway key q st) in
  let g' := run (ServeHTTP now Header up nonce peer) g in
  let let_in (wc : workerConn) :=
    g'.(g_workers) = <[cn_fp wc := wc]> g.(g_workers) /\
    base64_DecodeString (Header "X-Worker-Public-Key") = Some wc.(cn_info).(wi_PublicKey) /\
    (g.(g_workerKey) <> "" -> Header "Authorization" = "Bearer " +:+ g.(g_workerKey)) /\
    (g.(g_workerKey) = "" -> challenge_passed wc.(cn_info).(wi_PublicKey) nonce peer) in
  match result (ServeHTTP now Header up nonce peer) g with
  | Ret (Connected wc) => let_in wc
  | Ret (HttpError _ _) | Ret UpgradeFailed | Ret ChallengeFailed => g'.(g_workers) = g.(g_workers)
  | Panic _ | Blocked => exists wc, let_in wc
  end.
Proof.
  intros g g'.
  pose proof (registry_events url_fuel before _ (registry_NewGateway key q st)) as Hok. fold g in Hok.
  pose proof (wp_ServeHTTP now Header up nonce peer g Hok) as [_ Hpost]. fold g' in Hpost.
  destruct (result _ g) as [[code msg| | |wc]|msg|]; try done.
  - by destruct Hpost as ((Hpk & _ & Hbearer & Hchal) & Hw).
  - destruct Hpost as (wc & (Hpk & _ & Hbearer & Hchal) & Hw). by exists wc.
  - destruct Hpost as (wc & (Hpk & _ & Hbearer & Hchal) & Hw). by exists wc.
Qed.

(** The end of a replaced connection. When a worker has reconnected, the
    deferred cleanup of its old read loop leaves the new registry entry in
    place, but marks the worker "offline" in the database although it is
    connected; dispatch skips it until its next status message. *)
Theorem stale_disconnect_marks_offline `{!GormUp} old new g s w :
  g.(g_store) = Some s -> g.(g_workers) !! cn_fp old = Some new -> new.(cn_conn) <> old.(cn_conn) ->
  worker_row (cn_fp old) s = Some w -> w.(w_Status) <> "deleted" ->
  exists s', g_store (run (on_disconnect old) g) = Some s' /\
    g_workers (run (on_disconnect old) g) = g.(g_workers) /\
    worker_row (cn_fp old) s' = Some (set_w_Status "offline" w).
Proof.
  intros Es Hnew Hne Hw Hdel.
  destruct (Updates_up Workers (fun w => by_fp (cn_fp old) w && (w.(w_Status) != "deleted"))
    (set_w_Status "offline") s) as (t & E & Hl & _).
  exists (lset Workers t s).
  unfold on_disconnect, run, mbind, GoM_bind, gets, when, Close, modify, on_store. rewrite Hnew. cbn.
  rewrite bool_decide_false by congruence. unfold has_store. cbn. rewrite Es. cbn.
  unfold SetWorkerOffline. rewrite Es, E. cbn. split_and!; [done..|].
  unfold worker_row. cbn. rewrite Hl. cbn [lget Workers].
  rewrite find_update_other by done. unfold worker_row in Hw. rewrite Hw. cbn.
  apply find_in in Hw as [_ Hw]. rewrite Hw. cbn. by rewrite bool_decide_false.
Qed.
(** A status message can say "deleted". The gateway stores the state a worker
    reports as it stands, so that a connection registered for a worker marks its
    row deleted without the signed farewell that the endpoint for it asks for. *)
Theorem status_message_deletes `{!GormUp} wc g s w :
  g.(g_store) = Some s -> worker_row (cn_fp wc) s = Some w -> w.(w_Status) <> "withdrawn" ->
  let message := Some (Marshal_Status (Build_Status TypeStatus "deleted" "" "" "" 0)) in
  exists s', (run (handle_message 0 wc message) g).(g_store) = Some s' /\
    worker_row (cn_fp wc) s' = Some (set_w_Status "deleted" w).
Proof.
  intros Es Hw Hst. cbv zeta.
  destruct (Updates_up Workers (fun w => by_fp (cn_fp wc) w && (w.(w_Status) != "withdrawn"))
    (set_w_Status "deleted") s) as (t & E & Hl & _).
  exists (lset Workers t s).
  assert (Hrun : store_status (cn_fp wc) (Build_Status TypeStatus "deleted" "" "" "" 0) s = (lset Workers t s, Ret tt)).
  { unfold store_status, SetWorkerStatusIfNotWithdrawn, Updates_. cbn [st_LLMHash st_BackendHash st_BackendVersion st_GPUAvg st_State].
    rewrite (bind_Ret _ _ s s tt) by done. rewrite (bind_Ret _ _ s s tt) by done.
    rewrite (bind_Ret _ _ s s false) by done. rewrite (bind_Ret _ _ s s tt) by done.
    rewrite (bind_Ret _ _ s s true) by done. cbn [negb]. erewrite bind_Ret; [|rewrite (bind_Ret _ _ _ _ _ E); reflexivity].
    assert (Hg : forall s0, exists st, GetWorkerOverallSyncStatus (cn_fp wc) s0 = (s0, Ret st)).
    { intros s0. unfold GetWorkerOverallSyncStatus. rewrite (bind_Ret _ _ _ _ _ (First_up _ _ _)). case_match; by eexists. }
    unfold GetWorkerSyncStatus. destruct (Hg (lset Workers t s)) as [st Eg]. by rewrite (bind_Ret _ _ _ _ _ Eg). }
  assert (Hd : decode_WorkerMessage (Some (Marshal_Status (Build_Status TypeStatus "deleted" "" "" "" 0))) =
    Some (WStatus (Build_Status TypeStatus "deleted" "" "" "" 0))) by reflexivity.
  unfold handle_message. rewrite Hd. unfold handle_status, has_store, run, mbind, GoM_bind, gets, on_store. rewrite Es. cbn [when].
  rewrite Es, Hrun. split; [done|]. unfold worker_row. cbn [lset Workers db_Workers].
  change (db_Workers (lset Workers t s)) with t. rewrite Hl. cbn [lget Workers].
  rewrite find_update_other by done. unfold worker_row in Hw. rewrite Hw. cbn.
  apply find_in in Hw as [_ Hw]. rewrite Hw. cbn. by rewrite bool_decide_false.
Qed.
End properties.

Section witnesses.
#[local] Existing Instances MemGorm MemGormLaws MemGormUp ToyCrypto ToyCryptoLaws.

Definition AllWrites : WebSocket := {| write_ok _ _ _ := true |}.
#[local] Existing Instance AllWrites.

Definition info_ex : WorkerInfo :=
  {| wi_Fingerprint := fp_ex; wi_PublicKey := ""; wi_Model := ""; wi_Quantisation := "";
     wi_Version := ""; wi_OS := "linux"; wi_Arch := "amd64"; wi_LLMHash := ""; wi_ConnectedAt := 0 |}.
Definition conn_ex (c : nat) : workerConn := {| cn_conn := c; cn_info := info_ex |}.
Definition gw_store (status : string) : Store :=
  lset Workers (mem_rows [sample_worker fp_ex "h" "synced" status])
    (lset Consents (mem_rows [sample_consent fp_ex]) empty_store).
Definition gw_ex (status : string) : Gateway :=
  set_workers {[fp_ex := conn_ex 1]} (NewGateway "key" Queue.New (Some (gw_store status))).
Definition any_order : map_order := {| mo_list := map_to_list; mo_perm m := reflexivity _ |}.
Definition unit_ex : WorkUnit := Build_WorkUnit TypeWorkUnit "wu-1-1" "" zero_WorkUnitParams [].
Definition status_ex : frame :=
  Some (Marshal_Status (Build_Status TypeStatus "available" "" "" "" 0)).

Lemma no_work_without_consent_witness :
  let g := run (foreach [EMessage (conn_ex 1) status_ex] (exec_event 10)) (gw_ex "available") in
  let g' := run (exec_event 10 (EDispatch any_order unit_ex)) g in
  exists s' sent,
    g'.(g_store) = Some s' /\ db_Consents s' = db_Consents (gw_store "available") /\
    g'.(g_wire) = g.(g_wire) ++ sent /\
    forall c u, (c, MWorkUnit u) ∈ sent -> exists fp wc,
      g.(g_workers) !! fp = Some wc /\ wc.(cn_conn) = c /\ consented (cn_fp wc) (gw_store "available").
Proof. exact (no_work_without_consent 10 [EMessage (conn_ex 1) status_ex] (EDispatch any_order unit_ex)
  (gw_ex "available") (gw_store "available") eq_refl). Defined.

Lemma Dispatch_complete_witness :
  snd (Dispatch any_order unit_ex (gw_ex "available")) = Ret (Some info_ex).
Proof.
  destruct (Dispatch_complete any_order unit_ex (gw_ex "available") (gw_store "available") eq_refl)
    as [(fp & wc & Hw & _ & E)|[_ E]].
  - rewrite E. cbn in Hw. apply lookup_singleton_Some in Hw as [_ <-]. reflexivity.
  - exfalso. assert (Hs : snd (Dispatch any_order unit_ex (gw_ex "available")) = Ret (Some info_ex))
      by (vm_compute; reflexivity).
    rewrite E in Hs. discriminate.
Defined.

(** A request with the worker key and a hash of three characters, for a worker
    without the model of its role: the handler panics after the registration. *)
Definition short_hash_header (name : string) : string :=
  if name == "Authorization" then "Bearer key"
  else if name == "X-Worker-Fingerprint" then hex_EncodeToString (sha256 (pad32 32 "pub"))
  else if name == "X-Worker-Public-Key" then base64_EncodeToString (pad32 32 "pub")
  else if name == "X-Worker-LLM-Hash" then "abc"
  else "".
Lemma connect_authenticates_witness :
  let m := ServeHTTP 5 short_hash_header true None (fun _ => None) in
  let g := NewGateway "key" Queue.New (Some empty_store) in
  result m g = Panic "slice bounds out of range" /\
  exists wc, (run m g).(g_workers) = {[cn_fp wc := wc]} /\ wc.(cn_info).(wi_PublicKey) = pad32 32 "pub".
Proof.
  cbv zeta. pose proof (connect_authenticates 10 [] "key" Queue.New (Some empty_store) 5 short_hash_header true None (fun _ => None)) as Hc.
  assert (E : result (ServeHTTP 5 short_hash_header true None (fun _ => None)) (NewGateway "key" Queue.New (Some empty_store)) =
    Panic "slice bounds out of range") by (vm_compute; reflexivity).
  split; [exact E|]. change (run (foreach [] (exec_event 10)) ?g) with g in Hc. cbv zeta in Hc. rewrite E in Hc.
  destruct Hc as (wc & Hw & Hk & _). exists wc. split; [exact Hw|].
  assert (Hd : base64_DecodeString (short_hash_header "X-Worker-Public-Key") = Some (pad32 32 "pub")) by (vm_compute; reflexivity).
  rewrite Hd in Hk. by injection Hk as <-.
Defined.

Lemma messages_respect_withdrawal_witness :
  exists s' w', g_store (run (foreach [(conn_ex 1, status_ex); (conn_ex 2, status_ex)]
      (fun '(wc, m) => handle_message 10 wc m)) (gw_ex "withdrawn")) = Some s' /\
    worker_row fp_ex s' = Some w' /\ w'.(w_Status) = "withdrawn".
Proof.
  destruct (messages_respect_withdrawal 10 [(conn_ex 1, status_ex); (conn_ex 2, status_ex)]
    (gw_ex "withdrawn") (gw_store "withdrawn") fp_ex (sample_worker fp_ex "h" "synced" "withdrawn")
    eq_refl eq_refl) as (s' & w' & E & _ & Hw & _ & _ & Hst).
  exists s', w'. split; [exact E|]. split; [exact Hw|]. apply Hst. reflexivity.
Defined.

Lemma status_message_deletes_witness :
  exists s', g_store (run (handle_message 0 (conn_ex 1) (Some (Marshal_Status (Build_Status TypeStatus "deleted" "" "" "" 0))))
      (gw_ex "available")) = Some s' /\
    worker_row fp_ex s' = Some (sample_worker fp_ex "h" "synced" "deleted").
Proof.
  destruct (status_message_deletes (conn_ex 1) (gw_ex "available") (gw_store "available")
    (sample_worker fp_ex "h" "synced" "available")) as (s' & E & Hw); [reflexivity|reflexivity|discriminate|].
  exists s'. split; [exact E|exact Hw].
Defined.
Lemma stale_disconnect_marks_offline_witness :
  exists s', g_store (run (on_disconnect (conn_ex 0)) (gw_ex "available")) = Some s' /\
    worker_row fp_ex s' = Some (sample_worker fp_ex "h" "synced" "offline").
Proof.
  destruct (stale_disconnect_marks_offline (conn_ex 0) (conn_ex 1) (gw_ex "available")
    (gw_store "available") (sample_worker fp_ex "h" "synced" "available")) as (s' & E & _ & Hw);
    [reflexivity|reflexivity|discriminate|reflexivity|discriminate|].
  exists s'. split; [exact E|exact Hw].
Defined.
End witnesses.
