(* ===== verification/Latency.v ===== *)
(** * Latency monitoring (store.go, internal/manager/latency/monitor.go)

    Samples, hourly aggregates, and the payload-size matrix with its
    percentiles. The bucket boundaries are computed in [float64], modelled by
    the IEEE 754 operations of [SpecFloat] at 53 bits. A query that selects
    aggregates is modelled as the selected rows and the aggregation of them. *)

From Stdlib Require Import SpecFloat.
From S2P Require Import Prelude GoStd Gorm Models Workers.

(** ** float64 *)

Definition float64 := spec_float.
Definition float_of_int (z : Z) : float64 := binary_normalize 53 1024 z 0 false.
Definition fdiv : float64 -> float64 -> float64 := SFdiv 53 1024.
Definition fmul : float64 -> float64 -> float64 := SFmul 53 1024.

(** [int(math.Round(x))] for finite [x]: to nearest, halves away from zero *)
Definition round_half_away (m : positive) (e : Z) : Z :=
  match e with
  | Zneg p => (Zpos m + 2 ^ (Zpos p - 1)) / 2 ^ Zpos p
  | _ => Zpos m * 2 ^ e
  end.
Definition int_Round (x : float64) : Z :=
  match x with
  | S754_finite s m e => if s then - round_half_away m e else round_half_away m e
  | _ => 0
  end.

(** ** Samples and hourly stats in the store *)

Section store.
Context `{Gorm}.

Definition RecordLatencySample (now : Z) (fingerprint role : string) (payloadBytes latencyMs : Z)
    : GoM Store (option db_err) :=
  err ← Create Samples (fun _ _ => false)
    {| ls_Fingerprint := fingerprint; ls_Role := role; ls_PayloadBytes := payloadBytes;
       ls_LatencyMs := latencyMs; ls_CreatedAt := now |};
  match err with
  | Some e => mret (Some e)
  | None =>
      Updates Workers (by_fp fingerprint) (fun w =>
        set_w_TotalRequests (w.(w_TotalRequests) + 1)
          (set_w_TotalLatencyMs (w.(w_TotalLatencyMs) + latencyMs) w))
  end.

Definition sample_in (since : Z) (role : string) (x : LatencySample) : bool :=
  bool_decide (since < x.(ls_CreatedAt))%Z && ((role == "") || (x.(ls_Role) == role)).

Definition GetLatencySamples (since : Z) (role : string) : GoM Store (list LatencySample + db_err) :=
  Find Samples (sample_in since role) (Some ls_LatencyMs) None.

Definition in_range (since : Z) (role : string) (minBytes maxBytes : Z) (x : LatencySample) : bool :=
  bool_decide (since < x.(ls_CreatedAt))%Z && (x.(ls_Role) == role) &&
  bool_decide (minBytes <= x.(ls_PayloadBytes))%Z &&
  (if bool_decide (0 < maxBytes)%Z then bool_decide (x.(ls_PayloadBytes) < maxBytes)%Z else true).

Definition GetLatencySamplesInRange (since : Z) (role : string) (minBytes maxBytes : Z)
    : GoM Store (list LatencySample + db_err) :=
  Find Samples (in_range since role minBytes maxBytes) (Some ls_LatencyMs) None.

(** [COALESCE(MIN(x), 0)] and so on over the selected rows *)
Definition sql_min (l : list Z) : Z := match l with [] => 0 | x :: l => foldr Z.min x l end.
Definition sql_max (l : list Z) : Z := match l with [] => 0 | x :: l => foldr Z.max x l end.
Definition sql_sum (l : list Z) : Z := foldr Z.add 0%Z l.
Definition sql_avg (l : list Z) : Z := Z.quot (sql_sum l) (Z.of_nat (length l)).

Definition in_hour (role : string) (hour : Z) (x : LatencySample) : bool :=
  (x.(ls_Role) == role) && bool_decide (hour <= x.(ls_CreatedAt))%Z &&
  bool_decide (x.(ls_CreatedAt) < hour + Hour)%Z.

Definition hourly_key (x : LatencyHourlyStat) : string * Z := (x.(lh_Role), x.(lh_Hour)).
Definition same_hour (x y : LatencyHourlyStat) : bool := hourly_key x == hourly_key y.
Definition by_hour (role : string) (hour : Z) (x : LatencyHourlyStat) : bool := hourly_key x == (role, hour).

Definition hourly_stat (role : string) (hour : Z) (payloads : list Z) : LatencyHourlyStat :=
  {| lh_Role := role; lh_Hour := hour; lh_Count := Z.of_nat (length payloads);
     lh_MinPayloadBytes := sql_min payloads; lh_MaxPayloadBytes := sql_max payloads;
     lh_MeanPayloadBytes := sql_avg payloads |}.

Definition ComputeHourlyStat (role : string) (hour : Z) : GoM Store (option db_err) :=
  rows ← Find Samples (in_hour role hour) None None;
  match rows with
  | inr e => mret (Some e)
  | inl rows =>
      let payloads := ls_PayloadBytes <$> rows in
      if bool_decide (length payloads = 0%nat) then mret None
      else
        let stat := hourly_stat role hour payloads in
        existing ← UpdatesN Hourly (by_hour role hour) (fun x =>
          {| lh_Role := x.(lh_Role); lh_Hour := x.(lh_Hour); lh_Count := stat.(lh_Count);
             lh_MinPayloadBytes := stat.(lh_MinPayloadBytes);
             lh_MaxPayloadBytes := stat.(lh_MaxPayloadBytes);
             lh_MeanPayloadBytes := stat.(lh_MeanPayloadBytes) |});
        match existing with
        | inl O | inr _ => Create Hourly same_hour stat   (* RowsAffected == 0 *)
        | inl _ => mret None
        end
  end.

Definition GetHourlyStats (since : Z) (role : string) : GoM Store (list LatencyHourlyStat + db_err) :=
  Find Hourly (fun x => bool_decide (since <= x.(lh_Hour))%Z && ((role == "") || (x.(lh_Role) == role)))
    (Some lh_Hour) None.

Definition distinct {A} (f : A -> string) (r : list A + db_err) : list string + db_err :=
  match r with inl l => inl (remove_dups (f <$> l)) | inr e => inr e end.

Definition GetDistinctRoles (since : Z) : GoM Store (list string + db_err) :=
  r ← Find Hourly (fun x => bool_decide (since <= x.(lh_Hour))%Z) None None;
  mret (distinct lh_Role r).

Definition GetDistinctSampleRoles (since : Z) : GoM Store (list string + db_err) :=
  r ← Find Samples (fun x => bool_decide (since < x.(ls_CreatedAt))%Z) None None;
  mret (distinct ls_Role r).

Definition GetSamplePayloadRange (since : Z) (role : string) : GoM Store ((Z * Z) + db_err) :=
  r ← Find Samples (fun x => bool_decide (since < x.(ls_CreatedAt))%Z && (x.(ls_Role) == role)) None None;
  mret (match r with
        | inl l => let p := ls_PayloadBytes <$> l in inl (sql_min p, sql_max p)
        | inr e => inr e
        end).

Definition PurgeOldLatencyData (before : Z) : GoM Store (option db_err) :=
  err ← Delete Samples false (fun x => bool_decide (x.(ls_CreatedAt) < before)%Z);
  match err with
  | Some e => mret (Some e)
  | None => Delete Hourly false (fun x => bool_decide (x.(lh_Hour) < before)%Z)
  end.
End store.

(** ** The monitor *)

Record BucketStats := {
  bs_RangeMin : Z;
  bs_RangeMax : Z;
  bs_Range : string;
  bs_Count : Z;
  bs_P50Ms : Z;
  bs_P95Ms : Z;
  bs_P99Ms : Z;
}.

Record RoleMatrix := {
  rx_Role : string;
  rx_WindowHours : Z;
  rx_BucketCount : Z;
  rx_Bounds : list Z;
  rx_Matrix : list BucketStats;
}.

Record Config := { lc_BucketCount : Z; lc_WindowHours : Z }.

Definition SetConfig (cfg : Config) (c : Config) : Config :=
  {| lc_BucketCount := if bool_decide (0 < cfg.(lc_BucketCount))%Z then cfg.(lc_BucketCount) else c.(lc_BucketCount);
     lc_WindowHours := if bool_decide (0 < cfg.(lc_WindowHours))%Z then cfg.(lc_WindowHours) else c.(lc_WindowHours) |}.

(** The boundaries between [bucketCount] buckets of equal width from [lo] to [hi]. *)
Definition spread (lo hi bucketCount : Z) : list Z :=
  let bucketSize := fdiv (float_of_int (hi - lo)) (float_of_int bucketCount) in
  (fun i => lo + int_Round (fmul bucketSize (float_of_int (Z.of_nat i + 1))))%Z <$>
    seq 0 (Z.to_nat (bucketCount - 1)).

(** A nil slice is the empty list. *)
Definition computeBounds (stats : list LatencyHourlyStat) (bucketCount : Z) : list Z :=
  if bool_decide (length stats = 0%nat) || bool_decide (bucketCount <= 1)%Z then []
  else
    let sumMin := foldl (fun a s => wrap64 (a + s.(lh_MinPayloadBytes))) 0%Z stats in
    let sumMax := foldl (fun a s => wrap64 (a + s.(lh_MaxPayloadBytes))) 0%Z stats in
    let avgMin := Z.quot sumMin (Z.of_nat (length stats)) in
    let avgMax := Z.quot sumMax (Z.of_nat (length stats)) in
    if bool_decide (avgMax <= avgMin)%Z then [] else spread avgMin avgMax bucketCount.

Definition computeBoundsFromRange (minPayload maxPayload bucketCount : Z) : list Z :=
  if bool_decide (bucketCount <= 1)%Z || bool_decide (maxPayload <= minPayload)%Z then []
  else spread minPayload maxPayload bucketCount.

(** [sorted[idx]] with its index check left to the guard, as in the code *)
Definition percentile (sorted : list Z) (pct : Z) : Z :=
  let n := Z.of_nat (length sorted) in
  if bool_decide (n = 0)%Z then 0
  else
    let idx := Z.quot (n * pct) 100 in
    let idx := if bool_decide (n <= idx)%Z then (n - 1)%Z else idx in
    nth (Z.to_nat idx) sorted 0%Z.

Definition itoa (z : Z) : string := pretty z.
Definition formatRange (min max : Z) : string :=
  if bool_decide (max = 0)%Z then itoa min +:+ "+" else itoa min +:+ "-" +:+ itoa max.

(** [minBytes] and [maxBytes] of bucket [i] *)
Definition bucket_range (bounds : list Z) (i : nat) : Z * Z :=
  if bool_decide (i = 0)%nat then (0, match bounds with [] => 0 | b :: _ => b end)%Z
  else if bool_decide (i < length bounds)%nat then (nth (i - 1) bounds 0, nth i bounds 0)%Z
  else (match bounds with [] => 0 | _ => List.last bounds 0 end, 0)%Z.

Section monitor.
Context `{Gorm}.

(** [sort.Slice] by value: insertion, as the result is determined. *)
Definition sort_ms (l : list Z) : list Z := sort_by (Some id) l.

Definition bucket_stats (minBytes maxBytes : Z) (samples : list LatencySample) : BucketStats :=
  let latencies := sort_ms (ls_LatencyMs <$> samples) in
  let p := fun q => if bool_decide (0 < length samples)%nat then percentile latencies q else 0%Z in
  {| bs_RangeMin := minBytes; bs_RangeMax := maxBytes;
     bs_Range := if bool_decide (maxBytes = 0)%Z then formatRange minBytes 0 else formatRange minBytes maxBytes;
     bs_Count := Z.of_nat (length samples); bs_P50Ms := p 50; bs_P95Ms := p 95; bs_P99Ms := p 99 |}%Z.

Fixpoint fill_matrix (since : Z) (role : string) (bounds : list Z) (ixs : list nat)
    : GoM Store (list BucketStats + db_err) :=
  match ixs with
  | [] => mret (inl [])
  | i :: ixs' =>
      let '(minBytes, maxBytes) := bucket_range bounds i in
      samples ← GetLatencySamplesInRange since role minBytes maxBytes;
      match samples with
      | inr e => mret (inr e)
      | inl samples =>
          rest ← fill_matrix since role bounds ixs';
          mret (match rest with
                | inl l => inl (bucket_stats minBytes maxBytes samples :: l)
                | inr e => inr e
                end)
      end
  end.

Definition computeRoleMatrix (role : string) (cfg : Config) (since : Z) : GoM Store (RoleMatrix + db_err) :=
  stats ← GetHourlyStats since role;
  match stats with
  | inr e => mret (inr e)
  | inl stats =>
      bounds ← (if bool_decide (0 < length stats)%nat
                then mret (inl (computeBounds stats cfg.(lc_BucketCount)))
                else r ← GetSamplePayloadRange since role;
                     mret (match r with
                           | inl (lo, hi) => inl (computeBoundsFromRange lo hi cfg.(lc_BucketCount))
                           | inr e => inr e
                           end));
      match bounds with
      | inr e => mret (inr e)
      | inl bounds =>
          let effectiveBuckets := match bounds with [] => 1%nat | _ => Z.to_nat cfg.(lc_BucketCount) end in
          matrix ← fill_matrix since role bounds (seq 0 effectiveBuckets);
          mret (match matrix with
                | inr e => inr e
                | inl matrix => inl {| rx_Role := role; rx_WindowHours := cfg.(lc_WindowHours);
                                       rx_BucketCount := cfg.(lc_BucketCount); rx_Bounds := bounds;
                                       rx_Matrix := matrix |}
                end)
      end
  end.

Fixpoint compute_all (roles : list string) (cfg : Config) (since : Z) : GoM Store (list RoleMatrix + db_err) :=
  match roles with
  | [] => mret (inl [])
  | r :: roles' =>
      m ← computeRoleMatrix r cfg since;
      match m with
      | inr e => mret (inr e)
      | inl m => rest ← compute_all roles' cfg since;
                 mret (match rest with inl l => inl (m :: l) | inr e => inr e end)
      end
  end.

(** [t.Add(-time.Duration(hours) * time.Hour)] *)
Definition window_start (now : Z) (cfg : Config) : Z := now + wrap64 (- cfg.(lc_WindowHours) * Hour).

Definition ComputeMatrix (now : Z) (cfg : Config) (role : string) : GoM Store (list RoleMatrix + db_err) :=
  let since := window_start now cfg in
  roles ← (if role != "" then mret (inl [role])
           else roles ← GetDistinctRoles since;
                match roles with
                | inr e => mret (inr e)
                | inl [] => GetDistinctSampleRoles since
                | inl roles => mret (inl roles)
                end);
  match roles with
  | inr e => mret (inr e)
  | inl roles => compute_all roles cfg since
  end.

(** [Record]; its error is only logged. *)
Definition Record_ (now : Z) (fingerprint role : string) (payloadBytes latencyMs : Z) : GoM Store unit :=
  RecordLatencySample now fingerprint role payloadBytes latencyMs ;; skip.

Definition aggregate (now : Z) (cfg : Config) : GoM Store unit :=
  let completedHour := (Truncate Hour now - Hour)%Z in
  let since := window_start now cfg in
  roles ← GetDistinctRoles since;
  match roles with
  | inr _ => skip
  | inl roles =>
      foreach roles (fun role => ComputeHourlyStat role completedHour ;; skip) ;;
      PurgeOldLatencyData (window_start now cfg) ;; skip
  end.

(** [runAggregationLoop]: when the timer fires, given how late each time; it is
    first set to the next hour, and to an hour from then on. *)
Fixpoint ticks (due : Z) (late : list Z) : list Z :=
  match late with
  | [] => []
  | l :: late => (due + l)%Z :: ticks (due + l + Hour) late
  end.
Definition runAggregationLoop (start : Z) (late : list (Z * Config)) : GoM Store unit :=
  foreach (zip (ticks (Truncate Hour start + Hour) (fst <$> late)) (snd <$> late)) (fun tick => aggregate tick.1 tick.2).
End monitor.

(** ** The hours that are aggregated *)

Lemma Truncate_within k l : (k mod Hour = 0)%Z -> (0 <= l < Hour)%Z -> Truncate Hour (k + l) = k.
Proof.
  intros Hk Hl. unfold Truncate. rewrite <- Zplus_mod_idemp_l, Hk, Z.add_0_l, Z.mod_small by done. lia.
Qed.

Lemma ticks_hours late : forall k l0, (k mod Hour = 0)%Z -> (0 <= l0)%Z -> Forall (Z.le 0) late ->
  (l0 + foldr Z.add 0 late < Hour)%Z ->
  (fun t => Truncate Hour t - Hour)%Z <$> ticks (k + l0) late =
    (fun i => k + (Z.of_nat i - 1) * Hour)%Z <$> seq 0 (length late).
Proof.
  induction late as [|l late IH]; intros k l0 Hk H0 Hl Hs; [done|].
  apply list.Forall_cons in Hl as [Hl0 Hl]. cbn [foldr] in Hs.
  assert (0 <= foldr Z.add 0 late)%Z by (clear -Hl; induction Hl; cbn; lia).
  cbn [ticks fmap list_fmap length seq]. f_equal.
  - rewrite <- Z.add_assoc, Truncate_within by (done || lia). lia.
  - replace (k + l0 + l + Hour)%Z with ((k + Hour) + (l0 + l))%Z by lia.
    rewrite (IH (k + Hour)%Z (l0 + l)%Z); [|by rewrite <- Zplus_mod_idemp_l, Hk|lia|done|lia].
    rewrite <- (seq_shift (length late)). rewrite <- list_fmap_compose. apply list_fmap_ext. intros j x _. cbn. lia.
Qed.

(** Every hour is aggregated once, in order, from the one in which the monitor
    was started: as long as the timer is less than an hour late in all, which it
    never catches up. *)
Theorem hours_are_aggregated_in_turn start late : Forall (Z.le 0) late -> (foldr Z.add 0 late < Hour)%Z ->
  (fun t => Truncate Hour t - Hour)%Z <$> ticks (Truncate Hour start + Hour) late =
    (fun i => Truncate Hour start + Z.of_nat i * Hour)%Z <$> seq 0 (length late).
Proof.
  intros Hl Hs. rewrite <- (Z.add_0_r (Truncate Hour start + Hour)).
  rewrite ticks_hours; [|unfold Truncate|lia|done|lia].
  - apply list_fmap_ext. intros j x _. lia.
  - by rewrite <- Zplus_mod_idemp_r, Z_mod_same_full, Z.add_0_r, Zminus_mod, Zmod_mod, Z.sub_diag.
Qed.

(** ** Quantiles *)

Definition is_quantile (pct v : Z) (l : list Z) : Prop :=
  v ∈ l /\
  (pct * Z.of_nat (length l) < 100 * Z.of_nat (length (List.filter (fun x => bool_decide (x <= v)%Z) l)))%Z /\
  (100 * Z.of_nat (length (List.filter (fun x => bool_decide (x < v)%Z) l)) <= pct * Z.of_nat (length l))%Z.

Lemma filter_length_perm {A} (p : A -> bool) l l' :
  l ≡ₚ l' -> length (List.filter p l) = length (List.filter p l').
Proof.
  induction 1 as [|x l l' _ IH|x y l|l1 l2 l3 _ IH1 _ IH2]; cbn;
    [done|destruct (p x); cbn; congruence|by destruct (p x), (p y)|congruence].
Qed.

Lemma is_quantile_perm pct v l l' : l ≡ₚ l' -> is_quantile pct v l -> is_quantile pct v l'.
Proof.
  intros Hp (H1 & H2 & H3). pose proof (Permutation_length Hp) as Hlen.
  unfold is_quantile. rewrite <- Hlen, <- (filter_length_perm _ l l' Hp), <- (filter_length_perm _ l l' Hp).
  split; [by rewrite <- Hp|done].
Qed.

(** In a sorted list the elements up to an index are at most the element
    there, those from the index on at least. *)
Lemma sorted_split (l : list Z) i v : StronglySorted Z.le l -> l !! i = Some v ->
  S i <= length (List.filter (fun x => bool_decide (x <= v)%Z) l) /\
  length (List.filter (fun x => bool_decide (x < v)%Z) l) <= i.
Proof.
  intros Hs. revert i. induction Hs as [|x l Hs IH Hx]; intros i Hi; [by rewrite lookup_nil in Hi|].
  destruct i as [|i]; cbn in Hi.
  - simplify_eq. cbn [List.filter]. rewrite bool_decide_true, bool_decide_false by lia. split; [cbn; lia|].
    clear -Hx. induction Hx as [|y l Hy Hl IH]; [done|]. cbn. by rewrite bool_decide_false by lia.
  - destruct (IH i Hi) as [H1 H2]. cbn [List.filter].
    assert (x <= v)%Z by (by apply (Forall_lookup_1 _ _ _ _ Hx Hi)).
    rewrite bool_decide_true by done. cbn [length]. split; [lia|]. case_bool_decide; cbn; lia.
Qed.

Lemma percentile_quantile (l : list Z) pct : StronglySorted Z.le l -> l <> [] -> (0 <= pct < 100)%Z ->
  is_quantile pct (percentile l pct) l.
Proof.
  intros Hs Hne Hp. unfold percentile. set (n := Z.of_nat (length l)).
  assert (Hn : (0 < n)%Z) by (destruct l; [done|subst n; cbn; lia]).
  rewrite bool_decide_false by lia. set (idx := Z.quot (n * pct) 100).
  assert (Hidx : (100 * idx <= n * pct < 100 * idx + 100)%Z /\ (0 <= idx < n)%Z) by (subst idx; clearbody n; clear -Hn Hp; Z.quot_rem_to_equations; nia).
  rewrite bool_decide_false by lia. destruct Hidx as [Hidx Hlt].
  assert (Hi : l !! Z.to_nat idx = Some (nth (Z.to_nat idx) l 0%Z)).
  { rewrite nth_lookup. destruct (l !! Z.to_nat idx) eqn:E; [done|]. apply lookup_ge_None in E. subst n. lia. }
  destruct (sorted_split l _ _ Hs Hi) as [H1 H2].
  split; [by eapply list_elem_of_lookup_2|]. fold n. split; lia.
Qed.

Lemma percentile_mono (l : list Z) p q : StronglySorted Z.le l -> (0 <= p <= q)%Z ->
  (percentile l p <= percentile l q)%Z.
Proof.
  intros Hs Hp. unfold percentile. set (n := Z.of_nat (length l)).
  case_bool_decide as Hn; [done|].
  assert (Hpos : (0 < n)%Z) by lia.
  assert (Hle : (0 <= Z.quot (n * p) 100 <= Z.quot (n * q) 100)%Z)
    by (clearbody n; clear -Hpos Hp; Z.quot_rem_to_equations; nia).
  set (a := if bool_decide (n <= Z.quot (n * p) 100)%Z then _ else _).
  set (b := if bool_decide (n <= Z.quot (n * q) 100)%Z then _ else _).
  assert (Hab : (0 <= a /\ a <= b < n)%Z) by (subst a b; repeat case_bool_decide; lia).
  clearbody a b. clear -Hs Hab. revert a b Hab. subst n.
  induction Hs as [|x l Hs IH Hx]; intros a b Hab; [cbn in *; lia|].
  destruct (decide (a = 0)%Z) as [->|Ha].
  - destruct (decide (b = 0)%Z) as [->|Hb]; [done|]. replace (Z.to_nat b) with (S (Z.to_nat (b - 1))) by lia.
    cbn [nth Z.to_nat]. rewrite Forall_forall in Hx. apply Hx. apply nth_In. cbn in *. lia.
  - replace (Z.to_nat a) with (S (Z.to_nat (a - 1))) by lia.
    replace (Z.to_nat b) with (S (Z.to_nat (b - 1))) by lia. cbn [nth]. apply IH. cbn in *. lia.
Qed.

Lemma sort_ms_sorted `{Gorm} l : StronglySorted Z.le (sort_ms l).
Proof.
  apply Sorted_StronglySorted; [intros x y z; lia|]. exact (sort_by_sorted (Some id) l).
Qed.

(** ** The buckets *)

(** The bucket ranges in one recursion over the boundaries. *)
Fixpoint ranges (lo : Z) (bounds : list Z) : list (Z * Z) :=
  match bounds with
  | [] => [(lo, 0%Z)]
  | b :: bs => (lo, b) :: ranges b bs
  end.

Lemma last_nth (l : list Z) : List.last l 0%Z = nth (length l - 1) l 0%Z.
Proof.
  induction l as [|x [|y l] IH]; [done..|]. change (List.last (y :: l) 0%Z = nth (S (length l)) (x :: y :: l) 0%Z).
  rewrite IH. cbn [length]. by replace (S (length l) - 1) with (length l) by lia.
Qed.

Lemma bucket_ranges bounds : bucket_range bounds <$> seq 0 (S (length bounds)) = ranges 0 bounds.
Proof.
  set (br := fun lo (bounds : list Z) i => (match i with O => lo | S j => nth j bounds 0 end,
    if bool_decide (i < length bounds)%nat then nth i bounds 0 else 0)%Z).
  assert (Hbr : forall lo bounds, br lo bounds <$> seq 0 (S (length bounds)) = ranges lo bounds).
  { clear. intros lo bounds. revert lo. induction bounds as [|b bs IH]; intros lo; [done|].
    cbn [ranges]. rewrite <- IH.
    change (seq 0 (S (length (b :: bs)))) with (0 :: seq 1 (S (length bs))). rewrite fmap_cons. f_equal.
    rewrite <- fmap_S_seq, <- list_fmap_compose. apply list_fmap_ext. intros i x Hx. cbn.
    unfold br. destruct x as [|j]; cbn [nth length]; f_equal; repeat case_bool_decide; try done; lia. }
  rewrite <- Hbr. apply list_fmap_ext. intros i x Hx.
  apply lookup_seq in Hx as [-> Hi]. cbn. unfold bucket_range, br.
  destruct i as [|i]; [by destruct bounds|]. rewrite bool_decide_false by done.
  destruct (decide (S i < length bounds)) as [Hlt|Hge].
  - rewrite !bool_decide_true by done. f_equal. f_equal. lia.
  - rewrite !bool_decide_false by done. f_equal. assert (length bounds = S i) as Hlen by lia.
    replace (match bounds with [] => 0%Z | _ => List.last bounds 0%Z end) with (List.last bounds 0%Z)
      by (by destruct bounds).
    rewrite last_nth. f_equal. lia.
Qed.

Definition in_bucket (p : Z) (r : Z * Z) : bool :=
  bool_decide (r.1 <= p)%Z && (if bool_decide (0 < r.2)%Z then bool_decide (p < r.2)%Z else true).

Lemma buckets_below p lo bounds : (p < lo)%Z -> Sorted Z.le (lo :: bounds) ->
  List.filter (in_bucket p) (ranges lo bounds) = [].
Proof.
  intros Hp Hs. revert lo Hp Hs. induction bounds as [|b bs IH]; intros lo Hp Hs; cbn.
  - unfold in_bucket. cbn. by rewrite bool_decide_false by lia.
  - inversion Hs as [|? ? Hs' Hhd]; subst. inversion Hhd; subst.
    replace (in_bucket p (lo, b)) with false by (unfold in_bucket; cbn; by rewrite bool_decide_false by lia).
    apply IH; [lia|done].
Qed.

Lemma one_bucket p lo bounds : (lo <= p)%Z -> Sorted Z.le (lo :: bounds) -> Forall (fun b => 0 < b)%Z bounds ->
  length (List.filter (in_bucket p) (ranges lo bounds)) = 1.
Proof.
  revert lo. induction bounds as [|b bs IH]; intros lo Hp Hs Hpos; cbn.
  - unfold in_bucket. cbn. by rewrite bool_decide_true by lia.
  - inversion Hs as [|? ? Hs' Hhd]; subst. inversion Hhd; subst. inversion Hpos; subst.
    destruct (decide (p < b)%Z) as [Hlt|Hge].
    + replace (in_bucket p (lo, b)) with true.
      * cbn. by rewrite buckets_below.
      * unfold in_bucket. cbn. by rewrite !bool_decide_true by lia.
    + replace (in_bucket p (lo, b)) with false; [apply IH; [lia|done..]|].
      unfold in_bucket. cbn. rewrite (bool_decide_true (0 < b)%Z) by lia.
      by rewrite (bool_decide_false (p < b)%Z), andb_false_r by lia.
Qed.

Fixpoint total {A} (f : A -> nat) (l : list A) : nat :=
  match l with
  | [] => 0
  | x :: l' => f x + total f l'
  end.

(** Counting pairs by rows or by buckets. *)
Lemma total_filter {A B} (p : A -> B -> bool) (rows : list A) (rs : list B) :
  total (fun r => length (List.filter (fun x => p x r) rows)) rs =
  total (fun x => length (List.filter (p x) rs)) rows.
Proof.
  induction rs as [|r rs IH]; cbn [total List.filter].
  - induction rows; cbn; auto.
  - rewrite IH. clear IH. induction rows as [|x rows IH]; [done|]. cbn [total List.filter].
    destruct (p x r); cbn [length]; rewrite <- IH; lia.
Qed.

Lemma total_one {A} (f : A -> nat) l : (forall x, x ∈ l -> f x = 1) -> total f l = length l.
Proof.
  induction l as [|x l IH]; intros Hf; [done|]. cbn. rewrite (Hf x) by left.
  f_equal. apply IH. intros y Hy. apply Hf. by right.
Qed.

(** ** The monitor on a working database *)

Section up.
Context `{GormLaws, !GormUp}.

Definition in_window (since : Z) (role : string) (x : LatencySample) : bool :=
  bool_decide (since < x.(ls_CreatedAt))%Z && (x.(ls_Role) == role).

Lemma GetLatencySamplesInRange_up since role lo hi s : exists l,
  GetLatencySamplesInRange since role lo hi s = (s, Ret (inl l)) /\
  l ≡ₚ List.filter (in_range since role lo hi) (live (db_Samples s)).
Proof.
  unfold GetLatencySamplesInRange, Find, gets. cbn.
  destruct (up_find (in_range since role lo hi) (Some ls_LatencyMs) None (db_Samples s)) as [l E].
  exists l. rewrite E. split; [done|]. by destruct (find_ok _ _ _ _ _ E) as (l' & Hp & _ & ->).
Qed.

(** Each bucket holds the samples of its range. *)
Lemma fill_matrix_up since role bounds ixs s : exists ms,
  fill_matrix since role bounds ixs s = (s, Ret (inl ms)) /\
  Forall2 (fun r b => exists samples, b = bucket_stats r.1 r.2 samples /\
    samples ≡ₚ List.filter (in_range since role r.1 r.2) (live (db_Samples s)))
    (bucket_range bounds <$> ixs) ms.
Proof.
  induction ixs as [|i ixs IH]; cbn [fill_matrix fmap list_fmap].
  { exists []. split; [done|constructor]. }
  destruct (bucket_range bounds i) as [lo hi] eqn:Hr.
  destruct (GetLatencySamplesInRange_up since role lo hi s) as (l & E & Hp).
  rewrite (bind_Ret _ _ _ _ _ E). destruct IH as (ms & E' & HF).
  rewrite (bind_Ret _ _ _ _ _ E'). eexists. split; [done|]. constructor; [by exists l|done].
Qed.

Lemma spread_length lo hi n : length (spread lo hi n) = Z.to_nat (n - 1).
Proof. unfold spread. by rewrite length_fmap, length_seq. Qed.

Lemma computeBounds_length stats n : computeBounds stats n = [] \/
  (1 < n)%Z /\ length (computeBounds stats n) = Z.to_nat (n - 1).
Proof.
  unfold computeBounds. destruct (_ || _) eqn:E; [by left|].
  apply orb_false_iff in E as [_ E%bool_decide_eq_false]. cbv zeta.
  case_bool_decide; [by left|]. right. rewrite spread_length. lia.
Qed.
Lemma computeBoundsFromRange_length lo hi n : computeBoundsFromRange lo hi n = [] \/
  (1 < n)%Z /\ length (computeBoundsFromRange lo hi n) = Z.to_nat (n - 1).
Proof.
  unfold computeBoundsFromRange. destruct (_ || _) eqn:E; [by left|].
  apply orb_false_iff in E as [E%bool_decide_eq_false _]. right. rewrite spread_length. lia.
Qed.

(** The matrix has one bucket more than boundaries. *)
Lemma computeRoleMatrix_up role cfg since s : exists bounds ms,
  computeRoleMatrix role cfg since s =
    (s, Ret (inl {| rx_Role := role; rx_WindowHours := cfg.(lc_WindowHours);
                    rx_BucketCount := cfg.(lc_BucketCount); rx_Bounds := bounds; rx_Matrix := ms |})) /\
  Forall2 (fun r b => exists samples, b = bucket_stats r.1 r.2 samples /\
    samples ≡ₚ List.filter (in_range since role r.1 r.2) (live (db_Samples s))) (ranges 0 bounds) ms.
Proof.
  unfold computeRoleMatrix, GetHourlyStats.
  match goal with |- context [Find Hourly ?p ?k ?n] => destruct (up_find p k n (db_Hourly s)) as [stats E];
    rewrite (bind_Ret (Find Hourly p k n) _ s s (inl stats)) by (unfold Find, gets; cbn; by rewrite E) end.
  set (bm := if bool_decide _ then _ else _).
  assert (Hb : exists bounds, bm s = (s, Ret (inl bounds)) /\
    (bounds = [] \/ (1 < lc_BucketCount cfg)%Z /\ length bounds = Z.to_nat (lc_BucketCount cfg - 1))).
  { unfold bm. destruct (bool_decide (0 < length stats)).
    - eexists. split; [reflexivity|apply computeBounds_length].
    - unfold GetSamplePayloadRange. destruct (Find_up Samples (fun x =>
        bool_decide (since < ls_CreatedAt x)%Z && (ls_Role x == role)) s) as (l & El & _).
      unfold mbind at 2, GoM_bind. unfold mbind, GoM_bind. rewrite El. cbn.
      eexists. split; [reflexivity|apply computeBoundsFromRange_length]. }
  destruct Hb as (bounds & Eb & Hlen). rewrite (bind_Ret _ _ _ _ _ Eb). clearbody bm.
  set (n := match bounds with [] => 1 | _ => _ end).
  assert (Hn : n = S (length bounds)) by (subst n; destruct bounds; cbn in *; [done|destruct Hlen; [done|lia]]).
  destruct (fill_matrix_up since role bounds (seq 0 n) s) as (ms & Em & HF).
  rewrite (bind_Ret _ _ _ _ _ Em). exists bounds, ms. split; [done|]. by rewrite Hn, bucket_ranges in HF.
Qed.

Lemma in_range_window since role r x :
  in_range since role r.1 r.2 x = in_window since role x && in_bucket (ls_PayloadBytes x) r.
Proof. unfold in_range, in_window, in_bucket. by rewrite <- !andb_assoc. Qed.

Lemma bucket_counts since role s rs ms :
  Forall2 (fun r b => exists samples, b = bucket_stats r.1 r.2 samples /\
    samples ≡ₚ List.filter (in_range since role r.1 r.2) (live (db_Samples s))) rs ms ->
  sql_sum (bs_Count <$> ms) =
    Z.of_nat (total (fun r => length (List.filter (fun x => in_bucket (ls_PayloadBytes x) r)
      (List.filter (in_window since role) (live (db_Samples s))))) rs).
Proof.
  induction 1 as [|r b rs ms (l & -> & Hp) _ IH]; [done|]. cbn [fmap list_fmap total].
  unfold sql_sum in *. cbn [foldr]. rewrite IH. cbn [bs_Count bucket_stats]. rewrite Nat2Z.inj_add. f_equal.
  f_equal. rewrite (Permutation_length Hp). clear. generalize (live (db_Samples s)) as l. intros l.
  induction l as [|x l IH]; [done|]. cbn [List.filter]. rewrite in_range_window.
  destruct (in_window since role x); cbn [andb]; [|done]. cbn [List.filter].
  destruct (in_bucket _ _); cbn [length]; auto.
Qed.
End up.

(** ** Properties *)

Section properties.
Context `{GormLaws}.

(** The matrix counts every sample once. When the computed boundaries are
    positive and in order, the buckets partition the payload sizes: their
    counts add up to the samples of the role in the window. *)
Theorem matrix_counts_each_sample_once `{!GormUp} role cfg since s rm :
  result (computeRoleMatrix role cfg since) s = Ret (inl rm) ->
  Sorted Z.le (0%Z :: rm.(rx_Bounds)) -> Forall (fun b => 0 < b)%Z rm.(rx_Bounds) ->
  (forall x, x ∈ live (db_Samples s) -> 0 <= x.(ls_PayloadBytes))%Z ->
  sql_sum (bs_Count <$> rm.(rx_Matrix)) =
    Z.of_nat (length (List.filter (in_window since role) (live (db_Samples s)))).
Proof.
  destruct (computeRoleMatrix_up role cfg since s) as (bounds & ms & E & HF).
  unfold result. rewrite E. intros [= <-]. cbn [snd rx_Bounds rx_Matrix]. intros Hs Hpos Hpay.
  rewrite (bucket_counts since role s _ _ HF). f_equal.
  rewrite (total_filter (fun x r => in_bucket (ls_PayloadBytes x) r)). apply total_one.
  intros x Hx. apply one_bucket; [|done..].
  apply Hpay. by apply list_elem_of_In, filter_In in Hx as [Hx%list_elem_of_In _].
Qed.

(** C30. The reported percentiles are quantiles. For a bucket with samples, the
    p50, p95 and p99 values are observed latencies; more than 50, 95 and 99
    percent of the samples are at most that value and no more than that share
    are below it; and they are in order. *)
Theorem percentiles_are_quantiles lo hi samples :
  samples <> [] ->
  let b := bucket_stats lo hi samples in
  let latencies := ls_LatencyMs <$> samples in
  is_quantile 50 b.(bs_P50Ms) latencies /\ is_quantile 95 b.(bs_P95Ms) latencies /\
  is_quantile 99 b.(bs_P99Ms) latencies /\
  (b.(bs_P50Ms) <= b.(bs_P95Ms) <= b.(bs_P99Ms))%Z.
Proof.
  intros Hne b latencies.
  assert (Hp : sort_ms latencies ≡ₚ latencies) by apply sort_by_perm.
  assert (Hn : sort_ms latencies <> []).
  { intros E. rewrite E in Hp. apply Permutation_nil in Hp. by destruct samples. }
  assert (Hq : forall pct, (0 <= pct < 100)%Z -> is_quantile pct (percentile (sort_ms latencies) pct) latencies).
  { intros pct Hpct. eapply is_quantile_perm; [exact Hp|].
    by apply percentile_quantile; [apply sort_ms_sorted| |]. }
  unfold b, bucket_stats. cbn. rewrite bool_decide_true by (destruct samples; cbn; [done|lia]).
  split_and!; try (apply Hq; lia); apply percentile_mono; try lia; apply sort_ms_sorted.
Qed.

Inductive latency_op :=
  | OpRecord (now : Z) (fp role : string) (bytes ms : Z)
  | OpAggregate (now : Z) (cfg : Config).
Definition exec_latency_op (op : latency_op) : GoM Store unit :=
  match op with
  | OpRecord now fp role bytes ms => Record_ now fp role bytes ms
  | OpAggregate now cfg => aggregate now cfg
  end.

(** The hourly aggregation never starts. It looks for roles among the
    hourly stats it is to produce, so from an empty table no sequence of
    recorded samples and aggregations ever stores a single hourly stat. *)
Theorem aggregation_never_bootstraps ops s :
  live (db_Hourly s) = [] ->
  live (db_Hourly (run (foreach ops exec_latency_op) s)) = [].
Proof.
  set (R := fun s s' : Store => live (db_Hourly s) = [] -> live (db_Hourly s') = []).
  assert (HR : PreOrder R) by (split; [by intros ? ?|unfold R; intros ? ? ?; auto]).
  apply (keeps_foreach R). intros [now fp role bytes ms|now cfg]; cbn [exec_latency_op].
  - assert (Hk : keeps (unchanged db_Hourly) (Record_ now fp role bytes ms)).
    { unfold Record_, RecordLatencySample. keeps_tac. }
    intros s0 Hs. by rewrite (Hk s0).
  - intros s0 Hs. unfold aggregate, GetDistinctRoles, Find, run, mbind, GoM_bind, gets. cbn.
    destruct (db_find _ None None (db_Hourly s0)) as [l|e] eqn:Hf; cbn; [|done].
    destruct (find_ok _ _ _ _ _ Hf) as (l' & Hp & _ & ->). rewrite Hs in Hp. cbn in Hp.
    apply Permutation_nil_r in Hp as ->. cbn. unfold PurgeOldLatencyData, Delete, mbind, GoM_bind. cbn.
    destruct (db_delete false _ (db_Samples s0)) as [t [e|]]; cbn; [done|].
    destruct (db_delete false _ (db_Hourly s0)) as [t' [e|]] eqn:Hd; cbn.
    + apply delete_err in Hd as [-> _]. done.
    + apply delete_ok in Hd as (-> & _ & _). by rewrite Hs.
Qed.
End properties.

Section examples.
#[local] Existing Instances MemGorm MemGormLaws MemGormUp.

Definition sample (bytes ms : Z) : LatencySample :=
  {| ls_Fingerprint := "w"; ls_Role := "inference"; ls_PayloadBytes := bytes; ls_LatencyMs := ms;
     ls_CreatedAt := 100 |}.
Definition samples_ex (l : list (Z * Z)) : Store :=
  lset Samples (mem_rows ((fun '(b, m) => sample b m) <$> l)) empty_store.

(** With payload sizes too close for the number of buckets the first
    boundary rounds to 0, which the query reads as "unbounded": the first
    bucket then counts every sample and the counts exceed the samples. *)
Theorem narrow_payloads_double_count :
  let s := samples_ex [(0, 10); (1, 20)]%Z in
  exists rm, computeRoleMatrix "inference" {| lc_BucketCount := 4; lc_WindowHours := 1 |} 0 s =
      (s, Ret (inl rm)) /\
    rm.(rx_Bounds) = [0; 1; 1]%Z /\ sql_sum (bs_Count <$> rm.(rx_Matrix)) = 4%Z /\
    length (live (db_Samples s)) = 2.
Proof. eexists. split; [vm_compute; reflexivity|]. vm_compute. done. Qed.

Definition spread_ex : Store := samples_ex [(100, 10); (400, 20); (900, 30); (250, 40)]%Z.

Lemma matrix_counts_each_sample_once_witness :
  exists rm, result (computeRoleMatrix "inference" {| lc_BucketCount := 4; lc_WindowHours := 1 |} 0) spread_ex =
      Ret (inl rm) /\ rm.(rx_Bounds) = [300; 500; 700]%Z /\ sql_sum (bs_Count <$> rm.(rx_Matrix)) = 4%Z.
Proof.
  eexists. split; [vm_compute; reflexivity|]. split; [reflexivity|].
  eapply eq_trans;
    [apply (matrix_counts_each_sample_once "inference" {| lc_BucketCount := 4; lc_WindowHours := 1 |} 0 spread_ex);
       [vm_compute; reflexivity|repeat constructor; lia|repeat constructor; lia|]|vm_compute; reflexivity].
  intros x Hx. apply (Forall_forall (fun x => 0 <= ls_PayloadBytes x)%Z (live (db_Samples spread_ex)));
    [repeat constructor; vm_compute; discriminate|by apply list_elem_of_In].
Defined.

Lemma percentiles_are_quantiles_witness :
  is_quantile 50 30 [30; 10; 20; 40]%Z.
Proof.
  refine (proj1 (percentiles_are_quantiles 0 0 [sample 1 30; sample 1 10; sample 1 20; sample 1 40] _)).
  discriminate.
Defined.

Lemma aggregation_never_bootstraps_witness :
  live (db_Hourly (run (foreach [OpRecord 1 "w" "inference" 10 20;
    OpAggregate (2 * Hour) {| lc_BucketCount := 4; lc_WindowHours := 24 |}] exec_latency_op) empty_store)) = [].
Proof. apply aggregation_never_bootstraps. reflexivity. Defined.

Lemma hours_are_aggregated_in_turn_witness :
  (fun t => Truncate Hour t - Hour)%Z <$> ticks (Truncate Hour (Hour + 5) + Hour) [3; 0; 7]%Z = [Hour; 2 * Hour; 3 * Hour]%Z.
Proof.
  rewrite (hours_are_aggregated_in_turn (Hour + 5) [3; 0; 7]%Z); [reflexivity| |reflexivity].
  apply (bool_decide_unpack _). vm_compute. done.
Defined.
End examples.
