(* ===== verification/Durations.v ===== *)
(** * Durations as Go reads them (time.ParseDuration)

    Translated from the standard library, with its 64-bit overflow checks and
    its [float64] fractions; a duration written as whole numbers with units is read
    back, and what is read fits 64 bits. *)

From Stdlib Require Import SpecFloat.
From S2P Require Import Prelude GoStd Strings Latency.

(** ** time.ParseDuration *)

Definition two63 : Z := 2^63.

(** the digits in front, as an unsigned number of at most 2^63 *)
Fixpoint leadingInt (x : Z) (s : string) : option (Z * string) :=
  match s with
  | String.EmptyString => Some (x, s)
  | String.String c s' =>
      match digit_val c with
      | None => Some (x, s)
      | Some d =>
          if bool_decide (two63 / 10 < x)%Z then None
          else
            let x := (x * 10 + d)%Z in
            if bool_decide (two63 < x)%Z then None else leadingInt x s'
      end
  end.

(** the digits after a point; those beyond the precision are dropped *)
Fixpoint leadingFraction (x : Z) (scale : float64) (overflow : bool) (s : string) : Z * float64 * string :=
  match s with
  | String.EmptyString => (x, scale, s)
  | String.String c s' =>
      match digit_val c with
      | None => (x, scale, s)
      | Some d =>
          let y := (x * 10 + d)%Z in
          if overflow || bool_decide ((two63 - 1) / 10 < x)%Z || bool_decide (two63 < y)%Z then leadingFraction x scale true s'
          else leadingFraction y (fmul scale (float_of_int 10)) false s'
      end
  end.

Definition unitMap (u : string) : option Z :=
  let byte n := str1 (Ascii.ascii_of_nat n) in
  if u == "ns" then Some Nanosecond
  else if (u == "us") || (u == byte 0xc2 +:+ byte 0xb5 +:+ "s") || (u == byte 0xce +:+ byte 0xbc +:+ "s") then Some (1000 * Nanosecond)%Z
  else if u == "ms" then Some Millisecond
  else if u == "s" then Some Second
  else if u == "m" then Some Minute
  else if u == "h" then Some Hour
  else None.

(** what stands before the next point or digit, and the rest *)
Fixpoint span_unit (s : string) : string * string :=
  match s with
  | String.EmptyString => ("", s)
  | String.String c s' =>
      if (c == "."%char) || is_digit c then ("", s)
      else let '(u, rest) := span_unit s' in (String.String c u, rest)
  end.

(** [uint64(x)] for a finite [x] that is not negative *)
Definition uint64_of_float (x : float64) : Z :=
  match x with
  | S754_finite _ m e => if bool_decide (0 <= e)%Z then (Z.pos m * 2 ^ e)%Z else (Z.pos m / 2 ^ (- e))%Z
  | _ => 0
  end.

(** one number with its unit: the nanoseconds and the rest of the text *)
Definition duration_part (s : string) : option (Z * string) :=
  '(v, s1) ← leadingInt 0 s;
  let pre := String.length s != String.length s1 in
  let '(f, scale, s2, post) :=
    match s1 with
    | String.String "."%char t =>
        let '(f, scale, t') := leadingFraction 0 (float_of_int 1) false t in
        (f, scale, t', String.length t != String.length t')
    | _ => (0%Z, float_of_int 1, s1, false)
    end in
  if negb pre && negb post then None
  else
    let '(u, s3) := span_unit s2 in
    if u == "" then None
    else
      unit ← unitMap u;
      if bool_decide (two63 / unit < v)%Z then None
      else
        let v := (v * unit)%Z in
        let v := if bool_decide (0 < f)%Z
                 then wrapu64 (v + uint64_of_float (fmul (float_of_int f) (fdiv (float_of_int unit) scale))) else v in
        if bool_decide (two63 < v)%Z then None else Some (v, s3).

(** Every part takes at least a character, so the length bounds the rounds. *)
Fixpoint duration_parts (fuel : nat) (d : Z) (s : string) : option Z :=
  if s == "" then Some d
  else
    match fuel with
    | O => None
    | S fuel =>
        '(v, s) ← duration_part s;
        let d := wrapu64 (d + v) in
        if bool_decide (two63 < d)%Z then None else duration_parts fuel d s
    end.

Definition ParseDuration (s : string) : option Z :=
  let '(neg, s) := match s with
                   | String.String c s' =>
                       if (c == "-"%char) || (c == "+"%char) then (c == "-"%char, s') else (false, s)
                   | String.EmptyString => (false, s)
                   end in
  if s == "0" then Some 0%Z
  else if s == "" then None
  else
    d ← duration_parts (String.length s) 0 s;
    if neg : bool then Some (wrap64 (- d))
    else if bool_decide (two63 - 1 < d)%Z then None else Some d.

(** ** Durations written as whole numbers of units *)

Lemma digits_val_grows s acc z : (0 <= acc)%Z -> digits_val acc s = Some z -> (acc <= z)%Z.
Proof.
  revert acc. induction s as [|c s IH]; cbn; intros acc Ha; [intros [= ->]; lia|].
  unfold digit_val at 1. destruct (is_digit c) eqn:Hc; [|done]. cbn.
  unfold is_digit in Hc. apply bool_decide_eq_true in Hc. intros E%IH; lia.
Qed.

(** A text that a run of digits does not continue into. *)
Definition ends_digits (rest : string) : Prop :=
  match rest with String.EmptyString => True | String.String c _ => is_digit c = false end.

Lemma leadingInt_digits s rest acc z : (0 <= acc)%Z -> digits_val acc s = Some z -> (z <= two63)%Z -> ends_digits rest ->
  leadingInt acc (s +:+ rest) = Some (z, rest).
Proof.
  revert acc. induction s as [|c s IH]; cbn [digits_val]; intros acc Ha E Hz Hrest.
  - injection E as ->. destruct rest as [|c rest]; [done|]. cbn in Hrest.
    change ("" +:+ String.String c rest) with (String.String c rest). cbn [leadingInt]. unfold digit_val. by rewrite Hrest.
  - change (String.String c s +:+ rest) with (String.String c (s +:+ rest)). cbn [leadingInt].
    destruct (digit_val c) as [d|] eqn:Hd; [|done]. cbn in E.
    assert (0 <= d)%Z.
    { unfold digit_val in Hd. destruct (is_digit c) eqn:Hc; [|done]. unfold is_digit in Hc.
      apply bool_decide_eq_true in Hc. injection Hd as <-. lia. }
    pose proof (digits_val_grows s (acc * 10 + d) z ltac:(lia) E) as Hg. unfold two63 in *.
    rewrite !bool_decide_eq_false_2 by lia. apply IH; [lia|done..].
Qed.

Lemma parse_digits_val (n : N) : digits_val 0 (pretty n) = Some (Z.of_N n).
Proof. pose proof (parse_digits_pretty n) as E. unfold parse_digits in E. by case_bool_decide. Qed.

(** The unit names, and text a unit name does not continue into. *)
Definition unit_names : list string := ["ns"; "us"; "ms"; "s"; "m"; "h"].
Definition ends_unit (rest : string) : Prop :=
  match rest with String.EmptyString => True | String.String c _ => is_digit c = true end.

Lemma append_cons c (s t : string) : String.String c s +:+ t = String.String c (s +:+ t).
Proof. done. Qed.
Lemma append_nil (t : string) : "" +:+ t = t.
Proof. done. Qed.

Lemma span_unit_name u rest : u ∈ unit_names -> ends_unit rest -> span_unit (u +:+ rest) = (u, rest).
Proof.
  intros Hu Hrest.
  assert (Hs : span_unit rest = ("", rest)).
  { destruct rest as [|c rest]; [done|]. cbn in Hrest |- *. rewrite Hrest. by rewrite orb_true_r. }
  revert u Hu. apply list.Forall_forall. unfold unit_names. rewrite !list.Forall_cons.
  split_and!; [..|by apply list.Forall_nil]; rewrite ?append_cons, append_nil; cbn [span_unit]; by rewrite Hs.
Qed.

Lemma unit_facts u : u ∈ unit_names ->
  (exists ns, unitMap u = Some ns /\ (1 <= ns)%Z) /\
  exists c t, u = String.String c t /\ is_digit c = false /\ c <> "."%char.
Proof.
  revert u. apply list.Forall_forall. unfold unit_names. rewrite !list.Forall_cons.
  split_and!; first [by apply list.Forall_nil | eexists _; split; [reflexivity|done] | by eexists _, _].
Qed.

Lemma duration_part_whole (n : N) u ns rest : u ∈ unit_names -> unitMap u = Some ns -> (Z.of_N n * ns <= two63)%Z ->
  ends_unit rest -> duration_part (pretty n +:+ u +:+ rest) = Some ((Z.of_N n * ns)%Z, rest).
Proof.
  intros Hu Hns Hmax Hrest. unfold duration_part.
  destruct (unit_facts u Hu) as [(ns' & E & H1) Hue]. rewrite Hns in E. injection E as <-.
  destruct Hue as (c & t & -> & Hc & Hdot).
  rewrite (leadingInt_digits (pretty n) _ 0 (Z.of_N n)); [|done|apply parse_digits_val|nia|done].
  cbn [mbind option_bind]. change (String.String c t +:+ rest) with (String.String c (t +:+ rest)).
  assert (Hlen : (String.length (pretty n +:+ String.String c (t +:+ rest)) != String.length (String.String c (t +:+ rest))) = true).
  { apply negb_true_iff, bool_decide_eq_false. rewrite length_app_str. destruct (pretty_N_head n) as (d & s & -> & _). cbn. lia. }
  rewrite Hlen.
  assert (Hm : match String.String c (t +:+ rest) with
    | String.String "."%char t0 => let '(f, scale, t') := leadingFraction 0 (float_of_int 1) false t0 in
        (f, scale, t', String.length t0 != String.length t')
    | _ => (0%Z, float_of_int 1, String.String c (t +:+ rest), false)
    end = (0%Z, float_of_int 1, String.String c (t +:+ rest), false)).
  { destruct c as [[] [] [] [] [] [] [] []]; try reflexivity. by destruct Hdot. }
  rewrite Hm. cbn [negb andb]. change (String.String c (t +:+ rest)) with (String.String c t +:+ rest).
  rewrite span_unit_name by done. cbn [bool_decide]. rewrite bool_decide_eq_false_2 by done. rewrite Hns. cbn [mbind option_bind].
  rewrite bool_decide_eq_false_2 by (apply Z.le_ngt, Z.div_le_lower_bound; lia).
  rewrite (bool_decide_eq_false_2 (0 < 0)%Z) by lia. by rewrite bool_decide_eq_false_2 by lia.
Qed.

(** A duration in parts, its text and its value. *)
Definition part_text (p : N * string) : string := pretty p.1 +:+ p.2.
Definition part_ns (p : N * string) : Z := (Z.of_N p.1 * default 0 (unitMap p.2))%Z.
Definition duration_text (l : list (N * string)) : string := foldr (fun p s => part_text p +:+ s) "" l.
Definition duration_ns (l : list (N * string)) : Z := foldr (fun p z => part_ns p + z)%Z 0%Z l.

Lemma duration_ns_cons p l : duration_ns (p :: l) = (part_ns p + duration_ns l)%Z.
Proof. done. Qed.
Lemma duration_text_cons p l : duration_text (p :: l) = pretty p.1 +:+ p.2 +:+ duration_text l.
Proof. apply append_assoc_str. Qed.
Lemma part_ns_nonneg p : p.2 ∈ unit_names -> (0 <= part_ns p)%Z.
Proof. intros Hp. unfold part_ns. destruct (unit_facts _ Hp) as [(ns & -> & H1) _]. cbn. lia. Qed.

Lemma duration_ns_nonneg l : Forall (fun p => p.2 ∈ unit_names) l -> (0 <= duration_ns l)%Z.
Proof.
  induction 1 as [|p l Hp _ IH]; [done|]. rewrite duration_ns_cons. pose proof (part_ns_nonneg p Hp). lia.
Qed.

Lemma duration_text_head l : ends_unit (duration_text l).
Proof.
  destruct l as [|p l]; [done|]. rewrite duration_text_cons. destruct (pretty_N_head p.1) as (c & s & -> & Hc). done.
Qed.

Lemma duration_parts_whole l fuel d : Forall (fun p => p.2 ∈ unit_names) l -> (0 <= d)%Z ->
  (d + duration_ns l < two63)%Z -> (length l <= fuel)%nat -> duration_parts fuel d (duration_text l) = Some (d + duration_ns l)%Z.
Proof.
  intros Hl. revert fuel d. induction Hl as [|p l Hp Hl IH]; intros fuel d Hd Hmax Hf.
  { cbn in *. rewrite Z.add_0_r. by destruct fuel. }
  destruct fuel as [|fuel]; [cbn in Hf; lia|]. rewrite duration_ns_cons, duration_text_cons in *.
  pose proof (duration_ns_nonneg l Hl) as Hn. pose proof (part_ns_nonneg p Hp) as Hpn.
  destruct (unit_facts _ Hp) as [(ns & Hu & H1) (c & t & Ht & _)].
  cbn [duration_parts]. rewrite bool_decide_eq_false_2.
  2: { intros E. apply (f_equal String.length) in E. rewrite !length_app_str, Ht in E. cbn in E. lia. }
  unfold part_ns in *. rewrite Hu in *. cbn [default from_option id] in *.
  rewrite (duration_part_whole p.1 p.2 ns); [|done|done|lia|apply duration_text_head].
  cbn [mbind option_bind]. unfold wrapu64, two63 in *. rewrite Z.mod_small by lia.
  rewrite bool_decide_eq_false_2 by lia. rewrite IH by (cbn in Hf; lia). f_equal. lia.
Qed.

Lemma duration_text_length l : l <> [] -> Forall (fun p => p.2 ∈ unit_names) l ->
  (length l < String.length (duration_text l))%nat.
Proof.
  intros Hne Hl. induction Hl as [|p l Hp Hl IH]; [done|]. rewrite duration_text_cons, !length_app_str.
  destruct (unit_facts _ Hp) as [_ (c & t & -> & _)]. destruct (pretty_N_head p.1) as (d & s & -> & _). cbn [String.length length].
  destruct l as [|q l]; [cbn; lia|]. specialize (IH ltac:(done)). lia.
Qed.

(** A duration written as whole numbers with units reads as their sum. *)
Lemma ParseDuration_whole l : l <> [] -> Forall (fun p => p.2 ∈ unit_names) l -> (duration_ns l < two63)%Z ->
  ParseDuration (duration_text l) = Some (duration_ns l).
Proof.
  intros Hne Hl Hmax. pose proof (duration_text_head l) as Hh.
  pose proof (duration_text_length l Hne Hl) as Hlen.
  unfold ParseDuration. destruct (duration_text l) as [|c s] eqn:E; [cbn in Hlen; lia|]. cbn in Hh.
  assert (Hc : (c == "-"%char) || (c == "+"%char) = false).
  { by destruct c as [[] [] [] [] [] [] [] []]. }
  rewrite Hc. rewrite (bool_decide_eq_false_2 (String.String c s = "0")).
  2: { intros E'. rewrite E' in Hlen. cbn in Hlen. destruct l; [done|cbn in Hlen; lia]. }
  rewrite bool_decide_eq_false_2 by done. rewrite <- E in *.
  rewrite duration_parts_whole; [|done|lia|lia|lia]. cbn [mbind option_bind].
  pose proof (duration_ns_nonneg l Hl). by rewrite bool_decide_eq_false_2 by lia.
Qed.

(** What is read fits 64 bits. *)
Lemma duration_part_bound s v rest : duration_part s = Some (v, rest) -> (v <= two63)%Z.
Proof.
  unfold duration_part. destruct (leadingInt 0 s) as [[v0 s1]|]; [|done]. cbn [mbind option_bind].
  destruct (match s1 with String.EmptyString => _ | String.String _ _ => _ end) as [[[f scale] s2] post].
  destruct (_ && _); [done|]. destruct (span_unit s2) as [u s3]. case_bool_decide; [done|].
  destruct (unitMap u) as [unit|]; [|done]. cbn [mbind option_bind]. case_bool_decide; [done|].
  destruct (bool_decide (two63 < _)%Z) eqn:Hc; [done|]. intros [= <- _]. by apply bool_decide_eq_false, Z.nlt_ge in Hc.
Qed.
Lemma duration_parts_bound fuel d s z : (0 <= d <= two63)%Z -> duration_parts fuel d s = Some z -> (0 <= z <= two63)%Z.
Proof.
  revert d s. induction fuel as [|fuel IH]; cbn [duration_parts]; intros d s Hd.
  - case_bool_decide; [by intros [= <-]|done].
  - case_bool_decide; [by intros [= <-]|]. destruct (duration_part s) as [[v s']|]; [|done]. cbn [mbind option_bind].
    case_bool_decide as Hb; [done|]. apply IH. unfold wrapu64 in *. split; [apply Z.mod_pos_bound; lia|lia].
Qed.
Lemma ParseDuration_bound s z : ParseDuration s = Some z -> (- two63 <= z < two63)%Z.
Proof.
  unfold ParseDuration. destruct (match s with String.EmptyString => _ | String.String _ _ => _ end) as [neg s'].
  case_bool_decide; [intros [= <-]; unfold two63; lia|]. case_bool_decide; [done|].
  destruct (duration_parts _ 0 s') as [d|] eqn:E; [|done]. cbn [mbind option_bind].
  apply duration_parts_bound in E; [|unfold two63; lia]. destruct neg.
  - intros [= <-]. unfold wrap64, two63 in *. pose proof (Z.mod_pos_bound (- d + 2^63) (2^64) ltac:(lia)). lia.
  - case_bool_decide; [done|]. intros [= <-]. lia.
Qed.
