(* ===== verification/Http.v ===== *)
(** * HTTP requests and responses, and the text forms the handlers parse

    What the API handlers read of a request and write of a response. The
    concrete syntax of JSON and of RFC 3339 timestamps is that of Go's
    encoding/json and time packages: the classes [JsonText] and [TimeText]
    relate text to the values the program works with. *)

From S2P Require Import Prelude GoStd Json.

Record Request := {
  r_Method : string;
  r_Path : string;
  r_Header : string -> string;
  r_Query : string -> string;
  r_Body : option string;   (* [None]: reading it fails *)
}.

Inductive Body :=
  | NoBody
  | PlainText (s : string)
  | ErrorObject (message : string)
  | JsonBody (j : json).

Record Response := { status : Z; body : Body }.

Definition httpError (msg : string) (code : Z) : Response := {| status := code; body := PlainText msg |}.
Definition writeError (code : Z) (message : string) : Response :=
  {| status := code; body := ErrorObject message |}.
Definition writeJSON (code : Z) (j : json) : Response := {| status := code; body := JsonBody j |}.

Class JsonText := {
  json_text : json -> string;
  json_parse : string -> frame;
  json_first : string -> frame;   (* a Decoder's first value; the rest of the text is not read *)
}.
Class TimeText := {
  rfc3339_format : Z -> string;
  rfc3339_parse : string -> option Z;
}.

(** A parser of the empty object only, to evaluate handlers whose bodies do not
    matter, and times in decimal nanoseconds. *)
Definition NoJson : JsonText := {|
  json_text _ := "{}";
  json_parse s := if s == "{}" then Some (JObj []) else None;
  json_first s := if HasPrefix s "{}" then Some (JObj []) else None;
|}.

(** ** Authentication by key *)

(** [X-API-Key: key] or [Authorization: Bearer key]; completions and batches *)
Definition authenticate_api (apiKey : string) (r : Request) : bool :=
  (r.(r_Header) "X-API-Key" == apiKey) ||
  (TrimPrefix (r.(r_Header) "Authorization") "Bearer " == apiKey).

(** The same for the worker key, which is empty in TOFU mode. *)
Definition authenticate_worker (key : string) (r : Request) : bool :=
  (key == "") || (r.(r_Header) "X-API-Key" == key) ||
  (let auth := r.(r_Header) "Authorization" in
   bool_decide (7 < String.length auth)%nat && HasPrefix auth "Bearer " && (drop_str 7 auth == key)).

(** [json.NewDecoder(r.Body).Decode(&v)]; [None] is a non-nil error *)
Definition decode_body `{JsonText} {A} (dec : json -> option A) (r : Request) : option A :=
  r.(r_Body) ≫= (fun b => Unmarshal dec (json_first b)).
