(* ===== verification/WorkerApi.v ===== *)
(** * The worker-facing HTTP API (internal/manager/api: consent.go, goodbye.go, errors.go)

    Consent and configuration of a worker, its signed farewell, and its error
    reports: handlers on the store, given the live worker key. *)

From S2P Require Import Prelude GoStd Json Protocol Gorm Models Workers Roles Http.

(** ** Consent and configuration (consent.go) *)

Record ConsentRequest := {
  cq_Fingerprint : string;
  cq_Accepted : bool;
  cq_HardwareStats : bool;
  cq_ConfigPreferences : bool;
  cq_Hardware : option HardwareInfo;
}.

Definition zero_HardwareInfo : HardwareInfo := Build_HardwareInfo "" "" "" "" "" 0 "" 0 0.
Definition fields_HardwareInfo : list (field HardwareInfo) := [
  str_field "os" (fun v x => Build_HardwareInfo v x.(hw_OSVer) x.(hw_GPU) x.(hw_GPUDriver) x.(hw_GPUDriverVersion) x.(hw_VRAMMB) x.(hw_CPU) x.(hw_CPUCores) x.(hw_RAMMB));
  str_field "os_version" (fun v x => Build_HardwareInfo x.(hw_OS) v x.(hw_GPU) x.(hw_GPUDriver) x.(hw_GPUDriverVersion) x.(hw_VRAMMB) x.(hw_CPU) x.(hw_CPUCores) x.(hw_RAMMB));
  str_field "gpu" (fun v x => Build_HardwareInfo x.(hw_OS) x.(hw_OSVer) v x.(hw_GPUDriver) x.(hw_GPUDriverVersion) x.(hw_VRAMMB) x.(hw_CPU) x.(hw_CPUCores) x.(hw_RAMMB));
  str_field "gpu_driver" (fun v x => Build_HardwareInfo x.(hw_OS) x.(hw_OSVer) x.(hw_GPU) v x.(hw_GPUDriverVersion) x.(hw_VRAMMB) x.(hw_CPU) x.(hw_CPUCores) x.(hw_RAMMB));
  str_field "gpu_driver_version" (fun v x => Build_HardwareInfo x.(hw_OS) x.(hw_OSVer) x.(hw_GPU) x.(hw_GPUDriver) v x.(hw_VRAMMB) x.(hw_CPU) x.(hw_CPUCores) x.(hw_RAMMB));
  int_field "vram_mb" (fun v x => Build_HardwareInfo x.(hw_OS) x.(hw_OSVer) x.(hw_GPU) x.(hw_GPUDriver) x.(hw_GPUDriverVersion) v x.(hw_CPU) x.(hw_CPUCores) x.(hw_RAMMB));
  str_field "cpu" (fun v x => Build_HardwareInfo x.(hw_OS) x.(hw_OSVer) x.(hw_GPU) x.(hw_GPUDriver) x.(hw_GPUDriverVersion) x.(hw_VRAMMB) v x.(hw_CPUCores) x.(hw_RAMMB));
  int_field "cpu_cores" (fun v x => Build_HardwareInfo x.(hw_OS) x.(hw_OSVer) x.(hw_GPU) x.(hw_GPUDriver) x.(hw_GPUDriverVersion) x.(hw_VRAMMB) x.(hw_CPU) v x.(hw_RAMMB));
  int_field "ram_mb" (fun v x => Build_HardwareInfo x.(hw_OS) x.(hw_OSVer) x.(hw_GPU) x.(hw_GPUDriver) x.(hw_GPUDriverVersion) x.(hw_VRAMMB) x.(hw_CPU) x.(hw_CPUCores) v) ].

Definition decode_ConsentRequest : json -> option ConsentRequest :=
  decode_struct (Build_ConsentRequest "" false false false None) [
    str_field "fingerprint" (fun v x => Build_ConsentRequest v x.(cq_Accepted) x.(cq_HardwareStats) x.(cq_ConfigPreferences) x.(cq_Hardware));
    bool_field "accepted" (fun v x => Build_ConsentRequest x.(cq_Fingerprint) v x.(cq_HardwareStats) x.(cq_ConfigPreferences) x.(cq_Hardware));
    bool_field "hardware_stats" (fun v x => Build_ConsentRequest x.(cq_Fingerprint) x.(cq_Accepted) v x.(cq_ConfigPreferences) x.(cq_Hardware));
    bool_field "config_preferences" (fun v x => Build_ConsentRequest x.(cq_Fingerprint) x.(cq_Accepted) x.(cq_HardwareStats) v x.(cq_Hardware));
    ptr_field "hardware" cq_Hardware (fun v x => Build_ConsentRequest x.(cq_Fingerprint) x.(cq_Accepted) x.(cq_HardwareStats) x.(cq_ConfigPreferences) v)
      zero_HardwareInfo fields_HardwareInfo ].

Record ConfigRequest := { gq_Fingerprint : string; gq_PreferredRole : string; gq_Nickname : string }.
Definition decode_ConfigRequest : json -> option ConfigRequest :=
  decode_struct (Build_ConfigRequest "" "" "") [
    str_field "fingerprint" (fun v x => Build_ConfigRequest v x.(gq_PreferredRole) x.(gq_Nickname));
    str_field "preferred_role" (fun v x => Build_ConfigRequest x.(gq_Fingerprint) v x.(gq_Nickname));
    str_field "nickname" (fun v x => Build_ConfigRequest x.(gq_Fingerprint) x.(gq_PreferredRole) v) ].

Section api.
Context `{Gorm, JsonText, TimeText, Crypto}.

Definition status_ok : Response := writeJSON 200 (JObj [("status", JStr "ok")]).

Definition ConsentResponse (fingerprint : string) (c : option WorkerConsent) : json :=
  let accepted_at := match c with
                     | Some c => match c.(c_AcceptedAt) with Some t => rfc3339_format t | None => "" end
                     | None => ""
                     end in
  JObj ([("fingerprint", JStr fingerprint)] ++
        [("accepted", JBool (from_option c_Accepted false c))] ++
        omitempty (accepted_at == "") "accepted_at" (JStr accepted_at) ++
        [("hardware_stats", JBool (from_option c_HardwareStats false c))] ++
        [("config_preferences", JBool (from_option c_ConfigPreferences false c))]).

Definition getConsent (r : Request) : GoM Store Response :=
  let fingerprint := r.(r_Query) "fingerprint" in
  if fingerprint == "" then mret (writeError 400 "fingerprint query parameter required")
  else
    consent ← GetConsent fingerprint;
    match consent with
    | inr _ => mret (writeError 500 "database error")
    | inl c => mret (writeJSON 200 (ConsentResponse fingerprint c))
    end.

(** The body of [setConsent] on a decoded request. *)
Definition store_consent (now : Z) (req : ConsentRequest) : GoM Store Response :=
  err ← SetConsent now req.(cq_Fingerprint) req.(cq_Accepted) req.(cq_HardwareStats)
          req.(cq_ConfigPreferences) req.(cq_Hardware);
  match err with
  | Some _ => mret (writeError 500 "database error")
  | None =>
      (if req.(cq_Accepted) then SetWorkerAvailableIfWithdrawn req.(cq_Fingerprint)
       else SetWorkerStatus req.(cq_Fingerprint) "withdrawn" ;; skip) ;;
      mret status_ok
  end.

Definition setConsent (now : Z) (r : Request) : GoM Store Response :=
  match r.(r_Body) with
  | None => mret (writeError 400 "failed to read request body")
  | Some body =>
      match Unmarshal decode_ConsentRequest (json_parse body) with
      | None => mret (writeError 400 "invalid JSON")
      | Some req =>
          if req.(cq_Fingerprint) == "" then mret (writeError 400 "fingerprint is required")
          else store_consent now req
      end
  end.

Definition ConsentHandler (now : Z) (workerKey : string) (r : Request) : GoM Store Response :=
  if negb (authenticate_worker workerKey r) then mret (httpError "unauthorized" 401)
  else if r.(r_Method) == "GET" then getConsent r
  else if r.(r_Method) == "POST" then setConsent now r
  else mret (httpError "method not allowed" 405).

Definition ConfigResponse (fingerprint : string) (c : option WorkerConfig) : json :=
  JObj [("fingerprint", JStr fingerprint);
        ("preferred_role", JStr (from_option wc_PreferredRole "" c));
        ("nickname", JStr (from_option wc_Nickname "" c))].

Definition no_terms : Response := writeError 403 "worker has not accepted data collection terms".

Definition getConfig (r : Request) : GoM Store Response :=
  let fingerprint := r.(r_Query) "fingerprint" in
  if fingerprint == "" then mret (writeError 400 "fingerprint query parameter required")
  else
    consent ← HasConsent fingerprint;
    if negb consent then mret no_terms
    else
      config ← GetWorkerConfig fingerprint;
      match config with
      | inr _ => mret (writeError 500 "database error")
      | inl c => mret (writeJSON 200 (ConfigResponse fingerprint c))
      end.

Definition setConfig (r : Request) : GoM Store Response :=
  match r.(r_Body) with
  | None => mret (writeError 400 "failed to read request body")
  | Some body =>
      match Unmarshal decode_ConfigRequest (json_parse body) with
      | None => mret (writeError 400 "invalid JSON")
      | Some req =>
          if req.(gq_Fingerprint) == "" then mret (writeError 400 "fingerprint is required")
          else
            consent ← HasConsent req.(gq_Fingerprint);
            if negb consent then mret no_terms
            else
              err ← SetWorkerConfig req.(gq_Fingerprint) req.(gq_PreferredRole) req.(gq_Nickname);
              match err with
              | Some _ => mret (writeError 500 "database error")
              | None => mret status_ok
              end
      end
  end.

Definition ConfigHandler (workerKey : string) (r : Request) : GoM Store Response :=
  if negb (authenticate_worker workerKey r) then mret (httpError "unauthorized" 401)
  else if r.(r_Method) == "GET" then getConfig r
  else if r.(r_Method) == "POST" then setConfig r
  else mret (httpError "method not allowed" 405).

(** ** The farewell (goodbye.go) *)

Record goodbyeRequest := { gb_Fingerprint : string; gb_Payload : string; gb_Signature : string }.
Definition decode_goodbyeRequest : json -> option goodbyeRequest :=
  decode_struct (Build_goodbyeRequest "" "" "") [
    str_field "fingerprint" (fun v x => Build_goodbyeRequest v x.(gb_Payload) x.(gb_Signature));
    str_field "payload" (fun v x => Build_goodbyeRequest x.(gb_Fingerprint) v x.(gb_Signature));
    str_field "signature" (fun v x => Build_goodbyeRequest x.(gb_Fingerprint) x.(gb_Payload) v) ].

(** The timestamp of a payload "goodbye:<fingerprint>:<timestamp>", in range. *)
Definition goodbye_time_ok (now : Z) (fingerprint payload : string) : bool :=
  match SplitN payload ":" 3 with
  | [p0; p1; p2] =>
      (p0 == "goodbye") && (p1 == fingerprint) &&
      match rfc3339_parse p2 with
      | Some ts => bool_decide (Z.abs (now - ts) <= 5 * Minute)%Z
      | None => false
      end
  | _ => false
  end.

Definition goodbye_signed (worker : Worker) (req : goodbyeRequest) : bool :=
  match base64_DecodeString worker.(w_PublicKey) with
  | Some pubKey =>
      bool_decide (String.length pubKey = 32%nat) &&
      match hex_DecodeString req.(gb_Signature) with
      | Some sig => ed25519_verify pubKey req.(gb_Payload) sig
      | None => false
      end
  | None => false
  end.

Definition goodbye_ok : Response := {| status := 200; body := NoBody |}.

Definition GoodbyeHandler (now : Z) (r : Request) : GoM Store Response :=
  if r.(r_Method) != "POST" then mret goodbye_ok
  else match decode_body decode_goodbyeRequest r with
  | None => mret goodbye_ok
  | Some req =>
      if req.(gb_Fingerprint) == "" then mret goodbye_ok
      else if negb (goodbye_time_ok now req.(gb_Fingerprint) req.(gb_Payload)) then mret goodbye_ok
      else
        worker ← GetWorker req.(gb_Fingerprint);
        match worker with
        | inr _ => mret goodbye_ok
        | inl worker =>
            if negb (goodbye_signed worker req) then mret goodbye_ok
            else SetWorkerDeleted req.(gb_Fingerprint) ;; mret goodbye_ok
        end
  end.

(** ** Error reports (errors.go) *)

Record ErrorReportRequest := {
  eq_Fingerprint : string; eq_Version : string; eq_Error : string; eq_Stack : string; eq_Timestamp : string }.
Definition decode_ErrorReportRequest : json -> option ErrorReportRequest :=
  decode_struct (Build_ErrorReportRequest "" "" "" "" "") [
    str_field "fingerprint" (fun v x => Build_ErrorReportRequest v x.(eq_Version) x.(eq_Error) x.(eq_Stack) x.(eq_Timestamp));
    str_field "version" (fun v x => Build_ErrorReportRequest x.(eq_Fingerprint) v x.(eq_Error) x.(eq_Stack) x.(eq_Timestamp));
    str_field "error" (fun v x => Build_ErrorReportRequest x.(eq_Fingerprint) x.(eq_Version) v x.(eq_Stack) x.(eq_Timestamp));
    str_field "stack" (fun v x => Build_ErrorReportRequest x.(eq_Fingerprint) x.(eq_Version) x.(eq_Error) v x.(eq_Timestamp));
    str_field "timestamp" (fun v x => Build_ErrorReportRequest x.(eq_Fingerprint) x.(eq_Version) x.(eq_Error) x.(eq_Stack) v) ].

Definition worker_bearer (key : string) (r : Request) : bool :=
  (key == "") || (r.(r_Header) "Authorization" == ("Bearer " +:+ key)).

(** Row identifiers are assigned by the database and left out. *)
Definition errorEntry (e : ClientError) : json :=
  JObj [("fingerprint", JStr e.(ce_Fingerprint)); ("version", JStr e.(ce_Version));
        ("error", JStr e.(ce_ErrorMessage)); ("stack", JStr e.(ce_Stack));
        ("reported_at", JStr (rfc3339_format e.(ce_ReportedAt)))].

Definition errors_handleGet (workerKey : string) (r : Request) : GoM Store Response :=
  if negb (worker_bearer workerKey r) then mret (httpError "unauthorized" 401)
  else
    errors ← GetClientErrors;
    match errors with
    | inr _ => mret (httpError "internal error" 500)
    | inl errors =>
        mret (writeJSON 200 (JObj [("errors", match errors with [] => JNull | _ => JArr (errorEntry <$> errors) end);
                                   ("total", JNum (NInt (Z.of_nat (length errors))))]))
    end.

Definition errors_handlePost (now : Z) (workerKey : string) (r : Request) : GoM Store Response :=
  if negb (worker_bearer workerKey r) then mret (httpError "unauthorized" 401)
  else match r.(r_Body) with
  | None => mret (httpError "failed to read body" 400)
  | Some body =>
      (* io.LimitReader: the rest of a longer body is cut off *)
      match Unmarshal decode_ErrorReportRequest (json_parse (take_str (64 * 1024) body)) with
      | None => mret (httpError "invalid JSON" 400)
      | Some req =>
          if (req.(eq_Fingerprint) == "") || (req.(eq_Error) == "")
          then mret (httpError "fingerprint and error are required" 400)
          else
            let reportedAt := default now (rfc3339_parse req.(eq_Timestamp)) in
            err ← CreateClientError req.(eq_Fingerprint) req.(eq_Version) req.(eq_Error) req.(eq_Stack) reportedAt;
            match err with
            | Some _ => mret (httpError "internal error" 500)
            | None => mret {| status := 201; body := NoBody |}
            end
      end
  end.

Definition ErrorsHandler (now : Z) (workerKey : string) (r : Request) : GoM Store Response :=
  if r.(r_Method) == "POST" then errors_handlePost now workerKey r
  else if r.(r_Method) == "GET" then errors_handleGet workerKey r
  else mret (httpError "method not allowed" 405).
End api.

(** ** Lemmas on the consent rows *)

Section consent_rows.
Context `{GormLaws, !GormUp}.

Definition consent_of (fp : string) (s : Store) : option WorkerConsent :=
  List.find (by_consent_fp fp) (live (db_Consents s)).

Lemma find_app_none {R} (p : R -> bool) l r : List.find p l = None -> List.find p (l ++ [r]) = if p r then Some r else None.
Proof.
  induction l as [|x l IH]; cbn; [by destruct (p r)|]. destruct (p x); [done|exact IH].
Qed.
Lemma find_app_some {R} (p : R -> bool) l l' x : List.find p l = Some x -> List.find p (l ++ l') = Some x.
Proof. induction l as [|y l IH]; [done|]. cbn. destruct (p y); [done|exact IH]. Qed.

Lemma with_hardware_fp hw c : c_Fingerprint (with_hardware hw c) = c_Fingerprint c.
Proof. by destruct hw. Qed.
Lemma with_hardware_accepted hw c : c_Accepted (with_hardware hw c) = c_Accepted c.
Proof. by destruct hw. Qed.

(** The consent of the fingerprint is what was submitted; no other changes. *)
Lemma SetConsent_rows now fp acc hs cp hw s s' :
  SetConsent now fp acc hs cp hw s = (s', Ret None) ->
  db_Workers s' = db_Workers s /\ db_Configs s' = db_Configs s /\
  (exists c, consent_of fp s' = Some c /\ c.(c_Accepted) = acc /\ c.(c_HardwareStats) = hs /\
     c.(c_ConfigPreferences) = cp /\ with_hardware hw c = c) /\
  (forall fp', fp' <> fp -> consent_of fp' s' = consent_of fp' s).
Proof.
  unfold SetConsent. rewrite (bind_Ret _ _ _ _ _ (First_up Consents _ s)). cbn [lget Consents].
  unfold consent_of. destruct (List.find (by_consent_fp fp) (live (db_Consents s))) as [c|] eqn:Hc.
  - pose proof Hc as Hfp. apply find_in in Hfp as [_ Hfp%bool_decide_eq_true_1].
    set (f := fun c0 => with_hardware hw _).
    destruct (Updates_up Consents (by_consent_fp (c_Fingerprint c)) f s) as (t & E & Hl & _).
    rewrite E. intros [= <-]. cbn. rewrite Hl. cbn [lget Consents].
    assert (Hkey : forall x, c_Fingerprint (f x) = c_Fingerprint x)
      by (intros x; unfold f; by rewrite with_hardware_fp).
    split_and!; [done|done| |].
    + rewrite find_update_other by (intros x; unfold by_consent_fp; by rewrite Hkey). rewrite Hc. cbn.
      unfold by_consent_fp at 1. rewrite bool_decide_true by done.
      eexists. split; [done|]. unfold f. by destruct hw.
    + intros fp' Hne. rewrite find_update_other by (intros x; unfold by_consent_fp; by rewrite Hkey).
      destruct (List.find (by_consent_fp fp') _) as [c'|] eqn:Hc'; [|done]. cbn.
      apply find_in in Hc' as [_ Hc'%bool_decide_eq_true_1]. unfold by_consent_fp.
      rewrite bool_decide_false by congruence. done.
  - unfold Create. destruct (db_create _ _ _) as [t [e|]] eqn:E; [done|]. intros [= <-]. cbn.
    destruct (create_ok _ _ _ _ E) as (Hl & _ & _). rewrite Hl. split_and!; [done|done| |].
    + rewrite find_app_none by done. unfold by_consent_fp. rewrite with_hardware_fp. cbn.
      rewrite bool_decide_true by done. eexists. split; [done|]. by destruct hw.
    + intros fp' Hne. change (lget Consents s) with (db_Consents s).
      destruct (List.find (by_consent_fp fp') (live (db_Consents s))) as [c'|] eqn:Hc'.
      * by apply find_app_some.
      * rewrite find_app_none by done. unfold by_consent_fp. rewrite with_hardware_fp. cbn.
        by rewrite bool_decide_false by congruence.
Qed.

(** A status update of one fingerprint, as the rows see it. *)
Lemma status_update_rows p st s s' r :
  Updates_ Workers p (set_w_Status st) s = (s', r) ->
  db_Consents s' = db_Consents s /\
  forall fp', worker_row fp' s' =
    (fun w => if p w then set_w_Status st w else w) <$> worker_row fp' s.
Proof.
  destruct (Updates__up Workers p (set_w_Status st) s) as (t & E & Hl & _).
  rewrite E. intros [= <- _]. cbn. split; [done|]. intros fp'. unfold worker_row. cbn. rewrite Hl.
  by rewrite find_update_other.
Qed.

Lemma HasConsent_row fp s : unique_index c_Fingerprint (db_Consents s) ->
  result (HasConsent fp) s = Ret (from_option c_Accepted false (consent_of fp s)).
Proof.
  intros Hu%live_NoDup. unfold HasConsent, result. rewrite (bind_Ret _ _ _ _ _ (First_up Consents _ s)).
  cbn. f_equal. unfold consent_of. destruct (List.find (by_consent_fp fp) _) as [c|] eqn:Hc.
  - pose proof Hc as Hin. apply find_in in Hin as [Hin Hfp]. cbn. destruct (c_Accepted c) eqn:Ha.
    + destruct (List.find (fun c => by_consent_fp fp c && c_Accepted c) _) eqn:Hf; [done|].
      apply list_elem_of_In, (find_none _ _ Hf) in Hin. by rewrite Hfp, Ha in Hin.
    + destruct (List.find (fun c => by_consent_fp fp c && c_Accepted c) _) as [c'|] eqn:Hf; [|done].
      apply find_in in Hf as [Hin' [Hfp' Ha']%andb_true_iff].
      apply bool_decide_eq_true_1 in Hfp, Hfp'.
      pose proof (find_unique c_Fingerprint _ c Hu Hin) as F1.
      pose proof (find_unique c_Fingerprint _ c' Hu Hin') as F2. rewrite Hfp in F1. rewrite Hfp' in F2.
      congruence.
  - destruct (List.find (fun c => by_consent_fp fp c && c_Accepted c) _) as [c'|] eqn:Hf; [|done].
    apply find_in in Hf as [Hin' [Hfp' Ha']%andb_true_iff].
    apply list_elem_of_In, (find_none _ _ Hc) in Hin'. congruence.
Qed.

(** The configuration of the fingerprint is what was submitted. *)
Lemma SetWorkerConfig_rows fp role nick s s' :
  SetWorkerConfig fp role nick s = (s', Ret None) ->
  db_Consents s' = db_Consents s /\ db_Workers s' = db_Workers s /\
  GetWorkerConfig fp s' = (s', Ret (inl (Some (Build_WorkerConfig fp role nick)))).
Proof.
  unfold SetWorkerConfig, GetWorkerConfig. rewrite (bind_Ret _ _ _ _ _ (First_up Configs _ s)). cbn [lget Configs].
  rewrite (bind_Ret _ _ _ _ _ (First_up Configs _ s')). cbn [lget Configs].
  destruct (List.find (by_config_fp fp) (live (db_Configs s))) as [c|] eqn:Hc.
  - pose proof Hc as Hfp. apply find_in in Hfp as [_ Hfp%bool_decide_eq_true_1].
    set (f := fun c0 => Build_WorkerConfig (wc_Fingerprint c0) role nick).
    destruct (Updates_up Configs (by_config_fp (wc_Fingerprint c)) f s) as (t & E & Hl & _).
    rewrite E. intros [= <-]. cbn. rewrite Hl. cbn [lget Configs].
    rewrite find_update_other by done. rewrite Hc. cbn. unfold by_config_fp at 1.
    rewrite bool_decide_true by done. unfold f. by rewrite Hfp.
  - unfold Create. destruct (db_create _ _ _) as [t [e|]] eqn:E; [done|]. intros [= <-]. cbn.
    destruct (create_ok _ _ _ _ E) as (Hl & _ & _). rewrite Hl. rewrite find_app_none by done.
    unfold by_config_fp. cbn. by rewrite bool_decide_true.
Qed.
End consent_rows.

(** ** Properties *)

Section properties.
Context `{GormLaws, JsonText, TimeText, Crypto}.

(** What a decision that is answered with ok comes to. *)
Lemma store_consent_effect `{!GormUp} now req s s' :
  unique_fingerprints s' ->
  store_consent now req s = (s', Ret status_ok) ->
  let fp := req.(cq_Fingerprint) in
  result (HasConsent fp) s' = Ret req.(cq_Accepted) /\
  (forall w, worker_row fp s = Some w -> worker_row fp s' = Some
     (if negb req.(cq_Accepted) then set_w_Status "withdrawn" w
      else if w.(w_Status) == "withdrawn" then set_w_Status "available" w else w)) /\
  (forall fp', fp' <> fp -> worker_row fp' s' = worker_row fp' s /\ consent_of fp' s' = consent_of fp' s) /\
  exists c, consent_of fp s' = Some c /\ c.(c_HardwareStats) = req.(cq_HardwareStats) /\
    c.(c_ConfigPreferences) = req.(cq_ConfigPreferences) /\ with_hardware req.(cq_Hardware) c = c.
Proof.
  intros (_ & Hu & _) E fp. unfold store_consent in E.
  apply bind_inv in E as (s1 & err & Ec & E). destruct err; [done|].
  destruct (SetConsent_rows _ _ _ _ _ _ _ _ Ec) as (HW & _ & (c & Hc & Ha & Hhs & Hcp & Hhw) & Hother).
  assert (Hst : db_Consents s' = db_Consents s1 /\ forall fp', worker_row fp' s' =
    (fun w => if by_fp fp w && (negb req.(cq_Accepted) || (w.(w_Status) == "withdrawn"))
              then set_w_Status (if req.(cq_Accepted) then "available" else "withdrawn") w else w)
      <$> worker_row fp' s1).
  { destruct (cq_Accepted req) eqn:Hacc; cbn [negb orb] in *.
    - apply bind_inv in E as (s2 & [] & E2 & [= <-]).
      exact (status_update_rows _ _ _ _ _ E2).
    - apply bind_inv in E as (s2 & [] & E2 & [= <-]). apply bind_inv in E2 as (s3 & r & E3 & [= <-]).
      destruct (Updates_up Workers (by_fp fp) (set_w_Status "withdrawn") s1) as (t & E4 & Hl & _).
      unfold SetWorkerStatus in E3. subst fp. rewrite E4 in E3. simplify_eq. split; [done|]. intros fp'.
      unfold worker_row. cbn. rewrite Hl. rewrite find_update_other by done. cbn.
      destruct (List.find _ _); [|done]. cbn. by rewrite andb_true_r. }
  destruct Hst as [HC Hrow].
  assert (Hrow1 : forall fp', worker_row fp' s1 = worker_row fp' s) by (intros; unfold worker_row; by rewrite HW).
  assert (Hcon : forall fp', consent_of fp' s' = consent_of fp' s1) by (intros; unfold consent_of; by rewrite HC).
  split_and!.
  - rewrite HasConsent_row by done. subst fp. rewrite Hcon, Hc. cbn. by rewrite Ha.
  - intros w Hw. rewrite Hrow, Hrow1, Hw. cbn.
    pose proof (worker_row_fp _ _ _ Hw) as Hfp. unfold by_fp. rewrite bool_decide_true by done. cbn [andb].
    by destruct (cq_Accepted req), (w_Status w == "withdrawn").
  - intros fp' Hne. split; [|rewrite Hcon; by apply Hother]. rewrite Hrow, Hrow1.
    destruct (worker_row fp' s) as [w|] eqn:Hw; [|done]. cbn. apply worker_row_fp in Hw.
    unfold by_fp. by rewrite bool_decide_false by congruence.
  - exists c. subst fp. by rewrite Hcon.
Qed.

(** A consent decision takes effect at once. When the request is answered
    with "ok", the worker's consent reads as submitted; a withdrawal leaves
    the worker "withdrawn", so that no dispatcher picks it; an acceptance
    makes a "withdrawn" worker "available" and leaves any other status; no
    other worker and no other consent changes. *)
Theorem consent_takes_effect `{!GormUp} now req s s' :
  unique_fingerprints s' ->
  store_consent now req s = (s', Ret status_ok) ->
  let fp := req.(cq_Fingerprint) in
  result (HasConsent fp) s' = Ret req.(cq_Accepted) /\
  (forall w, worker_row fp s = Some w -> worker_row fp s' = Some
     (if negb req.(cq_Accepted) then set_w_Status "withdrawn" w
      else if w.(w_Status) == "withdrawn" then set_w_Status "available" w else w)) /\
  (forall fp', fp' <> fp -> worker_row fp' s' = worker_row fp' s /\ consent_of fp' s' = consent_of fp' s).
Proof. intros Hu E. by destruct (store_consent_effect now req s s' Hu E) as (H1' & H2' & H3' & _). Qed.

(** C19. The farewell endpoint deletes a worker by its own signature only. The handler
    always answers 200, and a row it changes becomes "deleted" because the request
    names that worker in a fresh payload whose signature verifies under the
    public key stored in that very row. The gateway is another way to that
    status, and asks for no signature ([status_message_deletes]). *)
Theorem goodbye_is_signed now r s :
  unique_index w_Fingerprint (db_Workers s) ->
  exists s', GoodbyeHandler now r s = (s', Ret goodbye_ok) /\
    length (live (db_Workers s')) = length (live (db_Workers s)) /\
    forall i w w', live (db_Workers s) !! i = Some w -> live (db_Workers s') !! i = Some w' -> w' <> w ->
      w' = set_w_Status "deleted" w /\ r.(r_Method) = "POST" /\
      exists req, decode_body decode_goodbyeRequest r = Some req /\
        req.(gb_Fingerprint) = w.(w_Fingerprint) /\
        goodbye_time_ok now w.(w_Fingerprint) req.(gb_Payload) = true /\ goodbye_signed w req = true.
Proof.
  intros Hu%live_NoDup. unfold GoodbyeHandler.
  assert (Hskip : forall P : nat -> Worker -> Worker -> Prop, exists s',
    (mret goodbye_ok : GoM Store Response) s = (s', Ret goodbye_ok) /\
    length (live (db_Workers s')) = length (live (db_Workers s)) /\
    forall i w w', live (db_Workers s) !! i = Some w ->
      live (db_Workers s') !! i = Some w' -> w' <> w -> P i w w').
  { intros P. exists s. split_and!; [done|done|]. intros i w w' A B. congruence. }
  destruct (bool_decide_reflect (r_Method r = "POST")) as [Hm|_]; cbn [negb];
    [|apply Hskip].
  destruct (decode_body decode_goodbyeRequest r) as [req|] eqn:Hreq; [|apply Hskip].
  destruct (gb_Fingerprint req == ""); [apply Hskip|].
  destruct (goodbye_time_ok _ _ _) eqn:Ht; cbn [negb]; [|apply Hskip].
  unfold GetWorker, First. rewrite (bind_Ret _ _ s s (db_first (by_fp (gb_Fingerprint req)) (db_Workers s))) by done.
  destruct (db_first _ (db_Workers s)) as [worker|e] eqn:Hf; [|apply Hskip].
  destruct (goodbye_signed worker req) eqn:Hs; cbn [negb]; [|apply Hskip].
  apply first_found, find_in in Hf as [Hin Hfp%bool_decide_eq_true_1].
  unfold SetWorkerDeleted, Updates, UpdatesN, mbind, GoM_bind. cbn.
  pose proof (updates_rows (by_fp (gb_Fingerprint req)) (set_w_Status "deleted") (db_Workers s)) as [_ Hr].
  cbn in Hr. destruct (db_updates _ _ _) as [t n]. cbn in Hr. eexists. split; [done|]. cbn.
  destruct Hr as [-> | ->].
  { split; [done|]. intros i w w' A B. congruence. }
  unfold update_rows. split; [by rewrite length_fmap|]. intros i w w' Hw Hw' Hne.
  rewrite list_lookup_fmap, Hw in Hw'. cbn in Hw'. unfold by_fp in Hw'.
  case_bool_decide as Hwf; simplify_eq. split; [done|]. split; [done|].
  assert (w = worker) as <-.
  { pose proof (find_unique w_Fingerprint _ w Hu (list_elem_of_lookup_2 _ _ _ Hw)) as F1.
    pose proof (find_unique w_Fingerprint _ worker Hu Hin) as F2. rewrite Hfp in F2. rewrite Hwf in F1. congruence. }
  exists req. rewrite Hwf. done.
Qed.

(** Without the worker key nothing happens: in key mode, a request to the
    consent, configuration or error endpoints that presents neither header form
    of the key is refused and leaves the database as it was. *)
Theorem unauthenticated_requests_change_nothing now key r s :
  key <> "" -> r.(r_Header) "X-API-Key" <> key -> r.(r_Header) "Authorization" <> "Bearer " +:+ key ->
  ConsentHandler now key r s = (s, Ret (httpError "unauthorized" 401)) /\
  ConfigHandler key r s = (s, Ret (httpError "unauthorized" 401)) /\
  exists resp, ErrorsHandler now key r s = (s, Ret resp) /\ (resp.(status) = 401 \/ resp.(status) = 405)%Z.
Proof.
  intros Hk Hx Ha.
  assert (Hauth : authenticate_worker key r = false).
  { unfold authenticate_worker. rewrite !bool_decide_false by done. cbn [orb].
    destruct (bool_decide _ && HasPrefix _ _) eqn:E; [|done]. apply bool_decide_false.
    apply andb_true_iff in E as [_ (t & Et)%HasPrefix_spec]. intros Hd. apply Ha. rewrite Et in *.
    pose proof (drop_str_app "Bearer " t) as Hdrop. f_equal. rewrite <- Hd. symmetry. exact Hdrop. }
  assert (Hb : worker_bearer key r = false) by (unfold worker_bearer; by rewrite !bool_decide_false).
  unfold ConsentHandler, ConfigHandler, ErrorsHandler, errors_handlePost, errors_handleGet.
  rewrite Hauth, Hb. cbn [negb]. split; [done|]. split; [done|].
  destruct (r_Method r == "POST"); [eexists; split; [done|by left]|].
  destruct (r_Method r == "GET"); eexists; (split; [done|]); cbn; auto.
Qed.

(** A configuration is only stored for a worker that has accepted the
    terms, whatever the request and whichever statements fail. *)
Theorem config_requires_consent key r s :
  let s' := run (ConfigHandler key r) s in
  db_Consents s' = db_Consents s /\
  (db_Configs s' = db_Configs s \/
   exists b req c, r.(r_Body) = Some b /\ Unmarshal decode_ConfigRequest (json_parse b) = Some req /\
     c ∈ live (db_Consents s) /\ c.(c_Fingerprint) = req.(gq_Fingerprint) /\ c.(c_Accepted) = true).
Proof.
  intros s'. split.
  { assert (Hk : keeps (unchanged db_Consents) (ConfigHandler key r)).
    { unfold ConfigHandler, getConfig, setConfig, HasConsent, GetWorkerConfig, SetWorkerConfig. keeps_tac. }
    apply Hk. }
  subst s'. unfold ConfigHandler, run. destruct (authenticate_worker key r); cbn [negb]; [|by left].
  destruct (r_Method r == "GET").
  { left. assert (Hk : keeps (unchanged db_Configs) (getConfig r)).
    { unfold getConfig, HasConsent, GetWorkerConfig. keeps_tac. }
    apply Hk. }
  destruct (r_Method r == "POST"); [|by left]. unfold setConfig.
  destruct (r_Body r) as [b|] eqn:Hb; [|by left].
  destruct (Unmarshal decode_ConfigRequest (json_parse b)) as [req|] eqn:Hreq; [|by left].
  destruct (gq_Fingerprint req == ""); [by left|].
  unfold HasConsent, First, mbind, GoM_bind, gets. cbn.
  destruct (db_first _ _) as [c|] eqn:Hc; cbn; [|by left]. right.
  apply first_found, find_in in Hc as [Hin [Hfp%bool_decide_eq_true_1 Ha]%andb_true_iff].
  by exists b, req, c.
Qed.
End properties.

Section witnesses.
#[local] Existing Instances MemGorm MemGormLaws MemGormUp ToyCrypto NoJson.

Definition req_ex (acc : bool) : ConsentRequest := Build_ConsentRequest fp_ex acc false false None.
Definition consent_store : Store :=
  lset Consents (mem_rows [sample_consent fp_ex]) (store_ex "h").

Lemma consent_takes_effect_witness :
  let s' := run (store_consent 5 (req_ex false)) consent_store in
  result (HasConsent fp_ex) s' = Ret false /\
  w_Status <$> worker_row fp_ex s' = Some "withdrawn".
Proof.
  destruct (consent_takes_effect 5 (req_ex false) consent_store (run (store_consent 5 (req_ex false)) consent_store))
    as (H1 & H2 & _).
  - split_and!; apply (bool_decide_unpack _); vm_compute; done.
  - vm_compute. reflexivity.
  - split; [exact H1|].
    exact (f_equal (fmap w_Status) (H2 (sample_worker fp_ex "h" "synced" "available") eq_refl)).
Defined.

(** One fixed instant and one fixed body, for the requests below. *)
Definition time_ex : TimeText := {| rfc3339_format _ := "t"; rfc3339_parse s := if s == "t" then Some 0%Z else None |}.
#[local] Existing Instance time_ex.
Definition request_ex (method : string) : Request :=
  {| r_Method := method; r_Path := ""; r_Header _ := ""; r_Query _ := ""; r_Body := Some "{}" |}.

(** A worker with a key on file, and a parser of its signed farewell. *)
Definition key_ex : string := "0123456789abcdef0123456789abcdef".
Definition payload_ex : string := "goodbye:" +:+ fp_ex +:+ ":t".
Definition goodbye_json : json :=
  JObj [("fingerprint", JStr fp_ex); ("payload", JStr payload_ex);
        ("signature", JStr (hex_EncodeToString (key_ex +:+ payload_ex)))].
Definition GoodbyeJson : JsonText := {| json_text _ := "{}"; json_parse _ := Some goodbye_json; json_first _ := Some goodbye_json |}.
Definition keyed_worker (st : string) : Worker :=
  {| w_Fingerprint := fp_ex; w_PublicKey := base64_EncodeToString key_ex; w_LLMModel := "";
     w_Quantisation := ""; w_ClientVersion := ""; w_OS := ""; w_Arch := ""; w_LLMHash := "";
     w_SyncStatus := ""; w_BackendHash := ""; w_BackendVersion := ""; w_BinarySyncStatus := "";
     w_BackendSyncStatus := ""; w_TrustScore := 0; w_TotalRequests := 0; w_TotalLatencyMs := 0;
     w_GPUAvg := 0; w_LastSeenAt := 0; w_Status := st |}.
Definition keyed_store : Store := lset Workers (mem_rows [keyed_worker "available"]) empty_store.

Lemma goodbye_is_signed_witness :
  exists s', @GoodbyeHandler _ GoodbyeJson time_ex _ 0 (request_ex "POST") keyed_store = (s', Ret goodbye_ok) /\
    live (db_Workers s') = [keyed_worker "deleted"] /\
    goodbye_time_ok 0 fp_ex payload_ex = true /\
    goodbye_signed (keyed_worker "available") (Build_goodbyeRequest fp_ex payload_ex (hex_EncodeToString (key_ex +:+ payload_ex))) = true.
Proof.
  destruct (@goodbye_is_signed _ _ GoodbyeJson time_ex _ 0 (request_ex "POST") keyed_store) as (s' & E & Hl & Hrow).
  { apply (bool_decide_unpack _). vm_compute. done. }
  assert (Es : live (db_Workers s') = [keyed_worker "deleted"]).
  { change s' with (fst (s', Ret goodbye_ok)). rewrite <- E. vm_compute. reflexivity. }
  exists s'. split; [exact E|]. split; [exact Es|].
  destruct (Hrow 0 (keyed_worker "available") (keyed_worker "deleted")) as (_ & _ & req & Hreq & _ & Ht & Hs);
    [reflexivity|rewrite Es; reflexivity|discriminate|].
  vm_compute in Hreq. injection Hreq as <-. split; [exact Ht|exact Hs].
Defined.

Lemma unauthenticated_requests_change_nothing_witness :
  ConsentHandler 0 "secret" (request_ex "POST") consent_store =
    (consent_store, Ret (httpError "unauthorized" 401)).
Proof.
  destruct (unauthenticated_requests_change_nothing 0 "secret" (request_ex "POST") consent_store) as (E & _);
    [discriminate|discriminate|discriminate|exact E].
Defined.
End witnesses.
