(* ===== verification/Units.v ===== *)
(** * Work units and batch requests in the store (store.go)

    The records of dispatched work units and the queue of batch requests.
    [CreatedAt] and [UpdatedAt] of a batch row are kept by the database layer:
    every update of the row sets the latter. *)

From S2P Require Import Prelude GoStd Gorm Models.

Section units.
Context `{Gorm}.

Definition by_unit (id : string) (u : WorkUnitRow) : bool := u.(u_UnitID) == id.
Definition same_unit (u v : WorkUnitRow) : bool := u.(u_UnitID) == v.(u_UnitID).
Definition by_request (id : string) (b : BatchRequest) : bool := b.(b_RequestID) == id.
Definition same_request (a b : BatchRequest) : bool := a.(b_RequestID) == b.(b_RequestID).

Definition RecordWorkUnit (now : Z) (unitID workerFingerprint model : string) : GoM Store (option db_err) :=
  Create WorkUnits same_unit
    {| u_UnitID := unitID; u_WorkerFingerprint := workerFingerprint; u_LLMModel := model;
       u_Status := "dispatched"; u_ProcessingTimeMs := 0; u_ErrorMessage := "";
       u_CreatedAt := now; u_CompletedAt := None |}.

Definition CompleteWorkUnit (now : Z) (unitID : string) (processingTimeMs : Z) : GoM Store (option db_err) :=
  Updates WorkUnits (by_unit unitID) (fun u =>
    set_u_Status "completed" (set_u_ProcessingTimeMs processingTimeMs (set_u_CompletedAt (Some now) u))).

Definition FailWorkUnit (now : Z) (unitID errorMessage : string) : GoM Store (option db_err) :=
  Updates WorkUnits (by_unit unitID) (fun u =>
    set_u_Status "failed" (set_u_ErrorMessage errorMessage (set_u_CompletedAt (Some now) u))).

Definition TimeoutWorkUnit (now : Z) (unitID : string) : GoM Store (option db_err) :=
  Updates WorkUnits (by_unit unitID) (fun u => set_u_Status "timeout" (set_u_CompletedAt (Some now) u)).

(** ** Batch requests *)

Definition CreateBatchRequest (now : Z) (requestID model payload : string) : GoM Store (option db_err) :=
  Create Batches same_request
    {| b_RequestID := requestID; b_LLMModel := model; b_Payload := payload; b_Status := "pending";
       b_Result := ""; b_ErrMessage := ""; b_CreatedAt := now; b_UpdatedAt := now |}.

Definition GetBatchRequest (requestID : string) : GoM Store (option BatchRequest + db_err) :=
  result ← First Batches (by_request requestID);
  mret (match result with
        | inl b => inl (Some b)
        | inr ErrRecordNotFound => inl None
        | inr e => inr e
        end).

Definition is_pending (b : BatchRequest) : bool := b.(b_Status) == "pending".

Definition GetPendingBatchRequests (limit : nat) : GoM Store (list BatchRequest + db_err) :=
  Find Batches is_pending (Some b_CreatedAt) (Some limit).

Definition SetBatchRequestProcessing (now : Z) (requestID : string) : GoM Store (option db_err) :=
  Updates Batches (fun b => by_request requestID b && is_pending b)
    (fun b => set_b_Status "processing" (set_b_UpdatedAt now b)).

Definition CompleteBatchRequest (now : Z) (requestID result : string) : GoM Store (option db_err) :=
  Updates Batches (by_request requestID)
    (fun b => set_b_Status "completed" (set_b_Result result (set_b_UpdatedAt now b))).

Definition FailBatchRequest (now : Z) (requestID errMsg : string) : GoM Store (option db_err) :=
  Updates Batches (by_request requestID)
    (fun b => set_b_Status "failed" (set_b_ErrMessage errMsg (set_b_UpdatedAt now b))).

Definition ListBatchRequests (limit : nat) : GoM Store (list BatchRequest + db_err) :=
  Find Batches (fun _ => true) (Some (fun b => - b.(b_CreatedAt))%Z) (Some limit).
End units.

(** ** The lifecycle of a work unit's record *)

Section properties.
Context `{GormLaws, !GormUp}.

Definition batch_of (id : string) (s : Store) : option BatchRequest :=
  List.find (by_request id) (live (db_Batches s)).

(** What an update of the row of a request leaves in it. *)
Lemma batch_update_row p f id s : (forall b, by_request id (f b) = by_request id b) -> exists s',
  Updates Batches p f s = (s', Ret None) /\
  batch_of id s' = (fun b => if p b then f b else b) <$> batch_of id s /\
  db_WorkUnits s' = db_WorkUnits s /\ db_Workers s' = db_Workers s /\ db_Consents s' = db_Consents s.
Proof.
  intros Hf. destruct (Updates_up Batches p f s) as (t & E & Hl & _). exists (lset Batches t s).
  split_and!; [done| |done..]. unfold batch_of. cbn. rewrite Hl. by apply find_update_other.
Qed.

(** Batch requests are served in order: the request the queue hands out
    next is pending, and no pending request was created before it; none is
    handed out only when none is pending. *)
Theorem pending_batches_are_fifo s :
  exists l, GetPendingBatchRequests 1 s = (s, Ret (inl l)) /\
  match l with
  | [] => forall b, b ∈ live (db_Batches s) -> b.(b_Status) <> "pending"
  | [br] => br ∈ live (db_Batches s) /\ br.(b_Status) = "pending" /\
            forall b, b ∈ live (db_Batches s) -> b.(b_Status) = "pending" ->
              (br.(b_CreatedAt) <= b.(b_CreatedAt))%Z
  | _ => False
  end.
Proof.
  unfold GetPendingBatchRequests, Find, gets. cbn.
  destruct (up_find is_pending (Some b_CreatedAt) (Some 1) (db_Batches s)) as [l E]. rewrite E.
  exists l. split; [done|]. destruct (find_ok _ _ _ _ _ E) as (l' & Hp & Hord & ->). cbn [limited].
  assert (Hin : forall b, b ∈ l' <-> b ∈ live (db_Batches s) /\ b.(b_Status) = "pending").
  { intros b. rewrite Hp, list_elem_of_In, filter_In, <- list_elem_of_In. unfold is_pending.
    by rewrite bool_decide_eq_true. }
  destruct l' as [|br l']; cbn [take].
  - intros b Hb Hst. by apply (not_elem_of_nil b), Hin.
  - rewrite firstn_O. destruct (proj1 (Hin br)) as [Ha1 Ha2]; [left|]. split; [done|]. split; [done|].
    intros b Hb Hst. assert (Hbl : b ∈ br :: l') by by apply Hin.
    apply Sorted_StronglySorted in Hord; [|intros x y z; lia]. inversion Hord as [|? ? _ Hall]; subst.
    apply elem_of_cons in Hbl as [->|Hbl]; [done|]. rewrite Forall_forall in Hall.
    by apply Hall, list_elem_of_In.
Qed.
End properties.
