(* ===== verification/Completions.v ===== *)
(** * Chat completions (internal/manager/api/completions.go)

    The OpenAI-compatible endpoint: a request becomes a work unit, a worker
    takes it, and the handler waits for the answer or the timeout. The
    handler runs in two phases, between which the rest of the manager moves
    on: [completions_start] up to the [select], [completions_end] from the
    [select] on, given the branch it takes. A branch whose channel is empty
    cannot be taken: [Blocked]. *)

From S2P Require Import Prelude GoStd Json Protocol Gorm Models Workers Queue Roles Gateway Latency Http Units.

Record CompletionsHandler := {
  h_apiKey : string;
  h_latencyMonitor : bool;   (* is a monitor attached *)
}.

(** What the handler knows when it waits. *)
Record waiting := {
  wt_unitID : string;
  wt_slot : nat;
  wt_fingerprint : string;
  wt_role : string;
  wt_payloadBytes : Z;
  wt_model : string;
}.

Inductive wakeup := OnResult | OnError | OnTimeout.

Definition pauseTrigger : string := "##############PAUSE##############".

Definition containsPauseTrigger (messages : list ChatMessage) : bool :=
  existsb (fun msg => Contains msg.(cm_Content) pauseTrigger) messages.

Definition work_unit (unitID : string) (req : ChatCompletionRequest) : WorkUnit :=
  {| wu_Type := TypeWorkUnit; wu_ID := unitID; wu_Model := req.(cr_Model);
     wu_Params := {| wp_Temperature := req.(cr_Temperature); wp_MaxTokens := req.(cr_MaxTokens);
                     wp_ResponseFormat := req.(cr_ResponseFormat) |};
     wu_Messages := req.(cr_Messages) |}.

Section completions.
Context `{Gorm, WebSocket, Crypto, JsonText}.

(** The body of [writeResult], and of [buildBatchResult]: the worker's output
    if it is a response with choices, a response around its text otherwise. *)
Definition chat_response (now : Z) (result : Result) (model : string) : ChatCompletionResponse :=
  let wrapped :=
    {| cc_ID := result.(rs_ID); cc_Object := "chat.completion"; cc_Created := Unix now;
       cc_Model := model;
       cc_Choices := [ {| ch_Index := 0;
                          ch_Message := {| cm_Role := "assistant";
                                           cm_Content := default "" (json_text <$> result.(rs_Output)) |};
                          ch_FinishReason := "stop" |} ];
       cc_Usage := None |} in
  match Unmarshal decode_ChatCompletionResponse result.(rs_Output) with
  | Some response =>
      if bool_decide (0 < length response.(cc_Choices))%nat then
        {| cc_ID := result.(rs_ID); cc_Object := "chat.completion"; cc_Created := Unix now;
           cc_Model := model; cc_Choices := response.(cc_Choices); cc_Usage := response.(cc_Usage) |}
      else wrapped
  | None => wrapped
  end.

Definition writeResult (now : Z) (result : Result) (model : string) : Response :=
  writeJSON 200 (Marshal_ChatCompletionResponse (chat_response now result model)).

(** The role latency is recorded under: the worker's preferred one. *)
Definition preferred_role (fingerprint : string) : GoM Store string :=
  wc ← GetWorkerConfig fingerprint;
  mret (match wc with inl (Some wc) => wc.(wc_PreferredRole) | _ => "" end).
Definition role_or_default (workerRole : string) : string :=
  if workerRole == "" then "inference" else workerRole.

(** A fresh ID, its pending slot, and the dispatch of the unit: forced when it
    must reach a paused worker. The slot is cancelled when nobody takes it.
    Shared with the batch processor. *)
Definition send_unit (now : Z) (ord : map_order) (forced : bool) (req : ChatCompletionRequest)
    : GoM Gateway (option (string * nat * WorkerInfo)) :=
  unitID ← on_queue (NextID now);
  let workUnit := work_unit unitID req in
  pending ← on_queue (Register unitID);
  dispatchedTo ← (if forced then DispatchForced ord workUnit else Dispatch ord workUnit);
  match dispatchedTo with
  | None => on_queue (Cancel unitID) ;; mret None
  | Some info => mret (Some (unitID, pending, info))
  end.

(** [ord1] and [ord2] are the map orders of the availability check and of
    the dispatch. *)
Definition completions_start (now : Z) (ord1 ord2 : map_order) (h : CompletionsHandler) (r : Request)
    : GoM Gateway (Response + waiting) :=
  if r.(r_Method) != "POST" then mret (inl (httpError "method not allowed" 405))
  else if negb (authenticate_api h.(h_apiKey) r) then mret (inl (httpError "unauthorized" 401))
  else
  connected ← HasWorker;
  if negb connected then mret (inl (writeError 503 "no worker connected"))
  else match r.(r_Body) with
  | None => mret (inl (writeError 400 "failed to read request body"))
  | Some body =>
  match Unmarshal decode_ChatCompletionRequest (json_parse body) with
  | None => mret (inl (writeError 400 "invalid JSON"))
  | Some req =>
  available ← HasAvailableWorker ord1;
  if negb available && negb (containsPauseTrigger req.(cr_Messages))
  then mret (inl (writeError 429 "no worker available — all workers are busy, paused, idle, updating, or withdrawn"))
  else
  let pause := containsPauseTrigger req.(cr_Messages) in
  sent ← send_unit now ord2 pause req;
  match sent with
  | None => mret (inl (writeError 503 (if pause then "failed to dispatch: no connected worker"
                                       else "failed to dispatch: no available worker")))
  | Some (unitID, pending, info) =>
      stored ← gets has_store;
      workerRole ← (if stored : bool then on_store (preferred_role info.(wi_Fingerprint)) else mret "");
      when stored (on_store (RecordWorkUnit now unitID info.(wi_Fingerprint) req.(cr_Model)) ;; skip) ;;
      mret (inr {| wt_unitID := unitID; wt_slot := pending; wt_fingerprint := info.(wi_Fingerprint);
                   wt_role := role_or_default workerRole;
                   wt_payloadBytes := Z.of_nat (String.length body); wt_model := req.(cr_Model) |})
  end
  end
  end.

(** [pending.ResultCh] or [pending.ErrorCh] has a value, or the timer fired. *)
Definition receive {A} (m : GoM Queue (option A)) : GoM Gateway A :=
  v ← on_queue m; match v with Some v => mret v | None => block end.

Definition store_unit (m : GoM Store (option db_err)) : GoM Gateway unit :=
  stored ← gets has_store; when stored (on_store m ;; skip).

Definition completions_end (now : Z) (h : CompletionsHandler) (w : waiting) (wake : wakeup)
    : GoM Gateway Response :=
  match wake with
  | OnResult =>
      result ← receive (recv_result w.(wt_slot));
      store_unit (CompleteWorkUnit now w.(wt_unitID) result.(rs_ProcessingTimeMs)) ;;
      when (h.(h_latencyMonitor) && (w.(wt_fingerprint) != ""))
        (on_store (Record_ now w.(wt_fingerprint) w.(wt_role) w.(wt_payloadBytes) result.(rs_ProcessingTimeMs)) ;;
         slice w.(wt_fingerprint) 12 ;; skip) ;;
      mret (writeResult now result w.(wt_model))
  | OnError =>
      errMsg ← receive (recv_error w.(wt_slot));
      store_unit (FailWorkUnit now w.(wt_unitID) errMsg.(er_Error)) ;;
      mret (writeError 500 ("worker error: " +:+ errMsg.(er_Error)))
  | OnTimeout =>
      on_queue (Cancel w.(wt_unitID)) ;;
      store_unit (TimeoutWorkUnit now w.(wt_unitID)) ;;
      mret (writeError 504 "worker did not respond in time")
  end.
End completions.

(** ** The slot of a dispatched unit *)

(** The slot [p] of [id] is waiting, or was delivered to exactly once. *)
Definition delivered (pu : PendingUnit) : Prop :=
  (exists r, pu = {| pu_ResultCh := [r]; pu_ErrorCh := [] |}) \/
  (exists e, pu = {| pu_ResultCh := []; pu_ErrorCh := [e] |}).
Definition empty_slot : PendingUnit := {| pu_ResultCh := []; pu_ErrorCh := [] |}.

Definition slot_inv (id : string) (p : nat) (q : Queue) : Prop :=
  queue_ok q /\
  ((q.(q_pending) !! id = Some p /\ q.(q_heap) !! p = Some empty_slot) \/
   (q.(q_pending) !! id = None /\ exists pu, q.(q_heap) !! p = Some pu /\ delivered pu)).

(** The operations of the queue that are the waiting handler's own. *)
Definition foreign_op (id : string) (p : nat) (op : queue_op) : Prop :=
  match op with
  | QRegister id' | QCancel id' => id' <> id
  | QRecvResult p' | QRecvError p' => p' <> p
  | _ => True
  end.

Lemma delivered_cell_free id p pu q : queue_ok q -> q.(q_heap) !! p = Some pu -> delivered pu ->
  q.(q_pending) !! id <> Some p.
Proof.
  intros Hok Hp Hd Hid%(pending_empty _ Hok). destruct Hd as [[r ->]|[e ->]]; congruence.
Qed.

(** Delivery to [id'] fills the slot of [id'] and no other. *)
Lemma slot_inv_deliver id p id' p' pu q :
  slot_inv id p q -> q.(q_pending) !! id' = Some p' -> delivered pu ->
  queue_ok (set_heap (<[p' := pu]> q.(q_heap)) (set_pending (delete id' q.(q_pending)) q)) ->
  slot_inv id p (set_heap (<[p' := pu]> q.(q_heap)) (set_pending (delete id' q.(q_pending)) q)).
Proof.
  intros [Hok Hs] Hid' Hpu Hok'. split; [exact Hok'|]. cbn.
  assert (Hlt : (p' < length q.(q_heap))%nat)
    by (apply (pending_empty _ Hok) in Hid'; by apply lookup_lt_Some in Hid').
  destruct (decide (id' = id)) as [->|Hne].
  - right. split; [apply lookup_delete_eq|]. exists pu. split; [|done].
    destruct Hs as [[Hid _]|[Hid _]]; [|congruence]. simplify_eq. by apply list_lookup_insert_eq.
  - rewrite lookup_delete_ne by done. destruct Hs as [[Hid Hp]|(Hid & pu' & Hp & Hd)].
    + left. split; [done|]. rewrite list_lookup_insert_ne; [done|].
      intros ->. by apply Hne, (pending_inj _ Hok _ _ p).
    + right. split; [done|]. exists pu'. split; [|done]. rewrite list_lookup_insert_ne; [done|].
      intros ->. by apply (delivered_cell_free id' p pu' q Hok).
Qed.

Lemma slot_inv_op id p op q : foreign_op id p op -> slot_inv id p q ->
  slot_inv id p (run (exec_queue_op op) q).
Proof.
  intros Hf Hs. pose proof Hs as [Hok Hst].
  destruct (exec_queue_op_ok op q Hok) as [_ Hok']. revert Hok'.
  destruct op as [now|id'|id' r|id' e|id'|p'|p']; cbn [exec_queue_op foreign_op] in *;
    rewrite ?run_skip; intros Hok'.
  - split; [done|]. exact Hst.
  - split; [done|]. cbn. rewrite lookup_insert_ne by done.
    destruct Hst as [[Hid Hp]|(Hid & pu & Hp & Hd)]; [left|right]; (split; [done|]).
    + by apply lookup_app_l_Some.
    + exists pu. split; [|done]. by apply lookup_app_l_Some.
  - unfold run in *. destruct (q_pending q !! id') as [p'|] eqn:Hp'.
    + rewrite (Resolve_pending _ _ _ _ Hok Hp') in *. apply slot_inv_deliver; [done..| |done].
      left. by exists r.
    + rewrite (proj1 (not_pending _ _ Hp')) in *. done.
  - unfold run in *. destruct (q_pending q !! id') as [p'|] eqn:Hp'.
    + rewrite (Reject_pending _ _ _ _ Hok Hp') in *. apply slot_inv_deliver; [done..| |done].
      right. by exists e.
    + rewrite (proj2 (not_pending _ _ Hp')) in *. done.
  - split; [done|]. cbn. rewrite lookup_delete_ne by done. exact Hst.
  - split; [done|]. unfold run, recv_result in *.
    destruct (q_heap q !! p') as [[[|r rs] es]|] eqn:E; [exact Hst| |exact Hst].
    cbn. rewrite list_lookup_insert_ne by done. exact Hst.
  - split; [done|]. unfold run, recv_error in *.
    destruct (q_heap q !! p') as [[rs [|e es]]|] eqn:E; [exact Hst| |exact Hst].
    cbn. rewrite list_lookup_insert_ne by done. exact Hst.
Qed.

Section slots.
Context `{GormLaws, WebSocket, Crypto} (url_fuel : nat) (id : string) (p : nat).

Definition slot_rel (g g' : Gateway) : Prop :=
  slot_inv id p g.(g_queue) -> slot_inv id p g'.(g_queue).
#[export] Instance slot_rel_preorder : PreOrder slot_rel.
Proof. split; [by intros g ?|]. intros x y z Hxy Hyz Hx. by apply Hyz, Hxy. Qed.

Lemma slot_same {A} (m : GoM Gateway A) :
  (forall g, (run m g).(g_queue) = g.(g_queue)) -> keeps slot_rel m.
Proof. intros Hm g. unfold slot_rel. by rewrite Hm. Qed.
Lemma slot_on_store {A} (m : GoM Store A) : keeps slot_rel (on_store m).
Proof. apply slot_same. intros g. unfold run, on_store. destruct (g_store g); [destruct (m s)|]; done. Qed.
Lemma slot_WriteJSON c m : keeps slot_rel (WriteJSON c m).
Proof. apply slot_same. intros g. unfold run, WriteJSON. by case_match. Qed.
Lemma slot_Close c : keeps slot_rel (Close c).
Proof. by apply slot_same. Qed.
Lemma slot_Upgrade : keeps slot_rel Upgrade.
Proof. by apply slot_same. Qed.
Lemma slot_Resolve id' r : keeps slot_rel (on_queue (Resolve id' r)).
Proof.
  intros g Hs. apply (slot_inv_op id p (QResolve id' r)) in Hs; [|done].
  cbn [exec_queue_op] in Hs. rewrite run_skip in Hs. revert Hs.
  unfold run, on_queue, zoom. by destruct (Resolve id' r (g_queue g)).
Qed.
Lemma slot_Reject id' e : keeps slot_rel (on_queue (Reject id' e)).
Proof.
  intros g Hs. apply (slot_inv_op id p (QReject id' e)) in Hs; [|done].
  cbn [exec_queue_op] in Hs. rewrite run_skip in Hs. revert Hs.
  unfold run, on_queue, zoom. by destruct (Reject id' e (g_queue g)).
Qed.
Hint Resolve slot_on_store slot_WriteJSON slot_Close slot_Upgrade slot_Resolve slot_Reject : keeps.
Hint Extern 1 (keeps slot_rel (modify _)) => apply slot_same; reflexivity : keeps.

Lemma slot_broadcast ord m : keeps slot_rel (broadcast ord m).
Proof.
  unfold broadcast. keeps_tac. generalize (@None push_error) as e.
  induction (mo_list ord a) as [|[fp wc] l IH]; intros e; cbn [push_loop]; keeps_tac.
Qed.
Lemma slot_dispatches ok u (m : GoM Gateway (option WorkerInfo)) :
  (forall g, dispatches (ok g) u g (m g)) -> keeps slot_rel m.
Proof.
  intros Hm. apply slot_same. intros g. unfold run.
  by destruct (Hm g) as [(fp & wc & Hw & Hc & Ht & ->)|[_ ->]].
Qed.

(** Whatever the gateway does, a waiting slot stays waiting or is delivered
    to, and a delivered one keeps what it has. *)
Lemma slot_exec_event e : keeps slot_rel (exec_event url_fuel e).
Proof.
  destruct e; cbn [exec_event].
  1: { unfold ServeHTTP, verifyOrRegisterKey, doChallenge. keeps_tac. }
  1: { unfold handle_message, handle_result, handle_error, handle_heartbeat, handle_status,
         handle_hash_report, handle_initial_sync, sync_backend, sync_model, pushBackendUpdateTo,
         pushModelUpdateTo, slice. keeps_tac. }
  1: { unfold on_disconnect. keeps_tac. }
  all: try (intros g; rewrite run_skip; revert g).
  all: first [ apply slot_broadcast
             | by apply slot_same
             | eapply slot_dispatches; intros; apply Dispatch_dispatches
             | eapply slot_dispatches; intros; apply DispatchForced_dispatches
             | eapply slot_dispatches; intros; apply DispatchWithHashCheck_dispatches ].
Qed.
End slots.

(** ** Admission *)

Section admission.
Context `{GormLaws, WebSocket, Crypto, JsonText}.

Lemma any_available_ret l g s : g.(g_store) = Some s ->
  exists b, any_available l g = (g, Ret b) /\
    (b = true <-> exists fp wc, (fp, wc) ∈ l /\ q_available g (cn_fp wc) = true).
Proof.
  intros Hs. induction l as [|[fp wc] l IH]; cbn [any_available].
  { exists false. split; [done|]. split; [done|]. by intros (? & ? & ?%elem_of_nil & _). }
  assert (Ha : on_store (IsWorkerAvailable (cn_fp wc)) g = (g, Ret (q_available g (cn_fp wc)))).
  { unfold on_store, IsWorkerAvailable, q_available, mbind, GoM_bind, gets, First. rewrite Hs. cbn.
    rewrite (set_store_same _ _ Hs). by destruct (db_first _ _). }
  rewrite (bind_Ret _ _ _ _ _ Ha). destruct (q_available g (cn_fp wc)) eqn:Hq.
  - exists true. split; [done|]. split; [|done]. intros _. exists fp, wc. by split; [left|].
  - destruct IH as (b & -> & Hb). exists b. split; [done|]. rewrite Hb. split.
    + intros (fp' & wc' & Hin & Hq'). exists fp', wc'. by split; [right|].
    + intros (fp' & wc' & [[= -> ->]|Hin]%elem_of_cons & Hq'); [congruence|]. by exists fp', wc'.
Qed.

(** The availability check reads, and answers. *)
Lemma HasAvailableWorker_ret (ord : map_order) g : exists b, HasAvailableWorker ord g = (g, Ret b) /\
  (b = true <-> exists fp wc, g.(g_workers) !! fp = Some wc /\ q_available g (cn_fp wc) = true).
Proof.
  unfold HasAvailableWorker, mbind, GoM_bind, gets, has_store. cbn.
  destruct (g_store g) as [s|] eqn:Hs; cbn.
  - destruct (any_available_ret (ord g.(g_workers)) g s Hs) as (b & E & Hb). exists b. split; [done|].
    rewrite Hb. split; intros (fp & wc & Hin & Hq); exists fp, wc; (split; [|done]);
      [by rewrite mo_perm, elem_of_map_to_list in Hin|by rewrite mo_perm, elem_of_map_to_list].
  - eexists. split; [done|]. rewrite bool_decide_eq_true. split.
    + intros Hsz. destruct (map_choose g.(g_workers)) as (fp & wc & Hw).
      { intros E. rewrite E, map_size_empty in Hsz. lia. }
      exists fp, wc. split; [done|]. unfold q_available. by rewrite Hs.
    + intros (fp & wc & Hw & _). apply Nat.neq_0_lt_0. intros E%map_size_empty_inv.
      rewrite E in Hw. by rewrite lookup_empty in Hw.
Qed.

Lemma preferred_role_ret fp g s : g.(g_store) = Some s ->
  exists role, on_store (preferred_role fp) g = (g, Ret role).
Proof.
  intros Hs. unfold on_store, preferred_role, GetWorkerConfig, mbind, GoM_bind, gets, First. rewrite Hs. cbn.
  destruct (db_first _ _) as [wc|[]]; cbn; rewrite (set_store_same _ _ Hs); eauto.
Qed.

Definition next_id (now : Z) (q : Queue) : string := unit_id now ((q.(q_counter) + 1) mod 2^64)%N.

(** What sending a unit does: either it was written to one suitable worker
    and its slot waits, or nothing remains of it but the used ID. *)
Lemma wp_send_unit req now (ord : map_order) forced g Q :
  let id := next_id now g.(g_queue) in
  g.(g_queue).(q_pending) !! id = None ->
  (forall g' fp wc p, g.(g_workers) !! fp = Some wc -> q_consent g (cn_fp wc) = true ->
     q_available g (cn_fp wc) || forced = true ->
     g'.(g_store) = g.(g_store) -> g'.(g_workers) = g.(g_workers) ->
     g'.(g_wire) = g.(g_wire) ++ [(wc.(cn_conn), MWorkUnit (work_unit id req))] ->
     g'.(g_queue).(q_pending) = <[id := p]> g.(g_queue).(q_pending) ->
     g'.(g_queue).(q_heap) !! p = Some empty_slot ->
     (queue_ok g.(g_queue) -> queue_ok g'.(g_queue)) ->
     Q g' (Ret (Some (id, p, wc.(cn_info))))) ->
  (forall g', (forall fp wc, g.(g_workers) !! fp = Some wc ->
       q_consent g (cn_fp wc) && (q_available g (cn_fp wc) || forced) &&
       takes g (work_unit id req) wc = false) ->
     g'.(g_store) = g.(g_store) -> g'.(g_workers) = g.(g_workers) -> g'.(g_wire) = g.(g_wire) ->
     g'.(g_queue).(q_pending) = g.(g_queue).(q_pending) ->
     (queue_ok g.(g_queue) -> queue_ok g'.(g_queue)) ->
     Q g' (Ret None)) ->
  wp (send_unit now ord forced req) Q g.
Proof.
  intros id Hfresh Hsent Hnot. unfold send_unit.
  apply wp_bind. eapply wp_eq; [reflexivity|]. apply wp_bind. eapply wp_eq; [reflexivity|]. cbn.
  fold (next_id now (g_queue g)). fold id. set (g1 := set_queue _ _).
  set (m := if forced then _ else _).
  assert (Hd : dispatches (fun fp => q_consent g fp && (q_available g fp || forced)) (work_unit id req) g1 (m g1)).
  { unfold m. destruct forced.
    - destruct (DispatchForced_dispatches ord (work_unit id req) g1) as [Hd|[Hn E]]; [left|right].
      + destruct Hd as (fp & wc & ? & Hc & ?). exists fp, wc. rewrite orb_true_r, andb_true_r. done.
      + split; [|done]. intros fp wc Hw. rewrite orb_true_r, andb_true_r. by eapply Hn.
    - destruct (Dispatch_dispatches ord (work_unit id req) g1) as [Hd|[Hn E]]; [left|right].
      + destruct Hd as (fp & wc & ? & Hc & ?). exists fp, wc. by rewrite orb_false_r.
      + split; [|done]. intros fp wc Hw. rewrite orb_false_r. by eapply Hn. }
  clearbody m. apply wp_bind.
  assert (Hok1 : queue_ok g.(g_queue) -> queue_ok g1.(g_queue)).
  { intros Hok. refine (queue_ok_Register id (run (exec_queue_op (QNextID now)) _) _). by apply exec_queue_op_ok. }
  destruct Hd as [(fp & wc & Hw & Hok & Ht & E)|[Hn E]]; (eapply wp_eq; [exact E|]); cbn.
  - apply andb_true_iff in Hok as [Hc Ha]. apply Hsent with fp; try done.
    by apply list_lookup_middle.
  - apply Hnot; try done.
    + change (delete id (<[id := length (q_heap (g_queue g))]> (q_pending (g_queue g))) = q_pending (g_queue g)).
      by rewrite delete_insert_id.
    + intros Hok%Hok1. by apply (queue_ok_delete id) in Hok.
Qed.

(** What a refusal leaves: everything but the counter of unit IDs and an
    abandoned slot. *)
Definition refused (code : Z) (g g' : Gateway) (out : res (Response + waiting)) : Prop :=
  (exists resp, out = Ret (inl resp) /\ resp.(status) = code) /\
  g'.(g_wire) = g.(g_wire) /\ g'.(g_store) = g.(g_store) /\ g'.(g_workers) = g.(g_workers) /\
  g'.(g_queue).(q_pending) = g.(g_queue).(q_pending).

(** What an admission did. *)
Definition admitted (req : ChatCompletionRequest) (id : string) (g g' : Gateway)
    (out : res (Response + waiting)) : Prop :=
  exists w fp wc, out = Ret (inr w) /\
    g.(g_workers) !! fp = Some wc /\ q_consent g (cn_fp wc) = true /\
    q_available g (cn_fp wc) || containsPauseTrigger req.(cr_Messages) = true /\
    w.(wt_unitID) = id /\ w.(wt_fingerprint) = cn_fp wc /\ w.(wt_model) = req.(cr_Model) /\
    g'.(g_wire) = g.(g_wire) ++ [(wc.(cn_conn), MWorkUnit (work_unit id req))] /\
    g'.(g_queue).(q_pending) = <[id := w.(wt_slot)]> g.(g_queue).(q_pending) /\
    g'.(g_queue).(q_heap) !! w.(wt_slot) = Some empty_slot.
End admission.

(** ** Answers *)

Section answers.
Context `{GormLaws, WebSocket, Crypto, JsonText}.

Definition same_queue (g g' : Gateway) : Prop := g'.(g_queue) = g.(g_queue).
#[export] Instance same_queue_preorder : PreOrder same_queue.
Proof. split; [done|]. unfold same_queue. intros x y z; congruence. Qed.
Lemma same_queue_on_store {A} (m : GoM Store A) : keeps same_queue (on_store m).
Proof. intros g. unfold run, on_store. destruct (g_store g); [destruct (m s)|]; done. Qed.
Hint Resolve same_queue_on_store : keeps.

(** A statement on the store of the manager, if there is one. *)
Definition stored_rel (g g' : Gateway) : Prop :=
  same_queue g g' /\ has_store g' = has_store g /\ g'.(g_wire) = g.(g_wire).

Lemma wp_store_unit_rel (R : Store -> Store -> Prop) `{!PreOrder R} (m : GoM Store (option db_err))
    (Q : Gateway -> res unit -> Prop) g :
  returns m -> keeps R m -> (forall g', stored_rel g g' -> store_rel R g g' -> Q g' (Ret tt)) ->
  wp (store_unit m) Q g.
Proof.
  intros Hm Hk HQ. unfold store_unit. apply wp_bind, wp_gets. unfold when.
  destruct (has_store g) eqn:Hs; [|apply wp_ret, HQ; [done|reflexivity]].
  apply wp_bind. unfold wp, run, result, on_store. unfold has_store in Hs.
  destruct (g_store g) as [s|] eqn:Es; [|done]. destruct (Hm s) as [a Ha]. specialize (Hk s).
  unfold result in Ha. unfold run in Hk. destruct (m s) as [s' r]. cbn in *. subst r. apply HQ.
  - split_and!; [done| |done]. unfold has_store. by rewrite Es.
  - unfold store_rel. rewrite Es. by constructor.
Qed.
Lemma wp_store_unit (m : GoM Store (option db_err)) (Q : Gateway -> res unit -> Prop) g :
  returns m -> (forall g', stored_rel g g' -> Q g' (Ret tt)) -> wp (store_unit m) Q g.
Proof.
  intros Hm HQ. assert (Hpre : PreOrder (fun _ _ : Store => True)) by done.
  apply (wp_store_unit_rel (fun _ _ => True)); [done..|]. intros g' Hg _. by apply HQ.
Qed.

Lemma wp_on_store {A} (m : GoM Store A) (Q : Gateway -> res A -> Prop) g s s' r :
  g.(g_store) = Some s -> m s = (s', r) -> Q (set_store (Some s') g) r -> wp (on_store m) Q g.
Proof. intros Es E HQ. unfold wp, run, result, on_store. by rewrite Es, E. Qed.

(** The record can be written: there is a store, and the fingerprint can be
    cut to the 12 characters of the log line. *)
Definition can_record (h : CompletionsHandler) (w : waiting) (g : Gateway) : Prop :=
  h.(h_latencyMonitor) = true -> has_store g = true /\ (12 <= String.length w.(wt_fingerprint))%nat.

Lemma wp_record now h w ms (Q : Gateway -> res unit -> Prop) g :
  can_record h w g ->
  (forall g', stored_rel g g' -> store_rel (unchanged db_WorkUnits) g g' -> Q g' (Ret tt)) ->
  wp (when (h.(h_latencyMonitor) && (w.(wt_fingerprint) != ""))
        (on_store (Record_ now w.(wt_fingerprint) w.(wt_role) w.(wt_payloadBytes) ms) ;;
         slice w.(wt_fingerprint) 12 ;; skip)) Q g.
Proof.
  intros Hrec HQ. unfold when. destruct (_ && _) eqn:Eb; [|apply wp_ret, HQ; [done|reflexivity]].
  apply andb_true_iff in Eb as [Hm _]. destruct (Hrec Hm) as [Hs Hlen]. unfold has_store in Hs.
  assert (Hr : returns (Record_ now w.(wt_fingerprint) w.(wt_role) w.(wt_payloadBytes) ms))
    by (unfold Record_, RecordLatencySample; returns_tac).
  assert (Hk : keeps (unchanged db_WorkUnits) (Record_ now w.(wt_fingerprint) w.(wt_role) w.(wt_payloadBytes) ms))
    by (unfold Record_, RecordLatencySample; keeps_tac).
  destruct (g_store g) as [s|] eqn:Es; [|done].
  apply wp_bind. unfold wp at 1, run, result, on_store. rewrite Es. destruct (Hr s) as [a Ha].
  specialize (Hk s). unfold result in Ha. unfold run in Hk.
  destruct (Record_ _ _ _ _ _ _) as [s' r]. cbn in *. subst r.
  apply wp_bind. unfold slice. rewrite slice_to_ok by done. cbn. apply HQ.
  - split_and!; [done| |done]. unfold has_store. by rewrite Es.
  - unfold store_rel. rewrite Es. by constructor.
Qed.

(** What the handler finds in a delivered slot. *)
Lemma wp_receive_result p r (Q : Gateway -> res Result -> Prop) g :
  g.(g_queue).(q_heap) !! p = Some {| pu_ResultCh := [r]; pu_ErrorCh := [] |} ->
  Q (set_queue (set_heap (<[p := empty_slot]> g.(g_queue).(q_heap)) g.(g_queue)) g) (Ret r) ->
  wp (receive (recv_result p)) Q g.
Proof. intros Hp HQ. unfold wp, run, result, receive, on_queue, zoom, recv_result, mbind, GoM_bind. by rewrite Hp. Qed.
Lemma wp_receive_error p e (Q : Gateway -> res Error -> Prop) g :
  g.(g_queue).(q_heap) !! p = Some {| pu_ResultCh := []; pu_ErrorCh := [e] |} ->
  Q (set_queue (set_heap (<[p := empty_slot]> g.(g_queue).(q_heap)) g.(g_queue)) g) (Ret e) ->
  wp (receive (recv_error p)) Q g.
Proof. intros Hp HQ. unfold wp, run, result, receive, on_queue, zoom, recv_error, mbind, GoM_bind. by rewrite Hp. Qed.

(** The unit is answered: nothing waits for it any more. *)
Definition closed (id : string) (g : Gateway) : Prop :=
  g.(g_queue).(q_pending) !! id = None /\
  (forall r, Resolve id r g.(g_queue) = (g.(g_queue), Ret false)) /\
  (forall e, Reject id e g.(g_queue) = (g.(g_queue), Ret false)).
Lemma closed_intro id g : g.(g_queue).(q_pending) !! id = None -> closed id g.
Proof. intros Hid. split; [done|]. by apply not_pending. Qed.

Lemma receive_result_blocks p g :
  (forall r rs es, g.(g_queue).(q_heap) !! p <> Some {| pu_ResultCh := r :: rs; pu_ErrorCh := es |}) ->
  result (receive (recv_result p)) g = Blocked.
Proof.
  intros Hp. unfold result, receive, on_queue, zoom, recv_result, mbind, GoM_bind.
  destruct (_ !! p) as [[[|r rs] es]|] eqn:E; try done. by destruct (Hp _ _ _ eq_refl).
Qed.
Lemma receive_error_blocks p g :
  (forall e rs es, g.(g_queue).(q_heap) !! p <> Some {| pu_ResultCh := rs; pu_ErrorCh := e :: es |}) ->
  result (receive (recv_error p)) g = Blocked.
Proof.
  intros Hp. unfold result, receive, on_queue, zoom, recv_error, mbind, GoM_bind.
  destruct (_ !! p) as [[rs [|e es]]|] eqn:E; try done. by destruct (Hp _ _ _ eq_refl).
Qed.
Lemma blocked_bind {S A B} (m : GoM S A) (k : A -> GoM S B) s :
  result m s = Blocked -> result (m ≫= k) s = Blocked.
Proof. unfold result, mbind, GoM_bind. destruct (m s) as [s' r]. by intros [= ->]. Qed.

(** How each way of waking up ends, given what the slot holds. *)
Lemma wp_completions_end now h w wake g : can_record h w g ->
  slot_inv w.(wt_unitID) w.(wt_slot) g.(g_queue) ->
  wp (completions_end now h w wake) (fun g' out =>
    match wake with
    | OnResult =>
        match g.(g_queue).(q_heap) !! w.(wt_slot) with
        | Some {| pu_ResultCh := r :: _; pu_ErrorCh := _ |} =>
            out = Ret (writeResult now r w.(wt_model)) /\ closed w.(wt_unitID) g'
        | _ => out = Blocked
        end
    | OnError =>
        match g.(g_queue).(q_heap) !! w.(wt_slot) with
        | Some {| pu_ResultCh := _; pu_ErrorCh := e :: _ |} =>
            out = Ret (writeError 500 ("worker error: " +:+ e.(er_Error))) /\ closed w.(wt_unitID) g'
        | _ => out = Blocked
        end
    | OnTimeout =>
        out = Ret (writeError 504 "worker did not respond in time") /\ closed w.(wt_unitID) g'
    end) g.
Proof.
  intros Hrec [Hok Hs]. destruct wake; cbn [completions_end].
  - destruct Hs as [[_ Hp]|(Hid & pu & Hp & [[r ->]|[e ->]])]; rewrite Hp.
    + apply blocked_bind, receive_result_blocks. intros *. by rewrite Hp.
    + apply wp_bind. apply (wp_receive_result _ _ _ _ Hp). set (g1 := set_queue _ g).
      apply wp_bind, wp_store_unit; [unfold CompleteWorkUnit; returns_tac|]. intros g2 [Hq2 Hs2].
      apply wp_bind, wp_record; [intros Hm; rewrite (proj1 Hs2); by apply Hrec|].
      intros g3 [Hq3 Hs3] _. apply wp_ret. split; [done|]. apply closed_intro. by rewrite Hq3, Hq2.
    + apply blocked_bind, receive_result_blocks. intros *. by rewrite Hp.
  - destruct Hs as [[_ Hp]|(Hid & pu & Hp & [[r ->]|[e ->]])]; rewrite Hp.
    + apply blocked_bind, receive_error_blocks. intros *. by rewrite Hp.
    + apply blocked_bind, receive_error_blocks. intros *. by rewrite Hp.
    + apply wp_bind. apply (wp_receive_error _ _ _ _ Hp). set (g1 := set_queue _ g).
      apply wp_bind, wp_store_unit; [unfold FailWorkUnit; returns_tac|]. intros g2 [Hq2 Hs2].
      apply wp_ret. split; [done|]. apply closed_intro. by rewrite Hq2.
  - apply wp_bind. eapply wp_eq; [reflexivity|]. cbn.
    apply wp_bind, wp_store_unit; [unfold TimeoutWorkUnit; returns_tac|]. intros g2 [Hq2 Hs2].
    apply wp_ret. split; [done|]. apply closed_intro. rewrite Hq2. apply lookup_delete_eq.
Qed.
End answers.

Section properties.
Context `{GormLaws, WebSocket, Crypto, JsonText}.

(** What the endpoint should do with a request, check by check. *)
Definition admission (h : CompletionsHandler) (r : Request) (id : string) (g g' : Gateway)
    (out : res (Response + waiting)) : Prop :=
  let some_available := exists fp wc, g.(g_workers) !! fp = Some wc /\ q_available g (cn_fp wc) = true in
  if r.(r_Method) != "POST" then refused 405 g g' out
  else if negb (authenticate_api h.(h_apiKey) r) then refused 401 g g' out
  else if g.(g_workers) == ∅ then refused 503 g g' out
  else match Unmarshal decode_ChatCompletionRequest (r.(r_Body) ≫= json_parse) with
  | None => refused 400 g g' out
  | Some req =>
      (~ some_available /\ containsPauseTrigger req.(cr_Messages) = false /\ refused 429 g g' out) \/
      ((some_available \/ containsPauseTrigger req.(cr_Messages) = true) /\
       (admitted req id g g' out \/ refused 503 g g' out))
  end.

(** C18. A completion request gets a defined answer or is dispatched. Each
    failing check gives its own status and leaves no trace: nothing is written
    to a worker, no unit stays pending, the database is untouched. A request
    that passes is written, as one work unit, to a connected worker that
    consented and is available (or to any that consented, for a PAUSE
    message), and its slot waits for the answer. *)
Theorem completions_admission now ord1 ord2 h r g :
  let id := next_id now g.(g_queue) in
  g.(g_queue).(q_pending) !! id = None ->
  wp (completions_start now ord1 ord2 h r) (admission h r id g) g.
Proof.
  intros id Hfresh. unfold completions_start, admission.
  assert (Hrefused : forall code msg, refused code g g (Ret (inl (writeError code msg))))
    by (split; [by eexists|done]).
  destruct (r_Method r != "POST"); [by apply wp_ret; split; [eexists|]|].
  destruct (negb (authenticate_api _ _)); [by apply wp_ret; split; [eexists|]|].
  apply wp_bind, wp_gets. case_bool_decide as Hsz.
  2: { rewrite bool_decide_eq_true_2; [apply wp_ret, Hrefused|]. apply map_size_empty_inv. lia. }
  rewrite bool_decide_eq_false_2; [|intros E; rewrite E, map_size_empty in Hsz; lia]. cbn [negb].
  destruct (r_Body r) as [body|]; [|apply wp_ret, Hrefused]. cbn [mbind option_bind].
  destruct (Unmarshal _ _) as [req|]; [|apply wp_ret, Hrefused].
  apply wp_bind. destruct (HasAvailableWorker_ret ord1 g) as (av & E & Hav).
  eapply wp_eq; [exact E|]. cbn. destruct (negb av && negb (containsPauseTrigger _)) eqn:Eb.
  { apply andb_true_iff in Eb as [Ha%negb_true_iff Hp%negb_true_iff]. apply wp_ret. left.
    split; [|by split]. rewrite <- Hav, Ha. done. }
  eapply wp_mono with (P := fun g' out => admitted req id g g' out \/ refused 503 g g' out).
  2: { intros g' out Hout. right. split; [|done].
    apply andb_false_iff in Eb as [Ha%negb_false_iff|Hp%negb_false_iff]; [left; by apply Hav|by right]. }
  cbv zeta. apply wp_bind. apply wp_send_unit; [exact Hfresh| |].
  - intros g1 fp wc p Hw Hc Ha Es Ews Ewire Eq Hcell _. left.
    apply wp_bind, wp_gets, wp_bind.
    assert (Hrole : exists role, (if has_store g1 then on_store (preferred_role (wi_Fingerprint (cn_info wc)))
      else mret "") g1 = (g1, Ret role)).
    { unfold has_store. destruct (g_store g1) as [s|] eqn:Hs; [by eapply preferred_role_ret|by exists ""]. }
    destruct Hrole as [role Hrole]. eapply wp_eq; [exact Hrole|]. cbn.
    exists {| wt_unitID := id; wt_slot := p; wt_fingerprint := cn_fp wc; wt_role := role_or_default role;
              wt_payloadBytes := Z.of_nat (String.length body); wt_model := req.(cr_Model) |}, fp, wc.
    unfold when. destruct (has_store g1) eqn:Hs; unfold has_store in Hs; [|by split_and!].
    destruct (g_store g1) as [s|] eqn:Es1; [|done]. unfold run, result, mbind, GoM_bind, on_store.
    rewrite Es1. unfold RecordWorkUnit, Create. destruct (db_create _ _ _). by split_and!.
  - intros g1 _ Es Ews Ewire Eq _. apply wp_ret. right. by split; [eexists|].
Qed.

Lemma has_store_exec_events url_fuel events g :
  has_store (run (foreach events (exec_event url_fuel)) g) = has_store g.
Proof.
  assert (Hk : keeps (store_rel (unchanged db_Consents)) (foreach events (exec_event url_fuel)))
    by (apply keeps_foreach; [apply _|]; intros; apply consents_exec_event).
  specialize (Hk g). unfold store_rel in Hk. unfold has_store. by inversion Hk.
Qed.

(** C4. A waiting caller gets exactly one answer. Whatever messages,
    connections and dispatches happen while a handler waits, either nothing
    came and both channels block, or exactly one of the two is ready: the
    result, returned with status 200, or the worker's error, with status 500;
    the timeout always ends the wait. Each of these endings closes the unit:
    nothing is pending under its ID, and late answers change nothing. *)
Theorem answered_exactly_once url_fuel events now h w g :
  slot_inv w.(wt_unitID) w.(wt_slot) g.(g_queue) -> can_record h w g ->
  let g' := run (foreach events (exec_event url_fuel)) g in
  let answer wake := result (completions_end now h w wake) g' in
  ((answer OnResult = Blocked /\ answer OnError = Blocked) \/
   (exists r, answer OnResult = Ret (writeResult now r w.(wt_model)) /\ answer OnError = Blocked) \/
   (exists e, answer OnResult = Blocked /\
      answer OnError = Ret (writeError 500 ("worker error: " +:+ e.(er_Error))))) /\
  answer OnTimeout = Ret (writeError 504 "worker did not respond in time") /\
  forall wake, answer wake <> Blocked -> closed w.(wt_unitID) (run (completions_end now h w wake) g').
Proof.
  intros Hs Hrec g' answer.
  assert (Hs' : slot_inv w.(wt_unitID) w.(wt_slot) g'.(g_queue)).
  { revert Hs. apply (keeps_foreach (slot_rel w.(wt_unitID) w.(wt_slot))). intros. apply slot_exec_event. }
  assert (Hrec' : can_record h w g') by (intros Hm; unfold g'; rewrite has_store_exec_events; by apply Hrec).
  pose proof (fun wake => wp_completions_end now h w wake g' Hrec' Hs') as Hend. unfold wp in Hend.
  pose proof (Hend OnResult) as Hres. pose proof (Hend OnError) as Herr. pose proof (Hend OnTimeout) as Hto.
  cbn [exec_event] in *. fold (answer OnResult) in Hres. fold (answer OnError) in Herr. fold (answer OnTimeout) in Hto.
  split_and!; [|apply Hto|].
  - destruct Hs' as [_ [[_ Hp]|(_ & pu & Hp & [[r ->]|[e ->]])]]; rewrite Hp in Hres, Herr.
    + by left.
    + right; left. exists r. split; [apply Hres|done].
    + right; right. exists e. split; [done|apply Herr].
  - intros [| |] Hne; [| |apply Hto].
    + destruct (_ !! _) as [[[|r rs] es]|]; [done|apply Hres|done].
    + destruct (_ !! _) as [[rs [|e es]]|]; [done|apply Herr|done].
Qed.

Definition unit_of (id : string) (s : Store) : option WorkUnitRow :=
  List.find (by_unit id) (live (db_WorkUnits s)).

(** C10. A worker's result reaches the caller. When a result frame for a waiting
    unit arrives on any connection, the handler answers 200 with that result,
    and the unit's record is completed with the worker's processing time. *)
Theorem result_reaches_caller `{!GormUp} url_fuel now h w wc r g s u :
  g.(g_store) = Some s -> unit_of w.(wt_unitID) s = Some u ->
  queue_ok g.(g_queue) -> g.(g_queue).(q_pending) !! w.(wt_unitID) = Some w.(wt_slot) ->
  r.(rs_ID) = w.(wt_unitID) -> wf_worker_message (WResult r) -> can_record h w g ->
  let g1 := run (handle_message url_fuel wc (Some (encode_WorkerMessage (WResult r)))) g in
  let '(g2, out) := completions_end now h w OnResult g1 in
  out = Ret (writeResult now r w.(wt_model)) /\ closed w.(wt_unitID) g2 /\
  exists s2, g2.(g_store) = Some s2 /\ unit_of w.(wt_unitID) s2 =
    Some (set_u_Status "completed" (set_u_ProcessingTimeMs r.(rs_ProcessingTimeMs)
            (set_u_CompletedAt (Some now) u))).
Proof.
  intros Es Hu Hok Hp Hid Hwf Hrec g1.
  assert (Hg1 : exists s1, db_WorkUnits s1 = db_WorkUnits s /\
    g1 = set_queue (set_heap (<[w.(wt_slot) := {| pu_ResultCh := [r]; pu_ErrorCh := [] |}]> g.(g_queue).(q_heap))
           (set_pending (delete w.(wt_unitID) g.(g_queue).(q_pending)) g.(g_queue))) (set_store (Some s1) g)).
  { unfold g1, handle_message. rewrite worker_message_received by done.
    unfold handle_result, run, mbind, GoM_bind, gets, has_store, when. rewrite Es. cbn.
    unfold on_store. rewrite Es.
    assert (Hr : returns (SetWorkerAvailableIfProcessing (cn_fp wc))) by (unfold SetWorkerAvailableIfProcessing; returns_tac).
    assert (Hk : keeps (unchanged db_WorkUnits) (SetWorkerAvailableIfProcessing (cn_fp wc)))
      by (unfold SetWorkerAvailableIfProcessing; keeps_tac).
    destruct (Hr s) as [[] Ha]. specialize (Hk s). unfold result, run in Ha, Hk.
    destruct (SetWorkerAvailableIfProcessing _ s) as [s1 r1]. cbn in Ha, Hk. subst r1.
    exists s1. split; [exact Hk|]. unfold on_queue, zoom. cbn [set_store g_queue].
    rewrite Hid, (Resolve_pending _ _ _ _ Hok Hp). done. }
  destruct Hg1 as (s1 & Hs1 & ->). set (g1' := set_queue _ _).
  assert (Hcell : g1'.(g_queue).(q_heap) !! w.(wt_slot) = Some {| pu_ResultCh := [r]; pu_ErrorCh := [] |}).
  { apply list_lookup_insert_eq. apply (pending_empty _ Hok) in Hp. by apply lookup_lt_Some in Hp. }
  enough (Hwp : wp (completions_end now h w OnResult) (fun g2 out =>
    out = Ret (writeResult now r w.(wt_model)) /\ closed w.(wt_unitID) g2 /\
    exists s2, g2.(g_store) = Some s2 /\ unit_of w.(wt_unitID) s2 =
    Some (set_u_Status "completed" (set_u_ProcessingTimeMs r.(rs_ProcessingTimeMs)
            (set_u_CompletedAt (Some now) u)))) g1').
  { unfold wp, run, result in Hwp. by destruct (completions_end _ _ _ _ _). }
  cbn [completions_end]. apply wp_bind. apply (wp_receive_result _ _ _ _ Hcell).
  unfold store_unit. apply wp_bind, wp_bind, wp_gets. change (has_store _) with true. cbn [when].
  destruct (Updates_up WorkUnits (by_unit w.(wt_unitID)) (fun v => set_u_Status "completed"
    (set_u_ProcessingTimeMs r.(rs_ProcessingTimeMs) (set_u_CompletedAt (Some now) v))) s1) as (t & E & Hl & _).
  apply wp_bind. eapply wp_on_store; [reflexivity|exact E|]. apply wp_ret, wp_bind.
  apply wp_record; [intros Hm; split; [done|by apply Hrec]|]. intros g3 [Hq3 _] Hw3. apply wp_ret.
  split; [done|]. split.
  - apply closed_intro. rewrite Hq3. apply lookup_delete_eq.
  - destruct (store_rel_Some _ _ _ _ Hw3 eq_refl) as (s3 & Es3 & Hu3). exists s3. split; [exact Es3|].
    unfold unit_of, unchanged in *. rewrite Hu3. cbn. rewrite Hl. cbn. rewrite Hs1.
    refine (find_update_same _ (fun v => set_u_Status "completed"
      (set_u_ProcessingTimeMs r.(rs_ProcessingTimeMs) (set_u_CompletedAt (Some now) v))) _ u _ Hu). done.
Qed.

(** A well-formed completion from a worker reaches the caller unchanged but
    for the envelope: decoding the body the endpoint writes gives the worker's
    choices and usage, under the unit's ID, the model that was asked for and
    the time of the answer. *)
Theorem worker_choices_pass_through now r model c :
  r.(rs_Output) = Some (Marshal_ChatCompletionResponse c) -> wf_response c -> c.(cc_Choices) <> [] ->
  in_int64 (Unix now) = true ->
  exists j, writeResult now r model = writeJSON 200 j /\
  decode_ChatCompletionResponse j =
    Some {| cc_ID := r.(rs_ID); cc_Object := "chat.completion"; cc_Created := Unix now;
            cc_Model := model; cc_Choices := c.(cc_Choices); cc_Usage := c.(cc_Usage) |}.
Proof.
  intros Ho Hwf Hne Hnow. unfold writeResult. eexists. split; [done|]. unfold chat_response.
  rewrite Ho. unfold Unmarshal. cbn [mbind option_bind]. rewrite (decode_Response_Marshal c Hwf).
  rewrite bool_decide_eq_true_2 by (destruct (cc_Choices c); [done|cbn; lia]).
  destruct Hwf as (_ & Hch & Hus). by apply decode_Response_Marshal.
Qed.
End properties.

(** ** Witnesses *)

Section witnesses.
#[local] Existing Instances MemGorm MemGormLaws MemGormUp ToyCrypto AllWrites NoJson.

Definition handler_ex : CompletionsHandler := {| h_apiKey := "api"; h_latencyMonitor := true |}.
Definition post_ex : Request :=
  {| r_Method := "POST"; r_Path := "/v1/chat/completions";
     r_Header k := if k == "X-API-Key" then "api" else ""; r_Query _ := ""; r_Body := Some "{}" |}.
(** the manager and the handler after an accepted request *)
Definition started : Gateway * res (Response + waiting) :=
  completions_start 0 any_order any_order handler_ex post_ex (gw_ex "available").
Definition waiting_ex : waiting :=
  {| wt_unitID := "wu-0-1"; wt_slot := 0; wt_fingerprint := fp_ex; wt_role := "inference";
     wt_payloadBytes := 2; wt_model := "" |}.
Definition response_ex : ChatCompletionResponse :=
  Build_ChatCompletionResponse "x" "y" 5 "z"
    [Build_ChatCompletionChoice 0 (Build_ChatMessage "assistant" "hi") "stop"] None.
Definition result_ex : Result :=
  Build_Result TypeResult "wu-0-1" fp_ex (Some (Marshal_ChatCompletionResponse response_ex)) 7 "c2ln".

Lemma started_waits : started.2 = Ret (inr waiting_ex).
Proof. vm_compute. reflexivity. Qed.

Lemma started_slot : slot_inv "wu-0-1" 0 started.1.(g_queue).
Proof.
  assert (E : started.1.(g_queue) = run (foreach [QNextID 0; QRegister "wu-0-1"] exec_queue_op) Queue.New)
    by (vm_compute; reflexivity).
  rewrite E. split.
  - apply exec_queue_ops_ok, queue_ok_New.
  - left. split; vm_compute; reflexivity.
Qed.

Lemma completions_admission_witness :
  admission handler_ex post_ex "wu-0-1" (gw_ex "available") started.1 started.2 /\
  (exists w, started.2 = Ret (inr w)).
Proof.
  split; [|exists waiting_ex; exact started_waits].
  pose proof (completions_admission 0 any_order any_order handler_ex post_ex (gw_ex "available")) as Ha.
  replace (next_id 0 _) with "wu-0-1" in Ha by (vm_compute; reflexivity).
  exact (Ha ltac:(vm_compute; reflexivity)).
Defined.

Lemma answered_exactly_once_witness :
  result (completions_end 1 handler_ex waiting_ex OnTimeout)
    (run (foreach [EMessage (conn_ex 1) (Some (Marshal_Result result_ex))] (exec_event 10)) started.1) =
    Ret (writeError 504 "worker did not respond in time").
Proof.
  apply (answered_exactly_once 10 [EMessage (conn_ex 1) (Some (Marshal_Result result_ex))] 1 handler_ex
    waiting_ex started.1).
  - exact started_slot.
  - intros _. split; [vm_compute; reflexivity|vm_compute; lia].
Defined.

Lemma result_reaches_caller_witness :
  snd (completions_end 1 handler_ex waiting_ex OnResult
    (run (handle_message 10 (conn_ex 1) (Some (Marshal_Result result_ex))) started.1)) =
    Ret (writeResult 1 result_ex "").
Proof.
  assert (Hs : exists s, started.1.(g_store) = Some s /\ exists u, unit_of "wu-0-1" s = Some u)
    by (eexists; split; [reflexivity|]; eexists; vm_compute; reflexivity).
  destruct Hs as (s & Es & u & Hu).
  pose proof (result_reaches_caller 10 1 handler_ex waiting_ex (conn_ex 1) result_ex started.1 s u Es Hu
    (proj1 started_slot)) as Hr.
  assert (Hrec : can_record handler_ex waiting_ex started.1)
    by (intros _; split; [vm_compute; reflexivity|vm_compute; lia]).
  specialize (Hr ltac:(vm_compute; reflexivity) eq_refl (conj eq_refl (conj (ex_intro _ _ eq_refl) eq_refl)) Hrec).
  cbn [encode_WorkerMessage] in Hr.
  destruct (completions_end _ _ _ _ _) as [g2 out]. exact (proj1 Hr).
Defined.

Lemma worker_choices_pass_through_witness :
  exists j, writeResult 1 result_ex "m" = writeJSON 200 j /\
    decode_ChatCompletionResponse j =
      Some (Build_ChatCompletionResponse "wu-0-1" "chat.completion" 0 "m" response_ex.(cc_Choices) None).
Proof.
  refine (worker_choices_pass_through 1 result_ex "m" response_ex eq_refl _ _ eq_refl); [|discriminate].
  split; [reflexivity|]. split; [by repeat constructor|]. discriminate.
Defined.
End witnesses.
