(* ===== verification/Batches.v ===== *)
(** * The batch queue (internal/manager/api/batch.go)

    The handlers of /v1/batches act on the store; the background processor
    acts on the whole manager. One round of it, [processNext], runs in three
    parts between which the rest of the manager moves on: [process_pick] up to
    the development-mode delay, [process_run] up to the [select], and
    [process_end] from the branch the [select] takes. *)

From S2P Require Import Prelude GoStd Json Protocol Gorm Models Workers Queue Roles Gateway Latency Http.
From S2P Require Import Units Completions.

Record requestCounts := { rc_Total : Z; rc_Completed : Z; rc_Failed : Z }.
Record batchError := { be_Code : string; be_Message : string }.

(** Times are Unix seconds, [None] is null. *)
Record batchObject := {
  bo_ID : string;
  bo_Object : string;
  bo_Endpoint : string;
  bo_Status : string;
  bo_Model : string;
  bo_CreatedAt : Z;
  bo_InProgressAt : option Z;
  bo_CompletedAt : option Z;
  bo_FailedAt : option Z;
  bo_CancelledAt : option Z;
  bo_RequestCounts : requestCounts;
  bo_Output : string;
  bo_Error : option batchError;
}.

Record BatchHandler := {
  bh_apiKey : string;
  bh_latencyMonitor : bool;
  bh_development : bool;
}.

Section batches.
Context `{Gorm, WebSocket, Crypto, JsonText}.

Definition opt_num (z : option Z) : json := match z with Some z => JNum (NInt z) | None => JNull end.

(** [None]: [output] is no JSON text, and encoding the object fails. *)
Definition Marshal_batchObject (o : batchObject) : option json :=
  output ← (if o.(bo_Output) == "" then Some JNull else json_parse o.(bo_Output));
  Some (JObj (
    [("id", JStr o.(bo_ID)); ("object", JStr o.(bo_Object)); ("endpoint", JStr o.(bo_Endpoint));
     ("status", JStr o.(bo_Status)); ("model", JStr o.(bo_Model));
     ("created_at", JNum (NInt o.(bo_CreatedAt))); ("in_progress_at", opt_num o.(bo_InProgressAt));
     ("completed_at", opt_num o.(bo_CompletedAt)); ("failed_at", opt_num o.(bo_FailedAt));
     ("cancelled_at", opt_num o.(bo_CancelledAt));
     ("request_counts", JObj [("total", JNum (NInt o.(bo_RequestCounts).(rc_Total)));
                              ("completed", JNum (NInt o.(bo_RequestCounts).(rc_Completed)));
                              ("failed", JNum (NInt o.(bo_RequestCounts).(rc_Failed)))])] ++
    omitempty (o.(bo_Output) == "") "output" output ++
    match o.(bo_Error) with
    | None => []
    | Some e => [("error", JObj [("code", JStr e.(be_Code)); ("message", JStr e.(be_Message))])]
    end)).

(** [json.NewEncoder(w).Encode(v)] with its error ignored *)
Definition encoded (code : Z) (j : option json) : Response :=
  match j with Some j => writeJSON code j | None => {| status := code; body := NoBody |} end.

(** ** Handlers *)

(** [now1] and [now2] are the two readings of the clock. *)
Definition batch_id (now1 now2 : Z) : string :=
  "batch_" +:+ pretty (UnixMilli now1) +:+ "_" +:+ pretty (Z.rem now2 10000).

Definition new_object (id model : string) (created : Z) : batchObject :=
  {| bo_ID := id; bo_Object := "batch"; bo_Endpoint := "/v1/chat/completions"; bo_Status := "";
     bo_Model := model; bo_CreatedAt := created; bo_InProgressAt := None; bo_CompletedAt := None;
     bo_FailedAt := None; bo_CancelledAt := None;
     bo_RequestCounts := {| rc_Total := 1; rc_Completed := 0; rc_Failed := 0 |};
     bo_Output := ""; bo_Error := None |}.

Definition set_bo_Status (v : string) (o : batchObject) : batchObject :=
  Build_batchObject o.(bo_ID) o.(bo_Object) o.(bo_Endpoint) v o.(bo_Model) o.(bo_CreatedAt)
    o.(bo_InProgressAt) o.(bo_CompletedAt) o.(bo_FailedAt) o.(bo_CancelledAt) o.(bo_RequestCounts)
    o.(bo_Output) o.(bo_Error).
Definition set_bo_CancelledAt (v : option Z) (o : batchObject) : batchObject :=
  Build_batchObject o.(bo_ID) o.(bo_Object) o.(bo_Endpoint) o.(bo_Status) o.(bo_Model) o.(bo_CreatedAt)
    o.(bo_InProgressAt) o.(bo_CompletedAt) o.(bo_FailedAt) v o.(bo_RequestCounts)
    o.(bo_Output) o.(bo_Error).

Definition createBatch (now now2 : Z) (r : Request) : GoM Store Response :=
  match r.(r_Body) with
  | None => mret (writeError 400 "failed to read request body")
  | Some body =>
  match Unmarshal decode_ChatCompletionRequest (json_parse body) with
  | None => mret (writeError 400 "invalid JSON")
  | Some req =>
      let requestID := batch_id now now2 in
      err ← CreateBatchRequest now requestID req.(cr_Model) body;
      match err with
      | Some _ => mret (writeError 500 "failed to enqueue request")
      | None => mret (encoded 202 (Marshal_batchObject
                  (set_bo_Status "pending" (new_object requestID req.(cr_Model) (Unix now)))))
      end
  end
  end.

Definition toBatchObject (br : BatchRequest) : batchObject :=
  let obj := new_object br.(b_RequestID) br.(b_LLMModel) (Unix br.(b_CreatedAt)) in
  let updated := Some (Unix br.(b_UpdatedAt)) in
  let counts c f := {| rc_Total := 1; rc_Completed := c; rc_Failed := f |} in
  if br.(b_Status) == "pending" then set_bo_Status "pending" obj
  else if br.(b_Status) == "processing" then
    Build_batchObject obj.(bo_ID) obj.(bo_Object) obj.(bo_Endpoint) "in_progress" obj.(bo_Model)
      obj.(bo_CreatedAt) updated None None None (counts 0%Z 0%Z) "" None
  else if br.(b_Status) == "completed" then
    Build_batchObject obj.(bo_ID) obj.(bo_Object) obj.(bo_Endpoint) "completed" obj.(bo_Model)
      obj.(bo_CreatedAt) None updated None None (counts 1%Z 0%Z) br.(b_Result) None
  else if br.(b_Status) == "failed" then
    Build_batchObject obj.(bo_ID) obj.(bo_Object) obj.(bo_Endpoint) "failed" obj.(bo_Model)
      obj.(bo_CreatedAt) None None updated None (counts 0%Z 1%Z) ""
      (if br.(b_ErrMessage) != "" then Some {| be_Code := "processing_failed"; be_Message := br.(b_ErrMessage) |}
       else None)
  else obj.

Definition listBatches : GoM Store Response :=
  requests ← ListBatchRequests 100;
  match requests with
  | inr _ => mret (writeError 500 "failed to list batch requests")
  | inl requests =>
      mret (encoded 200 (data ← mapM (fun br => Marshal_batchObject (toBatchObject br)) requests;
                         Some (JObj [("data", JArr data); ("object", JStr "list")])))
  end.

Definition retrieveBatch (batchID : string) : GoM Store Response :=
  br ← GetBatchRequest batchID;
  match br with
  | inr _ => mret (writeError 500 "failed to query batch request")
  | inl None => mret (writeError 404 "batch not found")
  | inl (Some br) => mret (encoded 200 (Marshal_batchObject (toBatchObject br)))
  end.

(** [%q] of a status: the statuses the program stores need no escapes. *)
Definition cancelBatch (now : Z) (batchID : string) : GoM Store Response :=
  br ← GetBatchRequest batchID;
  match br with
  | inr _ => mret (writeError 500 "failed to query batch request")
  | inl None => mret (writeError 404 "batch not found")
  | inl (Some br) =>
      if br.(b_Status) != "pending"
      then mret (writeError 409 ("cannot cancel batch in status " +:+ String.String (Ascii.ascii_of_nat 34)
             (br.(b_Status) +:+ String.String (Ascii.ascii_of_nat 34) "")))
      else
        err ← FailBatchRequest now batchID "cancelled by user";
        match err with
        | Some _ => mret (writeError 500 "failed to cancel batch")
        | None =>
            br ← GetBatchRequest batchID;
            match br with
            | inl (Some br) =>
                mret (encoded 200 (Marshal_batchObject (set_bo_CancelledAt (Some (Unix now))
                  (set_bo_Status "cancelled" (toBatchObject br)))))
            | _ => mret (writeError 500 "failed to retrieve cancelled batch")
            end
        end
  end.

Definition batches_ServeHTTP (now now2 : Z) (h : BatchHandler) (r : Request) : GoM Store Response :=
  if negb (authenticate_api h.(bh_apiKey) r) then mret (httpError "unauthorized" 401)
  else
  let path := TrimPrefix (TrimPrefix r.(r_Path) "/v1/batches") "/" in
  if (path == "") && (r.(r_Method) == "POST") then createBatch now now2 r
  else if (path == "") && (r.(r_Method) == "GET") then listBatches
  else if HasSuffix path "/cancel" && (r.(r_Method) == "POST")
  then cancelBatch now (TrimSuffix path "/cancel")
  else if r.(r_Method) == "GET" then retrieveBatch path
  else mret (httpError "method not allowed" 405).

(** ** The background processor *)

Definition process_pick (ord : map_order) : GoM Gateway (option BatchRequest) :=
  available ← HasAvailableWorker ord;
  if negb available then mret None
  else
    pending ← on_store (GetPendingBatchRequests 1);
    mret (match pending with inl (br :: _) => Some br | _ => None end).

Definition fail_batch (now : Z) (id msg : string) : GoM Gateway unit :=
  on_store (FailBatchRequest now id msg) ;; skip.

Definition process_run (now : Z) (ord : map_order) (br : BatchRequest) : GoM Gateway (option waiting) :=
  err ← on_store (SetBatchRequestProcessing now br.(b_RequestID));
  match err with
  | Some _ => mret None
  | None =>
  match Unmarshal decode_ChatCompletionRequest (json_parse br.(b_Payload)) with
  | None => fail_batch now br.(b_RequestID) "invalid stored payload" ;; mret None
  | Some req =>
      sent ← send_unit now ord false req;
      match sent with
      | None => fail_batch now br.(b_RequestID) "dispatch failed: no available worker" ;; mret None
      | Some (unitID, pending2, info) =>
          workerRole ← on_store (preferred_role info.(wi_Fingerprint));
          store_unit (RecordWorkUnit now unitID info.(wi_Fingerprint) req.(cr_Model)) ;;
          mret (Some {| wt_unitID := unitID; wt_slot := pending2; wt_fingerprint := info.(wi_Fingerprint);
                        wt_role := role_or_default workerRole;
                        wt_payloadBytes := Z.of_nat (String.length br.(b_Payload));
                        wt_model := req.(cr_Model) |})
      end
  end
  end.

Inductive batch_wakeup := Wake (w : wakeup) | OnStop.

Definition buildBatchResult (now : Z) (result : Result) (model : string) : string :=
  json_text (Marshal_ChatCompletionResponse (chat_response now result model)).

Definition process_end (now : Z) (h : BatchHandler) (br : BatchRequest) (w : waiting)
    (wake : batch_wakeup) : GoM Gateway unit :=
  match wake with
  | Wake OnResult =>
      result ← receive (recv_result w.(wt_slot));
      store_unit (CompleteWorkUnit now w.(wt_unitID) result.(rs_ProcessingTimeMs)) ;;
      when (h.(bh_latencyMonitor) && (w.(wt_fingerprint) != ""))
        (on_store (Record_ now w.(wt_fingerprint) w.(wt_role) w.(wt_payloadBytes) result.(rs_ProcessingTimeMs))) ;;
      on_store (CompleteBatchRequest now br.(b_RequestID) (buildBatchResult now result w.(wt_model))) ;; skip
  | Wake OnError =>
      errMsg ← receive (recv_error w.(wt_slot));
      store_unit (FailWorkUnit now w.(wt_unitID) errMsg.(er_Error)) ;;
      fail_batch now br.(b_RequestID) errMsg.(er_Error)
  | Wake OnTimeout =>
      on_queue (Cancel w.(wt_unitID)) ;;
      store_unit (TimeoutWorkUnit now w.(wt_unitID)) ;;
      fail_batch now br.(b_RequestID) "worker did not respond in time"
  | OnStop => on_queue (Cancel w.(wt_unitID))
  end.
End batches.

(** ** Cancelling *)

Section cancelling.
Context `{GormLaws, !GormUp, JsonText}.

Lemma GetBatchRequest_up id s : GetBatchRequest id s = (s, Ret (inl (batch_of id s))).
Proof.
  unfold GetBatchRequest. rewrite (bind_Ret _ _ _ _ _ (First_up Batches _ s)). cbn.
  unfold batch_of. by destruct (List.find _ _).
Qed.

(** An update of the row of one request, seen by all requests. *)
Lemma batch_update id f s : (forall b, (f b).(b_RequestID) = b.(b_RequestID)) -> exists s',
  Updates Batches (by_request id) f s = (s', Ret None) /\
  batch_of id s' = f <$> batch_of id s /\
  (forall id', id' <> id -> batch_of id' s' = batch_of id' s) /\
  db_WorkUnits s' = db_WorkUnits s /\ db_Workers s' = db_Workers s /\ db_Consents s' = db_Consents s.
Proof.
  intros Hf. destruct (Updates_up Batches (by_request id) f s) as (t & E & Hl & _). exists (lset Batches t s).
  split; [exact E|].
  assert (Hrow : forall id', batch_of id' (lset Batches t s) =
    (fun b => if by_request id b then f b else b) <$> batch_of id' s).
  { intros id'. unfold batch_of. cbn. rewrite Hl. apply find_update_other. intros b. unfold by_request. by rewrite Hf. }
  split_and!; try done.
  - rewrite Hrow. unfold batch_of. destruct (List.find (by_request id) _) as [b|] eqn:Eb; [|done]. cbn.
    apply find_in in Eb as [_ ->]. done.
  - intros id' Hne. rewrite Hrow. unfold batch_of. destruct (List.find (by_request id') _) as [b|] eqn:Eb; [|done].
    apply find_in in Eb as [_ Eb]. unfold by_request in *. apply bool_decide_eq_true in Eb. cbn.
    rewrite Eb. by rewrite bool_decide_eq_false_2.
Qed.

(** Only a pending batch can be cancelled. Cancelling an unknown batch is a
    404 and one in any other status a 409, and neither changes anything; a
    pending one is answered as cancelled, its row fails with the reason, and
    no other batch is touched. *)
Theorem cancel_only_pending now id s :
  match batch_of id s with
  | None => cancelBatch now id s = (s, Ret (writeError 404 "batch not found"))
  | Some b =>
      if b.(b_Status) == "pending" then
        exists s' b', batch_of id s' = Some b' /\
          b' = set_b_Status "failed" (set_b_ErrMessage "cancelled by user" (set_b_UpdatedAt now b)) /\
          (forall id', id' <> id -> batch_of id' s' = batch_of id' s) /\
          cancelBatch now id s = (s', Ret (encoded 200 (Marshal_batchObject
            (set_bo_CancelledAt (Some (Unix now)) (set_bo_Status "cancelled" (toBatchObject b'))))))
      else exists msg, cancelBatch now id s = (s, Ret (writeError 409 msg))
  end.
Proof.
  unfold cancelBatch. rewrite (bind_Ret _ _ _ _ _ (GetBatchRequest_up id s)).
  destruct (batch_of id s) as [b|] eqn:Hb; [|done].
  destruct (bool_decide (b_Status b = "pending")) eqn:Hst; cbn [negb]; [|by eexists].
  destruct (batch_update id (fun b => set_b_Status "failed" (set_b_ErrMessage "cancelled by user"
    (set_b_UpdatedAt now b))) s) as (s' & E & Hrow & Hother & _); [done|].
  exists s', (set_b_Status "failed" (set_b_ErrMessage "cancelled by user" (set_b_UpdatedAt now b))).
  rewrite Hb in Hrow. split_and!; [done..|].
  unfold FailBatchRequest. rewrite (bind_Ret _ _ _ _ _ E).
  rewrite (bind_Ret _ _ _ _ _ (GetBatchRequest_up id s')). by rewrite Hrow.
Qed.
End cancelling.

(** ** Rounds of the processor *)

Section rounds.
Context `{GormLaws, !GormUp, WebSocket, Crypto, JsonText}.

Lemma wp_batch_update id f (Q : Gateway -> res (option db_err) -> Prop) g s :
  g.(g_store) = Some s -> (forall b, (f b).(b_RequestID) = b.(b_RequestID)) ->
  (forall s', batch_of id s' = f <$> batch_of id s -> db_WorkUnits s' = db_WorkUnits s ->
     Q (set_store (Some s') g) (Ret None)) ->
  wp (on_store (Updates Batches (by_request id) f)) Q g.
Proof.
  intros Es Hf HQ. destruct (batch_update id f s Hf) as (s' & E & Hrow & _ & Hu & _).
  eapply wp_on_store; [exact Es|exact E|]. by apply HQ.
Qed.

Lemma store_rel_batch id g g' s : store_rel (unchanged db_Batches) g g' -> g.(g_store) = Some s ->
  exists s', g'.(g_store) = Some s' /\ batch_of id s' = batch_of id s.
Proof.
  intros Hr Es. destruct (store_rel_Some _ _ _ _ Hr Es) as (s' & Es' & Hb). exists s'.
  split; [done|]. unfold batch_of. by rewrite Hb.
Qed.

Lemma wp_fail_batch now id msg (Q : Gateway -> res unit -> Prop) g s b :
  g.(g_store) = Some s -> batch_of id s = Some b ->
  (forall s', batch_of id s' = Some (set_b_Status "failed" (set_b_ErrMessage msg (set_b_UpdatedAt now b))) ->
     Q (set_store (Some s') g) (Ret tt)) ->
  wp (fail_batch now id msg) Q g.
Proof.
  intros Es Hb HQ. unfold fail_batch. apply wp_bind. unfold FailBatchRequest.
  eapply wp_batch_update; [exact Es|done|]. intros s' Hrow _. apply wp_ret, HQ. by rewrite Hrow, Hb.
Qed.

Lemma wp_batch_record now (h : BatchHandler) w ms g s : g.(g_store) = Some s ->
  wp (when (h.(bh_latencyMonitor) && (w.(wt_fingerprint) != ""))
       (on_store (Record_ now w.(wt_fingerprint) w.(wt_role) w.(wt_payloadBytes) ms)))
     (fun g' out => out = Ret tt /\ same_queue g g' /\ store_rel (unchanged db_Batches) g g') g.
Proof.
  intros Es. unfold when. destruct (_ && _); [|apply wp_ret; split_and!; [done|done|reflexivity]].
  assert (Hret : returns (Record_ now w.(wt_fingerprint) w.(wt_role) w.(wt_payloadBytes) ms))
    by (unfold Record_, RecordLatencySample; returns_tac).
  assert (Hk : keeps (unchanged db_Batches) (Record_ now w.(wt_fingerprint) w.(wt_role) w.(wt_payloadBytes) ms))
    by (unfold Record_, RecordLatencySample; keeps_tac).
  destruct (Hret s) as [[] Ha]. specialize (Hk s).
  eapply wp_on_store; [exact Es|apply surjective_pairing|]. split_and!; [exact Ha|done|].
  unfold store_rel. rewrite Es. by constructor.
Qed.

(** A round of the processor on a pending batch either fails the batch,
    for a payload that does not parse or for want of a worker, leaving no
    pending unit and no message; or marks it "processing" and writes exactly
    one work unit, made from the stored payload, to a connected worker that
    consented and is available, with a slot that waits for its answer. *)
Theorem batch_run_outcome now ord br g s b :
  let id := next_id now g.(g_queue) in
  g.(g_store) = Some s -> batch_of br.(b_RequestID) s = Some b -> b.(b_Status) = "pending" ->
  queue_ok g.(g_queue) -> g.(g_queue).(q_pending) !! id = None ->
  wp (process_run now ord br) (fun g' out =>
    exists s' b', g'.(g_store) = Some s' /\ batch_of br.(b_RequestID) s' = Some b' /\
    ((out = Ret None /\ b'.(b_Status) = "failed" /\ g'.(g_wire) = g.(g_wire) /\
      g'.(g_queue).(q_pending) = g.(g_queue).(q_pending) /\
      (Unmarshal decode_ChatCompletionRequest (json_parse br.(b_Payload)) = None \/
       exists req, Unmarshal decode_ChatCompletionRequest (json_parse br.(b_Payload)) = Some req /\
         forall fp wc, g.(g_workers) !! fp = Some wc ->
           q_consent g (cn_fp wc) && q_available g (cn_fp wc) && takes g (work_unit id req) wc = false)) \/
     (exists req w fp wc, Unmarshal decode_ChatCompletionRequest (json_parse br.(b_Payload)) = Some req /\
      out = Ret (Some w) /\ b'.(b_Status) = "processing" /\
      g.(g_workers) !! fp = Some wc /\ q_consent g (cn_fp wc) = true /\ q_available g (cn_fp wc) = true /\
      g'.(g_wire) = g.(g_wire) ++ [(wc.(cn_conn), MWorkUnit (work_unit id req))] /\
      w.(wt_unitID) = id /\ w.(wt_fingerprint) = cn_fp wc /\ slot_inv id w.(wt_slot) g'.(g_queue)))) g.
Proof.
  intros id Es Hb Hst Hok Hfresh. unfold process_run, SetBatchRequestProcessing. apply wp_bind.
  destruct (batch_update_row (fun b => by_request br.(b_RequestID) b && is_pending b)
    (fun b => set_b_Status "processing" (set_b_UpdatedAt now b)) br.(b_RequestID) s)
    as (s1 & E & Hrow & _ & Hw1 & Hc1); [done|].
  eapply wp_on_store; [exact Es|exact E|]. set (g1 := set_store _ g).
  assert (Hb1 : batch_of br.(b_RequestID) s1 = Some (set_b_Status "processing" (set_b_UpdatedAt now b))).
  { rewrite Hrow, Hb. cbn. unfold is_pending. rewrite Hst. unfold batch_of in Hb.
    apply find_in in Hb as [_ ->]. done. }
  assert (Hqc : forall fp, q_consent g1 fp = q_consent g fp) by (intros fp; unfold q_consent; cbn; by rewrite Es, Hc1).
  assert (Hqa : forall fp, q_available g1 fp = q_available g fp) by (intros fp; unfold q_available; cbn; by rewrite Es, Hw1).
  destruct (Unmarshal decode_ChatCompletionRequest (json_parse (b_Payload br))) as [req|] eqn:Ereq.
  2: { apply wp_bind. eapply wp_fail_batch; [reflexivity|exact Hb1|]. intros s2 Hb2. apply wp_ret.
       exists s2; eexists. split; [done|]. split; [exact Hb2|]. left. split_and!; try done. by left. }
  apply wp_bind. change (g_queue g) with (g_queue g1) in *. apply wp_send_unit; [exact Hfresh| |].
  - intros g2 fp wc p Hw Hc Ha Es2 _ Ewire Eq Hcell Hok2. rewrite orb_false_r in Ha.
    rewrite Hqc in Hc. rewrite Hqa in Ha. apply wp_bind.
    destruct (preferred_role_ret (wi_Fingerprint (cn_info wc)) g2 s1 Es2) as [role Hrole].
    eapply wp_eq; [exact Hrole|]. apply wp_bind.
    apply (wp_store_unit_rel (unchanged db_Batches)); [unfold RecordWorkUnit; returns_tac|unfold RecordWorkUnit; keeps_tac|].
    intros g3 (Hq3 & _ & Hwire3) Hr3. destruct (store_rel_batch br.(b_RequestID) _ _ _ Hr3 Es2) as (s3 & Es3 & Hb3).
    apply wp_ret. exists s3; eexists. split; [done|]. split; [by rewrite Hb3|]. right.
    exists req; eexists; exists fp, wc. split_and!; try done.
    + by rewrite Hwire3.
    + cbn. rewrite Hq3. split; [by apply Hok2|]. left. split; [|done]. rewrite Eq. apply lookup_insert_eq.
  - intros g2 Hno Es2 _ Ewire Eq _. apply wp_bind. eapply wp_fail_batch; [by rewrite Es2|exact Hb1|].
    intros s3 Hb3. apply wp_ret. exists s3; eexists. split; [done|]. split; [exact Hb3|]. left.
    split_and!; try done. right. exists req. split; [done|]. intros fp wc Hw.
    specialize (Hno fp wc Hw). by rewrite Hqc, Hqa, orb_false_r in Hno.
Qed.

(** The answer to a batch is final. A round that waited ends, for a result,
    a worker's error or the timeout, with the unit closed and the batch's row
    "completed" with the response, or "failed" with the reason, whatever the
    row said before: a batch cancelled while its unit was out is completed all
    the same. *)
Theorem batch_answer_is_final now h br w wake g s b :
  g.(g_store) = Some s -> batch_of br.(b_RequestID) s = Some b ->
  slot_inv w.(wt_unitID) w.(wt_slot) g.(g_queue) ->
  let final (g' : Gateway) (f : BatchRequest -> BatchRequest) :=
    closed w.(wt_unitID) g' /\
    exists s', g'.(g_store) = Some s' /\ batch_of br.(b_RequestID) s' = Some (f (set_b_UpdatedAt now b)) in
  wp (process_end now h br w (Wake wake)) (fun g' out =>
    match wake, g.(g_queue).(q_heap) !! w.(wt_slot) with
    | OnResult, Some {| pu_ResultCh := r :: _; pu_ErrorCh := _ |} => out = Ret tt /\
        final g' (fun b => set_b_Status "completed" (set_b_Result (buildBatchResult now r w.(wt_model)) b))
    | OnError, Some {| pu_ResultCh := _; pu_ErrorCh := e :: _ |} => out = Ret tt /\
        final g' (fun b => set_b_Status "failed" (set_b_ErrMessage e.(er_Error) b))
    | OnTimeout, _ => out = Ret tt /\
        final g' (fun b => set_b_Status "failed" (set_b_ErrMessage "worker did not respond in time" b))
    | _, _ => out = Blocked
    end) g.
Proof.
  intros Es Hb [Hok Hs] final. destruct wake; cbn [process_end].
  - destruct Hs as [[_ Hp]|(Hid & pu & Hp & [[r ->]|[e ->]])]; rewrite Hp.
    + apply blocked_bind, receive_result_blocks. intros *. by rewrite Hp.
    + apply wp_bind. apply (wp_receive_result _ _ _ _ Hp). apply wp_bind.
      apply (wp_store_unit_rel (unchanged db_Batches)); [unfold CompleteWorkUnit; returns_tac|unfold CompleteWorkUnit; keeps_tac|].
      intros g2 (Hq2 & Hs2 & _) Hr2. destruct (store_rel_batch br.(b_RequestID) _ _ s Hr2 Es) as (s2 & Es2 & Hb2).
      apply wp_bind.
      eapply wp_mono; [by eapply wp_batch_record|]. intros g3 out (-> & Hq3 & Hr3).
      destruct (store_rel_batch br.(b_RequestID) _ _ s2 Hr3 Es2) as (s3 & Es3 & Hb3).
      apply wp_bind. unfold CompleteBatchRequest. eapply wp_batch_update; [exact Es3|done|].
      intros s4 Hb4 _. apply wp_ret. split; [done|]. split.
      * apply closed_intro. cbn. by rewrite Hq3, Hq2.
      * exists s4. split; [done|]. by rewrite Hb4, Hb3, Hb2, Hb.
    + apply blocked_bind, receive_result_blocks. intros *. by rewrite Hp.
  - destruct Hs as [[_ Hp]|(Hid & pu & Hp & [[r ->]|[e ->]])]; rewrite Hp.
    + apply blocked_bind, receive_error_blocks. intros *. by rewrite Hp.
    + apply blocked_bind, receive_error_blocks. intros *. by rewrite Hp.
    + apply wp_bind. apply (wp_receive_error _ _ _ _ Hp). apply wp_bind.
      apply (wp_store_unit_rel (unchanged db_Batches)); [unfold FailWorkUnit; returns_tac|unfold FailWorkUnit; keeps_tac|].
      intros g2 (Hq2 & _) Hr2. destruct (store_rel_batch br.(b_RequestID) _ _ s Hr2 Es) as (s2 & Es2 & Hb2).
      eapply wp_fail_batch; [exact Es2|by rewrite Hb2|]. intros s3 Hb3. split; [done|]. split.
      * apply closed_intro. cbn. by rewrite Hq2.
      * by exists s3.
  - apply wp_bind. eapply wp_eq; [reflexivity|]. cbn beta iota. apply wp_bind.
    apply (wp_store_unit_rel (unchanged db_Batches)); [unfold TimeoutWorkUnit; returns_tac|unfold TimeoutWorkUnit; keeps_tac|].
    intros g2 (Hq2 & _) Hr2. destruct (store_rel_batch br.(b_RequestID) _ _ s Hr2 Es) as (s2 & Es2 & Hb2).
    eapply wp_fail_batch; [exact Es2|by rewrite Hb2|]. intros s3 Hb3. split; [done|]. split.
    + apply closed_intro. cbn. rewrite Hq2. apply lookup_delete_eq.
    + by exists s3.
Qed.
End rounds.

(** ** Retrieval *)

Section retrieval.
Context `{GormLaws, !GormUp, JsonText}.

(** A completed batch can be fetched. Retrieving it answers 200 with its ID,
    the status "completed" and, as output, the very document the processor
    stored. *)
Theorem completed_output_is_returned id s b j :
  batch_of id s = Some b -> b.(b_Status) = "completed" -> b.(b_Result) = json_text j ->
  json_parse (json_text j) = Some j -> json_text j <> "" ->
  exists kvs, retrieveBatch id s = (s, Ret (writeJSON 200 (JObj kvs))) /\
    ("id", JStr id) ∈ kvs /\ ("status", JStr "completed") ∈ kvs /\ ("output", j) ∈ kvs.
Proof.
  intros Hb Hst Hres Hparse Hne. unfold retrieveBatch.
  rewrite (bind_Ret _ _ _ _ _ (GetBatchRequest_up id s)), Hb.
  assert (Hid : b.(b_RequestID) = id).
  { unfold batch_of in Hb. apply find_in in Hb as [_ Hb]. by apply bool_decide_eq_true in Hb. }
  assert (Ho : exists o, toBatchObject b = o /\ o.(bo_ID) = id /\ o.(bo_Status) = "completed" /\
    o.(bo_Output) = json_text j).
  { eexists. split; [done|]. unfold toBatchObject. rewrite Hst. by split_and!. }
  destruct Ho as (o & -> & Eid & Est & Eout). unfold Marshal_batchObject. rewrite Eid, Est, Eout.
  rewrite bool_decide_eq_false_2, Hparse by done. cbn. eexists. split; [done|].
  rewrite !elem_of_cons. naive_solver.
Qed.
End retrieval.

(** ** Witnesses *)

Section witnesses.
#[local] Existing Instances MemGorm MemGormLaws MemGormUp ToyCrypto AllWrites NoJson.

Definition batch_ex (status : string) : BatchRequest :=
  {| b_RequestID := "batch_0_0"; b_LLMModel := ""; b_Payload := "{}"; b_Status := status;
     b_Result := ""; b_ErrMessage := ""; b_CreatedAt := 0; b_UpdatedAt := 0 |}.
Definition batch_store (status : string) : Store :=
  lset Batches (mem_rows [batch_ex status]) (gw_store "available").
Definition batch_gw (status : string) : Gateway := set_store (Some (batch_store status)) (gw_ex "available").
Definition bh_ex : BatchHandler := {| bh_apiKey := "api"; bh_latencyMonitor := true; bh_development := false |}.
(** the manager with a round waiting for its unit, the batch's row in [status] *)
Definition batch_waiting (status : string) : Gateway :=
  let g := run (process_run 0 any_order (batch_ex "pending")) (batch_gw "pending") in
  set_store (Some (batch_store status)) g.

Lemma batch_run_outcome_witness :
  exists s' b', g_store (run (process_run 0 any_order (batch_ex "pending")) (batch_gw "pending")) = Some s' /\
    batch_of "batch_0_0" s' = Some b' /\ (b'.(b_Status) = "failed" \/ b'.(b_Status) = "processing").
Proof.
  assert (Hf : g_queue (batch_gw "pending") = Queue.New) by reflexivity.
  pose proof (batch_run_outcome 0 any_order (batch_ex "pending") (batch_gw "pending") (batch_store "pending")
    (batch_ex "pending") eq_refl eq_refl eq_refl queue_ok_New) as Hr.
  rewrite Hf in Hr. specialize (Hr (lookup_empty _)).
  destruct Hr as (s' & b' & Es & Eb & Hcase). exists s', b'. split; [exact Es|]. split; [exact Eb|].
  destruct Hcase as [(_ & Hst & _)|(? & ? & ? & ? & _ & _ & Hst & _)]; [left|right]; exact Hst.
Defined.

(** a batch cancelled in the meantime, timing out *)
Lemma batch_answer_is_final_witness :
  result (process_end 1 bh_ex (batch_ex "pending") waiting_ex (Wake OnTimeout)) (batch_waiting "failed") = Ret tt.
Proof.
  assert (Hq : slot_inv "wu-0-1" 0 (batch_waiting "failed").(g_queue)).
  { assert (E : (batch_waiting "failed").(g_queue) = run (foreach [QNextID 0; QRegister "wu-0-1"] exec_queue_op) Queue.New)
      by (vm_compute; reflexivity).
    rewrite E. split; [apply exec_queue_ops_ok, queue_ok_New|]. left. split; vm_compute; reflexivity. }
  pose proof (batch_answer_is_final 1 bh_ex (batch_ex "pending") waiting_ex OnTimeout (batch_waiting "failed")
    (batch_store "failed") (batch_ex "failed") eq_refl eq_refl Hq) as Hr. exact (proj1 Hr).
Defined.

Lemma completed_output_is_returned_witness :
  exists kvs, snd (retrieveBatch "batch_0_0" (lset Batches (mem_rows
      [set_b_Status "completed" (set_b_Result "{}" (batch_ex "pending"))]) empty_store)) =
    Ret (writeJSON 200 (JObj kvs)) /\ ("output", JObj []) ∈ kvs.
Proof.
  destruct (completed_output_is_returned "batch_0_0" (lset Batches (mem_rows
      [set_b_Status "completed" (set_b_Result "{}" (batch_ex "pending"))]) empty_store)
    (set_b_Status "completed" (set_b_Result "{}" (batch_ex "pending"))) (JObj []))
    as (kvs & E & _ & _ & Ho); [reflexivity..|discriminate|].
  exists kvs. split; [by rewrite E|exact Ho].
Defined.

(** the other batch of the table is left alone *)
Lemma cancel_only_pending_witness :
  exists s', fst (cancelBatch 3 "batch_0_0" (batch_store "pending")) = s' /\
    batch_of "batch_1_1" s' = batch_of "batch_1_1" (batch_store "pending").
Proof.
  destruct (cancel_only_pending 3 "batch_0_0" (batch_store "pending")) as (s' & b' & _ & _ & Hother & E).
  exists s'. split; [by rewrite E|]. apply Hother. discriminate.
Defined.
End witnesses.
