(* ===== verification/GpuMonitor.v ===== *)
(** * The GPU contention monitor of the client (internal/client/gpu/monitor.go)

    Utilisation samples drive a two-state machine and a ring buffer of 180
    entries. A probe result is an argument of the operations that read it,
    [None] being its error; so is the time. The channel of state changes is
    buffered: a send on it when it is full parks the sender, which holds the
    monitor's lock. *)

From S2P Require Import Prelude GoStd.

Inductive State := StateAvailable | StateBusy.
#[export] Instance State_eq_dec : EqDecision State.
Proof. solve_decision. Defined.

Definition State_String (s : State) : string :=
  match s with StateAvailable => "available" | StateBusy => "busy" end.

Record StateChange := { sc_From : State; sc_To : State }.

Record GPUStats := {
  gs_Mean : Z;
  gs_BaselineMean : Z;
  gs_Min : Z;
  gs_Max : Z;
  gs_SampleCount : Z;
}.
Definition zero_GPUStats : GPUStats :=
  {| gs_Mean := 0; gs_BaselineMean := 0; gs_Min := 0; gs_Max := 0; gs_SampleCount := 0 |}.

Definition window_size : nat := 180.
Definition changes_capacity : nat := 5.

Record Monitor := {
  m_contentionThresh : Z;
  m_resumeDelay : Z;
  m_state : State;
  m_lastUtilization : Z;
  m_contentionSince : Z;
  m_baseline : Z;
  m_processing : bool;
  m_windowBuf : list Z;
  m_windowHead : nat;
  m_windowFull : bool;
  m_StateChangeCh : list StateChange;
}.

(** The time of the last contention is read in the busy state only, which
    sets it. *)
Definition NewMonitor (contentionThresh resumeDelay : Z) : Monitor :=
  {| m_contentionThresh := contentionThresh; m_resumeDelay := resumeDelay; m_state := StateAvailable;
     m_lastUtilization := 0; m_contentionSince := 0; m_baseline := 0; m_processing := false;
     m_windowBuf := replicate window_size 0%Z; m_windowHead := 0; m_windowFull := false;
     m_StateChangeCh := [] |}.

Definition set_baseline (v : Z) (m : Monitor) : Monitor :=
  Build_Monitor m.(m_contentionThresh) m.(m_resumeDelay) m.(m_state) m.(m_lastUtilization)
    m.(m_contentionSince) v m.(m_processing) m.(m_windowBuf) m.(m_windowHead) m.(m_windowFull) m.(m_StateChangeCh).
Definition set_processing (v : bool) (m : Monitor) : Monitor :=
  Build_Monitor m.(m_contentionThresh) m.(m_resumeDelay) m.(m_state) m.(m_lastUtilization)
    m.(m_contentionSince) m.(m_baseline) v m.(m_windowBuf) m.(m_windowHead) m.(m_windowFull) m.(m_StateChangeCh).
Definition set_lastUtilization (v : Z) (m : Monitor) : Monitor :=
  Build_Monitor m.(m_contentionThresh) m.(m_resumeDelay) m.(m_state) v
    m.(m_contentionSince) m.(m_baseline) m.(m_processing) m.(m_windowBuf) m.(m_windowHead) m.(m_windowFull) m.(m_StateChangeCh).
Definition set_state (v : State) (m : Monitor) : Monitor :=
  Build_Monitor m.(m_contentionThresh) m.(m_resumeDelay) v m.(m_lastUtilization)
    m.(m_contentionSince) m.(m_baseline) m.(m_processing) m.(m_windowBuf) m.(m_windowHead) m.(m_windowFull) m.(m_StateChangeCh).
Definition set_contentionSince (v : Z) (m : Monitor) : Monitor :=
  Build_Monitor m.(m_contentionThresh) m.(m_resumeDelay) m.(m_state) m.(m_lastUtilization)
    v m.(m_baseline) m.(m_processing) m.(m_windowBuf) m.(m_windowHead) m.(m_windowFull) m.(m_StateChangeCh).
Definition set_StateChangeCh (v : list StateChange) (m : Monitor) : Monitor :=
  Build_Monitor m.(m_contentionThresh) m.(m_resumeDelay) m.(m_state) m.(m_lastUtilization)
    m.(m_contentionSince) m.(m_baseline) m.(m_processing) m.(m_windowBuf) m.(m_windowHead) m.(m_windowFull) v.

(** ** Operations *)

Definition GetState : GoM Monitor State := gets m_state.
Definition GetUtilization : GoM Monitor Z := gets m_lastUtilization.
Definition SetBaseline (pct : Z) : GoM Monitor unit := modify (set_baseline pct).
Definition SetProcessing (v : bool) : GoM Monitor unit := modify (set_processing v).

(** The largest of the successful samples, at least 0. *)
Definition max_sample (samples : list (option Z)) : Z :=
  foldl (fun maxUtil s => match s with
                          | Some util => if bool_decide (maxUtil < util)%Z then util else maxUtil
                          | None => maxUtil
                          end) 0%Z samples.
Definition CalibrateBaseline (samples : list (option Z)) (headroom : Z) : GoM Monitor unit :=
  modify (set_baseline (Z.min (max_sample samples + headroom) 100)).

Definition external_load (utilization baseline : Z) : Z := Z.max (utilization - baseline) 0.

(** [ticks]: at each tick what the prober answers, and the time of the
    deadline test. No tick left: the context is done. *)
Fixpoint WaitForBaseline (deadline : Z) (ticks : list (option Z * Z)) : GoM Monitor bool :=
  match ticks with
  | [] => mret false
  | (probe, now) :: ticks =>
      match probe with Some util => modify (set_lastUtilization util) | None => skip end ;;
      util ← GetUtilization;
      base ← gets m_baseline;
      thresh ← gets m_contentionThresh;
      if bool_decide (external_load util base <= thresh)%Z then mret true
      else if bool_decide (deadline < now)%Z then mret false
      else WaitForBaseline deadline ticks
  end.

Definition record_sample (utilization : Z) (m : Monitor) : Monitor :=
  let head := (m.(m_windowHead) + 1) mod length m.(m_windowBuf) in
  Build_Monitor m.(m_contentionThresh) m.(m_resumeDelay) m.(m_state) m.(m_lastUtilization)
    m.(m_contentionSince) m.(m_baseline) m.(m_processing)
    (<[m.(m_windowHead) := utilization]> m.(m_windowBuf)) head
    (if head == 0 then true else m.(m_windowFull)) m.(m_StateChangeCh).

(** [m.StateChangeCh <- c] *)
Definition send_change (c : StateChange) : GoM Monitor unit :=
  ch ← gets m_StateChangeCh;
  if bool_decide (length ch < changes_capacity)
  then modify (set_StateChangeCh (ch ++ [c])) else block.

(** The state machine of [check]. [now] stands for the several readings of the
    clock. *)
Definition transition (now utilization : Z) : GoM Monitor unit :=
  m ← gets id;
  let contention := bool_decide (m.(m_contentionThresh) < external_load utilization m.(m_baseline))%Z in
  match m.(m_state) with
  | StateAvailable =>
      if contention then
        modify (set_state StateBusy) ;;
        modify (set_contentionSince now) ;;
        send_change {| sc_From := StateAvailable; sc_To := StateBusy |}
      else skip
  | StateBusy =>
      if contention then modify (set_contentionSince now)
      else if bool_decide (m.(m_resumeDelay) <= now - m.(m_contentionSince))%Z then
        modify (set_state StateAvailable) ;;
        send_change {| sc_From := StateBusy; sc_To := StateAvailable |}
      else skip
  end.

Definition check (now : Z) (probe : option Z) : GoM Monitor unit :=
  match probe with
  | None => skip
  | Some utilization =>
      modify (set_lastUtilization utilization) ;;
      processing ← gets m_processing;
      if processing : bool then skip
      else modify (record_sample utilization) ;; transition now utilization
  end.

(** The receive of the worker's loop: [None] when the channel is empty. *)
Definition recv_change : GoM Monitor (option StateChange) :=
  ch ← gets m_StateChangeCh;
  match ch with
  | [] => mret None
  | c :: ch => modify (set_StateChangeCh ch) ;; mret (Some c)
  end.

(** ** Statistics *)

(** the window's samples, oldest first *)
Definition samples (m : Monitor) : list Z :=
  if m.(m_windowFull) then drop m.(m_windowHead) m.(m_windowBuf) ++ take m.(m_windowHead) m.(m_windowBuf)
  else take m.(m_windowHead) m.(m_windowBuf).

Definition zsum (l : list Z) : Z := foldr Z.add 0%Z l.
Fixpoint insert_z (x : Z) (l : list Z) : list Z :=
  match l with
  | [] => [x]
  | y :: l' => if bool_decide (x <= y)%Z then x :: l else y :: insert_z x l'
  end.
(** [sort.Ints] *)
Definition sort_ints (l : list Z) : list Z := foldr insert_z [] l.

Definition Stats (m : Monitor) : GPUStats :=
  match samples m with
  | [] => zero_GPUStats
  | x :: l =>
      let size := length (x :: l) in
      let cutoff := Nat.max (size * 85 / 100) 1 in
      {| gs_Mean := Z.quot (zsum (x :: l)) (Z.of_nat size);
         gs_BaselineMean := Z.quot (zsum (take cutoff (sort_ints (x :: l)))) (Z.of_nat cutoff);
         gs_Min := foldl Z.min x l;
         gs_Max := foldl Z.max x l;
         gs_SampleCount := Z.of_nat size |}
  end.

(** ** The ring buffer is the last 180 recorded samples *)

Definition lastn {A} (n : nat) (l : list A) : list A := drop (length l - n) l.

(** The window of [m] after the samples [l]. *)
Definition window_of (l : list Z) (m : Monitor) : Prop :=
  length m.(m_windowBuf) = window_size /\
  m.(m_windowHead) = length l mod window_size /\
  m.(m_windowFull) = bool_decide (window_size <= length l) /\
  samples m = lastn window_size l.

Lemma window_of_New c r : window_of [] (NewMonitor c r).
Proof. done. Qed.

Lemma lastn_snoc {A} n (l : list A) x : (0 < n)%nat ->
  lastn n (l ++ [x]) = (if bool_decide (length l < n) then l ++ [x] else drop 1 (lastn n l) ++ [x]).
Proof.
  intros Hn. unfold lastn. rewrite length_app. cbn [length]. case_bool_decide as Hl.
  - by replace (length l + 1 - n) with 0 by lia.
  - rewrite drop_app_le by lia. rewrite drop_drop. f_equal. f_equal. lia.
Qed.

(** Writing at the head of a full ring drops the oldest sample. *)
Lemma ring_step (buf : list Z) h x : (h < length buf)%nat ->
  let h' := (h + 1) mod length buf in
  drop h' (<[h := x]> buf) ++ take h' (<[h := x]> buf) =
    drop 1 (drop h buf ++ take h buf) ++ [x].
Proof.
  intros Hh h'.
  assert (Hb : exists a y c, buf = a ++ y :: c /\ length a = h).
  { destruct (lookup_lt_is_Some_2 buf h Hh) as [y Hy]. exists (take h buf), y, (drop (S h) buf).
    split; [by rewrite take_drop_middle|]. rewrite length_take. lia. }
  destruct Hb as (a & y & c & -> & <-). rewrite insert_app_r_alt, Nat.sub_diag by lia. cbn [insert list_insert].
  rewrite drop_app_length, take_app_length. cbn [app drop]. unfold h'. rewrite length_app. cbn [length].
  destruct c as [|z c].
  - cbn [length]. rewrite Nat.Div0.mod_same. cbn. by rewrite app_nil_r, drop_0.
  - rewrite Nat.mod_small by (cbn [length]; lia).
    replace (a ++ x :: z :: c) with ((a ++ [x]) ++ z :: c) by (by rewrite <- app_assoc).
    rewrite drop_app_length' by (rewrite length_app; cbn; lia).
    rewrite take_app_length' by (rewrite length_app; cbn; lia). by rewrite app_assoc.
Qed.

Lemma record_sample_window l u m : window_of l m -> window_of (l ++ [u]) (record_sample u m).
Proof.
  intros (Hlen & Hhead & Hfull & Hs). unfold record_sample. unfold window_of, samples. cbn.
  rewrite length_insert, Hlen, Hhead. cbn [length]. rewrite length_app. cbn [length].
  assert (Hmod : (length l mod window_size + 1) mod window_size = (length l + 1) mod window_size)
    by (by rewrite Nat.Div0.add_mod_idemp_l).
  assert (Hlt : (length l mod window_size < window_size)%nat) by (apply Nat.mod_upper_bound; done).
  assert (Hfull' : (if (length l mod window_size + 1) mod window_size == 0 then true else m.(m_windowFull)) =
    bool_decide (window_size <= length l + 1)).
  { rewrite Hmod, Hfull. destruct (decide (window_size <= length l)) as [Hl|Hl].
    - rewrite !(bool_decide_eq_true_2 (window_size <= _)%nat) by lia. by case_match.
    - rewrite (bool_decide_eq_false_2 (window_size <= length l)%nat) by done.
      destruct (decide (length l + 1 = window_size)) as [E|E].
      + by rewrite E, Nat.Div0.mod_same.
      + rewrite Nat.mod_small by lia. rewrite (bool_decide_eq_false_2 (window_size <= _)%nat) by lia.
        by rewrite bool_decide_eq_false_2 by lia. }
  split_and!; [done|done|exact Hfull'|]. rewrite Hfull'. rewrite lastn_snoc by (unfold window_size; lia).
  unfold samples in Hs. rewrite Hfull, Hhead in Hs.
  destruct (decide (window_size <= length l)) as [Hl|Hl].
  - rewrite bool_decide_eq_true_2 by lia. rewrite bool_decide_eq_false_2 by lia.
    rewrite bool_decide_eq_true_2 in Hs by done. rewrite <- Hs.
    assert (Hh : (length l mod window_size < length m.(m_windowBuf))%nat) by (by rewrite Hlen).
    pose proof (ring_step m.(m_windowBuf) _ u Hh) as Hr. cbn zeta in Hr. by rewrite Hlen in Hr.
  - rewrite (bool_decide_eq_true_2 (length l < window_size)%nat) by lia.
    rewrite bool_decide_eq_false_2 in Hs by lia. unfold lastn in Hs.
    replace (length l - window_size) with 0 in Hs by lia. rewrite drop_0 in Hs.
    rewrite Nat.mod_small in * by lia.
    assert (Ht : take (length l + 1) (<[length l := u]> m.(m_windowBuf)) = l ++ [u]).
    { rewrite Nat.add_1_r, (take_S_r _ _ u) by (apply list_lookup_insert_eq; lia).
      by rewrite take_insert_ge, Hs by lia. }
    rewrite Hmod, (Nat.mod_small (length l)) by lia. clear Hfull'.
    destruct (decide (window_size <= length l + 1)) as [E|E].
    + rewrite bool_decide_eq_true_2 by done. replace (length l + 1) with window_size in * by lia.
      rewrite Nat.Div0.mod_same. rewrite drop_0, take_0, app_nil_r.
      rewrite <- Ht. rewrite take_ge; [done|]. rewrite length_insert. lia.
    + rewrite bool_decide_eq_false_2 by done. rewrite Nat.mod_small by lia. exact Ht.
Qed.

(** ** The monitor's life: its own ticks and the calls of the others *)

Inductive monitor_event :=
  | MCheck (now : Z) (probe : option Z)
  | MSetProcessing (v : bool)
  | MSetBaseline (pct : Z)
  | MCalibrate (probes : list (option Z)) (headroom : Z)
  | MWaitForBaseline (deadline : Z) (ticks : list (option Z * Z))
  | MRecv.

Definition exec_monitor (e : monitor_event) : GoM Monitor unit :=
  match e with
  | MCheck now probe => check now probe
  | MSetProcessing v => SetProcessing v
  | MSetBaseline pct => SetBaseline pct
  | MCalibrate probes headroom => CalibrateBaseline probes headroom
  | MWaitForBaseline deadline ticks => WaitForBaseline deadline ticks ;; skip
  | MRecv => recv_change ;; skip
  end.

(** What polling for the baseline may touch. *)
Definition utilization_only (m m' : Monitor) : Prop := exists u, m' = set_lastUtilization u m.
#[export] Instance utilization_only_preorder : PreOrder utilization_only.
Proof.
  split; [intros m; exists m.(m_lastUtilization); by destruct m|].
  intros m1 m2 m3 [u ->] [v ->]. by exists v.
Qed.
Lemma WaitForBaseline_keeps deadline ticks : keeps utilization_only (WaitForBaseline deadline ticks).
Proof.
  induction ticks as [|[probe now] ticks IH]; cbn [WaitForBaseline]; unfold GetUtilization; keeps_tac.
  intros m. by eexists.
Qed.

(** The samples recorded so far, and whether a unit is being processed. *)
Definition record_event (acc : bool * list Z) (e : monitor_event) : bool * list Z :=
  match e with
  | MCheck _ (Some u) => if acc.1 then acc else (acc.1, acc.2 ++ [u])
  | MSetProcessing v => (v, acc.2)
  | _ => acc
  end.
Definition recorded (es : list monitor_event) : list Z := (foldl record_event (false, []) es).2.

Definition tracks (acc : bool * list Z) (m : Monitor) : Prop :=
  m.(m_processing) = acc.1 /\ window_of acc.2 m.

(** The window and the flag survive whatever leaves their fields alone. *)
Definition same_window (m m' : Monitor) : Prop :=
  m'.(m_processing) = m.(m_processing) /\ m'.(m_windowBuf) = m.(m_windowBuf) /\
  m'.(m_windowHead) = m.(m_windowHead) /\ m'.(m_windowFull) = m.(m_windowFull).
#[export] Instance same_window_preorder : PreOrder same_window.
Proof. split; [done|]. intros x y z (?&?&?&?) (?&?&?&?). split_and!; congruence. Qed.
Lemma tracks_same acc m m' : same_window m m' -> tracks acc m -> tracks acc m'.
Proof.
  intros (E1 & E2 & E3 & E4) (Hp & H1 & H2 & H3 & H4). unfold tracks, window_of, samples in *.
  rewrite E1, E2, E3, E4. done.
Qed.
Lemma same_window_send c : keeps same_window (send_change c).
Proof. unfold send_change. keeps_tac. by apply keeps_modify. Qed.

Lemma same_window_transition now u : keeps same_window (transition now u).
Proof. unfold transition. keeps_tac; try apply same_window_send; by apply keeps_modify. Qed.

Lemma exec_monitor_tracks e acc : forall m, tracks acc m ->
  tracks (record_event acc e) (run (exec_monitor e) m).
Proof.
  intros m Hm. destruct e as [now probe|v|pct|probes hr|dl ticks|]; cbn [exec_monitor record_event].
  - destruct probe as [u|]; [|done]. unfold check.
    set (m1 := set_lastUtilization u m). assert (Hm1 : tracks acc m1) by (by apply (tracks_same acc m)).
    unfold run. rewrite (bind_Ret _ _ _ m1 tt) by done. rewrite (bind_Ret _ _ _ m1 m1.(m_processing)) by done.
    destruct Hm1 as [Hp Hw]. rewrite Hp. destruct acc as [pr l]. cbn in *. destruct pr; [by split|].
    set (m2 := record_sample u m1).
    rewrite (bind_Ret _ _ _ m2 tt) by done.
    assert (Hm2 : tracks (false, l ++ [u]) m2) by (split; [done|by apply record_sample_window]).
    revert Hm2. apply tracks_same, same_window_transition.
  - by destruct Hm.
  - by apply (tracks_same acc m).
  - by apply (tracks_same acc m).
  - rewrite run_skip. apply (tracks_same acc m); [|done].
    destruct (WaitForBaseline_keeps dl ticks m) as [u ->]. done.
  - rewrite run_skip. apply (tracks_same acc m); [|done]. revert m Hm. intros m _. revert m.
    assert (Hk : keeps same_window recv_change) by (unfold recv_change; keeps_tac; apply keeps_modify; by intros).
    exact Hk.
Qed.

Lemma exec_monitors_tracks es acc m m' : tracks acc m ->
  foreach es exec_monitor m = (m', Ret tt) -> tracks (foldl record_event acc es) m'.
Proof.
  revert acc m. induction es as [|e es IH]; intros acc m Hm E; cbn [foreach foldl] in *.
  - by injection E as <-.
  - apply bind_inv in E as (m1 & [] & E1 & E2). apply (IH _ m1); [|done].
    replace m1 with (run (exec_monitor e) m) by (unfold run; by rewrite E1).
    by apply exec_monitor_tracks.
Qed.

(** ** Statistics are those of the window *)

Lemma insert_z_perm x l : insert_z x l ≡ₚ x :: l.
Proof.
  induction l as [|y l IH]; cbn; [done|]. case_bool_decide; [done|]. rewrite IH. by constructor.
Qed.
Lemma sort_ints_perm l : sort_ints l ≡ₚ l.
Proof. induction l as [|x l IH]; cbn; [done|]. by rewrite insert_z_perm, IH. Qed.
Lemma insert_z_sorted x l : StronglySorted Z.le l -> StronglySorted Z.le (insert_z x l).
Proof.
  induction 1 as [|y l Hl IH Hy]; cbn; [by repeat constructor|]. case_bool_decide as E.
  - constructor; [by constructor|]. constructor; [done|].
    rewrite List.Forall_forall in *. intros z Hz. specialize (Hy z Hz). lia.
  - constructor; [done|]. rewrite List.Forall_forall in *. intros z Hz.
    apply list_elem_of_In in Hz. rewrite insert_z_perm in Hz. apply elem_of_cons in Hz as [->|Hz]; [lia|].
    by apply Hy, list_elem_of_In.
Qed.
Lemma sort_ints_sorted l : StronglySorted Z.le (sort_ints l).
Proof. induction l; cbn; [constructor|]. by apply insert_z_sorted. Qed.

Lemma sorted_app_le (l1 l2 : list Z) : StronglySorted Z.le (l1 ++ l2) ->
  forall x y, x ∈ l1 -> y ∈ l2 -> (x <= y)%Z.
Proof.
  induction l1 as [|z l1 IH]; cbn; intros Hs x y Hx Hy; [by apply elem_of_nil in Hx|].
  inversion_clear Hs as [|? ? Hs' Hz]. apply elem_of_cons in Hx as [->|Hx]; [|by eapply IH].
  rewrite List.Forall_forall in Hz. apply Hz, list_elem_of_In, elem_of_app. by right.
Qed.

Lemma foldl_min_spec l x : foldl Z.min x l ∈ x :: l /\ forall y, y ∈ x :: l -> (foldl Z.min x l <= y)%Z.
Proof.
  revert x. induction l as [|z l IH]; intros x; cbn [foldl].
  - split; [by left|]. intros y Hy%list_elem_of_singleton. lia.
  - destruct (IH (Z.min x z)) as [Hin Hle]. split.
    + apply elem_of_cons in Hin as [E|Hin]; [|by do 2 right].
      rewrite E. destruct (Z.min_spec x z) as [[_ ->]|[_ ->]]; [left|right; left].
    + assert (Hm : (foldl Z.min (Z.min x z) l <= Z.min x z)%Z) by (apply Hle; left).
      intros y [->|[->|Hy]%elem_of_cons]%elem_of_cons; [lia|lia|]. apply Hle. by right.
Qed.
Lemma foldl_max_spec l x : foldl Z.max x l ∈ x :: l /\ forall y, y ∈ x :: l -> (y <= foldl Z.max x l)%Z.
Proof.
  revert x. induction l as [|z l IH]; intros x; cbn [foldl].
  - split; [by left|]. intros y Hy%list_elem_of_singleton. lia.
  - destruct (IH (Z.max x z)) as [Hin Hle]. split.
    + apply elem_of_cons in Hin as [E|Hin]; [|by do 2 right].
      rewrite E. destruct (Z.max_spec x z) as [[_ ->]|[_ ->]]; [right; left|left].
    + assert (Hm : (Z.max x z <= foldl Z.max (Z.max x z) l)%Z) by (apply Hle; left).
      intros y [->|[->|Hy]%elem_of_cons]%elem_of_cons; [lia|lia|]. apply Hle. by right.
Qed.

(** What the statistics of a non-empty window are. *)
Record stats_of (l : list Z) (s : GPUStats) : Prop := {
  so_count : s.(gs_SampleCount) = Z.of_nat (length l);
  so_mean : s.(gs_Mean) = Z.quot (zsum l) (Z.of_nat (length l));
  so_min : s.(gs_Min) ∈ l /\ forall y, y ∈ l -> (s.(gs_Min) <= y)%Z;
  so_max : s.(gs_Max) ∈ l /\ forall y, y ∈ l -> (y <= s.(gs_Max))%Z;
  so_baseline : exists low high, l ≡ₚ low ++ high /\ length low = Nat.max (length l * 85 / 100) 1 /\
    (forall x y, x ∈ low -> y ∈ high -> (x <= y)%Z) /\
    s.(gs_BaselineMean) = Z.quot (zsum low) (Z.of_nat (length low));
}.

Lemma Stats_of m l : samples m = l -> l <> [] -> stats_of l (Stats m).
Proof.
  intros Hs Hne. unfold Stats. rewrite Hs. destruct l as [|x l]; [done|].
  set (cutoff := Nat.max _ 1).
  assert (Hcut : (cutoff <= length (sort_ints (x :: l)))%nat).
  { rewrite sort_ints_perm. unfold cutoff. cbn [length].
    pose proof (Nat.Div0.div_le_upper_bound (S (length l) * 85) 100 (S (length l)) ltac:(lia)). lia. }
  split; cbn [gs_SampleCount gs_Mean gs_Min gs_Max gs_BaselineMean]; [done|done|apply foldl_min_spec|apply foldl_max_spec|].
  exists (take cutoff (sort_ints (x :: l))), (drop cutoff (sort_ints (x :: l))).
  rewrite take_drop. split; [by rewrite sort_ints_perm|]. rewrite length_take_le by done. split; [done|].
  split; [|done]. apply sorted_app_le. rewrite take_drop. apply sort_ints_sorted.
Qed.

(** ** Contention and resumption *)

Definition contended (m : Monitor) (e : monitor_event) : option Z :=
  match e with
  | MCheck now (Some u) =>
      if negb m.(m_processing) && bool_decide (m.(m_contentionThresh) < external_load u m.(m_baseline))%Z
      then Some now else None
  | _ => None
  end.
(** The times at which a check saw contention, along a run. *)
Fixpoint contended_times (es : list monitor_event) (m : Monitor) : list Z :=
  match es with
  | [] => []
  | e :: es => option_list (contended m e) ++ contended_times es (run (exec_monitor e) m)
  end.
Definition check_time (e : monitor_event) : list Z := match e with MCheck now _ => [now] | _ => [] end.
Definition check_times (es : list monitor_event) : list Z := es ≫= check_time.

(** While busy, the remembered time is at or after every contended check. *)
Definition remembers (T : list Z) (m : Monitor) : Prop :=
  m.(m_state) = StateBusy -> forall t, t ∈ T -> (t <= m.(m_contentionSince))%Z.

Definition same_contention (m m' : Monitor) : Prop :=
  m'.(m_state) = m.(m_state) /\ m'.(m_contentionSince) = m.(m_contentionSince) /\
  m'.(m_resumeDelay) = m.(m_resumeDelay).
#[export] Instance same_contention_preorder : PreOrder same_contention.
Proof. split; [done|]. intros x y z (?&?&?) (?&?&?). split_and!; congruence. Qed.

Lemma wp_send_change c m (Q : Monitor -> res unit -> Prop) :
  (forall ch r, Q (set_StateChangeCh ch m) r) -> wp (send_change c) Q m.
Proof.
  intros HQ. apply wp_bind, wp_gets. case_bool_decide; [by apply wp_modify|].
  specialize (HQ m.(m_StateChangeCh) Blocked). by destruct m.
Qed.

(** What a transition does to the state, whether its send is taken or not. *)
Lemma transition_effect now u m :
  let c := bool_decide (m.(m_contentionThresh) < external_load u m.(m_baseline))%Z in
  wp (transition now u) (fun m' _ =>
    m'.(m_resumeDelay) = m.(m_resumeDelay) /\
    (c = true -> m'.(m_state) = StateBusy /\ m'.(m_contentionSince) = now) /\
    (c = false -> m'.(m_contentionSince) = m.(m_contentionSince) /\
       (m'.(m_state) = m.(m_state) \/
        m.(m_state) = StateBusy /\ m'.(m_state) = StateAvailable /\ (m.(m_resumeDelay) <= now - m.(m_contentionSince))%Z))) m.
Proof.
  intros c. unfold transition. apply wp_bind, wp_gets. cbn [id]. fold c.
  destruct (m_state m) eqn:Est; destruct c.
  - apply wp_bind, wp_modify, wp_bind, wp_modify, wp_send_change. by intros.
  - apply wp_ret. rewrite Est. by split_and!; [done|done|auto].
  - apply wp_modify. by rewrite <- Est.
  - case_bool_decide as Hd.
    + apply wp_bind, wp_modify, wp_send_change. intros ch r. split_and!; [done|done|]. intros _. split; [done|]. by right.
    + apply wp_ret. rewrite Est. by split_and!; [done|done|auto].
Qed.

Lemma exec_monitor_remembers e T m : remembers T m ->
  (forall now t, now ∈ check_time e -> t ∈ T -> (t <= now)%Z) ->
  let m' := run (exec_monitor e) m in
  remembers (T ++ option_list (contended m e)) m' /\ m'.(m_resumeDelay) = m.(m_resumeDelay).
Proof.
  intros Hm Htime m'.
  assert (Hsame : contended m e = None -> same_contention m m' ->
    remembers (T ++ option_list (contended m e)) m' /\ m'.(m_resumeDelay) = m.(m_resumeDelay)).
  { intros -> (E1 & E2 & E3). split; [|done]. cbn. rewrite app_nil_r. intros Hb. rewrite E2. apply Hm. congruence. }
  destruct e as [now probe|v|pct|probes hr|dl ticks|]; cbn [exec_monitor] in *; try (by apply Hsame).
  - destruct probe as [u|]; [|by apply Hsame]. unfold m', run, check. cbn [contended] in *.
    destruct (m_processing m) eqn:Hp.
    { unfold mbind, GoM_bind, gets. cbn. rewrite Hp. split; [|done]. cbn. rewrite app_nil_r. exact Hm. }
    unfold mbind, GoM_bind, gets. cbn -[transition]. rewrite Hp.
    change ((modify (record_sample u) ;; transition now u) (set_lastUtilization u m)) with
      (transition now u (record_sample u (set_lastUtilization u m))).
    set (m2 := record_sample u _).
    destruct (transition_effect now u m2) as (Hd & Hc & Hnc). cbn [negb andb].
    change (m_contentionThresh m2) with (m_contentionThresh m) in *. change (m_baseline m2) with (m_baseline m) in *.
    split; [|exact Hd]. case_bool_decide as Hcont; cbn [option_list].
    + destruct (Hc eq_refl) as [_ Hsince]. intros _ t. unfold run in Hsince. rewrite Hsince.
      intros [Ht|Ht%list_elem_of_singleton]%elem_of_app; [|lia]. apply Htime; [|done]. by left.
    + rewrite app_nil_r. destruct (Hnc eq_refl) as [Hsince Hst]. unfold run in *. intros Hb t Ht. rewrite Hsince.
      apply Hm; [|done]. destruct Hst as [E|(_ & E & _)]; [|congruence]. change (m_state m2) with (m_state m) in E. congruence.
  - apply Hsame; [done|]. unfold m'. rewrite run_skip. destruct (WaitForBaseline_keeps dl ticks m) as [u ->]. done.
  - apply Hsame; [done|]. unfold m'. rewrite run_skip. unfold recv_change, run, mbind, GoM_bind, gets.
    by destruct (m_StateChangeCh m).
Qed.

Lemma exec_monitors_remember es T m m' : remembers T m ->
  (forall now t, now ∈ check_times es -> t ∈ T -> (t <= now)%Z) ->
  StronglySorted Z.le (check_times es) ->
  foreach es exec_monitor m = (m', Ret tt) ->
  remembers (T ++ contended_times es m) m' /\ m'.(m_resumeDelay) = m.(m_resumeDelay).
Proof.
  revert T m. induction es as [|e es IH]; intros T m Hm Ht Hs E; cbn [foreach contended_times] in *.
  - injection E as <-. by rewrite app_nil_r.
  - apply bind_inv in E as (m1 & [] & E1 & E2).
    assert (Em1 : m1 = run (exec_monitor e) m) by (unfold run; by rewrite E1).
    destruct (exec_monitor_remembers e T m Hm) as [Hm1 Hd1].
    { intros now t Hn. apply Ht. unfold check_times. cbn. apply elem_of_app. by left. }
    rewrite <- Em1 in *. unfold check_times in Hs. cbn in Hs.
    destruct (IH (T ++ option_list (contended m e)) m1 Hm1) as [Hr Hd]; [| |done|].
    + intros now t Hn [Hin|Hin]%elem_of_app.
      * apply Ht; [|done]. unfold check_times. cbn. apply elem_of_app. by right.
      * assert (Ht' : t ∈ check_time e).
        { destruct e as [now' [u|]| | | | |]; cbn in *; try by apply elem_of_nil in Hin.
          destruct (_ && _); [done|]. by apply elem_of_nil in Hin. }
        by apply (sorted_app_le (check_time e) (check_times es)).
    + by apply StronglySorted_app_1_r in Hs.
    + rewrite <- app_assoc in Hr. split; [done|congruence].
Qed.

(** The changes on the channel lead from one state to another. *)
Fixpoint path (a : State) (ch : list StateChange) : option State :=
  match ch with
  | [] => Some a
  | c :: ch => if (c.(sc_From) == a) && (c.(sc_To) != a) then path c.(sc_To) ch else None
  end.
Definition channel_ok (m : Monitor) : Prop :=
  (length m.(m_StateChangeCh) <= changes_capacity)%nat /\
  exists a, path a m.(m_StateChangeCh) = Some m.(m_state).

Lemma path_snoc a ch b c : path a ch = Some b -> c.(sc_From) = b -> c.(sc_To) <> b ->
  path a (ch ++ [c]) = Some c.(sc_To).
Proof.
  revert a. induction ch as [|d ch IH]; intros a; cbn.
  - intros [= <-] -> Hne. by rewrite bool_decide_eq_true_2, bool_decide_eq_false_2.
  - destruct (_ && _); [|done]. apply IH.
Qed.

(** A transition blocks only if the channel is full; otherwise the channel
    follows the state. *)
Lemma transition_channel now u m : channel_ok m ->
  wp (transition now u) (fun m' r => (r = Ret tt -> channel_ok m') /\
    (r <> Ret tt -> length m.(m_StateChangeCh) = changes_capacity)) m.
Proof.
  intros (Hlen & a & Hp).
  assert (Hsend : forall from to m1, m1.(m_StateChangeCh) = m.(m_StateChangeCh) -> from = m.(m_state) -> to <> from ->
    m1.(m_state) = to -> wp (send_change {| sc_From := from; sc_To := to |}) (fun m' r => (r = Ret tt -> channel_ok m') /\
    (r <> Ret tt -> length m.(m_StateChangeCh) = changes_capacity)) m1).
  { intros from to m1 Ech -> Hne Est. apply wp_bind, wp_gets. rewrite Ech. case_bool_decide as Hl.
    - apply wp_modify. split; [|done]. intros _. split; cbn; [rewrite length_app; cbn; lia|].
      exists a. rewrite Est. by apply (path_snoc _ _ _ {| sc_From := m_state m; sc_To := to |} Hp).
    - split; [done|]. intros _. lia. }
  unfold transition. apply wp_bind, wp_gets. cbn [id].
  assert (Hok : channel_ok m) by (split; [done|by exists a]).
  destruct (m_state m) eqn:Est; case_bool_decide.
  - apply wp_bind, wp_modify, wp_bind, wp_modify, Hsend; done.
  - apply wp_ret. by split.
  - apply wp_modify. split; [|done]. intros _. split; [done|]. exists a. cbn. by rewrite Est.
  - case_bool_decide; [apply wp_bind, wp_modify, Hsend; done|]. apply wp_ret. by split.
Qed.

(** A check that ends the contention saw the delay pass. *)
Lemma check_resumes now probe m : m.(m_state) = StateBusy -> (run (check now probe) m).(m_state) = StateAvailable ->
  (m.(m_resumeDelay) <= now - m.(m_contentionSince))%Z.
Proof.
  intros Hb. enough (Hwp : wp (check now probe) (fun m' _ => m'.(m_state) = StateAvailable ->
    (m.(m_resumeDelay) <= now - m.(m_contentionSince))%Z) m) by exact Hwp.
  unfold check. destruct probe as [u|]; [|apply wp_ret; congruence].
  apply wp_bind, wp_modify, wp_bind, wp_gets. destruct (m_processing _); [apply wp_ret; cbn; congruence|].
  apply wp_bind, wp_modify. eapply wp_mono; [apply transition_effect|]. cbn.
  intros m' _ (_ & Hc & Hnc) Ha. destruct (bool_decide _); [destruct (Hc eq_refl); congruence|].
  destruct (Hnc eq_refl) as [_ [E|(_ & _ & Hd)]]; [congruence|done].
Qed.

(** ** Properties *)

(** C31. The statistics describe the last 180 idle samples. Whatever the monitor
    went through, the reported count, mean, minimum and maximum are those of
    the most recent 180 samples recorded while no unit was processed, and the
    baseline mean is that of the lowest 85 percent of them. *)
Theorem stats_of_last_180 es thresh delay m :
  foreach es exec_monitor (NewMonitor thresh delay) = (m, Ret tt) -> recorded es <> [] ->
  stats_of (lastn window_size (recorded es)) (Stats m).
Proof.
  intros E Hne. destruct (exec_monitors_tracks es (false, []) (NewMonitor thresh delay) m) as [_ (Hl & _ & _ & Hs)];
    [by split; [|apply window_of_New]|done|].
  fold (recorded es) in Hs. apply Stats_of; [done|]. intros El. apply Hne, length_zero_iff_nil.
  apply (f_equal length) in El. unfold lastn in El. rewrite length_drop in El. cbn in El.
  unfold window_size in El. lia.
Qed.

(** Work resumes only after quiet. When a check takes the worker from busy
    to available, every earlier check that saw contention is at least the
    resume delay in the past. *)
Theorem resume_needs_quiet es now probe thresh delay m :
  StronglySorted Z.le (check_times (es ++ [MCheck now probe])) ->
  foreach es exec_monitor (NewMonitor thresh delay) = (m, Ret tt) ->
  m.(m_state) = StateBusy -> (run (check now probe) m).(m_state) = StateAvailable ->
  forall t, t ∈ contended_times es (NewMonitor thresh delay) -> (delay <= now - t)%Z.
Proof.
  intros Hs E Hb Ha t Ht.
  assert (Hs' : StronglySorted Z.le (check_times es)).
  { unfold check_times in *. rewrite bind_app in Hs. by apply StronglySorted_app_1_l in Hs. }
  destruct (exec_monitors_remember es [] (NewMonitor thresh delay) m) as [Hr Hd];
    [by intros|by intros ? ? _ ?%elem_of_nil|done|done|].
  specialize (Hr Hb t Ht). cbn in Hd. pose proof (check_resumes now probe m Hb Ha). lia.
Qed.

(** Undrained state changes stop the monitor. After five unread
    transitions the next one parks the monitor's goroutine on the channel,
    with the lock it holds that [GetState] needs. *)
Theorem undrained_monitor_hangs :
  let busy := Some 100%Z in
  let idle := Some 0%Z in
  exists m, foreach [MCheck 0 busy; MCheck 30 idle; MCheck 60 busy; MCheck 90 idle; MCheck 120 busy]%Z
      exec_monitor (NewMonitor 15 30) = (m, Ret tt) /\
    result (check 150 idle) m = Blocked.
Proof. eexists. split; vm_compute; reflexivity. Qed.

(** The reported changes follow the state. While the channel is not full
    every operation returns, and the changes waiting in it form a path of
    alternating states that ends in the current one. *)
Theorem changes_follow_state e m :
  channel_ok m -> (length m.(m_StateChangeCh) < changes_capacity)%nat ->
  result (exec_monitor e) m = Ret tt /\ channel_ok (run (exec_monitor e) m).
Proof.
  intros Hok Hlt. destruct e as [now probe|v|pct|probes hr|dl ticks|]; cbn [exec_monitor]; try done.
  - destruct probe as [u|]; [|done].
    assert (Hwp : wp (check now (Some u)) (fun m' r => r = Ret tt /\ channel_ok m') m).
    { unfold check. apply wp_bind, wp_modify, wp_bind, wp_gets. destruct (m_processing _); [by apply wp_ret|].
      apply wp_bind, wp_modify. set (m2 := record_sample u _).
      eapply wp_mono; [apply (transition_channel now u m2 Hok)|]. intros m' r [Hr Hn].
      destruct r as [[]| |]; [by auto| |]; exfalso; (assert (length m.(m_StateChangeCh) = changes_capacity) by (by apply Hn)); lia. }
    exact Hwp.
  - rewrite run_skip. destruct (WaitForBaseline_keeps dl ticks m) as [u ->].
    split; [|done].
    assert (Hr : returns (WaitForBaseline dl ticks ;; skip)).
    { returns_tac. clear. induction ticks as [|[p n] ticks IH]; cbn [WaitForBaseline]; unfold GetUtilization; returns_tac. }
    destruct (Hr m) as [[] Ha]. exact Ha.
  - rewrite run_skip. unfold recv_change, run, result, mbind, GoM_bind, gets. destruct Hok as (Hlen & a & Hp).
    destruct (m_StateChangeCh m) as [|c ch] eqn:Ech; cbn.
    + split; [done|]. split; [by rewrite Ech|]. exists a. by rewrite Ech.
    + split; [done|]. cbn in *. split; cbn; [lia|]. exists c.(sc_To). by destruct (_ && _) in Hp.
Qed.

Lemma stats_of_last_180_witness :
  let es := [MCheck 0 (Some 10%Z); MSetProcessing true; MCheck 5 (Some 99%Z); MSetProcessing false; MCheck 10 (Some 20%Z)] in
  stats_of [10; 20]%Z (Stats (run (foreach es exec_monitor) (NewMonitor 15 30))).
Proof.
  intros es. refine (stats_of_last_180 es 15 30 _ _ _); [vm_compute; reflexivity|vm_compute; discriminate].
Defined.

Lemma resume_needs_quiet_witness : (30 <= 40 - 0)%Z.
Proof.
  refine (resume_needs_quiet [MCheck 0 (Some 90%Z)] 40 (Some 0%Z) 15 30 _ _ eq_refl _ _ 0 _).
  - repeat constructor; lia.
  - vm_compute; reflexivity.
  - vm_compute; reflexivity.
  - vm_compute. left.
Defined.

Lemma changes_follow_state_witness : result (exec_monitor (MCheck 0 (Some 90%Z))) (NewMonitor 15 30) = Ret tt.
Proof.
  apply (changes_follow_state (MCheck 0 (Some 90%Z)) (NewMonitor 15 30)); [|vm_compute; lia].
  split; [vm_compute; lia|]. exists StateAvailable. reflexivity.
Defined.
