(* ===== verification/Probers.v ===== *)
(** * Asking the platform's tools (internal/client/gpu/linux, windows, darwin, internal/client/hwinfo)

    Which commands are run, how their output is read, and what is reported
    when one of them fails. The tools themselves are the class [Tools]: the
    output of a command, or [None] when it cannot be run or fails. *)

From Stdlib Require Import SpecFloat.
From S2P Require Import Prelude GoStd Json Strings Models Http GpuMonitor Latency.

Class Tools := {
  GOOS : string;
  GOARCH : string;
  NumCPU : Z;
  LookPath : string -> bool;                        (* exec.LookPath: found *)
  Output : string -> list string -> option string;  (* exec.Command(name, args...).Output() *)
}.

(** Floating-point literals, and the conversion of a value out of the range of
    [int], which Go leaves to the processor. *)
Class FloatText := {
  ParseFloat : string -> option float64;            (* strconv.ParseFloat(s, 64) *)
  int_out_of_range : float64 -> Z;
}.

Definition float_lt (x y : float64) : bool := match SFcompare x y with Some Lt => true | _ => false end.
(** [int(x)]: the fraction is dropped *)
Definition int_of_float `{FloatText} (x : float64) : Z :=
  match x with
  | S754_zero _ => 0
  | S754_finite s m e =>
      let a := if bool_decide (0 <= e)%Z then (Z.pos m * 2 ^ e)%Z else (Z.pos m / 2 ^ (- e))%Z in
      let z := if s then (- a)%Z else a in
      if in_int64 z then z else int_out_of_range x
  | _ => int_out_of_range x
  end.

(** ** What the probers of several platforms share *)

(** the loop of nvidiaSMI: lines that are no number are skipped *)
Definition max_line (maxUtil : Z) (line : string) : Z :=
  match Atoi (TrimSpace line) with
  | Some val => if bool_decide (maxUtil < val)%Z then val else maxUtil
  | None => maxUtil
  end.
Definition max_of_lines (out : string) : Z := foldl max_line 0%Z (Split (TrimSpace out) newline).

Definition smi_args (query : string) : list string := ["--query-gpu=" +:+ query; "--format=csv,noheader,nounits"].

(** [nvidiaSMI] and [mthreadsGMI] are the same text in gpu/linux and gpu/windows *)
Definition nvidiaSMI `{Tools} : option Z := max_of_lines <$> Output "nvidia-smi" (smi_args "utilization.gpu").
Definition mthreadsGMI `{Tools} : option Z :=
  out ← Output "mthreads-gmi" (smi_args "utilization.gpu"); Atoi (TrimSpace out).

(** the first line of a text *)
Definition first_line (s : string) : string := default "" (head (Split s newline)).

(** The text after the first colon of the first line that satisfies [p]. *)
Fixpoint after_colon (p : string -> bool) (lines : list string) : option string :=
  match lines with
  | [] => None
  | line :: lines =>
      if p line then
        match SplitN line ":"%char 2 with
        | [_; rest] => Some (TrimSpace rest)
        | _ => after_colon p lines
        end
      else after_colon p lines
  end.

Record Prober := {
  p_supported : bool;
  p_reason : string;
  p_hasNvidia : bool;
  p_hasMusa : bool;
  p_driverName : string;
  p_driverVersion : string;
}.

(** ** Linux *)

Module Linux.
Section linux.
Context `{Tools, FloatText, JsonText}.

Definition rocm_cutset : list Ascii.ascii := [quote; ","; "%"; " "]%char.
Fixpoint rocm_lines (lines : list string) : Z :=
  match lines with
  | [] => 0
  | line :: lines =>
      if Contains line "GPU use" then
        match Split line ":"%char with
        | _ :: field :: _ =>
            match Atoi (Trim (TrimSpace field) rocm_cutset) with
            | Some val => val
            | None => rocm_lines lines
            end
        | _ => rocm_lines lines
        end
      else rocm_lines lines
  end.
Definition rocmSMI : option Z :=
  (fun out => rocm_lines (Split out newline)) <$> Output "rocm-smi" ["--showuse"; "--json"].

(** The engines by name; a later entry of a name replaces an earlier one, and
    each is decoded from zero. *)
Definition decode_engine (j : json) : option num := decode_struct (NInt 0) [float_field "busy" (fun v _ => v)] j.
Definition decode_engines (j : json) (acc : gmap string num) : option (gmap string num) :=
  match j with
  | JNull => Some ∅
  | JObj kvs => foldl (fun acc kv => m ← acc; e ← decode_engine kv.2; Some (<[kv.1 := e]> m)) (Some acc) kvs
  | _ => None
  end.
Definition decode_intel : json -> option (gmap string num) := decode_struct ∅ [("engines", decode_engines)].

(** a literal outside the range of [float64] is an error of json.Unmarshal *)
Definition num_float (n : num) : option float64 :=
  ParseFloat match n with NInt z => pretty z | NLit lexeme => lexeme end.

Definition max_busy (l : list float64) : float64 :=
  foldl (fun maxBusy b => if float_lt maxBusy b then b else maxBusy) (S754_zero false) l.

Definition intelGPUTop : option Z :=
  out ← Output "intel_gpu_top" ["-J"; "-s"; "500"; "-l"; "1"];
  let lines := TrimSpace out in
  lastBrace ← LastIndex lines "}"%char;
  firstBrace ← LastIndex (take_str lastBrace lines) "{"%char;
  engines ← Unmarshal decode_intel (json_parse (drop_str firstBrace (take_str (S lastBrace) lines)));
  busy ← mapM (fun kv => num_float kv.2) (map_to_list engines);
  Some (int_of_float (max_busy busy)).

(** the error of Utilization is always nil *)
Definition Utilization : Z :=
  match nvidiaSMI with
  | Some pct => pct
  | None =>
      match rocmSMI with
      | Some pct => pct
      | None =>
          match intelGPUTop with
          | Some pct => pct
          | None => match mthreadsGMI with Some pct => pct | None => 0 end
          end
      end
  end.

Definition amd_driver : option (string * string) :=
  (fun out => match after_colon (fun line => Contains line "Driver version") (Split out newline) with
              | Some v => ("amdgpu", v)
              | None => ("amdgpu", "")
              end) <$> Output "rocm-smi" ["--showdriverversion"].
Definition intel_driver : option (string * string) :=
  out ← Output "modinfo" ["-F"; "version"; "i915"];
  let ver := TrimSpace out in
  Some ("i915", if ver != "" then ver
                else match Output "uname" ["-r"] with Some kver => TrimSpace kver | None => "" end).
Definition musa_driver : option (string * string) :=
  (fun out => ("musa", TrimSpace out)) <$> Output "mthreads-gmi" (smi_args "driver_version").
Definition nvidia_driver : option (string * string) :=
  out ← Output "nvidia-smi" (smi_args "driver_version");
  let ver := TrimSpace out in
  if ver != "" then Some ("nvidia", first_line ver) else None.

Definition detectDriver : string * string :=
  match nvidia_driver with
  | Some d => d
  | None => match amd_driver with
            | Some d => d
            | None => match intel_driver with
                      | Some d => d
                      | None => default ("", "") musa_driver
                      end
            end
  end.

Definition no_tool_reason (vulkan : bool) : string :=
  if vulkan then "GPU detected (Vulkan available) but no monitoring tool found — install nvidia-smi, rocm-smi, or intel_gpu_top for contention detection"
  else "no GPU monitoring tool found — install nvidia-smi (NVIDIA), rocm-smi (AMD), intel_gpu_top (Intel), or mthreads-gmi (Moore Threads)".

Definition New : Prober :=
  let supported := LookPath "nvidia-smi" || LookPath "rocm-smi" || LookPath "intel_gpu_top" || LookPath "mthreads-gmi" in
  let '(name, version) := detectDriver in
  {| p_supported := supported; p_reason := if supported then "" else no_tool_reason (LookPath "vulkaninfo");
     p_hasNvidia := false; p_hasMusa := false; p_driverName := name; p_driverVersion := version |}.
End linux.
End Linux.

(** ** Windows *)

Module Windows.
Section windows.
Context `{Tools, FloatText, JsonText}.

Definition gpuCountersAvailable : bool :=
  match Output "typeperf" ["-qx"; "GPU Engine"] with
  | Some out => Contains out "GPU Engine"
  | None => false
  end.

Definition counter_cutset : list Ascii.ascii := [quote; " "%char; Ascii.ascii_of_nat 13].
Definition max_field (maxUtil : float64) (f : string) : float64 :=
  let f := Trim f counter_cutset in
  if (f == "") || (f == " ") then maxUtil
  else match ParseFloat f with
       | Some val => if float_lt maxUtil val then val else maxUtil
       | None => maxUtil
       end.
Definition max_counter (maxUtil : float64) (line : string) : float64 :=
  if HasPrefix line (str1 quote) && negb (Contains line "Exiting")
  then foldl max_field maxUtil (tail (Split line ","%char)) else maxUtil.

Definition windowsGPUCounters : option Z :=
  out ← Output "typeperf" ["\GPU Engine(*engtype_3D)\Utilization Percentage"; "-sc"; "1"];
  match Split (TrimSpace out) newline with
  | _ :: (_ :: _) as lines => Some (int_of_float (foldl max_counter (S754_zero false) lines))
  | _ => None
  end.

(** the error of Utilization is always nil *)
Definition Utilization (p : Prober) : Z :=
  if negb p.(p_supported) then 0
  else
    match (if p.(p_hasNvidia) then nvidiaSMI else None) with
    | Some pct => pct
    | None =>
        match (if p.(p_hasMusa) then mthreadsGMI else None) with
        | Some pct => pct
        | None => default 0%Z windowsGPUCounters
        end
    end.

Definition query (property : string) : list string :=
  ["-NoProfile"; "-Command"; "Get-CimInstance Win32_VideoController | Select-Object -First 1 -ExpandProperty " +:+ property].

Definition detectWDDMDriverName : string :=
  match Output "powershell" (query "Name") with
  | None => "wddm"
  | Some out =>
      let adapterName := ToLower (TrimSpace out) in
      if Contains adapterName "intel" then "intel"
      else if Contains adapterName "amd" || Contains adapterName "radeon" then "amd"
      else if Contains adapterName "nvidia" || Contains adapterName "geforce" then "nvidia"
      else "wddm"
  end.

Definition wddm_driver : string * string :=
  match Output "powershell" (query "DriverVersion") with
  | Some out =>
      let ver := TrimSpace out in
      if ver != "" then (detectWDDMDriverName, ver) else ("", "")
  | None => ("", "")
  end.
Definition detectDriver (hasNvidia hasMusa : bool) : string * string :=
  match (if hasNvidia then Linux.nvidia_driver else None) with
  | Some d => d
  | None => match (if hasMusa then Linux.musa_driver else None) with
            | Some d => d
            | None => wddm_driver
            end
  end.

Definition no_counter_reason (vulkan : bool) : string :=
  if vulkan then "GPU detected (Vulkan available) but no monitoring tool found — install NVIDIA drivers or ensure Windows GPU performance counters are accessible"
  else "no GPU monitoring tool found — install nvidia-smi (NVIDIA), mthreads-gmi (Moore Threads), or ensure Windows GPU performance counters are accessible".

Definition New : Prober :=
  let hasNvidia := LookPath "nvidia-smi" in
  let hasMusa := LookPath "mthreads-gmi" in
  let supported := hasNvidia || hasMusa || gpuCountersAvailable in
  let '(name, version) := detectDriver hasNvidia hasMusa in
  {| p_supported := supported; p_reason := if supported then "" else no_counter_reason (LookPath "vulkaninfo");
     p_hasNvidia := hasNvidia; p_hasMusa := hasMusa; p_driverName := name; p_driverVersion := version |}.
End windows.
End Windows.

(** ** macOS *)

Module Darwin.

(** The digits at the front of a text ([\d+], greedy). *)
Fixpoint span_digits (s : string) : string :=
  match s with
  | String.String c s' => if is_digit c then String.String c (span_digits s') else ""
  | String.EmptyString => ""
  end.

(** [FindStringSubmatch] of [QuoteMeta(key) ++ "=(\d+)"]: the leftmost key that
    is followed by an equals sign and a digit. *)
Fixpoint find_value (key s : string) : option string :=
  let here :=
    if HasPrefix s (key +:+ "=") then
      let v := span_digits (drop_str (String.length key + 1) s) in
      if v != "" then Some v else None
    else None in
  match here, s with
  | Some v, _ => Some v
  | None, String.String _ s' => find_value key s'
  | None, String.EmptyString => None
  end.

Definition util_keys : list string :=
  quoted <$> ["GPU Activity(%)"; "Device Utilization %"; "GPU Core Utilization(%)"; "Renderer Utilization %"].

Fixpoint first_value (keys : list string) (output : string) : Z :=
  match keys with
  | [] => 0
  | key :: keys =>
      match find_value key output ≫= Atoi with
      | Some v => v
      | None => first_value keys output
      end
  end.
Definition parseIORegUtilization (output : string) : Z := first_value util_keys output.

Section darwin.
Context `{Tools}.
Definition Utilization : option Z :=
  parseIORegUtilization <$> Output "ioreg" ["-r"; "-c"; "IOAccelerator"; "-d"; "1"].

Definition DriverInfo : string * string :=
  match Output "system_profiler" ["SPDisplaysDataType"] with
  | None => ("metal", "")
  | Some out =>
      match after_colon (fun l => HasPrefix l "Metal Support:" || HasPrefix l "Metal Family:")
              (TrimSpace <$> Split out newline) with
      | Some v => ("metal", v)
      | None => ("metal", match Output "sw_vers" ["-productVersion"] with Some ver => TrimSpace ver | None => "" end)
      end
  end.
End darwin.
End Darwin.

(** ** The prober of the platform the client was built for *)

Section platform.
Context `{Tools, FloatText, JsonText}.

Inductive platform_prober := DarwinProber | LinuxProber (p : Prober) | WindowsProber (p : Prober) | noopProber.

Definition newPlatformProber : platform_prober :=
  if GOOS == "darwin" then DarwinProber
  else if GOOS == "linux" then LinuxProber Linux.New
  else if GOOS == "windows" then WindowsProber Windows.New
  else noopProber.

Definition Supported (p : platform_prober) : bool * string :=
  match p with
  | DarwinProber => (true, "")
  | LinuxProber p | WindowsProber p => (p.(p_supported), p.(p_reason))
  | noopProber => (false, "GPU monitoring is not supported on this platform")
  end.
(** [None] is a non-nil error *)
Definition prober_Utilization (p : platform_prober) : option Z :=
  match p with
  | DarwinProber => Darwin.Utilization
  | LinuxProber _ => Some Linux.Utilization
  | WindowsProber p => Some (Windows.Utilization p)
  | noopProber => Some 0%Z
  end.
Definition prober_DriverInfo (p : platform_prober) : string * string :=
  match p with
  | DarwinProber => Darwin.DriverInfo
  | LinuxProber p | WindowsProber p => (p.(p_driverName), p.(p_driverVersion))
  | noopProber => ("", "")
  end.
End platform.

(** ** Hardware information (internal/client/hwinfo) *)

Section hwinfo.
Context `{Tools, JsonText}.

Definition Info : Type := HardwareInfo.
Definition megabytes (bytes : Z) : Z := Z.quot bytes (1024 * 1024).

Definition psQuery (expr : string) : string :=
  match Output "powershell" ["-NoProfile"; "-Command"; expr] with
  | Some out => TrimSpace out
  | None => ""
  end.
Definition or_default (v d : string) : string := if v != "" then v else d.

Definition detectOSVersion : string :=
  if GOOS == "darwin" then
    match Output "sw_vers" ["-productVersion"] with Some out => TrimSpace out | None => "unknown" end
  else if GOOS == "linux" then
    match Output "uname" ["-r"] with Some out => TrimSpace out | None => "unknown" end
  else if GOOS == "windows" then or_default (psQuery "(Get-CimInstance Win32_OperatingSystem).Version") "unknown"
  else "unknown".

Definition platform_name : string := GOOS +:+ "/" +:+ GOARCH.
Definition detectCPU : string :=
  if GOOS == "darwin" then
    match Output "sysctl" ["-n"; "machdep.cpu.brand_string"] with Some out => TrimSpace out | None => platform_name end
  else if GOOS == "linux" then
    match Output "grep" ["-m1"; "model name"; "/proc/cpuinfo"] with
    | Some out => match SplitN out ":"%char 2 with [_; v] => TrimSpace v | _ => platform_name end
    | None => platform_name
    end
  else if GOOS == "windows" then or_default (psQuery "(Get-CimInstance Win32_Processor | Select-Object -First 1).Name") platform_name
  else platform_name.

Definition detectGPU : string :=
  if GOOS == "darwin" then
    match Output "system_profiler" ["SPDisplaysDataType"] with
    | Some out => default "unknown"
        (after_colon (fun l => HasPrefix l "Chipset Model:" || HasPrefix l "Chip Model:") (TrimSpace <$> Split out newline))
    | None => "unknown"
    end
  else if GOOS == "linux" then
    match Output "lspci" [] with
    | Some out => default "unknown"
        (after_colon (fun l => Contains l "VGA" || Contains l "3D controller") (Split out newline))
    | None => "unknown"
    end
  else if GOOS == "windows" then or_default (psQuery "(Get-CimInstance Win32_VideoController | Select-Object -First 1).Name") "unknown"
  else "unknown".

Definition memsize : Z :=
  default 0%Z (out ← Output "sysctl" ["-n"; "hw.memsize"]; bytes ← Atoi (TrimSpace out); Some (megabytes bytes)).
(** a positive number of bytes PowerShell printed *)
Definition ps_megabytes (expr : string) : Z :=
  match Atoi (psQuery expr) with
  | Some bytes => if bool_decide (0 < bytes)%Z then megabytes bytes else 0
  | None => 0
  end.

Definition detectVRAM : Z :=
  if GOOS == "darwin" then memsize
  else if GOOS == "linux" then
    default 0%Z (out ← Output "nvidia-smi" (smi_args "memory.total"); Atoi (TrimSpace out))
  else if GOOS == "windows" then
    ps_megabytes "(Get-CimInstance Win32_VideoController | Select-Object -First 1).AdapterRAM"
  else 0.

Definition detectRAM : Z :=
  if GOOS == "darwin" then memsize
  else if GOOS == "linux" then
    match Output "grep" ["MemTotal"; "/proc/meminfo"] with
    | Some out => match Fields out with
                  | _ :: f :: _ => match Atoi f with Some kb => Z.quot kb 1024 | None => 0 end
                  | _ => 0
                  end
    | None => 0
    end
  else if GOOS == "windows" then ps_megabytes "(Get-CimInstance Win32_ComputerSystem).TotalPhysicalMemory"
  else 0.

Record windows_raw := { wr_OSVer : string; wr_CPU : string; wr_GPU : string; wr_VRAM : Z; wr_RAM : Z }.
Definition decode_windows_raw : json -> option windows_raw :=
  decode_struct (Build_windows_raw "" "" "" 0 0)
    [ str_field "OSVer" (fun v x => Build_windows_raw v x.(wr_CPU) x.(wr_GPU) x.(wr_VRAM) x.(wr_RAM));
      str_field "CPU" (fun v x => Build_windows_raw x.(wr_OSVer) v x.(wr_GPU) x.(wr_VRAM) x.(wr_RAM));
      str_field "GPU" (fun v x => Build_windows_raw x.(wr_OSVer) x.(wr_CPU) v x.(wr_VRAM) x.(wr_RAM));
      int_field "VRAM" (fun v x => Build_windows_raw x.(wr_OSVer) x.(wr_CPU) x.(wr_GPU) v x.(wr_RAM));
      int_field "RAM" (fun v x => Build_windows_raw x.(wr_OSVer) x.(wr_CPU) x.(wr_GPU) x.(wr_VRAM) v) ].

(** the five values one by one; the driver fields stay empty *)
Definition per_field : Info :=
  Build_HardwareInfo GOOS detectOSVersion detectGPU "" "" detectVRAM detectCPU NumCPU detectRAM.

(** [script]: the text of the PowerShell program *)
Definition collectWindows (script : string) : Info :=
  match Output "powershell" ["-NoProfile"; "-Command"; script] with
  | None => per_field
  | Some out =>
      match Unmarshal decode_windows_raw (json_parse out) with
      | None => per_field
      | Some raw =>
          let positive bytes := if bool_decide (0 < bytes)%Z then megabytes bytes else 0%Z in
          Build_HardwareInfo GOOS (or_default (TrimSpace raw.(wr_OSVer)) "unknown")
            (or_default (TrimSpace raw.(wr_GPU)) "unknown") "" "" (positive raw.(wr_VRAM))
            (or_default (TrimSpace raw.(wr_CPU)) platform_name) NumCPU (positive raw.(wr_RAM))
      end
  end.
Definition Collect (script : string) : Info := if GOOS == "windows" then collectWindows script else per_field.
End hwinfo.

(** ** What an nvidia-smi table of numbers is read as *)

(** the lines nvidia-smi prints, one graphics card each *)
Definition smi_table (values : list N) : string := String.concat (str1 newline) (pretty <$> values) +:+ str1 newline.
Definition in_range (n : N) : Prop := in_int64 (Z.of_N n) = true.

Lemma newline_not_digit : is_digit newline = false.
Proof. reflexivity. Qed.
Lemma numeral_no_newline (n : N) : newline ∉ chars (pretty n).
Proof. apply pretty_N_digits, newline_not_digit. Qed.
Lemma pretty_of_N (n : N) : pretty (Z.of_N n) = pretty n.
Proof. by destruct n. Qed.
Lemma Atoi_numeral n : in_range n -> Atoi (pretty n) = Some (Z.of_N n).
Proof. intros Hn. rewrite <- pretty_of_N. by apply Atoi_pretty. Qed.

Lemma concat_cons2 (sep a b : string) l : String.concat sep (a :: b :: l) = a +:+ sep +:+ String.concat sep (b :: l).
Proof. reflexivity. Qed.
Lemma chars_app a b : chars (a +:+ b) = chars a ++ chars b.
Proof. apply list_ascii_of_app. Qed.

(** A table of numerals begins and ends with a digit. *)
Lemma table_solid v l : solid (String.concat (str1 newline) (pretty <$> (v : N) :: l)).
Proof.
  revert v. induction l as [|w l IH]; intros v; [apply numeral_solid|].
  destruct (numeral_solid v) as (c & k & E & Hc & _). destruct (IH w) as (_ & _ & _ & _ & d & k' & E' & Hd).
  rewrite !fmap_cons in *. rewrite concat_cons2.
  exists c, (k ++ chars (str1 newline +:+ String.concat (str1 newline) (pretty w :: (pretty <$> l)))).
  rewrite chars_app, E. split_and!; [done|done|].
  exists d, (c :: k ++ chars (str1 newline) ++ k'). split; [|done]. rewrite chars_app, E'.
  cbn [app]. by rewrite !app_assoc.
Qed.

Lemma table_lines values : values <> [] -> Split (TrimSpace (smi_table values)) newline = pretty <$> values.
Proof.
  intros Hv. destruct values as [|v l]; [done|]. unfold smi_table. rewrite TrimSpace_newline by apply table_solid.
  apply Split_concat; [done|]. apply list.Forall_fmap, list.Forall_forall. intros n _. apply numeral_no_newline.
Qed.

Lemma foldl_max_line values acc : Forall in_range values -> (0 <= acc)%Z ->
  foldl max_line acc (pretty <$> values) = foldl Z.max acc (Z.of_N <$> values).
Proof.
  revert acc. induction values as [|v values IH]; intros acc Hr Hacc; [done|].
  apply list.Forall_cons in Hr as [Hv Hr]. rewrite !fmap_cons. cbn [foldl].
  assert (E : max_line acc (pretty v) = Z.max acc (Z.of_N v)).
  { unfold max_line. rewrite TrimSpace_solid by apply numeral_solid. rewrite Atoi_numeral by done.
    case_bool_decide; lia. }
  rewrite E. apply IH; [done|lia].
Qed.

Lemma max_of_table values : values <> [] -> Forall in_range values ->
  max_of_lines (smi_table values) = foldl Z.max 0%Z (Z.of_N <$> values).
Proof. intros Hv Hr. unfold max_of_lines. rewrite table_lines by done. by apply foldl_max_line. Qed.

Lemma digits_val_digits acc s z : digits_val acc s = Some z -> forall c, c ∈ chars s -> is_digit c = true.
Proof.
  revert acc. induction s as [|x s IH]; intros acc E c Hc; [by apply elem_of_nil in Hc|].
  rewrite digits_val_cons in E. unfold digit_val in E. destruct (is_digit x) eqn:Hx; [|done].
  apply elem_of_cons in Hc as [->|Hc]; [done|]. cbn in E. by eapply IH.
Qed.
(** A text with a line break is no number. *)
Lemma Atoi_lines a b : a <> "" -> Atoi (a +:+ String.String newline b) = None.
Proof.
  intros Ha.
  assert (Hd : forall a', parse_digits (a' +:+ String.String newline b) = None).
  { intros a'. unfold parse_digits. case_bool_decide; [done|]. destruct (digits_val _ _) eqn:E; [|done].
    exfalso. pose proof (digits_val_digits _ _ _ E newline) as Hn. rewrite chars_app in Hn. discriminate Hn.
    apply elem_of_app. right. by left. }
  destruct a as [|c a]; [done|]. change (String.String c a +:+ ?x) with (String.String c (a +:+ x)).
  unfold Atoi. pose proof (Hd (String.String c a)) as Hd'.
  change (String.String c a +:+ String.String newline b) with (String.String c (a +:+ String.String newline b)) in Hd'.
  rewrite Hd', Hd. by repeat case_bool_decide.
Qed.

(** ** One check of the monitor *)

(** A check outside of a unit moves the available worker to busy exactly when
    the load above the baseline passes the threshold. *)
Lemma check_contention now u m : m.(m_processing) = false -> m.(m_state) = StateAvailable ->
  (run (check now (Some u)) m).(m_state) = StateBusy <-> (m.(m_contentionThresh) < external_load u m.(m_baseline))%Z.
Proof.
  intros Hp Hs. enough (Hwp : wp (check now (Some u)) (fun m' _ => m'.(m_state) = StateBusy <->
    (m.(m_contentionThresh) < external_load u m.(m_baseline))%Z) m) by exact Hwp.
  unfold check. apply wp_bind, wp_modify, wp_bind, wp_gets. cbn [m_processing set_lastUtilization]. rewrite Hp.
  apply wp_bind, wp_modify. eapply wp_mono; [apply transition_effect|]. cbn. intros m' _ (_ & Hc & Hnc).
  case_bool_decide; [destruct (Hc eq_refl); naive_solver|]. destruct (Hnc eq_refl) as [_ [E|(E & _)]]; [|congruence].
  split; [congruence|done].
Qed.

Section properties.
Context `{Tools, FloatText, JsonText}.

(** A computer with Nvidia cards, seen by its prober. *)
Definition nvidia_prober (p : platform_prober) : Prop :=
  match p with
  | LinuxProber _ => True
  | WindowsProber p => p.(p_supported) = true /\ p.(p_hasNvidia) = true
  | _ => False
  end.

Lemma nvidia_utilization p loads : nvidia_prober p -> loads <> [] -> Forall in_range loads ->
  Output "nvidia-smi" (smi_args "utilization.gpu") = Some (smi_table loads) ->
  prober_Utilization p = Some (foldl Z.max 0%Z (Z.of_N <$> loads)).
Proof.
  intros Hp Hl Hr E.
  assert (En : nvidiaSMI = Some (foldl Z.max 0%Z (Z.of_N <$> loads))).
  { unfold nvidiaSMI. rewrite E. cbn. by rewrite max_of_table. }
  destruct p as [|p|p|]; try done; cbn [prober_Utilization].
  - unfold Linux.Utilization. by rewrite En.
  - destruct Hp as [Hs Hn]. unfold Windows.Utilization. by rewrite Hs, Hn, En.
Qed.

Lemma foldl_max_above l acc t : (t < foldl Z.max acc l)%Z <-> (t < acc)%Z \/ exists x, x ∈ l /\ (t < x)%Z.
Proof.
  revert acc. induction l as [|x l IH]; intros acc; cbn [foldl].
  - split; [by left|]. intros [Ht|(x & Hx%elem_of_nil & _)]; done.
  - rewrite IH. split.
    + intros [Ht|(y & Hy & Ht)]; [|right; exists y; split; [by right|done]].
      destruct (decide (t < acc)%Z); [by left|]. right. exists x. split; [by left|lia].
    + intros [Ht|(y & [->|Hy]%elem_of_cons & Ht)]; [left; lia|left; lia|right; eauto].
Qed.

(** C24. The worker stays out of its owner's way. On a Linux or Windows computer
    with Nvidia cards, a check of the idle worker makes it busy exactly when
    one of the cards is loaded above the baseline by more than the threshold:
    what the tool prints is read to the largest number of its lines. *)
Theorem load_of_any_card_pauses p loads now m :
  nvidia_prober p -> loads <> [] -> Forall in_range loads ->
  Output "nvidia-smi" (smi_args "utilization.gpu") = Some (smi_table loads) ->
  m.(m_processing) = false -> m.(m_state) = StateAvailable ->
  (0 <= m.(m_contentionThresh))%Z -> (0 <= m.(m_baseline))%Z ->
  (run (check now (prober_Utilization p)) m).(m_state) = StateBusy <->
    exists load, load ∈ loads /\ (m.(m_baseline) + m.(m_contentionThresh) < Z.of_N load)%Z.
Proof.
  intros Hp Hl Hr E Hpr Hst Ht Hb. rewrite (nvidia_utilization p loads) by done. rewrite check_contention by done.
  unfold external_load.
  transitivity (m.(m_baseline) + m.(m_contentionThresh) < foldl Z.max 0 (Z.of_N <$> loads))%Z; [lia|].
  rewrite foldl_max_above. split.
  - intros [Hn|(x & (n & -> & Hn)%list_elem_of_fmap & Hx)]; [lia|]. by exists n.
  - intros (n & Hn & Hx). right. exists (Z.of_N n). split; [|done]. by apply list_elem_of_fmap_2.
Qed.

(** *** The Intel sampler *)

(** The number of objects of a document, nested ones included. *)
Fixpoint objects (j : json) : nat :=
  match j with
  | JArr l => (fix go l := match l with [] => 0 | x :: l => objects x + go l end) l
  | JObj kvs => S ((fix go l := match l with [] => 0 | (_, x) :: l => objects x + go l end) kvs)
  | _ => 0
  end%nat.
Definition braces (s : string) : nat := length (List.filter (fun c => c == "{"%char) (chars s)).

Lemma LastIndex_spec s c i : LastIndex s c = Some i ->
  exists a b, s = a +:+ String.String c b /\ String.length a = i /\ c ∉ chars b.
Proof.
  revert i. induction s as [|x s IH]; intros i E; [done|]. cbn [LastIndex] in E.
  destruct (LastIndex s c) as [k|] eqn:Ek.
  - injection E as <-. destruct (IH k eq_refl) as (a & b & -> & Hl & Hb). exists (String.String x a), b.
    split_and!; [done|cbn; by rewrite Hl|done].
  - case_bool_decide as Hx; [|done]. injection E as <-. subst x. exists "", s. split_and!; [done..|].
    clear -Ek. induction s as [|x s IH]; [by intros ?%elem_of_nil|]. cbn [LastIndex] in Ek.
    destruct (LastIndex s c); [done|]. case_bool_decide as Hx; [done|]. cbn [chars].
    apply not_elem_of_cons. split; [congruence|by apply IH].
Qed.

Lemma take_before a b : take_str (String.length a) (a +:+ b) = a.
Proof. induction a as [|c a IH]; [by destruct b|exact (f_equal (String.String c) IH)]. Qed.
Lemma braces_none s : "{"%char ∉ chars s -> braces s = 0%nat.
Proof.
  unfold braces. induction (chars s) as [|c l IH]; [done|]. intros [Hc Hl]%not_elem_of_cons. cbn.
  rewrite bool_decide_false by congruence. by apply IH.
Qed.

(** From the last opening brace to the last closing brace there is one opening
    brace. *)
Lemma last_block_braces lines i k : LastIndex lines "}"%char = Some i ->
  LastIndex (take_str i lines) "{"%char = Some k -> braces (drop_str k (take_str (S i) lines)) = 1%nat.
Proof.
  intros Hi Hk. destruct (LastIndex_spec _ _ _ Hi) as (a & b & -> & <- & _). rewrite take_before in Hk.
  destruct (LastIndex_spec _ _ _ Hk) as (a1 & b1 & -> & <- & Hb1).
  assert (E : take_str (S (String.length (a1 +:+ String.String "{" b1))) ((a1 +:+ String.String "{" b1) +:+ String.String "}" b) =
    a1 +:+ (String.String "{" b1 +:+ "}")).
  { change (String.String "}" b) with ("}" +:+ b). rewrite <- append_assoc_str.
    replace (S (String.length _)) with (String.length ((a1 +:+ String.String "{" b1) +:+ "}")).
    - by rewrite take_before, append_assoc_str.
    - rewrite (length_app_str (a1 +:+ _)). cbn. lia. }
  rewrite E, drop_str_app. change (String.String "{" b1 +:+ "}") with (String.String "{" (b1 +:+ "}")).
  unfold braces. cbn [chars List.filter]. rewrite bool_decide_true by done. cbn [length]. f_equal.
  apply braces_none. rewrite chars_app. rewrite not_elem_of_app. split; [done|]. by intros [|?%elem_of_nil]%elem_of_cons.
Qed.

Lemma decode_engines_flat kvs acc r :
  Forall (fun kv => objects kv.2 = 0%nat) kvs ->
  foldl (decode_key [("engines", Linux.decode_engines)]) acc kvs = Some r -> from_option (fun m => m = ∅) True acc -> r = ∅.
Proof.
  revert acc. induction kvs as [|[k j] kvs IH]; intros acc Ho E Ha; cbn [foldl] in E; [by subst acc|].
  apply list.Forall_cons in Ho as [Hj Ho]. refine (IH _ Ho E _). destruct acc as [m|]; [|done]. cbn in Ha. subst m.
  cbn [decode_key mbind option_bind List.find fst snd]. destruct (fold_eq k "engines"); [|done].
  cbn [snd]. by destruct j.
Qed.

Lemma objects_fields kvs : objects (JObj kvs) = S (sum_list_with (fun kv => objects kv.2) kvs).
Proof. cbn. f_equal. induction kvs as [|[k j] kvs IH]; [done|]. cbn. by rewrite IH. Qed.

(** No document with a single object holds an engine. *)
Lemma decode_intel_flat j r : (objects j <= 1)%nat -> Linux.decode_intel j = Some r -> r = ∅.
Proof.
  intros Ho E. unfold Linux.decode_intel, decode_struct in E. destruct j as [| | | | |kvs]; try discriminate; [by injection E as <-|].
  refine (decode_engines_flat kvs (Some ∅) r _ E eq_refl). rewrite objects_fields in Ho.
  apply list.Forall_forall. intros kv Hkv. apply list_elem_of_split in Hkv as (l1 & l2 & ->).
  rewrite sum_list_with_app in Ho. cbn in Ho. lia.
Qed.

(** Every object of a document opens with a brace of its text (the grammar of
    JSON). *)
Context (Hbraces : forall s j, json_parse s = Some j -> (objects j <= braces s)%nat).

Lemma intel_reads_nothing : Linux.intelGPUTop = None \/ Linux.intelGPUTop = Some 0%Z.
Proof.
  unfold Linux.intelGPUTop. destruct (Output "intel_gpu_top" _) as [out|]; [|by left]. cbn [mbind option_bind].
  destruct (LastIndex (TrimSpace out) _) as [i|] eqn:Ei; [|by left]. cbn [mbind option_bind].
  destruct (LastIndex (take_str i _) _) as [k|] eqn:Ek; [|by left]. cbn [mbind option_bind].
  unfold Unmarshal. destruct (json_parse _) as [j|] eqn:Ej; [|by left]. cbn [mbind option_bind].
  destruct (Linux.decode_intel j) as [r|] eqn:Er; [|by left]. cbn [mbind option_bind]. right.
  apply decode_intel_flat in Er as ->; [done|]. apply Hbraces in Ej. rewrite (last_block_braces _ _ _ Ei Ek) in Ej. lia.
Qed.

(** A load of 0 is never contention. *)
Lemma check_idle now m : (0 <= m.(m_contentionThresh))%Z -> (0 <= m.(m_baseline))%Z -> m.(m_state) = StateAvailable ->
  (run (check now (Some 0%Z)) m).(m_state) = StateAvailable.
Proof.
  intros Ht Hb Hs. destruct (m_processing m) eqn:Hp.
  - unfold check, run, mbind, GoM_bind, gets. cbn. by rewrite Hp.
  - pose proof (check_contention now 0 m Hp Hs) as [Hc _]. destruct (m_state (run (check now (Some 0%Z)) m)) eqn:E; [done|].
    specialize (Hc eq_refl). unfold external_load in Hc. lia.
Qed.

(** The sampler for Intel cards reads nothing: [intelGPUTop] cuts the output
    from its last opening brace on, which leaves no room for the engines
    inside the sample. On a Linux computer with no other tool the prober is
    reported as supported, yet every check sees a load of 0, and the worker
    stays available whatever its owner does. *)
Theorem intel_load_is_never_seen now m :
  Output "nvidia-smi" (smi_args "utilization.gpu") = None -> Output "rocm-smi" ["--showuse"; "--json"] = None ->
  Output "mthreads-gmi" (smi_args "utilization.gpu") = None ->
  LookPath "intel_gpu_top" = true -> GOOS = "linux" ->
  (0 <= m.(m_contentionThresh))%Z -> (0 <= m.(m_baseline))%Z -> m.(m_state) = StateAvailable ->
  (Supported newPlatformProber).1 = true /\
  (run (check now (prober_Utilization newPlatformProber)) m).(m_state) = StateAvailable.
Proof.
  intros E1 E2 E3 Hi Hos Ht Hb Hs. unfold newPlatformProber. rewrite Hos.
  change (bool_decide ("linux" = "darwin")) with false. change (bool_decide ("linux" = "linux")) with true. cbn match.
  split.
  - cbn [Supported fst]. unfold Linux.New. rewrite Hi, !orb_true_r. by destruct Linux.detectDriver.
  - assert (E : Linux.Utilization = 0%Z).
    { unfold Linux.Utilization, nvidiaSMI, Linux.rocmSMI, mthreadsGMI. rewrite E1, E2, E3. cbn.
      by destruct intel_reads_nothing as [-> | ->]. }
    cbn [prober_Utilization]. rewrite E. by apply check_idle.
Qed.
End properties.

(** ** Hardware *)

Section hardware.
Context `{Tools, FloatText, JsonText}.

Lemma table_cons2 (v w : N) l : exists b, TrimSpace (smi_table (v :: w :: l)) = pretty v +:+ String.String newline b.
Proof.
  unfold smi_table. rewrite TrimSpace_newline by apply table_solid. rewrite !fmap_cons, concat_cons2. by eexists.
Qed.

(** Video memory on Linux is the number nvidia-smi prints for a single card.
    A computer with several cards prints several lines, which are no number:
    it reports no video memory. *)
Theorem several_cards_have_no_memory cards :
  GOOS = "linux" -> Forall in_range cards -> cards <> [] ->
  Output "nvidia-smi" (smi_args "memory.total") = Some (smi_table cards) ->
  detectVRAM = match cards with [mb] => Z.of_N mb | _ => 0%Z end.
Proof.
  intros Hos Hr Hc E. unfold detectVRAM. rewrite Hos, E. cbn [bool_decide mbind option_bind].
  change (bool_decide ("linux" = "darwin")) with false. change (bool_decide ("linux" = "linux")) with true. cbn match.
  destruct cards as [|v [|w l]]; [done| |].
  - unfold smi_table. cbn [fmap list_fmap String.concat]. rewrite TrimSpace_newline by apply numeral_solid.
    rewrite Atoi_numeral; [done|]. by apply list.Forall_cons in Hr as [? _].
  - destruct (table_cons2 v w l) as [b ->]. rewrite Atoi_lines; [done|]. intros Hv.
    destruct (pretty_N_head v) as (c & s & E' & _). congruence.
Qed.

Lemma cut_app (c : Ascii.ascii) a b : c ∉ chars a -> cut c (a +:+ String.String c b) = Some (a, b).
Proof.
  induction a as [|x a IH]; intros Ha.
  - change (cut c (String.String c b) = Some ("", b)). cbn [cut]. by rewrite bool_decide_true.
  - cbn [chars] in Ha. apply not_elem_of_cons in Ha as [Hx Ha].
    change (cut c (String.String x (a +:+ String.String c b)) = Some (String.String x a, b)). cbn [cut].
    rewrite bool_decide_false by congruence. by rewrite IH.
Qed.

(** The graphics card of a Linux worker is named by what follows the first
    colon of its lspci line: the colon of the slot (bus:device.function), so
    the device number and the class are part of the reported name. *)
Theorem gpu_name_keeps_the_slot bus device out :
  GOOS = "linux" -> Output "lspci" [] = Some out ->
  ":"%char ∉ chars bus -> newline ∉ chars (bus +:+ ":" +:+ device) ->
  Contains (bus +:+ ":" +:+ device) "VGA" = true ->
  (exists rest, out = (bus +:+ ":" +:+ device) +:+ String.String newline rest) ->
  detectGPU = TrimSpace device.
Proof.
  intros Hos E Hb Hn Hvga [rest ->]. unfold detectGPU. rewrite Hos, E.
  change (bool_decide ("linux" = "darwin")) with false. change (bool_decide ("linux" = "linux")) with true. cbn match.
  rewrite Split_app_sep by done. cbn [after_colon]. rewrite Hvga. cbn [orb SplitN].
  change (bus +:+ ":" +:+ device) with (bus +:+ String.String ":" device). by rewrite cut_app.
Qed.

Lemma or_default_some v d : d <> "" -> or_default v d <> "".
Proof. unfold or_default. by case_bool_decide. Qed.

(** On Windows no text field of the report is ever empty, whatever the one
    PowerShell program prints or which of the single queries fail, and a
    reported amount of memory is the whole megabytes of a positive number of
    bytes, or 0. *)
Theorem windows_report_is_complete script :
  GOOS = "windows" ->
  let i := Collect script in
  hw_OS i = "windows" /\ hw_OSVer i <> "" /\ hw_CPU i <> "" /\ hw_GPU i <> "" /\
  (0 <= hw_VRAMMB i)%Z /\ (0 <= hw_RAMMB i)%Z.
Proof.
  intros Hos. unfold Collect. rewrite Hos. change (bool_decide ("windows" = "windows")) with true. cbn match. cbv zeta.
  assert (Hp : platform_name <> "") by (unfold platform_name; by rewrite Hos).
  assert (Hm : forall b, (0 < b)%Z -> (0 <= megabytes b)%Z) by (intros; unfold megabytes; apply Z.quot_pos; lia).
  assert (Hf : hw_OS per_field = "windows" /\ hw_OSVer per_field <> "" /\ hw_CPU per_field <> "" /\ hw_GPU per_field <> "" /\
    (0 <= hw_VRAMMB per_field)%Z /\ (0 <= hw_RAMMB per_field)%Z).
  { unfold per_field, detectOSVersion, detectCPU, detectGPU, detectVRAM, detectRAM. cbn [hw_OS hw_OSVer hw_GPU hw_CPU hw_VRAMMB hw_RAMMB].
    rewrite Hos. change (bool_decide ("windows" = "darwin")) with false. change (bool_decide ("windows" = "linux")) with false.
    change (bool_decide ("windows" = "windows")) with true. cbn match.
    split_and!; [done|by apply or_default_some..| |]; unfold ps_megabytes; destruct (Atoi _); try case_bool_decide; auto with lia. }
  unfold collectWindows. destruct (Output "powershell" _) as [out|]; [|done].
  destruct (Unmarshal _ _) as [raw|]; [|done]. cbn [hw_OS hw_OSVer hw_GPU hw_CPU hw_VRAMMB hw_RAMMB].
  split_and!; [done|by apply or_default_some..| |]; case_bool_decide; auto with lia.
Qed.

(** *** The key-value pairs of ioreg *)

Lemma span_digits_app a b : (forall c, c ∈ chars a -> is_digit c = true) ->
  (forall c s, b = String.String c s -> is_digit c = false) -> Darwin.span_digits (a +:+ b) = a.
Proof.
  intros Ha Hb. induction a as [|x a IH].
  - change (Darwin.span_digits b = ""). destruct b as [|c s]; [done|]. cbn. by rewrite (Hb c s).
  - change (Darwin.span_digits (String.String x (a +:+ b)) = String.String x a). cbn [Darwin.span_digits].
    rewrite Ha by (by left). f_equal. apply IH. intros c Hc. apply Ha. by right.
Qed.

Lemma HasPrefix_app p t : HasPrefix (p +:+ t) p = true.
Proof. apply HasPrefix_spec. by exists t. Qed.

Lemma find_value_here key s : Darwin.find_value key s =
  match (if HasPrefix s (key +:+ "=") then
           if Darwin.span_digits (drop_str (String.length key + 1) s) != ""
           then Some (Darwin.span_digits (drop_str (String.length key + 1) s)) else None
         else None) with
  | Some v => Some v
  | None => match s with String.String _ s' => Darwin.find_value key s' | String.EmptyString => None end
  end.
Proof. by destruct s. Qed.

(** The value behind the first occurrence of a key. *)
Lemma find_value_first key before (n : N) after :
  strings_Index (before +:+ key +:+ "=" +:+ pretty n +:+ after) key = Some (String.length before) ->
  (forall c s, after = String.String c s -> is_digit c = false) ->
  Darwin.find_value key (before +:+ key +:+ "=" +:+ pretty n +:+ after) = Some (pretty n).
Proof.
  intros Hi Ha. induction before as [|x before IH].
  - change ("" +:+ ?x) with x in *.
    assert (E : key +:+ "=" +:+ pretty n +:+ after = (key +:+ "=") +:+ (pretty n +:+ after)) by (by rewrite append_assoc_str).
    rewrite E.
    assert (Hd : drop_str (String.length key + 1) ((key +:+ "=") +:+ (pretty n +:+ after)) = pretty n +:+ after).
    { replace (String.length key + 1)%nat with (String.length (key +:+ "=")) by (rewrite length_app_str; done). apply drop_str_app. }
    assert (Hsp : Darwin.span_digits (pretty n +:+ after) = pretty n) by (apply span_digits_app; [apply numeral_digits|done]).
    assert (Hne : (pretty n : string) <> "") by (destruct (pretty_N_head n) as (c & s & -> & _); done).
    assert (Hhere : (if HasPrefix ((key +:+ "=") +:+ (pretty n +:+ after)) (key +:+ "=") then
        let v := Darwin.span_digits (drop_str (String.length key + 1) ((key +:+ "=") +:+ (pretty n +:+ after))) in
        if v != "" then Some v else None else None) = Some (pretty n)).
    { rewrite HasPrefix_app, Hd. cbv zeta. rewrite Hsp. by rewrite bool_decide_false. }
    rewrite find_value_here. cbv zeta in Hhere. by rewrite Hhere.
  - change (String.String x before +:+ ?t) with (String.String x (before +:+ t)) in *.
    cbn [strings_Index String.length] in Hi. cbn [Darwin.find_value].
    destruct (HasPrefix (String.String x _) key) eqn:Hp; [done|].
    assert (Hp' : HasPrefix (String.String x (before +:+ key +:+ "=" +:+ pretty n +:+ after)) (key +:+ "=") = false).
    { apply not_true_is_false. intros Hq. apply HasPrefix_spec in Hq as [t Hq]. rewrite append_assoc_str in Hq.
      rewrite Hq, HasPrefix_app in Hp. done. }
    rewrite Hp'. apply IH. destruct (strings_Index _ key) as [i|]; [|done]. injection Hi as Hi. by f_equal.
Qed.

Lemma find_value_absent key s : Contains s key = false -> Darwin.find_value key s = None.
Proof.
  induction s as [|x s IH]; cbn [Contains Darwin.find_value]; intros Hc.
  - rewrite orb_false_r in Hc. destruct (HasPrefix "" (key +:+ "=")) eqn:E; [|done].
    apply HasPrefix_spec in E as [t E]. destruct key; done.
  - apply orb_false_elim in Hc as [Hp Hc]. destruct (HasPrefix (String.String x s) (key +:+ "=")) eqn:E; [|by apply IH].
    apply HasPrefix_spec in E as [t E]. rewrite append_assoc_str in E. by rewrite E, HasPrefix_app in Hp.
Qed.

Lemma first_value_skips ks1 key ks2 out (n : N) : in_range n ->
  Forall (fun k => Contains out k = false) ks1 -> Darwin.find_value key out = Some (pretty n) ->
  Darwin.first_value (ks1 ++ key :: ks2) out = Z.of_N n.
Proof.
  intros Hn Hk E. induction ks1 as [|k ks1 IH]; cbn [app Darwin.first_value].
  - rewrite E. cbn [mbind option_bind]. by rewrite Atoi_numeral.
  - apply list.Forall_cons in Hk as [Hk Hks]. rewrite find_value_absent by done. by apply IH.
Qed.

(** The load of a Mac is the value of the first of the four keys that occurs
    in the output of ioreg, wherever it stands in a line. *)
Theorem ioreg_load_is_found ks1 key ks2 before (n : N) after :
  Darwin.util_keys = ks1 ++ key :: ks2 -> in_range n ->
  let out := before +:+ key +:+ "=" +:+ pretty n +:+ after in
  Output "ioreg" ["-r"; "-c"; "IOAccelerator"; "-d"; "1"] = Some out ->
  Forall (fun k => Contains out k = false) ks1 ->
  strings_Index out key = Some (String.length before) ->
  (forall c s, after = String.String c s -> is_digit c = false) ->
  prober_Utilization DarwinProber = Some (Z.of_N n).
Proof.
  intros Ek Hn out E Hks Hi Ha. cbn [prober_Utilization]. unfold Darwin.Utilization. rewrite E. cbn [fmap option_fmap option_map].
  f_equal. unfold Darwin.parseIORegUtilization. rewrite Ek. apply first_value_skips; [done|done|].
  by apply find_value_first.
Qed.
End hardware.

(** ** Witnesses *)

Section witnesses.
#[local] Existing Instance NoJson.

Definition NoFloats : FloatText := {| ParseFloat _ := None; int_out_of_range _ := 0%Z |}.
#[local] Existing Instance NoFloats.

Definition tools (os : string) (out : string -> list string -> option string) (path : string -> bool) : Tools :=
  {| GOOS := os; GOARCH := "amd64"; NumCPU := 8; LookPath := path; Output := out |}.
Definition only (cmd : string) (s : string) (c : string) (_ : list string) : option string :=
  if c == cmd then Some s else None.

Lemma load_of_any_card_pauses_witness :
  let T := tools "linux" (only "nvidia-smi" (smi_table [3; 85]%N)) (fun _ => true) in
  (run (check 0 (prober_Utilization newPlatformProber)) (NewMonitor 15 30)).(m_state) = StateBusy.
Proof.
  intros T. refine (proj2 (load_of_any_card_pauses newPlatformProber [3; 85]%N 0 (NewMonitor 15 30) I _ _ eq_refl eq_refl eq_refl _ _) _).
  - done.
  - repeat constructor; reflexivity.
  - cbn. lia.
  - cbn. lia.
  - exists 85%N. split; [right; left|cbn; lia].
Defined.

Definition intel_sample : string :=
  "{" +:+ quoted "engines" +:+ ": {" +:+ quoted "Render/3D" +:+ ": {" +:+ quoted "busy" +:+ ": 97.5}}}".
Lemma intel_load_is_never_seen_witness :
  let T := tools "linux" (only "intel_gpu_top" intel_sample) (fun c => c == "intel_gpu_top") in
  (Supported newPlatformProber).1 = true /\
  (run (check 0 (prober_Utilization newPlatformProber)) (NewMonitor 15 30)).(m_state) = StateAvailable.
Proof.
  intros T. refine (intel_load_is_never_seen _ 0 (NewMonitor 15 30) eq_refl eq_refl eq_refl eq_refl eq_refl _ _ eq_refl).
  - intros s j. cbn. destruct (s == "{}") eqn:E; [|discriminate]. apply bool_decide_eq_true_1 in E as ->.
    intros [= <-]. vm_compute. lia.
  - cbn. lia.
  - cbn. lia.
Defined.

Lemma several_cards_have_no_memory_witness :
  let T := tools "linux" (only "nvidia-smi" (smi_table [24576; 24576]%N)) (fun _ => true) in detectVRAM = 0%Z.
Proof.
  intros T. refine (several_cards_have_no_memory [24576; 24576]%N eq_refl _ _ eq_refl); [|done].
  repeat constructor; reflexivity.
Defined.

Definition lspci_line : string := "01:00.0 VGA compatible controller: NVIDIA Corporation AD102".
Lemma gpu_name_keeps_the_slot_witness :
  let T := tools "linux" (only "lspci" (lspci_line +:+ str1 newline)) (fun _ => true) in
  detectGPU = "00.0 VGA compatible controller: NVIDIA Corporation AD102".
Proof.
  intros T. assert (E : TrimSpace "00.0 VGA compatible controller: NVIDIA Corporation AD102" =
    "00.0 VGA compatible controller: NVIDIA Corporation AD102") by (vm_compute; reflexivity).
  rewrite <- E.
  refine (gpu_name_keeps_the_slot "01" "00.0 VGA compatible controller: NVIDIA Corporation AD102"
    (lspci_line +:+ str1 newline) eq_refl eq_refl _ _ eq_refl _).
  - apply (bool_decide_unpack _). vm_compute. exact I.
  - apply (bool_decide_unpack _). vm_compute. exact I.
  - exists "". reflexivity.
Defined.

Lemma windows_report_is_complete_witness :
  let T := tools "windows" (only "powershell" "{}") (fun _ => true) in
  hw_GPU (Collect "script") <> "".
Proof. intros T. exact (proj1 (proj2 (proj2 (proj2 (windows_report_is_complete "script" eq_refl))))). Defined.

Definition ioreg_line : string := quoted "PerformanceStatistics" +:+ " = {".
Lemma ioreg_load_is_found_witness :
  let out := ioreg_line +:+ quoted "Device Utilization %" +:+ "=" +:+ pretty 24%N +:+ "," +:+ quoted "Tiler Utilization %" +:+ "=9}" in
  let T := tools "darwin" (only "ioreg" out) (fun _ => true) in
  prober_Utilization DarwinProber = Some 24%Z.
Proof.
  intros out T.
  refine (ioreg_load_is_found [quoted "GPU Activity(%)"] (quoted "Device Utilization %") _ ioreg_line 24
    ("," +:+ quoted "Tiler Utilization %" +:+ "=9}") eq_refl _ eq_refl _ _ _).
  - reflexivity.
  - repeat constructor.
  - vm_compute. reflexivity.
  - intros c s [= <- <-]. reflexivity.
Defined.
End witnesses.
