(* ===== verification/Backend.v ===== *)
(** * The llama-server backend of the client (internal/client/backend/manager.go)

    Download, extraction, verification and the server process. The backend
    directory is a map from paths to regular files and symbolic links; the
    archive formats, the network and the operating system's answers are the
    class [Os]. *)

From S2P Require Import Prelude GoStd Json Protocol.

Record LlamaParams := {
  lp_ContextSize : Z;
  lp_ParallelSlots : Z;
  lp_GPULayers : Z;
  lp_EndpointType : string;
  lp_FlashAttention : bool;
}.
Definition DefaultLlamaParams : LlamaParams :=
  {| lp_ContextSize := 4096; lp_ParallelSlots := 1; lp_GPULayers := -1;
     lp_EndpointType := "chat"; lp_FlashAttention := false |}.

Definition Itoa (z : Z) : string := pretty z.

Definition BuildArgs (port modelPath : string) (p : LlamaParams) : list string :=
  ["--port"; port; "--model"; modelPath; "--ctx-size"; Itoa p.(lp_ContextSize);
   "--parallel"; Itoa p.(lp_ParallelSlots); "--n-gpu-layers"; Itoa p.(lp_GPULayers)] ++
  (if p.(lp_FlashAttention) then ["--flash-attn"] else []) ++
  (if p.(lp_EndpointType) == "embeddings" then ["--embeddings"] else []).

(** ** Files *)

Inductive node := File (content : string) | Link (target : string).
Abbreviation Fs := (gmap string node).

(** [filepath.Base] *)
Definition slash : Ascii.ascii := "/"%char.
Fixpoint after_last_slash (s : string) : string :=
  match s with
  | String.EmptyString => ""
  | String.String c s' =>
      if existsb (fun d => d == slash) (String.list_ascii_of_string s') then after_last_slash s'
      else if c == slash then s' else s
  end.
Fixpoint strip_slashes (s : string) : string :=
  match s with
  | String.EmptyString => ""
  | String.String c s' =>
      let t := strip_slashes s' in
      if (c == slash) && (t == "") then "" else String.String c t
  end.
Definition Base (path : string) : string :=
  if path == "" then "."
  else let p := strip_slashes path in
       if p == "" then "/" else after_last_slash p.

(** [filepath.Join(dir, base)] of a base name; "." and "/" give the directory,
    which is no file. *)
Definition is_dir_name (base : string) : bool := (base == ".") || (base == "/") || (base == "..").
Definition Join (dir base : string) : string := dir +:+ "/" +:+ base.

(** Following links inside [dir]: [None] is an error of the open call: a
    directory, or too many links. *)
Fixpoint follow (fuel : nat) (fs : Fs) (dir base : string) : option string :=
  match fuel with
  | O => None
  | S fuel =>
      if is_dir_name base then None
      else match fs !! Join dir base with
           | Some (Link target) => follow fuel fs dir target
           | _ => Some base
           end
  end.
Definition max_links : nat := 40.

Definition read_file (fs : Fs) (dir base : string) : option string :=
  b ← follow max_links fs dir base;
  match fs !! Join dir b with Some (File c) => Some c | _ => None end.

(** ** The operating system *)

Inductive tar_item :=
  | TarReg (name content : string)
  | TarSymlink (name linkname : string)
  | TarOther (name : string)
  | TarError.
Inductive zip_item := ZipFile (name content : string) | ZipDir (name : string) | ZipError.

(** A failed copy leaves what it had written. *)
Inductive write_result := Written | OpenError | CopyError (partial : string).

Class Os := {
  (** the body of a 200 answer to a GET with the worker key *)
  fetch : string -> option string;
  (** the entries of an archive; [None]: it cannot be opened *)
  tar_items : string -> option (list tar_item);
  zip_items : string -> option (list zip_item);
  (** what writing a file, linking, chmod and exec come to *)
  write_outcome : string -> string -> write_result;
  symlink_ok : string -> bool;
  chmod_ok : string -> bool;
  exec_ok : string -> list string -> bool;
  windows : bool;
  GOOS : string;
  GOARCH : string;
}.

Record Manager := {
  bm_managerHTTPURL : string;
  bm_dir : string;                  (* {dataDir}/backend *)
  bm_currentHash : string;
  bm_fs : Fs;
  (** the running process: the binary it was started from, its arguments *)
  bm_proc : option (string * list string);
  bm_lastPort : string;
  bm_lastModel : string;
  bm_lastParams : LlamaParams;
}.

Definition set_fs (fs : Fs) (m : Manager) : Manager :=
  Build_Manager m.(bm_managerHTTPURL) m.(bm_dir) m.(bm_currentHash) fs m.(bm_proc)
    m.(bm_lastPort) m.(bm_lastModel) m.(bm_lastParams).
Definition set_hash (h : string) (m : Manager) : Manager :=
  Build_Manager m.(bm_managerHTTPURL) m.(bm_dir) h m.(bm_fs) m.(bm_proc)
    m.(bm_lastPort) m.(bm_lastModel) m.(bm_lastParams).
Definition set_proc (p : option (string * list string)) (m : Manager) : Manager :=
  Build_Manager m.(bm_managerHTTPURL) m.(bm_dir) m.(bm_currentHash) m.(bm_fs) p
    m.(bm_lastPort) m.(bm_lastModel) m.(bm_lastParams).
Definition set_last (port model : string) (p : LlamaParams) (m : Manager) : Manager :=
  Build_Manager m.(bm_managerHTTPURL) m.(bm_dir) m.(bm_currentHash) m.(bm_fs) m.(bm_proc)
    port model p.

Section backend.
Context `{Os, Crypto}.

Definition binaryName : string := if windows then "llama-server.exe" else "llama-server".

Definition hashFile (fs : Fs) (dir base : string) : option string :=
  c ← read_file fs dir base; Some (hex_EncodeToString (sha256 c)).

Definition NewManager (managerHTTPURL dir : string) (fs : Fs) : Manager :=
  {| bm_managerHTTPURL := managerHTTPURL; bm_dir := dir;
     bm_currentHash := default "" (hashFile fs dir binaryName); bm_fs := fs; bm_proc := None;
     bm_lastPort := ""; bm_lastModel := ""; bm_lastParams := DefaultLlamaParams |}.

Definition Hash : GoM Manager string := gets bm_currentHash.
(** [os.Stat] of the binary *)
Definition IsInstalled : GoM Manager bool :=
  gets (fun m => match read_file m.(bm_fs) m.(bm_dir) binaryName with Some _ => true | None => false end).
Definition IsRunning : GoM Manager bool :=
  gets (fun m => match m.(bm_proc) with Some _ => true | None => false end).
Definition Stop : GoM Manager unit := modify (set_proc None).

(** [trial]: what running the binary with [--version] comes to, the output when
    it fails *)
Definition Verify (trial : string -> option string) : GoM Manager (option string) :=
  installed ← IsInstalled;
  m ← gets id;
  let path := m.(bm_dir) +:+ "/" +:+ binaryName in
  mret (if negb installed then Some ("backend binary not found at " +:+ path)
        else match trial path with
             | Some output => Some ("backend binary verification failed: (output: " +:+ output +:+ ")")
             | None => None
             end).

(** ** Extraction *)

(** [os.OpenFile(outPath, O_CREATE|O_WRONLY|O_TRUNC)] and the copy; a file
    whose copy failed is removed *)
Definition write_file (base content : string) : GoM Manager bool :=
  m ← gets id;
  match follow max_links m.(bm_fs) m.(bm_dir) base with
  | Some b =>
      match write_outcome (Join m.(bm_dir) b) content with
      | Written => modify (set_fs (<[Join m.(bm_dir) b := File content]> m.(bm_fs))) ;; mret true
      | OpenError => mret false
      | CopyError partial =>
          modify (set_fs (delete (Join m.(bm_dir) base)
            (<[Join m.(bm_dir) b := File partial]> m.(bm_fs)))) ;; mret false
      end
  | None => mret false
  end.

(** [os.Remove] and [os.Symlink] *)
Definition write_link (base target : string) : GoM Manager bool :=
  m ← gets id;
  if is_dir_name base then mret false
  else
    modify (set_fs (delete (Join m.(bm_dir) base) m.(bm_fs))) ;;
    if symlink_ok (Join m.(bm_dir) base)
    then m ← gets id; modify (set_fs (<[Join m.(bm_dir) base := Link target]> m.(bm_fs))) ;; mret true
    else mret false.

(** The loops: [found] once an entry was the binary. *)
Fixpoint extract_tar (items : list tar_item) (found : bool) : GoM Manager (option bool) :=
  match items with
  | [] => mret (Some found)
  | TarError :: _ => mret None
  | TarReg name content :: items =>
      let base := Base name in
      if Contains base ".." then extract_tar items found
      else
        ok ← write_file base content;
        if negb ok then mret None else extract_tar items (found || (base == binaryName))
  | TarSymlink name linkname :: items =>
      let base := Base name in
      if Contains base ".." then extract_tar items found
      else
        ok ← write_link base (Base linkname);
        if negb ok then mret None else extract_tar items (found || (base == binaryName))
  | TarOther _ :: items => extract_tar items found
  end.
Fixpoint extract_zip (items : list zip_item) (found : bool) : GoM Manager (option bool) :=
  match items with
  | [] => mret (Some found)
  | ZipError :: _ => mret None
  | ZipDir _ :: items => extract_zip items found
  | ZipFile name content :: items =>
      let base := Base name in
      if Contains base ".." then extract_zip items found
      else
        ok ← write_file base content;
        if negb ok then mret None else extract_zip items (found || (base == binaryName))
  end.

(** true: the binary was in the archive, at [dir/binaryName] *)
Definition extractBinary (archive downloadURL : string) : GoM Manager bool :=
  found ← (if HasSuffix downloadURL ".zip" then
             match zip_items archive with None => mret None | Some items => extract_zip items false end
           else
             match tar_items archive with None => mret None | Some items => extract_tar items false end);
  mret (default false found).

(** ** Applying an update *)

Definition buildFallbackURL (m : Manager) (bu : BackendUpdate) : string :=
  m.(bm_managerHTTPURL) +:+ "/v1/backend/download?version=" +:+ bu.(bk_Version) +:+
  "&os=" +:+ GOOS +:+ "&arch=" +:+ GOARCH.

Inductive apply_error := DownloadFailed | ExtractFailed | HashFailed | HashMismatch | ChmodFailed.

Definition Apply (bu : BackendUpdate) : GoM Manager (bool + apply_error) :=
  currentHash ← Hash;
  if (bu.(bk_SHA256) != "") && (bu.(bk_SHA256) == currentHash) then mret (inl false)
  else
  m ← gets id;
  match (match fetch bu.(bk_DownloadURL) with
         | Some a => Some a
         | None => fetch (buildFallbackURL m bu)
         end) with
  | None => mret (inr DownloadFailed)
  | Some archive =>
      running ← IsRunning;
      when running Stop ;;
      found ← extractBinary archive bu.(bk_DownloadURL);
      if negb found then mret (inr ExtractFailed)
      else
      m ← gets id;
      let hash := hashFile m.(bm_fs) m.(bm_dir) binaryName in
      let verified := if bu.(bk_SHA256) != "" then
                        match hash with
                        | None => Some HashFailed
                        | Some h => if h != bu.(bk_SHA256) then Some HashMismatch else None
                        end
                      else None in
      match verified with
      | Some e => mret (inr e)
      | None =>
          if negb windows && negb (chmod_ok (Join m.(bm_dir) binaryName)) then mret (inr ChmodFailed)
          else
          match hash with Some h => modify (set_hash h) | None => skip end ;;
          mret (inl true)
      end
  end.

(** ** The server process *)

(** true on success *)
Definition Start (port modelPath : string) (p : LlamaParams) : GoM Manager bool :=
  Stop ;;
  m ← gets id;
  match read_file m.(bm_fs) m.(bm_dir) binaryName with
  | None => mret false
  | Some binary =>
      let args := BuildArgs port modelPath p in
      if exec_ok binary args then
        modify (set_proc (Some (binary, args))) ;; modify (set_last port modelPath p) ;; mret true
      else mret false
  end.

Definition Restart : GoM Manager bool :=
  m ← gets id;
  if (m.(bm_lastPort) == "") || (m.(bm_lastModel) == "") then mret false
  else Start m.(bm_lastPort) m.(bm_lastModel) m.(bm_lastParams).
End backend.

(** ** Extraction stays in its directory *)

Section extraction.
Context `{Os, Crypto}.

Definition has_slash (s : string) : Prop := slash ∈ String.list_ascii_of_string s.

Lemma existsb_slash s : existsb (fun d => d == slash) (String.list_ascii_of_string s) = true <-> has_slash s.
Proof.
  unfold has_slash. rewrite existsb_exists. split.
  - intros (d & Hin & ->%bool_decide_eq_true). by apply list_elem_of_In.
  - intros Hin%list_elem_of_In. exists slash. split; [done|]. by apply bool_decide_eq_true.
Qed.
Lemma after_last_slash_no_slash s : ~ has_slash (after_last_slash s).
Proof.
  induction s as [|c s IH]; cbn; [by intros ?%elem_of_nil|].
  destruct (existsb _ _) eqn:E; [done|].
  assert (Hs : ~ has_slash s) by (rewrite <- existsb_slash, E; done).
  case_bool_decide as Hc; [done|]. unfold has_slash. cbn. intros [Hd|Hd]%elem_of_cons; [congruence|done].
Qed.

(** A base name has no separator, but for the root's. *)
Lemma Base_no_slash path : Base path = "/" \/ ~ has_slash (Base path).
Proof.
  unfold Base. case_bool_decide; [right; by vm_compute; intros [=]%list_elem_of_singleton|].
  case_bool_decide; [by left|]. right. apply after_last_slash_no_slash.
Qed.

(** Every file of [m'] outside the directory proper is as in [m]. *)
Definition confined (m m' : Manager) : Prop :=
  m'.(bm_dir) = m.(bm_dir) /\
  forall path, (forall base, ~ has_slash base -> path <> Join m.(bm_dir) base) ->
    m'.(bm_fs) !! path = m.(bm_fs) !! path.
#[export] Instance confined_preorder : PreOrder confined.
Proof.
  split; [done|]. intros m1 m2 m3 (E1 & H1') (E2 & H2'). split; [congruence|].
  intros path Hp. rewrite H2', H1'; [done|done|]. by rewrite E1.
Qed.

(** Links made by an extraction point to base names, inside the directory. *)
Definition links_local (m : Manager) : Prop :=
  forall base t, ~ has_slash base -> m.(bm_fs) !! Join m.(bm_dir) base = Some (Link t) ->
    is_dir_name t = true \/ ~ has_slash t.

Lemma follow_no_slash m fuel base b : links_local m -> ~ has_slash base ->
  follow fuel m.(bm_fs) m.(bm_dir) base = Some b -> ~ has_slash b.
Proof.
  intros Hl. revert base. induction fuel as [|fuel IH]; intros base Hb; cbn [follow]; [done|].
  destruct (is_dir_name base); [done|]. destruct (_ !! _) as [[c|t]|] eqn:E; [by intros [= <-]| |by intros [= <-]].
  destruct (Hl base t Hb E) as [Ht|Ht]; [|by apply IH].
  destruct fuel as [|fuel]; cbn [follow]; [done|]. by rewrite Ht.
Qed.

Definition safe_rel (m m' : Manager) : Prop := links_local m -> links_local m' /\ confined m m'.
#[export] Instance safe_rel_preorder : PreOrder safe_rel.
Proof.
  split; [intros m Hm; split; [done|reflexivity]|]. intros m1 m2 m3 H12 H23 Hm1.
  destruct (H12 Hm1) as [Hm2 H1']. destruct (H23 Hm2) as [Hm3 H2']. split; [done|by etrans].
Qed.

Lemma Join_inj dir b1 b2 : Join dir b1 = Join dir b2 -> b1 = b2.
Proof. unfold Join. intros E. by apply (inj (String.append dir)), (inj (String.append "/")) in E. Qed.

Lemma safe_insert m base n : ~ has_slash base ->
  (forall t, n = Link t -> is_dir_name t = true \/ ~ has_slash t) ->
  safe_rel m (set_fs (<[Join m.(bm_dir) base := n]> m.(bm_fs)) m).
Proof.
  intros Hb Hn Hm. split.
  - intros b t Hnb. cbn. rewrite lookup_insert_Some. intros [[_ ->]|[_ E]]; [by eapply Hn|by eapply Hm].
  - split; [done|]. cbn. intros path Hp. apply lookup_insert_ne. intros E. by apply (Hp base).
Qed.
Lemma safe_delete m base : ~ has_slash base ->
  safe_rel m (set_fs (delete (Join m.(bm_dir) base) m.(bm_fs)) m).
Proof.
  intros Hb Hm. split.
  - intros b t Hnb. cbn. intros [_ E]%lookup_delete_Some. by eapply Hm.
  - split; [done|]. cbn. intros path Hp. apply lookup_delete_ne. intros E. by apply (Hp base).
Qed.

Lemma is_dir_slash base : base = "/" -> is_dir_name base = true.
Proof. by intros ->. Qed.

Lemma safe_write_file path content : keeps safe_rel (write_file (Base path) content).
Proof.
  intros m Hm. revert m Hm. intros m. fold (safe_rel m (run (write_file (Base path) content) m)).
  unfold run, write_file, mbind, GoM_bind, gets. cbn [id].
  destruct (follow max_links _ _ (Base path)) as [b|] eqn:E; [|reflexivity].
  intros Hm. assert (Hb : ~ has_slash (Base path) /\ ~ has_slash b).
  { destruct (Base_no_slash path) as [Hs|Hs].
    - rewrite Hs in E. done.
    - split; [done|]. by eapply follow_no_slash. }
  destruct Hb as [Hbase Hb]. destruct (write_outcome _ _) as [| |partial]; cbn.
  - by apply safe_insert.
  - split; [done|reflexivity].
  - destruct (safe_insert m b (File partial) Hb ltac:(done) Hm) as [Hm1 Hc1].
    destruct (safe_delete _ (Base path) Hbase Hm1) as [Hm2 Hc2]. split; [exact Hm2|].
    etrans; [exact Hc1|exact Hc2].
Qed.
Lemma safe_write_link path target : keeps safe_rel (write_link (Base path) (Base target)).
Proof.
  intros m. unfold run, write_link, mbind at 1, GoM_bind, gets. cbn [id].
  destruct (is_dir_name (Base path)) eqn:Ed; [cbn; reflexivity|].
  assert (Hbase : ~ has_slash (Base path)).
  { destruct (Base_no_slash path) as [Hs|Hs]; [by rewrite Hs in Ed|done]. }
  intros Hm. destruct (safe_delete m (Base path) Hbase Hm) as [Hm1 Hc1].
  unfold mbind, GoM_bind. cbn. destruct (symlink_ok _); cbn; [|by split].
  set (m1 := set_fs (delete _ _) m) in *.
  destruct (safe_insert m1 (Base path) (Link (Base target)) Hbase) as [Hm2 Hc2]; [|done|].
  - intros t [= <-]. destruct (Base_no_slash target) as [Hs|Hs]; [left; by rewrite Hs|by right].
  - split; [exact Hm2|]. etrans; [exact Hc1|exact Hc2].
Qed.
Hint Resolve safe_write_file safe_write_link : keeps.

Lemma safe_extract_tar items found : keeps safe_rel (extract_tar items found).
Proof. revert found. induction items as [|[] items IH]; intros found; cbn [extract_tar]; keeps_tac. Qed.
Lemma safe_extract_zip items found : keeps safe_rel (extract_zip items found).
Proof. revert found. induction items as [|[] items IH]; intros found; cbn [extract_zip]; keeps_tac. Qed.
Hint Resolve safe_extract_tar safe_extract_zip : keeps.
Lemma safe_extractBinary archive url : keeps safe_rel (extractBinary archive url).
Proof. unfold extractBinary. keeps_tac. Qed.
End extraction.

(** ** Properties *)

Section properties.
Context `{Os, Crypto}.

(** Extraction touches the files only. *)
Definition files_only (m m' : Manager) : Prop := exists fs, m' = set_fs fs m.
#[export] Instance files_only_preorder : PreOrder files_only.
Proof.
  split; [intros m; exists m.(bm_fs); by destruct m|]. intros m1 m2 m3 [fs ->] [fs' ->]. by exists fs'.
Qed.
Lemma files_write_file b c : keeps files_only (write_file b c).
Proof.
  intros m. unfold run, write_file, mbind, GoM_bind, gets. cbn [id].
  destruct (follow _ _ _ _); [|reflexivity]. destruct (write_outcome _ _); cbn; [by eexists|reflexivity|by eexists].
Qed.
Lemma files_write_link b t : keeps files_only (write_link b t).
Proof.
  intros m. unfold run, write_link, mbind, GoM_bind, gets. cbn [id].
  destruct (is_dir_name b); [reflexivity|]. cbn. destruct (symlink_ok _); by eexists.
Qed.
Hint Resolve files_write_file files_write_link : keeps.
Lemma files_extract_tar items found : keeps files_only (extract_tar items found).
Proof. revert found. induction items as [|[] items IH]; intros found; cbn [extract_tar]; keeps_tac. Qed.
Lemma files_extract_zip items found : keeps files_only (extract_zip items found).
Proof. revert found. induction items as [|[] items IH]; intros found; cbn [extract_zip]; keeps_tac. Qed.
Hint Resolve files_extract_tar files_extract_zip : keeps.
Lemma files_extractBinary archive url : keeps files_only (extractBinary archive url).
Proof. unfold extractBinary. keeps_tac. Qed.

Lemma extractBinary_returns archive url : returns (extractBinary archive url).
Proof.
  assert (Hw : forall b c, returns (write_file b c)) by (intros; unfold write_file; returns_tac).
  assert (Hl : forall b t, returns (write_link b t)) by (intros; unfold write_link; returns_tac).
  assert (Ht : forall items found, returns (extract_tar items found)).
  { intros items. induction items as [|[] items IH]; intros found; cbn [extract_tar]; returns_tac; auto. }
  assert (Hz : forall items found, returns (extract_zip items found)).
  { intros items. induction items as [|[] items IH]; intros found; cbn [extract_zip]; returns_tac; auto. }
  unfold extractBinary. returns_tac; auto.
Qed.

(** The outcomes of an update, case by case. *)
Lemma wp_Apply bu m (Q : Manager -> res (bool + apply_error) -> Prop) :
  (bu.(bk_SHA256) <> "" -> bu.(bk_SHA256) = m.(bm_currentHash) -> Q m (Ret (inl false))) ->
  Q m (Ret (inr DownloadFailed)) ->
  (forall fs, safe_rel m (set_fs fs m) ->
     let m1 := set_fs fs (set_proc None m) in
     let hash := hashFile fs m.(bm_dir) binaryName in
     Q m1 (Ret (inr ExtractFailed)) /\ Q m1 (Ret (inr ChmodFailed)) /\
     (hash = None -> bu.(bk_SHA256) <> "" -> Q m1 (Ret (inr HashFailed))) /\
     (hash = None -> bu.(bk_SHA256) = "" -> Q m1 (Ret (inl true))) /\
     (forall h, hash = Some h -> bu.(bk_SHA256) <> "" -> h <> bu.(bk_SHA256) -> Q m1 (Ret (inr HashMismatch))) /\
     (forall h, hash = Some h -> (bu.(bk_SHA256) <> "" -> h = bu.(bk_SHA256)) -> Q (set_hash h m1) (Ret (inl true)))) ->
  wp (Apply bu) Q m.
Proof.
  intros Hskip Hdown Hrest. unfold Apply. apply wp_bind, wp_gets. cbv beta iota.
  destruct (bk_SHA256 bu != "") eqn:Esha; cbn [andb].
  1: destruct (bool_decide_reflect (bk_SHA256 bu = bm_currentHash m)) as [Ecur|Ecur]; [apply wp_ret, Hskip; [by apply negb_true_iff, bool_decide_eq_false in Esha|done]|].
  all: apply wp_bind, wp_gets; cbv beta iota; cbn [id]; destruct (match fetch _ with Some _ => _ | None => _ end) as [archive|];
    [|by apply wp_ret].
  all: apply wp_bind, wp_gets, wp_bind.
  all: apply (wp_mono _ (fun m' r => r = Ret tt /\ m' = set_proc None m)); [by destruct m as [? ? ? ? [] ? ? ?]|].
  all: intros m0 r [-> ->]; apply wp_bind.
  all: eapply (wp_returns (fun a b => files_only a b /\ safe_rel a b)); [apply extractBinary_returns| |].
  all: try (intros m2; split; [apply files_extractBinary|apply safe_extractBinary]).
  all: intros m2 found [[fs ->] Hsafe]; destruct (Hrest fs Hsafe) as (Hex & Hch & Hhf & Hnh & Hmm & Hok).
  all: destruct found; cbn [negb]; [|exact Hex].
  all: apply wp_bind, wp_gets; cbv beta iota zeta; cbn [id bm_fs bm_dir set_fs set_proc].
  - apply negb_true_iff, bool_decide_eq_false in Esha.
    destruct (hashFile fs _ _) as [h|] eqn:Eh; [|by apply wp_ret, Hhf].
    destruct (bool_decide_reflect (h = bk_SHA256 bu)) as [Ehash|Ehash]; cbn [negb]; [|by apply wp_ret, (Hmm h)].
    destruct (_ && _); [exact Hch|]. apply wp_bind, wp_modify, wp_ret. by apply Hok.
  - apply negb_false_iff, bool_decide_eq_true in Esha. destruct (_ && _); [exact Hch|].
    destruct (hashFile fs _ _) as [h|] eqn:Eh; apply wp_bind.
    + apply wp_modify, wp_ret. by apply Hok.
    + by apply wp_ret, wp_ret, Hnh.
Qed.

(** C26. Updates stay in the backend directory. Whatever names and links an
    archive holds, applying an update changes no file outside the directory
    itself, provided the links already there point inside; and it leaves them
    so. *)
Theorem updates_are_confined bu m : links_local m ->
  confined m (run (Apply bu) m) /\ links_local (run (Apply bu) m).
Proof.
  intros Hm. enough (Hwp : wp (Apply bu) (fun m' _ => confined m m' /\ links_local m') m) by exact Hwp.
  assert (Hself : confined m m /\ links_local m) by (split; [reflexivity|done]).
  apply wp_Apply; [done|done|]. intros fs Hsafe m1 hash. destruct (Hsafe Hm) as [Hl Hc].
  assert (H1 : confined m m1 /\ links_local m1) by done. split_and!; try done.
Qed.

(** A reported update is the verified one. When [Apply] reports an update
    with a digest, the installed binary has that digest, which is now the
    current hash, and no server runs from an older binary; when it reports that
    there was nothing to do, nothing changed. *)
Theorem reported_update_is_verified bu m m' updated :
  Apply bu m = (m', Ret (inl updated)) -> bu.(bk_SHA256) <> "" ->
  m'.(bm_currentHash) = bu.(bk_SHA256) /\
  (if updated : bool then hashFile m'.(bm_fs) m'.(bm_dir) binaryName = Some bu.(bk_SHA256) /\ m'.(bm_proc) = None
   else m' = m).
Proof.
  intros E Hsha. enough (Hwp : wp (Apply bu) (fun m' r => forall updated, r = Ret (inl updated) ->
    m'.(bm_currentHash) = bu.(bk_SHA256) /\
    (if updated : bool then hashFile m'.(bm_fs) m'.(bm_dir) binaryName = Some bu.(bk_SHA256) /\ m'.(bm_proc) = None
     else m' = m)) m).
  { unfold wp, run, result in Hwp. rewrite E in Hwp. by apply (Hwp updated). }
  apply wp_Apply; [by intros _ Hcur u [= <-]|done|].
  intros fs _ m1 hash. split_and!; try done. intros h Hh Hv u [= <-]. specialize (Hv Hsha). subst h. done.
Qed.

Lemma Start_runs port modelPath p binary m : read_file m.(bm_fs) m.(bm_dir) binaryName = Some binary ->
  exec_ok binary (BuildArgs port modelPath p) = true ->
  (run (Start port modelPath p) m).(bm_proc) = Some (binary, BuildArgs port modelPath p).
Proof.
  intros Hr Hexec. enough (Hwp : wp (Start port modelPath p) (fun m' _ =>
    m'.(bm_proc) = Some (binary, BuildArgs port modelPath p)) m) by exact Hwp.
  unfold Start. apply wp_bind, wp_modify, wp_bind, wp_gets. cbn [id bm_fs bm_dir set_proc].
  rewrite Hr. cbv zeta. rewrite Hexec. apply wp_bind, wp_modify, wp_bind, wp_modify. by apply wp_ret.
Qed.

(** A rejected binary stays installed. When the digest of the extracted
    binary is not the announced one, [Apply] reports the mismatch, but the
    rejected file has replaced the installed binary, the server has been
    stopped, and the next start runs the rejected file. *)
Theorem rejected_binary_stays_installed bu m m' :
  Apply bu m = (m', Ret (inr HashMismatch)) ->
  exists binary, read_file m'.(bm_fs) m'.(bm_dir) binaryName = Some binary /\
    hex_EncodeToString (sha256 binary) <> bu.(bk_SHA256) /\
    m'.(bm_currentHash) = m.(bm_currentHash) /\ m'.(bm_proc) = None /\
    forall port modelPath p, exec_ok binary (BuildArgs port modelPath p) = true ->
      (run (Start port modelPath p) m').(bm_proc) = Some (binary, BuildArgs port modelPath p).
Proof.
  intros E. enough (Hwp : wp (Apply bu) (fun m' r => r = Ret (inr HashMismatch) ->
    exists binary, read_file m'.(bm_fs) m'.(bm_dir) binaryName = Some binary /\
      hex_EncodeToString (sha256 binary) <> bu.(bk_SHA256) /\
      m'.(bm_currentHash) = m.(bm_currentHash) /\ m'.(bm_proc) = None) m).
  { unfold wp, run, result in Hwp. rewrite E in Hwp. destruct (Hwp eq_refl) as (binary & Hr & Hh & Hc & Hp).
    exists binary. split_and!; try done. intros port modelPath p. by apply Start_runs. }
  apply wp_Apply; [done|done|]. intros fs _ m1 hash. split_and!; try done.
  intros h Hh Hsha Hne _. unfold hash, hashFile in Hh.
  destruct (read_file fs (bm_dir m) binaryName) as [binary|] eqn:Er; [|done]. cbn in Hh. injection Hh as <-.
  by exists binary.
Qed.
End properties.

(** ** Witnesses *)

Section witnesses.
#[local] Existing Instance ToyCrypto.

Definition bin_ex : string := "0123456789abcdef0123456789abcdef".
(** One URL serves an archive that holds [bin_ex] and a path outside. *)
Definition OsEx : Os := {|
  fetch url := if url == "u" then Some "archive" else None;
  tar_items _ := Some [TarReg "../../evil" "x"; TarReg "build/bin/llama-server" bin_ex];
  zip_items _ := None;
  write_outcome _ _ := Written;
  symlink_ok _ := true;
  chmod_ok _ := true;
  exec_ok _ _ := true;
  windows := false;
  GOOS := "linux";
  GOARCH := "amd64";
|}.
#[local] Existing Instance OsEx.

Definition update_ex (sha : string) : BackendUpdate :=
  {| bk_Type := TypeBackendUpdate; bk_Version := "b1"; bk_DownloadURL := "u"; bk_FallbackURL := "";
     bk_SHA256 := sha |}.
Definition manager_ex : Manager :=
  NewManager "http://m" "/data/backend" {[ "/etc/passwd" := File "root"; "/data/backend/llama-server" := File "old" ]}.

Lemma updates_are_confined_witness :
  (run (Apply (update_ex "")) manager_ex).(bm_fs) !! "/etc/passwd" = Some (File "root").
Proof.
  assert (Hl : links_local manager_ex).
  { intros base t _. cbn. rewrite lookup_insert_Some. intros [[_ [=]]|[_ Hl]].
    apply lookup_singleton_Some in Hl as [_ [=]]. }
  destruct (updates_are_confined (update_ex "") manager_ex Hl) as [[_ Hc] _].
  rewrite Hc; [reflexivity|]. intros base _ [=].
Defined.

Lemma reported_update_is_verified_witness :
  let '(m', r) := Apply (update_ex (hex_EncodeToString bin_ex)) manager_ex in
  r = Ret (inl true) /\ m'.(bm_currentHash) = hex_EncodeToString bin_ex.
Proof.
  destruct (Apply (update_ex (hex_EncodeToString bin_ex)) manager_ex) as [m' r] eqn:E.
  assert (Hr : r = Ret (inl true)) by (replace r with (result (Apply (update_ex (hex_EncodeToString bin_ex))) manager_ex)
    by (unfold result; by rewrite E); vm_compute; reflexivity).
  subst r. split; [reflexivity|].
  exact (proj1 (reported_update_is_verified _ _ _ true E ltac:(discriminate))).
Defined.

Lemma rejected_binary_stays_installed_witness :
  let '(m', r) := Apply (update_ex "00") manager_ex in
  r = Ret (inr HashMismatch) /\ exists binary, read_file m'.(bm_fs) m'.(bm_dir) binaryName = Some binary.
Proof.
  destruct (Apply (update_ex "00") manager_ex) as [m' r] eqn:E.
  assert (Hr : r = Ret (inr HashMismatch)) by (replace r with (result (Apply (update_ex "00")) manager_ex)
    by (unfold result; by rewrite E); vm_compute; reflexivity).
  subst r. split; [reflexivity|].
  destruct (rejected_binary_stays_installed _ _ _ E) as (binary & Hb & _). by exists binary.
Defined.
End witnesses.
