(* ===== verification/ClientState.v ===== *)
(** * Worker state, its interpretation, and the log and error channels of the client

    internal/client/state, internal/client/status, internal/logbuffer and the
    deduplication of internal/client/errorreporter. *)

From S2P Require Import Prelude GoStd Protocol GpuMonitor.

(** ** The snapshot of the worker's state *)

Record Snapshot := {
  s_connected : bool;
  s_gpuSentAvg : Z;
  s_llmReachable : bool;
  s_llmError : string;
  s_gpuState : State;
  s_gpuUtil : Z;
  s_gpuStats : GPUStats;
  s_gpuSupported : bool;
  s_gpuSupportReason : string;
  s_gpuDriver : string;
  s_gpuDriverVersion : string;
  s_processing : bool;
  s_paused : bool;
  s_units : Z;
  s_startedAt : Z;
  s_fingerprint : string;
  s_model : string;
  s_quantisation : string;
}.

Definition NewState (now : Z) (fingerprint model quantisation : string) : Snapshot :=
  {| s_connected := false; s_gpuSentAvg := 0; s_llmReachable := false; s_llmError := "not yet probed";
     s_gpuState := StateAvailable; s_gpuUtil := 0; s_gpuStats := zero_GPUStats; s_gpuSupported := false;
     s_gpuSupportReason := ""; s_gpuDriver := ""; s_gpuDriverVersion := ""; s_processing := false;
     s_paused := false; s_units := 0; s_startedAt := now; s_fingerprint := fingerprint;
     s_model := model; s_quantisation := quantisation |}.

Definition SetConnected (v : bool) (avg : Z) (s : Snapshot) : Snapshot :=
  {| s_connected := v; s_gpuSentAvg := avg; s_llmReachable := s.(s_llmReachable); s_llmError := s.(s_llmError);
     s_gpuState := s.(s_gpuState); s_gpuUtil := s.(s_gpuUtil); s_gpuStats := s.(s_gpuStats);
     s_gpuSupported := s.(s_gpuSupported); s_gpuSupportReason := s.(s_gpuSupportReason);
     s_gpuDriver := s.(s_gpuDriver); s_gpuDriverVersion := s.(s_gpuDriverVersion);
     s_processing := s.(s_processing); s_paused := s.(s_paused); s_units := s.(s_units);
     s_startedAt := s.(s_startedAt); s_fingerprint := s.(s_fingerprint); s_model := s.(s_model);
     s_quantisation := s.(s_quantisation) |}.
Definition SetLLM (reachable : bool) (err : string) (s : Snapshot) : Snapshot :=
  {| s_connected := s.(s_connected); s_gpuSentAvg := s.(s_gpuSentAvg); s_llmReachable := reachable; s_llmError := err;
     s_gpuState := s.(s_gpuState); s_gpuUtil := s.(s_gpuUtil); s_gpuStats := s.(s_gpuStats);
     s_gpuSupported := s.(s_gpuSupported); s_gpuSupportReason := s.(s_gpuSupportReason);
     s_gpuDriver := s.(s_gpuDriver); s_gpuDriverVersion := s.(s_gpuDriverVersion);
     s_processing := s.(s_processing); s_paused := s.(s_paused); s_units := s.(s_units);
     s_startedAt := s.(s_startedAt); s_fingerprint := s.(s_fingerprint); s_model := s.(s_model);
     s_quantisation := s.(s_quantisation) |}.
Definition SetGPU (st : State) (util : Z) (stats : GPUStats) (supported : bool)
    (reason driver driverVersion : string) (s : Snapshot) : Snapshot :=
  {| s_connected := s.(s_connected); s_gpuSentAvg := s.(s_gpuSentAvg); s_llmReachable := s.(s_llmReachable);
     s_llmError := s.(s_llmError); s_gpuState := st; s_gpuUtil := util; s_gpuStats := stats;
     s_gpuSupported := supported; s_gpuSupportReason := reason; s_gpuDriver := driver;
     s_gpuDriverVersion := driverVersion;
     s_processing := s.(s_processing); s_paused := s.(s_paused); s_units := s.(s_units);
     s_startedAt := s.(s_startedAt); s_fingerprint := s.(s_fingerprint); s_model := s.(s_model);
     s_quantisation := s.(s_quantisation) |}.
(** The event-driven fields: processing, paused, units. *)
Definition set_event_fields (processing paused : bool) (units : Z) (s : Snapshot) : Snapshot :=
  {| s_connected := s.(s_connected); s_gpuSentAvg := s.(s_gpuSentAvg); s_llmReachable := s.(s_llmReachable);
     s_llmError := s.(s_llmError); s_gpuState := s.(s_gpuState); s_gpuUtil := s.(s_gpuUtil);
     s_gpuStats := s.(s_gpuStats); s_gpuSupported := s.(s_gpuSupported);
     s_gpuSupportReason := s.(s_gpuSupportReason); s_gpuDriver := s.(s_gpuDriver);
     s_gpuDriverVersion := s.(s_gpuDriverVersion);
     s_processing := processing; s_paused := paused; s_units := units;
     s_startedAt := s.(s_startedAt); s_fingerprint := s.(s_fingerprint); s_model := s.(s_model);
     s_quantisation := s.(s_quantisation) |}.
Definition SetProcessing (v : bool) (s : Snapshot) : Snapshot := set_event_fields v s.(s_paused) s.(s_units) s.
Definition SetPaused (v : bool) (s : Snapshot) : Snapshot := set_event_fields s.(s_processing) v s.(s_units) s.
Definition IncrementUnits (s : Snapshot) : Snapshot :=
  set_event_fields s.(s_processing) s.(s_paused) (wrap64 (s.(s_units) + 1)) s.

(** ** Status (status.go) *)

Definition StatusDisconnected := "disconnected".
Definition StatusLLMUnreachable := "llm_unreachable".
Definition StatusGPUUnsupported := "gpu_unsupported".
Definition StatusPaused := "paused".
Definition StatusGPUBusy := "gpu_busy".
Definition StatusProcessing := "processing".
Definition StatusReady := "ready".

Definition Compute (s : Snapshot) : string :=
  if negb s.(s_connected) then StatusDisconnected
  else if negb s.(s_gpuSupported) then StatusGPUUnsupported
  else if negb s.(s_llmReachable) then StatusLLMUnreachable
  else if s.(s_paused) then StatusPaused
  else if s.(s_processing) then StatusProcessing
  else if s.(s_gpuState) == StateBusy then StatusGPUBusy
  else StatusReady.

Definition IsAvailable (s : Snapshot) : bool :=
  s.(s_connected) && s.(s_llmReachable) && (s.(s_gpuState) == StateAvailable) &&
  negb s.(s_paused) && negb s.(s_processing).

(** [Run]: what each handler is called with, given the state at the start and
    at every tick. *)
Fixpoint status_ticks (current : string) (ticks : list Snapshot) : list (string * string) :=
  match ticks with
  | [] => []
  | s :: ticks =>
      let next := Compute s in
      if next == current then status_ticks current ticks
      else (current, next) :: status_ticks next ticks
  end.
Definition status_Run (initial : Snapshot) (ticks : list Snapshot) : list (string * string) :=
  ("", Compute initial) :: status_ticks (Compute initial) ticks.

(** zerolog.ParseLevel: a level's name to its canonical form *)
Class Zerolog := { ParseLevel : string -> option string }.

(** ** The log ring buffer (logbuffer.go)

    [lb_closed] are the subscribers whose channel was closed. *)

Record Buffer := {
  lb_entries : list string;
  lb_maxSize : nat;
  lb_subs : gmap nat (list string);
  lb_nextID : nat;
  lb_closed : gset nat;
}.
Definition sub_capacity : nat := 256.

Definition NewBuffer (maxSize : nat) : Buffer :=
  {| lb_entries := []; lb_maxSize := maxSize; lb_subs := ∅; lb_nextID := 0; lb_closed := ∅ |}.

(** [bytes.TrimRight(p, "\n")] *)
Definition newline : Ascii.ascii := Ascii.ascii_of_nat 10.
Fixpoint TrimRight_newlines (s : string) : string :=
  match s with
  | String.EmptyString => ""
  | String.String c s' =>
      let t := TrimRight_newlines s' in
      if (c == newline) && (t == "") then "" else String.String c t
  end.

(** keep the last [n] *)
Definition last_entries (n : nat) (l : list string) : list string :=
  if bool_decide (n < length l)%nat then drop (length l - n) l else l.

Definition push_sub (entry : string) (ch : list string) : list string :=
  if bool_decide (length ch < sub_capacity)%nat then ch ++ [entry] else ch.

Definition Write (p : string) (b : Buffer) : Buffer :=
  let line := TrimRight_newlines p in
  if line == "" then b
  else {| lb_entries := last_entries b.(lb_maxSize) (b.(lb_entries) ++ [line]);
          lb_maxSize := b.(lb_maxSize); lb_subs := push_sub line <$> b.(lb_subs);
          lb_nextID := b.(lb_nextID); lb_closed := b.(lb_closed) |}.
Definition GetAll (b : Buffer) : list string := b.(lb_entries).
Definition Subscribe (b : Buffer) : Buffer * nat :=
  ({| lb_entries := b.(lb_entries); lb_maxSize := b.(lb_maxSize);
      lb_subs := <[b.(lb_nextID) := []]> b.(lb_subs); lb_nextID := S b.(lb_nextID);
      lb_closed := b.(lb_closed) |}, b.(lb_nextID)).
Definition Unsubscribe (id : nat) (b : Buffer) : Buffer :=
  match b.(lb_subs) !! id with
  | None => b
  | Some _ => {| lb_entries := b.(lb_entries); lb_maxSize := b.(lb_maxSize);
                 lb_subs := delete id b.(lb_subs); lb_nextID := b.(lb_nextID);
                 lb_closed := {[id]} ∪ b.(lb_closed) |}
  end.
(** the subscriber's receive *)
Definition Receive (id : nat) (b : Buffer) : Buffer * option string :=
  match b.(lb_subs) !! id with
  | Some (e :: ch) => ({| lb_entries := b.(lb_entries); lb_maxSize := b.(lb_maxSize);
                          lb_subs := <[id := ch]> b.(lb_subs); lb_nextID := b.(lb_nextID);
                          lb_closed := b.(lb_closed) |}, Some e)
  | _ => (b, None)
  end.

(** ** Deduplicated error reports (reporter.go) *)

Record Reporter := {
  er_seen : gmap string Z;           (* hash, last reported *)
  er_sent : list (Z * string);       (* what was sent, and when *)
}.
Definition NewReporter : Reporter := {| er_seen := ∅; er_sent := [] |}.

Section reporter.
Context `{Crypto}.

Definition hashError (msg : string) : string := hex_EncodeToString (take_str 16 (sha256 msg)).

Definition recently_reported (now : Z) (msg : string) (r : Reporter) : bool :=
  match r.(er_seen) !! hashError msg with
  | Some lastSent => bool_decide (now - lastSent < Hour)%Z
  | None => false
  end.
Definition mark_reported (now : Z) (msg : string) (r : Reporter) : Reporter :=
  {| er_seen := <[hashError msg := now]> r.(er_seen); er_sent := r.(er_sent) ++ [(now, msg)] |}.

(** [ReportMessage] and [ReportWithStack]; the report is sent in a goroutine
    of its own. *)
Definition Report (now : Z) (msg : string) (r : Reporter) : Reporter :=
  if recently_reported now msg r then r else mark_reported now msg r.
End reporter.

(** ** Properties *)

(** The shown status and the availability agree. The status is "ready"
    exactly when the worker is available and its GPU can be monitored; on a
    GPU that cannot, [IsAvailable] still says available while the status is
    "gpu_unsupported". *)
Theorem ready_iff_available s :
  (Compute s = StatusReady <-> IsAvailable s = true /\ s.(s_gpuSupported) = true) /\
  (IsAvailable s = true -> s.(s_gpuSupported) = false -> Compute s = StatusGPUUnsupported).
Proof.
  unfold Compute, IsAvailable.
  destruct (s_connected s), (s_gpuSupported s), (s_llmReachable s), (s_paused s), (s_processing s), (s_gpuState s);
    vm_compute; split; (split || idtac); naive_solver.
Qed.

(** Consecutive notifications. *)
Fixpoint notified (from : string) (l : list (string * string)) : Prop :=
  match l with
  | [] => True
  | (old, new) :: l => old = from /\ new <> from /\ notified new l
  end.

Lemma last_cons {A} (l : list A) x d : List.last (x :: l) d = List.last l x.
Proof. revert x d. induction l as [|y l IH]; intros x d; [done|]. change (List.last (y :: l) d = List.last (y :: l) x). by rewrite !IH. Qed.

Lemma status_ticks_spec ticks current d : Compute d = current ->
  notified current (status_ticks current ticks) /\
  List.last (map snd (status_ticks current ticks)) current = Compute (List.last ticks d).
Proof.
  revert current d. induction ticks as [|s ticks IH]; intros current d Hd; cbn [status_ticks]; [done|].
  rewrite last_cons. case_bool_decide as E.
  - by apply IH.
  - destruct (IH _ s eq_refl) as [Hn Hlast]. split; [done|]. rewrite <- Hlast.
    change (map snd ((current, Compute s) :: status_ticks (Compute s) ticks)) with
      (Compute s :: map snd (status_ticks (Compute s) ticks)). apply last_cons.
Qed.

(** Handlers see every change once. The first notification is from "" to
    the initial status, each later one from the previous status to a
    different one, and the last one announces the current status. *)
Theorem handlers_follow_status initial ticks :
  exists l, status_Run initial ticks = ("", Compute initial) :: l /\ notified (Compute initial) l /\
    List.last (map snd (status_Run initial ticks)) "" = Compute (List.last ticks initial).
Proof.
  destruct (status_ticks_spec ticks (Compute initial) initial eq_refl) as [Hn Hl].
  eexists. split; [done|]. split; [done|]. rewrite <- Hl.
  change (map snd (status_Run initial ticks)) with
    (Compute initial :: map snd (status_ticks (Compute initial) ticks)). apply last_cons.
Qed.

(** The lines a sequence of writes logs. *)
Definition logged (ps : list string) : list string :=
  List.filter (fun l => l != "") (TrimRight_newlines <$> ps).

Lemma last_entries_app n l x : last_entries n (last_entries n l ++ x) = last_entries n (l ++ x).
Proof.
  unfold last_entries. repeat case_bool_decide; rewrite ?length_app, ?length_drop in *; try lia; try done.
  - rewrite <- drop_app_le by lia. rewrite drop_drop. f_equal. lia.
  - rewrite <- drop_app_le by lia. f_equal. lia.
Qed.

(** The log buffer holds the last lines. After any writes the entries are
    the last [maxSize] non-empty lines, without their trailing newlines, in
    order. *)
Theorem buffer_keeps_last ps n :
  GetAll (foldl (fun b p => Write p b) (NewBuffer n) ps) = last_entries n (logged ps).
Proof.
  enough (H : forall l, GetAll (foldl (fun b p => Write p b)
      {| lb_entries := last_entries n l; lb_maxSize := n; lb_subs := ∅; lb_nextID := 0; lb_closed := ∅ |} ps) =
    last_entries n (l ++ logged ps)).
  { specialize (H []). replace (last_entries n []) with (@nil string) in H by (unfold last_entries; by case_bool_decide).
    exact H. }
  induction ps as [|p ps IH]; intros l; [by rewrite app_nil_r|]. cbn [foldl]. unfold logged. cbn [fmap list_fmap List.filter].
  unfold Write at 2. cbn [lb_entries lb_maxSize lb_subs lb_nextID lb_closed].
  destruct (bool_decide_reflect (TrimRight_newlines p = "")) as [E|E]; cbn [negb].
  - apply IH.
  - rewrite last_entries_app, fmap_empty, IH, <- app_assoc. done.
Qed.

Section reporting.
Context `{Crypto}.

(** The memory covers what was sent, and what was sent is spaced. *)
Definition spaced (r : Reporter) : Prop :=
  (forall i t msg, r.(er_sent) !! i = Some (t, msg) ->
      exists t0, r.(er_seen) !! hashError msg = Some t0 /\ (t <= t0)%Z) /\
  (forall i j t t' msg, (i < j)%nat -> r.(er_sent) !! i = Some (t, msg) -> r.(er_sent) !! j = Some (t', msg) ->
      (Hour <= t' - t)%Z).

Lemma send_spaced now msg r : spaced r -> (forall t m, (t, m) ∈ r.(er_sent) -> (t <= now)%Z) ->
  (forall t0, r.(er_seen) !! hashError msg = Some t0 -> (Hour <= now - t0)%Z) ->
  spaced (mark_reported now msg r).
Proof.
  intros [Hseen Hsp] Hnow Hold. split; cbn.
  - intros i t m [Hi|[_ Hi]]%lookup_app_Some.
    + destruct (Hseen i t m Hi) as (t0 & Ht0 & Hle). rewrite lookup_insert. case_decide; [|by eauto].
      exists now. split; [done|]. by apply (Hnow t m), (list_elem_of_lookup_2 _ i).
    + apply list_lookup_singleton_Some in Hi as [_ [= <- <-]]. exists now. by rewrite lookup_insert_eq.
  - intros i j t t' m Hij Hi [Hj|[Hlen Hj]]%lookup_app_Some.
    + rewrite lookup_app_l in Hi by (apply lookup_lt_Some in Hj; lia). by eapply Hsp.
    + apply list_lookup_singleton_Some in Hj as [Hj [= <- <-]].
      rewrite lookup_app_l in Hi by lia. destruct (Hseen i t msg Hi) as (t0 & Ht0 & Hle).
      specialize (Hold t0 Ht0). lia.
Qed.

Lemma Report_spaced now msg r : spaced r -> (forall t m, (t, m) ∈ r.(er_sent) -> (t <= now)%Z) ->
  spaced (Report now msg r) /\
  forall t m, (t, m) ∈ (Report now msg r).(er_sent) -> (t, m) ∈ r.(er_sent) \/ t = now.
Proof.
  intros Hr Hnow. unfold Report, recently_reported.
  assert (Hold : recently_reported now msg r = false ->
    forall t0, er_seen r !! hashError msg = Some t0 -> (Hour <= now - t0)%Z).
  { unfold recently_reported. intros E t0 Et. rewrite Et in E. apply bool_decide_eq_false in E. lia. }
  fold (recently_reported now msg r). destruct (recently_reported now msg r); [by split; [|left]|].
  split; [by apply send_spaced; [..|apply Hold]|].
  intros t m [Hin|Hin%list_elem_of_singleton]%elem_of_app; [by left|right; by injection Hin].
Qed.

Definition report_all (errors : list (Z * string)) (r : Reporter) : Reporter :=
  foldl (fun r e => Report e.1 e.2 r) r errors.

Lemma report_all_spaced errors r : spaced r -> StronglySorted Z.le (fst <$> errors) ->
  (forall t m now, (t, m) ∈ r.(er_sent) -> now ∈ fst <$> errors -> (t <= now)%Z) ->
  spaced (report_all errors r).
Proof.
  revert r. unfold report_all. induction errors as [|[now msg] errors IH]; intros r Hr Hs Hle; [done|].
  cbn [foldl fst snd]. rewrite fmap_cons in Hs, Hle. inversion_clear Hs as [|? ? Hs' Hall].
  destruct (Report_spaced now msg r Hr) as [Hr' Hsent].
  { intros t m Hin. apply (Hle t m); [done|left]. }
  apply IH; [done|done|]. intros t m t' [Hin| ->]%Hsent Ht'.
  - apply (Hle t m); [done|by right].
  - rewrite List.Forall_forall in Hall. by apply Hall, list_elem_of_In.
Qed.

(** The same error is reported at most once an hour. Along any sequence of
    errors in time order, two reports of the same message are at least an hour
    apart. *)
Theorem reports_are_spaced errors :
  StronglySorted Z.le (fst <$> errors) ->
  forall i j t t' msg, (i < j)%nat ->
    (report_all errors NewReporter).(er_sent) !! i = Some (t, msg) ->
    (report_all errors NewReporter).(er_sent) !! j = Some (t', msg) ->
    (Hour <= t' - t)%Z.
Proof.
  intros Hs. apply (report_all_spaced errors NewReporter); [|done|by intros ? ? ? ?%elem_of_nil].
  split; cbn; intros *; by rewrite lookup_nil.
Qed.
End reporting.

Lemma reports_are_spaced_witness :
  let errors := [(0, "e"); (10, "e"); (Hour + 5, "e")]%Z in
  (report_all (H := ToyCrypto) errors NewReporter).(er_sent) = [(0, "e"); (Hour + 5, "e")]%Z /\
  (Hour <= (Hour + 5) - 0)%Z.
Proof.
  intros errors. split; [vm_compute; reflexivity|].
  refine (reports_are_spaced (H := ToyCrypto) errors _ 0 1 0 (Hour + 5) "e" _ _ _);
    [|lia|vm_compute; reflexivity|vm_compute; reflexivity].
  repeat constructor; vm_compute; discriminate.
Defined.
