(* ===== verification/Worker.v ===== *)
(** * The worker of the client (internal/client/worker/worker.go)

    What the worker's loop does with work units and updates, on the state it
    shares: the connection's outgoing messages, the snapshot, the GPU monitor,
    the backend manager, the model files, the persisted state and the reported
    errors. The answers of the local llama-server and of the network are
    arguments of the steps that wait for them. *)

From S2P Require Import Prelude GoStd Json Protocol Http GpuMonitor ClientState Backend.

Definition TriggerPanic := "##############PANIC##############".
Definition TriggerError := "##############ERROR##############".
Definition TriggerPause := "##############PAUSE##############".

(** workerstate.Persisted, and the file it is saved to *)
Record Persisted := {
  ps_ManagerURL : string;
  ps_Role : string;
  ps_ModelPath : string;
  ps_LlamaParams : LlamaParams;
  ps_BackendVersion : string;
  ps_LogLevel : string;
}.
Definition SetModel (path : string) (params : LlamaParams) (role : string) (p : Persisted) : Persisted :=
  {| ps_ManagerURL := p.(ps_ManagerURL); ps_Role := role; ps_ModelPath := path; ps_LlamaParams := params;
     ps_BackendVersion := p.(ps_BackendVersion); ps_LogLevel := p.(ps_LogLevel) |}.
Definition SetPersistedBackendVersion (v : string) (p : Persisted) : Persisted :=
  {| ps_ManagerURL := p.(ps_ManagerURL); ps_Role := p.(ps_Role); ps_ModelPath := p.(ps_ModelPath);
     ps_LlamaParams := p.(ps_LlamaParams); ps_BackendVersion := v; ps_LogLevel := p.(ps_LogLevel) |}.

(** The fields of the connection that status messages carry. *)
Record Connection := {
  co_connected : bool;
  co_llmHash : string;
  co_backendHash : string;
  co_backendVersion : string;
  co_gpuAvg : Z;
  co_sent : list WorkerMessage;
}.

Record Worker := {
  wk_conn : Connection;
  wk_state : Snapshot;
  wk_monitor : GpuMonitor.Monitor;
  wk_reports : list string;
  wk_backend : option Backend.Manager;
  wk_persisted : Persisted;
  wk_lastModelPath : string;
  wk_lastLlamaParams : LlamaParams;
  wk_models : gmap string string;        (* the files of the models directory *)
  (** set once *)
  wk_modelsDir : string;
  wk_managerHTTPURL : string;
  wk_privateKey : string;
  wk_fingerprint : string;
  wk_port : string;
}.

Definition set_conn (c : Connection) (w : Worker) : Worker :=
  Build_Worker c w.(wk_state) w.(wk_monitor) w.(wk_reports) w.(wk_backend) w.(wk_persisted)
    w.(wk_lastModelPath) w.(wk_lastLlamaParams) w.(wk_models) w.(wk_modelsDir) w.(wk_managerHTTPURL)
    w.(wk_privateKey) w.(wk_fingerprint) w.(wk_port).
Definition set_snapshot (s : Snapshot) (w : Worker) : Worker :=
  Build_Worker w.(wk_conn) s w.(wk_monitor) w.(wk_reports) w.(wk_backend) w.(wk_persisted)
    w.(wk_lastModelPath) w.(wk_lastLlamaParams) w.(wk_models) w.(wk_modelsDir) w.(wk_managerHTTPURL)
    w.(wk_privateKey) w.(wk_fingerprint) w.(wk_port).
Definition set_monitor (m : GpuMonitor.Monitor) (w : Worker) : Worker :=
  Build_Worker w.(wk_conn) w.(wk_state) m w.(wk_reports) w.(wk_backend) w.(wk_persisted)
    w.(wk_lastModelPath) w.(wk_lastLlamaParams) w.(wk_models) w.(wk_modelsDir) w.(wk_managerHTTPURL)
    w.(wk_privateKey) w.(wk_fingerprint) w.(wk_port).
Definition set_reports (l : list string) (w : Worker) : Worker :=
  Build_Worker w.(wk_conn) w.(wk_state) w.(wk_monitor) l w.(wk_backend) w.(wk_persisted)
    w.(wk_lastModelPath) w.(wk_lastLlamaParams) w.(wk_models) w.(wk_modelsDir) w.(wk_managerHTTPURL)
    w.(wk_privateKey) w.(wk_fingerprint) w.(wk_port).
Definition set_backend (b : option Backend.Manager) (w : Worker) : Worker :=
  Build_Worker w.(wk_conn) w.(wk_state) w.(wk_monitor) w.(wk_reports) b w.(wk_persisted)
    w.(wk_lastModelPath) w.(wk_lastLlamaParams) w.(wk_models) w.(wk_modelsDir) w.(wk_managerHTTPURL)
    w.(wk_privateKey) w.(wk_fingerprint) w.(wk_port).
Definition set_persisted (p : Persisted) (w : Worker) : Worker :=
  Build_Worker w.(wk_conn) w.(wk_state) w.(wk_monitor) w.(wk_reports) w.(wk_backend) p
    w.(wk_lastModelPath) w.(wk_lastLlamaParams) w.(wk_models) w.(wk_modelsDir) w.(wk_managerHTTPURL)
    w.(wk_privateKey) w.(wk_fingerprint) w.(wk_port).
Definition set_lastModel (path : string) (p : LlamaParams) (w : Worker) : Worker :=
  Build_Worker w.(wk_conn) w.(wk_state) w.(wk_monitor) w.(wk_reports) w.(wk_backend) w.(wk_persisted)
    path p w.(wk_models) w.(wk_modelsDir) w.(wk_managerHTTPURL)
    w.(wk_privateKey) w.(wk_fingerprint) w.(wk_port).
Definition set_models (m : gmap string string) (w : Worker) : Worker :=
  Build_Worker w.(wk_conn) w.(wk_state) w.(wk_monitor) w.(wk_reports) w.(wk_backend) w.(wk_persisted)
    w.(wk_lastModelPath) w.(wk_lastLlamaParams) m w.(wk_modelsDir) w.(wk_managerHTTPURL)
    w.(wk_privateKey) w.(wk_fingerprint) w.(wk_port).

(** Does this write on the open WebSocket succeed, given what was sent. *)
Class ClientSocket := { send_ok : list WorkerMessage -> WorkerMessage -> bool }.

Definition with_sent (l : list WorkerMessage) (c : Connection) : Connection :=
  {| co_connected := c.(co_connected); co_llmHash := c.(co_llmHash); co_backendHash := c.(co_backendHash);
     co_backendVersion := c.(co_backendVersion); co_gpuAvg := c.(co_gpuAvg); co_sent := l |}.
Definition with_llmHash (h : string) (c : Connection) : Connection :=
  {| co_connected := c.(co_connected); co_llmHash := h; co_backendHash := c.(co_backendHash);
     co_backendVersion := c.(co_backendVersion); co_gpuAvg := c.(co_gpuAvg); co_sent := c.(co_sent) |}.
Definition with_backend (h v : string) (c : Connection) : Connection :=
  {| co_connected := c.(co_connected); co_llmHash := c.(co_llmHash); co_backendHash := h;
     co_backendVersion := v; co_gpuAvg := c.(co_gpuAvg); co_sent := c.(co_sent) |}.

Section worker.
Context `{Crypto, JsonText, ClientSocket, Os}.

(** ** Sending *)

Definition Send (m : WorkerMessage) : GoM Worker bool := fun w =>
  if w.(wk_conn).(co_connected) && send_ok w.(wk_conn).(co_sent) m
  then (set_conn (with_sent (w.(wk_conn).(co_sent) ++ [m]) w.(wk_conn)) w, Ret true)
  else (w, Ret false).

Definition SendStatus (state : string) : GoM Worker bool :=
  c ← gets wk_conn;
  Send (WStatus {| st_Type := TypeStatus; st_State := state; st_LLMHash := c.(co_llmHash);
                   st_BackendHash := c.(co_backendHash); st_BackendVersion := c.(co_backendVersion);
                   st_GPUAvg := c.(co_gpuAvg) |}).
Definition SendLLMHashReport (hash : string) : GoM Worker bool :=
  Send (WLLMHashReport {| hr_Type := TypeLLMHashReport; hr_LLMHash := hash |}).
Definition send_error (id msg : string) : GoM Worker bool :=
  Send (WError {| er_Type := TypeError; er_ID := id; er_Error := msg |}).

(** The result is marshalled with its raw output: for one that is no JSON text
    this fails, and no message is sent. *)
Definition send_result (id raw : string) (processingTimeMs : Z) (signature : string) : GoM Worker bool :=
  fingerprint ← gets wk_fingerprint;
  match json_parse raw with
  | None => mret false
  | Some output =>
      Send (WResult {| rs_Type := TypeResult; rs_ID := id; rs_Fingerprint := fingerprint;
                       rs_Output := Some output; rs_ProcessingTimeMs := processingTimeMs;
                       rs_Signature := signature |})
  end.

(** ** Processing a work unit *)

Definition on_monitor {A} (m : GoM GpuMonitor.Monitor A) : GoM Worker A := zoom wk_monitor set_monitor m.
Definition on_snapshot (f : Snapshot -> Snapshot) : GoM Worker unit :=
  modify (fun w => set_snapshot (f w.(wk_state)) w).
Definition report (msg : string) : GoM Worker unit := modify (fun w => set_reports (w.(wk_reports) ++ [msg]) w).

Fixpoint detect_in (messages : list ChatMessage) : string :=
  match messages with
  | [] => ""
  | msg :: messages =>
      if Contains msg.(cm_Content) TriggerPause then TriggerPause
      else if Contains msg.(cm_Content) TriggerPanic then TriggerPanic
      else if Contains msg.(cm_Content) TriggerError then TriggerError
      else detect_in messages
  end.
Definition detectTrigger (wu : WorkUnit) : string := detect_in wu.(wu_Messages).

(** [fmt.Sprintf("%s:%s:%d", id, output, processingTimeMs)] *)
Definition canonicalSignaturePayload (id output : string) (processingTimeMs : Z) : string :=
  id +:+ ":" +:+ output +:+ ":" +:+ pretty processingTimeMs.

Definition Sign (privateKey data : string) : string := hex_EncodeToString (ed25519_sign privateKey data).

(** The local llama-server (llm/client.go): what is asked, and how its answer
    reads. The error texts are the HTTP client's. *)
Definition llm_request (wu : WorkUnit) : ChatCompletionRequest :=
  {| cr_Model := wu.(wu_Model); cr_Messages := wu.(wu_Messages);
     cr_Temperature := wu.(wu_Params).(wp_Temperature); cr_MaxTokens := wu.(wu_Params).(wp_MaxTokens);
     cr_ResponseFormat := wu.(wu_Params).(wp_ResponseFormat) |}.

Inductive llm_response := RequestFailed (err : string) | ReadFailed (err : string) | Answered (status : Z) (respBody : string).
Definition Complete (r : llm_response) : string + string :=
  match r with
  | RequestFailed err => inr ("llama-server request failed: " +:+ err)
  | ReadFailed err => inr ("read response: " +:+ err)
  | Answered status respBody =>
      if status != 200%Z then inr ("llama-server returned " +:+ pretty status +:+ ": " +:+ respBody)
      else inl respBody
  end.

Definition set_processing_flags (v : bool) : GoM Worker unit :=
  on_snapshot (ClientState.SetProcessing v) ;; on_monitor (GpuMonitor.SetProcessing v).
Definition done_available : GoM Worker unit := set_processing_flags false ;; SendStatus "available" ;; skip.

Definition pause_output (stateStr : string) : json :=
  JObj [("choices", JArr [JObj [("finish_reason", JStr "stop"); ("index", JNum (NInt 0));
     ("message", JObj [("content", JStr ("pause toggled: " +:+ stateStr)); ("role", JStr "assistant")])]])].

Definition handle_trigger (wu : WorkUnit) (trigger : string) : GoM Worker unit :=
  if trigger == TriggerPause then
    wasPaused ← gets (fun w => w.(wk_state).(s_paused));
    let newState := negb wasPaused in
    on_snapshot (SetPaused newState) ;;
    let stateStr := if newState then "paused" else "available" in
    SendStatus stateStr ;;
    key ← gets wk_privateKey;
    let output := json_text (pause_output stateStr) in
    send_result wu.(wu_ID) output 0 (Sign key (canonicalSignaturePayload wu.(wu_ID) output 0)) ;;
    set_processing_flags false
  else if trigger == TriggerPanic then panic "intentional panic triggered by test payload"
  else
    report "intentional error triggered by test payload" ;;
    send_error wu.(wu_ID) "intentional error triggered by test payload" ;;
    done_available.

(** [resp] and [ms]: the server's answer and the time it took; [deadline] and
    [ticks]: the wait for the GPU to cool down. *)
Definition infer (wu : WorkUnit) (resp : llm_response) (ms deadline : Z) (ticks : list (option Z * Z))
    : GoM Worker unit :=
  match Complete resp with
  | inr err =>
      report err ;;
      send_error wu.(wu_ID) err ;;
      done_available
  | inl output =>
      key ← gets wk_privateKey;
      let signature := Sign key (canonicalSignaturePayload wu.(wu_ID) output ms) in
      sent ← send_result wu.(wu_ID) output ms signature;
      if negb sent then report "failed to send result" ;; done_available
      else
        on_snapshot IncrementUnits ;;
        on_monitor (WaitForBaseline deadline ticks) ;;
        done_available
  end.

Definition process_body (accepted : bool) (wu : WorkUnit) (resp : llm_response) (ms deadline : Z)
    (ticks : list (option Z * Z)) : GoM Worker unit :=
  paused ← gets (fun w => w.(wk_state).(s_paused));
  if paused && (detectTrigger wu != TriggerPause)
  then send_error wu.(wu_ID) "worker paused by user" ;; skip
  else if negb accepted
  then send_error wu.(wu_ID) "worker consent revoked" ;; skip
  else
  st ← on_monitor GetState;
  if st == StateBusy
  then send_error wu.(wu_ID) "worker idle: GPU contention detected" ;; skip
  else
  set_processing_flags true ;;
  SendStatus "processing" ;;
  let trigger := detectTrigger wu in
  if trigger != "" then handle_trigger wu trigger
  else infer wu resp ms deadline ticks.

(** The deferred [recover]. *)
Definition recovering (wu : WorkUnit) (body : GoM Worker unit) : GoM Worker unit := fun w =>
  match body w with
  | (w', Panic r) =>
      let errMsg := "panic in worker: " +:+ r in
      (report errMsg ;; send_error wu.(wu_ID) errMsg ;; done_available) w'
  | out => out
  end.

Definition process (accepted : bool) (wu : WorkUnit) (resp : llm_response) (ms deadline : Z)
    (ticks : list (option Z * Z)) : GoM Worker unit :=
  recovering wu (process_body accepted wu resp ms deadline ticks).

Definition handleStateChange (change : StateChange) : GoM Worker unit :=
  SendStatus (State_String change.(sc_To)) ;; skip.

(** ** Retries *)

(** The waits of [retryWithBackoff] before a success or the cancellation, and
    the value: each attempt is [Some] for success; [cancelled] tells whether
    the context is done after the failed attempt or the wait. *)
Fixpoint retryWithBackoff {A} (delay maxDelay : Z) (attempts : list (option A * bool)) : list Z * option A :=
  match attempts with
  | [] => ([], None)
  | (Some v, _) :: _ => ([], Some v)
  | (None, true) :: _ => ([], None)
  | (None, false) :: attempts =>
      let delay' := if bool_decide (delay < maxDelay)%Z then Z.min (delay * 2) maxDelay else delay in
      let '(waits, v) := retryWithBackoff delay' maxDelay attempts in (delay :: waits, v)
  end.

(** ** Updates *)

(** How an attempt goes once it is made: no 200 answer, or no temporary file; a
    copy or a rename that fails, and what [remains] of the temporary file ([None]: it
    is removed, as it is unless the removal fails); or a file that was copied, whose
    content is whatever the temporary file held then, and renamed. *)
Inductive fetched := NotFetched | BrokenOff (remains : option string) | Whole (content : string).

(** [os.Create] with what follows it, on a file that was not there. *)
Definition temporary (destPath : string) : string := destPath +:+ ".tmp".
Definition leave_temporary (destPath : string) (remains : option string) (w : Worker) : Worker :=
  set_models (partial_alter (fun _ => remains) (temporary destPath) w.(wk_models)) w.
Definition rename_temporary (destPath content : string) (w : Worker) : Worker :=
  set_models (<[destPath := content]> (delete (temporary destPath) w.(wk_models))) w.

(** One attempt at a download; a file that is already there is not fetched. *)
Definition downloadModel (filename : string) (answer : fetched) : GoM Worker (option string) :=
  w ← gets id;
  let destPath := w.(wk_modelsDir) +:+ "/" +:+ filename in
  match w.(wk_models) !! destPath with
  | Some _ => mret (Some destPath)
  | None =>
      match answer with
      | NotFetched => mret None
      | BrokenOff remains => modify (leave_temporary destPath remains) ;; mret None
      | Whole content => modify (rename_temporary destPath content) ;; mret (Some destPath)
      end
  end.

(** The attempts until one succeeds; [None]: cancelled first. *)
Fixpoint download_attempts (filename : string) (answers : list fetched) : GoM Worker (option string) :=
  match answers with
  | [] => mret None
  | answer :: answers =>
      p ← downloadModel filename answer;
      match p with Some path => mret (Some path) | None => download_attempts filename answers end
  end.

Definition llama_params (mu : ModelUpdate) : LlamaParams :=
  {| lp_ContextSize := mu.(mu_ContextSize); lp_ParallelSlots := mu.(mu_ParallelSlots);
     lp_GPULayers := mu.(mu_GPULayers); lp_EndpointType := mu.(mu_EndpointType);
     lp_FlashAttention := mu.(mu_FlashAttention) |}.

Definition on_llmHash (h : string) : GoM Worker unit :=
  modify (fun w => set_conn (with_llmHash h w.(wk_conn)) w).

(** [restartLLM], as wired in the client's main: a start on the worker's port *)
Definition restartLLM (modelPath : string) (p : LlamaParams) : GoM Worker bool :=
  w ← gets id;
  match w.(wk_backend) with
  | None => mret true
  | Some b =>
      let '(b', r) := Start w.(wk_port) modelPath p b in
      modify (set_backend (Some b')) ;;
      mret (match r with Ret ok => ok | _ => false end)
  end.

Definition slice_hash (s : string) : GoM Worker unit :=
  match slice_to s 16 with Some _ => skip | None => panic "slice bounds out of range" end.

(** Without a place to download from, the manager's hash is taken for the worker's. *)
Definition no_download_config (mu : ModelUpdate) (w : Worker) : bool :=
  (mu.(mu_Filename) == "") || (w.(wk_managerHTTPURL) == "") || (w.(wk_modelsDir) == "").
Definition trust_update (mu : ModelUpdate) : GoM Worker unit :=
  on_llmHash mu.(mu_LLMHash) ;;
  SendLLMHashReport mu.(mu_LLMHash) ;;
  SendStatus "available" ;; skip.
(** What follows the download: the file is verified and put to use. *)
Definition install_model (mu : ModelUpdate) (modelPath : string) : GoM Worker unit :=
  models ← gets wk_models;
  match HashFile (models !! modelPath) with
  | None => report "hash" ;; SendStatus "available" ;; skip
  | Some fileHash =>
      if (mu.(mu_ModelFileHash) != "") && (fileHash != mu.(mu_ModelFileHash)) then
        slice_hash mu.(mu_ModelFileHash) ;;
        report ("model file hash mismatch: expected " +:+ take_str 16 mu.(mu_ModelFileHash) +:+
                ", got " +:+ take_str 16 fileHash) ;;
        SendStatus "available" ;; skip
      else
        let newHash := ComputeLLMHash mu.(mu_Role) fileHash in
        on_llmHash newHash ;;
        SendLLMHashReport newHash ;;
        let p := llama_params mu in
        modify (set_lastModel modelPath p) ;;
        modify (fun w => set_persisted (SetModel modelPath p mu.(mu_Role) w.(wk_persisted)) w) ;;
        restartLLM modelPath p ;;
        SendStatus "available" ;; skip
  end.
(** Runs in a goroutine without a [recover]. *)
Definition applyModelUpdate (mu : ModelUpdate) (answers : list fetched) : GoM Worker unit :=
  w ← gets id;
  if no_download_config mu w then trust_update mu
  else
  path ← download_attempts mu.(mu_Filename) answers;
  match path with
  | None => skip
  | Some modelPath => install_model mu modelPath
  end.

Definition handleBackendUpdate (bu : BackendUpdate) : GoM Worker unit :=
  w ← gets id;
  match w.(wk_backend) with
  | None => skip
  | Some b =>
      SendStatus "updating" ;;
      let '(b', r) := Apply bu b in
      modify (set_backend (Some b')) ;;
      match r with
      | Ret (inl updated) =>
          when updated (
            modify (fun w => set_conn (with_backend b'.(bm_currentHash) bu.(bk_Version) w.(wk_conn)) w) ;;
            modify (fun w => set_persisted (SetPersistedBackendVersion bu.(bk_Version) w.(wk_persisted)) w) ;;
            slice_hash b'.(bm_currentHash) ;;
            let '(b'', r) := Restart b' in
            modify (set_backend (Some b'')) ;;
            match r with
            | Ret true => skip
            | _ =>
                w ← gets id;
                when (w.(wk_lastModelPath) != "") (restartLLM w.(wk_lastModelPath) w.(wk_lastLlamaParams) ;; skip)
            end) ;;
          SendStatus "available" ;; skip
      | _ => report "backend update failed" ;; SendStatus "available" ;; skip
      end
  end.
End worker.

(** ** Replies *)

Section replies.
Context `{Crypto, JsonText, ClientSocket, Os}.

Definition is_reply (id : string) (m : WorkerMessage) : bool :=
  match m with
  | WResult r => r.(rs_ID) == id
  | WError e => e.(er_ID) == id
  | _ => false
  end.
Definition replies (id : string) (l : list WorkerMessage) : nat := length (List.filter (is_reply id) l).

Lemma replies_app id l1 l2 : replies id (l1 ++ l2) = replies id l1 + replies id l2.
Proof. unfold replies. by rewrite List.filter_app, length_app. Qed.

(** On an open connection [m] returns a value in [P], stays connected, and
    sends exactly [n] replies to [id]. *)
Definition replying (id : string) (n : nat) {A} (P : A -> Prop) (m : GoM Worker A) : Prop :=
  forall w, w.(wk_conn).(co_connected) = true ->
  exists a new, result m w = Ret a /\ P a /\ (run m w).(wk_conn).(co_connected) = true /\
    (run m w).(wk_conn).(co_sent) = w.(wk_conn).(co_sent) ++ new /\ replies id new = n.

Lemma replying_bind id n1 n2 n {A B} (P : A -> Prop) (Q : B -> Prop) (m : GoM Worker A) k :
  replying id n1 P m -> (forall a, P a -> replying id n2 Q (k a)) -> n = n1 + n2 -> replying id n Q (m ≫= k).
Proof.
  intros Hm Hk -> w Hw. destruct (Hm w Hw) as (a & l1 & Er & Ha & Hw1 & El1 & En1).
  destruct (Hk a Ha (run m w) Hw1) as (b & l2 & Er2 & Hb & Hw2 & El2 & En2).
  unfold run, result, mbind, GoM_bind in *. destruct (m w) as [w1 r]. cbn in *. subst r.
  exists b, (l1 ++ l2). split_and!; try done; [by rewrite El2, El1, app_assoc|by rewrite replies_app, En1, En2].
Qed.
Lemma replying_quiet id {A} (P : A -> Prop) (m : GoM Worker A) :
  (forall w, exists a, result m w = Ret a /\ P a) -> (forall w, (run m w).(wk_conn) = w.(wk_conn)) -> replying id 0 P m.
Proof.
  intros Hr Hc w Hw. destruct (Hr w) as (a & Er & Ha). exists a, []. rewrite Hc, app_nil_r. by split_and!.
Qed.
Lemma replying_ret id {A} (P : A -> Prop) a : P a -> replying id 0 P (mret a).
Proof. intros Ha. apply replying_quiet; [|done]. intros w. by exists a. Qed.
Lemma replying_weaken id n {A} (P Q : A -> Prop) m : (forall a, P a -> Q a) -> replying id n P m -> replying id n Q m.
Proof.
  intros HPQ Hm w Hw. destruct (Hm w Hw) as (a & l & ? & ? & ? & ? & ?). exists a, l. split_and!; auto.
Qed.
Lemma replying_any id n {A} (P : A -> Prop) m : replying id n P m -> replying id n (fun _ => True) m.
Proof. by apply replying_weaken. Qed.

Context (Hsend : forall l m, send_ok l m = true).

Lemma replying_Send id m : replying id (if is_reply id m then 1 else 0) (eq true) (Send m).
Proof.
  intros w Hw. exists true, [m]. unfold result, run, Send. rewrite Hw, Hsend. cbn.
  split_and!; try done. unfold replies. cbn. by destruct (is_reply id m).
Qed.
Lemma replying_SendStatus id s : replying id 0 (eq true) (SendStatus s).
Proof.
  eapply (replying_bind _ 0 0); [by apply (replying_quiet _ (fun _ => True)); [intros w; eexists|]| |done].
  intros c _. apply (replying_Send id (WStatus _)).
Qed.
Lemma replying_send_error id msg : replying id 1 (eq true) (send_error id msg).
Proof. pose proof (replying_Send id (WError (Build_Error TypeError id msg))) as Hr. cbn in Hr. by rewrite bool_decide_eq_true_2 in Hr. Qed.
Lemma replying_send_result id raw ms sg : is_Some (json_parse raw) -> replying id 1 (eq true) (send_result id raw ms sg).
Proof.
  intros [j Hj]. unfold send_result. eapply (replying_bind _ 0 1); [by apply (replying_quiet _ (fun _ => True)); [intros w; eexists|]| |done].
  intros fp _. rewrite Hj. pose proof (replying_Send id (WResult (Build_Result TypeResult id fp (Some j) ms sg))) as Hr.
  cbn in Hr. by rewrite bool_decide_eq_true_2 in Hr.
Qed.
Lemma replying_modify id f : (forall w, (f w).(wk_conn) = w.(wk_conn)) -> replying id 0 (fun _ => True) (modify f).
Proof. intros Hf. apply replying_quiet; [by eexists|done]. Qed.
Lemma replying_gets id {A} (f : Worker -> A) : replying id 0 (fun _ => True) (gets f).
Proof. apply replying_quiet; [by eexists|done]. Qed.
Lemma replying_on_monitor id {A} (m : GoM GpuMonitor.Monitor A) : returns m -> replying id 0 (fun _ => True) (on_monitor m).
Proof.
  intros Hm. apply replying_quiet.
  - intros w. destruct (Hm w.(wk_monitor)) as [a Ha]. exists a. split; [|done].
    unfold result, on_monitor, zoom in *. by destruct (m _).
  - intros w. unfold run, on_monitor, zoom. by destruct (m _).
Qed.
End replies.

(** Follows the code, adding up the replies. *)
Ltac replying_step :=
  lazymatch goal with
  | |- replying _ _ _ (mret _) => by apply replying_ret
  | |- replying _ _ _ skip => by apply replying_ret
  | |- replying _ _ _ (gets _) => apply replying_gets
  | |- replying _ _ _ (modify _) => by apply replying_modify
  | |- replying _ _ _ (on_snapshot _) => by apply replying_modify
  | |- replying _ _ _ (report _) => by apply replying_modify
  | |- replying _ _ _ (SendStatus _) => eapply replying_any; by apply replying_SendStatus
  | |- replying _ _ _ (send_error _ _) => eapply replying_any; by apply replying_send_error
  end.
Ltac replying_seq n1 n2 := apply (replying_bind _ n1 n2 _ (fun _ => True)); [|intros ? _|done].

Section process_replies.
Context `{Crypto, JsonText, ClientSocket, Os} (Hsend : forall l m, send_ok l m = true).

Lemma WaitForBaseline_returns deadline ticks : returns (WaitForBaseline deadline ticks).
Proof. induction ticks as [|[p n] ticks IH]; cbn [WaitForBaseline]; unfold GetUtilization; returns_tac. Qed.

Lemma replying_flags id v : replying id 0 (fun _ => True) (set_processing_flags v).
Proof. replying_seq 0 0; [replying_step|]. apply replying_on_monitor. unfold GpuMonitor.SetProcessing. returns_tac. Qed.
Lemma replying_done id : replying id 0 (fun _ => True) done_available.
Proof. replying_seq 0 0; [apply replying_flags|]. replying_seq 0 0; replying_step. Qed.

Lemma replying_infer wu resp ms deadline ticks :
  (forall raw, Complete resp = inl raw -> is_Some (json_parse raw)) ->
  replying wu.(wu_ID) 1 (fun _ => True) (infer wu resp ms deadline ticks).
Proof.
  intros Hj. unfold infer. destruct (Complete resp) as [raw|err].
  - replying_seq 0 1; [replying_step|]. cbv zeta.
    eapply (replying_bind _ 1 0 _ (eq true)); [by apply replying_send_result, Hj| |done]. intros ? <-. cbn [negb].
    replying_seq 0 0; [replying_step|]. replying_seq 0 0; [apply replying_on_monitor, WaitForBaseline_returns|].
    apply replying_done.
  - replying_seq 0 1; [replying_step|]. replying_seq 1 0; [replying_step|]. apply replying_done.
Qed.

(** The deferred recovery changes nothing for code that returns, and answers
    for code that panics. *)
Lemma replying_recovering wu n m : replying wu.(wu_ID) n (fun _ => True) m ->
  replying wu.(wu_ID) n (fun _ => True) (recovering wu m).
Proof.
  intros Hm w Hw. destruct (Hm w Hw) as (a & new & Ea & Hrest). exists a, new.
  unfold result, run, recovering in *. destruct (m w) as [w' r]. cbn in Ea. by subst r.
Qed.
Lemma replying_recovering_bind wu n1 n2 n {A} (m : GoM Worker A) k :
  replying wu.(wu_ID) n1 (fun _ => True) m ->
  (forall a, replying wu.(wu_ID) n2 (fun _ => True) (recovering wu (k a))) -> n = n1 + n2 ->
  replying wu.(wu_ID) n (fun _ => True) (recovering wu (m ≫= k)).
Proof.
  intros Hm Hk ->.
  assert (Hb : replying wu.(wu_ID) (n1 + n2) (fun _ => True) (m ≫= (fun a => recovering wu (k a))))
    by (by eapply replying_bind).
  intros w Hw. destruct (Hb w Hw) as (a & new & Hrest). exists a, new.
  destruct (Hm w Hw) as (b & _ & Er & _). unfold result, run, recovering, mbind, GoM_bind in *.
  destruct (m w) as [w' r]. cbn in Er. subst r. exact Hrest.
Qed.
Lemma replying_recovered wu r : replying wu.(wu_ID) 1 (fun _ => True) (recovering wu (panic r)).
Proof.
  assert (Hb : replying wu.(wu_ID) 1 (fun _ => True) (report ("panic in worker: " +:+ r) ;;
    send_error wu.(wu_ID) ("panic in worker: " +:+ r) ;; done_available)).
  { replying_seq 0 1; [replying_step|]. replying_seq 1 0; [replying_step|]. apply replying_done. }
  intros w Hw. exact (Hb w Hw).
Qed.

Lemma replying_handle_trigger wu trigger :
  (forall s, is_Some (json_parse (json_text (pause_output s)))) ->
  replying wu.(wu_ID) 1 (fun _ => True) (recovering wu (handle_trigger wu trigger)).
Proof.
  intros Hp. unfold handle_trigger. case_bool_decide; [|case_bool_decide].
  - apply replying_recovering. replying_seq 0 1; [replying_step|]. cbv zeta.
    replying_seq 0 1; [replying_step|]. replying_seq 0 1; [replying_step|]. replying_seq 0 1; [replying_step|].
    replying_seq 1 0; [eapply replying_any; by apply replying_send_result|]. apply replying_flags.
  - apply replying_recovered.
  - apply replying_recovering. replying_seq 0 1; [replying_step|]. replying_seq 1 0; [replying_step|]. apply replying_done.
Qed.

Lemma replying_process accepted wu resp ms deadline ticks :
  (forall raw, Complete resp = inl raw -> is_Some (json_parse raw)) ->
  (forall s, is_Some (json_parse (json_text (pause_output s)))) ->
  replying wu.(wu_ID) 1 (fun _ => True) (process accepted wu resp ms deadline ticks).
Proof.
  intros Hj Hp. unfold process, process_body.
  apply (replying_recovering_bind _ 0 1); [replying_step|intros paused|done].
  destruct (_ && _); [apply replying_recovering; replying_seq 1 0; replying_step|].
  destruct (negb accepted); [apply replying_recovering; replying_seq 1 0; replying_step|].
  apply (replying_recovering_bind _ 0 1); [apply replying_on_monitor; unfold GetState; returns_tac|intros st|done].
  case_bool_decide; [apply replying_recovering; replying_seq 1 0; replying_step|].
  apply (replying_recovering_bind _ 0 1); [apply replying_flags|intros _|done].
  apply (replying_recovering_bind _ 0 1); [replying_step|intros _|done]. cbv zeta.
  destruct (detectTrigger wu != ""); [by apply replying_handle_trigger|].
  by apply replying_recovering, replying_infer.
Qed.
End process_replies.

(** ** The processing flags *)

Section flags.
Context `{Crypto, JsonText, ClientSocket, Os}.

Definition flags (w : Worker) : bool * bool := (w.(wk_state).(s_processing), w.(wk_monitor).(m_processing)).
Definition same_flags (w w' : Worker) : Prop := flags w' = flags w.
#[export] Instance same_flags_preorder : PreOrder same_flags.
Proof. split; [done|]. unfold same_flags. intros x y z; congruence. Qed.

Lemma flags_Send m : keeps same_flags (Send m).
Proof. intros w. unfold run, Send. by case_match. Qed.
Hint Resolve flags_Send : keeps.
Lemma flags_SendStatus s : keeps same_flags (SendStatus s).
Proof. unfold SendStatus. keeps_tac. Qed.
Lemma flags_report s : keeps same_flags (report s).
Proof. by apply keeps_modify. Qed.
Lemma flags_send_result id raw ms sg : keeps same_flags (send_result id raw ms sg).
Proof. unfold send_result. keeps_tac. Qed.
Lemma flags_on_snapshot f : (forall s, (f s).(s_processing) = s.(s_processing)) -> keeps same_flags (on_snapshot f).
Proof. intros Hf. apply keeps_modify. intros w. unfold same_flags, flags. cbn. by rewrite Hf. Qed.
Lemma flags_Wait deadline ticks : keeps same_flags (on_monitor (WaitForBaseline deadline ticks)).
Proof.
  apply (keeps_zoom _ utilization_only); [|apply WaitForBaseline_keeps].
  intros w m [u ->]. done.
Qed.

(** [m] returns and leaves both flags down. *)
Definition clears {A} (m : GoM Worker A) : Prop := forall w, exists a, result m w = Ret a /\ flags (run m w) = (false, false).

Lemma clears_bind {A B} (m : GoM Worker A) (k : A -> GoM Worker B) :
  returns m -> (forall a, clears (k a)) -> clears (m ≫= k).
Proof.
  intros Hm Hk w. destruct (Hm w) as [a Ha]. unfold result, run, mbind, GoM_bind in *.
  destruct (m w) as [w' r]. cbn in Ha. subst r. apply Hk.
Qed.
Lemma clears_then {A B} (m : GoM Worker A) (k : A -> GoM Worker B) :
  clears m -> (forall a, keeps same_flags (k a)) -> (forall a, returns (k a)) -> clears (m ≫= k).
Proof.
  intros Hm Hk Hr w. destruct (Hm w) as (a & Ha & Hf). unfold result, run, mbind, GoM_bind in *.
  destruct (m w) as [w' r]. cbn in Ha, Hf. subst r. destruct (Hr a w') as [b Hb]. exists b. split; [done|].
  rewrite <- Hf. apply (Hk a w').
Qed.

Lemma returns_Send m : returns (Send m).
Proof. intros w. unfold result, Send. by case_match; eexists. Qed.
Hint Resolve returns_Send : returns.
Lemma returns_SendStatus s : returns (SendStatus s).
Proof. unfold SendStatus. returns_tac. Qed.
Lemma returns_send_result id raw ms sg : returns (send_result id raw ms sg).
Proof. unfold send_result. returns_tac. Qed.
Lemma returns_on_monitor {A} (m : GoM GpuMonitor.Monitor A) : returns m -> returns (on_monitor m).
Proof. intros Hm w. destruct (Hm w.(wk_monitor)) as [a Ha]. exists a. unfold result, on_monitor, zoom in *. by destruct (m _). Qed.
Lemma returns_set_flags v : returns (set_processing_flags v).
Proof. unfold set_processing_flags, on_snapshot. returns_tac. apply returns_on_monitor. unfold GpuMonitor.SetProcessing. returns_tac. Qed.
Hint Resolve returns_SendStatus returns_send_result returns_set_flags : returns.

Lemma clears_set_flags : clears (set_processing_flags false).
Proof. intros w. by exists tt. Qed.
Lemma clears_done : clears done_available.
Proof.
  unfold done_available. apply clears_then; [apply clears_set_flags| |]; intros _.
  - apply keeps_bind; [apply _|apply flags_SendStatus|]. intros _. by apply keeps_ret, _.
  - returns_tac.
Qed.

Lemma returns_report s : returns (report s).
Proof. apply returns_modify. Qed.
Lemma returns_send_error i s : returns (send_error i s).
Proof. apply returns_Send. Qed.
Hint Resolve returns_report returns_send_error : returns.

Lemma clears_infer wu resp ms deadline ticks : clears (infer wu resp ms deadline ticks).
Proof.
  unfold infer. destruct (Complete resp) as [raw|err].
  - apply clears_bind; [apply returns_gets|]. intros key. cbv zeta.
    apply clears_bind; [apply returns_send_result|]. intros [|]; cbn [negb].
    + apply clears_bind; [apply returns_modify|]. intros _.
      apply clears_bind; [apply returns_on_monitor, WaitForBaseline_returns|]. intros _. apply clears_done.
    + apply clears_bind; [apply returns_report|]. intros _. apply clears_done.
  - apply clears_bind; [apply returns_report|]. intros _.
    apply clears_bind; [apply returns_send_error|]. intros _. apply clears_done.
Qed.

Lemma clears_recovering wu m : clears m -> clears (recovering wu m).
Proof.
  intros Hm w. destruct (Hm w) as (a & Ha & Hf). exists a. unfold result, run, recovering in *.
  destruct (m w) as [w' r]. cbn in Ha. by subst r.
Qed.
Lemma clears_recovering_bind wu {A} (m : GoM Worker A) k :
  returns m -> (forall a, clears (recovering wu (k a))) -> clears (recovering wu (m ≫= k)).
Proof.
  intros Hm Hk w. destruct (Hm w) as [a Ha]. destruct (Hk a (run m w)) as (b & Hb & Hf). exists b.
  unfold result, run, recovering, mbind, GoM_bind in *. destruct (m w) as [w' r]. cbn in Ha. by subst r.
Qed.
Lemma clears_handle_trigger wu trigger : clears (recovering wu (handle_trigger wu trigger)).
Proof.
  unfold handle_trigger. case_bool_decide; [|case_bool_decide].
  - apply clears_recovering. do 5 (apply clears_bind; [first [apply returns_gets|apply returns_modify
      |apply returns_SendStatus|apply returns_send_result]|intros ?]; cbv zeta). apply clears_set_flags.
  - intros w. destruct (clears_bind (report ("panic in worker: " +:+ "intentional panic triggered by test payload"))
      (fun _ => send_error wu.(wu_ID) ("panic in worker: " +:+ "intentional panic triggered by test payload") ;; done_available)
      (returns_report _)) with w as (a & Ha); [|by exists a].
    intros _. apply clears_bind; [apply returns_send_error|]. intros _. apply clears_done.
  - apply clears_recovering. apply clears_bind; [apply returns_report|]. intros _.
    apply clears_bind; [apply returns_send_error|]. intros _. apply clears_done.
Qed.

(** Code that starts with both flags down and ends with both down. *)
Definition settles (m : GoM Worker unit) : Prop := forall w, flags w = (false, false) ->
  result m w = Ret tt /\ flags (run m w) = (false, false).

Lemma settles_clears m : clears m -> settles m.
Proof. intros Hm w _. by destruct (Hm w) as ([] & Ha & Hf). Qed.
Lemma settles_refusal wu m : returns m -> keeps same_flags m -> settles (recovering wu m).
Proof.
  intros Hr Hk w Hw. destruct (Hr w) as [[] Ha]. specialize (Hk w).
  unfold result, run, recovering, same_flags in *. destruct (m w) as [w' r]. cbn in *. subst r. cbn. by rewrite Hk.
Qed.
Lemma settles_recovering_bind wu {A} (m : GoM Worker A) k :
  returns m -> keeps same_flags m -> (forall a, settles (recovering wu (k a))) -> settles (recovering wu (m ≫= k)).
Proof.
  intros Hr Hk Hs w Hw. destruct (Hr w) as [a Ha]. specialize (Hk w). specialize (Hs a (run m w)).
  unfold result, run, recovering, same_flags, mbind, GoM_bind in *. destruct (m w) as [w' r]. cbn in *. subst r.
  apply Hs. by rewrite Hk.
Qed.
Lemma settles_send_error wu msg : settles (recovering wu (send_error wu.(wu_ID) msg ;; skip)).
Proof. apply settles_refusal; [returns_tac|unfold send_error; keeps_tac]. Qed.

Lemma settles_process accepted wu resp ms deadline ticks : settles (process accepted wu resp ms deadline ticks).
Proof.
  unfold process, process_body.
  apply settles_recovering_bind; [apply returns_gets|apply keeps_gets; apply _|]. intros paused.
  destruct (_ && _); [apply settles_send_error|]. destruct (negb accepted); [apply settles_send_error|].
  apply settles_recovering_bind; [apply returns_on_monitor; unfold GetState; returns_tac| |].
  { apply (keeps_zoom _ (=)); [intros w m <-; by destruct w|]. unfold GetState. keeps_tac. }
  intros st. case_bool_decide; [apply settles_send_error|].
  apply settles_clears, clears_recovering_bind; [apply returns_set_flags|]. intros _.
  apply clears_recovering_bind; [apply returns_SendStatus|]. intros _. cbv zeta.
  destruct (detectTrigger wu != ""); [apply clears_handle_trigger|apply clears_recovering, clears_infer].
Qed.
End flags.

(** ** What a unit comes to *)

Section units.
Context `{Crypto, JsonText, ClientSocket, Os}.

(** On an open connection whose writes succeed, the worker's [process]
    always returns and sends exactly one reply (a result or an error) with the
    unit's id, on every path: refused, test trigger, recovered panic, failed
    inference or success. The hypotheses: the body of a 200 answer of the
    llama-server is a JSON text, and so is the acknowledgement of a pause. *)
Theorem one_reply_per_unit accepted wu resp ms deadline ticks w :
  (forall l m, send_ok l m = true) -> w.(wk_conn).(co_connected) = true ->
  (forall raw, Complete resp = inl raw -> is_Some (json_parse raw)) ->
  (forall s, is_Some (json_parse (json_text (pause_output s)))) ->
  let m := process accepted wu resp ms deadline ticks in
  result m w = Ret tt /\
  exists new, (run m w).(wk_conn).(co_sent) = w.(wk_conn).(co_sent) ++ new /\
    length (List.filter (is_reply wu.(wu_ID)) new) = 1.
Proof.
  intros Hs Hc Hj Hp. cbv zeta.
  destruct (replying_process Hs accepted wu resp ms deadline ticks Hj Hp w Hc) as ([] & new & Er & _ & _ & En & Hn).
  split; [done|]. by exists new.
Qed.

(** A unit starts with both processing flags down (the tracker's and the
    GPU monitor's) and ends with both down, whatever the llama-server answers,
    whichever writes fail, and also when its processing panics: the worker is
    never left marked as processing. *)
Theorem processing_flags_come_down accepted wu resp ms deadline ticks w :
  w.(wk_state).(s_processing) = false -> w.(wk_monitor).(m_processing) = false ->
  let w' := run (process accepted wu resp ms deadline ticks) w in
  result (process accepted wu resp ms deadline ticks) w = Ret tt /\
  w'.(wk_state).(s_processing) = false /\ w'.(wk_monitor).(m_processing) = false.
Proof.
  intros H1' H2'. destruct (settles_process accepted wu resp ms deadline ticks w) as [Hr Hf].
  { unfold flags. by rewrite H1', H2'. }
  unfold flags in Hf. cbv zeta. split; [done|]. by injection Hf.
Qed.

(** A paused worker (unless the unit toggles the pause), a worker whose
    user revoked consent, and a worker whose GPU is taken do nothing with a
    unit but send one error for it: no inference, no flag, counter, report or
    file changes. In particular a busy worker refuses even the unit that would
    toggle its pause. *)
Theorem refused_units_change_nothing accepted wu resp ms deadline ticks w :
  (w.(wk_state).(s_paused) = true /\ detectTrigger wu <> TriggerPause) \/ accepted = false \/
    w.(wk_monitor).(m_state) = StateBusy ->
  exists msg, process accepted wu resp ms deadline ticks w = (run (send_error wu.(wu_ID) msg) w, Ret tt).
Proof.
  assert (Hout : forall msg, recovering wu (send_error wu.(wu_ID) msg ;; skip) w
                 = (run (send_error wu.(wu_ID) msg) w, Ret tt)).
  { intros msg. pose proof (returns_send_error wu.(wu_ID) msg w) as [a Ha].
    unfold recovering, result, run, mbind, GoM_bind in *. by destruct (send_error _ _ w) as [w' []]. }
  intros Hcase. unfold process, process_body.
  destruct (w.(wk_state).(s_paused) && (detectTrigger wu != TriggerPause)) eqn:Ep.
  { exists "worker paused by user". rewrite <- Hout. unfold recovering at 1, mbind at 1, GoM_bind at 1, gets. by rewrite Ep. }
  destruct accepted eqn:Ea; cbn [negb].
  2: { exists "worker consent revoked". rewrite <- Hout. unfold recovering at 1, mbind at 1, GoM_bind at 1, gets. by rewrite Ep. }
  destruct Hcase as [[Hp Ht]|[[=]|Hb]].
  { by rewrite Hp, bool_decide_eq_false_2 in Ep. }
  exists "worker idle: GPU contention detected". rewrite <- Hout.
  unfold recovering at 1, mbind at 1, GoM_bind at 1, gets. rewrite Ep.
  assert (Hg : on_monitor GetState w = (w, Ret StateBusy)).
  { unfold on_monitor, zoom, GetState, gets. rewrite Hb. by destruct w. }
  unfold mbind at 1, GoM_bind at 1. by rewrite Hg.
Qed.
End units.

(** ** An answer that is no JSON text *)

Section silent.
Context `{Crypto, JsonText, ClientSocket, Os} (Hsend : forall l m, send_ok l m = true).

Lemma replying_send_result_bad id raw ms sg : json_parse raw = None -> replying id 0 (eq false) (send_result id raw ms sg).
Proof.
  intros Hj. unfold send_result. eapply (replying_bind _ 0 0); [apply replying_gets| |done].
  intros fp _. rewrite Hj. by apply replying_ret.
Qed.
Lemma replying_infer_silent wu body ms deadline ticks : json_parse body = None ->
  replying wu.(wu_ID) 0 (fun _ => True) (infer wu (Answered 200 body) ms deadline ticks).
Proof.
  intros Hj. unfold infer. cbn [Complete]. rewrite bool_decide_eq_true_2 by done. cbn [negb].
  replying_seq 0 0; [replying_step|]. cbv zeta.
  eapply (replying_bind _ 0 0 _ (eq false)); [by apply replying_send_result_bad| |done]. intros ? <-. cbn [negb].
  replying_seq 0 0; [replying_step|]. by apply replying_done.
Qed.
End silent.

(** ** Signed payloads *)


(** The text a worker signs for a result determines the unit's id, the
    output and the processing time, as the id holds no colon: a signature
    never vouches for another result than the one it was made for. *)
Theorem signed_payload_is_unambiguous id1 id2 output1 output2 ms1 ms2 :
  ":"%char ∉ String.list_ascii_of_string id1 -> ":"%char ∉ String.list_ascii_of_string id2 ->
  canonicalSignaturePayload id1 output1 ms1 = canonicalSignaturePayload id2 output2 ms2 ->
  id1 = id2 /\ output1 = output2 /\ ms1 = ms2.
Proof.
  intros H1' H2' E%(f_equal String.list_ascii_of_string). unfold canonicalSignaturePayload in E.
  rewrite !list_ascii_of_app in E. cbn [String.list_ascii_of_string app] in E.
  apply split_first in E as [Eid E]; [|done..].
  apply split_last in E as [Eo Ems]; [|by apply pretty_Z_digits..].
  split_and!; [by apply list_ascii_inj..|by apply (inj pretty), list_ascii_inj].
Qed.

(** ** Retries *)

(** The retries of a download: the waits are the initial delay doubled
    each time and capped at the maximum, one after each attempt that failed
    before the context was cancelled; the attempt that follows the last wait
    is the first that succeeds, or the one the cancellation falls into. *)
Theorem retries_back_off {A} delay maxDelay (attempts : list (option A * bool)) :
  (0 < delay <= maxDelay)%Z ->
  let '(waits, v) := retryWithBackoff delay maxDelay attempts in
  exists n, waits = (fun i => Z.min (delay * 2 ^ Z.of_nat i) maxDelay) <$> seq 0 n /\
    (forall i, i < n -> attempts !! i = Some (None, false)) /\
    match attempts !! n with
    | Some (Some x, _) => v = Some x
    | Some (None, cancelled) => cancelled = true /\ v = None
    | None => v = None
    end.
Proof.
  revert delay. induction attempts as [|[[x|] c] attempts IH]; intros delay Hd; cbn [retryWithBackoff].
  - exists 0. split_and!; [done|lia|done].
  - exists 0. split_and!; [done|lia|done].
  - destruct c; [exists 0; split_and!; [done|lia|done]|].
    set (delay' := if bool_decide (delay < maxDelay)%Z then _ else _).
    assert (Hmin : delay' = Z.min (delay * 2) maxDelay) by (unfold delay'; case_bool_decide; lia).
    specialize (IH delay' ltac:(lia)). destruct (retryWithBackoff delay' maxDelay attempts) as [waits v].
    destruct IH as (n & -> & Hn & Hv). exists (S n). split_and!; [|by intros [|i] ?; [|apply Hn; lia]|done].
    cbn [seq fmap list_fmap]. rewrite <- (fmap_S_seq 0 n), <- list_fmap_compose. f_equal; [lia|].
    apply list_fmap_ext. intros _ i _. cbn. rewrite Nat2Z.inj_succ, Z.pow_succ_r by lia. rewrite Hmin.
    assert (0 < 2 ^ Z.of_nat i)%Z by lia. destruct (Z.min_spec (delay * 2) maxDelay); nia.
Qed.

(** ** Model updates *)

Section updates.
Context `{Crypto, JsonText, ClientSocket, Os}.

Definition dest_path (w : Worker) (filename : string) : string := w.(wk_modelsDir) +:+ "/" +:+ filename.

(** What the attempts do to the files: the model may be new, and nothing but the
    model and its temporary file changes. *)
Definition downloaded (dest : string) (fs fs' : gmap string string) : Prop :=
  (forall content, fs !! dest = Some content -> fs' = fs) /\
  forall path, path <> dest -> path <> temporary dest -> fs' !! path = fs !! path.
Lemma temporary_ne dest : temporary dest <> dest.
Proof. intros E. apply (f_equal String.length) in E. unfold temporary in E. rewrite length_app_str in E. cbn in E. lia. Qed.
Lemma downloadModel_spec filename answer w : exists models r,
  downloadModel filename answer w = (set_models models w, Ret r) /\ downloaded (dest_path w filename) w.(wk_models) models /\
  match r with
  | None => models !! dest_path w filename = None
  | Some path => path = dest_path w filename /\ is_Some (models !! dest_path w filename)
  end.
Proof.
  unfold downloadModel. rewrite (bind_Ret _ _ w w w) by done. cbv zeta. cbn [id]. fold (dest_path w filename). set (dest := dest_path w filename).
  destruct (w.(wk_models) !! dest) as [c|] eqn:El.
  { exists w.(wk_models), (Some dest). split_and!; [by destruct w|by split|done|by rewrite El]. }
  destruct answer as [|remains|content].
  - exists w.(wk_models), None. split_and!; [by destruct w|by split|done].
  - eexists _, None. split; [reflexivity|]. pose proof (temporary_ne dest) as Hne. split; [split|].
    + intros c Hc. by rewrite El in Hc.
    + intros path _ Hp. by rewrite lookup_partial_alter_ne.
    + by rewrite lookup_partial_alter_ne.
  - eexists _, (Some dest). split; [reflexivity|]. split; [split|].
    + intros c Hc. by rewrite El in Hc.
    + intros path Hd Hp. by rewrite lookup_insert_ne, lookup_delete_ne.
    + split; [done|]. rewrite lookup_insert_eq. by eexists.
Qed.
Lemma download_attempts_spec filename answers w : exists models r,
  download_attempts filename answers w = (set_models models w, Ret r) /\ downloaded (dest_path w filename) w.(wk_models) models /\
  (r = None \/ r = Some (dest_path w filename) /\ is_Some (models !! dest_path w filename)).
Proof.
  revert w. induction answers as [|answer answers IH]; intros w; cbn [download_attempts].
  { exists w.(wk_models), None. split_and!; [by destruct w|by split|by left]. }
  destruct (downloadModel_spec filename answer w) as (models & [path|] & E & [Hd1 Hd2] & Hr); rewrite (bind_Ret _ _ _ _ _ E).
  { destruct Hr as [-> Hr]. exists models, (Some (dest_path w filename)). split_and!; [done|by split|by right]. }
  destruct (IH (set_models models w)) as (models' & r & E' & [Hd1' Hd2'] & Hr'). exists models', r. change (dest_path (set_models models w)) with (dest_path w) in *.
  cbn [wk_models set_models] in *. split_and!; [by rewrite E'|split|done].
  - intros c Hc. specialize (Hd1 c Hc). subst models. by apply (Hd1' c).
  - intros p Hp Ht. by rewrite Hd2', Hd2.
Qed.

(** A write adds to what was sent. *)
Definition sent (w w' : Worker) : Prop := exists l, w' = set_conn (with_sent l w.(wk_conn)) w.
Lemma sent_Send m : keeps sent (Send m).
Proof.
  intros w. unfold run, Send. case_match; [by eexists|]. exists w.(wk_conn).(co_sent). by destruct w as [[]].
Qed.

(** What an update leaves alone when it installs nothing. *)
Definition uninstalled (w w' : Worker) : Prop :=
  w'.(wk_lastModelPath) = w.(wk_lastModelPath) /\ w'.(wk_lastLlamaParams) = w.(wk_lastLlamaParams) /\
  w'.(wk_persisted) = w.(wk_persisted) /\ w'.(wk_backend) = w.(wk_backend) /\
  w'.(wk_conn).(co_llmHash) = w.(wk_conn).(co_llmHash) /\ w'.(wk_models) = w.(wk_models).
#[export] Instance uninstalled_preorder : PreOrder uninstalled.
Proof. split; [by intros x|]. intros x y z (?&?&?&?&?&?) (?&?&?&?&?&?). split_and!; congruence. Qed.
Lemma uninstalled_Send m : keeps uninstalled (Send m).
Proof. intros w. unfold run, Send. by case_match. Qed.
Hint Resolve uninstalled_Send : keeps.
Lemma uninstalled_SendStatus s : keeps uninstalled (SendStatus s).
Proof. unfold SendStatus. keeps_tac. Qed.
Lemma uninstalled_report s : keeps uninstalled (report s).
Proof. by apply keeps_modify. Qed.
Lemma uninstalled_slice s : keeps uninstalled (slice_hash s).
Proof. unfold slice_hash. keeps_tac. Qed.
Hint Resolve uninstalled_SendStatus uninstalled_report uninstalled_slice : keeps.

(** The fields an installed model leaves for good. *)
Definition installed (w w' : Worker) : Prop :=
  w'.(wk_lastModelPath) = w.(wk_lastModelPath) /\ w'.(wk_persisted) = w.(wk_persisted) /\
  w'.(wk_conn).(co_llmHash) = w.(wk_conn).(co_llmHash) /\ w'.(wk_models) = w.(wk_models) /\
  w'.(wk_modelsDir) = w.(wk_modelsDir) /\ w'.(wk_lastLlamaParams) = w.(wk_lastLlamaParams).
#[export] Instance installed_preorder : PreOrder installed.
Proof. split; [by intros x|]. intros x y z (?&?&?&?&?&?) (?&?&?&?&?&?). split_and!; congruence. Qed.
Lemma installed_Send m : keeps installed (Send m).
Proof. intros w. unfold run, Send. by case_match. Qed.
Hint Resolve installed_Send : keeps.
Lemma installed_SendStatus s : keeps installed (SendStatus s).
Proof. unfold SendStatus. keeps_tac. Qed.
Lemma installed_restart p ps : keeps installed (restartLLM p ps).
Proof.
  unfold restartLLM. apply keeps_bind; [apply _|apply keeps_gets, _|]. intros w.
  destruct w.(wk_backend) as [b|]; [|by apply keeps_ret, _]. destruct (Start _ _ _ b) as [b' r].
  apply keeps_bind; [apply _|by apply keeps_modify|]. intros _. apply keeps_ret, _.
Qed.
Hint Resolve installed_SendStatus installed_restart : keeps.

(** C27. An installed model is a verified one. A model update with a file to
    fetch, a manager to fetch it from and a models directory to keep it in either
    leaves the worker's model, its parameters, its persisted state, its backend
    and its reported hash as they were, or it ends with a file in that directory
    whose SHA-256 is the announced one (if one was announced: with an empty
    announced hash any content is taken), with this file as the current and the
    persisted model, and with the LLM hash derived from the role and this file's own
    hash. Of the files only the model and its temporary file change, and a model
    that was there does not. An update that lacks one of the three is taken at
    its word: the announced LLM hash is reported, and nothing else changes. *)
Theorem installed_model_is_verified mu answers w :
  let w' := run (applyModelUpdate mu answers) w in
  let dest := dest_path w mu.(mu_Filename) in
  let unchanged := w'.(wk_lastModelPath) = w.(wk_lastModelPath) /\ w'.(wk_lastLlamaParams) = w.(wk_lastLlamaParams) /\
    w'.(wk_persisted) = w.(wk_persisted) /\ w'.(wk_backend) = w.(wk_backend) in
  if no_download_config mu w then
    unchanged /\ w'.(wk_models) = w.(wk_models) /\ w'.(wk_conn).(co_llmHash) = mu.(mu_LLMHash)
  else
    downloaded dest w.(wk_models) w'.(wk_models) /\
    (unchanged /\ w'.(wk_conn).(co_llmHash) = w.(wk_conn).(co_llmHash) \/
     exists content, let fileHash := hex_EncodeToString (sha256 content) in
       w'.(wk_lastModelPath) = dest /\ w'.(wk_lastLlamaParams) = llama_params mu /\
       w'.(wk_persisted).(ps_ModelPath) = dest /\ w'.(wk_persisted).(ps_Role) = mu.(mu_Role) /\
       w'.(wk_models) !! dest = Some content /\
       (mu.(mu_ModelFileHash) = "" \/ mu.(mu_ModelFileHash) = fileHash) /\
       w'.(wk_conn).(co_llmHash) = ComputeLLMHash mu.(mu_Role) fileHash).
Proof.
  cbv zeta. pattern (run (applyModelUpdate mu answers) w).
  match goal with |- ?Q _ => enough (Hwp : wp (applyModelUpdate mu answers) (fun w' _ => Q w') w) by exact Hwp end. cbv beta.
  unfold applyModelUpdate. apply wp_bind, wp_gets. cbv beta iota. cbn [id]. destruct (no_download_config mu w).
  { unfold trust_update, on_llmHash. apply wp_bind, wp_modify, (wp_keeps uninstalled); [keeps_tac|].
    intros w' _ (E1&E2&E3&E4&E5&E6). cbn in *. by split_and!. }
  destruct (download_attempts_spec mu.(mu_Filename) answers w) as (models & r & Edl & Hm & Hr).
  apply wp_bind, (wp_eq _ _ _ _ _ Edl). cbn [wk_models set_models] in *.
  destruct Hr as [->|[-> [content Hc]]]; [apply wp_ret; split; [done|by left]|].
  unfold install_model. apply wp_bind, wp_gets. cbv beta iota. cbn [wk_models set_models]. rewrite Hc.
  cbn [HashFile mbind option_bind].
  case_match eqn:Emis.
  - apply (wp_keeps uninstalled); [keeps_tac|]. intros w' r' (->&->&->&->&->&->). split; [done|by left].
  - assert (Hhash : mu.(mu_ModelFileHash) = "" \/ mu.(mu_ModelFileHash) = hex_EncodeToString (sha256 content)).
    { destruct (decide (mu.(mu_ModelFileHash) = "")) as [|Hne]; [by left|right].
      rewrite bool_decide_eq_false_2 in Emis by done. cbn in Emis.
      destruct (bool_decide_reflect (hex_EncodeToString (sha256 content) = mu.(mu_ModelFileHash))); naive_solver. }
    cbv zeta. apply wp_bind, wp_modify, wp_bind.
    apply (wp_returns sent); [apply returns_Send|apply sent_Send|]. intros w1 _ [l ->].
    apply wp_bind, wp_modify, wp_bind, wp_modify.
    apply (wp_keeps installed); [keeps_tac|]. intros w' r' (E1&E2&E3&E4&E5&E6). cbn in E1, E2, E3, E4, E6.
    rewrite E1, E2, E3, E4, E6. cbn. split; [done|right]. exists content. by split_and!.
Qed.

(** A model file that is present but corrupt is never replaced: every
    later update that announces the right hash finds the file, skips the
    download whatever the manager would serve, fails the comparison and ends
    without a change to the files, the model or the reported hash. *)
Theorem corrupt_model_file_is_kept mu answer answers w content :
  mu.(mu_Filename) <> "" -> w.(wk_managerHTTPURL) <> "" -> w.(wk_modelsDir) <> "" ->
  w.(wk_models) !! (w.(wk_modelsDir) +:+ "/" +:+ mu.(mu_Filename)) = Some content ->
  mu.(mu_ModelFileHash) <> "" -> hex_EncodeToString (sha256 content) <> mu.(mu_ModelFileHash) ->
  let w' := run (applyModelUpdate mu (answer :: answers)) w in
  w'.(wk_models) = w.(wk_models) /\ w'.(wk_lastModelPath) = w.(wk_lastModelPath) /\
  w'.(wk_persisted) = w.(wk_persisted) /\ w'.(wk_conn).(co_llmHash) = w.(wk_conn).(co_llmHash).
Proof.
  intros Hf Hu Hd Hc Hne Hh. cbv zeta.
  enough (Hwp : wp (applyModelUpdate mu (answer :: answers)) (fun w' _ => uninstalled w w') w)
    by (destruct Hwp as (?&?&?&?&?&?); by split_and!).
  unfold applyModelUpdate, install_model, no_download_config. apply wp_bind, wp_gets. cbv beta iota. cbn [id].
  rewrite !bool_decide_eq_false_2 by done. cbn [orb].
  assert (Edl : download_attempts mu.(mu_Filename) (answer :: answers) w = (w, Ret (Some (dest_path w mu.(mu_Filename))))).
  { cbn [download_attempts]. rewrite (bind_Ret _ _ w w (Some (dest_path w mu.(mu_Filename)))); [done|].
    unfold downloadModel. erewrite bind_Ret by done. cbv zeta. cbn [id]. by rewrite Hc. }
  apply wp_bind, (wp_eq _ _ _ _ _ Edl), wp_bind, wp_gets. cbv beta iota. unfold dest_path. rewrite Hc.
  cbn [HashFile mbind option_bind]. rewrite !bool_decide_eq_false_2 by done. cbn [negb andb].
  apply (wp_keeps uninstalled); [keeps_tac|done].
Qed.
End updates.

(** An answer of the llama-server with status 200 whose body is no JSON
    text ends in silence: the result cannot be marshalled, the failure is only
    reported, and neither a result nor an error is sent for the unit, whose
    caller waits for its deadline. *)
Theorem malformed_answer_gets_no_reply `{Crypto, JsonText, ClientSocket, Os} wu body ms deadline ticks w :
  (forall l m, send_ok l m = true) -> w.(wk_conn).(co_connected) = true -> json_parse body = None ->
  let m := infer wu (Answered 200 body) ms deadline ticks in
  result m w = Ret tt /\ (run m w).(wk_reports) = w.(wk_reports) ++ ["failed to send result"] /\
  exists new, (run m w).(wk_conn).(co_sent) = w.(wk_conn).(co_sent) ++ new /\
    List.filter (is_reply wu.(wu_ID)) new = [].
Proof.
  intros Hs Hc Hj. cbv zeta.
  destruct (replying_infer_silent Hs wu body ms deadline ticks Hj w Hc) as ([] & new & Er & _ & _ & En & Hn).
  split_and!; [done| |exists new; split; [done|by apply nil_length_inv]].
  unfold run, infer, Complete. rewrite bool_decide_eq_true_2 by done. cbn [negb].
  unfold send_result, gets, mbind, GoM_bind. rewrite Hj. cbn. unfold report, modify. cbn.
  unfold done_available, set_processing_flags, on_snapshot, on_monitor, zoom, SendStatus, Send,
    modify, gets, skip, mret, GoM_ret, mbind, GoM_bind. cbn. by destruct (_ && _).
Qed.

(** ** Witnesses *)

Section witnesses.
#[local] Existing Instance ToyCrypto.
#[local] Existing Instance NoJson.
#[local] Existing Instance OsEx.

Definition AllSent : ClientSocket := {| send_ok _ _ := true |}.
#[local] Existing Instance AllSent.

Definition conn_ex : Connection :=
  {| co_connected := true; co_llmHash := ""; co_backendHash := ""; co_backendVersion := ""; co_gpuAvg := 0; co_sent := [] |}.
Definition worker_ex : Worker :=
  {| wk_conn := conn_ex; wk_state := NewState 0 "f" "m" "q"; wk_monitor := NewMonitor 15 30; wk_reports := [];
     wk_backend := Some manager_ex;
     wk_persisted := {| ps_ManagerURL := ""; ps_Role := ""; ps_ModelPath := ""; ps_LlamaParams := DefaultLlamaParams;
                        ps_BackendVersion := ""; ps_LogLevel := "" |};
     wk_lastModelPath := ""; wk_lastLlamaParams := DefaultLlamaParams;
     wk_models := {[ "/models/m.gguf" := "weights" ]}; wk_modelsDir := "/models"; wk_managerHTTPURL := "http://m";
     wk_privateKey := "k"; wk_fingerprint := "f"; wk_port := "8080" |}.
Definition unit_ex : WorkUnit := Build_WorkUnit TypeWorkUnit "u-1" "m" zero_WorkUnitParams [].
Definition model_update_ex (hash : string) : ModelUpdate :=
  Build_ModelUpdate TypeModelUpdate "r" "m" "q" "m.gguf" hash "" 1 "chat" 1 0 false.

Lemma one_reply_per_unit_witness :
  exists new, (run (process true unit_ex (Answered 200 "{}") 7 0 []) worker_ex).(wk_conn).(co_sent) = [] ++ new /\
    length (List.filter (is_reply "u-1") new) = 1.
Proof.
  refine (proj2 (one_reply_per_unit true unit_ex (Answered 200 "{}") 7 0 [] worker_ex _ _ _ _)).
  - reflexivity.
  - reflexivity.
  - intros raw [= <-]. by eexists.
  - intros s. by eexists.
Defined.

Lemma processing_flags_come_down_witness :
  (run (process true unit_ex (RequestFailed "refused") 7 0 []) worker_ex).(wk_state).(s_processing) = false.
Proof.
  exact (proj1 (proj2 (processing_flags_come_down true unit_ex (RequestFailed "refused") 7 0 [] worker_ex eq_refl eq_refl))).
Defined.

Lemma refused_units_change_nothing_witness :
  exists msg, process false unit_ex (Answered 200 "{}") 7 0 [] worker_ex =
    (run (send_error "u-1" msg) worker_ex, Ret tt).
Proof. apply (refused_units_change_nothing false unit_ex (Answered 200 "{}") 7 0 [] worker_ex). right. by left. Defined.

Lemma signed_payload_is_unambiguous_witness : "u" = "u" /\ "o:1" = "o:1" /\ 5%Z = 5%Z.
Proof. apply (signed_payload_is_unambiguous "u" "u" "o:1" "o:1" 5 5); [cbn; set_solver..|reflexivity]. Defined.

Lemma retries_back_off_witness :
  exists n, [10; 20; 25]%Z = (fun i => Z.min (10 * 2 ^ Z.of_nat i) 25) <$> seq 0 n.
Proof.
  destruct (retries_back_off 10 25 [(None, false); (None, false); (None, false); (Some 1, false)] ltac:(lia)) as (n & E & _).
  exists n. rewrite <- E. reflexivity.
Defined.

Lemma installed_model_is_verified_witness :
  (run (applyModelUpdate (model_update_ex "") [BrokenOff None; NotFetched]) worker_ex).(wk_models) = worker_ex.(wk_models).
Proof.
  destruct (installed_model_is_verified (model_update_ex "") [BrokenOff None; NotFetched] worker_ex) as [[Hkept _] _].
  exact (Hkept "weights" eq_refl).
Defined.

Lemma corrupt_model_file_is_kept_witness :
  (run (applyModelUpdate (model_update_ex "00112233445566778899") [Whole "right"]) worker_ex).(wk_models)
  = worker_ex.(wk_models).
Proof.
  refine (proj1 (corrupt_model_file_is_kept (model_update_ex "00112233445566778899") (Whole "right") [] worker_ex "weights"
    _ _ _ _ _ _)); try discriminate. reflexivity.
Defined.

Lemma malformed_answer_gets_no_reply_witness :
  (run (infer unit_ex (Answered 200 "oops") 7 0 []) worker_ex).(wk_reports) = [] ++ ["failed to send result"].
Proof.
  exact (proj1 (proj2 (malformed_answer_gets_no_reply unit_ex "oops" 7 0 [] worker_ex
    (fun _ _ => eq_refl) eq_refl eq_refl))).
Defined.
End witnesses.
