(* ===== verification/Connection.v ===== *)
(** * The client's connection, and both ends together
    (internal/client/connection/websocket.go, handshake.go)

    What the client sends when it connects, how it answers the manager's
    challenge, how its read loop hands messages to the worker, and when it
    reconnects; then the properties of the two ends together: the handshake,
    a unit's way to the llama-server, and a model update's way back. *)

From S2P Require Import Prelude GoStd Json Protocol Gorm Models Workers Queue Gateway Http GpuMonitor.
From S2P Require Import ClientState Backend Completions Worker.

(** What a connection is made with: its configuration, the identity, and the
    build's version and platform. *)
Record Dialing := {
  d_workerKey : string;
  d_fingerprint : string;
  d_publicKey : string;
  d_privateKey : string;
  d_model : string;
  d_quantisation : string;
  d_version : string;
  d_GOOS : string;
  d_GOARCH : string;
}.

Definition header_if (b : bool) (k v : string) : list (string * string) := if b then [(k, v)] else [].

(** The headers of [connect], and how the other end reads one. *)
Definition connect_headers (d : Dialing) (c : Connection) : list (string * string) :=
  [("X-Worker-Fingerprint", d.(d_fingerprint));
   ("X-Worker-Public-Key", base64_EncodeToString d.(d_publicKey));
   ("X-Worker-Model", d.(d_model));
   ("X-Worker-Quantisation", d.(d_quantisation));
   ("X-Worker-Version", d.(d_version));
   ("X-Worker-OS", d.(d_GOOS));
   ("X-Worker-Arch", d.(d_GOARCH))] ++
  header_if (d.(d_workerKey) != "") "Authorization" ("Bearer " +:+ d.(d_workerKey)) ++
  header_if (c.(co_llmHash) != "") "X-Worker-LLM-Hash" c.(co_llmHash) ++
  header_if (c.(co_backendHash) != "") "X-Worker-Backend-Hash" c.(co_backendHash).
Definition header_get (l : list (string * string)) (name : string) : string :=
  match List.find (fun kv => kv.1 == name) l with Some kv => kv.2 | None => "" end.

(** The wait before each reconnection, whatever the attempts came to
    ([None]: the dial failed or the connection was lost, [Some _] it ended). *)
Fixpoint reconnect_waits {A} (backoff : Z) (attempts : list A) : list Z :=
  match attempts with
  | [] => []
  | _ :: attempts =>
      let next := (backoff * 2)%Z in
      backoff :: reconnect_waits (if bool_decide (60 * Second < next)%Z then 60 * Second else next)%Z attempts
  end.
Definition Run_waits {A} (attempts : list A) : list Z := reconnect_waits Second attempts.

(** ** The read loop *)

Record Receiver := {
  rc_worker : Worker;
  rc_WorkUnitCh : list WorkUnit;
  rc_ModelUpdateCh : list ModelUpdate;
  rc_BinaryUpdateCh : list BinaryUpdate;
  rc_BackendUpdateCh : list BackendUpdate;
}.
Definition set_worker (w : Worker) (r : Receiver) : Receiver :=
  Build_Receiver w r.(rc_WorkUnitCh) r.(rc_ModelUpdateCh) r.(rc_BinaryUpdateCh) r.(rc_BackendUpdateCh).
Definition set_WorkUnitCh (l : list WorkUnit) (r : Receiver) : Receiver :=
  Build_Receiver r.(rc_worker) l r.(rc_ModelUpdateCh) r.(rc_BinaryUpdateCh) r.(rc_BackendUpdateCh).
Definition set_ModelUpdateCh (l : list ModelUpdate) (r : Receiver) : Receiver :=
  Build_Receiver r.(rc_worker) r.(rc_WorkUnitCh) l r.(rc_BinaryUpdateCh) r.(rc_BackendUpdateCh).
Definition set_BinaryUpdateCh (l : list BinaryUpdate) (r : Receiver) : Receiver :=
  Build_Receiver r.(rc_worker) r.(rc_WorkUnitCh) r.(rc_ModelUpdateCh) l r.(rc_BackendUpdateCh).
Definition set_BackendUpdateCh (l : list BackendUpdate) (r : Receiver) : Receiver :=
  Build_Receiver r.(rc_worker) r.(rc_WorkUnitCh) r.(rc_ModelUpdateCh) r.(rc_BinaryUpdateCh) l.

Definition WorkUnitCh_cap : nat := 10.
Definition ModelUpdateCh_cap : nat := 5.
Definition BinaryUpdateCh_cap : nat := 1.
Definition BackendUpdateCh_cap : nat := 1.

(** [ch <- x]: a full channel parks the read loop. *)
Definition chan_send {A} (get : Receiver -> list A) (set : list A -> Receiver -> Receiver) (cap : nat) (x : A)
    : GoM Receiver unit := fun r =>
  if bool_decide (length (get r) < cap)%nat then (set (get r ++ [x]) r, Ret tt) else (r, Blocked).

Section connection.
Context `{Crypto, JsonText, ClientSocket}.

Definition buildChallengeResponse (message : frame) (privKey : string) : option SignedResponse :=
  challenge ← Unmarshal decode_Challenge message;
  nonce ← base64_DecodeString challenge.(cl_Nonce);
  Some {| sr_Type := TypeSignedResponse; sr_Nonce := challenge.(cl_Nonce);
          sr_Signature := base64_EncodeToString (ed25519_sign privKey nonce) |}.

Definition on_worker {A} (m : GoM Worker A) : GoM Receiver A := zoom rc_worker set_worker m.

(** One message; false ends the loop. *)
Definition read_frame (message : frame) : GoM Receiver bool :=
  match Unmarshal decode_Envelope message with
  | None => mret true
  | Some ty =>
      if ty == TypeWorkUnit then
        match Unmarshal decode_WorkUnit message with
        | None => mret true
        | Some wu => chan_send rc_WorkUnitCh set_WorkUnitCh WorkUnitCh_cap wu ;; mret true
        end
      else if ty == TypeModelUpdate then
        match Unmarshal decode_ModelUpdate message with
        | None => mret true
        | Some mu => chan_send rc_ModelUpdateCh set_ModelUpdateCh ModelUpdateCh_cap mu ;; mret true
        end
      else if ty == TypeBinaryUpdate then
        match Unmarshal decode_BinaryUpdate message with
        | None => mret true
        | Some bu => chan_send rc_BinaryUpdateCh set_BinaryUpdateCh BinaryUpdateCh_cap bu ;; mret true
        end
      else if ty == TypeBackendUpdate then
        match Unmarshal decode_BackendUpdate message with
        | None => mret true
        | Some bu => chan_send rc_BackendUpdateCh set_BackendUpdateCh BackendUpdateCh_cap bu ;; mret true
        end
      else if ty == TypeChallenge then
        privKey ← gets (fun r => r.(rc_worker).(wk_privateKey));
        match buildChallengeResponse message privKey with
        | None => mret false
        | Some resp => on_worker (Send (WSignedResponse resp))
        end
      else mret true
  end.

(** The loop over what arrives until the connection breaks. *)
Fixpoint readLoop (messages : list frame) : GoM Receiver unit :=
  match messages with
  | [] => skip
  | message :: messages =>
      continue ← read_frame message;
      if continue : bool then readLoop messages else skip
  end.
End connection.

(** ** Delivery *)

Section delivery.
Context `{Crypto, JsonText, ClientSocket}.

Definition as_unit (m : ManagerMessage) : option WorkUnit := match m with MWorkUnit u => Some u | _ => None end.
Definition as_model_update (m : ManagerMessage) : option ModelUpdate := match m with MModelUpdate u => Some u | _ => None end.
Definition as_binary_update (m : ManagerMessage) : option BinaryUpdate := match m with MBinaryUpdate u => Some u | _ => None end.
Definition as_backend_update (m : ManagerMessage) : option BackendUpdate := match m with MBackendUpdate u => Some u | _ => None end.

Definition delivered (m : ManagerMessage) (r : Receiver) : Receiver :=
  Build_Receiver r.(rc_worker)
    (r.(rc_WorkUnitCh) ++ option_list (as_unit m))
    (r.(rc_ModelUpdateCh) ++ option_list (as_model_update m))
    (r.(rc_BinaryUpdateCh) ++ option_list (as_binary_update m))
    (r.(rc_BackendUpdateCh) ++ option_list (as_backend_update m)).
Definition room (r : Receiver) : Prop :=
  length r.(rc_WorkUnitCh) <= WorkUnitCh_cap /\ length r.(rc_ModelUpdateCh) <= ModelUpdateCh_cap /\
  length r.(rc_BinaryUpdateCh) <= BinaryUpdateCh_cap /\ length r.(rc_BackendUpdateCh) <= BackendUpdateCh_cap.
Definition no_challenge (m : ManagerMessage) : Prop := match m with MChallenge _ => False | _ => True end.

Lemma decode_BinaryUpdate_Marshal m : decode_BinaryUpdate (Marshal_BinaryUpdate m) = Some m.
Proof. by destruct m. Qed.
Lemma decode_BackendUpdate_Marshal m : decode_BackendUpdate (Marshal_BackendUpdate m) = Some m.
Proof. by destruct m. Qed.
Lemma chan_send_room {A} get set cap (x : A) r : length (get r ++ [x]) <= cap ->
  (chan_send get set cap x ;; mret true) r = (set (get r ++ [x]) r, Ret true).
Proof.
  rewrite length_app. cbn. intros Hr. unfold chan_send, mbind, GoM_bind.
  by rewrite bool_decide_eq_true_2 by lia.
Qed.

Lemma read_frame_delivers m r : wf_manager_message m -> no_challenge m -> room (delivered m r) ->
  read_frame (Some (encode_ManagerMessage m)) r = (delivered m r, Ret true).
Proof.
  intros Hwf Hn (Hu & Hm & Hb & Hk). unfold read_frame, Unmarshal. cbn [mbind option_bind].
  rewrite decode_Envelope_manager by done. unfold delivered in *.
  destruct r as [w us ms bs ks], m as [m|m|m|m|m|m]; try done;
    cbn [rc_WorkUnitCh rc_ModelUpdateCh rc_BinaryUpdateCh rc_BackendUpdateCh rc_worker encode_ManagerMessage
         as_unit as_model_update as_binary_update as_backend_update option_list] in *; rewrite ?app_nil_r; cbn in Hwf.
  - rewrite bool_decide_eq_true_2, decode_WorkUnit_Marshal by naive_solver. by rewrite chan_send_room.
  - rewrite bool_decide_eq_false_2, bool_decide_eq_true_2, decode_ModelUpdate_Marshal by naive_solver. by rewrite chan_send_room.
  - rewrite !bool_decide_eq_false_2, bool_decide_eq_true_2, decode_BinaryUpdate_Marshal by done. by rewrite chan_send_room.
  - rewrite !bool_decide_eq_false_2, bool_decide_eq_true_2, decode_BackendUpdate_Marshal by done. by rewrite chan_send_room.
  - by rewrite !bool_decide_eq_false_2 by done.
Qed.
Lemma read_frame_skips r : read_frame None r = (r, Ret true).
Proof. done. Qed.

Lemma room_app r m : room (delivered m r) -> room r.
Proof. unfold room, delivered. cbn. rewrite !length_app. lia. Qed.

(** What the manager pushes arrives: after the frames of any messages but
    challenges, mixed with frames that are no JSON text, each of the four
    channels holds what it held and then the messages of its kind, all fields
    as sent and in the order of sending, as long as they fit its capacity. *)
Theorem pushed_messages_arrive (l : list (option ManagerMessage)) r :
  let msgs : list ManagerMessage := omap (M := list) id l in
  Forall (fun m => wf_manager_message m /\ no_challenge m) msgs ->
  let r' := Build_Receiver r.(rc_worker)
    (r.(rc_WorkUnitCh) ++ omap (M := list) as_unit msgs) (r.(rc_ModelUpdateCh) ++ omap (M := list) as_model_update msgs)
    (r.(rc_BinaryUpdateCh) ++ omap (M := list) as_binary_update msgs) (r.(rc_BackendUpdateCh) ++ omap (M := list) as_backend_update msgs) in
  length r'.(rc_WorkUnitCh) <= WorkUnitCh_cap /\ length r'.(rc_ModelUpdateCh) <= ModelUpdateCh_cap /\
  length r'.(rc_BinaryUpdateCh) <= BinaryUpdateCh_cap /\ length r'.(rc_BackendUpdateCh) <= BackendUpdateCh_cap ->
  readLoop (List.map (option_map encode_ManagerMessage) l) r = (r', Ret tt).
Proof.
  cbv zeta. revert r. induction l as [|[m|] l IH]; intros r Hf Hroom.
  - cbn. rewrite !app_nil_r. by destruct r.
  - assert (Hsplit : forall {B} (f : ManagerMessage -> option B) l0 (ms : list ManagerMessage),
      l0 ++ omap (M := list) f (m :: ms) = (l0 ++ option_list (f m)) ++ omap (M := list) f ms)
      by (intros B f l0 ms; rewrite <- app_assoc; f_equal; cbn; by destruct (f m)).
    change (omap (M := list) id (Some m :: l)) with (m :: omap (M := list) id l) in *.
    apply Forall_cons_1 in Hf as [[Hwf Hn] Hf]. rewrite !Hsplit in *.
    cbn [List.map option_map readLoop]. rewrite (bind_Ret _ _ r (delivered m r) true).
    + exact (IH (delivered m r) Hf Hroom).
    + apply read_frame_delivers; [done..|]. unfold room, delivered.
      cbn [rc_WorkUnitCh rc_ModelUpdateCh rc_BinaryUpdateCh rc_BackendUpdateCh] in *. rewrite !length_app in *. lia.
  - change (omap (M := list) id (None :: l)) with (omap (M := list) id l) in *.
    cbn [List.map option_map readLoop]. rewrite (bind_Ret _ _ r r true) by done. by apply IH.
Qed.
End delivery.

(** ** The handshake, both ends *)

Section handshake.
Context `{GormLaws, !GormUp, WebSocket, CryptoLaws}.

(** The keys and fingerprint of an identity belong together (identity.go). *)
Definition identity_ok (d : Dialing) : Prop :=
  d.(d_publicKey) = ed25519_public d.(d_privateKey) /\ String.length d.(d_publicKey) = ed25519_PublicKeySize /\
  d.(d_fingerprint) = hex_EncodeToString (sha256 d.(d_publicKey)).

(** The frames a client writes on a new connection whose manager sends a
    challenge. The read loop answers it while other goroutines write as well:
    [connect] starts the callback of the connection in one ([early] are the
    messages that get ahead of the answer, [late] those that follow it), and
    each [Send] takes the mutex of the connection. A challenge that cannot be
    answered ends the loop, and nothing follows. *)
Definition client_frames (early late : list WorkerMessage) (d : Dialing) (challenge : Challenge) : list frame :=
  List.map (fun m => Some (encode_WorkerMessage m)) early ++
  match buildChallengeResponse (Some (encode_ManagerMessage (MChallenge challenge))) d.(d_privateKey) with
  | Some resp => Some (encode_WorkerMessage (WSignedResponse resp)) :: List.map (fun m => Some (encode_WorkerMessage m)) late
  | None => []
  end.
(** What the manager reads after its challenge. *)
Definition first_frame (early late : list WorkerMessage) (d : Dialing) (challenge : Challenge) : option frame :=
  head (client_frames early late d challenge).

Lemma decode_Challenge_Marshal m : decode_Challenge (Marshal_Challenge m) = Some m.
Proof. by destruct m. Qed.
Lemma decode_SignedResponse_Marshal m : decode_SignedResponse (Marshal_SignedResponse m) = Some m.
Proof. by destruct m. Qed.
Lemma first_frame_signs late d nonce :
  first_frame [] late d {| cl_Type := TypeChallenge; cl_Nonce := base64_EncodeToString nonce |} =
  Some (Some (Marshal_SignedResponse {| sr_Type := TypeSignedResponse; sr_Nonce := base64_EncodeToString nonce;
    sr_Signature := base64_EncodeToString (ed25519_sign d.(d_privateKey) nonce) |})).
Proof.
  unfold first_frame, client_frames, buildChallengeResponse, Unmarshal. cbn [mbind option_bind encode_ManagerMessage].
  rewrite decode_Challenge_Marshal. cbn [mbind option_bind cl_Nonce]. by rewrite base64_roundtrip.
Qed.

Lemma doChallenge_honest late conn d nonce g : identity_ok d -> conn ∉ g.(g_closed) ->
  (forall l c m, write_ok l c m = true) ->
  exists g', doChallenge conn d.(d_publicKey) (Some nonce) (first_frame [] late d) g = (g', Ret true) /\
    same_registry g g' /\ g'.(g_store) = g.(g_store).
Proof.
  intros (Hpub & _ & _) Hc Hw. unfold doChallenge. cbv zeta.
  unfold WriteJSON. unfold mbind at 1, GoM_bind. rewrite bool_decide_eq_true_2, Hw by done. cbn [andb negb].
  rewrite first_frame_signs. unfold Unmarshal. cbn [mbind option_bind]. rewrite decode_SignedResponse_Marshal.
  cbn [sr_Type sr_Nonce sr_Signature].
  rewrite bool_decide_eq_true_2 by done. rewrite bool_decide_eq_true_2 by done. cbn [negb]. rewrite base64_roundtrip, Hpub, ed25519_correct.
  by eexists.
Qed.

(** Registering a worker whose hash is absent or long enough to be cut. *)
Lemma sync_status_returns fp s : (8 <= String.length fp)%nat ->
  (forall w, worker_row fp s = Some w -> w.(w_LLMHash) = "" \/ (16 <= String.length w.(w_LLMHash))%nat) ->
  exists s' st, UpdateWorkerSyncStatus fp s = (s', Ret st).
Proof.
  intros Hfp Hw. destruct (worker_row fp s) as [w|] eqn:Er.
  - destruct (sync_status_row fp s w Er Hfp) as (s' & E & _); [by right; apply Hw|]. by eexists _, _.
  - exists s, "out-of-sync". unfold UpdateWorkerSyncStatus. rewrite (bind_Ret _ _ _ _ _ (First_up _ _ _)).
    cbn [lget Workers]. unfold worker_row in Er. by rewrite Er.
Qed.

Lemma persist_connect_returns now fp k m q v os arch h bh s : (8 <= String.length fp)%nat ->
  h = "" \/ (16 <= String.length h)%nat ->
  wp (persist_connect now fp k m q v os arch h bh) (fun _ r => r = Ret tt) s.
Proof.
  intros Hfp Hh. unfold persist_connect. apply wp_bind.
  apply (wp_returns (fun _ _ => True)); [unfold UpsertWorker; returns_tac|done|]. intros s1 _ _.
  assert (Hrest : forall s2, wp (when (bh != "") (SetWorkerBackendHash fp bh ;; skip) ;;
    UpdateWorkerBackendSyncStatus fp ;; cfg ← GetClientVersionConfig;
    match cfg with inl cfg => UpdateWorkerBinarySyncStatus fp cfg.(cv_TargetVersion) ;; skip | inr _ => skip end ;;
    SetWorkerOnlineIfAllowed fp) (fun _ r => r = Ret tt) s2).
  { intros s2. apply (wp_returns (fun _ _ => True)); [|done|by intros _ []].
    unfold SetWorkerBackendHash, UpdateWorkerBackendSyncStatus, GetClientVersionConfig, GetBackendVersionConfig,
      UpdateWorkerBinarySyncStatus, SetWorkerOnlineIfAllowed. returns_tac. }
  apply wp_bind. destruct (bool_decide_reflect (h = "")) as [->|Hne]; cbn [negb when]; [by apply wp_ret|].
  destruct Hh as [?|Hh]; [done|].
  destruct (Updates_up Workers (by_fp fp) (set_w_LLMHash h) s1) as (t & E & Hl & _).
  apply wp_bind. eapply wp_eq; [exact E|]. cbv beta iota.
  destruct (sync_status_returns fp (lset Workers t s1) Hfp) as (s2 & st & E2).
  { intros w. unfold worker_row. change (db_Workers (lset Workers t s1)) with t. rewrite Hl, find_update_other by done.
    intros (w0 & Hf & ->)%fmap_Some. apply find_in in Hf as [_ ->]. by right. }
  apply wp_bind. eapply wp_eq; [exact E2|]. cbv beta iota. apply wp_ret, Hrest.
Qed.

Lemma header_known d c name v :
  header_get [("X-Worker-Fingerprint", d.(d_fingerprint));
   ("X-Worker-Public-Key", base64_EncodeToString d.(d_publicKey)); ("X-Worker-Model", d.(d_model));
   ("X-Worker-Quantisation", d.(d_quantisation)); ("X-Worker-Version", d.(d_version)); ("X-Worker-OS", d.(d_GOOS));
   ("X-Worker-Arch", d.(d_GOARCH))] name = v -> v <> "" -> header_get (connect_headers d c) name = v.
Proof.
  unfold connect_headers, header_get. intros Hv Hne. rewrite find_app. by case_match.
Qed.
Lemma header_Authorization d c :
  header_get (connect_headers d c) "Authorization" = if d.(d_workerKey) == "" then "" else "Bearer " +:+ d.(d_workerKey).
Proof.
  unfold connect_headers, header_if.
  by destruct (d.(d_workerKey) == ""), (c.(co_llmHash) == ""), (c.(co_backendHash) == "").
Qed.
Lemma header_LLMHash d c : header_get (connect_headers d c) "X-Worker-LLM-Hash" = c.(co_llmHash).
Proof.
  unfold connect_headers, header_if.
  destruct (d.(d_workerKey) == ""), (bool_decide_reflect (c.(co_llmHash) = "")) as [->|], (c.(co_backendHash) == ""); done.
Qed.

Lemma verify_known fp key g : g.(g_knownKeys) !! fp = None \/ g.(g_knownKeys) !! fp = Some key ->
  exists keys, verifyOrRegisterKey fp key g = (set_knownKeys keys g, Ret true).
Proof.
  unfold verifyOrRegisterKey. intros [E|E]; rewrite (bind_Ret _ _ g g g.(g_knownKeys)) by done; rewrite E.
  - by eexists.
  - exists g.(g_knownKeys). rewrite bool_decide_eq_true_2 by done. by destruct g.
Qed.

(** Both ends of a connection fit. A client whose key, public key and
    fingerprint belong together, and whose LLM hash (if it has one) has at
    least 16 characters, is let in by the manager: in key mode with the same
    worker key, whatever it sends in which order, and in TOFU mode (no key on
    either side) when its answer to the challenge is the first thing it sends,
    provided no other key is known under its fingerprint. It is then registered under its fingerprint with
    its public key, and a session it had before is closed. *)
Lemma honest_connect now d c nonce early late g :
  (d.(d_workerKey) = "" -> early = []) -> identity_ok d -> g.(g_workerKey) = d.(d_workerKey) ->
  g.(g_knownKeys) !! d.(d_fingerprint) = None \/ g.(g_knownKeys) !! d.(d_fingerprint) = Some d.(d_publicKey) ->
  c.(co_llmHash) = "" \/ (16 <= String.length c.(co_llmHash))%nat ->
  (forall l conn m, write_ok l conn m = true) -> g.(g_conns) ∉ g.(g_closed) ->
  let m := ServeHTTP now (header_get (connect_headers d c)) true (Some nonce) (first_frame early late d) in
  exists wc, result m g = Ret (Connected wc) /\ wc.(cn_info).(wi_PublicKey) = d.(d_publicKey) /\
    (run m g).(g_workers) !! d.(d_fingerprint) = Some wc /\
    forall old, g.(g_workers) !! d.(d_fingerprint) = Some old -> old.(cn_conn) ∈ (run m g).(g_closed).
Proof.
  intros Hearly Hid Hkey Hknown Hhash Hw Hc. cbv zeta. pose proof Hid as (Hpub & Hlen & Hfp).
  assert (Hb64 : base64_EncodeToString d.(d_publicKey) <> "").
  { intros E. pose proof (base64_roundtrip d.(d_publicKey)) as Hr. rewrite E in Hr. injection Hr as Hr. by rewrite <- Hr in Hlen. }
  assert (Hfplen : String.length d.(d_fingerprint) = 64) by (by rewrite Hfp, length_hex, sha256_length).
  assert (Hfpne : d.(d_fingerprint) <> "") by (intros E; by rewrite E in Hfplen).
  enough (Hwp : wp (ServeHTTP now (header_get (connect_headers d c)) true (Some nonce) (first_frame early late d))
    (fun g' r => exists wc, r = Ret (Connected wc) /\ wc.(cn_info).(wi_PublicKey) = d.(d_publicKey) /\
      g'.(g_workers) !! d.(d_fingerprint) = Some wc /\
      forall old, g.(g_workers) !! d.(d_fingerprint) = Some old -> old.(cn_conn) ∈ g'.(g_closed)) g) by exact Hwp.
  unfold ServeHTTP. apply wp_bind, wp_gets. cbv beta iota. rewrite Hkey, header_Authorization, header_LLMHash.
  rewrite (header_known d c "X-Worker-Fingerprint" d.(d_fingerprint)) by done.
  rewrite (header_known d c "X-Worker-Public-Key" (base64_EncodeToString d.(d_publicKey))) by done.
  rewrite base64_roundtrip, (bool_decide_eq_false_2 (d.(d_fingerprint) = "")),
    (bool_decide_eq_false_2 (base64_EncodeToString d.(d_publicKey) = "")) by done.
  rewrite (bool_decide_eq_true_2 (String.length d.(d_publicKey) = ed25519_PublicKeySize)),
    (bool_decide_eq_true_2 (d.(d_fingerprint) = hex_EncodeToString _)) by done.
  replace ((_ != "") && (_ != _)) with false.
  2: { destruct (bool_decide_reflect (d.(d_workerKey) = "")); [done|]. by rewrite bool_decide_eq_true_2. }
  cbn [orb negb]. destruct (verify_known _ _ g Hknown) as [keys Ek].
  apply wp_bind. eapply wp_eq; [exact Ek|]. cbv beta iota. cbn [negb].
  apply wp_bind. eapply wp_eq; [reflexivity|]. cbv beta iota. cbn [g_conns set_knownKeys].
  set (g2 := Build_Gateway _ _ _ _ _ _ _ _ _).
  assert (Hch : exists g3, (if d.(d_workerKey) == "" then doChallenge g.(g_conns) d.(d_publicKey) (Some nonce) (first_frame early late d)
                            else mret true) g2 = (g3, Ret true) /\ g3.(g_workers) = g.(g_workers)).
  { case_bool_decide as Hmode; [|by exists g2]. rewrite (Hearly Hmode).
    destruct (doChallenge_honest late g.(g_conns) d nonce g2 Hid Hc Hw) as (g3 & E & (W & _) & _). by exists g3. }
  destruct Hch as (g3 & Ech & Hws). apply wp_bind. eapply wp_eq; [exact Ech|]. cbv beta iota. cbn [negb].
  set (wc := Build_workerConn _ _). apply wp_bind, wp_gets. cbv beta iota. rewrite Hws.
  apply wp_bind. apply (wp_mono _ (fun g4 r => r = Ret tt /\
    forall old, g.(g_workers) !! d.(d_fingerprint) = Some old -> old.(cn_conn) ∈ g4.(g_closed))).
  { destruct (g.(g_workers) !! d.(d_fingerprint)) as [old|]; [apply wp_modify|apply wp_ret]; (split; [done|]); [|done].
    intros old' [= ->]. cbn. set_solver. }
  intros g4 _ [-> Hold]. cbv beta iota. apply wp_bind, wp_modify, wp_bind, wp_gets. cbv beta iota.
  assert (Hend : forall g5, g5.(g_workers) = <[d.(d_fingerprint) := wc]> g.(g_workers) -> g5.(g_closed) = g4.(g_closed) ->
    wp (mret (Connected wc)) (fun g' r => exists wc, r = Ret (Connected wc) /\ wc.(cn_info).(wi_PublicKey) = d.(d_publicKey) /\
      g'.(g_workers) !! d.(d_fingerprint) = Some wc /\
      forall old, g.(g_workers) !! d.(d_fingerprint) = Some old -> old.(cn_conn) ∈ g'.(g_closed)) g5).
  { intros g5 W5 C5. apply wp_ret. exists wc. split_and!; [done..| |by rewrite C5]. by rewrite W5, lookup_insert_eq. }
  apply wp_bind. destruct g4.(g_store) as [s|] eqn:Es; unfold has_store; cbn [g_store set_workers]; rewrite Es; cbn [when].
  - unfold on_store, wp, run, result. cbn [g_store set_workers]. rewrite Es.
    pose proof (persist_connect_returns now d.(d_fingerprint) (base64_EncodeToString d.(d_publicKey))
      (header_get (connect_headers d c) "X-Worker-Model") (header_get (connect_headers d c) "X-Worker-Quantisation")
      (header_get (connect_headers d c) "X-Worker-Version") (header_get (connect_headers d c) "X-Worker-OS")
      (header_get (connect_headers d c) "X-Worker-Arch") c.(co_llmHash)
      (header_get (connect_headers d c) "X-Worker-Backend-Hash") s ltac:(lia) Hhash) as Hp.
    unfold wp, run, result in Hp. destruct (persist_connect _ _ _ _ _ _ _ _ _ _ s) as [s' r]. cbn in Hp. subst r.
    cbn [fst snd]. by apply Hend.
  - apply wp_ret. by apply Hend.
Qed.

Lemma worker_message_object m : wf_worker_message m -> (forall r, m <> WSignedResponse r) -> exists t rest,
  encode_WorkerMessage m = JObj (("type", JStr t) :: rest) /\ t <> TypeSignedResponse /\
  Forall (fun kv : string * json => fold_eq kv.1 "type" = false) rest.
Proof.
  intros Hm Hns. destruct m as [m|m|m|m|m|m|m]; [..|by destruct (Hns m)]; destruct m; cbn in Hm; destruct_and?; subst;
    (eexists _, _; split_and!; [reflexivity|discriminate|]; cbn [app];
     repeat first [ apply Forall_nil_2 | apply Forall_app_2 | apply fold_eq_omitempty; reflexivity
                  | apply Forall_cons_2; [reflexivity|] ]).
Qed.

(** Only the key "type" sets the type. *)
Lemma decode_SignedResponse_type t rest r :
  Forall (fun kv : string * json => fold_eq kv.1 "type" = false) rest ->
  decode_SignedResponse (JObj (("type", JStr t) :: rest)) = Some r -> r.(sr_Type) = t.
Proof.
  intros Hrest. unfold decode_SignedResponse, decode_struct. cbn [foldl].
  replace (decode_key _ (Some zero_SignedResponse) ("type", JStr t)) with (Some (Build_SignedResponse t "" "")) by reflexivity.
  assert (Hgen : forall a, a.(sr_Type) = t -> foldl (decode_key fields_SignedResponse) (Some a) rest = Some r -> r.(sr_Type) = t);
    [|by apply Hgen].
  induction Hrest as [|[k j] rest Hkv _ IH]; intros a Ha; cbn [foldl]; [by intros [= <-]|].
  destruct (decode_key fields_SignedResponse (Some a) (k, j)) as [a'|] eqn:E.
  - apply IH. unfold decode_key in E. cbn in E, Hkv. rewrite Hkv in E. destruct a as [ty n sg]. cbn in Ha. subst ty.
    repeat case_match; simplify_eq/=; try done; destruct j; simplify_eq/=; done.
  - clear. induction rest as [|kv rest IH]; [done|]. exact IH.
Qed.

(** In TOFU mode the challenge must be answered first: a client whose first
    frame is any other message (its initial status or sync request, which is
    sent by a goroutine started when the dial returns and so may overtake the
    answer) is not let in, whatever its keys, and the registry stays as it was. *)
Theorem early_message_fails_handshake now Header nonce peer m g :
  g.(g_workerKey) = "" -> wf_worker_message m -> (forall r, m <> WSignedResponse r) ->
  (forall challenge, peer challenge = Some (Some (encode_WorkerMessage m))) ->
  match result (ServeHTTP now Header true (Some nonce) peer) g with
  | Ret (HttpError _ _) | Ret ChallengeFailed => (run (ServeHTTP now Header true (Some nonce) peer) g).(g_workers) = g.(g_workers)
  | _ => False
  end.
Proof.
  intros Hkey Hm Hns Hpeer.
  assert (Hfail : forall conn pk g1, result (doChallenge conn pk (Some nonce) peer) g1 = Ret false).
  { intros conn pk g1. unfold doChallenge. cbv zeta. unfold result, mbind, GoM_bind, WriteJSON.
    destruct (_ && _); [|done]. cbn [negb]. rewrite Hpeer. unfold Unmarshal. cbn [mbind option_bind].
    destruct (worker_message_object m Hm Hns) as (t & rest & -> & Ht & Hrest).
    destruct (decode_SignedResponse _) as [r|] eqn:E; [|done]. apply decode_SignedResponse_type in E; [|done].
    by rewrite bool_decide_eq_false_2 by congruence. }
  enough (Hwp : wp (ServeHTTP now Header true (Some nonce) peer)
    (fun g' r => match r with
                 | Ret (HttpError _ _) | Ret ChallengeFailed => g'.(g_workers) = g.(g_workers)
                 | _ => False
                 end) g) by exact Hwp.
  unfold ServeHTTP. apply wp_bind, wp_gets. cbv beta iota. rewrite Hkey. cbn [negb andb].
  rewrite bool_decide_eq_true_2 by done. cbn [negb andb].
  destruct (_ || _); [by apply wp_ret|]. destruct (base64_DecodeString _) as [pk|]; [|by apply wp_ret].
  destruct (negb _); [by apply wp_ret|]. destruct (negb _); [by apply wp_ret|].
  apply wp_bind. apply (wp_returns (fun g g' => g'.(g_workers) = g.(g_workers)));
    [unfold verifyOrRegisterKey; returns_tac| |].
  { intros g0. unfold verifyOrRegisterKey, run, mbind, GoM_bind, gets, modify, mret, GoM_ret. cbn. by destruct (_ !! _). }
  intros g1 [|] E1; cbn [negb]; [|by apply wp_ret].
  apply wp_bind. eapply wp_eq; [reflexivity|]. cbv beta iota. apply wp_bind.
  unfold wp at 1. rewrite Hfail. cbn [negb]. apply wp_bind, wp_modify, wp_ret.
  match goal with |- context [run ?m0 ?g0] => destruct (same_doChallenge g1.(g_conns) pk (Some nonce) peer g0) as (E2 & _) end.
  exact (eq_trans E2 E1).
Qed.

(** A client whose own goroutines get ahead of its answer. *)
Lemma late_answer_is_refused now d c nonce early late g :
  g.(g_workerKey) = "" -> early <> [] -> (forall m, m ∈ early -> wf_worker_message m /\ forall r, m <> WSignedResponse r) ->
  let m := ServeHTTP now (header_get (connect_headers d c)) true (Some nonce) (first_frame early late d) in
  match result m g with
  | Ret (HttpError _ _) | Ret ChallengeFailed => (run m g).(g_workers) = g.(g_workers)
  | _ => False
  end.
Proof.
  intros Hkey Hne Hwf. destruct early as [|e early]; [done|]. destruct (Hwf e) as [He Hns]; [by left|].
  by apply (early_message_fails_handshake now _ nonce _ e).
Qed.
End handshake.

(** ** A unit's way to the llama-server *)

(** C11. The chat completion request a caller sends to the manager is the one the
    llama-server gets: the manager's work unit for it arrives in the worker's
    channel, and what the worker asks of its server is the request again, with
    the same messages, sampling parameters and response format. *)
Theorem request_reaches_llm `{Crypto, JsonText, ClientSocket} unitID req r :
  in_int64 req.(cr_MaxTokens) = true -> length r.(rc_WorkUnitCh) < WorkUnitCh_cap ->
  exists u, read_frame (Some (encode_ManagerMessage (MWorkUnit (work_unit unitID req)))) r =
      (set_WorkUnitCh (r.(rc_WorkUnitCh) ++ [u]) r, Ret true) /\
    u.(wu_ID) = unitID /\ llm_request u = req.
Proof.
  intros Hmax Hroom. exists (work_unit unitID req). split_and!; [|done|by destruct req].
  unfold read_frame, Unmarshal. cbn [mbind option_bind]. rewrite decode_Envelope_manager by done.
  cbn [encode_ManagerMessage]. rewrite bool_decide_eq_true_2, decode_WorkUnit_Marshal by done.
  apply chan_send_room. rewrite length_app. cbn. unfold WorkUnitCh_cap in *. lia.
Qed.

(** ** A model update's way back *)

Section model_sync.
Context `{GormLaws, !GormUp, WebSocket, CryptoLaws, JsonText, ClientSocket, Os}.

Definition sent_grows (w w' : Worker) : Prop := exists l, w'.(wk_conn).(co_sent) = w.(wk_conn).(co_sent) ++ l.
#[export] Instance sent_grows_preorder : PreOrder sent_grows.
Proof.
  split; [intros w; exists []; by rewrite app_nil_r|].
  intros x y z [l El] [l' El']. exists (l ++ l'). by rewrite El', El, app_assoc.
Qed.
Lemma sent_grows_same w w' : w'.(wk_conn).(co_sent) = w.(wk_conn).(co_sent) -> sent_grows w w'.
Proof. intros E. exists []. by rewrite app_nil_r. Qed.
Lemma sent_grows_Send m : keeps sent_grows (Send m).
Proof. intros w. unfold run, Send. case_match; [by eexists|by apply sent_grows_same]. Qed.
Hint Resolve sent_grows_Send : keeps.
Lemma sent_grows_SendStatus st : keeps sent_grows (SendStatus st).
Proof. unfold SendStatus. keeps_tac. Qed.
Lemma sent_grows_modify f : (forall w, (f w).(wk_conn).(co_sent) = w.(wk_conn).(co_sent)) -> keeps sent_grows (modify f).
Proof. intros Hf. apply keeps_modify. intros w. by apply sent_grows_same. Qed.
Lemma sent_grows_restart p ps : keeps sent_grows (restartLLM p ps).
Proof.
  unfold restartLLM. apply keeps_bind; [apply _|apply keeps_gets, _|]. intros w.
  destruct w.(wk_backend) as [b|]; [|apply keeps_ret, _]. destruct (Start _ _ _ b) as [b' r].
  apply keeps_bind; [apply _|by apply sent_grows_modify|]. intros _. apply keeps_ret, _.
Qed.
Hint Resolve sent_grows_SendStatus sent_grows_restart : keeps.

Lemma download_attempts_fresh filename content answers w :
  w.(wk_models) !! dest_path w filename = None \/ w.(wk_models) !! dest_path w filename = Some content ->
  exists models, download_attempts filename (Whole content :: answers) w = (set_models models w, Ret (Some (dest_path w filename))) /\
    models !! dest_path w filename = Some content.
Proof.
  unfold dest_path. intros [E|E]; cbn [download_attempts];
    (erewrite bind_Ret; [|unfold downloadModel; erewrite bind_Ret by done; cbv zeta; cbn [id]; rewrite E; reflexivity]).
  - eexists. split; [reflexivity|apply lookup_insert_eq].
  - exists w.(wk_models). split; [by destruct w|done].
Qed.

(** The worker's half: it reports the hash of a verified file. *)
Lemma verified_update_reports mu content answers w :
  mu.(mu_Filename) <> "" -> w.(wk_managerHTTPURL) <> "" -> w.(wk_modelsDir) <> "" ->
  w.(wk_models) !! dest_path w mu.(mu_Filename) = None \/ w.(wk_models) !! dest_path w mu.(mu_Filename) = Some content ->
  mu.(mu_ModelFileHash) = hex_EncodeToString (sha256 content) ->
  w.(wk_conn).(co_connected) = true -> (forall l m, send_ok l m = true) ->
  exists l, (run (applyModelUpdate mu (Whole content :: answers)) w).(wk_conn).(co_sent) =
    w.(wk_conn).(co_sent) ++ WLLMHashReport {| hr_Type := TypeLLMHashReport;
           hr_LLMHash := ComputeLLMHash mu.(mu_Role) mu.(mu_ModelFileHash) |} :: l.
Proof.
  intros Hf Hu Hd Hm Hh Hc Hs.
  enough (Hwp : wp (applyModelUpdate mu (Whole content :: answers)) (fun w' _ => exists l, w'.(wk_conn).(co_sent) =
    w.(wk_conn).(co_sent) ++ WLLMHashReport {| hr_Type := TypeLLMHashReport;
           hr_LLMHash := ComputeLLMHash mu.(mu_Role) mu.(mu_ModelFileHash) |} :: l) w) by exact Hwp.
  unfold applyModelUpdate, install_model, no_download_config. apply wp_bind, wp_gets. cbv beta iota. cbn [id].
  rewrite !bool_decide_eq_false_2 by done. cbn [orb].
  destruct (download_attempts_fresh _ _ answers _ Hm) as (models & Edl & Hc').
  apply wp_bind, (wp_eq _ _ _ _ _ Edl), wp_bind, wp_gets. cbv beta iota. cbn [wk_models set_models]. rewrite Hc'.
  cbn [HashFile mbind option_bind]. rewrite <- Hh, (bool_decide_eq_true_2 (mu_ModelFileHash mu = mu_ModelFileHash mu)) by done.
  cbn [negb]. rewrite andb_false_r. cbv zeta. apply wp_bind, wp_modify, wp_bind.
  eapply wp_eq; [unfold SendLLMHashReport, Send; cbn; rewrite Hc, Hs; reflexivity|]. cbv beta iota.
  apply (wp_keeps sent_grows); [|intros w' _ [l ->]; cbn; rewrite <- app_assoc; by eexists].
  repeat first [apply keeps_bind; [apply _| |intros ?] | by apply sent_grows_modify | keeps_step].
Qed.

(** The manager's half: a report of a configured role's hash brings the worker's
    row in sync. *)
Lemma matching_report_syncs url_fuel wc hash g s w rm :
  g.(g_store) = Some s -> worker_row (cn_fp wc) s = Some w -> (8 <= String.length (cn_fp wc))%nat ->
  rm ∈ live (db_Roles s) -> rm.(rm_ModelFileHash) <> "" -> hash = ComputeLLMHash rm.(rm_Role) rm.(rm_ModelFileHash) ->
  let frame := Some (encode_WorkerMessage (WLLMHashReport {| hr_Type := TypeLLMHashReport; hr_LLMHash := hash |})) in
  exists g' s' , handle_message url_fuel wc frame g = (g', Ret tt) /\ g'.(g_store) = Some s' /\
    worker_row (cn_fp wc) s' = Some (set_w_SyncStatus "synced" (set_w_LLMHash hash w)).
Proof.
  intros Es Hw Hfp Hrm Hne ->. cbv zeta. set (hash := ComputeLLMHash _ _).
  assert (Hlen : String.length hash = 64) by apply length_ComputeLLMHash.
  unfold handle_message. rewrite worker_message_received by done. unfold handle_hash_report. cbn [hr_LLMHash].
  rewrite (bind_Ret _ _ g g true) by (unfold gets, has_store; by rewrite Es). cbn [when].
  destruct (Updates_up Workers (by_fp (cn_fp wc)) (set_w_LLMHash hash) s) as (t & E & Hl & _).
  assert (Hrow : worker_row (cn_fp wc) (lset Workers t s) = Some (set_w_LLMHash hash w)).
  { unfold worker_row in *. change (db_Workers (lset Workers t s)) with t. rewrite Hl, find_update_other by done.
    cbn [lget Workers]. rewrite Hw. cbn. apply find_in in Hw as [_ Hp]. by rewrite Hp. }
  assert (Hsync : model_in_sync (lset Workers t s) (set_w_LLMHash hash w) = true).
  { unfold model_in_sync. change (w_LLMHash (set_w_LLMHash hash w)) with hash.
    rewrite (bool_decide_eq_false_2 (hash = "")) by (intros E'; by rewrite E' in Hlen). apply orb_true_intro. right.
    cbn [negb andb]. apply existsb_exists. exists rm. split; [by apply list_elem_of_In|].
    unfold role_matches. by rewrite bool_decide_eq_false_2, bool_decide_eq_true_2. }
  destruct (sync_status_row (cn_fp wc) _ _ Hrow Hfp) as (s' & E2 & Hrow'); [by left|]. rewrite Hsync in E2, Hrow'.
  exists (set_store (Some s') g), s'. split_and!; [|done..].
  unfold on_store. rewrite Es. unfold store_hash_report, SetWorkerLLMHash. cbn [hr_LLMHash].
  rewrite (bind_Ret _ _ _ _ _ E), (bind_Ret _ _ _ _ _ E2). unfold slice. rewrite !slice_to_ok by lia.
  reflexivity.
Qed.

(** C6. A model update brings a worker in sync. Once the worker has applied the
    update for a configured role - the file downloaded (or already there) with
    the announced hash - it reports a hash which the manager, on receiving the
    report, stores and recognises: the worker's row becomes "synced", so that
    an available worker is one that work may be dispatched to. *)
Theorem model_update_brings_sync url_fuel mu content answers w wc g s row rm :
  mu.(mu_Filename) <> "" -> w.(wk_managerHTTPURL) <> "" -> w.(wk_modelsDir) <> "" ->
  w.(wk_models) !! dest_path w mu.(mu_Filename) = None \/ w.(wk_models) !! dest_path w mu.(mu_Filename) = Some content ->
  mu.(mu_ModelFileHash) = hex_EncodeToString (sha256 content) ->
  w.(wk_conn).(co_connected) = true -> (forall l m, send_ok l m = true) ->
  g.(g_store) = Some s -> worker_row (cn_fp wc) s = Some row -> (8 <= String.length (cn_fp wc))%nat ->
  rm ∈ live (db_Roles s) -> rm.(rm_Role) = mu.(mu_Role) -> rm.(rm_ModelFileHash) = mu.(mu_ModelFileHash) ->
  exists report rest,
    (run (applyModelUpdate mu (Whole content :: answers)) w).(wk_conn).(co_sent) = w.(wk_conn).(co_sent) ++ report :: rest /\
    exists g' s', handle_message url_fuel wc (Some (encode_WorkerMessage report)) g = (g', Ret tt) /\
      g'.(g_store) = Some s' /\
      w_SyncStatus <$> worker_row (cn_fp wc) s' = Some "synced" /\
      w_Status <$> worker_row (cn_fp wc) s' = Some row.(w_Status).
Proof.
  intros Hf Hu Hd Hm Hh Hc Hs Es Hrow Hfp Hrm Hr Hrh.
  destruct (verified_update_reports mu content answers w) as [rest E]; [done..|].
  eexists _, rest. split; [exact E|].
  destruct (matching_report_syncs url_fuel wc (ComputeLLMHash mu.(mu_Role) mu.(mu_ModelFileHash)) g s row rm)
    as (g' & s' & Eh & Es' & Hrow'); [done..| |by rewrite Hr, Hrh|].
  - rewrite Hrh, Hh. pose proof (length_hex (sha256 content)) as Hl. rewrite sha256_length in Hl. intros E'. by rewrite E' in Hl.
  - exists g', s'. rewrite Hrow'. by split_and!.
Qed.
End model_sync.

(** ** Reconnecting *)

(** The client never stops reconnecting: every attempt, failed or not, is
    followed by a wait and a next attempt. The [i]-th wait is [2^i] seconds
    capped at a minute, whatever became of the attempts: a connection that
    held for days does not bring the wait back to a second. *)
Theorem reconnect_waits_grow {A} (attempts : list A) :
  Run_waits attempts = (fun i => Z.min (2 ^ Z.of_nat i * Second) (60 * Second)) <$> seq 0 (length attempts).
Proof.
  unfold Run_waits. assert (Hgen : forall b, (0 < b <= 60 * Second)%Z -> reconnect_waits b attempts =
    (fun i => Z.min (2 ^ Z.of_nat i * b) (60 * Second)) <$> seq 0 (length attempts)); [|by apply Hgen].
  induction attempts as [|a attempts IH]; intros b Hb; [done|]. cbn [reconnect_waits length].
  rewrite IH by (unfold Second, Millisecond in *; case_bool_decide; lia). cbn [seq fmap list_fmap]. f_equal; [lia|].
  rewrite <- (fmap_S_seq 0), <- list_fmap_compose. apply list_fmap_ext. intros _ i _. cbn.
  rewrite Nat2Z.inj_succ, Z.pow_succ_r by lia. unfold Second, Millisecond in *.
  assert (0 < 2 ^ Z.of_nat i)%Z by lia. case_bool_decide; nia.
Qed.

(** ** Witnesses *)

Section witnesses.
#[local] Existing Instances MemGorm MemGormLaws MemGormUp ToyCrypto ToyCryptoLaws AllWrites NoJson OsEx AllSent.

Definition key_ex : string := "0123456789abcdef0123456789abcdef".
Definition dialing_ex : Dialing :=
  {| d_workerKey := ""; d_fingerprint := hex_EncodeToString key_ex; d_publicKey := key_ex; d_privateKey := key_ex;
     d_model := "m"; d_quantisation := "q"; d_version := "v1"; d_GOOS := "linux"; d_GOARCH := "amd64" |}.
Definition receiver_ex : Receiver := Build_Receiver worker_ex [] [] [] [].
Definition role_ex (hash : string) : RoleModel := Build_RoleModel "r" "m" "q" "m2.gguf" hash "" 0 "" 1 "chat" 1 0 false.
Definition weights_hash : string := hex_EncodeToString (sha256 "weights").
Definition sync_store : Store :=
  lset Workers (mem_rows [sample_worker fp_ex "" "out-of-sync" "available"])
    (lset Roles (mem_rows [role_ex weights_hash]) empty_store).
Definition sync_update : ModelUpdate :=
  Build_ModelUpdate TypeModelUpdate "r" "m" "q" "m2.gguf" weights_hash "" 1 "chat" 1 0 false.

Lemma pushed_messages_arrive_witness :
  readLoop (List.map (option_map encode_ManagerMessage)
    [Some (MWorkUnit Gateway.unit_ex); None; Some (MModelUpdate sync_update)]) receiver_ex =
  (Build_Receiver worker_ex [Gateway.unit_ex] [sync_update] [] [], Ret tt).
Proof.
  apply (pushed_messages_arrive [Some (MWorkUnit Gateway.unit_ex); None; Some (MModelUpdate sync_update)] receiver_ex).
  - repeat constructor.
  - cbn. unfold WorkUnitCh_cap, ModelUpdateCh_cap, BinaryUpdateCh_cap, BackendUpdateCh_cap. lia.
Defined.

Lemma early_message_fails_handshake_witness :
  match result (ServeHTTP 7 (header_get (connect_headers dialing_ex Worker.conn_ex)) true (Some "nonce")
    (fun _ => Some (Some (encode_WorkerMessage (WStatus (Build_Status TypeStatus "available" "" "" "" 0))))))
    (NewGateway "" Queue.New (Some sync_store)) with
  | Ret (HttpError _ _) | Ret ChallengeFailed => True
  | _ => False
  end.
Proof.
  pose proof (early_message_fails_handshake 7 (header_get (connect_headers dialing_ex Worker.conn_ex)) "nonce"
    (fun _ => Some (Some (encode_WorkerMessage (WStatus (Build_Status TypeStatus "available" "" "" "" 0)))))
    (WStatus (Build_Status TypeStatus "available" "" "" "" 0)) (NewGateway "" Queue.New (Some sync_store)) eq_refl
    (conj eq_refl eq_refl) ltac:(intros r; discriminate) (fun _ => eq_refl)) as Hf.
  destruct (result _ _) as [[]| |]; [exact I|exact Hf|exact I|exact Hf..].
Defined.

Lemma request_reaches_llm_witness : exists u,
  read_frame (Some (encode_ManagerMessage (MWorkUnit (work_unit "wu-1"
    (Build_ChatCompletionRequest "m" [Build_ChatMessage "user" "hi"] (NLit "0.7") 64 None))))) receiver_ex =
    (set_WorkUnitCh [u] receiver_ex, Ret true) /\ u.(wu_ID) = "wu-1".
Proof.
  destruct (request_reaches_llm "wu-1" (Build_ChatCompletionRequest "m" [Build_ChatMessage "user" "hi"] (NLit "0.7") 64 None)
    receiver_ex) as (u & E & Hid & _); [reflexivity|cbn; unfold WorkUnitCh_cap; lia|].
  exists u. split; [exact E|exact Hid].
Defined.

Lemma model_update_brings_sync_witness : exists report rest,
  (run (applyModelUpdate sync_update [Whole "weights"]) worker_ex).(wk_conn).(co_sent) = [] ++ report :: rest /\
  exists g' s', handle_message 10 (Gateway.conn_ex 1) (Some (encode_WorkerMessage report))
      (NewGateway "" Queue.New (Some sync_store)) = (g', Ret tt) /\ g'.(g_store) = Some s' /\
    w_SyncStatus <$> worker_row fp_ex s' = Some "synced".
Proof.
  destruct (model_update_brings_sync 10 sync_update "weights" [] worker_ex (Gateway.conn_ex 1)
    (NewGateway "" Queue.New (Some sync_store)) sync_store (sample_worker fp_ex "" "out-of-sync" "available")
    (role_ex weights_hash)) as (report & rest & E & g' & s' & Eh & Es & Hs & _);
    [discriminate|discriminate|discriminate|left; reflexivity|reflexivity|reflexivity|reflexivity|reflexivity
    |reflexivity|cbn; lia|cbn; set_solver|reflexivity|reflexivity|].
  exists report, rest. split; [exact E|]. exists g', s'. split; [exact Eh|]. split; [exact Es|exact Hs].
Defined.
End witnesses.
