(* ===== verification/AdminAuth.v ===== *)
(** * Sessions of the admin dashboard (internal/manager/admin/auth/auth.go)

    Password and OIDC logins, the session and CSRF-state tables, and the
    wrappers that guard the admin routes. Random tokens, the clock and the
    cookie or form values of a request are arguments. The OAuth2 client and
    the ID-token verifier are libraries: the class [OidcProvider]. *)

From S2P Require Import Prelude GoStd Http.

Record AuthConfig := {
  AdminUser : string; AdminPassword : string; OIDCEnabled : bool; OIDCClientID : string;
  OIDCClientSecret : string; OIDCProviderURL : string; OIDCRedirectURL : string; Insecure : bool }.

Record Auth := {
  au_Config : AuthConfig;
  au_sessions : gmap string Z;     (* session ID -> expiry *)
  au_oidcStates : gmap string Z;   (* CSRF state -> expiry *)
}.

(** What the libraries answer: discovery of the provider, the authorization
    URL, the exchange of a code for a token with or without an ID token, the
    verification of a raw ID token at a time. *)
Class OidcProvider := {
  discovers : string -> bool;
  AuthCodeURL : string -> string;
  Exchange : string -> option (option string);
  VerifyIDToken : Z -> string -> bool;
}.

Record Cookie := { ck_Value : string; ck_Secure : bool; ck_MaxAge : Z }.

Inductive auth_answer :=
  | LoginPage (sso : bool)
  | Redirect (url : string)
  | Refused (r : Response)
  | Served.   (* the answer of the wrapped handler *)

Record auth_reply := { answer : auth_answer; set_cookie : option Cookie }.

Definition refuse (msg : string) (code : Z) : auth_reply :=
  {| answer := Refused (httpError msg code); set_cookie := None |}.

Definition with_sessions (m : gmap string Z) (a : Auth) : Auth :=
  {| au_Config := a.(au_Config); au_sessions := m; au_oidcStates := a.(au_oidcStates) |}.
Definition with_oidcStates (m : gmap string Z) (a : Auth) : Auth :=
  {| au_Config := a.(au_Config); au_sessions := a.(au_sessions); au_oidcStates := m |}.

Section auth.
Context `{OidcProvider}.

Definition NewAuth (config : AuthConfig) : option Auth :=
  if config.(OIDCEnabled) && negb (discovers config.(OIDCProviderURL)) then None
  else Some {| au_Config := config; au_sessions := ∅; au_oidcStates := ∅ |}.

(** 16 random bytes in hexadecimal *)
Definition generateToken (random : string) : string := hex_EncodeToString random.

Definition setSession (now : Z) (sessionID : string) : GoM Auth Cookie :=
  insecure ← gets (fun a => a.(au_Config).(Insecure));
  modify (fun a => with_sessions (<[sessionID := (now + 24 * Hour)%Z]> a.(au_sessions)) a) ;;
  mret {| ck_Value := sessionID; ck_Secure := negb insecure; ck_MaxAge := 0 |}.

(** [cookie]: the value of the request's "session" cookie, if it has one *)
Definition getSession (now : Z) (cookie : option string) : GoM Auth string :=
  match cookie with
  | None => mret ""
  | Some sessionID =>
      entry ← gets (fun a => a.(au_sessions) !! sessionID);
      match entry with
      | None => mret ""
      | Some expiry => mret (if bool_decide (expiry < now)%Z then "" else sessionID)
      end
  end.

Definition clearSession : GoM Auth Cookie :=
  insecure ← gets (fun a => a.(au_Config).(Insecure));
  mret {| ck_Value := ""; ck_Secure := negb insecure; ck_MaxAge := -1 |}.

Definition storeOIDCState (now : Z) (state : string) : GoM Auth unit :=
  modify (fun a => with_oidcStates (<[state := (now + 10 * Minute)%Z]> a.(au_oidcStates)) a).

Definition consumeOIDCState (now : Z) (state : string) : GoM Auth bool :=
  entry ← gets (fun a => a.(au_oidcStates) !! state);
  match entry with
  | None => mret false
  | Some expiry =>
      if bool_decide (expiry < now)%Z then mret false
      else modify (fun a => with_oidcStates (delete state a.(au_oidcStates)) a) ;; mret true
  end.

Definition serveLoginPage : GoM Auth auth_reply :=
  sso ← gets (fun a => a.(au_Config).(OIDCEnabled));
  mret {| answer := LoginPage sso; set_cookie := None |}.

(** A new session, its cookie and the redirect to the dashboard. *)
Definition open_session (now : Z) (random : string) : GoM Auth auth_reply :=
  cookie ← setSession now (generateToken random);
  mret {| answer := Redirect "/"; set_cookie := Some cookie |}.

Definition handleLogin (now : Z) (random username password : string) : GoM Auth auth_reply :=
  config ← gets au_Config;
  if (username == config.(AdminUser)) && (password == config.(AdminPassword))
  then open_session now random
  else mret (refuse "invalid credentials" 401).

Definition LoginHandler (now : Z) (random Method username password : string) : GoM Auth auth_reply :=
  if Method == "GET" then serveLoginPage
  else if Method == "POST" then handleLogin now random username password
  else mret (refuse "method not allowed" 405).

Definition OIDCLoginHandler (now : Z) (random : string) : GoM Auth auth_reply :=
  enabled ← gets (fun a => a.(au_Config).(OIDCEnabled));
  if negb enabled then mret (refuse "OIDC not enabled" 404)
  else
    let state := generateToken random in
    storeOIDCState now state ;;
    mret {| answer := Redirect (AuthCodeURL state); set_cookie := None |}.

Definition OIDCCallbackHandler (now : Z) (random state code : string) : GoM Auth auth_reply :=
  enabled ← gets (fun a => a.(au_Config).(OIDCEnabled));
  if negb enabled then mret (refuse "OIDC not enabled" 404)
  else
    consumed ← consumeOIDCState now state;
    if negb consumed then mret (refuse "invalid or expired state" 400)
    else if code == "" then mret (refuse "no code in request" 400)
    else match Exchange code with
    | None => mret (refuse "authentication failed" 401)
    | Some None => mret (refuse "no id_token in token response" 401)
    | Some (Some rawIDToken) =>
        if negb (VerifyIDToken now rawIDToken) then mret (refuse "authentication failed" 401)
        else open_session now random
    end.

Definition LogoutHandler : GoM Auth auth_reply :=
  cookie ← clearSession;
  mret {| answer := Redirect "/login"; set_cookie := Some cookie |}.

Definition to_login : auth_reply := {| answer := Redirect "/login"; set_cookie := None |}.

(** The wrappers: [inl] of the wrapped handler's result, or the redirect. *)
Definition RequireAuth {A} (next : GoM Auth A) (now : Z) (cookie : option string) : GoM Auth (A + auth_reply) :=
  session ← getSession now cookie;
  if session != "" then a ← next; mret (inl a) else mret (inr to_login).

(** Over a state that contains the authentication and the key. *)
Definition RequireAuthOrBearerFn {S A} (get : S -> Auth) (set : Auth -> S -> S) (keyFn : GoM S string)
    (next : GoM S A) (now : Z) (cookie : option string) (Authorization : string) : GoM S (A + auth_reply) :=
  session ← zoom get set (getSession now cookie);
  if session != "" then a ← next; mret (inl a)
  else
    key ← keyFn;
    if Authorization == ("Bearer " +:+ key) then a ← next; mret (inl a)
    else mret (inr to_login).

Definition RequireAuthOrBearer {S A} (get : S -> Auth) (set : Auth -> S -> S) (apiKey : string) (next : GoM S A)
    : Z -> option string -> string -> GoM S (A + auth_reply) :=
  RequireAuthOrBearerFn get set (mret apiKey) next.

(** ** Histories of requests *)

Inductive auth_event :=
  | EvLogin (now : Z) (random Method username password : string)
  | EvOIDCLogin (now : Z) (random : string)
  | EvCallback (now : Z) (random state code : string)
  | EvLogout (now : Z)
  | EvRequest (now : Z) (cookie : option string).

Definition event_time (e : auth_event) : Z :=
  match e with
  | EvLogin t _ _ _ _ | EvOIDCLogin t _ | EvCallback t _ _ _ | EvLogout t | EvRequest t _ => t
  end.

Definition exec_auth (e : auth_event) : GoM Auth auth_reply :=
  match e with
  | EvLogin now random m u p => LoginHandler now random m u p
  | EvOIDCLogin now random => OIDCLoginHandler now random
  | EvCallback now random state code => OIDCCallbackHandler now random state code
  | EvLogout _ => LogoutHandler
  | EvRequest now cookie =>
      r ← RequireAuth skip now cookie;
      mret match r with inl _ => {| answer := LoginPage false; set_cookie := None |} | inr r => r end
  end.

Definition exec_auths (es : list auth_event) : GoM Auth unit := foreach es (fun e => exec_auth e ;; skip).

(** The event hands out the session [token]: a login with the configured
    credentials, or a callback with a verified ID token. *)
Definition logs_in (cfg : AuthConfig) (token : string) (e : auth_event) : bool :=
  match e with
  | EvLogin _ random m u p =>
      (m == "POST") && (u == cfg.(AdminUser)) && (p == cfg.(AdminPassword)) && (generateToken random == token)
  | _ => false
  end.
Definition calls_back (cfg : AuthConfig) (token state : string) (e : auth_event) : bool :=
  match e with
  | EvCallback now random st code =>
      cfg.(OIDCEnabled) && (st == state) && (code != "") &&
      match Exchange code with Some (Some raw) => VerifyIDToken now raw | _ => false end &&
      (generateToken random == token)
  | _ => false
  end.
Definition asks_state (cfg : AuthConfig) (state : string) (e : auth_event) : bool :=
  match e with
  | EvOIDCLogin _ random => cfg.(OIDCEnabled) && (generateToken random == state)
  | _ => false
  end.
End auth.

(** ** What each event does to the tables *)

Section effects.
Context `{OidcProvider}.

Lemma returns_LoginHandler now random m u p : returns (LoginHandler now random m u p).
Proof. unfold LoginHandler, serveLoginPage, handleLogin, open_session, setSession. returns_tac. Qed.
Lemma returns_OIDCLoginHandler now random : returns (OIDCLoginHandler now random).
Proof. unfold OIDCLoginHandler, storeOIDCState. returns_tac. Qed.
Lemma returns_OIDCCallbackHandler now random state code : returns (OIDCCallbackHandler now random state code).
Proof. unfold OIDCCallbackHandler, consumeOIDCState, open_session, setSession. returns_tac. Qed.
Lemma returns_getSession now cookie : returns (getSession now cookie).
Proof. unfold getSession. returns_tac. Qed.
Hint Resolve returns_LoginHandler returns_OIDCLoginHandler returns_OIDCCallbackHandler returns_getSession : returns.

Lemma returns_exec_auth e : returns (exec_auth e).
Proof. destruct e; cbn [exec_auth]; unfold LogoutHandler, clearSession, RequireAuth; returns_tac. Qed.

(** Looking up a session changes nothing, and succeeds on a live entry only. *)
Lemma getSession_spec now cookie a :
  getSession now cookie a = (a, Ret match cookie with
    | Some id => match a.(au_sessions) !! id with
                 | Some expiry => if bool_decide (expiry < now)%Z then "" else id
                 | None => ""
                 end
    | None => ""
    end).
Proof.
  unfold getSession. destruct cookie as [id|]; [|done].
  unfold mbind, GoM_bind, gets. by destruct (au_sessions a !! id).
Qed.

Lemma RequireAuth_skip now cookie a : RequireAuth skip now cookie a =
  (a, Ret match cookie with
    | Some id => match a.(au_sessions) !! id with
                 | Some expiry => if bool_decide (expiry < now)%Z then inr to_login
                                  else if id != "" then inl tt else inr to_login
                 | None => inr to_login
                 end
    | None => inr to_login
    end).
Proof.
  unfold RequireAuth. erewrite bind_Ret by apply getSession_spec.
  destruct cookie as [id|]; [|done]. destruct (au_sessions a !! id) as [x|]; [|done].
  destruct (bool_decide (x < now)%Z); [done|]. by destruct (id != "").
Qed.

Definition opened (cfg : AuthConfig) (now : Z) (random : string) (a : Auth) : Auth * res auth_reply :=
  (with_sessions (<[generateToken random := (now + 24 * Hour)%Z]> a.(au_sessions)) a,
   Ret {| answer := Redirect "/";
          set_cookie := Some {| ck_Value := generateToken random; ck_Secure := negb cfg.(Insecure); ck_MaxAge := 0 |} |}).

Lemma LoginHandler_spec now random m u p a :
  let cfg := a.(au_Config) in
  LoginHandler now random m u p a =
    if m == "GET" then (a, Ret {| answer := LoginPage cfg.(OIDCEnabled); set_cookie := None |})
    else if m == "POST" then
      if (u == cfg.(AdminUser)) && (p == cfg.(AdminPassword)) then opened cfg now random a
      else (a, Ret (refuse "invalid credentials" 401))
    else (a, Ret (refuse "method not allowed" 405)).
Proof.
  cbv zeta. unfold LoginHandler. destruct (m == "GET"); [done|]. destruct (m == "POST"); [|done].
  unfold handleLogin. erewrite bind_Ret by done. by destruct (_ && _).
Qed.

Lemma OIDCLoginHandler_spec now random a :
  OIDCLoginHandler now random a =
    if a.(au_Config).(OIDCEnabled)
    then (with_oidcStates (<[generateToken random := (now + 10 * Minute)%Z]> a.(au_oidcStates)) a,
          Ret {| answer := Redirect (AuthCodeURL (generateToken random)); set_cookie := None |})
    else (a, Ret (refuse "OIDC not enabled" 404)).
Proof. unfold OIDCLoginHandler. erewrite bind_Ret by done. by destruct (OIDCEnabled _). Qed.

(** The verdict of the provider on a code. *)
Definition verified (now : Z) (code : string) : bool :=
  (code != "") && match Exchange code with Some (Some raw) => VerifyIDToken now raw | _ => false end.

Lemma consumeOIDCState_spec now state a : consumeOIDCState now state a =
  match a.(au_oidcStates) !! state with
  | Some expiry => if bool_decide (expiry < now)%Z then (a, Ret false)
                   else (with_oidcStates (delete state a.(au_oidcStates)) a, Ret true)
  | None => (a, Ret false)
  end.
Proof.
  unfold consumeOIDCState, mbind, GoM_bind, gets. destruct (au_oidcStates a !! state) as [expiry|]; [|done].
  by destruct (bool_decide (expiry < now)%Z).
Qed.

(** A callback either leaves everything alone, or consumes a live state; a
    session is opened in the second case only, for a verified code. *)
Lemma OIDCCallbackHandler_spec now random state code a :
  match OIDCCallbackHandler now random state code a with
  | (a', Ret r) =>
      a' = a /\ r.(set_cookie) = None \/
      a.(au_Config).(OIDCEnabled) = true /\
      (exists expiry, a.(au_oidcStates) !! state = Some expiry /\ (now <= expiry)%Z) /\
      let a1 := with_oidcStates (delete state a.(au_oidcStates)) a in
      if verified now code then (a', Ret r) = opened a.(au_Config) now random a1
      else a' = a1 /\ r.(set_cookie) = None
  | _ => False
  end.
Proof.
  unfold OIDCCallbackHandler. erewrite bind_Ret by done.
  destruct (OIDCEnabled (au_Config a)) eqn:Hen; [|by left].
  cbn [negb]. pose proof (consumeOIDCState_spec now state a) as E.
  destruct (au_oidcStates a !! state) as [expiry|] eqn:Hst;
    [|by rewrite (bind_Ret _ _ _ _ _ E); left].
  destruct (decide (expiry < now)%Z) as [Hexp|Hexp].
  - rewrite bool_decide_eq_true_2 in E by done. rewrite (bind_Ret _ _ _ _ _ E). by left.
  - rewrite bool_decide_eq_false_2 in E by done. rewrite (bind_Ret _ _ _ _ _ E). cbn [negb].
    assert (Hlive : exists expiry', Some expiry = Some expiry' /\ (now <= expiry')%Z) by (eexists; split; [done|lia]).
    unfold verified. destruct (code == ""); cbn; [by right|].
    destruct (Exchange code) as [[raw|]|]; [|by right..]. by destruct (VerifyIDToken now raw); right.
Qed.
End effects.

(** ** Where sessions come from *)

Lemma foreach_snoc {S A} (body : A -> GoM S unit) l x s : (forall y, returns (body y)) ->
  run (foreach (l ++ [x]) body) s = run (body x) (run (foreach l body) s).
Proof.
  intros Hb. revert s. induction l as [|y l IH]; intros s; cbn [foreach app].
  - apply run_skip.
  - destruct (Hb y s) as [u Hu]. unfold run, result, mbind, GoM_bind in *.
    destruct (body y s) as [s' r]. cbn in Hu. subst r. apply IH.
Qed.

Section sessions.
Context `{OidcProvider}.

(** In the history [es] of an instance with configuration [cfg]: *)
Definition state_asked (cfg : AuthConfig) (es : list auth_event) (state : string) (t : Z) : Prop :=
  exists pre e post, es = pre ++ e :: post /\ asks_state cfg state e = true /\ event_time e = t.

Definition session_issued (cfg : AuthConfig) (es : list auth_event) (token : string) (t : Z) : Prop :=
  exists pre e post, es = pre ++ e :: post /\ event_time e = t /\
    (logs_in cfg token e = true \/
     exists state t0, calls_back cfg token state e = true /\ state_asked cfg pre state t0 /\
       (t <= t0 + 10 * Minute)%Z).

Record auth_inv (cfg : AuthConfig) (es : list auth_event) (a : Auth) : Prop := {
  inv_config : a.(au_Config) = cfg;
  inv_states : forall state x, a.(au_oidcStates) !! state = Some x ->
    state_asked cfg es state (x - 10 * Minute);
  inv_sessions : forall token x, a.(au_sessions) !! token = Some x ->
    session_issued cfg es token (x - 24 * Hour);
}.

Lemma asked_snoc cfg es e state t : state_asked cfg es state t -> state_asked cfg (es ++ [e]) state t.
Proof. intros (pre & f & post & -> & Hf). exists pre, f, (post ++ [e]). by rewrite <- app_assoc. Qed.
Lemma issued_snoc cfg es e token t : session_issued cfg es token t -> session_issued cfg (es ++ [e]) token t.
Proof. intros (pre & f & post & -> & Hf). exists pre, f, (post ++ [e]). by rewrite <- app_assoc. Qed.

Lemma auth_inv_same cfg es e a : auth_inv cfg es a -> auth_inv cfg (es ++ [e]) a.
Proof. intros [Hc Hst Hs]. split; [done|eauto using asked_snoc|eauto using issued_snoc]. Qed.

Lemma auth_inv_opened cfg es e a now random : auth_inv cfg es a ->
  session_issued cfg (es ++ [e]) (generateToken random) now ->
  auth_inv cfg (es ++ [e]) (fst (opened cfg now random a)).
Proof.
  intros [Hc Hst Hs] Hnew. split; cbn; [done|eauto using asked_snoc|].
  intros token x [[<- <-]|[_ Hx]]%lookup_insert_Some; [|eauto using issued_snoc].
  by replace (now + 24 * Hour - 24 * Hour)%Z with now by lia.
Qed.

Lemma auth_inv_consumed cfg es a state : auth_inv cfg es a ->
  auth_inv cfg es (with_oidcStates (delete state a.(au_oidcStates)) a).
Proof. intros [Hc Hst Hs]. split; cbn; [done| |done]. intros st x [_ Hx]%lookup_delete_Some. eauto. Qed.

Lemma auth_inv_step cfg es a e : auth_inv cfg es a -> auth_inv cfg (es ++ [e]) (run (exec_auth e) a).
Proof.
  intros Hinv. pose proof (inv_config _ _ _ Hinv) as Hc.
  destruct e as [now random m u p|now random|now random state code|now|now cookie]; unfold run; cbn [exec_auth].
  - rewrite LoginHandler_spec, Hc. destruct (m == "GET") eqn:Hg; [by apply auth_inv_same|].
    destruct (m == "POST") eqn:Hm; [|by apply auth_inv_same].
    destruct (_ && _) eqn:Hok; [|by apply auth_inv_same].
    apply auth_inv_opened; [done|]. eexists es, _, []. split_and!; [done|done|left].
    apply andb_prop in Hok as [Hu Hp]. cbn. by rewrite Hm, Hu, Hp, bool_decide_eq_true_2.
  - rewrite OIDCLoginHandler_spec, Hc. destruct (OIDCEnabled cfg) eqn:Hen; [|by apply auth_inv_same].
    destruct Hinv as [_ Hst Hs]. split; cbn; [done| |eauto using issued_snoc].
    intros st x [[<- <-]|[_ Hx]]%lookup_insert_Some; [|eauto using asked_snoc].
    eexists es, _, []. split_and!; [done|cbn; by rewrite Hen, bool_decide_eq_true_2|cbn; lia].
  - pose proof (OIDCCallbackHandler_spec now random state code a) as Hcb.
    destruct (OIDCCallbackHandler now random state code a) as [a' [r|?|]]; [|done..]. cbn [fst].
    destruct Hcb as [[-> _]|(Hen & (x & Hx & Hle) & Hcb)]; [by apply auth_inv_same|].
    rewrite Hc in *. destruct (verified now code) eqn:Hv; [|destruct Hcb as [-> _]; by apply auth_inv_same, auth_inv_consumed].
    injection Hcb as -> ->.
    apply (auth_inv_opened _ _ _ (with_oidcStates (delete state a.(au_oidcStates)) a)); [by apply auth_inv_consumed|].
    eexists es, _, []. split_and!; [done|done|right]. exists state, (x - 10 * Minute)%Z.
    split_and!; [|by apply Hinv|lia]. cbn. unfold verified in Hv. apply andb_prop in Hv as [Hv1 Hv2].
    by rewrite Hen, Hv1, Hv2, !bool_decide_eq_true_2.
  - by apply auth_inv_same.
  - erewrite bind_Ret by apply RequireAuth_skip. by apply auth_inv_same.
Qed.

Lemma exec_auths_snoc es e a : run (exec_auths (es ++ [e])) a = run (exec_auth e) (run (exec_auths es) a).
Proof.
  unfold exec_auths. rewrite foreach_snoc; [apply run_skip|].
  intros f. apply returns_bind; [apply returns_exec_auth|intros; apply returns_ret].
Qed.

Lemma auth_inv_reached cfg a0 es : NewAuth cfg = Some a0 -> auth_inv cfg es (run (exec_auths es) a0).
Proof.
  intros Hnew. induction es as [|e es IH] using rev_ind.
  - unfold NewAuth in Hnew. destruct (_ && _); [done|]. injection Hnew as <-.
    by split; [done|intros st x Hx..]; cbn in Hx; rewrite lookup_empty in Hx.
  - rewrite exec_auths_snoc. by apply auth_inv_step.
Qed.

(** C36. A request passes the session check only with a token that an earlier
    event issued at most a day ago: a login with the configured credentials,
    or an SSO callback whose code the provider verified and whose state an
    earlier SSO login of this instance had stored at most ten minutes before
    the callback. Whatever the order of events and the clock. *)
Theorem sessions_come_from_logins {A} cfg a0 es now cookie (next : GoM Auth A) a' r :
  NewAuth cfg = Some a0 ->
  RequireAuth next now cookie (run (exec_auths es) a0) = (a', Ret (inl r)) ->
  exists token t, cookie = Some token /\ session_issued cfg es token t /\ (now <= t + 24 * Hour)%Z.
Proof.
  intros Hnew. pose proof (auth_inv_reached cfg a0 es Hnew) as Hinv. unfold RequireAuth.
  erewrite bind_Ret by apply getSession_spec. destruct cookie as [id|]; [|done].
  destruct (au_sessions _ !! id) as [x|] eqn:Hx; [|done].
  destruct (decide (x < now)%Z); [by rewrite (bool_decide_eq_true_2 (x < now)%Z)|]. intros _.
  exists id, (x - 24 * Hour)%Z. split_and!; [done|by apply Hinv|lia].
Qed.

(** The other direction: what a login hands out works for a day. *)
Definition kept_until (token : string) (t : Z) (a : Auth) : Prop :=
  exists x, a.(au_sessions) !! token = Some x /\ (t <= x)%Z.

Lemma kept_opened token t cfg now random a : (t <= now + 24 * Hour)%Z ->
  kept_until token t a -> kept_until token t (fst (opened cfg now random a)).
Proof.
  intros Ht (x & Hx & Hle). unfold kept_until. cbn. destruct (decide (generateToken random = token)) as [<-|Hne].
  - eexists. by rewrite lookup_insert_eq.
  - exists x. by rewrite lookup_insert_ne.
Qed.

Lemma kept_step token t e a : (t <= event_time e + 24 * Hour)%Z ->
  kept_until token t a -> kept_until token t (run (exec_auth e) a).
Proof.
  intros Ht Hk. destruct e as [now random m u p|now random|now random state code|now|now cookie];
    unfold run; cbn [exec_auth event_time] in *; [| | |done|].
  - rewrite LoginHandler_spec. destruct (m == "GET"); [done|]. destruct (m == "POST"); [|done].
    destruct (_ && _); [|done]. by apply kept_opened.
  - rewrite OIDCLoginHandler_spec. by destruct (OIDCEnabled _).
  - pose proof (OIDCCallbackHandler_spec now random state code a) as Hcb.
    destruct (OIDCCallbackHandler now random state code a) as [a' [r|?|]]; [|done..]. cbn [fst].
    destruct Hcb as [[-> _]|(_ & _ & Hcb)]; [done|].
    destruct (verified now code); [|by destruct Hcb as [-> _]].
    injection Hcb as -> ->. by apply (kept_opened _ _ (au_Config a) now random a).
  - erewrite bind_Ret by apply RequireAuth_skip. done.
Qed.

Lemma kept_events token t es a : Forall (fun e => t <= event_time e + 24 * Hour)%Z es ->
  kept_until token t a -> kept_until token t (run (exec_auths es) a).
Proof.
  induction es as [|e es IH] using rev_ind; intros Hes Hk; [done|].
  apply Forall_app in Hes as [Hes [He _]%Forall_cons_1]. rewrite exec_auths_snoc. by apply kept_step; [|apply IH].
Qed.

Lemma opens_session e a a1 r ck : exec_auth e a = (a1, Ret r) ->
  r.(set_cookie) = Some ck -> ck.(ck_Value) <> "" ->
  a1.(au_sessions) !! ck.(ck_Value) = Some (event_time e + 24 * Hour)%Z.
Proof.
  destruct e as [now random m u p|now random|now random state code|now|now cookie]; cbn [exec_auth event_time]; intros E Hck Hv.
  - rewrite LoginHandler_spec in E. destruct (m == "GET"); [by simplify_eq|]. destruct (m == "POST"); [|by simplify_eq].
    destruct (_ && _); [|by simplify_eq]. unfold opened in E. simplify_eq. cbn in *. simplify_eq. by rewrite lookup_insert_eq.
  - rewrite OIDCLoginHandler_spec in E. destruct (OIDCEnabled _); by simplify_eq.
  - pose proof (OIDCCallbackHandler_spec now random state code a) as Hcb. rewrite E in Hcb.
    destruct Hcb as [[_ Hn]|(_ & _ & Hcb)]; [by rewrite Hn in Hck|].
    destruct (verified now code); [|destruct Hcb as [_ Hn]; by rewrite Hn in Hck].
    unfold opened in Hcb. simplify_eq. cbn in *. simplify_eq. by rewrite lookup_insert_eq.
  - unfold LogoutHandler, clearSession, mbind, GoM_bind, gets in E. cbn in E.
    injection E as <- <-. injection Hck as <-. by destruct Hv.
  - erewrite bind_Ret in E by apply RequireAuth_skip. injection E as <- <-.
    exfalso. revert Hck. destruct cookie as [id|]; [|done]. destruct (au_sessions a !! id); [|done].
    destruct (bool_decide _); [done|]. by destruct (id != "").
Qed.

(** A session cookie handed out by a login or a callback lets its bearer
    through for the whole day after it, whatever requests come in between at
    no earlier times, logouts of that same session included: only its expiry
    ends a session. *)
Theorem sessions_last_a_day {A} e a a1 r ck es now (next : GoM Auth A) :
  exec_auth e a = (a1, Ret r) -> r.(set_cookie) = Some ck -> ck.(ck_Value) <> "" ->
  Forall (fun f => event_time e <= event_time f)%Z es ->
  (now <= event_time e + 24 * Hour)%Z ->
  let s := run (exec_auths es) a1 in
  RequireAuth next now (Some ck.(ck_Value)) s = (x ← next; mret (inl x)) s.
Proof.
  intros E Hck Hv Hes Hnow. cbv zeta.
  assert (Hk : kept_until ck.(ck_Value) (event_time e + 24 * Hour) (run (exec_auths es) a1)).
  { apply kept_events; [|eexists; split; [by eapply opens_session|lia]].
    eapply Forall_impl; [|exact Hes]. cbn. lia. }
  destruct Hk as (x & Hx & Hle). unfold RequireAuth.
  pose proof (getSession_spec now (Some ck.(ck_Value)) (run (exec_auths es) a1)) as G.
  cbn beta iota in G. rewrite Hx, bool_decide_eq_false_2 in G by lia.
  rewrite (bind_Ret _ _ _ _ _ G). by rewrite (bool_decide_eq_false_2 (ck_Value ck = "")).
Qed.

(** The sessions that callbacks open in a history, and the SSO logins in it. *)
Fixpoint sso_sessions (es : list auth_event) (a : Auth) : nat :=
  match es with
  | [] => 0
  | e :: es' =>
      (match e, result (exec_auth e) a with
       | EvCallback _ _ _ _, Ret r => match r.(set_cookie) with Some _ => 1 | None => 0 end
       | _, _ => 0
       end + sso_sessions es' (run (exec_auth e) a))%nat
  end.
Definition is_sso_login (e : auth_event) : bool := match e with EvOIDCLogin _ _ => true | _ => false end.

(** Every stored state is good for one callback: the callbacks of any
    history open at most as many sessions as SSO logins were started. *)
Theorem states_are_one_shot cfg a0 es : NewAuth cfg = Some a0 ->
  sso_sessions es a0 <= length (List.filter is_sso_login es).
Proof.
  intros Hnew. cut (forall es a, sso_sessions es a <= size a.(au_oidcStates) + length (List.filter is_sso_login es)).
  { intros Hgen. etrans; [apply Hgen|]. unfold NewAuth in Hnew. destruct (_ && _); [done|]. by injection Hnew as <-. }
  clear. induction es as [|e es IH]; intros a; cbn [sso_sessions List.filter]; [lia|].
  specialize (IH (run (exec_auth e) a)). revert IH.
  destruct e as [now random m u p|now random|now random state code|now|now cookie];
    unfold run, result; cbn [exec_auth is_sso_login length].
  - rewrite LoginHandler_spec. destruct (m == "GET"); [done|]. destruct (m == "POST"); [|done]. by destruct (_ && _).
  - rewrite OIDCLoginHandler_spec. destruct (OIDCEnabled _); cbn; [|lia].
    rewrite map_size_insert. case_match; cbn; lia.
  - pose proof (OIDCCallbackHandler_spec now random state code a) as Hcb.
    destruct (OIDCCallbackHandler now random state code a) as [a' [r|?|]]; [|done..]. cbn [fst snd].
    destruct Hcb as [[-> ->]|(_ & (x & Hx & _) & Hcb)]; [cbn; lia|].
    assert (Hs : size a.(au_oidcStates) = S (size (delete state a.(au_oidcStates)))).
    { rewrite map_size_delete_Some by eauto.
      pose proof (map_size_ne_0_lookup_2 _ state (mk_is_Some _ _ Hx)). lia. }
    destruct (verified now code); [injection Hcb as -> ->|destruct Hcb as [-> ->]]; cbn; lia.
  - done.
  - erewrite bind_Ret by apply RequireAuth_skip. cbn. lia.
Qed.
End sessions.

(** ** Witnesses *)

Section witnesses.
(** A provider that answers every code with an ID token it accepts. *)
#[local] Instance any_code : OidcProvider := {|
  discovers _ := true; AuthCodeURL s := s; Exchange c := Some (Some c); VerifyIDToken _ _ := true |}.
Definition config_ex : AuthConfig :=
  {| AdminUser := "admin"; AdminPassword := "synergia"; OIDCEnabled := true; OIDCClientID := "";
     OIDCClientSecret := ""; OIDCProviderURL := ""; OIDCRedirectURL := ""; Insecure := false |}.
Definition auth_ex : Auth := {| au_Config := config_ex; au_sessions := ∅; au_oidcStates := ∅ |}.
Definition sso_events : list auth_event :=
  [EvOIDCLogin 0 "a"; EvLogout 5; EvCallback 10 "b" (generateToken "a") "code"].

Lemma sessions_come_from_logins_witness : exists token t,
  Some (generateToken "b") = Some token /\ session_issued config_ex sso_events token t /\ (20 <= t + 24 * Hour)%Z.
Proof. eapply (sessions_come_from_logins config_ex auth_ex sso_events 20 _ skip); vm_compute; reflexivity. Defined.

Lemma sessions_last_a_day_witness :
  let s := run (exec_auths [EvLogout 7]) (run (exec_auth (EvLogin 5 "t" "POST" "admin" "synergia")) auth_ex) in
  RequireAuth skip 9 (Some (generateToken "t")) s = (x ← skip; mret (inl x)) s.
Proof.
  eapply (sessions_last_a_day (EvLogin 5 "t" "POST" "admin" "synergia") auth_ex _ _
    {| ck_Value := generateToken "t"; ck_Secure := true; ck_MaxAge := 0 |} [EvLogout 7] 9 skip);
    [vm_compute; reflexivity|vm_compute; reflexivity|done| |vm_compute; done].
  repeat constructor; cbn; lia.
Defined.

Lemma states_are_one_shot_witness :
  sso_sessions sso_events auth_ex <= length (List.filter is_sso_login sso_events).
Proof. apply (states_are_one_shot config_ex). vm_compute. reflexivity. Defined.
End witnesses.
