(* ===== verification/Cache.v ===== *)
(** * The dashboard cache (internal/manager/cache/cache.go)

    The release tags, refreshed on request, and the statistics of the admin
    dashboard, recomputed from the database every second. Each query of
    [refreshStats] may fail on its own and then leaves its figure at zero.
    The two raw SQL statements are given as the joins and groupings they are;
    SQLite's AVG is exact on the integers that occur. *)

From S2P Require Import Prelude GoStd Gorm Models Workers Roles Latency.

Record RoleCount := { rc_Role : string; rc_Online : Z; rc_Total : Z }.
Record RoleWorkCount := { rk_Role : string; rk_Total : Z }.
(** the time is formatted for display *)
Record ErrorEntry := { ee_Fingerprint : string; ee_Version : string; ee_Error : string; ee_ReportedAt : string }.
Record RoleEntry := {
  re_Role : string; re_Model : string; re_Quantisation : string; re_Filename : string;
  re_ModelFileHash : string; re_MinVRAMMB : Z; re_Description : string }.

Record DashboardStats := {
  TotalWorkers : Z; ReadyWorkers : Z; ProcessingWorkers : Z; UnavailableWorkers : Z; OfflineWorkers : Z;
  RoleCounts : list RoleCount;
  TodayTotal : Z; TodayCompleted : Z; TodayQueued : Z; TodayTimeout : Z; TodayFailed : Z;
  RoleWorkCounts : list RoleWorkCount;
  Errors : list ErrorEntry;
  VersionTarget : string; VersionRolloutMode : string; VersionPercentage : Z; VersionSHA256 : string;
  WorkersSynced : Z; WorkersOutdated : Z;
  BackendName : string; BackendVersion : string; BackendDownloadURL : string; BackendSHA256Full : string;
  BackendSynced : Z; BackendOutdated : Z;
  ModelSynced : Z; ModelOutOfSync : Z; DeletedWorkers : Z;
  AvgWorkerGPU : Z;
  RoleEntries : list RoleEntry;
}.

Record Cache := {
  ca_backendTags : gmap string (list string);
  ca_clientTags : list string;
  ca_stats : DashboardStats;
}.

Definition set_ca_backendTags (m : gmap string (list string)) (c : Cache) : Cache :=
  {| ca_backendTags := m; ca_clientTags := c.(ca_clientTags); ca_stats := c.(ca_stats) |}.
Definition set_ca_clientTags (l : list string) (c : Cache) : Cache :=
  {| ca_backendTags := c.(ca_backendTags); ca_clientTags := l; ca_stats := c.(ca_stats) |}.
Definition set_ca_stats (s : DashboardStats) (c : Cache) : Cache :=
  {| ca_backendTags := c.(ca_backendTags); ca_clientTags := c.(ca_clientTags); ca_stats := s |}.

Definition zero_stats : DashboardStats := {|
  TotalWorkers := 0; ReadyWorkers := 0; ProcessingWorkers := 0; UnavailableWorkers := 0; OfflineWorkers := 0;
  RoleCounts := []; TodayTotal := 0; TodayCompleted := 0; TodayQueued := 0; TodayTimeout := 0; TodayFailed := 0;
  RoleWorkCounts := []; Errors := []; VersionTarget := EmptyString; VersionRolloutMode := EmptyString;
  VersionPercentage := 0; VersionSHA256 := EmptyString; WorkersSynced := 0; WorkersOutdated := 0;
  BackendName := EmptyString; BackendVersion := EmptyString; BackendDownloadURL := EmptyString;
  BackendSHA256Full := EmptyString; BackendSynced := 0; BackendOutdated := 0; ModelSynced := 0; ModelOutOfSync := 0;
  DeletedWorkers := 0; AvgWorkerGPU := 0; RoleEntries := [] |}.
(** [New], before its first refresh and the prefetch of the client tags. *)
Definition NewCache : Cache := {| ca_backendTags := ∅; ca_clientTags := []; ca_stats := zero_stats |}.

(** ** Tags. [fetched] is GitHub's answer, [None] its error. *)

Definition GetBackendTags (name : string) : GoM Cache (list string) :=
  gets (fun c => default [] (c.(ca_backendTags) !! name)).
Definition GetClientTags : GoM Cache (list string) := gets ca_clientTags.
Definition GetStats : GoM Cache DashboardStats := gets ca_stats.

Definition RefreshBackendTags (name : string) (fetched : option (list string)) : GoM Cache (option (list string)) :=
  match fetched with
  | None => mret None
  | Some tags => modify (fun c => set_ca_backendTags (<[name := tags]> c.(ca_backendTags)) c) ;; mret (Some tags)
  end.
Definition RefreshClientTags (fetched : option (list string)) : GoM Cache (option (list string)) :=
  match fetched with
  | None => mret None
  | Some tags => modify (set_ca_clientTags tags) ;; mret (Some tags)
  end.

(** ** Grouping rows by a text column, in the order of its values *)

Fixpoint insert_string (x : string) (l : list string) : list string :=
  match l with
  | [] => [x]
  | y :: l' => if String.leb x y then x :: l else y :: insert_string x l'
  end.
Definition sort_strings (l : list string) : list string := foldr insert_string [] l.
Definition group_by {A} (f : A -> string) (l : list A) : list (string * list A) :=
  (fun k => (k, List.filter (fun x => f x == k) l)) <$> sort_strings (remove_dups (f <$> l)).

(** ** The statistics *)

Definition is_one_of (s : string) (l : list string) : bool := existsb (fun x => s == x) l.
Definition ready_row (w : Worker) : bool :=
  is_one_of w.(w_Status) ["available"; "online"] && (w.(w_SyncStatus) == "synced").
Definition processing_row (w : Worker) : bool := (w.(w_Status) == "processing") && (w.(w_SyncStatus) == "synced").
Definition present_row (w : Worker) : bool := negb (is_one_of w.(w_Status) ["offline"; "deleted"]).

(** [FROM workers w LEFT JOIN worker_configs wc ON wc.fingerprint = w.fingerprint] *)
Definition left_join (configs : list WorkerConfig) (w : Worker) : list (Worker * option WorkerConfig) :=
  match List.filter (fun c => c.(wc_Fingerprint) == w.(w_Fingerprint)) configs with
  | [] => [(w, None)]
  | cs => (fun c => (w, Some c)) <$> cs
  end.
Definition joined_role (row : Worker * option WorkerConfig) : string :=
  match row.2 with
  | Some c => if c.(wc_PreferredRole) != "" then c.(wc_PreferredRole) else "inference"
  | None => "inference"
  end.
Definition joined_online (row : Worker * option WorkerConfig) : bool :=
  is_one_of row.1.(w_Status) ["available"; "processing"].
Definition role_count (g : string * list (Worker * option WorkerConfig)) : RoleCount :=
  {| rc_Role := g.1; rc_Online := Z.of_nat (length (List.filter joined_online g.2));
     rc_Total := Z.of_nat (length g.2) |}.

(** A query whose error leaves the destination empty. *)
Definition rows_or_none {A} (r : list A + db_err) : list A := match r with inl l => l | inr _ => [] end.

Definition elide (n : nat) (s : string) : string :=
  if bool_decide (n < String.length s)%nat then take_str n s +:+ "…" else s.

Section cache.
Context `{Gorm} (format_time : Z -> string).

Definition error_entry (e : ClientError) : ErrorEntry :=
  {| ee_Fingerprint := elide 12 e.(ce_Fingerprint); ee_Version := e.(ce_Version);
     ee_Error := elide 120 e.(ce_ErrorMessage); ee_ReportedAt := format_time e.(ce_ReportedAt) |}.
Definition role_entry (r : RoleModel) : RoleEntry :=
  {| re_Role := r.(rm_Role); re_Model := r.(rm_LLMModel); re_Quantisation := r.(rm_Quantisation);
     re_Filename := r.(rm_ModelFilename); re_ModelFileHash := r.(rm_ModelFileHash);
     re_MinVRAMMB := r.(rm_MinVRAMMB); re_Description := r.(rm_Description) |}.

Definition role_counts : GoM Store (list RoleCount) :=
  workers ← Find Workers (fun _ => true) None None;
  configs ← Find Configs (fun _ => true) None None;
  mret (match workers, configs with
        | inl ws, inl cs => role_count <$> group_by joined_role (ws ≫= left_join cs)
        | _, _ => []
        end).
Definition role_work_counts (since : Z) : GoM Store (list RoleWorkCount) :=
  samples ← Find Samples (fun x => bool_decide (since <= x.(ls_CreatedAt))%Z) None None;
  mret ((fun g => {| rk_Role := g.1; rk_Total := Z.of_nat (length g.2) |}) <$>
          group_by ls_Role (rows_or_none samples)).
Definition avg_gpu : GoM Store Z :=
  rows ← Find Workers (fun w => present_row w && bool_decide (0 < w.(w_GPUAvg))%Z) None None;
  mret (sql_avg (w_GPUAvg <$> rows_or_none rows)).

(** The counts of workers against a target, made only when there is one. *)
Definition count_if (target : string) (p : Worker -> bool) : GoM Store Z :=
  if target != "" then Count Workers p else mret 0%Z.

Definition computeStats (now : Z) : GoM Store DashboardStats :=
  total ← Count Workers (fun _ => true);
  ready ← Count Workers ready_row;
  processing ← Count Workers processing_row;
  unavailable ← Count Workers (fun w => (w.(w_Status) != "offline") && negb (ready_row w) && negb (processing_row w));
  offline ← Count Workers (fun w => w.(w_Status) == "offline");
  deleted ← Count Workers (fun w => w.(w_Status) == "deleted");
  model_synced ← Count Workers (fun w => present_row w && (w.(w_SyncStatus) == "synced"));
  model_out ← Count Workers (fun w => present_row w && (w.(w_SyncStatus) == "out-of-sync"));
  gpu ← avg_gpu;
  roles_of_workers ← role_counts;
  let startOfDay := Truncate (24 * Hour) now in
  let today (u : WorkUnitRow) := bool_decide (startOfDay <= u.(u_CreatedAt))%Z in
  t_total ← Count WorkUnits today;
  t_completed ← Count WorkUnits (fun u => today u && (u.(u_Status) == "completed"));
  t_timeout ← Count WorkUnits (fun u => today u && (u.(u_Status) == "timeout"));
  t_failed ← Count WorkUnits (fun u => today u && (u.(u_Status) == "failed"));
  queued ← Count Batches (fun b => is_one_of b.(b_Status) ["pending"; "processing"]);
  role_work ← role_work_counts startOfDay;
  errors ← Find ClientErrors (fun _ => true) (Some (fun e => - e.(ce_ReportedAt))%Z) (Some 10%nat);
  version ← GetClientVersionConfig;
  let target := match version with inl c => c.(cv_TargetVersion) | inr _ => "" end in
  synced ← count_if target (fun w => (w.(w_Status) != "offline") && (w.(w_ClientVersion) == target));
  outdated ← count_if target (fun w => (w.(w_Status) != "offline") && (w.(w_ClientVersion) != target));
  backend ← GetBackendVersionConfig;
  let backend_version := match backend with inl c => c.(bv_Version) | inr _ => "" end in
  backend_synced ← count_if backend_version (fun w => (w.(w_Status) != "offline") && (w.(w_BackendSyncStatus) == "synced"));
  backend_out ← count_if backend_version (fun w => (w.(w_Status) != "offline") && (w.(w_BackendSyncStatus) == "out-of-sync"));
  roles ← GetRoleModels;
  mret {|
    TotalWorkers := total; ReadyWorkers := ready; ProcessingWorkers := processing;
    UnavailableWorkers := unavailable; OfflineWorkers := offline;
    RoleCounts := roles_of_workers;
    TodayTotal := t_total; TodayCompleted := t_completed; TodayQueued := queued;
    TodayTimeout := t_timeout; TodayFailed := t_failed;
    RoleWorkCounts := role_work;
    Errors := error_entry <$> rows_or_none errors;
    VersionTarget := target;
    VersionRolloutMode := match version with inl c => c.(cv_RolloutMode) | inr _ => "" end;
    VersionPercentage := match version with inl c => c.(cv_RolloutPercentage) | inr _ => 0%Z end;
    VersionSHA256 := "";
    WorkersSynced := synced; WorkersOutdated := outdated;
    BackendName := match backend with inl c => c.(bv_Name) | inr _ => "" end;
    BackendVersion := backend_version;
    BackendDownloadURL := match backend with inl c => c.(bv_DownloadURL) | inr _ => "" end;
    BackendSHA256Full := match backend with inl c => c.(bv_SHA256) | inr _ => "" end;
    BackendSynced := backend_synced; BackendOutdated := backend_out;
    ModelSynced := model_synced; ModelOutOfSync := model_out; DeletedWorkers := deleted;
    AvgWorkerGPU := gpu;
    RoleEntries := role_entry <$> rows_or_none roles |}.
End cache.

(** The computed statistics replace the cached ones. *)
Definition refreshStats `{Gorm} (format_time : Z -> string) (now : Z) (s : Store) : GoM Cache unit :=
  match computeStats format_time now s with
  | (_, Ret stats) => modify (set_ca_stats stats)
  | (_, Panic e) => panic e
  | (_, Blocked) => block
  end.

(** [New]: the first statistics, and tags prefetched in the background; an empty
    answer changes nothing. *)
Definition prefetch (fetched : option (list string)) : GoM Cache unit :=
  match fetched with Some (_ :: _ as tags) => modify (set_ca_clientTags tags) | _ => skip end.
Definition Cache_New `{Gorm} (format_time : Z -> string) (now : Z) (s : Store) (fetched : option (list string)) : GoM Cache unit :=
  refreshStats format_time now s ;; prefetch fetched.
(** [statsLoop]: the clock and the database at every tick *)
Definition statsLoop `{Gorm} (format_time : Z -> string) (ticks : list (Z * Store)) : GoM Cache unit :=
  foreach ticks (fun tick => refreshStats format_time tick.1 tick.2).

(** The dashboard shows the statistics of the last tick, and refreshing them
    leaves the release tags alone. *)
Theorem statistics_are_of_the_last_tick `{Gorm} format_time ticks now s stats c :
  (forall tick, tick ∈ ticks -> exists st, (computeStats format_time tick.1 tick.2).2 = Ret st) ->
  (computeStats format_time now s).2 = Ret stats ->
  exists c', statsLoop format_time (ticks ++ [(now, s)]) c = (c', Ret tt) /\ c'.(ca_stats) = stats /\
    c'.(ca_clientTags) = c.(ca_clientTags) /\ c'.(ca_backendTags) = c.(ca_backendTags).
Proof.
  intros Hticks Hlast.
  assert (Hr : forall t c, (exists st, (computeStats format_time t.1 t.2).2 = Ret st) -> exists c', refreshStats format_time t.1 t.2 c = (c', Ret tt) /\
      (computeStats format_time t.1 t.2).2 = Ret c'.(ca_stats) /\
      c'.(ca_clientTags) = c.(ca_clientTags) /\ c'.(ca_backendTags) = c.(ca_backendTags)).
  { intros t c0 [st Est]. unfold refreshStats. destruct (computeStats format_time t.1 t.2) as [s' r]. cbn in Est. subst r. by eexists. }
  assert (Hl : exists c1, statsLoop format_time ticks c = (c1, Ret tt) /\ c1.(ca_clientTags) = c.(ca_clientTags) /\
      c1.(ca_backendTags) = c.(ca_backendTags)).
  { unfold statsLoop. clear Hlast. revert c. induction ticks as [|t ticks IH]; intros c; [by exists c|].
    destruct (Hr t c) as (c1 & E1 & _ & T1 & B1); [apply Hticks; by left|].
    destruct (IH (fun t' Ht => Hticks t' (list_elem_of_further _ _ _ Ht)) c1) as (c2 & E2 & T2 & B2).
    exists c2. cbn [foreach]. rewrite (bind_Ret _ _ _ _ _ E1). split_and!; [exact E2|congruence|congruence]. }
  destruct Hl as (c1 & E1 & T1 & B1). destruct (Hr (now, s) c1) as (c2 & E2 & Est & T2 & B2); [by eexists|].
  exists c2. unfold statsLoop. rewrite (foreach_app_Ret _ _ _ _ _ E1). cbn [foreach]. rewrite (bind_Ret _ _ _ _ _ E2).
  cbn in Est. rewrite Hlast in Est. injection Est as ->. split_and!; [done..|congruence|congruence].
Qed.

(** ** Every worker is accounted for *)

Section accounting.
Context `{GormLaws, !GormUp} (format_time : Z -> string).

Definition workers_with (p : Worker -> bool) (s : Store) : Z := Z.of_nat (length (List.filter p (live (db_Workers s)))).

Lemma Count_up {R} (tbl : lens Store (Tbl R)) p s :
  Count tbl p s = (s, Ret (Z.of_nat (length (List.filter p (live (lget tbl s)))))).
Proof.
  unfold Count, gets. destruct (up_find p None None (lget tbl s)) as [l E]. rewrite E.
  destruct (find_ok _ _ _ _ _ E) as (l' & Hp & _ & ->). cbn [limited]. by rewrite Hp.
Qed.

Lemma count_if_up target p s :
  count_if target p s = (s, Ret (if target != "" then workers_with p s else 0%Z)).
Proof. unfold count_if. destruct (target != ""); [apply (Count_up Workers)|done]. Qed.

Lemma count_split (p q r : Worker -> bool) s : (forall w, p w = q w || r w) -> (forall w, q w && r w = false) ->
  workers_with p s = (workers_with q s + workers_with r s)%Z.
Proof.
  intros Hor Hand. unfold workers_with. induction (live (db_Workers s)) as [|w l IH]; [done|]. cbn [List.filter].
  specialize (Hor w). specialize (Hand w). destruct (p w), (q w), (r w); try discriminate; cbn [length]; lia.
Qed.

(** Groups partition the rows. *)
Lemma insert_string_perm x l : insert_string x l ≡ₚ x :: l.
Proof.
  induction l as [|y l IH]; [done|]. cbn [insert_string]. destruct (String.leb x y); [done|].
  rewrite IH. apply perm_swap.
Qed.
Lemma sort_strings_perm l : sort_strings l ≡ₚ l.
Proof. induction l as [|x l IH]; [done|]. cbn. by rewrite insert_string_perm, IH. Qed.

Lemma filter_keys {A} (f : A -> string) (x : A) (l : list A) (keys : list string) : NoDup keys ->
  sum_list ((fun k => length (List.filter (fun y => f y == k) (x :: l))) <$> keys) =
  (if decide (f x ∈ keys) then 1 else 0) + sum_list ((fun k => length (List.filter (fun y => f y == k) l)) <$> keys).
Proof.
  intros Hnd. induction keys as [|k keys IH]; [by rewrite decide_False by set_solver|].
  inversion_clear Hnd as [|? ? Hk Hkeys]. specialize (IH Hkeys). cbn [fmap list_fmap sum_list foldr List.filter] in *.
  change (sum_list_with id) with sum_list in *. cbn in IH |- *. rewrite IH.
  destruct (decide (f x = k)) as [<-|Hne].
  - rewrite bool_decide_eq_true_2 by done. rewrite decide_False by done.
    rewrite decide_True by set_solver. cbn. lia.
  - rewrite bool_decide_eq_false_2 by done.
    destruct (decide (f x ∈ keys)) as [Hin|Hin]; [rewrite decide_True by set_solver|rewrite decide_False by set_solver]; lia.
Qed.

Lemma group_by_covers {A} (f : A -> string) (l : list A) :
  sum_list ((fun g => length g.2) <$> group_by f l) = length l.
Proof.
  unfold group_by. rewrite <- list_fmap_compose.
  set (keys := sort_strings (remove_dups (f <$> l))).
  assert (Hnd : NoDup keys) by (unfold keys; rewrite sort_strings_perm; apply NoDup_remove_dups).
  assert (Hall : forall x, x ∈ l -> f x ∈ keys).
  { intros x Hx. unfold keys. rewrite sort_strings_perm, elem_of_remove_dups. by apply list_elem_of_fmap_2. }
  clearbody keys. unfold compose. cbn [snd]. induction l as [|x l IH].
  - clear Hnd Hall. induction keys as [|k keys IH]; [done|]. cbn in *. apply IH.
  - rewrite filter_keys by done. rewrite decide_True by (apply Hall; set_solver).
    cbn [length]. f_equal. apply IH. intros y Hy. apply Hall. set_solver.
Qed.

(** With one configuration per fingerprint the join has one row per worker. *)
Lemma join_rows (cs : list WorkerConfig) ws : NoDup (wc_Fingerprint <$> cs) ->
  length (ws ≫= left_join cs) = length ws.
Proof.
  intros Hnd. induction ws as [|w ws IH]; [done|]. cbn. rewrite length_app. f_equal.
  enough (length (left_join cs w) = 1) by lia. unfold left_join.
  assert (Hle : length (List.filter (fun c => wc_Fingerprint c == w_Fingerprint w) cs) <= 1).
  { clear IH. induction cs as [|c cs IH]; [cbn; lia|]. cbn [List.filter fmap list_fmap] in *.
    inversion_clear Hnd as [|? ? Hc Hcs]. specialize (IH Hcs). case_bool_decide as E; [|done]. cbn [length].
    enough (List.filter (fun c0 => wc_Fingerprint c0 == w_Fingerprint w) cs = []) as -> by done.
    clear IH Hcs. induction cs as [|c' cs IH]; [done|]. cbn [List.filter]. rewrite bool_decide_eq_false_2; [apply IH; set_solver|].
    intros E'. apply Hc. rewrite E, <- E'. set_solver. }
  destruct (List.filter _ cs) as [|c [|c' l]]; [done..|cbn in Hle; lia].
Qed.

Lemma filter_true {R} (l : list R) : List.filter (fun _ => true) l = l.
Proof. induction l as [|x l IH]; [done|]. cbn. by rewrite IH. Qed.

(** What a refresh puts into the worker figures. *)
Lemma computeStats_up now s : exists st cs,
  computeStats format_time now s = (s, Ret st) /\ cs ≡ₚ live (db_Configs s) /\
  st.(TotalWorkers) = workers_with (fun _ => true) s /\
  st.(ReadyWorkers) = workers_with ready_row s /\
  st.(ProcessingWorkers) = workers_with processing_row s /\
  st.(UnavailableWorkers) =
    workers_with (fun w => (w.(w_Status) != "offline") && negb (ready_row w) && negb (processing_row w)) s /\
  st.(OfflineWorkers) = workers_with (fun w => w.(w_Status) == "offline") s /\
  st.(DeletedWorkers) = workers_with (fun w => w.(w_Status) == "deleted") s /\
  st.(ModelSynced) = workers_with (fun w => present_row w && (w.(w_SyncStatus) == "synced")) s /\
  st.(ModelOutOfSync) = workers_with (fun w => present_row w && (w.(w_SyncStatus) == "out-of-sync")) s /\
  (st.(VersionTarget) <> "" ->
   st.(WorkersSynced) = workers_with (fun w => (w.(w_Status) != "offline") && (w.(w_ClientVersion) == st.(VersionTarget))) s /\
   st.(WorkersOutdated) = workers_with (fun w => (w.(w_Status) != "offline") && (w.(w_ClientVersion) != st.(VersionTarget))) s) /\
  exists ws, ws ≡ₚ live (db_Workers s) /\
    st.(RoleCounts) = role_count <$> group_by joined_role (ws ≫= left_join cs).
Proof.
  destruct (Find_up Workers (fun _ => true) s) as (ws & Ews & Hws).
  destruct (Find_up Configs (fun _ => true) s) as (cs & Ecs & Hcs).
  rewrite filter_true in Hws; rewrite filter_true in Hcs.
  unfold computeStats. rewrite !(bind_Ret _ _ _ _ _ (Count_up Workers _ _)).
  assert (Eg : exists v, avg_gpu s = (s, Ret v)).
  { unfold avg_gpu. destruct (Find_up Workers (fun w => present_row w && bool_decide (0 < w_GPUAvg w)%Z) s) as (l & E & _).
    rewrite (bind_Ret _ _ _ _ _ E). by eexists. }
  destruct Eg as [gpu Eg]. rewrite (bind_Ret _ _ _ _ _ Eg).
  assert (Er : role_counts s = (s, Ret (role_count <$> group_by joined_role (ws ≫= left_join cs)))).
  { unfold role_counts. by rewrite (bind_Ret _ _ _ _ _ Ews), (bind_Ret _ _ _ _ _ Ecs). }
  rewrite (bind_Ret _ _ _ _ _ Er). cbv zeta.
  rewrite !(bind_Ret _ _ _ _ _ (Count_up WorkUnits _ _)), (bind_Ret _ _ _ _ _ (Count_up Batches _ _)).
  assert (Ew : exists v, role_work_counts (Truncate (24 * Hour) now) s = (s, Ret v)) by by eexists.
  destruct Ew as [work Ew]. rewrite (bind_Ret _ _ _ _ _ Ew).
  rewrite (bind_Ret _ _ s s _ eq_refl).
  unfold GetClientVersionConfig, GetBackendVersionConfig.
  rewrite (bind_Ret _ _ _ _ _ (First_up ClientVersions _ s)).
  set (target := match List.find _ _ with Some _ => _ | None => _ end).
  set (version := match target with inl c => cv_TargetVersion c | inr _ => "" end).
  rewrite !(bind_Ret _ _ _ _ _ (count_if_up version _ s)).
  rewrite (bind_Ret _ _ _ _ _ (First_up BackendVersions _ s)).
  set (btarget := match List.find _ (live (lget BackendVersions s)) with Some _ => _ | None => _ end).
  set (bversion := match btarget with inl c => bv_Version c | inr _ => "" end).
  rewrite !(bind_Ret _ _ _ _ _ (count_if_up bversion _ s)).
  rewrite (bind_Ret _ _ s s _ eq_refl).
  eexists _, cs. split; [reflexivity|]. cbn. split_and!; [done|reflexivity..| |by exists ws].
  intros Hne. rewrite !bool_decide_eq_false_2 by done. done.
Qed.

Lemma sum_totals l : foldr (fun c n => (c.(rc_Total) + n)%Z) 0%Z (role_count <$> l) =
  Z.of_nat (sum_list ((fun g => length g.2) <$> l)).
Proof. induction l as [|g l IH]; [done|]. cbn in *. rewrite IH. lia. Qed.

Ltac rows_tac :=
  intros ?; unfold ready_row, processing_row, present_row, is_one_of; cbn [existsb];
  repeat case_bool_decide; simplify_eq; try congruence; reflexivity.

(** The dashboard accounts for every worker: the figures a refresh computes
    partition the registered workers by their state, those measured against the
    target version partition the workers that are not offline, the model
    figures count no worker twice, and the distribution over the roles sums up
    to the number of workers, since no worker has two configurations. *)
Theorem stats_account_for_every_worker now s : unique_fingerprints s ->
  exists st, computeStats format_time now s = (s, Ret st) /\
    st.(TotalWorkers) = Z.of_nat (length (live (db_Workers s))) /\
    (st.(TotalWorkers) = st.(ReadyWorkers) + st.(ProcessingWorkers) + st.(UnavailableWorkers) + st.(OfflineWorkers))%Z /\
    (st.(VersionTarget) <> "" -> st.(WorkersSynced) + st.(WorkersOutdated) + st.(OfflineWorkers) = st.(TotalWorkers))%Z /\
    (st.(ModelSynced) + st.(ModelOutOfSync) + st.(DeletedWorkers) + st.(OfflineWorkers) <= st.(TotalWorkers))%Z /\
    foldr (fun c n => c.(rc_Total) + n)%Z 0%Z st.(RoleCounts) = st.(TotalWorkers).
Proof.
  intros (_ & _ & Hconf). destruct (computeStats_up now s)
    as (st & cs & E & Hcs & Ht & Hr & Hp & Hu & Ho & Hd & Hms & Hmo & Hv & ws & Hws & Hrc).
  assert (Hnd : NoDup (wc_Fingerprint <$> cs)) by (rewrite Hcs; by apply live_NoDup).
  exists st. split_and!; [done|..].
  - rewrite Ht. unfold workers_with. by rewrite filter_true.
  - rewrite Ht, Hr, Hp, Hu, Ho.
    rewrite (count_split (fun _ => true) (fun w => w_Status w == "offline") (fun w => w_Status w != "offline")) by rows_tac.
    rewrite (count_split (fun w => w_Status w != "offline") ready_row (fun w => (w_Status w != "offline") && negb (ready_row w))) by rows_tac.
    rewrite (count_split (fun w => (w_Status w != "offline") && negb (ready_row w)) processing_row
      (fun w => (w_Status w != "offline") && negb (ready_row w) && negb (processing_row w))) by rows_tac. lia.
  - intros (-> & ->)%Hv. rewrite Ht, Ho.
    rewrite (count_split (fun _ => true) (fun w => w_Status w == "offline") (fun w => w_Status w != "offline")) by rows_tac.
    rewrite (count_split (fun w => w_Status w != "offline")
      (fun w => (w_Status w != "offline") && (w_ClientVersion w == VersionTarget st))
      (fun w => (w_Status w != "offline") && (w_ClientVersion w != VersionTarget st))) by rows_tac. lia.
  - rewrite Ht, Hms, Hmo, Hd, Ho.
    rewrite (count_split (fun _ => true) (fun w => w_Status w == "offline") (fun w => w_Status w != "offline")) by rows_tac.
    rewrite (count_split (fun w => w_Status w != "offline") (fun w => w_Status w == "deleted") present_row) by rows_tac.
    rewrite (count_split present_row (fun w => present_row w && (w_SyncStatus w == "synced"))
      (fun w => present_row w && (w_SyncStatus w != "synced"))) by rows_tac.
    rewrite (count_split (fun w => present_row w && (w_SyncStatus w != "synced"))
      (fun w => present_row w && (w_SyncStatus w == "out-of-sync"))
      (fun w => present_row w && (w_SyncStatus w != "synced") && (w_SyncStatus w != "out-of-sync"))) by rows_tac.
    unfold workers_with. lia.
  - rewrite Hrc, sum_totals, group_by_covers, join_rows, Ht by done. unfold workers_with. by rewrite filter_true, Hws.
Qed.
End accounting.

Section witnesses.
#[local] Existing Instances MemGorm MemGormLaws MemGormUp.

Definition fleet_ex : Store :=
  lset Workers (mem_rows [sample_worker "w1" "h" "synced" "online"; sample_worker "w2" "h" "synced" "processing";
                          sample_worker "w3" "" "out-of-sync" "available"; sample_worker "w4" "h" "synced" "offline";
                          sample_worker "w5" "" "unknown" "deleted"])
    (lset Configs (mem_rows [{| wc_Fingerprint := "w2"; wc_PreferredRole := "embedding"; wc_Nickname := "" |}]) empty_store).

Lemma stats_account_for_every_worker_witness :
  exists st, computeStats (fun _ => "") 0 fleet_ex = (fleet_ex, Ret st) /\
    [st.(TotalWorkers); st.(ReadyWorkers); st.(ProcessingWorkers); st.(UnavailableWorkers); st.(OfflineWorkers)] =
      [5; 1; 1; 2; 1]%Z /\
    foldr (fun c n => c.(rc_Total) + n)%Z 0%Z st.(RoleCounts) = 5%Z /\
    st.(RoleCounts) = [ {| rc_Role := "embedding"; rc_Online := 1; rc_Total := 1 |};
                        {| rc_Role := "inference"; rc_Online := 1; rc_Total := 4 |} ]%Z.
Proof.
  destruct (stats_account_for_every_worker (fun _ => "") 0 fleet_ex) as (st & E & Ht & _ & _ & _ & Hrc).
  { split_and!; cbn; repeat constructor; set_solver. }
  exists st. split; [exact E|]. rewrite Hrc, Ht.
  assert (E2 : Ret st = Ret (A := DashboardStats) match result (computeStats (fun _ => "") 0) fleet_ex with Ret x => x | _ => st end)
    by (unfold result; by rewrite E).
  vm_compute in E2. injection E2 as ->. split_and!; reflexivity.
Defined.

Lemma statistics_are_of_the_last_tick_witness :
  exists c', statsLoop (fun _ => "") [(0%Z, empty_store); (1%Z, fleet_ex)] NewCache = (c', Ret tt) /\
    c'.(ca_stats).(TotalWorkers) = 5%Z.
Proof.
  destruct (statistics_are_of_the_last_tick (fun _ => "") [(0%Z, empty_store)] 1 fleet_ex
    (match (computeStats (fun _ => "") 1 fleet_ex).2 with Ret st => st | _ => zero_stats end) NewCache) as (c' & E & Hst & _).
  - intros tick ->%list_elem_of_singleton. eexists. vm_compute. reflexivity.
  - vm_compute. reflexivity.
  - exists c'. split; [exact E|]. rewrite Hst. vm_compute. reflexivity.
Defined.
End witnesses.
