(* ===== verification/Cluster.v ===== *)
(** * The views of the cluster (internal/manager/api: roles.go, synergia.go, community.go)

    What workers see of the roles, services of the cluster, and everybody on
    the community page. These handlers only read the database; a query whose
    error the code ignores leaves its figure at zero. The order SQL gives
    groups of equal size is the argument [by_units], the encoding of an
    instant [time_json]. *)

From S2P Require Import Prelude GoStd Json Gorm Models Workers Roles Latency Http Cache.

Definition number (z : Z) : json := JNum (NInt z).
(** a nil slice is encoded as null *)
Definition nil_or_array {A} (enc : A -> json) (l : list A) : json :=
  match l with [] => JNull | _ => JArr (enc <$> l) end.

(** ** Roles for workers (roles.go) *)

Record RoleInfo := {
  ri_Role : string;
  ri_Model : string;
  ri_Quantisation : string;
  ri_MinVRAMMB : Z;
  ri_Description : string;
  ri_Eligible : bool;
}.

Definition Marshal_RoleInfo (x : RoleInfo) : json :=
  JObj [("role", JStr x.(ri_Role)); ("model", JStr x.(ri_Model)); ("quantisation", JStr x.(ri_Quantisation));
        ("min_vram_mb", number x.(ri_MinVRAMMB)); ("description", JStr x.(ri_Description));
        ("eligible", JBool x.(ri_Eligible))].

Definition role_info (workerVRAM : Z) (rm : RoleModel) : RoleInfo :=
  {| ri_Role := rm.(rm_Role); ri_Model := rm.(rm_LLMModel); ri_Quantisation := rm.(rm_Quantisation);
     ri_MinVRAMMB := rm.(rm_MinVRAMMB); ri_Description := rm.(rm_Description);
     ri_Eligible := (rm.(rm_Role) == "tester") || bool_decide (rm.(rm_MinVRAMMB) <= workerVRAM)%Z |}.

Definition RolesAPI_authenticate (workerKey apiKey : string) (r : Request) : bool :=
  (workerKey == "") || (r.(r_Header) "Authorization" == ("Bearer " +:+ workerKey)) ||
  (r.(r_Header) "Authorization" == ("Bearer " +:+ apiKey)).

Section cluster.
Context `{Gorm}.

Definition worker_vram (fingerprint : string) : GoM Store Z :=
  if fingerprint == "" then mret 0%Z
  else
    consent ← GetConsent fingerprint;
    mret match consent with inl (Some c) => c.(c_HwVRAMMB) | _ => 0%Z end.

Definition RolesHandler (workerKey apiKey : string) (r : Request) : GoM Store Response :=
  if negb (RolesAPI_authenticate workerKey apiKey r) then mret (httpError "unauthorized" 401)
  else if r.(r_Method) != "GET" then mret (httpError "method not allowed" 405)
  else
    roles ← GetRoleModels;
    match roles with
    | inr _ => mret (writeError 500 "database error")
    | inl roles =>
        vram ← worker_vram (r.(r_Query) "fingerprint");
        mret (writeJSON 200 (JArr (Marshal_RoleInfo <$> (role_info vram <$> roles))))
    end.

(** ** Status for services (synergia.go) *)

Definition SynergiaAPI_authenticate (apiKey : string) (r : Request) : bool :=
  (r.(r_Header) "X-API-Key" == apiKey) ||
  (let auth := r.(r_Header) "Authorization" in
   bool_decide (7 < String.length auth)%nat && HasPrefix auth "Bearer " && (drop_str 7 auth == apiKey)).

(** The guards all four handlers begin with. *)
Definition synergia_guard (apiKey : string) (r : Request) (handler : GoM Store Response) : GoM Store Response :=
  if r.(r_Method) != "GET" then mret (httpError "method not allowed" 405)
  else if negb (SynergiaAPI_authenticate apiKey r) then mret (httpError "unauthorized" 401)
  else handler.

Definition model_key (w : Worker) : string := w.(w_LLMModel) +:+ "/" +:+ w.(w_Quantisation).
(** The loop over the workers: [modelSet] holds the keys seen. *)
Fixpoint distinct_models (modelSet : gset string) (workers : list Worker) : list Worker :=
  match workers with
  | [] => []
  | w :: workers =>
      if bool_decide (model_key w ∈ modelSet) then distinct_models modelSet workers
      else w :: distinct_models ({[model_key w]} ∪ modelSet) workers
  end.
Definition model_entry (w : Worker) : json :=
  JObj [("id", JStr w.(w_LLMModel));
        ("metadata", JObj [("fingerprint", JStr w.(w_Fingerprint)); ("quantisation", JStr w.(w_Quantisation));
                           ("worker_count", number 1)]);
        ("object", JStr "model"); ("owned_by", JStr "synergia")].

Definition online_row (w : Worker) : bool := w.(w_Status) == "online".
Definition ModelsHandler (apiKey : string) (r : Request) : GoM Store Response :=
  synergia_guard apiKey r (
    workers ← Find Workers online_row None None;
    mret match workers with
         | inr _ => writeError 500 "database error"
         | inl workers => writeJSON 200 (JObj [("data", nil_or_array model_entry (distinct_models ∅ workers));
                                               ("object", JStr "list")])
         end).

Section timed.
Variable time_json : Z -> json.

(** [created_at]: a column kept by the database layer *)
Definition worker_entry (created_at : Worker -> Z) (w : Worker) : json :=
  JObj [("created_at", time_json (created_at w)); ("fingerprint", JStr w.(w_Fingerprint));
        ("last_seen_at", time_json w.(w_LastSeenAt)); ("model", JStr w.(w_LLMModel));
        ("quantisation", JStr w.(w_Quantisation)); ("status", JStr w.(w_Status));
        ("trust_score", number w.(w_TrustScore))].
Definition WorkersHandler (created_at : Worker -> Z) (apiKey : string) (r : Request) : GoM Store Response :=
  synergia_guard apiKey r (
    workers ← Find Workers (fun _ => true) (Some (fun w => - w.(w_LastSeenAt))%Z) None;
    mret match workers with
         | inr _ => writeError 500 "database error"
         | inl workers => writeJSON 200 (JObj [("total", number (Z.of_nat (length workers)));
                                               ("workers", nil_or_array (worker_entry created_at) workers)])
         end).

Definition unit_entry (u : WorkUnitRow) : json :=
  JObj (match u.(u_CompletedAt) with Some t => [("completed_at", time_json t)] | None => [] end ++
        [("created_at", time_json u.(u_CreatedAt))] ++
        omitempty (u.(u_ErrorMessage) == "") "error" (JStr u.(u_ErrorMessage)) ++
        [("model", JStr u.(u_LLMModel)); ("processing_time_ms", number u.(u_ProcessingTimeMs));
         ("status", JStr u.(u_Status)); ("unit_id", JStr u.(u_UnitID));
         ("worker_fingerprint", JStr u.(u_WorkerFingerprint))]).
Definition WorkUnitsHandler (apiKey : string) (r : Request) : GoM Store Response :=
  synergia_guard apiKey r (
    units ← Find WorkUnits (fun _ => true) (Some (fun u => - u.(u_CreatedAt))%Z) (Some 100%nat);
    mret match units with
         | inr _ => writeError 500 "database error"
         | inl units => writeJSON 200 (JObj [("total", number (Z.of_nat (length units)));
                                             ("work_units", nil_or_array unit_entry units)])
         end).
End timed.

Definition StatsHandler (apiKey : string) (r : Request) : GoM Store Response :=
  synergia_guard apiKey r (
    totalWorkers ← Count Workers (fun _ => true);
    onlineWorkers ← Count Workers online_row;
    totalUnits ← Count WorkUnits (fun _ => true);
    completedUnits ← Count WorkUnits (fun u => u.(u_Status) == "completed");
    failedUnits ← Count WorkUnits (fun u => u.(u_Status) == "failed");
    timeoutUnits ← Count WorkUnits (fun u => u.(u_Status) == "timeout");
    mret (writeJSON 200 (JObj [
      ("work_units", JObj [("completed", number completedUnits); ("failed", number failedUnits);
                           ("timeout", number timeoutUnits); ("total", number totalUnits)]);
      ("workers", JObj [("online", number onlineWorkers); ("total", number totalWorkers)])]))).

(** ** Statistics for everybody (community.go) *)

Record LeaderboardEntry := { lb_Nickname : string; lb_WorkUnits : Z; lb_TotalTimeMs : Z }.
Record CommunityStats := {
  WorkersOnline : Z; WorkersTotal : Z; WorkUnitsTotal : Z; WorkUnitsToday : Z; AvgLatencyMs : Z;
  GPUBreakdown : gmap string Z; Leaderboard : list LeaderboardEntry }.

(** a row of the leaderboard query: the completed units of one worker *)
Record leaderRow := { lr_Fingerprint : string; lr_WorkUnits : Z; lr_TotalTimeMs : Z }.
Definition leader_row (g : string * list WorkUnitRow) : leaderRow :=
  {| lr_Fingerprint := g.1; lr_WorkUnits := Z.of_nat (length g.2);
     lr_TotalTimeMs := sql_sum (u_ProcessingTimeMs <$> g.2) |}.

Definition completed_unit (u : WorkUnitRow) : bool := u.(u_Status) == "completed".
Definition contributing (w : Worker) : bool := negb (is_one_of w.(w_Status) ["offline"; "withdrawn"]).
Definition since (t : Z) (o : option Z) : bool := match o with Some u => bool_decide (t <= u)%Z | None => false end.

Definition fallback_name (fingerprint : string) : string :=
  if bool_decide (8 < String.length fingerprint)%nat then take_str 8 fingerprint +:+ "..." else fingerprint.
Definition leader_entry (row : leaderRow) : GoM Store LeaderboardEntry :=
  cfg ← GetWorkerConfig row.(lr_Fingerprint);
  mret {| lb_Nickname := match cfg with
                         | inl (Some c) => if c.(wc_Nickname) != "" then c.(wc_Nickname)
                                           else fallback_name row.(lr_Fingerprint)
                         | _ => fallback_name row.(lr_Fingerprint)
                         end;
          lb_WorkUnits := row.(lr_WorkUnits); lb_TotalTimeMs := row.(lr_TotalTimeMs) |}.
Fixpoint leader_entries (rows : list leaderRow) : GoM Store (list LeaderboardEntry) :=
  match rows with
  | [] => mret []
  | row :: rows => e ← leader_entry row; es ← leader_entries rows; mret (e :: es)
  end.

Variable by_units : list leaderRow -> list leaderRow.   (* ORDER BY work_units DESC *)

(** A failed query scans nothing. *)
Definition leader_rows : GoM Store (list leaderRow) :=
  units ← Find WorkUnits completed_unit None None;
  mret (take 20 (by_units (leader_row <$> group_by u_WorkerFingerprint (rows_or_none units)))).
Definition gpu_rows : GoM Store (gmap string Z) :=
  consents ← Find Consents (fun c => c.(c_HwGPU) != "") None None;
  mret (list_to_map ((fun g => (g.1, Z.of_nat (length g.2))) <$> group_by c_HwGPU (rows_or_none consents))).

Definition computeStats (now : Z) : GoM Store CommunityStats :=
  total ← Count Workers (fun _ => true);
  online ← Count Workers contributing;
  units ← Count WorkUnits completed_unit;
  let today := Truncate (24 * Hour) now in
  units_today ← Count WorkUnits (fun u => completed_unit u && bool_decide (today <= u.(u_CreatedAt))%Z);
  done_today ← Find WorkUnits (fun u => completed_unit u && since today u.(u_CompletedAt)) None None;
  gpus ← gpu_rows;
  rows ← leader_rows;
  entries ← leader_entries rows;
  mret {| WorkersOnline := online; WorkersTotal := total; WorkUnitsTotal := units; WorkUnitsToday := units_today;
          AvgLatencyMs := sql_avg (u_ProcessingTimeMs <$> rows_or_none done_today);
          GPUBreakdown := gpus; Leaderboard := entries |}.

Definition Marshal_LeaderboardEntry (e : LeaderboardEntry) : json :=
  JObj [("nickname", JStr e.(lb_Nickname)); ("work_units", number e.(lb_WorkUnits));
        ("total_time_ms", number e.(lb_TotalTimeMs))].
Definition Marshal_CommunityStats (st : CommunityStats) : json :=
  JObj [("workers_online", number st.(WorkersOnline)); ("workers_total", number st.(WorkersTotal));
        ("work_units_total", number st.(WorkUnitsTotal)); ("work_units_today", number st.(WorkUnitsToday));
        ("avg_latency_ms", number st.(AvgLatencyMs));
        ("gpu_breakdown", JObj ((fun k => (k, number (default 0%Z (st.(GPUBreakdown) !! k)))) <$>
                                  sort_strings (elements (dom st.(GPUBreakdown)))));
        ("leaderboard", nil_or_array Marshal_LeaderboardEntry st.(Leaderboard))].

Definition community_StatsHandler (now : Z) (r : Request) : GoM Store Response :=
  if r.(r_Method) != "GET" then mret (httpError "method not allowed" 405)
  else stats ← computeStats now; mret (writeJSON 200 (Marshal_CommunityStats stats)).
End cluster.

(** ** Lemmas *)

Section lemmas.
Context `{GormLaws, !GormUp}.

Definition units_of (fp : string) (s : Store) : list WorkUnitRow :=
  List.filter (fun u => u.(u_WorkerFingerprint) == fp) (List.filter completed_unit (live (db_WorkUnits s))).
Definition contribution (s : Store) (fp : string) : Z := Z.of_nat (length (units_of fp s)).
Definition nickname (s : Store) (fp : string) : string :=
  match List.find (by_config_fp fp) (live (db_Configs s)) with
  | Some c => if c.(wc_Nickname) != "" then c.(wc_Nickname) else fallback_name fp
  | None => fallback_name fp
  end.
(** what the leaderboard says of a worker *)
Definition standing (s : Store) (fp : string) : LeaderboardEntry :=
  {| lb_Nickname := nickname s fp; lb_WorkUnits := contribution s fp;
     lb_TotalTimeMs := sql_sum (u_ProcessingTimeMs <$> units_of fp s) |}.

Lemma filter_perm {R} (p : R -> bool) (l l' : list R) : l ≡ₚ l' -> List.filter p l ≡ₚ List.filter p l'.
Proof. induction 1; cbn; repeat case_match; eauto using Permutation. Qed.

Lemma sql_sum_perm l l' : l ≡ₚ l' -> sql_sum l = sql_sum l'.
Proof. unfold sql_sum. induction 1; cbn in *; lia. Qed.

(** The groups have the distinct keys of the rows. *)
Lemma group_by_keys {A} (f : A -> string) (l : list A) : exists keys,
  group_by f l = (fun k => (k, List.filter (fun x => f x == k) l)) <$> keys /\ NoDup keys /\
  forall k, k ∈ keys <-> k ∈ f <$> l.
Proof.
  exists (sort_strings (remove_dups (f <$> l))). split; [done|]. split.
  - rewrite sort_strings_perm. apply NoDup_remove_dups.
  - intros k. rewrite sort_strings_perm. apply elem_of_remove_dups.
Qed.

Lemma filter_elem {A} (p : A -> bool) l x : x ∈ List.filter p l <-> x ∈ l /\ p x = true.
Proof. rewrite !list_elem_of_In. apply filter_In. Qed.

(** One entry per row, named after the configuration of its worker. *)
Lemma leader_entries_up rows s :
  leader_entries rows s =
    (s, Ret ((fun r => {| lb_Nickname := nickname s r.(lr_Fingerprint); lb_WorkUnits := r.(lr_WorkUnits);
                          lb_TotalTimeMs := r.(lr_TotalTimeMs) |}) <$> rows)).
Proof.
  induction rows as [|r rows IH]; [done|]. cbn [leader_entries].
  assert (E : leader_entry r s = (s, Ret {| lb_Nickname := nickname s r.(lr_Fingerprint);
    lb_WorkUnits := r.(lr_WorkUnits); lb_TotalTimeMs := r.(lr_TotalTimeMs) |})).
  { unfold leader_entry, GetWorkerConfig, nickname, mbind, GoM_bind. rewrite First_up. cbn.
    by destruct (List.find _ (live (db_Configs s))). }
  by rewrite (bind_Ret _ _ _ _ _ E), (bind_Ret _ _ _ _ _ IH).
Qed.

(** The rows of the leaderboard query, before they are ordered. *)
Lemma leader_rows_up by_units s : exists keys,
  leader_rows by_units s = (s, Ret (take 20 (by_units ((fun fp => {| lr_Fingerprint := fp;
    lr_WorkUnits := contribution s fp; lr_TotalTimeMs := (standing s fp).(lb_TotalTimeMs) |}) <$> keys)))) /\
  NoDup keys /\ forall fp, fp ∈ keys <-> (0 < contribution s fp)%Z.
Proof.
  destruct (Find_up WorkUnits completed_unit s) as (l & E & Hl).
  destruct (group_by_keys u_WorkerFingerprint l) as (keys & Hg & Hnd & Hk).
  exists keys. unfold leader_rows. rewrite (bind_Ret _ _ _ _ _ E). cbn [rows_or_none]. rewrite Hg, <- list_fmap_compose.
  assert (Hperm : forall fp, List.filter (fun u => u_WorkerFingerprint u == fp) l ≡ₚ units_of fp s) by (intros; by apply filter_perm).
  split_and!; [|done|].
  - unfold mret, GoM_ret. do 4 f_equal. apply list_fmap_ext. intros i fp _. unfold compose, leader_row, contribution. cbn.
    rewrite (sql_sum_perm _ (u_ProcessingTimeMs <$> units_of fp s)) by by rewrite Hperm. by rewrite Hperm.
  - intros fp. rewrite Hk. unfold contribution. rewrite <- (Hperm fp). split.
    + intros (u & -> & Hu)%list_elem_of_fmap.
      assert (Hin : u ∈ List.filter (fun u' => u_WorkerFingerprint u' == u_WorkerFingerprint u) l).
      { apply filter_elem. split; [done|]. by rewrite bool_decide_eq_true_2. }
      destruct (List.filter _ l); [by apply elem_of_nil in Hin|cbn; lia].
    + intros Hpos. destruct (List.filter _ l) as [|u l'] eqn:El; [cbn in Hpos; lia|].
      assert (Hin : u ∈ List.filter (fun u' => u_WorkerFingerprint u' == fp) l) by (rewrite El; set_solver).
      apply filter_elem in Hin as [Hin Hfp%bool_decide_eq_true_1]. subst fp. by apply list_elem_of_fmap_2.
Qed.

Lemma gpu_rows_up s : exists m, gpu_rows s = (s, Ret m) /\
  forall gpu, gpu <> "" -> default 0%Z (m !! gpu) =
    Z.of_nat (length (List.filter (fun c => c.(c_HwGPU) == gpu) (live (db_Consents s)))).
Proof.
  destruct (Find_up Consents (fun c => c_HwGPU c != "") s) as (l & E & Hl).
  unfold gpu_rows. rewrite (bind_Ret _ _ _ _ _ E). eexists. split; [done|]. intros gpu Hne. cbn [rows_or_none].
  destruct (group_by_keys c_HwGPU l) as (keys & Hg & Hnd & Hk). rewrite Hg, <- list_fmap_compose.
  set (count := fun k => Z.of_nat (length (List.filter (fun x => c_HwGPU x == k) l))).
  change (default 0%Z (list_to_map (M := gmap string Z) ((fun k => (k, count k)) <$> keys) !! gpu) =
    Z.of_nat (length (List.filter (fun c => c_HwGPU c == gpu) (live (db_Consents s))))).
  assert (Hcount : count gpu = Z.of_nat (length (List.filter (fun c => c.(c_HwGPU) == gpu) (live (db_Consents s))))).
  { unfold count. rewrite (filter_perm _ _ _ Hl). cbn [lget Consents]. f_equal. induction (live (db_Consents s)) as [|c cs IH]; [done|].
    cbn [List.filter]. destruct (bool_decide_reflect (c_HwGPU c = "")) as [Hc|Hc]; cbn [negb List.filter].
    - rewrite (bool_decide_eq_false_2 (c_HwGPU c = gpu)) by congruence. exact IH.
    - case_bool_decide; [|exact IH]. cbn [length]. by rewrite IH. }
  rewrite <- Hcount. destruct (decide (gpu ∈ keys)) as [Hin|Hin].
  - rewrite (elem_of_list_to_map_1 _ gpu (count gpu)); [done| |].
    + by rewrite <- list_fmap_compose, list_fmap_id.
    + apply (list_elem_of_fmap_2 (fun k => (k, count k))). done.
  - rewrite not_elem_of_list_to_map_1 by (rewrite <- list_fmap_compose, list_fmap_id; done). cbn.
    unfold count. destruct (List.filter _ l) as [|c l'] eqn:El; [done|]. exfalso. apply Hin, Hk.
    assert (Hc : c ∈ List.filter (fun x => c_HwGPU x == gpu) l) by (rewrite El; set_solver).
    apply filter_elem in Hc as [Hc Hgpu%bool_decide_eq_true_1]. rewrite <- Hgpu. by apply list_elem_of_fmap_2.
Qed.

(** The first [n] of a sorted list, against the others. *)
Lemma sorted_take {A} (R : A -> A -> Prop) n l : StronglySorted R l ->
  StronglySorted R (take n l) /\ forall x y, x ∈ take n l -> y ∈ drop n l -> R x y.
Proof.
  intros Hs. revert n. induction Hs as [|x l Hs IH Hx]; intros [|n]; cbn; [split; [constructor|set_solver]..|].
  destruct (IH n) as [Ht Hxy]. split.
  - constructor; [done|]. by apply Forall_take.
  - intros a b [->|Ha]%elem_of_cons Hb; [|by apply Hxy].
    rewrite Forall_forall in Hx. apply Hx, list_elem_of_In. rewrite <- (take_drop n l), elem_of_app. by right.
Qed.

(** The VRAM a worker reported with its consent. *)
Definition reported_vram (fp : string) (s : Store) : Z :=
  from_option c_HwVRAMMB 0%Z (List.find (by_consent_fp fp) (live (db_Consents s))).

Lemma worker_vram_up fp s : fp <> "" -> worker_vram fp s = (s, Ret (reported_vram fp s)).
Proof.
  intros Hfp. unfold worker_vram, GetConsent, reported_vram, mbind, GoM_bind. rewrite bool_decide_eq_false_2, First_up by done. cbn.
  by destruct (List.find _ (live (db_Consents s))).
Qed.

(** What a worker that authenticates is told about the roles. *)
Lemma RolesHandler_up workerKey apiKey r s :
  RolesAPI_authenticate workerKey apiKey r = true -> r.(r_Method) = "GET" -> r.(r_Query) "fingerprint" <> "" ->
  exists roles, roles ≡ₚ live (db_Roles s) /\ Sorted (fun a b => rm_MinVRAMMB a <= rm_MinVRAMMB b)%Z roles /\
    RolesHandler workerKey apiKey r s = (s, Ret (writeJSON 200 (JArr (Marshal_RoleInfo <$>
      (role_info (reported_vram (r.(r_Query) "fingerprint") s) <$> roles))))).
Proof.
  intros Ha Hm Hq. unfold RolesHandler. rewrite Ha, bool_decide_eq_true_2 by done. cbn [negb].
  unfold GetRoleModels, Find, gets. destruct (up_find (fun _ => true) (Some rm_MinVRAMMB) None (db_Roles s)) as [l El].
  destruct (find_ok _ _ _ _ _ El) as (l' & Hl & Hs & ->). rewrite filter_true in Hl. cbn [limited ordered] in *.
  exists l'. split_and!; [done..|]. unfold mbind at 1, GoM_bind at 1. cbn [lget Roles]. rewrite El.
  by rewrite (bind_Ret _ _ _ _ _ (worker_vram_up _ s Hq)).
Qed.

Lemma distinct_models_spec seen l :
  NoDup (model_key <$> distinct_models seen l) /\
  (forall w, w ∈ distinct_models seen l -> w ∈ l /\ model_key w ∉ seen) /\
  forall w, w ∈ l -> model_key w ∉ seen -> exists v, v ∈ distinct_models seen l /\ model_key v = model_key w.
Proof.
  revert seen. induction l as [|w l IH]; intros seen; cbn [distinct_models]; [split_and!; [constructor|set_solver..]|].
  case_bool_decide as Hw.
  - destruct (IH seen) as (Hnd & Hin & Hall). split_and!; [done|set_solver|].
    intros v [->|Hv]%elem_of_cons Hs; [done|]. by apply Hall.
  - destruct (IH ({[model_key w]} ∪ seen)) as (Hnd & Hin & Hall). split_and!.
    + cbn. constructor; [|done]. intros (v & Hkv & Hv)%list_elem_of_fmap. apply Hin in Hv. set_solver.
    + intros v [->|Hv]%elem_of_cons; [set_solver|]. apply Hin in Hv. set_solver.
    + intros v [->|Hv]%elem_of_cons Hs; [exists w; set_solver|].
      destruct (decide (model_key v = model_key w)); [exists w; set_solver|].
      destruct (Hall v) as (u & ? & ?); [done|set_solver|]. exists u. set_solver.
Qed.
End lemmas.

(** ** Properties *)

Section properties.
Context `{GormLaws, !GormUp}.

(** C40. The community page gives the true standing of the contributors: with the
    database up, the counts are those of the tables, and the leaderboard names
    at most twenty workers, each once and with its own number of completed
    units and their total time, in falling order; a worker with completed units
    is left out only when twenty others have done at least as much. Whatever
    order the database gives equals. A worker is named by its nickname or by no
    more than the first eight characters of its fingerprint. *)
Theorem leaderboard_is_the_ranking by_units now s :
  (forall l, by_units l ≡ₚ l) ->
  (forall l, StronglySorted (fun a b => lr_WorkUnits b <= lr_WorkUnits a)%Z (by_units l)) ->
  exists st fps, Cluster.computeStats by_units now s = (s, Ret st) /\
    st.(WorkersTotal) = Z.of_nat (length (live (db_Workers s))) /\
    st.(WorkUnitsTotal) = Z.of_nat (length (List.filter completed_unit (live (db_WorkUnits s)))) /\
    (forall gpu, gpu <> "" -> default 0%Z (st.(GPUBreakdown) !! gpu) =
       Z.of_nat (length (List.filter (fun c => c.(c_HwGPU) == gpu) (live (db_Consents s))))) /\
    st.(Leaderboard) = standing s <$> fps /\ NoDup fps /\ length fps <= 20 /\
    StronglySorted (fun a b => contribution s b <= contribution s a)%Z fps /\
    (forall fp, fp ∈ fps -> 0 < contribution s fp)%Z /\
    (forall fp, fp ∉ fps -> (0 < contribution s fp)%Z ->
       length fps = 20 /\ forall fp', fp' ∈ fps -> (contribution s fp <= contribution s fp')%Z).
Proof.
  intros Hperm Hsort. destruct (leader_rows_up by_units s) as (keys & E & Hnd & Hk).
  destruct (gpu_rows_up s) as (m & Eg & Hgpu).
  destruct (Find_up WorkUnits (fun u => completed_unit u && since (Truncate (24 * Hour) now) u.(u_CompletedAt)) s) as (l & El & _).
  set (row := fun fp => {| lr_Fingerprint := fp; lr_WorkUnits := contribution s fp; lr_TotalTimeMs := lb_TotalTimeMs (standing s fp) |}) in *.
  set (all := lr_Fingerprint <$> by_units (row <$> keys)).
  assert (Hrows : by_units (row <$> keys) = row <$> all).
  { unfold all. rewrite <- list_fmap_compose. rewrite <- (list_fmap_id (by_units _)) at 1.
    apply list_fmap_ext. intros i r Hr%list_elem_of_lookup_2. rewrite Hperm in Hr.
    by apply list_elem_of_fmap in Hr as (fp & -> & _). }
  assert (Hall : all ≡ₚ keys) by (unfold all; rewrite Hperm, <- list_fmap_compose; by rewrite list_fmap_id).
  assert (Hsorted : StronglySorted (fun a b => contribution s b <= contribution s a)%Z all).
  { specialize (Hsort (row <$> keys)). rewrite Hrows in Hsort. revert Hsort. clear. clearbody all. subst row. induction all as [|x l IH]; [constructor|].
    intros [Hs Hx]%StronglySorted_inv. constructor; [by apply IH|].
    exact (proj1 (Forall_fmap _ _ _) Hx). }
  destruct (sorted_take _ 20 _ Hsorted) as [Hs Hrest].
  unfold Cluster.computeStats. cbv zeta. rewrite !(bind_Ret _ _ _ _ _ (Count_up Workers _ s)), !(bind_Ret _ _ _ _ _ (Count_up WorkUnits _ s)).
  rewrite (bind_Ret _ _ _ _ _ El), (bind_Ret _ _ _ _ _ Eg), (bind_Ret _ _ _ _ _ E).
  rewrite (bind_Ret _ _ _ _ _ (leader_entries_up _ s)).
  eexists _, (take 20 all). split; [reflexivity|]. cbn [WorkersTotal WorkUnitsTotal GPUBreakdown Leaderboard].
  split_and!; [by rewrite filter_true|done|done| |..].
  - rewrite Hrows, <- fmap_take, <- list_fmap_compose. done.
  - assert (Hn : NoDup (take 20 all ++ drop 20 all)) by (rewrite take_drop; by rewrite Hall).
    by apply list.NoDup_app in Hn as [? _].
  - rewrite length_take. lia.
  - done.
  - intros fp Hfp. apply Hk. rewrite <- Hall. rewrite <- (take_drop 20 all), elem_of_app. by left.
  - intros fp Hfp Hpos. apply Hk in Hpos. rewrite <- Hall, <- (take_drop 20 all), elem_of_app in Hpos.
    destruct Hpos as [?|Hd]; [done|]. split.
    + rewrite length_take. destruct (Nat.le_gt_cases 20 (length all)); [lia|]. rewrite drop_ge in Hd by lia. by apply elem_of_nil in Hd.
    + intros fp' Hfp'. by apply Hrest.
Qed.

(** A worker learns what it can run: every role of the database exactly once,
    from the least demanding on, and "eligible" for exactly the role "tester"
    and the roles whose VRAM it reported with its consent. *)
Theorem roles_tell_eligibility workerKey apiKey r s :
  RolesAPI_authenticate workerKey apiKey r = true -> r.(r_Method) = "GET" -> r.(r_Query) "fingerprint" <> "" ->
  let vram := reported_vram (r.(r_Query) "fingerprint") s in
  exists infos, RolesHandler workerKey apiKey r s = (s, Ret (writeJSON 200 (JArr (Marshal_RoleInfo <$> infos)))) /\
    (ri_Role <$> infos) ≡ₚ (rm_Role <$> live (db_Roles s)) /\
    Sorted (fun a b => ri_MinVRAMMB a <= ri_MinVRAMMB b)%Z infos /\
    forall x, x ∈ infos -> x.(ri_Eligible) = true <-> x.(ri_Role) = "tester" \/ (x.(ri_MinVRAMMB) <= vram)%Z.
Proof.
  intros Ha Hm Hq vram. destruct (RolesHandler_up workerKey apiKey r s Ha Hm Hq) as (roles & Hr & Hs & E).
  eexists. split; [exact E|]. split_and!.
  - rewrite <- Hr, <- list_fmap_compose. done.
  - clear -Hs. induction Hs as [|x l Hs IH Hx]; [constructor|]. cbn. constructor; [done|].
    destruct Hx; constructor. done.
  - intros x (rm & -> & _)%list_elem_of_fmap. cbn. rewrite orb_true_iff, !bool_decide_eq_true. done.
Qed.

(** The OpenAI-compatible list names each model of the online workers once. *)
Theorem online_models_are_listed_once apiKey r s :
  SynergiaAPI_authenticate apiKey r = true -> r.(r_Method) = "GET" ->
  exists ws, ModelsHandler apiKey r s =
      (s, Ret (writeJSON 200 (JObj [("data", nil_or_array model_entry ws); ("object", JStr "list")]))) /\
    NoDup (model_key <$> ws) /\
    (forall w, w ∈ ws -> w ∈ live (db_Workers s) /\ w.(w_Status) = "online") /\
    forall w, w ∈ live (db_Workers s) -> w.(w_Status) = "online" ->
      exists v, v ∈ ws /\ model_key v = model_key w.
Proof.
  intros Ha Hm. unfold ModelsHandler, synergia_guard. rewrite Ha, bool_decide_eq_true_2 by done. cbn [negb].
  destruct (Find_up Workers online_row s) as (l & E & Hl). rewrite (bind_Ret _ _ _ _ _ E).
  destruct (distinct_models_spec ∅ l) as (Hnd & Hin & Hall). exists (distinct_models ∅ l). split_and!; [done|done|..].
  - intros w [Hw _]%Hin. rewrite Hl in Hw. apply filter_elem in Hw as [Hw Ho%bool_decide_eq_true_1]. done.
  - intros w Hw Ho. apply Hall; [|set_solver]. rewrite Hl. apply filter_elem. split; [done|]. by apply bool_decide_eq_true_2.
Qed.

(** The list is empty while every connected worker reports what it can do: a
    worker that says it is "available" leaves the status "online", the only
    one [ModelsHandler] and [StatsHandler] look for. *)
Theorem available_workers_are_not_listed apiKey r s :
  SynergiaAPI_authenticate apiKey r = true -> r.(r_Method) = "GET" ->
  (forall w, w ∈ live (db_Workers s) -> w.(w_Status) <> "online") ->
  ModelsHandler apiKey r s = (s, Ret (writeJSON 200 (JObj [("data", JNull); ("object", JStr "list")]))).
Proof.
  intros Ha Hm Hno. unfold ModelsHandler, synergia_guard. rewrite Ha, bool_decide_eq_true_2 by done. cbn [negb].
  destruct (Find_up Workers online_row s) as (l & E & Hl). rewrite (bind_Ret _ _ _ _ _ E).
  destruct l as [|w l]; [done|]. exfalso.
  assert (Hw : w ∈ w :: l) by set_solver. rewrite Hl in Hw.
  apply filter_elem in Hw as [Hw Ho%bool_decide_eq_true_1]. by apply (Hno w).
Qed.
End properties.

Section witnesses.
#[local] Existing Instances MemGorm MemGormLaws MemGormUp.

(** An ordering of the rows that satisfies what SQL promises. *)
Definition desc (l : list leaderRow) : list leaderRow := sort_by (Some (fun r => - r.(lr_WorkUnits))%Z) l.
Lemma desc_perm l : desc l ≡ₚ l.
Proof. apply sort_by_perm. Qed.
Lemma desc_sorted l : StronglySorted (fun a b => lr_WorkUnits b <= lr_WorkUnits a)%Z (desc l).
Proof.
  apply Sorted_StronglySorted; [intros a b c; lia|].
  pose proof (sort_by_sorted (Some (fun r => - r.(lr_WorkUnits))%Z) l) as Hs. cbn [ordered] in Hs. unfold desc.
  induction Hs as [|x l' Hs IH Hx]; constructor; [done|]. destruct Hx; constructor. lia.
Qed.

Definition unit_ex (id fp st : string) (ms : Z) : WorkUnitRow :=
  {| u_UnitID := id; u_WorkerFingerprint := fp; u_LLMModel := "m"; u_Status := st; u_ProcessingTimeMs := ms;
     u_ErrorMessage := ""; u_CreatedAt := 5; u_CompletedAt := Some 6%Z |}.
Definition community_ex : Store :=
  lset WorkUnits (mem_rows [unit_ex "1" "0123456789ab" "completed" 10; unit_ex "2" "w2" "completed" 7;
                            unit_ex "3" "w2" "completed" 5; unit_ex "4" "w2" "failed" 0])
    (lset Configs (mem_rows [{| wc_Fingerprint := "w2"; wc_PreferredRole := ""; wc_Nickname := "ada" |}]) empty_store).

Lemma leaderboard_is_the_ranking_witness : exists st fps,
  Cluster.computeStats desc 100 community_ex = (community_ex, Ret st) /\
  st.(Leaderboard) = standing community_ex <$> fps /\
  st.(Leaderboard) = [ {| lb_Nickname := "ada"; lb_WorkUnits := 2; lb_TotalTimeMs := 12 |};
                       {| lb_Nickname := "01234567..."; lb_WorkUnits := 1; lb_TotalTimeMs := 10 |} ] /\
  st.(WorkUnitsTotal) = 3%Z.
Proof.
  destruct (leaderboard_is_the_ranking desc 100 community_ex desc_perm desc_sorted)
    as (st & fps & E & _ & Hu & _ & Hl & _).
  exists st, fps. split; [exact E|]. split; [exact Hl|]. rewrite Hu.
  assert (E2 : Ret st = Ret (A := CommunityStats) match result (Cluster.computeStats desc 100) community_ex with Ret x => x | _ => st end)
    by (unfold result; by rewrite E).
  vm_compute in E2. injection E2 as ->. split; reflexivity.
Defined.

Definition get_ex : Request :=
  {| r_Method := "GET"; r_Path := "/v1/roles"; r_Header _ := "Bearer key";
     r_Query k := if k == "fingerprint" then "w1" else ""; r_Body := None |}.
Definition roles_for_ex : Store :=
  lset Consents (mem_rows [with_hardware (Some (Build_HardwareInfo "linux" "" "" "" "" 4096 "" 8 0)) (new_consent "w1")])
    (lset Roles (mem_rows [new_role "inference" "m" "" "" "" 8000 ""; new_role "tester" "t" "" "" "" 4097 "";
                           new_role "embedding" "e" "" "" "" 4096 ""]) empty_store).

Lemma roles_tell_eligibility_witness : exists infos,
  RolesHandler "key" "api" get_ex roles_for_ex = (roles_for_ex, Ret (writeJSON 200 (JArr (Marshal_RoleInfo <$> infos)))) /\
  (ri_Role <$> infos) ≡ₚ ["inference"; "tester"; "embedding"].
Proof.
  destruct (roles_tell_eligibility "key" "api" get_ex roles_for_ex) as (infos & E & Hp & _); [reflexivity|reflexivity|discriminate|].
  exists infos. split; [exact E|exact Hp].
Defined.

Lemma online_models_are_listed_once_witness :
  exists ws, ModelsHandler "key" get_ex fleet_ex =
    (fleet_ex, Ret (writeJSON 200 (JObj [("data", nil_or_array model_entry ws); ("object", JStr "list")]))) /\
    exists v, v ∈ ws /\ model_key v = model_key (sample_worker "w1" "h" "synced" "online").
Proof.
  destruct (online_models_are_listed_once "key" get_ex fleet_ex) as (ws & E & _ & _ & Hall); [reflexivity|reflexivity|].
  exists ws. split; [exact E|]. destruct (Hall (sample_worker "w1" "h" "synced" "online")) as (v & Hv & Hk); [cbn; set_solver|done|].
  exists v. split; [exact Hv|exact Hk].
Defined.

Lemma available_workers_are_not_listed_witness :
  ModelsHandler "key" get_ex (store_ex "h") =
    (store_ex "h", Ret (writeJSON 200 (JObj [("data", JNull); ("object", JStr "list")]))).
Proof.
  apply available_workers_are_not_listed; [reflexivity|reflexivity|].
  intros w Hw. cbn in Hw. apply list_elem_of_singleton in Hw as ->. discriminate.
Defined.
End witnesses.
