(* ===== verification/Patch.v ===== *)
(** * Distribution of the client binary (internal/manager/api/download.go, internal/client/config/config.go)

    The manager patches its URL over a sentinel in the generic client binary
    and recomputes the page hashes of the ad-hoc code signature of a Mach-O
    binary; the client reads the patched bytes back. A binary is a list of
    bytes; [uint32] arithmetic wraps; a slice expression out of range is a
    panic, the outcome [None]. *)

From S2P Require Import Prelude GoStd Protocol.

Abbreviation bytes := (list Ascii.ascii).
Definition to_bytes (s : string) : bytes := String.list_ascii_of_string s.
Definition of_bytes (b : bytes) : string := String.string_of_list_ascii b.
Definition NUL : Ascii.ascii := Ascii.zero.
Definition len (b : bytes) : Z := Z.of_nat (length b).

Definition u32 (z : Z) : Z := z mod 2^32.

(** [data[a:b]] and [data[a:]] *)
Definition slice (data : bytes) (a b : Z) : option bytes :=
  if bool_decide (0 <= a)%Z && bool_decide (a <= b)%Z && bool_decide (b <= len data)%Z
  then Some (take (Z.to_nat (b - a)) (drop (Z.to_nat a) data)) else None.
Definition slice_from (data : bytes) (a : Z) : option bytes := slice data a (len data).

Definition byte_val (c : Ascii.ascii) : Z := Z.of_nat (Ascii.nat_of_ascii c).
Definition byte_at (data : bytes) (i : Z) : option Z := byte_val <$> data !! Z.to_nat i.

(** [binary.LittleEndian.Uint32] and [binary.BigEndian.Uint32] *)
Definition le_Uint32 (b : bytes) : option Z :=
  match b with
  | b0 :: b1 :: b2 :: b3 :: _ => Some (byte_val b0 + 256 * byte_val b1 + 65536 * byte_val b2 + 16777216 * byte_val b3)%Z
  | _ => None
  end.
Definition be_Uint32 (b : bytes) : option Z :=
  match b with
  | b0 :: b1 :: b2 :: b3 :: _ => Some (byte_val b3 + 256 * byte_val b2 + 65536 * byte_val b1 + 16777216 * byte_val b0)%Z
  | _ => None
  end.
Definition le_at (data : bytes) (off : Z) : option Z := b ← slice_from data off; le_Uint32 b.
Definition be_at (data : bytes) (off : Z) : option Z := b ← slice_from data off; be_Uint32 b.

(** [bytes.Index], [bytes.Contains] *)
Fixpoint prefixb (p l : bytes) : bool :=
  match p, l with
  | [], _ => true
  | a :: p', b :: l' => bool_decide (a = b) && prefixb p' l'
  | _, [] => false
  end.
Fixpoint Index (data sub : bytes) : option nat :=
  if prefixb sub data then Some 0%nat
  else match data with
       | [] => None
       | _ :: data' => S <$> Index data' sub
       end.
Definition bytes_Contains (data sub : bytes) : bool := match Index data sub with Some _ => true | None => false end.

(** ** The ad-hoc code signature *)

Record CodeDirectory := {
  cd_csOff : Z; cd_csLen : Z;   (* the signature blob in the file *)
  cd_cdOff : Z;                 (* the code directory in the blob *)
  cd_hashOffset : Z; cd_nCode : Z; cd_codeLimit : Z; cd_hashSize : Z; cd_pageSize : Z }.

(** Walking the load commands; the last LC_CODE_SIGNATURE counts. *)
Fixpoint load_commands (n : nat) (data : bytes) (off csOff csSize : Z) : option (Z * Z) :=
  match n with
  | O => Some (csOff, csSize)
  | S n =>
      cmd ← le_at data off;
      cmdsize ← le_at data (u32 (off + 4));
      if bool_decide (cmd = 0x1d)%Z then
        o ← le_at data (u32 (off + 8));
        s ← le_at data (u32 (off + 12));
        load_commands n data (u32 (off + cmdsize)) o s
      else load_commands n data (u32 (off + cmdsize)) csOff csSize
  end.

(** The offset of the first blob of type 0, or 0. *)
Fixpoint find_directory (n : nat) (i : Z) (cs : bytes) : option Z :=
  match n with
  | O => Some 0%Z
  | S n =>
      btype ← be_at cs (u32 (12 + i * 8));
      boff ← be_at cs (u32 (16 + i * 8));
      if bool_decide (btype = 0)%Z then Some boff else find_directory n (i + 1)%Z cs
  end.

(** The code directory of a signature blob [cs] that starts at [csOff]. *)
Definition read_directory (csOff : Z) (cs : bytes) : option (option CodeDirectory) :=
  magic ← be_at cs 0;
  if bool_decide (magic <> 0xfade0cc0)%Z then Some None
  else
    count ← be_at cs 8;
    cdOff ← find_directory (Z.to_nat count) 0 cs;
    if bool_decide (cdOff = 0)%Z || bool_decide (len cs < u32 (cdOff + 44))%Z then Some None
    else
      cd ← slice_from cs cdOff;
      hashOffset ← be_at cd 16;
      nCode ← be_at cd 28;
      codeLimit ← be_at cd 32;
      hashSize ← byte_at cd 36;
      pageShift ← byte_at cd 39;
      let pageSize := u32 (Z.shiftl 1 pageShift) in
      if bool_decide (hashSize = 0)%Z || bool_decide (pageSize = 0)%Z || bool_decide (nCode = 0)%Z then Some None
      else Some (Some {| cd_csOff := csOff; cd_csLen := len cs; cd_cdOff := cdOff; cd_hashOffset := hashOffset;
                         cd_nCode := nCode; cd_codeLimit := codeLimit; cd_hashSize := hashSize; cd_pageSize := pageSize |}).

(** [None]: a panic; [Some None]: not a signed 64-bit little-endian Mach-O. *)
Definition code_directory (data : bytes) : option (option CodeDirectory) :=
  if bool_decide (len data < 32)%Z then Some None
  else
    magic ← le_at data 0;
    if bool_decide (magic <> 0xfeedfacf)%Z then Some None
    else
      ncmds ← le_at data 16;
      '(csOff, csSize) ← load_commands (Z.to_nat ncmds) data 32 0 0;
      if bool_decide (csOff = 0)%Z || bool_decide (len data < u32 (csOff + csSize))%Z then Some None
      else
        cs ← slice data csOff (u32 (csOff + csSize));
        read_directory csOff cs.

Definition overwrite (data : bytes) (off : nat) (piece : bytes) : bytes :=
  take off data ++ piece ++ drop (off + length piece) data.

Section patch.
Context `{Crypto}.

(** The hash loop, from slot [i]; the slots lie in the file that is hashed. *)
Fixpoint rehash (n : nat) (i : Z) (c : CodeDirectory) (data : bytes) : option bytes :=
  match n with
  | O => Some data
  | S n =>
      let start := u32 (i * c.(cd_pageSize)) in
      let end_ := Z.min (u32 (start + c.(cd_pageSize))) c.(cd_codeLimit) in
      if bool_decide (len data < end_)%Z then Some data
      else
        page ← slice data start end_;
        let h := to_bytes (sha256 (of_bytes page)) in
        let slotBase := u32 (c.(cd_cdOff) + c.(cd_hashOffset) + i * c.(cd_hashSize)) in
        if bool_decide (c.(cd_csLen) < slotBase + c.(cd_hashSize))%Z then Some data
        else
          piece ← slice h 0 c.(cd_hashSize);
          rehash n (i + 1)%Z c (overwrite data (Z.to_nat (c.(cd_csOff) + slotBase)) piece)
  end.

Definition recomputeAdHocSignature (data : bytes) : option bytes :=
  c ← code_directory data;
  match c with
  | None => Some data
  | Some c => rehash (Z.to_nat c.(cd_nCode)) 0 c data
  end.

(** ** The sentinel *)

Definition sentinelValue : string := "$$SYNERGIA_MANAGER_URL$$".
Definition sentinelText : bytes := to_bytes sentinelValue.
Definition sentinelSize : nat := 256.

Definition replacement (managerURL : string) : bytes :=
  to_bytes managerURL ++ replicate (sentinelSize - String.length managerURL) NUL.

Definition patchSentinel (data : bytes) (managerURL : string) : option (bytes + string) :=
  match Index data sentinelText with
  | None => Some (inr "sentinel not found in binary")
  | Some idx =>
      if bool_decide (length data < idx + sentinelSize)%nat
      then Some (inr "sentinel found too close to end of binary")
      else if bool_decide (sentinelSize <= String.length managerURL)%nat then Some (inr "manager URL too long")
      else
        let result := overwrite data idx (replacement managerURL) in
        if bytes_Contains (drop (idx + sentinelSize) result) sentinelText
        then Some (inr "multiple sentinels found in binary")
        else inl <$> recomputeAdHocSignature result
  end.
End patch.

(** ** The client's side (config.go) *)

Fixpoint trim_nul (b : bytes) : bytes :=
  match b with
  | [] => []
  | c :: b' => match trim_nul b' with
               | [] => if bool_decide (c = NUL) then [] else [c]
               | t => c :: t
               end
  end.

(** [DefaultManagerURL]: the 256 bytes before patching *)
Definition defaultManagerURLSentinelLen : nat := 24.
Definition DefaultManagerURL : bytes := sentinelText ++ replicate (sentinelSize - 24) NUL.

Definition defaultManagerURLSentinel (var : bytes) : bytes := take defaultManagerURLSentinelLen var.
Definition resolveManagerURL (var : bytes) : string :=
  let url := trim_nul var in
  if bool_decide (url = defaultManagerURLSentinel var) || bool_decide (url = []) then "" else of_bytes url.

Definition defaultWorkerKeySentinelLen : nat := 23.
Definition DefaultWorkerKey : bytes := to_bytes "$$SYNERGIA_WORKER_KEY$$" ++ replicate 73 NUL.
Definition resolveWorkerKey (env : string) (var : bytes) : string :=
  if env != "" then env
  else
    let raw := trim_nul var in
    if bool_decide (raw = take defaultWorkerKeySentinelLen var) || bool_decide (raw = []) then ""
    else default "" (base64_DecodeString (of_bytes raw)).

(** The manager URL a client starts with: the flag or environment variable,
    the patched bytes, the saved file, the persisted state; "" is setup mode. *)
Definition client_manager_url (configured : string) (var : bytes) (saved_file persisted : option string) : string :=
  let url := if configured != "" then configured else resolveManagerURL var in
  let url := if url == "" then match saved_file with Some s => TrimSpace s | None => "" end else url in
  if url == "" then default "" persisted else url.

(** ** Lemmas on byte lists *)

Lemma length_to_bytes s : length (to_bytes s) = String.length s.
Proof. induction s as [|c s IH]; [done|]. cbn. by f_equal. Qed.
Lemma of_to_bytes s : of_bytes (to_bytes s) = s.
Proof. apply String.string_of_list_ascii_of_string. Qed.

Lemma to_of_bytes b : to_bytes (of_bytes b) = b.
Proof. apply String.list_ascii_of_string_of_list_ascii. Qed.

Lemma length_replacement url : (String.length url < sentinelSize)%nat -> length (replacement url) = sentinelSize.
Proof. intros H. unfold replacement. rewrite length_app, length_to_bytes, length_replicate. lia. Qed.

Lemma length_overwrite data off piece : (off + length piece <= length data)%nat ->
  length (overwrite data off piece) = length data.
Proof. intros H. unfold overwrite. rewrite !length_app, length_take, length_drop. lia. Qed.

Lemma overwrite_outside data off piece k : (off + length piece <= length data)%nat ->
  (k < off \/ off + length piece <= k)%nat -> overwrite data off piece !! k = data !! k.
Proof.
  intros Hl [Hk|Hk]; unfold overwrite.
  - rewrite lookup_app_l by (rewrite length_take; lia). by rewrite lookup_take_lt.
  - rewrite lookup_app_r by (rewrite length_take; lia). rewrite length_take.
    rewrite lookup_app_r by lia. rewrite lookup_drop. f_equal. lia.
Qed.

Lemma overwrite_inside data off piece m : (off + length piece <= length data)%nat ->
  (m < length piece)%nat -> overwrite data off piece !! (off + m) = piece !! m.
Proof.
  intros Hl Hm. unfold overwrite. rewrite lookup_app_r by (rewrite length_take; lia).
  rewrite length_take. rewrite lookup_app_l by lia. f_equal. lia.
Qed.

Lemma length_slice data a b s : slice data a b = Some s -> len s = (b - a)%Z.
Proof.
  unfold slice, len. intros H. destruct (bool_decide (0 <= a)%Z) eqn:H1; [|done].
  destruct (bool_decide (a <= b)%Z) eqn:H2; [|done]. destruct (bool_decide (b <= _)%Z) eqn:H3; [|done].
  apply bool_decide_eq_true in H1, H2, H3. injection H as <-. rewrite length_take, length_drop.
  unfold len in H3. lia.
Qed.

Lemma slice_ok data a b : (0 <= a)%Z -> (a <= b)%Z -> (b <= len data)%Z ->
  slice data a b = Some (take (Z.to_nat (b - a)) (drop (Z.to_nat a) data)).
Proof. intros. unfold slice. by rewrite !bool_decide_eq_true_2. Qed.

(** A slice depends on its own bytes only. *)
Lemma slice_ext d d' a b : length d = length d' ->
  (forall k, (Z.of_nat k < b)%Z -> d !! k = d' !! k) -> slice d a b = slice d' a b.
Proof.
  intros Hl Hk. unfold slice, len. rewrite Hl. destruct (_ && _) eqn:Hb; [|done]. f_equal.
  apply andb_prop in Hb as [[Ha%bool_decide_eq_true_1 _]%andb_prop _]. apply list_eq. intros i. destruct (decide (i < Z.to_nat (b - a))%nat) as [Hi|Hi].
  - rewrite !lookup_take_lt, !lookup_drop by done. apply Hk. lia.
  - rewrite !lookup_take_ge by lia. done.
Qed.

Lemma trim_nul_replicate b n : trim_nul (b ++ replicate n NUL) = trim_nul b.
Proof.
  induction b as [|c b IH]; cbn; [|by rewrite IH]. induction n as [|n IH]; [done|]. cbn. by rewrite IH.
Qed.
Lemma trim_nul_last b : List.last b "/"%char <> NUL -> trim_nul b = b.
Proof.
  induction b as [|c b IH]; [done|]. intros Hl. cbn. destruct b as [|d b].
  - cbn in *. by rewrite bool_decide_eq_false_2.
  - by rewrite IH.
Qed.

(** ** The hash loop *)

Section rehash.
Context `{CryptoLaws}.

(** Where slot [j] lies in the file, and the page it covers. *)
Definition slot (c : CodeDirectory) (j : Z) : Z :=
  (c.(cd_csOff) + (c.(cd_cdOff) + c.(cd_hashOffset) + j * c.(cd_hashSize)))%Z.
Definition page_of (c : CodeDirectory) (data : bytes) (j : Z) : option bytes :=
  slice data (j * c.(cd_pageSize)) (Z.min (j * c.(cd_pageSize) + c.(cd_pageSize)) c.(cd_codeLimit)).

(** What the loader checks of slot [j]: it holds the digest of its page. *)
Definition slot_valid (c : CodeDirectory) (data : bytes) (j : Z) : Prop :=
  exists page, page_of c data j = Some page /\
    slice data (slot c j) (slot c j + c.(cd_hashSize)) =
      Some (take (Z.to_nat c.(cd_hashSize)) (to_bytes (sha256 (of_bytes page)))).

(** A code directory as the linker lays it out in a file of [n] bytes: the
    slots lie within the blob, the pages before it, the sizes fit 32 bits. *)
Record well_laid (c : CodeDirectory) (n : Z) : Prop := {
  wl_offsets : (0 <= c.(cd_csOff) /\ 0 <= c.(cd_cdOff) /\ 0 <= c.(cd_hashOffset))%Z;
  wl_hash : (0 < c.(cd_hashSize) <= 32)%Z;
  wl_page : (0 < c.(cd_pageSize) /\ 0 <= c.(cd_nCode))%Z;
  wl_limit : (0 <= c.(cd_codeLimit) <= c.(cd_csOff))%Z;
  wl_pages : (c.(cd_nCode) * c.(cd_pageSize) < c.(cd_codeLimit) + c.(cd_pageSize))%Z;
  wl_pages32 : (c.(cd_nCode) * c.(cd_pageSize) < 2^32)%Z;
  wl_slots : (c.(cd_cdOff) + c.(cd_hashOffset) + c.(cd_nCode) * c.(cd_hashSize) <= c.(cd_csLen))%Z;
  wl_blob : (c.(cd_csOff) + c.(cd_csLen) <= n < 2^32)%Z;
}.

Definition hash_bytes (c : CodeDirectory) (page : bytes) : bytes :=
  take (Z.to_nat c.(cd_hashSize)) (to_bytes (sha256 (of_bytes page))).

Lemma length_hash_bytes c page n : well_laid c n -> length (hash_bytes c page) = Z.to_nat c.(cd_hashSize).
Proof.
  intros Hc. destruct (wl_hash _ _ Hc). unfold hash_bytes.
  rewrite length_take, length_to_bytes, sha256_length. lia.
Qed.

Lemma slot_bounds c n j : well_laid c n -> (0 <= j < c.(cd_nCode))%Z ->
  (c.(cd_csOff) <= slot c j /\ slot c j + c.(cd_hashSize) <= n /\
   slot c (j + 1) = slot c j + c.(cd_hashSize) /\
   c.(cd_cdOff) + c.(cd_hashOffset) + j * c.(cd_hashSize) + c.(cd_hashSize) <= c.(cd_csLen))%Z.
Proof. intros [] Hj. unfold slot. split_and!; nia. Qed.

Lemma page_ok c data j : well_laid c (len data) -> (0 <= j < c.(cd_nCode))%Z -> is_Some (page_of c data j).
Proof. intros [] Hj. unfold page_of. rewrite slice_ok; [done|nia..]. Qed.

(** One round of the loop. *)
Lemma rehash_S n i c data : well_laid c (len data) -> (0 <= i < c.(cd_nCode))%Z ->
  exists page, page_of c data i = Some page /\
    rehash (S n) i c data = rehash n (i + 1)%Z c (overwrite data (Z.to_nat (slot c i)) (hash_bytes c page)).
Proof.
  intros Hc Hi. destruct (page_ok c data i Hc Hi) as [page Hp]. exists page. split; [done|].
  pose proof (slot_bounds c _ i Hc Hi) as (B1 & B2 & B3 & B4). pose proof Hc as [].
  cbn [rehash]. unfold u32.
  rewrite (Z.mod_small (i * cd_pageSize c)) by nia.
  rewrite (Z.mod_small (i * cd_pageSize c + cd_pageSize c)) by nia.
  rewrite (bool_decide_eq_false_2 (len data < _)%Z) by lia.
  unfold page_of in Hp. rewrite Hp. cbn [mbind option_bind].
  rewrite (Z.mod_small (cd_cdOff c + cd_hashOffset c + i * cd_hashSize c)) by nia.
  rewrite bool_decide_eq_false_2 by lia.
  rewrite slice_ok; [|lia..|unfold len; rewrite length_to_bytes, sha256_length; lia].
  cbn [mbind option_bind]. by rewrite Z.sub_0_r.
Qed.

Definition outside (c : CodeDirectory) (i j : Z) (k : nat) : Prop :=
  (Z.of_nat k < slot c i \/ slot c j <= Z.of_nat k)%Z.

Lemma rehash_spec n i c data : well_laid c (len data) -> (0 <= i)%Z -> (i + Z.of_nat n = c.(cd_nCode))%Z ->
  exists data', rehash n i c data = Some data' /\ length data' = length data /\
    (forall k, outside c i (i + Z.of_nat n) k -> data' !! k = data !! k) /\
    (forall j, (i <= j < i + Z.of_nat n)%Z -> slot_valid c data' j).
Proof.
  revert i data. induction n as [|n IH]; intros i data Hc Hi Hn.
  - exists data. split_and!; [done..|]. intros. lia.
  - destruct (rehash_S n i c data Hc ltac:(lia)) as (page & Hp & ->).
    pose proof (slot_bounds c _ i Hc ltac:(lia)) as (B1 & B2 & B3 & _).
    pose proof (length_hash_bytes c page _ Hc) as Hh. pose proof Hc as [].
    set (data1 := overwrite data _ _).
    assert (Hfit : (Z.to_nat (slot c i) + length (hash_bytes c page) <= length data)%nat) by (rewrite Hh; unfold len in *; lia).
    assert (Hl1 : length data1 = length data) by by apply length_overwrite.
    edestruct (IH (i + 1)%Z data1) as (data' & Hr & Hl & Hout & Hok); [by unfold len in *; rewrite Hl1|lia..|].
    assert (Hkeep : forall k, outside c i (i + 1) k -> data1 !! k = data !! k).
    { intros k Hk. unfold outside in Hk. apply overwrite_outside; [done|]. rewrite Hh. lia. }
    replace (i + 1 + Z.of_nat n)%Z with (i + Z.of_nat (S n))%Z in * by lia.
    assert (Hmono : (slot c (i + 1) <= slot c (i + Z.of_nat (S n)))%Z) by (unfold slot; nia).
    exists data'. split_and!; [done|congruence| |].
    + intros k Hk. unfold outside in *. rewrite Hout, Hkeep; [done|unfold outside; lia..].
    + intros j Hj. destruct (decide (j = i)) as [->|]; [|apply Hok; lia]. exists page. split.
      * rewrite <- Hp. unfold page_of. apply slice_ext; [congruence|]. intros k Hk.
        rewrite Hout, Hkeep; [done|unfold outside; lia..].
      * rewrite slice_ok; [|lia..|unfold len in *; rewrite Hl, Hl1; lia]. f_equal. apply list_eq. intros m.
        replace (slot c i + cd_hashSize c - slot c i)%Z with (cd_hashSize c) by lia.
        change (take (Z.to_nat (cd_hashSize c)) (to_bytes (sha256 (of_bytes page)))) with (hash_bytes c page).
        destruct (decide (m < Z.to_nat (cd_hashSize c))%nat) as [Hm|Hm].
        -- rewrite lookup_take_lt, lookup_drop by done.
           rewrite Hout by (unfold outside; lia). apply overwrite_inside; [done|by rewrite Hh].
        -- rewrite lookup_take_ge by lia. symmetry. apply lookup_ge_None. rewrite Hh. lia.
Qed.
End rehash.

(** ** Properties *)

Section properties.
Context `{CryptoLaws}.

Lemma overwrite_middle pre mid post new : length new = length mid ->
  overwrite (pre ++ mid ++ post) (length pre) new = pre ++ new ++ post.
Proof.
  intros Hl. unfold overwrite. rewrite take_app_length, Hl. f_equal. f_equal.
  by rewrite <- length_app, app_assoc, drop_app_length.
Qed.

(** What [patchSentinel] does to a binary with one sentinel. *)
Lemma patchSentinel_once pre post url :
  Index (pre ++ DefaultManagerURL ++ post) sentinelText = Some (length pre) ->
  bytes_Contains post sentinelText = false -> (String.length url < sentinelSize)%nat ->
  patchSentinel (pre ++ DefaultManagerURL ++ post) url = inl <$> recomputeAdHocSignature (pre ++ replacement url ++ post).
Proof.
  intros Hidx Hpost Hlen. unfold patchSentinel. rewrite Hidx.
  assert (Hd : length DefaultManagerURL = sentinelSize) by done.
  rewrite bool_decide_eq_false_2 by (rewrite !length_app, Hd; lia).
  rewrite bool_decide_eq_false_2 by lia.
  rewrite overwrite_middle by by rewrite length_replacement.
  replace (drop (length pre + sentinelSize) (pre ++ replacement url ++ post)) with post; [by rewrite Hpost|].
  by rewrite <- (length_replacement url Hlen), <- length_app, app_assoc, drop_app_length.
Qed.

(** The signature, if the patched binary has one, lies behind the sentinel. *)
Definition unsigned_or_behind (patched : bytes) (n : nat) : Prop :=
  code_directory patched = Some None \/
  exists c, code_directory patched = Some (Some c) /\ well_laid c (len patched) /\ (Z.of_nat n <= c.(cd_csOff))%Z.

Lemma recompute_keeps patched n : unsigned_or_behind patched n ->
  exists data', recomputeAdHocSignature patched = Some data' /\ length data' = length patched /\
    take n data' = take n patched.
Proof.
  intros [E|(c & E & Hc & Hn)]; unfold recomputeAdHocSignature; rewrite E; cbn [mbind option_bind]; [by eexists|].
  pose proof Hc as []. edestruct (rehash_spec (Z.to_nat (cd_nCode c)) 0 c patched) as (data' & -> & Hl & Hout & _); [done|lia..|].
  exists data'. split_and!; [done..|]. apply list_eq. intros k. destruct (decide (k < n)%nat).
  - rewrite !lookup_take_lt by done. apply Hout. left. unfold slot. lia.
  - by rewrite !lookup_take_ge by lia.
Qed.

Lemma resolve_replacement url : (0 < String.length url < sentinelSize)%nat -> List.last (to_bytes url) "/"%char <> NUL ->
  resolveManagerURL (replacement url) = if bool_decide (String.length url = 24)%nat then "" else url.
Proof.
  intros Hlen Hlast. unfold resolveManagerURL, replacement.
  rewrite trim_nul_replicate, trim_nul_last by done.
  rewrite (bool_decide_eq_false_2 (to_bytes url = [])), orb_false_r
    by (intros E; apply (f_equal length) in E; rewrite length_to_bytes in E; cbn in E; lia).
  unfold defaultManagerURLSentinel. rewrite of_to_bytes.
  destruct (decide (String.length url = 24)%nat) as [E|E].
  - rewrite (bool_decide_eq_true_2 (String.length url = 24)%nat) by done. rewrite bool_decide_eq_true_2; [done|].
    by rewrite take_app_le, take_ge by (rewrite length_to_bytes; unfold defaultManagerURLSentinelLen; lia).
  - rewrite (bool_decide_eq_false_2 (String.length url = 24)%nat) by done. rewrite bool_decide_eq_false_2; [done|].
    intros Heq. apply (f_equal length) in Heq.
    rewrite length_take, length_app, !length_to_bytes, length_replicate in Heq.
    unfold defaultManagerURLSentinelLen, sentinelSize in *. lia.
Qed.

(** End to end: a generic client binary with one sentinel, patched by the
    manager, has the same size, differs before its code signature in the 256
    sentinel bytes only, and the client that runs it resolves exactly the URL
    the manager wrote - except when that URL is 24 bytes long: then the client
    takes it for its own unpatched sentinel and starts without a manager. *)
Lemma patched_url_read_back pre post url :
  Index (pre ++ DefaultManagerURL ++ post) sentinelText = Some (length pre) ->
  bytes_Contains post sentinelText = false ->
  (0 < String.length url < sentinelSize)%nat -> List.last (to_bytes url) "/"%char <> NUL ->
  unsigned_or_behind (pre ++ replacement url ++ post) (length pre + sentinelSize) ->
  exists data', patchSentinel (pre ++ DefaultManagerURL ++ post) url = Some (inl data') /\
    length data' = length (pre ++ DefaultManagerURL ++ post) /\
    take (length pre) data' = pre /\
    resolveManagerURL (take sentinelSize (drop (length pre) data')) =
      if bool_decide (String.length url = 24)%nat then "" else url.
Proof.
  intros Hidx Hpost Hlen Hlast Hsig. rewrite patchSentinel_once by (done || lia).
  destruct (recompute_keeps _ _ Hsig) as (data' & -> & Hl & Htake). exists data'.
  pose proof (length_replacement url ltac:(lia)) as Hr.
  assert (Hdata : data' = pre ++ replacement url ++ drop (length pre + sentinelSize) data').
  { rewrite <- (take_drop (length pre + sentinelSize) data') at 1.
    rewrite Htake, (app_assoc pre), take_app_length' by (rewrite length_app; lia). by rewrite <- app_assoc. }
  split_and!; [done| | |].
  - by rewrite Hl, !length_app, Hr.
  - rewrite Hdata. apply take_app_length.
  - rewrite Hdata, drop_app_length, take_app_length' by done. by apply resolve_replacement.
Qed.

(** C37. Patching keeps the code signature valid: in the patched binary every
    code slot of the directory holds the digest of its page, so the loader's
    page check accepts it. *)
Theorem patched_signature_is_valid pre post url c :
  Index (pre ++ DefaultManagerURL ++ post) sentinelText = Some (length pre) ->
  bytes_Contains post sentinelText = false -> (String.length url < sentinelSize)%nat ->
  code_directory (pre ++ replacement url ++ post) = Some (Some c) ->
  well_laid c (len (pre ++ replacement url ++ post)) ->
  exists data', patchSentinel (pre ++ DefaultManagerURL ++ post) url = Some (inl data') /\
    forall j, (0 <= j < c.(cd_nCode))%Z -> slot_valid c data' j.
Proof.
  intros Hidx Hpost Hlen Hdir Hc. rewrite patchSentinel_once by (done || lia).
  unfold recomputeAdHocSignature. rewrite Hdir. cbn [mbind option_bind]. pose proof Hc as [].
  edestruct (rehash_spec (Z.to_nat (cd_nCode c)) 0 c) as (data' & -> & _ & _ & Hok); [done|lia..|].
  exists data'. split; [done|]. intros j Hj. apply Hok. lia.
Qed.

(** The binaries that are refused, each with its message and nothing
    written: no sentinel, a sentinel within 256 bytes of the end, a URL of 256
    bytes or more, a second sentinel. No other binary without a Mach-O header
    is refused. *)
Theorem patch_refusals data url :
  match Index data sentinelText with
  | None => patchSentinel data url = Some (inr "sentinel not found in binary")
  | Some idx =>
      (length data < idx + sentinelSize ->
       patchSentinel data url = Some (inr "sentinel found too close to end of binary")) /\
      (idx + sentinelSize <= length data -> sentinelSize <= String.length url ->
       patchSentinel data url = Some (inr "manager URL too long")) /\
      (idx + sentinelSize <= length data -> String.length url < sentinelSize ->
       if bytes_Contains (drop (idx + sentinelSize) data) sentinelText
       then patchSentinel data url = Some (inr "multiple sentinels found in binary")
       else patchSentinel data url = inl <$> recomputeAdHocSignature (overwrite data idx (replacement url)))
  end.
Proof.
  unfold patchSentinel. destruct (Index data sentinelText) as [idx|]; [|done]. split_and!.
  - intros. by rewrite bool_decide_eq_true_2.
  - intros. rewrite bool_decide_eq_false_2 by lia. by rewrite bool_decide_eq_true_2.
  - intros Hfit Hlen. rewrite !bool_decide_eq_false_2 by lia.
    replace (drop (idx + sentinelSize) (overwrite data idx (replacement url))) with (drop (idx + sentinelSize) data);
      [by destruct (bytes_Contains _ _)|].
    unfold overwrite. rewrite length_replacement by done. rewrite app_assoc, drop_app_length'; [done|].
    rewrite length_app, length_take, length_replacement by done. lia.
Qed.
End properties.

(** ** Witnesses *)

Section witnesses.
#[local] Existing Instances ToyCrypto ToyCryptoLaws.

(** A Mach-O file of 432 bytes: header, one load command, the sentinel, and a
    signature over two pages of 256 bytes. *)
Definition le32 (z : Z) : bytes := (fun k => Ascii.ascii_of_nat (Z.to_nat (z / 256 ^ k mod 256))) <$> [0; 1; 2; 3]%Z.
Definition be32 (z : Z) : bytes := rev (le32 z).
Definition zeros (n : nat) : bytes := replicate n NUL.
Definition macho_pre : bytes := le32 0xfeedfacf ++ zeros 12 ++ le32 1 ++ zeros 12 ++ le32 0x1d ++ le32 16 ++ le32 304 ++ le32 128.
Definition macho_post : bytes :=
  be32 0xfade0cc0 ++ be32 128 ++ be32 1 ++ be32 0 ++ be32 20 ++
  zeros 16 ++ be32 44 ++ zeros 8 ++ be32 2 ++ be32 304 ++ (Ascii.ascii_of_nat 32 :: zeros 2) ++
  (Ascii.ascii_of_nat 8 :: zeros 4) ++ zeros 64.
Definition macho_dir : CodeDirectory :=
  {| cd_csOff := 304; cd_csLen := 128; cd_cdOff := 20; cd_hashOffset := 44; cd_nCode := 2;
     cd_codeLimit := 304; cd_hashSize := 32; cd_pageSize := 256 |}.
Definition url_ex : string := "wss://manager.example/ws/worker".

Lemma macho_directory : code_directory (macho_pre ++ replacement url_ex ++ macho_post) = Some (Some macho_dir).
Proof. vm_compute. reflexivity. Qed.
Lemma macho_well_laid : well_laid macho_dir (len (macho_pre ++ replacement url_ex ++ macho_post)).
Proof. split; vm_compute; intuition discriminate. Qed.

Lemma patched_url_read_back_witness :
  exists data', patchSentinel (macho_pre ++ DefaultManagerURL ++ macho_post) url_ex = Some (inl data') /\
    length data' = 432%nat /\ take 48 data' = macho_pre /\
    resolveManagerURL (take sentinelSize (drop 48 data')) = url_ex.
Proof.
  apply (patched_url_read_back macho_pre macho_post url_ex).
  - vm_compute. reflexivity.
  - vm_compute. reflexivity.
  - vm_compute. split; repeat constructor.
  - vm_compute. discriminate.
  - right. exists macho_dir. split; [exact macho_directory|]. split; [exact macho_well_laid|vm_compute; discriminate].
Defined.

Lemma patched_signature_is_valid_witness :
  exists data', patchSentinel (macho_pre ++ DefaultManagerURL ++ macho_post) url_ex = Some (inl data') /\
    forall j, (0 <= j < 2)%Z -> slot_valid macho_dir data' j.
Proof.
  apply (patched_signature_is_valid macho_pre macho_post url_ex macho_dir).
  - vm_compute. reflexivity.
  - vm_compute. reflexivity.
  - vm_compute. repeat constructor.
  - exact macho_directory.
  - exact macho_well_laid.
Defined.

Lemma patch_refusals_witness : patchSentinel (to_bytes sentinelValue) "ws://m/ws/worker" =
  Some (inr "sentinel found too close to end of binary").
Proof. apply (patch_refusals (to_bytes sentinelValue) "ws://m/ws/worker"). vm_compute. repeat constructor. Defined.

(** A 24-byte URL does get lost. *)
Example url_of_24_bytes : resolveManagerURL (replacement "wss://10.0.0.1/ws/worker") = "".
Proof. vm_compute. reflexivity. Qed.
End witnesses.
