(* ===== verification/Files.v ===== *)
(** * Paths and files (Go's path/filepath and os, as the manager's caches use them)

    [Clean], [Join], [Base] and [Ext] of slash-separated paths, and a map from
    cleaned paths to the contents of regular files. What creating, renaming and
    reading come to is the class [FileOs]: an operation may fail. *)

From S2P Require Import Prelude GoStd Protocol Backend.

(** The elements between slashes. *)
Fixpoint split_path (s : string) : list string :=
  match s with
  | String.EmptyString => [""]
  | String.String c s' =>
      if bool_decide (c = slash) then "" :: split_path s'
      else match split_path s' with
           | x :: l => String.String c x :: l
           | [] => [String.String c ""]
           end
  end.

(** [filepath.Clean]: the cleaned elements are kept in reverse. *)
Definition clean_step (rooted : bool) (acc : list string) (c : string) : list string :=
  if (c == "") || (c == ".") then acc
  else if c == ".." then
    match acc with
    | x :: acc' => if x == ".." then c :: acc else acc'
    | [] => if rooted then [] else [c]
    end
  else c :: acc.
Definition elements (path : string) : list string :=
  rev (foldl (clean_step (HasPrefix path "/")) [] (split_path path)).
Definition Clean (path : string) : string :=
  let rooted := HasPrefix path "/" in
  match elements path with
  | [] => if rooted then "/" else "."
  | l => (if rooted then "/" else "") +:+ String.concat "/" l
  end.

Definition path_Join (dir base : string) : string :=
  if dir == "" then if base == "" then "" else Clean base else Clean (dir +:+ "/" +:+ base).

(** [filepath.Ext]: from the last dot of the last element *)
Fixpoint last_dot (s : string) : option string :=
  match s with
  | String.EmptyString => None
  | String.String c s' =>
      match last_dot s' with
      | Some e => Some e
      | None => if bool_decide (c = "."%char) then Some s
                else None
      end
  end.
Definition Ext (path : string) : string := default "" (last_dot (after_last_slash path)).

(** [filepath.Dir] *)
Definition path_Dir (path : string) : string :=
  Clean (take_str (String.length path - String.length (after_last_slash path)) path).

(** A plain element of a path. *)
Definition plain (c : string) : Prop :=
  c <> "" /\ c <> "." /\ c <> ".." /\ slash ∉ String.list_ascii_of_string c.

(** ** Files *)

Abbreviation Files := (gmap string string).

Class FileOs := {
  create_ok : string -> bool;             (* os.Create, os.CreateTemp *)
  rename_ok : string -> string -> bool;   (* os.Rename *)
  read_ok : string -> string -> bool;     (* reading a file of this content to its end *)
}.

(** Writing to a temporary file and renaming it over its destination, as the
    caches of the manager do: [complete] tells whether the source was read to
    its end without error. *)
Section files.
Context `{FileOs}.

Definition write_temp (tmp path content : string) (complete path_is_dir : bool) : GoM Files bool :=
  if negb (create_ok tmp) then mret false
  else
    modify (<[tmp := content]>) ;;
    if negb complete then modify (delete tmp) ;; mret false
    else if path_is_dir || negb (rename_ok tmp path) then modify (delete tmp) ;; mret false
    else modify (fun fs => <[path := content]> (delete tmp fs)) ;; mret true.

Definition open_file (path : string) : GoM Files (option string) :=
  gets (fun fs => c ← fs !! path; if read_ok path c then Some c else None).
End files.

(** ** Lemmas *)

Lemma split_path_plain b : slash ∉ String.list_ascii_of_string b -> split_path b = [b].
Proof.
  induction b as [|c b IH]; [done|]. cbn [String.list_ascii_of_string split_path].
  intros [Hc Hb]%not_elem_of_cons. rewrite bool_decide_eq_false_2 by congruence. by rewrite IH.
Qed.

Lemma split_path_some a : split_path a <> [].
Proof. destruct a as [|c a]; [done|]. cbn. case_bool_decide; [done|]. by destruct (split_path a). Qed.

Lemma split_path_app a b : slash ∉ String.list_ascii_of_string b ->
  split_path (a +:+ "/" +:+ b) = split_path a ++ [b].
Proof.
  intros Hb. induction a as [|c a IH].
  - change (split_path (String.String slash b) = ["" ; b]). cbn [split_path].
    rewrite bool_decide_eq_true_2 by done. by rewrite split_path_plain.
  - change (split_path (String.String c (a +:+ "/" +:+ b)) = split_path (String.String c a) ++ [b]).
    cbn [split_path]. rewrite IH. case_bool_decide; [done|]. pose proof (split_path_some a). by destruct (split_path a).
Qed.

(** Joining a directory and a plain name adds one element. *)
Lemma elements_Join dir base : dir <> "" -> plain base ->
  elements (dir +:+ "/" +:+ base) = elements dir ++ [base].
Proof.
  intros Hd (H1 & H2 & H3 & H4). unfold elements.
  assert (Hr : HasPrefix (dir +:+ "/" +:+ base) "/" = HasPrefix dir "/").
  { destruct dir as [|c d]; [done|]. cbn. f_equal. by destruct d. }
  rewrite Hr, split_path_app by done. rewrite foldl_app. cbn [foldl]. unfold clean_step at 1.
  by rewrite !bool_decide_eq_false_2.
Qed.

Lemma strip_slashes_base s : strip_slashes s <> "" -> after_last_slash (strip_slashes s) <> "".
Proof.
  induction s as [|c s IH]; [done|]. cbn [strip_slashes].
  destruct (_ && _) eqn:Hc; [done|]. intros _. cbn [after_last_slash].
  destruct (existsb _ _) eqn:E.
  - apply IH. intros E'. by rewrite E' in E.
  - destruct (c == slash) eqn:Hs; [|done]. cbn [andb] in Hc. by apply bool_decide_eq_false_1 in Hc.
Qed.

(** A base name is plain, or one of the names of directories. *)
Lemma Base_plain path : is_dir_name (Base path) = false -> plain (Base path).
Proof.
  unfold is_dir_name, Base. intros Hd. apply orb_false_elim in Hd as [[H1 H2]%orb_false_elim H3].
  apply bool_decide_eq_false_1 in H1, H2, H3. destruct (path == "") eqn:Hp; [done|].
  destruct (strip_slashes path == "") eqn:Hs; [done|]. apply bool_decide_eq_false_1 in Hs.
  split_and!; [by apply strip_slashes_base|done..|apply after_last_slash_no_slash].
Qed.

(** The text before the base name in a joined path: it depends on the
    directory only. *)
Definition dir_prefix (dir : string) : string :=
  (if HasPrefix dir "/" then "/" else "") +:+
  match elements dir with [] => "" | l => String.concat "/" l +:+ "/" end.

Lemma concat_snoc (l : list string) (b : string) : l <> [] -> String.concat "/" (l ++ [b]) = String.concat "/" l +:+ "/" +:+ b.
Proof.
  induction l as [|x l IH]; [done|]. intros _. destruct l as [|y l]; [done|].
  change (x +:+ "/" +:+ String.concat "/" ((y :: l) ++ [b]) = (x +:+ "/" +:+ String.concat "/" (y :: l)) +:+ "/" +:+ b).
  rewrite IH by done. by rewrite !append_assoc_str.
Qed.

Lemma path_Join_plain dir base : dir <> "" -> plain base -> path_Join dir base = dir_prefix dir +:+ base.
Proof.
  intros Hd Hb. unfold path_Join. rewrite bool_decide_eq_false_2 by done. unfold Clean, dir_prefix.
  assert (Hr : HasPrefix (dir +:+ "/" +:+ base) "/" = HasPrefix dir "/").
  { destruct dir as [|c d]; [done|]. cbn. f_equal. by destruct d. }
  rewrite Hr, elements_Join by done. destruct (elements dir) as [|x l] eqn:E.
  - by destruct (HasPrefix dir "/").
  - cbn [app]. change (x :: l ++ [base]) with ((x :: l) ++ [base]). rewrite concat_snoc by done.
    by rewrite !append_assoc_str.
Qed.

Lemma path_Join_inj dir b1 b2 : dir <> "" -> plain b1 -> plain b2 ->
  path_Join dir b1 = path_Join dir b2 -> b1 = b2.
Proof. intros Hd H1 H2. rewrite !path_Join_plain by done. apply (inj (String.append _)). Qed.

(** [filepath.Join] of several elements: the empty ones are dropped. *)
Definition Join_all (l : list string) : string :=
  match List.filter (fun e => e != "") l with
  | [] => ""
  | l => Clean (String.concat "/" l)
  end.
