(* ===== verification/ModelFiles.v ===== *)
(** * Model files of the manager (internal/manager/models/store.go, internal/manager/api/models_download.go)

    The interface of a model store with its laws, the file-system store that
    implements it, and the worker-facing API that serves models and fetches
    the missing ones in the background. *)

From S2P Require Import Prelude GoStd Json Protocol Gorm Models Workers Backend Roles Http Files.

(** ** Names *)

Definition isModelFile (name : string) : bool :=
  let lower := ToLower name in HasSuffix lower ".gguf" || HasSuffix lower ".bin".

Definition quantPatterns : list string :=
  ["Q2_K"; "Q3_K_S"; "Q3_K_M"; "Q3_K_L"; "Q4_0"; "Q4_1"; "Q4_K_S"; "Q4_K_M";
   "Q5_0"; "Q5_1"; "Q5_K_S"; "Q5_K_M"; "Q6_K"; "Q8_0"; "F16"; "F32"].

Definition has_quant (base q : string) : bool := HasSuffix base ("-" +:+ q) || HasSuffix base ("_" +:+ q).

Definition parseModelFilename (filename : string) : string * string :=
  let base := TrimSuffix filename (Ext filename) in
  match List.find (has_quant base) quantPatterns with
  | Some q => (TrimSuffix (TrimSuffix base ("-" +:+ q)) ("_" +:+ q), q)
  | None => (base, "unknown")
  end.

(** ** The interface *)

Record ModelInfo := { mi_Name : string; mi_Quantisation : string; mi_Filename : string; mi_Size : Z }.

(** What a download request gets: a file, or what [http.ServeFile] makes of a
    directory. *)
Inductive served := ServedFile (content : string) | ServedDir | NotFound.

Definition digest `{Crypto} (content : string) : string := hex_EncodeToString (sha256 content).

Class ModelStore (S : Type) := {
  ms_List : GoM S (option (list ModelInfo));
  ms_Serve : string -> GoM S served;
  ms_FileHash : string -> GoM S (option string);
  (** the bytes read, and whether reading them ended without an error *)
  ms_Save : string -> string -> bool -> GoM S (option string);
}.

Class ModelStoreLaws (S : Type) `{ModelStore S, Crypto} := {
  serve_reads name s : exists r, ms_Serve name s = (s, Ret r);
  hash_reads name s : exists r, ms_FileHash name s = (s, Ret r);
  list_reads s : exists r, ms_List s = (s, Ret r);
  save_returns name content complete : returns (ms_Save name content complete);
  (** a saved file is complete, has the reported digest and is served *)
  save_ok name content complete s s' h : ms_Save name content complete s = (s', Ret (Some h)) ->
    complete = true /\ h = digest content /\ ms_Serve name s' = (s', Ret (ServedFile content));
  (** a failed save leaves the file as it was *)
  save_failed name content complete s s' : ms_Save name content complete s = (s', Ret None) ->
    result (ms_Serve name) s' = result (ms_Serve name) s;
  (** other files, but for the temporary file of the save, are not touched *)
  save_other name content complete s other : is_dir_name (Base name) = false ->
    Base other <> Base name -> Base other <> Base name +:+ ".tmp" ->
    result (ms_Serve other) (run (ms_Save name content complete) s) = result (ms_Serve other) s;
  (** the digest is that of the served file *)
  hash_ok name s h : ms_FileHash name s = (s, Ret (Some h)) ->
    exists content, ms_Serve name s = (s, Ret (ServedFile content)) /\ h = digest content;
}.

(** ** The file-system store *)

Section filesystem.
Context `{FileOs, Crypto} (dir : string).

Definition file_path (filename : string) : string := path_Join dir (Base filename).

(** The files right in the directory, in the order of their names. *)
Definition entry_of (kc : string * string) : option ModelInfo :=
  let '(path, content) := kc in
  if HasPrefix path (dir_prefix dir) then
    let base := drop_str (String.length (dir_prefix dir)) path in
    if existsb (fun d => d == slash) (String.list_ascii_of_string base) || negb (isModelFile base) then None
    else
      let '(name, quant) := parseModelFilename base in
      Some {| mi_Name := name; mi_Quantisation := quant; mi_Filename := base; mi_Size := Z.of_nat (String.length content) |}
  else None.
Fixpoint insert_name (x : ModelInfo) (l : list ModelInfo) : list ModelInfo :=
  match l with
  | [] => [x]
  | y :: l' => if String.leb x.(mi_Filename) y.(mi_Filename) then x :: l else y :: insert_name x l'
  end.
Definition fs_List : GoM Files (option (list ModelInfo)) :=
  gets (fun fs => Some (foldr insert_name [] (omap (M := list) entry_of (map_to_list fs)))).

Definition fs_ServeDownload (filename : string) : GoM Files served :=
  gets (fun fs => if is_dir_name (Base filename) then ServedDir
                  else match fs !! file_path filename with Some c => ServedFile c | None => NotFound end).

Definition fs_FileHash (filename : string) : GoM Files (option string) :=
  if is_dir_name (Base filename) then mret None   (* reading a directory fails *)
  else content ← open_file (file_path filename); mret (option_map digest content).

Definition fs_Save (filename content : string) (complete : bool) : GoM Files (option string) :=
  (* renaming over a directory fails *)
  let into_dir := is_dir_name (Base filename) in
  ok ← write_temp (file_path filename +:+ ".tmp") (file_path filename) content complete into_dir;
  mret (if (ok : bool) then Some (digest content) else None).

#[export] Instance FilesystemStore : ModelStore Files := {|
  ms_List := fs_List; ms_Serve := fs_ServeDownload; ms_FileHash := fs_FileHash; ms_Save := fs_Save |}.
End filesystem.

Section filesystem_laws.
Context `{FileOs, Crypto} (dir : string).
Hypothesis dir_some : dir <> "".

Lemma file_path_plain filename : is_dir_name (Base filename) = false ->
  file_path dir filename = dir_prefix dir +:+ Base filename.
Proof. intros Hd. by apply path_Join_plain, Base_plain. Qed.

Lemma append_neq (s t : string) : t <> "" -> s +:+ t <> s.
Proof.
  intros Ht E. apply (f_equal String.length) in E. rewrite length_app_str in E.
  destruct t; [done|]. cbn in E. lia.
Qed.

(** The runs of [write_temp] that rename the temporary file, and the others. *)
Lemma write_temp_cases tmp path content complete into_dir (fs : Files) :
  let m := write_temp tmp path content complete into_dir in
  complete = true /\ into_dir = false /\ m fs = (<[path := content]> (delete tmp (<[tmp := content]> fs)), Ret true) \/
  exists fs', m fs = (fs', Ret false) /\ forall p, p <> tmp -> fs' !! p = fs !! p.
Proof.
  cbv zeta. unfold write_temp. destruct (create_ok tmp); [|right; by exists fs]. cbn [negb].
  erewrite bind_Ret by done. destruct complete; cbn [negb].
  - destruct (into_dir || negb (rename_ok tmp path)) eqn:E.
    + right. eexists. split; [done|]. intros p Hp. by rewrite lookup_delete_ne, lookup_insert_ne.
    + left. apply orb_false_elim in E as [-> _]. done.
  - right. eexists. split; [done|]. intros p Hp. by rewrite lookup_delete_ne, lookup_insert_ne.
Qed.

#[export] Instance FilesystemStoreLaws : @ModelStoreLaws Files (FilesystemStore dir) _.
Proof.
  split; cbn [ms_Serve ms_FileHash ms_List ms_Save FilesystemStore].
  - intros name s. by eexists.
  - intros name s. unfold fs_FileHash. destruct (is_dir_name _); by eexists.
  - intros s. by eexists.
  - intros name content complete s. unfold fs_Save.
    destruct (write_temp_cases (file_path dir name +:+ ".tmp") (file_path dir name) content complete
      (is_dir_name (Base name)) s) as [(-> & E & Em)|(fs' & Em & _)];
      unfold result; rewrite (bind_Ret _ _ _ _ _ Em); by eexists.
  - intros name content complete s s' h. unfold fs_Save.
    destruct (write_temp_cases (file_path dir name +:+ ".tmp") (file_path dir name) content complete
      (is_dir_name (Base name)) s) as [(-> & E & Em)|(fs' & Em & _)]; rewrite (bind_Ret _ _ _ _ _ Em); [|done].
    intros [= <- <-]. split_and!; [done..|]. unfold fs_ServeDownload, gets. by rewrite E, lookup_insert_eq.
  - intros name content complete s s'. unfold fs_Save.
    destruct (write_temp_cases (file_path dir name +:+ ".tmp") (file_path dir name) content complete
      (is_dir_name (Base name)) s) as [(-> & E & Em)|(fs' & Em & Hk)]; rewrite (bind_Ret _ _ _ _ _ Em); [done|].
    intros [= <-]. unfold result, fs_ServeDownload, gets. cbn [snd].
    rewrite Hk by (apply not_eq_sym, append_neq; done). done.
  - intros name content complete s other Hname H1 H2. unfold fs_Save.
    unfold result, run, fs_ServeDownload, gets. cbn [snd].
    destruct (is_dir_name (Base other)) eqn:Hother; [done|].
    rewrite !file_path_plain by done.
    assert (Ho : forall b, Base other <> b -> dir_prefix dir +:+ Base other <> dir_prefix dir +:+ b).
    { intros b Hb E. by apply (inj (String.append _)) in E. }
    destruct (write_temp_cases ((dir_prefix dir +:+ Base name) +:+ ".tmp") (dir_prefix dir +:+ Base name) content complete
      (is_dir_name (Base name)) s) as [(-> & E & Em)|(fs' & Em & Hk)]; rewrite (bind_Ret _ _ _ _ _ Em); unfold mret, GoM_ret; cbn [fst].
    + rewrite append_assoc_str, lookup_insert_ne, lookup_delete_ne, lookup_insert_ne by (apply not_eq_sym, Ho; done). done.
    + rewrite Hk; [done|]. rewrite append_assoc_str. by apply Ho.
  - intros name s h. unfold fs_FileHash, fs_ServeDownload, gets. destruct (is_dir_name _); [done|].
    unfold open_file. unfold mbind, GoM_bind, gets. cbn. destruct (s !! file_path dir name) as [c|]; [|done]. cbn.
    destruct (read_ok _ c); [|done]. cbn. intros [= <-]. by exists c.
Qed.
End filesystem_laws.

(** ** The worker-facing API *)

Definition download_prefix : string := "/v1/models/download/".

(** A background download: the role that asked for it, the file, the URL. *)
Record download := { dn_role : string; dn_filename : string; dn_url : string }.

Section api.
Context `{Gorm, Crypto} {S : Type} `{!ModelStore S}.

Record ModelsAPI := {
  ma_dbStore : Store;
  ma_modelStore : S;
  ma_caching : gset string;      (* files whose download is in progress *)
  ma_running : list download;    (* the goroutines that were started *)
}.

Definition set_db (s : Store) (m : ModelsAPI) : ModelsAPI :=
  {| ma_dbStore := s; ma_modelStore := m.(ma_modelStore); ma_caching := m.(ma_caching); ma_running := m.(ma_running) |}.
Definition set_files (s : S) (m : ModelsAPI) : ModelsAPI :=
  {| ma_dbStore := m.(ma_dbStore); ma_modelStore := s; ma_caching := m.(ma_caching); ma_running := m.(ma_running) |}.
Definition set_caching (c : gset string) (m : ModelsAPI) : ModelsAPI :=
  {| ma_dbStore := m.(ma_dbStore); ma_modelStore := m.(ma_modelStore); ma_caching := c; ma_running := m.(ma_running) |}.
Definition set_running (l : list download) (m : ModelsAPI) : ModelsAPI :=
  {| ma_dbStore := m.(ma_dbStore); ma_modelStore := m.(ma_modelStore); ma_caching := m.(ma_caching); ma_running := l |}.

Definition on_db {A} (m : GoM Store A) : GoM ModelsAPI A := zoom ma_dbStore set_db m.
Definition on_files {A} (m : GoM S A) : GoM ModelsAPI A := zoom ma_modelStore set_files m.

(** Marks the file and starts the goroutine, unless it is marked already. *)
Definition start_download (d : download) : GoM ModelsAPI unit :=
  running ← gets (fun m => bool_decide (d.(dn_filename) ∈ m.(ma_caching)));
  if (running : bool) then skip
  else
    modify (fun m => set_caching ({[d.(dn_filename)]} ∪ m.(ma_caching)) m) ;;
    modify (fun m => set_running (m.(ma_running) ++ [d]) m).

Definition owns_file (base : string) (rm : RoleModel) : bool :=
  (Base rm.(rm_ModelFilename) == base) && (rm.(rm_DownloadURL) != "").

Definition fetchAndCacheModel (filename : string) : GoM ModelsAPI bool :=
  roles ← on_db GetRoleModels;
  match roles with
  | inr _ => mret false
  | inl roles =>
      let base := Base filename in
      match List.find (owns_file base) roles with
      | None => mret false
      | Some rm =>
          start_download {| dn_role := rm.(rm_Role); dn_filename := base; dn_url := rm.(rm_DownloadURL) |} ;;
          mret false
      end
  end.

(** The goroutine, given the body of a 200 answer to its GET, if it gets one,
    and whether the body arrives complete. *)
Definition downloadModelFile (d : download) (resp : option (string * bool)) : GoM ModelsAPI unit :=
  match resp with
  | None => skip
  | Some (body, complete) =>
      hash ← on_files (ms_Save d.(dn_filename) body complete);
      match hash with
      | None => skip
      | Some hash => on_db (SetRoleModelFileHash d.(dn_role) hash) ;; skip
      end
  end ;;
  modify (fun m => set_caching (m.(ma_caching) ∖ {[d.(dn_filename)]}) m).

Definition ensure_role (rm : RoleModel) : GoM ModelsAPI unit :=
  if rm.(rm_ModelFilename) == "" then skip
  else if rm.(rm_ModelFileHash) == "" then
    hash ← on_files (ms_FileHash rm.(rm_ModelFilename));
    match hash with
    | Some hash => on_db (SetRoleModelFileHash rm.(rm_Role) hash) ;; skip
    | None =>
        if rm.(rm_DownloadURL) != "" then
          start_download {| dn_role := rm.(rm_Role); dn_filename := rm.(rm_ModelFilename); dn_url := rm.(rm_DownloadURL) |}
        else skip
    end
  else skip.

Definition EnsureModelCache : GoM ModelsAPI unit :=
  roles ← on_db GetRoleModels;
  match roles with
  | inr _ => skip
  | inl roles => foreach roles ensure_role
  end.

(** [inl]: the file (or directory) as [ServeDownload] streams it *)
Definition DownloadHandler (workerKey : string) (r : Request) : GoM ModelsAPI (served + Response) :=
  if r.(r_Method) != "GET" then mret (inr (httpError "method not allowed" 405))
  else if negb (authenticate_worker workerKey r) then mret (inr (httpError "unauthorized" 401))
  else
    let filename := TrimPrefix r.(r_Path) download_prefix in
    if (filename == "") || (filename == r.(r_Path)) then mret (inr (writeError 400 "filename required in path"))
    else
      file ← on_files (ms_Serve filename);
      let not_found := inr (writeError 404 ("model not found: " +:+ Base filename)) in
      match file with
      | NotFound =>
          fetched ← fetchAndCacheModel filename;
          if (fetched : bool) then
            file ← on_files (ms_Serve filename);
            mret match file with NotFound => not_found | f => inl f end
          else mret not_found
      | f => mret (inl f)
      end.

Definition ListModelsHandler (workerKey : string) (r : Request) : GoM ModelsAPI (list ModelInfo + Response) :=
  if r.(r_Method) != "GET" then mret (inr (httpError "method not allowed" 405))
  else if negb (authenticate_worker workerKey r) then mret (inr (httpError "unauthorized" 401))
  else
    models ← on_files ms_List;
    mret match models with
         | Some l => inl l
         | None => inr (writeError 500 "failed to list models")
         end.

(** ** Histories: requests, the start-up pass, downloads that end, and what other
    parts of the manager do to the database *)

Inductive models_event :=
  | EvDownload (workerKey : string) (r : Request)
  | EvEnsure
  | EvEnd (i : nat) (resp : option (string * bool))    (* the i-th running goroutine *)
  | EvDatabase (others : GoM Store unit).

Definition exec_models (e : models_event) : GoM ModelsAPI unit :=
  match e with
  | EvDownload key r => DownloadHandler key r ;; skip
  | EvEnsure => EnsureModelCache
  | EvEnd i resp =>
      running ← gets ma_running;
      match running !! i with
      | None => skip
      | Some d =>
          downloadModelFile d resp ;;
          modify (fun m => set_running (delete i m.(ma_running)) m)
      end
  | EvDatabase others => on_db others
  end.
End api.
Arguments ModelsAPI {_} _.

(** ** One download per file *)

Section downloads.
Context `{GormLaws, Crypto} {S : Type} `{!ModelStore S, !ModelStoreLaws S}.
Implicit Types m : ModelsAPI S.

Definition filenames (m : ModelsAPI S) : list string := List.map dn_filename m.(ma_running).

(** The marked files are those of the running downloads, one each. *)
Record downloads_ok (m : ModelsAPI S) : Prop := {
  do_nodup : NoDup (filenames m);
  do_marked : m.(ma_caching) = list_to_set (filenames m);
}.
Definition downloads_rel (m m' : ModelsAPI S) : Prop := downloads_ok m -> downloads_ok m'.
#[local] Instance downloads_rel_preorder : PreOrder downloads_rel.
Proof. split; [by intros ??|intros ????? H3; auto]. Qed.

Definition same_downloads (m m' : ModelsAPI S) : Prop :=
  m'.(ma_caching) = m.(ma_caching) /\ m'.(ma_running) = m.(ma_running).
#[local] Instance same_downloads_preorder : PreOrder same_downloads.
Proof. split; [done|]. intros m1 m2 m3 [] []. split; congruence. Qed.

Lemma same_on_db {A} (a : GoM Store A) : keeps same_downloads (on_db a).
Proof. intros m. unfold run, on_db, zoom. by destruct (a _). Qed.
Lemma same_on_files {A} (a : GoM S A) : keeps same_downloads (on_files a).
Proof. intros m. unfold run, on_files, zoom. by destruct (a _). Qed.
Lemma rel_same {A} (a : GoM (ModelsAPI S) A) : keeps same_downloads a -> keeps downloads_rel a.
Proof.
  intros Ha m [Hn Hm]. destruct (Ha m) as [Hc Hr]. unfold run in *.
  split; unfold filenames in *; by rewrite ?Hc, Hr.
Qed.
Lemma rel_on_db {A} (a : GoM Store A) : keeps downloads_rel (on_db a).
Proof. apply rel_same, same_on_db. Qed.
Lemma rel_on_files {A} (a : GoM S A) : keeps downloads_rel (on_files a).
Proof. apply rel_same, same_on_files. Qed.
Hint Resolve same_on_db same_on_files rel_on_db rel_on_files : keeps.

Lemma rel_start d : keeps downloads_rel (start_download d).
Proof.
  intros m [Hn Hm]. unfold run, start_download. erewrite bind_Ret by done.
  case_bool_decide as Hin; [done|].
  erewrite bind_Ret by done. unfold modify. cbn. rewrite Hm in Hin.
  split; unfold filenames in *; cbn; rewrite map_app; cbn.
  - rewrite <- Permutation_cons_append. constructor; [|done]. intros Hx. apply Hin. by apply elem_of_list_to_set.
  - rewrite Hm, list_to_set_app_L. cbn. set_solver.
Qed.
Hint Resolve rel_start : keeps.

Lemma rel_DownloadHandler key r : keeps downloads_rel (DownloadHandler key r).
Proof. unfold DownloadHandler, fetchAndCacheModel. keeps_tac. Qed.
Lemma rel_EnsureModelCache : keeps downloads_rel EnsureModelCache.
Proof. unfold EnsureModelCache, ensure_role. keeps_tac. Qed.

Lemma returns_on_db {A} (a : GoM Store A) : returns a -> returns (on_db (S := S) a).
Proof. intros Ha m. destruct (Ha m.(ma_dbStore)) as [x Hx]. exists x. unfold result, on_db, zoom in *. by destruct (a _). Qed.
Lemma returns_on_files {A} (a : GoM S A) : returns a -> returns (on_files a).
Proof. intros Ha m. destruct (Ha m.(ma_modelStore)) as [x Hx]. exists x. unfold result, on_files, zoom in *. by destruct (a _). Qed.
Hint Resolve returns_on_db returns_on_files save_returns : returns.

(** The effects of the goroutine before its deferred unmarking. *)
Definition download_body (d : download) (resp : option (string * bool)) : GoM (ModelsAPI S) unit :=
  match resp with
  | None => skip
  | Some (body, complete) =>
      hash ← on_files (ms_Save d.(dn_filename) body complete);
      match hash with
      | None => skip
      | Some hash => on_db (SetRoleModelFileHash d.(dn_role) hash) ;; skip
      end
  end.

Lemma returns_download_body d resp : returns (download_body d resp).
Proof. unfold download_body, SetRoleModelFileHash. returns_tac. Qed.
Lemma same_download_body d resp : keeps same_downloads (download_body d resp).
Proof. unfold download_body. keeps_tac. Qed.

(** The goroutine always ends, and unmarks its file. *)
Lemma downloadModelFile_ends d resp m :
  let m1 := run (download_body d resp) m in
  downloadModelFile d resp m = (set_caching (m.(ma_caching) ∖ {[d.(dn_filename)]}) m1, Ret tt) /\
  m1.(ma_running) = m.(ma_running).
Proof.
  destruct (returns_download_body d resp m) as [[] E]. destruct (same_download_body d resp m) as [Hc Hr].
  unfold run, result in *. cbv zeta. split; [|done].
  change (downloadModelFile d resp) with (download_body d resp ;;
    modify (fun m => set_caching (m.(ma_caching) ∖ {[d.(dn_filename)]}) m)).
  unfold mbind, GoM_bind. destruct (download_body d resp m) as [m1 r]. cbn in *. subst r. unfold modify. by rewrite Hc.
Qed.

Lemma rel_end i resp : keeps downloads_rel (exec_models (EvEnd i resp)).
Proof.
  intros m [Hn Hm]. unfold run. cbn [exec_models]. erewrite bind_Ret by done.
  destruct (m.(ma_running) !! i) as [d|] eqn:Hi; [|done].
  destruct (downloadModelFile_ends d resp m) as [E Hr]. rewrite (bind_Ret _ _ _ _ _ E). clear E.
  unfold modify. cbn [fst]. unfold filenames in *. cbn [ma_running ma_caching set_caching set_running].
  rewrite Hr. apply take_drop_middle in Hi. rewrite delete_take_drop.
  rewrite <- Hi, map_app in Hn, Hm. cbn in Hn, Hm. rewrite <- Permutation_middle in Hn.
  inversion_clear Hn as [|?? Hnew Hn']. split; unfold filenames, set_running, set_caching; cbn [ma_running ma_caching]; rewrite map_app; [exact Hn'|].
  rewrite Hm. apply set_eq. intros x. rewrite elem_of_difference, !elem_of_list_to_set, !elem_of_app, elem_of_cons, elem_of_singleton.
  rewrite elem_of_app in Hnew. naive_solver.
Qed.

Lemma rel_exec e : keeps downloads_rel (exec_models e).
Proof.
  destruct e as [key r| |i resp|others]; [|apply rel_EnsureModelCache|apply rel_end|apply rel_on_db].
  cbn [exec_models]. apply keeps_bind; [apply _|apply rel_DownloadHandler|intros; apply keeps_ret, _].
Qed.

(** *** Names and files *)

(** A download writes the base of its name, a request is marked under the base,
    and the start-up pass marks the name of the role as it is: the mark stands for
    the file when the name is a plain one. *)
Definition stored_file (d : download) : string := Base d.(dn_filename).
Definition base_name (name : string) : Prop := Base name = name.
Definition plain_role (rm : RoleModel) : Prop := rm.(rm_ModelFilename) = "" \/ base_name rm.(rm_ModelFilename).
Definition plain_names (m : ModelsAPI S) : Prop :=
  rows_ok plain_role Roles m.(ma_dbStore) /\ Forall base_name (filenames m).
(** The other parts of the manager give the roles such names. *)
Definition plain_event (e : models_event) : Prop :=
  match e with EvDatabase others => keeps (rows_rel plain_role Roles) others | _ => True end.
Definition plain_rel (m m' : ModelsAPI S) : Prop := plain_names m -> plain_names m'.
#[local] Instance plain_rel_preorder : PreOrder plain_rel.
Proof. split; [by intros ??|intros ????? H3; auto]. Qed.

Lemma plain_on_db {A} (a : GoM Store A) : keeps (rows_rel plain_role Roles) a -> keeps plain_rel (on_db a).
Proof. intros Ha m [Hr Hn]. specialize (Ha m.(ma_dbStore) Hr). unfold run, on_db, zoom in *. destruct (a _). by split. Qed.
Lemma plain_on_files {A} (a : GoM S A) : keeps plain_rel (on_files a).
Proof. intros m Hm. unfold run, on_files, zoom. by destruct (a _). Qed.
Lemma plain_hash role h : keeps plain_rel (on_db (SetRoleModelFileHash role h)).
Proof. apply plain_on_db, (rows_Updates plain_role Roles). by intros r. Qed.
Lemma plain_start d : base_name d.(dn_filename) -> keeps plain_rel (start_download d).
Proof.
  intros Hd m [Hr Hn]. unfold run, start_download. erewrite bind_Ret by done. case_bool_decide; [done|].
  erewrite bind_Ret by done. split; [done|]. unfold filenames, modify. cbn. rewrite map_app. apply list.Forall_app.
  split; [exact Hn|by apply list.Forall_singleton].
Qed.
Hint Resolve plain_on_files plain_hash : keeps.

Lemma found_roles m roles : result (on_db GetRoleModels) m = Ret (inl roles) -> plain_names m ->
  run (on_db GetRoleModels) m = m /\ Forall plain_role roles.
Proof.
  unfold run, result, on_db, zoom, GetRoleModels, Find, gets. cbn [fst snd]. intros [= E] [Hr _]. split; [by destruct m|].
  destruct (find_ok _ _ _ _ _ E) as (l & Hp & _ & ->). cbn [limited]. rewrite Hp.
  apply list.Forall_forall. intros rm [Hin _]%list_elem_of_In%List.filter_In. unfold rows_ok in Hr. rewrite list.Forall_forall in Hr.
  by apply Hr, list_elem_of_In.
Qed.
Lemma plain_roles_then {B} (k : list RoleModel + db_err -> GoM (ModelsAPI S) B) :
  (forall e, keeps plain_rel (k (inr e))) -> (forall roles, Forall plain_role roles -> keeps plain_rel (k (inl roles))) ->
  keeps plain_rel (on_db GetRoleModels ≫= k).
Proof.
  intros He Hk m Hm. unfold run, mbind, GoM_bind.
  assert (E : exists r, on_db GetRoleModels m = (m, Ret r)).
  { unfold on_db, zoom, GetRoleModels, Find, gets. eexists. by destruct m. }
  destruct E as [[roles|e] E]; rewrite E; [|by apply He].
  apply Hk; [|exact Hm]. apply (found_roles m); [unfold result; by rewrite E|exact Hm].
Qed.
Lemma plain_ensure rm : plain_role rm -> keeps plain_rel (ensure_role rm).
Proof.
  intros Hrm. unfold ensure_role. destruct (bool_decide_reflect (rm_ModelFilename rm = "")) as [|Hne]; [apply keeps_ret, _|].
  apply keeps_if; [|apply keeps_ret, _].
  apply keeps_bind; [apply _|apply plain_on_files|]. intros [h|]; [keeps_tac|]. apply keeps_if; [|apply keeps_ret, _].
  apply plain_start. by destruct Hrm.
Qed.
Lemma plain_fetch filename : keeps plain_rel (fetchAndCacheModel filename).
Proof.
  unfold fetchAndCacheModel. apply plain_roles_then; [intros e; apply keeps_ret, _|]. intros roles Hr. cbv zeta.
  destruct (List.find _ roles) as [rm|] eqn:Ef; [|apply keeps_ret, _]. apply find_in in Ef as [Hin Hb].
  apply keeps_bind; [apply _| |intros; apply keeps_ret, _]. apply plain_start. cbn [dn_filename].
  unfold owns_file in Hb. apply andb_true_iff in Hb as [Hb%bool_decide_eq_true _]. rewrite <- Hb.
  rewrite list.Forall_forall in Hr. specialize (Hr rm Hin). unfold base_name. destruct Hr as [->|E]; [done|by rewrite !E].
Qed.
Lemma plain_exec e : plain_event e -> keeps plain_rel (exec_models e).
Proof.
  destruct e as [key r| |i resp|others]; cbn [exec_models plain_event]; intros He.
  - apply keeps_bind; [apply _| |intros; apply keeps_ret, _]. unfold DownloadHandler. keeps_tac; apply plain_fetch.
  - unfold EnsureModelCache. apply plain_roles_then; [intros e; apply keeps_ret, _|]. intros roles Hr.
    induction Hr as [|rm roles Hrm _ IH]; cbn [foreach]; [apply keeps_ret, _|].
    apply keeps_bind; [apply _|by apply plain_ensure|intros; exact IH].
  - intros m Hm. unfold run. erewrite bind_Ret by done. destruct (m.(ma_running) !! i) as [d|] eqn:Ed; [|done].
    destruct (downloadModelFile_ends d resp m) as [E Hr]. rewrite (bind_Ret _ _ _ _ _ E). unfold modify. cbn [fst].
    assert (Hb : keeps plain_rel (download_body d resp)) by (unfold download_body; keeps_tac).
    destruct (Hb m Hm) as [Hrows Hn]. split; [exact Hrows|]. unfold filenames in *. cbn [ma_running set_running set_caching].
    rewrite list.Forall_forall in *. intros x Hx. apply Hn. rewrite list_elem_of_In, in_map_iff in *.
    destruct Hx as (y & <- & Hy). exists y. split; [done|]. rewrite <- list_elem_of_In in *. apply list_elem_of_lookup in Hy as [j Hj].
    rewrite delete_take_drop in Hj. apply list_elem_of_lookup_2 in Hj. rewrite elem_of_app in Hj.
    destruct Hj as [Hj|Hj]; [by eapply elem_of_take in Hj as (? & ? & ?); eapply list_elem_of_lookup_2|by eapply subseteq_drop].
  - by apply plain_on_db.
Qed.
(** C39. One download per file. Whatever requests arrive, however downloads end,
    however often the start-up pass runs and whatever else happens to the
    database, the worker-facing API marks exactly the names it is downloading,
    each once: a failed download never blocks a later one. If the roles name plain
    files, these are different files, so that at most one download of a file is in
    progress. (Downloads that an administrator starts by saving a role are not
    marked and not counted here.) *)
Theorem one_download_per_file es m : downloads_ok m ->
  let m' := run (foreach es exec_models) m in
  downloads_ok m' /\
  (plain_names m -> Forall plain_event es -> NoDup (List.map stored_file m'.(ma_running))).
Proof.
  intros Hm. cbv zeta. assert (Hok : keeps downloads_rel (foreach es exec_models))
    by (apply keeps_foreach; [apply _|apply rel_exec]).
  specialize (Hok m Hm). split; [exact Hok|]. intros Hp He.
  assert (Hk : keeps plain_rel (foreach es exec_models)).
  { clear Hok. induction He as [|e es He _ IH]; cbn [foreach]; [apply keeps_ret, _|].
    apply keeps_bind; [apply _|by apply plain_exec|intros; exact IH]. }
  destruct (Hk m Hp) as [_ Hn]. destruct Hok as [Hd _].
  unfold filenames in *. rewrite (map_ext_in stored_file dn_filename); [exact Hd|]. intros d Hin.
  rewrite list.Forall_forall in Hn. by apply Hn, list_elem_of_In, in_map.
Qed.

Lemma start_download_new d m : d.(dn_filename) ∉ m.(ma_caching) ->
  start_download d m = (set_running (m.(ma_running) ++ [d]) (set_caching ({[d.(dn_filename)]} ∪ m.(ma_caching)) m), Ret tt).
Proof. intros Hd. unfold start_download. erewrite bind_Ret by reflexivity. by rewrite bool_decide_eq_false_2. Qed.
(** A name with a directory is downloaded twice. The start-up pass marks the name
    of the role, a request the base of it: when the file of such a role is missing,
    the pass and one request start two downloads, which write the same file. *)
Theorem nested_name_is_fetched_twice `{!GormUp} rm m : let name := rm.(rm_ModelFilename) in
  live (db_Roles m.(ma_dbStore)) = [rm] -> name <> "" -> Base name <> name -> Base (Base name) = Base name ->
  rm.(rm_ModelFileHash) = "" -> rm.(rm_DownloadURL) <> "" -> result (ms_FileHash name) m.(ma_modelStore) = Ret None ->
  m.(ma_caching) = ∅ -> m.(ma_running) = [] ->
  List.map stored_file (run (EnsureModelCache ;; fetchAndCacheModel (Base name)) m).(ma_running) = [Base name; Base name].
Proof.
  cbv zeta. intros Hl Hne Hb Hbb Hh Hu Hf Hc Hr.
  assert (Eroles : forall m' : ModelsAPI S, m'.(ma_dbStore) = m.(ma_dbStore) -> on_db GetRoleModels m' = (m', Ret (inl [rm]))).
  { intros m' Em. destruct (up_find (fun _ => true) (Some rm_MinVRAMMB) None (db_Roles m'.(ma_dbStore))) as [rows Hrows].
    unfold on_db, zoom, GetRoleModels, Find, gets. cbn [lget Roles]. rewrite Hrows.
    destruct (find_ok _ _ _ _ _ Hrows) as (l & Hp & _ & ->). rewrite Em, Hl in Hp. apply Permutation_singleton_r in Hp as ->.
    by destruct m'. }
  unfold run, EnsureModelCache. rewrite (bind_Ret _ _ m (set_running [{| dn_role := rm.(rm_Role); dn_filename := rm.(rm_ModelFilename); dn_url := rm.(rm_DownloadURL) |}]
    (set_caching {[rm.(rm_ModelFilename)]} m)) tt).
  - unfold fetchAndCacheModel. erewrite bind_Ret by (by apply Eroles). cbn [List.find]. unfold owns_file.
    rewrite Hbb, bool_decide_eq_true_2, bool_decide_eq_false_2 by done. cbn [negb andb].
    erewrite bind_Ret.
    2: { apply start_download_new. cbn. rewrite elem_of_singleton. congruence. }
    unfold stored_file, mret, GoM_ret. cbn. by rewrite Hbb.
  - rewrite (bind_Ret _ _ _ _ _ (Eroles m eq_refl)). cbn [foreach].
    rewrite (bind_Ret _ _ m (set_running [{| dn_role := rm.(rm_Role); dn_filename := rm.(rm_ModelFilename); dn_url := rm.(rm_DownloadURL) |}]
      (set_caching {[rm.(rm_ModelFilename)]} m)) tt); [done|]. unfold ensure_role.
    rewrite Hh, (bool_decide_eq_false_2 (rm_ModelFilename rm = "")), (bool_decide_eq_true_2 ("" = "")) by done.
    destruct (hash_reads rm.(rm_ModelFilename) m.(ma_modelStore)) as [h Eh]. unfold result in Hf. rewrite Eh in Hf. injection Hf as ->.
    rewrite (bind_Ret _ _ m m None) by (unfold on_files, zoom; rewrite Eh; by destruct m).
    rewrite bool_decide_eq_false_2 by done. cbn [negb]. rewrite start_download_new by (cbn; rewrite Hc; apply not_elem_of_empty).
    by rewrite Hr, Hc, union_empty_r_L.
Qed.

(** ** What a finished download and the start-up pass leave behind *)

Definition roles_of (m : ModelsAPI S) : list RoleModel := live (db_Roles m.(ma_dbStore)).
Definition serves (m : ModelsAPI S) (name : string) : res served := result (ms_Serve name) m.(ma_modelStore).

Lemma SetRoleModelFileHash_rows `{!GormUp} role h m : exists s,
  on_db (SetRoleModelFileHash role h) m = (set_db s m, Ret None) /\
  live (db_Roles s) = update_rows (by_role role) (set_rm_ModelFileHash h) (roles_of m).
Proof.
  destruct (Updates_up Roles (by_role role) (set_rm_ModelFileHash h) m.(ma_dbStore)) as (t & E & Hl & _).
  exists (lset Roles t m.(ma_dbStore)). split; [|done].
  unfold on_db, zoom, SetRoleModelFileHash. by rewrite E.
Qed.

Lemma serves_answer name m content :
  serves m name = Ret (ServedFile content) -> on_files (ms_Serve name) m = (m, Ret (ServedFile content)).
Proof.
  unfold serves, result, on_files, zoom. destruct (serve_reads name m.(ma_modelStore)) as [r ->]. cbn. intros [= ->].
  by destruct m.
Qed.

(** A background download that ends either leaves the roles and what is
    served for the file as they were, or the answer arrived complete, the file
    is served to every authenticated worker that asks for it, and the role
    that asked is told to expect exactly its SHA-256; no other role changes. *)
Theorem finished_download_is_served `{!GormUp} d resp m m' :
  downloadModelFile d resp m = (m', Ret tt) ->
  (roles_of m' = roles_of m /\ serves m' d.(dn_filename) = serves m d.(dn_filename)) \/
  exists body, resp = Some (body, true) /\
    roles_of m' = update_rows (by_role d.(dn_role)) (set_rm_ModelFileHash (digest body)) (roles_of m) /\
    forall key r, r.(r_Method) = "GET" -> authenticate_worker key r = true ->
      r.(r_Path) = download_prefix +:+ d.(dn_filename) -> d.(dn_filename) <> "" ->
      DownloadHandler key r m' = (m', Ret (inl (ServedFile body))).
Proof.
  destruct (downloadModelFile_ends d resp m) as [E _]. rewrite E. intros [= <-]. clear E.
  set (c := ma_caching m ∖ {[dn_filename d]}).
  unfold download_body. destruct resp as [[body complete]|]; [|by left].
  unfold run, on_files, zoom, mbind, GoM_bind.
  destruct (save_returns d.(dn_filename) body complete m.(ma_modelStore)) as [h Eh].
  unfold result in Eh. destruct (ms_Save _ _ _ _) as [s' r] eqn:Es. cbn in Eh. subst r.
  destruct h as [h|]; [|left; split; [done|]; exact (save_failed _ _ _ _ _ Es)].
  destruct (save_ok _ _ _ _ _ _ Es) as (-> & -> & Hserve). right. exists body. split; [done|].
  destruct (SetRoleModelFileHash_rows (dn_role d) (digest body) (set_files s' m)) as (s1 & Ed & Hrows).
  rewrite Ed. cbn [fst skip mret GoM_ret]. split; [exact Hrows|].
  intros key r Hget Hauth Hpath Hname. unfold DownloadHandler. rewrite Hget, Hauth, Hpath. cbn [negb].
  rewrite bool_decide_eq_true_2 by done. cbn [negb]. rewrite TrimPrefix_app.
  rewrite bool_decide_eq_false_2 by done.
  rewrite bool_decide_eq_false_2 by (intros E; apply (f_equal String.length) in E; rewrite length_app_str in E; cbn in E; lia).
  cbn [orb]. assert (Hs : serves (set_caching c (set_db s1 (set_files s' m))) d.(dn_filename) = Ret (ServedFile body))
    by (unfold serves, result; cbn; by rewrite Hserve).
  by rewrite (bind_Ret _ _ _ _ _ (serves_answer _ _ _ Hs)).
Qed.

(** The role [rm] needs no download, or has one, or knows the digest of its file. *)
Definition settled (m : ModelsAPI S) (rm : RoleModel) : Prop :=
  rm.(rm_ModelFilename) = "" \/ rm.(rm_DownloadURL) = "" \/ rm.(rm_ModelFilename) ∈ m.(ma_caching) \/
  forall row, row ∈ roles_of m -> row.(rm_Role) = rm.(rm_Role) -> row.(rm_ModelFileHash) <> "".

(** A step of the start-up pass: roles keep their names, a recorded digest is
    one before or the digest of the served file, marks stay. *)
Record ensure_rel (m m' : ModelsAPI S) : Prop := {
  er_files : m'.(ma_modelStore) = m.(ma_modelStore);
  er_caching : m.(ma_caching) ⊆ m'.(ma_caching);
  er_rows : Forall2 (fun r r' => r'.(rm_Role) = r.(rm_Role) /\ (r'.(rm_ModelFileHash) = r.(rm_ModelFileHash) \/
      exists name content, serves m name = Ret (ServedFile content) /\ r'.(rm_ModelFileHash) = digest content))
    (roles_of m) (roles_of m');
}.
#[local] Instance ensure_rel_preorder : PreOrder ensure_rel.
Proof.
  split.
  - intros m. split; [done..|]. apply Forall_Forall2_diag, Forall_true. eauto.
  - intros m1 m2 m3 [F1 C1 R1] [F2 C2 R2]. split; [congruence|set_solver|].
    unfold serves in *. rewrite F1 in R2. revert R1 R2. generalize (roles_of m1), (roles_of m2), (roles_of m3).
    intros l1 l2 l3 R1. revert l3. induction R1 as [|r1 r2 l1 l2 [E1 H12] _ IH]; intros l3 R2; inversion R2 as [|? r3 ? ? [E2 H23]]; subst; constructor; [|by apply IH].
    split; [congruence|]. destruct H23 as [->|]; [|by right]. done.
Qed.

Lemma digest_some `{!CryptoLaws} content : digest content <> "".
Proof.
  intros E. apply (f_equal String.length) in E. unfold digest in E.
  by rewrite length_hex, sha256_length in E.
Qed.

Lemma settled_kept `{!CryptoLaws} m m' rm : ensure_rel m m' -> settled m rm -> settled m' rm.
Proof.
  intros [_ Hc Hr] [?|[?|[?|Hrow]]]; [by left|by right; left|right; right; left; set_solver|].
  right; right; right. intros row' Hin Hrole. apply list_elem_of_lookup in Hin as [i Hi].
  destruct (Forall2_lookup_r _ _ _ _ _ Hr Hi) as (row & Hrow' & E & H3).
  specialize (Hrow row (list_elem_of_lookup_2 _ _ _ Hrow') ltac:(congruence)). destruct H3 as [->|(name & content & _ & ->)]; [done|apply digest_some].
Qed.

Lemma Forall2_update {R} (Q : R -> R -> Prop) (p : R -> bool) f l : (forall r, Q r r) -> (forall r, Q r (f r)) ->
  Forall2 Q l (update_rows p f l).
Proof. intros H2 H3. unfold update_rows. induction l as [|x l IH]; cbn; constructor; [by destruct (p x)|done]. Qed.

Lemma start_download_rel d m : exists m', start_download d m = (m', Ret tt) /\ ensure_rel m m' /\ d.(dn_filename) ∈ m'.(ma_caching).
Proof.
  unfold start_download. erewrite bind_Ret by done. case_bool_decide as Hin; [by eexists|].
  erewrite bind_Ret by done. eexists. split; [done|]. split; [|cbn; set_solver].
  split; [done|cbn; set_solver|]. apply Forall_Forall2_diag, Forall_true. eauto.
Qed.

(** The pass over one role settles it, when no row of its name had a digest
    without [rm] having it. *)
Lemma ensure_role_settles `{!GormUp, !CryptoLaws} rm m :
  (rm.(rm_ModelFileHash) <> "" -> settled m rm) ->
  exists m', ensure_role rm m = (m', Ret tt) /\ ensure_rel m m' /\ settled m' rm.
Proof.
  intros Hhash. unfold ensure_role. destruct (rm_ModelFilename rm == "") eqn:Hf.
  { apply bool_decide_eq_true in Hf. exists m. split_and!; [done..|by left]. }
  destruct (rm_ModelFileHash rm == "") eqn:Hh.
  2:{ apply bool_decide_eq_false_1 in Hh. exists m. by split_and!; [| |apply Hhash]. }
  destruct (hash_reads rm.(rm_ModelFilename) m.(ma_modelStore)) as [h Eh].
  assert (E : on_files (ms_FileHash rm.(rm_ModelFilename)) m = (m, Ret h)).
  { unfold on_files, zoom. rewrite Eh. by destruct m. }
  rewrite (bind_Ret _ _ _ _ _ E). destruct h as [h|].
  - destruct (hash_ok _ _ _ Eh) as (content & Hs & ->).
    destruct (SetRoleModelFileHash_rows rm.(rm_Role) (digest content) m) as (s & Es & Hrows).
    rewrite (bind_Ret _ _ _ _ _ Es). exists (set_db s m). split_and!; [done| |].
    + split; [done..|]. unfold roles_of at 2. cbn [ma_dbStore set_db]. rewrite Hrows.
      apply Forall2_update; [by eauto|]. intros r. split; [done|]. right. exists (rm_ModelFilename rm), content.
      split; [|done]. unfold serves, result. by rewrite Hs.
    + right; right; right. unfold roles_of. cbn [ma_dbStore set_db]. rewrite Hrows. unfold update_rows.
      intros row (r & -> & Hr)%list_elem_of_fmap. destruct (by_role (rm_Role rm) r) eqn:Hb; [intros _; apply digest_some|].
      unfold by_role in Hb. intros Hrole. by apply bool_decide_eq_false_1 in Hb.
  - destruct (rm_DownloadURL rm != "") eqn:Hu; [|exists m; split_and!; [done..|right; left]; by apply negb_false_iff, bool_decide_eq_true in Hu].
    destruct (start_download_rel {| dn_role := rm_Role rm; dn_filename := rm_ModelFilename rm; dn_url := rm_DownloadURL rm |} m)
      as (m' & E' & Hrel & Hin). exists m'. split_and!; [done..|]. by right; right; left.
Qed.

Lemma ensure_loop `{!GormUp, !CryptoLaws} rows m :
  (forall rm, rm ∈ rows -> rm.(rm_ModelFileHash) <> "" -> settled m rm) ->
  exists m', foreach rows ensure_role m = (m', Ret tt) /\ ensure_rel m m' /\ forall rm, rm ∈ rows -> settled m' rm.
Proof.
  revert m. induction rows as [|rm rows IH]; intros m Hrows; cbn [foreach].
  - exists m. split_and!; [done..|]. by intros rm ?%elem_of_nil.
  - destruct (ensure_role_settles rm m) as (m1 & E1 & R1 & Hs1); [apply Hrows; left|].
    rewrite (bind_Ret _ _ _ _ _ E1).
    destruct (IH m1) as (m2 & E2 & R2 & Hs2).
    { intros r Hr Hne. eapply settled_kept; [done|]. apply Hrows; [by right|done]. }
    exists m2. split_and!; [done|by etrans|]. intros r [->|Hr]%elem_of_cons; [by eapply settled_kept|by apply Hs2].
Qed.

(** The start-up pass leaves no role without its model: afterwards every
    role with a model file and a download URL has a recorded digest, or its
    file is being downloaded; a digest recorded by the pass is that of the
    file the store serves, and nothing else of the roles changes their names
    or digests. *)
Theorem startup_settles_every_role `{!GormUp, !CryptoLaws} m : unique_roles m.(ma_dbStore) ->
  exists m', EnsureModelCache m = (m', Ret tt) /\ ensure_rel m m' /\
    forall rm, rm ∈ roles_of m -> settled m' rm.
Proof.
  intros Hu. unfold EnsureModelCache.
  destruct (up_find (fun _ => true) (Some rm_MinVRAMMB) None (db_Roles m.(ma_dbStore))) as [rows Hf].
  assert (E : on_db GetRoleModels m = (m, Ret (inl rows))).
  { unfold on_db, zoom, GetRoleModels, Find, gets. cbn [lget Roles]. rewrite Hf. by destruct m. }
  rewrite (bind_Ret _ _ _ _ _ E).
  destruct (find_ok _ _ _ _ _ Hf) as (l & Hp & _ & ->). cbn [limited].
  assert (Hall : forall rm, rm ∈ l <-> rm ∈ roles_of m).
  { intros rm. rewrite Hp, !list_elem_of_In, filter_In. naive_solver. }
  destruct (ensure_loop l m) as (m' & E' & Hrel & Hs).
  - intros rm Hin Hne. right; right; right. intros row Hrow Hrole.
    replace row with rm; [done|]. symmetry. apply (row_of_role (roles_of m)); [|by apply Hall|done|done].
    by apply live_NoDup.
  - exists m'. split_and!; [done..|]. intros rm Hin. by apply Hs, Hall.
Qed.
End downloads.

(** ** The names of model files *)

Lemma HasSuffix_spec s p : HasSuffix s p = true <-> exists t, s = t +:+ p.
Proof.
  unfold HasSuffix. rewrite andb_true_iff, !bool_decide_eq_true. split.
  - intros [Hl Hd]. exists (take_str (String.length s - String.length p) s). rewrite <- Hd at 2. by rewrite drop_take_str.
  - intros [t ->]. rewrite length_app_str. split; [lia|].
    replace (String.length t + String.length p - String.length p)%nat with (String.length t) by lia. apply drop_str_app.
Qed.

Lemma take_str_app s t : take_str (String.length s) (s +:+ t) = s.
Proof. induction s as [|c s IH]; [by destruct t|]. exact (f_equal (String.String c) IH). Qed.

Lemma TrimSuffix_app s p : TrimSuffix (s +:+ p) p = s.
Proof.
  unfold TrimSuffix. rewrite (proj2 (HasSuffix_spec _ _)) by eauto. rewrite length_app_str.
  replace (String.length s + String.length p - String.length p)%nat with (String.length s) by lia. apply take_str_app.
Qed.
Lemma TrimSuffix_none s p : HasSuffix s p = false -> TrimSuffix s p = s.
Proof. unfold TrimSuffix. by intros ->. Qed.

Lemma last_dot_app s e : last_dot e = Some e -> last_dot (s +:+ e) = Some e.
Proof.
  intros He. induction s as [|c s IH]; [done|]. change (last_dot (String.String c (s +:+ e)) = Some e).
  cbn [last_dot]. by rewrite IH.
Qed.

(** Of two suffixes of a text the shorter is a suffix of the longer. *)
Lemma suffix_of_suffix (a x b y : string) : a +:+ x = b +:+ y -> (String.length x <= String.length y)%nat ->
  HasSuffix y x = true.
Proof.
  revert b. induction a as [|c a IH]; intros b E Hl.
  - destruct b as [|d b]; [apply HasSuffix_spec; exists ""; by symmetry|]. exfalso.
    apply (f_equal String.length) in E. rewrite !length_app_str in E. cbn [String.length] in E. lia.
  - destruct b as [|d b]; [apply HasSuffix_spec; exists (String.String c a); by symmetry|].
    injection E as _ E. by apply (IH b).
Qed.

Lemma suffixes_comparable (a x b y : string) : a +:+ x = b +:+ y -> HasSuffix y x = true \/ HasSuffix x y = true.
Proof.
  intros E. destruct (decide (String.length x <= String.length y)%nat).
  - left. by eapply suffix_of_suffix.
  - right. eapply suffix_of_suffix; [by symmetry|lia].
Qed.

Lemma after_last_slash_none s : slash ∉ String.list_ascii_of_string s -> after_last_slash s = s.
Proof.
  destruct s as [|c s]; [done|]. cbn. intros [Hc Hs]%not_elem_of_cons. destruct (existsb _ _) eqn:E.
  - by apply existsb_slash in E.
  - by rewrite bool_decide_eq_false_2.
Qed.

(** No pattern with its separator ends another with its separator. *)
Definition clashes (p q : string) : bool :=
  HasSuffix ("-" +:+ q) ("_" +:+ p) || HasSuffix ("_" +:+ p) ("-" +:+ q) ||
  ((p != q) && (HasSuffix ("-" +:+ q) ("-" +:+ p) || HasSuffix ("-" +:+ p) ("-" +:+ q))).
Lemma patterns_clash_free p q : p ∈ quantPatterns -> q ∈ quantPatterns -> clashes p q = false.
Proof.
  intros Hp Hq.
  assert (Hall : forallb (fun p => forallb (fun q => negb (clashes p q)) quantPatterns) quantPatterns = true) by by vm_compute.
  rewrite forallb_forall in Hall. apply list_elem_of_In, Hall in Hp. rewrite forallb_forall in Hp.
  apply list_elem_of_In, Hp in Hq. by apply negb_true_iff.
Qed.

Lemma has_quant_other name p q : p ∈ quantPatterns -> q ∈ quantPatterns ->
  has_quant (name +:+ ("-" +:+ q)) p = (p == q).
Proof.
  intros Hp Hq. pose proof (patterns_clash_free p q Hp Hq) as Hc. unfold clashes in Hc.
  apply orb_false_elim in Hc as [[H1 H2]%orb_false_elim H3]. unfold has_quant.
  destruct (decide (p = q)) as [->|Hne].
  - rewrite bool_decide_eq_true_2 by done. by rewrite (proj2 (HasSuffix_spec _ _)) by eauto.
  - rewrite bool_decide_eq_false_2 in * by done. cbn [negb andb] in H3. apply orb_false_elim in H3 as [H3 H4].
    apply orb_false_intro; apply Bool.not_true_is_false; intros [t Ht]%HasSuffix_spec;
      destruct (suffixes_comparable _ _ _ _ Ht); congruence.
Qed.

(** A model file named after a model and a quantisation of the list,
    [name-Q.gguf], is parsed into exactly that name and quantisation; only a
    name that itself ends in [_Q] loses that too. *)
Theorem model_names_are_parsed name q : q ∈ quantPatterns -> HasSuffix name ("_" +:+ q) = false ->
  slash ∉ String.list_ascii_of_string name ->
  parseModelFilename ((name +:+ ("-" +:+ q)) +:+ ".gguf") = (name, q).
Proof.
  intros Hq Hname Hslash. unfold parseModelFilename, Ext.
  rewrite after_last_slash_none.
  2:{ rewrite !list_ascii_of_app, !not_elem_of_app.
      assert (Hall : forallb (fun q => negb (existsb (fun d => d == slash) (String.list_ascii_of_string q))) ("-" :: ".gguf" :: quantPatterns) = true) by by vm_compute.
      rewrite forallb_forall in Hall.
      assert (Hno : forall x, x ∈ "-" :: ".gguf" :: quantPatterns -> slash ∉ String.list_ascii_of_string x).
      { intros x Hx%list_elem_of_In%Hall%negb_true_iff Hin. by rewrite (proj2 (existsb_slash _) Hin) in Hx. }
      split_and!; [done|apply Hno; set_solver|apply Hno; set_solver|apply Hno; set_solver]. }
  rewrite (last_dot_app _ ".gguf") by done. cbn [default]. rewrite TrimSuffix_app.
  destruct (List.find (has_quant (name +:+ ("-" +:+ q))) quantPatterns) as [p|] eqn:Hf.
  - apply find_in in Hf as [Hp Hf]. rewrite has_quant_other in Hf by done. apply bool_decide_eq_true in Hf as ->.
    by rewrite TrimSuffix_app, TrimSuffix_none.
  - apply (find_none _ _) with (x := q) in Hf; [|by apply list_elem_of_In].
    by rewrite has_quant_other, bool_decide_eq_true_2 in Hf.
Qed.

(** ** Witnesses *)

Section witnesses.
#[local] Existing Instances MemGorm MemGormLaws MemGormUp ToyCrypto ToyCryptoLaws.
#[local] Instance FilesOk : FileOs := {| create_ok _ := true; rename_ok _ _ := true; read_ok _ _ := true |}.
#[local] Instance models_dir : ModelStore Files := FilesystemStore "./models".
#[local] Instance models_dir_laws : ModelStoreLaws Files := FilesystemStoreLaws "./models" ltac:(discriminate).

Definition with_url : Store := run FillMissingDownloadURLs roles_ex.
Definition api_ex : ModelsAPI Files :=
  {| ma_dbStore := with_url; ma_modelStore := ∅; ma_caching := ∅; ma_running := [] |}.
Definition get_model : Request :=
  {| r_Method := "GET"; r_Path := download_prefix +:+ smol_file; r_Header _ := ""; r_Query _ := ""; r_Body := None |}.
Definition smol_download : download :=
  {| dn_role := "tester"; dn_filename := smol_file;
     dn_url := "https://huggingface.co/bartowski/SmolLM2-135M-Instruct-GGUF/resolve/main/SmolLM2-135M-Instruct-Q4_K_M.gguf" |}.

(** Two requests for a missing file and the start-up pass start one download
    of it (and one of the other role's file). *)
Example downloads_started :
  List.map dn_filename (ma_running (run (foreach [EvDownload "" get_model; EvDownload "" get_model; EvEnsure] exec_models) api_ex)) =
    [smol_file; "bge-m3-Q4_K_M.gguf"].
Proof. vm_compute. reflexivity. Qed.

Lemma one_download_per_file_witness : let m' := run (foreach [EvDownload "" get_model; EvEnsure; EvEnd 0 None; EvEnsure] exec_models) api_ex in
  downloads_ok m' /\ NoDup (List.map stored_file m'.(ma_running)).
Proof.
  destruct (one_download_per_file [EvDownload "" get_model; EvEnsure; EvEnd 0 None; EvEnsure] api_ex) as [Hok Hfiles].
  - split; [constructor|vm_compute; reflexivity].
  - split; [exact Hok|]. apply Hfiles; [|by repeat constructor]. split; [|constructor].
    apply (bool_decide_unpack _). vm_compute. exact I.
Defined.

(** A role whose file is in a directory of its own. *)
Definition nested_role : RoleModel := new_role "r" "m" "q" "sub/m.gguf" "" 1 "".
Lemma nested_name_is_fetched_twice_witness :
  let s := run (Create Roles (fun _ _ => false) (set_rm_DownloadURL "https://host/m.gguf" nested_role)) empty_store in
  List.map stored_file (run (EnsureModelCache ;; fetchAndCacheModel "m.gguf")
    {| ma_dbStore := s; ma_modelStore := ∅; ma_caching := ∅; ma_running := [] |}).(ma_running) = ["m.gguf"; "m.gguf"].
Proof.
  cbv zeta. apply (nested_name_is_fetched_twice (set_rm_DownloadURL "https://host/m.gguf" nested_role)); try reflexivity; discriminate.
Defined.

Lemma finished_download_is_served_witness :
  let m' := run (downloadModelFile smol_download (Some ("weights", true))) api_ex in
  DownloadHandler "" get_model m' = (m', Ret (inl (ServedFile "weights"))).
Proof.
  intros m'. assert (E : downloadModelFile smol_download (Some ("weights", true)) api_ex = (m', Ret tt))
    by (vm_compute; reflexivity).
  destruct (finished_download_is_served _ _ _ _ E) as [[Hrows _]|(body & Eb & _ & Hs)];
    [vm_compute in Hrows; discriminate|].
  injection Eb as <-. apply Hs; vm_compute; (reflexivity || discriminate).
Defined.

Lemma startup_settles_every_role_witness :
  exists m', EnsureModelCache api_ex = (m', Ret tt) /\ forall rm, rm ∈ roles_of api_ex -> settled m' rm.
Proof.
  destruct (startup_settles_every_role api_ex) as (m' & E & _ & Hs).
  - unfold unique_roles, unique_index. apply (bool_decide_unpack _). vm_compute. exact I.
  - exists m'. split; [exact E|exact Hs].
Defined.

Lemma model_names_are_parsed_witness :
  parseModelFilename "mistral-small-3.2-24b-instruct-2506-Q4_K_M.gguf" = ("mistral-small-3.2-24b-instruct-2506", "Q4_K_M").
Proof.
  apply (model_names_are_parsed "mistral-small-3.2-24b-instruct-2506" "Q4_K_M").
  - apply (bool_decide_unpack _). vm_compute. exact I.
  - vm_compute. reflexivity.
  - apply (bool_decide_unpack _). vm_compute. exact I.
Defined.
End witnesses.
