(* ===== verification/S3Store.v ===== *)
(** * The model store on S3 (internal/manager/models/store.go, S3Store)

    The second implementation of the interface of ModelFiles, over a bucket of
    an object store. The client library is the class [S3]. *)

From S2P Require Import Prelude GoStd Protocol Backend Files ModelFiles.

(** What a put comes to: it succeeds, it fails, or it fails at the client after
    the object was stored. *)
Inductive put_outcome := Stored | Rejected | StoredUnconfirmed.

Class S3 := {
  s3_lists : bool;                                 (* ListObjects reaches its end *)
  s3_stat : string -> bool;                        (* StatObject of an object that is there *)
  s3_reads : string -> string -> nat;              (* how many of the bytes of an object reach the reader *)
  s3_put : string -> string -> put_outcome;        (* PutObject of a stream that ends without error *)
  s3_range : string -> string -> option string;    (* the bytes of an object a Range header asks for *)
}.

Abbreviation Bucket := (gmap string string).

Section store.
Context `{S3, Crypto}.

(** A listing that does not descend shows keys with a slash as prefixes, which
    are no model files. *)
Definition listed (kc : string * string) : option ModelInfo :=
  let '(key, content) := kc in
  if existsb (fun c => c == slash) (String.list_ascii_of_string key) || negb (isModelFile key) then None
  else
    let '(name, quant) := parseModelFilename key in
    Some {| mi_Name := name; mi_Quantisation := quant; mi_Filename := key; mi_Size := Z.of_nat (String.length content) |}.
Definition s3_List : GoM Bucket (option (list ModelInfo)) :=
  gets (fun b => if s3_lists then Some (foldr insert_name [] (omap (M := list) listed (map_to_list b))) else None).

(** The answer of [ServeDownload]; GetObject only fails when the body is read,
    which is logged and cuts the body. *)
Record streamed := { sm_status : Z; sm_ContentLength : Z; sm_body : string }.
Definition s3_ServeDownload (filename rangeHeader : string) : GoM Bucket (option streamed) :=
  let filename := Base filename in
  gets (fun b =>
    match b !! filename with
    | Some content =>
        if negb (s3_stat filename) then None
        else
          let object := if rangeHeader != "" then default "" (s3_range rangeHeader content) else content in
          Some {| sm_status := if rangeHeader != "" then 206 else 200;
                  sm_ContentLength := Z.of_nat (String.length content);
                  sm_body := take_str (s3_reads filename object) object |}
    | None => None
    end).

Definition read_whole (key content : string) : bool := bool_decide (String.length content <= s3_reads key content)%nat.
Definition s3_FileHash (filename : string) : GoM Bucket (option string) :=
  let filename := Base filename in
  gets (fun b => content ← b !! filename; if read_whole filename content then Some (digest content) else None).

(** A stream that breaks off makes PutObject fail without storing an object. *)
Definition s3_Save (filename content : string) (complete : bool) : GoM Bucket (option string) :=
  let filename := Base filename in
  if negb complete then mret None
  else match s3_put filename content with
       | Stored => modify (<[filename := content]>) ;; mret (Some (digest content))
       | Rejected => mret None
       | StoredUnconfirmed => modify (<[filename := content]>) ;; mret None
       end.

(** A request for a whole file, as the interface has it. *)
Definition s3_serve (filename : string) : GoM Bucket served :=
  x ← s3_ServeDownload filename "";
  mret match x with Some a => ServedFile a.(sm_body) | None => NotFound end.

#[export] Instance S3Store : ModelStore Bucket := {|
  ms_List := s3_List; ms_Serve := s3_serve; ms_FileHash := s3_FileHash; ms_Save := s3_Save |}.
End store.

(** ** The contract *)

(** An object store that is up: what is there is found and read to its end, and
    a put either succeeds or stores nothing. *)
Class S3Up `{S3} := {
  stat_up key : s3_stat key = true;
  reads_up key (content : string) : (String.length content <= s3_reads key content)%nat;
  put_decides key content : s3_put key content <> StoredUnconfirmed;
}.

Section contract.
Context `{S3, !S3Up, Crypto}.

Lemma s3_serve_up filename b :
  s3_serve filename b = (b, Ret match b !! Base filename with Some content => ServedFile content | None => NotFound end).
Proof.
  unfold s3_serve, s3_ServeDownload, mbind, GoM_bind, gets. destruct (b !! Base filename) as [content|]; [|done].
  rewrite stat_up. cbn. by rewrite take_str_short by apply reads_up.
Qed.

Lemma s3_Save_cases filename content complete b :
  s3_Save filename content complete b = (<[Base filename := content]> b, Ret (Some (digest content))) /\ complete = true \/
  s3_Save filename content complete b = (b, Ret None).
Proof.
  unfold s3_Save. destruct complete; cbn [negb]; [|by right].
  pose proof (put_decides (Base filename) content) as Hd. destruct (s3_put _ _); [by left|by right|done].
Qed.

(** The store on S3 keeps the contract of the interface, so that the theorems
    about downloads hold of it as they do of the directory: a saved file is
    complete, has the reported digest and is served; a failed save changes
    nothing; other files are not touched. *)
Theorem s3_store_keeps_the_contract : ModelStoreLaws Bucket.
Proof.
  split.
  - intros name b. eexists. apply s3_serve_up.
  - intros name b. by eexists.
  - intros b. by eexists.
  - intros name content complete b. unfold result. cbn.
    destruct (s3_Save_cases name content complete b) as [[-> _]| ->]; by eexists.
  - intros name content complete b b' h E. cbn [ms_Save ms_Serve S3Store] in *.
    destruct (s3_Save_cases name content complete b) as [[E' Hc]|E']; rewrite E' in E; [|done].
    injection E as <- <-. split_and!; [done..|]. rewrite s3_serve_up. by rewrite lookup_insert_eq.
  - intros name content complete b b' E. cbn [ms_Save ms_Serve S3Store] in *.
    destruct (s3_Save_cases name content complete b) as [[E' _]|E']; rewrite E' in E; [done|]. by injection E as <-.
  - intros name content complete b other _ Ho _. unfold result, run. cbn [ms_Save ms_Serve S3Store]. rewrite !s3_serve_up.
    destruct (s3_Save_cases name content complete b) as [[-> _]| ->]; [|done]. cbn [fst snd]. by rewrite lookup_insert_ne.
  - intros name b h. cbn. unfold s3_FileHash, gets. intros [= E]. rewrite s3_serve_up.
    destruct (b !! Base name) as [content|]; [|done]. cbn in E. unfold read_whole in E.
    rewrite bool_decide_eq_true_2 in E by apply reads_up. injection E as <-. by exists content.
Qed.
End contract.

(** A resumed download is announced with the length of the whole file: the
    answer to a request for a part of a file promises more than follows, and the
    connection ends in an error. *)
Theorem resumed_downloads_promise_too_much `{S3, Crypto} filename rangeHeader part content b :
  rangeHeader <> "" -> b !! Base filename = Some content -> s3_stat (Base filename) = true ->
  s3_range rangeHeader content = Some part -> (String.length part < String.length content)%nat ->
  exists a, s3_ServeDownload filename rangeHeader b = (b, Ret (Some a)) /\ a.(sm_status) = 206%Z /\
    (Z.of_nat (String.length a.(sm_body)) < a.(sm_ContentLength))%Z.
Proof.
  intros Hr Hb Hs Hp Hlen. unfold s3_ServeDownload, gets. rewrite Hb, Hs, Hp, bool_decide_eq_false_2 by done. cbn [negb].
  eexists. split; [reflexivity|]. split; [done|]. cbn [sm_body sm_ContentLength default].
  assert (Ht : forall n s, (String.length (take_str n s) <= String.length s)%nat).
  { induction n as [|n IH]; intros [|c s]; cbn; [lia..|]. specialize (IH s). lia. }
  specialize (Ht (s3_reads (Base filename) part) part). unfold id. lia.
Qed.

Section witnesses.
Definition Minio : S3 := {| s3_lists := true; s3_stat _ := true; s3_reads _ content := String.length content; s3_put _ _ := Stored;
  s3_range _ content := Some (drop_str 3 content) |}.
#[local] Existing Instances Minio ToyCrypto.

#[local] Instance MinioUp : S3Up.
Proof. by split. Qed.

(** The bucket that has just stored a file serves it. *)
Lemma s3_store_keeps_the_contract_witness :
  s3_serve "m.gguf" (run (s3_Save "dir/m.gguf" "weights" true) ∅) =
    (run (s3_Save "dir/m.gguf" "weights" true) ∅, Ret (ServedFile "weights")).
Proof.
  refine (proj2 (proj2 (@save_ok _ _ _ s3_store_keeps_the_contract "m.gguf" "weights" true ∅ _ (digest "weights") _))).
  vm_compute. reflexivity.
Defined.

Lemma resumed_downloads_promise_too_much_witness :
  exists a, s3_ServeDownload "m.gguf" "bytes=3-" {["m.gguf" := "weights"]} = ({["m.gguf" := "weights"]}, Ret (Some a)) /\
    a.(sm_status) = 206%Z /\ (Z.of_nat (String.length a.(sm_body)) < a.(sm_ContentLength))%Z.
Proof.
  apply (resumed_downloads_promise_too_much "m.gguf" "bytes=3-" "ghts" "weights"); [discriminate|reflexivity..|vm_compute; lia].
Defined.
End witnesses.
