(* ===== verification/Downloads.v ===== *)
(** * Binary downloads (internal/manager/api/download.go, version.go, backend.go)

    The public download of patched client binaries, the proxy of released
    binaries, and the cache of llama-server archives for workers that cannot
    reach GitHub. *)

From S2P Require Import Prelude GoStd Strings Json Protocol Gorm Models Workers Backend BackendUrl Roles Cache Http Files Patch.

(** ** Released binaries (version.go) *)

Definition buildDownloadURL (version os arch kind : string) : string :=
  let base := if kind == "updater" then "synergia-updater" else "synergia-client" in
  let name := base +:+ "-" +:+ os +:+ "-" +:+ arch +:+ (if os == "windows" then ".exe" else "") in
  "https://github.com/ylallemant/synergia/releases/download/" +:+ version +:+ "/" +:+ name.

(** What a GET comes to: the status, the bytes of the body that arrive, and
    whether they are all of it; [None] when the request fails. *)
Definition http_result : Type := option (Z * string * bool).

(** [inl]: the streamed body *)
Definition BinaryDownloadHandler (get : string -> http_result) (r : Request) : string + Response :=
  if r.(r_Method) != "GET" then inr (httpError "method not allowed" 405)
  else if r.(r_Header) "Authorization" == "" then inr (httpError "unauthorized" 401)
  else
    let version := r.(r_Query) "version" in
    let osParam := r.(r_Query) "os" in
    let archParam := r.(r_Query) "arch" in
    let kindParam := if r.(r_Query) "kind" == "" then "client" else r.(r_Query) "kind" in
    if (version == "") || (osParam == "") || (archParam == "") then inr (httpError "version, os, and arch query params required" 400)
    else if (kindParam != "client") && (kindParam != "updater") then inr (httpError "kind must be 'client' or 'updater'" 400)
    else match get (buildDownloadURL version osParam archParam kindParam) with
    | None => inr (httpError "failed to fetch binary" 502)
    | Some (code, body, _) =>
        if bool_decide (code <> 200)%Z then inr (httpError ("GitHub returned " +:+ pretty code) 502)
        else inl body
    end.

(** ** Patched client binaries (download.go) *)

Record DownloadAPI := {
  da_binaryDir : string;
  da_cacheDir : string;
  da_files : Files;
  da_cache : Cache;
}.
Definition set_da_files (fs : Files) (d : DownloadAPI) : DownloadAPI :=
  {| da_binaryDir := d.(da_binaryDir); da_cacheDir := d.(da_cacheDir); da_files := fs; da_cache := d.(da_cache) |}.
Definition set_da_cache (c : Cache) (d : DownloadAPI) : DownloadAPI :=
  {| da_binaryDir := d.(da_binaryDir); da_cacheDir := d.(da_cacheDir); da_files := d.(da_files); da_cache := c |}.

(** The bodies of successful downloads. *)
Inductive downloaded :=
  | PatchedBinary (filename : string) (data : bytes)
  | AppBundle (entries : list (string * bytes)).   (* Synergia.zip: names and contents *)

(** The files in the zip archive of the app bundle. *)
Definition app_plist (version : string) : string :=
  let attr name value := name +:+ "=" +:+ quoted value in
  String.concat "" ((fun x => x +:+ str1 newline) <$>
    [ "<?xml " +:+ attr "version" "1.0" +:+ " " +:+ attr "encoding" "UTF-8" +:+ "?>";
      "<!DOCTYPE plist PUBLIC " +:+ quoted "-//Apple//DTD PLIST 1.0//EN" +:+ " " +:+
        quoted "http://www.apple.com/DTDs/PropertyList-1.0.dtd" +:+ ">";
      "<plist " +:+ attr "version" "1.0" +:+ ">";
      "<dict>";
      "  <key>CFBundleExecutable</key>          <string>synergia-client</string>";
      "  <key>CFBundleIdentifier</key>          <string>net.synergia.client</string>";
      "  <key>CFBundleName</key>                <string>Synergia</string>";
      "  <key>CFBundleShortVersionString</key>  <string>" +:+ version +:+ "</string>";
      "  <key>CFBundlePackageType</key>         <string>APPL</string>";
      "  <key>LSUIElement</key>                 <true/>";
      "</dict>";
      "</plist>" ]).
Definition buildAppBundleZip (binary : bytes) (version : string) : list (string * bytes) :=
  let version := if version == "" then "dev" else version in
  [("Synergia.app/Contents/MacOS/synergia-client", binary);
   ("Synergia.app/Contents/Info.plist", to_bytes (app_plist version))].

Section download.
Context `{FileOs, Crypto}.

Definition read_at (path : string) : GoM DownloadAPI (option string) :=
  gets (fun d => c ← d.(da_files) !! path; if read_ok path c then Some c else None).

Definition first_tag (l : list string) : string := match l with t :: _ => t | [] => "" end.

Definition target_version (versionOverride : string) (fetched : option (list string)) : GoM DownloadAPI string :=
  d ← gets id;
  let version := if versionOverride == "" then d.(da_cache).(ca_stats).(VersionTarget) else versionOverride in
  let version := if version == "" then first_tag d.(da_cache).(ca_clientTags) else version in
  if version == "" then
    tags ← zoom da_cache set_da_cache (RefreshClientTags fetched);
    mret match tags with Some tags => first_tag tags | None => "" end
  else mret version.

Definition cached_path (d : DownloadAPI) (version filename : string) : string :=
  Join_all [d.(da_cacheDir); "client-binaries"; version; filename].

(** [write_ok]: making the directory and writing the cached file works *)
Definition loadBinary (get : string -> http_result) (fetched : option (list string)) (write_ok : bool)
    (filename targetOS targetArch versionOverride : string) : GoM DownloadAPI (option string) :=
  d ← gets id;
  local ← read_at (path_Join d.(da_binaryDir) filename);
  match local with
  | Some data => mret (Some data)
  | None =>
      version ← target_version versionOverride fetched;
      if version == "" then mret None
      else
        let cachedPath := cached_path d version filename in
        cached ← read_at cachedPath;
        match cached with
        | Some data => mret (Some data)
        | None =>
            match get (buildDownloadURL version targetOS targetArch "client") with
            | Some (code, data, complete) =>
                if bool_decide (code <> 200)%Z || negb complete then mret None
                else
                  when write_ok (modify (fun d => set_da_files (<[cachedPath := data]> d.(da_files)) d)) ;;
                  mret (Some data)
            | None => mret None
            end
        end
  end.

Definition validOS (os : string) : bool := existsb (fun x => x == os) ["darwin"; "linux"; "windows"].
Definition validArch (arch : string) : bool := existsb (fun x => x == arch) ["amd64"; "arm64"].

Definition client_filename (targetOS targetArch : string) : string :=
  "synergia-client-" +:+ targetOS +:+ "-" +:+ targetArch +:+ (if targetOS == "windows" then ".exe" else "").

(** [host] and [tls]: the host the client asked, and whether the connection
    itself is encrypted *)
Definition manager_url (r : Request) (host : string) (tls : bool) : string :=
  let scheme := if negb tls && (r.(r_Header) "X-Forwarded-Proto" != "https") then "ws" else "wss" in
  scheme +:+ "://" +:+ host +:+ "/ws/worker".

Definition BinaryHandler (get : string -> http_result) (fetched : option (list string)) (write_ok : bool)
    (host : string) (tls : bool) (r : Request) : GoM DownloadAPI (downloaded + Response) :=
  if r.(r_Method) != "GET" then mret (inr (httpError "method not allowed" 405))
  else
    match SplitN (TrimPrefix r.(r_Path) "/download/") slash 2 with
    | [targetOS; targetArch] =>
        if (targetOS == "") || (targetArch == "") then mret (inr (httpError "usage: /download/{os}/{arch}" 400))
        else if negb (validOS targetOS) then mret (inr (httpError "invalid OS: must be darwin, linux, or windows" 400))
        else if negb (validArch targetArch) then mret (inr (httpError "invalid arch: must be amd64 or arm64" 400))
        else
          let filename := client_filename targetOS targetArch in
          data ← loadBinary get fetched write_ok filename targetOS targetArch (r.(r_Query) "version");
          match data with
          | None => mret (inr (httpError "binary not available for this platform" 404))
          | Some data =>
              match patchSentinel (to_bytes data) (manager_url r host tls) with
              | None => panic "slice bounds out of range"
              | Some (inr _) => mret (inr (httpError "binary patching failed" 500))
              | Some (inl patched) =>
                  if (r.(r_Query) "format" == "app") && (targetOS == "darwin") then
                    version ← gets (fun d => d.(da_cache).(ca_stats).(VersionTarget));
                    mret (inl (AppBundle (buildAppBundleZip patched version)))
                  else mret (inl (PatchedBinary filename patched))
              end
          end
    | _ => mret (inr (httpError "usage: /download/{os}/{arch}" 400))
    end.

(** [render]: the page made of the template and the version *)
Definition DownloadPageHandler (render : string -> option string) (r : Request) : GoM DownloadAPI Response :=
  if r.(r_Method) != "GET" then mret (httpError "method not allowed" 405)
  else
    version ← gets (fun d => d.(da_cache).(ca_stats).(VersionTarget));
    mret match render version with
         | Some page => {| status := 200; body := PlainText page |}
         | None => httpError "internal error" 500
         end.
End download.

(** The install script, made of public/install.sh. *)
Definition install_base (host : string) (tls : bool) : string := (if tls then "https" else "http") +:+ "://" +:+ host.
Definition InstallHandler (template : string) (host : string) (tls : bool) (r : Request) : Response :=
  if r.(r_Method) != "GET" then httpError "method not allowed" 405
  else
    let script := ReplaceAll template "{{BASE_URL}}" (install_base host tls) in
    let script := ReplaceAll script "{{WORKER_KEY}}" (r.(r_Query) "key") in
    {| status := 200; body := PlainText script |}.

(** ** Cached llama-server archives (backend.go) *)

Section backend_api.
Context `{Gorm, FileOs, Crypto}.

Record BackendAPI := {
  be_store : Store;
  be_cacheDir : string;
  be_files : Files;
  be_cacheMap : gmap string string;   (* version-os-arch -> cached file path *)
}.
Definition set_be_files (fs : Files) (b : BackendAPI) : BackendAPI :=
  {| be_store := b.(be_store); be_cacheDir := b.(be_cacheDir); be_files := fs; be_cacheMap := b.(be_cacheMap) |}.
Definition set_be_map (m : gmap string string) (b : BackendAPI) : BackendAPI :=
  {| be_store := b.(be_store); be_cacheDir := b.(be_cacheDir); be_files := b.(be_files); be_cacheMap := m |}.

Definition cache_key (version os arch : string) : string := version +:+ "-" +:+ os +:+ "-" +:+ arch.

(** [tmp]: the name [os.CreateTemp] picks; it never picks an existing file *)
Definition fetchAndCache (get : string -> http_result) (tmp url cacheKey expectedSHA256 : string)
    : GoM BackendAPI (option string) :=
  match get url with
  | None => mret None
  | Some (code, body, complete) =>
      if bool_decide (code <> 200)%Z then mret None
      else
        b ← gets id;
        let tmpPath := path_Join b.(be_cacheDir) tmp in
        if negb (create_ok tmpPath) || bool_decide (is_Some (b.(be_files) !! tmpPath)) then mret None
        else
          modify (fun b => set_be_files (<[tmpPath := body]> b.(be_files)) b) ;;
          let remove := modify (fun b => set_be_files (delete tmpPath b.(be_files)) b) in
          if negb complete then remove ;; mret None
          else
            let actualHash := hex_EncodeToString (sha256 body) in
            if (expectedSHA256 != "") && (actualHash != expectedSHA256) then remove ;; mret None
            else
              let finalPath := path_Join b.(be_cacheDir) cacheKey in
              if negb (rename_ok tmpPath finalPath) then remove ;; mret None
              else
                modify (fun b => set_be_files (<[finalPath := body]> (delete tmpPath b.(be_files))) b) ;;
                modify (fun b => set_be_map (<[cacheKey := finalPath]> b.(be_cacheMap)) b) ;;
                mret (Some finalPath)
  end.

(** [inl]: the streamed file *)
Definition serveFile (path : string) : GoM BackendAPI (string + Response) :=
  gets (fun b => match (c ← b.(be_files) !! path; if read_ok path c then Some c else None) with
                 | Some c => inl c
                 | None => inr (httpError "cache read error" 500)
                 end).

Definition on_be_store {A} (m : GoM Store A) : GoM BackendAPI A :=
  zoom be_store (fun s b => {| be_store := s; be_cacheDir := b.(be_cacheDir); be_files := b.(be_files);
                               be_cacheMap := b.(be_cacheMap) |}) m.

Definition backend_authorized (workerKey : string) (r : Request) : bool :=
  (workerKey == "") || (r.(r_Header) "Authorization" == ("Bearer " +:+ workerKey)).

(** [url_fuel] bounds the rescans of [ExpandURL]; a template whose expansion
    does not end keeps the handler busy for ever. *)
Definition BackendDownloadHandler (url_fuel : nat) (get : string -> http_result) (tmp workerKey : string) (r : Request)
    : GoM BackendAPI (string + Response) :=
  if r.(r_Method) != "GET" then mret (inr (httpError "method not allowed" 405))
  else if negb (backend_authorized workerKey r) then mret (inr (httpError "unauthorized" 401))
  else
    let version := r.(r_Query) "version" in
    let osParam := r.(r_Query) "os" in
    let archParam := r.(r_Query) "arch" in
    if (version == "") || (osParam == "") || (archParam == "") then
      mret (inr (httpError "version, os, and arch query params required" 400))
    else
      cfg ← on_be_store GetBackendVersionConfig;
      match cfg with
      | inr _ => mret (inr (httpError "no backend config set" 404))
      | inl cfg =>
          if cfg.(bv_Version) != version then mret (inr (httpError "requested version does not match configured target" 404))
          else
            let cacheKey := cache_key version osParam archParam in
            cached ← gets (fun b => b.(be_cacheMap) !! cacheKey);
            match cached with
            | Some cachedPath => serveFile cachedPath
            | None =>
                match ExpandURL url_fuel cfg.(bv_DownloadURL) version osParam archParam with
                | None => block
                | Some downloadURL =>
                    cachedPath ← fetchAndCache get tmp downloadURL cacheKey cfg.(bv_SHA256);
                    match cachedPath with
                    | None => mret (inr (httpError "failed to fetch backend binary" 502))
                    | Some cachedPath => serveFile cachedPath
                    end
                end
            end
      end.

Definition prewarmPlatforms : list (string * string) :=
  [("darwin", "arm64"); ("darwin", "amd64"); ("linux", "amd64"); ("linux", "arm64")].

(** One of the goroutines of [PrewarmCache]. *)
Definition prewarm_platform (url_fuel : nat) (get : string -> http_result) (tmp version urlTemplate expectedSHA256 : string)
    (p : string * string) : GoM BackendAPI unit :=
  let '(goos, goarch) := p in
  let cacheKey := cache_key version goos goarch in
  cached ← gets (fun b => b.(be_cacheMap) !! cacheKey);
  match cached with
  | Some _ => skip
  | None =>
      match ExpandURL url_fuel urlTemplate version goos goarch with
      | None => block
      | Some url => fetchAndCache get tmp url cacheKey expectedSHA256 ;; skip
      end
  end.

(** The directory as [NewBackendAPI] finds it: every file in it is taken for a
    cached archive. *)
Definition NewBackendAPI (s : Store) (cacheDir : string) (fs : Files) (entries : list string) : BackendAPI :=
  {| be_store := s; be_cacheDir := cacheDir; be_files := fs;
     be_cacheMap := list_to_map (List.map (fun e => (e, path_Join cacheDir e)) entries) |}.
End backend_api.

(** ** What the cache serves *)

Section cache.
Context `{Gorm, FileOs, Crypto}.

(** Requests of workers, and the goroutines of a prewarming for the
    configured version, URL and digest; the environment differs each time. *)
Inductive backend_event :=
  | BeRequest (url_fuel : nat) (get : string -> http_result) (tmp workerKey : string) (r : Request)
  | BePrewarm (url_fuel : nat) (get : string -> http_result) (tmp : string) (platform : string * string).

Definition exec_backend (cfg : BackendVersionConfig) (e : backend_event) : GoM BackendAPI unit :=
  match e with
  | BeRequest fuel get tmp key r => BackendDownloadHandler fuel get tmp key r ;; skip
  | BePrewarm fuel get tmp p => prewarm_platform fuel get tmp cfg.(bv_Version) cfg.(bv_DownloadURL) cfg.(bv_SHA256) p
  end.

(** Every cached archive is on disk and has the digest [sha]. *)
Definition cache_verified (sha : string) (b : BackendAPI) : Prop :=
  forall key path, b.(be_cacheMap) !! key = Some path ->
    exists c, b.(be_files) !! path = Some c /\ hex_EncodeToString (sha256 c) = sha.

Definition cache_rel (sha : string) (b b' : BackendAPI) : Prop :=
  b'.(be_store) = b.(be_store) /\ (cache_verified sha b -> cache_verified sha b').
#[export] Instance cache_rel_preorder sha : PreOrder (cache_rel sha).
Proof. split; [done|]. intros b1 b2 b3 [E1 V1] [E2 V2]. split; [congruence|auto]. Qed.

Lemma verified_temp sha tmp body b : b.(be_files) !! tmp = None -> cache_verified sha b ->
  cache_verified sha (set_be_files (<[tmp := body]> b.(be_files)) b).
Proof.
  intros Hn Hv key path Hk. destruct (Hv key path Hk) as (c & Hc & Hd). exists c. split; [|done].
  cbn. rewrite lookup_insert_ne; [done|]. intros ->. congruence.
Qed.

(** A temporary file that was written and removed again. *)
Lemma verified_removed sha tmp body b : b.(be_files) !! tmp = None -> cache_verified sha b ->
  cache_verified sha (set_be_files (delete tmp (<[tmp := body]> b.(be_files))) b).
Proof.
  intros Hn Hv. assert (E : delete tmp (<[tmp := body]> b.(be_files)) = b.(be_files)).
  { by rewrite delete_insert_id. }
  rewrite E. by destruct b.
Qed.

Lemma verified_installed sha tmp path key body b : b.(be_files) !! tmp = None ->
  hex_EncodeToString (sha256 body) = sha -> cache_verified sha b ->
  cache_verified sha (set_be_map (<[key := path]> b.(be_cacheMap))
    (set_be_files (<[path := body]> (delete tmp (<[tmp := body]> b.(be_files)))) b)).
Proof.
  intros Hn Hd Hv k p Hk. cbn in *. rewrite delete_insert_id by done.
  destruct (decide (p = path)) as [->|Hne]; [exists body; by rewrite lookup_insert_eq|].
  apply lookup_insert_Some in Hk as [[_ ->]|[_ Hk]]; [done|].
  destruct (Hv k p Hk) as (c & Hc & ?). exists c. split; [by rewrite lookup_insert_ne|done].
Qed.

(** Fetching with a digest: the cache stays verified, and a fetched path is in it. *)
Lemma fetchAndCache_verified get tmp url key sha b : sha <> "" ->
  wp (fetchAndCache get tmp url key sha)
     (fun b' r => cache_rel sha b b' /\
        exists o, r = Ret o /\ forall path, o = Some path -> b'.(be_cacheMap) !! key = Some path) b.
Proof.
  intros Hsha. unfold fetchAndCache. set (Q := fun b' r => cache_rel sha b b' /\ _).
  assert (Hnone : Q b (Ret None)) by (split; [done|by eexists]).
  destruct (get url) as [[[code body] complete]|]; [|by apply wp_ret].
  destruct (bool_decide (code <> 200)%Z); [by apply wp_ret|].
  apply wp_bind, wp_gets. cbv beta iota zeta.
  set (tmpPath := path_Join _ tmp). destruct (negb (create_ok tmpPath) || _) eqn:Hc; [by apply wp_ret|].
  apply orb_false_elim in Hc as [_ Hn%bool_decide_eq_false_1]. apply eq_None_not_Some in Hn.
  assert (Hremoved : Q (set_be_files (delete tmpPath (<[tmpPath := body]> b.(be_files))) b) (Ret None)).
  { split; [split; [done|by apply verified_removed]|by eexists]. }
  apply wp_bind, wp_modify. cbv beta iota.
  destruct complete; cbn [negb]; [|by apply wp_bind, wp_modify].
  rewrite (bool_decide_eq_false_2 (sha = "")) by done. cbn [negb andb].
  destruct (hex_EncodeToString (sha256 body) != sha) eqn:Hd; [by apply wp_bind, wp_modify|].
  apply negb_false_iff, bool_decide_eq_true in Hd.
  destruct (rename_ok tmpPath _); cbn [negb]; [|by apply wp_bind, wp_modify].
  apply wp_bind, wp_modify. cbv beta iota. apply wp_bind, wp_modify. cbv beta iota. apply wp_ret.
  split; [split; [done|]|eexists; split; [done|]].
  - intros Hv. exact (verified_installed sha tmpPath (path_Join b.(be_cacheDir) key) key body b Hn Hd Hv).
  - intros path [= <-]. cbn. by rewrite lookup_insert_eq.
Qed.

Lemma keeps_fetch get tmp url key sha : sha <> "" -> keeps (cache_rel sha) (fetchAndCache get tmp url key sha).
Proof. intros Hsha b. by destruct (fetchAndCache_verified get tmp url key sha b Hsha). Qed.

Lemma serveFile_verified sha key path b content : cache_verified sha b -> b.(be_cacheMap) !! key = Some path ->
  result (serveFile path) b = Ret (inl content) -> hex_EncodeToString (sha256 content) = sha.
Proof.
  intros Hv Hk. destruct (Hv _ _ Hk) as (c & Hc & Hd). unfold result, serveFile, gets. cbn. rewrite Hc. cbn.
  destruct (read_ok path c); [|done]. by intros [= <-].
Qed.
End cache.

Section served.
Context `{GormLaws, FileOs, Crypto} (cfg : BackendVersionConfig) (s : Store).
Hypothesis configured : GetBackendVersionConfig s = (s, Ret (inl cfg)).
Hypothesis with_digest : cfg.(bv_SHA256) <> "".

Definition backend_post (b' : BackendAPI) (r : res (string + Response)) : Prop :=
  b'.(be_store) = s /\ cache_verified cfg.(bv_SHA256) b' /\
  forall content, r = Ret (inl content) -> hex_EncodeToString (sha256 content) = cfg.(bv_SHA256).

Lemma BackendDownloadHandler_verified fuel get tmp key r b :
  b.(be_store) = s -> cache_verified cfg.(bv_SHA256) b ->
  wp (BackendDownloadHandler fuel get tmp key r) backend_post b.
Proof.
  intros Hs Hv. unfold BackendDownloadHandler.
  assert (Herr : forall resp, backend_post b (Ret (inr resp))) by (intros; split_and!; done).
  destruct (_ != _); [by apply wp_ret|]. destruct (negb _); [by apply wp_ret|].
  cbv zeta. destruct (_ || _); [by apply wp_ret|].
  assert (E : on_be_store GetBackendVersionConfig b = (b, Ret (inl cfg))).
  { unfold on_be_store, zoom. rewrite Hs, configured, <- Hs. by destruct b. }
  eapply wp_bind, wp_eq; [exact E|]. cbv beta iota.
  destruct (_ != _); [by apply wp_ret|].
  eapply wp_bind, wp_gets. cbv beta iota.
  assert (Hserve : forall b1 path k, b1.(be_store) = s -> cache_verified cfg.(bv_SHA256) b1 ->
    b1.(be_cacheMap) !! k = Some path -> wp (serveFile path) backend_post b1).
  { intros b1 path k Hs1 Hv1 Hk. split_and!; [done..|]. intros content. by eapply serveFile_verified. }
  destruct (be_cacheMap b !! _) as [path|] eqn:Hk; [by eapply Hserve|].
  destruct (ExpandURL _ _ _ _ _) as [url|]; [|by split_and!].
  eapply wp_bind, wp_mono; [by apply (fetchAndCache_verified get tmp url _ (bv_SHA256 cfg))|].
  intros b' res ([Hs' Hv'] & o & -> & Ho). cbv beta iota. destruct o as [path|].
  - eapply Hserve; [congruence|by apply Hv'|by apply Ho].
  - apply wp_ret. split_and!; [congruence|by apply Hv'|done].
Qed.

Lemma verified_event e b : b.(be_store) = s -> cache_verified cfg.(bv_SHA256) b ->
  (run (exec_backend cfg e) b).(be_store) = s /\ cache_verified cfg.(bv_SHA256) (run (exec_backend cfg e) b).
Proof.
  intros Hs Hv. destruct e as [fuel get tmp key r|fuel get tmp [os arch]]; cbn [exec_backend].
  - rewrite run_skip. by destruct (BackendDownloadHandler_verified fuel get tmp key r b Hs Hv) as (? & ? & _).
  - assert (Hk : keeps (cache_rel cfg.(bv_SHA256)) (prewarm_platform fuel get tmp cfg.(bv_Version) cfg.(bv_DownloadURL) cfg.(bv_SHA256) (os, arch))).
    { pose proof (keeps_fetch get tmp) as Hf. unfold prewarm_platform.
      apply keeps_bind; [apply _|apply keeps_gets, _|intros [?|]; [apply keeps_ret, _|]].
      destruct (ExpandURL _ _ _ _ _); [|apply keeps_block, _].
      apply keeps_bind; [apply _|by apply Hf|intros; apply keeps_ret, _]. }
    destruct (Hk b) as [Hs' Hv']. split; [congruence|auto].
Qed.

(** When the configured backend version carries a digest, every archive
    the manager hands to a worker has that SHA-256, whatever requests and
    prewarmings ran before, whatever the network answered them, and whichever
    file operations failed; truncated and altered downloads are never served. *)
Theorem served_backend_is_verified es b0 fuel get tmp key r b' content :
  b0.(be_store) = s -> b0.(be_cacheMap) = ∅ ->
  BackendDownloadHandler fuel get tmp key r (run (foreach es (exec_backend cfg)) b0) = (b', Ret (inl content)) ->
  hex_EncodeToString (sha256 content) = cfg.(bv_SHA256).
Proof.
  intros Hs Hempty. assert (Hinv : (run (foreach es (exec_backend cfg)) b0).(be_store) = s /\
    cache_verified cfg.(bv_SHA256) (run (foreach es (exec_backend cfg)) b0)).
  { assert (Hv : cache_verified cfg.(bv_SHA256) b0) by (intros k p; by rewrite Hempty, lookup_empty).
    clear Hempty. revert b0 Hs Hv. induction es as [|e es IH]; intros b0 Hs Hv; [done|].
    destruct (verified_event e b0 Hs Hv) as [Hs1 Hv1]. cbn [foreach].
    unfold run, mbind, GoM_bind in *. destruct (exec_backend cfg e b0) as [b1 [u|m|]]; cbn in *; [by apply IH|done..]. }
  destruct Hinv as [Hs1 Hv1]. intros E.
  pose proof (BackendDownloadHandler_verified fuel get tmp key r _ Hs1 Hv1) as (_ & _ & Hc).
  unfold result in Hc. rewrite E in Hc. by apply Hc.
Qed.
End served.

(** The install script carries the manager's address and the key of the link,
    each at the place of its mark and as it is: nothing in them is quoted for the
    shell. *)
Theorem install_script_is_filled_in pre mid post host tls r : r.(r_Method) = "GET" ->
  "{"%char ∉ chars pre -> "{"%char ∉ chars mid -> "{"%char ∉ chars host ->
  Contains post "{{BASE_URL}}" = false -> Contains post "{{WORKER_KEY}}" = false ->
  Contains (mid +:+ "{{WORKER_KEY}}" +:+ post) "{{BASE_URL}}" = false ->
  InstallHandler (pre +:+ "{{BASE_URL}}" +:+ mid +:+ "{{WORKER_KEY}}" +:+ post) host tls r =
    {| status := 200; body := PlainText (pre +:+ install_base host tls +:+ mid +:+ r.(r_Query) "key" +:+ post) |}.
Proof.
  intros Hm Hpre Hmid Hhost Hb Hk Hrest. unfold InstallHandler. rewrite Hm, bool_decide_eq_true_2 by done. cbn [negb].
  rewrite (ReplaceAll_step "{" "{BASE_URL}}" pre (mid +:+ "{{WORKER_KEY}}" +:+ post)) by done.
  rewrite (ReplaceAll_none (mid +:+ _)) by done.
  assert (E : "{"%char ∉ chars (pre +:+ install_base host tls +:+ mid)).
  { unfold install_base. rewrite !list_ascii_of_app, !not_elem_of_app. destruct tls; split_and!; try done; by apply (bool_decide_unpack _); vm_compute. }
  pose proof (ReplaceAll_step "{" "{WORKER_KEY}}" (pre +:+ install_base host tls +:+ mid) post (r.(r_Query) "key") E) as Hs.
  rewrite !append_assoc_str in Hs. change (String.String "{" "{WORKER_KEY}}") with "{{WORKER_KEY}}" in Hs. by rewrite Hs, ReplaceAll_none.
Qed.

(** ** A downloaded client comes back *)

Section download_lemmas.
Context `{FileOs, CryptoLaws}.

Lemma loadBinary_local get fetched write_ok filename os arch version d data :
  d.(da_files) !! path_Join d.(da_binaryDir) filename = Some data ->
  read_ok (path_Join d.(da_binaryDir) filename) data = true ->
  loadBinary get fetched write_ok filename os arch version d = (d, Ret (Some data)).
Proof.
  intros Hf Hr. unfold loadBinary. erewrite bind_Ret by done. cbn [id].
  assert (E : read_at (path_Join d.(da_binaryDir) filename) d = (d, Ret (Some data)))
    by (unfold read_at, gets; rewrite Hf; cbn; by rewrite Hr).
  by rewrite (bind_Ret _ _ _ _ _ E).
Qed.

Lemma existsb_in (l : list string) x : existsb (fun y => y == x) l = true -> x ∈ l.
Proof. intros (y & Hy%list_elem_of_In & ->%bool_decide_eq_true)%existsb_exists. done. Qed.

Lemma download_path_parsed os arch : validOS os = true -> validArch arch = true ->
  SplitN (TrimPrefix ("/download/" +:+ (os +:+ "/" +:+ arch)) "/download/") slash 2 = [os; arch] /\ os <> "" /\ arch <> "".
Proof.
  rewrite TrimPrefix_app. intros Hos%existsb_in Harch%existsb_in.
  repeat (apply elem_of_cons in Hos as [->|Hos]); [..|by apply elem_of_nil in Hos];
    (repeat (apply elem_of_cons in Harch as [->|Harch]); [done..|by apply elem_of_nil in Harch]).
Qed.

Lemma manager_url_last r host tls : List.last (to_bytes (manager_url r host tls)) "/"%char <> NUL.
Proof.
  unfold manager_url. generalize (if negb tls && (r.(r_Header) "X-Forwarded-Proto" != "https") then "ws" else "wss") as s.
  intros s.
  rewrite <- !append_assoc_str. unfold to_bytes. rewrite list_ascii_of_app.
  change (String.list_ascii_of_string "/ws/worker") with (String.list_ascii_of_string "/ws/worke" ++ ["r"%char]).
  rewrite app_assoc, last_last. done.
Qed.

(** C38. A client binary downloaded from the manager comes back to it: when a
    generic binary with one sentinel is installed for the platform, the
    download succeeds, and the client that starts from the patched bytes,
    without other configuration, resolves the WebSocket URL of the very host it
    was downloaded from, wss exactly when the request came over TLS or through
    a proxy that says so - unless that URL is 24 bytes long, when the client
    falls back to its saved configuration. *)
Theorem downloaded_client_comes_back get fetched write_ok host tls r os arch pre post d saved persisted :
  r.(r_Method) = "GET" -> r.(r_Path) = "/download/" +:+ (os +:+ "/" +:+ arch) ->
  validOS os = true -> validArch arch = true -> r.(r_Query) "format" <> "app" ->
  let path := path_Join d.(da_binaryDir) (client_filename os arch) in
  let url := manager_url r host tls in
  d.(da_files) !! path = Some (of_bytes (pre ++ DefaultManagerURL ++ post)) ->
  read_ok path (of_bytes (pre ++ DefaultManagerURL ++ post)) = true ->
  Index (pre ++ DefaultManagerURL ++ post) sentinelText = Some (length pre) ->
  bytes_Contains post sentinelText = false ->
  (String.length host < 230)%nat ->
  unsigned_or_behind (pre ++ replacement url ++ post) (length pre + sentinelSize) ->
  exists data, BinaryHandler get fetched write_ok host tls r d =
      (d, Ret (inl (PatchedBinary (client_filename os arch) data))) /\
    length data = length (pre ++ DefaultManagerURL ++ post) /\
    let var := take sentinelSize (drop (length pre) data) in
    (String.length url <> 24%nat -> client_manager_url "" var saved persisted = url).
Proof.
  intros Hget Hpath Hos Harch Hformat path url Hfile Hread Hidx Hpost Hhost Hsig.
  destruct (download_path_parsed os arch Hos Harch) as (Hsplit & Hos' & Harch').
  assert (Hlen : (0 < String.length url < sentinelSize)%nat).
  { subst url. unfold manager_url. rewrite !length_app_str. destruct (_ && _); cbn; unfold sentinelSize; lia. }
  destruct (patched_url_read_back pre post url Hidx Hpost Hlen (manager_url_last _ _ _) Hsig) as (data & Hp & Hl & _ & Hres).
  exists data. split; [|split; [done|]].
  - unfold BinaryHandler. rewrite Hget, Hpath, Hsplit. rewrite (bool_decide_eq_true_2 ("GET" = "GET")) by done. cbn [negb].
    rewrite !bool_decide_eq_false_2 by done. cbn [orb]. rewrite Hos, Harch. cbn [negb].
    rewrite (bind_Ret _ _ _ _ _ (loadBinary_local get fetched write_ok _ os arch (r.(r_Query) "version") d _ Hfile Hread)).
    rewrite to_of_bytes. fold url. by rewrite Hp.
  - intros var Hne. unfold client_manager_url. subst var. rewrite Hres.
    rewrite (bool_decide_eq_false_2 (String.length url = 24)%nat) by done.
    assert (Hu : url <> "") by (intros E; rewrite E in Hlen; cbn in Hlen; lia).
    by rewrite (bool_decide_eq_true_2 ("" = "")), !(bool_decide_eq_false_2 (url = "")).
Qed.

(** Confinement: with plain version and file names the cached client binaries
    stay below the cache directory. *)
Lemma elements_cached_path d version filename : d.(da_cacheDir) <> "" -> plain version -> plain filename ->
  elements (da_cacheDir d +:+ "/client-binaries/" +:+ version +:+ "/" +:+ filename) =
  elements d.(da_cacheDir) ++ ["client-binaries"; version; filename].
Proof.
  intros Hd Hv Hf.
  replace (da_cacheDir d +:+ "/client-binaries/" +:+ version +:+ "/" +:+ filename)
    with (((da_cacheDir d +:+ "/" +:+ "client-binaries") +:+ "/" +:+ version) +:+ "/" +:+ filename)
    by (by rewrite !append_assoc_str).
  assert (Hne : forall a b, a <> "" -> a +:+ b <> "") by (intros [|c a] b Ha; done).
  rewrite !elements_Join; [by rewrite <- !app_assoc|done| |by apply Hne|done|by apply Hne, Hne|done].
  split_and!; try done. apply (bool_decide_unpack _). by vm_compute.
Qed.
End download_lemmas.

(** ** Where query parameters reach paths *)

(** The version of a download request is not checked: one with parent
    directories reads and writes outside the cache. *)
Lemma version_leaves_the_cache :
  cached_path {| da_binaryDir := "./binaries"; da_cacheDir := "/var/cache/synergia"; da_files := ∅; da_cache := NewCache |}
    "../../../../tmp/x" "synergia-client-linux-amd64" = "/tmp/x/synergia-client-linux-amd64".
Proof. vm_compute. reflexivity. Qed.

(** Neither are the platform parameters of a backend download. *)
Lemma platform_leaves_the_cache :
  path_Join "/var/cache/synergia/backend" (cache_key "b5170" "/../../../../../tmp/x" "y") = "/tmp/x-y".
Proof. vm_compute. reflexivity. Qed.

(** ** Witnesses *)

Section witnesses.
#[local] Existing Instances MemGorm MemGormLaws MemGormUp ToyCrypto ToyCryptoLaws.
#[local] Instance FilesFine : FileOs := {| create_ok _ := true; rename_ok _ _ := true; read_ok _ _ := true |}.

Definition archive_ex : string := "llama-server archive".
Definition digest_ex : string := hex_EncodeToString (sha256 archive_ex).
Definition backend_cfg_ex : BackendVersionConfig :=
  {| bv_Name := LlamaCpp; bv_Version := "b5170"; bv_DownloadURL := "https://example.org/{version}"; bv_SHA256 := digest_ex;
     bv_UpdatedAt := 0 |}.
Definition backend_store_ex : Store := lset BackendVersions (mem_rows [backend_cfg_ex]) empty_store.
Definition backend_api_ex : BackendAPI :=
  {| be_store := backend_store_ex; be_cacheDir := "./cache/backend"; be_files := ∅; be_cacheMap := ∅ |}.
Definition backend_request : Request :=
  {| r_Method := "GET"; r_Path := "/v1/backend/download"; r_Header _ := "";
     r_Query k := if k == "version" then "b5170" else if k == "os" then "linux" else "amd64"; r_Body := None |}.

Lemma served_backend_is_verified_witness :
  let get1 := fun _ : string => Some (200%Z, "altered", true) in
  let get2 := fun _ : string => Some (200%Z, archive_ex, true) in
  hex_EncodeToString (sha256 archive_ex) = digest_ex.
Proof.
  intros get1 get2.
  eapply (served_backend_is_verified backend_cfg_ex backend_store_ex eq_refl ltac:(discriminate)
    [BePrewarm 10 get1 "backend-download-1" ("linux", "amd64")] backend_api_ex 10 get2 "backend-download-2" "" backend_request).
  - reflexivity.
  - reflexivity.
  - vm_compute. reflexivity.
Defined.

Definition download_ex : DownloadAPI :=
  {| da_binaryDir := "./binaries"; da_cacheDir := "./cache";
     da_files := {[ "binaries/synergia-client-linux-amd64" := of_bytes (DefaultManagerURL ++ zeros 8) ]}; da_cache := NewCache |}.
Definition download_request : Request :=
  {| r_Method := "GET"; r_Path := "/download/linux/amd64"; r_Header _ := ""; r_Query _ := ""; r_Body := None |}.

Lemma downloaded_client_comes_back_witness : exists data,
  BinaryHandler (fun _ => None) None false "manager.example:7500" true download_request download_ex =
    (download_ex, Ret (inl (PatchedBinary "synergia-client-linux-amd64" data))) /\
  client_manager_url "" (take sentinelSize data) None None = "wss://manager.example:7500/ws/worker".
Proof.
  destruct (downloaded_client_comes_back (fun _ => None) None false "manager.example:7500" true download_request
    "linux" "amd64" [] (zeros 8) download_ex None None) as (data & E & _ & Hurl);
    try (vm_compute; (reflexivity || discriminate)).
  - vm_compute. repeat constructor.
  - left. vm_compute. reflexivity.
  - exists data. split; [exact E|]. apply Hurl. vm_compute. discriminate.
Defined.

Definition quote_ex : string := str1 quote.
(** The key of a link ends the quotation and adds a command. *)
Lemma install_script_is_filled_in_witness :
  let key := quote_ex +:+ "; reboot; " +:+ quote_ex in
  InstallHandler ("BASE_URL=" +:+ "{{BASE_URL}}" +:+ " WORKER_KEY=" +:+ "{{WORKER_KEY}}" +:+ "") "manager:7500" true
      {| r_Method := "GET"; r_Path := "/install"; r_Header _ := ""; r_Query _ := key; r_Body := None |} =
    {| status := 200; body := PlainText ("BASE_URL=" +:+ "https://manager:7500" +:+ " WORKER_KEY=" +:+ key +:+ "") |}.
Proof.
  intros key. apply (install_script_is_filled_in "BASE_URL=" " WORKER_KEY=" "" "manager:7500" true
    {| r_Method := "GET"; r_Path := "/install"; r_Header _ := ""; r_Query _ := key; r_Body := None |});
    first [reflexivity | apply (bool_decide_unpack _); vm_compute; done].
Defined.
End witnesses.
