(* ===== verification/Disk.v ===== *)
(** * The data directory of the client (package os as its packages use it)

    Reading, writing and renaming files, where each call may fail and the process
    may be killed at any moment: the states the operating system shows other
    processes, which are the ones the next start of the client finds, are
    recorded ([dk_seen]). Opening for writing truncates; the data then arrives
    byte by byte and may be cut short. What a power cut leaves is another matter,
    since nothing is synced: it is not modelled. *)

From S2P Require Import Prelude GoStd Files.

Record Volume := { dk_files : Files; dk_seen : list Files }.
Definition disk_of (fs : Files) : Volume := {| dk_files := fs; dk_seen := [fs] |}.

(** Beyond [FileOs], where [create_ok] is opening for writing. Renaming is one
    step on Unix (POSIX); os.Rename promises so nowhere else, and what it lets
    others see on its way is [rename_via]. *)
Class DiskOs := {
  dir_ok : string -> bool;              (* os.MkdirAll *)
  stat_ok : string -> bool;             (* os.Stat of a file that is there *)
  written : string -> string -> nat;    (* how much of the data reaches the file *)
  rename_via : string -> string -> Files -> list Files;
}.
Definition atomic_rename `{DiskOs} : Prop := forall src dst fs, rename_via src dst fs = [].

Inductive read_result := NotExist | Unreadable | Content (data : string).

Section disk.
Context `{FileOs, DiskOs}.

Definition disk_op (f : Files -> Files) : GoM Volume unit :=
  modify (fun d => {| dk_files := f d.(dk_files); dk_seen := d.(dk_seen) ++ [f d.(dk_files)] |}).

(** [os.Stat] gives no error *)
Definition os_Stat (path : string) : GoM Volume bool :=
  gets (fun d => bool_decide (is_Some (d.(dk_files) !! path)) && stat_ok path).
Definition os_ReadFile (path : string) : GoM Volume read_result :=
  gets (fun d => match d.(dk_files) !! path with
                 | None => NotExist
                 | Some data => if read_ok path data then Content data else Unreadable
                 end).
(** the outcome of a write is that all of it was written *)
Definition write_states (path data : string) (fs : Files) : list Files :=
  (fun n => <[path := take_str n data]> fs) <$> seq 0 (S (Nat.min (written path data) (String.length data))).
Definition os_WriteFile (path data : string) : GoM Volume bool :=
  if create_ok path then
    modify (fun d => {| dk_files := <[path := take_str (written path data) data]> d.(dk_files);
                        dk_seen := d.(dk_seen) ++ write_states path data d.(dk_files) |}) ;;
    mret (bool_decide (String.length data <= written path data)%nat)
  else mret false.
Definition os_Rename (src dst : string) : GoM Volume bool :=
  d ← gets dk_files;
  match d !! src with
  | Some data => 
      if rename_ok src dst then
        modify (fun d => {| dk_files := d.(dk_files); dk_seen := d.(dk_seen) ++ rename_via src dst d.(dk_files) |}) ;;
        disk_op (fun fs => <[dst := data]> (delete src fs)) ;;
        mret true
      else mret false
  | None => mret false
  end.

(** A computation and its end, with the history of the end left alone. *)
Lemma run_to {S A} (m : GoM S A) s a : result m s = Ret a -> m s = (run m s, Ret a).
Proof. unfold run, result. by destruct (m s) as [s' r]; cbn; intros ->. Qed.

(** Every state the disk goes through satisfies [P]. *)
Definition always (P : Files -> Prop) (d : Volume) : Prop := Forall P d.(dk_seen).

Lemma returns_WriteFile path data : returns (os_WriteFile path data).
Proof. unfold os_WriteFile, disk_op. returns_tac. Qed.
Lemma returns_os_Rename src dst : returns (os_Rename src dst).
Proof. unfold os_Rename, disk_op. returns_tac. Qed.

Lemma wp_disk_op f (Q : Volume -> res unit -> Prop) d :
  Q {| dk_files := f d.(dk_files); dk_seen := d.(dk_seen) ++ [f d.(dk_files)] |} (Ret tt) -> wp (disk_op f) Q d.
Proof. exact id. Qed.

(** The states of a write: a beginning of the data, from nothing on. *)
Lemma elem_of_write_states path data fs fs' : fs' ∈ write_states path data fs <->
  exists n, (n <= written path data)%nat /\ (n <= String.length data)%nat /\ fs' = <[path := take_str n data]> fs.
Proof.
  unfold write_states. rewrite list_elem_of_fmap. setoid_rewrite elem_of_seq. split.
  - intros (n & -> & ?). exists n. split_and!; [lia..|done].
  - intros (n & ? & ? & ->). exists n. split; [done|lia].
Qed.
(** Its last state, where the file was opened. *)
Lemma written_seen path data fs : <[path := take_str (written path data) data]> fs ∈ write_states path data fs.
Proof.
  apply elem_of_write_states. destruct (decide (written path data <= String.length data)%nat) as [Hle|Hgt]; [by eexists|].
  exists (String.length data). split_and!; [lia..|]. by rewrite !take_str_short by lia.
Qed.

Lemma wp_os_Rename src dst (Q : Volume -> res bool -> Prop) d :
  match d.(dk_files) !! src with
  | Some data =>
      if rename_ok src dst then
        let fs := <[dst := data]> (delete src d.(dk_files)) in
        Q {| dk_files := fs; dk_seen := (d.(dk_seen) ++ rename_via src dst d.(dk_files)) ++ [fs] |} (Ret true)
      else Q d (Ret false)
  | None => Q d (Ret false)
  end -> wp (os_Rename src dst) Q d.
Proof.
  intros HQ. unfold os_Rename. apply wp_bind, wp_gets. destruct (dk_files d !! src); [|by apply wp_ret].
  destruct (rename_ok src dst); [|by apply wp_ret]. by apply wp_bind, wp_modify, wp_bind, wp_disk_op, wp_ret.
Qed.

(** Writing a file that can be opened goes through the beginnings of the data. *)
Lemma wp_WriteFile path data (Q : Volume -> res bool -> Prop) d :
  (create_ok path = false -> Q d (Ret false)) ->
  (create_ok path = true ->
    let fs1 := <[path := take_str (written path data) data]> d.(dk_files) in
    Q {| dk_files := fs1; dk_seen := d.(dk_seen) ++ write_states path data d.(dk_files) |}
      (Ret (bool_decide (String.length data <= written path data)%nat))) ->
  wp (os_WriteFile path data) Q d.
Proof.
  intros Hno Hyes. unfold os_WriteFile. destruct (create_ok path); [|apply wp_ret; auto].
  apply wp_bind, wp_modify, wp_ret, (Hyes eq_refl).
Qed.
(** A write that reports success wrote all of it. *)
Lemma os_WriteFile_ok path text d d' : os_WriteFile path text d = (d', Ret true) ->
  d'.(dk_files) = <[path := text]> d.(dk_files).
Proof.
  unfold os_WriteFile. destruct (create_ok path); [|done]. unfold modify, mbind, GoM_bind, mret, GoM_ret. cbn.
  intros [= <- Hlen]. apply bool_decide_eq_true in Hlen. cbn. by rewrite take_str_short.
Qed.
End disk.
