(* ===== verification/Autostart.v ===== *)
(** * Starting with the session (internal/client/autostart)

    The registration of the client with the service manager of each platform: a
    launch agent on macOS, a systemd user service on Linux, a registry value on
    Windows. The commands that are run, and what they answer, are the class
    [Session]; files are those of Disk. *)

From S2P Require Import Prelude GoStd Strings Files Disk.

Class Session := {
  as_GOOS : string;
  UserHomeDir : option string;
  Getuid : Z;
  LookPath : string -> bool;                                       (* exec.LookPath: found *)
  answers : list (list string) -> list string -> string * bool;    (* the output of a command and whether it
                                                                      succeeded, after those run before *)
  unlink_ok : string -> bool;                                      (* os.Remove of a file that is there *)
}.

Record Machine := { mc_disk : Volume; mc_ran : list (list string) }.
Definition set_mc_disk (d : Volume) (m : Machine) : Machine := {| mc_disk := d; mc_ran := m.(mc_ran) |}.

Record Autostart := { au_execPath : string; au_args : list string }.

Section autostart.
Context `{Session, FileOs, DiskOs}.

Definition on_disk {A} (m : GoM Volume A) : GoM Machine A := zoom mc_disk set_mc_disk m.
Definition Command (args : list string) : GoM Machine (string * bool) := fun m =>
  ({| mc_disk := m.(mc_disk); mc_ran := m.(mc_ran) ++ [args] |}, Ret (answers m.(mc_ran) args)).
Inductive removed := Gone | WasMissing | NotRemoved.
Definition os_Remove (path : string) : GoM Volume removed :=
  d ← gets dk_files;
  match d !! path with
  | None => mret WasMissing
  | Some _ => if unlink_ok path then disk_op (delete path) ;; mret Gone else mret NotRemoved
  end.

(** ** macOS (autostart_darwin.go) *)

Definition launchAgentLabel : string := "com.synergia.client".
Definition plistPath : option string :=
  home ← UserHomeDir; Some (Join_all [home; "Library"; "LaunchAgents"; launchAgentLabel +:+ ".plist"]).
Definition guiDomain : string := "gui/" +:+ pretty Getuid.

Definition lines (l : list string) : string := String.concat "" ((fun x => x +:+ str1 newline) <$> l).
Definition tabs (n : nat) : string := String.concat "" (repeat (str1 (Ascii.ascii_of_nat 9)) n).
Definition attr (name value : string) : string := name +:+ "=" +:+ quoted value.
Definition generatePlist (execPath : string) (args : list string) : string :=
  lines (
    [ "<?xml " +:+ attr "version" "1.0" +:+ " " +:+ attr "encoding" "UTF-8" +:+ "?>";
      "<!DOCTYPE plist PUBLIC " +:+ quoted "-//Apple//DTD PLIST 1.0//EN" +:+ " " +:+
        quoted "http://www.apple.com/DTDs/PropertyList-1.0.dtd" +:+ ">";
      "<plist " +:+ attr "version" "1.0" +:+ ">";
      "<dict>";
      tabs 1 +:+ "<key>Label</key>";
      tabs 1 +:+ "<string>" +:+ launchAgentLabel +:+ "</string>";
      tabs 1 +:+ "<key>ProgramArguments</key>";
      tabs 1 +:+ "<array>";
      tabs 2 +:+ "<string>" +:+ execPath +:+ "</string>" ] ++
    ((fun arg => tabs 2 +:+ "<string>" +:+ arg +:+ "</string>") <$> args) ++
    [ tabs 1 +:+ "</array>";
      tabs 1 +:+ "<key>RunAtLoad</key>";
      tabs 1 +:+ "<true/>";
      tabs 1 +:+ "<key>StandardOutPath</key>";
      tabs 1 +:+ "<string>/tmp/synergia-client.log</string>";
      tabs 1 +:+ "<key>StandardErrorPath</key>";
      tabs 1 +:+ "<string>/tmp/synergia-client.log</string>";
      "</dict>";
      "</plist>" ]).

(** The errors, without the operating system's own words; [None] is success. *)
Definition no_home : string := "cannot determine home directory".
Definition write_registration (what_dir what_file path text : string) : GoM Machine (option string) :=
  if negb (dir_ok (path_Dir path)) then mret (Some what_dir)
  else
    ok ← on_disk (os_WriteFile path text);
    mret (if ok : bool then None else Some what_file).
Definition remove_registration (what path : string) : GoM Machine (option string) :=
  r ← on_disk (os_Remove path);
  mret match r with NotRemoved => Some what | _ => None end.

Definition darwin_IsEnabled : GoM Machine bool :=
  match plistPath with
  | None => mret false
  | Some path => on_disk (os_Stat path)
  end.
Definition darwin_Enable (m : Autostart) : GoM Machine (option string) :=
  match plistPath with
  | None => mret (Some no_home)
  | Some path =>
      write_registration "failed to create LaunchAgents directory" "failed to write plist" path
        (generatePlist m.(au_execPath) m.(au_args))
  end.
Definition darwin_Disable : GoM Machine (option string) :=
  match plistPath with
  | None => mret (Some no_home)
  | Some path =>
      Command ["launchctl"; "bootout"; guiDomain +:+ "/" +:+ launchAgentLabel] ;;
      remove_registration "failed to remove plist" path
  end.

(** ** Linux (autostart_linux.go) *)

Definition serviceFileName : string := "synergia-client.service".
Definition servicePath : option string :=
  home ← UserHomeDir; Some (Join_all [home; ".config"; "systemd"; "user"; serviceFileName]).
Definition exec_line (execPath : string) (args : list string) : string :=
  if bool_decide (0 < length args)%nat then execPath +:+ " " +:+ String.concat " " args else execPath.
Definition generateServiceUnit (execPath : string) (args : list string) : string :=
  lines [ "[Unit]"; "Description=Synergia Cluster Client"; "After=network-online.target"; "Wants=network-online.target"; "";
          "[Service]"; "Type=simple"; "ExecStart=" +:+ exec_line execPath args; "Restart=on-failure"; "RestartSec=10"; "";
          "[Install]"; "WantedBy=default.target" ].
Definition systemctl (args : list string) : GoM Machine (string * bool) := Command ("systemctl" :: "--user" :: args).

Definition linux_IsEnabled : GoM Machine bool :=
  r ← systemctl ["is-enabled"; serviceFileName];
  mret (if r.2 : bool then TrimSpace r.1 == "enabled" else false).
Definition linux_Enable (m : Autostart) : GoM Machine (option string) :=
  match servicePath with
  | None => mret (Some no_home)
  | Some path =>
      err ← write_registration "failed to create systemd user directory" "failed to write service unit" path
              (generateServiceUnit m.(au_execPath) m.(au_args));
      match err with
      | Some e => mret (Some e)
      | None =>
          r ← systemctl ["daemon-reload"];
          if negb r.2 then mret (Some ("daemon-reload failed: " +:+ r.1))
          else
            r ← systemctl ["enable"; serviceFileName];
            if negb r.2 then mret (Some ("enable failed: " +:+ r.1)) else mret None
      end
  end.
Definition linux_Disable : GoM Machine (option string) :=
  systemctl ["disable"; serviceFileName] ;;
  match servicePath with
  | None => mret (Some no_home)
  | Some path =>
      err ← remove_registration "failed to remove service file" path;
      match err with
      | Some e => mret (Some e)
      | None => systemctl ["daemon-reload"] ;; mret None
      end
  end.

(** ** Windows (autostart_windows.go) *)

Definition registryKey : string := "HKCU\Software\Microsoft\Windows\CurrentVersion\Run".
Definition registryValue : string := "SynergiaClusterClient".
Definition registry_line (m : Autostart) : string :=
  quoted m.(au_execPath) +:+ (if bool_decide (0 < length m.(au_args))%nat then " " +:+ String.concat " " m.(au_args) else "").
Definition windows_IsEnabled : GoM Machine bool :=
  r ← Command ["reg"; "query"; registryKey; "/v"; registryValue];
  mret (if r.2 : bool then Contains r.1 registryValue else false).
Definition windows_Enable (m : Autostart) : GoM Machine (option string) :=
  r ← Command ["reg"; "add"; registryKey; "/v"; registryValue; "/t"; "REG_SZ"; "/d"; registry_line m; "/f"];
  mret (if r.2 : bool then None else Some ("failed to add registry entry: " +:+ r.1)).
Definition windows_Disable : GoM Machine (option string) :=
  r ← Command ["reg"; "delete"; registryKey; "/v"; registryValue; "/f"];
  mret (if r.2 : bool then None
        else if Contains r.1 "unable to find" then None
        else Some ("failed to remove registry entry: " +:+ r.1)).

(** ** Whichever was built *)

Definition IsSupported : bool :=
  if as_GOOS == "darwin" then true
  else if as_GOOS == "linux" then LookPath "systemctl"
  else as_GOOS == "windows".
Definition IsEnabled : GoM Machine bool :=
  if as_GOOS == "darwin" then darwin_IsEnabled
  else if as_GOOS == "linux" then linux_IsEnabled
  else if as_GOOS == "windows" then windows_IsEnabled
  else mret false.
Definition Enable (m : Autostart) : GoM Machine (option string) :=
  if as_GOOS == "darwin" then darwin_Enable m
  else if as_GOOS == "linux" then linux_Enable m
  else if as_GOOS == "windows" then windows_Enable m
  else mret None.
Definition Disable : GoM Machine (option string) :=
  if as_GOOS == "darwin" then darwin_Disable
  else if as_GOOS == "linux" then linux_Disable
  else if as_GOOS == "windows" then windows_Disable
  else mret None.
End autostart.

(** ** Properties *)

Section properties.
Context `{Session, FileOs, DiskOs}.

Definition files (m : Machine) : Files := m.(mc_disk).(dk_files).

(** A registration that reports success is in place, and nothing else changed. *)
Lemma write_registration_ok e1 e2 path text m m' : write_registration e1 e2 path text m = (m', Ret None) ->
  files m' = <[path := text]> (files m) /\ m'.(mc_ran) = m.(mc_ran).
Proof.
  unfold write_registration. destruct (dir_ok _); cbn [negb]; [|done].
  unfold mbind, GoM_bind, on_disk, zoom, mret, GoM_ret, files.
  destruct (os_WriteFile path text (mc_disk m)) as [d' [[]|err|]] eqn:E; [|done..].
  intros [= <-]. cbn. split; [by eapply os_WriteFile_ok|done].
Qed.
Lemma remove_registration_ok e path m m' : remove_registration e path m = (m', Ret None) ->
  files m' = delete path (files m) /\ m'.(mc_ran) = m.(mc_ran).
Proof.
  unfold remove_registration, os_Remove, mbind, GoM_bind, on_disk, zoom, mret, GoM_ret, gets, files.
  destruct (dk_files (mc_disk m) !! path) eqn:Ep.
  - destruct (unlink_ok path); [|done]. by intros [= <-].
  - intros [= <-]. cbn. by rewrite delete_id.
Qed.

(** What macOS finds at the next login is what was asked for: after an
    [Enable] without error the launch agent that starts this program with its
    arguments is the file [IsEnabled] looks for, and after a [Disable] without
    error there is none; no other file is touched. *)
Theorem launch_agent_follows_the_setting a path (on off on' off' : Machine) :
  as_GOOS = "darwin" -> plistPath = Some path -> stat_ok path = true ->
  (Enable a off = (on', Ret None) ->
     files on' = <[path := generatePlist a.(au_execPath) a.(au_args)]> (files off) /\ result IsEnabled on' = Ret true) /\
  (Disable on = (off', Ret None) -> files off' = delete path (files on) /\ result IsEnabled off' = Ret false).
Proof.
  intros Hos Hp Hst. unfold Enable, Disable, IsEnabled, darwin_Enable, darwin_Disable, darwin_IsEnabled.
  rewrite Hos, Hp. cbn [bool_decide decide_rel]. rewrite bool_decide_eq_true_2 by done.
  assert (Hstat : forall m, result (on_disk (os_Stat path)) m = Ret (bool_decide (is_Some (files m !! path)))).
  { intros m. unfold result, on_disk, zoom, os_Stat, gets, files. cbn. by rewrite Hst, andb_true_r. }
  split.
  - intros [Ef _]%write_registration_ok. split; [done|]. rewrite Hstat, Ef, lookup_insert_eq. by rewrite bool_decide_eq_true_2.
  - unfold Command, mbind at 1, GoM_bind at 1. intros [Ef _]%remove_registration_ok. split; [done|].
    rewrite Hstat, Ef, lookup_delete_eq. by rewrite bool_decide_eq_false_2 by (by intros []).
Qed.

(** On Linux success means that the unit is written and systemd has read and
    enabled it, in this order; after a [Disable] without error the unit is gone,
    whether or not systemd could disable it. *)
Theorem systemd_follows_the_setting a path (m m' : Machine) : as_GOOS = "linux" -> servicePath = Some path ->
  let daemon_reload := ["systemctl"; "--user"; "daemon-reload"] in
  let enable := ["systemctl"; "--user"; "enable"; serviceFileName] in
  (Enable a m = (m', Ret None) ->
     files m' = <[path := generateServiceUnit a.(au_execPath) a.(au_args)]> (files m) /\
     m'.(mc_ran) = m.(mc_ran) ++ [daemon_reload; enable] /\
     (answers m.(mc_ran) daemon_reload).2 = true /\ (answers (m.(mc_ran) ++ [daemon_reload]) enable).2 = true) /\
  (Disable m = (m', Ret None) -> files m' = delete path (files m)).
Proof.
  intros Hos Hp. cbv zeta. unfold Enable, Disable, linux_Enable, linux_Disable. rewrite Hos, Hp.
  rewrite bool_decide_eq_false_2, bool_decide_eq_true_2 by done. split.
  - unfold mbind at 1, GoM_bind at 1.
    destruct (write_registration _ _ path _ m) as [m1 [[e|]|e|]] eqn:Ew; [done| |done..].
    apply write_registration_ok in Ew as [Ef Er]. unfold systemctl, Command, mbind, GoM_bind. cbn [mc_disk mc_ran]. rewrite Er.
    destruct (answers (mc_ran m) _) as [o1 b1]. cbn [snd fst]. destruct b1; cbn [negb]; [|done]. cbn [mc_ran mc_disk].
    destruct (answers _ ["systemctl"; "--user"; "enable"; serviceFileName]) as [o2 b2]. cbn [snd fst].
    destruct b2; cbn [negb]; [|done]. intros [= <-]. cbn [mc_ran]. rewrite <- app_assoc. by split_and!.
  - unfold systemctl, Command, mbind at 1, GoM_bind at 1. unfold mbind at 1, GoM_bind at 1.
    destruct (remove_registration _ path _) as [m1 [[e|]|e|]] eqn:Ew; [done| |done..].
    apply remove_registration_ok in Ew as [Ef _]. unfold mbind, GoM_bind. intros [= <-]. exact Ef.
Qed.
End properties.

Lemma Split_no_sep (s : string) sep x : x ∈ Split s sep -> sep ∉ chars x.
Proof.
  revert x. induction s as [|c s IH]; intros x; cbn [Split].
  - intros ->%list_elem_of_singleton. by apply not_elem_of_nil.
  - case_bool_decide as Hc.
    + intros [->|Hx]%elem_of_cons; [by apply not_elem_of_nil|by apply IH].
    + destruct (Split s sep) as [|y l]; [intros ->%list_elem_of_singleton; cbn; set_solver|].
      intros [->|Hx]%elem_of_cons.
      * cbn. apply not_elem_of_cons. split; [done|]. apply IH. by left.
      * apply IH. by right.
Qed.

(** What systemd makes of the line [ExecStart], whose words are separated by
    spaces: a program and arguments without spaces are run as they were given;
    a program with a space in its path is not run at all, since no word of the
    line is its path. *)
Theorem service_runs_the_client execPath args space : space = Ascii.ascii_of_nat 32 ->
  (space ∉ chars execPath -> Forall (fun a => space ∉ chars a) args ->
     Split (exec_line execPath args) space = execPath :: args) /\
  (space ∈ chars execPath -> execPath ∉ Split (exec_line execPath args) space).
Proof.
  intros ->. split.
  - intros Hp Ha. unfold exec_line. destruct args as [|a args]; [by apply Split_plain|].
    cbn [length]. rewrite bool_decide_eq_true_2 by lia.
    change (Split (execPath +:+ String.String " "%char (String.concat (str1 " "%char) (a :: args))) " "%char = execPath :: a :: args).
    rewrite Split_app_sep by done. by rewrite Split_concat.
  - intros Hp Hin. by apply Split_no_sep in Hin.
Qed.

Section witnesses.
Definition Mac : Session := {| as_GOOS := "darwin"; UserHomeDir := Some "/Users/ada"; Getuid := 501; LookPath _ := true;
  answers _ _ := ("", true); unlink_ok _ := true |}.
Definition Penguin : Session := {| as_GOOS := "linux"; UserHomeDir := Some "/home/ada"; Getuid := 1000; LookPath _ := true;
  answers _ _ := ("enabled", true); unlink_ok _ := true |}.
Definition AllWork : FileOs := {| create_ok _ := true; rename_ok _ _ := true; read_ok _ _ := true |}.
Definition WholeWrites : DiskOs := {| dir_ok _ := true; stat_ok _ := true; written _ data := String.length data; rename_via _ _ _ := [] |}.
#[local] Existing Instances AllWork WholeWrites.
Definition client_ex : Autostart := {| au_execPath := "/opt/synergia-client"; au_args := ["--role"; "embedding"] |}.
Definition fresh : Machine := {| mc_disk := disk_of ∅; mc_ran := [] |}.

Lemma launch_agent_follows_the_setting_witness :
  let on' := run (Enable (H := Mac) client_ex) fresh in
  result (IsEnabled (H := Mac)) on' = Ret true /\ result (IsEnabled (H := Mac)) (run (Disable (H := Mac)) on') = Ret false.
Proof.
  set (on' := run (Enable (H := Mac) client_ex) fresh).
  destruct (launch_agent_follows_the_setting (H := Mac) client_ex "/Users/ada/Library/LaunchAgents/com.synergia.client.plist"
    on' fresh on' (run (Disable (H := Mac)) on')) as [Hon Hoff]; [reflexivity|vm_compute; reflexivity|reflexivity|].
  split; [apply Hon|apply Hoff]; apply run_to; vm_compute; reflexivity.
Defined.

Lemma systemd_follows_the_setting_witness :
  let m' := run (Enable (H := Penguin) client_ex) fresh in
  mc_ran m' = [["systemctl"; "--user"; "daemon-reload"]; ["systemctl"; "--user"; "enable"; serviceFileName]].
Proof.
  destruct (systemd_follows_the_setting (H := Penguin) client_ex "/home/ada/.config/systemd/user/synergia-client.service"
    fresh (run (Enable (H := Penguin) client_ex) fresh)) as [Hon _]; [reflexivity|vm_compute; reflexivity|].
  destruct Hon as (_ & Hran & _); [apply run_to; vm_compute; reflexivity|exact Hran].
Defined.

Lemma service_runs_the_client_witness :
  Split (exec_line "/opt/synergia-client" ["--role"; "embedding"]) (Ascii.ascii_of_nat 32) =
    ["/opt/synergia-client"; "--role"; "embedding"] /\
  "/opt/my client" ∉ Split (exec_line "/opt/my client" []) (Ascii.ascii_of_nat 32).
Proof.
  split.
  - apply (service_runs_the_client "/opt/synergia-client" ["--role"; "embedding"]); [reflexivity|..];
      apply (bool_decide_unpack _); vm_compute; done.
  - apply (service_runs_the_client "/opt/my client" []); [reflexivity|]. apply (bool_decide_unpack _). vm_compute. done.
Defined.
End witnesses.
