(* ===== verification/Identity.v ===== *)
(** * The identity of a worker (internal/client/identity/identity.go)

    The key pair a client creates at its first start and loads at every later
    one: the private key is sealed under a key derived from the machine and its
    user, the public key is stored as PEM. Argon2id, AES-GCM and the PEM encoding
    are the class [Keystore]. *)

From S2P Require Import Prelude GoStd Strings Protocol BackendUrl Files Disk.

Class Keystore := {
  IDKey : string -> string -> string;               (* argon2.IDKey: password, salt *)
  gcm_Seal : string -> string -> string -> string;  (* key, nonce, plaintext *)
  gcm_Open : string -> string -> string -> option string;
  pem_Encode : string -> string;                    (* a block of the type ED25519 PUBLIC KEY *)
  pem_Decode : string -> option string;             (* the bytes of the first block *)
}.
Class KeystoreLaws `{Keystore} := {
  Open_Seal key nonce text : gcm_Open key nonce (gcm_Seal key nonce text) = Some text;
  Decode_Encode block : pem_Decode (pem_Encode block) = Some block;
  Decode_empty : pem_Decode "" = None;
}.

Record Identity := { id_PrivateKey : string; id_PublicKey : string; id_Fingerprint : string }.

Inductive identity_error := CreateDataDir | GenerateKeypair | SavePrivateKey | SavePublicKey | SaveFingerprint
  | ReadPublicKey | InvalidPEM | LoadPrivateKey.

(** os.Hostname and the variables USER and USERNAME *)
Record Machine := { mc_hostname : string; mc_USER : string; mc_USERNAME : string }.

Section identity.
Context `{Crypto, Keystore} `{FileOs, DiskOs}.

Definition fingerprint (pub : string) : string := hex_EncodeToString (sha256 pub).
Definition identity_Sign (i : Identity) (data : string) : string := hex_EncodeToString (ed25519_sign i.(id_PrivateKey) data).

Definition deriveKey (m : Machine) : string :=
  let username := if m.(mc_USER) == "" then m.(mc_USERNAME) else m.(mc_USER) in
  let salt := sha256 (m.(mc_hostname) +:+ ":" +:+ username +:+ ":synergia-worker") in
  IDKey "synergia-worker-identity" salt.

Definition NonceSize : nat := 12.

(** [nonce]: what the random source gives, [None] for its error *)
Definition saveEncrypted (m : Machine) (nonce : option string) (path privKey : string) : GoM Volume bool :=
  let key := deriveKey m in
  match nonce with
  | None => mret false
  | Some nonce => os_WriteFile path (nonce +:+ gcm_Seal key nonce privKey)
  end.
Definition loadEncrypted (m : Machine) (path : string) : GoM Volume (option string) :=
  data ← os_ReadFile path;
  mret match data with
       | Content data =>
           let key := deriveKey m in
           if bool_decide (String.length data < NonceSize)%nat then None
           else gcm_Open key (take_str NonceSize data) (drop_str NonceSize data)
       | _ => None
       end.

Definition load (m : Machine) (encPath pubPath : string) : GoM Volume (Identity + identity_error) :=
  pubPEM ← os_ReadFile pubPath;
  match pubPEM with
  | Content pubPEM =>
      match pem_Decode pubPEM with
      | None => mret (inr InvalidPEM)
      | Some pub =>
          priv ← loadEncrypted m encPath;
          mret match priv with
               | None => inr LoadPrivateKey
               | Some priv => inl {| id_PrivateKey := priv; id_PublicKey := pub; id_Fingerprint := fingerprint pub |}
               end
      end
  | _ => mret (inr ReadPublicKey)
  end.

(** [generated]: the key pair ed25519.GenerateKey returns, public key first *)
Definition create (m : Machine) (generated : option (string * string)) (nonce : option string) (encPath pubPath fpPath : string)
    : GoM Volume (Identity + identity_error) :=
  match generated with
  | None => mret (inr GenerateKeypair)
  | Some (pub, priv) =>
      let i := {| id_PrivateKey := priv; id_PublicKey := pub; id_Fingerprint := fingerprint pub |} in
      ok ← saveEncrypted m nonce encPath priv;
      if negb ok then mret (inr SavePrivateKey)
      else
        ok ← os_WriteFile pubPath (pem_Encode pub);
        if negb ok then mret (inr SavePublicKey)
        else
          ok ← os_WriteFile fpPath (i.(id_Fingerprint) +:+ str1 newline);
          mret (if negb ok then inr SaveFingerprint else inl i)
  end.

Definition LoadOrCreate (m : Machine) (generated : option (string * string)) (nonce : option string) (dataDir : string)
    : GoM Volume (Identity + identity_error) :=
  if negb (dir_ok dataDir) then mret (inr CreateDataDir)
  else
    let encPath := path_Join dataDir "identity.enc" in
    let pubPath := path_Join dataDir "identity.pub" in
    let fpPath := path_Join dataDir "fingerprint" in
    there ← os_Stat encPath;
    if there : bool then load m encPath pubPath else create m generated nonce encPath pubPath fpPath.
End identity.

(** ** Later starts *)

#[local] Opaque NonceSize.

Section later.
Context `{KeystoreLaws, Crypto} `{FileOs, DiskOs} (m : Machine) (dataDir : string).
Let encPath := path_Join dataDir "identity.enc".
Let pubPath := path_Join dataDir "identity.pub".
Let fpPath := path_Join dataDir "fingerprint".
Hypothesis Hdir : dataDir <> "".

Lemma plain_name (s : string) : existsb (fun x => x == s) ["identity.enc"; "identity.pub"; "fingerprint"] = true -> plain s.
Proof.
  intros [x [Hx ->%bool_decide_eq_true]]%existsb_exists.
  destruct Hx as [<-|[<-|[<-|[]]]]; (repeat split; try discriminate; apply (bool_decide_unpack _); vm_compute; done).
Qed.
Lemma paths_differ : encPath <> pubPath /\ encPath <> fpPath /\ pubPath <> fpPath.
Proof.
  split_and!; intros E; apply path_Join_inj in E; try done; by apply plain_name.
Qed.

(** With a private key on the disk a start only reads. *)
Lemma load_reads d : exists r, load m encPath pubPath d = (d, Ret r).
Proof.
  unfold load, loadEncrypted, os_ReadFile, mbind, GoM_bind, gets. cbn.
  destruct (dk_files d !! pubPath) as [c|]; [|by eexists]. destruct (read_ok _ _); [|by eexists].
  destruct (pem_Decode c); [|by eexists]. by eexists.
Qed.
Lemma start_loads generated nonce d : dir_ok dataDir = true -> stat_ok encPath = true -> is_Some (d.(dk_files) !! encPath) ->
  LoadOrCreate m generated nonce dataDir d = load m encPath pubPath d.
Proof.
  intros Hd Hs He. unfold LoadOrCreate. rewrite Hd. cbn [negb]. unfold os_Stat. fold encPath pubPath fpPath.
  rewrite (bind_Ret _ _ d d true); [done|]. unfold gets. by rewrite bool_decide_eq_true_2, Hs.
Qed.

Lemma written_whole path data : bool_decide (String.length data <= written path data)%nat = true ->
  take_str (written path data) data = data.
Proof.
  intros Hw%bool_decide_eq_true. revert Hw. generalize (written path data). induction data as [|c data IH]; intros [|n] Hn; cbn in *;
    [done|done|lia|]. by rewrite IH by lia.
Qed.

(** What a creation that succeeds leaves on the disk. *)
Lemma wp_create pub priv nonce d :
  wp (create m (Some (pub, priv)) (Some nonce) encPath pubPath fpPath)
    (fun d' r => forall i, r = Ret (inl i) ->
       i = {| id_PrivateKey := priv; id_PublicKey := pub; id_Fingerprint := fingerprint pub |} /\
       d'.(dk_files) !! encPath = Some (nonce +:+ gcm_Seal (deriveKey m) nonce priv) /\
       d'.(dk_files) !! pubPath = Some (pem_Encode pub)) d.
Proof.
  destruct paths_differ as (N1 & N2 & N3). unfold create, saveEncrypted. apply wp_bind, wp_WriteFile; intros C1; [by apply wp_ret|].
  cbv zeta. destruct (bool_decide (_ <= written encPath _)%nat) eqn:W1; cbn [negb]; [|by apply wp_ret]. apply wp_bind, wp_WriteFile; intros C2; [by apply wp_ret|].
  cbv zeta. destruct (bool_decide (_ <= written pubPath _)%nat) eqn:W2; cbn [negb]; [|by apply wp_ret].
  apply wp_bind, wp_WriteFile; intros C3; apply wp_ret; [done|].
  cbv zeta. destruct (bool_decide (_ <= written fpPath _)%nat) eqn:W3; cbn [negb]; [|done]. intros i [= <-]. split; [done|].
  cbn [dk_files]. rewrite !written_whole by done. split.
  - by rewrite !lookup_insert_ne, lookup_insert_eq by congruence.
  - by rewrite lookup_insert_ne, lookup_insert_eq by congruence.
Qed.

Lemma load_fingerprint d i : load m encPath pubPath d = (d, Ret (inl i)) -> i.(id_Fingerprint) = fingerprint i.(id_PublicKey).
Proof.
  unfold load, loadEncrypted, os_ReadFile, mbind, GoM_bind, gets. cbn. destruct (dk_files d !! pubPath) as [c|]; [|done].
  destruct (read_ok _ _); [|done]. destruct (pem_Decode c) as [pub|]; [|done]. cbn.
  cbv [mret GoM_ret]. repeat case_match; intros E; by simplify_eq.
Qed.

(** What a successful start leaves is what later starts load. *)
Lemma LoadOrCreate_stored generated nonce d d' i :
  dir_ok dataDir = true -> stat_ok encPath = true -> (forall path data, read_ok path data = true) ->
  String.length nonce = NonceSize ->
  LoadOrCreate m generated (Some nonce) dataDir d = (d', Ret (inl i)) ->
  load m encPath pubPath d' = (d', Ret (inl i)) /\ is_Some (d'.(dk_files) !! encPath).
Proof.
  intros Hd Hs Hread Hn E. destruct (d.(dk_files) !! encPath) as [c|] eqn:He.
  - rewrite start_loads in E by (done || by eexists). destruct (load_reads d) as [r Hr]. rewrite Hr in E.
    injection E as <- ->. split; [done|by eexists].
  - unfold LoadOrCreate in E. rewrite Hd in E. cbn [negb] in E. fold encPath pubPath fpPath in E.
    rewrite (bind_Ret _ _ d d false) in E by (unfold os_Stat, gets; by rewrite He).
    destruct generated as [[pub priv]|]; [|done]. pose proof (wp_create pub priv nonce d) as Hw.
    unfold wp, run, result in Hw. rewrite E in Hw. cbn [fst snd] in Hw. destruct (Hw i eq_refl) as (-> & He' & Hp').
    split; [|by eexists]. unfold load, loadEncrypted, os_ReadFile, mbind, GoM_bind, gets. cbn.
    rewrite Hp', Hread, Decode_Encode. cbn. rewrite He', Hread. rewrite bool_decide_eq_false_2 by (rewrite length_app_str; lia).
    rewrite <- Hn, take_app_str, drop_str_app, Open_Seal. done.
Qed.

(** C28. A worker keeps its identity. Whatever a successful start came to - a new
    key pair or the one on the disk - every later start on that machine comes to
    the same identity and leaves the disk as it is, whichever key pair and nonce
    the random source would give; and the fingerprint it reports is the digest
    of its public key. *)
Theorem identity_is_kept generated nonce d d' i :
  dir_ok dataDir = true -> stat_ok encPath = true -> (forall path data, read_ok path data = true) ->
  String.length nonce = NonceSize ->
  LoadOrCreate m generated (Some nonce) dataDir d = (d', Ret (inl i)) ->
  i.(id_Fingerprint) = fingerprint i.(id_PublicKey) /\
  forall generated' nonce', LoadOrCreate m generated' nonce' dataDir d' = (d', Ret (inl i)).
Proof.
  intros Hd Hs Hread Hn E. destruct (LoadOrCreate_stored generated nonce d d' i) as [Hload He]; [done..|].
  split; [by apply (load_fingerprint d')|]. intros generated' nonce'. by rewrite start_loads.
Qed.

(** The starts of a client, one after the other, each with what its random
    source gives. *)
Fixpoint identity_starts (l : list (option (string * string) * option string)) : GoM Volume (list (Identity + identity_error)) :=
  match l with
  | [] => mret []
  | (generated, nonce) :: l =>
      r ← LoadOrCreate m generated nonce dataDir;
      rs ← identity_starts l;
      mret (r :: rs)
  end.

(** A first start that is cut short can lock the worker out. Whatever the
    first start comes to, once it could open the file of the private key the
    disk goes through a state from which no later start recovers: each of them
    fails to read the public key, and none writes anything. *)
Theorem interrupted_creation_locks_out generated nonce fs :
  dir_ok dataDir = true -> create_ok encPath = true -> stat_ok encPath = true ->
  fs !! encPath = None -> fs !! pubPath = None ->
  exists cut, cut ∈ (run (LoadOrCreate m (Some generated) (Some nonce) dataDir) (disk_of fs)).(dk_seen) /\
    forall later, identity_starts later (disk_of cut) = (disk_of cut, Ret (replicate (length later) (inr ReadPublicKey))).
Proof.
  intros Hd Hc Hs He Hp. destruct generated as [pub priv]. set (cut := <[encPath := ""]> fs). exists cut. split.
  - enough (Hwp : wp (LoadOrCreate m (Some (pub, priv)) (Some nonce) dataDir) (fun d' _ => cut ∈ d'.(dk_seen)) (disk_of fs)) by exact Hwp.
    unfold LoadOrCreate. rewrite Hd. cbn [negb]. fold encPath pubPath fpPath. apply wp_bind, wp_gets. cbn [disk_of dk_files]. rewrite He.
    rewrite bool_decide_eq_false_2 by (by intros []). cbn [andb]. unfold create, saveEncrypted.
    apply wp_bind, wp_WriteFile; intros C1; [congruence|]. cbv zeta. cbn [disk_of dk_files dk_seen].
    assert (Hcut : forall data l, cut ∈ ([fs] ++ write_states encPath data fs) ++ l).
    { intros data l. apply elem_of_app. left. apply elem_of_app. right. apply elem_of_write_states. exists 0. split_and!; [lia..|].
      by destruct data. }
    destruct (negb _); [apply wp_ret; rewrite <- (app_nil_r (_ ++ _)); apply Hcut|].
    apply wp_bind, wp_WriteFile; intros C2; [apply wp_ret; rewrite <- (app_nil_r (_ ++ _)); apply Hcut|]. cbv zeta. cbn [dk_files dk_seen].
    destruct (negb _); [apply wp_ret, Hcut|].
    apply wp_bind, wp_WriteFile; intros C3; apply wp_ret; cbn [dk_seen]; rewrite <- ?app_assoc, ?(app_assoc [fs]); apply Hcut.
  - induction later as [|[generated' nonce'] later IH]; [done|]. cbn [identity_starts length replicate].
    assert (E : LoadOrCreate m generated' nonce' dataDir (disk_of cut) = (disk_of cut, Ret (inr ReadPublicKey))).
    { rewrite start_loads; [|done..|]; [|unfold cut; cbn; rewrite lookup_insert_eq; by eexists].
      unfold load, os_ReadFile, mbind, GoM_bind, gets, cut. cbn. destruct paths_differ as (N & _). by rewrite lookup_insert_ne, Hp. }
    by rewrite (bind_Ret _ _ _ _ _ E), (bind_Ret _ _ _ _ _ IH).
Qed.
End later.

(** A concrete key store: sealing prepends the key. *)
Definition ToyKeystore : Keystore := {|
  IDKey _ salt := salt;
  gcm_Seal key _ text := key +:+ text;
  gcm_Open key _ data := if HasPrefix data key then Some (drop_str (String.length key) data) else None;
  pem_Encode block := "PEM " +:+ block;
  pem_Decode s := if HasPrefix s "PEM " then Some (drop_str 4 s) else None |}.
Lemma ToyKeystoreLaws : KeystoreLaws (H := ToyKeystore).
Proof.
  split; cbn.
  - intros key nonce text. by rewrite (proj2 (HasPrefix_spec _ _)), drop_str_app by (by eexists).
  - intros block. change (HasPrefix ("PEM " +:+ block) "PEM ") with (HasPrefix block ""). by destruct block.
  - done.
Qed.

(** Every operation succeeds. *)
Definition FilesFine : FileOs := {| create_ok _ := true; rename_ok _ _ := true; read_ok _ _ := true |}.
Definition DiskFine : DiskOs := {| dir_ok _ := true; stat_ok _ := true; written _ data := String.length data; rename_via _ _ _ := [] |}.

Section witnesses.
#[local] Existing Instances ToyKeystore ToyKeystoreLaws ToyCrypto FilesFine DiskFine.

Definition machine_ex : Machine := {| mc_hostname := "host"; mc_USER := ""; mc_USERNAME := "me" |}.
Definition pair_ex : string * string := ("public", "private").
Definition nonce_ex : string := "nonce-12-byt".

Lemma identity_is_kept_witness : exists d i,
  LoadOrCreate machine_ex (Some pair_ex) (Some nonce_ex) "/data" (disk_of ∅) = (d, Ret (inl i)) /\
  i.(id_PublicKey) = "public" /\ i.(id_Fingerprint) = fingerprint "public" /\
  LoadOrCreate machine_ex None None "/data" d = (d, Ret (inl i)).
Proof.
  set (out := LoadOrCreate machine_ex (Some pair_ex) (Some nonce_ex) "/data" (disk_of ∅)).
  assert (E : exists d, out = (d, Ret (inl {| id_PrivateKey := "private"; id_PublicKey := "public"; id_Fingerprint := fingerprint "public" |}))).
  { exists out.1. apply run_to. vm_compute. reflexivity. }
  destruct E as [d E]. exists d. eexists. split; [exact E|]. split; [reflexivity|].
  destruct (identity_is_kept machine_ex "/data" ltac:(discriminate) (Some pair_ex) nonce_ex (disk_of ∅) d _ eq_refl eq_refl
    (fun _ _ => eq_refl) eq_refl E) as [Hf Hl].
  split; [exact Hf|apply Hl].
Defined.

Lemma interrupted_creation_locks_out_witness : exists cut,
  cut ∈ (run (LoadOrCreate machine_ex (Some pair_ex) (Some nonce_ex) "/data") (disk_of ∅)).(dk_seen) /\
  identity_starts machine_ex "/data" [(Some ("p", "k"), Some nonce_ex)] (disk_of cut) = (disk_of cut, Ret [inr ReadPublicKey]).
Proof.
  destruct (interrupted_creation_locks_out machine_ex "/data" ltac:(discriminate) pair_ex nonce_ex ∅) as (cut & Hin & Hall);
    try reflexivity.
  exists cut. split; [exact Hin|apply (Hall [_])].
Defined.
End witnesses.
