(* ===== verification/ClientConfig.v ===== *)
(** * The client's configuration and its saved state (internal/client/config, internal/client/workerstate)

    What [Load] makes of the flags, the environment, the bytes patched into the
    binary and the files of the data directory; and the state file, which is read
    at every start and written to a temporary file that replaces it. The YAML
    library is the class [Yaml]. *)

From S2P Require Import Prelude GoStd Strings GoFlag Protocol Latency Durations Backend Worker Patch Files Disk.

(** ** The saved state (workerstate/state.go) *)

Definition zero_LlamaParams : LlamaParams :=
  {| lp_ContextSize := 0; lp_ParallelSlots := 0; lp_GPULayers := 0; lp_EndpointType := ""; lp_FlashAttention := false |}.
Definition zero_Persisted : Persisted :=
  {| ps_ManagerURL := ""; ps_Role := ""; ps_ModelPath := ""; ps_LlamaParams := zero_LlamaParams; ps_BackendVersion := "";
     ps_LogLevel := "" |}.

(** yaml.Marshal of the state with the time of the save, and yaml.Unmarshal into
    the zero state, whose error is dropped. *)
Class Yaml := {
  yaml_Marshal : Persisted -> Z -> option string;
  yaml_Unmarshal : string -> Persisted;
}.
Class YamlLaws `{Yaml} := {
  Unmarshal_Marshal p now data : yaml_Marshal p now = Some data -> yaml_Unmarshal data = p;
}.

Definition SetManagerURL (url : string) (p : Persisted) : Persisted :=
  {| ps_ManagerURL := url; ps_Role := p.(ps_Role); ps_ModelPath := p.(ps_ModelPath); ps_LlamaParams := p.(ps_LlamaParams);
     ps_BackendVersion := p.(ps_BackendVersion); ps_LogLevel := p.(ps_LogLevel) |}.
Definition SetLogLevel (level : string) (p : Persisted) : Persisted :=
  {| ps_ManagerURL := p.(ps_ManagerURL); ps_Role := p.(ps_Role); ps_ModelPath := p.(ps_ModelPath);
     ps_LlamaParams := p.(ps_LlamaParams); ps_BackendVersion := p.(ps_BackendVersion); ps_LogLevel := level |}.

Definition state_fileName : string := "worker-state.yaml".
Definition state_path (dataDir : string) : string := path_Join dataDir state_fileName.

Section state.
Context `{Yaml} `{FileOs, DiskOs}.

(** [Load]; [None]: an error, and no store *)
Definition LoadState (dataDir : string) : GoM Volume (option Persisted) :=
  data ← os_ReadFile (state_path dataDir);
  mret match data with
       | NotExist => Some zero_Persisted
       | Unreadable => None
       | Content data => Some (yaml_Unmarshal data)
       end.

Definition save_state (now : Z) (dataDir : string) (p : Persisted) : GoM Volume unit :=
  match yaml_Marshal p now with
  | None => skip
  | Some data =>
      let tmp := state_path dataDir +:+ ".tmp" in
      ok ← os_WriteFile tmp data;
      if negb ok then skip else os_Rename tmp (state_path dataDir) ;; skip
  end.
End state.

(** ** The configuration (config/config.go) *)

Record Config := {
  cc_ManagerURL : string; cc_WorkerKey : string; cc_LLMURL : string; cc_Model : string; cc_Quantisation : string;
  cc_Role : string; cc_ModelFile : string; cc_DataDir : string; cc_DashboardAddr : string;
  cc_GPUMonitorInterval : Z; cc_GPUContentionThresh : Z; cc_GPUResumeDelay : Z;
  cc_AutoApprove : bool; cc_Insecure : bool; cc_TLSCACert : string; cc_Unconfigured : bool }.

(** [os.Getenv]: an unset variable is empty *)
Abbreviation Getenv := (string -> string).

Definition envOrDefault (env : Getenv) (key defaultVal : string) : string :=
  let v := env key in if v != "" then v else defaultVal.
Definition envOrDefaultInt (env : Getenv) (key : string) (defaultVal : Z) : Z :=
  let v := env key in if v == "" then defaultVal else default defaultVal (Sscanf_d v).
(** [home]: os.UserHomeDir *)
Definition defaultDataDir (home : option string) : string :=
  match home with Some home => home +:+ "/.synergia/worker" | None => ".synergia/worker" end.

Inductive flag_kind := StringFlag | BoolFlag | IntFlag.
Definition client_flags : list (string * flag_kind) :=
  [ ("manager-url", StringFlag); ("llm-url", StringFlag); ("model", StringFlag); ("quantisation", StringFlag);
    ("role", StringFlag); ("model-file", StringFlag); ("data-dir", StringFlag); ("dashboard-addr", StringFlag);
    ("auto-approve", BoolFlag); ("insecure", BoolFlag); ("tls-ca-cert", StringFlag); ("gpu-monitor-interval", StringFlag);
    ("gpu-contention-threshold", IntFlag); ("gpu-resume-delay", StringFlag) ].
(** The values given on the command line, by flag; a value that does not fit
    the kind of its flag is a usage error. *)
Definition kind_of (name : string) : flag_kind :=
  match List.find (fun x => x.1 == name) client_flags with Some (_, k) => k | None => StringFlag end.
Definition store_flag (name value : string) (given : gmap string string) : option (gmap string string) :=
  let ok := match kind_of name with
            | StringFlag => true
            | BoolFlag => bool_decide (is_Some (ParseBool value))
            | IntFlag => bool_decide (is_Some (flag_Int value))
            end in
  if ok then Some (<[name := value]> given) else None.
#[global] Instance flag_kind_eq_dec : EqDecision flag_kind.
Proof. solve_decision. Defined.
Definition client_flag_Parse (args : list string) : gmap string string + Z :=
  parse_flags ((fun x => (x.1, bool_decide (x.2 = BoolFlag))) <$> client_flags) store_flag args ∅.

Inductive interval_error := InvalidInterval (value : string) | InvalidResumeDelay (value : string).
Inductive loaded := Exits (status : Z) | LoadFailed (e : interval_error) | Loaded (c : Config).

Section load.
Context `{Yaml} `{FileOs, DiskOs}.

(** [urlVar], [keyVar]: the arrays DefaultManagerURL and DefaultWorkerKey of the binary *)
Definition Load (env : Getenv) (args : list string) (urlVar keyVar : bytes) (home : option string) : GoM Volume loaded :=
  let defaultURL := envOrDefault env "CLUSTER_MANAGER_URL" (resolveManagerURL urlVar) in
  match client_flag_Parse args with
  | inr status => mret (Exits status)
  | inl given =>
      let str name d := default d (given !! name) in
      let bool name d := match given !! name with Some v => default false (ParseBool v) | None => d end in
      let ManagerURL := str "manager-url" defaultURL in
      let DataDir := str "data-dir" (envOrDefault env "CLUSTER_CLIENT_DATA_DIR" (defaultDataDir home)) in
      let gpuInterval := str "gpu-monitor-interval" (envOrDefault env "GPU_MONITOR_INTERVAL" "5s") in
      let gpuResume := str "gpu-resume-delay" (envOrDefault env "GPU_RESUME_DELAY" "30s") in
      match ParseDuration gpuInterval, ParseDuration gpuResume with
      | None, _ => mret (LoadFailed (InvalidInterval gpuInterval))
      | Some _, None => mret (LoadFailed (InvalidResumeDelay gpuResume))
      | Some interval, Some resume =>
          url ← (if ManagerURL != "" then mret ManagerURL
                 else
                   saved ← os_ReadFile (Clean (DataDir +:+ "/manager-url"));
                   mret match saved with Content saved => TrimSpace saved | _ => "" end);
          url ← (if url != "" then mret url
                 else
                   ws ← LoadState DataDir;
                   mret match ws with Some p => p.(ps_ManagerURL) | None => "" end);
          mret (Loaded {|
            cc_ManagerURL := url;
            cc_WorkerKey := if url == "" then "" else resolveWorkerKey (env "CLUSTER_WORKER_KEY") keyVar;
            cc_LLMURL := str "llm-url" (envOrDefault env "WORKER_LLM_URL" "http://localhost:9877");
            cc_Model := str "model" (envOrDefault env "WORKER_MODEL" "SmolLM2-135M-Instruct");
            cc_Quantisation := str "quantisation" (envOrDefault env "WORKER_QUANTISATION" "Q4_K_M");
            cc_Role := str "role" (envOrDefault env "WORKER_ROLE" "tester");
            cc_ModelFile := str "model-file" (env "WORKER_MODEL_FILE");
            cc_DataDir := DataDir;
            cc_DashboardAddr := str "dashboard-addr" (envOrDefault env "CLUSTER_DASHBOARD_ADDR" "127.0.0.1:9876");
            cc_GPUMonitorInterval := interval;
            cc_GPUContentionThresh := match given !! "gpu-contention-threshold" with
                                      | Some v => default 0%Z (flag_Int v)
                                      | None => envOrDefaultInt env "GPU_CONTENTION_THRESHOLD" 15
                                      end;
            cc_GPUResumeDelay := resume;
            cc_AutoApprove := bool "auto-approve" (envOrDefault env "CLUSTER_CLIENT_AUTO_APPROVE" "" == "true");
            cc_Insecure := bool "insecure" (envOrDefault env "CLUSTER_INSECURE" "" == "true");
            cc_TLSCACert := str "tls-ca-cert" (env "TLS_CA_CERT");
            cc_Unconfigured := url == "" |})
      end
  end.
End load.

(** ** A save is never torn *)

Section saves.
Context `{YamlLaws} `{FileOs, DiskOs}.

Lemma tmp_ne path : path +:+ ".tmp" <> path.
Proof. intros E. apply (f_equal String.length) in E. rewrite length_app_str in E. cbn in E. lia. Qed.

Lemma take_whole data n : (String.length data <= n)%nat -> take_str n data = data.
Proof. revert n. induction data as [|c data IH]; intros [|n] Hn; cbn in *; [done|done|lia|]. by rewrite IH by lia. Qed.

(** The state a start reads from these files. *)
Definition state_of (dataDir : string) (fs : Files) : option Persisted :=
  match fs !! state_path dataDir with
  | None => Some zero_Persisted
  | Some data => if read_ok (state_path dataDir) data then Some (yaml_Unmarshal data) else None
  end.
Lemma LoadState_reads dataDir d : LoadState dataDir d = (d, Ret (state_of dataDir d.(dk_files))).
Proof.
  unfold LoadState, os_ReadFile, state_of, mbind, GoM_bind, gets. cbn. destruct (dk_files d !! _) as [c|]; [|done]. by destruct (read_ok _ c).
Qed.

(** The state file of [fs] is the one of [before] or all of the saved state, and
    only it and its temporary file differ. *)
Definition intact (now : Z) (dataDir : string) (p : Persisted) (before fs : Files) : Prop :=
  (state_of dataDir fs = state_of dataDir before \/
   exists data, yaml_Marshal p now = Some data /\ fs !! state_path dataDir = Some data /\
     (read_ok (state_path dataDir) data = true -> state_of dataDir fs = Some p)) /\
  forall path, path <> state_path dataDir -> path <> state_path dataDir +:+ ".tmp" -> fs !! path = before !! path.

Lemma intact_tmp now dataDir p before data : intact now dataDir p before (<[state_path dataDir +:+ ".tmp" := data]> before).
Proof.
  pose proof (tmp_ne (state_path dataDir)). split; [left; unfold state_of; by rewrite lookup_insert_ne|].
  intros path _ Hp. by rewrite lookup_insert_ne.
Qed.
Lemma state_of_saved now dataDir p data fs : yaml_Marshal p now = Some data -> fs !! state_path dataDir = Some data ->
  read_ok (state_path dataDir) data = true -> state_of dataDir fs = Some p.
Proof. intros Hm Hf Hr. unfold state_of. rewrite Hf, Hr. f_equal. by apply (Unmarshal_Marshal p now). Qed.

(** What a save does, step by step. *)
Lemma wp_save now dataDir p d : let path := state_path dataDir in let tmp := path +:+ ".tmp" in
  wp (save_state now dataDir p) (fun d' r => r = Ret tt /\
    (atomic_rename -> forall fs, fs ∈ d'.(dk_seen) -> fs ∈ d.(dk_seen) \/ intact now dataDir p d.(dk_files) fs) /\
    intact now dataDir p d.(dk_files) d'.(dk_files) /\
    (forall data, yaml_Marshal p now = Some data -> create_ok tmp = true -> (String.length data <= written tmp data)%nat ->
       rename_ok tmp path = true -> read_ok path data = true -> state_of dataDir d'.(dk_files) = Some p)) d.
Proof.
  cbv zeta. set (path := state_path dataDir). unfold save_state. fold path.
  assert (Hsame : intact now dataDir p d.(dk_files) d.(dk_files)) by (split; [by left|done]).
  destruct (yaml_Marshal p now) as [data|] eqn:Em; [|apply wp_ret; split_and!; [done|by left|done..]].
  apply wp_bind, wp_WriteFile; intros C; [apply wp_ret; split_and!; [done|by left|done|congruence]|]. cbv zeta.
  assert (Hws : forall fs, fs ∈ d.(dk_seen) ++ write_states (path +:+ ".tmp") data d.(dk_files) ->
    fs ∈ d.(dk_seen) \/ intact now dataDir p d.(dk_files) fs).
  { intros fs [?|(n & _ & _ & ->)%elem_of_write_states]%elem_of_app; [by left|right; apply intact_tmp]. }
  pose proof (intact_tmp now dataDir p d.(dk_files) (take_str (written (path +:+ ".tmp") data) data)) as Htmp.
  destruct (bool_decide _) eqn:W; cbn [negb].
  2: { apply wp_ret. apply bool_decide_eq_false in W. split_and!; [done|intros _; exact Hws|exact Htmp|intros data' [= <-]; lia]. }
  apply bool_decide_eq_true in W. apply wp_bind, wp_os_Rename. cbn [dk_files dk_seen].
  rewrite take_whole, lookup_insert_eq by done. destruct (rename_ok _ _) eqn:R.
  - cbv zeta. apply wp_ret. cbn [dk_files dk_seen]. set (fs2 := <[path:=data]> _).
    assert (Hfs2 : fs2 !! path = Some data) by apply lookup_insert_eq.
    assert (Hnew : intact now dataDir p d.(dk_files) fs2).
    { split; [right; exists data; split_and!; [done..|intros; by eapply state_of_saved]|].
      intros q N1 N2. unfold fs2. by rewrite lookup_insert_ne, lookup_delete_ne, lookup_insert_ne. }
    split_and!; [done| |exact Hnew|intros data' [= <-]; intros; by eapply state_of_saved].
    intros Hat fs. rewrite Hat, app_nil_r. intros [Hin|[->|[]%elem_of_nil]%elem_of_cons]%elem_of_app; [by apply Hws|by right].
  - apply wp_ret. cbn [dk_files dk_seen]. split_and!; [done|intros _; exact Hws| |congruence]. by rewrite take_whole in Htmp.
Qed.

(** C35. Saving the state is atomic. Whichever step fails and wherever the process
    is killed, a write that has brought part of its data included, the state file
    is the one of before or holds the whole new state, and no file but the state
    file and its temporary file changes, given that renaming is one step, as on
    Unix; when nothing fails a start reads back what was saved. The states are
    those the operating system shows: nothing is synced, and what a power cut
    leaves of them is not covered. *)
Theorem state_save_is_atomic now dataDir p d :
  let path := state_path dataDir in let tmp := path +:+ ".tmp" in
  let d' := run (save_state now dataDir p) d in
  (atomic_rename -> forall fs, fs ∈ d'.(dk_seen) -> fs ∈ d.(dk_seen) \/ intact now dataDir p d.(dk_files) fs) /\
  (forall data, yaml_Marshal p now = Some data -> create_ok tmp = true -> (String.length data <= written tmp data)%nat ->
     rename_ok tmp path = true -> read_ok path data = true -> result (LoadState dataDir) d' = Ret (Some p)).
Proof.
  cbv zeta. destruct (wp_save now dataDir p d) as (_ & Hseen & _ & Hfin). split; [exact Hseen|].
  intros data. unfold result. rewrite LoadState_reads. cbn. intros. f_equal. eauto.
Qed.
End saves.

(** ** Finding the manager *)

Section finding.
Context `{YamlLaws} `{FileOs, DiskOs} (env : Getenv) (args : list string) (urlVar keyVar : bytes) (home : option string).

Definition setup_path (dataDir : string) : string := Clean (dataDir +:+ "/manager-url").
Definition setup_file (dataDir : string) (fs : Files) : option string :=
  c ← fs !! setup_path dataDir; if read_ok (setup_path dataDir) c then Some c else None.

(** The manager a start without the flag finds. *)
Definition found_url (dataDir : string) (fs : Files) : string :=
  client_manager_url (env "CLUSTER_MANAGER_URL") urlVar (setup_file dataDir fs) (ps_ManagerURL <$> state_of dataDir fs).
Definition data_dir (given : gmap string string) : string :=
  default (envOrDefault env "CLUSTER_CLIENT_DATA_DIR" (defaultDataDir home)) (given !! "data-dir").
Definition durations_ok (given : gmap string string) : Prop :=
  is_Some (ParseDuration (default (envOrDefault env "GPU_MONITOR_INTERVAL" "5s") (given !! "gpu-monitor-interval"))) /\
  is_Some (ParseDuration (default (envOrDefault env "GPU_RESUME_DELAY" "30s") (given !! "gpu-resume-delay"))).

(** A start reads the data directory and changes nothing. *)
Lemma Load_runs given d : client_flag_Parse args = inl given -> durations_ok given ->
  exists cfg, Load env args urlVar keyVar home d = (d, Ret (Loaded cfg)) /\ cfg.(cc_DataDir) = data_dir given /\
    cfg.(cc_Unconfigured) = (cfg.(cc_ManagerURL) == "") /\
    cfg.(cc_ManagerURL) =
      match given !! "manager-url" with
      | Some url =>
          if url != "" then url
          else client_manager_url "" [] (setup_file (data_dir given) d.(dk_files)) (ps_ManagerURL <$> state_of (data_dir given) d.(dk_files))
      | None => found_url (data_dir given) d.(dk_files)
      end.
Proof.
  intros Hp ([interval Hi] & [resume Hr]). unfold Load. rewrite Hp. cbv zeta. rewrite Hi, Hr. fold (data_dir given).
  set (dir := data_dir given). set (url1 := default _ (given !! "manager-url")).
  set (m1 := if url1 != "" then mret url1 else _). set (u1 := if url1 != "" then url1 else
    match setup_file dir d.(dk_files) with Some s => TrimSpace s | None => "" end).
  assert (E1 : m1 d = (d, Ret u1)).
  { unfold m1, u1, setup_file, setup_path. destruct (url1 == ""); [|done]. cbn [negb]. unfold os_ReadFile, mbind, GoM_bind, gets. cbn.
    destruct (dk_files d !! _) as [c|]; [|done]. cbn. by destruct (read_ok _ c). }
  rewrite (bind_Ret _ _ _ _ _ E1). set (m2 := if u1 != "" then mret u1 else _).
  set (u2 := if u1 != "" then u1 else default "" (ps_ManagerURL <$> state_of dir d.(dk_files))).
  assert (E2 : m2 d = (d, Ret u2)).
  { unfold m2, u2. destruct (u1 == ""); [|done]. cbn [negb]. rewrite (bind_Ret _ _ _ _ _ (LoadState_reads dir d)).
    by destruct (state_of dir _). }
  rewrite (bind_Ret _ _ _ _ _ E2). eexists. split; [done|]. cbn. split; [done|]. split; [done|].
  unfold u2, u1, url1, found_url, client_manager_url, envOrDefault. destruct (given !! "manager-url") as [url|]; cbn [default from_option id].
  - destruct (url == "") eqn:Hu; cbn [negb]; [|by rewrite Hu]. rewrite (bool_decide_eq_true_2 ("" = "")) by done. cbn.
    by destruct (setup_file dir (dk_files d)) as [s|]; [destruct (TrimSpace s == "")|].
  - destruct (env "CLUSTER_MANAGER_URL" == "") eqn:Hu; cbn [negb].
    + destruct (resolveManagerURL urlVar == "") eqn:Hv; cbn [negb]; [|by rewrite Hv].
      by destruct (setup_file dir (dk_files d)) as [s|]; [destruct (TrimSpace s == "")|].
    + by rewrite Hu; cbn [negb]; rewrite Hu.
Qed.

(** C23. The setup page takes effect. A client that starts without a manager is in
    setup mode; once a manager URL without space around it is in the setup file
    of its data directory, every start with the same flags and environment is a
    start with that manager and the same data directory. *)
Theorem setup_takes_effect given d url d' :
  client_flag_Parse args = inl given -> durations_ok given ->
  (exists cfg, Load env args urlVar keyVar home d = (d, Ret (Loaded cfg)) /\ cfg.(cc_Unconfigured) = true) ->
  solid url -> url <> "" -> read_ok (setup_path (data_dir given)) url = true ->
  os_WriteFile (setup_path (data_dir given)) url d = (d', Ret true) ->
  exists cfg, Load env args urlVar keyVar home d' = (d', Ret (Loaded cfg)) /\
    cfg.(cc_Unconfigured) = false /\ cfg.(cc_ManagerURL) = url /\ cfg.(cc_DataDir) = data_dir given.
Proof.
  intros Hp Hdur (cfg0 & E0 & Hun) Hs Hne Hr Hw. destruct (Load_runs given d Hp Hdur) as (cfg1 & E1 & _ & Hu1 & Hm1).
  rewrite E0 in E1. injection E1 as <-. rewrite Hun in Hu1. symmetry in Hu1. apply bool_decide_eq_true in Hu1. rewrite Hu1 in Hm1.
  assert (Hfile : setup_file (data_dir given) d'.(dk_files) = Some url).
  { pose proof (wp_WriteFile (setup_path (data_dir given)) url (fun d' r => r = Ret true ->
      setup_file (data_dir given) d'.(dk_files) = Some url) d) as Hwp. unfold wp, run, result in Hwp. rewrite Hw in Hwp.
    apply Hwp; [done| |done]. intros _. cbn [dk_files]. intros [= W%bool_decide_eq_true]. unfold setup_file.
    rewrite take_whole, lookup_insert_eq by done. cbn. by rewrite Hr. }
  destruct (Load_runs given d' Hp Hdur) as (cfg & E & Hdir & Hu & Hm). exists cfg. split; [exact E|].
  enough (Hurl : cc_ManagerURL cfg = url) by (split_and!; [by rewrite Hu, Hurl, bool_decide_eq_false_2|done|done]).
  rewrite Hm. unfold found_url in *. rewrite Hfile. unfold client_manager_url in *.
  destruct (given !! "manager-url") as [u|].
  - destruct (u == "") eqn:Hu'; cbn [negb] in *; [|by apply bool_decide_eq_false in Hu'].
    rewrite TrimSpace_solid by done. cbn. by rewrite bool_decide_eq_false_2.
  - set (u := if _ != "" then _ else resolveManagerURL urlVar) in *. destruct (u == "") eqn:Hu'.
    + rewrite TrimSpace_solid by done. by rewrite bool_decide_eq_false_2.
    + rewrite Hu' in Hm1. by apply bool_decide_eq_false in Hu'.
Qed.
End finding.

(** A concrete library that knows how to write one state. *)
#[global] Instance LlamaParams_eq_dec : EqDecision LlamaParams.
Proof. solve_decision. Defined.
#[global] Instance Persisted_eq_dec : EqDecision Persisted.
Proof. solve_decision. Defined.
Definition ToyYaml (p : Persisted) : Yaml := {|
  yaml_Marshal q _ := if bool_decide (q = p) then Some "saved" else None;
  yaml_Unmarshal s := if s == "saved" then p else zero_Persisted |}.
Lemma ToyYamlLaws p : YamlLaws (H := ToyYaml p).
Proof. split. cbn. intros q _ data. case_bool_decide as Hq; [|done]. by intros [= <-]. Qed.

Section witnesses.
Definition url_state : Persisted := SetManagerURL "wss://m/ws/worker" zero_Persisted.
#[local] Instance yaml_ex : Yaml := ToyYaml url_state.
#[local] Instance yaml_laws_ex : YamlLaws := ToyYamlLaws url_state.
#[local] Instance files_ex : FileOs := {| create_ok _ := true; rename_ok _ _ := true; read_ok _ _ := true |}.
#[local] Instance disk_ex : DiskOs := {| dir_ok _ := true; stat_ok _ := true; written _ data := String.length data; rename_via _ _ _ := [] |}.

Lemma state_save_is_atomic_witness :
  let d' := run (save_state 0 "/d" url_state) (disk_of ∅) in let tmp := "/d/worker-state.yaml.tmp" in
  d'.(dk_seen) = [∅; {[tmp := ""]}; {[tmp := "s"]}; {[tmp := "sa"]}; {[tmp := "sav"]}; {[tmp := "save"]}; {[tmp := "saved"]};
    {["/d/worker-state.yaml" := "saved"]}] /\
  (forall fs, fs ∈ d'.(dk_seen) -> fs ∈ [∅] \/ intact 0 "/d" url_state ∅ fs) /\
  result (LoadState "/d") d' = Ret (Some url_state).
Proof.
  cbv zeta. destruct (state_save_is_atomic 0 "/d" url_state (disk_of ∅)) as [Hseen Hfin].
  split; [apply (bool_decide_unpack _); vm_compute; done|]. split; [apply Hseen; intros ???; reflexivity|].
  apply (Hfin "saved"); vm_compute; (reflexivity || lia).
Defined.

Definition flags_ex : list string := ["--data-dir=/d"; "-insecure"; "--gpu-contention-threshold"; "0x14"].
Definition unset : Getenv := fun _ => "".
Definition given_ex : gmap string string :=
  {["data-dir" := "/d"; "insecure" := "true"; "gpu-contention-threshold" := "0x14"]}.

Lemma setup_takes_effect_witness : exists cfg,
  result (Load unset flags_ex DefaultManagerURL DefaultWorkerKey None) (disk_of {["/d/manager-url" := "wss://host/ws/worker"]}) =
    Ret (Loaded cfg) /\ cfg.(cc_ManagerURL) = "wss://host/ws/worker" /\ cfg.(cc_GPUContentionThresh) = 20%Z /\ cfg.(cc_Insecure) = true.
Proof.
  set (d' := run (os_WriteFile "/d/manager-url" "wss://host/ws/worker") (disk_of ∅)).
  destruct (setup_takes_effect unset flags_ex DefaultManagerURL DefaultWorkerKey None given_ex (disk_of ∅) "wss://host/ws/worker" d')
    as (cfg & E & _ & Hurl & _).
  - vm_compute. reflexivity.
  - split; vm_compute; eexists; reflexivity.
  - eexists. split; vm_compute; reflexivity.
  - eexists _, _. split; [reflexivity|]. split; [reflexivity|]. eexists "r"%char, (chars "wss://host/ws/worke"). split; reflexivity.
  - discriminate.
  - reflexivity.
  - vm_compute. reflexivity.
  - assert (Hthr : result (Load unset flags_ex DefaultManagerURL DefaultWorkerKey None) d' = Ret (Loaded cfg)) by (unfold result; by rewrite E).
    exists cfg. split; [rewrite <- Hthr; vm_compute; reflexivity|]. split; [exact Hurl|].
    vm_compute in Hthr. injection Hthr as <-. split; reflexivity.
Defined.
End witnesses.
