(* ===== verification/Updater.v ===== *)
(** * Replacing the running client (internal/client/updater, cmd/synergia-updater)

    [Apply] downloads a binary next to nothing, verifies it and swaps it with
    the running executable: by two renames where a running file can be
    renamed, through a helper process on Windows. The host records the files,
    the states the operating system showed of them ([h_seen], what is left if
    the process is killed), the requests made and the processes started. Any
    operation on files may fail. The code syncs nothing, and what a power cut
    leaves is not modelled. *)

From S2P Require Import Prelude GoStd Strings GoFlag Protocol Http Backend Files Downloads ClientState Worker.

(** The platform the client was built for and runs on. [temp_name] is the name
    os.CreateTemp picks for the download of a URL, [join_dir] is
    filepath.Join(filepath.Dir(path), name), [up_rename_via] what os.Rename lets
    others see on its way: nothing on Unix (POSIX). *)
Class UpdaterOs := {
  up_GOOS : string;
  up_GOARCH : string;
  up_Version : string;                        (* version.Version of this build *)
  Executable : option string;                 (* os.Executable *)
  up_pid : Z;                                 (* os.Getpid *)
  temp_name : string -> string;
  join_dir : string -> string -> string;
  remove_ok : string -> bool;
  chmod_ok : string -> bool;
  spawn_ok : string -> bool;                  (* cmd.Start *)
  up_rename_via : string -> string -> Files -> list Files;
}.
Definition renames_atomically `{UpdaterOs} : Prop := forall src dst fs, up_rename_via src dst fs = [].

Record Host := {
  h_files : Files;
  h_seen : list Files;
  h_requests : list (string * string);        (* URL and Authorization header *)
  h_spawned : list (string * list string);
}.
Definition host_of (fs : Files) : Host := {| h_files := fs; h_seen := [fs]; h_requests := []; h_spawned := [] |}.

(** ** Operations on files *)

Inductive rename_result := Renamed | NotExist | RenameFailed.

Section updater.
Context `{FileOs, UpdaterOs, Crypto}.

Definition fs_op (f : Files -> Files) : GoM Host unit :=
  modify (fun h => Build_Host (f h.(h_files)) (h.(h_seen) ++ [f h.(h_files)]) h.(h_requests) h.(h_spawned)).
Definition show (states : Files -> list Files) : GoM Host unit :=
  modify (fun h => Build_Host h.(h_files) (h.(h_seen) ++ states h.(h_files)) h.(h_requests) h.(h_spawned)).
Definition os_Remove (path : string) : GoM Host unit := when (remove_ok path) (fs_op (delete path)).
Definition os_Rename (a b : string) : GoM Host rename_result :=
  fs ← gets h_files;
  match fs !! a with
  | None => mret NotExist
  | Some c =>
      if rename_ok a b then
        show (up_rename_via a b) ;;
        fs_op (fun fs => <[b := c]> (delete a fs)) ;;
        mret Renamed
      else mret RenameFailed
  end.
Definition os_Stat (path : string) : GoM Host bool := gets (fun h => bool_decide (is_Some (h.(h_files) !! path))).
Definition request (url auth : string) : GoM Host unit :=
  modify (fun h => Build_Host h.(h_files) h.(h_seen) (h.(h_requests) ++ [(url, auth)]) h.(h_spawned)).
Definition spawn (path : string) (args : list string) : GoM Host bool :=
  if spawn_ok path then
    modify (fun h => Build_Host h.(h_files) h.(h_seen) h.(h_requests) (h.(h_spawned) ++ [(path, args)])) ;; mret true
  else mret false.

(** The body is written as far as it arrived; [complete] tells whether that is
    to its end. *)
Definition write_download (dest body : string) (complete : bool) : GoM Host bool :=
  if negb (create_ok dest) then mret false
  else
    fs_op (<[dest := body]>) ;;
    if complete then mret true else os_Remove dest ;; mret false.

(** ** The updater *)

Record Updater := { u_workerKey : string; u_managerHTTPURL : string }.

Inductive update_error := NoExecutable | SidecarFailed | DownloadsFailed | HashUnreadable | ShaMismatch | ReplaceFailed.

Definition download (get : string -> http_result) (u : Updater) (url : string) : GoM Host (option string) :=
  request url ("Bearer " +:+ u.(u_workerKey)) ;;
  match get url with
  | None => mret None
  | Some (code, body, complete) =>
      if bool_decide (code <> 200)%Z then mret None
      else
        let tmp := temp_name url in
        written ← write_download tmp body complete;
        if negb written then mret None
        else if (up_GOOS != "windows") && negb (chmod_ok tmp) then os_Remove tmp ;; mret None
        else mret (Some tmp)
  end.

Definition buildManagerDownloadURL (u : Updater) (bu : BinaryUpdate) : string :=
  u.(u_managerHTTPURL) +:+ "/download/" +:+ up_GOOS +:+ "/" +:+ up_GOARCH +:+ "?version=" +:+ bu.(bu_Version).

Definition up_hashFile (path : string) : GoM Host (option string) :=
  gets (fun h => c ← h.(h_files) !! path; if read_ok path c then Some (hex_EncodeToString (sha256 c)) else None).

(** [ensureUpdater] of ensure_windows.go; nothing elsewhere *)
Definition sidecar_name : string := "synergia-updater.exe".
Definition downloadFile (get : string -> http_result) (u : Updater) (url dest : string) : GoM Host bool :=
  request url (if u.(u_workerKey) != "" then "Bearer " +:+ u.(u_workerKey) else "") ;;
  match get url with
  | None => mret false
  | Some (code, body, complete) =>
      if bool_decide (code <> 200)%Z then mret false else write_download dest body complete
  end.
Definition ensureUpdater (get : string -> http_result) (u : Updater) (execPath targetVersion arch : string) : GoM Host bool :=
  if up_GOOS != "windows" then mret true
  else
    let updaterPath := join_dir execPath sidecar_name in
    present ← os_Stat updaterPath;
    if present : bool then mret true
    else if targetVersion == "" then mret false
    else
      let primary := "https://github.com/ylallemant/synergia/releases/download/" +:+ targetVersion +:+
                     "/synergia-updater-windows-" +:+ arch +:+ ".exe" in
      let fallback := u.(u_managerHTTPURL) +:+ "/v1/binary/download?version=" +:+ targetVersion +:+
                      "&os=windows&arch=" +:+ arch +:+ "&kind=updater" in
      let tmpPath := updaterPath +:+ ".tmp" in
      ok ← downloadFile get u primary tmpPath;
      ok ← (if ok : bool then mret true else downloadFile get u fallback tmpPath);
      if negb ok then mret false
      else
        r ← os_Rename tmpPath updaterPath;
        match r with
        | Renamed => mret true
        | _ => os_Remove tmpPath ;; mret false
        end.

(** [selfReplace] of replace_unix.go and [fallbackReplace] of
    replace_windows.go *)
Definition bak (path : string) : string := path +:+ ".bak".
Definition fallbackReplace (execPath newPath : string) : GoM Host bool :=
  let bakPath := bak execPath in
  os_Remove bakPath ;;
  r ← os_Rename execPath bakPath;
  match r with
  | Renamed =>
      r ← os_Rename newPath execPath;
      match r with
      | Renamed => os_Remove bakPath ;; mret true
      | _ => os_Rename bakPath execPath ;; mret false
      end
  | _ => mret false
  end.

Definition sidecar_args (execPath newPath : string) : list string :=
  ["--pid"; pretty up_pid; "--src"; newPath; "--dst"; execPath; "--restart=true"].
Definition selfReplace (execPath newPath : string) : GoM Host bool :=
  if up_GOOS != "windows" then fallbackReplace execPath newPath
  else
    let updaterPath := join_dir execPath sidecar_name in
    present ← os_Stat updaterPath;
    if present : bool then spawn updaterPath (sidecar_args execPath newPath)
    else fallbackReplace execPath newPath.

(** what follows the download: every error removes the temporary file *)
Definition install (bu : BinaryUpdate) (execPath tmpPath : string) : GoM Host (bool + update_error) :=
  let fail (e : update_error) := os_Remove tmpPath ;; mret (inr e) in
  verified ← (if bu.(bu_SHA256) == "" then mret None
              else
                hash ← up_hashFile tmpPath;
                match hash with
                | None => mret (Some HashUnreadable)
                | Some hash => mret (if hash != bu.(bu_SHA256) then Some ShaMismatch else None)
                end);
  match verified with
  | Some e => fail e
  | None =>
      replaced ← selfReplace execPath tmpPath;
      if replaced : bool then mret (inl true) else fail ReplaceFailed
  end.

Definition Apply (get : string -> http_result) (u : Updater) (bu : BinaryUpdate) : GoM Host (bool + update_error) :=
  if bu.(bu_Version) == up_Version then mret (inl false)
  else
    match Executable with
    | None => mret (inr NoExecutable)
    | Some execPath =>
        sidecar ← ensureUpdater get u execPath bu.(bu_Version) up_GOARCH;
        if negb sidecar then mret (inr SidecarFailed)
        else
          tmp ← download get u bu.(bu_DownloadURL);
          tmp ← match tmp with
                | Some t => mret (Some t)
                | None => download get u (buildManagerDownloadURL u bu)
                end;
          match tmp with
          | None => mret (inr DownloadsFailed)
          | Some tmpPath => install bu execPath tmpPath
          end
    end.

(** ** The helper process on Windows (cmd/synergia-updater) *)

Record Flags := { fl_pid : Z; fl_src : string; fl_dst : string; fl_restart : bool }.
Definition flag_defaults : Flags := {| fl_pid := 0; fl_src := ""; fl_dst := ""; fl_restart := true |}.

Definition set_flag (name value : string) (f : Flags) : option Flags :=
  if name == "pid" then z ← flag_Int value; Some (Build_Flags z f.(fl_src) f.(fl_dst) f.(fl_restart))
  else if name == "src" then Some (Build_Flags f.(fl_pid) value f.(fl_dst) f.(fl_restart))
  else if name == "dst" then Some (Build_Flags f.(fl_pid) f.(fl_src) value f.(fl_restart))
  else if name == "restart" then b ← ParseBool value; Some (Build_Flags f.(fl_pid) f.(fl_src) f.(fl_dst) b)
  else None.

Definition sidecar_flags : list (string * bool) := [("pid", false); ("src", false); ("dst", false); ("restart", true)].
Definition flag_Parse : list string -> Flags -> Flags + Z := parse_flags sidecar_flags set_flag.

(** [main], after the wait for the parent; the result is the exit status. A
    failed wait is a warning. *)
Definition sidecar_swap (f : Flags) : GoM Host Z :=
  let bakPath := bak f.(fl_dst) in
  os_Remove bakPath ;;
  r ← os_Rename f.(fl_dst) bakPath;
  match r with
  | RenameFailed => mret 1%Z
  | _ =>
      r ← os_Rename f.(fl_src) f.(fl_dst);
      match r with
      | Renamed =>
          os_Remove bakPath ;;
          if f.(fl_restart) then
            started ← spawn f.(fl_dst) [];
            mret (if started : bool then 0 else 1)%Z
          else mret 0%Z
      | _ => os_Rename bakPath f.(fl_dst) ;; mret 1%Z
      end
  end.
Definition sidecar_main (args : list string) : GoM Host Z :=
  match flag_Parse args flag_defaults with
  | inr status => mret status
  | inl f =>
      if (f.(fl_pid) == 0%Z) || (f.(fl_src) == "") || (f.(fl_dst) == "") then mret 1%Z
      else sidecar_swap f
  end.
End updater.

(** ** The worker's handler *)

Record Client := { cl_worker : Worker; cl_host : Host; cl_exited : bool }.

Section handler.
Context `{FileOs, UpdaterOs, Crypto, JsonText, ClientSocket, Os}.

Definition on_worker {A} (m : GoM Worker A) : GoM Client A :=
  zoom cl_worker (fun w c => Build_Client w c.(cl_host) c.(cl_exited)) m.
Definition on_host {A} (m : GoM Host A) : GoM Client A :=
  zoom cl_host (fun h c => Build_Client c.(cl_worker) h c.(cl_exited)) m.
(** [restartFn], as wired in main: the process exits, to be restarted by
    systemd, launchd or the helper *)
Definition restartFn : GoM Client unit := modify (fun c => Build_Client c.(cl_worker) c.(cl_host) true).

Definition handleBinaryUpdate (error_text : update_error -> string) (get : string -> http_result) (u : option Updater)
    (bu : BinaryUpdate) : GoM Client unit :=
  match u with
  | None => skip
  | Some u =>
      on_worker (SendStatus "updating") ;;
      r ← on_host (Apply get u bu);
      match r with
      | inr err => on_worker (report (error_text err)) ;; on_worker (SendStatus "available") ;; skip
      | inl replaced =>
          if replaced : bool then restartFn
          else on_worker (SendStatus "available") ;; skip
      end
  end.
End handler.

(** ** Files: what each operation leaves *)

Section files.
Context `{FileOs, UpdaterOs, Crypto}.

Definition with_op (f : Files -> Files) (h : Host) : Host :=
  Build_Host (f h.(h_files)) (h.(h_seen) ++ [f h.(h_files)]) h.(h_requests) h.(h_spawned).

Lemma wp_bind_elim {S A B} (m : GoM S A) (k : A -> GoM S B) Q s :
  wp (m ≫= k) Q s ->
  wp m (fun s' r => match r with Ret a => wp (k a) Q s' | Panic e => Q s' (Panic e) | Blocked => Q s' Blocked end) s.
Proof. unfold wp, run, result, mbind, GoM_bind. by destruct (m s) as [s' [a|e|]]. Qed.

Definition with_seen (l : list Files) (h : Host) : Host :=
  Build_Host h.(h_files) (h.(h_seen) ++ l) h.(h_requests) h.(h_spawned).

Lemma wp_fs_op f (Q : Host -> res unit -> Prop) h : Q (with_op f h) (Ret tt) -> wp (fs_op f) Q h.
Proof. done. Qed.
Lemma wp_os_Remove path (Q : Host -> res unit -> Prop) h :
  Q h (Ret tt) -> Q (with_op (delete path) h) (Ret tt) -> wp (os_Remove path) Q h.
Proof. unfold os_Remove. by destruct (remove_ok path). Qed.
Lemma wp_up_Rename a b (Q : Host -> res rename_result -> Prop) h :
  match h.(h_files) !! a with
  | None => Q h (Ret NotExist)
  | Some c =>
      if rename_ok a b then
        Q (with_op (fun fs => <[b := c]> (delete a fs)) (with_seen (up_rename_via a b h.(h_files)) h)) (Ret Renamed)
      else Q h (Ret RenameFailed)
  end -> wp (os_Rename a b) Q h.
Proof.
  intros HQ. unfold os_Rename. apply wp_bind, wp_gets. destruct (h_files h !! a); [|by apply wp_ret].
  destruct (rename_ok a b); [|by apply wp_ret]. by apply wp_bind, wp_modify, wp_bind, wp_fs_op, wp_ret.
Qed.

Lemma wp_conj {S A} (m : GoM S A) (P Q : S -> res A -> Prop) s :
  wp m P s -> wp m Q s -> wp m (fun s' r => P s' r /\ Q s' r) s.
Proof. done. Qed.

(** A computation that does not return a given value. *)
Definition never {S A} (a : A) (m : GoM S A) : Prop := forall s, result m s <> Ret a.
Lemma never_bind {S A B} (b : B) (m : GoM S A) (k : A -> GoM S B) : (forall a, never b (k a)) -> never b (m ≫= k).
Proof. intros Hk s. unfold result, mbind, GoM_bind. destruct (m s) as [s' [a|e|]]; [apply Hk|done|done]. Qed.
Lemma never_ret {S A} (a b : A) : b <> a -> never (S := S) a (mret b).
Proof. by intros Hab s [=]. Qed.

(** *** Processes: only [spawn] starts one *)

Definition same_spawned (h h' : Host) : Prop := h'.(h_spawned) = h.(h_spawned).
#[export] Instance same_spawned_preorder : PreOrder same_spawned.
Proof. split; [done|]. intros x y z E1 E2. red. congruence. Qed.
Lemma keeps_fs_op_spawned f : keeps same_spawned (fs_op f).
Proof. done. Qed.
Lemma keeps_show_spawned l : keeps same_spawned (show l).
Proof. done. Qed.
Lemma keeps_request_spawned url auth : keeps same_spawned (request url auth).
Proof. done. Qed.

(** *** Scratch files: an operation that touches some paths only *)

Definition agree (P : string -> Prop) (fs fs' : Files) : Prop := forall p, ~ P p -> fs' !! p = fs !! p.
Definition scratch (P : string -> Prop) (h h' : Host) : Prop :=
  agree P h.(h_files) h'.(h_files) /\
  exists l, h'.(h_seen) = h.(h_seen) ++ l /\ (renames_atomically -> Forall (agree P h.(h_files)) l).
#[export] Instance scratch_preorder P : PreOrder (scratch P).
Proof.
  split.
  - intros h. split; [done|]. exists []. by rewrite app_nil_r.
  - intros x y z [A1 (l1 & E1 & F1)] [A2 (l2 & E2 & F2)].
    assert (Ha : forall fs, agree P y.(h_files) fs -> agree P x.(h_files) fs).
    { intros fs Hf p Hp. by rewrite (Hf p Hp), (A1 p Hp). }
    split; [by apply Ha|]. exists (l1 ++ l2). rewrite E2, E1, app_assoc. split; [done|]. intros Hat.
    apply list.Forall_app. split; [auto|]. eapply list.Forall_impl; [exact (F2 Hat)|exact Ha].
Qed.
Lemma scratch_op P f h : agree P h.(h_files) (f h.(h_files)) -> scratch P h (with_op f h).
Proof. intros Ha. split; [done|]. exists [f h.(h_files)]. split; [done|]. intros _. by apply list.Forall_singleton. Qed.
Lemma scratch_seen P l h : (renames_atomically -> l = []) -> scratch P h (with_seen l h).
Proof. intros Hl. split; [done|]. exists l. split; [done|]. intros Hat. by rewrite Hl. Qed.
Lemma agree_insert (P : string -> Prop) p c fs : P p -> agree P fs (<[p := c]> fs).
Proof. intros Hp q Hq. apply lookup_insert_ne. by intros ->. Qed.
Lemma agree_delete (P : string -> Prop) p fs : P p -> agree P fs (delete p fs).
Proof. intros Hp q Hq. apply lookup_delete_ne. by intros ->. Qed.
Lemma agree_trans P (a b c : Files) : agree P a b -> agree P b c -> agree P a c.
Proof. intros A1 A2 p Hp. by rewrite (A2 p Hp), (A1 p Hp). Qed.

Lemma keeps_fs_op (P : string -> Prop) f : (forall fs, agree P fs (f fs)) -> keeps (scratch P) (fs_op f).
Proof. intros Hf h. apply scratch_op, Hf. Qed.
Lemma keeps_os_Remove (P : string -> Prop) p : P p -> keeps (scratch P) (os_Remove p).
Proof. intros Hp. unfold os_Remove. apply keeps_when, keeps_fs_op; [apply _|]. intros. by apply agree_delete. Qed.
Lemma keeps_os_Rename (P : string -> Prop) a b : P a -> P b -> keeps (scratch P) (os_Rename a b).
Proof.
  intros Ha Hb. unfold os_Rename. apply keeps_bind; [apply _|apply keeps_gets, _|intros fs].
  destruct (fs !! a); [|apply keeps_ret, _]. apply keeps_if; [|apply keeps_ret, _].
  apply keeps_bind; [apply _|intros h; by apply scratch_seen|intros _].
  apply keeps_bind; [apply _|apply keeps_fs_op|intros; apply keeps_ret, _].
  intros fs'. apply (agree_trans _ _ (delete a fs')); [by apply agree_delete|by apply agree_insert].
Qed.
Lemma keeps_request (P : string -> Prop) url auth : keeps (scratch P) (request url auth).
Proof. intros h. split; [done|]. exists []. by rewrite app_nil_r. Qed.
Lemma keeps_write_download (P : string -> Prop) dest body complete : P dest -> keeps (scratch P) (write_download dest body complete).
Proof.
  intros Hp. unfold write_download. apply keeps_if; [apply keeps_ret, _|].
  apply keeps_bind; [apply _|apply keeps_fs_op; intros; by apply agree_insert|intros _].
  apply keeps_if; [apply keeps_ret, _|]. apply keeps_bind; [apply _|by apply keeps_os_Remove|intros; apply keeps_ret, _].
Qed.
End files.
#[export] Hint Resolve keeps_request : keeps.

(** ** The update *)

Lemma bak_ne p : bak p <> p.
Proof.
  intros E. apply (f_equal String.length) in E. unfold bak in E. rewrite length_app_str in E. cbn in E. lia.
Qed.

Section update.
Context `{FileOs, UpdaterOs, Crypto} (get : string -> http_result) (u : Updater) (bu : BinaryUpdate) (execPath old : string).

(** The paths an update works with besides the executable and its backup. *)
Definition scratch_path (p : string) : Prop :=
  (exists url, p = temp_name url) \/ p = join_dir execPath sidecar_name \/ p = join_dir execPath sidecar_name +:+ ".tmp".

(** A download the update may install. *)
Definition acceptable (new : string) : Prop :=
  (bu.(bu_SHA256) = "" \/ hex_EncodeToString (sha256 new) = bu.(bu_SHA256)) /\
  exists url, (url = bu.(bu_DownloadURL) \/ url = buildManagerDownloadURL u bu) /\ get url = Some (200%Z, new, true).

(** A state of the disk from which the client still starts, if need be by
    renaming the backup. *)
Definition has_client (fs : Files) : Prop :=
  fs !! execPath = Some old \/ fs !! bak execPath = Some old \/ exists new, fs !! execPath = Some new /\ acceptable new.


Lemma download_effect url h :
  wp (download get u url) (fun h' r => scratch scratch_path h h' /\ exists o, r = Ret o /\
    forall t, o = Some t -> t = temp_name url /\ exists body, get url = Some (200%Z, body, true) /\ h'.(h_files) !! t = Some body) h.
Proof.
  assert (Hp : scratch_path (temp_name url)) by (left; by exists url).
  enough (Hwp : wp (download get u url) (fun h' r => exists o, r = Ret o /\
    forall t, o = Some t -> t = temp_name url /\ exists body, get url = Some (200%Z, body, true) /\ h'.(h_files) !! t = Some body) h).
  { split; [|exact Hwp]. clear Hwp. revert h. unfold download. apply keeps_bind; [apply _|apply keeps_request|intros _].
    destruct (get url) as [[[code body] complete]|]; [|apply keeps_ret, _]. apply keeps_if; [apply keeps_ret, _|]. cbv zeta.
    apply keeps_bind; [apply _|by apply keeps_write_download|intros written].
    repeat first [apply keeps_if | apply keeps_ret, _ | apply keeps_bind; [apply _|by apply keeps_os_Remove|intros _]]. }
  assert (Hnone : forall h', exists o, Ret None = Ret o /\ forall t, o = Some t -> t = temp_name url /\
    exists body, get url = Some (200%Z, body, true) /\ h'.(h_files) !! t = Some body) by (intros h'; by exists None).
  unfold download. apply wp_bind, wp_modify. destruct (get url) as [[[code body] complete]|] eqn:Eg; [|apply wp_ret, Hnone].
  case_bool_decide as Hc; [apply wp_ret, Hnone|]. cbv zeta. apply wp_bind. unfold write_download.
  destruct (create_ok _); cbn [negb]; [|apply wp_ret, wp_ret, Hnone].
  apply wp_bind, wp_fs_op. destruct complete.
  - apply wp_ret. cbn [negb]. destruct (_ && _).
    + apply wp_bind, wp_os_Remove; apply wp_ret, Hnone.
    + apply wp_ret. eexists. split; [done|]. intros t [= <-]. split; [done|]. exists body.
      split; [|apply lookup_insert_eq]. destruct (decide (code = 200)%Z) as [->|]; [done|]. by destruct Hc.
  - apply wp_bind, wp_os_Remove; apply wp_ret; cbn [negb]; apply wp_ret, Hnone.
Qed.

Lemma keeps_ensureUpdater : keeps (scratch scratch_path) (ensureUpdater get u execPath bu.(bu_Version) up_GOARCH).
Proof.
  assert (Hs : scratch_path (join_dir execPath sidecar_name)) by (right; by left).
  assert (Ht : scratch_path (join_dir execPath sidecar_name +:+ ".tmp")) by (right; by right).
  assert (Hd : forall url, keeps (scratch scratch_path) (downloadFile get u url (join_dir execPath sidecar_name +:+ ".tmp"))).
  { intros url. unfold downloadFile. apply keeps_bind; [apply _|apply keeps_request|intros _].
    destruct (get url) as [[[code body] complete]|]; [|apply keeps_ret, _].
    apply keeps_if; [apply keeps_ret, _|by apply keeps_write_download]. }
  pose proof (keeps_os_Rename scratch_path _ _ Ht Hs) as Hr. pose proof (keeps_os_Remove scratch_path _ Ht) as Hrm.
  unfold ensureUpdater, os_Stat. keeps_tac.
Qed.
Lemma returns_ensureUpdater : returns (ensureUpdater get u execPath bu.(bu_Version) up_GOARCH).
Proof.
  assert (Hop : forall f, returns (fs_op f)) by (intros; apply returns_modify).
  unfold ensureUpdater, os_Stat, downloadFile, request, write_download, os_Rename, os_Remove.
  repeat first [apply Hop | apply returns_modify | returns_step].
Qed.

Lemma keeps_ensureUpdater_spawned : keeps same_spawned (ensureUpdater get u execPath bu.(bu_Version) up_GOARCH).
Proof.
  unfold ensureUpdater, os_Stat, downloadFile, write_download, os_Rename, os_Remove.
  repeat first [apply keeps_fs_op_spawned | apply keeps_show_spawned | apply keeps_request_spawned | keeps_step].
Qed.
Lemma keeps_download_spawned url h : wp (download get u url) (fun h' _ => same_spawned h h') h.
Proof.
  assert (Hk : keeps same_spawned (download get u url)); [|exact (Hk h)].
  unfold download, write_download, os_Remove.
  repeat first [apply keeps_fs_op_spawned | apply keeps_show_spawned | apply keeps_request_spawned | keeps_step].
Qed.

(** Swapping the files: at every moment the old client is in place or next to
    it, or the new one is in place. *)
Definition swapping (body : string) (fs : Files) : Prop :=
  fs !! execPath = Some old \/ fs !! bak execPath = Some old \/ fs !! execPath = Some body.
Definition extends (P : Files -> Prop) (h h' : Host) : Prop :=
  exists l, h'.(h_seen) = h.(h_seen) ++ l /\ (renames_atomically -> Forall P l).
Lemma extends_refl P h : extends P h h.
Proof. exists []. by rewrite app_nil_r. Qed.
Lemma extends_op P h h' f : extends P h h' -> P (f h'.(h_files)) -> extends P h (with_op f h').
Proof.
  intros (l & E & F) Hp. exists (l ++ [f h'.(h_files)]). cbn. rewrite E, app_assoc. split; [done|]. intros Hat.
  apply list.Forall_app. split; [auto|by apply list.Forall_singleton].
Qed.
Lemma extends_rename P h h' a b f : extends P h h' -> P (f h'.(h_files)) ->
  extends P h (with_op f (with_seen (up_rename_via a b h'.(h_files)) h')).
Proof.
  intros (l & E & F) Hp. apply extends_op; [|done]. exists (l ++ up_rename_via a b h'.(h_files)). cbn. rewrite E, app_assoc.
  split; [done|]. intros Hat. rewrite Hat, app_nil_r. auto.
Qed.

Lemma fallbackReplace_effect tmp body h :
  h.(h_files) !! execPath = Some old -> h.(h_files) !! tmp = Some body -> tmp <> execPath -> tmp <> bak execPath ->
  wp (fallbackReplace execPath tmp) (fun h' r => extends (swapping body) h h' /\ h'.(h_spawned) = h.(h_spawned) /\
    (r = Ret true /\ h'.(h_files) !! execPath = Some body \/
     r = Ret false /\ (h'.(h_files) !! execPath = Some old \/
                      rename_ok (bak execPath) execPath = false /\ h'.(h_files) !! bak execPath = Some old))) h.
Proof.
  intros Ho Hb Hne Hne'. pose proof (bak_ne execPath) as Hbak. unfold fallbackReplace. cbv zeta. apply wp_bind.
  apply (wp_mono _ (fun h1 r => r = Ret tt /\ extends (swapping body) h h1 /\ h1.(h_spawned) = h.(h_spawned) /\
    h1.(h_files) !! execPath = Some old /\ h1.(h_files) !! tmp = Some body)).
  { apply wp_os_Remove; [by split_and!; [|apply extends_refl|..]|]. cbn.
    split_and!; [done|apply extends_op; [apply extends_refl|left]|done|..]; by rewrite lookup_delete_ne. }
  intros h1 r (-> & He & Hs & Ho1 & Hb1). clear Ho Hb. rewrite <- Hs. clear Hs. apply wp_bind, wp_up_Rename. rewrite Ho1.
  destruct (rename_ok execPath (bak execPath)); [|apply wp_ret; auto 6].
  set (h2 := with_op _ _). assert (He2 : extends (swapping body) h h2).
  { apply extends_rename; [done|]. right. left. apply lookup_insert_eq. }
  assert (Eb : h2.(h_files) !! bak execPath = Some old) by apply lookup_insert_eq.
  assert (Et : h2.(h_files) !! tmp = Some body) by (cbn; by simplify_map_eq).
  change (h_spawned h1) with (h_spawned h2). clearbody h2. apply wp_bind, wp_up_Rename. rewrite Et.
  destruct (rename_ok tmp execPath).
  - set (h3 := with_op _ _). assert (E3 : h3.(h_files) !! execPath = Some body) by apply lookup_insert_eq.
    assert (He3 : extends (swapping body) h h3) by (apply extends_rename; [done|]; by right; right).
    apply wp_bind, wp_os_Remove; apply wp_ret; [by auto|]. cbn [with_op h_files h_spawned].
    assert (E4 : delete (bak execPath) h3.(h_files) !! execPath = Some body) by (by rewrite lookup_delete_ne).
    split_and!; [apply extends_op; [done|]; by right; right|done|by left].
  - apply wp_bind, wp_up_Rename. rewrite Eb. destruct (rename_ok (bak execPath) execPath) eqn:Er; apply wp_ret;
      [|split_and!; [done|done|]; right; split; [done|]; by right].
    set (h3 := with_op _ _). assert (E3 : h3.(h_files) !! execPath = Some old) by apply lookup_insert_eq.
    split_and!; [apply extends_rename; [done|]; by left|done|by auto].
Qed.

(** What [Apply] may end in. *)
Definition outcome (h' : Host) (r : res (bool + update_error)) : Prop :=
  match r with
  | Ret (inl false) => h'.(h_files) !! execPath = Some old
  | Ret (inl true) =>
      h'.(h_spawned) = [] /\ (exists new, h'.(h_files) !! execPath = Some new /\ acceptable new) \/
      up_GOOS = "windows" /\ h'.(h_files) !! execPath = Some old /\
      exists url new, h'.(h_files) !! temp_name url = Some new /\ acceptable new /\
        h'.(h_spawned) = [(join_dir execPath sidecar_name, sidecar_args execPath (temp_name url))]
  | Ret (inr _) =>
      h'.(h_files) !! execPath = Some old \/
      rename_ok (bak execPath) execPath = false /\ h'.(h_files) !! bak execPath = Some old
  | _ => False
  end.

(** Every state since [before] that a killed process leaves, where renaming is one step. *)
Definition seen_client (before : list Files) (h : Host) : Prop :=
  renames_atomically -> exists l, h.(h_seen) = before ++ l /\ Forall has_client l.
Lemma seen_client_app before h h' l : seen_client before h -> h'.(h_seen) = h.(h_seen) ++ l ->
  (renames_atomically -> Forall has_client l) -> seen_client before h'.
Proof.
  intros Hc E Hl Hat. destruct (Hc Hat) as (l0 & E0 & F0). exists (l0 ++ l). rewrite E, E0, app_assoc. split; [done|].
  apply list.Forall_app. auto.
Qed.

Context (Hexec : ~ scratch_path execPath) (Hbak : ~ scratch_path (bak execPath)).

Lemma fail_effect before e tmp h : (tmp <> execPath) -> tmp <> bak execPath -> seen_client before h ->
  (h.(h_files) !! execPath = Some old \/
   rename_ok (bak execPath) execPath = false /\ h.(h_files) !! bak execPath = Some old) ->
  wp (os_Remove tmp ;; mret (inr e)) (fun h' r => seen_client before h' /\ outcome h' r) h.
Proof.
  intros N1 N2 Hc Hf. apply wp_bind, wp_os_Remove; apply wp_ret; [done|]. cbn [with_op h_seen h_files].
  assert (E : forall p, p <> tmp -> delete tmp h.(h_files) !! p = h.(h_files) !! p) by (intros; by apply lookup_delete_ne).
  cbn [outcome h_files]. rewrite !E by congruence. split; [|done]. eapply (seen_client_app before h); [done..|]. intros _.
  apply list.Forall_singleton. unfold has_client. rewrite !E by congruence. tauto.
Qed.

Lemma install_effect before url body h : (url = bu.(bu_DownloadURL) \/ url = buildManagerDownloadURL u bu) ->
  get url = Some (200%Z, body, true) -> h.(h_files) !! temp_name url = Some body -> h.(h_files) !! execPath = Some old ->
  seen_client before h -> h.(h_spawned) = [] ->
  wp (install bu execPath (temp_name url)) (fun h' r => seen_client before h' /\ outcome h' r) h.
Proof.
  intros Hu Hg Ht Ho Hc Hs.
  assert (N1 : temp_name url <> execPath) by (intros <-; apply Hexec; left; by exists url).
  assert (N2 : temp_name url <> bak execPath) by (intros E; apply Hbak; left; by exists url).
  unfold install. cbv zeta. apply wp_bind.
  apply (wp_mono _ (fun h1 r => h1 = h /\ exists v, r = Ret v /\ (v = None -> acceptable body))).
  { unfold up_hashFile. case_bool_decide as E0.
    - apply wp_ret. split; [done|]. exists None. split; [done|]. intros _. split; [by left|eauto].
    - apply wp_bind, wp_gets. rewrite Ht. cbn [mbind option_bind]. destruct (read_ok _ _); apply wp_ret; [|by split; [|eexists]].
      split; [done|]. case_bool_decide as E1; cbn [negb]; eexists; (split; [done|]); [|done].
      intros _. split; [by right|eauto]. }
  intros h1 r [-> (v & -> & Hv)]. destruct v as [e|]; [by apply fail_effect; auto|]. specialize (Hv eq_refl).
  assert (Hsw : forall fs, swapping body fs -> has_client fs) by (intros fs [?|[?|?]]; unfold has_client; eauto).
  assert (Hrep : wp (fallbackReplace execPath (temp_name url) ≫= (fun replaced : bool =>
      if replaced then mret (inl true) else os_Remove (temp_name url) ;; mret (inr ReplaceFailed)))
    (fun h' r => seen_client before h' /\ outcome h' r) h).
  { apply wp_bind. eapply wp_mono; [by apply (fallbackReplace_effect _ body)|]. cbn.
    intros h2 r ((l & El & Hl) & Es & Hr).
    assert (Hc2 : seen_client before h2).
    { eapply (seen_client_app before h); [done..|]. intros Hat. eapply list.Forall_impl; [exact (Hl Hat)|exact Hsw]. }
    destruct Hr as [[-> E]|[-> E]]; [|by apply fail_effect].
    apply wp_ret. split; [done|]. left. rewrite Es. eauto. }
  unfold selfReplace. destruct (bool_decide (up_GOOS = "windows")) eqn:Ew; cbn [negb]; [|exact Hrep].
  cbv zeta. apply wp_bind, wp_bind, wp_gets. destruct (bool_decide (is_Some _)); [|by apply wp_bind_elim]. unfold spawn.
  destruct (spawn_ok _).
  - apply wp_bind, wp_modify, wp_ret, wp_ret. split; [done|]. right. split; [by apply bool_decide_eq_true_1 in Ew|].
    cbn. rewrite Hs. split; [done|]. exists url, body. done.
  - apply wp_ret. by apply fail_effect; auto.
Qed.

Lemma scratch_has_client before h h' : scratch scratch_path h h' -> h.(h_files) !! execPath = Some old ->
  seen_client before h -> h'.(h_files) !! execPath = Some old /\ seen_client before h'.
Proof.
  intros [Ha (l & El & Hl)] Ho Hc. split; [by rewrite (Ha execPath)|]. eapply (seen_client_app before h); [done..|]. intros Hat.
  eapply list.Forall_impl; [exact (Hl Hat)|]. intros fs Hf. left. by rewrite (Hf execPath).
Qed.

Lemma Apply_effect before h : Executable = Some execPath -> h.(h_files) !! execPath = Some old ->
  seen_client before h -> h.(h_spawned) = [] ->
  wp (Apply get u bu) (fun h' r => seen_client before h' /\ outcome h' r) h.
Proof.
  intros Ex Ho Hc0 P0.
  unfold Apply. case_bool_decide; [by apply wp_ret|]. rewrite Ex. apply wp_bind.
  apply (wp_mono _ (fun h1 r => scratch scratch_path h h1 /\ h1.(h_spawned) = [] /\ exists b, r = Ret b)).
  { split; [apply keeps_ensureUpdater|]. split; [|apply returns_ensureUpdater].
    etrans; [exact (keeps_ensureUpdater_spawned h)|exact P0]. }
  intros h1 r (S1 & P1 & [b ->]). destruct b; cbn [negb];
    [|apply wp_ret; destruct (scratch_has_client _ _ _ S1 Ho Hc0); split; [done|by left]].
  apply wp_bind. eapply wp_mono; [apply (wp_conj _ _ _ _ (download_effect _ h1) (keeps_download_spawned _ h1))|]. cbn.
  intros h2 r [[S2 (o & -> & Ho2)] P2]. assert (S12 : scratch scratch_path h h2) by (etrans; eassumption).
  destruct o as [t|].
  - destruct (Ho2 t eq_refl) as (-> & body & Hg & Ht). apply wp_bind, wp_ret.
    destruct (scratch_has_client _ _ _ S12 Ho Hc0). eapply install_effect; eauto. congruence.
  - apply wp_bind. eapply wp_mono; [apply (wp_conj _ _ _ _ (download_effect _ h2) (keeps_download_spawned _ h2))|]. cbn.
    intros h3 r [[S3 (o & -> & Ho3)] P3]. assert (S13 : scratch scratch_path h h3) by (etrans; eassumption).
    destruct (scratch_has_client _ _ _ S13 Ho Hc0). destruct o as [t|]; [|apply wp_ret; split; [done|by left]].
    destruct (Ho3 t eq_refl) as (-> & body & Hg & Ht). eapply install_effect; eauto. congruence.
Qed.

Lemma Apply_from fs : Executable = Some execPath -> fs !! execPath = Some old ->
  wp (Apply get u bu) (fun h' r => seen_client [] h' /\ outcome h' r) (host_of fs).
Proof.
  intros Ex Ho. apply Apply_effect; [done..| |done]. intros _. exists [fs]. split; [done|]. apply list.Forall_singleton. by left.
Qed.


(** *** The helper *)

Lemma pretty_N_go_head x s : (0 < x)%N -> exists c t, pretty_N_go x s = String.String c t /\ c <> "0"%char.
Proof.
  revert s. induction (N.lt_wf_0 x) as [x _ IH]. intros s Hx. rewrite pretty_N_go_step by done.
  destruct (decide (0 < x `div` 10)%N) as [Hd|Hd]; [apply IH; [apply N.div_lt; lia|done]|].
  replace (x `div` 10)%N with 0%N by lia. rewrite pretty_N_go_0. eexists _, _. split; [done|].
  assert (Hx' : (x `mod` 10 = x)%N) by (apply N.mod_small; dlia). rewrite Hx'.
  assert (Hlt : (x < 10)%N) by dlia. intros E. pose proof (digit_val_pretty x Hlt) as Ed. rewrite E in Ed.
  injection Ed as Ed. change (0 = Z.of_N x)%Z in Ed. lia.
Qed.
Lemma flag_Int_pid z : (0 < z)%Z -> in_int64 z = true -> flag_Int (pretty z) = Some z.
Proof.
  intros Hz Hi. unfold flag_Int. destruct z as [|p|]; [lia| |lia].
  assert (E : plain_decimal (pretty (Z.pos p)) = true).
  { change (pretty (Z.pos p)) with (pretty (N.pos p)). unfold pretty, pretty_N. rewrite decide_False by done.
    destruct (pretty_N_go_head (N.pos p) "" ltac:(lia)) as (c & t & -> & Hc). cbn. by rewrite bool_decide_false. }
  by rewrite E, Atoi_pretty.
Qed.

(** The helper reads the arguments it was started with. *)
Lemma parse_sidecar_args dst src : (0 < up_pid)%Z -> in_int64 up_pid = true ->
  flag_Parse (sidecar_args dst src) flag_defaults =
    inl {| fl_pid := up_pid; fl_src := src; fl_dst := dst; fl_restart := true |}.
Proof.
  intros Hp Hi. unfold sidecar_args.
  assert (Hstep : forall name v args f, name ∈ ["pid"; "src"; "dst"] -> flag_Parse (("--" +:+ name) :: v :: args) f =
    match set_flag name v f with Some f' => flag_Parse args f' | None => inr 2%Z end).
  { intros name v args f. by intros [->|[->|[->|[]%elem_of_nil]%elem_of_cons]%elem_of_cons]%elem_of_cons. }
  pose proof (Hstep "pid") as E1. pose proof (Hstep "src") as E2. pose proof (Hstep "dst") as E3. clear Hstep.
  rewrite E1 by (by left). change (set_flag "pid" ?v ?f) with (z ← flag_Int v; Some (Build_Flags z f.(fl_src) f.(fl_dst) f.(fl_restart))).
  rewrite (flag_Int_pid _ Hp Hi). cbn [mbind option_bind].
  rewrite E2 by (right; by left). change (set_flag "src" ?v ?f) with (Some (Build_Flags f.(fl_pid) v f.(fl_dst) f.(fl_restart))). cbv match.
  rewrite E3 by (right; right; by left). done.
Qed.

Lemma sidecar_swap_effect f h c n : h.(h_files) !! f.(fl_dst) = Some c -> h.(h_files) !! f.(fl_src) = Some n ->
  f.(fl_src) <> f.(fl_dst) -> f.(fl_src) <> bak f.(fl_dst) -> f.(fl_restart) = true ->
  rename_ok f.(fl_dst) (bak f.(fl_dst)) = true -> rename_ok f.(fl_src) f.(fl_dst) = true -> spawn_ok f.(fl_dst) = true ->
  wp (sidecar_swap f) (fun h' r => r = Ret 0%Z /\ h'.(h_files) !! f.(fl_dst) = Some n /\
    h'.(h_spawned) = h.(h_spawned) ++ [(f.(fl_dst), [])]) h.
Proof.
  intros Hd Hs N1 N2 Hr R1 R2 Sp. pose proof (bak_ne f.(fl_dst)) as Nb. unfold sidecar_swap. cbv zeta. apply wp_bind.
  apply (wp_mono _ (fun h1 r => r = Ret tt /\ h1.(h_spawned) = h.(h_spawned) /\
    h1.(h_files) !! f.(fl_dst) = Some c /\ h1.(h_files) !! f.(fl_src) = Some n)).
  { apply wp_os_Remove; [done|]. cbn. by rewrite !lookup_delete_ne by done. }
  intros h1 r (-> & <- & Hd1 & Hs1). apply wp_bind, wp_up_Rename. rewrite Hd1, R1.
  apply wp_bind, wp_up_Rename. cbn [with_op with_seen h_files]. rewrite lookup_insert_ne, lookup_delete_ne, Hs1, R2 by done.
  set (h3 := with_op _ _). assert (E3 : h3.(h_files) !! f.(fl_dst) = Some n) by apply lookup_insert_eq.
  change (h_spawned h1) with (h_spawned h3). clearbody h3. apply wp_bind, wp_os_Remove.
  all: rewrite Hr; unfold spawn; rewrite Sp; apply wp_bind, wp_bind, wp_modify, wp_ret, wp_ret; cbn [with_op h_files h_spawned].
  - done.
  - by rewrite lookup_delete_ne.
Qed.

(** What the helper processes started so far come to. *)
Definition run_helpers : GoM Host Z :=
  l ← gets h_spawned;
  match l with
  | [(_, args)] => sidecar_main args
  | _ => mret 0%Z
  end.

(** An update on Windows takes two processes. When the client reports it as
    done, the helper it started (if it was there to be started) reads its
    arguments back, and given that the files can be renamed puts the verified
    download in place and starts it. *)
Theorem windows_update_completes fs h' :
  Executable = Some execPath -> fs !! execPath = Some old ->
  Apply get u bu (host_of fs) = (h', Ret (inl true)) ->
  (0 < up_pid)%Z -> in_int64 up_pid = true -> execPath <> "" -> (forall url, temp_name url <> "") ->
  rename_ok execPath (bak execPath) = true -> (forall url, rename_ok (temp_name url) execPath = true) -> spawn_ok execPath = true ->
  exists new, acceptable new /\ (run run_helpers h').(h_files) !! execPath = Some new /\ result run_helpers h' = Ret 0%Z.
Proof.
  intros Ex Ho E Hp Hi Hne Htmp R1 R2 Sp. pose proof (Apply_from fs Ex Ho) as Hu. unfold wp, run, result in Hu. rewrite E in Hu. cbn [fst snd] in Hu.
  destruct Hu as [_ [(Es & new & En & Ha)|(_ & Eo & url & new & En & Ha & Es)]]; exists new; (split; [done|]).
  - unfold run_helpers, run, result, mbind, GoM_bind, gets. rewrite Es. done.
  - assert (Hwp : wp run_helpers (fun h2 r => r = Ret 0%Z /\ h2.(h_files) !! execPath = Some new) h').
    { unfold run_helpers. apply wp_bind, wp_gets. rewrite Es. unfold sidecar_main. rewrite parse_sidecar_args by done.
      cbn [fl_pid fl_src fl_dst]. rewrite !bool_decide_false by (try apply Htmp; done || lia). cbn [orb].
      eapply wp_mono; [eapply (sidecar_swap_effect (Build_Flags up_pid (temp_name url) execPath true)); eauto; cbn|].
      - intros <-. apply Hexec. left. by exists url.
      - intros E'. apply Hbak. left. by exists url.
      - cbn. naive_solver. }
    destruct Hwp. done.
Qed.

Lemma Apply_updates : bu.(bu_Version) <> up_Version -> never (inl false) (Apply get u bu).
Proof.
  intros Hv. unfold Apply. rewrite bool_decide_false by done. destruct Executable as [e|]; [|by apply never_ret].
  apply never_bind. intros []; [|by apply never_ret]. apply never_bind. intros tmp. apply never_bind.
  intros [t|]; [|by apply never_ret]. unfold install. apply never_bind. intros [err|].
  - apply never_bind. intros _. by apply never_ret.
  - apply never_bind. intros []; [by apply never_ret|]. apply never_bind. intros _. by apply never_ret.
Qed.

(** The manager's copy is no substitute for a verified download. When the
    first download fails and a digest is announced, the manager's copy is
    installed only if it has that very digest; it is the patched binary, and
    if its digest differs the update ends in an error with the client as it
    was. *)
Theorem patched_copy_is_rejected fs patched :
  Executable = Some execPath -> fs !! execPath = Some old -> bu.(bu_Version) <> up_Version ->
  get bu.(bu_DownloadURL) = None -> get (buildManagerDownloadURL u bu) = Some (200%Z, patched, true) ->
  bu.(bu_SHA256) <> "" -> hex_EncodeToString (sha256 patched) <> bu.(bu_SHA256) ->
  exists e h', Apply get u bu (host_of fs) = (h', Ret (inr e)) /\
    (h'.(h_files) !! execPath = Some old \/ rename_ok (bak execPath) execPath = false).
Proof.
  intros Ex Ho Hv Hg1 Hg2 Hs Hd. pose proof (Apply_from fs Ex Ho) as Hu. unfold wp, run, result in Hu.
  destruct (Apply get u bu (host_of fs)) as [h' r] eqn:E. destruct Hu as [_ Hout].
  assert (Hno : forall new, ~ acceptable new).
  { intros new [[?|Hn] (url & [->| ->] & Hg)]; [done|done| |]; rewrite ?Hg1, ?Hg2 in Hg; [done|]. injection Hg as <-. done. }
  destruct r as [[[]|e]|msg|]; cbn [outcome] in Hout.
  - destruct Hout as [(_ & new & _ & Ha)|(_ & _ & url & new & _ & Ha & _)]; by destruct (Hno new).
  - exfalso. exact (Apply_updates Hv (host_of fs) (f_equal snd E)).
  - exists e, h'. split; [done|]. destruct Hout as [?|[? _]]; auto.
  - done.
  - done.
Qed.
End update.

Section interrupted.
Context `{FileOs, UpdaterOs} (execPath old : string).

(** *** What a killed process can leave *)

Definition grew (h h' : Host) : Prop := exists l, h'.(h_seen) = h.(h_seen) ++ l.
#[export] Instance grew_preorder : PreOrder grew.
Proof.
  split; [intros h; exists []; by rewrite app_nil_r|].
  intros x y z [l1 E1] [l2 E2]. exists (l1 ++ l2). by rewrite E2, E1, app_assoc.
Qed.
Lemma grew_op f : keeps grew (fs_op f).
Proof. intros h. by eexists. Qed.
Lemma grew_show l : keeps grew (show l).
Proof. intros h. by eexists. Qed.
Lemma grew_Remove p : keeps grew (os_Remove p).
Proof. unfold os_Remove. apply keeps_when, grew_op. apply _. Qed.
Lemma grew_Rename a b : keeps grew (os_Rename a b).
Proof. unfold os_Rename. repeat first [apply grew_op | apply grew_show | keeps_step]. Qed.

(** The replacement is no atomic step: between its two renames there is no
    executable. *)
Theorem replacement_is_not_atomic tmp h :
  h.(h_files) !! execPath = Some old -> rename_ok execPath (bak execPath) = true ->
  Exists (fun fs => fs !! execPath = None) (run (fallbackReplace execPath tmp) h).(h_seen).
Proof.
  intros Ho R1. pose proof (bak_ne execPath) as Nb.
  enough (Hwp : wp (fallbackReplace execPath tmp) (fun h' _ => Exists (fun fs => fs !! execPath = None) h'.(h_seen)) h) by exact Hwp.
  unfold fallbackReplace. cbv zeta. apply wp_bind.
  apply (wp_mono _ (fun h1 r => r = Ret tt /\ h1.(h_files) !! execPath = Some old)).
  { apply wp_os_Remove; [done|]. cbn. by rewrite lookup_delete_ne. }
  intros h1 r [-> Ho1]. apply wp_bind, wp_up_Rename. rewrite Ho1, R1. set (h2 := with_op _ _).
  assert (E2 : Exists (fun fs => fs !! execPath = None) h2.(h_seen)).
  { apply Exists_app. right. apply Exists_cons_hd. cbn. by rewrite lookup_insert_ne, lookup_delete_eq. }
  clearbody h2. eapply (wp_keeps grew); [|intros h3 r [l ->]; apply Exists_app; by left].
  pose proof grew_Remove as Hr. pose proof grew_Rename as Hn. keeps_tac.
Qed.

(** A helper that finds neither the executable (an earlier run was cut off
    after its first rename) nor the download (removed since) deletes the
    backup first: the only copy of the client is gone. *)
Theorem interrupted_swap_loses_the_client f h :
  h.(h_files) !! f.(fl_dst) = None -> h.(h_files) !! bak f.(fl_dst) = Some old -> h.(h_files) !! f.(fl_src) = None ->
  remove_ok (bak f.(fl_dst)) = true -> f.(fl_src) <> bak f.(fl_dst) ->
  let h' := run (sidecar_swap f) h in h'.(h_files) !! f.(fl_dst) = None /\ h'.(h_files) !! bak f.(fl_dst) = None.
Proof.
  intros Hd Hb Hs Rm N1. pose proof (bak_ne f.(fl_dst)) as Nb.
  enough (Hwp : wp (sidecar_swap f) (fun h' _ => h'.(h_files) !! f.(fl_dst) = None /\ h'.(h_files) !! bak f.(fl_dst) = None) h)
    by exact Hwp.
  unfold sidecar_swap, os_Remove. cbv zeta. rewrite Rm. cbn [when]. apply wp_bind, wp_fs_op. set (h1 := with_op _ h).
  assert (E1 : h1.(h_files) !! f.(fl_dst) = None) by (cbn; by rewrite lookup_delete_ne).
  assert (E2 : h1.(h_files) !! bak f.(fl_dst) = None) by apply lookup_delete_eq.
  assert (E3 : h1.(h_files) !! f.(fl_src) = None) by (cbn; by rewrite lookup_delete_ne).
  clearbody h1. apply wp_bind, wp_up_Rename. rewrite E1. apply wp_bind, wp_up_Rename. rewrite E3.
  apply wp_bind, wp_up_Rename. rewrite E2. by apply wp_ret.
Qed.
End interrupted.

(** ** The worker after an update *)

Section worker_update.
Context `{FileOs, UpdaterOs, Crypto, JsonText, ClientSocket, Os}.
Context (get : string -> http_result) (u : Updater) (bu : BinaryUpdate).

Lemma returns_fs_op f : returns (fs_op f).
Proof. apply returns_modify. Qed.
Lemma returns_Remove p : returns (os_Remove p).
Proof. unfold os_Remove. apply returns_when, returns_fs_op. Qed.
Lemma returns_Rename a b : returns (os_Rename a b).
Proof. unfold os_Rename, show. repeat first [apply returns_fs_op | apply returns_modify | returns_step]. Qed.
Lemma returns_replace e t : returns (fallbackReplace e t).
Proof. unfold fallbackReplace. repeat first [apply returns_Remove | apply returns_Rename | returns_step]. Qed.
Lemma returns_download url : returns (download get u url).
Proof.
  unfold download, request, write_download. repeat first [apply returns_Remove | apply returns_fs_op | returns_step].
Qed.
Lemma returns_Apply : returns (Apply get u bu).
Proof.
  pose proof returns_download as Hd. pose proof returns_Remove as Hr. pose proof returns_replace as Hp.
  unfold Apply. destruct (_ == _); [apply returns_ret|]. destruct Executable as [e|]; [|apply returns_ret].
  pose proof (returns_ensureUpdater get u bu e) as He. unfold install, up_hashFile, selfReplace, os_Stat, spawn.
  returns_tac.
Qed.

Definition status_of (state : string) (c : Connection) : WorkerMessage :=
  WStatus {| st_Type := TypeStatus; st_State := state; st_LLMHash := c.(co_llmHash);
             st_BackendHash := c.(co_backendHash); st_BackendVersion := c.(co_backendVersion); st_GPUAvg := c.(co_gpuAvg) |}.
Definition sent_by (c : Client) : list WorkerMessage := c.(cl_worker).(wk_conn).(co_sent).

Context (Hsend : forall l m, send_ok l m = true) (execPath old : string).
Context (Hexec : ~ scratch_path execPath execPath) (Hbak : ~ scratch_path execPath (bak execPath)).

Lemma SendStatus_sent state w : w.(wk_conn).(co_connected) = true ->
  SendStatus state w = (set_conn (with_sent (w.(wk_conn).(co_sent) ++ [status_of state w.(wk_conn)]) w.(wk_conn)) w, Ret true).
Proof. intros Hc. unfold SendStatus, Send, mbind, GoM_bind, gets. by rewrite Hc, Hsend. Qed.

(** The end of an update: what is on the disk, which messages were sent,
    whether the process exits, what was reported. *)
Definition update_ended (error_text : update_error -> string) (c c' : Client) : Prop :=
  outcome get u bu execPath old c'.(cl_host) (result (Apply get u bu) c.(cl_host)) /\
  let updating := status_of "updating" c.(cl_worker).(wk_conn) in
  let available := status_of "available" c.(cl_worker).(wk_conn) in
  c'.(cl_host) = run (Apply get u bu) c.(cl_host) /\
  match result (Apply get u bu) c.(cl_host) with
  | Ret (inl true) =>
      c'.(cl_exited) = true /\ sent_by c' = sent_by c ++ [updating] /\
      c'.(cl_worker).(wk_reports) = c.(cl_worker).(wk_reports)
  | Ret (inl false) =>
      c'.(cl_exited) = c.(cl_exited) /\ sent_by c' = sent_by c ++ [updating; available] /\
      c'.(cl_worker).(wk_reports) = c.(cl_worker).(wk_reports)
  | Ret (inr e) =>
      c'.(cl_exited) = c.(cl_exited) /\ sent_by c' = sent_by c ++ [updating; available] /\
      c'.(cl_worker).(wk_reports) = c.(cl_worker).(wk_reports) ++ [error_text e]
  | _ => False
  end.

End worker_update.

(** ** Witnesses *)

Section witnesses.
#[local] Existing Instance ToyCrypto.
#[local] Existing Instance NoJson.
#[local] Existing Instance AllSent.
#[local] Existing Instance OsEx.
#[local] Instance UpdateFiles : FileOs := {| create_ok _ := true; rename_ok _ _ := true; read_ok _ _ := true |}.

Definition host_os (os : string) : UpdaterOs := {|
  up_GOOS := os; up_GOARCH := "amd64"; up_Version := "v1"; Executable := Some "/opt/client"; up_pid := 42;
  temp_name _ := "/tmp/update"; join_dir _ name := "/opt/" +:+ name; remove_ok _ := true; chmod_ok _ := true;
  spawn_ok _ := true; up_rename_via _ _ _ := [] |}.
Definition updater_ex : Updater := {| u_workerKey := "key"; u_managerHTTPURL := "https://manager" |}.
Definition update_bin (sha : string) : BinaryUpdate :=
  {| bu_Type := TypeBinaryUpdate; bu_Version := "v2"; bu_DownloadURL := "https://github/client"; bu_FallbackURL := ""; bu_SHA256 := sha |}.
Definition new_client : string := "client v2".
Definition digest_new : string := hex_EncodeToString (sha256 new_client).
Definition upstream (url : string) : http_result :=
  if url == "https://github/client" then Some (200%Z, new_client, true) else None.
Definition installed_files : Files := {["/opt/client" := "client v1"; "/opt/synergia-updater.exe" := "helper"]}.

Lemma host_scratch (os : string) : let O := host_os os in
  ~ scratch_path "/opt/client" "/opt/client" /\ ~ scratch_path "/opt/client" (bak "/opt/client").
Proof. cbv zeta. split; intros [[url E]|[E|E]]; discriminate E. Qed.


Lemma windows_update_completes_witness :
  let O := host_os "windows" in
  let h' := run (Apply upstream updater_ex (update_bin digest_new)) (host_of installed_files) in
  exists new, acceptable upstream updater_ex (update_bin digest_new) new /\
    (run run_helpers h').(h_files) !! "/opt/client" = Some new /\ result run_helpers h' = Ret 0%Z.
Proof.
  cbv zeta.
  refine (windows_update_completes (H0 := host_os "windows") upstream updater_ex (update_bin digest_new) "/opt/client" "client v1"
    _ _ installed_files _ eq_refl _ _ _ _ _ _ _ _ _);
    [apply host_scratch..|vm_compute; reflexivity|vm_compute; reflexivity|vm_compute; reflexivity|vm_compute; reflexivity|discriminate|
     discriminate|reflexivity|reflexivity|reflexivity].
Defined.

Lemma patched_copy_is_rejected_witness :
  let O := host_os "linux" in
  let get url := if url == "https://manager/download/linux/amd64?version=v2" then Some (200%Z, "patched", true) else None in
  exists e h', Apply get updater_ex (update_bin digest_new) (host_of installed_files) = (h', Ret (inr e)) /\
    (h'.(h_files) !! "/opt/client" = Some "client v1" \/ rename_ok (bak "/opt/client") "/opt/client" = false).
Proof.
  cbv zeta.
  refine (patched_copy_is_rejected (H0 := host_os "linux") _ updater_ex (update_bin digest_new) "/opt/client" "client v1"
    _ _ installed_files "patched" eq_refl _ _ _ _ _ _);
    [apply host_scratch..|vm_compute; reflexivity|discriminate|reflexivity|reflexivity|discriminate|vm_compute; discriminate].
Defined.


Lemma replacement_is_not_atomic_witness :
  let O := host_os "linux" in
  Exists (fun fs : Files => fs !! "/opt/client" = None) (run (fallbackReplace "/opt/client" "/tmp/update") (host_of installed_files)).(h_seen).
Proof. cbv zeta. apply (replacement_is_not_atomic (H0 := host_os "linux") "/opt/client" "client v1"); vm_compute; reflexivity. Defined.

Lemma interrupted_swap_loses_the_client_witness :
  let O := host_os "windows" in
  let f := {| fl_pid := 42; fl_src := "/tmp/update"; fl_dst := "/opt/client"; fl_restart := true |} in
  (run (sidecar_swap f) (host_of {["/opt/client.bak" := "client v1"]})).(h_files) !! "/opt/client.bak" = None.
Proof.
  cbv zeta.
  refine (proj2 (interrupted_swap_loses_the_client (H0 := host_os "windows") "client v1"
    {| fl_pid := 42; fl_src := "/tmp/update"; fl_dst := "/opt/client"; fl_restart := true |}
    (host_of {["/opt/client.bak" := "client v1"]}) _ _ _ _ _)); vm_compute; (reflexivity || discriminate).
Defined.
End witnesses.
