(* ===== verification/WorkerLoop.v ===== *)
(** * The loop of the worker (worker.go: Run, startDownload, handleModelUpdate)

    The loop takes one message at a time from the channels of the connection and
    of the GPU monitor. A model update is applied by a goroutine of its own,
    which a later update cancels: the steps of the loop and of these downloads
    interleave. *)

From S2P Require Import Prelude GoStd Json Protocol Http GpuMonitor ClientState Backend Files Downloads Worker Connection Updater.

(** A goroutine of applyModelUpdate: it retries the download, then installs. *)
Inductive phase := Fetching | Fetched (modelPath : string).
Record goroutine := { gr_update : ModelUpdate; gr_phase : phase; gr_cancelled : bool }.
Definition set_phase (p : phase) (g : goroutine) : goroutine :=
  {| gr_update := g.(gr_update); gr_phase := p; gr_cancelled := g.(gr_cancelled) |}.
Definition set_cancelled (g : goroutine) : goroutine :=
  {| gr_update := g.(gr_update); gr_phase := g.(gr_phase); gr_cancelled := true |}.

Record Loop := {
  lp_receiver : Receiver;
  lp_downloads : gmap nat goroutine;       (* the goroutines that have not ended *)
  lp_cancelModelDL : option nat;           (* which of them the stored CancelFunc cancels *)
  lp_started : nat;                        (* how many were started *)
  lp_host : Host;
  lp_exited : bool;                        (* os.Exit *)
}.
Definition set_receiver (r : Receiver) (l : Loop) : Loop :=
  Build_Loop r l.(lp_downloads) l.(lp_cancelModelDL) l.(lp_started) l.(lp_host) l.(lp_exited).
Definition set_downloads (d : gmap nat goroutine) (l : Loop) : Loop :=
  Build_Loop l.(lp_receiver) d l.(lp_cancelModelDL) l.(lp_started) l.(lp_host) l.(lp_exited).
Definition lp_worker (l : Loop) : Worker := l.(lp_receiver).(rc_worker).
Definition set_lp_worker (w : Worker) (l : Loop) : Loop := set_receiver (Connection.set_worker w l.(lp_receiver)) l.
Definition lp_client (l : Loop) : Client :=
  {| cl_worker := lp_worker l; cl_host := l.(lp_host); cl_exited := l.(lp_exited) |}.
Definition set_lp_client (c : Client) (l : Loop) : Loop :=
  Build_Loop (Connection.set_worker c.(cl_worker) l.(lp_receiver)) l.(lp_downloads) l.(lp_cancelModelDL) l.(lp_started)
    c.(cl_host) c.(cl_exited).

(** A receive: [None] when the channel is empty. *)
Definition recv {A} (get : Receiver -> list A) (set : list A -> Receiver -> Receiver) : GoM Loop (option A) :=
  r ← gets lp_receiver;
  match get r with
  | [] => mret None
  | x :: ch => modify (set_receiver (set ch r)) ;; mret (Some x)
  end.

(** What the loop takes next, with what the steps that wait are answered, and
    the progress of the download that was started as the [id]-th. *)
Inductive loop_event :=
  | TakeUnit (accepted : bool) (resp : llm_response) (ms deadline : Z) (ticks : list (option Z * Z))
  | TakeModelUpdate
  | TakeBinaryUpdate (get : string -> http_result)
  | TakeBackendUpdate
  | TakeStateChange
  | DownloadStep (id : nat) (answer : fetched).

Section loop.
Context `{FileOs, UpdaterOs, Crypto, JsonText, ClientSocket, Os}.
Context (error_text : update_error -> string) (u : option Updater).

Definition in_worker {A} (m : GoM Worker A) : GoM Loop A := zoom lp_worker set_lp_worker m.

Definition startDownload (mu : ModelUpdate) : GoM Loop unit :=
  modify (fun l =>
    let others := match l.(lp_cancelModelDL) with Some i => alter set_cancelled i l.(lp_downloads) | None => l.(lp_downloads) end in
    Build_Loop l.(lp_receiver)
      (<[l.(lp_started) := {| gr_update := mu; gr_phase := Fetching; gr_cancelled := false |}]> others)
      (Some l.(lp_started)) (S l.(lp_started)) l.(lp_host) l.(lp_exited)).
Definition handleModelUpdate (mu : ModelUpdate) : GoM Loop unit :=
  in_worker (SendStatus "updating") ;;
  startDownload mu.

Definition set_download (id : nat) (g : option goroutine) : GoM Loop unit :=
  modify (fun l => set_downloads (partial_alter (fun _ => g) id l.(lp_downloads)) l).

(** One attempt, or the installation. A cancelled download makes no attempt any
    more, but the one under way may still come to its end. *)
Definition download_step (id : nat) (answer : fetched) : GoM Loop unit :=
  gs ← gets lp_downloads;
  match gs !! id with
  | None => skip
  | Some g =>
      let mu := g.(gr_update) in
      match g.(gr_phase) with
      | Fetched modelPath => set_download id None ;; in_worker (install_model mu modelPath)
      | Fetching =>
          w ← gets lp_worker;
          if no_download_config mu w then set_download id None ;; in_worker (trust_update mu)
          else if g.(gr_cancelled) then
            let modelPath := dest_path w mu.(mu_Filename) in
            match answer with
            | NotFetched => set_download id None
            | BrokenOff remains => in_worker (modify (leave_temporary modelPath remains)) ;; set_download id None
            | Whole content =>
                in_worker (modify (rename_temporary modelPath content)) ;;
                set_download id (Some (set_phase (Fetched modelPath) g))
            end
          else
            path ← in_worker (downloadModel mu.(mu_Filename) answer);
            match path with
            | Some modelPath => set_download id (Some (set_phase (Fetched modelPath) g))
            | None => skip
            end
      end
  end.

Definition take_state_change : GoM Loop unit :=
  change ← in_worker (on_monitor recv_change);
  match change with Some change => in_worker (handleStateChange change) | None => skip end.

Definition exec_loop (e : loop_event) : GoM Loop unit :=
  l ← gets id;
  if l.(lp_exited) then skip else
  match e with
  | TakeUnit accepted resp ms deadline ticks =>
      wu ← recv rc_WorkUnitCh set_WorkUnitCh;
      match wu with Some wu => in_worker (process accepted wu resp ms deadline ticks) | None => skip end
  | TakeModelUpdate =>
      mu ← recv rc_ModelUpdateCh set_ModelUpdateCh;
      match mu with Some mu => handleModelUpdate mu | None => skip end
  | TakeBinaryUpdate get =>
      bu ← recv rc_BinaryUpdateCh set_BinaryUpdateCh;
      match bu with Some bu => zoom lp_client set_lp_client (handleBinaryUpdate error_text get u bu) | None => skip end
  | TakeBackendUpdate =>
      bu ← recv rc_BackendUpdateCh set_BackendUpdateCh;
      match bu with Some bu => in_worker (handleBackendUpdate bu) | None => skip end
  | TakeStateChange => take_state_change
  | DownloadStep id answer => download_step id answer
  end.
Definition exec_loops (es : list loop_event) : GoM Loop unit := foreach es exec_loop.
End loop.

(** Before the loop starts. *)
Definition loop_of (r : Receiver) (fs : Files) : Loop :=
  Build_Loop r ∅ None 0 (host_of fs) false.

(** ** Answers *)

Section answers.
Context `{FileOs, UpdaterOs, Crypto, JsonText, ClientSocket, Os}.
Context (error_text : update_error -> string) (u : option Updater).

(** The unit an event takes from the channel. *)
Definition unit_taken (e : loop_event) (l : Loop) : option WorkUnit :=
  match e with
  | TakeUnit _ _ _ _ _ => if l.(lp_exited) then None else head l.(lp_receiver).(rc_WorkUnitCh)
  | _ => None
  end.
Fixpoint units_taken (es : list loop_event) (l : Loop) : list WorkUnit :=
  match es with
  | [] => []
  | e :: es => option_list (unit_taken e l) ++ units_taken es (run (exec_loop error_text u e) l)
  end.

(** Sends nothing that answers the unit [id]. *)
Definition no_reply (id : string) (w w' : Worker) : Prop :=
  w'.(wk_conn).(co_connected) = w.(wk_conn).(co_connected) /\
  exists new, w'.(wk_conn).(co_sent) = w.(wk_conn).(co_sent) ++ new /\ replies id new = 0.
#[export] Instance no_reply_preorder id : PreOrder (no_reply id).
Proof.
  split; [intros w; split; [done|]; exists []; by rewrite app_nil_r|].
  intros x y z [C1 (l & E & N)] [C2 (l' & E' & N')]. split; [congruence|]. exists (l ++ l').
  by rewrite E', E, app_assoc, replies_app, N, N'.
Qed.
Lemma no_reply_same id w w' : w'.(wk_conn).(co_connected) = w.(wk_conn).(co_connected) ->
  w'.(wk_conn).(co_sent) = w.(wk_conn).(co_sent) -> no_reply id w w'.
Proof. intros C E. split; [done|]. exists []. by rewrite app_nil_r. Qed.
Lemma no_reply_modify id f : (forall w, (f w).(wk_conn).(co_connected) = w.(wk_conn).(co_connected)) ->
  (forall w, (f w).(wk_conn).(co_sent) = w.(wk_conn).(co_sent)) -> keeps (no_reply id) (modify f).
Proof. intros C E. apply keeps_modify. intros w. by apply no_reply_same. Qed.
Lemma no_reply_Send id m : is_reply id m = false -> keeps (no_reply id) (Send m).
Proof.
  intros Hm w. unfold run, Send. case_match; [|by apply no_reply_same]. split; [done|]. exists [m].
  split; [done|]. unfold replies. cbn. by rewrite Hm.
Qed.
Lemma no_reply_SendStatus id st : keeps (no_reply id) (SendStatus st).
Proof. unfold SendStatus. apply keeps_bind; [apply _|apply keeps_gets, _|]. intros c. by apply no_reply_Send. Qed.
Lemma no_reply_report id msg : keeps (no_reply id) (report msg).
Proof. by apply no_reply_modify. Qed.
Lemma no_reply_slice id s : keeps (no_reply id) (slice_hash s).
Proof. unfold slice_hash. keeps_tac. Qed.
Lemma no_reply_llmHash id h : keeps (no_reply id) (on_llmHash h).
Proof. by apply no_reply_modify. Qed.
Lemma no_reply_restart id p ps : keeps (no_reply id) (restartLLM p ps).
Proof.
  unfold restartLLM. apply keeps_bind; [apply _|apply keeps_gets, _|]. intros w.
  destruct w.(wk_backend) as [b|]; [|apply keeps_ret, _]. destruct (Start _ _ _ b) as [b' r].
  apply keeps_bind; [apply _|by apply no_reply_modify|]. intros _. apply keeps_ret, _.
Qed.
Hint Resolve no_reply_SendStatus no_reply_report no_reply_slice no_reply_llmHash no_reply_restart : keeps.
Ltac no_reply_tac := repeat first [by apply no_reply_modify | by apply no_reply_Send | keeps_step].

Lemma no_reply_install id mu path : keeps (no_reply id) (install_model mu path).
Proof. unfold install_model, SendLLMHashReport. no_reply_tac. Qed.
Lemma no_reply_trust id mu : keeps (no_reply id) (trust_update mu).
Proof. unfold trust_update, SendLLMHashReport. no_reply_tac. Qed.
Lemma no_reply_download id filename answer : keeps (no_reply id) (downloadModel filename answer).
Proof. unfold downloadModel. no_reply_tac. Qed.
Lemma no_reply_backend id bu : keeps (no_reply id) (handleBackendUpdate bu).
Proof.
  unfold handleBackendUpdate. apply keeps_bind; [apply _|apply keeps_gets, _|]. intros w.
  destruct w.(wk_backend) as [b|]; [|apply keeps_ret, _]. apply keeps_bind; [apply _|keeps_tac|]. intros _.
  destruct (Backend.Apply bu b) as [b' r]. apply keeps_bind; [apply _|by apply no_reply_modify|]. intros _.
  destruct r as [[updated|err]|e|]; [|no_reply_tac..]. apply keeps_bind; [apply _| |intros _; keeps_tac].
  apply keeps_when; [apply _|]. do 2 (apply keeps_bind; [apply _|by apply no_reply_modify|intros _]).
  apply keeps_bind; [apply _|keeps_tac|]. intros _. destruct (Restart b') as [b'' r].
  apply keeps_bind; [apply _|by apply no_reply_modify|]. intros _. no_reply_tac.
Qed.
Lemma no_reply_change id : keeps (no_reply id) (on_monitor recv_change).
Proof. intros w. unfold run, on_monitor, zoom. destruct (recv_change _). by apply no_reply_same. Qed.
Lemma no_reply_binary id get bu :
  keeps (fun c c' : Client => no_reply id c.(cl_worker) c'.(cl_worker)) (handleBinaryUpdate error_text get u bu).
Proof.
  assert (PreOrder (fun c c' : Client => no_reply id c.(cl_worker) c'.(cl_worker))) as Hpre.
  { split; [intros c; reflexivity|]. intros x y z ? ?. by etrans. }
  assert (Hw : forall A (m : GoM Worker A), keeps (no_reply id) m ->
    keeps (fun c c' : Client => no_reply id c.(cl_worker) c'.(cl_worker)) (Updater.on_worker m)).
  { intros A m Hm. apply (keeps_zoom _ (no_reply id)); [done|exact Hm]. }
  assert (Hh : forall A (m : GoM Host A), keeps (fun c c' : Client => no_reply id c.(cl_worker) c'.(cl_worker)) (on_host m)).
  { intros A m. apply (keeps_zoom _ (fun _ _ => True)); [done|done]. }
  unfold handleBinaryUpdate, restartFn. destruct u as [u'|]; [|by apply keeps_ret].
  apply keeps_bind; [done|apply Hw; keeps_tac|]. intros _. apply keeps_bind; [done|apply Hh|]. intros [[]|err].
  - by apply keeps_modify.
  - apply keeps_bind; [done|apply Hw; keeps_tac|]. intros _. by apply keeps_ret.
  - apply keeps_bind; [done|apply Hw; keeps_tac|]. intros _.
    apply keeps_bind; [done|apply Hw; keeps_tac|]. intros _. by apply keeps_ret.
Qed.

(** A unit's processing answers no other unit. *)
Lemma no_reply_monitor id {A} (m : GoM GpuMonitor.Monitor A) : keeps (no_reply id) (on_monitor m).
Proof. intros w. unfold run, on_monitor, zoom. destruct (m _). by apply no_reply_same. Qed.
Lemma no_reply_error id i msg : i <> id -> keeps (no_reply id) (send_error i msg).
Proof. intros Hne. apply no_reply_Send. cbn. by apply bool_decide_eq_false_2. Qed.
Lemma no_reply_result id i raw t sg : i <> id -> keeps (no_reply id) (send_result i raw t sg).
Proof.
  intros Hne. unfold send_result. apply keeps_bind; [apply _|apply keeps_gets, _|]. intros fp.
  destruct (json_parse raw); [|apply keeps_ret, _]. apply no_reply_Send. cbn. by apply bool_decide_eq_false_2.
Qed.
Ltac unit_tac := repeat first [by apply no_reply_modify | by apply no_reply_monitor | by apply no_reply_error
  | by apply no_reply_result | keeps_step].
Lemma no_reply_process id accepted wu resp ms deadline ticks : wu.(wu_ID) <> id ->
  keeps (no_reply id) (process accepted wu resp ms deadline ticks).
Proof.
  intros Hne w. unfold process, recovering.
  assert (Hm : keeps (no_reply id) (process_body accepted wu resp ms deadline ticks)).
  { unfold process_body, handle_trigger, infer, done_available, set_processing_flags, on_snapshot. unit_tac. }
  specialize (Hm w). unfold run in *. destruct (process_body _ _ _ _ _ _ w) as [w' [|r|]]; [done| |done]. cbn [fst] in *.
  etrans; [exact Hm|]. assert (Hk : keeps (no_reply id) (report ("panic in worker: " +:+ r) ;;
    send_error wu.(wu_ID) ("panic in worker: " +:+ r) ;; done_available)); [|apply Hk].
  unfold done_available, set_processing_flags, on_snapshot. unit_tac.
Qed.

(** ** Every unit is answered once, in the order of the channel *)

(** What a step that is no unit of work does to the channel of units and to
    what is sent. *)
Definition no_unit (id : string) (l l' : Loop) : Prop :=
  l'.(lp_receiver).(rc_WorkUnitCh) = l.(lp_receiver).(rc_WorkUnitCh) /\ no_reply id (lp_worker l) (lp_worker l').
#[export] Instance no_unit_preorder id : PreOrder (no_unit id).
Proof. split; [done|]. intros x y z [E N] [E' N']. split; [congruence|by etrans]. Qed.
Lemma no_unit_in_worker id {A} (m : GoM Worker A) : keeps (no_reply id) m -> keeps (no_unit id) (in_worker m).
Proof. intros Hm. by apply (keeps_zoom _ (no_reply id)). Qed.
Lemma no_unit_modify id f : (forall l, (f l).(lp_receiver) = l.(lp_receiver)) -> keeps (no_unit id) (modify f).
Proof. intros Hf. apply keeps_modify. intros l. unfold no_unit, lp_worker. by rewrite Hf. Qed.
Lemma no_unit_recv id {A} (get : Receiver -> list A) set :
  (forall r ch, (set ch r).(rc_WorkUnitCh) = r.(rc_WorkUnitCh) /\ (set ch r).(rc_worker) = r.(rc_worker)) ->
  keeps (no_unit id) (recv get set).
Proof.
  intros Hset l. unfold run, recv, mbind, GoM_bind, gets. cbn. destruct (get _) as [|x ch]; [done|].
  cbn. unfold no_unit, lp_worker. cbn. destruct (Hset l.(lp_receiver) ch) as [-> ->]. done.
Qed.
Lemma no_unit_step id e : match e with TakeUnit _ _ _ _ _ => False | _ => True end -> keeps (no_unit id) (exec_loop error_text u e).
Proof.
  intros He. unfold exec_loop. apply keeps_bind; [apply _|apply keeps_gets, _|]. intros l.
  apply keeps_if; [apply keeps_ret, _|]. destruct e as [| |get| | |i answer]; [done|..].
  1-3: apply keeps_bind; [apply _|by apply no_unit_recv|]; intros [m|]; [|apply keeps_ret, _].
  - unfold handleModelUpdate, startDownload. apply keeps_bind; [apply _|apply no_unit_in_worker, no_reply_SendStatus|].
    intros _. by apply no_unit_modify.
  - apply (keeps_zoom _ (fun c c' : Client => no_reply id c.(cl_worker) c'.(cl_worker))); [done|apply no_reply_binary].
  - apply no_unit_in_worker, no_reply_backend.
  - unfold take_state_change. apply keeps_bind; [apply _|apply no_unit_in_worker, no_reply_change|].
    intros [c|]; [|apply keeps_ret, _]. apply no_unit_in_worker. unfold handleStateChange.
    apply keeps_bind; [apply _|apply no_reply_SendStatus|]. intros _. apply keeps_ret, _.
  - unfold download_step. apply keeps_bind; [apply _|apply keeps_gets, _|]. intros gs.
    destruct (gs !! i) as [g|]; [|apply keeps_ret, _]. cbv zeta. destruct g.(gr_phase).
    + apply keeps_bind; [apply _|apply keeps_gets, _|]. intros w. apply keeps_if; [|apply keeps_if].
      * apply keeps_bind; [apply _|by apply no_unit_modify|]. intros _. apply no_unit_in_worker, no_reply_trust.
      * destruct answer as [|remains|content]; [by apply no_unit_modify|..];
          (apply keeps_bind; [apply _|by apply no_unit_in_worker, no_reply_modify|]; intros _; by apply no_unit_modify).
      * apply keeps_bind; [apply _|apply no_unit_in_worker, no_reply_download|]. intros [p|]; [|apply keeps_ret, _].
        by apply no_unit_modify.
    + apply keeps_bind; [apply _|by apply no_unit_modify|]. intros _. apply no_unit_in_worker, no_reply_install.
Qed.

(** What the local server answers is a JSON text, and so is an acknowledged pause. *)
Definition json_answers (e : loop_event) : Prop :=
  match e with TakeUnit _ resp _ _ _ => forall raw, Complete resp = inl raw -> is_Some (json_parse raw) | _ => True end.

Lemma exec_loop_answers id e l l' : (forall l m, send_ok l m = true) -> (forall s, is_Some (json_parse (json_text (pause_output s)))) ->
  json_answers e -> (lp_worker l).(wk_conn).(co_connected) = true -> exec_loop error_text u e l = (l', Ret tt) ->
  (lp_worker l').(wk_conn).(co_connected) = true /\
  l.(lp_receiver).(rc_WorkUnitCh) = option_list (unit_taken e l) ++ l'.(lp_receiver).(rc_WorkUnitCh) /\
  exists new, (lp_worker l').(wk_conn).(co_sent) = (lp_worker l).(wk_conn).(co_sent) ++ new /\
    replies id new = length (List.filter (fun wu => wu.(wu_ID) == id) (option_list (unit_taken e l))).
Proof.
  intros Hs Hp He Hc E. assert ((exists a r m d t, e = TakeUnit a r m d t) \/ match e with TakeUnit _ _ _ _ _ => False | _ => True end) as [Hu|Hn]
    by (destruct e; [left; by repeat eexists|by right..]).
  2: { pose proof (no_unit_step id e Hn l) as [Hch [Hco (new & En & Nn)]]. unfold run in Hch, Hco, En. rewrite E in *. cbn [fst] in *.
    replace (unit_taken e l) with (@None WorkUnit) by (by destruct e). split_and!; [congruence|done|]. by exists new. }
  destruct Hu as (accepted & resp & ms & deadline & ticks & ->). unfold exec_loop in E.
  rewrite (bind_Ret _ _ l l l) in E by done. cbn [unit_taken] in *. destruct l.(lp_exited) eqn:Ex.
  { injection E as <-. split_and!; [done..|]. exists []. by rewrite app_nil_r. }
  destruct l.(lp_receiver).(rc_WorkUnitCh) as [|wu ch] eqn:Ech; cbn [head option_list].
  - rewrite (bind_Ret _ _ l l None) in E by (unfold recv, mbind, GoM_bind, gets; by rewrite Ech). injection E as <-.
    split_and!; [done|by rewrite Ech|]. exists []. by rewrite app_nil_r.
  - set (l1 := set_receiver (set_WorkUnitCh ch l.(lp_receiver)) l).
    rewrite (bind_Ret _ _ l l1 (Some wu)) in E by (unfold recv, mbind, GoM_bind, gets, modify; by rewrite Ech).
    unfold in_worker, zoom in E. change (lp_worker l1) with (lp_worker l) in E.
    pose proof (replying_process Hs accepted wu resp ms deadline ticks He Hp (lp_worker l) Hc) as ([] & new & Er & _ & Hc' & Es & Hn).
    pose proof (no_reply_process id accepted wu resp ms deadline ticks) as Hother.
    unfold run, result in *. destruct (process _ _ _ _ _ _ (lp_worker l)) as [w' r] eqn:Epr. cbn [fst snd] in *. injection E as <- ->.
    split_and!; [done|done|]. exists new. split; [exact Es|]. change (option_list (Some wu)) with [wu]. cbn [List.filter].
    destruct (bool_decide_reflect (wu.(wu_ID) = id)) as [<-|Hne]; [exact Hn|].
    specialize (Hother Hne (lp_worker l)) as [_ (new' & Es' & Hn')]. unfold run in Es'. rewrite Epr in Es'. cbn [fst] in Es'.
    cbn [length]. rewrite Es in Es'. apply app_inv_head in Es' as ->. done.
Qed.

(** *** Never twice, whatever fails *)

(** [m] returns and sends at most [n] replies to [id]. *)
Definition at_most (id : string) (n : nat) {A} (m : GoM Worker A) : Prop :=
  forall w, exists a new, result m w = Ret a /\
    (run m w).(wk_conn).(co_sent) = w.(wk_conn).(co_sent) ++ new /\ replies id new <= n.
Lemma at_most_bind id n1 n2 {A B} (m : GoM Worker A) (k : A -> GoM Worker B) :
  at_most id n1 m -> (forall a, at_most id n2 (k a)) -> at_most id (n1 + n2) (m ≫= k).
Proof.
  intros Hm Hk w. destruct (Hm w) as (a & l1 & E1 & S1 & N1). destruct (Hk a (run m w)) as (b & l2 & E2 & S2 & N2).
  exists b, (l1 ++ l2). unfold run, result, mbind, GoM_bind in *. destruct (m w) as [w1 r]. cbn in *. subst r.
  rewrite replies_app, S2, S1, app_assoc. split_and!; [done..|lia].
Qed.
Lemma at_most_none id {A} (m : GoM Worker A) : returns m -> keeps (no_reply id) m -> at_most id 0 m.
Proof. intros Hr Hk w. destruct (Hr w) as [a Ea], (Hk w) as [_ (new & Es & En)]. exists a, new. by rewrite En. Qed.
Lemma at_most_Send id m : at_most id 1 (Send m).
Proof.
  intros w. unfold result, run, Send. destruct (_ && _); cbn.
  - exists true, [m]. split_and!; [done..|]. unfold replies. cbn. destruct (is_reply id m); cbn; lia.
  - exists false, []. rewrite app_nil_r. split_and!; [done..|]. unfold replies. cbn. lia.
Qed.
Lemma at_most_result id i raw ms sg : at_most id 1 (send_result i raw ms sg).
Proof.
  unfold send_result. change 1 with (0 + 1). apply at_most_bind; [apply at_most_none; [apply returns_gets|apply keeps_gets, _]|].
  intros fp. destruct (json_parse raw); [apply at_most_Send|]. intros w. exists false, []. rewrite app_nil_r. split_and!; [done..|cbn; lia].
Qed.
Lemma at_most_monitor id {A} (m : GoM GpuMonitor.Monitor A) : returns m -> at_most id 0 (on_monitor m).
Proof. intros Hm. apply at_most_none; [by apply returns_on_monitor|apply no_reply_monitor]. Qed.
Lemma at_most_modify id f : (forall w, (f w).(wk_conn) = w.(wk_conn)) -> at_most id 0 (modify f).
Proof. intros Hf. apply at_most_none; [apply returns_modify|]. apply no_reply_modify; intros w; by rewrite Hf. Qed.
Lemma at_most_flags id v : at_most id 0 (set_processing_flags v).
Proof.
  change 0 with (0 + 0). apply at_most_bind; [by apply at_most_modify|]. intros _. apply at_most_monitor.
  unfold GpuMonitor.SetProcessing. returns_tac.
Qed.
Lemma at_most_status id s : at_most id 0 (SendStatus s).
Proof. apply at_most_none; [apply returns_SendStatus|apply no_reply_SendStatus]. Qed.
Lemma at_most_ret id {A} (a : A) : at_most id 0 (mret a).
Proof. apply at_most_none; [apply returns_ret|apply keeps_ret, _]. Qed.
Lemma at_most_done id : at_most id 0 done_available.
Proof.
  change 0 with (0 + 0). apply at_most_bind; [apply at_most_flags|]. intros _.
  change 0 with (0 + 0). apply at_most_bind; [apply at_most_status|]. intros _. apply at_most_ret.
Qed.
Lemma at_most_refusal id i msg : at_most id 1 (send_error i msg ;; skip).
Proof. change 1 with (1 + 0). apply at_most_bind; [apply at_most_Send|intros _; apply at_most_ret]. Qed.
(** A failure is reported, then told to the manager, and the worker is available. *)
Lemma at_most_failure id i e1 e2 : at_most id 1 (report e1 ;; send_error i e2 ;; done_available).
Proof.
  change 1 with (0 + (1 + 0)). apply at_most_bind; [by apply at_most_modify|]. intros _.
  apply at_most_bind; [apply at_most_Send|]. intros _. apply at_most_done.
Qed.
Lemma at_most_infer id wu resp ms deadline ticks : at_most id 1 (infer wu resp ms deadline ticks).
Proof.
  unfold infer. destruct (Complete resp) as [raw|err]; [|apply at_most_failure].
  change 1 with (0 + (1 + 0)). apply at_most_bind; [apply at_most_none; [apply returns_gets|apply keeps_gets, _]|]. intros key. cbv zeta.
  apply at_most_bind; [apply at_most_result|]. intros [|]; cbn [negb].
  - change 0 with (0 + (0 + 0)). apply at_most_bind; [by apply at_most_modify|]. intros _.
    apply at_most_bind; [apply at_most_monitor, WaitForBaseline_returns|]. intros _. apply at_most_done.
  - change 0 with (0 + 0). apply at_most_bind; [by apply at_most_modify|]. intros _. apply at_most_done.
Qed.
Lemma at_most_recovering id wu n m : at_most id n m -> at_most id n (recovering wu m).
Proof.
  intros Hm w. destruct (Hm w) as (a & new & Ea & Hrest). exists a, new.
  unfold result, run, recovering in *. destruct (m w) as [w' r]. cbn in Ea. by subst r.
Qed.
Lemma at_most_recovering_bind id wu n {A} (m : GoM Worker A) k :
  at_most id 0 m -> (forall a, at_most id n (recovering wu (k a))) -> at_most id n (recovering wu (m ≫= k)).
Proof.
  intros Hm Hk w. destruct (at_most_bind id 0 n m (fun a => recovering wu (k a)) Hm Hk w) as (a & new & Hrest). exists a, new.
  destruct (Hm w) as (b & _ & Er & _). unfold result, run, recovering, mbind, GoM_bind in *.
  destruct (m w) as [w' r]. cbn in Er. subst r. exact Hrest.
Qed.
Lemma at_most_trigger id wu trigger : at_most id 1 (recovering wu (handle_trigger wu trigger)).
Proof.
  unfold handle_trigger. destruct (trigger == TriggerPause); [|destruct (trigger == TriggerPanic)].
  - apply at_most_recovering. change 1 with (0 + (0 + (0 + (0 + (1 + 0))))).
    apply at_most_bind; [apply at_most_none; [apply returns_gets|apply keeps_gets, _]|]. intros wasPaused. cbv zeta.
    apply at_most_bind; [by apply at_most_modify|]. intros _. apply at_most_bind; [apply at_most_status|]. intros _.
    apply at_most_bind; [apply at_most_none; [apply returns_gets|apply keeps_gets, _]|]. intros key.
    apply at_most_bind; [apply at_most_result|]. intros _. apply at_most_flags.
  - exact (at_most_failure id wu.(wu_ID) _ _).
  - apply at_most_recovering, at_most_failure.
Qed.
Lemma at_most_process id accepted wu resp ms deadline ticks : at_most id 1 (process accepted wu resp ms deadline ticks).
Proof.
  unfold process, process_body.
  apply at_most_recovering_bind; [apply at_most_none; [apply returns_gets|apply keeps_gets, _]|]. intros paused.
  destruct (_ && _); [apply at_most_recovering, at_most_refusal|]. destruct (negb accepted); [apply at_most_recovering, at_most_refusal|].
  apply at_most_recovering_bind; [apply at_most_monitor; unfold GetState; returns_tac|]. intros st.
  case_bool_decide; [apply at_most_recovering, at_most_refusal|].
  apply at_most_recovering_bind; [apply at_most_flags|]. intros _. apply at_most_recovering_bind; [apply at_most_status|]. intros _. cbv zeta.
  destruct (detectTrigger wu != ""); [apply at_most_trigger|apply at_most_recovering, at_most_infer].
Qed.

(** How many of the units carry an id *)
Definition with_id (id : string) (l : list WorkUnit) : nat := length (List.filter (fun wu => wu.(wu_ID) == id) l).

Lemma exec_loop_at_most id e l l' : exec_loop error_text u e l = (l', Ret tt) ->
  l.(lp_receiver).(rc_WorkUnitCh) = option_list (unit_taken e l) ++ l'.(lp_receiver).(rc_WorkUnitCh) /\
  exists new, (lp_worker l').(wk_conn).(co_sent) = (lp_worker l).(wk_conn).(co_sent) ++ new /\
    replies id new <= with_id id (option_list (unit_taken e l)).
Proof.
  intros E. assert ((exists a r m d t, e = TakeUnit a r m d t) \/ match e with TakeUnit _ _ _ _ _ => False | _ => True end) as [Hu|Hn]
    by (destruct e; [left; by repeat eexists|by right..]).
  2: { pose proof (no_unit_step id e Hn l) as [Hch [_ (new & En & Nn)]]. unfold run in Hch, En. rewrite E in *. cbn [fst] in *.
    replace (unit_taken e l) with (@None WorkUnit) by (by destruct e). split; [done|]. exists new. by rewrite Nn. }
  destruct Hu as (accepted & resp & ms & deadline & ticks & ->). unfold exec_loop in E.
  rewrite (bind_Ret _ _ l l l) in E by done. cbn [unit_taken] in *. destruct l.(lp_exited) eqn:Ex.
  { injection E as <-. split; [done|]. exists []. by rewrite app_nil_r. }
  destruct l.(lp_receiver).(rc_WorkUnitCh) as [|wu ch] eqn:Ech; cbn [head option_list].
  - rewrite (bind_Ret _ _ l l None) in E by (unfold recv, mbind, GoM_bind, gets; by rewrite Ech). injection E as <-.
    split; [by rewrite Ech|]. exists []. by rewrite app_nil_r.
  - set (l1 := set_receiver (set_WorkUnitCh ch l.(lp_receiver)) l).
    rewrite (bind_Ret _ _ l l1 (Some wu)) in E by (unfold recv, mbind, GoM_bind, gets, modify; by rewrite Ech).
    unfold in_worker, zoom in E. change (lp_worker l1) with (lp_worker l) in E.
    destruct (at_most_process id accepted wu resp ms deadline ticks (lp_worker l)) as ([] & new & _ & Es & Hn).
    pose proof (no_reply_process id accepted wu resp ms deadline ticks) as Hother.
    unfold run, result in *. destruct (process _ _ _ _ _ _ (lp_worker l)) as [w' r] eqn:Epr. cbn [fst snd] in *. injection E as <- ->.
    split; [done|]. exists new. split; [exact Es|]. unfold with_id. change (option_list (Some wu)) with [wu]. cbn [List.filter].
    destruct (bool_decide_reflect (wu.(wu_ID) = id)) as [<-|Hne]; [exact Hn|].
    specialize (Hother Hne (lp_worker l)) as [_ (new' & Es' & Hn')]. unfold run in Es'. rewrite Epr in Es'. cbn [fst] in Es'.
    rewrite Es in Es'. apply app_inv_head in Es' as ->. cbn [length]. by rewrite Hn'.
Qed.

Lemma units_at_most es l l' id : exec_loops error_text u es l = (l', Ret tt) ->
  l.(lp_receiver).(rc_WorkUnitCh) = units_taken es l ++ l'.(lp_receiver).(rc_WorkUnitCh) /\
  exists new, (lp_worker l').(wk_conn).(co_sent) = (lp_worker l).(wk_conn).(co_sent) ++ new /\
    replies id new <= with_id id (units_taken es l).
Proof.
  revert l. induction es as [|e es IH]; intros l E; cbn [units_taken].
  { injection E as <-. split; [done|]. exists []. by rewrite app_nil_r. }
  unfold exec_loops in E. cbn [foreach] in E. apply bind_inv in E as (l1 & [] & E1 & E).
  destruct (exec_loop_at_most id e l l1 E1) as (Hch & new & Es & Hn). unfold run. rewrite E1. cbn [fst].
  destruct (IH l1 E) as (Hch' & new' & Es' & Hn'). split; [rewrite Hch, Hch'; by rewrite app_assoc|]. exists (new ++ new').
  rewrite Es', Es, app_assoc. split; [done|]. unfold with_id in *. rewrite replies_app, List.filter_app, length_app. lia.
Qed.
Lemma units_answered es l l' id :
  (forall l m, send_ok l m = true) -> (forall s, is_Some (json_parse (json_text (pause_output s)))) ->
  Forall json_answers es -> (lp_worker l).(wk_conn).(co_connected) = true ->
  exec_loops error_text u es l = (l', Ret tt) ->
  exists new, (lp_worker l').(wk_conn).(co_sent) = (lp_worker l).(wk_conn).(co_sent) ++ new /\
    replies id new = with_id id (units_taken es l).
Proof.
  intros Hs Hp. revert l. induction es as [|e es IH]; intros l Hes Hc E; cbn [units_taken].
  { injection E as <-. exists []. by rewrite app_nil_r. }
  apply Forall_cons_1 in Hes as [He Hes]. unfold exec_loops in E. cbn [foreach] in E.
  apply bind_inv in E as (l1 & [] & E1 & E). destruct (exec_loop_answers id e l l1 Hs Hp He Hc E1) as (Hc1 & _ & new & Es & Hn).
  unfold run. rewrite E1. cbn [fst]. destruct (IH l1 Hes Hc1 E) as (new' & Es' & Hn'). exists (new ++ new').
  rewrite Es', Es, app_assoc. split; [done|]. unfold with_id in *. rewrite replies_app, List.filter_app, length_app. by rewrite Hn, Hn'.
Qed.

(** C5. No unit is answered twice, and none is lost while everything works. However
    the loop interleaves units, updates, contention and the steps of downloads,
    and whatever fails, it takes the units in the order of the channel and sends
    for an id at most as many replies as it took units with that id. They are
    exactly as many on an open connection that takes every write, if each
    answer of the local server with status 200 is a JSON text (one that is not is
    reported locally only: [malformed_answer_gets_no_reply]). *)
Theorem every_unit_is_answered_once es l l' id : exec_loops error_text u es l = (l', Ret tt) ->
  l.(lp_receiver).(rc_WorkUnitCh) = units_taken es l ++ l'.(lp_receiver).(rc_WorkUnitCh) /\
  exists new, (lp_worker l').(wk_conn).(co_sent) = (lp_worker l).(wk_conn).(co_sent) ++ new /\
    length (List.filter (is_reply id) new) <= length (List.filter (fun wu => wu.(wu_ID) == id) (units_taken es l)) /\
    ((forall l m, send_ok l m = true) -> (forall s, is_Some (json_parse (json_text (pause_output s)))) ->
     Forall json_answers es -> (lp_worker l).(wk_conn).(co_connected) = true ->
     length (List.filter (is_reply id) new) = length (List.filter (fun wu => wu.(wu_ID) == id) (units_taken es l))).
Proof.
  intros E. destruct (units_at_most es l l' id E) as (Hch & new & Es & Hn). split; [exact Hch|]. exists new. split_and!; [exact Es|exact Hn|].
  intros Hs Hp Hj Hc. destruct (units_answered es l l' id Hs Hp Hj Hc E) as (new' & Es' & Hn'). rewrite Es in Es'.
  apply app_inv_head in Es' as <-. exact Hn'.
Qed.
End answers.

(** ** Downloads that overlap *)

Section downloads.
Context `{FileOs, UpdaterOs, Crypto, JsonText, ClientSocket, Os}.
Context (error_text : update_error -> string) (u : option Updater).

(** A verified model that the worker has put to use. *)
Record in_use (mu : ModelUpdate) (path fileHash : string) (w w' : Worker) : Prop := {
  iu_path : w'.(wk_lastModelPath) = path;
  iu_params : w'.(wk_lastLlamaParams) = llama_params mu;
  iu_persisted : w'.(wk_persisted) = SetModel path (llama_params mu) mu.(mu_Role) w.(wk_persisted);
  iu_hash : w'.(wk_conn).(co_llmHash) = ComputeLLMHash mu.(mu_Role) fileHash;
  iu_models : w'.(wk_models) = w.(wk_models);
  iu_dir : w'.(wk_modelsDir) = w.(wk_modelsDir);
  iu_url : w'.(wk_managerHTTPURL) = w.(wk_managerHTTPURL);
  iu_fingerprint : w'.(wk_fingerprint) = w.(wk_fingerprint);
  iu_privateKey : w'.(wk_privateKey) = w.(wk_privateKey);
  iu_backend : w'.(wk_backend) = (fun b => run (Start w.(wk_port) path (llama_params mu)) b) <$> w.(wk_backend);
}.
Lemma wp_install mu path content w : w.(wk_models) !! path = Some content ->
  mu.(mu_ModelFileHash) = "" \/ mu.(mu_ModelFileHash) = hex_EncodeToString (sha256 content) ->
  wp (install_model mu path) (fun w' r => r = Ret tt /\ in_use mu path (hex_EncodeToString (sha256 content)) w w') w.
Proof.
  intros Hc Hh. unfold install_model. apply wp_bind, wp_gets. cbv beta iota. rewrite Hc. cbn [HashFile mbind option_bind].
  replace ((_ != "") && (_ != _)) with false.
  2: { destruct Hh as [->| ->]; [done|]. rewrite (bool_decide_eq_true_2 (hex_EncodeToString _ = hex_EncodeToString _)) by done. cbn. by rewrite andb_false_r. }
  cbv zeta. apply wp_bind, wp_modify, wp_bind. apply (wp_returns sent); [apply returns_Send|apply sent_Send|]. intros w1 _ [l ->].
  apply wp_bind, wp_modify, wp_bind, wp_modify, wp_bind. unfold restartLLM. apply wp_bind, wp_gets. cbn.
  assert (Hend : forall w2, in_use mu path (hex_EncodeToString (sha256 content)) w w2 ->
    wp (SendStatus "available" ;; skip) (fun w' r => r = Ret tt /\ in_use mu path (hex_EncodeToString (sha256 content)) w w') w2).
  { intros w2 []. apply wp_bind. apply (wp_returns sent); [apply returns_SendStatus|intros s; apply sent_Send|].
    intros w3 _ [l' ->]. apply wp_ret. split; [done|]. by split. }
  destruct w.(wk_backend) as [b|] eqn:Eb.
  - destruct (Start _ _ _ b) as [b' r] eqn:Es. apply wp_bind, wp_modify, wp_ret, Hend. split; try done. cbn. rewrite Eb. cbn. unfold run. by rewrite Es.
  - apply wp_ret, Hend. split; try done. cbn. by rewrite Eb.
Qed.

(** ** The last update is the live one *)

Definition update_taken (e : loop_event) (l : Loop) : option ModelUpdate :=
  match e with
  | TakeModelUpdate => if l.(lp_exited) then None else head l.(lp_receiver).(rc_ModelUpdateCh)
  | _ => None
  end.
Fixpoint updates_taken (es : list loop_event) (l : Loop) : list ModelUpdate :=
  match es with
  | [] => []
  | e :: es => option_list (update_taken e l) ++ updates_taken es (run (exec_loop error_text u e) l)
  end.

(** The goroutines of the loop after these updates. *)
Record downloads_inv (updates : list ModelUpdate) (l : Loop) : Prop := {
  di_started : l.(lp_started) = length updates;
  di_update : forall i g, l.(lp_downloads) !! i = Some g -> updates !! i = Some g.(gr_update);
  di_live : forall i g, l.(lp_downloads) !! i = Some g -> g.(gr_cancelled) = false -> l.(lp_cancelModelDL) = Some i;
  di_last : l.(lp_cancelModelDL) = match updates with [] => None | _ => Some (length updates - 1) end;
}.

(** Steps that start and end no download. *)
Definition same_downloads (l l' : Loop) : Prop :=
  l'.(lp_downloads) = l.(lp_downloads) /\ l'.(lp_cancelModelDL) = l.(lp_cancelModelDL) /\ l'.(lp_started) = l.(lp_started) /\
  l'.(lp_receiver).(rc_ModelUpdateCh) = l.(lp_receiver).(rc_ModelUpdateCh).
#[export] Instance same_downloads_preorder : PreOrder same_downloads.
Proof. split; [done|]. intros x y z (?&?&?&?) (?&?&?&?). split_and!; congruence. Qed.
Lemma same_in_worker {A} (m : GoM Worker A) : keeps same_downloads (in_worker m).
Proof. by apply (keeps_zoom _ (fun _ _ => True)). Qed.
Lemma same_recv {A} (get : Receiver -> list A) set :
  (forall r ch, (set ch r).(rc_ModelUpdateCh) = r.(rc_ModelUpdateCh)) -> keeps same_downloads (recv get set).
Proof.
  intros Hset l. unfold run, recv, mbind, GoM_bind, gets. cbn. destruct (get _) as [|x ch]; [done|].
  unfold same_downloads. cbn. by rewrite Hset.
Qed.
Hint Resolve same_in_worker : keeps.
Lemma downloads_inv_same us l l' : same_downloads l l' -> downloads_inv us l -> downloads_inv us l'.
Proof. intros (E1&E2&E3&_) []. split; rewrite ?E1, ?E2, ?E3; eauto. Qed.

(** A step of a download ends it, or leaves it as it is but for the phase. *)
Lemma inv_set_download us i g p l : l.(lp_downloads) !! i = Some g -> downloads_inv us l ->
  downloads_inv us (run (set_download i (set_phase p <$> Some g)) l) /\ downloads_inv us (run (set_download i None) l).
Proof.
  intros Hg []. split; split; cbn; try done; intros j g'.
  - destruct (decide (i = j)) as [<-|Hj]; [|rewrite lookup_partial_alter_ne by done; eauto].
    rewrite lookup_partial_alter_eq. intros [= <-]. cbn. eauto.
  - destruct (decide (i = j)) as [<-|Hj]; [|rewrite lookup_partial_alter_ne by done; eauto].
    rewrite lookup_partial_alter_eq. intros [= <-]. cbn. eauto.
  - destruct (decide (i = j)) as [<-|Hj]; [by rewrite lookup_partial_alter_eq|rewrite lookup_partial_alter_ne by done; eauto].
  - destruct (decide (i = j)) as [<-|Hj]; [by rewrite lookup_partial_alter_eq|rewrite lookup_partial_alter_ne by done; eauto].
Qed.
Lemma startDownload_inv us mu l : downloads_inv us l -> downloads_inv (us ++ [mu]) (run (startDownload mu) l).
Proof.
  intros []. unfold startDownload, run. cbn [modify fst].
  set (others := match l.(lp_cancelModelDL) with Some i => _ | None => _ end).
  assert (Hothers : forall i g, others !! i = Some g -> us !! i = Some g.(gr_update) /\ g.(gr_cancelled) = true).
  { intros i g. unfold others. destruct l.(lp_cancelModelDL) as [j|] eqn:Ej.
    - destruct (decide (j = i)) as [->|Hj].
      + rewrite lookup_alter_eq. intros (g0 & Hg0 & ->)%fmap_Some. cbn. split; [by apply di_update0|done].
      + rewrite lookup_alter_ne by done. intros Hg. split; [by apply di_update0|].
        destruct g.(gr_cancelled) eqn:Ec; [done|]. specialize (di_live0 _ _ Hg Ec). congruence.
    - intros Hg. split; [by apply di_update0|]. destruct g.(gr_cancelled) eqn:Ec; [done|]. by specialize (di_live0 _ _ Hg Ec). }
  split; cbn.
  - rewrite length_app. cbn. lia.
  - intros i g. destruct (decide (l.(lp_started) = i)) as [<-|Hi].
    + rewrite lookup_insert_eq. intros [= <-]. rewrite di_started0, lookup_app_r, Nat.sub_diag; done.
    + rewrite lookup_insert_ne by done. intros [Hu _]%Hothers. by apply lookup_app_l_Some.
  - intros i g. destruct (decide (l.(lp_started) = i)) as [<-|Hi]; [done|]. rewrite lookup_insert_ne by done.
    intros [_ Hc]%Hothers. congruence.
  - rewrite length_app. cbn. destruct us; cbn in *; [by rewrite di_started0|]. rewrite di_started0. cbn. f_equal. lia.
Qed.

Lemma download_step_inv us i answer l : downloads_inv us l ->
  wp (download_step i answer) (fun l' _ => downloads_inv us l' /\ l'.(lp_receiver).(rc_ModelUpdateCh) = l.(lp_receiver).(rc_ModelUpdateCh)) l.
Proof.
  intros Hinv. unfold download_step. apply wp_bind, wp_gets. cbv beta iota. destruct (l.(lp_downloads) !! i) as [g|] eqn:Eg; [|by apply wp_ret].
  assert (Hset : forall p l1, same_downloads l l1 -> downloads_inv us (run (set_download i (set_phase p <$> Some g)) l1) /\
    downloads_inv us (run (set_download i None) l1)).
  { intros p l1 Hs. apply inv_set_download; [|by eapply downloads_inv_same]. destruct Hs as (-> & _). done. }
  assert (Hend : forall m : GoM Worker unit, wp (set_download i None ;; in_worker m) (fun l' _ => downloads_inv us l' /\
    l'.(lp_receiver).(rc_ModelUpdateCh) = l.(lp_receiver).(rc_ModelUpdateCh)) l).
  { intros m. apply wp_bind. eapply wp_eq; [reflexivity|]. cbv beta iota. apply (wp_keeps same_downloads); [apply same_in_worker|].
    intros l' _ Hs. split; [eapply downloads_inv_same; [exact Hs|]|by destruct Hs as (_&_&_&->)]. by apply (Hset Fetching l). }
  cbv zeta. destruct g.(gr_phase) as [|path]; [|apply Hend]. apply wp_bind, wp_gets. cbv beta iota.
  destruct (no_download_config _ _); [apply Hend|]. destruct g.(gr_cancelled).
  - assert (Hstep : forall (m : GoM Worker unit) g', g' = None \/ (exists p, g' = Some (set_phase p g)) ->
      wp (in_worker m ;; set_download i g') (fun l' _ => downloads_inv us l' /\
        l'.(lp_receiver).(rc_ModelUpdateCh) = l.(lp_receiver).(rc_ModelUpdateCh)) l).
    { intros m g' Hg'. apply wp_bind, (wp_keeps same_downloads); [apply same_in_worker|].
      intros l1 [[]| |] Hs; [|split; [by eapply downloads_inv_same|by destruct Hs as (_&_&_&->)]..].
      apply wp_modify. split; [|by destruct Hs as (_&_&_&Hs)]. destruct Hg' as [->|[p ->]]; [by apply (Hset Fetching)|by apply Hset]. }
    destruct answer as [|remains|content]; [|apply Hstep; by left|apply Hstep; right; by eexists].
    apply wp_modify. split; [by apply (Hset Fetching l)|done].
  - apply wp_bind, (wp_keeps same_downloads); [apply same_in_worker|].
    intros l1 [[path|]| |] Hs; [apply wp_modify|apply wp_ret| |]; (split; [|by destruct Hs as (_&_&_&Hs)]);
      [by apply Hset|by eapply downloads_inv_same..].
Qed.

Lemma exec_loop_downloads us e l l' : downloads_inv us l -> exec_loop error_text u e l = (l', Ret tt) ->
  l.(lp_receiver).(rc_ModelUpdateCh) = option_list (update_taken e l) ++ l'.(lp_receiver).(rc_ModelUpdateCh) /\
  downloads_inv (us ++ option_list (update_taken e l)) l'.
Proof.
  intros Hinv E. unfold exec_loop in E. rewrite (bind_Ret _ _ l l l) in E by done. unfold update_taken.
  destruct l.(lp_exited) eqn:Ex.
  { injection E as <-. replace (match e with TakeModelUpdate => _ | _ => _ end) with (@None ModelUpdate) by (by destruct e).
    cbn. by rewrite app_nil_r. }
  assert (Hsame : forall m : GoM Loop unit, keeps same_downloads m -> m l = (l', Ret tt) ->
    l.(lp_receiver).(rc_ModelUpdateCh) = l'.(lp_receiver).(rc_ModelUpdateCh) /\ downloads_inv us l').
  { intros m Hm Em. specialize (Hm l). unfold run in Hm. rewrite Em in Hm. cbn [fst] in Hm.
    split; [by destruct Hm as (_&_&_&->)|by eapply downloads_inv_same]. }
  destruct e as [accepted resp ms deadline ticks| |get| | |i answer]; cbn [option_list]; rewrite ?app_nil_r.
  - refine (Hsame _ _ E). apply keeps_bind; [apply _|by apply same_recv|intros []; keeps_tac].
  - destruct l.(lp_receiver).(rc_ModelUpdateCh) as [|mu ch] eqn:Ech; cbn [head].
    + rewrite (bind_Ret _ _ l l None) in E by (unfold recv, mbind, GoM_bind, gets; by rewrite Ech). injection E as <-.
      cbn. by rewrite Ech, app_nil_r.
    + set (l1 := set_receiver (set_ModelUpdateCh ch l.(lp_receiver)) l).
      rewrite (bind_Ret _ _ l l1 (Some mu)) in E by (unfold recv, mbind, GoM_bind, gets, modify; by rewrite Ech).
      unfold handleModelUpdate in E. apply bind_inv in E as (l2 & b & E2 & E).
      pose proof (same_in_worker (SendStatus "updating") l1) as Hs. unfold run in Hs. rewrite E2 in Hs. cbn [fst] in Hs.
      assert (Hinv2 : downloads_inv us l2) by (eapply downloads_inv_same; [exact Hs|]; by destruct Hinv; split).
      apply (startDownload_inv us mu) in Hinv2. unfold run in Hinv2. rewrite E in Hinv2.
      split; [|done]. destruct Hs as (_&_&_&Hch). unfold startDownload, modify in E. injection E as <-. cbn. by rewrite Hch.
  - refine (Hsame _ _ E). apply keeps_bind; [apply _|by apply same_recv|intros [bu|]; [by apply (keeps_zoom _ (fun _ _ => True))|apply keeps_ret, _]].
  - refine (Hsame _ _ E). apply keeps_bind; [apply _|by apply same_recv|intros []; keeps_tac].
  - refine (Hsame _ _ E). unfold take_state_change; keeps_tac.
  - pose proof (download_step_inv us i answer l Hinv) as Hwp. unfold wp, run, result in Hwp. rewrite E in Hwp. cbn in Hwp.
    destruct Hwp as [? ->]. done.
Qed.

(** C22. Of the model downloads under way only the last is live. Whatever the loop
    and the downloads do in which order, the updates are taken in the order of
    the channel, each download that has not ended is that of the update it was
    started for, and all but the one of the last update taken are cancelled. *)
Theorem only_the_last_download_is_live es r fs l' :
  let l := loop_of r fs in
  exec_loops error_text u es l = (l', Ret tt) ->
  r.(rc_ModelUpdateCh) = updates_taken es l ++ l'.(lp_receiver).(rc_ModelUpdateCh) /\
  forall i g, l'.(lp_downloads) !! i = Some g ->
    updates_taken es l !! i = Some g.(gr_update) /\ (g.(gr_cancelled) = false -> S i = length (updates_taken es l)).
Proof.
  cbv zeta. set (l := loop_of r fs). intros E.
  assert (Hgen : forall us l0, downloads_inv us l0 -> exec_loops error_text u es l0 = (l', Ret tt) ->
    l0.(lp_receiver).(rc_ModelUpdateCh) = updates_taken es l0 ++ l'.(lp_receiver).(rc_ModelUpdateCh) /\
    downloads_inv (us ++ updates_taken es l0) l').
  { clear E l. induction es as [|e es IH]; intros us l0 Hinv E; cbn [updates_taken].
    { injection E as <-. by rewrite app_nil_r. }
    unfold exec_loops in E. cbn [foreach] in E. apply bind_inv in E as (l1 & [] & E1 & E).
    destruct (exec_loop_downloads us e l0 l1 Hinv E1) as [Hch Hinv1]. destruct (IH _ _ Hinv1 E) as [Hch' Hinv'].
    unfold run. rewrite E1. cbn [fst]. rewrite Hch, Hch', !app_assoc in *. done. }
  assert (Hinit : downloads_inv [] l) by (split; [done|intros i g Hg; change (lp_downloads l) with (∅ : gmap nat goroutine) in Hg; by rewrite lookup_empty in Hg..|done]).
  destruct (Hgen [] l Hinit E) as [Hch []]. split; [exact Hch|].
  cbn [app] in *. intros i g Hg. split; [by apply di_update0|]. intros Hc. pose proof (di_live0 _ _ Hg Hc) as Hl.
  rewrite di_last0 in Hl. specialize (di_update0 _ _ Hg). destruct (updates_taken es l); [done|]. injection Hl as <-. cbn. lia.
Qed.

(** ** A cancelled download may come last *)

Lemma in_worker_eq {A} (m : GoM Worker A) l w r : m (lp_worker l) = (w, r) -> in_worker m l = (set_lp_worker w l, r).
Proof. unfold in_worker, zoom. by intros ->. Qed.
Lemma downloadModel_new filename content w : w.(wk_models) !! dest_path w filename = None ->
  downloadModel filename (Whole content) w =
    (rename_temporary (dest_path w filename) content w, Ret (Some (dest_path w filename))).
Proof. unfold dest_path, downloadModel. intros Hm. rewrite (bind_Ret _ _ w w w) by done. cbv zeta. by rewrite Hm. Qed.

(** What the steps of a download compute on a worker that can download. *)
Lemma take_update_steps mu ch l : l.(lp_exited) = false -> l.(lp_receiver).(rc_ModelUpdateCh) = mu :: ch ->
  exists w, exec_loop error_text u TakeModelUpdate l =
    (run (startDownload mu) (set_lp_worker w (set_receiver (set_ModelUpdateCh ch l.(lp_receiver)) l)), Ret tt) /\
    sent (lp_worker l) w.
Proof.
  intros Hex Hch. unfold exec_loop. rewrite (bind_Ret _ _ l l l), Hex by done.
  set (l1 := set_receiver _ l). rewrite (bind_Ret _ _ l l1 (Some mu)) by (unfold recv, mbind, GoM_bind, gets, modify; by rewrite Hch).
  destruct (returns_SendStatus "updating" (lp_worker l)) as [b Hb]. exists (run (SendStatus "updating") (lp_worker l)).
  unfold handleModelUpdate. split; [|apply sent_Send].
  rewrite (bind_Ret _ _ l1 (set_lp_worker (run (SendStatus "updating") (lp_worker l)) l1) b); [done|].
  unfold in_worker, zoom. change (lp_worker l1) with (lp_worker l). unfold run, result in *.
  destruct (SendStatus _ _) as [w' r]. cbn in *. by subst r.
Qed.
Lemma attempt_steps i g content l : l.(lp_exited) = false -> l.(lp_downloads) !! i = Some g -> g.(gr_phase) = Fetching ->
  g.(gr_cancelled) = false -> no_download_config g.(gr_update) (lp_worker l) = false ->
  let path := dest_path (lp_worker l) g.(gr_update).(mu_Filename) in
  (lp_worker l).(wk_models) !! path = None ->
  exec_loop error_text u (DownloadStep i (Whole content)) l =
    (run (set_download i (Some (set_phase (Fetched path) g)))
      (set_lp_worker (rename_temporary path content (lp_worker l)) l), Ret tt).
Proof.
  cbv zeta. intros Hex Hg Hp Hc Hn Hm. unfold exec_loop. rewrite (bind_Ret _ _ l l l), Hex by done.
  unfold download_step. rewrite (bind_Ret _ _ l l l.(lp_downloads)), Hg by done. cbv zeta. rewrite Hp.
  rewrite (bind_Ret _ _ l l (lp_worker l)), Hn, Hc by done.
  by rewrite (bind_Ret _ _ _ _ _ (in_worker_eq _ _ _ _ (downloadModel_new _ _ _ Hm))).
Qed.
Lemma install_steps i g path content answer l : l.(lp_exited) = false -> l.(lp_downloads) !! i = Some g ->
  g.(gr_phase) = Fetched path -> (lp_worker l).(wk_models) !! path = Some content ->
  g.(gr_update).(mu_ModelFileHash) = hex_EncodeToString (sha256 content) ->
  exists w, exec_loop error_text u (DownloadStep i answer) l = (set_lp_worker w (run (set_download i None) l), Ret tt) /\
    in_use g.(gr_update) path (hex_EncodeToString (sha256 content)) (lp_worker l) w.
Proof.
  intros Hex Hg Hp Hc Hh. unfold exec_loop. rewrite (bind_Ret _ _ l l l), Hex by done.
  unfold download_step. rewrite (bind_Ret _ _ l l l.(lp_downloads)), Hg by done. cbv zeta. rewrite Hp.
  erewrite bind_Ret by reflexivity. pose proof (wp_install g.(gr_update) path content (lp_worker l) Hc (or_intror Hh)) as Hwp.
  exists (run (install_model g.(gr_update) path) (lp_worker l)). unfold in_worker, zoom.
  change (lp_worker (set_downloads _ l)) with (lp_worker l). unfold wp, run, result in *.
  destruct (install_model _ _ _) as [w r]. cbn in *. destruct Hwp as [-> Hu]. done.
Qed.

Lemma exec_loops_cons e es l l1 : exec_loop error_text u e l = (l1, Ret tt) ->
  exec_loops error_text u (e :: es) l = exec_loops error_text u es l1.
Proof. intros E. unfold exec_loops. cbn [foreach]. by rewrite (bind_Ret _ _ _ _ _ E). Qed.

(** The model of the last update need not be the one in use. Two updates of
    one batch, the second taken while the first, downloaded, waits to be hashed:
    the first is cancelled, but nothing after the download asks for that. When it
    is hashed last, it is the first model that runs, is reported, and is saved for
    the next start, although the manager's last word was the second. *)
Theorem superseded_update_may_win mu1 mu2 c1 c2 r fs :
  let w := r.(rc_worker) in
  let path1 := dest_path w mu1.(mu_Filename) in let path2 := dest_path w mu2.(mu_Filename) in
  r.(rc_ModelUpdateCh) = [mu1; mu2] ->
  no_download_config mu1 w = false -> no_download_config mu2 w = false ->
  w.(wk_models) !! path1 = None -> w.(wk_models) !! path2 = None -> path1 <> path2 -> path1 <> temporary path2 -> path2 <> temporary path1 ->
  mu1.(mu_ModelFileHash) = hex_EncodeToString (sha256 c1) -> mu2.(mu_ModelFileHash) = hex_EncodeToString (sha256 c2) ->
  exists l', exec_loops error_text u
      [TakeModelUpdate; DownloadStep 0 (Whole c1); TakeModelUpdate; DownloadStep 1 (Whole c2); DownloadStep 1 NotFetched; DownloadStep 0 NotFetched]
      (loop_of r fs) = (l', Ret tt) /\
    l'.(lp_downloads) = ∅ /\ (lp_worker l').(wk_lastModelPath) = path1 /\ (lp_worker l').(wk_persisted).(ps_ModelPath) = path1 /\
    (lp_worker l').(wk_conn).(co_llmHash) = ComputeLLMHash mu1.(mu_Role) mu1.(mu_ModelFileHash).
Proof.
  cbv zeta. set (w := r.(rc_worker)). intros Hch N1 N2 M1 M2 Hne Ht1 Ht2 Hh1 Hh2. set (l0 := loop_of r fs).
  destruct (take_update_steps mu1 [mu2] l0 eq_refl Hch) as (w1 & E1 & [l1s Hw1]). change (lp_worker l0) with w in Hw1.
  erewrite exec_loops_cons by exact E1. set (l1 := run _ _).
  pose proof (attempt_steps 0 (Build_goroutine mu1 Fetching false) c1 l1 eq_refl eq_refl eq_refl eq_refl) as E2.
  change (lp_worker l1) with w1 in E2. cbn [gr_update] in E2. subst w1.
  specialize (E2 N1 M1). erewrite exec_loops_cons by exact E2. set (l2 := run _ (set_lp_worker _ _)).
  destruct (take_update_steps mu2 [] l2 eq_refl eq_refl) as (w3 & E3 & [l3s Hw3]).
  erewrite exec_loops_cons by exact E3. set (l3 := run _ _).
  pose proof (attempt_steps 1 (Build_goroutine mu2 Fetching false) c2 l3 eq_refl eq_refl eq_refl eq_refl) as E4.
  change (lp_worker l3) with w3 in E4. cbn [gr_update] in E4. subst w3. change (lp_worker l2) with (rename_temporary (dest_path w mu1.(mu_Filename)) c1 (set_conn (with_sent l1s w.(wk_conn)) w)) in E4.
  specialize (E4 N2). unfold dest_path, rename_temporary in E4. cbn [wk_modelsDir wk_models set_conn set_models] in E4.
  change (wk_modelsDir w +:+ "/" +:+ mu_Filename mu2) with (dest_path w mu2.(mu_Filename)) in E4.
  change (wk_modelsDir w +:+ "/" +:+ mu_Filename mu1) with (dest_path w mu1.(mu_Filename)) in E4.
  rewrite lookup_insert_ne, lookup_delete_ne in E4 by done. specialize (E4 M2). erewrite exec_loops_cons by exact E4. set (l4 := run _ (set_lp_worker _ _)).
  assert (Hm4 : (lp_worker l4).(wk_models) = <[dest_path w mu2.(mu_Filename) := c2]> (delete (temporary (dest_path w mu2.(mu_Filename)))
    (<[dest_path w mu1.(mu_Filename) := c1]> (delete (temporary (dest_path w mu1.(mu_Filename))) w.(wk_models))))) by done.
  destruct (install_steps 1 (Build_goroutine mu2 (Fetched (dest_path w mu2.(mu_Filename))) false) (dest_path w mu2.(mu_Filename)) c2 NotFetched l4
    eq_refl eq_refl eq_refl) as (w5 & E5 & H5); [rewrite Hm4; apply lookup_insert_eq|done|].
  erewrite exec_loops_cons by exact E5. set (l5 := set_lp_worker w5 _).
  destruct (install_steps 0 (Build_goroutine mu1 (Fetched (dest_path w mu1.(mu_Filename))) true) (dest_path w mu1.(mu_Filename)) c1 NotFetched l5
    eq_refl eq_refl eq_refl) as (w6 & E6 & [P6 _ S6 H6 _ _ _ _ _ _]).
  { change (lp_worker l5) with w5. destruct H5 as [_ _ _ _ -> _ _ _ _ _]. rewrite Hm4, lookup_insert_ne, lookup_delete_ne by done. apply lookup_insert_eq. }
  { done. }
  erewrite exec_loops_cons by exact E6. eexists. split; [reflexivity|]. split; [reflexivity|].
  change (lp_worker _) with w6. cbn [gr_update] in *. rewrite P6, S6, H6, Hh1. done.
Qed.
End downloads.

(** ** Witnesses *)

Section witnesses.
#[local] Existing Instances ToyCrypto NoJson AllSent OsEx UpdateFiles.
#[local] Instance linux : UpdaterOs := host_os "linux".

Definition other_update : ModelUpdate :=
  Build_ModelUpdate TypeModelUpdate "r" "m" "q" "m3.gguf" (hex_EncodeToString (sha256 "other")) "" 1 "chat" 1 0 false.
Definition busy_receiver : Receiver :=
  Build_Receiver worker_ex [unit_ex; Build_WorkUnit TypeWorkUnit "u-2" "m" zero_WorkUnitParams []] [sync_update; other_update] [] [].
Definition busy_events : list loop_event :=
  [TakeModelUpdate; TakeUnit true (Answered 200 "{}") 7 0 []; DownloadStep 0 (BrokenOff None); DownloadStep 0 (Whole "weights"); TakeUnit false (ReadFailed "eof") 7 0 [];
   TakeModelUpdate].
Definition error_name (e : update_error) : string := "error".

Lemma every_unit_is_answered_once_witness : exists l', exec_loops error_name None busy_events (loop_of busy_receiver ∅) = (l', Ret tt) /\
  exists new, (lp_worker l').(wk_conn).(co_sent) = [] ++ new /\ length (List.filter (is_reply "u-2") new) = 1.
Proof.
  set (out := exec_loops error_name None busy_events (loop_of busy_receiver ∅)).
  assert (E : exists l', out = (l', Ret tt)) by (eexists; vm_compute; reflexivity). destruct E as [l' E]. exists l'. split; [exact E|].
  destruct (every_unit_is_answered_once error_name None busy_events (loop_of busy_receiver ∅) l' "u-2" E) as (_ & new & Es & _ & Hn).
  exists new. split; [exact Es|]. apply Hn; [reflexivity|intros s; by eexists| |reflexivity].
  repeat constructor; [intros raw [= <-]; by eexists|discriminate].
Defined.

Lemma only_the_last_download_is_live_witness : exists l', exec_loops error_name None busy_events (loop_of busy_receiver ∅) = (l', Ret tt) /\
  [sync_update; other_update] = updates_taken error_name None busy_events (loop_of busy_receiver ∅) ++ [] /\
  gr_cancelled <$> l'.(lp_downloads) !! 0 = Some true.
Proof.
  set (out := exec_loops error_name None busy_events (loop_of busy_receiver ∅)).
  assert (E : exists l', out = (l', Ret tt) /\ gr_cancelled <$> l'.(lp_downloads) !! 0 = Some true /\ l'.(lp_receiver).(rc_ModelUpdateCh) = [])
    by (eexists; vm_compute; repeat split).
  destruct E as (l' & E & Hc & Hr). exists l'. split; [exact E|].
  destruct (only_the_last_download_is_live error_name None busy_events busy_receiver ∅ l' E) as [Hch _]. rewrite Hr in Hch.
  split; [exact Hch|exact Hc].
Defined.

Lemma superseded_update_may_win_witness : exists l', exec_loops error_name None
    [TakeModelUpdate; DownloadStep 0 (Whole "weights"); TakeModelUpdate; DownloadStep 1 (Whole "other"); DownloadStep 1 NotFetched; DownloadStep 0 NotFetched]
    (loop_of busy_receiver ∅) = (l', Ret tt) /\ (lp_worker l').(wk_lastModelPath) = "/models/m2.gguf".
Proof.
  destruct (superseded_update_may_win error_name None sync_update other_update "weights" "other" busy_receiver ∅)
    as (l' & E & _ & Hp & _); try reflexivity; [discriminate..|].
  exists l'. split; [exact E|exact Hp].
Defined.
End witnesses.
