(* ===== verification/ClientMain.v ===== *)
(** * The client's process (cmd/synergia-client/main.go, internal/client/probe)

    From the configuration to the running worker: what a start restores from
    the disk and what it decides, what the callbacks and the tickers of main do
    afterwards, and what a restart keeps. *)

From S2P Require Import Prelude GoStd Strings Url Json Protocol Gorm Workers Gateway Http GpuMonitor ClientState Backend Patch Files Disk Worker Connection.
From S2P Require Import Identity ClientConfig Downloads Updater WorkerLoop.

(** ** URLs *)

Definition llamaPortFrom (llmURL : string) : string :=
  match url_Parse llmURL with
  | Some u => if Port u != "" then Port u else "9877"
  | None => "9877"
  end.

Definition wsToHTTP (wsURL : string) : string :=
  let u := Replace1 wsURL "wss://" "https://" in
  let u := Replace1 u "ws://" "http://" in
  match strings_Index u "//" with
  | Some idx =>
      match strings_Index (drop_str (idx + 2) u) "/" with
      | Some pathIdx => take_str (idx + 2 + pathIdx) u
      | None => u
      end
  | None => u
  end.

Definition localAdminURL (managerWSURL apiKey : string) : string :=
  let wsURL := Replace1 managerWSURL "wss://" "https://" in
  let wsURL := Replace1 wsURL "ws://" "http://" in
  match url_Parse wsURL with
  | None => ""
  | Some u =>
      let host := Hostname u in
      if (host != "localhost") && (host != "127.0.0.1") && (host != "::1") then ""
      else
        let port := if Port u == "" then if u.(u_Scheme) == "https" then "443" else "80" else Port u in
        match Atoi port with
        | None => ""
        | Some portNum =>
            let adminPort := wrap64 (portNum + 1) in
            u.(u_Scheme) +:+ "://" +:+ host +:+ ":" +:+ pretty adminPort +:+ "/?key=" +:+ apiKey
        end
  end.

Example rest_urls : wsToHTTP <$> ["ws://localhost:7500/ws/worker"; "wss://manager.example:443/ws/worker"; "https://m"] =
  ["http://localhost:7500"; "https://manager.example:443"; "https://m"].
Proof. vm_compute. reflexivity. Qed.
(** The brackets of an IPv6 address are lost. *)
Example admin_urls : (fun u => localAdminURL u "key") <$> ["ws://localhost:7500/ws/worker"; "wss://127.0.0.1/ws"; "wss://manager.example"; "ws://[::1]:7500/ws"] =
  ["http://localhost:7501/?key=key"; "https://127.0.0.1:444/?key=key"; ""; "http://::1:7501/?key=key"].
Proof. vm_compute. reflexivity. Qed.

(** [execPath]: [exe] is os.Executable, [resolve] filepath.EvalSymlinks *)
Definition execPath (exe : option string) (resolve : string -> option string) (arg0 : string) : string :=
  match exe with
  | None => arg0
  | Some exe => match resolve exe with None => exe | Some real => real end
  end.

(** ** Starting *)

Definition with_ManagerURL (url : string) (c : Config) : Config :=
  Build_Config url c.(cc_WorkerKey) c.(cc_LLMURL) c.(cc_Model) c.(cc_Quantisation) c.(cc_Role) c.(cc_ModelFile) c.(cc_DataDir)
    c.(cc_DashboardAddr) c.(cc_GPUMonitorInterval) c.(cc_GPUContentionThresh) c.(cc_GPUResumeDelay) c.(cc_AutoApprove)
    c.(cc_Insecure) c.(cc_TLSCACert) c.(cc_Unconfigured).
Definition with_ModelFile (path : string) (c : Config) : Config :=
  Build_Config c.(cc_ManagerURL) c.(cc_WorkerKey) c.(cc_LLMURL) c.(cc_Model) c.(cc_Quantisation) c.(cc_Role) path c.(cc_DataDir)
    c.(cc_DashboardAddr) c.(cc_GPUMonitorInterval) c.(cc_GPUContentionThresh) c.(cc_GPUResumeDelay) c.(cc_AutoApprove)
    c.(cc_Insecure) c.(cc_TLSCACert) c.(cc_Unconfigured).

(** What a start finds: its command line and environment, the arrays of the
    binary, the machine, the random source, the backend's directory, the clock
    and the samples of the calibration. *)
Record Launch := {
  la_args : list string;
  la_env : Getenv;
  la_urlVar : bytes;
  la_keyVar : bytes;
  la_home : option string;
  la_machine : Machine;
  la_generated : option (string * string);
  la_nonce : option string;
  la_backend : Backend.Fs;
  la_now : Z;
  la_samples : list (option Z);
}.

(** The running process. [cp_store] tells whether the state could be read: its
    values are [wk_persisted], which each setter also saves to the file. *)
Record Process := {
  cp_cfg : Config;
  cp_identity : Identity;
  cp_dialing : Dialing;
  cp_store : bool;
  cp_logLevel : string;
  cp_loop : Loop;
}.
Definition cp_worker (p : Process) : Worker := lp_worker p.(cp_loop).
Definition set_loop (l : Loop) (p : Process) : Process :=
  Build_Process p.(cp_cfg) p.(cp_identity) p.(cp_dialing) p.(cp_store) p.(cp_logLevel) l.
Definition set_cp_worker (w : Worker) (p : Process) : Process := set_loop (set_lp_worker w p.(cp_loop)) p.

(** The process ends with a status, serves the setup page, or runs a worker. *)
Inductive started := Ended (status : Z) | SetupMode (cfg : Config) (i : Identity) | Started (p : Process).
Definition Fatal {S} : GoM S started := mret (Ended 1).

Definition nil_dereference : string := "invalid memory address or nil pointer dereference".

Section start.
Context `{Yaml, Keystore, Crypto} `{FileOs, DiskOs, UpdaterOs, Backend.Os, Zerolog}.
(** AppendCertsFromPEM on the pool of the system *)
Context (certs_ok : string -> bool).

(** The level [initLogger] sets. *)
Definition initLogger_level (env : Getenv) : string :=
  let lvl := env "LOG_LEVEL" in
  if lvl != "" then default "info" (ParseLevel (ToLower lvl)) else "info".

(** The log of the last run is dropped. *)
Definition log_path (dataDir : string) : string := path_Join dataDir "client.log".
Definition openLogFile (dataDir : string) : GoM Volume unit :=
  when (create_ok (log_path dataDir)) (disk_op (<[log_path dataDir := ""]>)).

Definition load_certs (path : string) : GoM Volume bool :=
  if path == "" then mret true
  else
    caCert ← os_ReadFile path;
    mret match caCert with Content caCert => certs_ok caCert | _ => false end.

(** [wstate.Get()]; there may be no store *)
Definition Get {A} (f : Persisted -> A) (wstate : option Persisted) : GoM Volume A :=
  match wstate with Some p => mret (f p) | None => panic nil_dereference end.

Definition restore_level (env : Getenv) (wstate : option Persisted) (level : string) : GoM Volume string :=
  if env "LOG_LEVEL" == "" then
    saved ← Get ps_LogLevel wstate;
    mret (if saved != "" then default level (ParseLevel saved) else level)
  else mret level.
Definition restore_url (wstate : option Persisted) (cfg : Config) : GoM Volume Config :=
  if cfg.(cc_ManagerURL) == "" then
    saved ← Get ps_ManagerURL wstate;
    mret (if saved != "" then with_ManagerURL saved cfg else cfg)
  else mret cfg.
Definition restore_model (wstate : option Persisted) (cfg : Config) : GoM Volume Config :=
  if cfg.(cc_ModelFile) == "" then
    saved ← Get ps_ModelPath wstate;
    if saved != "" then
      there ← Disk.os_Stat saved;
      mret (if there : bool then with_ModelFile saved cfg else cfg)
    else mret cfg
  else mret cfg.

(** [None]: the model file cannot be hashed. *)
Definition initial_hash (cfg : Config) : GoM Volume (option string) :=
  if cfg.(cc_ModelFile) != "" then
    data ← os_ReadFile cfg.(cc_ModelFile);
    match data with
    | Content data =>
        match HashFile (Some data) with
        | None => mret None
        | Some fileHash =>
            let initialHash := ComputeLLMHash cfg.(cc_Role) fileHash in
            Workers.slice fileHash 16 ;; Workers.slice initialHash 16 ;;
            mret (Some initialHash)
        end
    | _ => mret None
    end
  else mret (Some "").

Definition models_dir (cfg : Config) : string :=
  let modelsDir := path_Dir cfg.(cc_ModelFile) in
  if (modelsDir == "") || (modelsDir == ".") then path_Join cfg.(cc_DataDir) "models" else modelsDir.

Definition start_backend (cfg : Config) (b : Backend.Manager) : Backend.Manager :=
  match result IsInstalled b with
  | Ret true =>
      if cfg.(cc_ModelFile) == "" then b
      else run (Start (llamaPortFrom cfg.(cc_LLMURL)) cfg.(cc_ModelFile) DefaultLlamaParams) b
  | _ => b
  end.

(** connection.New and the identity it dials with *)
Definition dialing_of (cfg : Config) (i : Identity) : Dialing :=
  {| d_workerKey := cfg.(cc_WorkerKey); d_fingerprint := i.(id_Fingerprint); d_publicKey := i.(id_PublicKey);
     d_privateKey := i.(id_PrivateKey); d_model := cfg.(cc_Model); d_quantisation := cfg.(cc_Quantisation);
     d_version := up_Version; d_GOOS := up_GOOS; d_GOARCH := up_GOARCH |}.

(** worker.New with what main wires into it; the models are the files of the disk *)
Definition worker_of (la : Launch) (wstate : option Persisted) (cfg : Config) (i : Identity) (hash : string) (fs : Files) : Worker :=
  let managerHTTPURL := wsToHTTP cfg.(cc_ManagerURL) in
  let backendMgr := NewManager managerHTTPURL (path_Join cfg.(cc_DataDir) "backend") la.(la_backend) in
  {| wk_conn := {| co_connected := false; co_llmHash := hash; co_backendHash := backendMgr.(bm_currentHash);
                   co_backendVersion := ""; co_gpuAvg := 0; co_sent := [] |};
     wk_state := NewState la.(la_now) i.(id_Fingerprint) cfg.(cc_Model) cfg.(cc_Quantisation);
     wk_monitor := run (CalibrateBaseline la.(la_samples) 5) (NewMonitor cfg.(cc_GPUContentionThresh) cfg.(cc_GPUResumeDelay));
     wk_reports := [];
     wk_backend := Some (start_backend cfg backendMgr);
     wk_persisted := default zero_Persisted wstate;
     wk_lastModelPath := ""; wk_lastLlamaParams := zero_LlamaParams;
     wk_models := fs; wk_modelsDir := models_dir cfg; wk_managerHTTPURL := managerHTTPURL;
     wk_privateKey := i.(id_PrivateKey); wk_fingerprint := i.(id_Fingerprint);
     wk_port := llamaPortFrom cfg.(cc_LLMURL) |}.

Definition process_of (la : Launch) (wstate : option Persisted) (level : string) (cfg : Config) (i : Identity) (hash : string)
    (fs : Files) : Process :=
  {| cp_cfg := cfg; cp_identity := i; cp_dialing := dialing_of cfg i; cp_store := bool_decide (is_Some wstate);
     cp_logLevel := level;
     cp_loop := loop_of (Build_Receiver (worker_of la wstate cfg i hash fs) [] [] [] []) fs |}.

(** main from the configuration on, without a manager to connect to
    ([runUnconfigured]) and with one. *)
Definition setup_mode (la : Launch) (cfg : Config) : GoM Volume started :=
  i ← LoadOrCreate la.(la_machine) la.(la_generated) la.(la_nonce) cfg.(cc_DataDir);
  match i with
  | inr _ => Fatal
  | inl i => mret (SetupMode cfg i)
  end.
Definition start_process (la : Launch) (wstate : option Persisted) (level : string) (cfg : Config) : GoM Volume started :=
  i ← LoadOrCreate la.(la_machine) la.(la_generated) la.(la_nonce) cfg.(cc_DataDir);
  match i with
  | inr _ => Fatal
  | inl i =>
      hash ← initial_hash cfg;
      match hash with
      | None => Fatal
      | Some hash =>
          fs ← gets dk_files;
          mret (Started (process_of la wstate level cfg i hash fs))
      end
  end.
Definition configured (la : Launch) (cfg : Config) : GoM Volume started :=
  certs ← load_certs cfg.(cc_TLSCACert);
  if negb certs then Fatal
  else
    wstate ← LoadState cfg.(cc_DataDir);
    wstate ← match wstate with Some _ => mret wstate | None => LoadState cfg.(cc_DataDir) end;
    level ← restore_level la.(la_env) wstate (initLogger_level la.(la_env));
    cfg ← restore_url wstate cfg;
    cfg ← restore_model wstate cfg;
    start_process la wstate level cfg.

Definition version_args : list string := ["version"; "--version"; "-version"].
Definition main (la : Launch) : GoM Volume started :=
  if existsb (fun v => head la.(la_args) == Some v) version_args then mret (Ended 0)
  else
    r ← ClientConfig.Load la.(la_env) la.(la_args) la.(la_urlVar) la.(la_keyVar) la.(la_home);
    match r with
    | Exits status => mret (Ended status)
    | LoadFailed _ => Fatal
    | Loaded cfg =>
        openLogFile cfg.(cc_DataDir) ;;
        if cfg.(cc_Unconfigured) then setup_mode la cfg else configured la cfg
    end.
End start.

(** ** Running *)

(** The answer to the health request of llm/client.go. *)
Inductive health_answer := HealthFailed (err : string) | HealthStatus (status : Z).
Definition Health (r : health_answer) : option string :=
  match r with
  | HealthFailed err => Some ("llama-server unreachable: " +:+ err)
  | HealthStatus status => if status != 200%Z then Some ("llama-server health check returned " +:+ pretty status) else None
  end.

(** What happens to the process: the connection is dialed, delivers and is
    lost, the callback of a connection runs, the loop and the downloads proceed,
    tickers tick, and the user acts on the tray or the dashboard. *)
Inductive process_event :=
  | EvDialed
  | EvOnConnect
  | EvReceived (message : frame)
  | EvLost
  | EvHeartbeat
  | EvLoop (e : loop_event)
  | EvGPUCheck (now : Z) (probe : option Z)
  | EvGPUAverage
  | EvProbeConnection
  | EvProbeGPU (supported : bool) (reason driver driverVersion : string)
  | EvProbeLLM (answer : health_answer)
  | EvPause
  | EvResume
  | EvLogLevel (level : string)
  | EvMinute (hour minute : Z).

Section running.
Context `{FileOs, DiskOs, UpdaterOs, Crypto, JsonText, ClientSocket, Backend.Os}.
Context (error_text : update_error -> string).

Definition on_cp {A} (m : GoM Worker A) : GoM Process A := zoom cp_worker set_cp_worker m.
Definition on_loop {A} (m : GoM Loop A) : GoM Process A := zoom cp_loop set_loop m.

Definition set_connection (v : bool) : GoM Worker unit :=
  modify (fun w => set_conn {| co_connected := v; co_llmHash := w.(wk_conn).(co_llmHash);
    co_backendHash := w.(wk_conn).(co_backendHash); co_backendVersion := w.(wk_conn).(co_backendVersion);
    co_gpuAvg := w.(wk_conn).(co_gpuAvg); co_sent := w.(wk_conn).(co_sent) |} w).
Definition SetGPUAvg (avg : Z) : GoM Worker unit :=
  modify (fun w => set_conn {| co_connected := w.(wk_conn).(co_connected); co_llmHash := w.(wk_conn).(co_llmHash);
    co_backendHash := w.(wk_conn).(co_backendHash); co_backendVersion := w.(wk_conn).(co_backendVersion);
    co_gpuAvg := avg; co_sent := w.(wk_conn).(co_sent) |} w).
Definition SendInitialSync (hasBinary hasModel : bool) (role : string) : GoM Worker bool :=
  Send (WInitialSync {| is_Type := TypeInitialSync; is_HasBinary := hasBinary; is_HasModel := hasModel; is_Role := role |}).
Definition SendHeartbeat : GoM Worker bool := Send (WHeartbeat {| hb_Type := TypeHeartbeat |}).

Definition has_backend (w : Worker) : bool :=
  match w.(wk_backend) with
  | Some b => match result IsInstalled b with Ret v => v | _ => false end
  | None => false
  end.
Definition has_model (cfg : Config) (w : Worker) : bool :=
  (cfg.(cc_ModelFile) != "") &&
  (bool_decide (is_Some (w.(wk_models) !! cfg.(cc_ModelFile))) && stat_ok cfg.(cc_ModelFile)).

(** The callback of every connection; it runs in a goroutine without a recover. *)
Definition save_url (cfg : Config) (store : bool) : GoM Worker unit :=
  if cfg.(cc_ManagerURL) != "" then
    if negb store then panic nil_dereference
    else
      w ← gets id;
      when (w.(wk_persisted).(ps_ManagerURL) != cfg.(cc_ManagerURL))
        (modify (set_persisted (SetManagerURL cfg.(cc_ManagerURL) w.(wk_persisted))))
  else skip.
Lemma save_url_runs cfg w : exists p, save_url cfg true w = (set_persisted p w, Ret tt).
Proof.
  unfold save_url. destruct (_ != ""); [|exists w.(wk_persisted); by destruct w]. cbn [negb]. rewrite (bind_Ret _ _ w w w) by done.
  destruct (_ != _); cbn [when]; [by eexists|exists w.(wk_persisted); by destruct w].
Qed.
Definition onConnect (cfg : Config) (store : bool) : GoM Worker unit :=
  save_url cfg store ;;
  w ← gets id;
  let hasBinary := has_backend w in
  let hasModel := has_model cfg w in
  if negb hasBinary || negb hasModel then SendInitialSync hasBinary hasModel cfg.(cc_Role) ;; skip
  else SendStatus "available" ;; skip.

Definition gpu_average : GoM Worker unit :=
  m ← gets wk_monitor;
  let stats := Stats m in
  SetGPUAvg stats.(gs_BaselineMean) ;;
  when (bool_decide (60 <= stats.(gs_SampleCount))%Z) (on_monitor (SetBaseline stats.(gs_BaselineMean))).

(** internal/client/probe *)
Definition runConnection : GoM Worker unit :=
  w ← gets id;
  on_snapshot (ClientState.SetConnected w.(wk_conn).(co_connected) w.(wk_conn).(co_gpuAvg)).
Definition runGPU (supported : bool) (reason driver driverVersion : string) : GoM Worker unit :=
  m ← gets wk_monitor;
  on_snapshot (SetGPU m.(m_state) m.(m_lastUtilization) (Stats m) supported reason driver driverVersion).
Definition runLLM (answer : health_answer) : GoM Worker unit :=
  match Health answer with
  | Some err => on_snapshot (SetLLM false err)
  | None => on_snapshot (SetLLM true "")
  end.

Definition pause : GoM Worker unit := on_snapshot (SetPaused true) ;; SendStatus "paused" ;; skip.
Definition resume : GoM Worker unit := on_snapshot (SetPaused false) ;; SendStatus "available" ;; skip.
Definition saveLogLevel (level : string) : GoM Worker unit :=
  modify (fun w => set_persisted (SetLogLevel level w.(wk_persisted)) w).

Definition exit_loop (l : Loop) : Loop :=
  Build_Loop l.(lp_receiver) l.(lp_downloads) l.(lp_cancelModelDL) l.(lp_started) l.(lp_host) true.
(** A tick of [scheduledRestart], which restarts an idle process at 3 AM. *)
Definition scheduledRestart (hour minute : Z) : GoM Loop unit :=
  l ← gets id;
  when ((hour == 3%Z) && (minute == 0%Z) && negb (lp_worker l).(wk_state).(s_processing)) (modify exit_loop).

Definition updater_of (cfg : Config) : Updater :=
  {| u_workerKey := cfg.(cc_WorkerKey); u_managerHTTPURL := wsToHTTP cfg.(cc_ManagerURL) |}.

Definition exec_process (e : process_event) : GoM Process unit :=
  p ← gets id;
  if p.(cp_loop).(lp_exited) then skip else
  match e with
  | EvDialed => on_cp (set_connection true)
  | EvOnConnect => on_cp (onConnect p.(cp_cfg) p.(cp_store))
  | EvReceived message =>
      if negb (cp_worker p).(wk_conn).(co_connected) then skip
      else
        continue ← on_loop (zoom lp_receiver set_receiver (read_frame message));
        if continue : bool then skip else on_cp (set_connection false)
  | EvLost => on_cp (set_connection false)
  | EvHeartbeat => on_cp (SendHeartbeat ;; skip)
  | EvLoop e => on_loop (exec_loop error_text (Some (updater_of p.(cp_cfg))) e)
  | EvGPUCheck now probe => on_cp (on_monitor (check now probe))
  | EvGPUAverage => on_cp gpu_average
  | EvProbeConnection => on_cp runConnection
  | EvProbeGPU supported reason driver driverVersion => on_cp (runGPU supported reason driver driverVersion)
  | EvProbeLLM answer => on_cp (runLLM answer)
  | EvPause => on_cp pause
  | EvResume => on_cp resume
  | EvLogLevel level => on_cp (saveLogLevel level)
  | EvMinute hour minute => on_loop (scheduledRestart hour minute)
  end.
Definition exec_events (es : list process_event) : GoM Process unit := foreach es exec_process.
End running.

(** ** A restart *)

Section restart.
Context `{Yaml, KeystoreLaws, CryptoLaws} `{FileOs, DiskOs, UpdaterOs, Backend.Os, Zerolog} (certs_ok : string -> bool).

Lemma plain_name' (s : string) : existsb (fun x => x == s) ["identity.enc"; "identity.pub"; state_fileName; "client.log"] = true -> plain s.
Proof.
  intros [x [Hx ->%bool_decide_eq_true]]%existsb_exists.
  destruct Hx as [<-|[<-|[<-|[<-|[]]]]]; (repeat split; try discriminate; apply (bool_decide_unpack _); vm_compute; done).
Qed.
(** The log file is none of the files a start reads in the data directory. *)
Lemma log_path_ne dir name : dir <> "" -> existsb (fun x => x == name) ["identity.enc"; "identity.pub"; state_fileName] = true ->
  log_path dir <> path_Join dir name.
Proof.
  intros Hd Hn E. apply path_Join_inj in E; [|done|by apply plain_name'|].
  - subst name. by vm_compute in Hn.
  - apply plain_name'. cbn in *. by destruct (_ == name), (_ == name), (_ == name).
Qed.

Lemma openLogFile_runs dir d : exists d1, openLogFile dir d = (d1, Ret tt) /\
  forall path, path <> log_path dir -> d1.(dk_files) !! path = d.(dk_files) !! path.
Proof.
  unfold openLogFile. destruct (create_ok _); cbn [when].
  - eexists. split; [reflexivity|]. intros path Hp. cbn. by rewrite lookup_insert_ne.
  - exists d. done.
Qed.

Lemma ReadFile_same path d d1 : d1.(dk_files) !! path = d.(dk_files) !! path ->
  exists r, os_ReadFile path d = (d, Ret r) /\ os_ReadFile path d1 = (d1, Ret r).
Proof. intros E. unfold os_ReadFile, gets. rewrite E. by eexists. Qed.
Lemma loadEncrypted_same m enc d d1 : d1.(dk_files) !! enc = d.(dk_files) !! enc ->
  exists r, loadEncrypted m enc d = (d, Ret r) /\ loadEncrypted m enc d1 = (d1, Ret r).
Proof.
  intros (r & E & E1)%ReadFile_same. unfold loadEncrypted. rewrite (bind_Ret _ _ _ _ _ E), (bind_Ret _ _ _ _ _ E1). by eexists.
Qed.
Lemma load_same m enc pub d d1 : d1.(dk_files) !! enc = d.(dk_files) !! enc -> d1.(dk_files) !! pub = d.(dk_files) !! pub ->
  forall r, load m enc pub d = (d, r) -> load m enc pub d1 = (d1, r).
Proof.
  intros (re & Re & Re1)%(loadEncrypted_same m) (rp & Rp & Rp1)%ReadFile_same r. unfold load.
  rewrite (bind_Ret _ _ _ _ _ Rp), (bind_Ret _ _ _ _ _ Rp1). destruct rp as [| |c]; [by intros [= <-]..|].
  destruct (pem_Decode c); [|by intros [= <-]]. rewrite (bind_Ret _ _ _ _ _ Re), (bind_Ret _ _ _ _ _ Re1). by intros [= <-].
Qed.

(** The identity of a disk that has one, after the log file is opened. *)
Lemma identity_after_log la dir i d d1 : dir <> "" -> dir_ok dir = true -> (forall path, stat_ok path = true) ->
  is_Some (d.(dk_files) !! path_Join dir "identity.enc") ->
  (forall path, path <> log_path dir -> d1.(dk_files) !! path = d.(dk_files) !! path) ->
  LoadOrCreate la.(la_machine) la.(la_generated) la.(la_nonce) dir d = (d, Ret (inl i)) ->
  LoadOrCreate la.(la_machine) la.(la_generated) la.(la_nonce) dir d1 = (d1, Ret (inl i)).
Proof.
  intros Hne Hd Hs He Hsame E.
  assert (Henc : d1.(dk_files) !! path_Join dir "identity.enc" = d.(dk_files) !! path_Join dir "identity.enc")
    by (apply Hsame; symmetry; by apply log_path_ne).
  assert (Hpub : d1.(dk_files) !! path_Join dir "identity.pub" = d.(dk_files) !! path_Join dir "identity.pub")
    by (apply Hsame; symmetry; by apply log_path_ne).
  rewrite start_loads in E by done. rewrite start_loads by (done || by rewrite Henc). by eapply load_same.
Qed.

Definition restored_level (la : Launch) (p : Persisted) : string :=
  if (la.(la_env) "LOG_LEVEL" == "") && (p.(ps_LogLevel) != "")
  then default (initLogger_level la.(la_env)) (ParseLevel p.(ps_LogLevel)) else initLogger_level la.(la_env).

Lemma main_resumes la d cfg i p content :
  let dir := cfg.(cc_DataDir) in let path := p.(ps_ModelPath) in
  existsb (fun v => head la.(la_args) == Some v) version_args = false ->
  ClientConfig.Load la.(la_env) la.(la_args) la.(la_urlVar) la.(la_keyVar) la.(la_home) d = (d, Ret (Loaded cfg)) ->
  cfg.(cc_Unconfigured) = false -> cfg.(cc_ManagerURL) <> "" -> cfg.(cc_TLSCACert) = "" -> cfg.(cc_ModelFile) = "" ->
  dir <> "" -> dir_ok dir = true -> (forall path, stat_ok path = true) -> (forall path data, read_ok path data = true) ->
  state_of dir d.(dk_files) = Some p -> path <> "" -> d.(dk_files) !! path = Some content -> path <> log_path dir ->
  is_Some (d.(dk_files) !! path_Join dir "identity.enc") ->
  LoadOrCreate la.(la_machine) la.(la_generated) la.(la_nonce) dir d = (d, Ret (inl i)) ->
  exists d1, main certs_ok la d = (d1, Ret (Started (process_of la (Some p) (restored_level la p) (with_ModelFile path cfg) i
      (ComputeLLMHash cfg.(cc_Role) (hex_EncodeToString (sha256 content))) d1.(dk_files)))) /\
    forall q, q <> log_path dir -> d1.(dk_files) !! q = d.(dk_files) !! q.
Proof.
  cbv zeta. intros Hv Eload Hun Hurl Htls Hmf Hne Hd Hs Hr Hst Hp Hc Hlog He Hid.
  unfold main. rewrite Hv, (bind_Ret _ _ _ _ _ Eload). destruct (openLogFile_runs cfg.(cc_DataDir) d) as (d1 & Eo & Hsame).
  rewrite (bind_Ret _ _ _ _ _ Eo), Hun. exists d1. split; [|exact Hsame].
  unfold configured, load_certs. rewrite Htls. rewrite (bind_Ret _ _ d1 d1 true) by done. cbn [negb].
  assert (Hst1 : state_of cfg.(cc_DataDir) d1.(dk_files) = Some p).
  { unfold state_of in *. rewrite Hsame; [done|]. symmetry. by apply log_path_ne. }
  rewrite (bind_Ret _ _ d1 d1 (Some p)) by (by rewrite LoadState_reads, Hst1). rewrite (bind_Ret _ _ d1 d1 (Some p)) by done.
  rewrite (bind_Ret _ _ d1 d1 (restored_level la p)).
  2: { unfold restore_level, restored_level, Get. destruct (la_env la "LOG_LEVEL" == ""); [|done].
       rewrite (bind_Ret _ _ d1 d1 p.(ps_LogLevel)) by done. by destruct (p.(ps_LogLevel) == ""). }
  rewrite (bind_Ret _ _ d1 d1 cfg) by (unfold restore_url; by rewrite bool_decide_eq_false_2).
  rewrite (bind_Ret _ _ d1 d1 (with_ModelFile p.(ps_ModelPath) cfg)).
  2: { unfold restore_model, Get. rewrite Hmf, (bool_decide_eq_true_2 (_ = _)) by done. rewrite (bind_Ret _ _ d1 d1 p.(ps_ModelPath)) by done.
       rewrite bool_decide_eq_false_2 by done. cbn [negb]. unfold Disk.os_Stat. rewrite (bind_Ret _ _ d1 d1 true); [done|].
       unfold gets. rewrite Hsame, Hc, Hs by done. done. }
  unfold start_process. cbn [with_ModelFile cc_DataDir]. rewrite (bind_Ret _ _ d1 d1 (inl i)) by (by apply (identity_after_log la _ i d d1)).
  set (hash := ComputeLLMHash _ _). rewrite (bind_Ret _ _ d1 d1 (Some hash)); [by rewrite (bind_Ret _ _ d1 d1 d1.(dk_files))|].
  unfold initial_hash. cbn [with_ModelFile cc_ModelFile cc_Role]. rewrite bool_decide_eq_false_2 by done. cbn [negb].
  rewrite (bind_Ret _ _ d1 d1 (Content content)) by (unfold os_ReadFile, gets; by rewrite Hsame, Hc, Hr).
  cbn [HashFile mbind option_bind]. fold hash.
  assert (Hl1 : (16 <= String.length (hex_EncodeToString (sha256 content)))%nat) by (rewrite length_hex, sha256_length; lia).
  assert (Hl2 : (16 <= String.length hash)%nat) by (unfold hash; rewrite length_ComputeLLMHash; lia).
  unfold Workers.slice. rewrite !slice_to_ok by done. done.
Qed.

(** The backend a start runs, when its binary is installed. *)
Lemma start_backend_runs cfg b binary : read_file b.(bm_fs) b.(bm_dir) binaryName = Some binary -> cfg.(cc_ModelFile) <> "" ->
  let args := BuildArgs (llamaPortFrom cfg.(cc_LLMURL)) cfg.(cc_ModelFile) DefaultLlamaParams in
  (start_backend cfg b).(bm_fs) = b.(bm_fs) /\ (start_backend cfg b).(bm_dir) = b.(bm_dir) /\
  (exec_ok binary args = true -> (start_backend cfg b).(bm_proc) = Some (binary, args)).
Proof.
  intros Hb Hm. cbv zeta. unfold start_backend. assert (Ei : result IsInstalled b = Ret true) by (unfold result, IsInstalled, gets; cbn [snd]; by rewrite Hb).
  rewrite Ei, bool_decide_eq_false_2 by done. unfold Start, Stop, run. rewrite (bind_Ret _ _ b (set_proc None b) tt) by done.
  rewrite (bind_Ret _ _ _ (set_proc None b) (set_proc None b)) by done. cbn [bm_fs bm_dir set_proc]. rewrite Hb. cbv zeta.
  by destruct (exec_ok binary _).
Qed.

(** The state file of the disk after a save that went through. *)
Lemma saved_state `{!YamlLaws} now dir p (fs : Files) : is_Some (yaml_Marshal p now) ->
  (forall path, create_ok path = true) -> (forall a b, rename_ok a b = true) -> (forall path data, read_ok path data = true) ->
  (forall path data, (String.length data <= written path data)%nat) ->
  let d := run (save_state now dir p) (disk_of fs) in
  state_of dir d.(dk_files) = Some p /\
  forall path, path <> state_path dir -> path <> state_path dir +:+ ".tmp" -> d.(dk_files) !! path = fs !! path.
Proof.
  intros [data Hm] Hc Hrn Hr Hw. cbv zeta. destruct (wp_save now dir p (disk_of fs)) as (_ & _ & [_ Hsame] & Hfin).
  split; [by apply (Hfin data)|exact Hsame].
Qed.


(** What the callback of a connection sends for a worker that lacks nothing. *)
Lemma onConnect_available `{!JsonText, !ClientSocket} cfg w : (forall l m, send_ok l m = true) -> w.(wk_conn).(co_connected) = true ->
  has_backend w = true -> has_model cfg w = true ->
  wp (onConnect cfg true) (fun w' r => r = Ret tt /\ w'.(wk_state) = w.(wk_state) /\
    w'.(wk_conn).(co_sent) = w.(wk_conn).(co_sent) ++ [WStatus {| st_Type := TypeStatus; st_State := "available";
      st_LLMHash := w.(wk_conn).(co_llmHash); st_BackendHash := w.(wk_conn).(co_backendHash);
      st_BackendVersion := w.(wk_conn).(co_backendVersion); st_GPUAvg := w.(wk_conn).(co_gpuAvg) |}]) w.
Proof.
  intros Hs Hc Hb Hm. unfold onConnect. apply wp_bind.
  destruct (save_url_runs cfg w) as [p E]. eapply wp_eq; [exact E|]. cbv beta iota. apply wp_bind, wp_gets. cbv zeta.
  change (has_backend (id (set_persisted p w))) with (has_backend w). change (has_model cfg (id (set_persisted p w))) with (has_model cfg w).
  rewrite Hb, Hm. cbn [negb orb]. apply wp_bind. unfold SendStatus. apply wp_bind, wp_gets. eapply wp_eq.
  { unfold Send. cbn. rewrite Hc, Hs. reflexivity. }
  cbv beta iota. by apply wp_ret.
Qed.
End restart.

(** ** The worker a restart is recognised as *)

Section recognised.
Context `{Yaml, KeystoreLaws, CryptoLaws} `{FileOs, DiskOs, UpdaterOs, Backend.Os, Zerolog} (certs_ok : string -> bool).

(** The steps before the identity only read, and keep the data directory. *)
Definition restoring (cfg : Config) (m : GoM Volume Config) : Prop :=
  forall d, (m d).1 = d /\ forall cfg', result m d = Ret cfg' ->
    cfg'.(cc_DataDir) = cfg.(cc_DataDir) /\ cfg'.(cc_WorkerKey) = cfg.(cc_WorkerKey).
Lemma restoring_url wstate cfg : restoring cfg (restore_url wstate cfg).
Proof.
  intros d. unfold restore_url, Get, result. destruct (_ == ""); [|split; [done|]; by intros cfg' [= <-]].
  destruct wstate as [p|]; [|done]. rewrite (bind_Ret _ _ d d p.(ps_ManagerURL)) by done. split; [done|]. intros cfg' [= <-].
  by destruct (_ != "").
Qed.
Lemma restoring_model wstate cfg : restoring cfg (restore_model wstate cfg).
Proof.
  intros d. unfold restore_model, Get, result. destruct (_ == ""); [|split; [done|]; by intros cfg' [= <-]].
  destruct wstate as [p|]; [|done]. rewrite (bind_Ret _ _ d d p.(ps_ModelPath)) by done.
  destruct (_ != ""); [|split; [done|]; by intros cfg' [= <-]]. unfold Disk.os_Stat, mbind, GoM_bind, gets. cbn.
  split; [done|]. intros cfg' [= <-]. by destruct (_ && _).
Qed.
Lemma initial_hash_reads cfg : keeps eq (initial_hash cfg) /\ forall d h, result (initial_hash cfg) d = Ret (Some h) ->
  h = "" \/ (16 <= String.length h)%nat.
Proof.
  unfold initial_hash, os_ReadFile, Workers.slice. split; [keeps_tac|]. intros d h. destruct (_ != ""); [|intros [= <-]; by left].
  unfold result, mbind, GoM_bind, gets. destruct (_ !! _) as [c|]; [|done]. destruct (read_ok _ _); [|done]. cbn [HashFile mbind option_bind].
  destruct (slice_to _ 16); [|done]. cbn. destruct (slice_to _ 16) eqn:E; [|done]. intros [= <-]. right. unfold slice_to in E.
  rewrite length_ComputeLLMHash. lia.
Qed.

(** Where the identity of a started process comes from, and what it starts with:
    [da] is the disk before. *)
Definition identified (la : Launch) (da d1 : Volume) (p : Process) : Prop :=
  LoadOrCreate la.(la_machine) la.(la_generated) la.(la_nonce) p.(cp_cfg).(cc_DataDir) da = (d1, Ret (inl p.(cp_identity))) /\
  p.(cp_dialing) = dialing_of p.(cp_cfg) p.(cp_identity) /\
  ((cp_worker p).(wk_conn).(co_llmHash) = "" \/ (16 <= String.length (cp_worker p).(wk_conn).(co_llmHash))%nat).
Lemma wp_start_process la wstate level cfg da :
  wp (start_process la wstate level cfg) (fun d1 r => forall p, r = Ret (Started p) -> p.(cp_cfg) = cfg /\ identified la da d1 p) da.
Proof.
  unfold start_process. apply wp_bind. unfold wp at 1, run, result.
  destruct (LoadOrCreate la.(la_machine) la.(la_generated) la.(la_nonce) cfg.(cc_DataDir) da) as [d1 r] eqn:E. cbn [fst snd].
  destruct r as [[i|e]|e|]; [|by apply wp_ret|done..]. destruct (initial_hash_reads cfg) as [Hk Hl]. apply wp_bind.
  specialize (Hk d1). specialize (Hl d1). unfold wp at 1. unfold run, result in *. destruct (initial_hash cfg d1) as [d2 h]. cbn [fst snd] in *. subst d2.
  destruct h as [[h|]|e|]; [|by apply wp_ret|done..]. apply wp_bind, wp_gets, wp_ret. intros p [= <-]. split; [done|].
  split; [exact E|]. split; [done|by apply Hl].
Qed.
Lemma wp_main la d : wp (main certs_ok la) (fun d1 r => forall p, r = Ret (Started p) -> exists da,
    (forall path, path <> log_path p.(cp_cfg).(cc_DataDir) -> da.(dk_files) !! path = d.(dk_files) !! path) /\
    identified la da d1 p) d.
Proof.
  unfold main. destruct (existsb _ _); [by apply wp_ret|]. apply wp_bind, (wp_keeps eq).
  { unfold ClientConfig.Load, LoadState, os_ReadFile. destruct (client_flag_Parse _); [|apply keeps_ret, _]. keeps_tac. }
  intros d0 [[status|e|cfg]|e|] <-; [by apply wp_ret|by apply wp_ret| |done..].
  destruct (openLogFile_runs cfg.(cc_DataDir) d) as (da & Eo & Hsame). apply wp_bind, (wp_eq _ _ _ _ _ Eo).
  destruct cfg.(cc_Unconfigured).
  { unfold setup_mode. apply wp_bind, (wp_keeps (fun _ _ => True)); [done|]. intros d2 [[i|e]|e|] _; try (by apply wp_ret); done. }
  unfold configured. apply wp_bind, (wp_keeps eq); [unfold load_certs, os_ReadFile; keeps_tac|].
  intros d0 [[]|e|] <-; [cbn [negb]|by apply wp_ret|done..].
  apply wp_bind, (wp_keeps eq); [unfold LoadState, os_ReadFile; keeps_tac|]. intros d0 [ws|e|] <-; [|done..].
  apply wp_bind, (wp_keeps eq); [unfold LoadState, os_ReadFile; destruct ws; keeps_tac|]. intros d0 [ws'|e|] <-; [|done..].
  apply wp_bind, (wp_keeps eq); [unfold restore_level, Get; keeps_tac|]. intros d0 [level|e|] <-; [|done..].
  apply wp_bind. destruct (restoring_url ws' cfg da) as [E1 Hc1]. unfold wp at 1, run. rewrite E1.
  destruct (result (restore_url ws' cfg) da) as [cfg1|e|]; [|done..]. specialize (Hc1 _ eq_refl) as [D1 _].
  apply wp_bind. destruct (restoring_model ws' cfg1 da) as [E2 Hc2]. unfold wp at 1, run. rewrite E2.
  destruct (result (restore_model ws' cfg1) da) as [cfg2|e|]; [|done..]. specialize (Hc2 _ eq_refl) as [D2 _].
  eapply wp_mono; [apply wp_start_process|]. intros d2 r Hr p Hp. destruct (Hr p Hp) as [Ecfg Hid]. exists da. split; [|exact Hid].
  by rewrite Ecfg, D2, D1.
Qed.

(** The identity a second start comes to. *)
Lemma second_start la1 la2 d d1 d2 d3 p1 p2 nonce : let dir := p1.(cp_cfg).(cc_DataDir) in
  main certs_ok la1 d = (d1, Ret (Started p1)) -> main certs_ok la2 d2 = (d3, Ret (Started p2)) ->
  d2.(dk_files) !! path_Join dir "identity.enc" = d1.(dk_files) !! path_Join dir "identity.enc" ->
  d2.(dk_files) !! path_Join dir "identity.pub" = d1.(dk_files) !! path_Join dir "identity.pub" ->
  la2.(la_machine) = la1.(la_machine) -> p2.(cp_cfg).(cc_DataDir) = dir -> la1.(la_nonce) = Some nonce -> String.length nonce = NonceSize ->
  dir <> "" -> dir_ok dir = true -> (forall path, stat_ok path = true) -> (forall path data, read_ok path data = true) ->
  p2.(cp_identity) = p1.(cp_identity) /\ d3.(dk_files) !! path_Join dir "identity.enc" = d1.(dk_files) !! path_Join dir "identity.enc".
Proof.
  cbv zeta. intros E1 E2 Henc Hpub Hm Hdir Hn Hlen Hne Hd Hs Hr.
  pose proof (wp_main la1 d) as W1. pose proof (wp_main la2 d2) as W2. unfold wp, run, result in W1, W2. rewrite E1 in W1. rewrite E2 in W2.
  destruct (W1 p1 eq_refl) as (da & _ & L1 & _). destruct (W2 p2 eq_refl) as (db & Hsame & L2 & _).
  rewrite Hn in L1. destruct (LoadOrCreate_stored la1.(la_machine) _ Hne la1.(la_generated) nonce da d1 p1.(cp_identity)) as [Hload Hin];
    [done|done|done|done|done|].
  rewrite Hdir, Hm in L2. rewrite Hdir in Hsame.
  assert (Henc' : db.(dk_files) !! path_Join (cc_DataDir (cp_cfg p1)) "identity.enc" = d1.(dk_files) !! path_Join (cc_DataDir (cp_cfg p1)) "identity.enc")
    by (rewrite <- Henc; apply Hsame; symmetry; by apply log_path_ne).
  assert (Hpub' : db.(dk_files) !! path_Join (cc_DataDir (cp_cfg p1)) "identity.pub" = d1.(dk_files) !! path_Join (cc_DataDir (cp_cfg p1)) "identity.pub")
    by (rewrite <- Hpub; apply Hsame; symmetry; by apply log_path_ne).
  rewrite start_loads in L2 by (done || by rewrite Henc').
  rewrite (load_same _ _ _ d1 db Henc' Hpub' _ Hload) in L2. injection L2 as <- <-. done.
Qed.

(** C2. A restarted worker is let in as the worker it was. Let a client be started,
    and started again on the same machine with the key files of its data
    directory untouched, whatever else changed, and let its goroutines write the
    messages [early] before and [late] after the answer to a challenge. In key
    mode, and in TOFU mode if nothing gets ahead of the answer, the manager lets
    the second process in, under the fingerprint and with the public key of the
    first, also when it knows the worker from before, and closes the session of
    the first. If in TOFU mode a message does get ahead - the first status or sync
    request may, the callback of the connection being a goroutine of its own - this
    attempt is refused and the registry stays as it was. *)
Theorem restarted_worker_is_let_in `{GormLaws, !GormUp, WebSocket} la1 la2 d d1 d2 d3 p1 p2 keyNonce now nonce early late g :
  let dir := p1.(cp_cfg).(cc_DataDir) in let fp := p1.(cp_identity).(id_Fingerprint) in
  main certs_ok la1 d = (d1, Ret (Started p1)) -> main certs_ok la2 d2 = (d3, Ret (Started p2)) ->
  d2.(dk_files) !! path_Join dir "identity.enc" = d1.(dk_files) !! path_Join dir "identity.enc" ->
  d2.(dk_files) !! path_Join dir "identity.pub" = d1.(dk_files) !! path_Join dir "identity.pub" ->
  la2.(la_machine) = la1.(la_machine) -> p2.(cp_cfg).(cc_DataDir) = dir ->
  la1.(la_nonce) = Some keyNonce -> String.length keyNonce = NonceSize ->
  dir <> "" -> dir_ok dir = true -> (forall path, stat_ok path = true) -> (forall path data, read_ok path data = true) ->
  identity_ok p1.(cp_dialing) ->
  g.(g_workerKey) = p2.(cp_cfg).(cc_WorkerKey) ->
  g.(g_knownKeys) !! fp = None \/ g.(g_knownKeys) !! fp = Some p1.(cp_identity).(id_PublicKey) ->
  (forall l conn m, write_ok l conn m = true) -> g.(g_conns) ∉ g.(g_closed) ->
  (forall m, m ∈ early -> wf_worker_message m /\ forall r, m <> WSignedResponse r) ->
  let m := ServeHTTP now (header_get (connect_headers p2.(cp_dialing) (cp_worker p2).(wk_conn))) true (Some nonce)
             (first_frame early late p2.(cp_dialing)) in
  (g.(g_workerKey) <> "" \/ early = [] ->
   exists wc, result m g = Ret (Connected wc) /\ wc.(cn_info).(wi_PublicKey) = p1.(cp_identity).(id_PublicKey) /\
     (run m g).(g_workers) !! fp = Some wc /\
     forall old, g.(g_workers) !! fp = Some old -> old.(cn_conn) ∈ (run m g).(g_closed)) /\
  (g.(g_workerKey) = "" -> early <> [] ->
   match result m g with
   | Ret (HttpError _ _) | Ret ChallengeFailed => (run m g).(g_workers) = g.(g_workers)
   | _ => False
   end).
Proof.
  cbv zeta. intros E1 E2 Henc Hpub Hm Hdir Hn Hlen Hne Hd Hs Hr Hid Hkey Hknown Hw Hc Hwf.
  split; [intros Hmode|intros Hk He; by apply late_answer_is_refused].
  destruct (second_start la1 la2 d d1 d2 d3 p1 p2 keyNonce) as [Hi _]; [done..|].
  pose proof (wp_main la1 d) as W1. pose proof (wp_main la2 d2) as W2. unfold wp, run, result in W1, W2. rewrite E1 in W1. rewrite E2 in W2.
  destruct (W1 p1 eq_refl) as (da & _ & _ & D1 & _). destruct (W2 p2 eq_refl) as (db & _ & _ & D2 & Hh2).
  rewrite D1 in Hid.
  destruct (honest_connect now p2.(cp_dialing) (cp_worker p2).(wk_conn) nonce early late g) as (wc & Hres & Hp & Hreg & Hold);
    rewrite ?D2, ?Hi; try done.
  { cbn. intros Hk. destruct Hmode as [Hmode|?]; [by rewrite Hkey, Hk in Hmode|done]. }
  exists wc. rewrite D2, Hi in *. done.
Qed.
(** The identity of an earlier start is there for a later one. *)
Lemma stored_identity la0 la d0 da p0 nonce d : let dir := p0.(cp_cfg).(cc_DataDir) in
  main certs_ok la0 d0 = (da, Ret (Started p0)) ->
  d.(dk_files) !! path_Join dir "identity.enc" = da.(dk_files) !! path_Join dir "identity.enc" ->
  d.(dk_files) !! path_Join dir "identity.pub" = da.(dk_files) !! path_Join dir "identity.pub" ->
  la.(la_machine) = la0.(la_machine) -> la0.(la_nonce) = Some nonce -> String.length nonce = NonceSize ->
  dir <> "" -> dir_ok dir = true -> (forall path, stat_ok path = true) -> (forall path data, read_ok path data = true) ->
  is_Some (d.(dk_files) !! path_Join dir "identity.enc") /\
  LoadOrCreate la.(la_machine) la.(la_generated) la.(la_nonce) dir d = (d, Ret (inl p0.(cp_identity))).
Proof.
  cbv zeta. intros E Henc Hpub Hm Hn Hlen Hne Hd Hs Hr.
  pose proof (wp_main la0 d0) as W. unfold wp, run, result in W. rewrite E in W. destruct (W p0 eq_refl) as (db & _ & L & _).
  rewrite Hn in L. destruct (LoadOrCreate_stored la0.(la_machine) _ Hne la0.(la_generated) nonce db da p0.(cp_identity)) as [Hload Hin];
    [done|done|done|done|done|].
  assert (Hin' : is_Some (d.(dk_files) !! path_Join (cc_DataDir (cp_cfg p0)) "identity.enc")) by (by rewrite Henc).
  split; [exact Hin'|]. rewrite start_loads by done. rewrite Hm. exact (load_same _ _ _ da d Henc Hpub _ Hload).
Qed.

(** C21. A restart keeps an updated worker in sync. Let [w] be the worker of an
    earlier process [p0], let it put the model of an update to use, let its state
    file be saved, and let the client start again on that disk and machine with the
    key files of [p0] in place. If no model file is configured, it starts
    with the saved model and the identity of [p0], reports the hash of that model
    for its configured role - the one it reported before when this is the role
    of the update -, runs the installed llama-server on the model, and first tells
    the manager that it is available, without another download. The server runs
    with the default parameters, not with those of the update. *)
Theorem restart_keeps_the_worker_synced `{!YamlLaws, !JsonText, !ClientSocket} la0 d0 da p0 nonce mu path w content now la cfg binary :
  let w' := run (install_model mu path) w in
  let dir := cfg.(cc_DataDir) in
  let d := run (save_state now dir w'.(wk_persisted)) (disk_of w'.(wk_models)) in
  main certs_ok la0 d0 = (da, Ret (Started p0)) ->
  w.(wk_fingerprint) = p0.(cp_identity).(id_Fingerprint) -> w.(wk_privateKey) = p0.(cp_identity).(id_PrivateKey) ->
  p0.(cp_cfg).(cc_DataDir) = dir -> la0.(la_nonce) = Some nonce -> String.length nonce = NonceSize ->
  la.(la_machine) = la0.(la_machine) ->
  d.(dk_files) !! path_Join dir "identity.enc" = da.(dk_files) !! path_Join dir "identity.enc" ->
  d.(dk_files) !! path_Join dir "identity.pub" = da.(dk_files) !! path_Join dir "identity.pub" ->
  w.(wk_models) !! path = Some content ->
  mu.(mu_ModelFileHash) = "" \/ mu.(mu_ModelFileHash) = hex_EncodeToString (sha256 content) ->
  (forall path, create_ok path = true) -> (forall a b, rename_ok a b = true) -> (forall path data, read_ok path data = true) ->
  (forall path data, (String.length data <= written path data)%nat) -> (forall path, stat_ok path = true) ->
  is_Some (yaml_Marshal w'.(wk_persisted) now) ->
  path <> "" -> path <> log_path dir -> path <> state_path dir -> path <> state_path dir +:+ ".tmp" ->
  existsb (fun v => head la.(la_args) == Some v) version_args = false ->
  ClientConfig.Load la.(la_env) la.(la_args) la.(la_urlVar) la.(la_keyVar) la.(la_home) d = (d, Ret (Loaded cfg)) ->
  cfg.(cc_Unconfigured) = false -> cfg.(cc_ManagerURL) <> "" -> cfg.(cc_TLSCACert) = "" -> cfg.(cc_ModelFile) = "" ->
  dir <> "" -> dir_ok dir = true ->
  let args := BuildArgs (llamaPortFrom cfg.(cc_LLMURL)) path DefaultLlamaParams in
  read_file la.(la_backend) (path_Join dir "backend") binaryName = Some binary -> exec_ok binary args = true ->
  (forall l m, send_ok l m = true) ->
  let hash := ComputeLLMHash cfg.(cc_Role) (hex_EncodeToString (sha256 content)) in
  (cfg.(cc_Role) = mu.(mu_Role) -> hash = w'.(wk_conn).(co_llmHash)) /\
  exists d1 p, main certs_ok la d = (d1, Ret (Started p)) /\ p.(cp_identity) = p0.(cp_identity) /\
    (cp_worker p).(wk_fingerprint) = w'.(wk_fingerprint) /\ (cp_worker p).(wk_privateKey) = w'.(wk_privateKey) /\
    header_get (connect_headers p.(cp_dialing) (cp_worker p).(wk_conn)) "X-Worker-LLM-Hash" = hash /\
    (Backend.bm_proc <$> (cp_worker p).(wk_backend)) = Some (Some (binary, args)) /\
    exists st, (run (onConnect p.(cp_cfg) p.(cp_store)) (run (set_connection true) (cp_worker p))).(wk_conn).(co_sent) = [WStatus st] /\
      st.(st_State) = "available" /\ st.(st_LLMHash) = hash.
Proof.
  cbv zeta. intros E0 Hfp Hpk Hdir0 Hn Hlen Hmach Henc Hpub Hc Hh Hcr Hrn Hr Hw Hs Hy Hp Hlog Hps Hpt Hv Hload Hun Hurl Htls Hmf Hdir Hd Hbin Hex Hsend.
  destruct (wp_install mu path content w Hc Hh) as (_ & [_ _ Ep Eh Em _ _ Efp Epk _]). set (w' := run (install_model mu path) w) in *.
  split; [intros Hrole; by rewrite Eh, Hrole|].
  destruct (saved_state now cfg.(cc_DataDir) w'.(wk_persisted) w'.(wk_models) Hy Hcr Hrn Hr Hw) as [Hst Hsame].
  set (d := run (save_state _ _ _) _) in *.
  destruct (stored_identity la0 la d0 da p0 nonce d E0) as [He Hid]; rewrite ?Hdir0; try done. rewrite Hdir0 in He, Hid.
  assert (Hpath : w'.(wk_persisted).(ps_ModelPath) = path) by (by rewrite Ep).
  assert (Hc' : d.(dk_files) !! path = Some content) by (rewrite Hsame by done; by rewrite Em).
  destruct (main_resumes certs_ok la d cfg p0.(cp_identity) w'.(wk_persisted) content) as (d1 & Emain & Hsame1); try done; [by rewrite Hpath..|].
  rewrite Hpath in Emain. set (p := process_of _ _ _ _ _ _ _) in Emain. exists d1, p. split; [exact Emain|].
  split; [done|]. split; [change (id_Fingerprint (cp_identity p0) = wk_fingerprint w'); congruence|].
  split; [change (id_PrivateKey (cp_identity p0) = wk_privateKey w'); congruence|].
  split; [by rewrite header_LLMHash|].
  set (b := NewManager (wsToHTTP cfg.(cc_ManagerURL)) (path_Join cfg.(cc_DataDir) "backend") la.(la_backend)).
  assert (Eb : (cp_worker p).(wk_backend) = Some (start_backend (with_ModelFile path cfg) b)) by done.
  destruct (start_backend_runs (with_ModelFile path cfg) b binary Hbin Hp) as (Ef & Edir & Eproc).
  split; [rewrite Eb; cbn [fmap option_fmap option_map]; by rewrite Eproc|]. set (w1 := run (set_connection true) (cp_worker p)).
  destruct (onConnect_available p.(cp_cfg) w1 Hsend eq_refl) as (_ & _ & Hsent).
  - unfold has_backend. change (wk_backend w1) with (wk_backend (cp_worker p)). rewrite Eb. unfold result, IsInstalled, gets. cbn [snd].
    rewrite Ef, Edir. unfold b. cbn [NewManager bm_fs bm_dir]. by rewrite Hbin.
  - unfold has_model. change (cc_ModelFile (cp_cfg p)) with path. rewrite bool_decide_eq_false_2, Hs by done.
    change (wk_models w1) with d1.(dk_files). by rewrite Hsame1, Hc' by done.
  - eexists. split; [exact Hsent|]. split; done.
Qed.
End recognised.

(** ** What the process tells the manager *)

Section telling.
Context `{FileOs, DiskOs, UpdaterOs, Crypto, JsonText, ClientSocket, Backend.Os} (error_text : update_error -> string).

(** A process keeps its configuration, its identity and its store. *)
Definition same_setup (p p' : Process) : Prop :=
  p'.(cp_cfg) = p.(cp_cfg) /\ p'.(cp_dialing) = p.(cp_dialing) /\ p'.(cp_store) = p.(cp_store).
#[export] Instance same_setup_preorder : PreOrder same_setup.
Proof. split; [done|]. unfold same_setup. intros x y z (?&?&?) (?&?&?). split_and!; congruence. Qed.
Lemma same_setup_cp {A} (m : GoM Worker A) : keeps same_setup (on_cp m).
Proof. by apply (keeps_zoom _ (fun _ _ => True)). Qed.
Lemma same_setup_loop {A} (m : GoM Loop A) : keeps same_setup (on_loop m).
Proof. by apply (keeps_zoom _ (fun _ _ => True)). Qed.
Hint Resolve same_setup_cp same_setup_loop : keeps.
Lemma same_setup_events es : keeps same_setup (exec_events error_text es).
Proof. unfold exec_events, exec_process. keeps_tac. Qed.

(** The callback of a connection asks for a model for as long as the process
    was started without one: a model that was downloaded and is in use does not
    change the configuration it looks at. Whatever the process went through, once
    connected it asks for the model again, with the role of its configuration. *)
Theorem downloaded_model_is_requested_again es p p' :
  p.(cp_cfg).(cc_ModelFile) = "" -> p.(cp_store) = true -> (forall l m, send_ok l m = true) ->
  exec_events error_text es p = (p', Ret tt) -> p'.(cp_loop).(lp_exited) = false -> (cp_worker p').(wk_conn).(co_connected) = true ->
  exists p'', exec_process error_text EvOnConnect p' = (p'', Ret tt) /\
    (cp_worker p'').(wk_conn).(co_sent) = (cp_worker p').(wk_conn).(co_sent) ++
      [WInitialSync {| is_Type := TypeInitialSync; is_HasBinary := has_backend (cp_worker p'); is_HasModel := false;
                       is_Role := p.(cp_cfg).(cc_Role) |}].
Proof.
  intros Hm Hst Hs E Hex Hc. pose proof (same_setup_events es p) as (Ec & _ & Es). unfold run in Ec, Es. rewrite E in Ec, Es. cbn [fst] in *.
  unfold exec_process. rewrite (bind_Ret _ _ p' p' p'), Hex by done. unfold on_cp, zoom, onConnect. rewrite Ec, Es, Hst.
  set (w := cp_worker p') in *.
  destruct (save_url_runs p.(cp_cfg) w) as [q Eq]. rewrite (bind_Ret _ _ _ _ _ Eq). set (w1 := set_persisted q w). rewrite (bind_Ret _ _ w1 w1 w1) by done. cbv zeta.
  assert (Hnm : has_model p.(cp_cfg) w1 = false) by (unfold has_model; by rewrite Hm, (bool_decide_eq_true_2 (_ = _)) by done).
  rewrite Hnm. cbn [negb]. rewrite orb_true_r. unfold SendInitialSync, Send, mbind, GoM_bind. cbn [wk_conn w1 set_persisted]. rewrite Hc, Hs.
  cbn [andb]. eexists. split; [reflexivity|]. done.
Qed.

Lemma on_cp_Ret (m : GoM Worker unit) p w : m (cp_worker p) = (w, Ret tt) -> on_cp m p = (set_cp_worker w p, Ret tt).
Proof. unfold on_cp, zoom. by intros ->. Qed.
(** A step of the worker of a process that has not exited. *)
Definition worker_step (e : process_event) (cfg : Config) (store : bool) : option (GoM Worker unit) :=
  match e with
  | EvDialed => Some (set_connection true)
  | EvOnConnect => Some (onConnect cfg store)
  | EvLost => Some (set_connection false)
  | EvPause => Some pause
  | EvResume => Some resume
  | _ => None
  end.
Lemma exec_events_worker e es m p w : p.(cp_loop).(lp_exited) = false -> worker_step e p.(cp_cfg) p.(cp_store) = Some m ->
  m (cp_worker p) = (w, Ret tt) -> exec_events error_text (e :: es) p = exec_events error_text es (set_cp_worker w p).
Proof.
  intros Hex He Em. unfold exec_events. cbn [foreach]. erewrite bind_Ret; [reflexivity|]. unfold exec_process.
  rewrite (bind_Ret _ _ p p p), Hex by done. apply on_cp_Ret in Em. destruct e; simplify_eq/=; exact Em.
Qed.

(** A reconnection forgets a pause. A worker whose user has paused it, and that
    has a llama-server and its model, tells the manager when the connection comes
    back that it is available, while it is still paused. *)
Theorem reconnect_forgets_the_pause p : (forall l m, send_ok l m = true) ->
  p.(cp_loop).(lp_exited) = false -> p.(cp_store) = true -> (cp_worker p).(wk_conn).(co_connected) = true ->
  has_backend (cp_worker p) = true -> has_model p.(cp_cfg) (cp_worker p) = true ->
  exists p' s1 s2, exec_events error_text [EvPause; EvLost; EvDialed; EvOnConnect] p = (p', Ret tt) /\
    (cp_worker p').(wk_conn).(co_sent) = (cp_worker p).(wk_conn).(co_sent) ++ [WStatus s1; WStatus s2] /\
    s1.(st_State) = "paused" /\ s2.(st_State) = "available" /\ (cp_worker p').(wk_state).(s_paused) = true.
Proof.
  intros Hs Hex Hst Hc Hb Hm. set (w := cp_worker p) in *.
  assert (E1 : exists w1 s1, pause w = (w1, Ret tt) /\ w1.(wk_conn).(co_sent) = w.(wk_conn).(co_sent) ++ [WStatus s1] /\
    s1.(st_State) = "paused" /\ w1.(wk_state).(s_paused) = true /\ w1.(wk_backend) = w.(wk_backend) /\ w1.(wk_models) = w.(wk_models)).
  { unfold pause, on_snapshot, SendStatus, Send, mbind, GoM_bind, modify, gets. cbn. rewrite Hc, Hs. cbn. by eexists _, _. }
  destruct E1 as (w1 & s1 & E1 & Es1 & St1 & P1 & B1 & M1). rewrite (exec_events_worker EvPause _ pause p w1 Hex eq_refl E1).
  rewrite (exec_events_worker EvLost _ (set_connection false) (set_cp_worker w1 p) (run (set_connection false) w1) Hex eq_refl eq_refl).
  rewrite (exec_events_worker EvDialed _ (set_connection true) (set_cp_worker (run (set_connection false) w1) p)
    (run (set_connection true) (run (set_connection false) w1)) Hex eq_refl eq_refl).
  set (w3 := run (set_connection true) (run (set_connection false) w1)).
  pose proof (onConnect_available p.(cp_cfg) w3 Hs eq_refl) as H3'. unfold has_backend, has_model in *.
  change (wk_backend w3) with (wk_backend w1) in H3'. change (wk_models w3) with (wk_models w1) in H3'. rewrite B1, M1 in H3'.
  destruct (H3' Hb Hm) as (Er & Est & Es3). set (w4 := run (onConnect p.(cp_cfg) true) w3) in *.
  assert (E4 : onConnect p.(cp_cfg) true w3 = (w4, Ret tt)) by (rewrite (surjective_pairing (onConnect _ _ w3)); unfold result in Er; by rewrite Er).
  assert (E : exec_events error_text [EvOnConnect] (set_cp_worker w3 p) = (set_cp_worker w4 p, Ret tt)).
  { rewrite (exec_events_worker EvOnConnect [] (onConnect p.(cp_cfg) true) (set_cp_worker w3 p) w4); [done|exact Hex| |exact E4].
    cbn. by rewrite Hst. }
  eexists _, s1, _. split; [exact E|]. split; [change (cp_worker (set_cp_worker w4 p)) with w4; rewrite Es3; change (co_sent (wk_conn w3)) with
    (co_sent (wk_conn w1)); rewrite Es1, <- app_assoc; reflexivity|]. split; [exact St1|]. split; [done|].
  change (cp_worker (set_cp_worker w4 p)) with w4. rewrite Est. exact P1.
Qed.
End telling.

(** ** A state file that cannot be read *)

Section unreadable.
Context `{Yaml, Keystore, Crypto} `{FileOs, DiskOs, UpdaterOs, Backend.Os, Zerolog} (certs_ok : string -> bool).
Context `{JsonText, ClientSocket}.

(** A state file that is there but cannot be read ends the client, at once or
    when it connects. main loads it a second time for an empty store, but gets
    none, and dereferences it: at the start, unless the environment sets the log
    level and a model file is configured; and in that case in the callback of
    every connection, where nothing recovers. *)
Theorem unreadable_state_ends_the_client la d cfg content :
  let dir := cfg.(cc_DataDir) in
  existsb (fun v => head la.(la_args) == Some v) version_args = false ->
  ClientConfig.Load la.(la_env) la.(la_args) la.(la_urlVar) la.(la_keyVar) la.(la_home) d = (d, Ret (Loaded cfg)) ->
  cfg.(cc_Unconfigured) = false -> cfg.(cc_ManagerURL) <> "" -> cfg.(cc_TLSCACert) = "" -> dir <> "" ->
  d.(dk_files) !! state_path dir = Some content -> read_ok (state_path dir) content = false ->
  (la.(la_env) "LOG_LEVEL" = "" \/ cfg.(cc_ModelFile) = "" -> result (main certs_ok la) d = Panic nil_dereference) /\
  forall p, result (main certs_ok la) d = Ret (Started p) -> onConnect p.(cp_cfg) p.(cp_store) (cp_worker p) =
    (cp_worker p, Panic nil_dereference).
Proof.
  cbv zeta. intros Hv Hload Hun Hurl Htls Hne Hst Hr. unfold main. rewrite Hv. unfold result. rewrite (bind_Ret _ _ _ _ _ Hload).
  destruct (openLogFile_runs cfg.(cc_DataDir) d) as (d1 & Eo & Hsame). rewrite (bind_Ret _ _ _ _ _ Eo), Hun.
  unfold configured, load_certs. rewrite Htls, (bind_Ret _ _ d1 d1 true) by done. cbn [negb].
  assert (Hst1 : LoadState cfg.(cc_DataDir) d1 = (d1, Ret None)).
  { rewrite LoadState_reads. unfold state_of. rewrite Hsame by (symmetry; by apply log_path_ne). by rewrite Hst, Hr. }
  rewrite (bind_Ret _ _ _ _ _ Hst1), (bind_Ret _ _ _ _ _ Hst1). split.
  - intros Hcase. unfold restore_level, Get. destruct (bool_decide_reflect (la_env la "LOG_LEVEL" = "")) as [_|Hlvl]; [done|].
    rewrite (bind_Ret _ _ d1 d1 (initLogger_level (la_env la))) by done. unfold restore_url. rewrite bool_decide_eq_false_2 by done.
    rewrite (bind_Ret _ _ d1 d1 cfg) by done. destruct Hcase as [|Hm]; [done|]. unfold restore_model, Get.
    by rewrite Hm, bool_decide_eq_true_2.
  - intros p. unfold restore_level, Get. destruct (bool_decide_reflect (la_env la "LOG_LEVEL" = "")) as [_|Hlvl]; [done|].
    rewrite (bind_Ret _ _ d1 d1 (initLogger_level (la_env la))) by done. unfold restore_url. rewrite bool_decide_eq_false_2 by done.
    rewrite (bind_Ret _ _ d1 d1 cfg) by done. unfold restore_model, Get. destruct (_ == ""); [done|].
    rewrite (bind_Ret _ _ d1 d1 cfg) by done. unfold start_process, mbind, GoM_bind.
    destruct (LoadOrCreate _ _ _ _ d1) as [d2 [[i|e]|e|]]; [|done..]. destruct (initial_hash cfg d2) as [d3 [[h|]|e|]]; [|done..].
    intros [= <-]. unfold onConnect, save_url. cbn [cp_cfg cp_store process_of]. by rewrite bool_decide_eq_false_2.
Qed.
End unreadable.

(** ** Witnesses *)

Section witnesses.
#[local] Existing Instances ToyCrypto ToyCryptoLaws ToyKeystore ToyKeystoreLaws FilesFine DiskFine NoJson AllSent OsEx.
#[local] Existing Instances MemGorm MemGormLaws MemGormUp AllWrites.
#[local] Instance linux : UpdaterOs := host_os "linux".
#[local] Instance levels : Zerolog := {| ParseLevel s := if existsb (fun l => s == l) ["debug"; "info"] then Some s else None |}.

Definition client_update : ModelUpdate :=
  Build_ModelUpdate TypeModelUpdate "r" "m" "q" "m2.gguf" (hex_EncodeToString (sha256 "weights")) "" 4096 "chat" 2 99 true.
Definition saved_ex : Persisted := SetModel "/models/m2.gguf" (llama_params client_update) "r" zero_Persisted.
Definition launch_ex (nonce : option string) : Launch :=
  {| la_args := ["--data-dir=/d"; "--role=r"; "--manager-url=wss://m/ws/worker"]; la_env := unset; la_urlVar := []; la_keyVar := [];
     la_home := None; la_machine := machine_ex; la_generated := Some (key_ex, key_ex); la_nonce := nonce;
     la_backend := {["/d/backend/llama-server" := File "server"]}; la_now := 7; la_samples := [Some 3%Z; None] |}.

Definition yaml_saved : Yaml := ToyYaml saved_ex.
Definition saved_laws : YamlLaws (H := yaml_saved) := ToyYamlLaws saved_ex.
#[local] Existing Instances yaml_saved saved_laws.

(** The worker of a first start on a disk that holds a model. *)
Definition first_start : Volume * res started :=
  main (fun _ => true) (launch_ex (Some nonce_ex)) (disk_of {["/models/m2.gguf" := "weights"]}).
Definition running_worker : Worker :=
  match first_start.2 with Ret (Started p) => run (set_connection true) (cp_worker p) | _ => worker_ex end.

(** What is looked at of a start that is evaluated. *)
Lemma started_inv {A} (f : Process -> A) (out : Volume * res started) a :
  match out.2 with Ret (Started p) => Some (f p) | _ => None end = Some a -> exists p, out = (out.1, Ret (Started p)) /\ f p = a.
Proof. destruct out as [d [[| |p]| |]]; try discriminate. cbn. intros [= <-]. by exists p. Qed.
Lemma loaded_inv {A} (f : Config -> A) (out : Volume * res loaded) d a : out.1 = d ->
  match out.2 with Ret (Loaded c) => Some (f c) | _ => None end = Some a -> exists c, out = (d, Ret (Loaded c)) /\ f c = a.
Proof. intros <-. destruct out as [d' [[| |c]| |]]; try discriminate. cbn. intros [= <-]. by exists c. Qed.
Lemma identity_inv (out : Volume * res (Identity + identity_error)) d : out.1 = d ->
  match out.2 with Ret (inl _) => true | _ => false end = true -> exists i, out = (d, Ret (inl i)).
Proof. intros <-. destruct out as [d' [[i|]| |]]; try discriminate. intros _. by exists i. Qed.

Lemma restart_keeps_the_worker_synced_witness :
  let w' := run (install_model client_update "/models/m2.gguf") running_worker in
  exists d1 p st, p.(cp_identity).(id_PrivateKey) = running_worker.(wk_privateKey) /\
    main (fun _ => true) (launch_ex None) (run (save_state 7 "/d" w'.(wk_persisted)) (disk_of w'.(wk_models))) = (d1, Ret (Started p)) /\
    (run (onConnect p.(cp_cfg) p.(cp_store)) (run (set_connection true) (cp_worker p))).(wk_conn).(co_sent) = [WStatus st] /\
    st.(st_LLMHash) = w'.(wk_conn).(co_llmHash).
Proof.
  cbv zeta. set (w' := run (install_model client_update "/models/m2.gguf") running_worker).
  set (d := run (save_state 7 "/d" w'.(wk_persisted)) (disk_of w'.(wk_models))).
  destruct (started_inv (fun p => (p.(cp_cfg).(cc_DataDir), (p.(cp_identity).(id_Fingerprint), p.(cp_identity).(id_PrivateKey)))) first_start
    ("/d", (running_worker.(wk_fingerprint), running_worker.(wk_privateKey)))) as (p0 & E0 & Hp0); [vm_compute; reflexivity|].
  injection Hp0 as Hdir0 Hfp0 Hpk0.
  destruct (loaded_inv (fun c => (c.(cc_DataDir), c.(cc_Unconfigured), c.(cc_ManagerURL), c.(cc_TLSCACert), c.(cc_ModelFile), c.(cc_Role)))
    (ClientConfig.Load unset (la_args (launch_ex None)) [] [] None d) d ("/d", false, "wss://m/ws/worker", "", "", "r"))
    as (cfg & Hload & Hcfg); [vm_compute; reflexivity|vm_compute; reflexivity|]. injection Hcfg as Hdir Hun Hurl Htls Hm Hrole.
  destruct (restart_keeps_the_worker_synced (fun _ => true) (launch_ex (Some nonce_ex)) (disk_of {["/models/m2.gguf" := "weights"]}) first_start.1
    p0 nonce_ex client_update "/models/m2.gguf" running_worker "weights" 7 (launch_ex None) cfg "server" E0) as (Hsame & d1 & p & Emain & Hi & _ & _ & _ & _ & st & Hsent & _ & Hst);
    rewrite ?Hdir, ?Hurl.
  1: by symmetry. 1: by symmetry. 1: exact Hdir0. 1-3: reflexivity. 1-3: vm_compute; reflexivity.
  1: right; vm_compute; reflexivity. 1-5: reflexivity. 1: vm_compute; eexists; reflexivity. 1-4: vm_compute; discriminate.
  1: reflexivity. 1: exact Hload. 1: exact Hun. 1: discriminate. 1: exact Htls. 1: exact Hm. 1: discriminate. 1-4: reflexivity.
  - rewrite Hdir in Emain. exists d1, p, st. split; [by rewrite Hi, Hpk0|]. split; [exact Emain|]. split; [exact Hsent|].
    rewrite Hst. by apply Hsame.
Defined.

Lemma restarted_worker_is_let_in_witness : exists d1 p1 d3 p2 wc,
  main (fun _ => true) (launch_ex (Some nonce_ex)) (disk_of ∅) = (d1, Ret (Started p1)) /\
  main (fun _ => true) (launch_ex None) d1 = (d3, Ret (Started p2)) /\
  result (ServeHTTP 7 (header_get (connect_headers p2.(cp_dialing) (cp_worker p2).(wk_conn))) true (Some "nonce")
      (first_frame [] [WStatus (Build_Status TypeStatus "available" "" "" "" 0)] p2.(cp_dialing)))
    (NewGateway "" Queue.New (Some sync_store)) = Ret (Connected wc) /\ wc.(cn_info).(wi_PublicKey) = key_ex.
Proof.
  set (d1 := run (main (fun _ => true) (launch_ex (Some nonce_ex))) (disk_of ∅)). set (d3 := run (main (fun _ => true) (launch_ex None)) d1).
  destruct (started_inv (fun p => (p.(cp_cfg).(cc_DataDir), p.(cp_identity).(id_PublicKey),
      (p.(cp_dialing).(d_fingerprint), p.(cp_dialing).(d_publicKey), p.(cp_dialing).(d_privateKey)))) (main (fun _ => true) (launch_ex (Some nonce_ex)) (disk_of ∅))
    ("/d", key_ex, (hex_EncodeToString key_ex, key_ex, key_ex)))
    as (p1 & E1 & Hp1); [vm_compute; reflexivity|]. injection Hp1 as D1 K1 I1 I2 I3.
  destruct (started_inv (fun p => (p.(cp_cfg).(cc_DataDir), p.(cp_cfg).(cc_WorkerKey))) (main (fun _ => true) (launch_ex None) d1) ("/d", ""))
    as (p2 & E2 & Hp2); [vm_compute; reflexivity|]. injection Hp2 as D2 W2.
  destruct (restarted_worker_is_let_in (fun _ => true) (launch_ex (Some nonce_ex)) (launch_ex None) (disk_of ∅) d1 d1 d3 p1 p2 nonce_ex 7 "nonce"
    [] [WStatus (Build_Status TypeStatus "available" "" "" "" 0)]
    (NewGateway "" Queue.New (Some sync_store)) E1 E2) as [Hin _]; try reflexivity.
  - by rewrite D1, D2.
  - by rewrite D1.
  - unfold identity_ok. rewrite I1, I2, I3. split; [reflexivity|split; reflexivity].
  - symmetry. exact W2.
  - left. reflexivity.
  - apply not_elem_of_empty.
  - intros m Hm. destruct (not_elem_of_nil m Hm).
  - destruct (Hin (or_intror eq_refl)) as (wc & Hres & Hk & _). exists d1, p1, d3, p2, wc. split; [exact E1|]. split; [exact E2|]. split; [exact Hres|by rewrite Hk, K1].
Defined.

Definition config_ex (modelFile : string) : Config :=
  Build_Config "wss://m/ws/worker" "" "http://localhost:9877" "m" "q" "r" modelFile "/d" "127.0.0.1:9876" 5 15 30 true false "" false.
Definition process_ex (modelFile : string) : Process :=
  process_of (launch_ex None) (Some saved_ex) "info" (config_ex modelFile) (Build_Identity key_ex key_ex (hex_EncodeToString key_ex)) ""
    running_worker.(wk_models).
Definition no_name (e : update_error) : string := "".

Lemma ret_inv (out : Process * res unit) : match out.2 with Ret _ => true | _ => false end = true -> out = (out.1, Ret tt).
Proof. by destruct out as [p [[]| |]]. Qed.

Lemma downloaded_model_is_requested_again_witness :
  let es := [EvDialed; EvOnConnect; EvPause; EvLost; EvDialed] in
  exists p p', exec_events no_name es (process_ex "") = (p, Ret tt) /\ exec_process no_name EvOnConnect p = (p', Ret tt) /\
    (cp_worker p').(wk_conn).(co_sent) = (cp_worker p).(wk_conn).(co_sent) ++ [WInitialSync (Build_InitialSync TypeInitialSync true false "r")].
Proof.
  cbv zeta. set (es := [EvDialed; EvOnConnect; EvPause; EvLost; EvDialed]). set (p := run (exec_events no_name es) (process_ex "")).
  assert (E : exec_events no_name es (process_ex "") = (p, Ret tt)) by (apply ret_inv; vm_compute; reflexivity).
  assert (Hex : p.(cp_loop).(lp_exited) = false) by (vm_compute; reflexivity).
  assert (Hc : (cp_worker p).(wk_conn).(co_connected) = true) by (vm_compute; reflexivity).
  assert (Hb : has_backend (cp_worker p) = true) by (vm_compute; reflexivity).
  assert (Hsend : forall l m, send_ok l m = true) by done.
  destruct (downloaded_model_is_requested_again no_name es (process_ex "") p eq_refl eq_refl Hsend E Hex Hc) as (p' & E' & Hs).
  rewrite Hb in Hs. exists p, p'. split; [exact E|]. split; [exact E'|exact Hs].
Defined.

Lemma reconnect_forgets_the_pause_witness : exists p' s1 s2,
  exec_events no_name [EvPause; EvLost; EvDialed; EvOnConnect] (run (exec_process no_name EvDialed) (process_ex "/models/m2.gguf")) = (p', Ret tt) /\
  (cp_worker p').(wk_conn).(co_sent) = [] ++ [WStatus s1; WStatus s2] /\ s2.(st_State) = "available" /\ (cp_worker p').(wk_state).(s_paused) = true.
Proof.
  destruct (reconnect_forgets_the_pause no_name (run (exec_process no_name EvDialed) (process_ex "/models/m2.gguf")))
    as (p' & s1 & s2 & E & Hs & _ & H2 & Hp); try (vm_compute; reflexivity).
  exists p', s1, s2. split; [exact E|]. split; [exact Hs|]. split; [exact H2|exact Hp].
Defined.

Definition no_state : FileOs := {| create_ok _ := true; rename_ok _ _ := true; read_ok path _ := path != "/d/worker-state.yaml" |}.
Lemma unreadable_state_ends_the_client_witness :
  result (main (H2 := no_state) (fun _ => true) (launch_ex (Some nonce_ex))) (disk_of {["/d/worker-state.yaml" := "saved"]}) = Panic nil_dereference.
Proof.
  set (d := disk_of {["/d/worker-state.yaml" := "saved"]}).
  destruct (loaded_inv (fun c => (c.(cc_DataDir), c.(cc_Unconfigured), c.(cc_ManagerURL), c.(cc_TLSCACert)))
    (ClientConfig.Load (H0 := no_state) unset (la_args (launch_ex None)) [] [] None d) d ("/d", false, "wss://m/ws/worker", ""))
    as (cfg & Hload & Hcfg); [vm_compute; reflexivity|vm_compute; reflexivity|]. injection Hcfg as Hdir Hun Hurl Htls.
  refine (proj1 (unreadable_state_ends_the_client (H2 := no_state) (fun _ => true) (launch_ex (Some nonce_ex)) d cfg "saved"
    eq_refl Hload Hun _ Htls _ _ _) (or_introl eq_refl)).
  - rewrite Hurl. discriminate.
  - rewrite Hdir. discriminate.
  - rewrite Hdir. vm_compute. reflexivity.
  - rewrite Hdir. vm_compute. reflexivity.
Defined.
End witnesses.
