(* ===== verification/ManagerConfig.v ===== *)
(** * The configuration of the manager (internal/manager/config/config.go)

    What [Load] makes of the environment and the directories it creates on the
    way. Creating a directory may fail (the class [MkdirOs]). *)

From S2P Require Import Prelude GoStd Strings Backend Gorm Latency Durations Files.

(** ** The configuration *)

Record Config := {
  ListenAddr : string; APIKey : string; WorkerKey : string; Timeout : Z; DBPath : string; DBDSN : string;
  c_Insecure : bool; TLSCertFile : string; TLSKeyFile : string;
  TestSetup : bool; Development : bool; DevBackendURL : string; DevClientVersion : string;
  ModelBackend : string; ModelPath : string; ModelS3Endpoint : string; ModelS3Bucket : string; ModelS3Region : string;
  ModelS3Key : string; ModelS3Secret : string; ModelS3SSL : bool;
  AdminAddr : string; CacheDir : string; LatencyBuckets : Z; LatencyWindowHours : Z; ClientBinaryDir : string;
  c_AdminUser : string; c_AdminPassword : string; c_OIDCEnabled : bool; c_OIDCClientID : string;
  c_OIDCClientSecret : string; c_OIDCProviderURL : string; c_OIDCRedirectURL : string }.

Inductive config_error :=
  | APIKeyRequired | TLSRequired | InvalidTimeout (value : string) | S3EndpointRequired | S3KeysRequired
  | InvalidModelBackend (value : string) | NoDirectory (dir : string).

(** [os.Getenv]: an unset variable is empty *)
Definition Environment : Type := string -> string.

Definition envOrDefault (Getenv : Environment) (key defaultVal : string) : string :=
  let v := Getenv key in if v != "" then v else defaultVal.
Definition envOrDefaultInt (Getenv : Environment) (key : string) (defaultVal : Z) : Z :=
  let v := Getenv key in if v != "" then default defaultVal (Atoi v) else defaultVal.

(** [os.MkdirAll]; the state of the loader are the directories it made sure of *)
Class MkdirOs := { mkdir_ok : string -> bool }.

Section load.
Context `{MkdirOs} (Getenv : Environment).

Definition MkdirAll (dir : string) : GoM (list string) bool :=
  if mkdir_ok dir then modify (fun l => l ++ [dir]) ;; mret true else mret false.
(** the first that fails *)
Fixpoint ensure_dirs (dirs : list string) : GoM (list string) (option string) :=
  match dirs with
  | [] => mret None
  | dir :: dirs =>
      ok ← MkdirAll dir;
      if ok : bool then ensure_dirs dirs else mret (Some dir)
  end.

(** the literal at the start of [Load], with the timeout set afterwards *)
Definition from_env (timeout : Z) : Config := {|
  ListenAddr := envOrDefault Getenv "CLUSTER_LISTEN_ADDR" ":7500";
  APIKey := Getenv "CLUSTER_API_KEY";
  WorkerKey := Getenv "CLUSTER_WORKER_KEY";
  Timeout := timeout;
  DBPath := envOrDefault Getenv "CLUSTER_DB_PATH" "cluster-manager.db";
  DBDSN := Getenv "CLUSTER_DB_DSN";
  c_Insecure := Getenv "CLUSTER_INSECURE" == "true";
  TLSCertFile := Getenv "TLS_CERT_FILE";
  TLSKeyFile := Getenv "TLS_KEY_FILE";
  TestSetup := Getenv "CLUSTER_TEST_SETUP" == "true";
  Development := Getenv "CLUSTER_DEVELOPMENT" == "true";
  DevBackendURL := Getenv "CLUSTER_DEV_BACKEND_URL";
  DevClientVersion := Getenv "CLUSTER_DEV_CLIENT_VERSION";
  ModelBackend := envOrDefault Getenv "CLUSTER_MODEL_BACKEND" "filesystem";
  ModelPath := envOrDefault Getenv "CLUSTER_MODEL_PATH" "./models";
  ModelS3Endpoint := Getenv "CLUSTER_MODEL_S3_ENDPOINT";
  ModelS3Bucket := envOrDefault Getenv "CLUSTER_MODEL_S3_BUCKET" "synergia-models";
  ModelS3Region := envOrDefault Getenv "CLUSTER_MODEL_S3_REGION" "us-east-1";
  ModelS3Key := Getenv "CLUSTER_MODEL_S3_KEY";
  ModelS3Secret := Getenv "CLUSTER_MODEL_S3_SECRET";
  ModelS3SSL := envOrDefault Getenv "CLUSTER_MODEL_S3_SSL" "true" == "true";
  AdminAddr := envOrDefault Getenv "CLUSTER_ADMIN_ADDR" ":7501";
  CacheDir := envOrDefault Getenv "CLUSTER_CACHE_DIR" "./cache";
  LatencyBuckets := envOrDefaultInt Getenv "CLUSTER_LATENCY_BUCKETS" 4;
  LatencyWindowHours := envOrDefaultInt Getenv "CLUSTER_LATENCY_WINDOW_HOURS" 48;
  ClientBinaryDir := envOrDefault Getenv "CLUSTER_CLIENT_BINARY_DIR" "./binaries";
  c_AdminUser := envOrDefault Getenv "CLUSTER_ADMIN_USER" "admin";
  c_AdminPassword := envOrDefault Getenv "CLUSTER_ADMIN_PASSWORD" "synergia";
  c_OIDCEnabled := Getenv "CLUSTER_OIDC_ENABLED" == "true";
  c_OIDCClientID := Getenv "CLUSTER_OIDC_CLIENT_ID";
  c_OIDCClientSecret := Getenv "CLUSTER_OIDC_CLIENT_SECRET";
  c_OIDCProviderURL := Getenv "CLUSTER_OIDC_PROVIDER_URL";
  c_OIDCRedirectURL := envOrDefault Getenv "CLUSTER_OIDC_REDIRECT_URL" "http://localhost:7501/auth/oidc/callback" |}.

Definition check_backend (cfg : Config) : option config_error :=
  if cfg.(ModelBackend) == "filesystem" then None
  else if cfg.(ModelBackend) == "s3" then
    if cfg.(ModelS3Endpoint) == "" then Some S3EndpointRequired
    else if (cfg.(ModelS3Key) == "") || (cfg.(ModelS3Secret) == "") then Some S3KeysRequired
    else None
  else Some (InvalidModelBackend cfg.(ModelBackend)).

Definition Load : GoM (list string) (Config + config_error) :=
  let cfg := from_env 0 in
  if cfg.(APIKey) == "" then mret (inr APIKeyRequired)
  else if negb cfg.(c_Insecure) && ((cfg.(TLSCertFile) == "") || (cfg.(TLSKeyFile) == "")) then mret (inr TLSRequired)
  else
    let timeoutStr := envOrDefault Getenv "CLUSTER_TIMEOUT" "120s" in
    match ParseDuration timeoutStr with
    | None => mret (inr (InvalidTimeout timeoutStr))
    | Some timeout =>
        let cfg := from_env timeout in
        match check_backend cfg with
        | Some e => mret (inr e)
        | None =>
            failed ← ensure_dirs [cfg.(CacheDir); cfg.(ClientBinaryDir); path_Dir cfg.(DBPath)];
            match failed with
            | Some dir => mret (inr (NoDirectory dir))
            | None =>
                failed ← (if cfg.(ModelBackend) == "filesystem" then ensure_dirs [cfg.(ModelPath)] else mret None);
                mret (match failed with
                      | Some dir => inr (NoDirectory dir)
                      | None => inl cfg
                      end)
            end
        end
    end.
End load.

(** The write deadline of the public server (main.go), in 64 bits. *)
Definition WriteTimeout (cfg : Config) : Z := wrap64 (cfg.(Timeout) + 10 * Second).

(** ** What [Load] accepts *)

Section accepted.
Context `{MkdirOs} (Getenv : Environment).

(** The requirements on the environment in the order they are reported, each
    with its error. *)
Definition model_backend : string := envOrDefault Getenv "CLUSTER_MODEL_BACKEND" "filesystem".
Definition timeout_text : string := envOrDefault Getenv "CLUSTER_TIMEOUT" "120s".
Definition requirements : list (bool * config_error) :=
  [ (Getenv "CLUSTER_API_KEY" != "", APIKeyRequired);
    ((Getenv "CLUSTER_INSECURE" == "true") || (Getenv "TLS_CERT_FILE" != "") && (Getenv "TLS_KEY_FILE" != ""), TLSRequired);
    (bool_decide (is_Some (ParseDuration timeout_text)), InvalidTimeout timeout_text);
    ((model_backend == "filesystem") || (model_backend == "s3"), InvalidModelBackend model_backend);
    ((model_backend != "s3") || (Getenv "CLUSTER_MODEL_S3_ENDPOINT" != ""), S3EndpointRequired);
    ((model_backend != "s3") || (Getenv "CLUSTER_MODEL_S3_KEY" != "") && (Getenv "CLUSTER_MODEL_S3_SECRET" != ""),
     S3KeysRequired) ].
Definition needed_dirs : list string :=
  [ envOrDefault Getenv "CLUSTER_CACHE_DIR" "./cache"; envOrDefault Getenv "CLUSTER_CLIENT_BINARY_DIR" "./binaries";
    path_Dir (envOrDefault Getenv "CLUSTER_DB_PATH" "cluster-manager.db") ] ++
  (if model_backend == "filesystem" then [envOrDefault Getenv "CLUSTER_MODEL_PATH" "./models"] else []).

Definition first_unmet (l : list (bool * config_error)) : option config_error :=
  snd <$> List.find (fun p => negb p.1) l.

(** What the loader makes of the requirements and the directories. *)
Definition verdict : Config + config_error :=
  match first_unmet (requirements ++ ((fun d => (mkdir_ok d, NoDirectory d)) <$> needed_dirs)) with
  | Some e => inr e
  | None => inl (from_env Getenv (default 0%Z (ParseDuration timeout_text)))
  end.
Fixpoint created (dirs : list string) : list string :=
  match dirs with
  | [] => []
  | d :: dirs => if mkdir_ok d then d :: created dirs else []
  end.

Lemma ensure_dirs_effect dirs l : ensure_dirs dirs l = (l ++ created dirs, Ret (List.find (fun d => negb (mkdir_ok d)) dirs)).
Proof.
  revert l. induction dirs as [|d dirs IH]; intros l; cbn [ensure_dirs created List.find].
  - by rewrite app_nil_r.
  - unfold MkdirAll. destruct (mkdir_ok d); cbn [negb]; [|by rewrite app_nil_r].
    erewrite bind_Ret by reflexivity. cbv beta iota. rewrite IH. by rewrite <- app_assoc.
Qed.

Lemma first_unmet_cons (b : bool) e l : first_unmet ((b, e) :: l) = if b then first_unmet l else Some e.
Proof. unfold first_unmet. by destruct b. Qed.
Lemma first_unmet_app l1 l2 : first_unmet (l1 ++ l2) = match first_unmet l1 with Some e => Some e | None => first_unmet l2 end.
Proof. unfold first_unmet. rewrite find_app. by destruct (List.find _ l1). Qed.
Lemma first_unmet_dirs dirs :
  first_unmet ((fun d => (mkdir_ok d, NoDirectory d)) <$> dirs) = NoDirectory <$> List.find (fun d => negb (mkdir_ok d)) dirs.
Proof. unfold first_unmet. induction dirs as [|d dirs IH]; [done|]. cbn. by destruct (mkdir_ok d). Qed.

Lemma created_app d1 d2 : created (d1 ++ d2) =
  created d1 ++ (if bool_decide (List.find (fun d => negb (mkdir_ok d)) d1 = None) then created d2 else []).
Proof.
  induction d1 as [|d d1 IH]; [done|]. cbn. destruct (mkdir_ok d); cbn; [by rewrite IH|done].
Qed.

(** What follows the timeout. *)
Lemma Load_backend l t :
  (match check_backend (from_env Getenv t) with
   | Some e => mret (inr e)
   | None =>
       failed ← ensure_dirs [(from_env Getenv t).(CacheDir); (from_env Getenv t).(ClientBinaryDir); path_Dir (from_env Getenv t).(DBPath)];
       match failed with
       | Some dir => mret (inr (NoDirectory dir))
       | None =>
           failed ← (if (from_env Getenv t).(ModelBackend) == "filesystem" then ensure_dirs [(from_env Getenv t).(ModelPath)] else mret None);
           mret (match failed with Some dir => inr (NoDirectory dir) | None => inl (from_env Getenv t) end)
       end
   end : GoM (list string) (Config + config_error)) l =
  match first_unmet (drop 3 requirements) with
  | Some e => (l, Ret (inr e))
  | None => (l ++ created needed_dirs, Ret (match List.find (fun d => negb (mkdir_ok d)) needed_dirs with
                                            | Some d => inr (NoDirectory d)
                                            | None => inl (from_env Getenv t)
                                            end))
  end.
Proof.
  assert (Hdirs : forall tail : list string, (if model_backend == "filesystem" then tail = [envOrDefault Getenv "CLUSTER_MODEL_PATH" "./models"] else tail = []) ->
    needed_dirs = [(from_env Getenv t).(CacheDir); (from_env Getenv t).(ClientBinaryDir); path_Dir (from_env Getenv t).(DBPath)] ++ tail).
  { intros tail. unfold needed_dirs. by destruct (model_backend == "filesystem") as [|]; intros ->. }
  set (dirs := [(from_env Getenv t).(CacheDir); (from_env Getenv t).(ClientBinaryDir); path_Dir (from_env Getenv t).(DBPath)]) in *.
  unfold check_backend, first_unmet, requirements. cbn [drop List.find fst ModelBackend ModelS3Endpoint ModelS3Key ModelS3Secret from_env].
  fold model_backend.
  destruct (model_backend == "filesystem") eqn:Hf; cbn [orb negb].
  - apply bool_decide_eq_true in Hf. rewrite Hf. rewrite (bool_decide_eq_false_2 ("filesystem" = "s3")) by done. cbn [negb orb fmap option_fmap option_map].
    rewrite (bind_Ret _ _ _ _ _ (ensure_dirs_effect dirs l)).
    rewrite (Hdirs [envOrDefault Getenv "CLUSTER_MODEL_PATH" "./models"]) by done. rewrite find_app, created_app.
    destruct (List.find _ dirs) as [d|]; [by rewrite app_nil_r|].
    rewrite (bind_Ret _ _ _ _ _ (ensure_dirs_effect [_] _)). rewrite <- app_assoc. done.
  - destruct (model_backend == "s3") eqn:Hs; cbn [orb negb]; [|done].
    destruct (Getenv "CLUSTER_MODEL_S3_ENDPOINT" == ""); [done|]. cbn [negb].
    destruct (Getenv "CLUSTER_MODEL_S3_KEY" == ""), (Getenv "CLUSTER_MODEL_S3_SECRET" == ""); try done. cbn [orb negb andb fmap option_fmap option_map].
    rewrite (bind_Ret _ _ _ _ _ (ensure_dirs_effect dirs l)). rewrite (Hdirs []) by done. rewrite app_nil_r.
    by destruct (List.find _ dirs) as [d|].
Qed.

Lemma Load_eq l : Load Getenv l =
  match first_unmet requirements with
  | Some e => (l, Ret (inr e))
  | None => (l ++ created needed_dirs, Ret verdict)
  end.
Proof.
  assert (Hv : verdict = match first_unmet requirements with
    | Some e => inr e
    | None => match List.find (fun d => negb (mkdir_ok d)) needed_dirs with
              | Some d => inr (NoDirectory d)
              | None => inl (from_env Getenv (default 0%Z (ParseDuration timeout_text)))
              end
    end).
  { unfold verdict. rewrite first_unmet_app, first_unmet_dirs. destruct (first_unmet requirements); [done|]. by destruct (List.find _ _). }
  rewrite Hv. clear Hv.
  assert (Hreq : first_unmet requirements =
    if Getenv "CLUSTER_API_KEY" != "" then
      if (Getenv "CLUSTER_INSECURE" == "true") || (Getenv "TLS_CERT_FILE" != "") && (Getenv "TLS_KEY_FILE" != "") then
        if bool_decide (is_Some (ParseDuration timeout_text)) then first_unmet (drop 3 requirements)
        else Some (InvalidTimeout timeout_text)
      else Some TLSRequired
    else Some APIKeyRequired).
  { change requirements with (take 3 requirements ++ drop 3 requirements) at 1. unfold requirements at 1. cbn [take app].
    by rewrite !first_unmet_cons. }
  rewrite Hreq. unfold Load. cbn [APIKey c_Insecure TLSCertFile TLSKeyFile from_env]. fold timeout_text.
  destruct (Getenv "CLUSTER_API_KEY" == ""); [done|].
  destruct (Getenv "CLUSTER_INSECURE" == "true"), (Getenv "TLS_CERT_FILE" == ""), (Getenv "TLS_KEY_FILE" == ""); try done;
    cbn [negb andb orb]; (destruct (ParseDuration timeout_text) as [t|] eqn:Ht; [|done]);
    rewrite (bool_decide_eq_true_2 (is_Some (Some t))) by done; pose proof (Load_backend l t) as HB;
    destruct (first_unmet (drop 3 requirements)); exact HB.
Qed.

Lemma all_met l : first_unmet l = None -> Forall (fun p => p.1 = true) l.
Proof.
  unfold first_unmet. induction l as [|[b e] l IH]; [by constructor|]. cbn. destruct b; cbn; [|done].
  intros E. constructor; [done|auto].
Qed.
Lemma all_created dirs : List.find (fun d => negb (mkdir_ok d)) dirs = None -> created dirs = dirs.
Proof. induction dirs as [|d dirs IH]; [done|]. cbn. destruct (mkdir_ok d); cbn; [|done]. intros E. f_equal. auto. Qed.

Lemma verdict_met cfg : verdict = inl cfg ->
  first_unmet requirements = None /\ created needed_dirs = needed_dirs /\
  exists t, ParseDuration timeout_text = Some t /\ cfg = from_env Getenv t.
Proof.
  unfold verdict. rewrite first_unmet_app, first_unmet_dirs. destruct (first_unmet requirements) as [e|] eqn:Hr; [done|].
  destruct (List.find _ needed_dirs) as [d|] eqn:Hd; [done|]. intros [= <-]. split; [done|]. split; [by apply all_created|].
  pose proof (all_met requirements Hr) as Hall. unfold requirements in Hall. rewrite !list.Forall_cons in Hall. cbn [fst] in Hall.
  destruct Hall as (_ & _ & [t Ht]%bool_decide_eq_true & _). exists t. by rewrite Ht.
Qed.

Lemma accepted_timeout cfg : verdict = inl cfg ->
  ParseDuration timeout_text = Some cfg.(Timeout) /\ (- 2^63 <= cfg.(Timeout) < 2^63)%Z.
Proof. intros (_ & _ & t & Ht & ->)%verdict_met. split; [exact Ht|]. exact (ParseDuration_bound _ _ Ht). Qed.

(** [Load] refuses exactly the environments that miss a requirement, with
    the error of the first one missed and, for the requirements other than the
    directories, without creating anything; otherwise it returns the
    environment's values over the defaults after making sure of every
    directory the configuration names. The timeout it accepts fits 64 bits. *)
Theorem Load_decides l :
  result (Load Getenv) l = Ret verdict /\
  run (Load Getenv) l = l ++ (if first_unmet requirements is Some _ then [] else created needed_dirs) /\
  (forall cfg, verdict = inl cfg ->
     run (Load Getenv) l = l ++ needed_dirs /\ ParseDuration timeout_text = Some cfg.(Timeout) /\
     (- 2^63 <= cfg.(Timeout) < 2^63)%Z /\ cfg.(APIKey) <> "" /\
     (cfg.(c_Insecure) = true \/ cfg.(TLSCertFile) <> "" /\ cfg.(TLSKeyFile) <> "")).
Proof.
  unfold run, result. rewrite Load_eq. split_and!.
  - destruct (first_unmet requirements) as [e|] eqn:Hr; [|done]. cbn [snd]. unfold verdict. by rewrite first_unmet_app, Hr.
  - destruct (first_unmet requirements); cbn [fst]; [by rewrite app_nil_r|done].
  - intros cfg Hcfg. destruct (accepted_timeout cfg Hcfg) as (Ht & Hb). destruct (verdict_met cfg Hcfg) as (Hr & Hd & t & _ & ->).
    rewrite Hr. cbn [fst]. rewrite Hd. pose proof (all_met requirements Hr) as Hall. unfold requirements in Hall.
    rewrite !list.Forall_cons in Hall. cbn [fst] in Hall. destruct Hall as (Hkey & Htls & _).
    split_and!; [done|done|apply Hb|apply Hb|by apply negb_true_iff, bool_decide_eq_false in Hkey|].
    cbn [c_Insecure TLSCertFile TLSKeyFile from_env].
    apply orb_true_iff in Htls as [E|[E1 E2]%andb_true_iff]; [by left; apply bool_decide_eq_true in E; apply bool_decide_eq_true|right].
    by apply negb_true_iff, bool_decide_eq_false in E1, E2.
Qed.

(** An answer is never cut off by the server: for every timeout the
    configuration can hold, the write deadline of the public server is later
    than the wait for the worker, or there is none (a deadline that is not
    positive, to which the 64-bit sum wraps around for waits of centuries). *)
Theorem deadline_outlasts_wait l cfg :
  result (Load Getenv) l = Ret (inl cfg) ->
  (WriteTimeout cfg <= 0 \/ cfg.(Timeout) + 10 * Second = WriteTimeout cfg)%Z /\
  (0 < WriteTimeout cfg -> cfg.(Timeout) < WriteTimeout cfg)%Z /\
  (0 < cfg.(Timeout) < 2^63 - 10 * Second -> cfg.(Timeout) + 10 * Second <= WriteTimeout cfg)%Z.
Proof.
  unfold result. rewrite Load_eq. destruct (first_unmet requirements) as [e|] eqn:Hr; [done|]. cbn [snd]. intros [= Hcfg].
  destruct (accepted_timeout cfg Hcfg) as (_ & Ht).
  unfold WriteTimeout, wrap64. assert (0 < 10 * Second < 2^62)%Z by (by vm_compute).
  assert (Hm : ((cfg.(Timeout) + 10 * Second + 2^63) mod 2^64 = cfg.(Timeout) + 10 * Second + 2^63 \/
    (cfg.(Timeout) + 10 * Second >= 2^63 /\ (cfg.(Timeout) + 10 * Second + 2^63) mod 2^64 = cfg.(Timeout) + 10 * Second - 2^63))%Z).
  { destruct (decide (cfg.(Timeout) + 10 * Second < 2^63)%Z); [left; apply Z.mod_small; lia|right].
    split; [lia|]. symmetry. apply (Z.mod_unique _ _ 1); lia. }
  lia.
Qed.

(** A timeout written as whole numbers with units, like 1h30m, is the
    wait of the accepted configuration. *)
Theorem timeout_is_read_back l cfg parts :
  parts <> [] -> Forall (fun p => p.2 ∈ unit_names) parts -> (duration_ns parts < 2^63)%Z ->
  Getenv "CLUSTER_TIMEOUT" = duration_text parts -> result (Load Getenv) l = Ret (inl cfg) ->
  cfg.(Timeout) = duration_ns parts.
Proof.
  intros Hne Hu Hmax Ht. unfold result. rewrite Load_eq. destruct (first_unmet requirements); [done|]. cbn [snd]. intros [= Hcfg].
  destruct (accepted_timeout cfg Hcfg) as (Hp & _). unfold timeout_text, envOrDefault in Hp. rewrite Ht in Hp.
  pose proof (duration_text_length parts Hne Hu) as Hlen. destruct (duration_text parts == "") eqn:E.
  { apply bool_decide_eq_true in E. rewrite E in Hlen. cbn in Hlen. lia. }
  cbn [negb] in Hp. rewrite ParseDuration_whole in Hp by done. congruence.
Qed.
End accepted.

Section witnesses.
#[local] Instance disk : MkdirOs := {| mkdir_ok d := d != "/proc/cache" |}.

Definition env_of (l : list (string * string)) : Environment :=
  fun key => default "" (snd <$> List.find (fun p => p.1 == key) l).
Definition env_ex : Environment := env_of
  [("CLUSTER_API_KEY", "secret"); ("CLUSTER_INSECURE", "true"); ("CLUSTER_TIMEOUT", "1h30m"); ("CLUSTER_LATENCY_BUCKETS", "x")].
Definition cfg_ex : Config := from_env env_ex (90 * Minute).

Lemma Load_decides_witness :
  result (Load env_ex) [] = Ret (inl cfg_ex) /\ run (Load env_ex) [] = ["./cache"; "./binaries"; "."; "./models"] /\
  cfg_ex.(LatencyBuckets) = 4%Z /\ result (Load (env_of [("CLUSTER_API_KEY", "secret")])) [] = Ret (inr TLSRequired) /\
  result (Load (env_of [("CLUSTER_API_KEY", "k"); ("CLUSTER_INSECURE", "true"); ("CLUSTER_CACHE_DIR", "/proc/cache")])) [] =
    Ret (inr (NoDirectory "/proc/cache")).
Proof.
  assert (Hv : verdict env_ex = inl cfg_ex) by (vm_compute; reflexivity).
  destruct (Load_decides env_ex []) as (E & _ & Hacc). destruct (Hacc cfg_ex Hv) as (Hd & _).
  rewrite E, Hv, Hd. split_and!; try (vm_compute; reflexivity).
Defined.

Lemma deadline_outlasts_wait_witness : (cfg_ex.(Timeout) < WriteTimeout cfg_ex)%Z.
Proof. apply (deadline_outlasts_wait env_ex [] cfg_ex); vm_compute; reflexivity. Defined.

Lemma timeout_is_read_back_witness : cfg_ex.(Timeout) = (5400 * Second)%Z.
Proof.
  apply (timeout_is_read_back env_ex [] cfg_ex [(1%N, "h"); (30%N, "m")]); [done| |vm_compute; reflexivity..].
  apply (bool_decide_unpack _). vm_compute. done.
Defined.
End witnesses.
