(* ===== verification/Routes.v ===== *)
(** * Routing requests on the manager's listeners (internal/manager/acme, main.go)

    The multiplexer of net/http for the patterns the manager registers (literal
    paths, with a final slash for a whole subtree), the ACME passthrough, the
    table of the public listener and the listener that redirects to HTTPS. A
    request is given by its method and its escaped path. *)

From S2P Require Import Prelude GoStd Json Strings Url Backend Files Http.

(** ** http.ServeMux *)

(** a pattern: its literal segments, and whether it takes the paths below *)
Record Pattern := { pt_segments : list string; pt_multi : bool }.

Definition parse_pattern (s : string) : Pattern :=
  match split_path s with
  | _ :: l =>
      match rev l with
      | "" :: r => {| pt_segments := rev r; pt_multi := true |}
      | _ => {| pt_segments := l; pt_multi := false |}
      end
  | [] => {| pt_segments := []; pt_multi := false |}
  end.

(** the segments the tree is walked along: unescaped, the last one a slash when
    the path ends in one *)
Definition path_segment (s : string) : string := default s (PathUnescape s).
Fixpoint walk (l : list string) : list string :=
  match l with
  | [] => []
  | [s] => [if s == "" then "/" else path_segment s]
  | s :: l => path_segment s :: walk l
  end.
Definition path_segments (path : string) : list string :=
  match path with
  | String.EmptyString => []
  | _ => walk (tail (split_path path))
  end.

(** [cleanPath] *)
Definition cleanPath (p : string) : string :=
  if p == "" then "/"
  else
    let p := if HasPrefix p "/" then p else "/" +:+ p in
    let np := Clean p in
    if HasSuffix p "/" && (np != "/") then np +:+ "/" else np.

Fixpoint is_below (prefix segs : list string) : bool :=
  match prefix, segs with
  | [], _ :: _ => true
  | x :: prefix, y :: segs => (x == y) && is_below prefix segs
  | _, [] => false
  end.

Inductive routed (H : Type) := RedirectTo (path : string) | To (h : H) | NoRoute.
Arguments RedirectTo {H} _.
Arguments To {H} _.
Arguments NoRoute {H}.

Section mux.
Context {H : Type}.

(** registered patterns with their handlers; no two are the same *)
Definition Mux : Type := list (Pattern * H).

Definition longer (p : Pattern * H) (best : option (Pattern * H)) : option (Pattern * H) :=
  match best with
  | Some b => if bool_decide (length b.1.(pt_segments) < length p.1.(pt_segments))%nat then Some p else best
  | None => Some p
  end.
(** a literal path wins, then the longest subtree *)
Definition mux_match (m : Mux) (segs : list string) : option (Pattern * H) :=
  match List.find (fun p => negb p.1.(pt_multi) && bool_decide (p.1.(pt_segments) = segs)) m with
  | Some p => Some p
  | None => foldr longer None (List.filter (fun p => p.1.(pt_multi) && is_below p.1.(pt_segments) segs) m)
  end.

(** the path is the pattern's own *)
Definition exactMatch (n : option (Pattern * H)) (path : string) : bool :=
  match n with
  | None => false
  | Some (p, _) =>
      negb p.(pt_multi) || HasSuffix path "/" && bool_decide (S (length p.(pt_segments)) = length (tail (split_path path)))
  end.

(** [matchOrRedirect]: a path whose subtree is registered without it is sent
    there; [Path] is the unescaped path of the URL *)
Definition matchOrRedirect (m : Mux) (path Path : string) : option (Pattern * H) + string :=
  let n := mux_match m (path_segments path) in
  if negb (exactMatch n path) && negb (HasSuffix path "/") &&
     exactMatch (mux_match m (path_segments (path +:+ "/"))) (path +:+ "/")
  then inr (cleanPath Path +:+ "/")
  else inl n.

Definition findHandler (m : Mux) (Method escapedPath : string) : routed H :=
  let Path := path_segment escapedPath in
  if Method == "CONNECT" then
    match matchOrRedirect m escapedPath Path with
    | inr target => RedirectTo target
    | inl (Some (_, h)) => To h
    | inl None => NoRoute
    end
  else
    let path := cleanPath escapedPath in
    match matchOrRedirect m path Path with
    | inr target => RedirectTo target
    | inl n =>
        if path != escapedPath then RedirectTo path
        else match n with Some (_, h) => To h | None => NoRoute end
    end.
End mux.
Arguments Mux : clear implicits.

(** ** The ACME passthrough (acme.go) *)

Definition ChallengePrefix : string := "/.well-known/acme-challenge/".
Definition NotFoundHandler : Response := {| status := 404; body := PlainText ("404 page not found" +:+ str1 newline) |}.
Definition RegisterPassthrough {H} (not_found : H) (m : Mux H) : Mux H := m ++ [(parse_pattern ChallengePrefix, not_found)].
Definition isChallengePath (p : string) : bool :=
  bool_decide (String.length ChallengePrefix <= String.length p)%nat &&
  (take_str (String.length ChallengePrefix) p == ChallengePrefix).
(** [inr]: the wrapped handler's *)
Definition WrapHandler {A} (next : A) (Path : string) : Response + A :=
  if isChallengePath Path then inl NotFoundHandler else inr next.

(** The listener that redirects to HTTPS: the target of the redirect. *)
Definition redirectHandler (Host RequestURI : string) : string := "https://" +:+ Host +:+ RequestURI.
Definition redirectServer (Host RequestURI Path : string) : Response + string :=
  WrapHandler (redirectHandler Host RequestURI) Path.

(** ** The public listener (main.go) *)

Inductive public_handler :=
  | AcmeNotFound
  | HCompletions | HBatches | HModels | HWorkers | HWorkUnits | HStats
  | HConsent | HWorkerConfig | HRoles | HStyle | HBinaryDownload | HBackendDownload
  | HListModels | HModelDownload | HErrors | HGoodbye
  | HClientBinary | HDownloadPage | HInstall | HCommunityPage | HCommunityStats
  | HGateway | HHealthz.

Definition handle {H} (routes : list (string * H)) (m : Mux H) : Mux H :=
  m ++ ((fun r => (parse_pattern r.1, r.2)) <$> routes).

Definition public_routes : list (string * public_handler) :=
  [ ("/v1/chat/completions", HCompletions);
    ("/v1/batches/", HBatches);
    ("/v1/batches", HBatches);
    ("/v1/models", HModels);
    ("/v1/workers", HWorkers);
    ("/v1/work-units", HWorkUnits);
    ("/v1/stats", HStats);
    ("/v1/consent", HConsent);
    ("/v1/worker-config", HWorkerConfig);
    ("/v1/roles", HRoles);
    ("/v1/branding/style.css", HStyle);
    ("/v1/binary/download", HBinaryDownload);
    ("/v1/backend/download", HBackendDownload);
    ("/v1/models/files", HListModels);
    ("/v1/models/download/", HModelDownload);
    ("/v1/errors", HErrors);
    ("/v1/workers/goodbye", HGoodbye);
    ("/download/", HClientBinary);
    ("/download", HDownloadPage);
    ("/install", HInstall);
    ("/community", HCommunityPage);
    ("/v1/community/stats", HCommunityStats);
    ("/", HCommunityPage);
    ("/ws/worker", HGateway);
    ("/healthz", HHealthz) ].
Definition public_mux : Mux public_handler := handle public_routes (RegisterPassthrough AcmeNotFound []).

(** What /healthz writes: the two fields, whatever else was collected. *)
Definition healthz (has_worker : bool) : Response :=
  writeJSON 200 (JObj [("status", JStr "ok"); ("worker_ready", JBool has_worker)]).

(** ** Challenge paths on a multiplexer *)

Lemma split_path_cons a b : split_path (a +:+ String.String slash b) = split_path a ++ split_path b.
Proof.
  induction a as [|c a IH].
  - change ("" +:+ String.String slash b) with (String.String slash b). cbn [split_path]. by rewrite bool_decide_eq_true_2.
  - change (String.String c a +:+ String.String slash b) with (String.String c (a +:+ String.String slash b)).
    cbn [split_path]. rewrite IH. case_bool_decide; [done|]. pose proof (split_path_some a). by destruct (split_path a).
Qed.

Lemma walk_some l : l <> [] -> exists s r, walk l = s :: r.
Proof. destruct l as [|s [|s' l]]; [done|..]; intros _; cbn; by eexists _, _. Qed.

Lemma challenge_split t : split_path (ChallengePrefix +:+ t) = "" :: ".well-known" :: "acme-challenge" :: split_path t.
Proof. unfold ChallengePrefix. apply (split_path_cons "/.well-known/acme-challenge" t). Qed.

Lemma challenge_segments t : exists s r, path_segments (ChallengePrefix +:+ t) = ".well-known" :: "acme-challenge" :: s :: r.
Proof.
  destruct (walk_some (split_path t) (split_path_some t)) as (s & r & E). exists s, r.
  assert (path_segments (ChallengePrefix +:+ t) = walk (tail (split_path (ChallengePrefix +:+ t)))) as -> by done.
  rewrite challenge_split. cbn [tail]. pose proof (split_path_some t). destruct (split_path t) as [|x l]; [done|].
  change (path_segment ".well-known" :: path_segment "acme-challenge" :: walk (x :: l) = ".well-known" :: "acme-challenge" :: s :: r).
  by rewrite E.
Qed.

Lemma HasSuffix_slash s : HasSuffix s "/" = true -> exists a, s = a +:+ "/".
Proof.
  unfold HasSuffix. intros [Hl%bool_decide_eq_true Hd%bool_decide_eq_true]%andb_true_iff.
  exists (take_str (String.length s - 1) s). change (String.length "/") with 1%nat in Hd. rewrite <- Hd. cbn in Hl. clear Hd.
  generalize (String.length s - 1)%nat. intros n. revert s Hl. induction n as [|n IH]; intros s Hl; [done|].
  destruct s as [|c s]; [done|]. change (String.String c s = String.String c (take_str n s +:+ drop_str n s)). f_equal.
  destruct s as [|d s]; [by destruct n|]. apply IH. cbn. lia.
Qed.

(** A path that a multiplexer with the passthrough gets is the passthrough's,
    when it is below the prefix and clean. *)
Lemma challenge_found {H} (m : Mux H) (nf : H) Method p :
  (forall s r, mux_match m (".well-known" :: "acme-challenge" :: s :: r) = Some (parse_pattern ChallengePrefix, nf)) ->
  HasPrefix p ChallengePrefix = true -> Method = "CONNECT" \/ cleanPath p = p -> findHandler m Method p = To nf.
Proof.
  intros Hm Hp Hclean. apply HasPrefix_spec in Hp as Ht. destruct Ht as [t ->].
  assert (Hmatch : forall u, mux_match m (path_segments (ChallengePrefix +:+ u)) = Some (parse_pattern ChallengePrefix, nf)).
  { intros u. destruct (challenge_segments u) as (s & r & ->). apply Hm. }
  assert (Hr : forall Path, matchOrRedirect m (ChallengePrefix +:+ t) Path = inl (Some (parse_pattern ChallengePrefix, nf))).
  { intros Path. unfold matchOrRedirect. rewrite append_assoc_str, !Hmatch.
    destruct (HasSuffix (ChallengePrefix +:+ t) "/") eqn:Hs; cbn [negb]; [by rewrite andb_false_r|].
    assert (He : exactMatch (Some (parse_pattern ChallengePrefix, nf)) (ChallengePrefix +:+ t +:+ "/") = false).
    { unfold exactMatch. change (parse_pattern ChallengePrefix) with {| pt_segments := [".well-known"; "acme-challenge"]; pt_multi := true |}.
      cbn [pt_multi pt_segments negb orb]. rewrite challenge_split. cbn [tail length].
      apply andb_false_iff. right. apply bool_decide_eq_false. rewrite split_path_cons, length_app. cbn [length].
      pose proof (split_path_some t). destruct (split_path t) as [|x l] eqn:E; [done|]. change (split_path "") with [""]. cbn [length]. lia. }
    rewrite He, andb_false_r. done. }
  unfold findHandler. destruct (Method == "CONNECT") eqn:Hc; [by rewrite Hr|].
  destruct Hclean as [->|Hclean]; [by rewrite bool_decide_eq_true_2 in Hc|].
  rewrite Hclean, Hr. by rewrite bool_decide_eq_true_2.
Qed.

(** A token without slashes makes a clean path. *)
Lemma HasSuffix_plain a t : plain t -> HasSuffix (a +:+ t) "/" = false.
Proof.
  intros (Hne & _ & _ & Hs). destruct (HasSuffix (a +:+ t) "/") eqn:E; [|done]. exfalso. apply HasSuffix_slash in E as [b E].
  pose proof (f_equal split_path E) as Es. change "/" with (String.String slash "") in Es. rewrite split_path_cons in Es.
  assert (Hl : List.last (split_path (a +:+ t)) "x" = "") by (rewrite Es; apply List.last_last).
  clear E Es b. revert Hl. induction a as [|c a IH].
  - change ("" +:+ t) with t. by rewrite split_path_plain.
  - change (String.String c a +:+ t) with (String.String c (a +:+ t)). cbn [split_path]. intros Hl. apply IH.
    pose proof (split_path_some (a +:+ t)) as Hsome. case_bool_decide.
    + by destruct (split_path (a +:+ t)).
    + destruct (split_path (a +:+ t)) as [|x [|y l]]; [done|discriminate Hl|exact Hl].
Qed.

Lemma plain_is_clean dir t : HasPrefix dir "/" = true -> dir_prefix dir = dir +:+ "/" -> plain t ->
  cleanPath (dir +:+ "/" +:+ t) = dir +:+ "/" +:+ t.
Proof.
  intros Hd Hp Ht. assert (Hdir : dir <> "") by (by intros ->).
  pose proof (path_Join_plain dir t Hdir Ht) as Hj. unfold path_Join in Hj. rewrite bool_decide_eq_false_2 in Hj by done.
  rewrite Hp, append_assoc_str in Hj. unfold cleanPath. rewrite bool_decide_eq_false_2.
  2: { intros E. destruct dir; [done|discriminate E]. }
  assert (HasPrefix (dir +:+ "/" +:+ t) "/" = true) as ->.
  { destruct dir as [|c d]; [done|]. cbn [HasPrefix] in Hd. apply andb_true_iff in Hd as [Hc _].
    change (bool_decide ("/"%char = c) && HasPrefix (d +:+ "/" +:+ t) "" = true). rewrite Hc. by destruct (d +:+ "/" +:+ t). }
  rewrite <- append_assoc_str at 1. rewrite HasSuffix_plain by done. exact Hj.
Qed.

Lemma token_is_clean t : plain t -> cleanPath (ChallengePrefix +:+ t) = ChallengePrefix +:+ t.
Proof. intros Ht. by apply (plain_is_clean "/.well-known/acme-challenge" t). Qed.
