(* ===== verification/AdminApi.v ===== *)
(** * The admin API (internal/manager/admin/api, guarded by admin/server)

    The handlers behind the dashboard: target versions of clients and
    backends, role models, worker authentication, OIDC, the API key, the
    branding, latency and statistics. They share one world: the gateway with
    its database, the authentication, the API key of the admin server, the
    branding cache, the latency configuration, the model store, the dashboard
    cache, the goroutines started to download models and to fill the backend
    cache. Map iteration orders, the clock, the answers of GitHub and the
    environment of a request are arguments. *)

From S2P Require Import Prelude GoStd Json Protocol Gorm Models Workers Queue BackendUrl Roles Gateway Latency Http AdminAuth Cache Files ModelFiles.

(** ** Requests *)

Record versionConfigRequest := {
  vq_TargetVersion : string; vq_RolloutMode : string; vq_RolloutPercentage : Z; vq_SHA256 : string }.
Definition decode_versionConfigRequest : json -> option versionConfigRequest :=
  decode_struct {| vq_TargetVersion := ""; vq_RolloutMode := ""; vq_RolloutPercentage := 0; vq_SHA256 := "" |}
  [ str_field "target_version" (fun x q => {| vq_TargetVersion := x; vq_RolloutMode := q.(vq_RolloutMode);
      vq_RolloutPercentage := q.(vq_RolloutPercentage); vq_SHA256 := q.(vq_SHA256) |});
    str_field "rollout_mode" (fun x q => {| vq_TargetVersion := q.(vq_TargetVersion); vq_RolloutMode := x;
      vq_RolloutPercentage := q.(vq_RolloutPercentage); vq_SHA256 := q.(vq_SHA256) |});
    int_field "rollout_percentage" (fun x q => {| vq_TargetVersion := q.(vq_TargetVersion);
      vq_RolloutMode := q.(vq_RolloutMode); vq_RolloutPercentage := x; vq_SHA256 := q.(vq_SHA256) |});
    str_field "sha256" (fun x q => {| vq_TargetVersion := q.(vq_TargetVersion); vq_RolloutMode := q.(vq_RolloutMode);
      vq_RolloutPercentage := q.(vq_RolloutPercentage); vq_SHA256 := x |}) ].

Record backendConfigRequest := { kq_Name : string; kq_Version : string; kq_DownloadURL : string; kq_SHA256 : string }.
Definition decode_backendConfigRequest : json -> option backendConfigRequest :=
  decode_struct {| kq_Name := ""; kq_Version := ""; kq_DownloadURL := ""; kq_SHA256 := "" |}
  [ str_field "name" (fun x q => {| kq_Name := x; kq_Version := q.(kq_Version);
      kq_DownloadURL := q.(kq_DownloadURL); kq_SHA256 := q.(kq_SHA256) |});
    str_field "version" (fun x q => {| kq_Name := q.(kq_Name); kq_Version := x;
      kq_DownloadURL := q.(kq_DownloadURL); kq_SHA256 := q.(kq_SHA256) |});
    str_field "download_url" (fun x q => {| kq_Name := q.(kq_Name); kq_Version := q.(kq_Version);
      kq_DownloadURL := x; kq_SHA256 := q.(kq_SHA256) |});
    str_field "sha256" (fun x q => {| kq_Name := q.(kq_Name); kq_Version := q.(kq_Version);
      kq_DownloadURL := q.(kq_DownloadURL); kq_SHA256 := x |}) ].

Record oidcConfigPayload := {
  op_Enabled : bool; op_ClientID : string; op_ClientSecret : string; op_ProviderURL : string; op_RedirectURL : string }.
Definition decode_oidcConfigPayload : json -> option oidcConfigPayload :=
  decode_struct {| op_Enabled := false; op_ClientID := ""; op_ClientSecret := ""; op_ProviderURL := ""; op_RedirectURL := "" |}
  [ bool_field "enabled" (fun x q => {| op_Enabled := x; op_ClientID := q.(op_ClientID);
      op_ClientSecret := q.(op_ClientSecret); op_ProviderURL := q.(op_ProviderURL); op_RedirectURL := q.(op_RedirectURL) |});
    str_field "client_id" (fun x q => {| op_Enabled := q.(op_Enabled); op_ClientID := x;
      op_ClientSecret := q.(op_ClientSecret); op_ProviderURL := q.(op_ProviderURL); op_RedirectURL := q.(op_RedirectURL) |});
    str_field "client_secret" (fun x q => {| op_Enabled := q.(op_Enabled); op_ClientID := q.(op_ClientID);
      op_ClientSecret := x; op_ProviderURL := q.(op_ProviderURL); op_RedirectURL := q.(op_RedirectURL) |});
    str_field "provider_url" (fun x q => {| op_Enabled := q.(op_Enabled); op_ClientID := q.(op_ClientID);
      op_ClientSecret := q.(op_ClientSecret); op_ProviderURL := x; op_RedirectURL := q.(op_RedirectURL) |});
    str_field "redirect_url" (fun x q => {| op_Enabled := q.(op_Enabled); op_ClientID := q.(op_ClientID);
      op_ClientSecret := q.(op_ClientSecret); op_ProviderURL := q.(op_ProviderURL); op_RedirectURL := x |}) ].

Record workerAuthPayload := { wap_TOFUEnabled : bool; wap_WorkerKey : string }.
Definition decode_workerAuthPayload : json -> option workerAuthPayload :=
  decode_struct {| wap_TOFUEnabled := false; wap_WorkerKey := "" |}
  [ bool_field "tofu_enabled" (fun x q => {| wap_TOFUEnabled := x; wap_WorkerKey := q.(wap_WorkerKey) |});
    str_field "worker_key" (fun x q => {| wap_TOFUEnabled := q.(wap_TOFUEnabled); wap_WorkerKey := x |}) ].

Definition decode_apikey_body : json -> option string := decode_struct "" [str_field "key" (fun x _ => x)].

Definition decode_latency_Config : json -> option Config :=
  decode_struct {| lc_BucketCount := 0; lc_WindowHours := 0 |}
  [ int_field "bucket_count" (fun x q => {| lc_BucketCount := x; lc_WindowHours := q.(lc_WindowHours) |});
    int_field "window_hours" (fun x q => {| lc_BucketCount := q.(lc_BucketCount); lc_WindowHours := x |}) ].

(** The body of a role request: a role model and the name its fields have here. *)
Definition role_fields : list (field RoleModel) :=
  [ str_field "role" (fun x r => {| rm_Role := x; rm_LLMModel := r.(rm_LLMModel); rm_Quantisation := r.(rm_Quantisation);
      rm_ModelFilename := r.(rm_ModelFilename); rm_ModelFileHash := r.(rm_ModelFileHash); rm_DownloadURL := r.(rm_DownloadURL);
      rm_MinVRAMMB := r.(rm_MinVRAMMB); rm_Description := r.(rm_Description); rm_ContextSize := r.(rm_ContextSize);
      rm_EndpointType := r.(rm_EndpointType); rm_ParallelSlots := r.(rm_ParallelSlots); rm_GPULayers := r.(rm_GPULayers);
      rm_FlashAttention := r.(rm_FlashAttention) |});
    str_field "model" set_rm_LLMModel; str_field "quantisation" set_rm_Quantisation;
    str_field "filename" set_rm_ModelFilename; str_field "model_file_hash" set_rm_ModelFileHash;
    str_field "download_url" set_rm_DownloadURL; int_field "min_vram_mb" set_rm_MinVRAMMB;
    str_field "description" set_rm_Description; int_field "context_size" set_rm_ContextSize;
    str_field "endpoint_type" set_rm_EndpointType; int_field "parallel_slots" set_rm_ParallelSlots;
    int_field "gpu_layers" set_rm_GPULayers; bool_field "flash_attention" set_rm_FlashAttention ].
Definition decode_role_request : json -> option RoleModel := decode_struct (new_role "" "" "" "" "" 0 "") role_fields.

(** ** Answers *)

Definition admin_ok : Response := writeJSON 200 (JObj [("status", JStr "ok")]).
Definition not_allowed : Response := httpError "method not allowed" 405.
Definition int_json (z : Z) : json := JNum (NInt z).

Definition secretMask : string := "••••••••".
Definition workerKeyMask : string := "••••••••".
Definition mask (m secret : string) : string := if secret != "" then m else "".

Definition versionConfigResponse (c : ClientVersionConfig) : json :=
  JObj [("target_version", JStr c.(cv_TargetVersion)); ("rollout_mode", JStr c.(cv_RolloutMode));
        ("rollout_percentage", int_json c.(cv_RolloutPercentage))].
Definition backendConfigResponse (c : BackendVersionConfig) : json :=
  JObj [("name", JStr c.(bv_Name)); ("version", JStr c.(bv_Version)); ("download_url", JStr c.(bv_DownloadURL));
        ("sha256", JStr c.(bv_SHA256))].
Definition bucket_json (b : BucketStats) : json :=
  JObj [("range_min", int_json b.(bs_RangeMin)); ("range_max", int_json b.(bs_RangeMax)); ("range", JStr b.(bs_Range));
        ("count", int_json b.(bs_Count)); ("p50_ms", int_json b.(bs_P50Ms)); ("p95_ms", int_json b.(bs_P95Ms));
        ("p99_ms", int_json b.(bs_P99Ms))].
(** a nil slice is encoded as null *)
Definition slice_json {A} (enc : A -> json) (l : list A) : json := match l with [] => JNull | _ => JArr (enc <$> l) end.
Definition matrix_json (m : RoleMatrix) : json :=
  JObj [("role", JStr m.(rx_Role)); ("window_hours", int_json m.(rx_WindowHours));
        ("bucket_count", int_json m.(rx_BucketCount)); ("bounds", slice_json int_json m.(rx_Bounds));
        ("matrix", JArr (bucket_json <$> m.(rx_Matrix)))].
Definition latency_Config_json (c : Config) : json :=
  JObj [("bucket_count", int_json c.(lc_BucketCount)); ("window_hours", int_json c.(lc_WindowHours))].

(** [StatsHandler] and [VersionsStatusHandler]; a Go map is encoded with its keys sorted. *)
Definition stats_json (st : DashboardStats) : json :=
  JObj [("backend_outdated", int_json st.(BackendOutdated)); ("backend_synced", int_json st.(BackendSynced));
        ("backend_version", JStr st.(BackendVersion)); ("deleted_workers", int_json st.(DeletedWorkers));
        ("model_out_of_sync", int_json st.(ModelOutOfSync)); ("model_synced", int_json st.(ModelSynced));
        ("version_target", JStr st.(VersionTarget)); ("workers_outdated", int_json st.(WorkersOutdated));
        ("workers_synced", int_json st.(WorkersSynced))].
Definition versions_json (manager latestClient latestBackend : string) (st : DashboardStats) : json :=
  JObj [("backend_latest", JStr latestBackend); ("backend_outdated", int_json st.(BackendOutdated));
        ("backend_synced", int_json st.(BackendSynced)); ("backend_version", JStr st.(BackendVersion));
        ("client_latest", JStr latestClient); ("client_outdated", int_json st.(WorkersOutdated));
        ("client_synced", int_json st.(WorkersSynced)); ("client_target", JStr st.(VersionTarget));
        ("manager_latest", JStr latestClient); ("manager_version", JStr manager)].

(** ** The world of the admin API *)

Section admin.
Context `{Gorm, WebSocket, Crypto} `{JsonText, TimeText} {FS : Type} `{!ModelStore FS}.

Record Admin := {
  ad_gateway : Gateway;                          (* with the database *)
  ad_auth : Auth;
  ad_apiKey : string;                            (* of the admin server *)
  ad_css : string;                               (* BrandingAPI's cache *)
  ad_latency : Config;
  ad_modelStore : FS;
  ad_cache : Cache;
  ad_downloads : list download;                  (* goroutines of downloadModelInBackground *)
  ad_prewarms : list (string * string * string); (* calls of PrewarmCache *)
}.

Definition set_ad_gateway (g : Gateway) (a : Admin) : Admin :=
  {| ad_gateway := g; ad_auth := a.(ad_auth); ad_apiKey := a.(ad_apiKey); ad_css := a.(ad_css); ad_latency := a.(ad_latency);
     ad_modelStore := a.(ad_modelStore); ad_cache := a.(ad_cache); ad_downloads := a.(ad_downloads); ad_prewarms := a.(ad_prewarms) |}.
Definition set_ad_auth (x : Auth) (a : Admin) : Admin :=
  {| ad_gateway := a.(ad_gateway); ad_auth := x; ad_apiKey := a.(ad_apiKey); ad_css := a.(ad_css); ad_latency := a.(ad_latency);
     ad_modelStore := a.(ad_modelStore); ad_cache := a.(ad_cache); ad_downloads := a.(ad_downloads); ad_prewarms := a.(ad_prewarms) |}.
Definition set_ad_apiKey (k : string) (a : Admin) : Admin :=
  {| ad_gateway := a.(ad_gateway); ad_auth := a.(ad_auth); ad_apiKey := k; ad_css := a.(ad_css); ad_latency := a.(ad_latency);
     ad_modelStore := a.(ad_modelStore); ad_cache := a.(ad_cache); ad_downloads := a.(ad_downloads); ad_prewarms := a.(ad_prewarms) |}.
Definition set_ad_css (c : string) (a : Admin) : Admin :=
  {| ad_gateway := a.(ad_gateway); ad_auth := a.(ad_auth); ad_apiKey := a.(ad_apiKey); ad_css := c; ad_latency := a.(ad_latency);
     ad_modelStore := a.(ad_modelStore); ad_cache := a.(ad_cache); ad_downloads := a.(ad_downloads); ad_prewarms := a.(ad_prewarms) |}.
Definition set_ad_latency (c : Config) (a : Admin) : Admin :=
  {| ad_gateway := a.(ad_gateway); ad_auth := a.(ad_auth); ad_apiKey := a.(ad_apiKey); ad_css := a.(ad_css); ad_latency := c;
     ad_modelStore := a.(ad_modelStore); ad_cache := a.(ad_cache); ad_downloads := a.(ad_downloads); ad_prewarms := a.(ad_prewarms) |}.
Definition set_ad_modelStore (m : FS) (a : Admin) : Admin :=
  {| ad_gateway := a.(ad_gateway); ad_auth := a.(ad_auth); ad_apiKey := a.(ad_apiKey); ad_css := a.(ad_css); ad_latency := a.(ad_latency);
     ad_modelStore := m; ad_cache := a.(ad_cache); ad_downloads := a.(ad_downloads); ad_prewarms := a.(ad_prewarms) |}.
Definition set_ad_cache (c : Cache) (a : Admin) : Admin :=
  {| ad_gateway := a.(ad_gateway); ad_auth := a.(ad_auth); ad_apiKey := a.(ad_apiKey); ad_css := a.(ad_css); ad_latency := a.(ad_latency);
     ad_modelStore := a.(ad_modelStore); ad_cache := c; ad_downloads := a.(ad_downloads); ad_prewarms := a.(ad_prewarms) |}.
Definition set_ad_downloads (l : list download) (a : Admin) : Admin :=
  {| ad_gateway := a.(ad_gateway); ad_auth := a.(ad_auth); ad_apiKey := a.(ad_apiKey); ad_css := a.(ad_css); ad_latency := a.(ad_latency);
     ad_modelStore := a.(ad_modelStore); ad_cache := a.(ad_cache); ad_downloads := l; ad_prewarms := a.(ad_prewarms) |}.
Definition set_ad_prewarms (l : list (string * string * string)) (a : Admin) : Admin :=
  {| ad_gateway := a.(ad_gateway); ad_auth := a.(ad_auth); ad_apiKey := a.(ad_apiKey); ad_css := a.(ad_css); ad_latency := a.(ad_latency);
     ad_modelStore := a.(ad_modelStore); ad_cache := a.(ad_cache); ad_downloads := a.(ad_downloads); ad_prewarms := l |}.

Definition on_gateway {A} (m : GoM Gateway A) : GoM Admin A := zoom ad_gateway set_ad_gateway m.
Definition on_admin_db {A} (m : GoM Store A) : GoM Admin A := on_gateway (on_store m).
Definition on_models {A} (m : GoM FS A) : GoM Admin A := zoom ad_modelStore set_ad_modelStore m.
Definition on_cache {A} (m : GoM Cache A) : GoM Admin A := zoom ad_cache set_ad_cache m.

(** ** Client version (version.go) *)

Definition admin_buildDownloadURL (version os arch : string) : string :=
  let name := "synergia-client-" +:+ os +:+ "-" +:+ arch +:+ (if os == "windows" then ".exe" else "") in
  "https://github.com/ylallemant/synergia/releases/download/" +:+ version +:+ "/" +:+ name.

Definition getVersion : GoM Admin Response :=
  cfg ← on_admin_db GetClientVersionConfig;
  mret match cfg with
       | inr _ => httpError "no version config set" 404
       | inl c => writeJSON 200 (versionConfigResponse c)
       end.

(** [ord] is the order of [WorkerStatus], [ord'] that of the broadcast. *)
Definition setVersion (ord ord' : map_order) (now : Z) (r : Request) : GoM Admin Response :=
  match decode_body decode_versionConfigRequest r with
  | None => mret (httpError "invalid JSON body" 400)
  | Some req =>
      let target := req.(vq_TargetVersion) in
      let mode := if req.(vq_RolloutMode) == "" then "all" else req.(vq_RolloutMode) in
      let pct := req.(vq_RolloutPercentage) in
      if target == "" then mret (httpError "target_version is required" 400)
      else if (mode != "all") && (mode != "percentage") then mret (httpError "rollout_mode must be 'all' or 'percentage'" 400)
      else if (mode == "percentage") && (bool_decide (pct < 1)%Z || bool_decide (100 < pct)%Z)
      then mret (httpError "rollout_percentage must be 1-100" 400)
      else
        err ← on_admin_db (SetClientVersionConfig now target mode (if mode == "all" then 100%Z else pct));
        match err with
        | Some _ => mret (httpError "internal error" 500)
        | None =>
            connected ← on_gateway HasWorker;
            (if (connected : bool) then
               info ← on_gateway (WorkerStatus ord);
               match info with
               | Some info =>
                   when (info.(wi_Version) != target)
                     (on_gateway (PushBinaryUpdate ord' target
                        (admin_buildDownloadURL target info.(wi_OS) info.(wi_Arch)) "/v1/binary/download" req.(vq_SHA256)) ;; skip)
               | None => skip
               end
             else skip) ;;
            mret admin_ok
        end
  end.

Definition AdminVersionHandler (ord ord' : map_order) (now : Z) (r : Request) : GoM Admin Response :=
  if r.(r_Method) == "GET" then getVersion
  else if r.(r_Method) == "POST" then setVersion ord ord' now r
  else mret not_allowed.

(** The cached tags, or GitHub's answer [fetched] when there are none. *)
Definition AdminVersionTagsHandler (fetched : option (list string)) (fetch_error : string) (r : Request) : GoM Admin Response :=
  if r.(r_Method) != "GET" then mret not_allowed
  else
    tags ← on_cache GetClientTags;
    tags ← (match tags with [] => on_cache (Cache.RefreshClientTags fetched) | _ => mret (Some tags) end);
    mret match tags with
         | None => httpError ("failed to fetch tags: " +:+ fetch_error) 502
         | Some tags => writeJSON 200 (JObj [("tags", JArr (JStr <$> tags))])
         end.

(** ** Backend version (backend.go) *)

Definition getBackend : GoM Admin Response :=
  cfg ← on_admin_db GetBackendVersionConfig;
  mret match cfg with
       | inr _ => httpError "no backend config set" 404
       | inl c => writeJSON 200 (backendConfigResponse c)
       end.

Definition backend_fallback (version os arch : string) : string :=
  "/v1/backend/download?version=" +:+ version +:+ "&os=" +:+ os +:+ "&arch=" +:+ arch.

(** [url_fuel] bounds the loops of [ExpandURL]. *)
Definition push_backend (url_fuel : nat) (ord ord' : map_order) (version url sha : string) : GoM Admin unit :=
  connected ← on_gateway HasWorker;
  if (connected : bool) then
    info ← on_gateway (WorkerStatus ord);
    match info with
    | None => skip
    | Some info =>
        match ExpandURL url_fuel url version info.(wi_OS) info.(wi_Arch) with
        | None => block
        | Some downloadURL =>
            on_gateway (PushBackendUpdate ord' version downloadURL
              (backend_fallback version info.(wi_OS) info.(wi_Arch)) sha) ;; skip
        end
    end
  else skip.

Definition setBackend (url_fuel : nat) (ord ord' : map_order) (now : Z) (r : Request) : GoM Admin Response :=
  match decode_body decode_backendConfigRequest r with
  | None => mret (httpError "invalid JSON body" 400)
  | Some req =>
      let name := if req.(kq_Name) == "" then LlamaCpp else req.(kq_Name) in
      if req.(kq_Version) == "" then mret (httpError "version is required" 400)
      else if negb (IsValid name) then mret (httpError ("unknown backend name: " +:+ name) 400)
      else match (if req.(kq_DownloadURL) == "" then DownloadURLTemplates name else Some req.(kq_DownloadURL)) with
      | None => mret (httpError ("no download URL template for backend: " +:+ name) 400)
      | Some url =>
          err ← on_admin_db (SetBackendVersionConfig now name req.(kq_Version) url req.(kq_SHA256));
          match err with
          | Some _ => mret (httpError "internal error" 500)
          | None =>
              on_admin_db MarkAllWorkersBackendOutOfSync ;;
              modify (fun a => set_ad_prewarms (a.(ad_prewarms) ++ [(req.(kq_Version), url, req.(kq_SHA256))]) a) ;;
              push_backend url_fuel ord ord' req.(kq_Version) url req.(kq_SHA256) ;;
              mret admin_ok
          end
      end
  end.

Definition AdminBackendHandler (url_fuel : nat) (ord ord' : map_order) (now : Z) (r : Request) : GoM Admin Response :=
  if r.(r_Method) == "GET" then getBackend
  else if r.(r_Method) == "POST" then setBackend url_fuel ord ord' now r
  else mret not_allowed.

Definition AdminBackendTagsHandler (fetched : option (list string)) (fetch_error : string) (r : Request) : GoM Admin Response :=
  if r.(r_Method) != "GET" then mret not_allowed
  else
    let name := if r.(r_Query) "name" == "" then LlamaCpp else r.(r_Query) "name" in
    if negb (IsValid name) then mret (httpError ("unknown backend: " +:+ name) 400)
    else
      tags ← on_cache (GetBackendTags name);
      tags ← (match tags with [] => on_cache (RefreshBackendTags name fetched) | _ => mret (Some tags) end);
      mret match tags with
           | None => httpError ("failed to fetch tags: " +:+ fetch_error) 502
           | Some tags => writeJSON 200 (JObj [("name", JStr name); ("tags", JArr (JStr <$> tags))])
           end.

Definition AdminBackendNamesHandler (r : Request) : GoM Admin Response :=
  mret (if r.(r_Method) != "GET" then not_allowed
        else writeJSON 200 (JObj [("names", JArr (JStr <$> Names))])).

(** ** Role models (roles.go)

    [gorm_columns] are the bookkeeping columns that the embedded gorm.Model
    adds to the JSON of a row. *)

Definition role_json (gorm_columns : RoleModel -> list (string * json)) (r : RoleModel) : json :=
  JObj (gorm_columns r ++
    [("role", JStr r.(rm_Role)); ("llm_model", JStr r.(rm_LLMModel)); ("quantisation", JStr r.(rm_Quantisation));
     ("model_filename", JStr r.(rm_ModelFilename)); ("model_file_hash", JStr r.(rm_ModelFileHash))] ++
    omitempty (r.(rm_DownloadURL) == "") "download_url" (JStr r.(rm_DownloadURL)) ++
    [("min_vram_mb", int_json r.(rm_MinVRAMMB)); ("description", JStr r.(rm_Description));
     ("context_size", int_json r.(rm_ContextSize)); ("endpoint_type", JStr r.(rm_EndpointType));
     ("parallel_slots", int_json r.(rm_ParallelSlots)); ("gpu_layers", int_json r.(rm_GPULayers));
     ("flash_attention", JBool r.(rm_FlashAttention))]).

(** The defaults of the llama parameters. *)
Definition with_llama_defaults (q : RoleModel) : RoleModel :=
  set_rm_ContextSize (default_int 4096 q.(rm_ContextSize))
    (set_rm_EndpointType (default_str "chat" q.(rm_EndpointType))
      (set_rm_ParallelSlots (default_int 1 q.(rm_ParallelSlots))
        (set_rm_GPULayers (default_int (-1) q.(rm_GPULayers)) q))).

Definition upsert_request (q : RoleModel) : GoM Store (option db_err) :=
  UpsertRoleModel q.(rm_Role) q.(rm_LLMModel) q.(rm_Quantisation) q.(rm_ModelFilename) q.(rm_ModelFileHash)
    q.(rm_MinVRAMMB) q.(rm_Description).

(** A missing hash is that of the stored file; without a file, a download is
    started if there is a URL. *)
Definition complete_hash (q : RoleModel) : GoM Admin RoleModel :=
  if (q.(rm_ModelFileHash) == "") && (q.(rm_ModelFilename) != "") then
    hash ← on_models (ms_FileHash q.(rm_ModelFilename));
    match hash with
    | Some hash =>
        let q := set_rm_ModelFileHash hash q in
        on_admin_db (upsert_request q) ;; mret q
    | None =>
        (if q.(rm_DownloadURL) != "" then
           modify (fun a => set_ad_downloads (a.(ad_downloads) ++
             [{| dn_role := q.(rm_Role); dn_filename := q.(rm_ModelFilename); dn_url := q.(rm_DownloadURL) |}]) a)
         else skip) ;;
        mret q
    end
  else mret q.

Definition push_role (ord : map_order) (q : RoleModel) : GoM Admin unit :=
  if q.(rm_ModelFileHash) != "" then
    let llmHash := ComputeLLMHash q.(rm_Role) q.(rm_ModelFileHash) in
    on_gateway (PushModelUpdate ord q.(rm_Role) q.(rm_LLMModel) q.(rm_Quantisation) q.(rm_ModelFilename)
      q.(rm_ModelFileHash) llmHash q.(rm_ContextSize) q.(rm_ParallelSlots) q.(rm_GPULayers)
      q.(rm_EndpointType) q.(rm_FlashAttention)) ;; skip
  else skip.

Definition setRole (ord : map_order) (r : Request) : GoM Admin Response :=
  match decode_body decode_role_request r with
  | None => mret (writeError 400 "invalid JSON")
  | Some q =>
      if (q.(rm_Role) == "") || (q.(rm_LLMModel) == "") || bool_decide (q.(rm_MinVRAMMB) <= 0)%Z
      then mret (writeError 400 "role, model, and min_vram_mb (>0) are required")
      else
        let q := with_llama_defaults q in
        err ← on_admin_db (upsert_request q);
        match err with
        | Some _ => mret (writeError 500 "database error")
        | None =>
            on_admin_db (SetRoleLlamaConfig q.(rm_Role) q.(rm_ContextSize) q.(rm_ParallelSlots) q.(rm_GPULayers)
              q.(rm_EndpointType) q.(rm_FlashAttention)) ;;
            (if q.(rm_DownloadURL) != "" then on_admin_db (SetRoleDownloadURL q.(rm_Role) q.(rm_DownloadURL)) ;; skip
             else skip) ;;
            q ← complete_hash q;
            push_role ord q ;;
            mret admin_ok
        end
  end.

Definition AdminRolesHandler (gorm_columns : RoleModel -> list (string * json)) (ord : map_order) (r : Request) : GoM Admin Response :=
  if r.(r_Method) == "GET" then
    roles ← on_admin_db GetRoleModels;
    mret match roles with
         | inr _ => writeError 500 "database error"
         | inl l => writeJSON 200 (JArr (role_json gorm_columns <$> l))
         end
  else if (r.(r_Method) == "POST") || (r.(r_Method) == "PUT") then setRole ord r
  else if r.(r_Method) == "DELETE" then
    let role := r.(r_Query) "role" in
    if role == "" then mret (writeError 400 "role query parameter is required")
    else
      err ← on_admin_db (DeleteRoleModel role);
      mret match err with Some _ => writeError 500 "database error" | None => admin_ok end
  else mret not_allowed.

(** The goroutine, given the body of a 200 answer to its GET, if it gets one,
    and whether the body arrives complete. *)
Definition downloadModelInBackground (d : download) (resp : option (string * bool)) : GoM Admin unit :=
  match resp with
  | None => skip
  | Some (body, complete) =>
      hash ← on_models (ms_Save d.(dn_filename) body complete);
      match hash with
      | None => skip
      | Some hash => on_admin_db (SetRoleModelFileHash d.(dn_role) hash) ;; skip
      end
  end.

(** ** Branding (branding.go here and in api) *)

Definition NewBranding : GoM Admin unit :=
  css ← on_admin_db GetBrandingCSS;
  modify (set_ad_css match css with inl css => css | inr _ => "" end).
Definition GetCSS : GoM Admin string := gets ad_css.
Definition SetCSS (now : Z) (css : string) : GoM Admin (option db_err) :=
  err ← on_admin_db (SetBrandingCSS now css);
  match err with
  | Some e => mret (Some e)
  | None => modify (set_ad_css css) ;; mret None
  end.

Definition AdminUpdateHandler (now : Z) (r : Request) : GoM Admin Response :=
  if r.(r_Method) != "PUT" then mret not_allowed
  else match r.(r_Body) with
  | None => mret (httpError "failed to read body" 400)
  | Some body =>
      err ← SetCSS now (take_str (256 * 1024) body);
      mret match err with Some _ => httpError "internal error" 500 | None => admin_ok end
  end.

(** [inl]: the style sheet; the worker key is the live one. *)
Definition StyleHandler (r : Request) : GoM Admin (string + Response) :=
  if r.(r_Method) != "GET" then mret (inr not_allowed)
  else
    key ← on_gateway WorkerKey;
    if (key != "") && (r.(r_Header) "Authorization" != ("Bearer " +:+ key)) then mret (inr (httpError "unauthorized" 401))
    else css ← gets ad_css; mret (inl css).

(** ** OIDC and worker authentication (oidc.go, workers.go) *)

Definition oidcConfigResponse (c : option OidcConfig) : json :=
  let get {A} (f : OidcConfig -> A) (zero : A) := match c with Some c => f c | None => zero end in
  let updated := get (fun c => rfc3339_format c.(oc_UpdatedAt)) "" in
  JObj ([("enabled", JBool (get oc_Enabled false)); ("client_id", JStr (get oc_ClientID ""));
         ("client_secret", JStr (mask secretMask (get oc_ClientSecret ""))); ("provider_url", JStr (get oc_ProviderURL ""));
         ("redirect_url", JStr (get oc_RedirectURL "")); ("is_configured", JBool (bool_decide (c <> None)))] ++
        omitempty (updated == "") "updated_at" (JStr updated)).

Definition oidc_getConfig : GoM Admin Response :=
  cfg ← on_admin_db GetOIDCConfig;
  mret match cfg with inr _ => httpError "internal error" 500 | inl c => writeJSON 200 (oidcConfigResponse c) end.

(** the mask stands for "keep what is stored" *)
Definition unmask (m secret : string) : string := if secret == m then "" else secret.

Definition oidc_setConfig (now : Z) (r : Request) : GoM Admin Response :=
  match decode_body decode_oidcConfigPayload r with
  | None => mret (httpError "invalid JSON" 400)
  | Some p =>
      err ← on_admin_db (SetOIDCConfig now p.(op_Enabled) p.(op_ClientID) (unmask secretMask p.(op_ClientSecret))
              p.(op_ProviderURL) p.(op_RedirectURL));
      mret match err with Some _ => httpError "internal error" 500 | None => admin_ok end
  end.
Definition oidc_ConfigHandler (now : Z) (r : Request) : GoM Admin Response :=
  if r.(r_Method) == "GET" then oidc_getConfig
  else if r.(r_Method) == "PUT" then oidc_setConfig now r
  else mret not_allowed.

Definition workerAuthResponse (c : option WorkerAuthConfig) : json :=
  let get {A} (f : WorkerAuthConfig -> A) (zero : A) := match c with Some c => f c | None => zero end in
  let updated := get (fun c => rfc3339_format c.(wa_UpdatedAt)) "" in
  JObj ([("tofu_enabled", JBool (get wa_TOFUEnabled false)); ("worker_key", JStr (mask workerKeyMask (get wa_WorkerKey "")));
         ("is_configured", JBool (bool_decide (c <> None)))] ++
        omitempty (updated == "") "updated_at" (JStr updated)).

Definition workers_getConfig : GoM Admin Response :=
  cfg ← on_admin_db GetWorkerAuthConfig;
  mret match cfg with inr _ => httpError "internal error" 500 | inl c => writeJSON 200 (workerAuthResponse c) end.

Definition workers_setConfig (now : Z) (r : Request) : GoM Admin Response :=
  match decode_body decode_workerAuthPayload r with
  | None => mret (httpError "invalid JSON" 400)
  | Some p =>
      let key := unmask workerKeyMask p.(wap_WorkerKey) in
      err ← on_admin_db (SetWorkerAuthConfig now p.(wap_TOFUEnabled) key);
      match err with
      | Some _ => mret (httpError "internal error" 500)
      | None =>
          on_gateway (SetWorkerKey (if p.(wap_TOFUEnabled) then "" else key)) ;;
          mret admin_ok
      end
  end.
Definition workers_ConfigHandler (now : Z) (r : Request) : GoM Admin Response :=
  if r.(r_Method) == "GET" then workers_getConfig
  else if r.(r_Method) == "PUT" then workers_setConfig now r
  else mret not_allowed.

(** The key the gateway is created with at start-up (main.go). *)
Definition startup_worker_key : GoM Store string :=
  wac ← GetWorkerAuthConfig;
  mret match wac with
       | inl (Some c) => if negb c.(wa_TOFUEnabled) && (c.(wa_WorkerKey) != "") then c.(wa_WorkerKey) else ""
       | _ => ""
       end.

(** ** The API key (apikey.go) *)

Definition settingAPIKey : string := "api_key".
Definition err_text (e : db_err) : string := match e with ErrRecordNotFound => "record not found" | ErrDB msg => msg end.

Definition AdminAPIKeyHandler (r : Request) : GoM Admin Response :=
  if r.(r_Method) == "GET" then
    key ← on_admin_db (GetSetting settingAPIKey);
    mret (writeJSON 200 (JObj [("key", JStr match key with inl k => k | inr _ => "" end)]))
  else if r.(r_Method) == "POST" then
    match decode_body decode_apikey_body r with
    | None => mret (httpError "invalid JSON" 400)
    | Some key =>
        let key := TrimSpace key in
        if key == "" then mret (httpError "key must not be empty" 400)
        else
          err ← on_admin_db (SetSetting settingAPIKey key);
          match err with
          | Some e => mret (httpError ("failed to save: " +:+ err_text e) 500)
          | None => modify (set_ad_apiKey key) ;; mret {| status := 204; body := NoBody |}
          end
    end
  else mret not_allowed.

(** ** Latency and statistics (latency.go, stats.go) *)

Definition LatencyHandler (now : Z) (r : Request) : GoM Admin Response :=
  if r.(r_Method) != "GET" then mret not_allowed
  else
    let role := r.(r_Query) "role" in
    cfg ← gets ad_latency;
    matrices ← on_admin_db (ComputeMatrix now cfg role);
    mret match matrices with
         | inr _ => httpError "internal server error" 500
         | inl [m] => writeJSON 200 (if role != "" then matrix_json m else JObj [("matrices", JArr [matrix_json m])])
         | inl l => writeJSON 200 (JObj [("matrices", slice_json matrix_json l)])
         end.

Definition latency_ConfigHandler (r : Request) : GoM Admin Response :=
  if r.(r_Method) == "GET" then
    cfg ← gets ad_latency; mret (writeJSON 200 (latency_Config_json cfg))
  else if r.(r_Method) == "POST" then
    match decode_body decode_latency_Config r with
    | None => mret (httpError "invalid JSON" 400)
    | Some req =>
        modify (fun a => set_ad_latency (SetConfig req a.(ad_latency)) a) ;;
        cfg ← gets ad_latency;
        mret (writeJSON 200 (latency_Config_json cfg))
    end
  else mret not_allowed.

Definition StatsHandler (r : Request) : GoM Admin Response :=
  if r.(r_Method) != "GET" then mret not_allowed
  else stats ← on_cache GetStats; mret (writeJSON 200 (stats_json stats)).

Definition VersionsStatusHandler (managerVersion : string) (r : Request) : GoM Admin Response :=
  if r.(r_Method) != "GET" then mret not_allowed
  else
    stats ← on_cache GetStats;
    client ← on_cache GetClientTags;
    backend ← on_cache (GetBackendTags LlamaCpp);
    let latest (l : list string) := match l with t :: _ => t | [] => "" end in
    mret (writeJSON 200 (versions_json managerVersion (latest client) (latest backend) stats)).

(** ** The guard and the routes (admin/server, main.go) *)

Definition getAPIKey : GoM Admin string := gets ad_apiKey.
Definition SetAPIKey (key : string) : GoM Admin unit := modify (set_ad_apiKey key).

Definition HandleFuncAdmin {A} (handler : GoM Admin A) : Z -> option string -> string -> GoM Admin (A + auth_reply) :=
  RequireAuthOrBearerFn ad_auth set_ad_auth getAPIKey handler.

(** What a request reads of its surroundings. *)
Record surroundings := {
  su_now : Z;
  su_cookie : option string;
  su_ord : map_order;
  su_ord' : map_order;
  su_fetched : option (list string);
  su_fetch_error : string;
}.

Definition route (url_fuel : nat) (gorm_columns : RoleModel -> list (string * json)) (managerVersion : string)
    (su : surroundings) (r : Request) : option (GoM Admin Response) :=
  let p := r.(r_Path) in
  if p == "/v1/latency" then Some (LatencyHandler su.(su_now) r)
  else if p == "/v1/latency/config" then Some (latency_ConfigHandler r)
  else if p == "/v1/admin/version" then Some (AdminVersionHandler su.(su_ord) su.(su_ord') su.(su_now) r)
  else if p == "/v1/admin/version/tags" then Some (AdminVersionTagsHandler su.(su_fetched) su.(su_fetch_error) r)
  else if p == "/v1/admin/backend" then Some (AdminBackendHandler url_fuel su.(su_ord) su.(su_ord') su.(su_now) r)
  else if p == "/v1/admin/backend/tags" then Some (AdminBackendTagsHandler su.(su_fetched) su.(su_fetch_error) r)
  else if p == "/v1/admin/backend/names" then Some (AdminBackendNamesHandler r)
  else if p == "/v1/admin/roles" then Some (AdminRolesHandler gorm_columns su.(su_ord) r)
  else if p == "/v1/admin/branding/css" then Some (AdminUpdateHandler su.(su_now) r)
  else if p == "/v1/admin/oidc" then Some (oidc_ConfigHandler su.(su_now) r)
  else if p == "/v1/admin/workers" then Some (workers_ConfigHandler su.(su_now) r)
  else if p == "/v1/admin/stats" then Some (StatsHandler r)
  else if p == "/v1/admin/versions/status" then Some (VersionsStatusHandler managerVersion r)
  else if p == "/v1/admin/apikey" then Some (AdminAPIKeyHandler r)
  else None.

(** [None]: the path is none of these. *)
Definition serve_admin (url_fuel : nat) (gorm_columns : RoleModel -> list (string * json)) (managerVersion : string)
    (su : surroundings) (r : Request) : GoM Admin (option (Response + auth_reply)) :=
  match route url_fuel gorm_columns managerVersion su r with
  | None => mret None
  | Some handler =>
      answer ← HandleFuncAdmin handler su.(su_now) su.(su_cookie) (r.(r_Header) "Authorization");
      mret (Some answer)
  end.

(** Requests, and downloads that end. *)
Inductive admin_event :=
  | AdRequest (su : surroundings) (r : Request)
  | AdDownloaded (i : nat) (resp : option (string * bool)).

Definition exec_admin (url_fuel : nat) (gorm_columns : RoleModel -> list (string * json)) (managerVersion : string)
    (e : admin_event) : GoM Admin unit :=
  match e with
  | AdRequest su r => serve_admin url_fuel gorm_columns managerVersion su r ;; skip
  | AdDownloaded i resp =>
      running ← gets ad_downloads;
      match running !! i with
      | None => skip
      | Some d => downloadModelInBackground d resp ;; modify (fun a => set_ad_downloads (delete i a.(ad_downloads)) a)
      end
  end.
End admin.
Arguments Admin {_} _.

(** ** What the requests do to the database *)

Section frames.
Context `{GormLaws, WebSocket, Crypto, JsonText, TimeText} {FS : Type} `{!ModelStore FS}.
Context (Q : Store -> Store -> Prop) `{!PreOrder Q}.

Definition db_rel (a a' : Admin FS) : Prop := store_rel Q a.(ad_gateway) a'.(ad_gateway).
#[export] Instance db_rel_preorder : PreOrder db_rel.
Proof. split; [intros a; apply (reflexivity (R := store_rel Q))|intros a b c; unfold db_rel; by etrans]. Qed.

Lemma db_on_gateway {A} (m : GoM Gateway A) : keeps (store_rel Q) m -> keeps db_rel (on_gateway m).
Proof. intros Hm. apply (keeps_zoom _ (store_rel Q)); [|done]. by intros a g. Qed.
Lemma db_on_db {A} (m : GoM Store A) : keeps Q m -> keeps db_rel (on_admin_db m).
Proof. intros Hm. by apply db_on_gateway, keeps_on_store. Qed.
Lemma db_on_models {A} (m : GoM FS A) : keeps db_rel (on_models m).
Proof. intros a. unfold run, on_models, zoom. destruct (m _). apply (reflexivity (R := store_rel Q)). Qed.
Lemma db_on_cache {A} (m : GoM Cache A) : keeps db_rel (on_cache (FS := FS) m).
Proof. intros a. unfold run, on_cache, zoom. destruct (m _). apply (reflexivity (R := store_rel Q)). Qed.
Lemma db_modify (f : Admin FS -> Admin FS) : (forall a, (f a).(ad_gateway) = a.(ad_gateway)) -> keeps db_rel (modify f).
Proof. intros Hf a. unfold db_rel, run, modify. cbn. rewrite Hf. apply (reflexivity (R := store_rel Q)). Qed.

Lemma store_push_loop update l e : keeps (store_rel Q) (push_loop update l e).
Proof. revert e. induction l as [|[fp wc] l IH]; intros e; cbn [push_loop]; keeps_tac. apply keeps_WriteJSON_store, _. Qed.
Lemma db_SetWorkerKey k : keeps db_rel (on_gateway (SetWorkerKey k)).
Proof. apply db_on_gateway, keeps_modify_store; first [apply _|done]. Qed.
Lemma db_push ord update : keeps db_rel (on_gateway (broadcast ord update)).
Proof. apply db_on_gateway. unfold broadcast. keeps_tac. apply store_push_loop. Qed.
End frames.

(** ** Well-formed configurations *)

Create HintDb configs.

Definition version_ok (c : ClientVersionConfig) : Prop :=
  c.(cv_TargetVersion) <> "" /\
  (c.(cv_RolloutMode) = "all" /\ c.(cv_RolloutPercentage) = 100%Z \/
   c.(cv_RolloutMode) = "percentage" /\ (1 <= c.(cv_RolloutPercentage) <= 100)%Z).
Definition backend_ok (c : BackendVersionConfig) : Prop :=
  IsValid c.(bv_Name) = true /\ c.(bv_Version) <> "" /\ c.(bv_DownloadURL) <> "".
Definition role_ok (r : RoleModel) : Prop :=
  r.(rm_Role) <> "" /\ r.(rm_LLMModel) <> "" /\ (0 < r.(rm_MinVRAMMB))%Z /\ r.(rm_ContextSize) <> 0%Z /\
  r.(rm_EndpointType) <> "" /\ r.(rm_ParallelSlots) <> 0%Z /\ r.(rm_GPULayers) <> 0%Z.
Definition setting_ok (x : SystemSetting) : Prop := x.(ss_Key) = settingAPIKey -> x.(ss_Value) <> "".

Section well_formed.
Context `{GormLaws, WebSocket, Crypto, JsonText, TimeText} {FS : Type} `{!ModelStore FS}.

Definition configs_ok (s : Store) : Prop :=
  rows_ok version_ok ClientVersions s /\ rows_ok backend_ok BackendVersions s /\
  rows_ok role_ok Roles s /\ rows_ok setting_ok Settings s.
Definition configs_rel (s s' : Store) : Prop := configs_ok s -> configs_ok s'.
#[local] Instance configs_rel_preorder : PreOrder configs_rel.
Proof. split; [intros s Hs; exact Hs|intros x y z; unfold configs_rel; auto]. Qed.

Lemma configs_split {A} (m : GoM Store A) :
  keeps (rows_rel version_ok ClientVersions) m -> keeps (rows_rel backend_ok BackendVersions) m ->
  keeps (rows_rel role_ok Roles) m -> keeps (rows_rel setting_ok Settings) m -> keeps configs_rel m.
Proof. intros K1 K2 K3 K4 s (A1 & A2 & A3 & A4). split_and!; [by apply K1|by apply K2|by apply K3|by apply K4]. Qed.

(** A statement either works on another table or keeps the rows well-formed. *)
Ltac statement_tac :=
  first [ apply rows_unchanged; solve [apply unchanged_Updates; reflexivity | apply unchanged_UpdatesN; reflexivity
                                      |apply unchanged_Create; reflexivity | apply unchanged_Delete; reflexivity
                                      |apply unchanged_Updates_; reflexivity]
        | apply rows_Updates; [apply _|] | apply rows_UpdatesN; [apply _|] | apply rows_Create; [apply _|]
        | apply rows_Delete, _ ].
Ltac configs_tac := apply configs_split; keeps_tac; statement_tac.

Lemma configs_version now v m p :
  version_ok {| cv_TargetVersion := v; cv_RolloutMode := m; cv_RolloutPercentage := p; cv_UpdatedAt := now |} ->
  keeps configs_rel (SetClientVersionConfig now v m p).
Proof.
  intros Hv. unfold SetClientVersionConfig, upsert_single, first_row. cbv zeta. configs_tac; [done|].
  destruct Hv as (Hv & Hm). split; [done|]. cbn in *. unfold default_str, default_int.
  destruct Hm as [[-> ->]|[-> Hp]]; cbn; [by left|right].
  split; [done|]. case_bool_decide; lia.
Qed.

Lemma configs_backend now n v u h :
  backend_ok {| bv_Name := n; bv_Version := v; bv_DownloadURL := u; bv_SHA256 := h; bv_UpdatedAt := now |} ->
  keeps configs_rel (SetBackendVersionConfig now n v u h).
Proof. intros Hb. unfold SetBackendVersionConfig, upsert_single, first_row. cbv zeta. configs_tac; done. Qed.

Lemma configs_upsert_role q : role_ok q -> keeps configs_rel (upsert_request q).
Proof.
  intros (Hr & Hm & Hv & _). unfold upsert_request, UpsertRoleModel. configs_tac.
  - intros r0 (A1 & A2 & A3 & A4). by unfold role_ok; split_and!; destruct_and?.
  - by unfold role_ok; split_and!.
Qed.

Lemma configs_llama role q : role_ok q ->
  keeps configs_rel (SetRoleLlamaConfig role q.(rm_ContextSize) q.(rm_ParallelSlots) q.(rm_GPULayers) q.(rm_EndpointType) q.(rm_FlashAttention)).
Proof.
  intros (_ & _ & _ & Hc & He & Hp & Hg). unfold SetRoleLlamaConfig. configs_tac.
  intros r (A1 & A2 & A3 & _). by unfold role_ok; split_and!.
Qed.

Lemma configs_setting v : v <> "" -> keeps configs_rel (SetSetting settingAPIKey v).
Proof. intros Hv. unfold SetSetting. configs_tac; [intros ? _|]; by intros _. Qed.

Lemma configs_role_url role url : keeps configs_rel (SetRoleDownloadURL role url).
Proof. unfold SetRoleDownloadURL. configs_tac. done. Qed.
Lemma configs_role_hash role h : keeps configs_rel (SetRoleModelFileHash role h).
Proof. unfold SetRoleModelFileHash. configs_tac. done. Qed.
Lemma configs_delete_role role : keeps configs_rel (DeleteRoleModel role).
Proof. unfold DeleteRoleModel. configs_tac. Qed.
Lemma configs_css now css : keeps configs_rel (SetBrandingCSS now css).
Proof. unfold SetBrandingCSS, upsert_single, first_row. configs_tac. Qed.
Lemma configs_oidc now e i s p r : keeps configs_rel (SetOIDCConfig now e i s p r).
Proof. unfold SetOIDCConfig, upsert_single, first_row. cbv zeta. configs_tac. Qed.
Lemma configs_worker_auth now t k : keeps configs_rel (SetWorkerAuthConfig now t k).
Proof. unfold SetWorkerAuthConfig, upsert_single, first_row. cbv zeta. configs_tac. Qed.
Lemma configs_outdated : keeps configs_rel MarkAllWorkersBackendOutOfSync.
Proof. unfold MarkAllWorkersBackendOutOfSync. configs_tac. Qed.

#[local] Hint Resolve configs_role_url configs_role_hash configs_delete_role configs_css configs_oidc
  configs_worker_auth configs_outdated : configs.

Abbreviation db_keeps := (keeps (db_rel configs_rel)) (only parsing).
Ltac handler_tac := keeps_tac; try first
  [ apply db_on_db; [apply _|]; solve [auto with configs | apply configs_split; keeps_tac]
  | apply db_on_models, _ | apply db_on_cache, _ | apply db_push, _ | apply db_SetWorkerKey, _
  | apply db_on_gateway; [apply _|]; solve [keeps_tac]
  | apply db_modify; [apply _|by intros []] ].

Lemma db_push_backend fuel ord ord' v u h : db_keeps (push_backend (FS := FS) fuel ord ord' v u h).
Proof. unfold push_backend, HasWorker, WorkerStatus, PushBackendUpdate. handler_tac. Qed.

Lemma db_setVersion ord ord' now r : db_keeps (setVersion (FS := FS) ord ord' now r).
Proof.
  unfold setVersion. destruct (decode_body _ r) as [q|]; [|handler_tac]. cbv zeta.
  case_bool_decide as Ht; [handler_tac|].
  set (mode := if vq_RolloutMode q == "" then "all" else vq_RolloutMode q).
  destruct (bool_decide_reflect (mode = "all")) as [->|Hall]; cbn [negb andb].
  - rewrite (bool_decide_eq_false_2 ("all" = "percentage")) by done. cbn [andb].
    apply keeps_bind; [apply _|apply db_on_db, configs_version; [apply _|]; split; [done|by left]|].
    intros err. unfold HasWorker, WorkerStatus, PushBinaryUpdate. handler_tac.
  - destruct (bool_decide_reflect (mode = "percentage")) as [->|Hp]; cbn [negb andb]; [|handler_tac].
    destruct (bool_decide _ || bool_decide _) eqn:Eb; [handler_tac|].
    apply orb_false_iff in Eb as [E1%bool_decide_eq_false_1 E2%bool_decide_eq_false_1].
    apply keeps_bind; [apply _|apply db_on_db, configs_version; [apply _|]; split; [done|right; split; [done|cbn; lia]]|].
    intros err. unfold HasWorker, WorkerStatus, PushBinaryUpdate. handler_tac.
Qed.

Lemma db_setBackend fuel ord ord' now r : db_keeps (setBackend (FS := FS) fuel ord ord' now r).
Proof.
  unfold setBackend. destruct (decode_body _ r) as [q|]; [|handler_tac]. cbv zeta.
  case_bool_decide as Hv; [handler_tac|].
  set (name := if kq_Name q == "" then LlamaCpp else kq_Name q).
  destruct (IsValid name) eqn:En; cbn [negb]; [|handler_tac].
  destruct (if kq_DownloadURL q == "" then _ else _) as [url|] eqn:Eu; [|handler_tac].
  apply keeps_bind; [apply _| |].
  - apply db_on_db, configs_backend; [apply _|]. split; [done|]. split; [done|]. cbn.
    revert Eu. case_bool_decide as Hu; [|by intros [= <-]].
    unfold DownloadURLTemplates. case_bool_decide; [by intros [= <-]|done].
  - intros [e|]; [handler_tac|]. apply keeps_bind; [apply _|apply db_on_db, configs_outdated; apply _|intros _].
    apply keeps_bind; [apply _|by apply db_modify; [apply _|]|intros _].
    apply keeps_bind; [apply _|apply db_push_backend|intros _; handler_tac].
Qed.

Lemma default_int_some d x : d <> 0%Z -> default_int d x <> 0%Z.
Proof. unfold default_int. by case_bool_decide. Qed.

Lemma llama_defaults_ok q : q.(rm_Role) <> "" -> q.(rm_LLMModel) <> "" -> (0 < q.(rm_MinVRAMMB))%Z -> role_ok (with_llama_defaults q).
Proof.
  intros Hr Hm Hv. unfold role_ok. split_and!; [done..| | | |]; cbn; try by apply default_int_some.
  unfold default_str. by case_bool_decide.
Qed.

Lemma db_setRole ord r : db_keeps (setRole (FS := FS) ord r).
Proof.
  unfold setRole. destruct (decode_body _ r) as [q|]; [|handler_tac].
  destruct (_ || _ || _) eqn:Eb; [handler_tac|]. cbv zeta.
  apply orb_false_iff in Eb as [[E1%bool_decide_eq_false_1 E2%bool_decide_eq_false_1]%orb_false_iff E3%bool_decide_eq_false_1].
  assert (Hq : role_ok (with_llama_defaults q)) by (apply llama_defaults_ok; [done|done|lia]).
  set (q' := with_llama_defaults q) in *. clearbody q'.
  apply keeps_bind; [apply _|by apply db_on_db, configs_upsert_role; [apply _|]|intros [e|]; [handler_tac|]].
  apply keeps_bind; [apply _|by apply db_on_db, configs_llama; [apply _|]|intros _].
  apply keeps_bind; [apply _| |intros _].
  { keeps_tac. apply db_on_db, configs_role_url; apply _. }
  apply keeps_bind; [apply _| |intros q2].
  { unfold complete_hash. keeps_tac; [apply db_on_models, _| |by apply db_modify; [apply _|]].
    apply db_on_db, configs_upsert_role; [apply _|done]. }
  unfold push_role, PushModelUpdate. handler_tac.
Qed.

(** Computing the latency matrix only reads. *)
Lemma matrix_reads (R : Store -> Store -> Prop) `{!PreOrder R} now cfg role : keeps R (ComputeMatrix now cfg role).
Proof.
  assert (Hfill : forall since r bounds l, keeps R (fill_matrix since r bounds l)).
  { intros since r bounds l. induction l as [|i l IH]; cbn [fill_matrix]; [keeps_tac|].
    destruct (bucket_range bounds i). unfold GetLatencySamplesInRange. keeps_tac. }
  assert (Hrole : forall r since, keeps R (computeRoleMatrix r cfg since)).
  { intros r since. unfold computeRoleMatrix, GetHourlyStats, GetSamplePayloadRange. keeps_tac. }
  assert (Hall : forall l since, keeps R (compute_all l cfg since)).
  { intros l since. induction l as [|r l IH]; cbn [compute_all]; [keeps_tac|]. keeps_tac. }
  unfold ComputeMatrix, GetDistinctRoles, GetDistinctSampleRoles. keeps_tac.
Qed.

Lemma db_route fuel cols ver su r h : route (FS := FS) fuel cols ver su r = Some h -> db_keeps h.
Proof.
  unfold route. cbv zeta. repeat (case_bool_decide; [intros [= <-]|]); [..|done].
  - unfold LatencyHandler. handler_tac. apply db_on_db, matrix_reads; apply _.
  - unfold latency_ConfigHandler. handler_tac.
  - unfold AdminVersionHandler, getVersion, GetClientVersionConfig. handler_tac. apply db_setVersion.
  - unfold AdminVersionTagsHandler. handler_tac.
  - unfold AdminBackendHandler, getBackend, GetBackendVersionConfig. handler_tac. apply db_setBackend.
  - unfold AdminBackendTagsHandler. handler_tac.
  - unfold AdminBackendNamesHandler. handler_tac.
  - unfold AdminRolesHandler, GetRoleModels. handler_tac. apply db_setRole.
  - unfold AdminUpdateHandler, SetCSS. handler_tac.
  - unfold oidc_ConfigHandler, oidc_getConfig, oidc_setConfig, GetOIDCConfig, get_single, first_row. handler_tac.
  - unfold workers_ConfigHandler, workers_getConfig, workers_setConfig, GetWorkerAuthConfig, get_single, first_row.
    handler_tac.
  - unfold StatsHandler. handler_tac.
  - unfold VersionsStatusHandler. handler_tac.
  - unfold AdminAPIKeyHandler, GetSetting. destruct (_ == "GET"); [handler_tac|]. destruct (_ == "POST"); [|handler_tac].
    destruct (decode_body _ r) as [k|]; [|handler_tac]. cbv zeta. case_bool_decide; [handler_tac|].
    apply keeps_bind; [apply _|by apply db_on_db, configs_setting; [apply _|]|intros err; handler_tac].
Qed.

Lemma db_serve_admin fuel cols ver su r : db_keeps (serve_admin (FS := FS) fuel cols ver su r).
Proof.
  unfold serve_admin. destruct (route fuel cols ver su r) as [h|] eqn:E; [|handler_tac].
  unfold HandleFuncAdmin, RequireAuthOrBearerFn, getAPIKey. keeps_tac; try by apply (db_route _ _ _ _ _ _ E).
  intros a. unfold run, zoom. destruct (getSession _ _ _). apply (reflexivity (R := store_rel configs_rel)).
Qed.

Lemma db_exec_admin fuel cols ver e : db_keeps (exec_admin (FS := FS) fuel cols ver e).
Proof.
  destruct e as [su r|i resp]; cbn [exec_admin].
  - keeps_tac. apply db_serve_admin.
  - unfold downloadModelInBackground. handler_tac.
Qed.

(** C34. The stored configuration stays well-formed. Whatever requests the admin
    API gets, in whatever order, with whatever bodies, and whichever database
    statements fail: a rollout is over all workers or over a percentage from 1
    to 100, a backend has a known name, a version and a URL, a role has a name,
    a model, a positive memory demand and usable llama-server parameters, and
    the API key is not empty. *)
Theorem stored_configs_stay_well_formed fuel cols ver es (a : Admin FS) s :
  a.(ad_gateway).(g_store) = Some s -> configs_ok s ->
  exists s', (run (foreach es (exec_admin fuel cols ver)) a).(ad_gateway).(g_store) = Some s' /\ configs_ok s'.
Proof.
  intros Es Hs.
  assert (Hk : db_keeps (foreach es (exec_admin (FS := FS) fuel cols ver))) by (apply keeps_foreach; [apply _|apply db_exec_admin]).
  destruct (store_rel_Some _ _ _ _ (Hk a) Es) as (s' & Es' & Hrel). exists s'. split; [done|by apply Hrel].
Qed.
End well_formed.

(** ** The guard *)

Definition session_valid (now : Z) (cookie : option string) (au : Auth) : bool :=
  match cookie with
  | None => false
  | Some id => match au.(au_sessions) !! id with
               | None => false
               | Some expiry => negb (bool_decide (expiry < now)%Z) && (id != "")
               end
  end.

Lemma getSession_valid now cookie au : exists id,
  getSession now cookie au = (au, Ret id) /\ (id != "") = session_valid now cookie au.
Proof.
  unfold getSession, session_valid. destruct cookie as [id|]; [|by exists ""].
  unfold mbind, GoM_bind, gets. destruct (au_sessions au !! id) as [expiry|]; [|by exists ""].
  case_bool_decide; [by exists ""|by exists id].
Qed.

Section guard.
Context `{GormLaws, WebSocket, Crypto, JsonText, TimeText} {FS : Type} `{!ModelStore FS}.

Definition credentials (su : surroundings) (r : Request) (a : Admin FS) : bool :=
  session_valid su.(su_now) su.(su_cookie) a.(ad_auth) || (r.(r_Header) "Authorization" == ("Bearer " +:+ a.(ad_apiKey))).

(** The wrapped handler runs exactly for requests with credentials. *)
Lemma HandleFuncAdmin_runs {A} (handler : GoM (Admin FS) A) su r a :
  HandleFuncAdmin handler su.(su_now) su.(su_cookie) (r.(r_Header) "Authorization") a =
  if credentials su r a then (h ← handler; mret (inl h)) a else (a, Ret (inr to_login)).
Proof.
  unfold HandleFuncAdmin, RequireAuthOrBearerFn, credentials.
  destruct (getSession_valid su.(su_now) su.(su_cookie) a.(ad_auth)) as (id & E & Hv).
  assert (Ez : zoom ad_auth set_ad_auth (getSession su.(su_now) su.(su_cookie)) a = (a, Ret id))
    by (unfold zoom; rewrite E; by destruct a).
  rewrite (bind_Ret _ _ _ _ _ Ez), Hv. destruct (session_valid _ _ _); [done|]. cbn [orb].
  unfold getAPIKey. rewrite (bind_Ret _ _ a a _ eq_refl).
  by destruct (r_Header r "Authorization" == _).
Qed.

(** The admin API needs credentials: any number of requests that carry
    neither the cookie of an unexpired session nor the API key are all sent to
    the login page, and the manager is as it was. *)
Theorem admin_needs_credentials fuel cols ver (rs : list (surroundings * Request)) (a : Admin FS) :
  Forall (fun q => credentials q.1 q.2 a = false) rs ->
  run (foreach rs (fun q => exec_admin fuel cols ver (AdRequest q.1 q.2))) a = a /\
  Forall (fun q => route fuel cols ver q.1 q.2 <> None (A := GoM (Admin FS) Response) ->
            serve_admin fuel cols ver q.1 q.2 a = (a, Ret (Some (inr to_login)))) rs.
Proof.
  intros Hrs.
  assert (Hone : forall q, credentials q.1 q.2 a = false -> exists answer,
    serve_admin fuel cols ver q.1 q.2 a = (a, Ret answer) /\
    (route fuel cols ver q.1 q.2 <> None (A := GoM (Admin FS) Response) -> answer = Some (inr to_login))).
  { intros [su r] Hc. unfold serve_admin. destruct (route fuel cols ver (su, r).1 (su, r).2) as [h|]; [|by eexists].
    pose proof (HandleFuncAdmin_runs h su r a) as E. cbn [fst snd] in *. rewrite Hc in E.
    rewrite (bind_Ret _ _ _ _ _ E). by eexists. }
  split.
  - induction Hrs as [|q rs Hq _ IH]; [done|]. cbn [foreach exec_admin]. destruct (Hone q Hq) as (ans & E & _).
    unfold run in *. erewrite bind_Ret; [exact IH|]. by rewrite (bind_Ret _ _ _ _ _ E).
  - eapply Forall_impl; [|exact Hrs]. intros q Hq Hr. destruct (Hone q Hq) as (ans & E & Hans). by rewrite E, Hans.
Qed.

Lemma find_filter_none {R} (p : R -> bool) l : List.filter p l = [] <-> List.find p l = None.
Proof. induction l as [|x l IH]; [done|]. cbn. by destruct (p x). Qed.
Lemma find_update_none {R} (p : R -> bool) f l : List.find p l = None -> List.find p (update_rows p f l) = None.
Proof. intros Hn. by rewrite (find_none_update _ _ _ Hn). Qed.

Lemma returns_SetSetting key v : returns (SetSetting key v).
Proof. unfold SetSetting. returns_tac. Qed.

Lemma SetSetting_reads `{!GormUp} key v s s' : SetSetting key v s = (s', Ret None) ->
  GetSetting key s' = (s', Ret (inl v)).
Proof.
  unfold SetSetting, GetSetting. set (row := {| ss_Key := key; ss_Value := v |}).
  destruct (UpdatesN_up Settings (by_key key) (fun _ => row) s) as (t & E & Hl & _). rewrite (bind_Ret _ _ _ _ _ E).
  set (s1 := lset Settings t s) in *. rewrite (bind_Ret _ _ _ _ _ (First_up Settings (by_key key) s')).
  assert (Hrow : by_key key row = true) by (unfold by_key; by apply bool_decide_eq_true_2).
  destruct (List.filter (by_key key) (live (lget Settings s))) as [|x l] eqn:Ef; cbn [length].
  - unfold Create. destruct (db_create _ _ _) as [t' e] eqn:Ec. intros [= <- ->].
    destruct (Gorm.create_ok _ _ _ _ Ec) as (Hl' & _ & _). cbn [lget Settings db_Settings]. rewrite Hl'.
    assert (Hnone : List.find (by_key key) (live (lget Settings s1)) = None).
    { subst s1. rewrite lget_lset, Hl. by apply find_update_none, find_filter_none. }
    by rewrite find_app, Hnone; cbn; rewrite Hrow.
  - intros [= <-]. subst s1. rewrite lget_lset, Hl.
    destruct (List.find (by_key key) (live (lget Settings s))) as [y|] eqn:Ey.
    + by rewrite (find_update_same _ _ _ y) by done.
    + apply find_filter_none in Ey. by rewrite Ey in Ef.
Qed.

(** A call on the database, where there is one. *)
Lemma on_admin_db_returns {A} (m : GoM Store A) (a : Admin FS) s : returns m -> a.(ad_gateway).(g_store) = Some s ->
  exists s' v, m s = (s', Ret v) /\ on_admin_db m a = (set_ad_gateway (set_store (Some s') a.(ad_gateway)) a, Ret v).
Proof.
  intros Hm Es. destruct (Hm s) as [v Hv]. unfold result in Hv. destruct (m s) as [s' x] eqn:E. cbn in Hv. subst x.
  exists s', v. split; [done|]. unfold on_admin_db, on_gateway, zoom, on_store. by rewrite Es, E.
Qed.
Lemma returns_SetWorkerAuthConfig now t k : returns (SetWorkerAuthConfig now t k).
Proof. unfold SetWorkerAuthConfig, upsert_single, first_row. cbv zeta. returns_tac. Qed.

(** Changing the API key takes effect at once and survives a restart. After
    a request to store a new key was answered with 204, the key is the trimmed
    one of the request, it is not empty, requests without a session are let in
    exactly with the new key as bearer token - no longer with the old one - and
    the start-up code reads that same key back from the database. *)
Theorem api_key_rotates `{!GormUp} r (a a' : Admin FS) s :
  r.(r_Method) = "POST" -> a.(ad_gateway).(g_store) = Some s ->
  AdminAPIKeyHandler r a = (a', Ret {| status := 204; body := NoBody |}) ->
  exists raw s', decode_body decode_apikey_body r = Some raw /\
    let key := TrimSpace raw in
    key <> "" /\
    (forall su r', session_valid su.(su_now) su.(su_cookie) a'.(ad_auth) = false ->
       credentials su r' a' = (r'.(r_Header) "Authorization" == ("Bearer " +:+ key))) /\
    a'.(ad_gateway).(g_store) = Some s' /\ GetSetting settingAPIKey s' = (s', Ret (inl key)).
Proof.
  intros Hm Es. unfold AdminAPIKeyHandler. rewrite Hm, bool_decide_eq_false_2, bool_decide_eq_true_2 by done.
  destruct (decode_body decode_apikey_body r) as [raw|]; [|by intros [=]]. cbv zeta. case_bool_decide as Hk; [by intros [=]|].
  destruct (on_admin_db_returns _ a s (returns_SetSetting settingAPIKey (TrimSpace raw)) Es) as (s1 & e & E & Edb).
  rewrite (bind_Ret _ _ _ _ _ Edb). destruct e as [e|]; [by intros [=]|]. intros [= <-].
  exists raw, s1. split_and!; [done|done| |done|by apply SetSetting_reads in E].
  intros su r' Hs. unfold credentials. cbn [ad_auth ad_apiKey set_ad_apiKey set_ad_gateway] in *. by rewrite Hs.
Qed.

Definition stored_key (s : Store) : string :=
  from_option wa_WorkerKey "" (List.find (fun _ => true) (live (db_WorkerAuth s))).

(** Switching the worker authentication takes effect without a restart, as a
    restart would have it - with one exception. After an update that is
    answered ok, the live gateway demands the key that [main] would load from
    the database, unless the update leaves trust-on-first-use off and does not
    name a key (the dashboard sends the mask when the key is untouched): then
    the database keeps the stored key, but the live gateway demands none. *)
Theorem live_worker_key_matches_restart `{!GormUp} now r (a a' : Admin FS) s p :
  a.(ad_gateway).(g_store) = Some s -> decode_body decode_workerAuthPayload r = Some p ->
  workers_setConfig now r a = (a', Ret admin_ok) ->
  let key := unmask workerKeyMask p.(wap_WorkerKey) in
  exists s' restart, a'.(ad_gateway).(g_store) = Some s' /\ startup_worker_key s' = (s', Ret restart) /\
    if p.(wap_TOFUEnabled) || (key != "") || (stored_key s == "")
    then a'.(ad_gateway).(g_workerKey) = restart
    else a'.(ad_gateway).(g_workerKey) = "" /\ restart = stored_key s /\ restart <> "".
Proof.
  intros Es Ep. unfold workers_setConfig. rewrite Ep. cbv zeta. set (key := unmask workerKeyMask (wap_WorkerKey p)).
  destruct (on_admin_db_returns _ a s (returns_SetWorkerAuthConfig now (wap_TOFUEnabled p) key) Es) as (s1 & e & E & Edb).
  rewrite (bind_Ret _ _ _ _ _ Edb). destruct e as [e|]; [by intros [=]|]. intros [= <-].
  exists s1. pose proof (upsert_single_first WorkerAuth _ _ _ _ E) as Hrow.
  unfold startup_worker_key, GetWorkerAuthConfig. rewrite (bind_Ret _ _ _ _ _ (get_single_first WorkerAuth s1)), Hrow.
  eexists. split; [done|]. split; [reflexivity|]. cbn [ad_gateway set_ad_gateway set_workerKey set_store g_workerKey].
  unfold stored_key. change (lget WorkerAuth s) with (db_WorkerAuth s).
  destruct (List.find (fun _ => true) (live (db_WorkerAuth s))) as [old|]; cbn; fold key;
    destruct (wap_TOFUEnabled p); cbn; try done; repeat (case_bool_decide; cbn); try done; congruence.
Qed.

(** Rows that differ in a secret that both have, or both lack. *)
Definition oidc_alike (c1 c2 : OidcConfig) : Prop :=
  c1.(oc_Enabled) = c2.(oc_Enabled) /\ c1.(oc_ClientID) = c2.(oc_ClientID) /\ c1.(oc_ProviderURL) = c2.(oc_ProviderURL) /\
  c1.(oc_RedirectURL) = c2.(oc_RedirectURL) /\ c1.(oc_UpdatedAt) = c2.(oc_UpdatedAt) /\
  (c1.(oc_ClientSecret) = "" <-> c2.(oc_ClientSecret) = "").
Definition worker_auth_alike (c1 c2 : WorkerAuthConfig) : Prop :=
  c1.(wa_TOFUEnabled) = c2.(wa_TOFUEnabled) /\ c1.(wa_UpdatedAt) = c2.(wa_UpdatedAt) /\
  (c1.(wa_WorkerKey) = "" <-> c2.(wa_WorkerKey) = "").
Definition secrets_alike (s1 s2 : Store) : Prop :=
  Forall2 oidc_alike (live (db_Oidc s1)) (live (db_Oidc s2)) /\
  Forall2 worker_auth_alike (live (db_WorkerAuth s1)) (live (db_WorkerAuth s2)).

Lemma mask_alike m (x y : string) : (x = "" <-> y = "") -> mask m x = mask m y.
Proof. intros Hxy. unfold mask. repeat case_bool_decide; cbn; naive_solver. Qed.

Lemma get_single_admin `{!GormUp} {R} (tbl : lens Store (Tbl R)) (a : Admin FS) s : a.(ad_gateway).(g_store) = Some s ->
  on_admin_db (get_single tbl) a = (a, Ret (inl (List.find (fun _ => true) (live (lget tbl s))))).
Proof.
  intros Es. unfold on_admin_db, on_gateway, zoom, on_store. rewrite Es, get_single_first by apply _.
  by destruct a as [[]]; cbn in *; subst.
Qed.

Lemma find_alike {R} (P : R -> R -> Prop) l1 l2 : Forall2 P l1 l2 ->
  option_Forall2 P (List.find (fun _ => true) l1) (List.find (fun _ => true) l2).
Proof. intros HP. destruct HP; constructor. done. Qed.

(** The settings pages do not disclose the secrets: two managers whose
    databases differ only in what the OIDC client secret and the shared worker
    key are (but not in whether there is one) give the same answers to the
    requests for these settings. *)
Theorem secrets_are_not_disclosed `{!GormUp} now r (a1 a2 : Admin FS) s1 s2 :
  a1.(ad_gateway).(g_store) = Some s1 -> a2.(ad_gateway).(g_store) = Some s2 -> secrets_alike s1 s2 ->
  r.(r_Method) = "GET" ->
  exists oidc workers,
    oidc_ConfigHandler now r a1 = (a1, Ret oidc) /\ oidc_ConfigHandler now r a2 = (a2, Ret oidc) /\
    workers_ConfigHandler now r a1 = (a1, Ret workers) /\ workers_ConfigHandler now r a2 = (a2, Ret workers).
Proof.
  intros E1 E2 [Ho%find_alike Hw%find_alike] Hm.
  unfold oidc_ConfigHandler, workers_ConfigHandler. rewrite Hm, bool_decide_eq_true_2 by done.
  unfold oidc_getConfig, workers_getConfig, GetOIDCConfig, GetWorkerAuthConfig.
  rewrite !(bind_Ret _ _ _ _ _ (get_single_admin _ _ _ E1)), !(bind_Ret _ _ _ _ _ (get_single_admin _ _ _ E2)).
  cbn [lget Oidc WorkerAuth]. eexists _, _. split_and!; [reflexivity| |reflexivity|].
  - destruct Ho as [c1 c2 (He & Hi & Hp & Hr & Hu & Hs)|]; [|done]. unfold oidcConfigResponse.
    by rewrite He, Hi, Hp, Hr, Hu, (mask_alike _ _ _ Hs).
  - destruct Hw as [c1 c2 (Ht & Hu & Hs)|]; [|done]. unfold workerAuthResponse.
    by rewrite Ht, Hu, (mask_alike _ _ _ Hs).
Qed.

(** *** Announcing a role *)

Definition role_row (role : string) (s : Store) : option RoleModel := List.find (by_role role) (live (db_Roles s)).

Lemma on_admin_db_inv {A} (m : GoM Store A) (a a' : Admin FS) v : on_admin_db m a = (a', Ret v) ->
  exists s s', a.(ad_gateway).(g_store) = Some s /\ m s = (s', Ret v) /\
    a' = set_ad_gateway (set_store (Some s') a.(ad_gateway)) a.
Proof.
  unfold on_admin_db, on_gateway, zoom, on_store. destruct (g_store (ad_gateway a)) as [s|]; [|by intros [=]].
  destruct (m s) as [s' x] eqn:E. intros [= <- ->]. by exists s, s'.
Qed.

Lemma role_updated `{!GormUp} role f s r : (forall x, rm_Role (f x) = rm_Role x) -> role_row role s = Some r ->
  exists s', Updates Roles (by_role role) f s = (s', Ret None) /\ role_row role s' = Some (f r).
Proof.
  intros Hf Hr. destruct (Updates_up Roles (by_role role) f s) as (t & E & Hl & _).
  exists (lset Roles t s). split; [done|]. unfold role_row in *. change (db_Roles (lset Roles t s)) with t. rewrite Hl.
  apply find_update_same; [|done]. intros x. unfold by_role. by rewrite Hf.
Qed.

(** The columns an upsert writes. *)
Definition same_model (q r : RoleModel) : Prop :=
  rm_Role r = rm_Role q /\ rm_LLMModel r = rm_LLMModel q /\ rm_Quantisation r = rm_Quantisation q /\
  rm_ModelFilename r = rm_ModelFilename q /\ rm_ModelFileHash r = rm_ModelFileHash q /\
  rm_MinVRAMMB r = rm_MinVRAMMB q /\ rm_Description r = rm_Description q.
Definition same_llama (q r : RoleModel) : Prop :=
  rm_ContextSize r = rm_ContextSize q /\ rm_ParallelSlots r = rm_ParallelSlots q /\ rm_GPULayers r = rm_GPULayers q /\
  rm_EndpointType r = rm_EndpointType q /\ rm_FlashAttention r = rm_FlashAttention q.

Lemma upsert_existing `{!GormUp} q s r : role_row q.(rm_Role) s = Some r -> exists s' r',
  upsert_request q s = (s', Ret None) /\ role_row q.(rm_Role) s' = Some r' /\ same_model q r' /\ same_llama r r'.
Proof.
  intros Hr. unfold upsert_request, UpsertRoleModel. rewrite (bind_Ret _ _ _ _ _ (First_up Roles _ s)).
  cbn [lget Roles]. unfold role_row in Hr. rewrite Hr.
  pose proof (find_in _ _ _ Hr) as [_ Hrole%bool_decide_eq_true_1]. rewrite Hrole.
  destruct (role_updated q.(rm_Role) (update_role q.(rm_LLMModel) q.(rm_Quantisation) q.(rm_ModelFilename)
    q.(rm_ModelFileHash) q.(rm_MinVRAMMB) q.(rm_Description)) s r) as (s' & E & Hr'); [done|done|].
  eexists _, _. split; [exact E|]. split; [exact Hr'|]. by split; split_and!.
Qed.

Lemma upsert_row `{!GormUp} q s s' : upsert_request q s = (s', Ret None) -> exists r,
  role_row q.(rm_Role) s' = Some r /\ same_model q r.
Proof.
  destruct (role_row q.(rm_Role) s) as [r|] eqn:Hr.
  - destruct (upsert_existing q s r Hr) as (s1 & r' & -> & Hr' & Hm & _). intros [= <-]. by exists r'.
  - unfold upsert_request, UpsertRoleModel. rewrite (bind_Ret _ _ _ _ _ (First_up Roles _ s)).
    cbn [lget Roles]. unfold role_row in Hr. rewrite Hr. unfold Create.
    destruct (db_create _ _ _) as [t e] eqn:E. intros [= <- ->]. destruct (Gorm.create_ok _ _ _ _ E) as (Hl & _ & _).
    exists (role_defaults (new_role q.(rm_Role) q.(rm_LLMModel) q.(rm_Quantisation) q.(rm_ModelFilename)
      q.(rm_ModelFileHash) q.(rm_MinVRAMMB) q.(rm_Description))).
    split; [|by split_and!]. unfold role_row. cbn [lset Roles db_Roles]. cbn in Hl. rewrite Hl, find_app, Hr.
    unfold by_role at 1. cbn. by rewrite bool_decide_eq_true_2.
Qed.

(** The frames of a broadcast. *)
Lemma push_loop_wire update l e g : exists conns x,
  push_loop update l e g = (set_wire (g.(g_wire) ++ ((fun c => (c, update)) <$> conns)) g, Ret x) /\
  ((forall log c m, write_ok log c m = true) -> forall fp wc, (fp, wc) ∈ l -> wc.(cn_conn) ∉ g.(g_closed) -> wc.(cn_conn) ∈ conns).
Proof.
  revert e g. induction l as [|[fp wc] l IH]; intros e g; cbn [push_loop].
  - exists [], e. split; [|intros _ fp wc Hin; by apply elem_of_nil in Hin]. cbn. rewrite app_nil_r. by destruct g.
  - unfold WriteJSON at 1, mbind, GoM_bind. destruct (bool_decide _ && _) eqn:Ew; cbn.
    + match goal with |- context [push_loop update l ?e' ?g'] => destruct (IH e' g') as (conns & x & E & Hall) end.
      exists (cn_conn wc :: conns), x. split; [rewrite E; cbn; by rewrite <- app_assoc|].
      intros Hok fp' wc' [[= -> ->]|Hin]%elem_of_cons Hopen; [apply list_elem_of_here|apply list_elem_of_further; by apply (Hall Hok fp' wc')].
    + match goal with |- context [push_loop update l ?e' ?g'] => destruct (IH e' g') as (conns & x & E & Hall) end.
      exists conns, x. split; [done|]. intros Hok fp' wc' [[= -> ->]|Hin]%elem_of_cons Hopen; [|by apply (Hall Hok fp' wc')].
      exfalso. rewrite Hok, bool_decide_eq_true_2 in Ew by done. done.
Qed.

Lemma broadcast_wire ord update g : exists conns x,
  broadcast ord update g = (set_wire (g.(g_wire) ++ ((fun c => (c, update)) <$> conns)) g, Ret x) /\
  ((forall log c m, write_ok log c m = true) -> forall fp wc, g.(g_workers) !! fp = Some wc ->
     wc.(cn_conn) ∉ g.(g_closed) -> wc.(cn_conn) ∈ conns).
Proof.
  unfold broadcast. rewrite (bind_Ret _ _ g g (g_workers g)) by done. case_bool_decide as Hs.
  - exists [], (Some NoWorkerConnected). cbn. rewrite app_nil_r. split; [by destruct g|].
    intros _ fp wc Hw. apply map_size_empty_inv in Hs. by rewrite Hs in Hw.
  - destruct (push_loop_wire update (ord g.(g_workers)) None g) as (conns & x & E & Hall). exists conns, x. split; [done|].
    intros Hok fp wc Hw Ho. apply (Hall Hok fp); [|done]. rewrite (mo_perm ord). by apply elem_of_map_to_list.
Qed.

Lemma keeps_eq {S A} (R : S -> S -> Prop) (m : GoM S A) s s' x : keeps R m -> m s = (s', x) -> R s s'.
Proof. intros Hk E. specialize (Hk s). unfold run in Hk. by rewrite E in Hk. Qed.

(** The update of a role as its row announces it. *)
Definition announcement (r : RoleModel) : ModelUpdate :=
  model_update r.(rm_Role) r.(rm_LLMModel) r.(rm_Quantisation) r.(rm_ModelFilename) r.(rm_ModelFileHash)
    (ComputeLLMHash r.(rm_Role) r.(rm_ModelFileHash)) r.(rm_ContextSize) r.(rm_ParallelSlots) r.(rm_GPULayers)
    r.(rm_EndpointType) r.(rm_FlashAttention).

Definition role_of (role : string) (a : Admin FS) : option RoleModel := a.(ad_gateway).(g_store) ≫= role_row role.
Definition wire_of (a : Admin FS) : list (nat * ManagerMessage) := a.(ad_gateway).(g_wire).
(** the two states differ in database rows and downloads only *)
Definition same_network (a a' : Admin FS) : Prop :=
  wire_of a' = wire_of a /\ a'.(ad_gateway).(g_workers) = a.(ad_gateway).(g_workers) /\
  a'.(ad_gateway).(g_closed) = a.(ad_gateway).(g_closed).
#[local] Instance same_network_preorder : PreOrder same_network.
Proof. split; [by intros a|]. intros a b c (A1 & A2 & A3) (B1 & B2 & B3). unfold same_network. rewrite B1, B2, B3. done. Qed.

Lemma same_network_db {A} (m : GoM Store A) : keeps same_network (on_admin_db m).
Proof.
  intros a. unfold run, on_admin_db, on_gateway, zoom, on_store. destruct (g_store (ad_gateway a)); [|done].
  by destruct (m s).
Qed.
Lemma same_network_models {A} (m : GoM FS A) : keeps same_network (on_models m).
Proof. intros a. unfold run, on_models, zoom. by destruct (m _). Qed.

Lemma files_db {A} (m : GoM Store A) : keeps (unchanged ad_modelStore) (on_admin_db (FS := FS) m).
Proof.
  intros a. unfold run, on_admin_db, on_gateway, zoom, on_store. destruct (g_store (ad_gateway a)); [|done].
  by destruct (m s).
Qed.
Lemma same_network_complete q : keeps same_network (complete_hash q).
Proof. unfold complete_hash. keeps_tac; [apply same_network_models|apply same_network_db|by apply keeps_modify]. Qed.

(** Pushing a row's update. *)
Lemma push_role_wire ord q r (a a' : Admin FS) x : push_role ord q a = (a', Ret x) -> same_model q r -> same_llama q r ->
  exists conns, a'.(ad_gateway).(g_store) = a.(ad_gateway).(g_store) /\
    wire_of a' = wire_of a ++ ((fun c => (c, MModelUpdate (announcement r))) <$> conns) /\
    (r.(rm_ModelFileHash) <> "" -> (forall log c m, write_ok log c m = true) ->
     forall fp wc, a.(ad_gateway).(g_workers) !! fp = Some wc ->
       wc.(cn_conn) ∉ a.(ad_gateway).(g_closed) -> wc.(cn_conn) ∈ conns).
Proof.
  intros E (M1 & M2 & M3 & M4 & M5 & _) (L1 & L2 & L3 & L4 & L5). unfold push_role in E.
  unfold announcement. rewrite M1, M2, M3, M4, M5, L1, L2, L3, L4, L5.
  destruct (bool_decide_reflect (rm_ModelFileHash q = "")) as [Hh|Hh]; cbn [negb] in E.
  - injection E as <- <-. exists []. cbn. rewrite app_nil_r. by split_and!.
  - cbv zeta in E. apply bind_inv in E as (a1 & y & E & [= <- <-]). unfold on_gateway, zoom, PushModelUpdate in E.
    destruct (broadcast_wire ord (MModelUpdate (model_update (rm_Role q) (rm_LLMModel q) (rm_Quantisation q) (rm_ModelFilename q)
      (rm_ModelFileHash q) (ComputeLLMHash (rm_Role q) (rm_ModelFileHash q)) (rm_ContextSize q) (rm_ParallelSlots q)
      (rm_GPULayers q) (rm_EndpointType q) (rm_FlashAttention q))) a.(ad_gateway)) as (conns & z & Eb & Hall).
    rewrite Eb in E. injection E as <- <-. exists conns. split_and!; [done|done|]. intros _. apply Hall.
Qed.

(** Saving the request: the row has its model and its llama parameters. *)
Lemma store_role `{!GormUp} q (a a1 a2 a3 : Admin FS) y z :
  on_admin_db (upsert_request q) a = (a1, Ret None) ->
  on_admin_db (SetRoleLlamaConfig q.(rm_Role) q.(rm_ContextSize) q.(rm_ParallelSlots) q.(rm_GPULayers)
    q.(rm_EndpointType) q.(rm_FlashAttention)) a1 = (a2, Ret y) ->
  (if q.(rm_DownloadURL) != "" then on_admin_db (SetRoleDownloadURL q.(rm_Role) q.(rm_DownloadURL)) ;; skip else skip) a2 = (a3, Ret z) ->
  exists r, role_of q.(rm_Role) a3 = Some r /\ same_model q r /\ same_llama q r.
Proof.
  intros (s & s1 & Es & E1 & ->)%on_admin_db_inv. destruct (upsert_row q s s1 E1) as (r1 & Hr1 & Hm).
  pose proof Hm as (Hrole & _).
  intros (s1' & s2 & [= <-] & E2 & ->)%on_admin_db_inv.
  set (f := fun r => set_rm_ContextSize (rm_ContextSize q) (set_rm_ParallelSlots (rm_ParallelSlots q)
    (set_rm_GPULayers (rm_GPULayers q) (set_rm_EndpointType (rm_EndpointType q) (set_rm_FlashAttention (rm_FlashAttention q) r))))).
  destruct (role_updated (rm_Role q) f s1 r1) as (s2' & E2' & Hr2); [done|done|].
  unfold SetRoleLlamaConfig in E2. fold f in E2. rewrite E2' in E2. injection E2 as <- <-.
  assert (Hl : same_llama q (f r1)) by (by split_and!).
  assert (Hm2 : same_model q (f r1)) by (by destruct Hm as (?&?&?&?&?&?&?); split_and!).
  destruct (rm_DownloadURL q != ""); [|intros [= <- <-]; by exists (f r1)].
  intros (a3' & w & (s2'' & s3 & [= <-] & E3 & ->)%on_admin_db_inv & [= <- <-])%bind_inv.
  destruct (role_updated (rm_Role q) (set_rm_DownloadURL (rm_DownloadURL q)) s2' (f r1)) as (s3' & E3' & Hr3); [done|done|].
  unfold SetRoleDownloadURL in E3. rewrite E3' in E3. injection E3 as <- <-. by exists (set_rm_DownloadURL (rm_DownloadURL q) (f r1)).
Qed.

(** Completing the hash: the request and the row keep agreeing. *)
Lemma complete_role `{!GormUp} q (a a' : Admin FS) q' r : complete_hash q a = (a', Ret q') ->
  role_of q.(rm_Role) a = Some r -> same_model q r -> same_llama q r ->
  exists r', role_of q.(rm_Role) a' = Some r' /\ same_model q' r' /\ same_llama q' r' /\
    q' = set_rm_ModelFileHash q'.(rm_ModelFileHash) q /\
    (q'.(rm_ModelFileHash) = q.(rm_ModelFileHash) \/
     q.(rm_ModelFileHash) = "" /\ result (ms_FileHash q.(rm_ModelFilename)) a.(ad_modelStore) = Ret (Some q'.(rm_ModelFileHash))).
Proof.
  intros E Hr Hm Hl. unfold complete_hash in E. destruct (bool_decide_reflect (rm_ModelFileHash q = "")) as [Hh|Hh]; cbn [andb] in E;
    [|injection E as <- <-; exists r; split_and!; [done..|by destruct q|by left]].
  destruct (negb _); [|injection E as <- <-; exists r; split_and!; [done..|by destruct q|by left]].
  apply bind_inv in E as (a1 & h & E1 & E2). unfold on_models, zoom in E1.
  destruct (ms_FileHash (rm_ModelFilename q) (ad_modelStore a)) as [ms x] eqn:Ef. injection E1 as <- ->.
  destruct h as [h|].
  - apply bind_inv in E2 as (a2 & y & (s & s2 & Es & E2 & ->)%on_admin_db_inv & [= <- <-]).
    unfold role_of in Hr. cbn [ad_gateway set_ad_modelStore] in Es. rewrite Es in Hr. cbn in Hr.
    destruct (upsert_existing (set_rm_ModelFileHash h q) s r Hr) as (s2' & r' & E2' & Hr' & Hm' & Hl').
    rewrite E2' in E2. injection E2 as <- <-. exists r'. split_and!; [done..| |done|].
    + destruct Hl as (?&?&?&?&?), Hl' as (?&?&?&?&?). unfold same_llama. cbn. split_and!; congruence.
    + right. split; [done|]. unfold result. by rewrite Ef.
  - apply bind_inv in E2 as (a2 & y & E2 & [= <- <-]). exists r.
    assert (Hg : ad_gateway a2 = ad_gateway a) by (destruct (rm_DownloadURL q != ""); by injection E2 as <- <-).
    unfold role_of in *. rewrite Hg. split_and!; [done..|by destruct q|by left].
Qed.

(** What a role update announces is what it stores. After a role update
    answered ok there is a row for the role with exactly the model and the
    parameters of the request (with the defaults filled in), its hash being
    the one of the request or else the one of the file in the model store;
    the update pushed to the workers has the columns of that row, it reaches
    every connected worker while writes succeed, and a worker that reports the
    hash announced to it is in sync by that row. *)
Theorem role_update_is_announced `{!GormUp} ord r (a a' : Admin FS) q0 :
  decode_body decode_role_request r = Some q0 -> setRole ord r a = (a', Ret admin_ok) ->
  let q := with_llama_defaults q0 in
  exists s' row conns, a'.(ad_gateway).(g_store) = Some s' /\ role_row q.(rm_Role) s' = Some row /\
    same_model (set_rm_ModelFileHash row.(rm_ModelFileHash) q) row /\ same_llama q row /\
    (row.(rm_ModelFileHash) = q.(rm_ModelFileHash) \/
     q.(rm_ModelFileHash) = "" /\ result (ms_FileHash q.(rm_ModelFilename)) a.(ad_modelStore) = Ret (Some row.(rm_ModelFileHash))) /\
    wire_of a' = wire_of a ++ ((fun c => (c, MModelUpdate (announcement row))) <$> conns) /\
    (row.(rm_ModelFileHash) <> "" ->
     ((forall log c m, write_ok log c m = true) -> forall fp wc, a.(ad_gateway).(g_workers) !! fp = Some wc ->
        wc.(cn_conn) ∉ a.(ad_gateway).(g_closed) -> wc.(cn_conn) ∈ conns) /\
     forall w, w.(w_LLMHash) <> "" -> w.(w_LLMHash) = (announcement row).(mu_LLMHash) -> model_in_sync s' w = true).
Proof.
  intros Eq E. cbv zeta. unfold setRole in E. rewrite Eq in E. destruct (_ || _ || _); [by injection E|]. cbv zeta in E.
  set (q := with_llama_defaults q0) in *. clearbody q.
  apply bind_inv in E as (a1 & [e|] & E1 & E); [by injection E|].
  apply bind_inv in E as (a2 & y & E2 & E). apply bind_inv in E as (a3 & [] & E3 & E).
  destruct (store_role q a a1 a2 a3 y tt E1 E2 E3) as (row1 & Hr1 & Hm1 & Hl1).
  apply bind_inv in E as (a4 & q' & E4 & E).
  destruct (complete_role q a3 a4 q' row1 E4 Hr1 Hm1 Hl1) as (row & Hr & Hm & Hl & Hq & Hh).
  apply bind_inv in E as (a5 & z & E5 & [= <-]).
  destruct (push_role_wire ord q' row a4 a5 z E5 Hm Hl) as (conns & Hs & Hw & Hall).
  assert (K3 : forall P : Admin FS -> Admin FS -> Prop, PreOrder P -> (forall A (m : GoM Store A), keeps P (on_admin_db m)) -> P a a3).
  { intros P HP Hk. etrans; [by apply (keeps_eq _ _ _ _ _ (Hk _ _) E1)|]. etrans; [by apply (keeps_eq _ _ _ _ _ (Hk _ _) E2)|].
    eapply keeps_eq; [|exact E3]. destruct (_ != _); [apply keeps_bind; [done|apply Hk|intros _; by apply keeps_ret]|by apply keeps_ret]. }
  assert (Hnet : same_network a a4).
  { etrans; [apply K3; [apply _|intros; apply same_network_db]|apply (keeps_eq _ _ _ _ _ (same_network_complete q) E4)]. }
  destruct Hnet as (N1 & N2 & N3).
  assert (Hms : ad_modelStore a3 = ad_modelStore a) by (apply (K3 (unchanged ad_modelStore)); [apply _|intros; apply files_db]).
  rewrite Hms in Hh. unfold role_of in Hr. rewrite <- Hs in Hr. destruct (g_store (ad_gateway a5)) as [s'|]; [|done]. cbn in Hr.
  pose proof Hm as (M1 & M2 & M3 & M4 & M5 & M6 & M7).
  assert (Hq1 : same_model (set_rm_ModelFileHash (rm_ModelFileHash q') q) row) by (by rewrite <- Hq).
  assert (Hq2 : same_llama q row) by (by rewrite Hq in Hl).
  exists s', row, conns. rewrite N1 in Hw. rewrite N2, N3 in Hall. rewrite M5 in *.
  split_and!; [done..|]. intros Hne. split; [by apply Hall|].
  intros w Hw1 Hw2. unfold model_in_sync. apply orb_true_intro. right. rewrite bool_decide_eq_false_2 by done. cbn [negb andb].
  apply existsb_exists. exists row. split; [by apply list_elem_of_In, (find_in (by_role (rm_Role q)))|].
  unfold role_matches. rewrite M5, bool_decide_eq_false_2 by done. cbn [negb andb]. apply bool_decide_eq_true_2.
  rewrite Hw2. unfold announcement. cbn. by rewrite M5.
Qed.
End guard.

Section witnesses.
#[local] Existing Instances MemGorm MemGormLaws MemGormUp ToyCrypto AllWrites ModelFiles.FilesOk ModelFiles.models_dir.

(** Bodies by name, and times are not shown. *)
Definition body_json (name : string) : frame :=
  if name == "version" then Some (JObj [("target_version", JStr "0.2.0"); ("rollout_mode", JStr "percentage"); ("rollout_percentage", JNum (NInt 30))])
  else if name == "key" then Some (JObj [("key", JStr "  new ")])
  else if name == "masked" then Some (JObj [("tofu_enabled", JBool false); ("worker_key", JStr workerKeyMask)])
  else if name == "role" then Some (JObj [("role", JStr "tester"); ("model", JStr "m"); ("filename", JStr "m.gguf"); ("min_vram_mb", JNum (NInt 512))])
  else None.
#[local] Instance bodies : JsonText := {| json_text _ := "{}"; json_parse := body_json; json_first := body_json |}.
#[local] Instance no_times : TimeText := {| rfc3339_format _ := ""; rfc3339_parse _ := None |}.

Definition admin_ex (s : Store) : Admin Files :=
  {| ad_gateway := set_workers {[fp_ex := Gateway.conn_ex 1]} (NewGateway "old" Queue.New (Some s));
     ad_auth := auth_ex; ad_apiKey := "api"; ad_css := ""; ad_latency := {| lc_BucketCount := 5; lc_WindowHours := 24 |};
     ad_modelStore := {["models/m.gguf" := "weights"]}; ad_cache := NewCache; ad_downloads := []; ad_prewarms := [] |}.
Definition su_ex : surroundings :=
  {| su_now := 7; su_cookie := None; su_ord := any_order; su_ord' := any_order; su_fetched := None; su_fetch_error := "" |}.
Definition admin_request (method path authorization body : string) : Request :=
  {| r_Method := method; r_Path := path; r_Header k := if k == "Authorization" then authorization else "";
     r_Query _ := ""; r_Body := Some body |}.
Definition key_request : Request := admin_request "POST" "/v1/admin/apikey" "" "key".
Definition masked_request : Request := admin_request "PUT" "/v1/admin/workers" "" "masked".
Definition role_request : Request := admin_request "POST" "/v1/admin/roles" "" "role".
Definition set_version : admin_event := AdRequest su_ex (admin_request "POST" "/v1/admin/version" "Bearer api" "version").

Example version_is_stored :
  (live ∘ db_ClientVersions <$> (run (exec_admin 10 (fun _ => []) "" set_version) (admin_ex empty_store)).(ad_gateway).(g_store)) =
  Some [{| cv_TargetVersion := "0.2.0"; cv_RolloutMode := "percentage"; cv_RolloutPercentage := 30; cv_UpdatedAt := 7 |}].
Proof. vm_compute. reflexivity. Qed.

Lemma stored_configs_stay_well_formed_witness : exists s',
  (run (foreach [set_version; AdDownloaded 0 None] (exec_admin 10 (fun _ => []) "")) (admin_ex empty_store)).(ad_gateway).(g_store) =
    Some s' /\ configs_ok s'.
Proof. eapply stored_configs_stay_well_formed; [reflexivity|]. split_and!; constructor. Defined.

Lemma admin_needs_credentials_witness :
  run (foreach [(su_ex, admin_request "POST" "/v1/admin/apikey" "Bearer wrong" "key")]
    (fun q => exec_admin 10 (fun _ => []) "" (AdRequest q.1 q.2))) (admin_ex empty_store) = admin_ex empty_store.
Proof. apply admin_needs_credentials. repeat constructor. Defined.

Lemma api_key_rotates_witness :
  let a' := run (AdminAPIKeyHandler key_request) (admin_ex empty_store) in
  credentials su_ex (admin_request "GET" "/v1/admin/stats" "Bearer api" "") a' = false /\
  credentials su_ex (admin_request "GET" "/v1/admin/stats" "Bearer new" "") a' = true.
Proof.
  set (a' := run _ _). assert (E : AdminAPIKeyHandler key_request
    (admin_ex empty_store) = (a', Ret {| status := 204; body := NoBody |})) by (vm_compute; reflexivity).
  destruct (api_key_rotates key_request (admin_ex empty_store) a' empty_store eq_refl eq_refl E) as (raw & s' & [= <-] & _ & Hc & _).
  cbv zeta. rewrite !Hc by reflexivity. split; reflexivity.
Defined.

(** The stored key is kept, the live gateway is open. *)
Definition keyed_ex : Store := lset WorkerAuth (mem_rows [{| wa_TOFUEnabled := false; wa_WorkerKey := "old"; wa_UpdatedAt := 0 |}]) empty_store.
Lemma live_worker_key_matches_restart_witness :
  let a' := run (workers_setConfig 7 masked_request) (admin_ex keyed_ex) in
  exists s' restart, a'.(ad_gateway).(g_store) = Some s' /\ startup_worker_key s' = (s', Ret restart) /\
    a'.(ad_gateway).(g_workerKey) = "" /\ restart = "old" /\ restart <> "".
Proof.
  set (a' := run _ _). assert (E : workers_setConfig 7 masked_request (admin_ex keyed_ex) =
    (a', Ret admin_ok)) by (vm_compute; reflexivity).
  exact (live_worker_key_matches_restart 7 masked_request (admin_ex keyed_ex) a' keyed_ex
    {| wap_TOFUEnabled := false; wap_WorkerKey := workerKeyMask |} eq_refl eq_refl E).
Defined.

Lemma secrets_are_not_disclosed_witness : exists oidc workers,
  let other := lset WorkerAuth (mem_rows [{| wa_TOFUEnabled := false; wa_WorkerKey := "other"; wa_UpdatedAt := 0 |}]) empty_store in
  let r := admin_request "GET" "" "" "" in
  oidc_ConfigHandler 7 r (admin_ex keyed_ex) = (admin_ex keyed_ex, Ret oidc) /\
  oidc_ConfigHandler 7 r (admin_ex other) = (admin_ex other, Ret oidc) /\
  workers_ConfigHandler 7 r (admin_ex keyed_ex) = (admin_ex keyed_ex, Ret workers) /\
  workers_ConfigHandler 7 r (admin_ex other) = (admin_ex other, Ret workers).
Proof.
  cbv zeta. apply (secrets_are_not_disclosed 7 (admin_request "GET" "" "" "") _ _ keyed_ex
    (lset WorkerAuth (mem_rows [{| wa_TOFUEnabled := false; wa_WorkerKey := "other"; wa_UpdatedAt := 0 |}]) empty_store));
    [reflexivity|reflexivity| |reflexivity].
  split; repeat constructor; cbn; discriminate.
Defined.

Lemma role_update_is_announced_witness :
  let a' := run (setRole any_order role_request) (admin_ex empty_store) in
  exists s' row conns, a'.(ad_gateway).(g_store) = Some s' /\ role_row "tester" s' = Some row /\
    wire_of a' = (fun c => (c, MModelUpdate (announcement row))) <$> conns /\ 1 ∈ conns.
Proof.
  set (a' := run _ _). assert (E : setRole any_order role_request (admin_ex empty_store) =
    (a', Ret admin_ok)) by (vm_compute; reflexivity).
  destruct (decode_body decode_role_request role_request) as [q0|] eqn:Eq; [|vm_compute in Eq; discriminate].
  pose proof Eq as Eq'. vm_compute in Eq'. injection Eq' as <-.
  destruct (role_update_is_announced any_order role_request (admin_ex empty_store) a' _ Eq E)
    as (s' & row & conns & Hs & Hr & _ & _ & Hh & Hw & Hall).
  assert (Hne : rm_ModelFileHash row <> "").
  { revert Hr. vm_compute in Hs. injection Hs as <-. vm_compute. intros [= <-]. discriminate. }
  exists s', row, conns. split_and!; [exact Hs|exact Hr|exact Hw|].
  destruct (Hall Hne) as [Hc _]. apply (Hc (fun _ _ _ => eq_refl) fp_ex (Gateway.conn_ex 1) eq_refl).
  apply not_elem_of_empty.
Defined.
End witnesses.
