(* ===== verification/AdminServer.v ===== *)
(** * The admin listener (internal/manager/admin/server/server.go)

    Everything the manager's admin port answers: the multiplexer with the ACME
    passthrough, static files, the login handlers, the guarded pages with the
    data they are rendered from, the log stream, the log level and the log
    file, and the admin API behind them. Log levels are zerolog's, a library:
    the class [Zerolog] parses a name and gives its canonical form. *)

From S2P Require Import Prelude GoStd Json Strings Protocol Gorm Models Workers Roles Queue BackendUrl Gateway Latency Http ClientState AdminAuth Cache Files ModelFiles AdminApi Url Routes.


(** ** What the dashboard page shows *)

Record roleWorkCount := { rwc_Role : string; rwc_Completed : Z; rwc_Failed : Z; rwc_Total : Z }.

Record dashboardData := {
  dd_APIKey : string; dd_ManagerVersion : string;
  dd_TotalWorkers : Z; dd_ReadyWorkers : Z; dd_ProcessingWorkers : Z; dd_UnavailableWorkers : Z; dd_OfflineWorkers : Z;
  dd_DeletedWorkers : Z;
  dd_RoleCounts : list RoleCount;
  dd_TodayTotal : Z; dd_TodayCompleted : Z; dd_TodayQueued : Z; dd_TodayTimeout : Z; dd_TodayFailed : Z;
  dd_RoleWorkCounts : list roleWorkCount;
  dd_Errors : list ErrorEntry;
  dd_VersionTarget : string; dd_VersionRolloutMode : string; dd_VersionPercentage : Z; dd_VersionSHA256 : string;
  dd_WorkersSynced : Z; dd_WorkersOutdated : Z;
  dd_BackendName : string; dd_BackendVersion : string; dd_BackendDownloadURL : string; dd_BackendSHA256Full : string;
  dd_BackendSHA256 : string; dd_BackendSynced : Z; dd_BackendOutdated : Z;
  dd_ModelSynced : Z; dd_ModelOutOfSync : Z; dd_AvgWorkerGPU : Z;
  dd_Roles : list RoleEntry;
  dd_GeneratedAt : string;
}.

(** [generatedAt]: the time of the rendering, formatted *)
Definition dashboard_of (apiKey managerVersion generatedAt : string) (stats : DashboardStats) : dashboardData := {|
  dd_APIKey := apiKey; dd_ManagerVersion := managerVersion;
  dd_TotalWorkers := stats.(TotalWorkers); dd_ReadyWorkers := stats.(ReadyWorkers);
  dd_ProcessingWorkers := stats.(ProcessingWorkers); dd_UnavailableWorkers := stats.(UnavailableWorkers);
  dd_OfflineWorkers := stats.(OfflineWorkers); dd_DeletedWorkers := stats.(DeletedWorkers);
  dd_RoleCounts := stats.(RoleCounts);
  dd_TodayTotal := stats.(TodayTotal); dd_TodayCompleted := stats.(TodayCompleted); dd_TodayQueued := stats.(TodayQueued);
  dd_TodayTimeout := stats.(TodayTimeout); dd_TodayFailed := stats.(TodayFailed);
  dd_RoleWorkCounts := (fun rw => {| rwc_Role := rw.(rk_Role); rwc_Completed := 0; rwc_Failed := 0; rwc_Total := rw.(rk_Total) |})
                         <$> stats.(RoleWorkCounts);
  dd_Errors := stats.(Errors);
  dd_VersionTarget := stats.(VersionTarget); dd_VersionRolloutMode := stats.(VersionRolloutMode);
  dd_VersionPercentage := stats.(VersionPercentage); dd_VersionSHA256 := "";
  dd_WorkersSynced := stats.(WorkersSynced); dd_WorkersOutdated := stats.(WorkersOutdated);
  dd_BackendName := stats.(BackendName); dd_BackendVersion := stats.(BackendVersion);
  dd_BackendDownloadURL := stats.(BackendDownloadURL); dd_BackendSHA256Full := stats.(BackendSHA256Full);
  dd_BackendSHA256 := if bool_decide (16 < String.length stats.(BackendSHA256Full))%nat
                      then take_str 16 stats.(BackendSHA256Full) +:+ "…" else stats.(BackendSHA256Full);
  dd_BackendSynced := stats.(BackendSynced); dd_BackendOutdated := stats.(BackendOutdated);
  dd_ModelSynced := stats.(ModelSynced); dd_ModelOutOfSync := stats.(ModelOutOfSync);
  dd_AvgWorkerGPU := stats.(AvgWorkerGPU); dd_Roles := stats.(RoleEntries); dd_GeneratedAt := generatedAt |}.

Record pageData := { pd_APIKey : string; pd_ManagerVersion : string }.
Inductive page := InferencePage | WorkersPage | OidcPage | LogsPage.

(** ** The server *)

Inductive admin_answer :=
  | AnswerApi (r : Response)
  | AnswerAuth (r : auth_reply)
  | AnswerPage (p : page) (d : pageData)        (* rendered by html/template *)
  | AnswerDashboard (d : dashboardData)
  | AnswerStatic (name : string)                (* http.FileServer on the embedded files *)
  | AnswerRedirect (path : string)              (* of the multiplexer *)
  | AnswerStream (history : list string) (id : option nat)
  | AnswerFile (content : string).

Inductive admin_handler :=
  | HAcme | HStatic | HLogin | HLogout | HOIDCLogin | HOIDCCallback
  | HDashboard | HPage (p : page) | HManagerLogs | HLogLevel | HLogsFile
  | HApi (pattern : string).

(** The patterns of [New], and of [HandleFuncAdmin] in main.go. *)
Definition server_routes (OIDCEnabled : bool) : list (string * admin_handler) :=
  [ ("/static/", HStatic); ("/login", HLogin); ("/logout", HLogout) ] ++
  (if OIDCEnabled then [ ("/auth/oidc/login", HOIDCLogin); ("/auth/oidc/callback", HOIDCCallback) ] else []) ++
  [ ("/", HDashboard); ("/admin/workers", HPage WorkersPage); ("/admin/inference", HPage InferencePage);
    ("/admin/oidc", HPage OidcPage); ("/admin/logs", HPage LogsPage);
    ("/api/manager/logs", HManagerLogs); ("/api/manager/log-level", HLogLevel); ("/api/manager/logs-file", HLogsFile) ].
Definition api_patterns : list string :=
  [ "/v1/latency"; "/v1/latency/config"; "/v1/admin/version"; "/v1/admin/version/tags"; "/v1/admin/backend";
    "/v1/admin/backend/tags"; "/v1/admin/backend/names"; "/v1/admin/roles"; "/v1/admin/branding/css"; "/v1/admin/oidc";
    "/v1/admin/workers"; "/v1/admin/stats"; "/v1/admin/versions/status"; "/v1/admin/apikey" ].
Definition admin_mux (OIDCEnabled : bool) : Mux admin_handler :=
  handle ((fun p => (p, HApi p)) <$> api_patterns) (handle (server_routes OIDCEnabled) (RegisterPassthrough HAcme [])).

(** The log file as the handler finds it: what it held when its size was
    taken, and what was appended until the copy ended. Opening it, taking its
    size and seeking may fail. *)
Inductive log_file := NoLogFile | LogFile (stat_ok seek_ok : bool) (content appended : string).

Section server.
Context `{Gorm, WebSocket, Crypto} `{JsonText, TimeText, OidcProvider, Zerolog} {FS : Type} `{!ModelStore FS}.

Record Server := {
  sv_admin : Admin FS;
  sv_level : string;                 (* zerolog's global level *)
  sv_logBuf : option Buffer;
  sv_logFilePath : string;
}.
Definition on_admin {A} (m : GoM (Admin FS) A) : GoM Server A :=
  zoom sv_admin (fun a s => Build_Server a s.(sv_level) s.(sv_logBuf) s.(sv_logFilePath)) m.
Definition on_auth {A} (m : GoM Auth A) : GoM Server A := on_admin (zoom ad_auth set_ad_auth m).
Definition set_level (l : string) (s : Server) : Server := Build_Server s.(sv_admin) l s.(sv_logBuf) s.(sv_logFilePath).
Definition set_logBuf (b : option Buffer) (s : Server) : Server := Build_Server s.(sv_admin) s.(sv_level) b s.(sv_logFilePath).
Definition SetLogBuffer (buf : Buffer) (filePath : string) (s : Server) : Server :=
  Build_Server s.(sv_admin) s.(sv_level) (Some buf) filePath.

(** What a request brings besides the fields the API reads. *)
Record visit := {
  vi_escaped : string;         (* the escaped path *)
  vi_su : surroundings;
  vi_random : string;          (* the random bytes of a login *)
  vi_username : string;
  vi_password : string;        (* form values *)
  vi_generatedAt : string;
  vi_flusher : bool;           (* the connection can stream *)
  vi_log_file : log_file;      (* what opening the log file finds *)
}.

(** [RequireAuth] around a handler of the server *)
Definition guarded (next : GoM Server admin_answer) (v : visit) : GoM Server admin_answer :=
  session ← on_auth (getSession v.(vi_su).(su_now) v.(vi_su).(su_cookie));
  if session != "" then next else mret (AnswerAuth to_login).

Definition pageHandler (managerVersion : string) (p : page) (r : Request) : GoM Server admin_answer :=
  if r.(r_Method) != "GET" then mret (AnswerApi not_allowed)
  else
    apiKey ← on_admin getAPIKey;
    mret (AnswerPage p {| pd_APIKey := apiKey; pd_ManagerVersion := managerVersion |}).

Definition collectData (managerVersion generatedAt : string) : GoM Server dashboardData :=
  apiKey ← on_admin getAPIKey;
  stats ← on_admin (on_cache GetStats);
  mret (dashboard_of apiKey managerVersion generatedAt stats).
Definition dashboardHandler (managerVersion generatedAt : string) (r : Request) : GoM Server admin_answer :=
  if r.(r_Method) != "GET" then mret (AnswerApi not_allowed)
  else data ← collectData managerVersion generatedAt; mret (AnswerDashboard data).

(** [handleManagerLogs] up to its loop: the history is written, then the
    stream subscribes; [None] is a stream that stays silent. *)
Definition logs_history : GoM Server (list string) :=
  gets (fun s => match s.(sv_logBuf) with Some b => GetAll b | None => [] end).
Definition logs_subscribe : GoM Server (option nat) :=
  buf ← gets sv_logBuf;
  match buf with
  | None => mret None
  | Some b => let '(b, id) := Subscribe b in modify (set_logBuf (Some b)) ;; mret (Some id)
  end.
Definition handleManagerLogs (v : visit) : GoM Server admin_answer :=
  if negb v.(vi_flusher) then mret (AnswerApi (httpError "streaming not supported" 500))
  else
    history ← logs_history;
    id ← logs_subscribe;
    mret (AnswerStream history id).
(** a round of its loop, and its end *)
Definition logs_receive (id : nat) : GoM Server (option string) :=
  buf ← gets sv_logBuf;
  match buf with
  | None => mret None
  | Some b => let '(b, e) := Receive id b in modify (set_logBuf (Some b)) ;; mret e
  end.
Definition logs_end (id : nat) : GoM Server unit :=
  modify (fun s => set_logBuf (Unsubscribe id <$> s.(sv_logBuf)) s).

Definition decode_level : json -> option string := decode_struct "" [str_field "level" (fun x _ => x)].
Definition level_json (l : string) : Response := writeJSON 200 (JObj [("level", JStr l)]).
Definition handleManagerLogLevel (r : Request) : GoM Server admin_answer :=
  if r.(r_Method) == "GET" then l ← gets sv_level; mret (AnswerApi (level_json l))
  else if r.(r_Method) == "POST" then
    match decode_body decode_level r with
    | None => mret (AnswerApi (httpError "invalid JSON" 400))
    | Some level =>
        match ParseLevel (ToLower level) with
        | None => mret (AnswerApi (httpError ("unknown level: " +:+ level) 400))
        | Some lvl => modify (set_level lvl) ;; mret (AnswerApi (level_json lvl))
        end
    end
  else mret (AnswerApi not_allowed).

Definition maxBytes : nat := Nat.pow 2 20.
(** the bytes from an offset on *)
Definition handleManagerLogsFile (f : log_file) (r : Request) : GoM Server admin_answer :=
  if r.(r_Method) != "GET" then mret (AnswerApi not_allowed)
  else
    path ← gets sv_logFilePath;
    if path == "" then mret (AnswerApi (httpError "log file not available" 404))
    else
      mret match f with
           | NoLogFile => AnswerApi (httpError "failed to open log file" 500)
           | LogFile false _ _ _ => AnswerApi (httpError "failed to stat log file" 500)
           | LogFile true false _ _ => AnswerApi (httpError "failed to seek log file" 500)
           | LogFile true true content appended =>
               let offset := (Z.of_nat (String.length content) - Z.of_nat maxBytes)%Z in
               let offset := if bool_decide (offset < 0)%Z then 0%Z else offset in
               AnswerFile (drop_str (Z.to_nat offset) (content +:+ appended))
           end.

Definition with_path (p : string) (r : Request) : Request :=
  {| r_Method := r.(r_Method); r_Path := p; r_Header := r.(r_Header); r_Query := r.(r_Query); r_Body := r.(r_Body) |}.

(** A request on the admin port. *)
Definition serve (url_fuel : nat) (gorm_columns : RoleModel -> list (string * json)) (managerVersion : string)
    (v : visit) (r : Request) : GoM Server admin_answer :=
  enabled ← gets (fun s => s.(sv_admin).(ad_auth).(au_Config).(OIDCEnabled));
  let auth (m : GoM Auth auth_reply) := reply ← on_auth m; mret (AnswerAuth reply) in
  let now := v.(vi_su).(su_now) in
  match findHandler (admin_mux enabled) r.(r_Method) v.(vi_escaped) with
  | RedirectTo p => mret (AnswerRedirect p)
  | NoRoute | To HAcme => mret (AnswerApi NotFoundHandler)
  | To HStatic => mret (AnswerStatic (TrimPrefix (path_segment v.(vi_escaped)) "/static/"))
  | To HLogin => auth (LoginHandler now v.(vi_random) r.(r_Method) v.(vi_username) v.(vi_password))
  | To HLogout => auth LogoutHandler
  | To HOIDCLogin => auth (OIDCLoginHandler now v.(vi_random))
  | To HOIDCCallback => auth (OIDCCallbackHandler now v.(vi_random) (r.(r_Query) "state") (r.(r_Query) "code"))
  | To HDashboard => guarded (dashboardHandler managerVersion v.(vi_generatedAt) r) v
  | To (HPage p) => guarded (pageHandler managerVersion p r) v
  | To HManagerLogs => guarded (handleManagerLogs v) v
  | To HLogLevel => guarded (handleManagerLogLevel r) v
  | To HLogsFile => guarded (handleManagerLogsFile v.(vi_log_file) r) v
  | To (HApi p) =>
      answer ← on_admin (serve_admin url_fuel gorm_columns managerVersion v.(vi_su) (with_path p r));
      mret match answer with
           | Some (inl resp) => AnswerApi resp
           | Some (inr reply) => AnswerAuth reply
           | None => AnswerApi NotFoundHandler
           end
  end.
End server.
Arguments Server {_} _.

(** ** Visitors without credentials *)

Section visitors.
Context `{GormLaws, WebSocket, Crypto} `{JsonText, TimeText, OidcProvider, Zerolog} {FS : Type} `{!ModelStore FS}.
Context (url_fuel : nat) (gorm_columns : RoleModel -> list (string * json)) (managerVersion : string).

Definition with_auth (au : Auth) (s : Server FS) : Server FS :=
  Build_Server (set_ad_auth au s.(sv_admin)) s.(sv_level) s.(sv_logBuf) s.(sv_logFilePath).
Definition auth_of (s : Server FS) : Auth := s.(sv_admin).(ad_auth).

(** What everybody may see: no page, no data of the manager, no log. *)
Definition public (ans : admin_answer) : Prop :=
  match ans with
  | AnswerApi r => r = NotFoundHandler
  | AnswerAuth _ | AnswerStatic _ | AnswerRedirect _ => True
  | _ => False
  end.

(** A request, with its outcome: the login events it amounts to. *)
Definition only_logs_in (m : GoM (Server FS) admin_answer) (s : Server FS) : Prop :=
  exists es ans, m s = (with_auth (run (exec_auths es) (auth_of s)) s, Ret ans) /\ public ans.

Lemma with_same_auth s : with_auth (auth_of s) s = s.
Proof. by destruct s as [[] ? ? ?]. Qed.

Lemma answers_only ans s : public ans -> only_logs_in (mret ans) s.
Proof. intros Hp. exists [], ans. split; [|done]. cbn. by rewrite with_same_auth. Qed.

Lemma on_auth_runs {A} (m : GoM Auth A) s :
  on_auth m s = (with_auth (run m (auth_of s)) s, result m (auth_of s)).
Proof.
  unfold on_auth, on_admin, zoom, auth_of, with_auth, run, result. cbn. by destruct (m (ad_auth (sv_admin s))).
Qed.

Lemma event_only e (m : GoM Auth auth_reply) s : m = exec_auth e ->
  only_logs_in (reply ← on_auth m; mret (AnswerAuth reply)) s.
Proof.
  intros ->. destruct (returns_exec_auth e (auth_of s)) as [reply Hr]. exists [e], (AnswerAuth reply). split; [|done].
  assert (E : on_auth (exec_auth e) s = (with_auth (run (exec_auth e) (auth_of s)) s, Ret reply))
    by (by rewrite on_auth_runs, Hr).
  rewrite (bind_Ret _ _ _ _ _ E). unfold exec_auths. cbn [foreach].
  assert (Hrun : run ((exec_auth e ;; skip) ;; skip) (auth_of s) = run (exec_auth e) (auth_of s)) by (by rewrite !run_skip).
  by rewrite Hrun.
Qed.

Lemma getSession_on s now cookie : exists id,
  on_auth (getSession now cookie) s = (s, Ret id) /\ (id != "") = session_valid now cookie (auth_of s).
Proof.
  destruct (getSession_valid now cookie (auth_of s)) as (id & E & Hv). exists id. split; [|done].
  rewrite on_auth_runs. unfold run, result. rewrite E. cbn [fst snd]. by rewrite with_same_auth.
Qed.

Lemma guarded_only next v s : session_valid v.(vi_su).(su_now) v.(vi_su).(su_cookie) (auth_of s) = false ->
  only_logs_in (guarded next v) s.
Proof.
  intros Hv. unfold guarded, only_logs_in. destruct (getSession_on s v.(vi_su).(su_now) v.(vi_su).(su_cookie)) as (id & E & Hid).
  rewrite (bind_Ret _ _ _ _ _ E), Hid, Hv. by apply (answers_only (AnswerAuth to_login)).
Qed.

Lemma serve_only v r s : credentials v.(vi_su) r s.(sv_admin) = false ->
  only_logs_in (serve url_fuel gorm_columns managerVersion v r) s.
Proof.
  intros Hc. pose proof Hc as [Hv Hb]%orb_false_iff. unfold serve, only_logs_in.
  rewrite (bind_Ret _ _ s s _ eq_refl). cbv zeta.
  destruct (findHandler _ _ _) as [p|h|]; [by apply (answers_only (AnswerRedirect p))| |by apply answers_only].
  destruct h; try (by apply answers_only); try (by apply guarded_only).
  - by apply (event_only (EvLogin v.(vi_su).(su_now) v.(vi_random) r.(r_Method) v.(vi_username) v.(vi_password))).
  - by apply (event_only (EvLogout v.(vi_su).(su_now))).
  - by apply (event_only (EvOIDCLogin v.(vi_su).(su_now) v.(vi_random))).
  - by apply (event_only (EvCallback v.(vi_su).(su_now) v.(vi_random) (r.(r_Query) "state") (r.(r_Query) "code"))).
  - assert (Hadmin : exists ans, on_admin (serve_admin url_fuel gorm_columns managerVersion v.(vi_su) (with_path pattern r)) s = (s, Ret ans) /\
      (ans = None \/ ans = Some (inr to_login))).
    { unfold serve_admin. destruct (route _ _ _ _ _) as [handler|].
      - pose proof (HandleFuncAdmin_runs handler v.(vi_su) (with_path pattern r) s.(sv_admin)) as E.
        replace (credentials v.(vi_su) (with_path pattern r) s.(sv_admin)) with false in E by (by rewrite <- Hc).
        exists (Some (inr to_login)). split; [|by right]. unfold on_admin, zoom. rewrite (bind_Ret _ _ _ _ _ E). by destruct s.
      - exists None. split; [by destruct s|by left]. }
    destruct Hadmin as (ans & E & Hans). rewrite (bind_Ret _ _ _ _ _ E).
    destruct Hans as [-> | ->]; by apply answers_only.
Qed.

(** A visit in a sequence: the state it found and the answer it got. *)
Fixpoint serve_all (l : list (visit * Request)) : GoM (Server FS) (list admin_answer) :=
  match l with
  | [] => mret []
  | q :: l => ans ← serve url_fuel gorm_columns managerVersion q.1 q.2; rest ← serve_all l; mret (ans :: rest)
  end.
(** None carries an unexpired session or the API key when it is served. *)
Fixpoint anonymous (l : list (visit * Request)) (s : Server FS) : Prop :=
  match l with
  | [] => True
  | q :: l => credentials q.1.(vi_su) q.2 s.(sv_admin) = false /\
              anonymous l (run (serve url_fuel gorm_columns managerVersion q.1 q.2) s)
  end.

(** C13. Whatever visitors without credentials request on the admin port, any
    path, method, header and body, and in any number: the manager stays as it is
    up to the session and login-state tables, which change as by a sequence of
    login events, and no answer is a page, an API response, a log stream or the
    log file. *)
Theorem anonymous_visitors_only_log_in l s : anonymous l s ->
  exists es answers, serve_all l s = (with_auth (run (exec_auths es) (auth_of s)) s, Ret answers) /\ Forall public answers.
Proof.
  revert s. induction l as [|q l IH]; intros s; cbn [anonymous serve_all].
  - exists [], []. split; [cbn; by rewrite with_same_auth|constructor].
  - intros [Hc Hl]. destruct (serve_only q.1 q.2 s Hc) as (es & ans & E & Hp).
    unfold run in Hl. rewrite E in Hl. cbn [fst] in Hl.
    destruct (IH _ Hl) as (es' & answers & E' & Hps). exists (es ++ es'), (ans :: answers). split; [|by constructor].
    rewrite (bind_Ret _ _ _ _ _ E), (bind_Ret _ _ _ _ _ E'). f_equal.
    unfold with_auth, auth_of in *. cbn [sv_admin sv_level sv_logBuf sv_logFilePath].
    assert (Happ : forall a, run (exec_auths (es ++ es')) a = run (exec_auths es') (run (exec_auths es) a)).
    { clear. induction es as [|e es IH]; intros a; [done|]. unfold exec_auths in *. cbn [app foreach].
      destruct (returns_exec_auth e a) as [x Hx]. unfold result in Hx. unfold run in *.
      destruct (exec_auth e a) as [a1 y] eqn:Ee. cbn in Hx. subst y.
      assert (Es : (exec_auth e ;; skip) a = (a1, Ret tt)) by (by rewrite (bind_Ret _ _ _ _ _ Ee)).
      by rewrite !(bind_Ret _ _ _ _ _ Es). }
    rewrite Happ. by destruct s as [[] ? ? ?].
Qed.
End visitors.

(** ** Routing *)

Lemma admin_challenge oidc s r : mux_match (admin_mux oidc) (".well-known" :: "acme-challenge" :: s :: r) =
  Some (parse_pattern ChallengePrefix, HAcme).
Proof. destruct oidc; vm_compute; reflexivity. Qed.
Lemma public_challenge s r : mux_match public_mux (".well-known" :: "acme-challenge" :: s :: r) =
  Some (parse_pattern ChallengePrefix, AcmeNotFound).
Proof. vm_compute; reflexivity. Qed.

Lemma unescape_challenge p : HasPrefix p ChallengePrefix = true -> isChallengePath (path_segment p) = true.
Proof.
  intros [t ->]%HasPrefix_spec.
  assert (Hu : exists u, path_segment (ChallengePrefix +:+ t) = ChallengePrefix +:+ u).
  { unfold path_segment. exists (default t (PathUnescape t)).
    assert (Hs : PathUnescape (ChallengePrefix +:+ t) = String.append ChallengePrefix <$> PathUnescape t).
    { unfold ChallengePrefix. destruct (PathUnescape t) as [u|] eqn:E; cbn [fmap option_fmap option_map];
        repeat (match goal with |- context [String.String ?c ?a +:+ t] => change (String.String c a +:+ t) with (String.String c (a +:+ t)) end;
                cbn [PathUnescape]); change ("" +:+ t) with t; by rewrite E. }
    rewrite Hs. by destruct (PathUnescape t). }
  destruct Hu as [u ->]. unfold isChallengePath. rewrite length_app_str.
  rewrite bool_decide_eq_true_2 by lia. cbn [andb]. apply bool_decide_eq_true_2, take_app_str.
Qed.

(** C25. Certificate issuance is never intercepted: on the public listener, on
    the admin listener with or without OIDC, and on the listener that redirects
    to HTTPS, every clean path below the challenge prefix gets the plain 404,
    whatever the method, the cookies and the credentials, and the manager does
    nothing else; the paths of challenge tokens are clean. *)
Theorem challenges_are_not_intercepted `{GormLaws, WebSocket, Crypto} `{JsonText, TimeText, OidcProvider, Zerolog}
    {FS : Type} `{!ModelStore FS} p :
  HasPrefix p ChallengePrefix = true ->
  (forall Method, Method = "CONNECT" \/ cleanPath p = p -> findHandler public_mux Method p = To AcmeNotFound) /\
  (forall fuel cols ver v r (s : Server FS), v.(vi_escaped) = p -> r.(r_Method) = "CONNECT" \/ cleanPath p = p ->
     serve fuel cols ver v r s = (s, Ret (AnswerApi NotFoundHandler))) /\
  (forall Host RequestURI, redirectServer Host RequestURI (path_segment p) = inl NotFoundHandler) /\
  (forall token, plain token -> p = ChallengePrefix +:+ token -> cleanPath p = p).
Proof.
  intros Hp. split_and!.
  - intros Method Hc. by apply (challenge_found public_mux AcmeNotFound Method p public_challenge).
  - intros fuel cols ver v r s <- Hc. unfold serve. rewrite (bind_Ret _ _ s s _ eq_refl). cbv zeta.
    by rewrite (challenge_found _ HAcme _ _ (admin_challenge _) Hp Hc).
  - intros Host RequestURI. unfold redirectServer, WrapHandler. by rewrite unescape_challenge.
  - intros token Ht ->. by apply token_is_clean.
Qed.

#[export] Instance Pattern_eq_dec : EqDecision Pattern.
Proof. solve_decision. Defined.

Lemma mux_match_in {H} (m : Mux H) segs p : mux_match m segs = Some p ->
  p ∈ m /\ (p.1.(pt_multi) = false -> p.1.(pt_segments) = segs).
Proof.
  unfold mux_match. destruct (List.find _ m) as [q|] eqn:E.
  - intros [= <-]. apply find_in in E as [Hin Hq]. split; [done|]. intros _.
    by apply andb_true_iff in Hq as [_ Hq%bool_decide_eq_true].
  - intros Hf. assert (Hin : forall l, foldr longer None l = Some p -> p ∈ l).
    { clear. induction l as [|q l IH]; [done|]. cbn [foldr]. unfold longer at 1. destruct (foldr longer None l) as [b|].
      - case_bool_decide; intros [= <-]; [by left|right; by apply IH].
      - intros [= <-]. by left. }
    apply Hin, list_elem_of_In, filter_In in Hf as [Hm Hp]. split; [by apply list_elem_of_In|].
    apply andb_true_iff in Hp as [Hmulti _]. by rewrite Hmulti.
Qed.

Definition api_entry (q : Pattern * admin_handler) : bool :=
  match q.2 with
  | HApi p => bool_decide (q.1 = parse_pattern p) && negb q.1.(pt_multi) && bool_decide (p ∈ api_patterns)
  | _ => true
  end.
Lemma api_entries oidc : forallb api_entry (admin_mux oidc) = true.
Proof. destruct oidc; vm_compute; reflexivity. Qed.

Lemma found_api oidc segs pat p : mux_match (admin_mux oidc) segs = Some (pat, HApi p) ->
  p ∈ api_patterns /\ segs = (parse_pattern p).(pt_segments).
Proof.
  intros [Hin Hs]%mux_match_in. pose proof (api_entries oidc) as Ha. rewrite forallb_forall in Ha.
  specialize (Ha _ (proj1 (list_elem_of_In _ _) Hin)). unfold api_entry in Ha. cbn in Ha.
  apply andb_true_iff in Ha as [[->%bool_decide_eq_true Hm%negb_true_iff]%andb_true_iff Hp%bool_decide_eq_true].
  split; [done|]. symmetry. by apply Hs.
Qed.

Lemma pattern_facts (P : string -> Prop) : Forall P api_patterns -> forall p, p ∈ api_patterns -> P p.
Proof. intros Hf p Hp. rewrite list.Forall_forall in Hf. by apply Hf. Qed.

(** The two tables of the admin API agree: [HandleFuncAdmin] is called with
    exactly the paths the handlers are chosen by, no pattern of the listener is
    registered twice (which would panic at start-up), each of the paths reaches
    its handler whatever the method, and no other path reaches a handler of
    the API. *)
Theorem admin_api_is_routed `{Gorm, WebSocket, Crypto} `{JsonText, TimeText} {FS : Type} `{!ModelStore FS}
    fuel cols ver su r oidc :
  (r.(r_Path) ∈ api_patterns <-> route (FS := FS) fuel cols ver su r <> None) /\
  NoDup (fst <$> admin_mux oidc) /\ NoDup (fst <$> public_mux) /\
  (forall Method p, p ∈ api_patterns -> findHandler (admin_mux oidc) Method p = To (HApi p)) /\
  (forall Method escaped p, findHandler (admin_mux oidc) Method escaped = To (HApi p) ->
     p ∈ api_patterns /\ path_segments (if Method == "CONNECT" then escaped else cleanPath escaped) = (parse_pattern p).(pt_segments)).
Proof.
  split_and!.
  - split.
    + generalize (eq_refl r.(r_Path)). generalize r.(r_Path) at 2 3. intros p Hr. revert p Hr.
      cut (Forall (fun p => r.(r_Path) = p -> route (FS := FS) fuel cols ver su r <> None) api_patterns).
      { intros Hf p Hr Hp. exact (pattern_facts _ Hf p Hp Hr). }
      unfold api_patterns. rewrite !list.Forall_cons.
      split_and!; try apply list.Forall_nil; try done; intros E; unfold route; rewrite E;
        repeat (rewrite bool_decide_eq_false_2 by done); by rewrite bool_decide_eq_true_2.
    + unfold route. cbv zeta.
      repeat (case_bool_decide as E; [intros _; rewrite E; apply (bool_decide_unpack _); vm_compute; done|clear E]). done.
  - apply (bool_decide_unpack _). destruct oidc; vm_compute; done.
  - apply (bool_decide_unpack _). vm_compute. done.
  - intros Method. apply pattern_facts. unfold findHandler.
    destruct (Method == "CONNECT"), oidc; repeat constructor.
  - intros Method escaped p. unfold findHandler, matchOrRedirect. destruct (Method == "CONNECT").
    + destruct (_ && _); [done|]. destruct (mux_match _ _) as [[pat h]|] eqn:E; [|done]. intros [= ->]. by apply found_api in E.
    + destruct (_ && _); [done|]. destruct (_ != _); [done|].
      destruct (mux_match _ _) as [[pat h]|] eqn:E; [|done]. intros [= ->]. by apply found_api in E.
Qed.

(** ** Logs *)

Section logs.
Context `{Gorm, WebSocket, Crypto} `{JsonText, TimeText, OidcProvider, Zerolog} {FS : Type} `{!ModelStore FS}.

Lemma drop_str_suffix n s : (n <= String.length s)%nat -> exists pre, s = pre +:+ drop_str n s /\ String.length pre = n.
Proof.
  revert s. induction n as [|n IH]; intros s Hn; [by exists ""; destruct s|].
  destruct s as [|c s]; [cbn in Hn; lia|]. cbn in Hn. destruct (IH s ltac:(lia)) as (pre & E & Hl).
  exists (String.String c pre). cbn. split; [|by rewrite Hl].
  change (String.String c s = String.String c (pre +:+ drop_str n s)). by f_equal.
Qed.

(** The log history is the end of the log file: a GET gets a suffix of the
    file that leaves out exactly what exceeds the last 2^20 bytes of the file as
    its size was taken, followed by what was appended meanwhile; a file of at
    most that size is sent whole. Every other outcome is an error without any of
    the file, and the server is as it was. *)
Theorem log_history_is_the_end f r (s : Server FS) :
  r.(r_Method) = "GET" -> s.(sv_logFilePath) <> "" ->
  run (handleManagerLogsFile f r) s = s /\
  match f with
  | LogFile true true content appended => exists pre tail,
      result (handleManagerLogsFile f r) s = Ret (AnswerFile tail) /\ content +:+ appended = pre +:+ tail /\
      String.length pre = (String.length content - 2^20)%nat /\
      (String.length tail = (String.length content) `min` 2^20 + String.length appended)%nat
  | _ => exists msg, result (handleManagerLogsFile f r) s = Ret (AnswerApi (httpError msg 500))
  end.
Proof.
  intros Hm Hp.
  assert (E : handleManagerLogsFile f r s = (s, Ret match f with
    | NoLogFile => AnswerApi (httpError "failed to open log file" 500)
    | LogFile false _ _ _ => AnswerApi (httpError "failed to stat log file" 500)
    | LogFile true false _ _ => AnswerApi (httpError "failed to seek log file" 500)
    | LogFile true true content appended =>
        AnswerFile (drop_str (String.length content - maxBytes) (content +:+ appended))
    end)).
  { unfold handleManagerLogsFile. rewrite Hm, bool_decide_eq_true_2 by done. cbn [negb].
    rewrite (bind_Ret _ _ s s _ eq_refl). rewrite bool_decide_eq_false_2 by done.
    destruct f as [|[] [] content appended]; try done. cbv zeta.
    replace (Z.to_nat _) with (String.length content - maxBytes)%nat; [done|]. case_bool_decide; lia. }
  unfold run, result. rewrite E. split; [done|].
  destruct f as [|[] [] content appended]; try by eexists.
  cbn [snd]. destruct (drop_str_suffix (String.length content - maxBytes) (content +:+ appended)) as (pre & Es & Hl).
  { rewrite length_app_str. lia. }
  exists pre, (drop_str (String.length content - maxBytes) (content +:+ appended)). split; [done|]. split; [exact Es|].
  split; [exact Hl|]. apply (f_equal String.length) in Es. rewrite !length_app_str, Hl in Es.
  unfold maxBytes in *. lia.
Qed.

(** A line written between the history and the subscription of a log stream is
    in neither: the history ends before it, and the channel begins after it. *)
Theorem log_lines_before_subscription_are_lost (b : Buffer) line (s : Server FS) :
  s.(sv_logBuf) = Some b -> TrimRight_newlines line <> "" ->
  let s1 := set_logBuf (Some (Write line b)) s in
  result logs_history s = Ret (GetAll b) /\
  exists b', run logs_subscribe s1 = set_logBuf (Some b') s1 /\ result logs_subscribe s1 = Ret (Some b.(lb_nextID)) /\
    b'.(lb_subs) !! b.(lb_nextID) = Some [] /\ (0 < b.(lb_maxSize) -> TrimRight_newlines line ∈ GetAll b')%nat.
Proof.
  intros Hb Hline s1. unfold logs_history, result, gets. cbn. rewrite Hb. split; [done|].
  assert (Hw : (Write line b).(lb_nextID) = b.(lb_nextID) /\
    (Write line b).(lb_entries) = last_entries b.(lb_maxSize) (b.(lb_entries) ++ [TrimRight_newlines line])).
  { unfold Write. by rewrite bool_decide_eq_false_2. }
  subst s1. revert Hw. generalize (Write line b). intros w [Hid Hent]. exists (Subscribe w).1.
  split; [done|]. rewrite <- Hid. split; [done|]. split; [apply lookup_insert_eq|].
  intros Hmax. change (GetAll (Subscribe w).1) with w.(lb_entries). rewrite Hent.
  unfold last_entries. rewrite length_app. cbn [length]. case_bool_decide.
  - rewrite drop_app. apply elem_of_app. right.
    rewrite (proj2 (Nat.sub_0_le _ _)) by lia. left.
  - apply elem_of_app. right. left.
Qed.
End logs.

Section witnesses.
#[local] Existing Instances MemGorm MemGormLaws MemGormUp ToyCrypto AllWrites ModelFiles.FilesOk ModelFiles.models_dir NoJson.
#[local] Instance levels : Zerolog := {| ParseLevel s := if s == "debug" then Some s else None |}.
#[local] Instance no_times : TimeText := {| rfc3339_format _ := ""; rfc3339_parse _ := None |}.
#[local] Instance provider : OidcProvider :=
  {| discovers _ := true; AuthCodeURL s := "https://sso/auth?state=" +:+ s; Exchange _ := None; VerifyIDToken _ _ := false |}.

Definition server_ex : Server Files := {|
  sv_admin := admin_ex empty_store; sv_level := "info"; sv_logBuf := Some (NewBuffer 500); sv_logFilePath := "/var/log/m" |}.
Definition visit_ex (path user password : string) : visit := {|
  vi_escaped := path; vi_su := su_ex; vi_random := "r"; vi_username := user; vi_password := password;
  vi_generatedAt := ""; vi_flusher := true; vi_log_file := LogFile true true "lines" "" |}.
Definition get (path : string) : Request := admin_request "GET" path "" "".

Lemma anonymous_visitors_only_log_in_witness :
  exists es answers,
    serve_all 10 (fun _ => []) "1.0" [(visit_ex "/admin/logs" "" "", get "/admin/logs"); (visit_ex "/login" "admin" "wrong", admin_request "POST" "/login" "" "");
      (visit_ex "/v1/admin/roles" "" "", get "/v1/admin/roles"); (visit_ex "/api/manager/logs-file" "" "", get "/api/manager/logs-file")] server_ex =
    (with_auth (run (exec_auths es) (auth_of server_ex)) server_ex, Ret answers) /\ Forall public answers.
Proof. apply anonymous_visitors_only_log_in. repeat split; vm_compute; reflexivity. Defined.

Lemma challenges_are_not_intercepted_witness :
  serve 10 (fun _ => []) "1.0" (visit_ex "/.well-known/acme-challenge/token-1" "" "") (get "") server_ex =
    (server_ex, Ret (AnswerApi NotFoundHandler)).
Proof.
  apply (challenges_are_not_intercepted "/.well-known/acme-challenge/token-1"); [reflexivity|reflexivity|].
  right. vm_compute. reflexivity.
Defined.

Lemma admin_api_is_routed_witness :
  findHandler (admin_mux true) "DELETE" "/v1/admin/roles" = To (HApi "/v1/admin/roles").
Proof.
  refine (proj1 (proj2 (proj2 (proj2 (admin_api_is_routed (FS := Files) 10 (fun _ => []) "" su_ex (get "") true)))) _ _ _).
  apply (bool_decide_unpack _). vm_compute. done.
Defined.

Lemma log_history_is_the_end_witness :
  exists pre tail, result (handleManagerLogsFile (LogFile true true "lines" "+1") (get "")) server_ex = Ret (AnswerFile tail) /\
    "lines" +:+ "+1" = pre +:+ tail /\ pre = "" /\ String.length tail = 7.
Proof.
  destruct (log_history_is_the_end (LogFile true true "lines" "+1") (get "") server_ex eq_refl ltac:(done)) as (_ & pre & tail & E & Hs & Hl & Ht).
  exists pre, tail. split; [exact E|]. split; [exact Hs|]. split.
  - destruct pre; [reflexivity|]. exfalso. assert (5 - 2^20 = 0)%nat as Hz by (apply Nat.sub_0_le; apply Nat.leb_le; vm_compute; reflexivity).
    cbn [String.length] in Hl. rewrite Hz in Hl. discriminate Hl.
  - rewrite Ht. rewrite Nat.min_l; [reflexivity|]. apply Nat.leb_le. vm_compute. reflexivity.
Defined.

Lemma log_lines_before_subscription_are_lost_witness :
  result logs_history server_ex = Ret [].
Proof.
  apply (log_lines_before_subscription_are_lost (NewBuffer 500) "line" server_ex); [reflexivity|].
  vm_compute. discriminate.
Defined.
End witnesses.
