(* ===== verification/Startup.v ===== *)
(** * Starting the manager (cmd/synergia-manager/main.go)

    What [main] does before it serves: the flags, the purge of cached client
    binaries after an upgrade, the seeding of the role models, the defaults of
    the development mode, the automatic choice of a llama.cpp release, and which
    key reaches which component. A [log.Fatal] ends the process: it is a value
    of [fatal]. The libraries that open the database and an S3 store, and what
    GitHub answers, are arguments. *)

From S2P Require Import Prelude GoStd Json Strings Protocol Gorm Models Workers Queue BackendUrl Roles Gateway Http AdminAuth Cache Files Downloads ModelFiles AdminApi ManagerConfig.

(** ** Release tags of GitHub (backend/backend.go, cache/github.go) *)

Section releases.
Context `{JsonText}.

Definition decode_release : json -> option string := decode_struct "" [str_field "tag_name" (fun x _ => x)].
(** a slice: [null] leaves it nil *)
Definition decode_releases (j : json) : option (list string) :=
  match j with
  | JNull => Some []
  | JArr l => decode_slice decode_release l
  | _ => None
  end.
(** the request and the tags of its answer; [None] is an error *)
Definition fetch_releases (get : string -> http_result) (url : string) (limit : Z) : option (list string) :=
  match get (url +:+ "?per_page=" +:+ pretty limit) with
  | None => None
  | Some (code, body, _) => if bool_decide (code <> 200)%Z then None else Unmarshal decode_releases (json_first body)
  end.

Definition releaseSources (name : string) : option string :=
  if name == LlamaCpp then Some "https://api.github.com/repos/ggml-org/llama.cpp/releases" else None.
Definition FetchTags (get : string -> http_result) (name : string) (limit : Z) : option (list string) :=
  url ← releaseSources name;
  fetch_releases get url (if bool_decide (limit <= 0)%Z then 10 else limit).

Definition synergiaReleasesURL : string := "https://api.github.com/repos/ylallemant/synergia/releases".
Definition fetchSynergiaTags (get : string -> http_result) (limit : Z) : option (list string) :=
  fetch_releases get synergiaReleasesURL limit.
End releases.

(** ** The process that starts *)

Record Booting `{Gorm} := {
  bt_store : Store;
  bt_files : Files;                              (* of the cache directory *)
  bt_prewarms : list (string * string * string)  (* calls of PrewarmCache *)
}.

Inductive fatal := FatalConfig (e : config_error) | FatalDatabase | FatalSeedTest | FatalSeedProduction | FatalSeedTester
  | FatalModelStore | FatalAuth.

(** What runs once [main] has set everything up. *)
Record Running := {
  rn_publicKey : string;     (* completions, batches, cluster and roles API *)
  rn_adminKey : string;      (* the admin server *)
  rn_workerKey : string;     (* the gateway, and through it the worker-facing APIs *)
  rn_auth : Auth;
  rn_timeout : Z;
  rn_allRoles : bool;        (* the roles API in development mode *)
  rn_development : bool;     (* the batch API *)
}.

(** Removing a directory tree leaves what cannot be removed. *)
Class RemoveOs := { stuck : string -> bool }.

(** The flags: any argument asks for the development mode; a version request
    prints and exits. *)
Definition asks_version (args : list string) : bool :=
  match args with
  | a :: _ => existsb (fun x => x == a) ["version"; "--version"; "-version"]
  | [] => false
  end.
Definition with_flags (args : list string) (Getenv : Environment) : Environment := fun key =>
  if (key == "CLUSTER_DEVELOPMENT") && existsb (fun a => (a == "--development") || (a == "-development")) args
  then "true" else Getenv key.

Section startup.
Context `{Gorm, JsonText, OidcProvider, MkdirOs, RemoveOs}.

Definition on_db {A} (m : GoM Store A) : GoM Booting A :=
  zoom bt_store (fun s b => Build_Booting _ s b.(bt_files) b.(bt_prewarms)) m.
Definition PrewarmCache (version url sha : string) : GoM Booting unit :=
  modify (fun b => Build_Booting _ b.(bt_store) b.(bt_files) (b.(bt_prewarms) ++ [(version, url, sha)])).

(** [os.RemoveAll] *)
Definition in_tree (dir path : string) : bool := (path == dir) || HasPrefix path (dir +:+ "/").
Definition remove_tree (dir : string) (fs : Files) : Files := filter (fun kv => in_tree dir kv.1 = true -> stuck kv.1 = true) fs.
Definition RemoveAll (dir : string) : GoM Booting unit :=
  modify (fun b => Build_Booting _ b.(bt_store) (remove_tree dir b.(bt_files)) b.(bt_prewarms)).

Definition checkAndPurgeStaleCache (version cacheDir : string) : GoM Booting unit :=
  prev ← on_db (GetSetting "manager_version");
  let prev := match prev with inl v => v | inr _ => "" end in
  if prev == version then skip
  else
    RemoveAll (path_Join cacheDir "client-binaries") ;;
    on_db (SetSetting "manager_version" version) ;; skip.

Definition seed_roles (cfg : Config) : GoM Store (option fatal) :=
  failed ← (if cfg.(Development) || cfg.(TestSetup) then
              err ← SeedTestRoles; mret match err with Some _ => Some FatalSeedTest | None => None end
            else
              roles ← GetRoleModels;
              match roles with
              | inl (_ :: _) => mret None
              | _ => err ← SeedProductionRoles; mret match err with Some _ => Some FatalSeedProduction | None => None end
              end);
  match failed with
  | Some f => mret (Some f)
  | None =>
      err ← SeedTesterRole;
      match err with
      | Some _ => mret (Some FatalSeedTester)
      | None => FillMissingDownloadURLs ;; mret None
      end
  end.

Definition latest_llama (get : string -> http_result) : option string :=
  match FetchTags get LlamaCpp 1 with Some (t :: _) => Some t | _ => None end.
Definition llama_url : string := default "" (DownloadURLTemplates LlamaCpp).

(** The defaults of the development mode. *)
Definition dev_defaults (now : Z) (get : string -> http_result) (cfg : Config) : GoM Store unit :=
  backend ← GetBackendVersionConfig;
  (match backend with
   | inl _ => skip
   | inr _ =>
       let '(version, url) :=
         if cfg.(DevBackendURL) == "" then
           match latest_llama get with Some t => (t, llama_url) | None => ("local", "") end
         else ("local", cfg.(DevBackendURL)) in
       if url != "" then SetBackendVersionConfig now LlamaCpp version url "" ;; skip else skip
   end) ;;
  if cfg.(DevClientVersion) != "" then
    client ← GetClientVersionConfig;
    match client with
    | inl _ => skip
    | inr _ => SetClientVersionConfig now cfg.(DevClientVersion) "all" 100 ;; skip
    end
  else skip.

(** The llama.cpp release of an installation that has none. *)
Definition auto_backend (now : Z) (get : string -> http_result) : GoM Booting unit :=
  backend ← on_db GetBackendVersionConfig;
  match backend with
  | inr _ =>
      match latest_llama get with
      | Some latest =>
          err ← on_db (SetBackendVersionConfig now LlamaCpp latest llama_url "");
          match err with None => PrewarmCache latest llama_url "" | Some _ => skip end
      | None => skip
      end
  | inl _ =>
      backend ← on_db GetBackendVersionConfig;
      match backend with
      | inl c => when (c.(bv_Version) != "") (PrewarmCache c.(bv_Version) c.(bv_DownloadURL) c.(bv_SHA256))
      | inr _ => skip
      end
  end.

(** The stored API key, if there is one, over that of the environment. *)
Definition admin_key (cfg : Config) : GoM Store string :=
  stored ← GetSetting settingAPIKey;
  mret match stored with
       | inl k => if k != "" then k else cfg.(APIKey)
       | inr _ => cfg.(APIKey)
       end.
(** The stored OIDC configuration over that of the environment, field by field. *)
Definition override_oidc (cfg : Config) (stored : option OidcConfig) : AuthConfig :=
  let over (stored env : string) := if stored != "" then stored else env in
  let make enabled id secret provider redirect := {|
    AdminUser := cfg.(c_AdminUser); AdminPassword := cfg.(c_AdminPassword); OIDCEnabled := enabled; OIDCClientID := id;
    OIDCClientSecret := secret; OIDCProviderURL := provider; OIDCRedirectURL := redirect; Insecure := cfg.(c_Insecure) |} in
  match stored with
  | Some o => make o.(oc_Enabled) (over o.(oc_ClientID) cfg.(c_OIDCClientID))
      (over o.(oc_ClientSecret) cfg.(c_OIDCClientSecret)) (over o.(oc_ProviderURL) cfg.(c_OIDCProviderURL))
      (over o.(oc_RedirectURL) cfg.(c_OIDCRedirectURL))
  | None => make cfg.(c_OIDCEnabled) cfg.(c_OIDCClientID) cfg.(c_OIDCClientSecret) cfg.(c_OIDCProviderURL) cfg.(c_OIDCRedirectURL)
  end.
Definition auth_config (cfg : Config) : GoM Store AuthConfig :=
  stored ← GetOIDCConfig;
  mret (override_oidc cfg match stored with inl o => o | inr _ => None end).

(** [main] from the roles on: what the servers are built with; [s3_ok]: the
    S3 library accepts its settings *)
Definition boot_services (now : Z) (get : string -> http_result) (s3_ok : bool) (cfg : Config) : GoM Booting (Running + fatal) :=
  (if cfg.(Development) then on_db (dev_defaults now get cfg) else skip) ;;
  workerKey ← on_db startup_worker_key;
  let store_ok := if cfg.(ModelBackend) == "s3" then s3_ok else mkdir_ok cfg.(ModelPath) in
  if negb store_ok then mret (inr FatalModelStore)
  else
    (if negb cfg.(Development) then auto_backend now get else skip) ;;
    adminKey ← on_db (admin_key cfg);
    config ← on_db (auth_config cfg);
    mret match NewAuth config with
         | None => inr FatalAuth
         | Some au => inl {| rn_publicKey := cfg.(APIKey); rn_adminKey := adminKey; rn_workerKey := workerKey; rn_auth := au;
                             rn_timeout := cfg.(Timeout); rn_allRoles := cfg.(Development) || cfg.(TestSetup);
                             rn_development := cfg.(Development) |}
         end.

(** [main] from the opened database to the running servers *)
Definition boot (now : Z) (version : string) (get : string -> http_result) (s3_ok : bool) (cfg : Config)
    : GoM Booting (Running + fatal) :=
  checkAndPurgeStaleCache version cfg.(CacheDir) ;;
  failed ← on_db (seed_roles cfg);
  match failed with
  | Some f => mret (inr f)
  | None => boot_services now get s3_ok cfg
  end.

(** The whole of [main]: [open] is what opening the configured database gives. *)
Inductive process :=
  | PrintedVersion
  | Ended (f : fatal) (b : option Booting)
  | Serving (b : Booting) (r : Running)
  | Crashed.
Definition main (now : Z) (version : string) (args : list string) (Getenv : Environment) (get : string -> http_result)
    (s3_ok : bool) (open : Config -> option Store) (files : Files) : process :=
  if asks_version args then PrintedVersion
  else
    match result (Load (with_flags args Getenv)) [] with
    | Ret (inl cfg) =>
        match open cfg with
        | Some s =>
            match boot now version get s3_ok cfg (Build_Booting _ s files []) with
            | (b, Ret (inl r)) => Serving b r
            | (b, Ret (inr f)) => Ended f (Some b)
            | _ => Crashed
            end
        | None => Ended FatalDatabase None
        end
    | Ret (inr e) => Ended (FatalConfig e) None
    | _ => Crashed
    end.
End startup.

(** ** What a start leaves alone *)

Section frames.
Context `{GormLaws, JsonText, OidcProvider, MkdirOs, RemoveOs}.

Lemma on_db_runs {A} (m : GoM Store A) b :
  on_db m b = (Build_Booting _ (run m b.(bt_store)) b.(bt_files) b.(bt_prewarms), result m b.(bt_store)).
Proof. unfold on_db, zoom, run, result. by destruct (m (bt_store b)). Qed.

Lemma wp_on_db {A} (m : GoM Store A) (Q : Booting -> res A -> Prop) b :
  wp m (fun s r => Q (Build_Booting _ s b.(bt_files) b.(bt_prewarms)) r) b.(bt_store) -> wp (on_db m) Q b.
Proof. unfold wp. intros HQ. unfold run at 1, result at 1. rewrite on_db_runs. exact HQ. Qed.

(** [roles_rel Q]: the start relates the role tables by [Q]. *)
Definition db_part {X} (f : Store -> X) (b : Booting) : X := f b.(bt_store).

Lemma keeps_on_db {A X} (f : Store -> X) (m : GoM Store A) : keeps (unchanged f) m -> keeps (unchanged (db_part f)) (on_db m).
Proof. intros Hm b. unfold run. rewrite on_db_runs. apply (Hm (bt_store b)). Qed.
Lemma keeps_files {X} (f : Store -> X) g : (forall b, (g b).(bt_store) = b.(bt_store)) -> keeps (unchanged (db_part f)) (modify g).
Proof. intros Hg b. unfold unchanged, db_part, run, modify. cbn. by rewrite Hg. Qed.

Lemma unchanged_SetSetting {X} (f : Store -> X) key v : (forall t s, f (lset Settings t s) = f s) -> keeps (unchanged f) (SetSetting key v).
Proof. intros Hf. unfold SetSetting. keeps_tac; [by apply unchanged_UpdatesN|by apply unchanged_Create]. Qed.
Lemma unchanged_GetSetting {X} (f : Store -> X) key : keeps (unchanged f) (GetSetting key).
Proof. unfold GetSetting, First. keeps_tac. Qed.

Lemma keeps_purge {X} (f : Store -> X) version dir : (forall t s, f (lset Settings t s) = f s) ->
  keeps (unchanged (db_part f)) (checkAndPurgeStaleCache version dir).
Proof.
  intros Hf. unfold checkAndPurgeStaleCache. keeps_tac.
  - apply keeps_on_db, unchanged_GetSetting.
  - by apply keeps_files.
  - by apply keeps_on_db, unchanged_SetSetting.
Qed.

Lemma returns_booting_db {A} (m : GoM Store A) : returns m -> returns (on_db m).
Proof. intros Hm b. unfold result. rewrite on_db_runs. destruct (Hm (bt_store b)) as [a ->]. by exists a. Qed.
Lemma returns_purge version dir : returns (checkAndPurgeStaleCache version dir).
Proof.
  unfold checkAndPurgeStaleCache, RemoveAll. returns_tac; apply returns_booting_db; [unfold GetSetting|unfold SetSetting]; returns_tac.
Qed.
End frames.

(** ** A deleted tester role *)

Section tester.
Context `{GormLaws, JsonText, OidcProvider, MkdirOs, RemoveOs}.

(** The role has no row, and its name is taken by a deleted one. *)
Definition tester_gone (s : Store) : Prop :=
  List.find (by_role "tester") (live (db_Roles s)) = None /\ existsb (by_role "tester") (trash (db_Roles s)) = true.

Lemma upsert_gone role model quant file hash vram descr s : tester_gone s ->
  wp (UpsertRoleModel role model quant file hash vram descr)
    (fun s' r => tester_gone s' /\ exists e, r = Ret e /\ (role = "tester" -> e <> None)) s.
Proof.
  intros [Hl Ht]. unfold UpsertRoleModel. apply wp_bind, wp_gets. cbn [lget Roles].
  destruct (db_first (by_role role) (db_Roles s)) as [r|[|msg]] eqn:Hf.
  - apply first_found in Hf. unfold Updates, UpdatesN, wp, run, result, mbind, GoM_bind. cbn.
    pose proof (updates_rows (by_role (rm_Role r)) (update_role model quant file hash vram descr) (db_Roles s)) as [Ht' Hl'].
    destruct (db_updates _ _ _) as [t' n] eqn:E. cbn in *.
    assert (Hne : role = "tester" -> False).
    { intros ->. by rewrite Hl in Hf. }
    split; [|eexists; split; [done|by intros Hr; apply Hne in Hr]].
    split; cbn; [|by rewrite Ht'].
    destruct Hl' as [-> | ->]; [done|]. rewrite find_update_other by done. by rewrite Hl.
  - unfold Create, wp, run, result. cbn. destruct (db_create _ _ _) as [t' [e|]] eqn:E; cbn.
    + destruct (Gorm.create_err _ _ _ _ _ E) as [Hl' Ht'].
      split; [unfold tester_gone; cbn; by rewrite Hl', Ht'|]. by eexists.
    + destruct (Gorm.create_ok _ _ _ _ E) as (Hl' & Ht' & Hall). rewrite forallb_forall in Hall.
      assert (Hne : role <> "tester").
      { intros ->. apply existsb_exists in Ht as (x & Hx & Hr). specialize (Hall x ltac:(apply in_or_app; by right)).
        unfold same_role, by_role in *. apply bool_decide_eq_true in Hr. cbn in Hall. by rewrite Hr, bool_decide_eq_true_2 in Hall. }
      split; [|by eexists]. split; cbn; [|by rewrite Ht'].
      rewrite Hl', find_app, Hl. cbn. unfold by_role. cbn. by rewrite bool_decide_eq_false_2.
  - apply wp_ret. split; [done|]. eexists. split; [done|]. done.
Qed.

Lemma seed_gone l s : tester_gone s ->
  wp (seed l) (fun s' r => tester_gone s' /\ exists e, r = Ret e /\ ("tester" ∈ (rm_Role <$> l) -> e <> None)) s.
Proof.
  revert s. induction l as [|x l IH]; intros s Hs; cbn [seed].
  - apply wp_ret. split; [done|]. eexists. split; [done|]. intros Hin. by apply elem_of_nil in Hin.
  - apply wp_bind. eapply wp_mono; [by apply upsert_gone|]. intros s1 r (Hs1 & e & -> & He).
    destruct e as [e|]; [apply wp_ret; by split; [|eexists]|].
    eapply wp_mono; [by apply IH|]. intros s2 r (Hs2 & e & -> & He2). split; [done|]. eexists. split; [done|].
    cbn [fmap list_fmap]. intros [Hx|Hx]%elem_of_cons; [by destruct He|by apply He2].
Qed.

Lemma seed_roles_gone cfg s : tester_gone s ->
  wp (seed_roles cfg) (fun s' r => tester_gone s' /\ exists f, r = Ret (Some f)) s.
Proof.
  intros Hs. unfold seed_roles. apply wp_bind.
  apply (wp_mono _ (fun s' r => tester_gone s' /\ exists e, r = Ret e)).
  - destruct (_ || _).
    + apply wp_bind. eapply wp_mono; [by apply seed_gone|]. intros s1 r (Hs1 & e & -> & _). apply wp_ret. split; [done|by eexists].
    + apply wp_bind, wp_gets. cbn [lget Roles]. destruct (db_find _ _ _ _) as [[|x l]|e].
      2: { apply wp_ret. split; [done|by eexists]. }
      all: apply wp_bind; eapply wp_mono; [by apply seed_gone|]; intros s1 r (Hs1 & e' & -> & _); apply wp_ret; (split; [done|by eexists]).
  - intros s1 r (Hs1 & [f|] & ->); [apply wp_ret; split; [done|by eexists]|].
    apply wp_bind. eapply wp_mono; [by apply upsert_gone|]. intros s2 r (Hs2 & [e|] & -> & He); [|by destruct He].
    apply wp_ret. split; [done|by eexists].
Qed.

(** One start on such a database. *)
Lemma boot_gone now version get s3_ok cfg b : tester_gone b.(bt_store) ->
  wp (boot now version get s3_ok cfg) (fun b' r => tester_gone b'.(bt_store) /\ exists f, r = Ret (inr f)) b.
Proof.
  intros Hb. unfold boot. apply wp_bind.
  apply (wp_returns (unchanged (db_part db_Roles))); [apply returns_purge|by apply keeps_purge|].
  intros b1 [] Hb1. unfold unchanged, db_part in Hb1. apply wp_bind, wp_on_db.
  eapply wp_mono; [apply seed_roles_gone; unfold tester_gone in *; by rewrite Hb1|].
  intros s2 r (Hs2 & f & ->). apply wp_ret. split; [done|by eexists].
Qed.

(** Starts of the manager, one after the other, on the same database. *)
Record start := { st_now : Z; st_version : string; st_get : string -> http_result; st_s3_ok : bool; st_cfg : Config }.
Fixpoint starts (l : list start) (b : Booting) : list (res (Running + fatal)) :=
  match l with
  | [] => []
  | x :: l =>
      let '(b', r) := boot x.(st_now) x.(st_version) x.(st_get) x.(st_s3_ok) x.(st_cfg) b in
      r :: starts l b'
  end.

Lemma starts_gone l b : tester_gone b.(bt_store) -> Forall (fun r => exists f, r = Ret (inr f)) (starts l b).
Proof.
  revert b. induction l as [|x l IH]; intros b Hb; [constructor|]. cbn [starts].
  pose proof (boot_gone x.(st_now) x.(st_version) x.(st_get) x.(st_s3_ok) x.(st_cfg) b Hb) as Hw. unfold wp, run, result in Hw.
  destruct (boot _ _ _ _ _ b) as [b' r]. cbn in Hw. destruct Hw as (Hb' & Hr). constructor; [done|by apply IH].
Qed.
End tester.

Section deletion.
Context `{GormLaws, WebSocket, Crypto} `{JsonText, TimeText, OidcProvider, MkdirOs, RemoveOs} {FS : Type} `{!ModelStore FS}.

(** Deleting the tester role on the dashboard is the end of the manager.
    Once the request is answered ok, every later start on that database, of
    any version and with any configuration and in either mode, ends in a
    [log.Fatal]: the start has to write the tester role, whose name the deleted
    row still holds. *)
Theorem deleting_the_tester_role_ends_the_manager cols ord r (a a' : Admin FS) s :
  r.(r_Method) = "DELETE" -> r.(r_Query) "role" = "tester" ->
  a.(ad_gateway).(g_store) = Some s -> existsb (by_role "tester") (live (db_Roles s)) = true ->
  AdminRolesHandler cols ord r a = (a', Ret admin_ok) ->
  exists s', a'.(ad_gateway).(g_store) = Some s' /\
    forall later files prewarms, Forall (fun outcome => exists f, outcome = Ret (inr f)) (starts later (Build_Booting _ s' files prewarms)).
Proof.
  intros Hm Hq Hs Hlive. unfold AdminRolesHandler. rewrite Hm, Hq.
  rewrite !bool_decide_eq_false_2 by done. rewrite bool_decide_eq_true_2 by done. cbn [orb]. cbv zeta.
  rewrite (bool_decide_eq_false_2 ("tester" = "")) by done.
  destruct (on_admin_db_returns (DeleteRoleModel "tester") a s) as (s' & v & E & Eon); [unfold DeleteRoleModel; returns_tac|done|].
  rewrite (bind_Ret _ _ _ _ _ Eon). destruct v as [e|]; [by intros [=]|]. intros [= <-].
  exists s'. split; [done|]. intros later files prewarms. apply starts_gone. cbn [bt_store].
  unfold DeleteRoleModel, Delete in E. cbn in E. destruct (db_delete _ _ _) as [t x] eqn:Ed. injection E as <- ->.
  destruct (delete_ok _ _ _ _ Ed) as (Hl & Ht & _). specialize (Ht eq_refl). split; cbn.
  - rewrite Hl. destruct (List.find _ _) as [y|] eqn:Hf; [|done].
    apply find_in in Hf as [Hin Hy]. apply list_elem_of_In, filter_In in Hin as [_ Hn]. by rewrite Hy in Hn.
  - rewrite Ht. apply existsb_exists in Hlive as (y & Hy & Hr). apply existsb_exists. exists y. split; [|done].
    apply in_or_app. right. by apply filter_In.
Qed.
End deletion.

(** ** A start on a sound database *)

Lemma NoDup_app_cons_fresh {A} (x : A) l1 l2 : x ∉ l1 ++ l2 -> NoDup (l1 ++ l2) -> NoDup (l1 ++ x :: l2).
Proof. intros Hx Hn. rewrite <- Permutation_middle. by constructor. Qed.

Section healthy.
Context `{GormLaws, !GormUp, JsonText, OidcProvider, MkdirOs, RemoveOs}.

Lemma upsert_present role model quant file hash vram descr s x :
  List.find (by_role role) (live (db_Roles s)) = Some x -> exists t,
  UpsertRoleModel role model quant file hash vram descr s = (lset Roles t s, Ret None) /\
  live t = update_rows (by_role role) (update_role model quant file hash vram descr) (live (db_Roles s)) /\
  trash t = trash (db_Roles s).
Proof.
  intros Hf. unfold UpsertRoleModel. rewrite (bind_Ret _ _ _ _ _ (First_up Roles _ _)). cbn [lget Roles]. rewrite Hf.
  apply find_in in Hf as [_ Hx]. unfold by_role in Hx. apply bool_decide_eq_true in Hx. rewrite Hx.
  by destruct (Updates_up Roles (by_role role) (update_role model quant file hash vram descr) s) as (t & E & ? & ?); exists t.
Qed.

Lemma upsert_absent role model quant file hash vram descr s :
  List.find (by_role role) (live (db_Roles s)) = None -> existsb (by_role role) (trash (db_Roles s)) = false -> exists t,
  UpsertRoleModel role model quant file hash vram descr s = (lset Roles t s, Ret None) /\
  live t = live (db_Roles s) ++ [role_defaults (new_role role model quant file hash vram descr)] /\
  trash t = trash (db_Roles s).
Proof.
  intros Hf Ht. unfold UpsertRoleModel. rewrite (bind_Ret _ _ _ _ _ (First_up Roles _ _)). cbn [lget Roles]. rewrite Hf.
  unfold Create. cbn [lget Roles]. destruct (db_create _ _ _) as [t [e|]] eqn:E.
  - exfalso. apply up_create in E. apply not_true_iff_false in E. apply E. apply forallb_forall. intros x Hx.
    apply negb_true_iff, not_true_iff_false. unfold same_role. cbn. intros Hs%bool_decide_eq_true.
    apply in_app_or in Hx as [Hx|Hx].
    + eapply find_none in Hf; [|exact Hx]. unfold by_role in Hf. by apply bool_decide_eq_false in Hf.
    + apply not_true_iff_false in Ht. apply Ht, existsb_exists. exists x. split; [done|]. unfold by_role. by apply bool_decide_eq_true.
  - destruct (Gorm.create_ok _ _ _ _ E) as (Hl & Htr & _). by exists t.
Qed.

(** The row a start writes for the tester role. *)
Definition tester_descr : string := "Connectivity testing — minimal model for any hardware".
Definition reset_tester (r : RoleModel) : RoleModel :=
  if by_role "tester" r then update_role smol "Q4_K_M" smol_file "" 512 tester_descr r else r.
Definition with_tester (rows : list RoleModel) : list RoleModel :=
  match List.find (by_role "tester") rows with
  | Some _ => reset_tester <$> rows
  | None => rows ++ [role_defaults (new_role "tester" smol "Q4_K_M" smol_file "" 512 tester_descr)]
  end.

Lemma tester_step s : unique_roles s -> existsb (by_role "tester") (trash (db_Roles s)) = false -> exists s',
  SeedTesterRole s = (s', Ret None) /\ live (db_Roles s') = with_tester (live (db_Roles s)) /\ unique_roles s'.
Proof.
  intros Hu Ht. unfold SeedTesterRole, with_tester.
  destruct (List.find (by_role "tester") (live (db_Roles s))) as [x|] eqn:Hf.
  - destruct (upsert_present "tester" smol "Q4_K_M" smol_file "" 512 tester_descr s x Hf) as (t & E & Hl & Htr).
    exists (lset Roles t s). split; [exact E|]. split; [exact Hl|]. unfold unique_roles, unique_index in *. cbn.
    rewrite Hl, Htr. by rewrite fmap_app, fmap_update, <- fmap_app.
  - destruct (upsert_absent "tester" smol "Q4_K_M" smol_file "" 512 tester_descr s Hf Ht) as (t & E & Hl & Htr).
    exists (lset Roles t s). split; [exact E|]. split; [exact Hl|]. unfold unique_roles, unique_index in *. cbn.
    rewrite Hl, Htr. rewrite <- app_assoc. cbn [app]. rewrite fmap_app. cbn [fmap list_fmap].
    apply NoDup_app_cons_fresh; [|by rewrite <- fmap_app].
    rewrite <- fmap_app. intros (y & Hy & Hin)%list_elem_of_fmap. cbn in Hy. apply elem_of_app in Hin as [Hin|Hin].
    + apply list_elem_of_In in Hin. eapply find_none in Hf; [|exact Hin]. unfold by_role in Hf. by apply bool_decide_eq_false in Hf.
    + apply not_true_iff_false in Ht. apply Ht, existsb_exists. exists y. split; [by apply list_elem_of_In|].
      unfold by_role. by apply bool_decide_eq_true.
Qed.

(** Seeding roles whose names are free. *)
Definition as_row (r : RoleModel) : RoleModel :=
  role_defaults (new_role r.(rm_Role) r.(rm_LLMModel) r.(rm_Quantisation) r.(rm_ModelFilename) r.(rm_ModelFileHash)
    r.(rm_MinVRAMMB) r.(rm_Description)).
Lemma as_row_role r : rm_Role (as_row r) = rm_Role r.
Proof. done. Qed.

Lemma seed_absent l s : NoDup (rm_Role <$> l) ->
  Forall (fun r => List.find (by_role (rm_Role r)) (live (db_Roles s)) = None) l -> trash (db_Roles s) = [] ->
  exists s', seed l s = (s', Ret None) /\ live (db_Roles s') = live (db_Roles s) ++ (as_row <$> l) /\ trash (db_Roles s') = [].
Proof.
  revert s. induction l as [|r l IH]; intros s Hnd Hf Ht; cbn [seed].
  - exists s. by rewrite app_nil_r.
  - cbn in Hnd. apply list.NoDup_cons in Hnd as [Hr Hnd]. apply list.Forall_cons in Hf as [Hfr Hfl].
    destruct (upsert_absent r.(rm_Role) r.(rm_LLMModel) r.(rm_Quantisation) r.(rm_ModelFilename) r.(rm_ModelFileHash)
      r.(rm_MinVRAMMB) r.(rm_Description) s Hfr) as (t & E & Hl & Htr); [by rewrite Ht|].
    rewrite (bind_Ret _ _ _ _ _ E). destruct (IH (lset Roles t s)) as (s' & E' & Hl' & Ht'); [done| |by cbn; rewrite Htr|].
    + rewrite list.Forall_forall in *. intros x Hx. cbn. rewrite Hl, find_app, (Hfl x Hx). cbn.
      assert (Hb : by_role (rm_Role x) (as_row r) = false).
      { unfold by_role. rewrite as_row_role. apply bool_decide_eq_false. intros Heq. apply Hr. apply list_elem_of_fmap. by exists x. }
      unfold as_row in Hb. by rewrite Hb.
    + exists s'. split; [exact E'|]. split; [|done]. rewrite Hl'. cbn. rewrite Hl, <- app_assoc. done.
Qed.

(** The rows a start begins with: the defaults of an empty database. *)
Definition configured (rows : list RoleModel) : list RoleModel :=
  match rows with [] => as_row <$> prodRoles | _ => rows end.

Lemma prod_unique : NoDup (rm_Role <$> prodRoles).
Proof. apply (bool_decide_unpack _). vm_compute. done. Qed.

Lemma seed_roles_up cfg s : cfg.(Development) = false -> cfg.(TestSetup) = false -> unique_roles s ->
  existsb (by_role "tester") (trash (db_Roles s)) = false -> (live (db_Roles s) = [] -> trash (db_Roles s) = []) ->
  exists s', seed_roles cfg s = (s', Ret None) /\
    live (db_Roles s') = filled <$> with_tester (configured (live (db_Roles s))).
Proof.
  intros Hd Ht Hu Htr Hempty.
  assert (Hfirst : exists s1, (roles ← GetRoleModels;
      match roles with
      | inl (_ :: _) => mret None
      | _ => err ← SeedProductionRoles; mret match err with Some _ => Some FatalSeedProduction | None => None end
      end) s = (s1, Ret None) /\ unique_roles s1 /\ existsb (by_role "tester") (trash (db_Roles s1)) = false /\
      live (db_Roles s1) = configured (live (db_Roles s))).
  { unfold GetRoleModels. destruct (up_find (fun _ => true) (Some rm_MinVRAMMB) None (db_Roles s)) as [l Hl].
    rewrite (bind_Ret _ _ s s (inl l)) by (unfold Find, gets; cbn; by rewrite Hl).
    destruct (find_ok _ _ _ _ _ Hl) as (l' & Hperm & _ & ->). cbn [limited].
    rewrite List.forallb_filter_id in Hperm by (by apply forallb_forall).
    destruct l' as [|x l'].
    - apply Permutation_nil_l in Hperm. symmetry in Hperm. specialize (Hempty Hperm).
      destruct (seed_absent prodRoles s prod_unique) as (s1 & E & Hl1 & Ht1); [|done|].
      { rewrite Hperm. by apply list.Forall_forall. }
      exists s1. rewrite (bind_Ret _ _ _ _ _ E). split; [done|]. rewrite Hperm in Hl1 |- *. cbn [app] in Hl1.
      split_and!; [|by rewrite Ht1|exact Hl1]. unfold unique_roles, unique_index. rewrite Hl1, Ht1, app_nil_r. exact prod_unique.
    - exists s. split; [done|]. split_and!; [done..|]. destruct (live (db_Roles s)); [by apply Permutation_nil_r in Hperm|done]. }
  destruct Hfirst as (s1 & E1 & Hu1 & Ht1 & Hl1). unfold seed_roles. rewrite Hd, Ht. cbn [orb].
  rewrite (bind_Ret _ _ _ _ _ E1). destruct (tester_step s1 Hu1 Ht1) as (s2 & E2 & Hl2 & Hu2).
  rewrite (bind_Ret _ _ _ _ _ E2). destruct (FillMissingDownloadURLs_fills s2 Hu2) as (s3 & E3 & Hl3).
  rewrite (bind_Ret _ _ _ _ _ E3). exists s3. split; [done|]. by rewrite Hl3, Hl2, Hl1.
Qed.

(** *** The services *)

Lemma keeps_upsert_single {R X} (tbl : lens Store (Tbl R)) (f : Store -> X) new upd :
  (forall t s, f (lset tbl t s) = f s) -> keeps (unchanged f) (upsert_single tbl new upd).
Proof. intros Hf. unfold upsert_single, first_row. keeps_tac; [by apply unchanged_Updates|by apply unchanged_Create]. Qed.
Lemma returns_upsert_single {R} (tbl : lens Store (Tbl R)) new upd : returns (upsert_single tbl new upd).
Proof. unfold upsert_single, first_row. returns_tac. Qed.

Section services.
Context {X : Type} (f : Store -> X).
Hypothesis Hclient : forall t s, f (lset ClientVersions t s) = f s.
Hypothesis Hbackend : forall t s, f (lset BackendVersions t s) = f s.

Lemma keeps_dev now get cfg : keeps (unchanged f) (dev_defaults now get cfg).
Proof.
  unfold dev_defaults, GetBackendVersionConfig, GetClientVersionConfig, SetBackendVersionConfig, SetClientVersionConfig. cbv zeta.
  keeps_tac; by apply keeps_upsert_single.
Qed.
Lemma keeps_auto now get : keeps (unchanged (db_part f)) (auto_backend now get).
Proof.
  unfold auto_backend, PrewarmCache, GetBackendVersionConfig, First. keeps_tac;
    first [by apply keeps_files | apply keeps_on_db; first [by apply keeps_upsert_single | keeps_tac]].
Qed.
End services.

Lemma returns_dev now get cfg : returns (dev_defaults now get cfg).
Proof.
  unfold dev_defaults, GetBackendVersionConfig, GetClientVersionConfig, SetBackendVersionConfig, SetClientVersionConfig. cbv zeta.
  returns_tac; apply returns_upsert_single.
Qed.
Lemma returns_auto now get : returns (auto_backend now get).
Proof.
  unfold auto_backend, PrewarmCache, GetBackendVersionConfig, SetBackendVersionConfig. cbv zeta.
  returns_tac; apply returns_booting_db; first [apply returns_upsert_single | returns_tac].
Qed.

(** The services read the stored key, the stored OIDC configuration and the
    worker authentication, change none of them nor the roles, and fail for
    the model store and the OIDC provider only. *)
Definition read_by_services (s : Store) : Tbl RoleModel * Tbl SystemSetting * Tbl OidcConfig * Tbl WorkerAuthConfig :=
  (db_Roles s, db_Settings s, db_Oidc s, db_WorkerAuth s).

Definition services_of (cfg : Config) (s : Store) (x : Running + fatal) : Prop :=
  match x with
  | inr f => f = FatalModelStore \/ f = FatalAuth
  | inl rn => rn.(rn_publicKey) = cfg.(APIKey) /\ result (admin_key cfg) s = Ret rn.(rn_adminKey) /\
              result startup_worker_key s = Ret rn.(rn_workerKey) /\
              exists ac, result (auth_config cfg) s = Ret ac /\ NewAuth ac = Some rn.(rn_auth)
  end.

Lemma reads_same {A} (m : GoM Store A) (f : Store -> A) s s' :
  (forall s, m s = (s, Ret (f s))) -> f s = f s' -> result m s = result m s'.
Proof. intros Hm Hf. unfold result. by rewrite !Hm, <- Hf. Qed.

Lemma services_outcome now get s3_ok cfg b :
  wp (boot_services now get s3_ok cfg) (fun b' r => read_by_services b'.(bt_store) = read_by_services b.(bt_store) /\
    exists x, r = Ret x /\ services_of cfg b.(bt_store) x) b.
Proof.
  unfold boot_services. set (R := unchanged (db_part read_by_services)).
  apply wp_bind. apply (wp_returns R).
  { destruct (Development cfg); [apply returns_booting_db, returns_dev|apply returns_ret]. }
  { destruct (Development cfg); [by apply keeps_on_db, keeps_dev|apply keeps_ret, _]. }
  intros b1 [] Hb1. apply wp_bind, wp_on_db.
  assert (Hread : forall (b2 : Booting) {A} (m : GoM Store A), read_by_services b2.(bt_store) = read_by_services b.(bt_store) ->
    (exists g : Tbl SystemSetting * Tbl OidcConfig * Tbl WorkerAuthConfig -> A,
       forall s, m s = (s, Ret (g (db_Settings s, db_Oidc s, db_WorkerAuth s)))) ->
    exists a, m b2.(bt_store) = (b2.(bt_store), Ret a) /\ result m b.(bt_store) = Ret a).
  { intros b2 A m Hb [g Hg]. exists (g (db_Settings b.(bt_store), db_Oidc b.(bt_store), db_WorkerAuth b.(bt_store))).
    unfold result. rewrite !Hg. unfold read_by_services in Hb. by injection Hb as _ -> -> ->. }
  destruct (Hread b1 _ startup_worker_key Hb1) as (wk & Ewk & Hwk).
  { exists (fun q => match List.find (fun _ => true) (live q.2) with
      | Some c => if negb c.(wa_TOFUEnabled) && (c.(wa_WorkerKey) != "") then c.(wa_WorkerKey) else ""
      | None => "" end).
    intros s. unfold startup_worker_key, GetWorkerAuthConfig. rewrite (bind_Ret _ _ _ _ _ (get_single_first WorkerAuth s)).
    cbn [snd lget WorkerAuth]. by destruct (List.find _ _). }
  apply (wp_eq _ _ _ _ _ Ewk). cbv zeta.
  destruct (negb _); [apply wp_ret; split; [done|]; eexists; split; [done|by left]|].
  destruct b1 as [s1 fs1 pw1]. cbn [bt_store bt_files bt_prewarms] in *.
  apply wp_bind. apply (wp_returns R).
  { destruct (negb _); [apply returns_auto|apply returns_ret]. }
  { destruct (negb _); [by apply keeps_auto|apply keeps_ret, _]. }
  intros b2 [] Hb2. assert (Hb : read_by_services (bt_store b2) = read_by_services (bt_store b)).
  { unfold R, unchanged, db_part in *. cbn in *. congruence. }
  apply wp_bind, wp_on_db. destruct (Hread b2 _ (admin_key cfg) Hb) as (ak & Eak & Hak).
  { exists (fun q => match List.find (by_key settingAPIKey) (live q.1.1) with
      | Some x => if x.(ss_Value) != "" then x.(ss_Value) else cfg.(APIKey)
      | None => cfg.(APIKey) end).
    intros s. unfold admin_key, GetSetting. unfold mbind, GoM_bind. rewrite First_up. cbn [fst lget Settings]. by destruct (List.find _ _). }
  apply (wp_eq _ _ _ _ _ Eak). apply wp_bind, wp_on_db. cbn [bt_store bt_files bt_prewarms].
  destruct (Hread b2 _ (auth_config cfg) Hb) as (ac & Eac & Hac).
  { exists (fun q => override_oidc cfg (List.find (fun _ => true) (live q.1.2))).
    intros s. unfold auth_config, GetOIDCConfig. by rewrite (bind_Ret _ _ _ _ _ (get_single_first Oidc s)). }
  apply (wp_eq _ _ _ _ _ Eac). apply wp_ret. cbn [bt_store]. split; [done|].
  destruct (NewAuth ac) as [au|] eqn:Ea; eexists; (split; [done|]); [|by right].
  cbn. split_and!; [done..|by exists ac].
Qed.

(** *** What the start reads, before and after the purge and the seeding *)

Definition startup_view (s : Store) : option SystemSetting * Tbl OidcConfig * Tbl WorkerAuthConfig :=
  (List.find (by_key settingAPIKey) (live (db_Settings s)), db_Oidc s, db_WorkerAuth s).

Lemma view_SetSetting key v : key <> settingAPIKey -> keeps (unchanged startup_view) (SetSetting key v).
Proof.
  intros Hk s. set (row := {| ss_Key := key; ss_Value := v |}). unfold unchanged, startup_view, SetSetting.
  assert (Hrow : by_key settingAPIKey row = false) by (unfold by_key; by apply bool_decide_eq_false).
  destruct (UpdatesN_up Settings (by_key key) (fun _ => row) s) as (t & E & Hl & _). unfold run. rewrite (bind_Ret _ _ _ _ _ E).
  assert (Hf : List.find (by_key settingAPIKey) (live t) = List.find (by_key settingAPIKey) (live (db_Settings s))).
  { rewrite Hl. cbn [lget Settings]. induction (live (db_Settings s)) as [|x l IH]; [done|]. unfold update_rows in *. cbn.
    destruct (by_key key x) eqn:Hx; [|by rewrite IH]. rewrite Hrow, IH.
    unfold by_key in Hx. apply bool_decide_eq_true in Hx. unfold by_key at 2. by rewrite Hx, bool_decide_eq_false_2. }
  destruct (length _); [|cbn; by rewrite Hf].
  unfold Create. change (lget Settings (lset Settings t s)) with t. fold row. destruct (db_create same_key row t) as [t' [e|]] eqn:Ec; cbn.
  - destruct (Gorm.create_err _ _ _ _ _ Ec) as [-> _]. cbn. by rewrite Hf.
  - destruct (Gorm.create_ok _ _ _ _ Ec) as [-> _]. cbn. rewrite find_app, Hf.
    assert (Hnone : List.find (by_key settingAPIKey) [row] = None) by (cbn [List.find]; by rewrite Hrow).
    rewrite Hnone. by destruct (List.find _ (live (db_Settings s))).
Qed.

Lemma view_purge version dir : keeps (unchanged (db_part startup_view)) (checkAndPurgeStaleCache version dir).
Proof.
  unfold checkAndPurgeStaleCache. keeps_tac.
  - apply keeps_on_db, unchanged_GetSetting.
  - by apply keeps_files.
  - by apply keeps_on_db, view_SetSetting.
Qed.

Lemma view_upsert role model quant file hash vram descr : keeps (unchanged startup_view) (UpsertRoleModel role model quant file hash vram descr).
Proof. unfold UpsertRoleModel. keeps_tac. Qed.
Lemma view_seed l : keeps (unchanged startup_view) (seed l).
Proof. induction l as [|r l IH]; cbn [seed]; keeps_tac. apply view_upsert. Qed.
Lemma view_seed_roles cfg : keeps (unchanged startup_view) (seed_roles cfg).
Proof.
  unfold seed_roles, SeedTestRoles, SeedProductionRoles, SeedTesterRole, FillMissingDownloadURLs, GetRoleModels, fill_role, SetRoleDownloadURL.
  keeps_tac; first [apply view_seed | apply view_upsert | by apply unchanged_Updates].
Qed.

Lemma wp_any {S A} (m : GoM S A) (Q : S -> res A -> Prop) s : returns m -> (forall s' a, Q s' (Ret a)) -> wp m Q s.
Proof. intros Hm HQ. unfold wp. destruct (Hm s) as [a ->]. apply HQ. Qed.

Lemma returns_upsert role model quant file hash vram descr : returns (UpsertRoleModel role model quant file hash vram descr).
Proof. unfold UpsertRoleModel. returns_tac. Qed.
Lemma returns_seed l : returns (seed l).
Proof. induction l as [|r l IH]; cbn [seed]; returns_tac. apply returns_upsert. Qed.

Definition seed_failure (f : option fatal) : Prop :=
  f = None \/ f = Some FatalSeedTest \/ f = Some FatalSeedProduction \/ f = Some FatalSeedTester.
Lemma seed_roles_outcome cfg s : wp (seed_roles cfg) (fun _ r => exists f, r = Ret f /\ seed_failure f) s.
Proof.
  unfold seed_roles. apply wp_bind. apply (wp_mono _ (fun _ r => exists f, r = Ret f /\ seed_failure f)).
  - destruct (_ || _).
    + apply wp_bind, wp_any; [apply returns_seed|]. intros s1 [e|]; apply wp_ret; eexists; (split; [done|unfold seed_failure; auto]).
    + apply wp_bind, wp_any; [apply returns_Find|]. intros s1 [[|x l]|e].
      2: { apply wp_ret. eexists. split; [done|unfold seed_failure; auto]. }
      all: apply wp_bind, wp_any; [apply returns_seed|]; intros s2 [e'|]; apply wp_ret; eexists; (split; [done|unfold seed_failure; auto]).
  - intros s1 r (f & -> & Hf). destruct f as [f|]; [apply wp_ret; by eexists|].
    apply wp_bind, wp_any; [apply returns_upsert|]. intros s2 [e|]; [apply wp_ret; eexists; split; [done|unfold seed_failure; auto]|].
    apply wp_bind, wp_any.
    { unfold FillMissingDownloadURLs, GetRoleModels, fill_role, SetRoleDownloadURL. returns_tac. }
    intros s3 []. apply wp_ret. eexists. split; [done|unfold seed_failure; auto].
Qed.

Lemma services_of_view cfg s s' x : startup_view s = startup_view s' -> services_of cfg s x -> services_of cfg s' x.
Proof.
  intros Hv. unfold services_of. destruct x as [rn|f]; [|done]. unfold startup_view in Hv. injection Hv as Hk Ho Hw.
  intros (Hp & Ha & Hwk & ac & Hac & Hn). split; [done|]. split_and!.
  - rewrite <- Ha. unfold admin_key, GetSetting, result, mbind, GoM_bind. rewrite !First_up. cbn [lget Settings]. by rewrite Hk.
  - rewrite <- Hwk. unfold startup_worker_key, GetWorkerAuthConfig, result, mbind, GoM_bind.
    rewrite (get_single_first WorkerAuth s), (get_single_first WorkerAuth s'). cbn [lget WorkerAuth]. by rewrite Hw.
  - exists ac. split; [|done]. rewrite <- Hac. unfold auth_config, GetOIDCConfig, result, mbind, GoM_bind.
    rewrite (get_single_first Oidc s), (get_single_first Oidc s'). cbn [lget Oidc]. by rewrite Ho.
Qed.

(** A start runs to its end, and the services get what the database had. *)
Lemma boot_outcome now version get s3_ok cfg b :
  wp (boot now version get s3_ok cfg) (fun b' r => exists x, r = Ret x /\
    match x with
    | inr (FatalSeedTest | FatalSeedProduction | FatalSeedTester) => True
    | x => services_of cfg b.(bt_store) x
    end) b.
Proof.
  unfold boot. apply wp_bind. apply (wp_returns (unchanged (db_part startup_view))); [apply returns_purge|apply view_purge|].
  intros b1 [] Hb1. unfold unchanged, db_part in Hb1. apply wp_bind, wp_on_db.
  apply (wp_mono _ (fun s r => startup_view s = startup_view b1.(bt_store) /\ exists f, r = Ret f /\ seed_failure f)).
  - split; [apply view_seed_roles|apply seed_roles_outcome].
  - intros s2 r (Hs2 & f & -> & Hf). destruct f as [f|].
    + apply wp_ret. exists (inr f). split; [done|]. by destruct Hf as [|[[= ->]|[[= ->]|[= ->]]]].
    + eapply wp_mono; [apply services_outcome|]. cbn [bt_store]. intros b3 r (_ & x & -> & Hx). exists x. split; [done|].
      assert (services_of cfg (bt_store b) x) by (eapply services_of_view; [|exact Hx]; congruence).
      by destruct x as [|[]].
Qed.
End healthy.

Section healthy_starts.
Context `{GormLaws, !GormUp, JsonText, OidcProvider, MkdirOs, RemoveOs}.

(** C15. A start in production mode on a database that is up, whose tester role
    was not deleted, gets past the seeding and leaves the roles configured: an
    empty database gets the four default roles; the rows of every other role
    keep all their columns, except that a missing download URL of a known model
    file is filled in; the tester row is reset to the built-in model without a
    hash, whatever was configured for it, and added if it is missing. Only the
    model store and the OIDC provider can still end the start. *)
Theorem start_configures_the_roles now version get s3_ok cfg b :
  cfg.(Development) = false -> cfg.(TestSetup) = false -> unique_roles b.(bt_store) ->
  existsb (by_role "tester") (trash (db_Roles b.(bt_store))) = false ->
  (live (db_Roles b.(bt_store)) = [] -> trash (db_Roles b.(bt_store)) = []) ->
  exists b' x, boot now version get s3_ok cfg b = (b', Ret x) /\
    (forall f, x = inr f -> f = FatalModelStore \/ f = FatalAuth) /\
    live (db_Roles b'.(bt_store)) = filled <$> with_tester (configured (live (db_Roles b.(bt_store)))).
Proof.
  intros Hd Ht Hu Htr Hempty.
  assert (Hw : wp (boot now version get s3_ok cfg) (fun b' r => exists x, r = Ret x /\
    (forall f, x = inr f -> f = FatalModelStore \/ f = FatalAuth) /\
    live (db_Roles b'.(bt_store)) = filled <$> with_tester (configured (live (db_Roles b.(bt_store))))) b).
  { unfold boot. apply wp_bind. apply (wp_returns (unchanged (db_part db_Roles))); [apply returns_purge|by apply keeps_purge|].
    intros b1 [] Hb1. unfold unchanged, db_part in Hb1. apply wp_bind, wp_on_db.
    assert (Hu1 : unique_roles (bt_store b1)) by (unfold unique_roles in *; by rewrite Hb1).
    destruct (seed_roles_up cfg (bt_store b1) Hd Ht Hu1) as (s2 & E & Hl); [by rewrite Hb1..|].
    apply (wp_eq _ _ _ _ _ E). eapply wp_mono; [apply services_outcome|]. cbn [bt_store].
    intros b3 r (Hsame & x & -> & Hx). exists x. split; [done|]. unfold read_by_services in Hsame. injection Hsame as Hroles _ _ _.
    split; [|by rewrite Hroles, Hl, Hb1]. intros f ->. exact Hx. }
  unfold wp, run, result in Hw. destruct (boot _ _ _ _ _ b) as [b' r]. cbn in Hw. destruct Hw as (x & -> & ?). by exists b', x.
Qed.
End healthy_starts.

Section keys.
Context `{GormLaws, !GormUp, WebSocket, Crypto} `{JsonText, TimeText, OidcProvider, MkdirOs, RemoveOs} {FS : Type} `{!ModelStore FS}.

(** An API key set on the dashboard reaches the admin server only. After the
    change was answered, every later start that comes to serve guards the admin
    API with the new key - and the completions, batch, cluster and roles APIs
    with the key of the environment: a request with the new key is refused there
    unless the two are the same. *)
Theorem new_api_key_reaches_the_admin_server_only r (a a' : Admin FS) s :
  r.(r_Method) = "POST" -> a.(ad_gateway).(g_store) = Some s ->
  AdminAPIKeyHandler r a = (a', Ret {| status := 204; body := NoBody |}) ->
  exists raw s', decode_body decode_apikey_body r = Some raw /\ a'.(ad_gateway).(g_store) = Some s' /\
    forall now version get s3_ok cfg files prewarms b' rn,
      boot now version get s3_ok cfg (Build_Booting _ s' files prewarms) = (b', Ret (inl rn)) ->
      rn.(rn_adminKey) = TrimSpace raw /\ rn.(rn_publicKey) = cfg.(APIKey) /\
      forall req, req.(r_Header) "X-API-Key" = TrimSpace raw -> req.(r_Header) "Authorization" = "Bearer " +:+ TrimSpace raw ->
        authenticate_api rn.(rn_publicKey) req = (TrimSpace raw == cfg.(APIKey)).
Proof.
  intros Hm Es. unfold AdminAPIKeyHandler. rewrite Hm, bool_decide_eq_false_2, bool_decide_eq_true_2 by done.
  destruct (decode_body decode_apikey_body r) as [raw|]; [|by intros [=]]. cbv zeta. case_bool_decide as Hk; [by intros [=]|].
  destruct (on_admin_db_returns _ a s (returns_SetSetting settingAPIKey (TrimSpace raw)) Es) as (s' & e & E & Edb).
  rewrite (bind_Ret _ _ _ _ _ Edb). destruct e as [e|]; [by intros [=]|]. intros [= <-]. exists raw, s'.
  split; [done|]. split; [done|]. intros now version get s3_ok cfg files prewarms b' rn Eb.
  pose proof (boot_outcome now version get s3_ok cfg (Build_Booting _ s' files prewarms)) as Hw.
  unfold wp, run, result in Hw. rewrite Eb in Hw. cbn in Hw. destruct Hw as (x & [= <-] & Hp & Ha & _).
  assert (Hkey : rn_adminKey rn = TrimSpace raw).
  { apply SetSetting_reads in E. unfold admin_key, result in Ha. rewrite (bind_Ret _ _ _ _ _ E) in Ha.
    cbn in Ha. rewrite bool_decide_eq_false_2 in Ha by done. by injection Ha. }
  split; [done|]. split; [done|]. intros req Hx Hauth. unfold authenticate_api. rewrite Hp, Hx, Hauth.
  unfold TrimPrefix. rewrite (proj2 (HasPrefix_spec _ _)) by (by eexists). rewrite drop_str_app. by rewrite orb_diag.
Qed.
End keys.

(** ** The cached client binaries after an upgrade *)

Lemma elements_some dir base : dir <> "" -> plain base -> elements (dir +:+ "/" +:+ base) <> [].
Proof. intros Hd Hb. rewrite elements_Join by done. by destruct (elements dir). Qed.

Lemma Clean_prefix x base : elements x <> [] -> x <> "" -> plain base ->
  Clean (x +:+ "/" +:+ base) = Clean x +:+ "/" +:+ base.
Proof.
  intros Hx Hne Hb. pose proof (path_Join_plain x base Hne Hb) as Hj. unfold path_Join in Hj.
  rewrite bool_decide_eq_false_2 in Hj by done. rewrite Hj. unfold dir_prefix, Clean.
  destruct (elements x) as [|e l]; [done|]. by rewrite !append_assoc_str.
Qed.

Lemma app_ne a b : a <> "" -> a +:+ b <> "".
Proof. by destruct a. Qed.

Lemma cached_path_in_tree d version filename : d.(da_cacheDir) <> "" -> plain version -> plain filename ->
  in_tree (path_Join d.(da_cacheDir) "client-binaries") (cached_path d version filename) = true.
Proof.
  intros Hd Hv Hf. assert (Hcb : plain "client-binaries").
  { repeat split; try done. apply (bool_decide_unpack _). vm_compute. done. }
  unfold cached_path, Join_all, path_Join. rewrite bool_decide_eq_false_2 by done. pose proof Hv as (Hv1 & _). pose proof Hf as (Hf1 & _).
  cbn [List.filter]. rewrite !bool_decide_eq_false_2 by done. cbn [negb String.concat].
  set (x := da_cacheDir d +:+ "/" +:+ "client-binaries").
  assert (Hpath : da_cacheDir d +:+ "/" +:+ "client-binaries" +:+ "/" +:+ version +:+ "/" +:+ filename =
    (x +:+ "/" +:+ version) +:+ "/" +:+ filename) by (unfold x; by rewrite !append_assoc_str).
  rewrite Hpath. assert (Hx : elements x <> []) by (by apply elements_some).
  assert (Hxne : x <> "") by (by apply app_ne).
  rewrite Clean_prefix; [|by apply elements_some|by apply app_ne|done]. rewrite Clean_prefix by done.
  unfold in_tree. apply orb_true_iff. right. apply HasPrefix_spec. exists (version +:+ "/" +:+ filename).
  by rewrite !append_assoc_str.
Qed.

(** The version a start finds in the database; a failed read is no version. *)
Definition recorded_version `{Gorm} (s : Store) : string :=
  match db_first (by_key "manager_version") (db_Settings s) with inl x => x.(ss_Value) | inr _ => "" end.

Lemma purge_run `{GormLaws} `{RemoveOs} version cacheDir b :
  run (checkAndPurgeStaleCache version cacheDir) b =
  if recorded_version b.(bt_store) == version then b
  else Build_Booting _ (run (SetSetting "manager_version" version) b.(bt_store))
         (remove_tree (path_Join cacheDir "client-binaries") b.(bt_files)) b.(bt_prewarms).
Proof.
  unfold checkAndPurgeStaleCache, run at 1.
  assert (E : on_db (GetSetting "manager_version") b =
    (b, Ret match db_first (by_key "manager_version") (db_Settings b.(bt_store)) with inl x => inl x.(ss_Value) | inr e => inr e end)).
  { rewrite on_db_runs. unfold GetSetting, run, result, mbind, GoM_bind, First, gets. cbn. by destruct b. }
  rewrite (bind_Ret _ _ _ _ _ E). unfold recorded_version. cbv zeta.
  assert (Hd : forall v, (if v == version then skip else RemoveAll (path_Join cacheDir "client-binaries") ;;
      on_db (SetSetting "manager_version" version) ;; skip) b =
    (if v == version then b else Build_Booting _ (run (SetSetting "manager_version" version) b.(bt_store))
         (remove_tree (path_Join cacheDir "client-binaries") b.(bt_files)) b.(bt_prewarms), Ret tt)).
  { intros v. destruct (v == version); [done|]. erewrite bind_Ret by reflexivity.
    destruct (returns_booting_db (SetSetting "manager_version" version) (returns_SetSetting _ _)
      (Build_Booting _ b.(bt_store) (remove_tree (path_Join cacheDir "client-binaries") b.(bt_files)) b.(bt_prewarms))) as [x Hx].
    unfold result in Hx. rewrite on_db_runs in Hx. cbn in Hx. erewrite bind_Ret; [|rewrite on_db_runs; cbn; by rewrite Hx]. done. }
  destruct (db_first _ _) as [x|e]; by rewrite Hd.
Qed.

(** After an upgrade no client binary of the previous version is served.
    When the database does not name the version that starts and the binary cache
    can be removed, then whatever the cache held, a client binary that is not
    installed locally is answered only with what the release URL gives now; the
    files outside the binary cache stay, and a start of the version the database
    names removes nothing. *)
Theorem upgrade_serves_fresh_binaries `{GormLaws, Crypto} `{FileOs, RemoveOs} version cacheDir b :
  cacheDir <> "" ->
  (forall p, in_tree (path_Join cacheDir "client-binaries") p = true -> stuck p = false) ->
  let b' := run (checkAndPurgeStaleCache version cacheDir) b in
  (recorded_version b.(bt_store) = version -> b' = b) /\
  (forall p, in_tree (path_Join cacheDir "client-binaries") p = false -> b'.(bt_files) !! p = b.(bt_files) !! p) /\
  (recorded_version b.(bt_store) <> version ->
   forall (d : DownloadAPI) get fetched write_ok filename os arch target data,
     d.(da_cacheDir) = cacheDir -> d.(da_files) = b'.(bt_files) ->
     plain filename -> plain target -> d.(da_files) !! path_Join d.(da_binaryDir) filename = None ->
     result (loadBinary get fetched write_ok filename os arch target) d = Ret (Some data) ->
     get (buildDownloadURL target os arch "client") = Some (200%Z, data, true)).
Proof.
  intros Hdir Hstuck b'. subst b'. rewrite purge_run. split_and!.
  - intros ->. by rewrite bool_decide_eq_true_2.
  - intros p Hp. destruct (_ == _); [done|]. cbn [bt_files]. unfold remove_tree. rewrite map_lookup_filter.
    destruct (bt_files b !! p) as [c|] eqn:E; [|done]. cbn. by rewrite option_guard_True by (cbn; by rewrite Hp).
  - intros Hv d get fetched write_ok filename os arch target data Hcd Hfiles Hf Ht Hlocal Hr.
    rewrite bool_decide_eq_false_2 in Hfiles by done. cbn [bt_files] in Hfiles.
    assert (Hmiss : d.(da_files) !! cached_path d target filename = None).
    { rewrite Hfiles. apply map_lookup_filter_None. right. intros c _ Hkeep. cbn in Hkeep.
      pose proof (cached_path_in_tree d target filename ltac:(by rewrite Hcd) Ht Hf) as Hin. rewrite Hcd in Hin.
      rewrite (Hstuck _ Hin) in Hkeep. by specialize (Hkeep Hin). }
    pose proof Ht as (Htne & _). revert Hr. unfold loadBinary, result.
    rewrite (bind_Ret _ _ d d _ eq_refl).
    assert (E1 : read_at (path_Join d.(da_binaryDir) filename) d = (d, Ret None)) by (unfold read_at, gets; by rewrite Hlocal).
    rewrite (bind_Ret _ _ _ _ _ E1).
    assert (E2 : target_version target fetched d = (d, Ret target)).
    { unfold target_version. rewrite (bind_Ret _ _ d d _ eq_refl). cbv zeta. by rewrite !(bool_decide_eq_false_2 (target = "")) by done. }
    rewrite (bind_Ret _ _ _ _ _ E2). rewrite (bool_decide_eq_false_2 (target = "")) by done. cbv zeta.
    assert (E3 : read_at (cached_path d target filename) d = (d, Ret None)) by (unfold read_at, gets; by rewrite Hmiss).
    rewrite (bind_Ret _ _ _ _ _ E3).
    destruct (get (buildDownloadURL target os arch "client")) as [[[code body] complete]|]; [|done].
    destruct (bool_decide (code <> 200)%Z) eqn:Hc; [done|]. apply bool_decide_eq_false, dec_stable in Hc as ->. cbn [orb].
    destruct complete; [|done]. cbn [negb]. destruct write_ok; cbn; by intros [= ->].
Qed.

(** The other half of the purge is not retried: a stale binary that could not be
    removed stays for good, since the version is recorded all the same. Every
    later start of the version finds it recorded and removes nothing, also when
    nothing stands in the way any more. *)
Theorem failed_purge_is_not_retried `{GormLaws, !GormUp} (first later : RemoveOs) version cacheDir b p c s' :
  recorded_version b.(bt_store) <> version -> b.(bt_files) !! p = Some c ->
  in_tree (path_Join cacheDir "client-binaries") p = true -> stuck (RemoveOs := first) p = true ->
  SetSetting "manager_version" version b.(bt_store) = (s', Ret None) ->
  let b1 := run (checkAndPurgeStaleCache (H3 := first) version cacheDir) b in
  run (checkAndPurgeStaleCache (H3 := later) version cacheDir) b1 = b1 /\ b1.(bt_files) !! p = Some c.
Proof.
  intros Hv Hp Hin Hstuck Hset b1.
  assert (E : b1 = Build_Booting _ s' (remove_tree (H3 := first) (path_Join cacheDir "client-binaries") b.(bt_files)) b.(bt_prewarms)).
  { unfold b1. rewrite purge_run, bool_decide_eq_false_2 by done. unfold run at 1. by rewrite Hset. }
  rewrite E. split.
  - rewrite purge_run. cbn [bt_store]. apply SetSetting_reads in Hset. rewrite bool_decide_eq_true_2; [done|].
    unfold recorded_version. unfold GetSetting, First, gets, mbind, GoM_bind in Hset. cbn in Hset. injection Hset as Hs.
    destruct (db_first _ _); [by injection Hs|done].
  - cbn [bt_files]. unfold remove_tree. apply map_lookup_filter_Some. split; [done|]. intros _. exact Hstuck.
Qed.

Section witnesses.
#[local] Existing Instances MemGorm MemGormLaws MemGormUp ToyCrypto AllWrites ModelFiles.FilesOk ModelFiles.models_dir.
#[local] Instance start_bodies : JsonText := {| json_text _ := "{}"; json_parse := body_json; json_first := body_json |}.
#[local] Instance no_times : TimeText := {| rfc3339_format _ := ""; rfc3339_parse _ := None |}.
#[local] Instance provider : OidcProvider :=
  {| discovers _ := true; AuthCodeURL s := "https://sso/auth?state=" +:+ s; Exchange _ := None; VerifyIDToken _ _ := false |}.
#[local] Instance disk : MkdirOs := {| mkdir_ok _ := true |}.
#[local] Instance busy : RemoveOs := {| stuck p := p == "cache/client-binaries/v1/synergia-client-windows-amd64.exe" |}.

Definition offline (url : string) : http_result := None.
Definition booting_ex (s : Store) : Booting := Build_Booting _ s {[
  "cache/client-binaries/v1/synergia-client-linux-amd64" := "old";
  "cache/client-binaries/v1/synergia-client-windows-amd64.exe" := "running";
  "cache/backends/x.zip" := "backend" ]} [].
Definition start_ex : start :=
  {| st_now := 7; st_version := "v2"; st_get := offline; st_s3_ok := true; st_cfg := cfg_ex |}.

(** A database with a tester role configured by an administrator. *)
Definition tuned_ex : Store := lset Roles (mem_rows [
  role_defaults (new_role "tester" "my-model" "Q8_0" "mine.gguf" "abc" 4096 "mine");
  role_defaults (new_role "embedding" "bge-m3" "Q4_K_M" "bge-m3-Q4_K_M.gguf" "" 4096 "")]) empty_store.
Definition delete_tester : Request :=
  {| r_Method := "DELETE"; r_Path := "/v1/admin/roles"; r_Header _ := ""; r_Query k := if k == "role" then "tester" else ""; r_Body := None |}.

Lemma deleting_the_tester_role_ends_the_manager_witness :
  let a' := run (AdminRolesHandler (fun _ => []) any_order delete_tester) (admin_ex tuned_ex) in
  exists s', a'.(ad_gateway).(g_store) = Some s' /\
    Forall (fun outcome => exists f, outcome = Ret (inr f)) (starts [start_ex; start_ex] (Build_Booting _ s' ∅ [])).
Proof.
  set (a' := run _ _). assert (E : AdminRolesHandler (fun _ => []) any_order delete_tester (admin_ex tuned_ex) = (a', Ret admin_ok))
    by (vm_compute; reflexivity).
  destruct (deleting_the_tester_role_ends_the_manager (fun _ => []) any_order delete_tester (admin_ex tuned_ex) a' tuned_ex)
    as (s' & Hs & Hall); [reflexivity..|vm_compute; reflexivity|exact E|].
  exists s'. split; [exact Hs|]. apply Hall.
Defined.

Lemma start_configures_the_roles_witness : exists b' x,
  boot 7 "v2" offline true cfg_ex (booting_ex tuned_ex) = (b', Ret x) /\
  ((fun r => (r.(rm_Role), r.(rm_LLMModel), r.(rm_ModelFileHash))) <$> live (db_Roles b'.(bt_store))) =
    [("tester", smol, ""); ("embedding", "bge-m3", "")].
Proof.
  destruct (start_configures_the_roles 7 "v2" offline true cfg_ex (booting_ex tuned_ex)) as (b' & x & E & _ & Hl);
    [reflexivity|reflexivity| |vm_compute; reflexivity|discriminate|].
  - unfold unique_roles, unique_index. apply (bool_decide_unpack _). vm_compute. done.
  - exists b', x. split; [exact E|]. rewrite Hl. vm_compute. reflexivity.
Defined.

Lemma new_api_key_reaches_the_admin_server_only_witness :
  let a' := run (AdminAPIKeyHandler key_request) (admin_ex empty_store) in
  exists s' b' rn, a'.(ad_gateway).(g_store) = Some s' /\
    boot 7 "v2" offline true cfg_ex (Build_Booting _ s' ∅ []) = (b', Ret (inl rn)) /\
    rn.(rn_adminKey) = "new" /\ rn.(rn_publicKey) = "secret" /\
    authenticate_api rn.(rn_publicKey) {| r_Method := "POST"; r_Path := "/"; r_Query _ := ""; r_Body := None;
      r_Header k := if k == "X-API-Key" then "new" else "Bearer new" |} = false.
Proof.
  set (a' := run _ _). assert (E : AdminAPIKeyHandler key_request (admin_ex empty_store) =
    (a', Ret {| status := 204; body := NoBody |})) by (vm_compute; reflexivity).
  destruct (new_api_key_reaches_the_admin_server_only key_request (admin_ex empty_store) a' empty_store eq_refl eq_refl E)
    as (raw & s' & Hraw & Hs & Hall). vm_compute in Hraw. injection Hraw as <-.
  assert (Eb : exists b' rn, boot 7 "v2" offline true cfg_ex (Build_Booting _ s' ∅ []) = (b', Ret (inl rn))).
  { vm_compute in Hs. injection Hs as <-. eexists _, _. vm_compute. reflexivity. }
  destruct Eb as (b' & rn & Eb). exists s', b', rn. destruct (Hall _ _ _ _ _ _ _ _ _ Eb) as (Ha & Hp & Hreq).
  split; [exact Hs|]. split; [exact Eb|]. split; [exact Ha|]. split; [exact Hp|]. rewrite Hreq by reflexivity. reflexivity.
Defined.

Lemma upgrade_serves_fresh_binaries_witness :
  let b' := run (checkAndPurgeStaleCache (H3 := {| stuck _ := false |}) "v2" "cache") (booting_ex empty_store) in
  b'.(bt_files) !! "cache/backends/x.zip" = Some "backend" /\
  b'.(bt_files) !! "cache/client-binaries/v1/synergia-client-linux-amd64" = None /\
  forall fetched data, 
    result (loadBinary offline fetched true "synergia-client-linux-amd64" "linux" "amd64" "v1")
      {| da_binaryDir := "./binaries"; da_cacheDir := "cache"; da_files := b'.(bt_files); da_cache := NewCache |} = Ret (Some data) ->
    offline (buildDownloadURL "v1" "linux" "amd64" "client") = Some (200%Z, data, true).
Proof.
  destruct (upgrade_serves_fresh_binaries (H2 := ModelFiles.FilesOk) (H3 := {| stuck _ := false |}) "v2" "cache" (booting_ex empty_store))
    as (_ & Hout & Hin); [discriminate|reflexivity|].
  cbv zeta. split; [rewrite Hout by reflexivity; reflexivity|]. split; [vm_compute; reflexivity|].
  intros fetched data. apply Hin; [vm_compute; discriminate|reflexivity|reflexivity| | |vm_compute; reflexivity];
    repeat split; try discriminate; apply (bool_decide_unpack _); vm_compute; done.
Defined.

Lemma failed_purge_is_not_retried_witness :
  let b1 := run (checkAndPurgeStaleCache "v2" "cache") (booting_ex empty_store) in
  run (checkAndPurgeStaleCache (H3 := {| stuck _ := false |}) "v2" "cache") b1 = b1 /\
  b1.(bt_files) !! "cache/client-binaries/v1/synergia-client-windows-amd64.exe" = Some "running".
Proof.
  eapply (failed_purge_is_not_retried busy {| stuck _ := false |} "v2" "cache" (booting_ex empty_store));
    vm_compute; (reflexivity || discriminate).
Defined.
End witnesses.
