(* ===== verification/ClientServer.v ===== *)
(** * The worker's own dashboard (internal/client: server, consent, workerconfig, branding)

    The local HTTP server of the client, and the settings behind it on their
    way to the manager. One world holds what the handlers share: the snapshot
    of the worker's state, the consent, the configuration, the style sheet,
    the files, the log buffer, the subscribers of status events, and the
    manager as the client sees it, a state acted on by HTTP calls. What the
    operating system answers is the class [Platform]. *)

From S2P Require Import Autostart.
From S2P Require Import Prelude GoStd Json Protocol GpuMonitor BackendUrl ClientState Worker Gorm Models Workers Roles Files Disk Http WorkerApi Cluster.

(** ** HTTP from the client's side *)

Record Call := { k_Method : string; k_URL : string; k_Header : string -> string; k_Body : string }.
Record Answer := { an_status : Z; an_text : string }.
(** The request could not be made, it failed on the way, or it was answered. *)
Inductive exchanged := NotMade (err : string) | NotSent (err : string) | Answered (a : Answer).

Definition no_header : string -> string := fun _ => "".
Definition add_header (k v : string) (h : string -> string) : string -> string := fun k' => if k' == k then v else h k'.

(** ** What the client keeps *)

(** consent.go, [State] *)
Record ConsentState := { cs_Accepted : bool; cs_HardwareStats : bool; cs_ConfigPreferences : bool }.
Definition zero_ConsentState : ConsentState := Build_ConsentState false false false.
(** workerconfig/config.go, [Config] *)
Record ClientConfig := { cf_PreferredRole : string; cf_Nickname : string }.
Definition zero_ClientConfig : ClientConfig := Build_ClientConfig "" "".

Record Dashboard (N : Type) := {
  ds_status : Snapshot;
  ds_consent : ConsentState;
  ds_consentHw : HardwareInfo;        (* the consent manager's copy *)
  ds_config : ClientConfig;
  ds_css : string;
  ds_hwInfo : HardwareInfo;           (* the server's copy *)
  ds_files : Files;
  ds_logBuf : Buffer;
  ds_statusSubs : gmap nat (list json);
  ds_statusSubsID : nat;
  ds_level : string;
  ds_ran : list (list string);        (* the commands of the autostart manager *)
  ds_reporter : Reporter;
  ds_exited : bool;
  ds_net : N;
}.
Arguments ds_status {N} _.
Arguments ds_consent {N} _.
Arguments ds_consentHw {N} _.
Arguments ds_config {N} _.
Arguments ds_css {N} _.
Arguments ds_hwInfo {N} _.
Arguments ds_files {N} _.
Arguments ds_logBuf {N} _.
Arguments ds_statusSubs {N} _.
Arguments ds_statusSubsID {N} _.
Arguments ds_level {N} _.
Arguments ds_ran {N} _.
Arguments ds_reporter {N} _.
Arguments ds_exited {N} _.
Arguments ds_net {N} _.

Section setters.
Context {N : Type}.
Implicit Types d : Dashboard N.
Definition set_ds_consent v d : Dashboard N := Build_Dashboard N d.(ds_status) v d.(ds_consentHw) d.(ds_config) d.(ds_css) d.(ds_hwInfo) d.(ds_files) d.(ds_logBuf) d.(ds_statusSubs) d.(ds_statusSubsID) d.(ds_level) d.(ds_ran) d.(ds_reporter) d.(ds_exited) d.(ds_net).
Definition set_ds_consentHw v d : Dashboard N := Build_Dashboard N d.(ds_status) d.(ds_consent) v d.(ds_config) d.(ds_css) d.(ds_hwInfo) d.(ds_files) d.(ds_logBuf) d.(ds_statusSubs) d.(ds_statusSubsID) d.(ds_level) d.(ds_ran) d.(ds_reporter) d.(ds_exited) d.(ds_net).
Definition set_ds_config v d : Dashboard N := Build_Dashboard N d.(ds_status) d.(ds_consent) d.(ds_consentHw) v d.(ds_css) d.(ds_hwInfo) d.(ds_files) d.(ds_logBuf) d.(ds_statusSubs) d.(ds_statusSubsID) d.(ds_level) d.(ds_ran) d.(ds_reporter) d.(ds_exited) d.(ds_net).
Definition set_ds_css v d : Dashboard N := Build_Dashboard N d.(ds_status) d.(ds_consent) d.(ds_consentHw) d.(ds_config) v d.(ds_hwInfo) d.(ds_files) d.(ds_logBuf) d.(ds_statusSubs) d.(ds_statusSubsID) d.(ds_level) d.(ds_ran) d.(ds_reporter) d.(ds_exited) d.(ds_net).
Definition set_ds_files v d : Dashboard N := Build_Dashboard N d.(ds_status) d.(ds_consent) d.(ds_consentHw) d.(ds_config) d.(ds_css) d.(ds_hwInfo) v d.(ds_logBuf) d.(ds_statusSubs) d.(ds_statusSubsID) d.(ds_level) d.(ds_ran) d.(ds_reporter) d.(ds_exited) d.(ds_net).
Definition set_ds_subs v d : Dashboard N := Build_Dashboard N d.(ds_status) d.(ds_consent) d.(ds_consentHw) d.(ds_config) d.(ds_css) d.(ds_hwInfo) d.(ds_files) d.(ds_logBuf) v d.(ds_statusSubsID) d.(ds_level) d.(ds_ran) d.(ds_reporter) d.(ds_exited) d.(ds_net).
Definition set_ds_subsID v d : Dashboard N := Build_Dashboard N d.(ds_status) d.(ds_consent) d.(ds_consentHw) d.(ds_config) d.(ds_css) d.(ds_hwInfo) d.(ds_files) d.(ds_logBuf) d.(ds_statusSubs) v d.(ds_level) d.(ds_ran) d.(ds_reporter) d.(ds_exited) d.(ds_net).
Definition set_ds_level v d : Dashboard N := Build_Dashboard N d.(ds_status) d.(ds_consent) d.(ds_consentHw) d.(ds_config) d.(ds_css) d.(ds_hwInfo) d.(ds_files) d.(ds_logBuf) d.(ds_statusSubs) d.(ds_statusSubsID) v d.(ds_ran) d.(ds_reporter) d.(ds_exited) d.(ds_net).
Definition set_ds_ran v d : Dashboard N := Build_Dashboard N d.(ds_status) d.(ds_consent) d.(ds_consentHw) d.(ds_config) d.(ds_css) d.(ds_hwInfo) d.(ds_files) d.(ds_logBuf) d.(ds_statusSubs) d.(ds_statusSubsID) d.(ds_level) v d.(ds_reporter) d.(ds_exited) d.(ds_net).
Definition set_ds_reporter v d : Dashboard N := Build_Dashboard N d.(ds_status) d.(ds_consent) d.(ds_consentHw) d.(ds_config) d.(ds_css) d.(ds_hwInfo) d.(ds_files) d.(ds_logBuf) d.(ds_statusSubs) d.(ds_statusSubsID) d.(ds_level) d.(ds_ran) v d.(ds_exited) d.(ds_net).
Definition set_ds_exited v d : Dashboard N := Build_Dashboard N d.(ds_status) d.(ds_consent) d.(ds_consentHw) d.(ds_config) d.(ds_css) d.(ds_hwInfo) d.(ds_files) d.(ds_logBuf) d.(ds_statusSubs) d.(ds_statusSubsID) d.(ds_level) d.(ds_ran) d.(ds_reporter) v d.(ds_net).
Definition set_ds_net v d : Dashboard N := Build_Dashboard N d.(ds_status) d.(ds_consent) d.(ds_consentHw) d.(ds_config) d.(ds_css) d.(ds_hwInfo) d.(ds_files) d.(ds_logBuf) d.(ds_statusSubs) d.(ds_statusSubsID) d.(ds_level) d.(ds_ran) d.(ds_reporter) d.(ds_exited) v.
End setters.

(** ** JSON forms *)

Definition Marshal_ConsentState (c : ConsentState) : json :=
  JObj [("accepted", JBool c.(cs_Accepted)); ("hardware_stats", JBool c.(cs_HardwareStats));
        ("config_preferences", JBool c.(cs_ConfigPreferences))].
Definition fields_ConsentState : list (field ConsentState) := [
  bool_field "accepted" (fun v x => Build_ConsentState v x.(cs_HardwareStats) x.(cs_ConfigPreferences));
  bool_field "hardware_stats" (fun v x => Build_ConsentState x.(cs_Accepted) v x.(cs_ConfigPreferences));
  bool_field "config_preferences" (fun v x => Build_ConsentState x.(cs_Accepted) x.(cs_HardwareStats) v) ].
Definition decode_ConsentState : json -> option ConsentState := decode_struct zero_ConsentState fields_ConsentState.

Definition Marshal_ClientConfig (c : ClientConfig) : json :=
  JObj [("preferred_role", JStr c.(cf_PreferredRole)); ("nickname", JStr c.(cf_Nickname))].
Definition fields_ClientConfig : list (field ClientConfig) := [
  str_field "preferred_role" (fun v x => Build_ClientConfig v x.(cf_Nickname));
  str_field "nickname" (fun v x => Build_ClientConfig x.(cf_PreferredRole) v) ].
Definition decode_ClientConfig : json -> option ClientConfig := decode_struct zero_ClientConfig fields_ClientConfig.

(** [_ = json.Unmarshal(data, &v)], the error ignored: fields of the wrong kind
    are skipped, and text that is no JSON object changes nothing. *)
Definition Unmarshal_into {A} (fields : list (field A)) (cur : A) (m : frame) : A :=
  match m with
  | Some (JObj kvs) =>
      foldl (fun a kv => match List.find (fun f => fold_eq kv.1 f.1) fields with
                         | Some f => default a (f.2 kv.2 a)
                         | None => a
                         end) cur kvs
  | _ => cur
  end.

Definition zero_RoleInfo : RoleInfo := Build_RoleInfo "" "" "" 0 "" false.
Definition decode_RoleInfo : json -> option RoleInfo :=
  decode_struct zero_RoleInfo [
    str_field "role" (fun v x => Build_RoleInfo v x.(ri_Model) x.(ri_Quantisation) x.(ri_MinVRAMMB) x.(ri_Description) x.(ri_Eligible));
    str_field "model" (fun v x => Build_RoleInfo x.(ri_Role) v x.(ri_Quantisation) x.(ri_MinVRAMMB) x.(ri_Description) x.(ri_Eligible));
    str_field "quantisation" (fun v x => Build_RoleInfo x.(ri_Role) x.(ri_Model) v x.(ri_MinVRAMMB) x.(ri_Description) x.(ri_Eligible));
    int_field "min_vram_mb" (fun v x => Build_RoleInfo x.(ri_Role) x.(ri_Model) x.(ri_Quantisation) v x.(ri_Description) x.(ri_Eligible));
    str_field "description" (fun v x => Build_RoleInfo x.(ri_Role) x.(ri_Model) x.(ri_Quantisation) x.(ri_MinVRAMMB) v x.(ri_Eligible));
    bool_field "eligible" (fun v x => Build_RoleInfo x.(ri_Role) x.(ri_Model) x.(ri_Quantisation) x.(ri_MinVRAMMB) x.(ri_Description) v) ].
(** A slice of them; [null] is the nil slice, inside [Some None]. *)
Definition decode_RoleInfos (j : json) : option (option (list RoleInfo)) :=
  match j with
  | JNull => Some None
  | JArr l => l ← decode_slice decode_RoleInfo l; Some (Some l)
  | _ => None
  end.

(** The payloads are Go maps: they are encoded with their keys sorted. *)
Definition hardware_json (hw : HardwareInfo) : json :=
  JObj [("cpu", JStr hw.(hw_CPU)); ("cpu_cores", number hw.(hw_CPUCores)); ("gpu", JStr hw.(hw_GPU));
        ("gpu_driver", JStr hw.(hw_GPUDriver)); ("gpu_driver_version", JStr hw.(hw_GPUDriverVersion));
        ("os", JStr hw.(hw_OS)); ("os_version", JStr hw.(hw_OSVer)); ("ram_mb", number hw.(hw_RAMMB));
        ("vram_mb", number hw.(hw_VRAMMB))].
Definition with_driver (name version : string) (hw : HardwareInfo) : HardwareInfo :=
  Build_HardwareInfo hw.(hw_OS) hw.(hw_OSVer) hw.(hw_GPU) name version hw.(hw_VRAMMB) hw.(hw_CPU) hw.(hw_CPUCores) hw.(hw_RAMMB).
Definition consent_payload (fingerprint : string) (c : ConsentState) (hw : HardwareInfo) : json :=
  JObj [("accepted", JBool c.(cs_Accepted)); ("config_preferences", JBool c.(cs_ConfigPreferences));
        ("fingerprint", JStr fingerprint); ("hardware", hardware_json hw);
        ("hardware_stats", JBool c.(cs_HardwareStats))].
Definition config_payload (fingerprint : string) (c : ClientConfig) : json :=
  JObj [("fingerprint", JStr fingerprint); ("nickname", JStr c.(cf_Nickname));
        ("preferred_role", JStr c.(cf_PreferredRole))].
Definition goodbye_body (fingerprint payload sig : string) : json :=
  JObj [("fingerprint", JStr fingerprint); ("payload", JStr payload); ("signature", JStr sig)].

(** ** The platform, and the installation the server belongs to *)

Class Platform := {
  write_result : string -> string -> option string -> option string;  (* os.WriteFile: path, data, what was there *)
  platform_session :: Session;                 (* what registers the client with the session, and [unlink_ok]:
                                                  os.Remove and os.RemoveAll of a file *)
  platform_files :: FileOs;                    (* the files the registration is written with *)
  platform_disk :: DiskOs;
  indented : json -> string;                   (* json.MarshalIndent *)
  parse_level : string -> option string;       (* zerolog.ParseLevel and Level.String *)
}.

Record Install := {
  in_dataDir : string;
  in_managerURL : string;      (* the HTTP base URL *)
  in_workerKey : string;
  in_fingerprint : string;
  in_version : string;
  in_execPath : string;
  in_args : list string;       (* os.Args[1:], for the registration *)
  in_logFilePath : string;
  in_setup : bool;             (* no manager is configured: runUnconfigured *)
}.

Section client.
Context `{JsonText, TimeText, Crypto, Platform} {N : Type}.
Variable exchange : Call -> GoM N exchanged.
Variable ins : Install.

Definition on_net {A} (m : GoM N A) : GoM (Dashboard N) A := zoom ds_net set_ds_net m.
Definition dash (f : Dashboard N -> Dashboard N) : GoM (Dashboard N) unit := modify f.

Definition WriteFile (path data : string) : GoM (Dashboard N) unit :=
  dash (fun d => set_ds_files (partial_alter (write_result path data) path d.(ds_files)) d).
Definition Remove (path : string) : GoM (Dashboard N) unit :=
  dash (fun d => set_ds_files (if unlink_ok path then delete path d.(ds_files) else d.(ds_files)) d).
Definition under (dir path : string) : bool := (path == dir) || HasPrefix path (dir +:+ "/").
Definition RemoveAll (dir : string) : GoM (Dashboard N) unit :=
  dash (fun d => set_ds_files (filter (fun kv => under dir kv.1 && unlink_ok kv.1 = false) d.(ds_files)) d).

(** ** Consent (consent.go) *)

Definition consentPath : string := path_Join ins.(in_dataDir) "consent.json".
Definition configPath : string := path_Join ins.(in_dataDir) "config.json".

Definition save_consent : GoM (Dashboard N) unit :=
  state ← gets ds_consent; WriteFile consentPath (indented (Marshal_ConsentState state)).
Definition load_consent : GoM (Dashboard N) unit :=
  dash (fun d => match d.(ds_files) !! consentPath with
                 | None => d
                 | Some data => set_ds_consent (Unmarshal_into fields_ConsentState d.(ds_consent) (json_parse data)) d
                 end).
(** [consent.New], from a fresh process *)
Definition NewConsent (autoApprove : bool) : GoM (Dashboard N) unit :=
  dash (fun d => set_ds_consent zero_ConsentState (set_ds_consentHw d.(ds_hwInfo) d)) ;;
  load_consent ;;
  state ← gets ds_consent;
  when (autoApprove && negb state.(cs_Accepted))
    (dash (set_ds_consent (Build_ConsentState true true true)) ;; save_consent).
Definition IsAccepted : GoM (Dashboard N) bool := gets (fun d => d.(ds_consent).(cs_Accepted)).
Definition SetGPUDriverInfo (name version : string) : GoM (Dashboard N) unit :=
  dash (fun d => set_ds_consentHw (with_driver name version d.(ds_consentHw)) d).

Definition sync_headers : string -> string :=
  add_header "Content-Type" "application/json"
    (add_header "Authorization" ("Bearer " +:+ ins.(in_workerKey)) no_header).
(** What both syncs make of the answer; [None] is success. *)
Definition sync_error (what : string) (x : exchanged) : option string :=
  match x with
  | NotMade e => Some ("create request: " +:+ e)
  | NotSent e => Some ("sync " +:+ what +:+ ": " +:+ e)
  | Answered a => if (a.(an_status) != 200%Z)
                  then Some ("manager returned " +:+ pretty a.(an_status) +:+ ": " +:+ a.(an_text)) else None
  end.
Definition post_settings (what path : string) (payload : json) : GoM (Dashboard N) (option string) :=
  x ← on_net (exchange {| k_Method := "POST"; k_URL := ins.(in_managerURL) +:+ path; k_Header := sync_headers;
                          k_Body := json_text payload |});
  mret (sync_error what x).

Definition consent_SyncWithManager : GoM (Dashboard N) (option string) :=
  d ← gets id;
  post_settings "consent" "/v1/consent" (consent_payload ins.(in_fingerprint) d.(ds_consent) d.(ds_consentHw)).
Definition Accept (hardwareStats configPreferences : bool) : GoM (Dashboard N) (option string) :=
  dash (set_ds_consent (Build_ConsentState true hardwareStats configPreferences)) ;;
  save_consent ;; consent_SyncWithManager.
Definition Revoke : GoM (Dashboard N) (option string) :=
  dash (set_ds_consent (Build_ConsentState false false false)) ;; save_consent ;; consent_SyncWithManager.

(** ** Configuration (workerconfig/config.go) *)

Definition save_config : GoM (Dashboard N) unit :=
  cfg ← gets ds_config; WriteFile configPath (indented (Marshal_ClientConfig cfg)).
Definition NewConfig : GoM (Dashboard N) unit :=
  dash (fun d => set_ds_config (match d.(ds_files) !! configPath with
                                | None => zero_ClientConfig
                                | Some data => Unmarshal_into fields_ClientConfig zero_ClientConfig (json_parse data)
                                end) d).
Definition config_SyncWithManager : GoM (Dashboard N) (option string) :=
  cfg ← gets ds_config;
  post_settings "config" "/v1/worker-config" (config_payload ins.(in_fingerprint) cfg).
Definition UpdateConfig (cfg : ClientConfig) : GoM (Dashboard N) (option string) :=
  dash (set_ds_config cfg) ;; save_config ;; config_SyncWithManager.

(** [inl]: the roles, [None] being the nil slice; [inr]: the error *)
Definition FetchEligibleRoles : GoM (Dashboard N) (option (list RoleInfo) + string) :=
  x ← on_net (exchange {| k_Method := "GET";
                          k_URL := ins.(in_managerURL) +:+ "/v1/roles?fingerprint=" +:+ ins.(in_fingerprint);
                          k_Header := add_header "Authorization" ("Bearer " +:+ ins.(in_workerKey)) no_header;
                          k_Body := "" |});
  mret match x with
       | NotMade e => inr ("create request: " +:+ e)
       | NotSent e => inr ("fetch roles: " +:+ e)
       | Answered a =>
           if a.(an_status) != 200%Z
           then inr ("manager returned " +:+ pretty a.(an_status) +:+ ": " +:+ a.(an_text))
           else match Unmarshal decode_RoleInfos (json_first a.(an_text)) with
                | Some roles => inl roles
                | None => inr "decode roles"
                end
       end.

(** ** Branding (branding.go) *)

Definition cssPath : string := path_Join ins.(in_dataDir) "branding.css".
Definition NewBranding : GoM (Dashboard N) unit :=
  dash (fun d => set_ds_css (default "" (d.(ds_files) !! cssPath)) d).
(** A body that breaks off is a failed exchange. *)
Definition FetchFromManager : GoM (Dashboard N) unit :=
  x ← on_net (exchange {| k_Method := "GET"; k_URL := ins.(in_managerURL) +:+ "/v1/branding/style.css";
                          k_Header := add_header "Authorization" ("Bearer " +:+ ins.(in_workerKey)) no_header;
                          k_Body := "" |});
  match x with
  | Answered a =>
      if a.(an_status) != 200%Z then skip
      else let data := take_str (256 * 1024) a.(an_text) in dash (set_ds_css data) ;; WriteFile cssPath data
  | _ => skip
  end.

(** ** The sync after the first connection (main.go, syncWithManager) *)

(** [if err != nil { reporter.Report(err); failed = true }] *)
Definition report_error (now : Z) (err : option string) : GoM (Dashboard N) bool :=
  match err with
  | Some e => dash (fun d => set_ds_reporter (Report now e d.(ds_reporter)) d) ;; mret true
  | None => mret false
  end.
Definition syncFn (now : Z) : GoM (Dashboard N) bool :=
  accepted ← IsAccepted;
  failed ← (if negb accepted then mret false
            else
              f1 ← (err ← consent_SyncWithManager; report_error now err);
              f2 ← (err ← config_SyncWithManager; report_error now err);
              mret (f1 || f2));
  FetchFromManager ;;
  mret (negb failed).
(** The attempts until one succeeds or the context is cancelled, at the given
    instants; the pauses are the environment. *)
Fixpoint syncWithManager (attempts : list Z) : GoM (Dashboard N) bool :=
  match attempts with
  | [] => mret false
  | now :: attempts => ok ← syncFn now; if (ok : bool) then mret true else syncWithManager attempts
  end.

(** ** Handlers (server.go) *)

Definition no_content : Response := {| status := 200; body := NoBody |}.
Definition client_not_allowed : Response := httpError "method not allowed" 405.

Definition handleConsent (r : Request) : GoM (Dashboard N) Response :=
  if r.(r_Method) == "OPTIONS" then mret no_content
  else if r.(r_Method) == "GET" then
    state ← gets ds_consent; mret (writeJSON 200 (Marshal_ConsentState state))
  else if r.(r_Method) == "POST" then
    match r.(r_Body) with
    | None => mret (httpError "failed to read body" 400)
    | Some b =>
        match Unmarshal decode_ConsentState (json_parse b) with
        | None => mret (httpError "invalid JSON" 400)
        | Some req =>
            (if req.(cs_Accepted) then Accept req.(cs_HardwareStats) req.(cs_ConfigPreferences) else Revoke) ;;
            mret status_ok
        end
    end
  else mret client_not_allowed.

(** The text {[error:msg]} with its double quotes. *)
Definition dq : string := String.String (Ascii.ascii_of_nat 34) "".
Definition error_text (msg : string) : string :=
  "{" +:+ dq +:+ "error" +:+ dq +:+ ":" +:+ dq +:+ msg +:+ dq +:+ "}".
Definition consent_first : Response := httpError (error_text "consent required before setting configuration") 403.
Definition handleConfig (r : Request) : GoM (Dashboard N) Response :=
  if r.(r_Method) == "OPTIONS" then mret no_content
  else if r.(r_Method) == "GET" then
    cfg ← gets ds_config; mret (writeJSON 200 (Marshal_ClientConfig cfg))
  else if r.(r_Method) == "POST" then
    accepted ← IsAccepted;
    if negb accepted then mret consent_first
    else match r.(r_Body) with
    | None => mret (httpError "failed to read body" 400)
    | Some b =>
        match Unmarshal decode_ClientConfig (json_parse b) with
        | None => mret (httpError "invalid JSON" 400)
        | Some cfg => UpdateConfig cfg ;; mret status_ok
        end
    end
  else mret client_not_allowed.

Definition tester_fallback : json :=
  JArr [JObj [("description", JStr "Connectivity testing — minimal model for any hardware"); ("eligible", JBool true);
              ("min_vram_mb", number 512); ("model", JStr "SmolLM2-135M-Instruct");
              ("quantisation", JStr "Q4_K_M"); ("role", JStr "tester")]].
Definition handleRoles (r : Request) : GoM (Dashboard N) Response :=
  if r.(r_Method) != "GET" then mret client_not_allowed
  else
    roles ← FetchEligibleRoles;
    mret (writeJSON 200 match roles with
                        | inr _ => tester_fallback
                        | inl None => JNull
                        | inl (Some l) => JArr (Marshal_RoleInfo <$> l)
                        end).

Definition stats_json (st : GPUStats) : json :=
  JObj [("mean", number st.(gs_Mean)); ("baseline_mean", number st.(gs_BaselineMean)); ("min", number st.(gs_Min));
        ("max", number st.(gs_Max)); ("sample_count", number st.(gs_SampleCount))].
Definition handleGPU (r : Request) : GoM (Dashboard N) Response :=
  if r.(r_Method) != "GET" then mret client_not_allowed
  else
    s ← gets ds_status;
    mret (writeJSON 200 (JObj [("sent_to_manager", number s.(s_gpuSentAvg)); ("state", JStr (State_String s.(s_gpuState)));
                               ("stats", stats_json s.(s_gpuStats)); ("utilization", number s.(s_gpuUtil))])).

(** The GPU driver is the one the snapshot knows. *)
Definition handleHardwareInfo (r : Request) : GoM (Dashboard N) Response :=
  if r.(r_Method) != "GET" then mret client_not_allowed
  else
    d ← gets id;
    mret (writeJSON 200 (JObj [
      ("config", JObj [("nickname", JStr d.(ds_config).(cf_Nickname)); ("preferred_role", JStr d.(ds_config).(cf_PreferredRole))]);
      ("fingerprint", JStr d.(ds_status).(s_fingerprint));
      ("hardware", hardware_json (with_driver d.(ds_status).(s_gpuDriver) d.(ds_status).(s_gpuDriverVersion) d.(ds_hwInfo)))])).

Definition status_payload (now : Z) (d : Dashboard N) : json :=
  let s := d.(ds_status) in
  JObj [("config", JObj [("nickname", JStr d.(ds_config).(cf_Nickname)); ("preferred_role", JStr d.(ds_config).(cf_PreferredRole))]);
        ("connected", JBool s.(s_connected));
        ("consent", JObj [("accepted", JBool d.(ds_consent).(cs_Accepted));
                          ("config_preferences", JBool d.(ds_consent).(cs_ConfigPreferences));
                          ("hardware_stats", JBool d.(ds_consent).(cs_HardwareStats))]);
        ("fingerprint", JStr s.(s_fingerprint)); ("gpu_driver", JStr s.(s_gpuDriver));
        ("gpu_driver_version", JStr s.(s_gpuDriverVersion)); ("gpu_state", JStr (State_String s.(s_gpuState)));
        ("gpu_support_reason", JStr s.(s_gpuSupportReason)); ("gpu_supported", JBool s.(s_gpuSupported));
        ("gpu_utilization", number s.(s_gpuUtil));
        ("hardware", hardware_json (with_driver s.(s_gpuDriver) s.(s_gpuDriverVersion) d.(ds_hwInfo)));
        ("llm_error", JStr s.(s_llmError)); ("llm_reachable", JBool s.(s_llmReachable)); ("model", JStr s.(s_model));
        ("paused", JBool s.(s_paused)); ("processing", JBool s.(s_processing)); ("quantisation", JStr s.(s_quantisation));
        ("units_processed", number s.(s_units));
        ("uptime_seconds", number (Z.quot (now - s.(s_startedAt)) Second)); ("version", JStr ins.(in_version))].
Definition buildStatusPayload (now : Z) : GoM (Dashboard N) json := gets (status_payload now).
Definition handleStatus (now : Z) (r : Request) : GoM (Dashboard N) Response :=
  if r.(r_Method) != "GET" then mret client_not_allowed
  else payload ← buildStatusPayload now; mret (writeJSON 200 payload).
Definition handleHealth (r : Request) : GoM (Dashboard N) Response :=
  mret (writeJSON 200 (JObj [("status", JStr "ok")])).

(** The subscribers of status events: a channel of capacity 4 each. *)
Definition status_capacity : nat := 4.
Definition subscribeStatus : GoM (Dashboard N) nat :=
  id ← gets ds_statusSubsID;
  dash (fun d => set_ds_subs (<[id := []]> d.(ds_statusSubs)) (set_ds_subsID (S id) d)) ;;
  mret id.
Definition unsubscribeStatus (id : nat) : GoM (Dashboard N) unit :=
  dash (fun d => set_ds_subs (delete id d.(ds_statusSubs)) d).
(** a send in a [select] with a default: a full channel drops the payload *)
Definition offer (payload : json) (ch : list json) : list json :=
  if bool_decide (length ch < status_capacity)%nat then ch ++ [payload] else ch.
Definition BroadcastStatus (now : Z) : GoM (Dashboard N) unit :=
  payload ← buildStatusPayload now;
  dash (fun d => set_ds_subs (offer payload <$> d.(ds_statusSubs)) d).
(** [handleStatusEvents]: the page first gets the state, then it subscribes,
    then each receive is one step. [None]: the channel is empty. *)
Definition statusEvents_first (now : Z) (r : Request) : GoM (Dashboard N) (json + Response) :=
  if r.(r_Method) != "GET" then mret (inr client_not_allowed)
  else payload ← buildStatusPayload now; mret (inl payload).
Definition statusEvents_subscribe : GoM (Dashboard N) nat := subscribeStatus.
Definition statusEvents_receive (id : nat) : GoM (Dashboard N) (option json) :=
  subs ← gets ds_statusSubs;
  match subs !! id with
  | Some (payload :: ch) => dash (fun d => set_ds_subs (<[id := ch]> d.(ds_statusSubs)) d) ;; mret (Some payload)
  | _ => mret None
  end.
Definition statusEvents_end (id : nat) : GoM (Dashboard N) unit := unsubscribeStatus id.

Record enabled_request := { er_Enabled : bool }.
Definition decode_enabled : json -> option enabled_request :=
  decode_struct (Build_enabled_request false) [ bool_field "enabled" (fun v _ => Build_enabled_request v) ].
(** The autostart manager works on the files of the user and runs commands. *)
Definition on_machine {A} (m : GoM Autostart.Machine A) : GoM (Dashboard N) A := fun d =>
  let '(mc, r) := m {| mc_disk := disk_of d.(ds_files); mc_ran := d.(ds_ran) |} in
  (set_ds_ran mc.(mc_ran) (set_ds_files mc.(mc_disk).(dk_files) d), r).
Definition SetAutostart (enabled : bool) : GoM (Dashboard N) (option string) :=
  on_machine (if enabled then Autostart.Enable {| au_execPath := ins.(in_execPath); au_args := ins.(in_args) |} else Autostart.Disable).
Definition handleAutostart (r : Request) : GoM (Dashboard N) Response :=
  if r.(r_Method) == "OPTIONS" then mret no_content
  else if r.(r_Method) == "GET" then
    enabled ← on_machine Autostart.IsEnabled;
    mret (writeJSON 200 (JObj [("enabled", JBool enabled); ("executable", JStr ins.(in_execPath));
                               ("supported", JBool Autostart.IsSupported)]))
  else if r.(r_Method) == "POST" then
    if negb Autostart.IsSupported then mret (httpError (error_text "autostart not supported on this platform") 400)
    else match r.(r_Body) with
    | None => mret (httpError "failed to read body" 400)
    | Some b =>
        match Unmarshal decode_enabled (json_parse b) with
        | None => mret (httpError "invalid JSON" 400)
        | Some req =>
            err ← SetAutostart req.(er_Enabled);
            match err with
            | Some e => mret (httpError (error_text e) 500)
            | None =>
                actual ← on_machine Autostart.IsEnabled;
                mret (writeJSON 200 (JObj [("enabled", JBool actual); ("status", JStr "ok")]))
            end
        end
    end
  else mret client_not_allowed.

(** In setup mode the callback stores the URL and stops the process (main.go). *)
Definition onManagerURLSet (url : string) : GoM (Dashboard N) unit :=
  WriteFile (Clean (in_dataDir ins +:+ "/manager-url")) url ;; dash (set_ds_exited true).
Record url_request := { ur_URL : string }.
Definition decode_url : json -> option url_request :=
  decode_struct (Build_url_request "") [ str_field "url" (fun v _ => Build_url_request v) ].
Definition handleManagerURL (r : Request) : GoM (Dashboard N) Response :=
  if r.(r_Method) == "OPTIONS" then mret no_content
  else if r.(r_Method) != "POST" then mret client_not_allowed
  else match r.(r_Body) with
  | None => mret (httpError "failed to read body" 400)
  | Some b =>
      match Unmarshal decode_url (json_parse b) with
      | None => mret (httpError "invalid JSON" 400)
      | Some req =>
          if req.(ur_URL) == "" then mret (httpError (error_text "url is required") 400)
          else when ins.(in_setup) (onManagerURLSet req.(ur_URL)) ;; mret status_ok
      end
  end.

Record level_request := { lq_Level : string }.
Definition decode_level : json -> option level_request :=
  decode_struct (Build_level_request "") [ str_field "level" (fun v _ => Build_level_request v) ].
Definition level_json (l : string) : json := JObj [("level", JStr l)].
(** [save]: the callback that persists the level; there is none in setup mode. *)
Definition handleLogLevel (save : string -> GoM (Dashboard N) unit) (r : Request) : GoM (Dashboard N) Response :=
  if r.(r_Method) == "GET" then level ← gets ds_level; mret (writeJSON 200 (level_json level))
  else if r.(r_Method) == "POST" then
    match decode_body decode_level r with
    | None => mret (httpError "invalid JSON" 400)
    | Some req =>
        match parse_level (ToLower req.(lq_Level)) with
        | None => mret (httpError ("unknown level: " +:+ req.(lq_Level)) 400)
        | Some lvl =>
            dash (set_ds_level lvl) ;;
            when (negb ins.(in_setup)) (save lvl) ;;
            mret (writeJSON 200 (level_json lvl))
        end
    end
  else mret client_not_allowed.

(** [inl]: the contents. Reading a file that is there may fail. *)
Definition handleLogsFile (readable : bool) (r : Request) : GoM (Dashboard N) (string + Response) :=
  if r.(r_Method) != "GET" then mret (inr client_not_allowed)
  else if ins.(in_logFilePath) == "" then mret (inr (httpError "log file not available" 404))
  else
    files ← gets ds_files;
    mret match files !! ins.(in_logFilePath) with
         | Some data => if readable then inl data else inr (httpError "failed to read log file" 500)
         | None => inr (httpError "failed to read log file" 500)
         end.

Definition handleBrandingCSS (r : Request) : GoM (Dashboard N) string := gets ds_css.

(** [handleLogs]: the history is written first, then the stream subscribes. *)
Definition logs_history : GoM (Dashboard N) (list string) := gets (fun d => GetAll d.(ds_logBuf)).
Definition set_ds_logBuf (b : Buffer) (d : Dashboard N) : Dashboard N :=
  Build_Dashboard N d.(ds_status) d.(ds_consent) d.(ds_consentHw) d.(ds_config) d.(ds_css) d.(ds_hwInfo) d.(ds_files) b
    d.(ds_statusSubs) d.(ds_statusSubsID) d.(ds_level) d.(ds_ran) d.(ds_reporter) d.(ds_exited) d.(ds_net).
Definition logs_subscribe : GoM (Dashboard N) nat :=
  b ← gets ds_logBuf;
  let '(b', id) := Subscribe b in dash (set_ds_logBuf b') ;; mret id.
Definition logs_receive (id : nat) : GoM (Dashboard N) (option string) :=
  b ← gets ds_logBuf;
  let '(b', e) := Receive id b in dash (set_ds_logBuf b') ;; mret e.
Definition logs_end (id : nat) : GoM (Dashboard N) unit :=
  dash (fun d => set_ds_logBuf (Unsubscribe id d.(ds_logBuf)) d).

(** ** The farewell and the uninstallation *)

Definition goodbye_payload (fingerprint : string) (now : Z) : string :=
  "goodbye:" +:+ fingerprint +:+ ":" +:+ rfc3339_format now.
Definition BuildGoodbyeBody (fingerprint : string) (signFn : string -> string) (now : Z) : json :=
  let payload := goodbye_payload fingerprint now in
  goodbye_body fingerprint payload (signFn payload).
(** the callback main.go sets, whatever the answer; [signFn] is [id.Sign] *)
Definition onGoodbye (signFn : string -> string) (now : Z) : GoM (Dashboard N) unit :=
  on_net (exchange {| k_Method := "POST"; k_URL := ins.(in_managerURL) +:+ "/v1/workers/goodbye";
                      k_Header := add_header "Content-Type" "application/json" no_header;
                      k_Body := json_text (BuildGoodbyeBody ins.(in_fingerprint) signFn now) |}) ;;
  skip.

Definition identityFiles : list string := ["identity.enc"; "identity.pub"; "fingerprint"].
Definition toDelete : list string := ["manager-url"; "worker-key"; "client.log"; "stdout.log"; "stderr.log"].

(** [exe]: the path of the executable with its links resolved, [None] when it
    is not known; [home] likewise *)
Definition remove_binary (exe home : option string) : GoM (Dashboard N) unit :=
  match exe with
  | None => skip
  | Some exe =>
      match indexOf exe ".app/Contents/MacOS/" with
      | Some idx => RemoveAll (take_str (idx + 4) exe)
      | None => Remove exe
      end ;;
      match home with
      | None => skip
      | Some home =>
          let localBin := Join_all [home; ".local"; "bin"; "synergia-client"] in
          when (localBin != exe) (Remove localBin)
      end
  end.
Definition doUninstall (exe home : option string) : GoM (Dashboard N) unit :=
  SetAutostart false ;;
  RemoveAll (path_Join ins.(in_dataDir) "backend") ;;
  RemoveAll (path_Join ins.(in_dataDir) "models") ;;
  foreach toDelete (fun name => Remove (path_Join ins.(in_dataDir) name)) ;;
  remove_binary exe home ;;
  dash (set_ds_exited true).

(** The answer, and whether the cleanup goroutine is started. *)
Definition handleUninstall (r : Request) : GoM (Dashboard N) (Response * bool) :=
  if r.(r_Method) != "POST" then mret (client_not_allowed, false)
  else if as_GOOS == "windows"
  then mret (httpError "Uninstall is not supported from the dashboard on Windows. Use the Synergia entry in Windows Settings → Apps to uninstall." 400, false)
  else mret (writeJSON 200 (JObj [("status", JStr "uninstalling")]), true).
Definition uninstall_task (signFn : string -> string) (now : Z) (exe home : option string) : GoM (Dashboard N) unit :=
  when (negb ins.(in_setup)) (onGoodbye signFn now) ;; doUninstall exe home.
End client.

(** ** The manager behind the calls

    The database of the manager, acted on by the handlers that main registers
    at the addresses the client calls. The server reads the path and the one
    query parameter off the URL; a body text is what the encoders write. *)

Section manager.
Context `{Gorm, JsonText, TimeText, Crypto}.

Definition newline_text : string := String.String newline "".
Definition error_json (code : Z) (message : string) : json :=
  JObj [("error", JObj [("code", number code); ("message", JStr message); ("type", JStr "server_error")])].
Definition answer_of (resp : Response) : Answer :=
  {| an_status := resp.(status);
     an_text := match resp.(body) with
                | NoBody => ""
                | PlainText t => t +:+ newline_text
                | ErrorObject m => json_text (error_json resp.(status) m) +:+ newline_text
                | JsonBody j => json_text j +:+ newline_text
                end |}.

Definition received (c : Call) (path : string) (query : string -> string) : Request :=
  {| r_Method := c.(k_Method); r_Path := path; r_Header := c.(k_Header); r_Query := query; r_Body := Some c.(k_Body) |}.
(** [url.Query] of a single parameter that needs no unescaping *)
Definition one_parameter (name text : string) (k : string) : string :=
  if (k == name) && HasPrefix text (name +:+ "=") then drop_str (String.length name + 1) text else "".

(** [elsewhere]: the answers of the addresses that do not concern the database. *)
Definition manager_exchange (elsewhere : Call -> exchanged) (now : Z) (base workerKey apiKey : string) (c : Call) : GoM Store exchanged :=
  let answer (m : GoM Store Response) := resp ← m; mret (Answered (answer_of resp)) in
  let path := drop_str (String.length base) c.(k_URL) in
  if negb (HasPrefix c.(k_URL) base) then mret (elsewhere c)
  else if path == "/v1/consent" then answer (ConsentHandler now workerKey (received c path no_header))
  else if path == "/v1/worker-config" then answer (ConfigHandler workerKey (received c path no_header))
  else if path == "/v1/workers/goodbye" then answer (GoodbyeHandler now (received c path no_header))
  else if HasPrefix path "/v1/roles?" then
    answer (RolesHandler workerKey apiKey (received c "/v1/roles" (one_parameter "fingerprint" (drop_str 10 path))))
  else mret (elsewhere c).
End manager.

(** ** The settings on their way *)

Section agreement.
Context `{GormLaws, !GormUp, JsonText, TimeText, Crypto, Platform}.
Variable ins : Install.
Variables (now : Z) (apiKey workerKey : string).

Variable elsewhere : Call -> exchanged.

Abbreviation to_manager := (manager_exchange elsewhere now ins.(in_managerURL) workerKey apiKey).
Definition int64_hardware (hw : HardwareInfo) : Prop :=
  in_int64 hw.(hw_VRAMMB) = true /\ in_int64 hw.(hw_CPUCores) = true /\ in_int64 hw.(hw_RAMMB) = true.
(** A text the other side reads back as it was meant. *)
Definition legible (j : json) : Prop := json_parse (json_text j) = Some j.

Lemma decode_consent_payload fp c hw : int64_hardware hw ->
  decode_ConsentRequest (consent_payload fp c hw) =
    Some (Build_ConsentRequest fp c.(cs_Accepted) c.(cs_HardwareStats) c.(cs_ConfigPreferences) (Some hw)).
Proof.
  intros (H1' & H2' & H3'). destruct c, hw. cbn in H1', H2', H3'. lazy -[in_int64].
  by rewrite H1', H2', H3'.
Qed.
Lemma decode_config_payload fp c :
  decode_ConfigRequest (config_payload fp c) = Some (Build_ConfigRequest fp c.(cf_PreferredRole) c.(cf_Nickname)).
Proof. by destruct c. Qed.

Lemma url_of_path path : HasPrefix (in_managerURL ins +:+ path) (in_managerURL ins) = true.
Proof. apply HasPrefix_spec. by exists path. Qed.

(** A sync that reports success was answered 200 by the manager's handler. *)
Lemma post_settings_ok what path payload handler (d d' : Dashboard Store) :
  (forall c, HasPrefix c.(k_URL) ins.(in_managerURL) = true -> drop_str (String.length ins.(in_managerURL)) c.(k_URL) = path ->
     to_manager c = (resp ← handler (received c path no_header); mret (Answered (answer_of resp)))) ->
  post_settings to_manager ins what path payload d = (d', Ret None) ->
  exists s' resp c, handler (received c path no_header) d.(ds_net) = (s', Ret resp) /\ d' = set_ds_net s' d /\
    resp.(status) = 200%Z /\ c.(k_Method) = "POST" /\ c.(k_Body) = json_text payload.
Proof.
  intros Hh. unfold post_settings. intros (d1 & x & Ex & [= <- Hx])%bind_inv. revert Ex. unfold on_net, zoom.
  set (c := Build_Call _ _ _ _). rewrite (Hh c) by (first [apply url_of_path | apply drop_str_app]).
  destruct (handler (received c path no_header) (ds_net d)) as [s' [resp|e|]] eqn:E; unfold mbind, GoM_bind; rewrite E; cbn; try done.
  intros [= <- <-]. exists s', resp, c. split_and!; [done..| |done|done].
  cbn in Hx. destruct (bool_decide_reflect (status resp = 200%Z)); [done|]. discriminate Hx.
Qed.

Lemma manager_consent c : HasPrefix c.(k_URL) ins.(in_managerURL) = true ->
  drop_str (String.length ins.(in_managerURL)) c.(k_URL) = "/v1/consent" ->
  to_manager c = (resp ← ConsentHandler now workerKey (received c "/v1/consent" no_header); mret (Answered (answer_of resp))).
Proof. intros Hp Hd. unfold manager_exchange. by rewrite Hp, Hd. Qed.
Lemma manager_config c : HasPrefix c.(k_URL) ins.(in_managerURL) = true ->
  drop_str (String.length ins.(in_managerURL)) c.(k_URL) = "/v1/worker-config" ->
  to_manager c = (resp ← ConfigHandler workerKey (received c "/v1/worker-config" no_header); mret (Answered (answer_of resp))).
Proof. intros Hp Hd. unfold manager_exchange. by rewrite Hp, Hd. Qed.

(** What a handler stored that answered 200 to a decision or a configuration. *)
Lemma ConsentHandler_ok r b req s s' resp :
  r.(r_Method) = "POST" -> r.(r_Body) = Some b -> Unmarshal decode_ConsentRequest (json_parse b) = Some req ->
  ConsentHandler now workerKey r s = (s', Ret resp) -> resp.(status) = 200%Z ->
  store_consent now req s = (s', Ret status_ok).
Proof.
  intros Hm Hb Hreq. unfold ConsentHandler, setConsent. rewrite Hm, Hb, Hreq. cbn [bool_decide decide_rel].
  destruct (authenticate_worker workerKey r); cbn [negb]; [|intros [= _ <-]; done].
  rewrite bool_decide_eq_false_2, bool_decide_eq_true_2 by done.
  destruct (cq_Fingerprint req == ""); [intros [= _ <-]; done|]. intros E Hs.
  enough (Hr : resp = status_ok \/ resp = writeError 500 "database error").
  { destruct Hr as [-> | ->]; [done|discriminate Hs]. }
  unfold store_consent in E. apply bind_inv in E as (s1 & [e|] & _ & E); [injection E as _ <-; by right|].
  apply bind_inv in E as (s2 & [] & _ & [= _ <-]). by left.
Qed.

Lemma ConfigHandler_ok r b req s s' resp :
  r.(r_Method) = "POST" -> r.(r_Body) = Some b -> Unmarshal decode_ConfigRequest (json_parse b) = Some req ->
  ConfigHandler workerKey r s = (s', Ret resp) -> resp.(status) = 200%Z ->
  result (HasConsent req.(gq_Fingerprint)) s = Ret true /\
  SetWorkerConfig req.(gq_Fingerprint) req.(gq_PreferredRole) req.(gq_Nickname) s = (s', Ret None).
Proof.
  intros Hm Hb Hreq. unfold ConfigHandler, setConfig. rewrite Hm, Hb, Hreq. cbn [bool_decide decide_rel].
  destruct (authenticate_worker workerKey r); cbn [negb]; [|intros [= _ <-]; done].
  rewrite bool_decide_eq_false_2, bool_decide_eq_true_2 by done.
  destruct (gq_Fingerprint req == ""); [intros [= _ <-]; done|]. intros E Hs.
  apply bind_inv in E as (s1 & consent & Ec & E).
  assert (s1 = s) as -> by (unfold HasConsent in Ec; by apply bind_inv in Ec as (? & ? & [= <- _] & [= <- _])).
  destruct consent; cbn [negb] in E; [|injection E as _ <-; discriminate Hs].
  apply bind_inv in E as (s2 & [e|] & E2 & [= <- <-]); [discriminate Hs|].
  unfold result. by rewrite Ec, E2.
Qed.

(** The decisions of the dashboard, as [handleConsent] takes them. *)
Definition decide_consent (c : ConsentState) : GoM (Dashboard Store) (option string) :=
  if c.(cs_Accepted) then Accept to_manager ins c.(cs_HardwareStats) c.(cs_ConfigPreferences) else Revoke to_manager ins.
Definition decided (c : ConsentState) : ConsentState :=
  if c.(cs_Accepted) then c else Build_ConsentState false false false.

Lemma decide_consent_eq c d : exists files,
  decide_consent c d = consent_SyncWithManager to_manager ins (set_ds_files files (set_ds_consent (decided c) d)).
Proof. destruct c as [[|] hs cp]; eexists; reflexivity. Qed.

(** What a consent sync that reports success has stored at the manager. *)
Lemma consent_sync_effect (d d' : Dashboard Store) :
  legible (consent_payload ins.(in_fingerprint) d.(ds_consent) d.(ds_consentHw)) -> int64_hardware d.(ds_consentHw) ->
  consent_SyncWithManager to_manager ins d = (d', Ret None) ->
  exists s', d' = set_ds_net s' d /\
    store_consent now (Build_ConsentRequest ins.(in_fingerprint) d.(ds_consent).(cs_Accepted)
      d.(ds_consent).(cs_HardwareStats) d.(ds_consent).(cs_ConfigPreferences) (Some d.(ds_consentHw))) d.(ds_net) =
      (s', Ret status_ok).
Proof.
  intros Hl Hhw E. unfold consent_SyncWithManager in E. rewrite (bind_Ret _ _ d d d) in E by done.
  destruct (post_settings_ok _ _ _ _ _ _ manager_consent E) as (s' & resp & c & Eh & -> & Hs & Hm & Hb).
  exists s'. split; [done|]. eapply ConsentHandler_ok; [| | |exact Eh|done]; [done|cbn; by rewrite Hb|].
  unfold legible in Hl. rewrite Hl. by apply decode_consent_payload.
Qed.

(** The decision as the row of the manager shows it. *)
Definition agrees (c : ConsentState) (hw : HardwareInfo) (row : WorkerConsent) : Prop :=
  row.(c_Accepted) = c.(cs_Accepted) /\ row.(c_HardwareStats) = c.(cs_HardwareStats) /\
  row.(c_ConfigPreferences) = c.(cs_ConfigPreferences) /\ with_hardware (Some hw) row = row.

Lemma decided_accepted c : (decided c).(cs_Accepted) = c.(cs_Accepted).
Proof. by destruct c as [[|] hs cp]. Qed.

Lemma decision_effect c (d d' : Dashboard Store) :
  legible (consent_payload ins.(in_fingerprint) (decided c) d.(ds_consentHw)) -> int64_hardware d.(ds_consentHw) ->
  unique_fingerprints d'.(ds_net) -> decide_consent c d = (d', Ret None) ->
  let fp := ins.(in_fingerprint) in
  d'.(ds_consent) = decided c /\
  result (HasConsent fp) d'.(ds_net) = Ret c.(cs_Accepted) /\
  (exists row, consent_of fp d'.(ds_net) = Some row /\ agrees (decided c) d.(ds_consentHw) row) /\
  (forall w, worker_row fp d.(ds_net) = Some w -> worker_row fp d'.(ds_net) = Some
     (if negb c.(cs_Accepted) then set_w_Status "withdrawn" w
      else if w.(w_Status) == "withdrawn" then set_w_Status "available" w else w)) /\
  (forall fp', fp' <> fp -> worker_row fp' d'.(ds_net) = worker_row fp' d.(ds_net) /\
                            consent_of fp' d'.(ds_net) = consent_of fp' d.(ds_net)).
Proof.
  intros Hl Hhw Hu E fp. destruct (decide_consent_eq c d) as [files Ed]. rewrite Ed in E.
  apply consent_sync_effect in E as (s' & -> & E); [|done..]. cbn in Hu, E |- *.
  destruct (store_consent_effect _ _ _ _ Hu E) as (Hh & Hw & Ho & row & Hrow & Hhs & Hcp & Hhwr). cbn in *.
  rewrite decided_accepted in *. split_and!; [done|done| |done|done].
  exists row. split; [done|]. split_and!; [|done..].
  pose proof Hu as (_ & Hcu & _). rewrite HasConsent_row in Hh by done. rewrite Hrow in Hh.
  cbn in Hh. rewrite decided_accepted. by injection Hh.
Qed.

(** C7. A consent given or withdrawn on the worker's dashboard is the manager's:
    when the dashboard's request is answered and its sync reports no error, the
    manager holds the flags and the hardware of this very worker, answers
    [HasConsent] with the decision, has withdrawn a worker whose user revoked
    and reinstated one that had been withdrawn, and has touched no other worker. *)
Theorem dashboard_consent_reaches_manager r b c (d d' : Dashboard Store) :
  r.(r_Method) = "POST" -> r.(r_Body) = Some b -> Unmarshal decode_ConsentState (json_parse b) = Some c ->
  legible (consent_payload ins.(in_fingerprint) (decided c) d.(ds_consentHw)) -> int64_hardware d.(ds_consentHw) ->
  unique_fingerprints d'.(ds_net) -> decide_consent c d = (d', Ret None) ->
  let fp := ins.(in_fingerprint) in
  handleConsent to_manager ins r d = (d', Ret status_ok) /\ d'.(ds_consent) = decided c /\
  result (HasConsent fp) d'.(ds_net) = Ret c.(cs_Accepted) /\
  (exists row, consent_of fp d'.(ds_net) = Some row /\ agrees (decided c) d.(ds_consentHw) row) /\
  (forall w, worker_row fp d.(ds_net) = Some w -> worker_row fp d'.(ds_net) = Some
     (if negb c.(cs_Accepted) then set_w_Status "withdrawn" w
      else if w.(w_Status) == "withdrawn" then set_w_Status "available" w else w)) /\
  (forall fp', fp' <> fp -> worker_row fp' d'.(ds_net) = worker_row fp' d.(ds_net) /\
                            consent_of fp' d'.(ds_net) = consent_of fp' d.(ds_net)).
Proof.
  intros Hm Hb Hc Hl Hhw Hu E fp. split; [|by apply decision_effect].
  unfold handleConsent. rewrite Hm, Hb, Hc. cbn [bool_decide decide_rel].
  rewrite 2!bool_decide_eq_false_2, bool_decide_eq_true_2 by done.
  unfold decide_consent in E. by rewrite (bind_Ret _ _ _ _ _ E).
Qed.

(** A configuration set on the dashboard is the manager's, and is only taken
    with consent on both sides: without it the dashboard refuses and keeps what
    it has; with it, a sync without error means the manager has the role and the
    nickname on file, and had the consent. *)
Theorem dashboard_config_reaches_manager r b cfg (d d' : Dashboard Store) err :
  r.(r_Method) = "POST" -> r.(r_Body) = Some b -> Unmarshal decode_ClientConfig (json_parse b) = Some cfg ->
  legible (config_payload ins.(in_fingerprint) cfg) ->
  UpdateConfig to_manager ins cfg d = (d', Ret err) ->
  if d.(ds_consent).(cs_Accepted) then
    handleConfig to_manager ins r d = (d', Ret status_ok) /\ d'.(ds_config) = cfg /\
    (err = None ->
     result (HasConsent ins.(in_fingerprint)) d.(ds_net) = Ret true /\
     result (GetWorkerConfig ins.(in_fingerprint)) d'.(ds_net) =
       Ret (inl (Some (Build_WorkerConfig ins.(in_fingerprint) cfg.(cf_PreferredRole) cfg.(cf_Nickname)))))
  else handleConfig to_manager ins r d = (d, Ret consent_first).
Proof.
  intros Hm Hb Hc Hl E. unfold handleConfig. rewrite Hm, Hb, Hc. rewrite 2!bool_decide_eq_false_2, bool_decide_eq_true_2 by done.
  rewrite (bind_Ret _ _ d d (ds_consent d).(cs_Accepted)) by done.
  destruct (cs_Accepted (ds_consent d)); cbn [negb]; [|done]. rewrite (bind_Ret _ _ _ _ _ E). split; [done|].
  set (d1 := set_ds_files (partial_alter (write_result (configPath ins) (indented (Marshal_ClientConfig cfg))) (configPath ins) (ds_files d))
    (set_ds_config cfg d)).
  assert (E1 : config_SyncWithManager to_manager ins d1 = (d', Ret err)) by (rewrite <- E; reflexivity).
  unfold config_SyncWithManager in E1. rewrite (bind_Ret _ _ d1 d1 cfg) in E1 by done. split.
  - revert E1. unfold post_settings. intros (d2 & x & Ex & [= <- _])%bind_inv. revert Ex. unfold on_net, zoom.
    destruct (manager_exchange _ _ _ _ _ _ _) as [s' o]. intros [= <- _]. done.
  - intros ->. destruct (post_settings_ok _ _ _ _ _ _ manager_config E1) as (s' & resp & c & Eh & -> & Hs & Hme & Hbo).
    eapply ConfigHandler_ok in Eh as [Hcons Eset]; [| |cbn; by rewrite Hbo| |done]; [|done|unfold legible in Hl; rewrite Hl; apply decode_config_payload].
    cbn in Hcons, Eset. apply SetWorkerConfig_rows in Eset as (_ & _ & Eg). cbn. split; [done|]. unfold result. by rewrite Eg.
Qed.

(** ** The roles the dashboard offers *)

Lemma decode_RoleInfo_Marshal x : in_int64 x.(ri_MinVRAMMB) = true -> decode_RoleInfo (Marshal_RoleInfo x) = Some x.
Proof. destruct x. intros H1'. cbn in H1'. lazy -[in_int64]. by rewrite H1'. Qed.

Lemma drop_parameter fp : one_parameter "fingerprint" ("fingerprint=" +:+ fp) "fingerprint" = fp.
Proof.
  unfold one_parameter. assert (HasPrefix ("fingerprint=" +:+ fp) "fingerprint=" = true) as E by (apply HasPrefix_spec; by exists fp).
  change ("fingerprint" +:+ "=") with "fingerprint=". rewrite E. cbn [andb bool_decide decide_rel]. reflexivity.
Qed.

Definition legible_answer (j : json) : Prop := json_first (json_text j +:+ newline_text) = Some j.
Definition roles_json (s : Store) (roles : list RoleModel) : json :=
  JArr (Marshal_RoleInfo <$> (role_info (reported_vram ins.(in_fingerprint) s) <$> roles)).

(** What the client fetches is what the manager computes. *)
Lemma FetchEligibleRoles_up (d : Dashboard Store) :
  workerKey = "" \/ ins.(in_workerKey) = workerKey -> ins.(in_fingerprint) <> "" ->
  Forall (fun rm => in_int64 rm.(rm_MinVRAMMB) = true) (live (db_Roles d.(ds_net))) ->
  (forall roles, roles ≡ₚ live (db_Roles d.(ds_net)) -> legible_answer (roles_json d.(ds_net) roles)) ->
  exists roles, roles ≡ₚ live (db_Roles d.(ds_net)) /\
    FetchEligibleRoles to_manager ins d =
      (d, Ret (inl (Some (role_info (reported_vram ins.(in_fingerprint) d.(ds_net)) <$> roles)))).
Proof.
  intros Hkey Hfp H64 Hwire. set (fp := in_fingerprint ins).
  set (c := {| k_Method := "GET"; k_URL := in_managerURL ins +:+ "/v1/roles?fingerprint=" +:+ fp;
               k_Header := add_header "Authorization" ("Bearer " +:+ in_workerKey ins) no_header; k_Body := "" |}).
  set (r := received c "/v1/roles" (one_parameter "fingerprint" ("fingerprint=" +:+ fp))).
  assert (Hauth : RolesAPI_authenticate workerKey apiKey r = true).
  { assert (Hh : r.(r_Header) "Authorization" = "Bearer " +:+ in_workerKey ins) by reflexivity.
    unfold RolesAPI_authenticate. rewrite Hh. destruct Hkey as [-> | <-]; [done|].
    rewrite (bool_decide_eq_true_2 ("Bearer " +:+ _ = _)) by done. by rewrite orb_true_r. }
  assert (Hq : r.(r_Query) "fingerprint" = fp) by apply drop_parameter.
  destruct (RolesHandler_up workerKey apiKey r d.(ds_net) Hauth eq_refl) as (roles & Hr & _ & E); [by rewrite Hq|].
  rewrite Hq in E. exists roles. split; [done|].
  assert (Ec : to_manager c (ds_net d) = (ds_net d, Ret (Answered (answer_of
    (writeJSON 200 (JArr (Marshal_RoleInfo <$> (role_info (reported_vram fp (ds_net d)) <$> roles)))))))).
  { unfold manager_exchange. change (k_URL c) with (in_managerURL ins +:+ ("/v1/roles?fingerprint=" +:+ fp)).
    rewrite url_of_path, drop_str_app. change (drop_str 10 _) with ("fingerprint=" +:+ fp). fold r.
    cbn [negb]. change (HasPrefix ("/v1/roles?fingerprint=" +:+ fp) "/v1/roles?") with true.
    change (bool_decide (_ = "/v1/consent")) with false. change (bool_decide (_ = "/v1/worker-config")) with false.
    change (bool_decide (_ = "/v1/workers/goodbye")) with false. cbv iota beta. by rewrite (bind_Ret _ _ _ _ _ E). }
  unfold FetchEligibleRoles. fold fp. fold c.
  rewrite (bind_Ret _ _ d d (Answered (answer_of (writeJSON 200 (JArr (Marshal_RoleInfo <$> (role_info (reported_vram fp (ds_net d)) <$> roles))))))).
  2: { unfold on_net, zoom. rewrite Ec. by destruct d. }
  cbn [an_status answer_of writeJSON status body an_text bool_decide decide_rel].
  pose proof (Hwire roles Hr) as Hj. unfold legible_answer, roles_json in Hj. fold fp in Hj.
  rewrite Hj. unfold Unmarshal, mbind, option_bind, decode_RoleInfos.
  rewrite (decode_slice_roundtrip Marshal_RoleInfo decode_RoleInfo); [done|].
  intros x (rm & -> & Hrm)%list_elem_of_fmap. apply decode_RoleInfo_Marshal. cbn.
  rewrite Hr in Hrm. rewrite Stdlib.Lists.List.Forall_forall in H64. by apply H64, list_elem_of_In.
Qed.

(** After a decision has reached the manager, the dashboard offers the
    cluster's roles, each once, and marks as eligible exactly "tester" and
    those whose VRAM this machine has: what the user sees is computed by the
    manager from the hardware the client sent with the consent. *)
Theorem offered_roles_fit_the_hardware c r (d d' : Dashboard Store) :
  legible (consent_payload ins.(in_fingerprint) (decided c) d.(ds_consentHw)) -> int64_hardware d.(ds_consentHw) ->
  unique_fingerprints d'.(ds_net) -> decide_consent c d = (d', Ret None) ->
  workerKey = "" \/ ins.(in_workerKey) = workerKey -> ins.(in_fingerprint) <> "" -> r.(r_Method) = "GET" ->
  Forall (fun rm => in_int64 rm.(rm_MinVRAMMB) = true) (live (db_Roles d'.(ds_net))) ->
  (forall roles, roles ≡ₚ live (db_Roles d'.(ds_net)) -> legible_answer (roles_json d'.(ds_net) roles)) ->
  exists infos, handleRoles to_manager ins r d' = (d', Ret (writeJSON 200 (JArr (Marshal_RoleInfo <$> infos)))) /\
    (ri_Role <$> infos) ≡ₚ (rm_Role <$> live (db_Roles d'.(ds_net))) /\
    forall x, x ∈ infos ->
      x.(ri_Eligible) = true <-> x.(ri_Role) = "tester" \/ (x.(ri_MinVRAMMB) <= hw_VRAMMB d.(ds_consentHw))%Z.
Proof.
  intros Hl Hhw Hu E Hkey Hfp Hm H64 Hwire.
  destruct (decision_effect c d d' Hl Hhw Hu E) as (_ & _ & (row & Hrow & _ & _ & _ & Hhwr) & _).
  destruct (FetchEligibleRoles_up d' Hkey Hfp H64 Hwire) as (roles & Hr & Ef).
  assert (Hv : reported_vram ins.(in_fingerprint) d'.(ds_net) = hw_VRAMMB d.(ds_consentHw)).
  { unfold reported_vram. unfold consent_of in Hrow. rewrite Hrow, <- Hhwr. done. }
  rewrite Hv in Ef. eexists. split.
  - unfold handleRoles. rewrite bool_decide_eq_true_2 by done. cbn [negb]. by rewrite (bind_Ret _ _ _ _ _ Ef).
  - split; [by rewrite <- Hr, <- list_fmap_compose|].
    intros x (rm & -> & _)%list_elem_of_fmap. cbn. by rewrite orb_true_iff, !bool_decide_eq_true.
Qed.

(** A revocation that did not reach the manager is not made up for: without
    consent the sync after a connection only asks for the style sheet and
    counts as a success, and the manager keeps what it had. *)
Theorem failed_revocation_stays_unknown now1 attempts (d : Dashboard Store) :
  d.(ds_consent).(cs_Accepted) = false ->
  exists d', syncWithManager to_manager ins (now1 :: attempts) d = (d', Ret true) /\ d'.(ds_net) = d.(ds_net) /\
    d'.(ds_consent) = d.(ds_consent).
Proof.
  intros Ha. set (c := {| k_Method := "GET"; k_URL := in_managerURL ins +:+ "/v1/branding/style.css";
    k_Header := add_header "Authorization" ("Bearer " +:+ in_workerKey ins) no_header; k_Body := "" |}).
  assert (Ec : on_net (to_manager c) d = (d, Ret (elsewhere c))).
  { unfold on_net, zoom, manager_exchange. change (k_URL c) with (in_managerURL ins +:+ "/v1/branding/style.css").
    rewrite url_of_path, drop_str_app. by destruct d. }
  assert (Ef : exists d', FetchFromManager to_manager ins d = (d', Ret tt) /\ d'.(ds_net) = d.(ds_net) /\ d'.(ds_consent) = d.(ds_consent)).
  { unfold FetchFromManager. fold c. rewrite (bind_Ret _ _ _ _ _ Ec).
    destruct (elsewhere c) as [| |a]; [by exists d..|]. destruct (negb _); [by exists d|]. by eexists. }
  destruct Ef as (d' & Ef & Hn & Hc). exists d'. split; [|done].
  assert (Es : syncFn to_manager ins now1 d = (d', Ret true)).
  { unfold syncFn, IsAccepted. erewrite (bind_Ret (gets _)) by done. rewrite Ha. cbn [negb].
    erewrite (bind_Ret (mret false)) by done. by rewrite (bind_Ret _ _ _ _ _ Ef). }
  cbn [syncWithManager]. by rewrite (bind_Ret _ _ _ _ _ Es).
Qed.
End agreement.

(** ** What is local to the client *)

Section local.
Context `{JsonText, TimeText, Crypto, Platform} {N : Type}.
Variable exchange : Call -> GoM N exchanged.
Variable ins : Install.

(** Calls to the manager leave everything else alone. *)
Lemma on_net_keeps {A} (m : GoM N A) (d : Dashboard N) : exists n, run (on_net m) d = set_ds_net n d.
Proof. unfold run, on_net, zoom. destruct (m (ds_net d)) as [n r]. by exists n. Qed.
Lemma post_settings_keeps what path payload (d : Dashboard N) : exists n,
  run (post_settings exchange ins what path payload) d = set_ds_net n d.
Proof.
  destruct (on_net_keeps (exchange {| k_Method := "POST"; k_URL := in_managerURL ins +:+ path; k_Header := sync_headers ins;
    k_Body := json_text payload |}) d) as [n Hn].
  exists n. rewrite <- Hn. unfold post_settings, run, mbind, GoM_bind. by destruct (on_net _ d) as [d' []].
Qed.

Definition decide_locally (c : ConsentState) : GoM (Dashboard N) (option string) :=
  if c.(cs_Accepted) then Accept exchange ins c.(cs_HardwareStats) c.(cs_ConfigPreferences) else Revoke exchange ins.

Lemma decide_locally_run c (d : Dashboard N) : exists n, run (decide_locally c) d =
  set_ds_net n (set_ds_files (partial_alter (write_result (consentPath ins) (indented (Marshal_ConsentState (decided c)))) (consentPath ins) d.(ds_files))
    (set_ds_consent (decided c) d)).
Proof.
  destruct c as [[|] hs cp];
    (match goal with |- exists n, run _ _ = set_ds_net n ?d1 =>
       destruct (post_settings_keeps "consent" "/v1/consent" (consent_payload (in_fingerprint ins) (ds_consent d1) (ds_consentHw d1)) d1) as [n Hn] end;
     exists n; rewrite <- Hn; reflexivity).
Qed.

Lemma Unmarshal_into_consent c : Unmarshal_into fields_ConsentState zero_ConsentState (Some (Marshal_ConsentState c)) = c.
Proof. by destruct c. Qed.

(** C20. A decision survives a restart. Whatever became of the call to the
    manager, a process started on the files of the one that took the decision
    has it, provided the file could be written and is read back as written;
    only the flag for automated tests turns a refusal into an acceptance. *)
Theorem decision_survives_restart c autoApprove (d d' : Dashboard N) :
  (forall old, write_result (consentPath ins) (indented (Marshal_ConsentState (decided c))) old =
     Some (indented (Marshal_ConsentState (decided c)))) ->
  json_parse (indented (Marshal_ConsentState (decided c))) = Some (Marshal_ConsentState (decided c)) ->
  d'.(ds_files) = (run (decide_locally c) d).(ds_files) ->
  (run (decide_locally c) d).(ds_consent) = decided c /\
  (run (NewConsent ins autoApprove) d').(ds_consent) =
    if autoApprove && negb c.(cs_Accepted) then Build_ConsentState true true true else decided c.
Proof.
  intros Hw Hp Hf. destruct (decide_locally_run c d) as [n Hn]. rewrite Hn in *. split; [done|]. cbn in Hf.
  assert (Hread : ds_files d' !! consentPath ins = Some (indented (Marshal_ConsentState (decided c)))).
  { rewrite Hf, lookup_partial_alter_eq. apply Hw. }
  assert (El : load_consent ins (set_ds_consent zero_ConsentState (set_ds_consentHw (ds_hwInfo d') d')) =
    (set_ds_consent (decided c) (set_ds_consentHw (ds_hwInfo d') d'), Ret tt)).
  { unfold load_consent, dash, modify. cbn [ds_files set_ds_consent set_ds_consentHw]. rewrite Hread, Hp.
    cbn [ds_consent set_ds_consent]. by rewrite Unmarshal_into_consent. }
  unfold NewConsent, run. erewrite (bind_Ret (dash _)) by done. rewrite (bind_Ret _ _ _ _ _ El).
  erewrite (bind_Ret (gets ds_consent)) by done. cbn [ds_consent set_ds_consent]. rewrite decided_accepted.
  by destruct (autoApprove && negb (cs_Accepted c)).
Qed.

(** Nobody is configured without consent, whatever is posted. *)
Theorem no_configuration_without_consent r (d : Dashboard N) :
  d.(ds_consent).(cs_Accepted) = false -> run (handleConfig exchange ins r) d = d.
Proof.
  intros Ha. unfold handleConfig, run. destruct (r_Method r == "OPTIONS"); [done|].
  destruct (r_Method r == "GET"); [done|]. destruct (r_Method r == "POST"); [|done].
  unfold IsAccepted. erewrite (bind_Ret (gets _)) by done. by rewrite Ha.
Qed.

(** While the manager cannot be reached the dashboard still offers the role
    every machine can take. *)
Theorem unreachable_manager_leaves_tester r (d : Dashboard N) e :
  r.(r_Method) = "GET" -> (forall c n, exchange c n = (n, Ret (NotSent e))) ->
  handleRoles exchange ins r d = (d, Ret (writeJSON 200 tester_fallback)).
Proof.
  intros Hm Hx. unfold handleRoles. rewrite bool_decide_eq_true_2 by done. cbn [negb].
  unfold FetchEligibleRoles, on_net, zoom, mbind, GoM_bind. rewrite Hx. by destruct d.
Qed.
End local.

(** ** Status events *)

Section events.
Context `{JsonText, TimeText, Crypto, Platform} {N : Type}.
Variable ins : Install.

Definition set_ds_status (s : Snapshot) (d : Dashboard N) : Dashboard N :=
  Build_Dashboard N s d.(ds_consent) d.(ds_consentHw) d.(ds_config) d.(ds_css) d.(ds_hwInfo) d.(ds_files) d.(ds_logBuf)
    d.(ds_statusSubs) d.(ds_statusSubsID) d.(ds_level) d.(ds_ran) d.(ds_reporter) d.(ds_exited) d.(ds_net).

(** What happens around the subscribers, in any order. *)
Inductive event :=
  | EvStatus (s : Snapshot)       (* the worker's state changes *)
  | EvBroadcast (now : Z)
  | EvSubscribe
  | EvReceive (id : nat)
  | EvUnsubscribe (id : nat).
Definition exec_event (e : event) : GoM (Dashboard N) unit :=
  match e with
  | EvStatus s => dash (set_ds_status s)
  | EvBroadcast now => BroadcastStatus ins now
  | EvSubscribe => statusEvents_subscribe ;; skip
  | EvReceive id => statusEvents_receive id ;; skip
  | EvUnsubscribe id => statusEvents_end id
  end.

(** The payloads broadcast by an event, and those [id] receives in it. *)
Definition sent_in (e : event) (d : Dashboard N) : list json :=
  match e with EvBroadcast now => [status_payload ins now d] | _ => [] end.
Definition received_in (id : nat) (e : event) (d : Dashboard N) : list json :=
  match e with
  | EvReceive id' => if bool_decide (id' = id)
                     then match d.(ds_statusSubs) !! id with Some (p :: _) => [p] | _ => [] end else []
  | _ => []
  end.
Fixpoint sent_along (es : list event) (d : Dashboard N) : list json :=
  match es with [] => [] | e :: es => sent_in e d ++ sent_along es (run (exec_event e) d) end.
Fixpoint received_along (id : nat) (es : list event) (d : Dashboard N) : list json :=
  match es with [] => [] | e :: es => received_in id e d ++ received_along id es (run (exec_event e) d) end.
(** The reader is never more than the channel's capacity behind. *)
Fixpoint keeps_up (id : nat) (es : list event) (d : Dashboard N) : bool :=
  match es with
  | [] => true
  | e :: es =>
      match e with
      | EvBroadcast _ => bool_decide (length (default [] (d.(ds_statusSubs) !! id)) < status_capacity)%nat
      | _ => true
      end && keeps_up id es (run (exec_event e) d)
  end.

Lemma exec_event_returns e : returns (exec_event e).
Proof.
  destruct e; cbn; unfold dash, BroadcastStatus, buildStatusPayload, statusEvents_subscribe, subscribeStatus,
    statusEvents_receive, statusEvents_end, unsubscribeStatus, dash; returns_tac.
Qed.
Lemma run_then {S B} (m : GoM S unit) (k : GoM S B) s : returns m -> run (m ;; k) s = run k (run m s).
Proof.
  intros Hm. destruct (Hm s) as [[] Hu]. unfold run, result, mbind, GoM_bind in *.
  destruct (m s) as [s' r]. cbn in *. by rewrite Hu.
Qed.

(** One event, seen from a subscriber with the queue [q]. *)
Lemma exec_event_queue id e (d : Dashboard N) q :
  d.(ds_statusSubs) !! id = Some q -> id < d.(ds_statusSubsID) -> length q <= status_capacity -> e <> EvUnsubscribe id ->
  exists q', (run (exec_event e) d).(ds_statusSubs) !! id = Some q' /\ id < (run (exec_event e) d).(ds_statusSubsID) /\
    length q' <= status_capacity /\ received_in id e d ++ q' `sublist_of` q ++ sent_in e d /\
    (keeps_up id [e] d = true -> received_in id e d ++ q' = q ++ sent_in e d).
Proof.
  intros Hq Hid Hlen Hne. destruct e as [s|now| |id'|id']; cbn [received_in sent_in keeps_up].
  - exists q. rewrite app_nil_r. done.
  - exists (offer (status_payload ins now d) q).
    assert (Er : run (exec_event (EvBroadcast now)) d = set_ds_subs (offer (status_payload ins now d) <$> ds_statusSubs d) d) by done.
    rewrite Er, Hq. cbn [ds_statusSubs ds_statusSubsID set_ds_subs default from_option app]. rewrite lookup_fmap, Hq, andb_true_r.
    cbn. unfold offer. case_bool_decide as Hc; (split_and!; [done|done| | |]); [rewrite length_app; cbn; lia|done|done|done| |done].
    by apply sublist_inserts_r.
  - exists q. assert (Er : run (exec_event EvSubscribe) d =
      set_ds_subs (<[d.(ds_statusSubsID) := []]> d.(ds_statusSubs)) (set_ds_subsID (S d.(ds_statusSubsID)) d)) by done.
    rewrite Er. cbn. rewrite app_nil_r, lookup_insert_ne by lia. split_and!; [done|lia|done..].
  - rewrite app_nil_r. assert (Er : run (exec_event (EvReceive id')) d = match d.(ds_statusSubs) !! id' with
      | Some (p :: ch) => set_ds_subs (<[id' := ch]> d.(ds_statusSubs)) d | _ => d end).
    { unfold exec_event, statusEvents_receive. rewrite run_skip. unfold run, mbind, GoM_bind, gets.
      by destruct (ds_statusSubs d !! id') as [[|]|]. }
    rewrite Er. destruct (bool_decide_reflect (id' = id)) as [->|Hn].
    + rewrite Hq. destruct q as [|p q]; cbn; [by exists []|]. exists q. rewrite lookup_insert_eq. cbn in Hlen.
      split_and!; [done|done|lia|done..].
    + destruct (ds_statusSubs d !! id') as [[|p q']|]; cbn; [by exists q| |by exists q].
      exists q. by rewrite lookup_insert_ne.
  - exists q. assert (Er : run (exec_event (EvUnsubscribe id')) d = set_ds_subs (delete id' d.(ds_statusSubs)) d) by done.
    rewrite Er. cbn. rewrite app_nil_r, lookup_delete_ne by congruence. done.
Qed.

Lemma events_from id es (d : Dashboard N) q0 :
  d.(ds_statusSubs) !! id = Some q0 -> id < d.(ds_statusSubsID) ->
  length q0 <= status_capacity -> EvUnsubscribe id ∉ es ->
  exists q, (run (foreach es exec_event) d).(ds_statusSubs) !! id = Some q /\ length q <= status_capacity /\
    received_along id es d ++ q `sublist_of` q0 ++ sent_along es d /\
    (keeps_up id es d = true -> received_along id es d ++ q = q0 ++ sent_along es d).
Proof.
  revert d q0. induction es as [|e es IH]; intros d q0 Hq Hid Hlen Hne.
  { exists q0. cbn. by rewrite app_nil_r. }
  apply not_elem_of_cons in Hne as [He Hes].
  destruct (exec_event_queue id e d q0 Hq Hid Hlen) as (q1 & Hq1 & Hid1 & Hlen1 & Hsub & Heq); [congruence|].
  destruct (IH _ q1 Hq1 Hid1 Hlen1 Hes) as (q & Hr & Hl & Hs & Hk). exists q.
  assert (Erun : run (foreach (e :: es) exec_event) d = run (foreach es exec_event) (run (exec_event e) d))
    by apply run_then, exec_event_returns.
  rewrite Erun. split; [done|]. split; [done|]. cbn [received_along sent_along keeps_up]. split.
  - trans (received_in id e d ++ (q1 ++ sent_along es (run (exec_event e) d))).
    + rewrite <- app_assoc. by apply sublist_app.
    + rewrite !app_assoc. by apply sublist_app.
  - intros [Hk1 Hk2]%andb_true_iff. rewrite <- app_assoc, Hk by done. rewrite !app_assoc. f_equal. apply Heq. cbn. by rewrite Hk1.
Qed.

(** A page that watches the status sees changes in the order they happened:
    from its subscription to its end, whatever else goes on, what it received
    and what waits in its channel are payloads that were broadcast, in that
    order, at most four waiting; and none is missing as long as the page is
    never four behind. *)
Theorem status_events_in_order id es (d : Dashboard N) :
  d.(ds_statusSubs) !! id = Some [] -> id < d.(ds_statusSubsID) -> EvUnsubscribe id ∉ es ->
  exists q, (run (foreach es exec_event) d).(ds_statusSubs) !! id = Some q /\ length q <= status_capacity /\
    received_along id es d ++ q `sublist_of` sent_along es d /\
    (keeps_up id es d = true -> received_along id es d ++ q = sent_along es d).
Proof.
  intros Hq Hid Hes. apply (events_from id es d [] Hq Hid); [cbn; lia|done].
Qed.

(** A change between the first payload of a stream and its subscription is
    seen by neither; nor is a log line between the history and the stream. *)
Theorem changes_before_subscription_are_lost s now line (d : Dashboard N) :
  let d1 := run (BroadcastStatus ins now) (set_ds_status s d) in
  result statusEvents_subscribe d1 = Ret d.(ds_statusSubsID) /\
  (run statusEvents_subscribe d1).(ds_statusSubs) !! d.(ds_statusSubsID) = Some [] /\
  let d2 := set_ds_logBuf (Write line d.(ds_logBuf)) d in
  exists id, result logs_subscribe d2 = Ret id /\ (run logs_subscribe d2).(ds_logBuf).(lb_subs) !! id = Some [].
Proof.
  split; [done|]. split; [apply (lookup_insert_eq (M := gmap nat))|]. eexists. split; [reflexivity|].
  change (lb_subs _) with (<[lb_nextID (Write line (ds_logBuf d)) := []]> (lb_subs (Write line (ds_logBuf d)))).
  apply lookup_insert_eq.
Qed.
End events.

(** ** Leaving *)

Section uninstalling.
Context `{JsonText, TimeText, Crypto, Platform} {N : Type}.
Variable ins : Install.

(** The files an uninstallation is about. *)
Definition goes_with_binary (exe home : option string) (p : string) : bool :=
  match exe with
  | None => false
  | Some e =>
      match indexOf e ".app/Contents/MacOS/" with
      | Some idx => under (take_str (idx + 4) e) p
      | None => p == e
      end ||
      match home with
      | Some h => let localBin := Join_all [h; ".local"; "bin"; "synergia-client"] in (localBin != e) && (p == localBin)
      | None => false
      end
  end.
(** The file by which the session starts the client: a launch agent or a user
    service, if the home directory is known. *)
Definition registration_file : option string :=
  if as_GOOS == "darwin" then plistPath else if as_GOOS == "linux" then servicePath else None.
Definition goes (exe home : option string) (p : string) : bool :=
  bool_decide (registration_file = Some p) ||
  under (path_Join ins.(in_dataDir) "backend") p || under (path_Join ins.(in_dataDir) "models") p ||
  existsb (fun name => p == path_Join ins.(in_dataDir) name) toDelete || goes_with_binary exe home p.

(** Removing steps compose. *)
Definition removes (gone : string -> bool) (m : GoM (Dashboard N) unit) : Prop :=
  forall d, exists d', m d = (d', Ret tt) /\ d'.(ds_net) = d.(ds_net) /\
    forall p, d'.(ds_files) !! p = if gone p && unlink_ok p then None else d.(ds_files) !! p.

Lemma removes_skip : removes (fun _ => false) skip.
Proof. intros d. by exists d. Qed.
Lemma removes_Remove path : removes (fun p => p == path) (Remove path).
Proof.
  intros d. eexists. split; [reflexivity|]. split; [done|]. intros p. cbn. destruct (bool_decide_reflect (p = path)) as [->|Hne].
  - destruct (unlink_ok path); [apply lookup_delete_eq|done].
  - destruct (unlink_ok path); [by apply lookup_delete_ne|done].
Qed.
Lemma removes_RemoveAll dir : removes (under dir) (RemoveAll dir).
Proof.
  intros d. eexists. split; [reflexivity|]. split; [done|]. intros p. cbn. rewrite map_lookup_filter.
  destruct (ds_files d !! p) as [x|]; cbn; [|by destruct (under dir p && unlink_ok p)].
  case_guard as Hg; cbn in *; [by rewrite Hg|]. by apply not_false_iff_true in Hg as ->.
Qed.
Lemma removes_then g1 g2 m1 m2 : removes g1 m1 -> removes g2 m2 -> removes (fun p => g1 p || g2 p) (m1 ;; m2).
Proof.
  intros H1' H2' d. destruct (H1' d) as (d1 & E1 & N1 & F1), (H2' d1) as (d2 & E2 & N2 & F2).
  exists d2. rewrite (bind_Ret _ _ _ _ _ E1). split; [done|]. split; [congruence|]. intros p. rewrite F2, F1.
  by destruct (g1 p), (g2 p), (unlink_ok p).
Qed.
Lemma removes_foreach {A} (l : list A) g m : (forall x, removes (g x) (m x)) -> removes (fun p => existsb (fun x => g x p) l) (foreach l m).
Proof.
  intros Hm. induction l as [|x l IH]; cbn [foreach existsb]; [apply removes_skip|]. by apply removes_then.
Qed.
Lemma removes_ext g g' m : (forall p, g p = g' p) -> removes g m -> removes g' m.
Proof. intros He Hm d. destruct (Hm d) as (d' & E & Hn & Hf). exists d'. split_and!; [done..|]. intros p. by rewrite <- He. Qed.

Lemma removes_binary exe home : removes (goes_with_binary exe home) (remove_binary exe home).
Proof.
  destruct exe as [e|]; [|apply removes_skip]. cbn [remove_binary goes_with_binary].
  refine (removes_then (fun p => match indexOf e ".app/Contents/MacOS/" with
                                 | Some idx => under (take_str (idx + 4) e) p | None => p == e end)
    (fun p => match home with
              | Some h => let localBin := Join_all [h; ".local"; "bin"; "synergia-client"] in (localBin != e) && (p == localBin)
              | None => false end) _ _ _ _).
  - destruct (indexOf e _); [apply removes_RemoveAll|apply removes_Remove].
  - destruct home as [h|]; [|apply removes_skip]. cbv zeta.
    destruct (bool_decide_reflect (Join_all [h; ".local"; "bin"; "synergia-client"] = e)); [apply removes_skip|apply removes_Remove].
Qed.

(** Disabling the autostart removes the registration file, if it can be. *)
Lemma unregisters what path mc : exists mc' e, remove_registration what path mc = (mc', Ret e) /\
  forall p, files mc' !! p = if (p == path) && unlink_ok p then None else files mc !! p.
Proof.
  unfold remove_registration, os_Remove, mbind, GoM_bind, on_disk, zoom, gets, mret, GoM_ret, files. cbn.
  destruct (dk_files (mc_disk mc) !! path) as [x|] eqn:Ex; [destruct (unlink_ok path) eqn:Eu|]; eexists _, _; (split; [reflexivity|]); cbn; intros p;
    (destruct (bool_decide_reflect (p = path)) as [->|Hne]; cbn [andb]; [|by rewrite ?lookup_delete_ne]).
  - by rewrite Eu, lookup_delete_eq.
  - by rewrite Eu.
  - by destruct (unlink_ok path).
Qed.
Lemma disables mc : exists mc' e, Autostart.Disable mc = (mc', Ret e) /\
  forall p, files mc' !! p = if bool_decide (registration_file = Some p) && unlink_ok p then None else files mc !! p.
Proof.
  assert (Hnone : forall (p : string) (D : Decision (None = Some p)), @bool_decide _ D = false) by (intros; by apply bool_decide_eq_false_2).
  assert (Hsome : forall (p path : string) (D : Decision (Some path = Some p)), @bool_decide _ D = (p == path)).
  { intros p path D. apply bool_decide_ext. split; congruence. }
  unfold Autostart.Disable, registration_file.
  destruct (as_GOOS == "darwin"); [|destruct (as_GOOS == "linux"); [|destruct (as_GOOS == "windows")]].
  - unfold darwin_Disable. destruct plistPath as [path|]; [|by eexists _, _; split; [done|]; intros p; rewrite Hnone].
    unfold Command. unfold mbind at 1, GoM_bind at 1. edestruct unregisters as (mc' & e & E & Hf). eexists _, _. split; [exact E|].
    intros p. rewrite Hsome. apply Hf.
  - unfold linux_Disable, systemctl, Command. unfold mbind at 1, GoM_bind at 1.
    destruct servicePath as [path|]; [|by eexists _, _; split; [done|]; intros p; rewrite Hnone].
    edestruct unregisters as (mc' & e & E & Hf). unfold mbind at 1, GoM_bind at 1. rewrite E.
    destruct e as [e|]; eexists _, _; (split; [reflexivity|]); intros p; rewrite Hsome; apply Hf.
  - unfold windows_Disable, Command, mbind, GoM_bind, mret, GoM_ret. destruct (answers _ _) as [o b]. cbn.
    repeat case_match; eexists _, _; (split; [reflexivity|]); intros p; by rewrite Hnone.
  - eexists _, _. split; [reflexivity|]. intros p. by rewrite Hnone.
Qed.
Lemma removes_registration : removes (fun p => bool_decide (registration_file = Some p)) (SetAutostart ins false ;; skip).
Proof.
  intros d. destruct (disables {| mc_disk := disk_of d.(ds_files); mc_ran := d.(ds_ran) |}) as (mc' & e & E & Hf).
  eexists. unfold SetAutostart, on_machine, mbind, GoM_bind. rewrite E. split; [reflexivity|]. split; [done|]. exact Hf.
Qed.

Lemma removes_doUninstall exe home : removes (goes exe home) (doUninstall ins exe home).
Proof.
  pose proof removes_registration as Ha.
  assert (He : removes (fun _ => false) (dash (set_ds_exited true))) by (intros d; by eexists).
  pose proof (removes_foreach toDelete (fun name p => p == path_Join ins.(in_dataDir) name) _
    (fun name => removes_Remove (path_Join ins.(in_dataDir) name))) as Hl.
  pose proof (removes_then _ _ _ _ (removes_RemoveAll (path_Join ins.(in_dataDir) "backend"))
    (removes_then _ _ _ _ (removes_RemoveAll (path_Join ins.(in_dataDir) "models"))
    (removes_then _ _ _ _ Hl (removes_then _ _ _ _ (removes_binary exe home) He)))) as Hall.
  intros d. destruct (Ha d) as (d1 & E1 & N1 & F1), (Hall d1) as (d2 & E2 & N2 & F2). exists d2. split.
  - apply bind_inv in E1 as (d1' & err & E1 & [= <-]). unfold doUninstall. rewrite (bind_Ret _ _ _ _ _ E1). exact E2.
  - split; [congruence|]. intros p. rewrite F2, F1. unfold goes.
    by destruct (bool_decide (registration_file = Some p)), (under _ p), (under _ p), (existsb _ _), (goes_with_binary exe home p), (unlink_ok p).
Qed.

#[local] Instance plain_dec c : Decision (plain c).
Proof. unfold plain. apply _. Defined.

(** A plain file of the data directory outlives the uninstallation unless it is
    named or goes with the binary. *)
Lemma under_plain dir name base : dir <> "" -> plain name -> plain base -> base <> name ->
  under (path_Join dir name) (path_Join dir base) = false.
Proof.
  intros Hd Hn Hb Hne. unfold under. apply orb_false_iff. split.
  - apply bool_decide_eq_false_2. intros E. apply path_Join_inj in E; done.
  - apply not_true_iff_false. intros (t & E)%HasPrefix_spec. rewrite !path_Join_plain, !append_assoc_str in E by done.
    apply (inj (String.append _)) in E. destruct Hb as (_ & _ & _ & Hs). apply Hs. rewrite E.
    clear. induction name as [|c name IH]; cbn; set_solver.
Qed.
Lemma stays exe home base : ins.(in_dataDir) <> "" -> plain base -> base ∉ ["backend"; "models"] ++ toDelete ->
  goes_with_binary exe home (path_Join ins.(in_dataDir) base) = false -> registration_file <> Some (path_Join ins.(in_dataDir) base) ->
  goes exe home (path_Join ins.(in_dataDir) base) = false.
Proof.
  intros Hd Hb Hn Hbin Hreg. unfold goes. rewrite Hbin, (bool_decide_eq_false_2 (registration_file = _)) by done.
  assert (Hplain : forall name, name ∈ ["backend"; "models"] ++ toDelete -> plain name).
  { apply list.Forall_forall, (bool_decide_unpack _). vm_compute. done. }
  rewrite !under_plain; [|done|apply Hplain; set_solver|done|set_solver|done|apply Hplain; set_solver|done|set_solver].
  cbn [orb]. rewrite orb_false_r. apply not_true_iff_false. intros (name & Hin%list_elem_of_In & E%bool_decide_eq_true)%existsb_exists.
  apply path_Join_inj in E; [set_solver|done|done|apply Hplain; set_solver].
Qed.
End uninstalling.

Section farewell.
Context `{GormLaws, !GormUp, JsonText, TimeText, CryptoLaws, Platform}.
Variable ins : Install.
Variables (now : Z) (apiKey workerKey : string).
Variable elsewhere : Call -> exchanged.
Abbreviation to_manager := (manager_exchange elsewhere now ins.(in_managerURL) workerKey apiKey).

Lemma cut_first sep a b : sep ∉ String.list_ascii_of_string a -> cut sep (a +:+ String.String sep b) = Some (a, b).
Proof.
  induction a as [|c a IH]; intros Ha.
  - change (cut sep (String.String sep b) = Some ("", b)). cbn [cut]. by rewrite bool_decide_eq_true_2.
  - change (cut sep (String.String c (a +:+ String.String sep b)) = Some (String.String c a, b)). cbn [cut].
    apply not_elem_of_cons in Ha as [Hc Ha]. rewrite bool_decide_eq_false_2 by congruence. by rewrite IH.
Qed.
Lemma hex_no_colon m : ":"%char ∉ String.list_ascii_of_string (hex_EncodeToString m).
Proof.
  assert (Hd : forall n, n < 16 -> hex_digit n <> ":"%char).
  { apply (all_below (fun n => hex_digit n <> ":"%char)). by vm_compute. }
  induction m as [|c m IH]; [apply not_elem_of_nil|]. cbn [hex_EncodeToString String.list_ascii_of_string].
  assert (Hc : Ascii.nat_of_ascii c < 256) by apply Ascii.nat_ascii_bounded.
  rewrite !not_elem_of_cons. split_and!; [| |done]; intros E; symmetry in E; revert E; apply Hd; dlia.
Qed.

(** The payload the client builds passes the manager's check of its form. *)
Lemma goodbye_payload_ok m t t' :
  rfc3339_parse (rfc3339_format t) = Some t' -> (Z.abs (now - t') <= 5 * Minute)%Z ->
  goodbye_time_ok now (hex_EncodeToString m) (goodbye_payload (hex_EncodeToString m) t) = true.
Proof.
  intros Hp Ht. unfold goodbye_time_ok, goodbye_payload. cbn [SplitN].
  change ("goodbye:" +:+ ?x) with ("goodbye" +:+ String.String ":"%char x).
  rewrite cut_first by (vm_compute; set_solver). change (":" +:+ ?x) with (String.String ":"%char x).
  rewrite cut_first by apply hex_no_colon. rewrite !bool_decide_eq_true_2 by done. rewrite Hp. cbn [andb].
  by apply bool_decide_eq_true_2.
Qed.

(** A farewell the client built, received in time, deletes its worker. *)
Lemma goodbye_accepted c path privateKey fp t t' w s :
  let pub := ed25519_public privateKey in
  String.length pub = 32 -> fp = hex_EncodeToString (sha256 pub) ->
  worker_row fp s = Some w -> w.(w_PublicKey) = base64_EncodeToString pub ->
  rfc3339_parse (rfc3339_format t) = Some t' -> (Z.abs (now - t') <= 5 * Minute)%Z ->
  c.(k_Method) = "POST" -> json_first c.(k_Body) = Some (BuildGoodbyeBody fp (Sign privateKey) t) ->
  exists s', GoodbyeHandler now (received c path no_header) s = (s', Ret goodbye_ok) /\
    worker_row fp s' = Some (set_w_Status "deleted" w) /\
    forall fp', fp' <> fp -> worker_row fp' s' = worker_row fp' s.
Proof.
  intros pub Hlen Hfp Hw Hpk Hparse Hclock Hm Hwire.
  destruct (Updates_up Workers (by_fp fp) (set_w_Status "deleted") s) as (tbl & Eu & Hlive & _).
  exists (lset Workers tbl s). split; [|split].
  - assert (Ht : goodbye_time_ok now fp (goodbye_payload fp t) = true) by (rewrite Hfp; by eapply goodbye_payload_ok).
    assert (Hne : fp <> "").
    { intros E. pose proof (length_hex (sha256 pub)) as Hl. rewrite <- Hfp, E, sha256_length in Hl. done. }
    set (req := Build_goodbyeRequest fp (goodbye_payload fp t) (Sign privateKey (goodbye_payload fp t))).
    assert (Hs : goodbye_signed w req = true).
    { unfold goodbye_signed. rewrite Hpk, base64_roundtrip. cbn [gb_Signature gb_Payload req]. unfold Sign.
      rewrite hex_roundtrip, bool_decide_eq_true_2 by done. apply ed25519_correct. }
    assert (Hd : decode_body decode_goodbyeRequest (received c path no_header) = Some req).
    { unfold decode_body, received. cbn [r_Body mbind option_bind]. rewrite Hwire. reflexivity. }
    unfold GoodbyeHandler. change (r_Method _) with (k_Method c). rewrite Hd, Hm. cbn [bool_decide decide_rel negb].
    rewrite (bool_decide_eq_true_2 ("POST" = "POST")) by done. cbn [negb gb_Fingerprint gb_Payload req].
    rewrite (bool_decide_eq_false_2 (fp = "")), Ht by done. cbn [negb].
    unfold GetWorker. rewrite (bind_Ret _ _ _ _ _ (First_up Workers _ _)). change (live (lget Workers s)) with (live (db_Workers s)).
    unfold worker_row in Hw. rewrite Hw. fold req. rewrite Hs. cbn [negb]. unfold SetWorkerDeleted. by rewrite (bind_Ret _ _ _ _ _ Eu).
  - unfold worker_row in *. cbn. rewrite Hlive. by apply find_update_same.
  - intros fp' Hne. unfold worker_row. cbn. rewrite Hlive, find_update_other by done. cbn [lget Workers].
    destruct (List.find _ _) as [v|] eqn:Ev; [|done]. cbn. apply find_in in Ev as [_ Ev%bool_decide_eq_true_1].
    unfold by_fp. rewrite bool_decide_eq_false_2 by congruence. done.
Qed.

(** C8. Uninstalling says goodbye and keeps the identity: a client that is
    connected to a manager which knows its key is "deleted" there at once,
    provided the two clocks agree within five minutes, and nobody else is; on
    disk exactly the registration with the session, the server binary, the
    models, five named files and the client's own binary go, as far as they can
    be removed; the key pair of the worker stays, and so do its consent and its
    configuration (unless the binary or the registration is kept under their
    very names). *)
Theorem uninstall_says_goodbye privateKey t t' exe home w (d : Dashboard Store) :
  let pub := ed25519_public privateKey in
  ins.(in_setup) = false -> ins.(in_dataDir) <> "" -> String.length pub = 32 ->
  ins.(in_fingerprint) = hex_EncodeToString (sha256 pub) ->
  worker_row ins.(in_fingerprint) d.(ds_net) = Some w -> w.(w_PublicKey) = base64_EncodeToString pub ->
  rfc3339_parse (rfc3339_format t) = Some t' -> (Z.abs (now - t') <= 5 * Minute)%Z ->
  json_first (json_text (BuildGoodbyeBody ins.(in_fingerprint) (Sign privateKey) t)) =
    Some (BuildGoodbyeBody ins.(in_fingerprint) (Sign privateKey) t) ->
  exists d', uninstall_task to_manager ins (Sign privateKey) t exe home d = (d', Ret tt) /\
    worker_row ins.(in_fingerprint) d'.(ds_net) = Some (set_w_Status "deleted" w) /\
    (forall fp', fp' <> ins.(in_fingerprint) -> worker_row fp' d'.(ds_net) = worker_row fp' d.(ds_net)) /\
    (forall p, d'.(ds_files) !! p = if goes ins exe home p && unlink_ok p then None else d.(ds_files) !! p) /\
    (forall f, f ∈ identityFiles ++ ["consent.json"; "config.json"] ->
       goes_with_binary exe home (path_Join ins.(in_dataDir) f) = false -> registration_file <> Some (path_Join ins.(in_dataDir) f) ->
       d'.(ds_files) !! path_Join ins.(in_dataDir) f = d.(ds_files) !! path_Join ins.(in_dataDir) f).
Proof.
  intros pub Hset Hdir Hlen Hfp Hw Hpk Hparse Hclock Hwire.
  set (c := {| k_Method := "POST"; k_URL := in_managerURL ins +:+ "/v1/workers/goodbye";
    k_Header := add_header "Content-Type" "application/json" no_header;
    k_Body := json_text (BuildGoodbyeBody ins.(in_fingerprint) (Sign privateKey) t) |}).
  destruct (goodbye_accepted c "/v1/workers/goodbye" privateKey _ t t' w _ Hlen Hfp Hw Hpk Hparse Hclock eq_refl Hwire)
    as (s' & Eh & Hdel & Hother).
  assert (Eg : onGoodbye to_manager ins (Sign privateKey) t d = (set_ds_net s' d, Ret tt)).
  { unfold onGoodbye. fold c. unfold on_net, zoom, manager_exchange. change (k_URL c) with (in_managerURL ins +:+ "/v1/workers/goodbye").
    rewrite url_of_path, drop_str_app. cbn [negb].
    change (bool_decide (_ = "/v1/consent")) with false. change (bool_decide (_ = "/v1/worker-config")) with false.
    change (bool_decide ("/v1/workers/goodbye" = _)) with true. cbv iota beta. unfold mbind, GoM_bind. by rewrite Eh. }
  destruct (removes_doUninstall ins exe home (set_ds_net s' d)) as (d' & Ed & Hn & Hf). exists d'. split.
  { unfold uninstall_task. rewrite Hset. cbn [negb when]. by rewrite (bind_Ret _ _ _ _ _ Eg). }
  rewrite Hn. split_and!; [exact Hdel|exact Hother|done|].
  assert (Hkept : forall f, f ∈ identityFiles ++ ["consent.json"; "config.json"] -> plain f /\ f ∉ ["backend"; "models"] ++ toDelete).
  { apply list.Forall_forall, (bool_decide_unpack _). vm_compute. done. }
  intros f [Hplain Hnot]%Hkept Hbin Hreg. by rewrite Hf, stays.
Qed.
End farewell.

Section witnesses.
#[local] Existing Instances MemGorm MemGormLaws MemGormUp ToyCrypto ToyCryptoLaws time_ex.

Definition hw_ex : HardwareInfo := Build_HardwareInfo "linux" "6.1" "RTX" "nvidia" "550" 8192 "Ryzen" 8 32000.
Definition yes_ex : ConsentState := Build_ConsentState true true false.
Definition cfg_ex : ClientConfig := Build_ClientConfig "embedding" "ada".
Definition role_ex : RoleModel := new_role "embedding" "nomic" "Q8" "" "" 4096 "".
Definition roles_doc : json := JArr [Marshal_RoleInfo (role_info 8192 role_ex)].

(** The few texts the examples exchange. *)
Definition ClientJson : JsonText := {|
  json_text j := match j with
                 | JArr _ => "roles"
                 | JObj (("fingerprint", _) :: ("nickname", _) :: _) => "config"
                 | _ => "consent"
                 end;
  json_parse s := if s == "yes" then Some (JObj [("accepted", JBool true); ("hardware_stats", JBool true)])
                  else if s == "cfg" then Some (Marshal_ClientConfig cfg_ex)
                  else if s == "config" then Some (config_payload fp_ex cfg_ex)
                  else if s == "consent" then Some (consent_payload fp_ex yes_ex hw_ex)
                  else if s == "saved" then Some (Marshal_ConsentState yes_ex)
                  else None;
  json_first _ := Some roles_doc;
|}.
Definition Disk : Platform := {|
  write_result _ data _ := Some data;
  platform_session := Penguin;
  platform_files := AllWork;
  platform_disk := WholeWrites;
  indented _ := "saved";
  parse_level s := Some s;
|}.
#[local] Existing Instances ClientJson Disk.

Definition ins_ex : Install := {|
  in_dataDir := "/home/ada/.synergia"; in_managerURL := "http://manager:7500"; in_workerKey := "key";
  in_fingerprint := fp_ex; in_version := "0.2.0"; in_execPath := "/opt/synergia"; in_args := []; in_logFilePath := "";
  in_setup := false |}.
Definition dash_ex {N} (net : N) (c : ConsentState) : Dashboard N := {|
  ds_status := NewState 0 fp_ex "" ""; ds_consent := c; ds_consentHw := hw_ex; ds_config := zero_ClientConfig;
  ds_css := ""; ds_hwInfo := hw_ex; ds_files := ∅; ds_logBuf := NewBuffer 500; ds_statusSubs := ∅;
  ds_statusSubsID := 0; ds_level := "info"; ds_ran := []; ds_reporter := NewReporter; ds_exited := false;
  ds_net := net |}.
Definition post_ex (b : string) : Request :=
  {| r_Method := "POST"; r_Path := ""; r_Header := no_header; r_Query := no_header; r_Body := Some b |}.
Definition nowhere (c : Call) : exchanged := NotSent "connection refused".

(** A worker that was withdrawn, at a manager with one role. *)
Definition withdrawn_net : Store :=
  lset Workers (mem_rows [sample_worker fp_ex "h" "synced" "withdrawn"])
    (lset Consents (mem_rows [sample_consent "other"]) (lset Roles (mem_rows [role_ex]) empty_store)).
Abbreviation decide_ex := (decide_consent ins_ex 5 "api" "key" nowhere yes_ex).
Definition after_ex : Dashboard Store := run decide_ex (dash_ex withdrawn_net zero_ConsentState).

Lemma after_ex_unique : unique_fingerprints after_ex.(ds_net).
Proof. split_and!; apply (bool_decide_unpack _); vm_compute; done. Qed.

Lemma dashboard_consent_reaches_manager_witness :
  handleConsent (manager_exchange nowhere 5 "http://manager:7500" "key" "api") ins_ex (post_ex "yes")
    (dash_ex withdrawn_net zero_ConsentState) = (after_ex, Ret status_ok) /\
  result (HasConsent fp_ex) after_ex.(ds_net) = Ret true /\
  w_Status <$> worker_row fp_ex after_ex.(ds_net) = Some "available".
Proof.
  destruct (dashboard_consent_reaches_manager ins_ex 5 "api" "key" nowhere (post_ex "yes") "yes" yes_ex
    (dash_ex withdrawn_net zero_ConsentState) after_ex) as (H1' & _ & H2' & _ & H3' & _);
    [reflexivity|reflexivity|reflexivity|reflexivity|split_and!; reflexivity|exact after_ex_unique|vm_compute; reflexivity|].
  split; [exact H1'|]. split; [exact H2'|].
  exact (f_equal (fmap w_Status) (H3' (sample_worker fp_ex "h" "synced" "withdrawn") eq_refl)).
Defined.

Lemma dashboard_config_reaches_manager_witness :
  exists d', handleConfig (manager_exchange nowhere 5 "http://manager:7500" "key" "api") ins_ex (post_ex "cfg") after_ex = (d', Ret status_ok) /\
  result (GetWorkerConfig fp_ex) d'.(ds_net) = Ret (inl (Some (Build_WorkerConfig fp_ex "embedding" "ada"))).
Proof.
  set (d' := run (UpdateConfig (manager_exchange nowhere 5 "http://manager:7500" "key" "api") ins_ex cfg_ex) after_ex).
  assert (E : UpdateConfig (manager_exchange nowhere 5 "http://manager:7500" "key" "api") ins_ex cfg_ex after_ex = (d', Ret None))
    by (vm_compute; reflexivity).
  assert (Ha : cs_Accepted (ds_consent after_ex) = true) by (vm_compute; reflexivity).
  pose proof (dashboard_config_reaches_manager ins_ex 5 "api" "key" nowhere (post_ex "cfg") "cfg" cfg_ex after_ex d' None
    eq_refl eq_refl eq_refl eq_refl E) as Hall.
  rewrite Ha in Hall. destruct Hall as (H1' & _ & H2'). exists d'. split; [exact H1'|]. exact (proj2 (H2' eq_refl)).
Defined.

Lemma offered_roles_fit_the_hardware_witness :
  exists infos, handleRoles (manager_exchange nowhere 5 "http://manager:7500" "key" "api") ins_ex
      {| r_Method := "GET"; r_Path := ""; r_Header := no_header; r_Query := no_header; r_Body := None |} after_ex =
    (after_ex, Ret (writeJSON 200 (JArr (Marshal_RoleInfo <$> infos)))) /\
    (ri_Role <$> infos) ≡ₚ ["embedding"].
Proof.
  assert (Hl : live (db_Roles (ds_net after_ex)) = [role_ex]) by (vm_compute; reflexivity).
  assert (Hv : roles_json ins_ex (ds_net after_ex) [role_ex] = roles_doc) by (vm_compute; reflexivity).
  destruct (offered_roles_fit_the_hardware ins_ex 5 "api" "key" nowhere yes_ex
    {| r_Method := "GET"; r_Path := ""; r_Header := no_header; r_Query := no_header; r_Body := None |}
    (dash_ex withdrawn_net zero_ConsentState) after_ex) as (infos & E & Hp & _).
  - reflexivity.
  - split_and!; reflexivity.
  - exact after_ex_unique.
  - vm_compute. reflexivity.
  - right. reflexivity.
  - discriminate.
  - reflexivity.
  - rewrite Hl. repeat constructor.
  - intros roles Hr. rewrite Hl in Hr. apply Permutation_singleton_r in Hr as ->. unfold legible_answer. rewrite Hv. reflexivity.
  - exists infos. split; [exact E|]. rewrite Hl in Hp. exact Hp.
Defined.

Lemma failed_revocation_stays_unknown_witness :
  let d := dash_ex consent_store zero_ConsentState in
  exists d', syncWithManager (manager_exchange nowhere 5 "http://manager:7500" "key" "api") ins_ex [1%Z; 2%Z] d = (d', Ret true) /\
    result (HasConsent fp_ex) d'.(ds_net) = Ret true.
Proof.
  destruct (failed_revocation_stays_unknown ins_ex 5 "api" "key" nowhere 1 [2%Z] (dash_ex consent_store zero_ConsentState))
    as (d' & E & Hn & _); [reflexivity|].
  exists d'. split; [exact E|]. rewrite Hn. vm_compute. reflexivity.
Defined.

(** A manager that cannot be reached. *)
Definition offline (c : Call) : GoM unit exchanged := mret (NotSent "timeout").
Lemma decision_survives_restart_witness :
  let d' := run (decide_locally offline ins_ex yes_ex) (dash_ex tt zero_ConsentState) in
  (run (NewConsent ins_ex false) (dash_ex tt zero_ConsentState)).(ds_consent) = zero_ConsentState /\
  (run (NewConsent ins_ex false) d').(ds_consent) = yes_ex.
Proof.
  split; [reflexivity|].
  destruct (decision_survives_restart offline ins_ex yes_ex false (dash_ex tt zero_ConsentState)
    (run (decide_locally offline ins_ex yes_ex) (dash_ex tt zero_ConsentState))) as [_ Hc];
    [intros old; reflexivity|reflexivity|reflexivity|exact Hc].
Defined.

Lemma no_configuration_without_consent_witness :
  run (handleConfig offline ins_ex (post_ex "cfg")) (dash_ex tt zero_ConsentState) = dash_ex tt zero_ConsentState.
Proof. apply no_configuration_without_consent. reflexivity. Defined.

Lemma unreachable_manager_leaves_tester_witness :
  handleRoles offline ins_ex {| r_Method := "GET"; r_Path := ""; r_Header := no_header; r_Query := no_header; r_Body := None |}
    (dash_ex tt zero_ConsentState) = (dash_ex tt zero_ConsentState, Ret (writeJSON 200 tester_fallback)).
Proof. apply (unreachable_manager_leaves_tester _ _ _ _ "timeout"); [reflexivity|intros c []; reflexivity]. Defined.

Definition watched : Dashboard unit := run subscribeStatus (dash_ex tt zero_ConsentState).
Definition events_ex : list event :=
  [EvBroadcast 0; EvSubscribe; EvStatus (NewState 0 fp_ex "m" "q"); EvBroadcast Second; EvReceive 0; EvUnsubscribe 1].
Lemma status_events_in_order_witness :
  received_along ins_ex 0 events_ex watched = [status_payload ins_ex 0 watched] /\
  length (sent_along ins_ex events_ex watched) = 2 /\
  exists q, received_along ins_ex 0 events_ex watched ++ q = sent_along ins_ex events_ex watched.
Proof.
  split; [vm_compute; reflexivity|]. split; [vm_compute; reflexivity|].
  destruct (status_events_in_order ins_ex 0 events_ex watched) as (q & _ & _ & _ & Hk);
    [vm_compute; reflexivity|apply (bool_decide_unpack _); vm_compute; done|unfold events_ex; set_solver|].
  exists q. apply Hk. vm_compute. reflexivity.
Defined.

(** The farewell of the worker whose key the manager knows. *)
Definition key_fp : string := hex_EncodeToString (sha256 key_ex).
Definition ins_key : Install := {|
  in_dataDir := "/data"; in_managerURL := "http://manager:7500"; in_workerKey := ""; in_fingerprint := key_fp;
  in_version := "0.2.0"; in_execPath := "/opt/synergia"; in_args := []; in_logFilePath := ""; in_setup := false |}.
Definition FarewellJson : JsonText := {|
  json_text _ := ""; json_parse _ := None; json_first _ := Some (BuildGoodbyeBody key_fp (Sign key_ex) 0) |}.
Definition known_worker : Worker :=
  let w := sample_worker key_fp "h" "synced" "available" in
  {| w_Fingerprint := key_fp; w_PublicKey := base64_EncodeToString key_ex; w_LLMModel := w.(w_LLMModel);
     w_Quantisation := w.(w_Quantisation); w_ClientVersion := ""; w_OS := "linux"; w_Arch := "amd64"; w_LLMHash := w.(w_LLMHash);
     w_SyncStatus := w.(w_SyncStatus); w_BackendHash := ""; w_BackendVersion := ""; w_BinarySyncStatus := "";
     w_BackendSyncStatus := ""; w_TrustScore := 0; w_TotalRequests := 0; w_TotalLatencyMs := 0; w_GPUAvg := 0;
     w_LastSeenAt := 0; w_Status := w.(w_Status) |}.
Definition leaving : Dashboard Store :=
  set_ds_files (<["/data/identity.enc" := "k"]> (<["/data/backend/llama-server" := "b"]> (<["/opt/synergia" := "c"]>
    (<["/home/ada/.config/systemd/user/synergia-client.service" := "unit"]> ∅))))
    (dash_ex (lset Workers (mem_rows [known_worker]) empty_store) yes_ex).

Lemma uninstall_says_goodbye_witness :
  exists d', @uninstall_task FarewellJson _ _ _ (@manager_exchange _ FarewellJson _ _ nowhere 0 "http://manager:7500" "" "api")
      ins_key (Sign key_ex) 0 (Some "/opt/synergia") None leaving = (d', Ret tt) /\
    w_Status <$> worker_row key_fp d'.(ds_net) = Some "deleted" /\
    d'.(ds_files) = {["/data/identity.enc" := "k"]}.
Proof.
  destruct (@uninstall_says_goodbye _ _ _ FarewellJson _ _ _ _ ins_key 0 "api" "" nowhere key_ex 0 0 (Some "/opt/synergia") None
    known_worker leaving) as (d' & E & Hd & _ & Hf & _);
    [reflexivity|discriminate|reflexivity|reflexivity|vm_compute; reflexivity|reflexivity|reflexivity|vm_compute; discriminate|reflexivity|].
  exists d'. split; [exact E|]. split; [exact (f_equal (fmap w_Status) Hd)|].
  change d' with (fst (d', Ret (A := unit) tt)). rewrite <- E. vm_compute. reflexivity.
Defined.
End witnesses.
