(* ===== verification/ErrorReports.v ===== *)
(** * Error reports, from the client to the manager (internal/client/errorreporter, manager/api/errors.go)

    What a report says, how it is sent, and what the manager makes of it. Each
    report is sent by a goroutine of its own, so reports may arrive in any
    order. *)

From S2P Require Import Prelude GoStd Json Utf8 Protocol Gorm Models Workers Roles Http ClientState WorkerApi ClientServer.

(** ** The reporter (reporter.go) *)

(** The fields that do not change, as [New] sets them. *)
Record Origin := { or_managerURL : string; or_workerKey : string; or_fingerprint : string; or_version : string }.

Record ErrorReport := {
  ep_Fingerprint : string; ep_Version : string; ep_Error : string; ep_Stack : string; ep_Timestamp : string }.
Definition Marshal_ErrorReport (e : ErrorReport) : json :=
  JObj [("fingerprint", JStr e.(ep_Fingerprint)); ("version", JStr e.(ep_Version)); ("error", JStr e.(ep_Error));
        ("stack", JStr e.(ep_Stack)); ("timestamp", JStr e.(ep_Timestamp))].

(** A frame of the stack, as [runtime.CallersFrames] gives it. *)
Record Frame := { fr_Function : string; fr_File : string; fr_Line : Z }.
Definition tab : Ascii.ascii := Ascii.ascii_of_nat 9.
Definition frame_text (f : Frame) : string :=
  f.(fr_Function) +:+ newline_text +:+ String.String tab (f.(fr_File) +:+ ":" +:+ pretty f.(fr_Line) +:+ newline_text).
(** [frames.Next] gives the zero frame when there is none. *)
Fixpoint captureStack (frames : list Frame) : string :=
  let '(f, rest) := match frames with [] => ({| fr_Function := ""; fr_File := ""; fr_Line := 0 |}, "")
                                 | f :: frames => (f, match frames with [] => "" | _ => captureStack frames end) end in
  (if Contains f.(fr_Function) "runtime." then "" else frame_text f) +:+ rest.

(** The reporter with its goroutines that have not sent yet, and the network. *)
Record Reporting (N : Type) := {
  rg_reporter : Reporter;
  rg_sending : list ErrorReport;
  rg_net : N;
}.
Arguments Build_Reporting {N}.
Arguments rg_reporter {N} _.
Arguments rg_sending {N} _.
Arguments rg_net {N} _.
Definition set_rg_net {N} (n : N) (g : Reporting N) : Reporting N := Build_Reporting g.(rg_reporter) g.(rg_sending) n.
Definition set_rg_sending {N} (l : list ErrorReport) (g : Reporting N) : Reporting N :=
  Build_Reporting g.(rg_reporter) l g.(rg_net).

Section reporter.
Context `{Crypto, JsonText, TimeText} {N : Type}.
Variable exchange : Call -> GoM N exchanged.
Variable origin : Origin.

Definition error_report (now : Z) (stack msg : string) : ErrorReport :=
  {| ep_Fingerprint := origin.(or_fingerprint); ep_Version := origin.(or_version); ep_Error := msg;
     ep_Stack := stack; ep_Timestamp := rfc3339_format now |}.

(** [ReportWithStack] of an error's message; [ReportMessage] captures the stack itself. *)
Definition ReportWithStack (now : Z) (msg stack : string) : GoM (Reporting N) unit :=
  modify (fun g =>
    if recently_reported now msg g.(rg_reporter) then g
    else Build_Reporting (mark_reported now msg g.(rg_reporter)) (g.(rg_sending) ++ [error_report now stack msg]) g.(rg_net)).
Definition ReportMessage (now : Z) (frames : list Frame) (msg : string) : GoM (Reporting N) unit :=
  ReportWithStack now msg (captureStack frames).

(** The outcome is only logged. *)
Definition send (report : ErrorReport) : GoM N unit :=
  exchange {| k_Method := "POST"; k_URL := origin.(or_managerURL) +:+ "/v1/errors";
              k_Header := add_header "Content-Type" "application/json"
                            (add_header "Authorization" ("Bearer " +:+ origin.(or_workerKey))
                              (add_header "X-Worker-Fingerprint" origin.(or_fingerprint) no_header));
              k_Body := json_text (Marshal_ErrorReport report) |} ;;
  skip.
End reporter.

(** ** The manager behind it *)

Section manager.
Context `{Gorm, JsonText, TimeText}.

(** What becomes of a request: the manager gets it and its answer comes back, the
    answer does not come back, or the manager never gets it - it cannot be made, it
    fails on the way, or something else answers. *)
Inductive delivery := Arrives | AnswerLost (err : string) | Astray (outcome : exchanged).
Definition is_astray (d : delivery) : bool := match d with Astray _ => true | _ => false end.

Definition errors_exchange (workerKey : string) (now : Z) (d : delivery) (c : Call) : GoM Store exchanged :=
  match d with
  | Astray outcome => mret outcome
  | _ =>
      resp ← ErrorsHandler now workerKey (received c "/v1/errors" no_header);
      mret (match d with AnswerLost err => NotSent err | _ => Answered (answer_of resp) end)
  end.
End manager.

(** ** Errors and sends, interleaved *)

Inductive happening :=
  | Failed (now : Z) (frames : list Frame) (msg : string)   (* ReportMessage *)
  | Crashed (now : Z) (stack msg : string)                  (* ReportWithStack, from a recover *)
  | Sends (i : nat) (now : Z) (d : delivery).               (* a goroutine runs; the clock of the manager *)

Section history.
Context `{GormLaws, !GormUp, Crypto, JsonText, TimeText}.
Variable origin : Origin.
Variable workerKey : string.

Definition happens (e : happening) : GoM (Reporting Store) unit :=
  match e with
  | Failed now frames msg => ReportMessage origin now frames msg
  | Crashed now stack msg => ReportWithStack origin now msg stack
  | Sends i now d =>
      g ← gets id;
      match g.(rg_sending) !! i with
      | None => skip
      | Some report =>
          modify (set_rg_sending (delete i g.(rg_sending))) ;;
          zoom rg_net set_rg_net (send (errors_exchange workerKey now d) origin report)
      end
  end.
Definition happen (es : list happening) : GoM (Reporting Store) unit := foldr (fun e m => happens e ;; m) skip es.

(** The report an error would give, and when. *)
Definition reported (e : happening) : option (Z * ErrorReport) :=
  match e with
  | Failed now frames msg => Some (now, error_report origin now (captureStack frames) msg)
  | Crashed now stack msg => Some (now, error_report origin now stack msg)
  | Sends _ _ _ => None
  end.
(** The sends that do not get to the manager. *)
Definition goes_astray (e : happening) : bool := match e with Sends _ _ d => is_astray d | _ => false end.

Definition whole_seconds (t : Z) : Z := (t - t mod Second)%Z.
(** The row of a report made at a time: its text as JSON carries it. *)
Definition row_of (x : Z * ErrorReport) : ClientError :=
  {| ce_Fingerprint := coerce_utf8 x.2.(ep_Fingerprint); ce_Version := coerce_utf8 x.2.(ep_Version);
     ce_ErrorMessage := coerce_utf8 x.2.(ep_Error); ce_Stack := coerce_utf8 x.2.(ep_Stack); ce_ReportedAt := whole_seconds x.1 |}.

(** What encoding/json and time do with a report, whatever it says: its text reads
    back as what was written, no text that is cut off is a document, and a time
    in the format of RFC 3339 drops the fraction of the second. *)
Definition legible (x : Z * ErrorReport) : Prop :=
  let text := json_text (Marshal_ErrorReport x.2) in
  json_parse text = Some (on_wire (Marshal_ErrorReport x.2)) /\
  (forall n, (n < String.length text)%nat -> json_parse (take_str n text) = None) /\
  ValidString x.2.(ep_Timestamp) = true /\ rfc3339_parse x.2.(ep_Timestamp) = Some (whole_seconds x.1).

(** The reports the manager takes: from a client with its key, within the 64 KB it
    reads of a body, and with a fingerprint and a message. *)
Definition accepted (e : ErrorReport) : bool :=
  ((workerKey == "") || (origin.(or_workerKey) == workerKey)) &&
  (String.length (json_text (Marshal_ErrorReport e)) <=? 64 * 1024)%nat &&
  (e.(ep_Fingerprint) != "") && (e.(ep_Error) != "").

(** ** What arrives *)

Lemma decode_Marshal_ErrorReport e : decode_ErrorReportRequest (on_wire (Marshal_ErrorReport e)) =
  Some (Build_ErrorReportRequest (coerce_utf8 e.(ep_Fingerprint)) (coerce_utf8 e.(ep_Version)) (coerce_utf8 e.(ep_Error))
          (coerce_utf8 e.(ep_Stack)) (coerce_utf8 e.(ep_Timestamp))).
Proof. by destruct e. Qed.
Lemma coerce_empty s : (coerce_utf8 s == "") = (s == "").
Proof.
  destruct s as [|c s]; [done|]. rewrite !bool_decide_eq_false_2; try done. unfold coerce_utf8. cbn. by destruct (rune_tail c s).
Qed.

Lemma CreateClientError_up fp version msg stack t s :
  exists s', CreateClientError fp version msg stack t s = (s', Ret None) /\
    live (db_ClientErrors s') = live (db_ClientErrors s) ++
      [{| ce_Fingerprint := fp; ce_Version := version; ce_ErrorMessage := msg; ce_Stack := stack; ce_ReportedAt := t |}].
Proof.
  unfold CreateClientError, Create. cbn [lget ClientErrors].
  destruct (db_create _ _ _) as [t' [e|]] eqn:E.
  - exfalso. apply up_create in E. revert E. by induction (live _ ++ trash _).
  - eexists. split; [reflexivity|]. cbn. by apply create_ok in E as [E _].
Qed.

Lemma bearer_of_call body : let c := {| k_Method := "POST"; k_URL := origin.(or_managerURL) +:+ "/v1/errors";
      k_Header := add_header "Content-Type" "application/json"
                    (add_header "Authorization" ("Bearer " +:+ origin.(or_workerKey))
                      (add_header "X-Worker-Fingerprint" origin.(or_fingerprint) no_header)); k_Body := body |} in
  worker_bearer workerKey (received c "/v1/errors" no_header) = (workerKey == "") || (origin.(or_workerKey) == workerKey).
Proof.
  cbv zeta. unfold worker_bearer, received. cbn [r_Header k_Header]. f_equal. vm_compute (add_header _ _ _ _).
  destruct (decide (or_workerKey origin = workerKey)) as [<-|Hne]; [by rewrite !bool_decide_eq_true_2|].
  rewrite !bool_decide_eq_false_2; [done..|]. intros E. apply Hne. by injection E.
Qed.

(** A send that gets to the manager stores the report if it is accepted; any other
    leaves the database as it is. *)
Lemma send_outcome now d x s : legible x ->
  exists s', send (errors_exchange workerKey now d) origin x.2 s = (s', Ret tt) /\
    live (db_ClientErrors s') = live (db_ClientErrors s) ++ if negb (is_astray d) && accepted x.2 then [row_of x] else [].
Proof.
  intros (Hj & Hcut & Hv & Ht). unfold send, errors_exchange. destruct (is_astray d) eqn:Ed; cbn [negb andb].
  { destruct d; [done..|]. exists s. by rewrite app_nil_r. }
  enough (Hh : exists s' resp, ErrorsHandler now workerKey (received {| k_Method := "POST"; k_URL := origin.(or_managerURL) +:+ "/v1/errors";
      k_Header := add_header "Content-Type" "application/json"
                    (add_header "Authorization" ("Bearer " +:+ origin.(or_workerKey))
                      (add_header "X-Worker-Fingerprint" origin.(or_fingerprint) no_header));
      k_Body := json_text (Marshal_ErrorReport x.2) |} "/v1/errors" no_header) s = (s', Ret resp) /\
    live (db_ClientErrors s') = live (db_ClientErrors s) ++ if accepted x.2 then [row_of x] else []).
  { destruct Hh as (s' & resp & E & Hs). exists s'. split; [|exact Hs]. unfold mbind, GoM_bind. destruct d; [by rewrite E..|done]. }
  unfold ErrorsHandler. rewrite (bool_decide_eq_true_2 (r_Method _ = "POST")) by done. unfold errors_handlePost.
  rewrite bearer_of_call. unfold accepted, received. cbn [r_Body k_Body]. destruct (_ || _); cbn [negb andb].
  2: { exists s. eexists. split; [reflexivity|]. by rewrite app_nil_r. }
  set (text := json_text _) in *. destruct (Nat.leb_spec (String.length text) (64 * 1024)) as [Hlen|Hlen]; cbn [andb].
  2: { rewrite Hcut by done. exists s. eexists. split; [reflexivity|]. by rewrite app_nil_r. }
  rewrite take_str_short, Hj by done. unfold Unmarshal. cbn [mbind option_bind]. rewrite decode_Marshal_ErrorReport.
  cbn [eq_Fingerprint eq_Error eq_Timestamp eq_Version eq_Stack]. rewrite !coerce_empty, (coerce_valid _ Hv), Ht. cbn [default].
  rewrite <- negb_orb. destruct (_ || _); cbn [negb].
  { exists s. eexists. split; [reflexivity|]. by rewrite app_nil_r. }
  destruct (CreateClientError_up (coerce_utf8 x.2.(ep_Fingerprint)) (coerce_utf8 x.2.(ep_Version)) (coerce_utf8 x.2.(ep_Error))
    (coerce_utf8 x.2.(ep_Stack)) (whole_seconds x.1) s) as (s' & E & Hs).
  exists s'. eexists. unfold id. rewrite (bind_Ret _ _ _ _ _ E). by split.
Qed.

(** The reports that were made: [xs] are still to be sent, [stored] were stored,
    [lost] were not, and of these the manager would have taken at most [n]. *)
Definition message_of (x : Z * ErrorReport) : Z * string := (x.1, x.2.(ep_Error)).
Definition takable (l : list (Z * ErrorReport)) : nat := length (List.filter (fun x => accepted x.2) l).
Record traced (s : Store) (g : Reporting Store) (xs stored lost : list (Z * ErrorReport)) (n : nat)
    (reports : list (Z * ErrorReport)) : Prop := {
  tr_sending : g.(rg_sending) = snd <$> xs;
  tr_legible : Forall legible xs;
  tr_rows : live (db_ClientErrors g.(rg_net)) = live (db_ClientErrors s) ++ (row_of <$> stored);
  tr_stored : Forall (fun x => accepted x.2 = true) stored;
  tr_lost : (takable lost <= n)%nat;
  tr_all : xs ++ stored ++ lost ≡ₚ reports;
  tr_seen : forall h t, g.(rg_reporter).(er_seen) !! h = Some t -> exists x, x ∈ reports /\ hashError x.2.(ep_Error) = h /\ x.1 = t;
}.
(** A report of the same error, made within the hour before. *)
Definition covered (reports : list (Z * ErrorReport)) (x : Z * ErrorReport) : Prop :=
  exists y, y ∈ reports /\ hashError y.2.(ep_Error) = hashError x.2.(ep_Error) /\ (y.1 <= x.1 < y.1 + Hour)%Z.

Lemma covered_app reports new x : covered reports x -> covered (reports ++ new) x.
Proof. intros (y & Hy & H'). exists y. split; [by apply elem_of_app; left|done]. Qed.

Definition as_report (x : Z * ErrorReport) : Prop := x.2 = error_report origin x.1 x.2.(ep_Stack) x.2.(ep_Error).

(** A report that is made is waiting to be sent. *)
Lemma mark_traced s g xs stored lost n reports x : traced s g xs stored lost n reports -> legible x -> as_report x ->
  traced s (Build_Reporting (mark_reported x.1 x.2.(ep_Error) g.(rg_reporter))
              (g.(rg_sending) ++ [error_report origin x.1 x.2.(ep_Stack) x.2.(ep_Error)]) g.(rg_net))
    (xs ++ [x]) stored lost n (reports ++ [x]).
Proof.
  intros [Hsend Hread Hrows Hst Hlost Hall Hseen] Hx Hr. split; cbn.
  - by rewrite Hsend, fmap_app, <- Hr.
  - apply Forall_app. by split; [|apply Forall_singleton].
  - done.
  - done.
  - done.
  - rewrite <- Hall, <- !app_assoc. apply Permutation_app_head. rewrite (Permutation_app_comm [x]). by rewrite <- app_assoc.
  - intros h t [[<- <-]|[_ Hh]]%lookup_insert_Some.
    + exists x. split; [apply elem_of_app; right; by apply list_elem_of_singleton|done].
    + destruct (Hseen _ _ Hh) as (y & Hy & H'). exists y. split; [by apply elem_of_app; left|done].
Qed.

(** Reporting an error makes a report, unless one was made within the hour. *)
Lemma report_traced s g xs stored lost n reports x : traced s g xs stored lost n reports -> legible x -> as_report x ->
  (forall y, y ∈ reports -> (y.1 <= x.1)%Z) ->
  exists g' xs' new, ReportWithStack origin x.1 x.2.(ep_Error) x.2.(ep_Stack) g = (g', Ret tt) /\
    traced s g' xs' stored lost n (reports ++ new) /\ new `sublist_of` [x] /\ covered (reports ++ new) x /\
    g'.(rg_reporter) = Report x.1 x.2.(ep_Error) g.(rg_reporter) /\
    (g.(rg_reporter).(er_sent) = message_of <$> reports -> g'.(rg_reporter).(er_sent) = message_of <$> reports ++ new).
Proof.
  intros Ht Hx Hr Hle. unfold ReportWithStack, Report, modify.
  destruct (recently_reported x.1 (ep_Error x.2) (rg_reporter g)) eqn:Erec.
  - exists g, xs, []. rewrite app_nil_r. split_and!; [done|done|apply sublist_nil_l| |done..].
    unfold recently_reported in Erec. destruct (er_seen _ !! _) as [t|] eqn:Et; [|done].
    apply bool_decide_eq_true in Erec. destruct (tr_seen _ _ _ _ _ _ _ Ht _ _ Et) as (y & Hy & Hh & <-).
    exists y. split_and!; [done|done|by apply Hle|lia].
  - eexists _, (xs ++ [x]), [x]. split_and!; [reflexivity|by apply mark_traced|done| |done|].
    + exists x. assert (0 < Hour)%Z by done. split_and!; [apply elem_of_app; right; by apply list_elem_of_singleton|done|lia|lia].
    + intros Es. cbn. by rewrite fmap_app, Es.
Qed.

Lemma moved_front {A} (x : A) xs l a b : xs ≡ₚ x :: l -> l ++ (a ++ [x]) ++ b ≡ₚ xs ++ a ++ b.
Proof.
  intros Hp. rewrite <- app_assoc. transitivity (l ++ x :: a ++ b); [apply Permutation_app_head; symmetry; apply Permutation_middle|].
  transitivity (x :: l ++ a ++ b); [symmetry; apply Permutation_middle|]. exact (Permutation_app_tail (a ++ b) (symmetry Hp)).
Qed.
Lemma moved_back {A} (x : A) xs l a b : xs ≡ₚ x :: l -> l ++ a ++ (b ++ [x]) ≡ₚ xs ++ a ++ b.
Proof.
  intros Hp. rewrite !app_assoc. transitivity (x :: (l ++ a) ++ b); [symmetry; apply Permutation_cons_append|].
  rewrite <- !app_assoc. exact (Permutation_app_tail (a ++ b) (symmetry Hp)).
Qed.
(** Sending moves a report to the manager, or loses it. *)
Lemma send_traced s g xs stored lost n reports i now d : traced s g xs stored lost n reports ->
  exists g' xs' stored' lost', happens (Sends i now d) g = (g', Ret tt) /\
    traced s g' xs' stored' lost' (n + Nat.b2n (is_astray d)) reports /\ g'.(rg_reporter) = g.(rg_reporter).
Proof.
  intros []. cbn [happens]. unfold mbind, GoM_bind, gets, id. rewrite tr_sending0, list_lookup_fmap.
  destruct (xs !! i) as [x|] eqn:Ex; cbn [fmap option_fmap option_map].
  2: { exists g, xs, stored, lost. split; [done|]. split; [split; try done; lia|done]. }
  assert (Hx : legible x) by (by apply (Forall_lookup_1 _ _ _ _ tr_legible0 Ex)).
  unfold zoom, modify. cbn [rg_net set_rg_sending].
  destruct (send_outcome now d x g.(rg_net) Hx) as (s' & -> & Hs').
  pose proof (delete_Permutation _ _ _ Ex) as Hp.
  assert (Hl : Forall legible (delete i xs)) by (rewrite Hp in tr_legible0; by inversion tr_legible0).
  assert (Ht : takable (lost ++ [x]) = (takable lost + Nat.b2n (accepted x.2))%nat).
  { unfold takable. rewrite List.filter_app, length_app. cbn. by destruct (accepted x.2). }
  destruct (negb (is_astray d) && accepted x.2) eqn:Eo.
  - apply andb_true_iff in Eo as [_ Ha]. eexists _, (delete i xs), (stored ++ [x]), lost. split; [reflexivity|].
    split; [|done]. split; cbn [rg_sending rg_net rg_reporter set_rg_net set_rg_sending]; try done.
    + by rewrite list_fmap_delete.
    + by rewrite Hs', tr_rows0, <- app_assoc, fmap_app.
    + apply list.Forall_app. by split; [|apply list.Forall_singleton].
    + lia.
    + etransitivity; [|exact tr_all0]. by apply moved_front.
  - eexists _, (delete i xs), stored, (lost ++ [x]). split; [reflexivity|].
    split; [|done]. split; cbn [rg_sending rg_net rg_reporter set_rg_net set_rg_sending]; try done.
    + by rewrite list_fmap_delete.
    + by rewrite Hs', app_nil_r.
    + rewrite Ht. destruct (is_astray d), (accepted x.2); cbn in *; try done; lia.
    + etransitivity; [|exact tr_all0]. by apply moved_back.
Qed.

Lemma reported_happens e x : reported e = Some x ->
  as_report x /\ happens e = ReportWithStack origin x.1 x.2.(ep_Error) x.2.(ep_Stack).
Proof. by destruct e; intros [= <-]. Qed.

Definition strayed (es : list happening) : nat := length (List.filter goes_astray es).

Lemma happen_traced s es : forall g xs stored lost n reports,
  traced s g xs stored lost n reports -> g.(rg_reporter).(er_sent) = message_of <$> reports ->
  Forall legible (omap reported es) -> StronglySorted Z.le (fst <$> omap reported es) ->
  (forall x y, x ∈ omap reported es -> y ∈ reports -> (y.1 <= x.1)%Z) ->
  exists g' xs' stored' lost' new, happen es g = (g', Ret tt) /\ traced s g' xs' stored' lost' (n + strayed es) (reports ++ new) /\
    g'.(rg_reporter).(er_sent) = message_of <$> reports ++ new /\ new `sublist_of` omap reported es /\
    (forall x, x ∈ omap reported es -> covered (reports ++ new) x) /\
    g'.(rg_reporter) = report_all (message_of <$> omap reported es) g.(rg_reporter).
Proof.
  induction es as [|e es IH]; intros g xs stored lost n reports Ht Hs Hr Ho Hle.
  { exists g, xs, stored, lost, []. rewrite app_nil_r, Nat.add_0_r. split_and!; [done..|apply sublist_nil_l|by intros x ?%elem_of_nil|done]. }
  cbn [happen foldr]. destruct (reported e) as [x|] eqn:Ex.
  - assert (Eo : omap reported (e :: es) = x :: omap reported es) by (cbn; by rewrite Ex).
    assert (En : strayed (e :: es) = strayed es) by (by destruct e).
    rewrite Eo, En in *. destruct (reported_happens e x Ex) as [Hx Ee].
    apply list.Forall_cons in Hr as [Hrx Hr]. rewrite fmap_cons in Ho. apply StronglySorted_inv in Ho as [Ho Hox].
    destruct (report_traced s g xs stored lost n reports x) as (g1 & xs1 & new1 & E1 & T1 & S1 & C1 & R1 & M1); [done..| |].
    { intros y Hy. apply Hle; [left|done]. }
    destruct (IH g1 xs1 stored lost n (reports ++ new1)) as (g' & xs' & stored' & lost' & new & E' & T' & M' & S' & C' & R'); [done|by apply M1|done..| |].
    { intros z y Hz [Hy|Hy]%elem_of_app; [by apply Hle; [right|]|].
      eapply elem_of_submseteq in Hy; [|exact (sublist_submseteq _ _ S1)]. apply list_elem_of_singleton in Hy as ->.
      rewrite List.Forall_forall in Hox. apply Hox, list_elem_of_In, list_elem_of_fmap. eauto. }
    exists g', xs', stored', lost', (new1 ++ new). rewrite app_assoc, Ee, (bind_Ret _ _ _ _ _ E1). split_and!; [done..| | |].
    + by apply (sublist_app _ [x]).
    + intros z [->|Hz]%elem_of_cons; [by apply covered_app|by apply C'].
    + by rewrite R', R1.
  - assert (Eo : omap reported (e :: es) = omap reported es) by (cbn; by rewrite Ex). rewrite Eo in *. destruct e as [| |i now d]; [done..|].
    destruct (send_traced s g xs stored lost n reports i now d Ht) as (g1 & xs1 & stored1 & lost1 & E1 & T1 & R1).
    rewrite (bind_Ret _ _ _ _ _ E1), <- R1.
    assert (En : (n + strayed (Sends i now d :: es) = n + Nat.b2n (is_astray d) + strayed es)%nat).
    { unfold strayed. cbn. destruct (is_astray d); cbn; lia. }
    rewrite En. apply (IH g1 xs1 stored1 lost1); [done|by rewrite R1|done..].
Qed.

(** C29. Errors reach the manager unless the network or the manager turns them away,
    whatever the order in which the goroutines send. After any history of errors
    and of sends, each of which may get to the manager or go astray, and with a
    database that works, the reports that were made are those still to be sent, those
    stored - as one row each, with the report's text, stack, version and time as
    JSON carries them - and those lost. Only reports the manager takes are
    stored, and of these no more are lost than sends went astray: the manager
    refuses the others, which come with a wrong key, exceed 64 KB or lack a
    fingerprint or a message. Every error has a report made within the hour
    before it (two messages with the same hash count as one error), and two reports
    of one message are an hour apart: a report that is lost is not repeated
    sooner. *)
Theorem errors_reach_the_manager es s :
  Forall legible (omap reported es) -> StronglySorted Z.le (fst <$> omap reported es) ->
  exists g xs stored lost reports,
    happen es (Build_Reporting NewReporter [] s) = (g, Ret tt) /\ g.(rg_sending) = snd <$> xs /\
    live (db_ClientErrors g.(rg_net)) = live (db_ClientErrors s) ++ (row_of <$> stored) /\
    xs ++ stored ++ lost ≡ₚ reports /\ Forall (fun x => accepted x.2 = true) stored /\ (takable lost <= strayed es)%nat /\
    reports `sublist_of` omap reported es /\ (forall x, x ∈ omap reported es -> covered reports x) /\
    forall i j x y, (i < j)%nat -> reports !! i = Some x -> reports !! j = Some y -> x.2.(ep_Error) = y.2.(ep_Error) ->
      (x.1 + Hour <= y.1)%Z.
Proof.
  intros Hr Ho. destruct (happen_traced s es (Build_Reporting NewReporter [] s) [] [] [] 0 [])
    as (g & xs & stored & lost & reports & E & [] & M & S & C & R); [|done..|by intros ? ? ? ?%elem_of_nil|].
  { split; cbn; [done..|by rewrite app_nil_r|done|done|done|]. intros h t. by rewrite lookup_empty. }
  exists g, xs, stored, lost, reports. split_and!; [done..|].
  intros i j x y Hij Hi Hj Hxy. rewrite R in M. cbn [app] in M.
  pose proof (reports_are_spaced (message_of <$> omap reported es)) as Hsp. cbn [rg_reporter] in M. rewrite M in Hsp.
  specialize (Hsp ltac:(by rewrite <- list_fmap_compose) i j x.1 y.1 x.2.(ep_Error) Hij).
  rewrite !list_lookup_fmap, Hi, Hj in Hsp. cbn in Hsp. unfold message_of in Hsp. rewrite Hxy in Hsp.
  specialize (Hsp eq_refl eq_refl). lia.
Qed.

(** What the manager's limit cuts is lost. A report whose first 64 KB are no
    JSON document is refused, nothing is stored, and the client, which only logs
    the refusal, stays silent about the error for an hour. *)
Theorem long_reports_are_lost now now' d x s (r : Reporter) :
  json_parse (take_str (64 * 1024) (json_text (Marshal_ErrorReport x.2))) = None ->
  send (errors_exchange workerKey now d) origin x.2 s = (s, Ret tt) /\
  ((x.1 <= now' < x.1 + Hour)%Z -> recently_reported now' x.2.(ep_Error) (mark_reported x.1 x.2.(ep_Error) r) = true).
Proof.
  intros Hj. split.
  - unfold send, errors_exchange, ErrorsHandler, received. cbn [r_Method k_Method]. rewrite (bool_decide_eq_true_2 ("POST" = "POST")) by done.
    unfold errors_handlePost. cbn [k_Body r_Body]. rewrite Hj. destruct d; [by destruct (worker_bearer _ _)..|done].
  - intros Hn. unfold recently_reported, mark_reported. cbn [er_seen]. rewrite lookup_insert_eq.
    apply bool_decide_eq_true_2. lia.
Qed.
End history.

Section witnesses.
#[local] Existing Instances MemGorm MemGormLaws MemGormUp ToyCrypto.

Definition origin_ex : Origin :=
  {| or_managerURL := "http://manager:7500"; or_workerKey := "key"; or_fingerprint := fp_ex; or_version := "0.2.0" |}.
(** Two instants, and the two reports made at them. *)
Definition TwoTimes : TimeText :=
  {| rfc3339_format t := if bool_decide (t < 5 * Second)%Z then "t0" else "t5";
     rfc3339_parse s := if s == "t0" then Some 0%Z else if s == "t5" then Some (5 * Second)%Z else None |}.
#[local] Existing Instance TwoTimes.
Definition stack_ex : list Frame :=
  [{| fr_Function := "runtime.gopanic"; fr_File := "panic.go"; fr_Line := 770 |};
   {| fr_Function := "worker.infer"; fr_File := "worker.go"; fr_Line := 350 |}].
Definition disk_full : ErrorReport := error_report origin_ex 7 (captureStack stack_ex) "disk full".
Definition crashed : ErrorReport := error_report origin_ex (5 * Second + 3) "goroutine 7" "panic in worker".
Definition ReportJson : JsonText := {|
  json_text j := match j with JObj (_ :: _ :: (_, JStr msg) :: _) => msg | _ => "" end;
  json_parse s := if s == "disk full" then Some (Marshal_ErrorReport disk_full)
                  else if s == "panic in worker" then Some (Marshal_ErrorReport crashed) else None;
  json_first _ := None |}.
#[local] Existing Instance ReportJson.

(** An error happens twice; the report of a later one is sent first, and that of the first is lost on the way. *)
Definition history_ex : list happening :=
  [Failed 7 stack_ex "disk full"; Failed 8 stack_ex "disk full"; Crashed (5 * Second + 3) "goroutine 7" "panic in worker";
   Sends 1 9 (AnswerLost "timeout"); Sends 0 9 (Astray (NotSent "refused"))].

Lemma legible_ex x : x ∈ [(7, disk_full); (8, disk_full); (5 * Second + 3, crashed)]%Z -> legible x.
Proof.
  intros Hx. unfold legible. rewrite !elem_of_cons in Hx. destruct Hx as [->|[->|[->|[]%elem_of_nil]]]; cbn [fst snd].
  all: split_and!; [vm_compute; reflexivity| |reflexivity|reflexivity].
  all: intros n Hn; do 15 (destruct n as [|n]; [first [reflexivity|vm_compute in Hn; lia]|]); vm_compute in Hn; lia.
Qed.

Lemma errors_reach_the_manager_witness : exists g xs stored lost reports,
  happen origin_ex "key" history_ex (Build_Reporting NewReporter [] empty_store) = (g, Ret tt) /\
  live (db_ClientErrors g.(rg_net)) = [] ++ (row_of <$> stored) /\ xs ++ stored ++ lost ≡ₚ reports /\
  live (db_ClientErrors g.(rg_net)) = [row_of (5 * Second + 3, crashed)]%Z /\ g.(rg_sending) = [].
Proof.
  destruct (errors_reach_the_manager origin_ex "key" history_ex empty_store)
    as (g & xs & stored & lost & reports & E & _ & Hrows & Hall & _).
  - apply list.Forall_forall. exact legible_ex.
  - apply (bool_decide_unpack _). vm_compute. done.
  - exists g, xs, stored, lost, reports. split; [exact E|]. split; [exact Hrows|]. split; [exact Hall|].
    assert (Eg : g = run (happen origin_ex "key" history_ex) (Build_Reporting NewReporter [] empty_store))
      by (unfold run; by rewrite E).
    split; rewrite Eg; vm_compute; reflexivity.
Defined.

Lemma long_reports_are_lost_witness :
  send (errors_exchange "key" 9 Arrives) origin_ex (error_report origin_ex 7 "" "long") empty_store =
    (empty_store, Ret tt).
Proof.
  apply (long_reports_are_lost origin_ex "key" 9 8 Arrives (7, error_report origin_ex 7 "" "long")%Z empty_store NewReporter).
  vm_compute. reflexivity.
Defined.
End witnesses.
