(* ===== verification/DashboardServer.v ===== *)
(** * The dashboard's listener (internal/client/server/server.go, Run)

    The routes of the dashboard on the worker's machine, over the multiplexer of
    Routes and the handlers of ClientServer, and how long its streams last. *)

From S2P Require Import Autostart.
From S2P Require Import Prelude GoStd Json Http Routes ClientState ClientServer.

Inductive dash_handler :=
  | HStatus | HStatusEvents | HGPU | HHealth | HDashConsent | HDashConfig | HDashRoles | HAutostart | HHardwareInfo
  | HManagerURL | HDashLogs | HDashLogsFile | HDashLogLevel | HUninstall | HBrandingCSS | HDashStatic.

#[export] Instance dash_handler_eq_dec : EqDecision dash_handler.
Proof. solve_decision. Defined.

Definition dashboard_routes : list (string * dash_handler) :=
  [ ("/api/status", HStatus); ("/api/status-events", HStatusEvents); ("/api/gpu", HGPU); ("/api/health", HHealth);
    ("/api/consent", HDashConsent); ("/api/config", HDashConfig); ("/api/roles", HDashRoles); ("/api/autostart", HAutostart);
    ("/api/hardware-info", HHardwareInfo); ("/api/manager-url", HManagerURL); ("/api/logs", HDashLogs);
    ("/api/logs-file", HDashLogsFile); ("/api/log-level", HDashLogLevel); ("/api/uninstall", HUninstall);
    ("/static/branding.css", HBrandingCSS); ("/", HDashStatic) ].
Definition dashboard_mux : Mux dash_handler := handle dashboard_routes [].

(** What a request is answered with: a response, the begin of a stream with the
    identifier of its subscription, a text, a file of the embedded directory
    [static], a redirection of the multiplexer. *)
Inductive dash_answer :=
  | DashResponse (r : Response)
  | DashStatusStream (first : json) (id : nat)
  | DashLogStream (history : list string) (id : nat)
  | DashText (t : string)
  | DashStatic (path : string)
  | DashRedirect (path : string)
  | DashUninstall (r : Response) (runs : bool)   (* whether the uninstallation follows *)
  | DashNotFound.

Section serve.
Context `{JsonText, TimeText, Protocol.Crypto, Platform} {N : Type}.
Variable exchange : Call -> GoM N exchanged.
Variable ins : Install.
Variable save : string -> GoM (Dashboard N) unit.

Definition answer_dash (m : GoM (Dashboard N) Response) : GoM (Dashboard N) dash_answer := r ← m; mret (DashResponse r).

(** [now]: the clock; [readable]: the log file can be read *)
Definition serve_handler (h : dash_handler) (now : Z) (readable : bool) (r : Request) : GoM (Dashboard N) dash_answer :=
  match h with
  | HStatus => answer_dash (handleStatus ins now r)
  | HStatusEvents =>
      first ← statusEvents_first ins now r;
      match first with
      | inr resp => mret (DashResponse resp)
      | inl payload => id ← statusEvents_subscribe; mret (DashStatusStream payload id)
      end
  | HGPU => answer_dash (handleGPU r)
  | HHealth => answer_dash (handleHealth r)
  | HDashConsent => answer_dash (handleConsent exchange ins r)
  | HDashConfig => answer_dash (handleConfig exchange ins r)
  | HDashRoles => answer_dash (handleRoles exchange ins r)
  | HAutostart => answer_dash (handleAutostart ins r)
  | HHardwareInfo => answer_dash (handleHardwareInfo r)
  | HManagerURL => answer_dash (handleManagerURL ins r)
  | HDashLogs => history ← logs_history; id ← logs_subscribe; mret (DashLogStream history id)
  | HDashLogsFile =>
      x ← handleLogsFile ins readable r;
      mret match x with inl t => DashText t | inr resp => DashResponse resp end
  | HDashLogLevel => answer_dash (handleLogLevel ins save r)
  | HUninstall => x ← handleUninstall r; mret (DashUninstall x.1 x.2)
  | HBrandingCSS => css ← handleBrandingCSS r; mret (DashText css)
  | HDashStatic => mret (DashStatic r.(r_Path))
  end.
Definition serve_dashboard (escaped : string) (now : Z) (readable : bool) (r : Request) : GoM (Dashboard N) dash_answer :=
  match findHandler dashboard_mux r.(r_Method) escaped with
  | To h => serve_handler h now readable r
  | RedirectTo path => mret (DashRedirect path)
  | NoRoute => mret DashNotFound
  end.
End serve.

(** The server allows a response [WriteTimeout] from the request on;
    [handleStatusEvents] lifts it, [handleLogs] does not. A write after the
    deadline fails, and its error is not looked at. *)
Definition WriteTimeout : Z := 5 * Second.
Definition write_deadline (h : dash_handler) (start : Z) : option Z :=
  match h with HStatusEvents => None | _ => Some (start + WriteTimeout)%Z end.
Definition arrives (h : dash_handler) (start : Z) (write : Z * string) : bool :=
  match write_deadline h start with None => true | Some t => bool_decide (write.1 < t)%Z end.
Definition stream_received (h : dash_handler) (start : Z) (writes : list (Z * string)) : list string :=
  snd <$> List.filter (arrives h start) writes.

(** ** Properties *)

Section properties.
Context `{JsonText, TimeText, Protocol.Crypto, Platform} {N : Type}.
Variable exchange : Call -> GoM N exchanged.
Variable ins : Install.
Variable save : string -> GoM (Dashboard N) unit.
Abbreviation serve := (serve_dashboard exchange ins save).

Definition api_routes : list (string * dash_handler) := List.filter (fun p => p.1 != "/") dashboard_routes.
Definition exact_route (p : string * dash_handler) : Prop :=
  (forall Method, findHandler dashboard_mux Method p.1 = To p.2).

Lemma exact_routes : Forall exact_route api_routes.
Proof.
  assert (Hall : Forall (fun p => matchOrRedirect dashboard_mux p.1 (path_segment p.1) = inl (Some (parse_pattern p.1, p.2)) /\
                                  cleanPath p.1 = p.1) api_routes).
  { repeat constructor; vm_compute; reflexivity. }
  eapply list.Forall_impl; [exact Hall|]. intros p [Hm Hc] Method. unfold findHandler. rewrite Hc, Hm.
  destruct (Method == "CONNECT"); [done|]. by rewrite bool_decide_eq_true_2.
Qed.

(** Every address of the dashboard's API reaches its handler, whatever the
    method, which the handler judges itself. *)
Theorem dashboard_routes_reach_their_handlers p now readable r d : p ∈ api_routes ->
  serve p.1 now readable r d = serve_handler exchange ins save p.2 now readable r d.
Proof.
  intros Hp. pose proof exact_routes as Ha. rewrite list.Forall_forall in Ha. unfold serve_dashboard.
  by rewrite (Ha p Hp).
Qed.

Definition with_headers (h : string -> string) (r : Request) : Request :=
  {| r_Method := r.(r_Method); r_Path := r.(r_Path); r_Header := h; r_Query := r.(r_Query); r_Body := r.(r_Body) |}.

(** The dashboard answers everyone alike: it looks at no header, so that
    neither a key nor a cookie nor the origin of a request counts. A POST that a
    page of any site makes the browser of the worker's user send starts the
    uninstallation. *)
Theorem dashboard_does_not_look_at_headers path h now readable r d :
  serve path now readable (with_headers h r) d = serve path now readable r d /\
  (r.(r_Method) = "POST" -> as_GOOS <> "windows" ->
     exists resp, serve "/api/uninstall" now readable (with_headers h r) d = (d, Ret (DashUninstall resp true))).
Proof.
  assert (E : forall h', serve_handler exchange ins save h' now readable (with_headers h r) = serve_handler exchange ins save h' now readable r)
    by (by intros []).
  split.
  - unfold serve_dashboard. cbn [r_Method with_headers]. destruct (findHandler _ _ _) as [p|h'|]; [done|by rewrite E|done].
  - intros Hm Hw. assert (Hin : ("/api/uninstall", HUninstall) ∈ api_routes) by (apply (bool_decide_unpack _); vm_compute; done).
    rewrite (dashboard_routes_reach_their_handlers _ now readable _ d Hin). cbn [snd]. rewrite E.
    unfold serve_handler, handleUninstall, mbind, GoM_bind. rewrite Hm, (bool_decide_eq_false_2 (as_GOOS = "windows")) by done. by eexists.
Qed.
End properties.

(** The log stream of the dashboard ends after five seconds: what is logged
    later is written to a connection past its deadline, and the page never sees
    it; the status events keep arriving. *)
Theorem log_stream_stops start writes :
  stream_received HStatusEvents start writes = snd <$> writes /\
  stream_received HDashLogs start writes = snd <$> List.filter (fun w => bool_decide (w.1 < start + 5 * Second)%Z) writes /\
  (Forall (fun w => start + 5 * Second <= w.1)%Z writes -> stream_received HDashLogs start writes = []).
Proof.
  unfold stream_received, arrives, write_deadline, WriteTimeout. split_and!; [|done|].
  - f_equal. by induction writes as [|w l IH]; [|cbn; f_equal].
  - induction 1 as [|w l Hw _ IH]; [done|]. cbn. by rewrite bool_decide_eq_false_2 by lia.
Qed.

Section witnesses.
#[local] Existing Instances ClientJson Disk Protocol.ToyCrypto WorkerApi.time_ex.

Lemma dashboard_routes_reach_their_handlers_witness :
  result (serve_dashboard offline ins_ex (fun _ => skip) "/api/health" 0 true (post_ex "")) (dash_ex tt zero_ConsentState) =
    Ret (DashResponse (writeJSON 200 (JObj [("status", JStr "ok")]))).
Proof.
  unfold result. rewrite (dashboard_routes_reach_their_handlers offline ins_ex (fun _ => skip) ("/api/health", HHealth)); [reflexivity|].
  apply (bool_decide_unpack _). vm_compute. done.
Defined.

Lemma dashboard_does_not_look_at_headers_witness : exists resp,
  serve_dashboard offline ins_ex (fun _ => skip) "/api/uninstall" 0 true
    (with_headers (add_header "Origin" "https://elsewhere.example" no_header) (post_ex "")) (dash_ex tt zero_ConsentState) =
    (dash_ex tt zero_ConsentState, Ret (DashUninstall resp true)).
Proof.
  apply (dashboard_does_not_look_at_headers offline ins_ex (fun _ => skip) "/api/uninstall"
    (add_header "Origin" "https://elsewhere.example" no_header) 0 true (post_ex "") (dash_ex tt zero_ConsentState)); [reflexivity|discriminate].
Defined.

Lemma log_stream_stops_witness :
  stream_received HDashLogs 0 [(6 * Second, "late")]%Z = [] /\ stream_received HStatusEvents 0 [(6 * Second, "late")]%Z = ["late"].
Proof.
  split; [|apply (log_stream_stops 0 [(6 * Second, "late")]%Z)].
  apply (log_stream_stops 0 [(6 * Second, "late")]%Z). apply (bool_decide_unpack _). vm_compute. done.
Defined.
End witnesses.
