(* ===== verification/Tray.v ===== *)
(** * The tray (internal/client/tray, and the goroutines of main that serve it)

    What the icon shows while the tray starts, and the menu whose clicks travel
    over channels to the process. The calls of the systray library are recorded
    as what the user sees. *)

From S2P Require Import Prelude GoStd Protocol ClientState Worker Connection ClientMain.

(** ** The icon *)

Inductive icon := iconConnectedIdle | iconDisconnected | iconReconnecting | iconPaused | iconProcessing.

Record Display := {
  di_ready : bool;
  di_pending : string;          (* pendingStatus *)
  di_icon : option icon;
  di_tooltip : string;
}.
Definition NewDisplay : Display := {| di_ready := false; di_pending := ""; di_icon := None; di_tooltip := "" |}.
Definition setIcon (i : icon) (d : Display) : Display :=
  {| di_ready := d.(di_ready); di_pending := d.(di_pending); di_icon := Some i; di_tooltip := d.(di_tooltip) |}.
Definition SetTooltip (t : string) (d : Display) : Display :=
  {| di_ready := d.(di_ready); di_pending := d.(di_pending); di_icon := d.(di_icon); di_tooltip := t |}.
Definition set_pending (s : string) (d : Display) : Display :=
  {| di_ready := d.(di_ready); di_pending := s; di_icon := d.(di_icon); di_tooltip := d.(di_tooltip) |}.
Definition set_ready (d : Display) : Display :=
  {| di_ready := true; di_pending := d.(di_pending); di_icon := d.(di_icon); di_tooltip := d.(di_tooltip) |}.

(** The icon and the tooltip of a status; [s] is what the status provider knows. *)
Definition shown_for (s : Snapshot) (current : string) : icon * string :=
  if current == StatusDisconnected then (iconDisconnected, "Synergia Worker — Disconnected")
  else if current == StatusLLMUnreachable then (iconReconnecting, "Synergia Worker — LLM Unreachable: " +:+ s.(s_llmError))
  else if current == StatusGPUUnsupported then (iconReconnecting, "Synergia Worker — GPU Unsupported: " +:+ s.(s_gpuSupportReason))
  else if current == StatusPaused then (iconPaused, "Synergia Worker — Paused")
  else if current == StatusGPUBusy then (iconReconnecting, "Synergia Worker — GPU Busy")
  else if current == StatusProcessing then (iconProcessing, "Synergia Worker — Processing")
  else (iconConnectedIdle, "Synergia Worker — Ready").
Definition applyStatus (s : Snapshot) (current : string) : GoM Display unit :=
  modify (fun d => SetTooltip (shown_for s current).2 (setIcon (shown_for s current).1 d)).

(** [UpdateStatus] loads the flag and acts on what it loaded. *)
Definition update_load : GoM Display bool := gets di_ready.
Definition update_act (ready : bool) (s : Snapshot) (current : string) : GoM Display unit :=
  if negb ready then modify (set_pending current) else applyStatus s current.
Definition UpdateStatus (s : Snapshot) (current : string) : GoM Display unit :=
  ready ← update_load; update_act ready s current.

(** [onReady], up to where it has set the flag, up to where it has taken the
    pending status, and up to where it has shown it. *)
Definition ready_store : GoM Display unit :=
  modify (SetTooltip "Synergia Worker") ;; modify (setIcon iconConnectedIdle) ;; modify set_ready.
Definition ready_take : GoM Display string :=
  pending ← gets di_pending; modify (set_pending "") ;; mret pending.
Definition ready_replay (s : Snapshot) (pending : string) : GoM Display unit :=
  when (pending != "") (applyStatus s pending).
Definition onReady (s : Snapshot) : GoM Display unit :=
  ready_store ;; pending ← ready_take; ready_replay s pending.

(** The two goroutines, step by step. *)
Inductive ready_pc := RStart | RStored | RTaken (pending : string) | RDone.
Record Race := {
  ra_display : Display;
  ra_update : option (bool * string);   (* an update that has loaded the flag, and its status *)
  ra_pc : ready_pc;
}.
Definition NewRace : Race := {| ra_display := NewDisplay; ra_update := None; ra_pc := RStart |}.
Inductive race_event := Loads (current : string) | Acts (s : Snapshot) | Stores | Takes | Replays (s : Snapshot).

Definition on_display {A} (m : GoM Display A) : GoM Race A :=
  zoom ra_display (fun d r => {| ra_display := d; ra_update := r.(ra_update); ra_pc := r.(ra_pc) |}) m.
Definition set_update (u : option (bool * string)) (r : Race) : Race :=
  {| ra_display := r.(ra_display); ra_update := u; ra_pc := r.(ra_pc) |}.
Definition set_pc (pc : ready_pc) (r : Race) : Race :=
  {| ra_display := r.(ra_display); ra_update := r.(ra_update); ra_pc := pc |}.
(** A step that is not the next one of its goroutine does not happen. *)
Definition exec_race (e : race_event) : GoM Race unit :=
  r ← gets id;
  match e, r.(ra_update), r.(ra_pc) with
  | Loads current, None, _ => ready ← on_display update_load; modify (set_update (Some (ready, current)))
  | Acts s, Some (ready, current), _ => on_display (update_act ready s current) ;; modify (set_update None)
  | Stores, _, RStart => on_display ready_store ;; modify (set_pc RStored)
  | Takes, _, RStored => pending ← on_display ready_take; modify (set_pc (RTaken pending))
  | Replays s, _, RTaken pending => on_display (ready_replay s pending) ;; modify (set_pc RDone)
  | _, _, _ => block
  end.

(** ** The menu *)

Record Menu := {
  mn_resume : bool;      (* Resume is offered, and Pause hidden *)
  mn_pauseCh : nat;      (* what waits in the channels, each of capacity 1 *)
  mn_resumeCh : nat;
  mn_quitCh : nat;
  mn_opened : list string;   (* addresses opened in the browser *)
  mn_quit : bool;        (* systray.Quit *)
}.
Definition NewMenu : Menu :=
  {| mn_resume := false; mn_pauseCh := 0; mn_resumeCh := 0; mn_quitCh := 0; mn_opened := []; mn_quit := false |}.
Definition set_mn_resume (v : bool) (m : Menu) : Menu :=
  {| mn_resume := v; mn_pauseCh := m.(mn_pauseCh); mn_resumeCh := m.(mn_resumeCh); mn_quitCh := m.(mn_quitCh);
     mn_opened := m.(mn_opened); mn_quit := m.(mn_quit) |}.
Definition set_pauseCh (n : nat) (m : Menu) : Menu :=
  {| mn_resume := m.(mn_resume); mn_pauseCh := n; mn_resumeCh := m.(mn_resumeCh); mn_quitCh := m.(mn_quitCh);
     mn_opened := m.(mn_opened); mn_quit := m.(mn_quit) |}.
Definition set_resumeCh (n : nat) (m : Menu) : Menu :=
  {| mn_resume := m.(mn_resume); mn_pauseCh := m.(mn_pauseCh); mn_resumeCh := n; mn_quitCh := m.(mn_quitCh);
     mn_opened := m.(mn_opened); mn_quit := m.(mn_quit) |}.
Definition set_quitCh (n : nat) (m : Menu) : Menu :=
  {| mn_resume := m.(mn_resume); mn_pauseCh := m.(mn_pauseCh); mn_resumeCh := m.(mn_resumeCh); mn_quitCh := n;
     mn_opened := m.(mn_opened); mn_quit := m.(mn_quit) |}.
Definition set_opened (l : list string) (m : Menu) : Menu :=
  {| mn_resume := m.(mn_resume); mn_pauseCh := m.(mn_pauseCh); mn_resumeCh := m.(mn_resumeCh); mn_quitCh := m.(mn_quitCh);
     mn_opened := l; mn_quit := m.(mn_quit) |}.
Definition set_mn_quit (m : Menu) : Menu :=
  {| mn_resume := m.(mn_resume); mn_pauseCh := m.(mn_pauseCh); mn_resumeCh := m.(mn_resumeCh); mn_quitCh := m.(mn_quitCh);
     mn_opened := m.(mn_opened); mn_quit := true |}.

(** The command that opens an address; [None] where there is none. *)
Definition tray_command (GOOS url : string) : option (list string) :=
  if GOOS == "darwin" then Some ["open"; url]
  else if GOOS == "linux" then Some ["xdg-open"; url]
  else if GOOS == "windows" then Some ["rundll32"; "url.dll,FileProtocolHandler"; url]
  else None.
(** browser.Open *)
Definition browser_command (GOOS url : string) : option (list string) :=
  if GOOS == "darwin" then Some ["open"; url]
  else if GOOS == "linux" then Some ["xdg-open"; url]
  else if GOOS == "windows" then Some ["cmd"; "/c"; "start"; ""; url]
  else None.

Definition open_address (url : string) : GoM Menu unit := m ← gets id; modify (set_opened (m.(mn_opened) ++ [url])).

(** a send on a channel of capacity 1 *)
Definition send1 (get : Menu -> nat) (set : nat -> Menu -> Menu) : GoM Menu unit :=
  n ← gets get; if bool_decide (n < 1)%nat then modify (set (S n)) else block.

Inductive item := OpenDashboard | OpenBackend | ItemPause | ItemResume | ItemQuit.
(** the entries on display; the backend is offered when the manager is local *)
Definition visible (adminURL : string) (m : Menu) (i : item) : bool :=
  match i with
  | OpenBackend => adminURL != ""
  | ItemPause => negb m.(mn_resume)
  | ItemResume => m.(mn_resume)
  | _ => true
  end.
(** the goroutine of [onReady] *)
Definition clicked (dashURL adminURL : string) (i : item) : GoM Menu unit :=
  m ← gets id;
  if negb (visible adminURL m i) then block
  else match i with
  | OpenDashboard => open_address dashURL
  | OpenBackend => open_address adminURL
  | ItemPause => modify (set_mn_resume true) ;; send1 mn_pauseCh set_pauseCh
  | ItemResume => modify (set_mn_resume false) ;; send1 mn_resumeCh set_resumeCh
  | ItemQuit => send1 mn_quitCh set_quitCh ;; modify set_mn_quit
  end.

(** ** Main at the other end of the channels *)

Record Desk := { dk_menu : Menu; dk_worker : Worker; dk_stopped : bool }.
Definition set_menu (m : Menu) (d : Desk) : Desk := {| dk_menu := m; dk_worker := d.(dk_worker); dk_stopped := d.(dk_stopped) |}.
Definition set_dk_worker (w : Worker) (d : Desk) : Desk := {| dk_menu := d.(dk_menu); dk_worker := w; dk_stopped := d.(dk_stopped) |}.

Inductive desk_event := Click (i : item) | TakePause | TakeResume | TakeQuit.

Section desk.
Context `{ClientSocket}.
Variables dashURL adminURL : string.

Definition on_menu {A} (m : GoM Menu A) : GoM Desk A := zoom dk_menu set_menu m.
(** a receive; the select may take any of its branches that is ready *)
Definition take1 (get : Menu -> nat) (set : nat -> Menu -> Menu) : GoM Menu unit :=
  n ← gets get; match n with O => block | S n => modify (set n) end.
Definition exec_desk (e : desk_event) : GoM Desk unit :=
  match e with
  | Click i => on_menu (clicked dashURL adminURL i)
  | TakePause => on_menu (take1 mn_pauseCh set_pauseCh) ;; zoom dk_worker set_dk_worker pause
  | TakeResume => on_menu (take1 mn_resumeCh set_resumeCh) ;; zoom dk_worker set_dk_worker resume
  | TakeQuit => on_menu (take1 mn_quitCh set_quitCh) ;;
      modify (fun d => {| dk_menu := d.(dk_menu); dk_worker := d.(dk_worker); dk_stopped := true |})
  end.
End desk.

(** ** What the icon shows *)

Definition updates (us : list (Snapshot * string)) : GoM Display unit := foreach us (fun u => UpdateStatus u.1 u.2).
Definition sees (d : Display) : option icon * string := (d.(di_icon), d.(di_tooltip)).
Definition seen_as (p : icon * string) : option icon * string := (Some p.1, p.2).

Lemma updates_before us d : d.(di_ready) = false ->
  updates us d = (set_pending (List.last (snd <$> us) d.(di_pending)) d, Ret tt).
Proof.
  revert d. induction us as [|u us IH]; intros d Hd; [by destruct d|].
  unfold updates in *. cbn [foreach]. rewrite (bind_Ret _ _ d (set_pending u.2 d) tt).
  - rewrite IH by done. rewrite fmap_cons, last_cons. by destruct d.
  - unfold UpdateStatus, update_load, update_act, mbind, GoM_bind, gets. by rewrite Hd.
Qed.

Lemma updates_after us d : d.(di_ready) = true ->
  exists d', updates us d = (d', Ret tt) /\
    sees d' = List.last ((fun u => seen_as (shown_for u.1 u.2)) <$> us) (sees d).
Proof.
  revert d. induction us as [|u us IH]; intros d Hd; [by exists d|].
  unfold updates in *. cbn [foreach]. set (d1 := SetTooltip (shown_for u.1 u.2).2 (setIcon (shown_for u.1 u.2).1 d)).
  rewrite (bind_Ret _ _ d d1 tt).
  - destruct (IH d1) as (d' & E & Hs); [done|]. exists d'. split; [exact E|]. by rewrite Hs, fmap_cons, last_cons.
  - unfold UpdateStatus, update_load, update_act, mbind, GoM_bind, gets. by rewrite Hd.
Qed.

Lemma onReady_shows s0 d : exists d', onReady s0 d = (d', Ret tt) /\ d'.(di_ready) = true /\
  sees d' = if d.(di_pending) == "" then (Some iconConnectedIdle, "Synergia Worker") else seen_as (shown_for s0 d.(di_pending)).
Proof.
  unfold onReady, ready_store, ready_take, ready_replay, mbind, GoM_bind, modify, gets, mret, GoM_ret.
  destruct d as [b p i t]. cbn -[shown_for]. case_bool_decide; cbn -[shown_for]; by eexists.
Qed.

(** The tray shows the latest status. Whatever was reported before the tray
    was ready and whatever is reported afterwards, as long as no update falls
    into the start of the tray the icon and the tooltip are those of the last
    one. *)
Theorem tray_shows_the_latest_status before after s0 : (forall u, u ∈ before -> u.2 <> "") ->
  exists d, (updates before ;; onReady s0 ;; updates after) NewDisplay = (d, Ret tt) /\
    sees d = List.last (((fun u => seen_as (shown_for s0 u.2)) <$> before) ++ ((fun u => seen_as (shown_for u.1 u.2)) <$> after))
               (Some iconConnectedIdle, "Synergia Worker").
Proof.
  intros Hb. rewrite (bind_Ret _ _ _ _ _ (updates_before before NewDisplay eq_refl)).
  set (p := List.last (snd <$> before) ""). change (List.last (snd <$> before) (di_pending NewDisplay)) with p.
  destruct (onReady_shows s0 (set_pending p NewDisplay)) as (d1 & E1 & Hr & Hs). cbn [di_pending set_pending] in Hs.
  rewrite (bind_Ret _ _ _ _ _ E1). destruct (updates_after after d1 Hr) as (d & E & Hd).
  exists d. split; [exact E|]. rewrite Hd. destruct after as [|u after] using rev_ind.
  - cbn [fmap list_fmap]. rewrite app_nil_r. cbn [List.last]. rewrite Hs. unfold p. destruct before as [|b before _] using rev_ind; [done|].
    assert (b.2 <> "") by (apply Hb, elem_of_app; right; by apply list_elem_of_singleton).
    rewrite !fmap_app. cbn [fmap list_fmap]. rewrite !List.last_last. by rewrite bool_decide_eq_false_2.
  - rewrite fmap_app. cbn [fmap list_fmap]. by rewrite app_assoc, !List.last_last.
Qed.

(** An update that falls into the start of the tray may be lost: one that
    loads the flag before the tray sets it, and acts after the tray has looked
    for a pending status, leaves it pending for good; and the replay of an older
    status may come after a newer one was shown. *)
Theorem startup_may_lose_a_status s s0 current newer : current <> "" ->
  (exists r, foreach [Loads current; Stores; Takes; Replays s0; Acts s] exec_race NewRace = (r, Ret tt) /\
     r.(ra_pc) = RDone /\ sees r.(ra_display) = (Some iconConnectedIdle, "Synergia Worker") /\
     r.(ra_display).(di_pending) = current) /\
  (exists r, foreach [Loads current; Acts s; Stores; Takes; Loads newer; Acts s; Replays s0] exec_race NewRace = (r, Ret tt) /\
     r.(ra_pc) = RDone /\ sees r.(ra_display) = seen_as (shown_for s0 current)).
Proof.
  intros Hc. destruct current as [|c cs]; [done|]. split; [by eexists|].
  cbv -[shown_for seen_as]. by eexists.
Qed.

(** ** What the menu offers *)

Section clicks.
Context `{ClientSocket}.
Variables dashURL adminURL : string.

(** Pause and resume in turn, each served before the next click. *)
Fixpoint toggles (paused : bool) (n : nat) : list desk_event :=
  match n with
  | O => []
  | S n => (if paused then [Click ItemResume; TakeResume] else [Click ItemPause; TakePause]) ++ toggles (negb paused) n
  end.
Definition settled (paused : bool) (d : Desk) : Prop :=
  d.(dk_menu).(mn_resume) = paused /\ d.(dk_menu).(mn_pauseCh) = 0%nat /\ d.(dk_menu).(mn_resumeCh) = 0%nat /\
  d.(dk_worker).(wk_state).(s_paused) = paused.
Definition desk_run (es : list desk_event) : GoM Desk unit := foreach es (exec_desk dashURL adminURL).

Lemma pause_paused w : exists w', pause w = (w', Ret tt) /\ w'.(wk_state).(s_paused) = true.
Proof. unfold pause, SendStatus, Send, on_snapshot, mbind, GoM_bind, modify, gets. cbn. repeat case_match; simplify_eq; by eexists. Qed.
Lemma resume_resumed w : exists w', resume w = (w', Ret tt) /\ w'.(wk_state).(s_paused) = false.
Proof. unfold resume, SendStatus, Send, on_snapshot, mbind, GoM_bind, modify, gets. cbn. repeat case_match; simplify_eq; by eexists. Qed.

Lemma toggle_settled paused d : settled paused d ->
  exists d', desk_run (toggles paused 1) d = (d', Ret tt) /\ settled (negb paused) d'.
Proof.
  intros (Hm & Hp & Hr & Hs). destruct d as [[] w st]. cbn in *. subst.
  destruct (s_paused (wk_state w)) eqn:Ew; cbn [toggles negb app].
  - destruct (resume_resumed w) as (w' & E & Hw). lazy -[resume settled]. rewrite E. eexists. split; [reflexivity|by split].
  - destruct (pause_paused w) as (w' & E & Hw). lazy -[pause settled]. rewrite E. eexists. split; [reflexivity|by split].
Qed.

(** The menu and the worker agree. As long as each click is served before the
    next, the menu offers Resume exactly when the worker is paused, and every
    click turns the worker over. *)
Theorem menu_agrees_with_the_worker n : forall paused d, settled paused d ->
  exists d', desk_run (toggles paused n) d = (d', Ret tt) /\ settled (if Nat.even n then paused else negb paused) d'.
Proof.
  induction n as [|n IH]; intros paused d Hd; [by exists d|].
  destruct (toggle_settled paused d Hd) as (d1 & E1 & Hd1). destruct (IH _ _ Hd1) as (d' & E & Hd').
  exists d'. split.
  - unfold desk_run in *. cbn [toggles] in *. rewrite app_nil_r in E1. by rewrite (foreach_app_Ret _ _ _ _ _ E1).
  - rewrite Nat.even_succ, <- Nat.negb_even. destruct (Nat.even n), paused; done.
Qed.

(** Two quick clicks may leave the worker paused behind a menu that offers to
    pause it: the clicks wait in two channels, and the select of main may take
    the second one first. *)
Theorem quick_clicks_may_cross d : settled false d ->
  exists d', desk_run [Click ItemPause; Click ItemResume; TakeResume; TakePause] d = (d', Ret tt) /\
    d'.(dk_menu).(mn_resume) = false /\ d'.(dk_worker).(wk_state).(s_paused) = true /\
    result (desk_run [Click ItemResume]) d' = Blocked.
Proof.
  intros (Hm & Hp & Hr & Hs). destruct d as [[] w st]. cbn in *. subst.
  destruct (resume_resumed w) as (w1 & E1 & _). destruct (pause_paused w1) as (w2 & E2 & H2).
  lazy -[pause resume s_paused]. rewrite E1, E2. eexists. split; [reflexivity|]. by split_and!.
Qed.
End clicks.

Section witnesses.
#[local] Existing Instance AllSent.
Definition snap_ex : Snapshot := NewState 0 "fp" "m" "q".

Lemma tray_shows_the_latest_status_witness :
  exists d, (updates [(snap_ex, "disconnected"); (snap_ex, "ready")] ;; onReady snap_ex ;; updates [(snap_ex, "paused")]) NewDisplay =
    (d, Ret tt) /\ sees d = (Some iconPaused, "Synergia Worker — Paused").
Proof.
  apply (tray_shows_the_latest_status [(snap_ex, "disconnected"); (snap_ex, "ready")] [(snap_ex, "paused")] snap_ex).
  apply list.Forall_forall. repeat constructor; discriminate.
Defined.

Lemma startup_may_lose_a_status_witness :
  exists r, foreach [Loads "paused"; Stores; Takes; Replays snap_ex; Acts snap_ex] exec_race NewRace = (r, Ret tt) /\
    r.(ra_pc) = RDone /\ sees r.(ra_display) = (Some iconConnectedIdle, "Synergia Worker") /\
    r.(ra_display).(di_pending) = "paused".
Proof. apply (startup_may_lose_a_status snap_ex snap_ex "paused" "ready"). discriminate. Defined.

Definition desk_ex : Desk := {| dk_menu := NewMenu; dk_worker := worker_ex; dk_stopped := false |}.

Lemma menu_agrees_with_the_worker_witness :
  exists d', desk_run "dash" "" (toggles false 3) desk_ex = (d', Ret tt) /\ d'.(dk_menu).(mn_resume) = true /\
    d'.(dk_worker).(wk_state).(s_paused) = true.
Proof.
  destruct (menu_agrees_with_the_worker "dash" "" 3 false desk_ex) as (d' & E & H1 & _ & _ & H2); [by split_and!|].
  exists d'. split; [exact E|]. split; [exact H1|exact H2].
Defined.

Lemma quick_clicks_may_cross_witness :
  exists d', desk_run "dash" "" [Click ItemPause; Click ItemResume; TakeResume; TakePause] desk_ex = (d', Ret tt) /\
    d'.(dk_menu).(mn_resume) = false /\ d'.(dk_worker).(wk_state).(s_paused) = true /\
    result (desk_run "dash" "" [Click ItemResume]) d' = Blocked.
Proof. apply quick_clicks_may_cross. by split_and!. Defined.
End witnesses.
